(* ===== verification/_CoqProject ===== *)
-Q . S2P
Prelude.v
Bytes.v
Links.v
Vsprintf.v
Mktime.v
Memory.v
MemoryFacts.v
PageRefs.v
Paging.v
PageTables.v
CopyTables.v
MemoryProps.v
Task.v
Sched.v
WaitQueue.v
Timers.v
Clock.v
SchedProps.v
Segments.v
UserMem.v
Strings.v
StringProps.v
Syscalls.v
Signal.v
Process.v
ProcessProps.v
Console.v
ConsoleProps.v
Ctype.v
TtyQueue.v
Tty.v
TtyProps.v
Printk.v
TtyIoctl.v
Ports.v
BlkQueue.v
BlkProps.v
Hd.v
HdProps.v
Traps.v
Floppy.v
FloppyProps.v
Stubs.v
FsState.v
Ramdisk.v
RdProps.v
Buffer.v
BufferProps.v
Cache.v
RdCache.v
FsInst.v
Super.v
Inode.v
Bitmap.v
Truncate.v
Namei.v
DiskProps.v
Dirs.v
FileIO.v
PipeProps.v
Open.v
Exec.v
ExecProps.v
ExecLoad.v
PageFault.v
Malloc.v
MallocProps.v
MallocOps.v
MallocNew.v
MallocSpec.v
MallocFree.v
FdProps.v
Mount.v
HdSetup.v
Boot.v
BootProps.v
FileProps.v
BlockDevProps.v
FileWrite.v
BlockAlloc.v
