(* ===== verification/Prelude.v ===== *)
(** * Linux 0.11: a verification development

    The C code of the kernel under src/, translated function by function into executable
    Rocq definitions, with theorems about them.  This file is the root: this header describes
    the development; the code below it is the prelude (C integers, the monad, loops, lists as
    arrays) that every other file uses.

    ** The program and its parts

    The kernel is one image; its parts call each other directly and share tables:

    - processes: the task table ([sched.h]), the scheduler, the wait queues and the timers of
      kernel/sched.c, [fork], [exit], [wait], [kill] and signals of kernel/fork.c, exit.c,
      signal.c and sys.c;
    - memory: the page map, page tables and copy on write of mm/memory.c;
    - the terminal: queues, line discipline, console and ioctls of kernel/chr_drv/;
    - the kernel's own allocator, lib/malloc.c, over those pages;
    - block devices: the request queue and elevator of kernel/blk_drv/ll_rw_blk.c, the ram disk,
      the hard disk and the floppy;
    - the file system: buffer cache, inodes, bitmaps, directories, files, pipes of fs/;
    - the start in init/main.c, which calls each part's initialization, the traps and their gates,
      and the system-call stubs through which programs call the kernel.

    ** How the code is modelled

    A component's state is a [Record] of the variables the code keeps; an operation is a
    function of the same name into [M S A], the state monad over an [outcome] (below), with the
    code's guards, early returns and error numbers.  [Panic] is the kernel's panic, [Undef] is
    what C leaves undefined (an index outside an array, a null pointer), [Exited] a call
    that ends the task in [do_exit] and does not return.  Integers are [Z], kept in the range of their C type by the
    conversions [u8], [u16], [u32], [s8], [s16], [s32]; pointers into a table are indices; memory
    that is reached byte by byte is a finite map.  A component that works on a part of a larger
    state is lifted with [zoom].

    Loops over a known range are [for_up] and [for_down]; other loops take fuel, and [NoFuel] is
    their result when it is too little.  The theorems that speak of a run say how much is enough
    (the number of buffers for the searches of the cache, the byte count plus one for the
    transfers, the length of the list for the queues): their conclusion is [Done], so that
    termination is part of them.  [Inode] bounds the nesting of [sync_inodes] within [bread]
    within [write_inode] by [depth].

    What other tasks and interrupts do while a task sleeps is not computed: [sleep_on] and
    [wake_up] are operations of the classes [Waiting] and [Machine], and theorems about runs in
    which nobody has to sleep use no property of [sleep_on].  The wait queues themselves, and
    their interleavings, are in [WaitQueue].

    ** The files

    Shared: [Prelude] (this file), [Bytes] (words and structures as bytes), [Links] (circular and
    null-terminated linked lists over pointer functions, used for the buffer cache).

    Library code: [Vsprintf] (kernel/vsprintf.c), [Mktime] (kernel/mktime.c and time_init of
    init/main.c), [Ctype] (lib/ctype.c), [Strings] and [StringProps] (include/string.h).

    Memory (mm/memory.c): [Memory] has the definitions; [MemoryFacts], [PageRefs], [Paging],
    [PageTables], [CopyTables], [MemoryProps] prove that the counter of each page is the
    number of page-table entries that map it and that mapping, copying at [fork], copy on write
    and freeing keep it and do what they should.  [Malloc] (lib/malloc.c), with [MallocProps] (the
    heap as buckets and objects, its invariant), [MallocOps], [MallocNew] (an object taken, a new
    bucket), [MallocSpec] and [MallocFree].

    Processes: [Task], [Segments], [UserMem] (the task structure, descriptors, asm/segment.h);
    [Sched] and [SchedProps] (schedule and its relatives), [WaitQueue], [Timers], [Clock]
    (kernel/sched.c); [Syscalls] (kernel/sys.c), [Signal] (kernel/signal.c), [Process],
    [ProcessProps] (kernel/fork.c, exit.c, over the interface [FileOps] of the
    file layer).

    Terminal: [TtyQueue] (include/linux/tty.h), [Tty], [TtyProps] (tty_io.c, serial.c), [TtyIoctl]
    (tty_ioctl.c), [Console], [ConsoleProps] (console.c), [Printk] (printk.c and the register
    dumps of traps.c).

    Block devices: [BlkQueue], [BlkProps] (ll_rw_blk.c, blk.h); [Ramdisk], [RdProps] (ramdisk.c);
    [Ports] (asm/io.h), [Hd], [HdProps] and [HdSetup] (hd.c, over a controller that
    answers at its ports); [Floppy], [FloppyProps] (floppy.c, likewise).

    File system: [FsState] (fs.h: the tables, the class [Machine]); [Buffer] (buffer.c),
    with [BufferProps] (the invariant of its lists), [Cache] ([getblk], [buffer_init]) and
    [RdCache] ([bread] over the ram disk); [Super] and [Mount] (super.c), [Inode] and
    [Truncate] (inode.c, truncate.c), [Bitmap] (bitmap.c), [Namei] and [Dirs] (namei.c), [FileIO]
    (file_dev.c, block_dev.c, pipe.c, char_dev.c, read_write.c), [Open] (open.c, fcntl.c,
    stat.c, ioctl.c); [DiskProps] (bitmaps, disk inodes, names), [PipeProps], [BlockDevProps],
    [FdProps] (descriptors); [Exec], [ExecProps], [ExecLoad] (exec.c: the argument pages,
    the new image, the start-up stack); [PageFault] (do_no_page and share_page of memory.c,
    which read the executable); [FileProps], [FileWrite] and [BlockAlloc] ([bmap], [file_read],
    [file_write], [new_block], [free_block], [write_inode] and [read_inode] over the cache and the ram
    disk); [FsInst] is a small concrete kernel for examples.

    Start and entry: [Traps] (traps.c, the gates of asm/system.h, [sched_init], math_emulate.c),
    [Stubs] (sys.h, unistd.h and the stubs of lib/), [Boot], [BootProps] (init/main.c,
    over all of the above).

    ** What the theorems show

    - [main] runs through all initializations: it leaves exactly the pages above the buffers and
      the ram disk free, a well-formed cache of unused buffers, no requests, the drivers
      registered, and the time of the clock ([BootProps.boot_ok]); every interrupt then leads to its handler, and programs
      can call only four of the gates ([BootProps.gates_after_start]).

    - The cache is a well-formed ring and a set of hash queues after [buffer_init], [getblk]
      keeps it so and reuses buffers in order, and [bread] over the ram disk returns a
      block's current contents and changes none ([RdCache.bread_transparent], the
      composition of buffer.c, ll_rw_blk.c and ramdisk.c).
    - [file_read] gives the bytes of the file, through direct, indirect and double indirect
      blocks and holes ([FileProps.file_read_bytes]); [file_write] into existing blocks puts the
      user's bytes in their place and nothing else ([FileWrite.file_write_bytes]), and they are
      read back ([FileWrite.write_read_back]).  [new_block] gives out the lowest free block,
      cleared, and sets its bit and no other ([BlockAlloc.new_block_lowest]); [free_block] undoes
      this ([BlockAlloc.new_free_block]).
    - The request queue is kept in elevator order; the hard disk driver carries out a read
      request in one command and an interrupt per sector, the floppy driver in a seek and a
      transfer, on any controller that keeps to its documentation, and both go on with the
      request behind it ([HdProps.hd_read_done], [FloppyProps.fd_read_done]); a pipe is a queue;
      [match] is equality of names; [find_first_zero] finds the lowest zero; what [write_inode]
      puts on the disk [read_inode] gets back, and no other record changes
      ([BlockAlloc.InodeDisk.disk_inode_roundtrip]); [dup] answers the lowest descriptor and keeps
      the reference counts; a block written to a block device and not yet in the cache is lost to
      the next reader ([BlockDevProps.block_write_lost]).
    - [exec] gives the new program the strings its caller named, in null-terminated vectors on
      the new stack ([ExecLoad.exec_passes_arguments], the composition of exec.c and memory.c).
    - [memmove] copies overlapping areas, [strstr] finds the first occurrence.
    - [fork] copies the task and shares its pages; a write to a shared page copies it;
      unmapping frees exactly what was mapped; [exit] and [waitpid] reap children.
    - [malloc] hands out memory that nobody has, [free_s] takes it back and gives the page back
      when it is the last of its page ([MallocSpec.malloc_fresh], [MallocFree.free_s_releases]).
    - [schedule] chooses a runnable task with the largest counter, terminates, and idles only if
      there is none; sleepers are not lost, and [wake_up] wakes all of them when those it wakes get
      to run ([WaitQueue.wake_up_wakes_all]); timers fire on the tick they were set for.  A signal's
      handler finds the interrupted program's registers and its blocked mask on its stack
      ([Signal.do_signal_frame]).
    - The line discipline is the editing of a line; the console keeps its cursor inside the
      window for every character, and shows the text written to it ([TtyProps.con_write_shows]).
    - Several theorems show what the code does against its intent; they are listed as
      findings with the development.

    ** Not modelled

    Assembly (boot/, system_call.s, asm.s, page.s, keyboard.S, rs_io.s) and inline assembly
    that sets up hardware (loading the processor's table registers, the switch to user mode);
    [show_stat] (printing only); the [sync] that [panic] does before it stops.  The floppy's request function is an operation of
    [Machine] for the file system, [Floppy] being polymorphic in its state.  Page-table words ([Memory], by word) and
    the bytes of pipes, the ram disk and pages loaded from files ([kmem], by byte) are separate maps, which is right as
    long as no page is used for both at once.  [memset] of an inode also clears its wait
    queue, which the model does not keep. *)

From stdpp Require Export base list numbers gmap strings.
From Stdlib Require Export ZArith Lia.

#[export] Set Default Goal Selector "!".

Declare Scope kernel_scope.
Delimit Scope kernel_scope with kernel.
Global Open Scope Z_scope.

(** ** Machine integers

    C integers are [Z]; a value of a [w]-bit unsigned type is kept in
    [0 .. 2^w - 1], one of a signed type in its two's complement range, and the
    functions below are the conversions the compiled code performs. *)

Definition u8 (x : Z) : Z := x mod 2 ^ 8.
Definition u16 (x : Z) : Z := x mod 2 ^ 16.
Definition u32 (x : Z) : Z := x mod 2 ^ 32.
Definition s8 (x : Z) : Z := (x + 2 ^ 7) mod 2 ^ 8 - 2 ^ 7.
Definition s16 (x : Z) : Z := (x + 2 ^ 15) mod 2 ^ 16 - 2 ^ 15.
Definition s32 (x : Z) : Z := (x + 2 ^ 31) mod 2 ^ 32 - 2 ^ 31.

(** Bitwise complement of a 32-bit unsigned word. *)
Definition not32 (x : Z) : Z := Z.lxor (u32 x) (2 ^ 32 - 1).

(** C truth values. *)
Definition c_bool (b : bool) : Z := if b then 1 else 0.

(** The test [v & (1<<k)]. *)
Lemma bit_set_testbit v k : 0 <= k -> bool_decide (Z.land v (2 ^ k) <> 0) = Z.testbit v k.
Proof.
  intros Hk.
  assert (E : Z.land v (2 ^ k) = if Z.testbit v k then 2 ^ k else 0).
  { apply Z.bits_inj'. intros n Hn. rewrite Z.land_spec, (Z.pow2_bits_eqb k n) by lia.
    destruct (Z.eqb_spec k n) as [->|Hne].
    - rewrite andb_true_r. destruct (Z.testbit v n) eqn:E; [by rewrite Z.pow2_bits_true|by rewrite Z.bits_0].
    - rewrite andb_false_r. destruct (Z.testbit v k); [by rewrite Z.pow2_bits_false|by rewrite Z.bits_0]. }
  rewrite E. destruct (Z.testbit v k).
  - pose proof (Z.pow_pos_nonneg 2 k). apply bool_decide_eq_true. lia.
  - apply bool_decide_eq_false. lia.
Qed.

Lemma u8_range x : 0 <= u8 x < 2 ^ 8.
Proof. unfold u8. apply Z.mod_pos_bound. lia. Qed.
Lemma u16_range x : 0 <= u16 x < 2 ^ 16.
Proof. unfold u16. apply Z.mod_pos_bound. lia. Qed.
Lemma u32_range x : 0 <= u32 x < 2 ^ 32.
Proof. unfold u32. apply Z.mod_pos_bound. lia. Qed.
Lemma s32_range x : - 2 ^ 31 <= s32 x < 2 ^ 31.
Proof. unfold s32. pose proof (Z.mod_pos_bound (x + 2 ^ 31) (2 ^ 32)). lia. Qed.

Lemma u8_small x : 0 <= x < 2 ^ 8 -> u8 x = x.
Proof. intros. unfold u8. apply Z.mod_small. lia. Qed.
Lemma u16_small x : 0 <= x < 2 ^ 16 -> u16 x = x.
Proof. intros. unfold u16. apply Z.mod_small. lia. Qed.
Lemma u32_small x : 0 <= x < 2 ^ 32 -> u32 x = x.
Proof. intros. unfold u32. apply Z.mod_small. lia. Qed.
Lemma s32_small x : - 2 ^ 31 <= x < 2 ^ 31 -> s32 x = x.
Proof. intros. unfold s32. rewrite Z.mod_small; lia. Qed.

Create HintDb cint.
#[export] Hint Resolve u8_range u16_range u32_range s32_range : cint.
Create Rewrite HintDb cint.
#[export] Hint Rewrite u8_small u16_small u32_small s32_small using lia : cint.

(** ** Outcomes of kernel code

    A kernel function either returns ([Done]), stops the machine in [panic]
    ([Panic], with the source's message), ends the calling task through
    [do_exit] and never returns to its caller ([Exited]), or reaches a point
    the C language leaves undefined, an access outside an array or through a
    null pointer ([Undef]).  [NoFuel] is the result of a loop whose step bound
    was too small: theorems show where it cannot occur. *)

Inductive outcome (S A : Type) : Type :=
| Done (a : A) (s : S)
| Panic (msg : string) (s : S)
| Exited (code : Z) (s : S)
| Undef (what : string) (s : S)
| NoFuel.
Arguments Done {S A} a s.
Arguments Panic {S A} msg s.
Arguments Exited {S A} code s.
Arguments Undef {S A} what s.
Arguments NoFuel {S A}.

(** Kernel code over a state [S] returning an [A]. *)
Definition M (S A : Type) : Type := S -> outcome S A.

#[global] Instance M_ret {S} : MRet (M S) := fun A x s => Done x s.
#[global] Instance M_bind {S} : MBind (M S) := fun A B f m s =>
  match m s with
  | Done x s' => f x s'
  | Panic e s' => Panic e s'
  | Exited c s' => Exited c s'
  | Undef e s' => Undef e s'
  | NoFuel => NoFuel
  end.

Definition gets {S A} (f : S -> A) : M S A := fun s => Done (f s) s.
Definition modify {S} (f : S -> S) : M S unit := fun s => Done tt (f s).
Definition panic {S A} (msg : string) : M S A := fun s => Panic msg s.
Definition undef {S A} (what : string) : M S A := fun s => Undef what s.
Definition exited {S A} (code : Z) : M S A := fun s => Exited code s.
Definition skip {S} : M S unit := mret tt.
Definition nofuel {S A} : M S A := fun _ => NoFuel.

(** [x <- e] of an option, undefined behaviour when it is [None] (an index out
    of range, a null pointer). *)
Definition deref {S A} (what : string) (o : option A) : M S A :=
  match o with Some x => mret x | None => undef what end.

(** Run an operation of a component on its part of a larger state. *)
Definition zoom {S T A} (get : S -> T) (put : T -> S -> S) (m : M T A) : M S A :=
  fun s =>
    match m (get s) with
    | Done x t => Done x (put t s)
    | Panic e t => Panic e (put t s)
    | Exited c t => Exited c (put t s)
    | Undef e t => Undef e (put t s)
    | NoFuel => NoFuel
    end.

(** Total correctness: [o] returns with [Q], or ends the task with [X]; it does
    not panic, reach undefined behaviour or run out of fuel. *)
Definition ends {S A} (o : outcome S A) (Q : A -> S -> Prop) (X : Z -> S -> Prop) : Prop :=
  match o with
  | Done a s => Q a s
  | Exited c s => X c s
  | Panic _ _ | Undef _ _ | NoFuel => False
  end.

Lemma ends_bind {S A B} (m : M S A) (k : A -> M S B) s Q X :
  ends (m s) (fun a t => ends (k a t) Q X) X -> ends ((m ≫= k) s) Q X.
Proof. unfold mbind, M_bind. by destruct (m s). Qed.

(** Running the first step of a sequence. *)
Lemma gets_bind {S A B} (f : S -> A) (k : A -> M S B) s : (gets f ≫= k) s = k (f s) s.
Proof. done. Qed.
Lemma modify_bind {S B} (f : S -> S) (k : unit -> M S B) s : (modify f ≫= k) s = k tt (f s).
Proof. done. Qed.
Lemma ret_bind {S A B} (x : A) (k : A -> M S B) s : (mret x ≫= k) s = k x s.
Proof. done. Qed.
Lemma deref_bind {S A B} w (x : A) (k : A -> M S B) s : (deref w (Some x) ≫= k) s = k x s.
Proof. done. Qed.
Lemma done_bind {S A B} (m : M S A) (k : A -> M S B) s x s' :
  m s = Done x s' -> (m ≫= k) s = k x s'.
Proof. unfold mbind, M_bind. by intros ->. Qed.

Lemma ends_ret {S A} (a : A) (s : S) (Q : A -> S -> Prop) X :
  Q a s -> ends (mret (M := M S) a s) Q X.
Proof. done. Qed.

Lemma ends_gets {S A} (f : S -> A) (s : S) (Q : A -> S -> Prop) X :
  Q (f s) s -> ends (gets f s) Q X.
Proof. done. Qed.

Lemma ends_modify {S} (f : S -> S) (s : S) (Q : unit -> S -> Prop) X :
  Q tt (f s) -> ends (modify f s) Q X.
Proof. done. Qed.

Lemma ends_mono {S A} (o : outcome S A) (Q Q' : A -> S -> Prop) (X X' : Z -> S -> Prop) :
  ends o Q X -> (forall a s, Q a s -> Q' a s) -> (forall c s, X c s -> X' c s) ->
  ends o Q' X'.
Proof. destruct o; simpl; intros; auto. Qed.

(** [for (i = from; i < from + n; i++) body]. *)
Fixpoint for_up {S} (n : nat) (from : Z) (body : Z -> M S unit) : M S unit :=
  match n with
  | O => mret tt
  | Datatypes.S n' => body from;; for_up n' (from + 1) body
  end.

(** [for (i = n; i-- > 0; ) body]: the indices [n-1, ..., 0]. *)
Fixpoint for_down {S} (n : nat) (body : Z -> M S unit) : M S unit :=
  match n with
  | O => mret tt
  | Datatypes.S n' => body (Z.of_nat n');; for_down n' body
  end.

#[global] Arguments for_up : simpl never.
#[global] Arguments for_down : simpl never.

Lemma for_up_inv {S} (I : Z -> S -> Prop) n from (body : Z -> M S unit) s :
  I from s ->
  (forall j t, from <= j < from + Z.of_nat n -> I j t ->
    exists t', body j t = Done tt t' /\ I (j + 1) t') ->
  exists s', for_up n from body s = Done tt s' /\ I (from + Z.of_nat n) s'.
Proof.
  revert from s. induction n as [|n IH]; intros from s HI Hb.
  - exists s. split; [done|]. by replace (from + Z.of_nat 0) with from by lia.
  - destruct (Hb from s) as (t' & Ht & HI'); [lia|done|].
    destruct (IH (from + 1) t') as (s' & Hs & HI''); [done| |].
    { intros j t Hj. apply Hb. lia. }
    exists s'. split.
    + unfold for_up; fold @for_up. unfold mbind, M_bind. by rewrite Ht.
    + by replace (from + Z.of_nat (Datatypes.S n))
        with (from + 1 + Z.of_nat n) by lia.
Qed.

Lemma for_down_inv {S} (I : nat -> S -> Prop) n (body : Z -> M S unit) s :
  I n s ->
  (forall j t, (j < n)%nat -> I (Datatypes.S j) t ->
    exists t', body (Z.of_nat j) t = Done tt t' /\ I j t') ->
  exists s', for_down n body s = Done tt s' /\ I O s'.
Proof.
  revert s. induction n as [|n IH]; intros s HI Hb.
  - by exists s.
  - destruct (Hb n s) as (t' & Ht & HI'); [lia|done|].
    destruct (IH t') as (s' & Hs & HI''); [done| |].
    { intros j t Hj. apply Hb. lia. }
    exists s'. split; [|done].
    unfold for_down; fold @for_down. unfold mbind, M_bind. by rewrite Ht.
Qed.

(** ** Tactics *)

(** Unfold the monad and compute. *)
Ltac run_m :=
  unfold mret, M_ret, gets, modify, panic, undef, exited, skip, deref in *;
  unfold mbind, M_bind in *; simpl in *.

(** Case analysis on the conditions of the goal, closing absurd cases. *)
Ltac cases :=
  repeat (case_decide || case_match); simplify_eq/=; try done; try lia.

(** ** Lists as C arrays: indices are [Z] *)

Definition zget {A} (l : list A) (i : Z) : option A :=
  if decide (0 <= i) then l !! Z.to_nat i else None.
Definition zset {A} (l : list A) (i : Z) (x : A) : list A :=
  if decide (0 <= i) then <[Z.to_nat i := x]> l else l.
Definition zlen {A} (l : list A) : Z := Z.of_nat (length l).

Lemma zlen_nonneg {A} (l : list A) : 0 <= zlen l.
Proof. unfold zlen. lia. Qed.

Lemma zlen_nil_inv {A} (l : list A) : zlen l <= 0 -> l = [].
Proof. unfold zlen. intros. apply nil_length_inv. lia. Qed.

Lemma zlen_app {A} (l l' : list A) : zlen (l ++ l') = zlen l + zlen l'.
Proof. unfold zlen. rewrite length_app. lia. Qed.

Lemma zlen_replicate {A} n (x : A) : zlen (replicate (Z.to_nat n) x) = Z.max n 0.
Proof. unfold zlen. rewrite length_replicate. lia. Qed.

Section zlist.
Context {A : Type}.
Implicit Types (l : list A) (i j : Z) (x : A).

Lemma zlen_zset l i x : zlen (zset l i x) = zlen l.
Proof. unfold zlen, zset. case_decide; [|done]. by rewrite length_insert. Qed.

Lemma length_zset l i x : length (zset l i x) = length l.
Proof. unfold zset. case_decide; [|done]. by rewrite length_insert. Qed.

Lemma zget_zset_eq l i x : 0 <= i < zlen l -> zget (zset l i x) i = Some x.
Proof.
  unfold zget, zset, zlen. intros. rewrite !decide_True by lia.
  apply list_lookup_insert_eq. lia.
Qed.

Lemma zget_zset_ne l i j x : i <> j -> zget (zset l i x) j = zget l j.
Proof.
  unfold zget, zset. intros Hne. case_decide; [|done]. case_decide; [|done].
  apply list_lookup_insert_ne. lia.
Qed.

Lemma zget_zset l i j x :
  0 <= i < zlen l ->
  zget (zset l i x) j = if decide (i = j) then Some x else zget l j.
Proof.
  intros. case_decide; subst; [by apply zget_zset_eq|by apply zget_zset_ne].
Qed.

Lemma zget_Some_range l i x : zget l i = Some x -> 0 <= i < zlen l.
Proof.
  unfold zget, zlen. case_decide; [|done]. intros ?%lookup_lt_Some. lia.
Qed.

Lemma zget_is_Some l i : 0 <= i < zlen l -> exists x, zget l i = Some x.
Proof.
  unfold zget, zlen. intros. rewrite decide_True by lia.
  apply lookup_lt_is_Some. lia.
Qed.

Lemma zget_None l i : zget l i = None <-> ~ (0 <= i < zlen l).
Proof.
  split.
  - intros H Hr. destruct (zget_is_Some _ _ Hr) as [x Hx]. congruence.
  - destruct (zget l i) eqn:E; [|done]. intros []. by eapply zget_Some_range.
Qed.

Lemma zget_nil i x : ~ zget ([] : list A) i = Some x.
Proof. intros E. apply zget_Some_range in E. unfold zlen in E. cbn in E. lia. Qed.

Lemma zget_cons x l i :
  zget (x :: l) i = if decide (i = 0) then Some x else zget l (i - 1).
Proof.
  unfold zget. destruct (decide (i = 0)) as [->|Hi]; [done|].
  destruct (decide (0 <= i)); [|by rewrite decide_False by lia]. rewrite decide_True by lia.
  replace (Z.to_nat i) with (Datatypes.S (Z.to_nat (i - 1))) by lia. done.
Qed.

Lemma zget_of_nat l (n : nat) : zget l (Z.of_nat n) = l !! n.
Proof. unfold zget. rewrite decide_True by lia. by rewrite Nat2Z.id. Qed.

Lemma zset_of_nat l (n : nat) x : zset l (Z.of_nat n) x = <[n := x]> l.
Proof. unfold zset. rewrite decide_True by lia. by rewrite Nat2Z.id. Qed.

Lemma zset_id l i x : zget l i = Some x -> zset l i x = l.
Proof.
  unfold zget, zset. case_decide; [|done]. intros. by apply list_insert_id.
Qed.

Lemma zset_zset l i x y : zset (zset l i x) i y = zset l i y.
Proof. unfold zset. case_decide; [|done]. apply list_insert_insert_eq. Qed.

Lemma zget_app l l' i :
  0 <= i -> zget (l ++ l') i = if decide (i < zlen l) then zget l i else zget l' (i - zlen l).
Proof.
  unfold zget, zlen. intros Hi. rewrite !(decide_True (P := 0 <= i)) by done. case_decide.
  - apply lookup_app_l. lia.
  - rewrite decide_True by lia. rewrite lookup_app_r by lia. f_equal. lia.
Qed.

Lemma zlist_eq l l' :
  zlen l = zlen l' ->
  (forall i, 0 <= i < zlen l -> zget l i = zget l' i) -> l = l'.
Proof.
  unfold zlen. intros Hlen H. apply list_eq. intros i.
  destruct (decide (i < length l)%nat).
  - specialize (H (Z.of_nat i)). rewrite !zget_of_nat in H. apply H. lia.
  - rewrite !lookup_ge_None_2; [done|lia|lia].
Qed.
End zlist.

Create Rewrite HintDb zlist.
#[export] Hint Rewrite @zlen_zset @length_zset @zset_zset : zlist.
