(* ===== verification/Bytes.v ===== *)
(** * Bytes of C objects

    Little-endian words, structures laid out as byte lists, and copying into a
    part of a byte array. *)

From S2P Require Import Prelude.

(** Little-endian bytes of a 32-bit word, and back. *)
Definition bytes4 (v : Z) : list Z := [u8 v; u8 (v / 2 ^ 8); u8 (v / 2 ^ 16); u8 (v / 2 ^ 24)].
Definition word4 (l : list Z) : Z :=
  match l with
  | [a; b; c; d] => a + 2 ^ 8 * b + 2 ^ 16 * c + 2 ^ 24 * d
  | _ => 0
  end.
Definition bytes2 (v : Z) : list Z := [u8 v; u8 (v / 2 ^ 8)].
Definition word2 (l : list Z) : Z := match l with [a; b] => a + 2 ^ 8 * b | _ => 0 end.

(** The [n] bytes at offset [o]. *)
Definition field (o n : nat) (l : list Z) : list Z := take n (drop o l).

(** [memcpy(data + o, l, length l)]. *)
Definition splice (o : nat) (l data : list Z) : list Z :=
  take o data ++ l ++ drop (o + length l) data.

(** Element [i] of an array of 16-bit words, and its update. *)
Definition word_at (i : nat) (data : list Z) : Z := word2 (field (2 * i) 2 data).
Definition set_word_at (i : nat) (v : Z) (data : list Z) : list Z := splice (2 * i) (bytes2 v) data.

Lemma bytes4_word4 a b c d :
  Forall (fun x => 0 <= x < 256) [a; b; c; d] -> bytes4 (word4 [a; b; c; d]) = [a; b; c; d].
Proof.
  rewrite !Forall_cons. intros (Ha & Hb & Hc & Hd & _). unfold bytes4, word4, u8.
  change (2 ^ 8) with 256. change (2 ^ 16) with 65536. change (2 ^ 24) with 16777216.
  set (w := a + 256 * b + 65536 * c + 16777216 * d).
  assert (Hw : w = a + 256 * b + 65536 * c + 16777216 * d) by reflexivity. clearbody w.
  assert (w mod 256 = a) as -> by (Z.to_euclidean_division_equations; lia).
  assert ((w / 256) mod 256 = b) as -> by (Z.to_euclidean_division_equations; lia).
  assert ((w / 65536) mod 256 = c) as -> by (Z.to_euclidean_division_equations; lia).
  by assert ((w / 16777216) mod 256 = d) as -> by (Z.to_euclidean_division_equations; lia).
Qed.

Lemma map_u8_id l : Forall (fun x => 0 <= x < 256) l -> map u8 l = l.
Proof.
  induction 1 as [|x l Hx _ IH]; [done|]. cbn. rewrite IH. by rewrite u8_small by (change (2 ^ 8) with 256; lia).
Qed.

Lemma word2_bytes2 v : word2 (bytes2 v) = u16 v.
Proof.
  unfold bytes2, word2, u8, u16. change (2 ^ 8) with 256. change (2 ^ 16) with 65536.
  Z.to_euclidean_division_equations. lia.
Qed.

Lemma word4_bytes4 v : word4 (bytes4 v) = u32 v.
Proof.
  unfold bytes4, word4, u8, u32. change (2 ^ 8) with 256. change (2 ^ 16) with 65536.
  change (2 ^ 24) with 16777216. change (2 ^ 32) with 4294967296.
  Z.to_euclidean_division_equations. lia.
Qed.

Lemma length_splice o l data :
  (o + length l <= length data)%nat -> length (splice o l data) = length data.
Proof. intros H. unfold splice. rewrite !length_app, length_take, length_drop. lia. Qed.

Lemma field_splice o l data :
  (o + length l <= length data)%nat -> field o (length l) (splice o l data) = l.
Proof.
  intros H. unfold field, splice. rewrite drop_app_length' by (rewrite length_take; lia).
  by rewrite take_app_length.
Qed.

Lemma lookup_splice o l data i :
  (o + length l <= length data)%nat ->
  splice o l data !! i =
    if decide (o <= i < o + length l)%nat then l !! (i - o)%nat else data !! i.
Proof.
  intros H. unfold splice. assert (Ht : length (take o data) = o) by (rewrite length_take; lia).
  case_decide.
  - rewrite lookup_app_r by lia. rewrite Ht, lookup_app_l by lia. done.
  - destruct (decide (i < o)%nat).
    + rewrite lookup_app_l by lia. by rewrite lookup_take_lt by lia.
    + rewrite lookup_app_r, Ht by lia. rewrite lookup_app_r by lia. rewrite lookup_drop.
      f_equal. lia.
Qed.

Lemma field_splice_ne o l data p n :
  (o + length l <= length data)%nat -> (p + n <= o \/ o + length l <= p)%nat ->
  field p n (splice o l data) = field p n data.
Proof.
  intros H Hd. unfold field. apply list_eq. intros i. destruct (decide (i < n)%nat).
  - rewrite !lookup_take_lt by lia. rewrite !lookup_drop, lookup_splice by done.
    rewrite decide_False by lia. done.
  - by rewrite !lookup_take_ge by lia.
Qed.

Lemma word_at_set_eq i v data :
  (2 * i + 2 <= length data)%nat -> word_at i (set_word_at i v data) = u16 v.
Proof.
  intros H. unfold word_at, set_word_at.
  rewrite (field_splice (2 * i) (bytes2 v)) by (cbn; lia). apply word2_bytes2.
Qed.

Lemma word_at_set_ne i j v data :
  (2 * i + 2 <= length data)%nat -> i <> j -> word_at j (set_word_at i v data) = word_at j data.
Proof.
  intros H Hn. unfold word_at, set_word_at. f_equal. apply field_splice_ne; cbn; lia.
Qed.
