(* ===== verification/Links.v ===== *)
(** * Doubly linked lists as functions

    The two shapes of the buffer cache: a circular list ([ring]) and a list with a head
    pointer ([hseg]).  The links are functions from nodes to nodes, so that an assignment
    through a pointer is an update at one point. *)

From S2P Require Import Prelude.

Definition upd (f : Z -> option Z) (k : Z) (v : option Z) : Z -> option Z :=
  fun i => if decide (i = k) then v else f i.

Lemma upd_eq f k v : upd f k v k = v.
Proof. unfold upd. by rewrite decide_True. Qed.
Lemma upd_ne f k v i : i <> k -> upd f k v i = f i.
Proof. unfold upd. intros. by rewrite decide_False. Qed.

(** ** Circular lists *)

Section ring.
Implicit Types (fn fp : Z -> option Z) (x y z : Z) (l : list Z).

(** From [x] through [l], linked both ways. *)
Fixpoint adj fn fp x l : Prop :=
  match l with
  | [] => True
  | y :: l' => fn x = Some y /\ fp y = Some x /\ adj fn fp y l'
  end.

Definition ring fn fp l : Prop :=
  match l with [] => False | x :: l' => adj fn fp x (l' ++ [x]) end.

Lemma adj_app fn fp x l1 y l2 :
  adj fn fp x (l1 ++ y :: l2) <-> adj fn fp x (l1 ++ [y]) /\ adj fn fp y l2.
Proof.
  revert x. induction l1 as [|z l1 IH]; intros x; cbn; [tauto|]. rewrite IH. tauto.
Qed.

Lemma adj_ext fn fp fn' fp' x l y :
  (forall i, i ∈ x :: l -> fn' i = fn i) -> (forall i, i ∈ l ++ [y] -> fp' i = fp i) ->
  adj fn fp x (l ++ [y]) -> adj fn' fp' x (l ++ [y]).
Proof.
  revert x. induction l as [|z l IH]; intros x Hn Hp; cbn [app adj].
  - intros (H1 & H2 & _). rewrite Hn, Hp by set_solver. done.
  - intros (H1 & H2 & H3). rewrite Hn, Hp by set_solver. split; [done|]. split; [done|].
    apply IH; [intros i Hi; apply Hn; set_solver|intros i Hi; apply Hp; set_solver|done].
Qed.

Lemma ring_rotate fn fp l1 l2 : l2 <> [] -> ring fn fp (l1 ++ l2) -> ring fn fp (l2 ++ l1).
Proof.
  intros Hl. destruct l1 as [|x l1]; [by rewrite app_nil_r|]. destruct l2 as [|y l2]; [done|].
  cbn [app ring]. rewrite <- !app_assoc. cbn [app].
  rewrite (adj_app _ _ x l1 y (l2 ++ [x])), (adj_app _ _ y l2 x (l1 ++ [y])). tauto.
Qed.

Lemma adj_ext_all fn fp fn' fp' x l :
  (forall i, i ∈ x :: l -> fn' i = fn i /\ fp' i = fp i) -> adj fn fp x l -> adj fn' fp' x l.
Proof.
  revert x. induction l as [|y l IH]; intros x He; [done|]. cbn.
  destruct (He x) as [-> _]; [set_solver|]. destruct (He y) as [_ ->]; [set_solver|].
  intros (H1 & H2 & H3). split_and!; [done..|]. apply IH; [|done]. intros i Hi. apply He. set_solver.
Qed.

Lemma ring_ext fn fp fn' fp' l :
  (forall i, i ∈ l -> fn' i = fn i /\ fp' i = fp i) -> ring fn fp l -> ring fn' fp' l.
Proof.
  destruct l as [|x l]; [done|]. intros He. apply adj_ext_all. intros i Hi. apply He. set_solver.
Qed.

(** The links between the ends. *)
Lemma ring_ends fn fp x l z : ring fn fp (x :: l ++ [z]) -> fn z = Some x /\ fp x = Some z.
Proof. cbn [ring]. rewrite <- app_assoc. cbn [app]. rewrite (adj_app _ _ x l z [x]). cbn. tauto. Qed.

Lemma ring_next fn fp l1 x y l2 : ring fn fp (l1 ++ x :: y :: l2) -> fn x = Some y /\ fp y = Some x.
Proof.
  intros H. apply ring_rotate in H; [|done]. cbn in H. tauto.
Qed.

(** Every node has both neighbours, in the ring. *)
Lemma ring_neighbours fn fp l1 x l2 :
  ring fn fp (l1 ++ x :: l2) ->
  exists p n, fp x = Some p /\ fn x = Some n /\
    (l1 ++ l2 <> [] -> p ∈ l1 ++ l2 /\ n ∈ l1 ++ l2).
Proof.
  intros H. apply ring_rotate in H; [|done].
  destruct (l2 ++ l1) as [|n l] eqn:E.
  - cbn in H. rewrite E in H. cbn in H. exists x, x. split; [tauto|]. split; [tauto|].
    intros Hn. destruct Hn. apply app_eq_nil in E as [-> ->]. done.
  - cbn [app] in H. change ((x :: l2) ++ l1) with (x :: (l2 ++ l1)) in H. rewrite E in H.
    destruct (exists_last (l := n :: l)) as (l' & p & El); [done|].
    pose proof (ring_next fn fp [] x n l H) as [Hn _]. rewrite El in H.
    apply ring_ends in H as [_ Hp]. exists p, n. split; [done|]. split; [done|].
    intros _. assert (Hin : forall k, k ∈ n :: l -> k ∈ l1 ++ l2).
    { intros k Hk. rewrite <- E in Hk. set_solver. }
    split; apply Hin; [rewrite El|]; set_solver.
Qed.

Lemma ring_remove_head fn fp x l p n :
  NoDup (x :: l) -> l <> [] -> ring fn fp (x :: l) -> fp x = Some p -> fn x = Some n ->
  ring (upd fn p (Some n)) (upd fp n (Some p)) l /\ head l = Some n /\ last l = Some p.
Proof.
  intros Hd Hl H Hp Hn. destruct l as [|n' l]; [done|].
  pose proof (ring_next fn fp [] x n' l H) as [Hn' _]. rewrite Hn in Hn'. injection Hn' as <-.
  destruct (decide (l = [])) as [->|Hne].
  - pose proof (ring_ends fn fp x [] n H) as [_ Hp']. rewrite Hp in Hp'. injection Hp' as ->.
    cbn. by rewrite !upd_eq.
  - destruct (exists_last Hne) as (l' & p' & ->).
    pose proof (ring_ends fn fp x (n :: l') p' H) as [_ Hp']. rewrite Hp in Hp'. injection Hp' as ->.
    split; [|split; [done|]]; [|by rewrite app_comm_cons, last_snoc].
    cbn [ring app] in H |- *. rewrite <- app_assoc in H |- *. cbn [app] in H |- *.
    apply adj_app. destruct H as (_ & _ & H). apply adj_app in H as [H _].
    apply NoDup_cons in Hd as [_ Hd]. apply NoDup_cons in Hd as [Hd1 Hd].
    apply NoDup_app in Hd as (_ & Hd2 & _).
    split.
    + eapply adj_ext; [| |exact H].
      * intros i Hi. apply upd_ne. intros ->. set_solver.
      * intros i Hi. apply upd_ne. intros ->. set_solver.
    + cbn. by rewrite !upd_eq.
Qed.

Lemma ring_remove fn fp l1 x l2 p n :
  NoDup (l1 ++ x :: l2) -> l1 ++ l2 <> [] -> ring fn fp (l1 ++ x :: l2) ->
  fp x = Some p -> fn x = Some n ->
  ring (upd fn p (Some n)) (upd fp n (Some p)) (l1 ++ l2).
Proof.
  intros Hd Hl H Hp Hn. apply ring_rotate in H; [|done]. cbn [app] in H.
  assert (Hne : l2 ++ l1 <> []) by (intros [-> ->]%app_eq_nil; done).
  destruct (ring_remove_head fn fp x (l2 ++ l1) p n) as (Hr & _); [|done..|].
  - assert (E : x :: l2 ++ l1 ≡ₚ l1 ++ x :: l2) by solve_Permutation. by rewrite E.
  - destruct (decide (l1 = [])) as [->|H1]; [by rewrite app_nil_r in Hr|].
    by apply ring_rotate.
Qed.

Lemma ring_insert fn fp h l x z :
  NoDup (x :: h :: l) -> ring fn fp (h :: l) -> fp h = Some z ->
  ring (upd (upd fn x (Some h)) z (Some x)) (upd (upd fp x (Some z)) h (Some x)) (h :: l ++ [x]).
Proof.
  intros Hd H Hz. apply NoDup_cons in Hd as [Hx Hd]. apply NoDup_cons in Hd as [Hh Hd].
  assert (Hxh : x <> h) by set_solver.
  destruct (decide (l = [])) as [->|Hne].
  - cbn in H. destruct H as (_ & H2 & _). rewrite Hz in H2. injection H2 as ->. cbn.
    rewrite upd_eq, (upd_ne _ h _ x), !upd_eq, (upd_ne _ h), upd_eq by done. done.
  - destruct (exists_last Hne) as (l' & z' & ->).
    pose proof (ring_ends fn fp h l' z' H) as [_ Hz']. rewrite Hz in Hz'. injection Hz' as ->.
    assert (Hxz : x <> z') by set_solver.
    apply NoDup_app in Hd as (_ & Hd & _).
    cbn [ring] in H |- *. rewrite <- !app_assoc in H |- *. cbn [app] in H |- *.
    apply adj_app in H as [H _]. rewrite <- !app_assoc. cbn [app].
    apply (adj_app _ _ h l' z' [x; h]). split.
    + eapply adj_ext; [| |exact H].
      * intros i Hi. rewrite !upd_ne; [done| |]; intros ->; set_solver.
      * intros i Hi. rewrite !upd_ne; [done| |]; intros ->; set_solver.
    + cbn. rewrite upd_eq, (upd_ne _ h _ x), upd_eq, (upd_ne _ z'), !upd_eq by done. done.
Qed.
End ring.

(** ** Lists with a head pointer *)

Section hseg.
Implicit Types (hn hp : Z -> option Z) (x : Z) (l : list Z).

Fixpoint hseg hn hp (prev : option Z) l : Prop :=
  match l with
  | [] => True
  | x :: l' => hp x = prev /\ hn x = head l' /\ hseg hn hp (Some x) l'
  end.

Lemma hseg_ext hn hp hn' hp' q l :
  (forall i, i ∈ l -> hn' i = hn i /\ hp' i = hp i) -> hseg hn hp q l -> hseg hn' hp' q l.
Proof.
  revert q. induction l as [|x l IH]; intros q He; [done|]. cbn.
  destruct (He x) as [-> ->]; [set_solver|]. intros (H1 & H2 & H3). split; [done|]. split; [done|].
  apply IH; [|done]. intros i Hi. apply He. set_solver.
Qed.

Lemma hseg_insert hn hp x l :
  x ∉ l -> NoDup l -> hseg hn hp None l ->
  hseg (upd hn x (head l))
       (match head l with Some y => upd (upd hp x None) y (Some x) | None => upd hp x None end)
       None (x :: l).
Proof.
  intros Hx Hd H. destruct l as [|y l]; cbn.
  - by rewrite !upd_eq.
  - assert (Hxy : x <> y) by set_solver. rewrite (upd_ne _ y _ x), upd_eq by done.
    rewrite upd_eq, upd_eq, (upd_ne _ x _ y) by done. cbn in H. destruct H as (_ & H2 & H3).
    split_and!; [done..|]. apply NoDup_cons in Hd as [Hy _].
    eapply hseg_ext; [|exact H3]. intros i Hi. rewrite !upd_ne; [done|..]; intros ->; set_solver.
Qed.

(** The links after [x] has been taken out. *)
Definition cut_n hn hp x : Z -> option Z :=
  match hp x with Some p => upd hn p (hn x) | None => hn end.
Definition cut_p hn hp x : Z -> option Z :=
  match hn x with Some n => upd hp n (hp x) | None => hp end.

Lemma hseg_app hn hp q l1 x l2 :
  hseg hn hp q (l1 ++ x :: l2) ->
  hp x = match last l1 with Some p => Some p | None => q end /\ hn x = head l2 /\
  hseg hn hp (Some x) l2.
Proof.
  revert q. induction l1 as [|y l1 IH]; intros q; [by intros (H1 & H2 & H3)|].
  cbn [app hseg]. intros (H1 & H2 & H3). apply IH in H3 as (H3 & H4 & H5).
  split; [|done]. rewrite H3, last_cons. by destruct (last l1).
Qed.

(** Taking [x] out of a segment that starts behind [q]. *)
Lemma hseg_cut hn hp q l1 x l2 :
  NoDup (l1 ++ x :: l2) -> hseg hn hp q (l1 ++ x :: l2) ->
  hseg (match last l1 with Some p => upd hn p (head l2) | None => hn end)
       (match head l2 with Some n => upd hp n (match last l1 with Some p => Some p | None => q end)
                        | None => hp end) q (l1 ++ l2).
Proof.
  revert q. induction l1 as [|y l1 IH]; intros q Hd H.
  - cbn [app last] in *. destruct H as (_ & _ & H). destruct l2 as [|n l2]; [done|].
    cbn in H |- *. destruct H as (_ & H2 & H3). rewrite upd_eq. split; [done|]. split; [done|].
    eapply hseg_ext; [|exact H3]. intros i Hi. split; [done|]. apply upd_ne.
    apply NoDup_cons in Hd as [_ Hd]. apply NoDup_cons in Hd as [Hd _]. by intros ->.
  - cbn [app] in Hd. apply NoDup_cons in Hd as [Hy Hd]. cbn [app hseg] in H.
    destruct H as (H1 & H2 & H3). specialize (IH (Some y) Hd H3).
    rewrite last_cons. cbn [app hseg].
    destruct (last l1) as [p|] eqn:El.
    + assert (Hp : p ∈ l1) by by apply last_Some_elem_of.
      split; [|split].
      * destruct (head l2) as [n|] eqn:En; [|done]. rewrite upd_ne; [done|]. intros ->.
        apply head_Some_elem_of in En. set_solver.
      * rewrite upd_ne by (intros ->; set_solver). rewrite H2.
        destruct l1; [done|]. done.
      * exact IH.
    + apply last_None in El as ->. cbn [app] in *.
      split; [|split].
      * destruct (head l2) as [n|] eqn:En; [|done]. rewrite upd_ne; [done|]. intros ->.
        apply head_Some_elem_of in En. set_solver.
      * by rewrite upd_eq.
      * eapply hseg_ext; [|exact IH]. intros i Hi. split; [|done]. apply upd_ne.
        intros ->. set_solver.
Qed.

Lemma hseg_remove hn hp l1 x l2 :
  NoDup (l1 ++ x :: l2) -> hseg hn hp None (l1 ++ x :: l2) ->
  hseg (cut_n hn hp x) (cut_p hn hp x) None (l1 ++ l2).
Proof.
  intros Hd H. pose proof (hseg_app _ _ _ _ _ _ H) as (H1 & H2 & _).
  unfold cut_n, cut_p. rewrite H1, H2. pose proof (hseg_cut _ _ _ _ _ _ Hd H) as Hc.
  destruct (last l1); exact Hc.
Qed.
End hseg.
