(* ===== verification/Vsprintf.v ===== *)
(** * kernel/vsprintf.c: the formatter behind [printk] and [printf]

    Strings are lists of byte values; the terminating NUL of a C string is the
    end of the list.  [number] returns the bytes it writes at [str].  The
    argument list is a list of tagged values, and reading an argument with the
    wrong tag, or past the end, is undefined, as with [va_arg]. *)

From S2P Require Import Prelude.
From Stdlib Require Import Wf_nat.

Module Vsprintf.

(** Character codes. *)
Definition ch_space : Z := 32.
Definition ch_hash : Z := 35.
Definition ch_percent : Z := 37.
Definition ch_star : Z := 42.
Definition ch_plus : Z := 43.
Definition ch_minus : Z := 45.
Definition ch_dot : Z := 46.
Definition ch_0 : Z := 48.

Definition is_digit (c : Z) : bool := bool_decide (48 <= c <= 57).

(** [skip_atoi]: the value read and the rest of the string. *)
Fixpoint skip_atoi_from (i : Z) (s : list Z) : Z * list Z :=
  match s with
  | c :: r => if is_digit c then skip_atoi_from (s32 (i * 10 + c - ch_0)) r else (i, s)
  | [] => (i, [])
  end.
Definition skip_atoi (s : list Z) : Z * list Z := skip_atoi_from 0 s.

(** Flag bits of [type]. *)
Definition ZEROPAD : Z := 1.
Definition SIGN : Z := 2.
Definition PLUS : Z := 4.
Definition SPACE : Z := 8.
Definition LEFT : Z := 16.
Definition SPECIAL : Z := 32.
Definition SMALL : Z := 64.

Definition flag (type bit : Z) : bool := bool_decide (Z.land type bit <> 0).

(** [digits[k]]: "0123...XYZ", or the lower case table. *)
Definition digit (small : bool) (k : Z) : Z :=
  if bool_decide (k < 10) then 48 + k else (if small then 97 else 65) + (k - 10).

(** [do_div]: one unsigned 32-bit [divl], quotient and remainder. *)
Definition do_div (n base : Z) : Z * Z := (u32 n / base, u32 n mod base).

(** The loop [while (num!=0) tmp[i++]=digits[do_div(num,base)]]; [room] counts
    the unused places of [tmp[36]], and [None] is a store past its end. *)
Fixpoint put_digits (room : nat) (small : bool) (num base : Z) (tmp : list Z)
    : option (list Z) :=
  if decide (num = 0) then Some tmp
  else match room with
       | O => None
       | S room' =>
           let '(q, r) := do_div num base in
           put_digits room' small q base (tmp ++ [digit small r])
       end.

(** [while (n-- > 0) *str++ = c]: the bytes written and the final [n]. *)
Definition pad (n c : Z) : list Z * Z :=
  (replicate (Z.to_nat n) c, Z.min n 0 - 1).

(** [number(str,num,base,size,precision,type)]: [Some out] are the bytes
    stored, [None] the null result for a base out of range or an overrun.  [size] and
    [precision] do not wrap: the code's ints would only for fields of 2^31 bytes. *)
Definition number (num base size precision type : Z) : option (list Z) :=
  let small := flag type SMALL in
  let type := if flag type LEFT then Z.ldiff type ZEROPAD else type in
  if bool_decide (base < 2 \/ 36 < base) then None else
  let c := if flag type ZEROPAD then ch_0 else ch_space in
  let '(sign, num) :=
    if flag type SIGN && bool_decide (num < 0) then (ch_minus, s32 (- num))
    else (if flag type PLUS then ch_plus
          else if flag type SPACE then ch_space else 0, num) in
  let size := if bool_decide (sign <> 0) then size - 1 else size in
  let size :=
    if flag type SPECIAL then
      if bool_decide (base = 16) then size - 2
      else if bool_decide (base = 8) then size - 1 else size
    else size in
  match (if bool_decide (num = 0) then Some [ch_0]
         else put_digits 36 small num base []) with
  | None => None
  | Some tmp =>
      let i := zlen tmp in
      let precision := Z.max i precision in
      let size := size - precision in
      let '(out1, size) :=
        if bool_decide (Z.land type (ZEROPAD + LEFT) = 0) then pad size ch_space
        else ([], size) in
      let out2 := if bool_decide (sign <> 0) then [sign] else [] in
      let out3 :=
        if flag type SPECIAL then
          if bool_decide (base = 8) then [ch_0]
          else if bool_decide (base = 16) then [ch_0; digit small 33] else []
        else [] in
      let '(out4, size) := if flag type LEFT then ([], size) else pad size c in
      let out5 := replicate (Z.to_nat (precision - i)) ch_0 in
      let '(out6, _) := pad size ch_space in
      Some (out1 ++ out2 ++ out3 ++ out4 ++ out5 ++ rev tmp ++ out6)
  end.

(** Arguments of [vsprintf] as [va_arg] finds them: a 32-bit word, a string, or
    the address an [%n] stores to. *)
Inductive arg : Type :=
| AWord (n : Z)
| AStr (s : list Z)
| APtr (p : Z).

(** What [vsprintf] has produced: the bytes of [buf] and the [%n] stores. *)
Record outbuf : Type := Outbuf { o_bytes : list Z; o_stores : list (Z * Z) }.

Definition emit (bs : list Z) (o : outbuf) : outbuf :=
  {| o with o_bytes := o_bytes o ++ bs |}.

(** The [repeat:] loop over flag characters; the argument is the text after
    the first '%'. *)
Fixpoint scan_flags (flags : Z) (fmt : list Z) : Z * list Z :=
  match fmt with
  | c :: r =>
      if bool_decide (c = ch_minus) then scan_flags (Z.lor flags LEFT) r
      else if bool_decide (c = ch_plus) then scan_flags (Z.lor flags PLUS) r
      else if bool_decide (c = ch_space) then scan_flags (Z.lor flags SPACE) r
      else if bool_decide (c = ch_hash) then scan_flags (Z.lor flags SPECIAL) r
      else if bool_decide (c = ch_0) then scan_flags (Z.lor flags ZEROPAD) r
      else (flags, fmt)
  | [] => (flags, [])
  end.

Definition peek (s : list Z) : Z := default 0 (head s).

(** Field width: flags, width, rest of the format, rest of the arguments. *)
Definition scan_width (flags : Z) (fmt : list Z) (args : list arg)
    : option (Z * Z * list Z * list arg) :=
  if is_digit (peek fmt) then
    let '(w, fmt) := skip_atoi fmt in Some (flags, w, fmt, args)
  else if bool_decide (peek fmt = ch_star) then
    match args with
    | AWord n :: args =>
        let w := s32 n in
        (* the source does not step over the '*' *)
        if bool_decide (w < 0) then Some (Z.lor flags LEFT, s32 (- w), fmt, args)
        else Some (flags, w, fmt, args)
    | _ => None
    end
  else Some (flags, -1, fmt, args).

(** Precision, rest of the format, rest of the arguments. *)
Definition scan_precision (fmt : list Z) (args : list arg)
    : option (Z * list Z * list arg) :=
  if bool_decide (peek fmt = ch_dot) then
    let fmt := tail fmt in
    if is_digit (peek fmt) then
      let '(p, fmt) := skip_atoi fmt in Some (Z.max p 0, fmt, args)
    else if bool_decide (peek fmt = ch_star) then
      match args with
      | AWord n :: args => Some (Z.max (s32 n) 0, fmt, args)
      | _ => None
      end
    else Some (0, fmt, args)
  else Some (-1, fmt, args).

(** The qualifier 'h', 'l' or 'L' is skipped and has no effect. *)
Definition skip_qualifier (fmt : list Z) : list Z :=
  if bool_decide (peek fmt = 104 \/ peek fmt = 108 \/ peek fmt = 76)
  then tail fmt else fmt.

Definition conv_number (base width precision flags : Z) (args : list arg)
    (o : outbuf) : option (outbuf * list arg) :=
  match args with
  | AWord n :: args =>
      bs ← number (s32 n) base width precision flags; Some (emit bs o, args)
  | _ => None
  end.

Definition conv_char (width flags : Z) (args : list arg) (o : outbuf)
    : option (outbuf * list arg) :=
  match args with
  | AWord n :: args =>
      let fill := replicate (Z.to_nat (width - 1)) ch_space in
      Some (emit (if flag flags LEFT then u8 n :: fill else fill ++ [u8 n]) o, args)
  | _ => None
  end.

Definition conv_string (width precision flags : Z) (args : list arg) (o : outbuf)
    : option (outbuf * list arg) :=
  match args with
  | AStr s :: args =>
      let len := if bool_decide (precision < 0) then zlen s else Z.min (zlen s) precision in
      let fill := replicate (Z.to_nat (width - len)) ch_space in
      let body := take (Z.to_nat len) s in
      Some (emit (if flag flags LEFT then body ++ fill else fill ++ body) o, args)
  | _ => None
  end.

(** The [switch] on the conversion character [c].  The last component
    says whether the character is consumed: at the end of the format ([c = 0])
    the source steps back, and the outer loop meets the NUL again. *)
Definition convert (c width precision flags : Z) (args : list arg) (o : outbuf)
    : option (outbuf * list arg * bool) :=
  let consumed (r : option (outbuf * list arg)) := '(o, args) ← r; Some (o, args, true) in
  if bool_decide (c = 99) then                                        (* 'c' *)
    consumed (conv_char width flags args o)
  else if bool_decide (c = 115) then                                  (* 's' *)
    consumed (conv_string width precision flags args o)
  else if bool_decide (c = 111) then                                  (* 'o' *)
    consumed (conv_number 8 width precision flags args o)
  else if bool_decide (c = 112) then                                  (* 'p' *)
    if bool_decide (width = -1)
    then consumed (conv_number 16 8 precision (Z.lor flags ZEROPAD) args o)
    else consumed (conv_number 16 width precision flags args o)
  else if bool_decide (c = 120) then                                  (* 'x' *)
    consumed (conv_number 16 width precision (Z.lor flags SMALL) args o)
  else if bool_decide (c = 88) then                                   (* 'X' *)
    consumed (conv_number 16 width precision flags args o)
  else if bool_decide (c = 100 \/ c = 105) then                       (* 'd' 'i' *)
    consumed (conv_number 10 width precision (Z.lor flags SIGN) args o)
  else if bool_decide (c = 117) then                                  (* 'u' *)
    consumed (conv_number 10 width precision flags args o)
  else if bool_decide (c = 110) then                                  (* 'n' *)
    match args with
    | APtr p :: args =>
        Some ({| o with o_stores := o_stores o ++ [(p, zlen (o_bytes o))] |}, args, true)
    | _ => None
    end
  else
    let o := if bool_decide (c <> ch_percent) then emit [ch_percent] o else o in
    if bool_decide (c <> 0) then Some (emit [c] o, args, true)
    else Some (o, args, false).

(** One conversion, [fmt] being the text after the '%'.  Returns the output,
    the remaining format and arguments. *)
Definition conversion (fmt : list Z) (args : list arg) (o : outbuf)
    : option (outbuf * list Z * list arg) :=
  let '(flags, fmt) := scan_flags 0 fmt in
  '(flags, width, fmt, args) ← scan_width flags fmt args;
  '(precision, fmt, args) ← scan_precision fmt args;
  let fmt := skip_qualifier fmt in
  '(o, args, consumed) ← convert (peek fmt) width precision flags args o;
  Some (o, if (consumed : bool) then tail fmt else fmt, args).

(** The main loop.  [fuel] bounds the iterations; each one consumes a byte. *)
Fixpoint vsprintf_loop (fuel : nat) (fmt : list Z) (args : list arg) (o : outbuf)
    : option outbuf :=
  match fmt with
  | [] => Some o
  | c :: r =>
      match fuel with
      | O => None
      | S fuel' =>
          if bool_decide (c <> ch_percent) then vsprintf_loop fuel' r args (emit [c] o)
          else '(o, fmt, args) ← conversion r args o; vsprintf_loop fuel' fmt args o
      end
  end.

(** [vsprintf(buf,fmt,args)]: the bytes of [buf] (without the final NUL), the
    stores of [%n] and the returned length. *)
Definition vsprintf (fmt : list Z) (args : list arg) : option (outbuf * Z) :=
  o ← vsprintf_loop (length fmt) fmt args (Outbuf [] []);
  Some (o, zlen (o_bytes o)).

(** Bytes of a Rocq string, to write formats readably. *)
Definition bytes (s : string) : list Z :=
  (fun a => Z.of_nat (Ascii.nat_of_ascii a)) <$> String.list_ascii_of_string s.

Example vsprintf_ex :
  vsprintf (bytes "pid=%d [%04x] <%-6s>%5u %%") [AWord (-2); AWord 48879; AStr (bytes "ab"); AWord 7]
  = Some (Outbuf (bytes "pid=-2 [beef] <ab    >    7 %") [], 29).
Proof. vm_compute. reflexivity. Qed.

(** ** Flags as bits *)

Lemma flag_testbit type k : 0 <= k -> flag type (2 ^ k) = Z.testbit type k.
Proof. apply bit_set_testbit. Qed.

Lemma flag_LEFT type : flag type LEFT = Z.testbit type 4.
Proof. apply (flag_testbit type 4). lia. Qed.
Lemma flag_ZEROPAD type : flag type ZEROPAD = Z.testbit type 0.
Proof. apply (flag_testbit type 0). lia. Qed.

(** The test [!(type&(ZEROPAD+LEFT))] in terms of the two flags. *)
Lemma no_pad_flags type :
  bool_decide (Z.land type (ZEROPAD + LEFT) = 0)
  = negb (flag type ZEROPAD) && negb (flag type LEFT).
Proof.
  rewrite flag_LEFT, flag_ZEROPAD.
  destruct (bool_decide_reflect (Z.land type (ZEROPAD + LEFT) = 0)) as [E|E].
  - assert (E0 : Z.testbit type 0 && Z.testbit (ZEROPAD + LEFT) 0 = false)
      by (by rewrite <- Z.land_spec, E).
    assert (E4 : Z.testbit type 4 && Z.testbit (ZEROPAD + LEFT) 4 = false)
      by (by rewrite <- Z.land_spec, E).
    rewrite andb_true_r in E0, E4. by rewrite E0, E4.
  - destruct (Z.testbit type 0) eqn:E0; [done|].
    destruct (Z.testbit type 4) eqn:E4; [done|]. exfalso. apply E.
    apply Z.bits_inj'. intros n Hn. rewrite Z.land_spec, Z.bits_0.
    change (ZEROPAD + LEFT) with (Z.lor (2 ^ 0) (2 ^ 4)).
    rewrite Z.lor_spec, !Z.pow2_bits_eqb by lia.
    destruct (Z.eqb_spec 0 n) as [<-|]; [by rewrite E0|].
    destruct (Z.eqb_spec 4 n) as [<-|]; [by rewrite E4|].
    by rewrite andb_false_r.
Qed.

(** ** Positional value of a digit string *)

(** The number a digit character stands for. *)
Definition undigit (small : bool) (c : Z) : Z :=
  if decide (c < 58) then c - 48 else c - (if small then 97 else 65) + 10.

(** Most significant digit first. *)
Fixpoint value (base : Z) (small : bool) (ds : list Z) : Z :=
  match ds with
  | [] => 0
  | d :: r => undigit small d * base ^ zlen r + value base small r
  end.

Lemma undigit_digit small k : 0 <= k < 36 -> undigit small (digit small k) = k.
Proof.
  intros. unfold undigit, digit.
  case_bool_decide; [rewrite decide_True by lia; lia|].
  destruct small; rewrite decide_False by lia; lia.
Qed.

Lemma digit_nonzero small k : 0 < k < 36 -> digit small k <> ch_0.
Proof. intros. unfold digit, ch_0. case_bool_decide; destruct small; lia. Qed.

Lemma value_app base small a b :
  0 <= base ->
  value base small (a ++ b) = value base small a * base ^ zlen b + value base small b.
Proof.
  intros. induction a as [|d a IH]; simpl; [lia|]. rewrite IH.
  replace (zlen (a ++ b)) with (zlen a + zlen b) by (unfold zlen; rewrite length_app; lia).
  rewrite Z.pow_add_r by (unfold zlen; lia). lia.
Qed.

(** The digit loop writes the base-[base] numeral of its argument, least
    significant digit first, without a leading zero, and does not leave [tmp]. *)
Lemma put_digits_spec room small num base tmp :
  2 <= base <= 36 -> 0 <= num < 2 ^ 32 -> num < base ^ Z.of_nat room ->
  exists ds, put_digits room small num base tmp = Some (tmp ++ ds) /\
    value base small (rev ds) = num /\ (length ds <= room)%nat /\
    (num <> 0 -> exists d r, rev ds = d :: r /\ d <> ch_0).
Proof.
  intros Hb. revert num tmp. induction room as [|room IH]; intros num tmp Hn Hlt.
  - assert (num = 0) as -> by (simpl in Hlt; lia). exists []. simpl.
    rewrite app_nil_r. done.
  - simpl. destruct (decide (num = 0)) as [->|Hnz].
    { exists []. rewrite app_nil_r. repeat split; simpl; lia || done. }
    unfold do_div. rewrite u32_small by lia.
    assert (Hq : 0 <= num / base < num).
    { split; [apply Z.div_pos; lia|]. apply Z.div_lt; lia. }
    pose proof (Z.mod_pos_bound num base) as Hr.
    destruct (IH (num / base) (tmp ++ [digit small (num mod base)]))
      as (ds & Hds & Hval & Hlen & Hlead); [lia| |].
    { replace (Z.of_nat (S room)) with (Z.succ (Z.of_nat room)) in Hlt by lia.
      rewrite Z.pow_succ_r in Hlt by lia. apply Z.div_lt_upper_bound; lia. }
    exists (digit small (num mod base) :: ds). rewrite Hds, <- app_assoc.
    split; [done|]. simpl. rewrite value_app, Hval by lia. simpl.
    rewrite undigit_digit by lia. split; [|split; [lia|]].
    + change (zlen [digit small (num mod base)]) with 1.
      change (zlen (@nil Z)) with 0.
      pose proof (Z.div_mod num base). lia.
    + intros _. destruct (decide (num / base = 0)) as [Hq0|Hq0].
      * assert (ds = []) as -> by (destruct room; simpl in Hds;
          rewrite Hq0, decide_True in Hds by done; simplify_list_eq; done).
        simpl. eexists _, _. split; [done|]. apply digit_nonzero.
        pose proof (Z.div_mod num base). lia.
      * destruct (Hlead Hq0) as (d & r & -> & Hd). simpl. eauto.
Qed.

(** A negative argument without [SIGN] is divided as the unsigned word. *)
Lemma put_digits_u32 room small num base tmp :
  put_digits room small num base tmp = put_digits room small (u32 num) base tmp
  \/ (num <> 0 /\ u32 num = 0).
Proof.
  destruct (decide (u32 num = 0)) as [E|E].
  - destruct (decide (num = 0)) as [->|]; [by left|by right].
  - left. assert (num <> 0) by (intros ->; done).
    assert (u32 (u32 num) = u32 num) by (apply u32_small, u32_range).
    destruct room; simpl; rewrite !decide_False by done; [done|].
    unfold do_div. by rewrite H0.
Qed.

Lemma pow36_big base : 2 <= base -> 2 ^ 32 < base ^ Z.of_nat 36.
Proof.
  intros. apply Z.lt_le_trans with (2 ^ 36); [lia|].
  apply Z.pow_le_mono_l. lia.
Qed.

(** ** What [number] prints *)

Definition magnitude (num type : Z) : Z :=
  if flag type SIGN && bool_decide (num < 0) then - num else u32 num.

Definition sign_str (num type : Z) : list Z :=
  if flag type SIGN && bool_decide (num < 0) then [ch_minus]
  else if flag type PLUS then [ch_plus]
  else if flag type SPACE then [ch_space] else [].

Definition prefix_str (base type : Z) : list Z :=
  if flag type SPECIAL then
    if bool_decide (base = 8) then [ch_0]
    else if bool_decide (base = 16) then [ch_0; if flag type SMALL then 120 else 88] else []
  else [].

Definition canonical (digs : list Z) : Prop :=
  digs = [ch_0] \/ exists d r, digs = d :: r /\ d <> ch_0.

Lemma Forall_replicate_eq {A} n (x : A) : Forall (fun y => y = x) (replicate n x).
Proof. by apply Forall_replicate. Qed.

Lemma Forall_pad {A} (b : bool) n (x : A) :
  Forall (fun y => y = x) (if b then replicate n x else []).
Proof. destruct b; [apply Forall_replicate_eq|constructor]. Qed.

Lemma Forall_no_pad {A} (b : bool) n (x : A) :
  Forall (fun y => y = x) (if b then [] else replicate n x).
Proof. destruct b; [constructor|apply Forall_replicate_eq]. Qed.

Lemma flag_ldiff type k :
  0 < k -> flag (Z.ldiff type ZEROPAD) (2 ^ k) = flag type (2 ^ k).
Proof.
  intros. rewrite !flag_testbit by lia. rewrite Z.ldiff_spec.
  change ZEROPAD with (2 ^ 0). rewrite (Z.pow2_bits_false 0) by lia.
  by rewrite andb_true_r.
Qed.

Lemma flag_ldiff_ZEROPAD type : flag (Z.ldiff type ZEROPAD) ZEROPAD = false.
Proof.
  rewrite flag_ZEROPAD, Z.ldiff_spec. by rewrite andb_false_r.
Qed.

(** The digits of any 32-bit value: they always fit [tmp]. *)
Lemma number_digits small num base :
  2 <= base <= 36 -> - 2 ^ 31 <= num < 2 ^ 31 ->
  exists tmp,
    (if bool_decide (num = 0) then Some [ch_0] else put_digits 36 small num base [])
      = Some tmp /\
    value base small (rev tmp) = u32 num /\ canonical (rev tmp).
Proof.
  intros Hb Hn. case_bool_decide as E.
  - subst. exists [ch_0]. split; [done|]. split; [|by left].
    simpl. change (undigit small ch_0) with 0. by change (u32 0) with 0.
  - destruct (put_digits_u32 36 small num base []) as [->|[_ H0]].
    + pose proof (u32_range num) as Hr.
      destruct (put_digits_spec 36 small (u32 num) base []) as (ds & -> & Hv & _ & Hl);
        [done|done|pose proof (pow36_big base); lia|].
      exists ds. split; [done|]. split; [done|]. right. apply Hl.
      unfold u32. intros H0. apply Z.mod_divide in H0 as [q Hq]; [|lia]. lia.
    + exfalso. unfold u32 in H0. apply Z.mod_divide in H0 as [q Hq]; [|lia]. lia.
Qed.

(** The pieces the function computes before printing. *)
Definition eff_num (num type : Z) : Z :=
  if flag type SIGN && bool_decide (num < 0) then s32 (- num) else num.
Definition eff_type (type : Z) : Z :=
  if flag type LEFT then Z.ldiff type ZEROPAD else type.
Definition sign_char (num type : Z) : Z := default 0 (head (sign_str num type)).

Lemma eff_num_range num type :
  - 2 ^ 31 <= num < 2 ^ 31 -> - 2 ^ 31 <= eff_num num type < 2 ^ 31.
Proof. intros. unfold eff_num. case_match; [apply s32_range|done]. Qed.

Lemma eff_num_magnitude num type :
  - 2 ^ 31 <= num < 2 ^ 31 -> u32 (eff_num num type) = magnitude num type.
Proof.
  intros. unfold eff_num, magnitude. destruct (flag type SIGN); [|done].
  case_bool_decide; [|done]. simpl. unfold u32, s32.
  destruct (decide (num = - 2 ^ 31)) as [->|]; [done|].
  rewrite (Z.mod_small (- num + 2 ^ 31)) by lia. rewrite Z.mod_small; lia.
Qed.

Lemma eff_type_flag type k : 0 < k -> flag (eff_type type) (2 ^ k) = flag type (2 ^ k).
Proof.
  intros. unfold eff_type. destruct (flag type LEFT); [by apply flag_ldiff|done].
Qed.

Lemma eff_type_flags type :
  flag (eff_type type) SIGN = flag type SIGN /\
  flag (eff_type type) PLUS = flag type PLUS /\
  flag (eff_type type) SPACE = flag type SPACE /\
  flag (eff_type type) LEFT = flag type LEFT /\
  flag (eff_type type) SPECIAL = flag type SPECIAL.
Proof.
  pose proof (eff_type_flag type 1). pose proof (eff_type_flag type 2).
  pose proof (eff_type_flag type 3). pose proof (eff_type_flag type 4).
  pose proof (eff_type_flag type 5). simpl in *. auto 10 with lia.
Qed.

Lemma eff_type_left type : flag type LEFT = true -> flag (eff_type type) ZEROPAD = false.
Proof. intros E. unfold eff_type. rewrite E. apply flag_ldiff_ZEROPAD. Qed.

Lemma sign_char_str num type :
  (if bool_decide (sign_char num type <> 0) then [sign_char num type] else [])
  = sign_str num type.
Proof. unfold sign_char, sign_str. by repeat case_match. Qed.

Lemma sign_char_size num type size :
  (if bool_decide (sign_char num type <> 0) then size - 1 else size)
  = size - zlen (sign_str num type).
Proof.
  unfold sign_char, sign_str.
  repeat case_match; simpl; unfold zlen; simpl; lia || done.
Qed.

Lemma sign_num num type :
  (if flag type SIGN && bool_decide (num < 0) then (ch_minus, s32 (- num))
   else (if flag type PLUS then ch_plus else if flag type SPACE then ch_space else 0, num))
  = (sign_char num type, eff_num num type).
Proof. unfold sign_char, sign_str, eff_num. by repeat case_match. Qed.

Lemma prefix_size base type size :
  (if flag type SPECIAL then
     if bool_decide (base = 16) then size - 2
     else if bool_decide (base = 8) then size - 1 else size
   else size) = size - zlen (prefix_str base type).
Proof.
  unfold prefix_str. destruct (flag type SPECIAL); [|unfold zlen; simpl; lia].
  repeat case_bool_decide; simplify_eq/=; unfold zlen; simpl; lia.
Qed.

(** The order of the printed pieces, for the digits [tmp]. *)
Lemma number_layout num base size precision type tmp :
  2 <= base <= 36 ->
  (if bool_decide (eff_num num type = 0) then Some [ch_0]
   else put_digits 36 (flag type SMALL) (eff_num num type) base []) = Some tmp ->
  let zp := flag (eff_type type) ZEROPAD in
  let room := size - zlen (sign_str num type) - zlen (prefix_str base type)
              - Z.max (zlen tmp) precision in
  number num base size precision type = Some (
    (if zp || flag type LEFT then [] else replicate (Z.to_nat room) ch_space) ++
    sign_str num type ++ prefix_str base type ++
    ((if zp then replicate (Z.to_nat room) ch_0 else []) ++
     replicate (Z.to_nat (Z.max (zlen tmp) precision - zlen tmp)) ch_0) ++
    rev tmp ++
    (if flag type LEFT then replicate (Z.to_nat room) ch_space else [])).
Proof.
  intros Hb Htmp zp room. unfold number. fold (eff_type type).
  rewrite (bool_decide_eq_false_2 (base < 2 \/ 36 < base)) by lia.
  rewrite no_pad_flags. fold zp.
  destruct (eff_type_flags type) as (-> & -> & -> & -> & ->).
  rewrite sign_num, Htmp, sign_char_str, sign_char_size, prefix_size.
  assert (Hx : forall b, digit b 33 = if b then 120 else 88) by by intros []. rewrite Hx.
  fold (prefix_str base type). fold room. unfold pad.
  assert (Hz : flag type LEFT = true -> zp = false) by apply eff_type_left.
  assert (Hroom : forall n, Z.to_nat (Z.min n 0 - 1) = O) by lia.
  destruct (flag type LEFT), zp; try (specialize (Hz eq_refl); done);
    simpl; rewrite ?Hroom; simpl; rewrite ?app_nil_r, <- ?app_assoc; done.
Qed.

(** What [number] writes for the digits [digs]: with the flag LEFT it is filled with blanks on the
    right, with ZEROPAD with zeros after sign and prefix, and else with blanks on the left. *)
Definition formatted (digs : list Z) (base size precision num type : Z) : list Z :=
  let sign := sign_str num type in
  let prefix := prefix_str base type in
  let zeros := replicate (Z.to_nat (precision - zlen digs)) ch_0 in
  let fill := replicate (Z.to_nat (size - (zlen sign + zlen prefix + Z.max precision (zlen digs)))) in
  if flag type LEFT then sign ++ prefix ++ zeros ++ digs ++ fill ch_space
  else if flag type ZEROPAD then sign ++ prefix ++ fill ch_0 ++ zeros ++ digs
  else fill ch_space ++ sign ++ prefix ++ zeros ++ digs.

Lemma number_formats num base size precision type :
  2 <= base <= 36 -> - 2 ^ 31 <= num < 2 ^ 31 ->
  exists digs, number num base size precision type = Some (formatted digs base size precision num type) /\
    value base (flag type SMALL) digs = magnitude num type /\ canonical digs.
Proof.
  intros Hb Hn.
  destruct (number_digits (flag type SMALL) (eff_num num type) base Hb
              (eff_num_range _ _ Hn)) as (tmp & Htmp & Hval & Hcan).
  rewrite eff_num_magnitude in Hval by done. exists (rev tmp). split; [|done].
  rewrite (number_layout _ _ _ _ _ tmp Hb Htmp). unfold formatted, eff_type.
  assert (zlen (rev tmp) = zlen tmp) as -> by (unfold zlen; by rewrite length_rev).
  replace (Z.max (zlen tmp) precision - zlen tmp) with (Z.max 0 (precision - zlen tmp)) by lia.
  replace (Z.to_nat (Z.max 0 (precision - zlen tmp))) with (Z.to_nat (precision - zlen tmp)) by lia.
  replace (size - zlen (sign_str num type) - zlen (prefix_str base type) - Z.max (zlen tmp) precision)
    with (size - (zlen (sign_str num type) + zlen (prefix_str base type) + Z.max precision (zlen tmp))) by lia.
  destruct (flag type LEFT); [rewrite flag_ldiff_ZEROPAD|destruct (flag type ZEROPAD)]; cbn [orb]; by rewrite ?app_nil_r, <- ?app_assoc.
Qed.

(** ** The interpreter of formats *)

Lemma scan_flags_length flags fmt : (length (scan_flags flags fmt).2 <= length fmt)%nat.
Proof.
  revert flags. induction fmt as [|c r IH]; intros flags; simpl; [lia|].
  repeat case_bool_decide; simpl; try (etransitivity; [apply IH|lia]); lia.
Qed.

Lemma skip_atoi_length i s : (length (skip_atoi_from i s).2 <= length s)%nat.
Proof.
  revert i. induction s as [|c r IH]; intros i; simpl; [lia|].
  case_match; simpl; [etransitivity; [apply IH|lia]|lia].
Qed.

Lemma tail_length {A} (l : list A) : (length (tail l) <= length l)%nat.
Proof. destruct l; simpl; lia. Qed.

Lemma scan_width_length flags fmt args fl w fmt' args' :
  scan_width flags fmt args = Some (fl, w, fmt', args') -> (length fmt' <= length fmt)%nat.
Proof.
  unfold scan_width, skip_atoi. pose proof (skip_atoi_length 0 fmt) as H.
  destruct (skip_atoi_from 0 fmt) as [v r]. simpl in H.
  repeat case_match; intros; simplify_eq; lia.
Qed.

Lemma scan_precision_length fmt args p fmt' args' :
  scan_precision fmt args = Some (p, fmt', args') -> (length fmt' <= length fmt)%nat.
Proof.
  unfold scan_precision, skip_atoi. pose proof (skip_atoi_length 0 (tail fmt)) as H.
  pose proof (tail_length fmt).
  destruct (skip_atoi_from 0 (tail fmt)) as [v r]. simpl in H.
  repeat case_match; intros; simplify_eq; lia.
Qed.

Lemma skip_qualifier_length fmt : (length (skip_qualifier fmt) <= length fmt)%nat.
Proof. unfold skip_qualifier. case_match; [apply tail_length|lia]. Qed.

(** A conversion never gives back more format than it was given, so the loop
    of [vsprintf] ends. *)
Lemma conversion_length fmt args o o' fmt' args' :
  conversion fmt args o = Some (o', fmt', args') -> (length fmt' <= length fmt)%nat.
Proof.
  unfold conversion. pose proof (scan_flags_length 0 fmt) as H1.
  destruct (scan_flags 0 fmt) as [fl f1]. simpl in H1.
  destruct (scan_width fl f1 args) as [[[[fl2 w] f2] a2]|] eqn:E2; [|done].
  apply scan_width_length in E2. simpl.
  destruct (scan_precision f2 a2) as [[[p f3] a3]|] eqn:E3; [|done].
  apply scan_precision_length in E3. simpl.
  pose proof (skip_qualifier_length f3). pose proof (tail_length (skip_qualifier f3)).
  destruct (convert _ _ _ _ _ _) as [[[o1 a4] []]|]; simpl; intros; simplify_eq; lia.
Qed.

Lemma vsprintf_loop_fuel fuel fmt args o :
  (length fmt <= fuel)%nat ->
  vsprintf_loop fuel fmt args o = vsprintf_loop (length fmt) fmt args o.
Proof.
  revert fuel args o. induction fmt as [fmt IH] using (induction_ltof1 _ (@length Z)).
  intros fuel args o Hf. destruct fmt as [|c r]; [by destruct fuel|].
  destruct fuel as [|fuel]; simpl in *; [lia|].
  assert (Hr : ltof _ (@length Z) r (c :: r)) by (unfold ltof; simpl; lia).
  case_bool_decide; [apply IH; [done|lia]|].
  destruct (conversion r args o) as [[[o' f'] a']|] eqn:E; [|done]. simpl.
  apply conversion_length in E.
  assert (ltof _ (@length Z) f' (c :: r)) by (unfold ltof; simpl; lia).
  rewrite (IH f') by (done || lia). symmetry. apply IH; [done|lia].
Qed.

(** Text without '%' is copied. *)
Lemma vsprintf_loop_literal fuel lit rest args o :
  Forall (fun c => c <> ch_percent) lit ->
  vsprintf_loop (length lit + fuel) (lit ++ rest) args o
  = vsprintf_loop fuel rest args (emit lit o).
Proof.
  revert o. induction lit as [|c l IH]; intros o H; simpl.
  - f_equal. destruct o. unfold emit. simpl. by rewrite app_nil_r.
  - inversion H; subst. rewrite bool_decide_eq_true_2 by done.
    rewrite IH by done. f_equal. unfold emit. simpl. by rewrite <- app_assoc.
Qed.

Lemma vsprintf_loop_copy text args o :
  Forall (fun c => c <> ch_percent) text ->
  vsprintf_loop (length text) text args o = Some (emit text o).
Proof.
  intros H. pose proof (vsprintf_loop_literal 0 text [] args o H) as E.
  by rewrite app_nil_r, Nat.add_0_r in E.
Qed.

Lemma vsprintf_loop_d fuel w after args o bs :
  number (s32 w) 10 (-1) (-1) SIGN = Some bs ->
  vsprintf_loop (S fuel) (ch_percent :: 100 :: after) (AWord w :: args) o
  = vsprintf_loop fuel after args (emit bs o).
Proof.
  intros H. simpl. unfold conversion. simpl. unfold convert, conv_number. simpl.
  change (Z.lor 0 SIGN) with SIGN. by rewrite H.
Qed.

(** [%d] prints the argument in decimal and the length returned counts it. *)
Lemma vsprintf_decimal before after n :
  Forall (fun c => c <> ch_percent) before ->
  Forall (fun c => c <> ch_percent) after ->
  - 2 ^ 31 <= n < 2 ^ 31 ->
  exists digs,
    vsprintf (before ++ bytes "%d" ++ after) [AWord (u32 n)]
      = Some (Outbuf (before ++ (if decide (n < 0) then [ch_minus] else []) ++ digs ++ after) [],
              zlen before + (if decide (n < 0) then 1 else 0) + zlen digs + zlen after) /\
    value 10 false digs = Z.abs n /\ canonical digs.
Proof.
  intros Hb Ha Hn.
  destruct (number_formats n 10 (-1) (-1) SIGN) as (digs & Hout & Hval & Hcan); [lia|lia|].
  assert (Hs : sign_str n SIGN = if decide (n < 0) then [ch_minus] else []).
  { unfold sign_str. simpl. by destruct (decide (n < 0)), (bool_decide_reflect (n < 0)). }
  assert (Hf : formatted digs 10 (-1) (-1) n SIGN = sign_str n SIGN ++ digs).
  { pose proof (zlen_nonneg digs). pose proof (zlen_nonneg (sign_str n SIGN)). pose proof (zlen_nonneg (prefix_str 10 SIGN)).
    unfold formatted. change (flag SIGN LEFT) with false. change (flag SIGN ZEROPAD) with false. cbv iota.
    assert (Hz : forall x, x <= 0 -> Z.to_nat x = O) by lia. rewrite !Hz by lia. done. }
  rewrite Hf in Hout.
  exists digs. split; [|split; [|done]].
  - unfold vsprintf. assert (Hfmt : bytes "%d" = [ch_percent; 100]) by reflexivity. rewrite Hfmt.
    rewrite !length_app, vsprintf_loop_literal by done.
    change (length [ch_percent; 100%Z] + length after)%nat with (S (S (length after))).
    assert (Hs32 : s32 (u32 n) = n).
    { unfold s32, u32. rewrite Zplus_mod_idemp_l. apply (s32_small n Hn). }
    rewrite <- Hs32 in Hout at 1. cbn [app]. erewrite vsprintf_loop_d by exact Hout.
    rewrite (vsprintf_loop_fuel (S (length after))) by lia.
    rewrite vsprintf_loop_copy by done. simpl. unfold emit. simpl.
    rewrite Hs, <- !app_assoc. simpl. do 2 f_equal.
    rewrite !zlen_app. case_decide; unfold zlen; simpl; lia.
  - change (flag SIGN SMALL) with false in Hval. rewrite Hval. unfold magnitude. change (flag SIGN SIGN) with true. simpl.
    case_bool_decide; [lia|]. rewrite u32_small; lia.
Qed.



(** A [*] field width is read from the arguments but the [*] is not skipped, so it ends
    the conversion and is printed: [%*d] never prints its number. *)
Theorem vsprintf_star_width n m :
  vsprintf (bytes "%*d") [AWord n; AWord m] = Some (Outbuf (bytes "%*d") [], 3).
Proof.
  unfold vsprintf. simpl. unfold conversion. simpl. unfold scan_width. simpl. case_bool_decide; reflexivity.
Qed.

End Vsprintf.
