(* ===== verification/Mktime.v ===== *)
(** * kernel/mktime.c and [time_init] of init/main.c: the boot-time clock

    [kernel_mktime] turns a broken-down date into seconds since 1970, and
    [time_init] reads that date from the CMOS clock.  The reference is the
    Gregorian calendar, counted year by year and month by month. *)

From S2P Require Import Prelude.

Module Mktime.

Record tm : Type := Tm {
  tm_sec : Z; tm_min : Z; tm_hour : Z; tm_mday : Z; tm_mon : Z; tm_year : Z
}.

Definition MINUTE : Z := 60.
Definition HOUR : Z := 60 * MINUTE.
Definition DAY : Z := 24 * HOUR.
Definition YEAR : Z := 365 * DAY.

(** Seconds before each month of a leap year. *)
Definition month : list Z := [
  0;
  DAY * 31;
  DAY * (31 + 29);
  DAY * (31 + 29 + 31);
  DAY * (31 + 29 + 31 + 30);
  DAY * (31 + 29 + 31 + 30 + 31);
  DAY * (31 + 29 + 31 + 30 + 31 + 30);
  DAY * (31 + 29 + 31 + 30 + 31 + 30 + 31);
  DAY * (31 + 29 + 31 + 30 + 31 + 30 + 31 + 31);
  DAY * (31 + 29 + 31 + 30 + 31 + 30 + 31 + 31 + 30);
  DAY * (31 + 29 + 31 + 30 + 31 + 30 + 31 + 31 + 30 + 31);
  DAY * (31 + 29 + 31 + 30 + 31 + 30 + 31 + 31 + 30 + 31 + 30)].

(** [kernel_mktime]; [None] is a month outside the table.  The arithmetic is
    that of a 32-bit [long]. *)
Definition kernel_mktime (t : tm) : option Z :=
  let year := if decide (70 <= tm_year t) then tm_year t - 70
              else tm_year t + 100 - 70 in
  let res := s32 (YEAR * year + DAY * Z.quot (year + 1) 4) in
  m ← zget month (tm_mon t);
  let res := s32 (res + m) in
  let res := if decide (1 < tm_mon t /\ Z.rem (year + 2) 4 <> 0)
             then s32 (res - DAY) else res in
  let res := s32 (res + DAY * (tm_mday t - 1)) in
  let res := s32 (res + HOUR * tm_hour t) in
  let res := s32 (res + MINUTE * tm_min t) in
  Some (s32 (res + tm_sec t)).

(** [BCD_TO_BIN]. *)
Definition BCD_TO_BIN (val : Z) : Z := Z.land val 15 + Z.shiftr val 4 * 10.

(** The clock chip as [time_init] meets it: the value of CMOS cell [addr] at
    the [n]-th read.  Each [CMOS_READ] is one read. *)
Definition cmos : Type := nat -> Z -> Z.

(** One turn of the [do ... while] loop: the six cells, and the seconds again. *)
Definition read_clock (c : cmos) (n : nat) : tm * Z :=
  (Tm (c n 0) (c (n + 1)%nat 2) (c (n + 2)%nat 4) (c (n + 3)%nat 7)
      (c (n + 4)%nat 8) (c (n + 5)%nat 9), c (n + 6)%nat 0).

(** [time_init]: the value stored in [startup_time].  The outer [None] is a
    loop that has not ended within [fuel] turns. *)
Fixpoint time_init (fuel : nat) (c : cmos) (n : nat) : option (option Z) :=
  match fuel with
  | O => None
  | S fuel' =>
      let '(t, again) := read_clock c n in
      if decide (tm_sec t <> again) then time_init fuel' c (n + 7)%nat
      else Some (kernel_mktime (Tm
             (BCD_TO_BIN (tm_sec t)) (BCD_TO_BIN (tm_min t)) (BCD_TO_BIN (tm_hour t))
             (BCD_TO_BIN (tm_mday t)) (BCD_TO_BIN (tm_mon t) - 1) (BCD_TO_BIN (tm_year t))))
  end.

Example kernel_mktime_ex :
  kernel_mktime (Tm 0 0 0 1 2 104) = Some 1078099200.
Proof. vm_compute. reflexivity. Qed.

(** ** The calendar *)

Definition leap (y : Z) : bool :=
  bool_decide (y mod 4 = 0 /\ (y mod 100 <> 0 \/ y mod 400 = 0)).

Definition year_days (y : Z) : Z := if leap y then 366 else 365.

Definition month_days (y m : Z) : Z :=
  default 0 (zget [31; if leap y then 29 else 28; 31; 30; 31; 30; 31; 31; 30; 31; 30; 31] m).

(** Days from 1 January 1970 to 1 January of [1970 + n]. *)
Fixpoint days_to_year (n : nat) : Z :=
  match n with O => 0 | S n' => days_to_year n' + year_days (1970 + Z.of_nat n') end.

(** Days of year [y] before month [n]. *)
Fixpoint days_to_month (y : Z) (n : nat) : Z :=
  match n with O => 0 | S n' => days_to_month y n' + month_days y (Z.of_nat n') end.

(** The two-digit years of the CMOS clock: 70..99 are 19xx, 0..69 are 20xx. *)
Definition civil_year (yy : Z) : Z := if decide (70 <= yy) then 1900 + yy else 2000 + yy.

Definition epoch_seconds (t : tm) : Z :=
  let y := civil_year (tm_year t) in
  ((days_to_year (Z.to_nat (y - 1970)) + days_to_month y (Z.to_nat (tm_mon t))
    + (tm_mday t - 1)) * 24 + tm_hour t) * 3600 + tm_min t * 60 + tm_sec t.

Lemma s32_add_l x y : s32 (s32 x + y) = s32 (x + y).
Proof.
  unfold s32. f_equal.
  replace ((x + 2 ^ 31) mod 2 ^ 32 - 2 ^ 31 + y + 2 ^ 31)
    with ((x + 2 ^ 31) mod 2 ^ 32 + y) by lia.
  rewrite Zplus_mod_idemp_l. f_equal. lia.
Qed.

Lemma s32_sub_l x y : s32 (s32 x - y) = s32 (x - y).
Proof. apply (s32_add_l x (- y)). Qed.

(** Seconds at the start of a month, as the function computes them. *)
Definition month_start (yy mon : Z) : Z :=
  let year := if decide (70 <= yy) then yy - 70 else yy + 100 - 70 in
  YEAR * year + DAY * Z.quot (year + 1) 4 + default 0 (zget month mon)
  - if decide (1 < mon /\ Z.rem (year + 2) 4 <> 0) then DAY else 0.

Lemma month_start_table :
  forallb (fun yy => forallb (fun mon =>
      bool_decide (month_start yy mon =
        (days_to_year (Z.to_nat (civil_year yy - 1970))
         + days_to_month (civil_year yy) (Z.to_nat mon)) * DAY)) (seqZ 0 12)) (seqZ 0 100)
  = true.
Proof. vm_compute. reflexivity. Qed.

Lemma month_start_correct yy mon :
  0 <= yy < 100 -> 0 <= mon < 12 ->
  month_start yy mon =
    (days_to_year (Z.to_nat (civil_year yy - 1970))
     + days_to_month (civil_year yy) (Z.to_nat mon)) * DAY.
Proof.
  intros Hy Hm. pose proof month_start_table as H. rewrite forallb_forall in H.
  specialize (H yy). rewrite forallb_forall in H.
  eapply bool_decide_eq_true, H; apply list_elem_of_In, elem_of_seqZ; lia.
Qed.

Lemma kernel_mktime_start t :
  0 <= tm_mon t < 12 ->
  kernel_mktime t = Some (s32 (month_start (tm_year t) (tm_mon t)
    + DAY * (tm_mday t - 1) + HOUR * tm_hour t + MINUTE * tm_min t + tm_sec t)).
Proof.
  intros Hm. unfold kernel_mktime, month_start.
  destruct (zget_is_Some month (tm_mon t)) as [m Hmonth]; [done|].
  rewrite Hmonth. simpl.
  set (year := if decide (70 <= tm_year t) then _ else _). clearbody year.
  case_decide; 
    repeat (rewrite s32_add_l || rewrite s32_sub_l || rewrite <- Z.add_assoc); do 2 f_equal; lia.
Qed.

(** [kernel_mktime] counts the seconds since 1970. *)
Lemma kernel_mktime_correct t :
  0 <= tm_year t < 100 -> 0 <= tm_mon t < 12 ->
  kernel_mktime t = Some (s32 (epoch_seconds t)).
Proof.
  intros Hy Hm. rewrite kernel_mktime_start, month_start_correct by done.
  unfold epoch_seconds, DAY, HOUR, MINUTE. do 2 f_equal. lia.
Qed.

(** ** BCD digits *)

(** The byte a BCD clock holds for a number below 100. *)
Definition to_bcd (n : Z) : Z := 16 * (n / 10) + n mod 10.

Lemma bcd_roundtrip n : 0 <= n < 100 -> BCD_TO_BIN (to_bcd n) = n.
Proof.
  intros H. assert (Hall : forallb (fun n => BCD_TO_BIN (to_bcd n) =? n) (seqZ 0 100) = true)
    by (vm_compute; reflexivity).
  rewrite forallb_forall in Hall. apply Z.eqb_eq, Hall, list_elem_of_In, elem_of_seqZ. lia.
Qed.

(** The clock shows date [t] (months from 1) during the seven reads from [n]. *)
Definition shows (c : cmos) (n : nat) (t : tm) : Prop :=
  forall k, (k < 7)%nat ->
    c (n + k)%nat 0 = to_bcd (tm_sec t) /\ c (n + k)%nat 2 = to_bcd (tm_min t) /\
    c (n + k)%nat 4 = to_bcd (tm_hour t) /\ c (n + k)%nat 7 = to_bcd (tm_mday t) /\
    c (n + k)%nat 8 = to_bcd (tm_mon t + 1) /\ c (n + k)%nat 9 = to_bcd (tm_year t).

(** A date the clock can hold. *)
Definition clock_date (t : tm) : Prop :=
  0 <= tm_sec t < 60 /\ 0 <= tm_min t < 60 /\ 0 <= tm_hour t < 24 /\
  1 <= tm_mday t <= 31 /\ 0 <= tm_mon t < 12 /\ 0 <= tm_year t < 100.

(** While the battery clock shows one date of 1970..2069 in BCD for seven reads,
    [time_init] takes it in one turn of its loop and starts the system time at the
    seconds the Gregorian calendar counts since 1 January 1970, wrapped to 32 bits. *)
Theorem time_init_correct fuel c n t :
  clock_date t -> shows c n t ->
  time_init (S fuel) c n = Some (Some (s32 (epoch_seconds t))).
Proof.
  intros (Hs & Hmi & Hh & Hd & Hmo & Hy) Hc. simpl.
  destruct (Hc O) as (E0 & _); [lia|]. destruct (Hc 1%nat) as (_ & E1 & _); [lia|].
  destruct (Hc 2%nat) as (_ & _ & E2 & _); [lia|].
  destruct (Hc 3%nat) as (_ & _ & _ & E3 & _); [lia|].
  destruct (Hc 4%nat) as (_ & _ & _ & _ & E4 & _); [lia|].
  destruct (Hc 5%nat) as (_ & _ & _ & _ & _ & E5); [lia|].
  destruct (Hc 6%nat) as (E6 & _); [lia|].
  rewrite Nat.add_0_r in E0. rewrite E0, E1, E2, E3, E4, E5, E6.
  rewrite decide_False by tauto. rewrite !bcd_roundtrip by lia.
  replace (tm_mon t + 1 - 1) with (tm_mon t) by lia.
  destruct t. simpl in *. by rewrite kernel_mktime_correct.
Qed.

(** 17 September 1991, 23:59:58. *)
Definition ex_date : tm := Tm 58 59 23 17 8 91.
Definition ex_cmos : cmos := fun _ a =>
  default 0 ((list_to_map [(0, to_bcd 58); (2, to_bcd 59); (4, to_bcd 23); (7, to_bcd 17);
                           (8, to_bcd 9); (9, to_bcd 91)] : gmap Z Z) !! a).

Lemma time_init_correct_witness :
  time_init 1 ex_cmos 0 = Some (Some 685151998).
Proof.
  assert (Hd : clock_date ex_date) by (unfold clock_date; cbn; lia).
  assert (Hs : shows ex_cmos 0 ex_date) by (intros k _; by split_and!).
  pose proof (time_init_correct 0 ex_cmos 0 ex_date Hd Hs) as H. rewrite H. by vm_compute.
Defined.

End Mktime.
