(* ===== verification/Memory.v ===== *)
(** * mm/memory.c: physical pages, page tables, copy on write

    The state is the reference-count array [mem_map], [HIGH_MEMORY], and
    physical memory as 32-bit words at word addresses (absent words are 0).  The
    page directory is at address 0, as the source relies on ([_pg_dir = 0]), and
    page tables are pages of the same memory, so a store through a table entry
    pointer is a store to [phys].  Reloading CR3 ([invalidate]) has no effect
    on this state. *)

From S2P Require Import Prelude.

Module Memory.

Definition LOW_MEM : Z := 0x100000.
Definition PAGING_MEMORY : Z := 15 * 1024 * 1024.
Definition PAGING_PAGES : Z := Z.shiftr PAGING_MEMORY 12.
Definition MAP_NR (addr : Z) : Z := Z.shiftr (addr - LOW_MEM) 12.
Definition USED : Z := 100.
Definition PAGE_MASK : Z := 0xfffff000.
Definition SIGSEGV : Z := 11.

Record mm : Type := Mm {
  HIGH_MEMORY : Z;
  mem_map : list Z;
  phys : gmap Z Z
}.

(** Word load and store. *)
Definition ld (s : mm) (a : Z) : Z := default 0 (phys s !! a).
Definition st (a v : Z) (s : mm) : mm := {| s with phys := <[a := v]> (phys s) |}.
Definition load (a : Z) : M mm Z := gets (fun s => ld s a).
Definition store (a v : Z) : M mm unit := modify (st a v).

Definition set_map (i v : Z) (s : mm) : mm := {| s with mem_map := zset (mem_map s) i v |}.

(** [mem_map[i]]; an index outside the array is undefined behaviour. *)
Definition map_get (i : Z) : M mm Z :=
  v ← gets (fun s => zget (mem_map s) i); deref "mem_map" v.
(** [mem_map[i] = v] for an unsigned char cell. *)
Definition map_set (i v : Z) : M mm unit := _ ← map_get i; modify (set_map i (u8 v)).

(** [printk("out of memory"); do_exit(SIGSEGV)]: the task does not come back. *)
Definition oom {A} : M mm A := exited SIGSEGV.

(** [copy_page(from,to)]: 1024 words, ascending. *)
Definition copy_page (from to : Z) : M mm unit :=
  for_up 1024 0 (fun i => v ← load (from + 4 * i); store (to + 4 * i) v).

(** [std ; repne ; scasb] from the last entry down: the value left in ECX when a
    zero byte is met. *)
Fixpoint scasb (n : nat) (l : list Z) : option nat :=
  match n with
  | O => None
  | S n' => if decide (l !! n' = Some 0) then Some n' else scasb n' l
  end.

Definition get_free_page : M mm Z :=
  ecx ← gets (fun s => scasb (Z.to_nat PAGING_PAGES) (mem_map s));
  match ecx with
  | None => mret 0
  | Some n =>
      map_set (Z.of_nat n) 1;;
      let edx := Z.shiftl (Z.of_nat n) 12 + LOW_MEM in
      for_down 1024 (fun i => store (edx + 4 * i) 0);;
      mret edx
  end.

Definition free_page (addr : Z) : M mm unit :=
  if decide (addr < LOW_MEM) then skip
  else
    high ← gets HIGH_MEMORY;
    if decide (high <= addr) then panic "trying to free nonexistent page"
    else
      let i := Z.shiftr (addr - LOW_MEM) 12 in
      v ← map_get i;
      map_set i (v - 1);;
      if decide (v <> 0) then skip
      else map_set i 0;; panic "trying to free free page".

Definition dir_addr (address : Z) : Z := Z.land (Z.shiftr address 20) 0xffc.

(** The inner loop of [free_page_tables] over one page table. *)
Definition free_page_table (pg_table : Z) : M mm unit :=
  for_up 1024 0 (fun nr =>
    e ← load (pg_table + 4 * nr);
    (if decide (Z.land 1 e <> 0) then free_page (Z.land PAGE_MASK e) else skip);;
    store (pg_table + 4 * nr) 0).

(** One turn of the directory loop. *)
Definition free_page_dir (dir : Z) : M mm unit :=
  d ← load dir;
  if decide (Z.land 1 d = 0) then skip
  else
    free_page_table (Z.land PAGE_MASK d);;
    free_page (Z.land PAGE_MASK d);;
    store dir 0.

Definition free_page_tables (from size : Z) : M mm Z :=
  if decide (Z.land from 0x3fffff <> 0) then
    panic "free_page_tables called with wrong alignment"
  else if decide (from = 0) then panic "Trying to free up swapper memory space"
  else
    let size := Z.shiftr (u32 (size + 0x3fffff)) 22 in
    for_up (Z.to_nat size) 0 (fun n => free_page_dir (dir_addr from + 4 * n));;
    mret 0.

(** One entry of the page-copying loop. *)
Definition copy_page_entry (from_entry to_entry : Z) : M mm unit :=
  this_page ← load from_entry;
  if decide (Z.land 1 this_page = 0) then skip
  else
    let this_page := Z.ldiff this_page 2 in
    store to_entry this_page;;
    if decide (LOW_MEM < this_page) then
      store from_entry this_page;;
      let i := MAP_NR this_page in
      v ← map_get i;
      map_set i (v + 1)
    else skip.

(** [copy_page_tables]; the directory loop returns -1 when a page table cannot
    be allocated. *)
Fixpoint copy_dirs (n : nat) (nr from_dir to_dir : Z) : M mm Z :=
  match n with
  | O => mret 0
  | S n' =>
      td ← load to_dir;
      if decide (Z.land 1 td <> 0) then panic "copy_page_tables: already exist"
      else
        fd ← load from_dir;
        if decide (Z.land 1 fd = 0) then copy_dirs n' nr (from_dir + 4) (to_dir + 4)
        else
          let from_page_table := Z.land PAGE_MASK fd in
          to_page_table ← get_free_page;
          if decide (to_page_table = 0) then mret (-1)
          else
            store to_dir (Z.lor to_page_table 7);;
            for_up (Z.to_nat nr) 0 (fun k =>
              copy_page_entry (from_page_table + 4 * k) (to_page_table + 4 * k));;
            copy_dirs n' nr (from_dir + 4) (to_dir + 4)
  end.

Definition copy_page_tables (from to size : Z) : M mm Z :=
  if decide (Z.land from 0x3fffff <> 0 \/ Z.land to 0x3fffff <> 0) then
    panic "copy_page_tables called with wrong alignment"
  else
    let size := Z.shiftr (u32 (size + 0x3fffff)) 22 in
    let nr := if decide (from = 0) then 0xA0 else 1024 in
    copy_dirs (Z.to_nat size) nr (dir_addr from) (dir_addr to).

(** [put_page]; its two sanity checks only print.  The second reads [mem_map] without a bound;
    for a page outside memory that read is out of the array, which is left out here. *)
Definition put_page (page address : Z) : M mm Z :=
  let entry := 4 * Z.land (Z.shiftr address 12) 0x3ff in
  d ← load (dir_addr address);
  if decide (Z.land d 1 <> 0) then
    store (Z.land PAGE_MASK d + entry) (Z.lor page 7);; mret page
  else
    tmp ← get_free_page;
    if decide (tmp = 0) then mret 0
    else
      store (dir_addr address) (Z.lor tmp 7);;
      store (tmp + entry) (Z.lor page 7);; mret page.

Definition un_wp_page (table_entry : Z) : M mm unit :=
  e ← load table_entry;
  let old_page := Z.land PAGE_MASK e in
  count ← (if decide (LOW_MEM <= old_page) then map_get (MAP_NR old_page) else mret 0);
  if decide (LOW_MEM <= old_page /\ count = 1) then store table_entry (Z.lor e 2)
  else
    new_page ← get_free_page;
    (if decide (new_page = 0) then oom else skip);;
    (if decide (LOW_MEM <= old_page) then
       v ← map_get (MAP_NR old_page); map_set (MAP_NR old_page) (v - 1)
     else skip);;
    store table_entry (Z.lor new_page 7);;
    copy_page old_page new_page.

(** The address of the page-table entry of [address], given the directory word. *)
Definition pte_addr (d address : Z) : Z :=
  Z.land (Z.shiftr address 10) 0xffc + Z.land PAGE_MASK d.

Definition do_wp_page (error_code address : Z) : M mm unit :=
  d ← load (dir_addr address);
  un_wp_page (pte_addr d address).

Definition write_verify (address : Z) : M mm unit :=
  page ← load (dir_addr address);
  if decide (Z.land page 1 = 0) then skip
  else
    e ← load (pte_addr page address);
    if decide (Z.land 3 e = 1) then un_wp_page (pte_addr page address) else skip.

Definition get_empty_page (address : Z) : M mm unit :=
  tmp ← get_free_page;
  ok ← (if decide (tmp = 0) then mret false
        else r ← put_page tmp address; mret (bool_decide (r <> 0)));
  if (ok : bool) then skip else free_page tmp;; oom.

(** [try_to_share(address,p)]; the arguments are [p->start_code] and
    [current->start_code]. *)
Definition try_to_share (address p_start_code cur_start_code : Z) : M mm Z :=
  let from_page := dir_addr address + dir_addr p_start_code in
  let to_page := dir_addr address + dir_addr cur_start_code in
  from ← load from_page;
  if decide (Z.land from 1 = 0) then mret 0
  else
    let from_page := Z.land from PAGE_MASK + Z.land (Z.shiftr address 10) 0xffc in
    phys_addr ← load from_page;
    if decide (Z.land phys_addr 0x41 <> 1) then mret 0
    else
      let phys_addr := Z.land phys_addr PAGE_MASK in
      high ← gets HIGH_MEMORY;
      if decide (high <= phys_addr \/ phys_addr < LOW_MEM) then mret 0
      else
        to ← load to_page;
        to ← (if decide (Z.land to 1 = 0) then
                t ← get_free_page;
                if decide (t = 0) then oom
                else store to_page (Z.lor t 7);; mret t
              else mret to);
        let to_page := Z.land to PAGE_MASK + Z.land (Z.shiftr address 10) 0xffc in
        te ← load to_page;
        if decide (Z.land 1 te <> 0) then panic "try_to_share: to_page already exists"
        else
          fe ← load from_page;
          store from_page (Z.ldiff fe 2);;
          fe ← load from_page;
          store to_page fe;;
          let i := MAP_NR phys_addr in
          v ← map_get i;
          map_set i (v + 1);;
          mret 1.

Definition mem_init (start_mem end_mem : Z) : M mm unit :=
  modify (fun s => {| s with HIGH_MEMORY := end_mem |});;
  for_up (Z.to_nat PAGING_PAGES) 0 (fun i => map_set i USED);;
  let i := MAP_NR start_mem in
  for_up (Z.to_nat (Z.shiftr (end_mem - start_mem) 12)) i (fun i => map_set i 0).

(** The numbers [calc_mem] prints: free pages, and for each directory entry
    from 2 on that is present, the pages it maps. *)
Definition count_present (s : mm) (pg_tbl : Z) : Z :=
  zlen (filter (fun j => Z.land (ld s (pg_tbl + 4 * j)) 1 <> 0) (seqZ 0 1024)).

Definition calc_mem : M mm (Z * list (Z * Z)) := gets (fun s =>
  (zlen (filter (fun v => v = 0) (take (Z.to_nat PAGING_PAGES) (mem_map s))),
   omap (fun i =>
     let d := ld s (4 * i) in
     if decide (Z.land 1 d = 0) then None
     else Some (i, count_present s (Z.land PAGE_MASK d))) (seqZ 2 1022))).

End Memory.
