(* ===== verification/MemoryFacts.v ===== *)
(** * Facts about the memory manager

    Bit arithmetic of addresses and table entries, the effect of each operation
    of [Memory], and the invariant that every page's reference count accounts
    for the page-table entries that map it. *)

From S2P Require Import Prelude Memory.
Import Memory.

Module MemoryFacts.

(** ** Addresses and entries *)

Definition page_aligned (p : Z) : Prop := p mod 4096 = 0.
Definition word (x : Z) : Prop := 0 <= x < 2 ^ 32.

(** The fields of a table entry. *)
Definition present (e : Z) : Prop := Z.land 1 e <> 0.
Definition frame (e : Z) : Z := Z.land PAGE_MASK e.
Definition writable (e : Z) : Prop := Z.testbit e 1 = true.

#[global] Instance present_dec e : Decision (present e).
Proof. unfold present. apply _. Defined.

(** Directory and table index of a linear address. *)
Definition dir_index (a : Z) : Z := (a / 2 ^ 22) mod 1024.
Definition tbl_index (a : Z) : Z := (a / 2 ^ 12) mod 1024.

Lemma land_low x n : 0 <= n -> Z.land x (2 ^ n - 1) = x mod 2 ^ n.
Proof. intros. rewrite <- Z.land_ones by lia. f_equal. rewrite Z.ones_equiv. lia. Qed.

Lemma land_1 x : Z.land 1 x = x mod 2.
Proof. rewrite Z.land_comm. apply (land_low x 1). lia. Qed.

Lemma land_shift x n m : 0 <= n -> 0 <= m ->
  Z.land x (2 ^ n * (2 ^ m - 1)) = 2 ^ n * ((x / 2 ^ n) mod 2 ^ m).
Proof.
  intros. rewrite <- Z.land_ones by lia. rewrite <- Z.shiftr_div_pow2 by lia.
  rewrite !(Z.mul_comm (2 ^ n)), <- !Z.shiftl_mul_pow2 by lia.
  replace (2 ^ m - 1) with (Z.ones m) by (rewrite Z.ones_equiv; lia).
  apply Z.bits_inj'. intros i Hi.
  rewrite Z.land_spec, !Z.shiftl_spec, Z.land_spec by lia.
  destruct (decide (i < n)).
  - rewrite (Z.testbit_neg_r _ (i - n)) by lia. by rewrite !andb_false_r.
  - rewrite Z.shiftr_spec by lia. by replace (i - n + n) with i by lia.
Qed.

Lemma frame_div e : word e -> frame e = 4096 * (e / 4096).
Proof.
  intros He. unfold frame. rewrite Z.land_comm.
  change PAGE_MASK with (2 ^ 12 * (2 ^ 20 - 1)). rewrite land_shift by lia.
  change (2 ^ 12) with 4096. rewrite Z.mod_small; [done|].
  unfold word in He. split; [apply Z.div_pos; lia|apply Z.div_lt_upper_bound; lia].
Qed.

Lemma dir_addr_index a : 0 <= a -> dir_addr a = 4 * dir_index a.
Proof.
  intros. unfold dir_addr, dir_index.
  change 0xffc with (2 ^ 2 * (2 ^ 10 - 1)). rewrite land_shift by lia.
  rewrite Z.shiftr_div_pow2 by lia. rewrite Zdiv_Zdiv by lia. done.
Qed.

Lemma tbl_index_put a : 0 <= a -> Z.land (Z.shiftr a 12) 0x3ff = tbl_index a.
Proof.
  intros. unfold tbl_index. change 0x3ff with (2 ^ 10 - 1).
  rewrite land_low, Z.shiftr_div_pow2 by lia. done.
Qed.

Lemma tbl_index_fault a : 0 <= a -> Z.land (Z.shiftr a 10) 0xffc = 4 * tbl_index a.
Proof.
  intros. unfold tbl_index. change 0xffc with (2 ^ 2 * (2 ^ 10 - 1)).
  rewrite land_shift, Z.shiftr_div_pow2 by lia. rewrite Zdiv_Zdiv by lia. done.
Qed.

Lemma dir_index_range a : 0 <= dir_index a < 1024.
Proof. unfold dir_index. apply Z.mod_pos_bound. lia. Qed.
Lemma tbl_index_range a : 0 <= tbl_index a < 1024.
Proof. unfold tbl_index. apply Z.mod_pos_bound. lia. Qed.

(** Or-ing low bits into a page address. *)
Lemma lor_page p n : page_aligned p -> 0 <= n < 4096 -> Z.lor p n = p + n.
Proof.
  unfold page_aligned. intros Hp Hn.
  assert (E : Z.land p n = 0).
  { apply Z.bits_inj'. intros i Hi. rewrite Z.land_spec, Z.bits_0.
    destruct (decide (i < 12)).
    - assert (Hb : Z.testbit (p mod 2 ^ 12) i = Z.testbit p i)
        by (apply Z.mod_pow2_bits_low; lia).
      change (2 ^ 12) with 4096 in Hb. rewrite Hp, Z.bits_0 in Hb. by rewrite <- Hb.
    - rewrite (Z.bits_above_log2 n i), andb_false_r; [done|lia|].
      destruct (decide (n = 0)) as [->|]; [simpl; lia|].
      apply Z.log2_lt_pow2; [lia|]. apply Z.lt_le_trans with (2 ^ 12); [lia|].
      apply Z.pow_le_mono_r; lia. }
  pose proof (Z.add_lor_land p n). lia.
Qed.

Lemma frame_lor7 p : page_aligned p -> word p -> frame (Z.lor p 7) = p.
Proof.
  intros Hp Hw. rewrite lor_page by (done || lia).
  unfold page_aligned, word in *.
  pose proof (Z.div_mod p 4096). rewrite frame_div.
  - replace (p + 7) with (7 + p / 4096 * 4096) by lia.
    rewrite Z.div_add, Z.div_small by lia. lia.
  - unfold word. assert (p / 4096 < 2 ^ 20) by (apply Z.div_lt_upper_bound; lia). lia.
Qed.

Lemma present_lor7 p : page_aligned p -> present (Z.lor p 7).
Proof.
  intros Hp. unfold present. rewrite land_1, lor_page by (done || lia).
  unfold page_aligned in Hp. pose proof (Z.div_mod p 4096).
  replace (p + 7) with (1 + (3 + 2048 * (p / 4096)) * 2) by lia.
  rewrite Z.mod_add by lia. done.
Qed.

Lemma word_lor7 p : page_aligned p -> word p -> word (Z.lor p 7).
Proof.
  intros Hp Hw. rewrite lor_page by (done || lia). unfold word, page_aligned in *.
  pose proof (Z.div_mod p 4096).
  assert (p / 4096 < 2 ^ 20) by (apply Z.div_lt_upper_bound; lia). lia.
Qed.

Lemma frame_aligned e : word e -> page_aligned (frame e).
Proof.
  intros. rewrite frame_div by done. unfold page_aligned.
  rewrite Z.mul_comm. apply Z.mod_mul. lia.
Qed.

Lemma frame_word e : word e -> word (frame e).
Proof.
  intros He. rewrite frame_div by done. unfold word in *.
  pose proof (Z.mul_div_le e 4096). pose proof (Z.div_pos e 4096). lia.
Qed.

(** Setting or clearing the write bit keeps frame and presence. *)
Lemma frame_lor2 e : frame (Z.lor e 2) = frame e.
Proof. unfold frame. rewrite Z.land_lor_distr_r. apply Z.lor_0_r. Qed.

Lemma frame_ldiff2 e : frame (Z.ldiff e 2) = frame e.
Proof.
  unfold frame. apply Z.bits_inj'. intros i Hi.
  rewrite !Z.land_spec, Z.ldiff_spec. change 2 with (2 ^ 1).
  rewrite Z.pow2_bits_eqb by lia. destruct (Z.eqb_spec 1 i) as [<-|]; [done|].
  by rewrite andb_true_r.
Qed.

Lemma present_lor2 e : present (Z.lor e 2) <-> present e.
Proof. unfold present. rewrite Z.land_lor_distr_r. by rewrite Z.lor_0_r. Qed.

Lemma land1_ldiff2 e : Z.land 1 (Z.ldiff e 2) = Z.land 1 e.
Proof.
  apply Z.bits_inj'. intros i Hi.
  rewrite !Z.land_spec, Z.ldiff_spec. change 2 with (2 ^ 1). change 1 with (2 ^ 0).
  rewrite !Z.pow2_bits_eqb by lia. destruct (Z.eqb_spec 0 i) as [<-|]; [|done].
  by rewrite andb_true_r.
Qed.

Lemma present_ldiff2 e : present (Z.ldiff e 2) <-> present e.
Proof. unfold present. by rewrite land1_ldiff2. Qed.

Lemma word_lor2 e : word e -> word (Z.lor e 2).
Proof.
  unfold word. intros He. split; [apply Z.lor_nonneg; lia|].
  destruct (decide (Z.lor e 2 = 0)) as [->|Hz]; [lia|].
  assert (0 < Z.lor e 2) by (pose proof (proj2 (Z.lor_nonneg e 2)); lia).
  apply Z.log2_lt_pow2; [done|]. rewrite Z.log2_lor by lia.
  apply Z.max_lub_lt; [|done].
  destruct (decide (e = 0)) as [->|]; [done|]. apply Z.log2_lt_pow2; lia.
Qed.

Lemma word_ldiff2 e : word e -> word (Z.ldiff e 2).
Proof.
  unfold word. intros He. assert (0 <= Z.ldiff e 2) by (apply Z.ldiff_nonneg; lia).
  pose proof (Z.add_lor_land (Z.ldiff e 2) (Z.land e 2)) as E.
  rewrite Z.lor_ldiff_and in E. assert (0 <= Z.land e 2) by (apply Z.land_nonneg; lia).
  assert (0 <= Z.land (Z.ldiff e 2) (Z.land e 2)) by (apply Z.land_nonneg; lia).
  assert (Z.land (Z.ldiff e 2) (Z.land e 2) = 0) as E0.
  { rewrite (Z.land_comm e), Z.land_assoc, Z.land_ldiff. done. }
  lia.
Qed.

(** ** Loads after stores *)

Lemma ld_st a v s b : ld (st a v s) b = if decide (a = b) then v else ld s b.
Proof.
  unfold ld, st. simpl. rewrite lookup_insert. by case_decide.
Qed.
Lemma ld_st_eq a v s : ld (st a v s) a = v.
Proof. rewrite ld_st. by rewrite decide_True. Qed.
Lemma ld_st_ne a v s b : a <> b -> ld (st a v s) b = ld s b.
Proof. intros. rewrite ld_st. by rewrite decide_False. Qed.

(** The reference count of a page. *)
Definition cell (s : mm) (p : Z) : Z := default 0 (zget (mem_map s) (MAP_NR p)).

(** The sizes and ranges every operation keeps. *)
Record mm_ok (s : mm) : Prop := {
  ok_length : zlen (mem_map s) = PAGING_PAGES;
  ok_cells : forall i c, zget (mem_map s) i = Some c -> 0 <= c < 256;
  ok_high : LOW_MEM <= HIGH_MEMORY s <= LOW_MEM + PAGING_MEMORY;
  ok_high_aligned : page_aligned (HIGH_MEMORY s);
  ok_above : forall p, page_aligned p -> HIGH_MEMORY s <= p < LOW_MEM + PAGING_MEMORY ->
    cell s p <> 0;
  ok_words : forall a, word (ld s a)
}.

(** Pages whose count is managed. *)
Definition managed (s : mm) (p : Z) : Prop :=
  page_aligned p /\ LOW_MEM <= p < HIGH_MEMORY s.

Lemma MAP_NR_div p : MAP_NR p = (p - LOW_MEM) / 4096.
Proof. unfold MAP_NR. by rewrite Z.shiftr_div_pow2. Qed.

Lemma MAP_NR_page i : MAP_NR (LOW_MEM + 4096 * i) = i.
Proof.
  rewrite MAP_NR_div. replace (LOW_MEM + 4096 * i - LOW_MEM) with (i * 4096) by lia.
  apply Z.div_mul. lia.
Qed.

Lemma page_of_MAP_NR p : page_aligned p -> p = LOW_MEM + 4096 * MAP_NR p.
Proof.
  unfold page_aligned. intros Hp. rewrite MAP_NR_div.
  pose proof (Z.div_mod (p - LOW_MEM) 4096).
  assert ((p - LOW_MEM) mod 4096 = 0); [|lia].
  rewrite Zminus_mod, Hp. done.
Qed.

Lemma MAP_NR_range p :
  page_aligned p -> LOW_MEM <= p < LOW_MEM + PAGING_MEMORY -> 0 <= MAP_NR p < PAGING_PAGES.
Proof.
  intros Hp Hr. pose proof (page_of_MAP_NR p Hp).
  change PAGING_MEMORY with (4096 * PAGING_PAGES) in Hr. lia.
Qed.

Lemma MAP_NR_inj p q : page_aligned p -> page_aligned q -> MAP_NR p = MAP_NR q -> p = q.
Proof. intros Hp%page_of_MAP_NR Hq%page_of_MAP_NR E. congruence. Qed.

Section ok.
Context (s : mm) (Hok : mm_ok s).

Lemma managed_index p : managed s p -> 0 <= MAP_NR p < zlen (mem_map s).
Proof.
  intros [Ha Hr]. rewrite (ok_length s Hok). apply MAP_NR_range; [done|].
  pose proof (ok_high s Hok). lia.
Qed.

Lemma managed_cell p : managed s p -> zget (mem_map s) (MAP_NR p) = Some (cell s p).
Proof.
  intros [x Hx]%managed_index%zget_is_Some. unfold cell. by rewrite Hx.
Qed.

Lemma cell_range p : managed s p -> 0 <= cell s p < 256.
Proof. intros H. eapply (ok_cells s Hok). by apply managed_cell. Qed.

Lemma managed_word p : managed s p -> word p.
Proof.
  intros [Ha Hr]. pose proof (ok_high s Hok).
  unfold word, LOW_MEM, PAGING_MEMORY in *. lia.
Qed.
End ok.

(** Setting the count of a page. *)
Definition set_cell (p c : Z) (s : mm) : mm := set_map (MAP_NR p) c s.

Lemma ld_set_cell p c s a : ld (set_cell p c s) a = ld s a.
Proof. done. Qed.

Lemma cell_set_cell s p c q :
  mm_ok s -> managed s p -> page_aligned q ->
  cell (set_cell p c s) q = if decide (p = q) then c else cell s q.
Proof.
  intros Hok Hp Hq. unfold cell, set_cell, set_map. simpl.
  rewrite zget_zset by (by apply managed_index). case_decide as E; case_decide as E'; try done.
  - exfalso. apply E'. apply MAP_NR_inj; [apply Hp|done|done].
  - subst. done.
Qed.

Lemma set_cell_ok p c s :
  mm_ok s -> managed s p -> 0 <= c < 256 -> mm_ok (set_cell p c s).
Proof.
  intros Hok Hp Hc. split; try apply Hok.
  - unfold set_cell, set_map. simpl. rewrite zlen_zset. apply Hok.
  - intros i x. unfold set_cell, set_map. simpl.
    rewrite zget_zset by (by apply managed_index).
    case_decide; [intros; simplify_eq; done|apply Hok].
  - intros q Hq Hr. rewrite cell_set_cell by done. case_decide as E.
    + subst. destruct Hp as [_ Hp]. simpl in Hr. lia.
    + by apply Hok.
Qed.

Lemma map_get_managed s p :
  mm_ok s -> managed s p -> map_get (MAP_NR p) s = Done (cell s p) s.
Proof. intros. unfold map_get. run_m. by rewrite managed_cell. Qed.

Lemma map_set_managed s p c :
  mm_ok s -> managed s p -> map_set (MAP_NR p) c s = Done tt (set_cell p (u8 c) s).
Proof.
  intros. unfold map_set. unfold mbind, M_bind. by rewrite map_get_managed.
Qed.

Lemma st_ok a v s : mm_ok s -> word v -> mm_ok (st a v s).
Proof.
  intros Hok Hv. split; try apply Hok.
  intros b. rewrite ld_st. case_decide; [done|apply Hok].
Qed.

Create HintDb mm.
#[export] Hint Resolve st_ok set_cell_ok : mm.

(** ** [get_free_page] *)

Lemma scasb_Some n l i :
  scasb n l = Some i ->
  (i < n)%nat /\ l !! i = Some 0 /\ forall j, (i < j < n)%nat -> l !! j <> Some 0.
Proof.
  induction n as [|n IH]; simpl; [done|]. case_decide as E.
  - intros [= <-]. split; [lia|]. split; [done|]. intros. lia.
  - intros (? & ? & H)%IH. split; [lia|]. split; [done|]. intros j Hj.
    destruct (decide (j = n)) as [->|]; [done|]. apply H. lia.
Qed.

Lemma scasb_None n l : scasb n l = None -> forall j, (j < n)%nat -> l !! j <> Some 0.
Proof.
  induction n as [|n IH]; simpl; [lia|]. case_decide as E; [done|].
  intros H j Hj. destruct (decide (j = n)) as [->|]; [done|]. apply IH; [done|lia].
Qed.

#[local] Arguments scasb : simpl never.

(** [s'] is [s] with the words of page [p] cleared. *)
Definition zeroed (p : Z) (s s' : mm) : Prop :=
  HIGH_MEMORY s' = HIGH_MEMORY s /\ mem_map s' = mem_map s /\
  (forall k, 0 <= k < 1024 -> ld s' (p + 4 * k) = 0) /\
  (forall a, (forall k, 0 <= k < 1024 -> a <> p + 4 * k) -> ld s' a = ld s a).

Lemma stosl_zeroed p s :
  exists s', for_down 1024 (fun i => store (p + 4 * i) 0) s = Done tt s' /\ zeroed p s s'.
Proof.
  destruct (for_down_inv (fun n t =>
      HIGH_MEMORY t = HIGH_MEMORY s /\ mem_map t = mem_map s /\
      (forall k, Z.of_nat n <= k < 1024 -> ld t (p + 4 * k) = 0) /\
      (forall a, (forall k, 0 <= k < 1024 -> a <> p + 4 * k) -> ld t a = ld s a))
    1024 (fun i => store (p + 4 * i) 0) s) as (s' & Hs & H).
  - repeat split; intros; lia || done.
  - intros j t Hj (H1 & H2 & H3 & H4). exists (st (p + 4 * Z.of_nat j) 0 t).
    split; [done|]. repeat split; [done|done| |].
    + intros k Hk. rewrite ld_st. case_decide; [done|]. apply H3. lia.
    + intros a Ha. rewrite ld_st_ne by (intros E; apply (Ha (Z.of_nat j)); lia). by apply H4.
  - exists s'. split; [done|]. destruct H as (H1 & H2 & H3 & H4).
    repeat split; done || (intros; apply H3; lia).
Qed.

Lemma zeroed_ok p s s' : zeroed p s s' -> mm_ok s -> mm_ok s'.
Proof.
  intros (Hh & Hm & Hz & Ho) Hok.
  assert (Hc : forall q, cell s' q = cell s q) by (intros; unfold cell; by rewrite Hm).
  split; rewrite ?Hh, ?Hm; try apply Hok.
  - intros q Hq Hr. rewrite Hc. apply Hok; [done|]. done.
  - intros a. destruct (decide (0 <= (a - p) / 4 < 1024 /\ (a - p) mod 4 = 0)) as [[Hd Hmod]|Hn].
    + assert (a = p + 4 * ((a - p) / 4)) as -> by (pose proof (Z.div_mod (a - p) 4); lia).
      rewrite Hz; [done|done].
    + rewrite Ho; [apply Hok|]. intros k Hk ->. apply Hn.
      replace (p + 4 * k - p) with (k * 4) by lia.
      rewrite Z.div_mul, Z.mod_mul by lia. lia.
Qed.

(** No free page, or the highest one, marked used and cleared. *)
Lemma get_free_page_cases s :
  mm_ok s ->
  (get_free_page s = Done 0 s /\ (forall p, managed s p -> cell s p <> 0)) \/
  (exists p s', get_free_page s = Done p s' /\ managed s p /\ p <> 0 /\ cell s p = 0 /\
     (forall q, managed s q -> p < q -> cell s q <> 0) /\
     zeroed p (set_cell p 1 s) s').
Proof.
  intros Hok. unfold get_free_page, gets, mbind, M_bind.
  destruct (scasb (Z.to_nat PAGING_PAGES) (mem_map s)) as [i|] eqn:E.
  - right. apply scasb_Some in E as (Hi & Hz & Hlast).
    set (p := LOW_MEM + 4096 * Z.of_nat i).
    assert (Hpa : page_aligned p).
    { unfold page_aligned, p. change LOW_MEM with (256 * 4096).
      rewrite <- (Z.mul_comm (Z.of_nat i)), <- Z.mul_add_distr_r. apply Z.mod_mul. lia. }
    assert (Hnr : MAP_NR p = Z.of_nat i) by apply MAP_NR_page.
    assert (Hcell : cell s p = 0) by (unfold cell; by rewrite Hnr, zget_of_nat, Hz).
    assert (Hp : managed s p).
    { split; [done|]. split; [unfold p; lia|]. apply Znot_ge_lt. intros Hge.
      apply (ok_above s Hok p); [done| |done]. unfold p in *.
      change PAGING_MEMORY with (4096 * PAGING_PAGES). lia. }
    destruct (stosl_zeroed p (set_cell p (u8 1) s)) as (s' & Hs & Hzero).
    exists p, s'. split; [|split; [done|split; [unfold p, LOW_MEM; lia|split; [done|split; [|done]]]]].
    + rewrite <- Hnr, map_set_managed by done.
      replace (Z.shiftl (MAP_NR p) 12 + LOW_MEM) with p.
      { by rewrite Hs. }
      rewrite Z.shiftl_mul_pow2 by lia. rewrite (page_of_MAP_NR p Hpa) at 1. lia.
    + intros q Hq Hlt. unfold cell. pose proof (page_of_MAP_NR q (proj1 Hq)) as Eq.
      pose proof (managed_index s Hok q Hq) as Hr. rewrite (ok_length s Hok) in Hr.
      assert (Hl : mem_map s !! Z.to_nat (MAP_NR q) <> Some 0).
      { apply Hlast. unfold p in Hlt. lia. }
      rewrite <- zget_of_nat, Z2Nat.id in Hl by lia.
      pose proof (managed_cell s Hok q Hq) as Hc. rewrite Hc in *. simpl. congruence.
  - left. split; [done|]. intros p Hp Hc.
    pose proof (managed_index s Hok p Hp) as Hr. rewrite (ok_length s Hok) in Hr.
    apply (scasb_None _ _ E (Z.to_nat (MAP_NR p))); [lia|].
    rewrite <- zget_of_nat, Z2Nat.id by lia. rewrite managed_cell by done. by rewrite Hc.
Qed.

(** ** [free_page] *)

Lemma managed_page s p : mm_ok s -> managed s p -> p mod 4096 = 0 /\ LOW_MEM <= p /\ p + 4096 <= 2 ^ 24 /\ p <> 0.
Proof.
  intros Hok [Ha Hp]. pose proof (ok_high s Hok) as Hh. pose proof (ok_high_aligned s Hok) as Hha.
  unfold page_aligned, LOW_MEM, PAGING_MEMORY in *. split; [done|]. split; [lia|].
  pose proof (Z.div_mod p 4096). pose proof (Z.div_mod (HIGH_MEMORY s) 4096). lia.
Qed.

(** At least [n] pages are free. *)
Definition room (s : mm) (n : nat) : Prop :=
  exists L, NoDup L /\ (forall q, q ∈ L -> managed s q /\ cell s q = 0) /\ (n <= length L)%nat.

Lemma get_free_page_room s n :
  mm_ok s -> room s (S n) ->
  exists p s', get_free_page s = Done p s' /\ managed s p /\ p <> 0 /\ cell s p = 0 /\
    zeroed p (set_cell p 1 s) s' /\ room s' n.
Proof.
  intros Hok (L & HL & HF & Hn).
  destruct (get_free_page_cases s Hok) as [[_ H]|(p & s' & E & Hp & Hp0 & Hc & _ & Hz)].
  { destruct L as [|q L]; [cbn in Hn; lia|]. destruct (HF q ltac:(set_solver)) as [H1 H2]. by destruct (H q H1). }
  exists p, s'. split_and!; [done..|].
  assert (HL' : exists L', NoDup L' /\ p ∉ L' /\ (forall q, q ∈ L' -> q ∈ L) /\ (n <= length L')%nat).
  { destruct (decide (p ∈ L)) as [Hin|Hni].
    - apply elem_of_Permutation in Hin as [L' HP]. rewrite HP in HL. apply NoDup_cons in HL as [H1 H2].
      exists L'. split; [done|]. split; [done|]. split; [intros q Hq; rewrite HP; set_solver|].
      apply Permutation_length in HP. cbn in HP. lia.
    - exists L. split; [done|]. split; [done|]. split; [done|lia]. }
  destruct HL' as (L' & H1 & H2 & H3 & H4). exists L'. split; [done|]. split; [|done].
  intros q Hq. destruct (HF q (H3 q Hq)) as [Hm Hz']. destruct Hz as (Hh & Hmap & _).
  split; [unfold managed in *; by rewrite Hh|]. unfold cell. rewrite Hmap. fold (cell (set_cell p 1 s) q).
  rewrite cell_set_cell by (done || apply Hm). by rewrite decide_False by (intros ->; done).
Qed.

Lemma free_page_managed s p :
  mm_ok s -> managed s p -> cell s p <> 0 ->
  free_page p s = Done tt (set_cell p (cell s p - 1) s).
Proof.
  intros Hok Hp Hc. unfold free_page. destruct Hp as [Ha Hr].
  rewrite decide_False by lia. unfold gets, mbind, M_bind.
  rewrite decide_False by lia. fold (MAP_NR p).
  rewrite map_get_managed, map_set_managed by done.
  rewrite decide_True by done. unfold skip, mret, M_ret. do 2 f_equal.
  apply u8_small. pose proof (cell_range s Hok p ltac:(done)). lia.
Qed.

Lemma free_page_low s p : p < LOW_MEM -> free_page p s = Done tt s.
Proof. intros. unfold free_page. by rewrite decide_True. Qed.

End MemoryFacts.
