(* ===== verification/PageRefs.v ===== *)
(** * Reference counts account for mappings

    [refs s p] counts the user page-table entries and directory entries that
    point at page [p].  [mem_inv] is the well-formedness of the paging structure
    above 64 MB, where user address spaces live; [delta] says by how much an
    operation changed the references of each page that no table accounts for
    (pages the kernel holds itself).  Each table store has its lemma here. *)

From S2P Require Import Prelude Memory MemoryFacts.
Import Memory MemoryFacts.

Module PageRefs.

(** ** Finite sums *)

Fixpoint sumZ (n : nat) (f : Z -> Z) : Z :=
  match n with O => 0 | S n' => sumZ n' f + f (Z.of_nat n') end.

Lemma sumZ_ext n f g :
  (forall i, 0 <= i < Z.of_nat n -> f i = g i) -> sumZ n f = sumZ n g.
Proof.
  induction n as [|n IH]; intros H; simpl; [done|].
  rewrite IH, H by (intros; try apply H; lia). done.
Qed.

Lemma sumZ_update n f g j :
  0 <= j < Z.of_nat n -> (forall i, 0 <= i < Z.of_nat n -> i <> j -> g i = f i) ->
  sumZ n g = sumZ n f - f j + g j.
Proof.
  induction n as [|n IH]; intros Hj H; simpl; [lia|].
  destruct (decide (j = Z.of_nat n)) as [->|].
  - rewrite (sumZ_ext n g f) by (intros; apply H; lia). lia.
  - rewrite IH, (H (Z.of_nat n)) by (intros; try apply H; lia). lia.
Qed.

Lemma sumZ_nonneg n f : (forall i, 0 <= i < Z.of_nat n -> 0 <= f i) -> 0 <= sumZ n f.
Proof.
  induction n as [|n IH]; intros H; simpl; [lia|].
  pose proof (H (Z.of_nat n)). assert (0 <= sumZ n f) by (apply IH; intros; apply H; lia). lia.
Qed.

Lemma sumZ_le n f j :
  (forall i, 0 <= i < Z.of_nat n -> 0 <= f i) -> 0 <= j < Z.of_nat n -> f j <= sumZ n f.
Proof.
  induction n as [|n IH]; intros H Hj; simpl; [lia|].
  pose proof (H (Z.of_nat n) ltac:(lia)).
  assert (0 <= sumZ n f) by (apply sumZ_nonneg; intros; apply H; lia).
  destruct (decide (j = Z.of_nat n)) as [->|]; [lia|].
  assert (f j <= sumZ n f) by (apply IH; [intros; apply H|]; lia). lia.
Qed.

Lemma sumZ_zero n f : (forall i, 0 <= i < Z.of_nat n -> f i = 0) -> sumZ n f = 0.
Proof.
  induction n as [|n IH]; intros H; simpl; [done|].
  rewrite IH, H by (intros; try apply H; lia). done.
Qed.

#[global] Arguments sumZ : simpl never.

(** ** The paging structure *)

(** Directory entry [i], the table it points to, and entry [k] of that table. *)
Definition dirw (s : mm) (i : Z) : Z := ld s (4 * i).
Definition table (s : mm) (i : Z) : Z := frame (dirw s i).
Definition pte (s : mm) (i k : Z) : Z := ld s (table s i + 4 * k).

(** User directory entries: linear addresses from 64 MB on. *)
Definition user (s : mm) (i : Z) : Prop := 16 <= i < 1024 /\ present (dirw s i).
#[global] Instance user_dec s i : Decision (user s i).
Proof. unfold user. apply _. Defined.

(** Does entry [e] map page [p]? *)
Definition maps (e p : Z) : Z := if decide (present e /\ frame e = p) then 1 else 0.

Definition tbl_refs (s : mm) (i p : Z) : Z := sumZ 1024 (fun k => maps (pte s i k) p).
Definition dir_refs (s : mm) (i p : Z) : Z :=
  if decide (user s i) then maps (dirw s i) p + tbl_refs s i p else 0.
Definition refs (s : mm) (p : Z) : Z := sumZ 1024 (fun i => dir_refs s i p).

(** References to a page that no user table accounts for. *)
Definition extra (s : mm) (p : Z) : Z := cell s p - refs s p.

(** Well-formed user tables: every table is a managed page of its own, and no
    entry maps a table or a page past the end of memory. *)
Record pg_inv (s : mm) : Prop := {
  inv_ok : mm_ok s;
  inv_table : forall i, user s i -> managed s (table s i);
  inv_table_inj : forall i j, user s i -> user s j -> table s i = table s j -> i = j;
  inv_pte : forall i k, user s i -> 0 <= k < 1024 -> present (pte s i k) ->
    frame (pte s i k) < HIGH_MEMORY s;
  inv_pte_table : forall i k j, user s i -> 0 <= k < 1024 -> present (pte s i k) ->
    user s j -> frame (pte s i k) <> table s j
}.

(** The invariant between operations: every mapping is counted. *)
Definition mem_inv (s : mm) : Prop :=
  pg_inv s /\ forall p, managed s p -> 0 <= extra s p.

Lemma maps_range e p : 0 <= maps e p <= 1.
Proof. unfold maps. case_decide; lia. Qed.

Lemma maps_not_present e p : ~ present e -> maps e p = 0.
Proof. intros. unfold maps. rewrite decide_False; tauto. Qed.

Lemma maps_frame e p : present e -> frame e = p -> maps e p = 1.
Proof. intros. unfold maps. by rewrite decide_True. Qed.

Lemma maps_other e p : frame e <> p -> maps e p = 0.
Proof. intros. unfold maps. rewrite decide_False; tauto. Qed.

Lemma maps_present e q : present e -> maps e q = if decide (frame e = q) then 1 else 0.
Proof. intros. unfold maps. case_decide; case_decide; tauto. Qed.

Lemma maps_lor7 p q :
  page_aligned p -> word p -> maps (Z.lor p 7) q = if decide (p = q) then 1 else 0.
Proof.
  intros Ha Hw. unfold maps. rewrite frame_lor7 by done.
  pose proof (present_lor7 p Ha). case_decide; case_decide; tauto.
Qed.

Lemma not_present_0 : ~ present 0.
Proof. unfold present. rewrite land_1. intros H. by apply H. Qed.

Lemma tbl_refs_nonneg s i p : 0 <= tbl_refs s i p.
Proof. apply sumZ_nonneg. intros. apply maps_range. Qed.

Lemma dir_refs_nonneg s i p : 0 <= dir_refs s i p.
Proof.
  unfold dir_refs. case_decide; [|lia].
  pose proof (maps_range (dirw s i) p). pose proof (tbl_refs_nonneg s i p). lia.
Qed.

Lemma refs_nonneg s p : 0 <= refs s p.
Proof. apply sumZ_nonneg. intros. apply dir_refs_nonneg. Qed.

Lemma tbl_refs_pte s i k p : 0 <= k < 1024 -> maps (pte s i k) p <= tbl_refs s i p.
Proof.
  intros. apply (sumZ_le 1024 (fun k => maps (pte s i k) p)); [|lia].
  intros. apply maps_range.
Qed.

Lemma refs_dir s i p : user s i -> maps (dirw s i) p + tbl_refs s i p <= refs s p.
Proof.
  intros Hu. assert (E : dir_refs s i p <= refs s p).
  { apply (sumZ_le 1024 (fun i => dir_refs s i p)); [intros; apply dir_refs_nonneg|].
    destruct Hu. lia. }
  unfold dir_refs in E. by rewrite decide_True in E.
Qed.

(** A referenced page has a nonzero count. *)
Lemma pte_refs s i k :
  user s i -> 0 <= k < 1024 -> present (pte s i k) -> 1 <= refs s (frame (pte s i k)).
Proof.
  intros Hu Hk Hp. pose proof (refs_dir s i (frame (pte s i k)) Hu).
  pose proof (tbl_refs_pte s i k (frame (pte s i k)) Hk) as H1.
  rewrite maps_frame in H1 by done.
  pose proof (maps_range (dirw s i) (frame (pte s i k))). lia.
Qed.

Lemma table_refs s i : user s i -> 1 <= refs s (table s i).
Proof.
  intros Hu. pose proof (refs_dir s i (table s i) Hu) as H.
  rewrite maps_frame in H by (done || apply Hu).
  pose proof (tbl_refs_nonneg s i (table s i)). lia.
Qed.

(** Table slots of different tables, and directory slots, do not overlap. *)
Lemma slot_table_neq s i j k m :
  pg_inv s -> user s i -> user s j -> 0 <= k < 1024 -> 0 <= m < 1024 ->
  table s i + 4 * k = table s j + 4 * m -> i = j /\ k = m.
Proof.
  intros Hinv Hi Hj Hk Hm E.
  destruct (inv_table s Hinv i Hi) as [Ha _]. destruct (inv_table s Hinv j Hj) as [Hb _].
  unfold page_aligned in *.
  assert (table s i = table s j) as Et.
  { pose proof (Z.div_mod (table s i) 4096). pose proof (Z.div_mod (table s j) 4096). lia. }
  split; [by apply (inv_table_inj s Hinv)|lia].
Qed.

Lemma slot_dir_neq s i k j :
  pg_inv s -> user s i -> 0 <= k -> j < 1024 -> table s i + 4 * k <> 4 * j.
Proof.
  intros Hinv Hi Hk Hj E. destruct (inv_table s Hinv i Hi) as [_ Hr].
  unfold LOW_MEM in Hr. lia.
Qed.

(** ** Stores that leave the paging structure alone *)

(** [s'] has the directory and the user tables of [s]. *)
Definition same_tables (s s' : mm) : Prop :=
  HIGH_MEMORY s' = HIGH_MEMORY s /\
  (forall i, 16 <= i < 1024 -> dirw s' i = dirw s i) /\
  (forall i k, user s i -> 0 <= k < 1024 -> pte s' i k = pte s i k).

Lemma same_tables_user s s' i : same_tables s s' -> user s' i <-> user s i.
Proof.
  intros (_ & Hd & _). unfold user.
  split; intros [Hi Hp]; (split; [done|]); specialize (Hd i Hi); congruence.
Qed.

Lemma same_tables_refs s s' p : same_tables s s' -> refs s' p = refs s p.
Proof.
  intros H. unfold refs. apply sumZ_ext. intros i Hi. unfold dir_refs.
  pose proof (same_tables_user s s' i H) as Hu.
  destruct (decide (user s i)) as [U|U]; [|by rewrite decide_False by tauto].
  rewrite decide_True by tauto. destruct H as (_ & Hd & Hp).
  rewrite Hd by apply U. f_equal. apply sumZ_ext. intros k Hk. rewrite Hp; [done|done|lia].
Qed.

Lemma same_tables_inv s s' : same_tables s s' -> pg_inv s -> mm_ok s' -> pg_inv s'.
Proof.
  intros Hst Hinv Hok. pose proof (same_tables_user s s') as Hu.
  destruct Hst as (Hh & Hd & Hp) eqn:E. clear E.
  assert (Ht : forall i, user s i -> table s' i = table s i).
  { intros i [Hi _]. unfold table. by rewrite Hd. }
  assert (Hm : forall p, managed s' p <-> managed s p).
  { intros p. unfold managed. by rewrite Hh. }
  split; [done| | | |].
  - intros i U%Hu; [|done]. rewrite Hm, Ht by done. by apply (inv_table s).
  - intros i j Ui%Hu Uj%Hu; try done. rewrite !Ht by done. by apply (inv_table_inj s).
  - intros i k U%Hu Hk; [|done]. rewrite Hp, Hh by done. by apply (inv_pte s).
  - intros i k j Ui%Hu Hk Hpr Uj%Hu; try done. rewrite Hp in * by done.
    rewrite Ht by done. by apply (inv_pte_table s).
Qed.

Lemma same_tables_refl s : same_tables s s.
Proof. done. Qed.

Lemma same_tables_set_cell p c s : same_tables s (set_cell p c s).
Proof. done. Qed.

(** Writing words of a page that is no user table. *)
Lemma same_tables_page s s' p :
  pg_inv s -> managed s p -> (forall i, user s i -> table s i <> p) ->
  HIGH_MEMORY s' = HIGH_MEMORY s ->
  (forall a, (forall k, 0 <= k < 1024 -> a <> p + 4 * k) -> ld s' a = ld s a) ->
  same_tables s s'.
Proof.
  intros Hinv [Hpa Hpr] Hnt Hh Hld. split; [done|]. split.
  - intros i Hi. apply Hld. intros k Hk. unfold LOW_MEM in Hpr. lia.
  - assert (Hd : forall i, 16 <= i < 1024 -> dirw s' i = dirw s i).
    { intros i Hi. apply Hld. intros k Hk. unfold LOW_MEM in Hpr. lia. }
    intros i k U Hk. unfold pte, table. rewrite Hd by apply U. apply Hld.
    intros m Hm E. apply (Hnt i U). fold (table s i) in E.
    destruct (inv_table s Hinv i U) as [Ha _]. unfold page_aligned in *.
    pose proof (Z.div_mod (table s i) 4096). pose proof (Z.div_mod p 4096). lia.
Qed.

(** ** Stores into a user page table *)

Section store_pte.
Context (s : mm) (i k e : Z).
Context (Hinv : pg_inv s) (Hi : user s i) (Hk : 0 <= k < 1024).
Let s' := st (table s i + 4 * k) e s.

Lemma store_pte_dirw j : j < 1024 -> dirw s' j = dirw s j.
Proof using Hinv Hi Hk.
  intros Hj. unfold dirw, s'. rewrite ld_st_ne; [done|].
  apply (slot_dir_neq s i k j); done || lia.
Qed.

Lemma store_pte_user j : user s' j <-> user s j.
Proof using Hinv Hi Hk.
  unfold user. split; intros [Hj Hp]; (split; [done|]);
    rewrite store_pte_dirw in * by lia; done.
Qed.

Lemma store_pte_table j : j < 1024 -> table s' j = table s j.
Proof using Hinv Hi Hk. intros. unfold table. by rewrite store_pte_dirw. Qed.

Lemma store_pte_pte j m :
  user s j -> 0 <= m < 1024 ->
  pte s' j m = if decide (j = i /\ m = k) then e else pte s j m.
Proof using Hinv Hi Hk.
  intros Hj Hm. unfold pte. rewrite store_pte_table by apply Hj.
  unfold s'. rewrite ld_st. case_decide as E; case_decide as E'; try done.
  - exfalso. apply E'. by apply (slot_table_neq s j i m k).
  - destruct E' as [-> ->]. done.
Qed.

Lemma store_pte_refs p : refs s' p = refs s p - maps (pte s i k) p + maps e p.
Proof using Hinv Hi Hk.
  unfold refs. rewrite (sumZ_update 1024 (fun i => dir_refs s i p) _ i).
  - unfold dir_refs. rewrite (decide_True (P := user s i)) by done.
    rewrite decide_True by (by apply store_pte_user).
    rewrite store_pte_dirw by apply Hi. unfold tbl_refs.
    rewrite (sumZ_update 1024 (fun k => maps (pte s i k) p) (fun m => maps (pte s' i m) p) k).
    + rewrite store_pte_pte by done. rewrite decide_True by done. lia.
    + lia.
    + intros m Hm Hne. rewrite store_pte_pte by (done || lia).
      rewrite decide_False by tauto. done.
  - destruct Hi. lia.
  - intros j Hj Hne. unfold dir_refs.
    destruct (decide (user s j)) as [U|U].
    + rewrite decide_True by (by apply store_pte_user).
      rewrite store_pte_dirw by lia. f_equal. apply sumZ_ext. intros m Hm.
      rewrite store_pte_pte by (done || lia). by rewrite decide_False by tauto.
    + rewrite decide_False; [done|]. by rewrite store_pte_user.
Qed.

Lemma store_pte_inv :
  word e ->
  (present e -> frame e < HIGH_MEMORY s /\ forall j, user s j -> frame e <> table s j) ->
  pg_inv s'.
Proof using Hinv Hi Hk.
  intros Hw He. split.
  - apply st_ok; [apply Hinv|done].
  - intros j Hj%store_pte_user. rewrite store_pte_table by apply Hj.
    by apply (inv_table s).
  - intros j m Hj%store_pte_user Hm%store_pte_user.
    rewrite !store_pte_table by (apply Hj || apply Hm). by apply (inv_table_inj s).
  - intros j m Hj%store_pte_user Hm. rewrite store_pte_pte by done.
    case_decide; [apply He|by apply (inv_pte s)].
  - intros j m j' Hj%store_pte_user Hm Hp Hj'%store_pte_user.
    rewrite store_pte_table by apply Hj'. rewrite store_pte_pte in * by done.
    case_decide; [by apply He|by apply (inv_pte_table s)].
Qed.

Lemma store_pte_extra p : extra s' p = extra s p + maps (pte s i k) p - maps e p.
Proof using Hinv Hi Hk.
  unfold extra. rewrite store_pte_refs. unfold s', cell, st. simpl. lia.
Qed.
End store_pte.

(** ** Stores into the directory *)

Section store_dir.
Context (s : mm) (i d : Z) (Hinv : pg_inv s) (Hi : 16 <= i < 1024).
Let s' := st (4 * i) d s.

Lemma store_dir_dirw j : dirw s' j = if decide (j = i) then d else dirw s j.
Proof using Type.
  unfold dirw, s'. rewrite ld_st. case_decide; case_decide; done || lia.
Qed.

Lemma store_dir_user j : j <> i -> user s' j <-> user s j.
Proof using Type. intros. unfold user. rewrite store_dir_dirw. by rewrite decide_False. Qed.

Lemma store_dir_table j : j <> i -> table s' j = table s j.
Proof using Type. intros. unfold table. rewrite store_dir_dirw. by rewrite decide_False. Qed.

Lemma store_dir_pte j m : j <> i -> user s j -> 0 <= m -> pte s' j m = pte s j m.
Proof using Hinv Hi.
  intros. unfold pte. rewrite store_dir_table by done. unfold s'.
  rewrite ld_st_ne; [done|]. intros E. apply (slot_dir_neq s j m i); done || lia.
Qed.

Lemma store_dir_refs p : refs s' p = refs s p - dir_refs s i p + dir_refs s' i p.
Proof using Hinv Hi.
  unfold refs. apply (sumZ_update 1024 (fun i => dir_refs s i p) (fun i => dir_refs s' i p)); [lia|].
  intros j Hj Hne. unfold dir_refs. destruct (decide (user s j)) as [U|U].
  - rewrite decide_True by (by apply store_dir_user).
    rewrite store_dir_dirw, decide_False by done. f_equal.
    apply sumZ_ext. intros m Hm. by rewrite store_dir_pte by (done || lia).
  - rewrite decide_False; [done|]. by rewrite store_dir_user.
Qed.

Lemma store_dir_cell p : cell s' p = cell s p.
Proof using Type. done. Qed.
End store_dir.

(** Removing a directory entry whose table is empty. *)
Lemma clear_dir_refs s i p :
  pg_inv s -> user s i -> (forall k, 0 <= k < 1024 -> ~ present (pte s i k)) ->
  refs (st (4 * i) 0 s) p = refs s p - maps (dirw s i) p.
Proof.
  intros Hinv Hi He. rewrite store_dir_refs by (done || apply Hi). unfold dir_refs.
  rewrite decide_True by done. rewrite decide_False.
  - unfold tbl_refs. rewrite (sumZ_zero 1024); [lia|].
    intros k Hk. apply maps_not_present, He. lia.
  - unfold user. rewrite store_dir_dirw, decide_True by done.
    intros [_ H]. by apply not_present_0 in H.
Qed.

Lemma clear_dir_inv s i : pg_inv s -> user s i -> pg_inv (st (4 * i) 0 s).
Proof.
  intros Hinv Hi.
  assert (Hu : forall j, user (st (4 * i) 0 s) j -> j <> i /\ user s j).
  { intros j Hj. assert (j <> i) as Hne.
    - intros ->. destruct Hj as [_ Hj]. rewrite store_dir_dirw, decide_True in Hj by done.
      by apply not_present_0 in Hj.
    - split; [done|]. by apply (store_dir_user s i 0) in Hj. }
  assert (Hb : 16 <= i < 1024) by apply Hi.
  split.
  - apply st_ok; [apply Hinv|]. unfold word. lia.
  - intros j [Hne Hj]%Hu. rewrite store_dir_table by done. by apply (inv_table s).
  - intros j m [? Hj]%Hu [? Hm]%Hu. rewrite !store_dir_table by done.
    by apply (inv_table_inj s).
  - intros j m [? Hj]%Hu Hm. rewrite store_dir_pte by (done || lia). by apply (inv_pte s).
  - intros j m j' [? Hj]%Hu Hm Hp [? Hj']%Hu.
    rewrite store_dir_table by done. rewrite store_dir_pte in * by (done || lia).
    by apply (inv_pte_table s).
Qed.

(** Installing a cleared page [t], in use nowhere, as a page table. *)
Lemma add_dir_refs s i t p :
  pg_inv s -> 16 <= i < 1024 -> ~ user s i -> managed s t ->
  (forall k, 0 <= k < 1024 -> ld s (t + 4 * k) = 0) -> 
  refs (st (4 * i) (Z.lor t 7) s) p = refs s p + (if decide (t = p) then 1 else 0).
Proof.
  intros Hinv Hi Hnu Ht Hz. rewrite store_dir_refs by done.
  assert (Ha : page_aligned t) by apply Ht.
  assert (Hw : word t) by (by eapply managed_word; [apply Hinv|]).
  unfold dir_refs. rewrite (decide_False (P := user s i)) by done.
  rewrite decide_True by (split; [done|]; rewrite store_dir_dirw, decide_True by done;
    by apply present_lor7).
  rewrite store_dir_dirw, decide_True by done. unfold tbl_refs. rewrite (sumZ_zero 1024).
  - unfold maps. case_decide as E; case_decide as E'; rewrite ?frame_lor7 in * by done;
      try lia.
    + destruct E; split; [by apply present_lor7|done].
  - intros k Hk. apply maps_not_present. unfold pte, table.
    rewrite store_dir_dirw, decide_True, frame_lor7 by done.
    rewrite ld_st_ne, Hz; [apply not_present_0|lia|].
    destruct Ht as [_ Ht]. unfold LOW_MEM in Ht. lia.
Qed.

Lemma add_dir_inv s i t :
  pg_inv s -> 16 <= i < 1024 -> managed s t ->
  (forall k, 0 <= k < 1024 -> ld s (t + 4 * k) = 0) ->
  (forall j, user s j -> table s j <> t) ->
  (forall j k, user s j -> 0 <= k < 1024 -> present (pte s j k) -> frame (pte s j k) <> t) ->
  ~ user s i ->
  pg_inv (st (4 * i) (Z.lor t 7) s).
Proof.
  intros Hinv Hi Ht Hz Hnt Hnp Hnu.
  assert (Ha : page_aligned t) by apply Ht.
  assert (Hw : word t) by (by eapply managed_word; [apply Hinv|]).
  set (s' := st (4 * i) (Z.lor t 7) s).
  assert (Hti : table s' i = t).
  { unfold table, s'. rewrite store_dir_dirw, decide_True by done. by apply frame_lor7. }
  assert (Hpi : forall k, 0 <= k < 1024 -> ~ present (pte s' i k)).
  { intros k Hk. unfold pte. rewrite Hti. unfold s'.
    rewrite ld_st_ne, Hz; [apply not_present_0|lia|].
    destruct Ht as [_ Ht]. unfold LOW_MEM in Ht. lia. }
  assert (Hcase : forall j, user s' j -> j = i \/ j <> i /\ user s j).
  { intros j Hj. destruct (decide (j = i)); [by left|right]. split; [done|].
    by apply (store_dir_user s i (Z.lor t 7)). }
  split.
  - apply st_ok; [apply Hinv|by apply word_lor7].
  - intros j [->|[Hne Hj]]%Hcase; [by rewrite Hti|].
    unfold s'. rewrite store_dir_table by done. by apply (inv_table s).
  - intros j m [->|[Hne Hj]]%Hcase [->|[Hne' Hm]]%Hcase E; [done| | |].
    + rewrite Hti in E. unfold s' in E. rewrite store_dir_table in E by done.
      by destruct (Hnt m Hm).
    + rewrite Hti in E. unfold s' in E. rewrite store_dir_table in E by done.
      by destruct (Hnt j Hj).
    + unfold s' in E. rewrite !store_dir_table in E by done. by apply (inv_table_inj s).
  - intros j m [->|[Hne Hj]]%Hcase Hm Hp; [by destruct (Hpi m)|].
    unfold s' in *. rewrite store_dir_pte in * by (done || lia). by apply (inv_pte s).
  - intros j m j' [->|[Hne Hj]]%Hcase Hm Hp Hj'%Hcase; [by destruct (Hpi m)|].
    unfold s' in Hp |- *. rewrite store_dir_pte in * by (done || lia).
    destruct Hj' as [->|[Hne' Hj']]; fold s'; [rewrite Hti; by apply Hnp|].
    unfold s'. rewrite store_dir_table by done. by apply (inv_pte_table s).
Qed.

End PageRefs.
