(* ===== verification/Paging.v ===== *)
(** * Address spaces: mapping, unmapping, sharing and copying pages

    Theorems about [put_page], [get_empty_page], [do_wp_page],
    [free_page_tables] and [copy_page_tables] over user addresses (64 MB and
    up).  Each states what the operation does to the entry of every address, and
    that it keeps [mem_inv] and the references ([extra]) of every page. *)

From S2P Require Import Prelude Memory MemoryFacts PageRefs.
Import Memory MemoryFacts PageRefs.

Module Paging.

(** ** Addresses *)

Definition uaddr (a : Z) : Prop := 0x4000000 <= a < 2 ^ 32.

(** The page-table entry of [a], 0 when the directory has no table for it. *)
Definition entry (s : mm) (a : Z) : Z :=
  if decide (user s (dir_index a)) then pte s (dir_index a) (tbl_index a) else 0.

Lemma uaddr_dir a : uaddr a -> 16 <= dir_index a < 1024.
Proof.
  unfold uaddr, dir_index. intros Ha.
  assert (0x4000000 / 2 ^ 22 <= a / 2 ^ 22) by (apply Z.div_le_mono; lia).
  assert (a / 2 ^ 22 < 1024) by (apply Z.div_lt_upper_bound; lia).
  change (0x4000000 / 2 ^ 22) with 16 in *. rewrite Z.mod_small; lia.
Qed.

Lemma same_page a b :
  word a -> word b ->
  (dir_index a = dir_index b /\ tbl_index a = tbl_index b <-> a / 4096 = b / 4096).
Proof.
  unfold word, dir_index, tbl_index. intros Ha Hb.
  assert (H : forall x, 0 <= x < 2 ^ 32 -> (x / 2 ^ 22) mod 1024 = x / 4096 / 1024).
  { intros x Hx. rewrite Zdiv_Zdiv by lia. change (4096 * 1024) with (2 ^ 22).
    apply Z.mod_small. split; [apply Z.div_pos; lia|apply Z.div_lt_upper_bound; lia]. }
  rewrite !H by lia. change (2 ^ 12) with 4096.
  pose proof (Z.div_mod (a / 4096) 1024). pose proof (Z.div_mod (b / 4096) 1024).
  split; [lia|]. intros ->. done.
Qed.

(** ** Unmapped pages *)

Lemma refs_0_unmapped s p :
  refs s p = 0 ->
  (forall j, user s j -> table s j <> p) /\
  (forall j k, user s j -> 0 <= k < 1024 -> present (pte s j k) -> frame (pte s j k) <> p).
Proof.
  intros H0. split.
  - intros j Hj <-. pose proof (table_refs s j Hj). lia.
  - intros j k Hj Hk Hp <-. pose proof (pte_refs s j k Hj Hk Hp). lia.
Qed.

Lemma cell_0_refs s p : mem_inv s -> managed s p -> cell s p = 0 -> refs s p = 0.
Proof.
  intros [_ He] Hp Hc. specialize (He p Hp). unfold extra in He.
  pose proof (refs_nonneg s p). lia.
Qed.

Lemma extra_set_cell s p c q :
  mm_ok s -> managed s p -> page_aligned q ->
  extra (set_cell p c s) q = extra s q + (if decide (p = q) then c - cell s p else 0).
Proof.
  intros. unfold extra. rewrite cell_set_cell by done.
  rewrite (same_tables_refs s) by done. case_decide; subst; lia.
Qed.

(** [get_free_page] gives a cleared page that nothing maps, whose one reference
    belongs to the caller. *)
Definition fresh (s : mm) (p : Z) (s' : mm) : Prop :=
  managed s p /\ p <> 0 /\ cell s p = 0 /\ same_tables s s' /\ pg_inv s' /\ refs s' p = 0 /\
  (forall q, page_aligned q -> cell s' q = if decide (p = q) then 1 else cell s q) /\
  (forall k, 0 <= k < 1024 -> ld s' (p + 4 * k) = 0) /\
  (forall a, (forall k, 0 <= k < 1024 -> a <> p + 4 * k) -> ld s' a = ld s a).

Lemma get_free_page_fresh s :
  mem_inv s ->
  ends (get_free_page s)
    (fun p s' => p = 0 /\ s' = s /\ (forall q, managed s q -> cell s q <> 0) \/ fresh s p s')
    (fun _ _ => False).
Proof.
  intros [Hpg He]. pose proof (inv_ok s Hpg) as Hok.
  destruct (get_free_page_cases s Hok) as [[-> H]|(p & s' & -> & Hp & Hn & Hc & _ & Hz)];
    simpl; [by left|right].
  pose proof (cell_0_refs s p (conj Hpg He) Hp Hc) as Hr.
  pose proof Hz as (Hh & Hm & Hz0 & Hf).
  assert (Hst : same_tables s s').
  { apply (same_tables_page s s' p); try done. apply (refs_0_unmapped s p Hr). }
  split; [done|]. split; [done|]. split; [done|]. split; [done|]. split.
  { apply (same_tables_inv s); [done|done|].
    eapply zeroed_ok; [done|]. apply set_cell_ok; done || lia. }
  split; [by rewrite (same_tables_refs s)|]. split; [|done].
  intros q Hq. unfold cell at 1. rewrite Hm. fold (cell (set_cell p 1 s) q).
  by apply cell_set_cell.
Qed.

Lemma fresh_extra s p s' q :
  fresh s p s' -> page_aligned q ->
  extra s' q = extra s q + (if decide (p = q) then 1 else 0).
Proof.
  intros (Hp & _ & Hc & Hst & _ & _ & Hcell & _) Hq. unfold extra.
  rewrite (same_tables_refs s) by done. rewrite Hcell by done.
  case_decide; subst; lia.
Qed.

Lemma fresh_inv s p s' : mem_inv s -> fresh s p s' -> mem_inv s'.
Proof.
  intros [Hpg He] Hf. split; [apply Hf|]. intros q Hq.
  rewrite (fresh_extra s p) by (done || apply Hq).
  assert (managed s q) as Hq'.
  { destruct Hf as (_ & _ & _ & (Hh & _) & _). unfold managed in *. by rewrite <- Hh. }
  specialize (He q Hq'). case_decide; lia.
Qed.

(** ** One entry changes *)

(** The pages whose contents an operation must not touch: in use and not a
    user page table. *)
Definition data_page (s : mm) (q : Z) : Prop :=
  managed s q /\ cell s q <> 0 /\ forall i, user s i -> table s i <> q.

Definition same_data (s s' : mm) : Prop :=
  forall q k, data_page s q -> 0 <= k < 1024 -> ld s' (q + 4 * k) = ld s (q + 4 * k).

(** [s'] is [s] with the entry of [a]'s page set to [e]. *)
Definition remapped (s : mm) (a e : Z) (s' : mm) : Prop :=
  pg_inv s' /\ HIGH_MEMORY s' = HIGH_MEMORY s /\ entry s' a = e /\
  (forall b, uaddr b -> b / 4096 <> a / 4096 -> entry s' b = entry s b) /\
  (forall q, managed s q -> extra s' q = extra s q + maps (entry s a) q - maps e q).

Lemma uaddr_word a : uaddr a -> word a.
Proof. unfold uaddr, word. lia. Qed.

Lemma page_disjoint p q k m :
  page_aligned p -> page_aligned q -> 0 <= k < 1024 -> 0 <= m < 1024 ->
  p + 4 * k = q + 4 * m -> p = q /\ k = m.
Proof.
  unfold page_aligned. intros. pose proof (Z.div_mod p 4096).
  pose proof (Z.div_mod q 4096). lia.
Qed.

Lemma store_entry s a e :
  pg_inv s -> uaddr a -> user s (dir_index a) -> word e ->
  (present e -> frame e < HIGH_MEMORY s /\ forall j, user s j -> frame e <> table s j) ->
  remapped s a e (st (table s (dir_index a) + 4 * tbl_index a) e s).
Proof.
  intros Hpg Ha Hu Hw He. pose proof (tbl_index_range a) as Hk.
  split; [by apply store_pte_inv|]. split; [done|].
  assert (Hent : forall b, uaddr b ->
    entry (st (table s (dir_index a) + 4 * tbl_index a) e s) b =
    if decide (dir_index b = dir_index a /\ tbl_index b = tbl_index a)
    then e else entry s b).
  { intros b Hb. unfold entry. pose proof (tbl_index_range b).
    destruct (decide (user s (dir_index b))) as [U|U].
    - rewrite decide_True by (by apply store_pte_user). by rewrite store_pte_pte.
    - rewrite decide_False by (by rewrite store_pte_user).
      rewrite decide_False; [done|]. intros [E _]. congruence. }
  split; [by rewrite Hent, decide_True|]. split.
  - intros b Hb Hne. rewrite Hent, decide_False; [done| |done].
    rewrite same_page by (by apply uaddr_word). done.
  - intros q Hq. rewrite store_pte_extra by done. unfold entry. by rewrite decide_True.
Qed.

Lemma store_entry_data s a e :
  pg_inv s -> user s (dir_index a) ->
  same_data s (st (table s (dir_index a) + 4 * tbl_index a) e s).
Proof.
  intros Hpg Hu q k (Hq & _ & Ht) Hk. rewrite ld_st_ne; [done|]. intros E.
  apply page_disjoint in E as [E _]; try done.
  - by apply (Ht _ Hu).
  - by apply (inv_table s).
  - apply Hq.
  - apply tbl_index_range.
Qed.

(** A fresh page installed as the table of directory entry [i]. *)
Lemma install_table s t s1 i :
  mem_inv s -> fresh s t s1 -> 16 <= i < 1024 -> ~ user s i ->
  let s' := st (4 * i) (Z.lor t 7) s1 in
  pg_inv s' /\ HIGH_MEMORY s' = HIGH_MEMORY s /\ user s' i /\ table s' i = t /\
  (forall k, 0 <= k < 1024 -> pte s' i k = 0) /\
  (forall j, 16 <= j < 1024 -> j <> i -> dirw s' j = dirw s j) /\
  (forall b, uaddr b -> entry s' b = entry s b) /\
  (forall q, managed s q -> extra s' q = extra s q) /\ same_data s s' /\
  (forall j k, user s j -> 0 <= k < 1024 -> pte s' j k = pte s j k) /\
  (forall q, data_page s q -> data_page s' q).
Proof.
  intros Hinv Hf Hi Hnu s'.
  pose proof Hf as (Ht & Hn & Hc & Hst & Hpg1 & Hr & Hcell & Hz & Hfr).
  pose proof Hst as (Hh & Hd & Hp).
  assert (Ha : page_aligned t) by apply Ht.
  assert (Hw : word t) by (eapply managed_word; [apply Hinv|done]).
  assert (Hm : forall q, managed s q -> managed s1 q) by (unfold managed; by rewrite Hh).
  assert (Hu1 : ~ user s1 i) by (by rewrite (same_tables_user s s1)).
  pose proof (refs_0_unmapped s1 t Hr) as [Hnt Hnp].
  assert (Hui : user s' i).
  { split; [done|]. unfold s'. rewrite store_dir_dirw, decide_True by done.
    by apply present_lor7. }
  assert (Hti : table s' i = t).
  { unfold table, s'. rewrite store_dir_dirw, decide_True by done. by apply frame_lor7. }
  assert (Hpi : forall k, 0 <= k < 1024 -> pte s' i k = 0).
  { intros k Hk. unfold pte. rewrite Hti. unfold s'. rewrite ld_st_ne; [by apply Hz|].
    destruct Ht as [_ Ht]. unfold LOW_MEM in Ht. lia. }
  assert (Hpj : forall j k, user s j -> 0 <= k < 1024 -> pte s' j k = pte s j k).
  { intros j k Hj Hk. unfold s'. rewrite store_dir_pte; [by apply Hp|done|done| | |lia].
    - intros ->. done.
    - by apply (same_tables_user s s1). }
  split; [by apply add_dir_inv; try done; apply Hm|].
  split; [done|]. split; [done|]. split; [done|]. split; [done|].
  assert (Hdj : forall j, 16 <= j < 1024 -> j <> i -> dirw s' j = dirw s j).
  { intros j Hj Hne. unfold s'. rewrite store_dir_dirw, decide_False by done. by apply Hd. }
  split; [done|]. split; [|split; [|split; [|split; [done|]]]].
  - intros b Hb. unfold entry. pose proof (tbl_index_range b).
    destruct (decide (dir_index b = i)) as [->|Hne].
    + rewrite decide_True, decide_False by done. by apply Hpi.
    + destruct (decide (user s (dir_index b))) as [U|U].
      * rewrite decide_True; [by apply Hpj|].
        apply store_dir_user; [done|]. by apply (same_tables_user s s1).
      * rewrite decide_False; [done|]. unfold s'. rewrite store_dir_user by done.
        by rewrite (same_tables_user s s1).
  - intros q Hq. unfold extra, s'. rewrite store_dir_cell, add_dir_refs by (done || by apply Hm).
    rewrite (same_tables_refs s) by done. rewrite Hcell by apply Hq.
    case_decide as E; [rewrite <- E|]; lia.
  - intros q k (Hq & Hq0 & _) Hk. unfold s'. rewrite ld_st_ne.
    + apply Hfr. intros m Hmm E. apply page_disjoint in E as [-> _]; try done. apply Hq.
    + destruct Hq as [_ Hq]. unfold LOW_MEM in Hq. lia.
  - intros q (Hq & Hq0 & Hqt). split; [unfold managed; unfold s'; simpl; by rewrite Hh|].
    assert (t <> q) as Hne by (intros ->; done). split.
    + unfold s'. rewrite store_dir_cell, Hcell by apply Hq. by rewrite decide_False.
    + intros j Hj. destruct (decide (j = i)) as [->|Hnj]; [by rewrite Hti|].
      unfold table. rewrite Hdj by (done || apply Hj). apply Hqt.
      destruct Hj as [Hj1 Hj2]. split; [done|]. by rewrite Hdj in Hj2.
Qed.

(** ** Mapping a page *)

Lemma dir_addr_u a : uaddr a -> dir_addr a = 4 * dir_index a.
Proof. intros. apply dir_addr_index. unfold uaddr in *. lia. Qed.

Lemma tbl_index_u a : uaddr a -> Z.land (Z.shiftr a 12) 0x3ff = tbl_index a.
Proof. intros. apply tbl_index_put. unfold uaddr in *. lia. Qed.

Lemma not_present_mod e : ~ present e <-> Z.land e 1 = 0.
Proof.
  unfold present. rewrite Z.land_comm. destruct (decide (Z.land e 1 = 0)); tauto.
Qed.

Lemma put_page_spec s p a :
  mem_inv s -> uaddr a -> data_page s p ->
  ends (put_page p a s)
    (fun r s' => r = 0 /\ s' = s /\ (forall q, managed s q -> cell s q <> 0) \/
                 r = p /\ remapped s a (Z.lor p 7) s' /\ same_data s s' /\
                 forall q, data_page s q -> cell s' q = cell s q)
    (fun _ _ => False).
Proof.
  intros Hinv Ha Hp. pose proof Hinv as [Hpg He].
  pose proof Hp as (Hpm & Hpc & Hpt).
  assert (Hw : word p) by (eapply managed_word; [apply Hpg|done]).
  assert (Hpa : page_aligned p) by apply Hpm.
  assert (Hf7 : frame (Z.lor p 7) = p) by (by apply frame_lor7).
  unfold put_page. apply ends_bind. simpl.
  rewrite dir_addr_u, tbl_index_u by done.
  fold (dirw s (dir_index a)). pose proof (uaddr_dir a Ha) as Hi.
  case_decide as Hd.
  - assert (Hu : user s (dir_index a)).
    { split; [done|]. unfold present. by rewrite Z.land_comm. }
    fold (frame (dirw s (dir_index a))). fold (table s (dir_index a)). right.
    split; [done|]. split; [|by split; [apply store_entry_data|]].
    apply store_entry; try done; [by apply word_lor7|].
    intros _. rewrite Hf7. split; [apply Hpm|]. intros j Hj E. by apply (Hpt j Hj).
  - assert (Hnu : ~ user s (dir_index a)).
    { intros [_ H]. apply H. unfold present in *. rewrite Z.land_comm.
      destruct (decide (Z.land (dirw s (dir_index a)) 1 = 0)); tauto. }
    apply ends_bind. eapply ends_mono; [by apply get_free_page_fresh| |done].
    intros t s1 [(-> & -> & H)|Hf]; simpl; [by left|].
    rewrite decide_False by apply Hf.
    pose proof (install_table s t s1 (dir_index a) Hinv Hf Hi Hnu)
      as (Hpg2 & Hh & Hu & Htab & Hpte & Hd' & Hent & Hex & Hdata & _ & Hdp).
    set (s2 := st (4 * dir_index a) (Z.lor t 7) s1) in *.
    right. split; [done|].
    change (remapped s a (Z.lor p 7) (st (t + 4 * tbl_index a) (Z.lor p 7) s2) /\
            same_data s (st (t + 4 * tbl_index a) (Z.lor p 7) s2) /\
            forall q, data_page s q -> cell s2 q = cell s q).
    rewrite <- Htab. split; [|split].
    + destruct (store_entry s2 a (Z.lor p 7)) as (R1 & R2 & R3 & R4 & R5); try done.
      { by apply word_lor7. }
      { intros _. rewrite Hf7, Hh. split; [apply Hpm|]. intros j Hj E.
        by destruct (Hdp p Hp) as (_ & _ & H); apply (H j Hj). }
      split; [done|]. split; [congruence|]. split; [done|]. split.
      * intros b Hb Hne. rewrite R4 by done. by apply Hent.
      * intros q Hq. rewrite R5 by (unfold managed; by rewrite Hh).
        rewrite Hent, Hex by done. done.
    + intros q k Hq Hk. rewrite store_entry_data; try done; [by apply Hdata|by apply Hdp].
    + intros q (Hq & Hq0 & _). destruct Hf as (_ & _ & Hc & _ & _ & _ & Hcell & _).
      unfold s2. rewrite store_dir_cell, Hcell by apply Hq.
      case_decide as E; [by rewrite <- E in Hq0|done].
Qed.

(** What every fault handler keeps: the invariant, the references of every page
    and the contents of every data page. *)
Definition preserves (s s' : mm) : Prop :=
  mem_inv s' /\ HIGH_MEMORY s' = HIGH_MEMORY s /\
  (forall q, managed s q -> extra s' q = extra s q) /\ same_data s s'.

Lemma preserves_refl s : mem_inv s -> preserves s s.
Proof. intros. by split. Qed.

Lemma extra_inv s s' :
  mem_inv s -> pg_inv s' -> HIGH_MEMORY s' = HIGH_MEMORY s ->
  (forall q, managed s q -> extra s' q = extra s q) -> mem_inv s'.
Proof.
  intros [_ He] Hpg Hh Hx. split; [done|]. intros q Hq.
  assert (managed s q) by (unfold managed in *; by rewrite <- Hh).
  rewrite Hx by done. by apply He.
Qed.

Lemma same_tables_entry s s' b : same_tables s s' -> uaddr b -> entry s' b = entry s b.
Proof.
  intros Hst Hb. unfold entry. pose proof (same_tables_user s s' (dir_index b) Hst) as Hu.
  case_decide as D; case_decide as D'; try tauto. apply Hst; [done|apply tbl_index_range].
Qed.

(** Dropping the caller's reference to a fresh page. *)
Lemma fresh_dropped s p s1 :
  mem_inv s -> fresh s p s1 -> preserves s (set_cell p 0 s1) /\ same_tables s (set_cell p 0 s1).
Proof.
  intros Hinv Hf. pose proof Hf as (Hp & _ & Hc & Hst & Hpg & _ & Hcell & _ & Hfr).
  pose proof Hst as (Hh & _).
  assert (Hp1 : managed s1 p) by (unfold managed; by rewrite Hh).
  assert (Hst' : same_tables s (set_cell p 0 s1)) by done.
  split; [|done].
  assert (Hx : forall q, managed s q -> extra (set_cell p 0 s1) q = extra s q).
  { intros q Hq. rewrite extra_set_cell; [|apply Hpg|done|apply Hq].
    rewrite (fresh_extra s p s1 q) by (done || apply Hq). rewrite Hcell by apply Hp.
    rewrite (decide_True (P := p = p)) by done. case_decide; lia. }
  assert (Hpg' : pg_inv (set_cell p 0 s1)).
  { apply (same_tables_inv s1); [done|done|]. apply set_cell_ok; [apply Hpg|done|lia]. }
  split; [by apply (extra_inv s)|]. split; [done|]. split; [done|].
  intros q k (Hq & Hq0 & _) Hk. rewrite ld_set_cell. apply Hfr.
  intros m Hm E. apply page_disjoint in E as [-> _]; try done; [apply Hq|apply Hp].
Qed.

Lemma fresh_data s p s1 : mem_inv s -> fresh s p s1 -> data_page s1 p.
Proof.
  intros Hinv Hf. pose proof Hf as (Hp & _ & _ & (Hh & _) & _ & Hr & Hcell & _).
  split; [unfold managed; by rewrite Hh|]. split.
  - rewrite Hcell, decide_True by (done || apply Hp). done.
  - by apply refs_0_unmapped.
Qed.

Lemma fresh_same_data s p s1 q :
  mem_inv s -> fresh s p s1 -> data_page s q ->
  data_page s1 q /\ forall k, 0 <= k < 1024 -> ld s1 (q + 4 * k) = ld s (q + 4 * k).
Proof.
  intros Hinv (Hp & _ & Hc & Hst & _ & _ & Hcell & _ & Hfr) (Hq & Hq0 & Hqt).
  pose proof Hst as (Hh & Hd & _).
  assert (p <> q) by (intros ->; done). split.
  - split; [unfold managed; by rewrite Hh|]. split.
    + rewrite Hcell, decide_False by (done || apply Hq). done.
    + intros i Hi. pose proof Hi as [Hi1 _]. unfold table. rewrite Hd by done. apply Hqt.
      by apply (same_tables_user s s1).
  - intros k Hk. apply Hfr. intros m Hm E.
    apply page_disjoint in E as [-> _]; try done; [apply Hq|apply Hp].
Qed.

(** [get_empty_page] (a page fault on an absent page) maps a page nobody used, counted
    once and filled with zeros, writable at the faulting address and changes no other
    mapping; without a free page the task ends with SIGSEGV and no mapping has changed. *)
Theorem get_empty_page_maps s a :
  mem_inv s -> uaddr a -> ~ present (entry s a) ->
  ends (get_empty_page a s)
    (fun _ s' => preserves s s' /\
       (forall b, uaddr b -> b / 4096 <> a / 4096 -> entry s' b = entry s b) /\
       exists p, managed s p /\ cell s p = 0 /\ cell s' p = 1 /\
         entry s' a = Z.lor p 7 /\ forall k, 0 <= k < 1024 -> ld s' (p + 4 * k) = 0)
    (fun c s' => c = SIGSEGV /\ preserves s s' /\
       forall b, uaddr b -> entry s' b = entry s b).
Proof.
  intros Hinv Ha Hnp. unfold get_empty_page. apply ends_bind.
  eapply ends_mono; [by apply get_free_page_fresh| |done].
  intros p s1 [(-> & -> & _)|Hf].
  { simpl. split; [done|]. split; [by apply preserves_refl|done]. }
  pose proof Hf as (Hp & Hn & Hc & Hst & Hpg1 & Hr & Hcell & Hz & _).
  pose proof Hst as (Hh & _).
  assert (Hinv1 : mem_inv s1) by (by apply (fresh_inv s p)).
  rewrite decide_False by done. apply ends_bind. apply ends_bind.
  eapply ends_mono; [apply put_page_spec; [done|done|by apply (fresh_data s)]| |done].
  intros r s2 [(-> & -> & _)|(-> & Hre & Hdat & Hcel)]; apply ends_ret.
  - destruct (fresh_dropped s p s1 Hinv Hf) as [Hpr Hst'].
    rewrite bool_decide_false by tauto. apply ends_bind.
    rewrite (free_page_managed s1 p); [|apply Hpg1|by apply (fresh_data s)|].
    + assert (cell s1 p - 1 = 0) as -> by (rewrite Hcell, decide_True by (done || apply Hp); lia).
      simpl. split; [done|]. split; [done|]. intros b Hb. by apply same_tables_entry.
    + rewrite Hcell, decide_True by (done || apply Hp). done.
  - rewrite bool_decide_true by done. simpl. destruct Hre as (Hpg2 & Hh2 & He & Ho & Hx).
    assert (Hx' : forall q, managed s q -> extra s2 q = extra s q).
    { intros q Hq. rewrite Hx by (unfold managed; by rewrite Hh).
      rewrite (same_tables_entry s s1 a), (fresh_extra s p s1 q) by (done || apply Hq).
      rewrite (maps_not_present (entry s a)) by done.
      rewrite maps_lor7 by (apply Hp || by eapply managed_word; [apply Hinv|]). lia. }
    split; [split; [apply (extra_inv s s2); try done; congruence|split; [congruence|split; [done|]]]|].
    + intros q k Hq Hk. destruct (fresh_same_data s p s1 q Hinv Hf Hq) as [Hq1 Hl].
      rewrite Hdat by done. by apply Hl.
    + split; [intros b Hb Hne; rewrite Ho by done; by apply same_tables_entry|].
      exists p. split; [done|]. split; [done|]. split; [|split; [done|]].
      * rewrite Hcel, Hcell, decide_True by (done || apply Hp || by apply (fresh_data s)). done.
      * intros k Hk. rewrite Hdat; [by apply Hz|by apply (fresh_data s)|done].
Qed.

(** ** Copy on write *)

(** [s'] is [s] with page [to] a copy of page [from]. *)
Definition copied (from to : Z) (s s' : mm) : Prop :=
  HIGH_MEMORY s' = HIGH_MEMORY s /\ mem_map s' = mem_map s /\
  (forall k, 0 <= k < 1024 -> ld s' (to + 4 * k) = ld s (from + 4 * k)) /\
  (forall a, (forall k, 0 <= k < 1024 -> a <> to + 4 * k) -> ld s' a = ld s a).

Lemma copy_page_copied from to s :
  page_aligned from -> page_aligned to -> from <> to ->
  exists s', copy_page from to s = Done tt s' /\ copied from to s s'.
Proof.
  intros Hf Ht Hne.
  destruct (for_up_inv (fun n t =>
      HIGH_MEMORY t = HIGH_MEMORY s /\ mem_map t = mem_map s /\
      (forall k, 0 <= k < n -> ld t (to + 4 * k) = ld s (from + 4 * k)) /\
      (forall a, (forall k, 0 <= k < 1024 -> a <> to + 4 * k) -> ld t a = ld s a))
    1024 0 (fun i => v ← load (from + 4 * i); store (to + 4 * i) v) s) as (s' & Hs & H).
  - repeat split; intros; lia || done.
  - intros j t Hj (H1 & H2 & H3 & H4). eexists. split; [done|].
    split; [done|]. split; [done|]. split.
    + intros k Hk. rewrite ld_st. case_decide as E.
      * assert (k = j) as -> by lia. apply H4. intros m Hm E'.
        apply page_disjoint in E' as [? _]; done || lia.
      * apply H3. lia.
    + intros a Ha. rewrite ld_st_ne by (intros E; apply (Ha j); lia). by apply H4.
  - exists s'. split; [done|]. destruct H as (H1 & H2 & H3 & H4). done.
Qed.

Lemma copied_ok from to s s' : copied from to s s' -> mm_ok s -> mm_ok s'.
Proof.
  intros (Hh & Hm & Hc & Ho) Hok.
  assert (Hce : forall q, cell s' q = cell s q) by (intros; unfold cell; by rewrite Hm).
  split; rewrite ?Hh, ?Hm; try apply Hok.
  - intros q Hq Hr. rewrite Hce. by apply Hok.
  - intros a. destruct (decide (0 <= (a - to) / 4 < 1024 /\ (a - to) mod 4 = 0)) as [[Hd Hmod]|Hn].
    + assert (a = to + 4 * ((a - to) / 4)) as -> by (pose proof (Z.div_mod (a - to) 4); lia).
      rewrite Hc by done. apply Hok.
    + rewrite Ho; [apply Hok|]. intros k Hk ->. apply Hn.
      replace (to + 4 * k - to) with (k * 4) by lia.
      rewrite Z.div_mul, Z.mod_mul by lia. lia.
Qed.

(** The new page of a write fault is written, mapped and filled. *)
Lemma cow_fill s a p :
  pg_inv s -> uaddr a -> user s (dir_index a) -> present (entry s a) ->
  data_page s p -> (forall i k, user s i -> 0 <= k < 1024 -> present (pte s i k) ->
                    frame (pte s i k) <> p) ->
  let te := table s (dir_index a) + 4 * tbl_index a in
  exists s', (store te (Z.lor p 7);; copy_page (frame (entry s a)) p) s = Done tt s' /\
    remapped s a (Z.lor p 7) s' /\ mem_map s' = mem_map s /\
    (forall q k, managed s q -> (forall i, user s i -> table s i <> q) -> q <> p ->
       0 <= k < 1024 -> ld s' (q + 4 * k) = ld s (q + 4 * k)) /\
    (forall k, 0 <= k < 1024 -> ld s' (p + 4 * k) = ld s (frame (entry s a) + 4 * k)).
Proof.
  intros Hpg Ha Hu Hpr (Hp & Hp0 & Hpt) Hpm te. pose proof (tbl_index_range a) as Hti.
  assert (Hw : word p) by (eapply managed_word; [apply Hpg|done]).
  set (old := frame (entry s a)).
  assert (Hent : entry s a = pte s (dir_index a) (tbl_index a))
    by (unfold entry; by rewrite decide_True).
  assert (Holda : page_aligned old) by (unfold old; rewrite Hent; apply frame_aligned; apply (ok_words s), Hpg).
  assert (Hop : old <> p).
  { unfold old. rewrite Hent. apply Hpm; [done|done|by rewrite <- Hent]. }
  destruct (store_entry s a (Z.lor p 7)) as (R1 & R2 & R3 & R4 & R5); try done.
  { apply word_lor7; [apply Hp|done]. }
  { rewrite frame_lor7 by (done || apply Hp). intros _. split; [apply Hp|].
    intros j Hj E. by apply (Hpt j Hj). }
  pose proof (store_entry_data s a (Z.lor p 7) Hpg Hu) as Hdat.
  set (s3 := st te (Z.lor p 7) s) in *. fold te in R1, R2, R3, R4, R5.
  destruct (copy_page_copied old p s3) as (s4 & Hs4 & Hcp); [done|apply Hp|done|].
  pose proof Hcp as (Hh & Hm & Hc & Ho).
  assert (Hnt : forall i, user s3 i -> table s3 i <> p).
  { intros i Hi. apply (store_pte_user s (dir_index a) (tbl_index a)) in Hi; try done.
    unfold s3, te. rewrite store_pte_table; [by apply Hpt|done|done|done|apply Hi]. }
  assert (Hst : same_tables s3 s4) by (by apply (same_tables_page s3 s4 p)).
  assert (Hok4 : mm_ok s4) by (eapply (copied_ok old p s3); [exact Hcp|apply R1]).
  assert (Hpg4 : pg_inv s4) by (exact (same_tables_inv s3 s4 Hst R1 Hok4)).
  exists s4. split; [done|]. split; [|split; [done|split]].
  - split; [done|]. split; [done|]. split; [by rewrite (same_tables_entry s3)|].
    split; [intros b Hb Hne; rewrite (same_tables_entry s3) by done; by apply R4|].
    intros q Hq. rewrite <- R5 by done. unfold extra.
    rewrite (same_tables_refs s3 s4) by done. unfold cell. by rewrite Hm.
  - intros q k Hq Hqt Hqp Hk. rewrite Ho.
    + unfold s3. rewrite ld_st_ne; [done|]. intros E.
      apply page_disjoint in E as [E _]; try done; [by apply (Hqt (dir_index a))| |apply Hq].
      by apply (inv_table s).
    + intros m Hmm E. apply page_disjoint in E as [E _]; try done; [apply Hq|apply Hp].
  - intros k Hk. rewrite Hc by done. unfold s3. rewrite ld_st_ne; [done|]. intros E.
    apply page_disjoint in E as [E _]; try done.
    + revert E. apply not_eq_sym. unfold old. rewrite Hent.
      apply (inv_pte_table s); [done|done|done|by rewrite <- Hent|done].
    + by apply (inv_table s).
Qed.

(** What a write fault on [a] leaves: a writable private page with the contents
    the old page had; nothing else changes. *)
Definition made_private (s : mm) (a : Z) (s' : mm) : Prop :=
  present (entry s' a) /\ writable (entry s' a) /\
  (LOW_MEM <= frame (entry s' a) /\ cell s' (frame (entry s' a)) = 1) /\
  (forall k, 0 <= k < 1024 ->
    ld s' (frame (entry s' a) + 4 * k) = ld s (frame (entry s a) + 4 * k)) /\
  (forall b, uaddr b -> b / 4096 <> a / 4096 -> entry s' b = entry s b).

Lemma lor2_maps e q : maps (Z.lor e 2) q = maps e q.
Proof.
  unfold maps. rewrite frame_lor2. pose proof (present_lor2 e).
  case_decide; case_decide; tauto.
Qed.

Lemma writable_lor2 e : writable (Z.lor e 2).
Proof. unfold writable. rewrite Z.lor_spec. by rewrite orb_true_r. Qed.

Lemma lor7_writable p : writable (Z.lor p 7).
Proof. unfold writable. rewrite Z.lor_spec. by rewrite orb_true_r. Qed.

(** The only owner just gets write permission back. *)
Lemma un_wp_sole s a :
  mem_inv s -> uaddr a -> user s (dir_index a) -> present (entry s a) ->
  LOW_MEM <= frame (entry s a) -> cell s (frame (entry s a)) = 1 ->
  let s' := st (table s (dir_index a) + 4 * tbl_index a) (Z.lor (entry s a) 2) s in
  preserves s s' /\ made_private s a s'.
Proof.
  intros Hinv Ha Hu Hpr Hlow Hc s'. pose proof Hinv as [Hpg _].
  pose proof (tbl_index_range a) as Hti.
  assert (Hent : entry s a = pte s (dir_index a) (tbl_index a))
    by (unfold entry; by rewrite decide_True).
  assert (Hw : word (entry s a)) by (rewrite Hent; apply (ok_words s), Hpg).
  pose proof (store_entry_data s a (Z.lor (entry s a) 2) Hpg Hu) as Hdat.
  destruct (store_entry s a (Z.lor (entry s a) 2)) as (R1 & R2 & R3 & R4 & R5); try done.
  { by apply word_lor2. }
  { intros _. rewrite frame_lor2, Hent. rewrite Hent in Hpr.
    split; [by apply (inv_pte s)|]. intros j Hj. by apply (inv_pte_table s). }
  fold s' in R1, R2, R3, R4, R5, Hdat.
  assert (Hx : forall q, managed s q -> extra s' q = extra s q)
    by (intros q Hq; rewrite R5, lor2_maps by done; lia).
  split; [split; [by apply (extra_inv s)|done]|].
  unfold made_private. rewrite R3, frame_lor2.
  split; [by apply present_lor2|]. split; [apply writable_lor2|].
  split; [done|]. split; [|done]. intros k Hk.
  unfold s'. rewrite ld_st_ne; [done|]. intros E.
  apply page_disjoint in E as [E _]; try done.
  - revert E. apply not_eq_sym. rewrite Hent in *. by apply (inv_pte_table s).
  - by apply (inv_table s).
  - by apply frame_aligned.
Qed.

Lemma pte_addr_entry s a :
  uaddr a -> pte_addr (dirw s (dir_index a)) a = table s (dir_index a) + 4 * tbl_index a.
Proof.
  intros Ha. unfold pte_addr. rewrite tbl_index_fault by (unfold uaddr in Ha; lia).
  unfold table, frame. lia.
Qed.

(** The old page loses one reference; a low page has no count. *)
Definition drop_ref (s : mm) (old : Z) (s1 : mm) : mm :=
  if decide (LOW_MEM <= old) then set_cell old (cell s old - 1) s1 else s1.

Lemma drop_ref_facts s p s1 old :
  mem_inv s -> fresh s p s1 -> page_aligned old -> old <> p ->
  (LOW_MEM <= old -> managed s old /\ 1 <= cell s old) ->
  let s2 := drop_ref s old s1 in
  (if decide (LOW_MEM <= old) then
     v ← map_get (MAP_NR old); map_set (MAP_NR old) (v - 1)
   else skip) s1 = Done tt s2 /\
  pg_inv s2 /\ same_tables s s2 /\ data_page s2 p /\ cell s2 p = 1 /\ (forall a, ld s2 a = ld s1 a) /\
  (forall q, managed s q -> extra s2 q = extra s q + (if decide (p = q) then 1 else 0)
     - (if decide (old = q) then 1 else 0)).
Proof.
  intros Hinv Hf Hoa Hop Hold s2.
  pose proof Hf as (Hp & _ & Hc & Hst & Hpg1 & Hr & Hcell & _).
  pose proof Hst as (Hh & _).
  pose proof (fresh_data s p s1 Hinv Hf) as Hd.
  assert (Hc1 : cell s1 p = 1) by (rewrite Hcell, decide_True by (done || apply Hp); done).
  unfold s2, drop_ref. case_decide as Hl.
  - destruct (Hold Hl) as [Hm H1].
    assert (Hm1 : managed s1 old) by (unfold managed; by rewrite Hh).
    assert (Hco : cell s1 old = cell s old) by (rewrite Hcell, decide_False by done; done).
    pose proof (cell_range s (inv_ok s (proj1 Hinv)) old Hm) as Hr'.
    assert (Hcp : cell (set_cell old (cell s old - 1) s1) p = 1).
    { rewrite cell_set_cell; [by rewrite decide_False|apply Hpg1|done|apply Hp]. }
    assert (Hok2 : mm_ok (set_cell old (cell s old - 1) s1))
      by (apply set_cell_ok; [apply Hpg1|done|lia]).
    split.
    { unfold mbind, M_bind. rewrite map_get_managed, map_set_managed by (done || exact (inv_ok s1 Hpg1)).
      rewrite Hco, u8_small by lia. done. }
    split; [by apply (same_tables_inv s1)|].
    split; [done|]. split; [split; [apply Hd|split; [by rewrite Hcp|apply Hd]]|].
    split; [done|]. split; [done|]. intros q Hq.
    rewrite extra_set_cell; [|apply Hpg1|done|apply Hq].
    rewrite (fresh_extra s p s1 q) by (done || apply Hq). rewrite Hco.
    case_decide; case_decide; lia.
  - split; [done|]. split; [done|]. split; [done|]. split; [done|]. split; [done|].
    split; [done|].
    intros q Hq. rewrite (fresh_extra s p s1 q) by (done || apply Hq).
    rewrite (decide_False (P := old = q)); [lia|]. intros ->. apply Hl. apply Hq.
Qed.

(** A shared or low page is copied to a fresh one. *)
Lemma un_wp_copy s a :
  mem_inv s -> uaddr a -> user s (dir_index a) -> present (entry s a) ->
  let old := frame (entry s a) in
  let te := table s (dir_index a) + 4 * tbl_index a in
  ends ((new_page ← get_free_page;
         (if decide (new_page = 0) then oom else skip);;
         (if decide (LOW_MEM <= old) then
            v ← map_get (MAP_NR old); map_set (MAP_NR old) (v - 1)
          else skip);;
         store te (Z.lor new_page 7);;
         copy_page old new_page) s)
    (fun _ s' => preserves s s' /\ made_private s a s')
    (fun c s' => c = SIGSEGV /\ s' = s).
Proof.
  intros Hinv Ha Hu Hpr old te. pose proof Hinv as [Hpg He].
  pose proof (tbl_index_range a) as Hti.
  assert (Hent : entry s a = pte s (dir_index a) (tbl_index a))
    by (unfold entry; by rewrite decide_True).
  assert (Holda : page_aligned old)
    by (unfold old; rewrite Hent; apply frame_aligned; apply (ok_words s), Hpg).
  apply ends_bind. eapply ends_mono; [by apply get_free_page_fresh| |done].
  intros p s1 [(-> & -> & _)|Hf]; [done|].
  pose proof Hf as (Hp & Hn & Hc & Hst & _ & _ & Hcell & _ & Hfr).
  assert (Href : 1 <= refs s old)
    by (unfold old; rewrite Hent in *; by apply pte_refs).
  assert (Hop : old <> p) by (intros ->; rewrite (cell_0_refs s p) in Href by done; lia).
  destruct (drop_ref_facts s p s1 old) as (E1 & Hpg2 & Hst2 & Hd2 & Hc2 & Hl2 & Hx2); try done.
  { intros Hl. assert (Hm : managed s old).
    - split; [done|]. split; [done|]. unfold old. rewrite Hent in *. by apply (inv_pte s).
    - split; [done|]. specialize (He old Hm). unfold extra in He. lia. }
  set (s2 := drop_ref s old s1) in *.
  assert (Hu2 : user s2 (dir_index a)) by (by apply (same_tables_user s s2)).
  assert (He2 : entry s2 a = entry s a) by (by apply same_tables_entry).
  assert (Ht2 : forall i, user s i -> table s2 i = table s i)
    by (intros i [Hi _]; unfold table; by destruct Hst2 as (_ & -> & _)).
  destruct (cow_fill s2 a p) as (s3 & E3 & (R1 & R2 & R3 & R4 & R5) & Hm3 & Hdat & Hcp);
    try done; [by rewrite He2| |].
  { intros i k Hi%(same_tables_user s s2) Hk Hp'; [|done].
    assert (pte s2 i k = pte s i k) as E by (by apply Hst2). rewrite E in *.
    apply (refs_0_unmapped s p); try done. by apply cell_0_refs. }
  rewrite (decide_False (P := p = 0)) by done. apply ends_bind. simpl.
  apply ends_bind. rewrite E1. cbn [ends].
  replace te with (table s2 (dir_index a) + 4 * tbl_index a) by (unfold te; by rewrite Ht2).
  rewrite He2 in E3. fold old in E3. rewrite E3. cbn [ends].
  assert (Hh2 : HIGH_MEMORY s2 = HIGH_MEMORY s) by apply Hst2.
  assert (Hx : forall q, managed s q -> extra s3 q = extra s q).
  { intros q Hq. rewrite R5, Hx2 by (done || by unfold managed; rewrite Hh2).
    rewrite maps_lor7 by (apply Hp || by eapply managed_word; [apply Hpg|]).
    rewrite He2, maps_present by done. fold old. lia. }
  split.
  - split; [apply (extra_inv s); try done; congruence|]. split; [congruence|]. split; [done|].
    intros q k Hq Hk. destruct (fresh_same_data s p s1 q Hinv Hf Hq) as [_ <-]; [|done].
    rewrite <- Hl2. destruct Hq as (Hq & Hq0 & Hqt). apply Hdat; try done.
    + by unfold managed; rewrite Hh2.
    + intros i Hi%(same_tables_user s s2); [|done]. rewrite Ht2 by done. by apply Hqt.
    + by intros ->.
  - unfold made_private. rewrite R3, frame_lor7 by (apply Hp || by eapply managed_word; [apply Hpg|]).
    split; [by apply present_lor7, Hp|]. split; [apply lor7_writable|].
    split; [split; [apply Hp|unfold cell; by rewrite Hm3]|]. split.
    + intros k Hk. rewrite Hcp, He2 by done. fold old. rewrite Hl2. apply Hfr.
      intros m Hm E. apply page_disjoint in E as [? _]; done || apply Hp.
    + intros b Hb Hne. rewrite R4 by done. by apply same_tables_entry.
Qed.

(** C15: copy on write: after [do_wp_page] the faulting address is mapped, writable, to a page
    that is its alone and holds what the old page held; the old page loses one reference,
    every other mapping and page stays as it was, and the reference counts stay exact. *)
Theorem do_wp_page_private s a error_code :
  mem_inv s -> uaddr a -> present (entry s a) ->
  ends (do_wp_page error_code a s)
    (fun _ s' => preserves s s' /\ made_private s a s')
    (fun c s' => c = SIGSEGV /\ s' = s).
Proof.
  intros Hinv Ha Hpr. pose proof Hinv as [Hpg _].
  pose proof (tbl_index_range a) as Hti.
  assert (Hu : user s (dir_index a)).
  { unfold entry in Hpr. case_decide; [done|]. by apply not_present_0 in Hpr. }
  assert (Hent : entry s a = pte s (dir_index a) (tbl_index a))
    by (unfold entry; by rewrite decide_True).
  assert (Hw : word (entry s a)) by (rewrite Hent; apply (ok_words s), Hpg).
  set (old := frame (entry s a)).
  assert (Hold : LOW_MEM <= old -> managed s old).
  { intros Hl. split; [by apply frame_aligned|]. split; [done|]. unfold old.
    rewrite Hent in *. by apply (inv_pte s). }
  unfold do_wp_page. apply ends_bind. simpl.
  rewrite dir_addr_u by done. fold (dirw s (dir_index a)). rewrite pte_addr_entry by done.
  unfold un_wp_page. apply ends_bind. simpl.
  fold (pte s (dir_index a) (tbl_index a)). rewrite <- Hent.
  fold (frame (entry s a)). fold old. apply ends_bind.
  assert (Hc : (if decide (LOW_MEM <= old) then map_get (MAP_NR old) else mret 0) s =
               Done (if decide (LOW_MEM <= old) then cell s old else 0) s).
  { case_decide; [|done]. apply map_get_managed; [apply Hpg|auto]. }
  rewrite Hc. cbn [ends].
  match goal with |- context [decide (?l /\ ?c = 1)] =>
    destruct (decide (l /\ c = 1)) as [[Hl H1]|Hs] end.
  - rewrite decide_True in H1 by done. simpl. by apply un_wp_sole.
  - by apply un_wp_copy.
Qed.

End Paging.
