(* ===== verification/PageTables.v ===== *)
(** * Freeing and copying whole page tables

    [free_page_tables] (a task exits or execs) and [copy_page_tables] (fork)
    over ranges of user addresses: what is mapped afterwards, and that every page
    keeps exactly the references its mappings account for. *)

From S2P Require Import Prelude Memory MemoryFacts PageRefs Paging.
Import Memory MemoryFacts PageRefs Paging.

Module PageTables.

(** ** Releasing one page *)

Lemma free_page_release s p :
  pg_inv s -> page_aligned p -> p < HIGH_MEMORY s -> (LOW_MEM <= p -> 1 <= cell s p) ->
  let s' := drop_ref s p s in
  free_page p s = Done tt s' /\ pg_inv s' /\ same_tables s s' /\
  (forall a, ld s' a = ld s a) /\
  (forall q, managed s q -> extra s' q = extra s q - (if decide (p = q) then 1 else 0)).
Proof.
  intros Hpg Ha Hh Hc s'. unfold s', drop_ref. pose proof (inv_ok s Hpg) as Hok.
  case_decide as Hl.
  - specialize (Hc Hl). assert (Hm : managed s p) by done.
    pose proof (cell_range s Hok p Hm).
    assert (Hok2 : mm_ok (set_cell p (cell s p - 1) s)) by (apply set_cell_ok; done || lia).
    split; [apply free_page_managed; done || lia|].
    split; [by apply (same_tables_inv s)|]. split; [done|]. split; [done|].
    intros q Hq. rewrite extra_set_cell by (done || apply Hq). case_decide; lia.
  - split; [apply free_page_low; lia|]. do 3 (split; [done|]).
    intros q Hq. rewrite decide_False; [lia|]. intros ->. apply Hl, Hq.
Qed.

(** ** Freeing a page table *)

(** [s'] differs from [s] only in counts and at the addresses [W]. *)
Definition writes_only (W : Z -> Prop) (s s' : mm) : Prop :=
  HIGH_MEMORY s' = HIGH_MEMORY s /\ forall a, ~ W a -> ld s' a = ld s a.

Definition same_extra (s s' : mm) : Prop :=
  forall q, managed s q -> extra s' q = extra s q.

Lemma managed_high s s' q : HIGH_MEMORY s' = HIGH_MEMORY s -> managed s' q <-> managed s q.
Proof. unfold managed. by intros ->. Qed.

Lemma writes_only_trans (W1 W2 W3 : Z -> Prop) s t u :
  writes_only W1 s t -> writes_only W2 t u ->
  (forall a, W1 a \/ W2 a -> W3 a) -> writes_only W3 s u.
Proof.
  intros [Hh1 H1] [Hh2 H2] HW. split; [congruence|]. intros a Ha.
  rewrite H2, H1; [done| |]; intros Hw; apply Ha, HW; tauto.
Qed.

Lemma same_extra_trans s t u :
  HIGH_MEMORY t = HIGH_MEMORY s -> same_extra s t -> same_extra t u -> same_extra s u.
Proof. intros Hh H1 H2 q Hq. rewrite H2 by (by rewrite (managed_high s t)). by apply H1. Qed.

(** One turn of [free_page_table]'s loop. *)
Lemma free_entry s i k :
  mem_inv s -> user s i -> 0 <= k < 1024 ->
  let slot := table s i + 4 * k in
  exists s', (e ← load slot;
     (if decide (Z.land 1 e <> 0) then free_page (Z.land PAGE_MASK e) else skip);;
     store slot 0) s = Done tt s' /\
  mem_inv s' /\ same_extra s s' /\ writes_only (fun a => a = slot) s s' /\ ld s' slot = 0.
Proof.
  intros [Hpg He] Hu Hk slot. set (e := pte s i k).
  assert (Hw : word e) by (apply (ok_words s), Hpg).
  assert (H0 : forall t, pg_inv t -> same_tables s t -> pte t i k = e ->
    (forall a, ld t a = ld s a) ->
    (forall q, managed s q -> extra t q = extra s q - maps e q) ->
    mem_inv (st slot 0 t) /\ same_extra s (st slot 0 t) /\
    writes_only (fun a => a = slot) s (st slot 0 t) /\ ld (st slot 0 t) slot = 0).
  { intros t Hpgt Hst Hpt Hlt Hx.
    assert (Hut : user t i) by (by apply (same_tables_user s t)).
    assert (Htab : table t i = table s i)
      by (unfold table; destruct Hst as (_ & -> & _); [done|apply Hu]).
    assert (Hpg' : pg_inv (st slot 0 t)).
    { unfold slot. rewrite <- Htab. by apply store_pte_inv. }
    assert (Hse : same_extra s (st slot 0 t)).
    { intros q Hq. unfold slot. rewrite <- Htab, store_pte_extra by done.
      rewrite Hpt, (maps_not_present 0), Hx by (done || apply not_present_0). lia. }
    split; [by apply (extra_inv s); try done; apply Hst|]. split; [done|].
    split; [|apply ld_st_eq]. split; [apply Hst|]. intros a Ha.
    rewrite ld_st_ne by (intros E; by apply Ha). apply Hlt. }
  unfold mbind, M_bind. simpl. change (ld s slot) with e. case_decide as Hp.
  - fold (frame e).
    assert (Hf : frame e < HIGH_MEMORY s) by (by apply (inv_pte s)).
    destruct (free_page_release s (frame e)) as (-> & Hpg' & Hst & Hl & Hx); try done.
    { by apply frame_aligned. }
    { intros Hlow. assert (Hm : managed s (frame e)) by (split; [by apply frame_aligned|done]).
      specialize (He _ Hm). unfold extra in He. pose proof (pte_refs s i k Hu Hk Hp).
      fold e in H. lia. }
    eexists. split; [done|]. apply H0; try done.
    + by apply Hst.
    + intros q Hq. by rewrite Hx, maps_present.
  - eexists. split; [done|]. apply H0; try done.
    intros q Hq. rewrite maps_not_present by (intros H; by apply H). lia.
Qed.

(** Loads at slots no write touched. *)
Lemma writes_only_table (W : Z -> Prop) s s' j :
  writes_only W s s' -> j < 1024 -> ~ W (4 * j) -> table s' j = table s j.
Proof. intros [_ H] Hj HW. unfold table, dirw. by rewrite H. Qed.

Definition in_page (p a : Z) : Prop := exists k, 0 <= k < 1024 /\ a = p + 4 * k.

Lemma in_page_slot p k : 0 <= k < 1024 -> in_page p (p + 4 * k).
Proof. intros. by exists k. Qed.

Lemma in_page_dir s i j : pg_inv s -> user s i -> j < 1024 -> ~ in_page (table s i) (4 * j).
Proof.
  intros Hpg Hi Hj (k & Hk & E). apply eq_sym in E. revert E.
  apply slot_dir_neq; done || lia.
Qed.

Lemma free_page_table_spec s i :
  mem_inv s -> user s i ->
  exists s', free_page_table (table s i) s = Done tt s' /\
    mem_inv s' /\ same_extra s s' /\ writes_only (in_page (table s i)) s s' /\
    forall k, 0 <= k < 1024 -> pte s' i k = 0.
Proof.
  intros Hinv Hu. unfold free_page_table.
  match goal with |- context [for_up _ _ ?b _] =>
    destruct (for_up_inv (fun k t => mem_inv t /\ same_extra s t /\
      writes_only (in_page (table s i)) s t /\
      forall m, 0 <= m < k -> ld t (table s i + 4 * m) = 0) 1024 0 b s)
    as (s' & -> & Hinv' & Hx & Hw & Hz) end.
  - split; [done|]. split; [done|]. split; [done|]. intros. lia.
  - intros k t Hk (Hinv' & Hx & Hw & Hz).
    assert (Hd : ~ in_page (table s i) (4 * i)) by (apply in_page_dir; done || apply Hinv || apply Hu).
    assert (Ht : table t i = table s i)
      by (apply (writes_only_table (in_page (table s i))); done || apply Hu).
    assert (Hut : user t i) by (split; [apply Hu|]; unfold dirw; rewrite (proj2 Hw) by done; apply Hu).
    destruct (free_entry t i k Hinv' Hut ltac:(lia)) as (t' & E & Hinv'' & Hx' & Hw' & Hz').
    rewrite Ht in *. exists t'. split; [done|]. split; [done|].
    split; [eapply same_extra_trans; [apply Hw|done|done]|]. split.
    + eapply writes_only_trans; [done|done|]. intros a [? | ->]; [done|]. apply in_page_slot. lia.
    + intros m Hm. destruct (decide (m = k)) as [->|]; [done|].
      rewrite (proj2 Hw') by lia. apply Hz. lia.
  - exists s'. split; [done|]. do 3 (split; [done|]). intros k Hk.
    assert (Hd : ~ in_page (table s i) (4 * i)) by (apply in_page_dir; done || apply Hinv || apply Hu).
    unfold pte. rewrite (writes_only_table (in_page (table s i)) s s' i); try done; [|apply Hu].
    apply Hz. lia.
Qed.

(** ** Freeing a directory entry *)

Lemma free_page_dir_spec s i :
  mem_inv s -> 16 <= i < 1024 ->
  exists s', free_page_dir (4 * i) s = Done tt s' /\
    mem_inv s' /\ same_extra s s' /\ ~ user s' i /\
    writes_only (fun a => user s i /\ (a = 4 * i \/ in_page (table s i) a)) s s'.
Proof.
  intros Hinv Hi. unfold free_page_dir, mbind, M_bind. simpl. fold (dirw s i).
  fold (present (dirw s i)). case_decide as Hp.
  { exists s. split; [done|]. split; [done|]. split; [done|]. split; [|done].
    intros [_ H]. by apply H. }
  assert (Hu : user s i) by done. fold (frame (dirw s i)). fold (table s i).
  destruct (free_page_table_spec s i Hinv Hu) as (t & -> & Hinvt & Hxt & Hwt & Hz).
  pose proof Hinvt as [Hpgt Het]. destruct (inv_table s (proj1 Hinv) i Hu) as [Ha Hr].
  assert (Hd : forall j, j < 1024 -> ~ in_page (table s i) (4 * j))
    by (intros; by apply in_page_dir; [apply Hinv| |]).
  assert (Htab : table t i = table s i)
    by (apply (writes_only_table (in_page (table s i))); (done || apply Hi || apply Hd, Hi)).
  assert (Hut : user t i) by (split; [apply Hu|]; unfold dirw; rewrite (proj2 Hwt); [apply Hu|apply Hd, Hi]).
  rewrite <- Htab in Ha, Hr |- *.
  assert (Hm : managed t (table t i)) by (by rewrite (managed_high s), Htab; [rewrite <- Htab|apply Hwt]).
  destruct (free_page_release t (table t i)) as (-> & Hpg2 & Hst2 & Hl2 & Hx2); try done; try apply Hm.
  { intros _. specialize (Het _ Hm). unfold extra in Het. pose proof (table_refs t i Hut). lia. }
  set (t2 := drop_ref t (table t i) t) in *. simpl.
  assert (Hut2 : user t2 i) by (by apply (same_tables_user t t2)).
  eexists. split; [done|].
  assert (Hnp : forall k, 0 <= k < 1024 -> ~ present (pte t2 i k)).
  { intros k Hk. assert (pte t2 i k = 0) as ->; [|apply not_present_0].
    destruct Hst2 as (_ & _ & ->); [by apply Hz|done|done]. }
  assert (Hx : same_extra s (st (4 * i) 0 t2)).
  { intros q Hq. assert (Hq' : managed t q) by (by rewrite (managed_high s); [|apply Hwt]).
    unfold extra at 1. rewrite clear_dir_refs by done. rewrite store_dir_cell.
    specialize (Hx2 q Hq'). unfold extra at 1 in Hx2.
    rewrite maps_present by apply Hut2. fold (table t2 i).
    assert (table t2 i = table t i) as -> by (unfold table; destruct Hst2 as (_ & -> & _); done).
    specialize (Hxt q Hq). lia. }
  split; [|split; [done|split]].
  - apply (extra_inv s); try done; [by apply clear_dir_inv|].
    destruct Hst2 as [Hh _]. destruct Hwt as [Hh' _]. simpl. congruence.
  - intros [_ H]. rewrite store_dir_dirw, decide_True in H by done. by apply not_present_0 in H.
  - split; [destruct Hst2 as [Hh _]; destruct Hwt as [Hh' _]; simpl; congruence|].
    intros a Ha'. rewrite ld_st_ne by (intros E; apply Ha'; split; [done|by left]).
    rewrite Hl2. apply Hwt. intros Hin. apply Ha'. split; [done|right; by rewrite Htab].
Qed.

(** ** [free_page_tables] *)

(** The number of 4 MB directory slots [size] bytes take. *)
Definition slots (size : Z) : Z := (size + 0x3fffff) / 2 ^ 22.

Lemma aligned_mod from : Z.land from 0x3fffff = from mod 2 ^ 22.
Proof. change 0x3fffff with (2 ^ 22 - 1). apply land_low. lia. Qed.

Lemma slots_shift size :
  0 <= size -> size + 0x3fffff < 2 ^ 32 ->
  Z.shiftr (u32 (size + 0x3fffff)) 22 = slots size.
Proof. intros. rewrite u32_small by lia. by rewrite Z.shiftr_div_pow2. Qed.

Lemma dir_index_aligned from :
  uaddr from -> from mod 2 ^ 22 = 0 -> from = 2 ^ 22 * dir_index from.
Proof.
  unfold uaddr, dir_index. intros Hf Ha. pose proof (Z.div_mod from (2 ^ 22)).
  rewrite Z.mod_small; [lia|]. split; [apply Z.div_pos; lia|].
  apply Z.div_lt_upper_bound; lia.
Qed.

(** The range of a task whose space starts at [from] and has [size] bytes. *)
Definition in_range (from size b : Z) : Prop := from <= b < from + 2 ^ 22 * slots size.

Lemma in_range_dir from size b :
  uaddr from -> from mod 2 ^ 22 = 0 -> 0 <= size -> uaddr b ->
  in_range from size b <-> dir_index from <= dir_index b < dir_index from + slots size.
Proof.
  intros Hf Ha Hs Hb. pose proof (dir_index_aligned from Hf Ha) as E. unfold in_range.
  assert (Eb : dir_index b = b / 2 ^ 22).
  { unfold dir_index, uaddr in *. apply Z.mod_small.
    split; [apply Z.div_pos; lia|apply Z.div_lt_upper_bound; lia]. }
  rewrite Eb. pose proof (Z.div_mod b (2 ^ 22)). pose proof (Z.mod_pos_bound b (2 ^ 22)). lia.
Qed.

(** Words outside the directory slots [i .. i+n-1] and the tables they had. *)
Definition dir_words (s : mm) (i n a : Z) : Prop :=
  exists j, i <= j < i + n /\ user s j /\ (a = 4 * j \/ in_page (table s j) a).

Lemma dir_words_slot s i n j :
  pg_inv s -> 16 <= i -> j < 1024 -> ~ (i <= j < i + n) -> ~ dir_words s i n (4 * j).
Proof.
  intros Hpg Hi Hj Hn (m & Hm & Hu & [E|E]); [lia|]. by apply (in_page_dir s m j) in E.
Qed.

Lemma dir_words_user s s' i n j :
  pg_inv s -> 16 <= i -> writes_only (dir_words s i n) s s' -> ~ (i <= j < i + n) ->
  (user s' j <-> user s j) /\ (j < 1024 -> table s' j = table s j).
Proof.
  intros Hpg Hi Hw Hn. split; [unfold user; split; intros [Hj Hp]; (split; [done|])| intros Hj].
  - unfold dirw in *. rewrite (proj2 Hw) in Hp; [done|]. apply dir_words_slot; done || lia.
  - unfold dirw in *. rewrite (proj2 Hw); [done|]. apply dir_words_slot; done || lia.
  - unfold table, dirw. rewrite (proj2 Hw); [done|]. apply dir_words_slot; done || lia.
Qed.

Lemma dir_words_pte s s' i n j k :
  pg_inv s -> 16 <= i -> writes_only (dir_words s i n) s s' -> ~ (i <= j < i + n) ->
  user s j -> 0 <= k < 1024 -> pte s' j k = pte s j k.
Proof.
  intros Hpg Hi Hw Hn Hj Hk. unfold pte.
  rewrite (proj2 (dir_words_user s s' i n j Hpg Hi Hw Hn)) by apply Hj.
  apply Hw. intros (m & Hm & Hu & [E|(k' & Hk' & E)]).
  - revert E. apply slot_dir_neq; done || lia || apply Hu.
  - apply (slot_table_neq s j m k k') in E; try done. lia.
Qed.

Lemma free_dirs s i n :
  mem_inv s -> 16 <= i -> i + Z.of_nat n <= 1024 ->
  exists s', for_up n 0 (fun k => free_page_dir (4 * i + 4 * k)) s = Done tt s' /\
    mem_inv s' /\ same_extra s s' /\ writes_only (dir_words s i (Z.of_nat n)) s s' /\
    forall j, i <= j < i + Z.of_nat n -> ~ user s' j.
Proof.
  intros Hinv Hi Hn.
  destruct (for_up_inv (fun k t => mem_inv t /\ same_extra s t /\
      writes_only (dir_words s i k) s t /\ forall j, i <= j < i + k -> ~ user t j)
    n 0 (fun k => free_page_dir (4 * i + 4 * k)) s) as (s' & -> & H).
  - split; [done|]. split; [done|]. split; [done|]. intros. lia.
  - intros k t Hk (Hinvt & Hx & Hw & Hnu). replace (4 * i + 4 * k) with (4 * (i + k)) by lia.
    destruct (free_page_dir_spec t (i + k) Hinvt ltac:(lia)) as (t' & E & Hinv' & Hx' & Hnu' & Hw').
    pose proof Hinv as [Hpg _].
    destruct (dir_words_user s t i k (i + k) Hpg Hi Hw ltac:(lia)) as [Hu Ht].
    exists t'. split; [done|]. split; [done|].
    split; [eapply same_extra_trans; [apply Hw|done|done]|]. split.
    + eapply writes_only_trans; [done|done|].
      intros a [(j & Hj & Hj')|[Hu' Ha]]; [exists j; split; [lia|done]|].
      exists (i + k). split; [lia|]. rewrite Ht in Ha by lia. by rewrite <- Hu.
    + intros j Hj. destruct (decide (j = i + k)) as [->|Hne]; [done|].
      intros [Hj1 Hj2]. apply (Hnu j); [lia|]. split; [done|]. unfold dirw in *.
      rewrite (proj2 Hw') in Hj2; [done|]. intros [Hu' [E'|E']]; [lia|].
      eapply in_page_dir; [apply Hinvt|done| |done]. lia.
  - exists s'. split; [done|]. by rewrite Z.add_0_l in H.
Qed.

(** C21: [free_page_tables] unmaps exactly the 4 MB-rounded range it is given: inside
    nothing is mapped any more, outside every mapping is as before, and the reference
    counts stay exact, so that every page only mapped there is free again. *)
Theorem free_page_tables_unmaps s from size :
  mem_inv s -> uaddr from -> from mod 2 ^ 22 = 0 -> 0 <= size -> from + size <= 2 ^ 32 ->
  exists s', free_page_tables from size s = Done 0 s' /\ preserves s s' /\
    (forall b, uaddr b -> in_range from size b -> entry s' b = 0) /\
    (forall b, uaddr b -> ~ in_range from size b -> entry s' b = entry s b).
Proof.
  intros Hinv Hf Ha Hs Hle. pose proof Hinv as [Hpg _].
  pose proof (dir_index_aligned from Hf Ha) as Ef. pose proof (uaddr_dir from Hf) as Hi.
  assert (Hn : 0 <= slots size /\ dir_index from + slots size <= 1024).
  { unfold slots. pose proof (Z.div_mod (size + 0x3fffff) (2 ^ 22)).
    pose proof (Z.mod_pos_bound (size + 0x3fffff) (2 ^ 22)). lia. }
  unfold free_page_tables. rewrite aligned_mod, Ha, decide_False by tauto.
  rewrite decide_False by (unfold uaddr in Hf; lia).
  rewrite slots_shift, dir_addr_u by (done || unfold uaddr in Hf; lia).
  destruct (free_dirs s (dir_index from) (Z.to_nat (slots size))) as (s' & E & Hinv' & Hx & Hw & Hnu);
    [done|lia|lia|]. rewrite Z2Nat.id in * by lia.
  exists s'. unfold mbind, M_bind. rewrite E. split; [done|]. split; [|split].
  - split; [done|]. split; [apply Hw|]. split; [done|].
    intros q k ([Hqa Hq] & _ & Hqt) Hk. apply Hw. intros (j & Hj & Hu & [E'|(m & Hm & E')]).
    + unfold LOW_MEM in Hq. lia.
    + apply page_disjoint in E' as [E' _]; try done; [by apply (Hqt j)|].
      by apply (inv_table s).
  - intros b Hb Hr. unfold entry. rewrite decide_False; [done|]. apply Hnu.
    by apply in_range_dir.
  - intros b Hb Hr. rewrite in_range_dir in Hr by done. unfold entry.
    pose proof (dir_words_user s s' (dir_index from) (slots size) (dir_index b)
      Hpg ltac:(lia) Hw Hr) as [Hu _].
    case_decide as D; case_decide as D'; try tauto.
    apply (dir_words_pte s s' (dir_index from) (slots size)); try done; [lia|].
    apply tbl_index_range.
Qed.

End PageTables.
