(* ===== verification/CopyTables.v ===== *)
(** * [copy_page_tables]: sharing an address space copy on write

    [fork] copies page tables, not pages: parent and child map the same frames,
    write-protected, and each shared frame gets one more reference.  The count of
    a page is a byte: the theorem asks that no page be mapped so often that its
    count would wrap. *)

From S2P Require Import Prelude Memory MemoryFacts PageRefs Paging PageTables.
Import Memory MemoryFacts PageRefs Paging PageTables.

Module CopyTables.

(** What an entry of the parent becomes, and the child's entry for it. *)
Definition protect (e : Z) : Z :=
  if decide (present e /\ LOW_MEM <= frame e) then Z.ldiff e 2 else e.
Definition child (e : Z) : Z := if decide (present e) then Z.ldiff e 2 else 0.

Lemma not_writable_ldiff2 e : ~ writable (Z.ldiff e 2).
Proof. unfold writable. rewrite Z.ldiff_spec. by rewrite andb_false_r. Qed.

Lemma maps_ldiff2 e q : maps (Z.ldiff e 2) q = maps e q.
Proof.
  unfold maps. rewrite frame_ldiff2. pose proof (present_ldiff2 e).
  case_decide; case_decide; tauto.
Qed.

Lemma maps_protect e q : maps (protect e) q = maps e q.
Proof. unfold protect. case_decide; [apply maps_ldiff2|done]. Qed.

Lemma maps_child e q : maps (child e) q = maps e q.
Proof.
  unfold child. case_decide; [apply maps_ldiff2|].
  rewrite !maps_not_present; done || apply not_present_0.
Qed.

(** The comparison with [LOW_MEM] and [MAP_NR] see the whole entry. *)
Lemma frame_split e : word e -> e = frame e + e mod 4096 /\ 0 <= e mod 4096 < 4096.
Proof.
  intros He. rewrite frame_div by done. pose proof (Z.div_mod e 4096).
  pose proof (Z.mod_pos_bound e 4096). lia.
Qed.

Lemma low_present e : word e -> present e -> (LOW_MEM < e <-> LOW_MEM <= frame e).
Proof.
  intros He Hp. destruct (frame_split e He) as [E Hr].
  assert (Ha : page_aligned (frame e)) by (by apply frame_aligned).
  assert (Hm : e mod 4096 <> 0).
  { intros E0. unfold present in Hp. rewrite land_1 in Hp. apply Hp.
    rewrite (Z.div_mod e 4096), E0 by lia.
    replace (4096 * (e / 4096) + 0) with ((2048 * (e / 4096)) * 2) by lia.
    apply Z.mod_mul. lia. }
  unfold page_aligned in Ha. pose proof (Z.div_mod (frame e) 4096).
  unfold LOW_MEM in *. lia.
Qed.

Lemma MAP_NR_entry e : word e -> MAP_NR e = MAP_NR (frame e).
Proof.
  intros He. rewrite !MAP_NR_div. destruct (frame_split e He) as [E Hr].
  pose proof (frame_aligned e He) as Ha. unfold page_aligned in Ha.
  pose proof (Z.div_mod (frame e) 4096) as D.
  replace (e - LOW_MEM) with (e mod 4096 + (frame e / 4096 - 256) * 4096)
    by (unfold LOW_MEM; lia).
  replace (frame e - LOW_MEM) with ((frame e / 4096 - 256) * 4096) by (unfold LOW_MEM; lia).
  rewrite Z.div_add, Z.div_mul, Z.div_small by lia. lia.
Qed.

(** ** One entry *)

(** Gaining a reference. *)
Definition gain_ref (p : Z) (s : mm) : mm := set_cell p (cell s p + 1) s.

Lemma gain_ref_facts s p :
  pg_inv s -> managed s p -> cell s p < 255 ->
  (v ← map_get (MAP_NR p); map_set (MAP_NR p) (v + 1)) s = Done tt (gain_ref p s) /\
  pg_inv (gain_ref p s) /\
  (forall q, managed s q -> cell (gain_ref p s) q = cell s q + if decide (p = q) then 1 else 0) /\
  (forall q, managed s q -> extra (gain_ref p s) q = extra s q + if decide (p = q) then 1 else 0).
Proof.
  intros Hpg Hm Hc. pose proof (inv_ok s Hpg) as Hok. pose proof (cell_range s Hok p Hm).
  assert (Hok' : mm_ok (gain_ref p s)) by (unfold gain_ref; apply set_cell_ok; [done|done|lia]).
  unfold gain_ref. split.
  { unfold mbind, M_bind. rewrite map_get_managed, map_set_managed by done.
    by rewrite u8_small by lia. }
  split; [by apply (same_tables_inv s)|]. split.
  - intros q Hq. rewrite cell_set_cell by (done || apply Hq). case_decide; subst; lia.
  - intros q Hq. rewrite extra_set_cell by (done || apply Hq). case_decide; subst; lia.
Qed.

(** Storing an entry that maps what [e] maps. *)
Lemma store_child s j k e e' :
  pg_inv s -> user s j -> 0 <= k < 1024 -> word e' ->
  (forall q, maps e' q = maps e q) -> (present e' <-> present e) -> frame e' = frame e ->
  (present e -> frame e < HIGH_MEMORY s /\ forall x, user s x -> frame e <> table s x) ->
  let s' := st (table s j + 4 * k) e' s in
  pg_inv s' /\ forall q, extra s' q = extra s q + maps (pte s j k) q - maps e q.
Proof.
  intros Hpg Hj Hk Hw Hm Hp Hf He s'. split.
  - apply store_pte_inv; try done. rewrite Hp, Hf. done.
  - intros q. unfold s'. by rewrite store_pte_extra, Hm.
Qed.

(** Entry [k] of table [i] is shared with entry [k] of table [j]. *)
Definition entry_copied (s s' : mm) (i j k : Z) : Prop :=
  let pt := table s i + 4 * k in let ct := table s j + 4 * k in
  mem_inv s' /\ same_extra s s' /\ writes_only (fun a => a = pt \/ a = ct) s s' /\
  ld s' pt = protect (pte s i k) /\
  ld s' ct = (if decide (present (pte s i k)) then child (pte s i k) else pte s j k) /\
  (forall q, managed s q -> cell s' q = cell s q + maps (pte s i k) q).

Section entry.
Context (s : mm) (i j k : Z).
Hypothesis (Hinv : mem_inv s) (Hi : user s i) (Hj : user s j) (Hne : i <> j) (Hk : 0 <= k < 1024).
Hypothesis (Hnp : ~ present (pte s j k)) (Hp : present (pte s i k)).
Let e : Z := pte s i k.
Let e' : Z := Z.ldiff e 2.
Let pt : Z := table s i + 4 * k.
Let ct : Z := table s j + 4 * k.
Let s1 : mm := st ct e' s.

Lemma entry_word : word e /\ word e' /\ pt <> ct /\ child e = e'.
Proof.
  assert (Hw : word e) by (apply (ok_words s), Hinv). split_and!; [done|by apply word_ldiff2| |].
  - intros E. pose proof Hinv as [Hpg _]. unfold pt, ct in E. apply (slot_table_neq s i j k k) in E; tauto.
  - unfold child. by rewrite decide_True.
Qed.

(** Storing the protected entry in a table. *)
Lemma store_protected t x :
  pg_inv t -> HIGH_MEMORY t = HIGH_MEMORY s -> (forall y, user t y -> user s y /\ table t y = table s y) -> user t x ->
  let t' := st (table t x + 4 * k) e' t in pg_inv t' /\ forall q, extra t' q = extra t q + maps (pte t x k) q - maps e q.
Proof.
  intros Ht Hh Hu Hx. destruct entry_word as (Hw & Hw' & _). destruct Hinv as [Hpg _].
  apply (store_child t x k e e'); try done; [apply maps_ldiff2|apply present_ldiff2|by apply frame_ldiff2|].
  intros _. rewrite Hh. split; [by apply (inv_pte s)|]. intros y Hy. destruct (Hu y Hy) as [Hy' ->]. by apply (inv_pte_table s).
Qed.

(** The child's entry alone. *)
Lemma child_stored :
  pg_inv s1 /\ (forall q, extra s1 q = extra s q - maps e q) /\ user s1 i /\ pte s1 i k = e /\
  forall x, user s1 x -> user s x /\ table s1 x = table s x.
Proof.
  destruct entry_word as (Hw & Hw' & Hpc & _). pose proof Hinv as [Hpg _].
  destruct (store_protected s j Hpg eq_refl (fun x H => conj H eq_refl) Hj) as [Hpg1 Hx1]. fold ct in Hpg1, Hx1. fold s1 in Hpg1, Hx1.
  split_and!; [done| |by apply store_pte_user| |].
  - intros q. rewrite Hx1, (maps_not_present (pte s j k)) by done. lia.
  - unfold s1, ct. rewrite store_pte_pte by done. by rewrite decide_False by tauto.
  - intros x Hx. split; [by apply (store_pte_user s j k e') in Hx|].
    unfold s1, ct. rewrite store_pte_table by (done || apply Hx). done.
Qed.

(** A page of the kernel's image stays as it is. *)
Lemma entry_low : ~ LOW_MEM <= frame e -> entry_copied s s1 i j k.
Proof.
  intros Hl. destruct child_stored as (Hpg1 & Hx1 & _). destruct entry_word as (Hw & _ & Hpc & Hch).
  assert (Hpr : protect e = e).
  { unfold protect. rewrite decide_False; [done|]. tauto. }
  assert (Hnm : forall q, managed s q -> maps e q = 0) by (intros q [_ Hq]; apply maps_other; lia).
  assert (Hx : same_extra s s1) by (intros q Hq; rewrite Hx1, Hnm by done; lia).
  split; [by apply (extra_inv s)|]. split; [done|]. fold e pt ct. split; [|split; [|split]].
  - split; [done|]. intros a Ha. unfold s1. rewrite ld_st_ne; [done|]. intros E'; apply Ha; auto.
  - unfold s1. rewrite ld_st_ne by done. by rewrite Hpr.
  - rewrite decide_True, Hch by done. by unfold s1; rewrite ld_st_eq.
  - intros q Hq. rewrite Hnm by done. unfold s1, cell. simpl. lia.
Qed.

(** A page of the user memory is protected, and gains a reference. *)
Lemma entry_high : LOW_MEM <= frame e -> cell s (frame e) < 255 ->
  let s2 := st pt e' s1 in
  (v ← map_get (MAP_NR e'); map_set (MAP_NR e') (v + 1)) s2 = Done tt (gain_ref (frame e) s2) /\
  entry_copied s (gain_ref (frame e) s2) i j k.
Proof.
  intros Hl Hc s2. destruct child_stored as (Hpg1 & Hx1 & Hi1 & Hp1 & Hu1). destruct entry_word as (Hw & Hw' & Hpc & Hch).
  assert (Hpr : protect e = e') by (unfold protect; by rewrite decide_True).
  destruct (store_protected s1 i Hpg1 eq_refl Hu1 Hi1) as [Hpg2 Hx2].
  rewrite (proj2 (Hu1 i Hi1)), Hp1 in *. fold pt in Hpg2, Hx2. fold s2 in Hpg2, Hx2.
  assert (Hm : managed s (frame e)) by (split; [by apply frame_aligned|split; [done|by apply (inv_pte s), Hp; try apply Hinv]]).
  rewrite MAP_NR_entry by done. unfold e' at 1 2. rewrite frame_ldiff2 by done.
  destruct (gain_ref_facts s2 (frame e)) as (E & Hpg3 & Hc3 & Hx3); [done..|]. split; [exact E|].
  assert (Hx : same_extra s (gain_ref (frame e) s2)).
  { intros q Hq. rewrite Hx3, Hx2, Hx1, maps_present by done. lia. }
  split; [by apply (extra_inv s)|]. split; [done|]. fold e pt ct. split; [|split; [|split]].
  - split; [done|]. intros a Ha. unfold gain_ref. rewrite ld_set_cell.
    unfold s2, s1. rewrite !ld_st_ne; [done| |]; intros E'; apply Ha; auto.
  - unfold gain_ref. rewrite ld_set_cell. unfold s2. by rewrite ld_st_eq.
  - rewrite decide_True, Hch by done. unfold gain_ref. rewrite ld_set_cell. unfold s2, s1. by rewrite ld_st_ne, ld_st_eq.
  - intros q Hq. rewrite Hc3, maps_present by done. done.
Qed.
End entry.

Lemma copy_page_entry_spec s i j k :
  mem_inv s -> user s i -> user s j -> i <> j -> 0 <= k < 1024 ->
  ~ present (pte s j k) ->
  (forall p, managed s p -> maps (pte s i k) p = 1 -> cell s p < 255) ->
  exists s', copy_page_entry (table s i + 4 * k) (table s j + 4 * k) s = Done tt s' /\ entry_copied s s' i j k.
Proof.
  intros Hinv Hi Hj Hne Hk Hnp Hc. pose proof Hinv as [Hpg _].
  unfold copy_page_entry, mbind, M_bind. simpl. change (ld s (table s i + 4 * k)) with (pte s i k).
  destruct (decide (present (pte s i k))) as [Hp|Hp].
  - destruct (entry_word s i j k Hinv Hi Hj Hne Hk Hp) as (Hw & Hw' & _).
    assert (Hlow : LOW_MEM < Z.ldiff (pte s i k) 2 <-> LOW_MEM <= frame (pte s i k)).
    { rewrite <- (frame_ldiff2 (pte s i k)) by done. apply low_present; [done|]. by apply present_ldiff2. }
    rewrite decide_False by done. case_decide as Hl.
    + apply Hlow in Hl. destruct (entry_high s i j k Hinv Hi Hj Hne Hk Hnp Hp Hl) as [E H]; [|by eexists].
      apply Hc; [|by apply maps_frame]. split; [by apply frame_aligned|]. split; [done|]. by apply (inv_pte s).
    + eexists. split; [done|]. apply entry_low; try done. tauto.
  - rewrite decide_True by (unfold present in Hp; destruct (decide (Z.land 1 (pte s i k) = 0)); tauto).
    exists s. split; [done|]. split; [done|]. split; [done|]. split; [done|].
    split; [unfold protect; rewrite decide_False by tauto; done|].
    split; [by rewrite decide_False|]. intros. rewrite maps_not_present by done. lia.
Qed.

(** ** One page table *)

Lemma sumZ_S n f : sumZ (S n) f = sumZ n f + f (Z.of_nat n).
Proof. done. Qed.

Lemma sumZ_step k f : 0 <= k -> sumZ (Z.to_nat (k + 1)) f = sumZ (Z.to_nat k) f + f k.
Proof.
  intros. replace (Z.to_nat (k + 1)) with (S (Z.to_nat k)) by lia.
  rewrite sumZ_S. by rewrite Z2Nat.id by lia.
Qed.

Lemma sumZ_mono n m f : (forall i, 0 <= f i) -> (n <= m)%nat -> sumZ n f <= sumZ m f.
Proof. intros Hf. induction 1; [lia|]. rewrite sumZ_S. specialize (Hf (Z.of_nat m)). lia. Qed.

Definition table_words (s : mm) (i j a : Z) : Prop :=
  in_page (table s i) a \/ in_page (table s j) a.

Lemma table_words_dir s i j x :
  pg_inv s -> user s i -> user s j -> x < 1024 -> ~ table_words s i j (4 * x).
Proof. intros Hpg Hi Hj Hx [H|H]; by apply in_page_dir in H. Qed.

(** The state when [k] entries of table [i] were copied into the empty table [j]. *)
Record table_copied (s : mm) (i j k : Z) (t : mm) : Prop := {
  tc_inv : mem_inv t;
  tc_extra : same_extra s t;
  tc_words : writes_only (table_words s i j) s t;
  tc_done : forall m, 0 <= m < k -> ld t (table s i + 4 * m) = protect (pte s i m) /\
                                   ld t (table s j + 4 * m) = child (pte s i m);
  tc_rest : forall m, k <= m < 1024 -> ld t (table s i + 4 * m) = pte s i m /\
                                       ld t (table s j + 4 * m) = 0;
  tc_cell : forall q, managed s q ->
    cell t q = cell s q + sumZ (Z.to_nat k) (fun m => maps (pte s i m) q)
}.

Lemma table_copied_dirs s i j k t :
  pg_inv s -> user s i -> user s j -> table_copied s i j k t ->
  forall x, x < 1024 -> dirw t x = dirw s x.
Proof.
  intros Hpg Hi Hj Hc x Hx. unfold dirw. apply (tc_words _ _ _ _ _ Hc).
  by apply table_words_dir.
Qed.

Lemma copy_table s i j :
  mem_inv s -> user s i -> user s j -> i <> j ->
  (forall k, 0 <= k < 1024 -> pte s j k = 0) ->
  (forall q, managed s q -> 0 < tbl_refs s i q -> cell s q + tbl_refs s i q < 256) ->
  exists t, for_up 1024 0 (fun k =>
      copy_page_entry (table s i + 4 * k) (table s j + 4 * k)) s = Done tt t /\
    table_copied s i j 1024 t.
Proof.
  intros Hinv Hi Hj Hne Hz Hc. pose proof Hinv as [Hpg _].
  destruct (for_up_inv (table_copied s i j) 1024 0 (fun k =>
      copy_page_entry (table s i + 4 * k) (table s j + 4 * k)) s) as (t & -> & H).
  { split; try done; intros.
    - lia.
    - split; [done|]. by apply Hz.
    - change (Z.to_nat 0) with O. unfold sumZ. lia. }
  2:{ by exists t. }
  intros k t Hk Htc. pose proof Htc as [Hit Hx Hw Hd Hr Hcell].
  pose proof (table_copied_dirs s i j k t Hpg Hi Hj Htc) as Hdir.
  assert (Hu : forall x, user s x -> user t x /\ table t x = table s x).
  { intros x [Hx1 Hx2]. unfold user, table. rewrite Hdir by lia. done. }
  destruct (Hu i Hi) as [Hit' Eti]. destruct (Hu j Hj) as [Hjt Etj].
  destruct (Hr k ltac:(lia)) as [Epi Epj].
  assert (Epi' : pte t i k = pte s i k) by (unfold pte at 1; by rewrite Eti).
  assert (Epj' : pte t j k = 0) by (unfold pte; by rewrite Etj).
  destruct (copy_page_entry_spec t i j k Hit Hit' Hjt Hne ltac:(lia))
    as (t' & E & Hinv' & Hx' & Hw' & Hp' & Hc' & Hcell').
  { rewrite Epj'. apply not_present_0. }
  { intros q Hq Hm. rewrite Epi' in Hm. apply (managed_high s) in Hq; [|apply Hw].
    rewrite Hcell by done.
    assert (sumZ (Z.to_nat (k + 1)) (fun m => maps (pte s i m) q) <= tbl_refs s i q)
      by (apply sumZ_mono; [intros; apply maps_range|lia]).
    rewrite sumZ_step, Hm in H by lia.
    assert (0 <= sumZ (Z.to_nat k) (fun m => maps (pte s i m) q))
      by (apply sumZ_nonneg; intros; apply maps_range).
    specialize (Hc q Hq ltac:(lia)). lia. }
  rewrite Eti, Etj, Epi', Epj' in *.
  assert (Hdisj : forall m m', 0 <= m < 1024 -> 0 <= m' < 1024 ->
    table s i + 4 * m <> table s j + 4 * m').
  { intros m m' Hm Hm' E'. apply (slot_table_neq s i j m m') in E'; tauto. }
  exists t'. split; [done|]. split; [done| | | | |].
  - eapply same_extra_trans; [apply Hw|done|done].
  - eapply writes_only_trans; [done|done|].
    intros a [Ha|[->| ->]]; [done|left|right]; apply in_page_slot; lia.
  - intros m Hm. destruct (decide (m = k)) as [->|Hmk].
    + rewrite Hp', Hc'. split; [done|]. case_decide as D; [done|].
      unfold child. by rewrite decide_False.
    + rewrite !(proj2 Hw'); [apply Hd; lia| |]; intros [E'|E']; try lia;
        [apply eq_sym in E'|]; apply Hdisj in E'; lia.
  - intros m Hm. rewrite !(proj2 Hw'); [apply Hr; lia| |]; intros [E'|E']; try lia;
      [apply eq_sym in E'|]; apply Hdisj in E'; lia.
  - intros q Hq. rewrite Hcell' by (by rewrite (managed_high s); [|apply Hw]).
    rewrite Hcell, sumZ_step by (done || lia). lia.
Qed.

Lemma nat_1024 : Z.to_nat 1024 = 1024%nat.
Proof. vm_compute. done. Qed.

Lemma table_copied_cell s i j t q :
  table_copied s i j 1024 t -> managed s q -> cell t q = cell s q + tbl_refs s i q.
Proof. intros Hc Hq. rewrite (tc_cell _ _ _ _ _ Hc) by done. rewrite nat_1024. unfold tbl_refs. reflexivity. Qed.

Lemma table_copied_user s i j k t x :
  pg_inv s -> user s i -> user s j -> table_copied s i j k t -> x < 1024 ->
  (user t x <-> user s x) /\ table t x = table s x.
Proof.
  intros Hpg Hi Hj Hc Hx. unfold user, table.
  by rewrite (table_copied_dirs s i j k t).
Qed.

Lemma table_copied_other s i j k t x m :
  pg_inv s -> user s i -> user s j -> table_copied s i j k t ->
  user s x -> x <> i -> x <> j -> 0 <= m < 1024 -> pte t x m = pte s x m.
Proof.
  intros Hpg Hi Hj Hc Hx Hxi Hxj Hm. unfold pte.
  rewrite (proj2 (table_copied_user s i j k t x Hpg Hi Hj Hc ltac:(apply Hx))).
  apply (tc_words _ _ _ _ _ Hc).
  intros [(m' & Hm' & E)|(m' & Hm' & E)]; apply slot_table_neq in E; tauto.
Qed.

Lemma table_copied_data s i j k t q :
  pg_inv s -> user s i -> user s j -> table_copied s i j k t -> data_page s q ->
  data_page t q /\ forall m, 0 <= m < 1024 -> ld t (q + 4 * m) = ld s (q + 4 * m).
Proof.
  intros Hpg Hi Hj Hc (Hq & Hq0 & Hqt). split.
  - split; [by apply (managed_high s); [apply (tc_words _ _ _ _ _ Hc)|]|]. split.
    + rewrite (tc_cell _ _ _ _ _ Hc) by done.
      assert (0 <= sumZ (Z.to_nat k) (fun m => maps (pte s i m) q))
        by (apply sumZ_nonneg; intros; apply maps_range).
      pose proof (cell_range s (inv_ok s Hpg) q Hq). lia.
    + intros x Hx. destruct (table_copied_user s i j k t x Hpg Hi Hj Hc) as [Hu ->];
        [apply Hx|]. by apply Hqt, Hu.
  - intros m Hm. apply (tc_words _ _ _ _ _ Hc).
    intros [(m' & Hm' & E)|(m' & Hm' & E)]; apply page_disjoint in E as [E _]; try done;
      try apply Hq; try (by apply (inv_table s)); apply eq_sym in E; by apply Hqt in E.
Qed.

(** ** The directory loop *)

(** References to [q] from the user table of slot [x]. *)
Definition slot_refs (s : mm) (x q : Z) : Z := if decide (user s x) then tbl_refs s x q else 0.

Lemma slot_refs_nonneg s x q : 0 <= slot_refs s x q.
Proof. unfold slot_refs. case_decide; [apply tbl_refs_nonneg|lia]. Qed.

Lemma sumZ_app a b f : sumZ (a + b) f = sumZ a f + sumZ b (fun y => f (Z.of_nat a + y)).
Proof.
  induction b as [|b IH].
  - rewrite Nat.add_0_r. unfold sumZ at 3. lia.
  - rewrite Nat.add_succ_r, !sumZ_S, IH. rewrite Nat2Z.inj_add. lia.
Qed.

Lemma sumZ_le_le n f g : (forall y, 0 <= y < Z.of_nat n -> f y <= g y) -> sumZ n f <= sumZ n g.
Proof.
  induction n as [|n IH]; intros H; [unfold sumZ; lia|]. rewrite !sumZ_S.
  pose proof (H (Z.of_nat n) ltac:(lia)). assert (sumZ n f <= sumZ n g); [|lia].
  apply IH. intros. apply H. lia.
Qed.

Lemma slot_refs_sum s i n q :
  0 <= i -> i + Z.of_nat n <= 1024 -> sumZ n (fun y => slot_refs s (i + y) q) <= refs s q.
Proof.
  intros Hi Hn. unfold refs.
  assert (H : sumZ (Z.to_nat i + n) (fun x => dir_refs s x q) <= sumZ 1024 (fun x => dir_refs s x q))
    by (apply sumZ_mono; [intros; apply dir_refs_nonneg|lia]).
  rewrite sumZ_app, Z2Nat.id in H by lia.
  assert (0 <= sumZ (Z.to_nat i) (fun x => dir_refs s x q))
    by (apply sumZ_nonneg; intros; apply dir_refs_nonneg).
  assert (sumZ n (fun y => slot_refs s (i + y) q) <= sumZ n (fun y => dir_refs s (i + y) q)); [|lia].
  apply sumZ_le_le. intros y Hy. unfold slot_refs, dir_refs. case_decide; [|lia].
  pose proof (maps_range (dirw s (i + y)) q). lia.
Qed.

(** The state when [n] directory entries from [i] were copied to [j]. *)
Record dirs_copied (s : mm) (i j n : Z) (t : mm) : Prop := {
  dc_inv : mem_inv t;
  dc_high : HIGH_MEMORY t = HIGH_MEMORY s;
  dc_extra : same_extra s t;
  dc_dir : forall x, 16 <= x < 1024 -> ~ (j <= x < j + n) -> dirw t x = dirw s x;
  dc_parent : forall x k, user s x -> 0 <= k < 1024 ->
    pte t x k = if decide (i <= x < i + n) then protect (pte s x k) else pte s x k;
  dc_child : forall y, 0 <= y < n ->
    (user t (j + y) <-> user s (i + y)) /\
    (user s (i + y) -> forall k, 0 <= k < 1024 -> pte t (j + y) k = child (pte s (i + y) k));
  dc_data : forall q, data_page s q ->
    data_page t q /\ forall k, 0 <= k < 1024 -> ld t (q + 4 * k) = ld s (q + 4 * k);
  dc_cell : forall q, managed s q -> cell s q <> 0 ->
    cell s q <= cell t q <= cell s q + sumZ (Z.to_nat n) (fun y => slot_refs s (i + y) q)
}.

Lemma dirs_copied_0 s i j : mem_inv s -> dirs_copied s i j 0 s.
Proof.
  intros Hinv. split; try done.
  - intros. rewrite decide_False by lia. done.
  - intros. lia.
  - intros. change (Z.to_nat 0) with O. unfold sumZ. lia.
Qed.

Section dirs.
Context (s : mm) (i j N : Z).
Context (Hinv : mem_inv s) (Hi : 16 <= i) (Hj : 16 <= j) (HiN : i + N <= 1024)
  (HjN : j + N <= 1024) (Hdisj : i + N <= j \/ j + N <= i)
  (Hfree : forall y, 0 <= y < N -> ~ user s (j + y))
  (Hwrap : forall q, managed s q -> cell s q + refs s q < 256).

Lemma dirs_user n t x :
  0 <= n <= N -> dirs_copied s i j n t -> user s x -> user t x.
Proof using Hfree.
  intros Hn Hc Hx. assert (~ (j <= x < j + n)).
  { intros Hr. apply (Hfree (x - j)); [lia|]. by replace (j + (x - j)) with x by lia. }
  destruct Hx. split; [done|]. by rewrite (dc_dir _ _ _ _ _ Hc).
Qed.

(** An absent source entry is skipped. *)
Lemma dirs_skip n t :
  0 <= n < N -> dirs_copied s i j n t -> ~ user s (i + n) -> dirs_copied s i j (n + 1) t.
Proof using Hi Hj HiN HjN Hfree.
  intros Hn Hc Hnu. pose proof Hc as [H1 H2 H3 H4 H5 H6 H7 H8]. split; try done.
  - intros x Hx Hr. apply H4; [done|lia].
  - intros x k Hx Hk. rewrite H5 by done.
    assert (x <> i + n) by (intros ->; done). case_decide; case_decide; lia || done.
  - intros y Hy. destruct (decide (y = n)) as [->|]; [|apply H6; lia].
    split; [|done]. split; [|done]. intros [Hu Hp]. rewrite H4 in Hp by lia.
    destruct (Hfree n); [lia|done].
  - intros q Hq Hq0. rewrite sumZ_step by lia. specialize (H8 q Hq Hq0).
    pose proof (slot_refs_nonneg s (i + n) q). lia.
Qed.

(** The room left in the count of a page the next table maps. *)
Lemma dirs_room n t q :
  0 <= n < N -> dirs_copied s i j n t -> user s (i + n) -> managed s q ->
  0 < tbl_refs s (i + n) q -> cell t q <> 0 /\ cell t q + tbl_refs s (i + n) q < 256.
Proof using Hinv Hi HiN HjN Hwrap.
  intros Hn Hc Hu Hq Ht. destruct Hinv as [Hpg He].
  pose proof (refs_dir s (i + n) q Hu) as Hr. pose proof (maps_range (dirw s (i + n)) q).
  specialize (He q Hq). unfold extra in He.
  assert (E : slot_refs s (i + n) q = tbl_refs s (i + n) q)
    by (unfold slot_refs; by rewrite decide_True).
  pose proof (dc_cell _ _ _ _ _ Hc q Hq ltac:(lia)) as Hb.
  pose proof (slot_refs_sum s i (Z.to_nat (n + 1)) q ltac:(lia) ltac:(lia)) as Hs.
  rewrite sumZ_step, E in Hs by lia. specialize (Hwrap q Hq). lia.
Qed.

(** A source table is copied into a fresh one. *)
Lemma dirs_copy n t p t1 :
  0 <= n < N -> dirs_copied s i j n t -> user s (i + n) -> fresh t p t1 ->
  exists t', for_up 1024 0 (fun k => copy_page_entry (table t (i + n) + 4 * k) (p + 4 * k))
               (st (4 * (j + n)) (Z.lor p 7) t1) = Done tt t' /\
    dirs_copied s i j (n + 1) t'.
Proof using Hinv Hi Hj HiN HjN Hdisj Hfree Hwrap.
  intros Hn Hc Hu Hf. pose proof Hinv as [Hpg _].
  pose proof Hc as [H1 H2 H3 H4 H5 H6 H7 H8].
  assert (Hut : user t (i + n)) by (eapply dirs_user; [|done|done]; lia).
  assert (Hnu : ~ user t (j + n)).
  { intros [_ Hp]. rewrite H4 in Hp by lia. apply (Hfree n); [lia|]. split; [lia|done]. }
  pose proof (install_table t p t1 (j + n) H1 Hf ltac:(lia) Hnu)
    as (Hpg2 & Hh & Hu2 & Htab & Hz & Hd2 & _ & Hx2 & Hdat2 & Hp2 & Hdp2).
  set (t2 := st (4 * (j + n)) (Z.lor p 7) t1) in *.
  assert (Hinv2 : mem_inv t2) by (by apply (extra_inv t)).
  assert (Hui2 : user t2 (i + n)).
  { split; [lia|]. rewrite Hd2 by lia. apply Hut. }
  assert (Etab : table t2 (i + n) = table t (i + n)) by (unfold table; rewrite Hd2 by lia; done).
  assert (Hp : forall k, 0 <= k < 1024 -> pte t2 (i + n) k = pte s (i + n) k).
  { intros k Hk. rewrite Hp2, H5 by done. rewrite decide_False by lia. done. }
  assert (Etr : forall q, tbl_refs t2 (i + n) q = tbl_refs s (i + n) q)
    by (intros q; unfold tbl_refs; apply sumZ_ext; intros k Hk; rewrite Hp by lia; done).
  assert (Hcell2 : forall q, managed s q -> cell t q <> 0 -> cell t2 q = cell t q).
  { intros q Hq Hq0. destruct Hf as (_ & _ & Hc0 & _ & _ & _ & Hce & _).
    unfold t2. rewrite store_dir_cell, Hce by apply Hq. case_decide as E; [|done].
    by rewrite <- E in Hq0. }
  destruct (copy_table t2 (i + n) (j + n) Hinv2 Hui2 Hu2 ltac:(lia) Hz) as (t3 & E3 & Htc).
  { intros q Hq Hr. rewrite Etr in *.
    assert (Hq' : managed s q) by (rewrite <- (managed_high s t2); [done|congruence]).
    destruct (dirs_room n t q Hn Hc Hu Hq' Hr) as [Hq0 Hlt]. by rewrite Hcell2. }
  rewrite Etab, Htab in E3. exists t3. split; [exact E3|].
  assert (Hou : forall x, x < 1024 -> (user t3 x <-> user t2 x) /\ table t3 x = table t2 x)
    by (intros x; exact (table_copied_user t2 (i + n) (j + n) 1024 t3 x Hpg2 Hui2 Hu2 Htc)).
  assert (Hop : forall x m, user t x -> x <> i + n -> x <> j + n -> 0 <= m < 1024 ->
            pte t3 x m = pte t x m).
  { intros x m Hx Hxi Hxj Hm. rewrite <- Hp2 by done.
    apply (table_copied_other t2 (i + n) (j + n) 1024); try done.
    split; [apply Hx|]. rewrite Hd2 by (apply Hx || done). apply Hx. }
  split.
  - apply Htc.
  - rewrite <- H2, <- Hh. apply (tc_words _ _ _ _ _ Htc).
  - eapply same_extra_trans; [exact H2|exact H3|].
    eapply same_extra_trans; [exact Hh|exact Hx2|apply Htc].
  - intros x Hx Hr. rewrite (table_copied_dirs t2 (i + n) (j + n) 1024) by (done || lia).
    rewrite Hd2 by (done || lia). apply H4; [done|lia].
  - intros x k Hx Hk. assert (Hxj : x <> j + n) by (intros ->; apply (Hfree n); [lia|done]).
    destruct (decide (x = i + n)) as [->|Hxi].
    + rewrite decide_True by lia. unfold pte at 1. rewrite (proj2 (Hou (i + n) ltac:(lia))).
      destruct (tc_done _ _ _ _ _ Htc k Hk) as [-> _]. by rewrite Hp.
    + rewrite Hop by (done || (eapply dirs_user; [|done|done]; lia)). rewrite H5 by done.
      case_decide; case_decide; lia || done.
  - intros y Hy. destruct (decide (y = n)) as [->|Hyn].
    + split; [split; [done|intros _; by apply (Hou (j + n)); [lia|]]|]. intros _ k Hk.
      unfold pte at 1. rewrite (proj2 (Hou (j + n) ltac:(lia))).
      destruct (tc_done _ _ _ _ _ Htc k Hk) as [_ ->]. by rewrite Hp.
    + destruct (H6 y ltac:(lia)) as [Hy1 Hy2]. rewrite (proj1 (Hou (j + y) ltac:(lia))).
      assert (Hy3 : user t2 (j + y) <-> user t (j + y))
        by (unfold user; rewrite Hd2 by lia; done).
      rewrite Hy3. split; [done|]. intros Hu' k Hk. rewrite Hop by (lia || by apply Hy1).
      by apply Hy2.
  - intros q Hq. destruct (H7 q Hq) as [Hq1 Hl].
    destruct (table_copied_data t2 (i + n) (j + n) 1024 t3 q Hpg2 Hui2 Hu2 Htc (Hdp2 q Hq1))
      as [Hq3 Hl3]. split; [done|]. intros k Hk. rewrite Hl3, Hdat2, Hl by done. done.
  - intros q Hq Hq0. specialize (H8 q Hq Hq0).
    rewrite (table_copied_cell _ _ _ _ _ Htc) by (rewrite (managed_high s); [done|congruence]).
    rewrite Etr, Hcell2, sumZ_step by (done || lia || (pose proof (cell_range s (inv_ok s Hpg) q Hq); lia)).
    assert (E : slot_refs s (i + n) q = tbl_refs s (i + n) q)
      by (unfold slot_refs; by rewrite decide_True).
    pose proof (tbl_refs_nonneg s (i + n) q). lia.
Qed.

Lemma copy_dirs_spec r n t :
  0 <= n -> n + Z.of_nat r = N -> dirs_copied s i j n t ->
  ends (copy_dirs r 1024 (4 * (i + n)) (4 * (j + n)) t)
    (fun res t' => res = 0 /\ dirs_copied s i j N t' \/
                   res = -1 /\ exists m, 0 <= m < N /\ dirs_copied s i j m t')
    (fun _ _ => False).
Proof using Hinv Hi Hj HiN HjN Hdisj Hfree Hwrap.
  revert n t. induction r as [|r IH]; intros n t Hn Hr Hc.
  - simpl. left. split; [done|]. by replace N with n by lia.
  - assert (Hnj : ~ present (dirw t (j + n))).
    { intros Hp. apply (Hfree n); [lia|]. split; [lia|].
      rewrite <- (dc_dir _ _ _ _ _ Hc); [done|lia|lia]. }
    cbn [copy_dirs]. apply ends_bind. simpl. fold (dirw t (j + n)).
    rewrite decide_False by (unfold present in Hnj; done).
    apply ends_bind. simpl. fold (dirw t (i + n)).
    replace (4 * (i + n) + 4) with (4 * (i + (n + 1))) by lia.
    replace (4 * (j + n) + 4) with (4 * (j + (n + 1))) by lia.
    assert (Hd : dirw t (i + n) = dirw s (i + n)) by (apply (dc_dir _ _ _ _ _ Hc); lia).
    destruct (decide (Z.land 1 (dirw t (i + n)) = 0)) as [Ha|Ha].
    + apply IH; [lia|lia|]. apply dirs_skip; [lia|done|].
      intros [_ Hp]. rewrite <- Hd in Hp. by apply Hp.
    + assert (Hu : user s (i + n)) by (split; [lia|]; rewrite <- Hd; exact Ha).
      apply ends_bind.
      eapply ends_mono; [apply get_free_page_fresh, (dc_inv _ _ _ _ _ Hc)| |done].
      intros p t1 [(-> & -> & _)|Hf]; cbv beta.
      { rewrite decide_True by done. right. split; [done|]. exists n. split; [lia|done]. }
      rewrite (decide_False (P := p = 0)) by apply Hf. apply ends_bind. apply ends_modify.
      rewrite nat_1024. fold (frame (dirw t (i + n))). fold (table t (i + n)).
      destruct (dirs_copy n t p t1 ltac:(lia) Hc Hu Hf) as (t' & E & Hc').
      apply ends_bind. rewrite E. cbn [ends]. apply IH; done || lia.
Qed.

Lemma dirs_copied_preserves n t : dirs_copied s i j n t -> preserves s t.
Proof using Type.
  intros [H1 H2 H3 _ _ _ H7 _]. split; [exact H1|]. split; [exact H2|].
  split; [exact H3|]. intros q k Hq Hk. by apply (H7 q Hq).
Qed.

(** Entries outside the target range. *)
Lemma dirs_copied_entry n t b :
  0 <= n <= N -> dirs_copied s i j n t -> uaddr b -> ~ (j <= dir_index b < j + n) ->
  entry t b = if decide (i <= dir_index b < i + n) then protect (entry s b) else entry s b.
Proof using Hfree.
  intros Hn Hc Hb Hr. pose proof (tbl_index_range b).
  unfold entry. destruct (decide (user s (dir_index b))) as [U|U].
  - rewrite decide_True by (eapply dirs_user; [|done|done]; lia).
    by apply (dc_parent _ _ _ _ _ Hc).
  - rewrite decide_False.
    + case_decide; [|done]. unfold protect. rewrite decide_False; [done|].
      intros [Hz _]. by apply not_present_0 in Hz.
    + intros [Hu1 Hu2]. apply U. split; [done|]. by rewrite (dc_dir _ _ _ _ _ Hc) in Hu2.
Qed.

Lemma dirs_copied_child t b m :
  dirs_copied s i j N t -> uaddr b -> i <= dir_index b < i + N ->
  dir_index m = j + (dir_index b - i) -> tbl_index m = tbl_index b ->
  entry t m = child (entry s b).
Proof using Hdisj.
  intros Hc Hb Hr E1 E2. pose proof (tbl_index_range b).
  destruct (dc_child _ _ _ _ _ Hc (dir_index b - i) ltac:(lia)) as [Hu Hp].
  replace (i + (dir_index b - i)) with (dir_index b) in * by lia.
  unfold entry. rewrite E1, E2. case_decide as D; case_decide as D'; try tauto.
  by apply Hp.
Qed.
End dirs.

(** ** [copy_page_tables] *)

(** [b] moved from the parent's range to the child's. *)
Definition moved (from to b : Z) : Z := b - from + to.

Lemma moved_index from to size b :
  uaddr from -> uaddr to -> from mod 2 ^ 22 = 0 -> to mod 2 ^ 22 = 0 ->
  to + size <= 2 ^ 32 -> 0 <= size -> in_range from size b -> uaddr b ->
  uaddr (moved from to b) /\
  dir_index (moved from to b) = dir_index to + (dir_index b - dir_index from) /\
  tbl_index (moved from to b) = tbl_index b.
Proof.
  intros Hf Ht Haf Hat Hle Hs Hr Hb.
  pose proof (dir_index_aligned from Hf Haf) as Ef. pose proof (dir_index_aligned to Ht Hat) as Et.
  assert (Hm : uaddr (moved from to b)).
  { unfold moved, uaddr, in_range, slots in *.
    pose proof (Z.div_mod (size + 0x3fffff) (2 ^ 22)).
    pose proof (Z.mod_pos_bound (size + 0x3fffff) (2 ^ 22)). lia. }
  assert (D : forall x, uaddr x -> dir_index x = x / 2 ^ 22).
  { intros x Hx. unfold dir_index, uaddr in *. apply Z.mod_small.
    split; [apply Z.div_pos; lia|apply Z.div_lt_upper_bound; lia]. }
  set (d := dir_index to - dir_index from).
  assert (E : moved from to b = b + d * 2 ^ 22) by (unfold moved, d; lia).
  split; [done|]. split.
  - rewrite D, E, Z.div_add, (D b) by (done || lia). lia.
  - unfold tbl_index. rewrite E. replace (d * 2 ^ 22) with (1024 * d * 2 ^ 12) by lia.
    rewrite Z.div_add by lia. replace (1024 * d) with (d * 1024) by lia. by rewrite Z.mod_add.
Qed.

(** An address of directory slot [x]. *)
Lemma slot_address x : 16 <= x < 1024 -> uaddr (2 ^ 22 * x) /\ dir_index (2 ^ 22 * x) = x.
Proof.
  intros Hx. split; [unfold uaddr; lia|]. unfold dir_index.
  rewrite Z.mul_comm, Z.div_mul by lia. apply Z.mod_small. lia.
Qed.


End CopyTables.
