(* ===== verification/MemoryProps.v ===== *)
(** * Memory at boot, and instances of the paging theorems

    [mem_init] makes exactly the pages between the end of the buffers and the end
    of memory free; [mm0] is such a state, [mm1] one with a mapped page.  The
    theorems of [Paging], [PageTables] and [CopyTables] are applied to them. *)

From S2P Require Import Prelude Memory MemoryFacts PageRefs Paging PageTables CopyTables.
Import Memory MemoryFacts PageRefs Paging PageTables CopyTables.

Module MemoryProps.

Lemma map_set_done i v s :
  0 <= i < zlen (mem_map s) -> map_set i v s = Done tt (set_map i (u8 v) s).
Proof.
  intros H. destruct (zget_is_Some _ _ H) as [x Hx].
  unfold map_set, map_get. run_m. by rewrite Hx.
Qed.

(** A loop that sets the counts of a range. *)
Lemma set_range n from v s :
  0 <= from -> from + Z.of_nat n <= zlen (mem_map s) -> 0 <= v < 256 ->
  exists s', for_up n from (fun i => map_set i v) s = Done tt s' /\
    HIGH_MEMORY s' = HIGH_MEMORY s /\ phys s' = phys s /\
    zlen (mem_map s') = zlen (mem_map s) /\
    forall i, zget (mem_map s') i =
      if decide (from <= i < from + Z.of_nat n) then Some v else zget (mem_map s) i.
Proof.
  intros Hf Hn Hv.
  destruct (for_up_inv (fun j t => HIGH_MEMORY t = HIGH_MEMORY s /\ phys t = phys s /\
      zlen (mem_map t) = zlen (mem_map s) /\
      forall i, zget (mem_map t) i = if decide (from <= i < j) then Some v else zget (mem_map s) i)
    n from (fun i => map_set i v) s) as (s' & -> & H).
  - repeat split; try done. intros i. by rewrite decide_False by lia.
  - intros j t Hj (H1 & H2 & H3 & H4). rewrite map_set_done by lia.
    eexists. split; [done|]. unfold set_map. simpl. rewrite zlen_zset, u8_small by lia.
    repeat split; try done. intros i. rewrite zget_zset by lia. rewrite H4.
    case_decide as A; case_decide as B; try case_decide as C; done || lia.
  - by exists s'.
Qed.

(** [mem_init(start,end)] with page-aligned bounds in the paged area leaves
    [HIGH_MEMORY = end] and makes a page free exactly when it lies between [start]
    and [end]; every other count is [USED], and no memory is written. *)
Theorem mem_init_free s start_mem end_mem :
  zlen (mem_map s) = PAGING_PAGES ->
  page_aligned start_mem -> page_aligned end_mem ->
  LOW_MEM <= start_mem <= end_mem -> end_mem <= LOW_MEM + PAGING_MEMORY ->
  exists s', mem_init start_mem end_mem s = Done tt s' /\
    HIGH_MEMORY s' = end_mem /\ phys s' = phys s /\
    forall p, page_aligned p -> LOW_MEM <= p < LOW_MEM + PAGING_MEMORY ->
      cell s' p = if decide (start_mem <= p < end_mem) then 0 else USED.
Proof.
  intros Hlen Has Hae Hs He. unfold mem_init, mbind, M_bind, modify.
  set (s1 := {| s with HIGH_MEMORY := end_mem |}).
  destruct (set_range (Z.to_nat PAGING_PAGES) 0 USED s1) as (s2 & -> & E1 & E2 & E3 & E4);
    [lia|unfold s1; simpl; rewrite Hlen; done|unfold USED; lia|].
  pose proof (page_of_MAP_NR _ Has) as Es. pose proof (page_of_MAP_NR _ Hae) as Ee.
  assert (Hsh : Z.shiftr (end_mem - start_mem) 12 = MAP_NR end_mem - MAP_NR start_mem).
  { rewrite Z.shiftr_div_pow2 by lia. rewrite Es, Ee at 1.
    replace (_ - _) with ((MAP_NR end_mem - MAP_NR start_mem) * 2 ^ 12) by lia.
    apply Z.div_mul. lia. }
  assert (Hp : LOW_MEM + PAGING_MEMORY = LOW_MEM + 4096 * PAGING_PAGES) by done.
  destruct (set_range (Z.to_nat (Z.shiftr (end_mem - start_mem) 12)) (MAP_NR start_mem) 0 s2)
    as (s3 & -> & F1 & F2 & F3 & F4);
    [lia|rewrite E3, Hsh; unfold s1; simpl; lia|lia|].
  exists s3. split; [done|]. split; [by rewrite F1, E1|]. split; [by rewrite F2, E2|].
  intros p Hap Hpr. pose proof (page_of_MAP_NR _ Hap) as Ep.
  pose proof (MAP_NR_range _ Hap Hpr). unfold cell. rewrite F4, E4, Hsh.
  case_decide; case_decide; try case_decide; simpl; done || lia.
Qed.

(** ** A state with all paged memory free *)

Definition mm0 : mm := Mm 0x1000000 (replicate 3840 0) ∅.

Lemma no_user_refs s p : (forall i, ~ user s i) -> refs s p = 0.
Proof.
  intros H. unfold refs. apply sumZ_zero. intros i Hi. unfold dir_refs.
  by rewrite decide_False.
Qed.

Lemma mm0_ld a : ld mm0 a = 0.
Proof. done. Qed.

Lemma mm0_user i : ~ user mm0 i.
Proof. intros [_ H]. by apply not_present_0 in H. Qed.

Lemma mm0_cells i c : zget (mem_map mm0) i = Some c -> c = 0.
Proof.
  unfold zget. case_decide; [|done]. unfold mm0, mem_map.
  intros H'%lookup_replicate. tauto.
Qed.

Lemma mm0_cell p : cell mm0 p = 0.
Proof.
  unfold cell. destruct (zget _ _) eqn:E; [|done]. by apply mm0_cells in E.
Qed.

Lemma mm0_room : room mm0 33.
Proof.
  exists (map (fun i => LOW_MEM + 4096 * i) (seqZ 0 33)). split_and!.
  - apply NoDup_fmap_2; [intros x y E; lia|apply NoDup_seqZ].
  - intros q Hq. apply (list_elem_of_fmap_1 (fun i => LOW_MEM + 4096 * i)) in Hq as (i & -> & Hi%elem_of_seqZ).
    split; [|apply mm0_cell]. split; [|change (HIGH_MEMORY mm0) with 0x1000000; unfold LOW_MEM; lia].
    unfold page_aligned, LOW_MEM. rewrite <- (Z.mul_comm i). rewrite Z.mod_add by lia. done.
  - done.
Qed.

Lemma mm0_ok : mm_ok mm0.
Proof.
  split; try done.
  - intros i c ->%mm0_cells. lia.
  - intros p _. unfold LOW_MEM, PAGING_MEMORY. simpl. lia.
Qed.

Lemma mm0_inv : mem_inv mm0.
Proof.
  split.
  - split; [apply mm0_ok|..]; intros i; intros; exfalso; by eapply mm0_user.
  - intros p _. unfold extra. rewrite mm0_cell, no_user_refs by apply mm0_user. lia.
Qed.

(** One user page at 64 MB: table at 1 MB, mapping the low page 0x5000
    read-only. *)
Definition mm1 : mm :=
  st LOW_MEM 0x5005 (st (4 * 16) (Z.lor LOW_MEM 7) (set_cell LOW_MEM 1 mm0)).

Lemma low_mem_managed : managed mm0 LOW_MEM.
Proof. done. Qed.

Lemma mm1_table :
  let s := st (4 * 16) (Z.lor LOW_MEM 7) (set_cell LOW_MEM 1 mm0) in
  mem_inv s /\ user s 16 /\ table s 16 = LOW_MEM /\ pte s 16 0 = 0.
Proof.
  set (s0 := set_cell LOW_MEM 1 mm0).
  assert (Hpg0 : pg_inv s0).
  { apply (same_tables_inv mm0); [done|apply mm0_inv|].
    apply set_cell_ok; [apply mm0_ok|done|lia]. }
  assert (Hnu : forall i, ~ user s0 i) by (intros i; apply mm0_user).
  intros s. split; [split|done].
  - apply add_dir_inv; try done; intros j; intros; exfalso; by eapply Hnu.
  - intros p Hp. unfold extra, s. rewrite store_dir_cell, add_dir_refs by done.
    rewrite no_user_refs by done. unfold s0.
    rewrite cell_set_cell; [|apply mm0_ok|done|apply Hp]. rewrite mm0_cell. case_decide; lia.
Qed.

Lemma mm1_inv : mem_inv mm1.
Proof.
  destruct mm1_table as ([Hpg He] & Hu & Ht & Hp). set (s := st (4 * 16) _ _) in *.
  assert (Hpres : forall q, managed s q -> maps 0x5005 q = 0).
  { intros q [_ Hq]. apply maps_other. change (frame 0x5005) with 0x5000.
    unfold LOW_MEM in Hq. lia. }
  change mm1 with (st (LOW_MEM + 4 * 0) 0x5005 s). rewrite <- Ht. split.
  - apply store_pte_inv; try done. intros _. change (frame 0x5005) with 0x5000.
    split; [done|]. intros j Hj. destruct (inv_table s Hpg j Hj) as [_ Hr].
    unfold LOW_MEM in Hr. lia.
  - intros q Hq. rewrite store_pte_extra by done. rewrite Hp, Hpres by done.
    specialize (He q Hq). pose proof (maps_range 0 q). lia.
Qed.

Lemma mm1_entry : present (entry mm1 0x4000000).
Proof.
  unfold entry. rewrite decide_True; [|done]. done.
Qed.

(** ** Instances *)

Lemma mem_init_free_witness :
  exists s', mem_init 0x400000 0x1000000 mm0 = Done tt s' /\ cell s' 0x3ff000 = USED /\
    cell s' 0x400000 = 0.
Proof.
  destruct (mem_init_free mm0 0x400000 0x1000000) as (s' & E & _ & _ & H);
    [vm_compute; reflexivity|reflexivity|reflexivity|unfold LOW_MEM; lia
    |unfold LOW_MEM, PAGING_MEMORY; lia|].
  exists s'. split; [exact E|]. unfold LOW_MEM, PAGING_MEMORY in H.
  rewrite !H; [split; reflexivity|reflexivity|lia|reflexivity|lia].
Defined.

Lemma get_empty_page_maps_witness :
  ends (get_empty_page 0x4000000 mm0) (fun _ s' => mem_inv s') (fun _ _ => True).
Proof.
  eapply ends_mono; [apply (get_empty_page_maps mm0 0x4000000)| |].
  - exact mm0_inv.
  - unfold uaddr. lia.
  - exact not_present_0.
  - intros r s' H. apply H.
  - done.
Defined.

Lemma do_wp_page_private_witness :
  ends (do_wp_page 7 0x4000000 mm1) (fun _ s' => writable (entry s' 0x4000000)) (fun _ _ => True).
Proof.
  eapply ends_mono; [apply (do_wp_page_private mm1 0x4000000 7)| |].
  - exact mm1_inv.
  - unfold uaddr. lia.
  - exact mm1_entry.
  - intros r s' [_ H]. apply H.
  - done.
Defined.

Lemma free_page_tables_unmaps_witness :
  exists s', free_page_tables 0x4000000 0x400000 mm1 = Done 0 s' /\ entry s' 0x4000000 = 0.
Proof.
  destruct (free_page_tables_unmaps mm1 0x4000000 0x400000) as (s' & E & _ & H & _).
  - exact mm1_inv.
  - unfold uaddr. lia.
  - reflexivity.
  - lia.
  - lia.
  - exists s'. split; [exact E|]. apply H; [unfold uaddr; lia|].
    vm_compute. split; [intros H'; discriminate H'|reflexivity].
Defined.

Lemma mm1_cell q : managed mm1 q -> cell mm1 q + refs mm1 q < 256.
Proof.
  intros Hq. destruct mm1_inv as [_ He]. specialize (He q Hq). unfold extra in He.
  assert (cell mm1 q <= 1); [|lia].
  change (cell mm1 q) with (cell (set_cell LOW_MEM 1 mm0) q).
  rewrite cell_set_cell; [|apply mm0_ok|done|apply Hq]. rewrite mm0_cell. case_decide; lia.
Qed.

Lemma mm1_free b : uaddr b -> in_range 0x8000000 0x400000 b -> ~ user mm1 (dir_index b).
Proof.
  intros Hb Hr. apply in_range_dir in Hr; [|unfold uaddr; lia|done|lia|done].
  change (dir_index 0x8000000) with 32 in Hr. change (slots 0x400000) with 1 in Hr.
  assert (dir_index b = 32) as -> by lia. intros [_ H]. by apply not_present_0 in H.
Qed.


End MemoryProps.
