(* ===== verification/Task.v ===== *)
(** * include/linux/sched.h: the task structure and the task table

    A pointer to a task is the index of its slot in [task]; a pointer to an inode
    or a file structure is its index in [inode_table] or [file_table], [None] when
    null.  Signal sets are 32-bit words. *)

From S2P Require Import Prelude.

Module Task.

Definition NR_TASKS : Z := 64.
Definition HZ : Z := 100.
Definition NR_OPEN : Z := 20.

Definition TASK_RUNNING : Z := 0.
Definition TASK_INTERRUPTIBLE : Z := 1.
Definition TASK_UNINTERRUPTIBLE : Z := 2.
Definition TASK_ZOMBIE : Z := 3.
Definition TASK_STOPPED : Z := 4.

Definition SIGHUP : Z := 1.
Definition SIGINT : Z := 2.
Definition SIGQUIT : Z := 3.
Definition SIGKILL : Z := 9.
Definition SIGSEGV : Z := 11.
Definition SIGPIPE : Z := 13.
Definition SIGALRM : Z := 14.
Definition SIGCHLD : Z := 17.
Definition SIGSTOP : Z := 19.
Definition SA_NOMASK : Z := 0x40000000.
Definition SA_ONESHOT : Z := 0x80000000.

(** [_S(nr)] and [_BLOCKABLE]. *)
Definition S_ (nr : Z) : Z := Z.shiftl 1 (nr - 1).
Definition BLOCKABLE : Z := not32 (Z.lor (S_ SIGKILL) (S_ SIGSTOP)).

Record sigaction_t : Type := Sigaction {
  sa_handler : Z;
  sa_mask : Z;
  sa_flags : Z;
  sa_restorer : Z
}.
Definition sigaction0 : sigaction_t := Sigaction 0 0 0 0.

(** A segment descriptor is two words. *)
Record desc : Type := Desc { desc_a : Z; desc_b : Z }.

Record tss_struct : Type := Tss {
  back_link : Z; esp0 : Z; ss0 : Z; esp1 : Z; ss1 : Z; esp2 : Z; ss2 : Z; cr3 : Z;
  eip : Z; eflags : Z; eax : Z; ecx : Z; edx : Z; ebx : Z; esp : Z; ebp : Z;
  esi : Z; edi : Z; es : Z; cs : Z; ss : Z; ds : Z; fs : Z; gs : Z;
  tss_ldt : Z; trace_bitmap : Z;
  i387 : list Z
}.

Record task_struct : Type := TaskStruct {
  state : Z; counter : Z; priority : Z; signal : Z;
  sigaction : list sigaction_t;
  blocked : Z;
  exit_code : Z;
  start_code : Z; end_code : Z; end_data : Z; brk : Z; start_stack : Z;
  pid : Z; father : Z; pgrp : Z; session : Z; leader : Z;
  uid : Z; euid : Z; suid : Z; gid : Z; egid : Z; sgid : Z;
  alarm : Z;
  utime : Z; stime : Z; cutime : Z; cstime : Z; start_time : Z;
  used_math : Z;
  tty : Z;
  umask : Z;
  pwd : option Z; root : option Z; executable : option Z;
  close_on_exec : Z;
  filp : list (option Z);
  ldt : list desc;
  tss : tss_struct
}.

Definition LDT_ (n : Z) : Z := Z.shiftl n 4 + Z.shiftl 5 3.
Definition TSS_ (n : Z) : Z := Z.shiftl n 4 + Z.shiftl 4 3.

(** [INIT_TASK] (its umask is octal 022); the addresses of its kernel stack top and of [pg_dir] are linked
    constants. *)
Section init_task.
Context (init_stack_top pg_dir : Z).

Definition INIT_TASK : task_struct :=
  TaskStruct 0 15 15 0 (replicate 32 sigaction0) 0 0 0 0 0 0 0
    0 (-1) 0 0 0 0 0 0 0 0 0 0 0 0 0 0 0 0 (-1) 18 None None None 0
    (replicate 20 None)
    [Desc 0 0; Desc 0x9f 0xc0fa00; Desc 0x9f 0xc0f200]
    (Tss 0 init_stack_top 0x10 0 0 0 0 pg_dir 0 0 0 0 0 0 0 0 0 0
         0x17 0x17 0x17 0x17 0x17 0x17 (LDT_ 0) 0x80000000 []).
End init_task.

(** The task table, the current task and the clock. *)
Record tasks : Type := Tasks {
  task : list (option task_struct);
  current : Z;
  jiffies : Z;
  startup_time : Z
}.

(** Field updates of one task. *)
Definition set_state (v : Z) (t : task_struct) : task_struct := {| t with state := v |}.
Definition set_counter (v : Z) (t : task_struct) : task_struct := {| t with counter := v |}.
Definition set_signal (v : Z) (t : task_struct) : task_struct := {| t with signal := v |}.
Definition set_alarm (v : Z) (t : task_struct) : task_struct := {| t with alarm := v |}.

Definition set_i387 (r : list Z) (t : tss_struct) : tss_struct := {| t with i387 := r |}.
Definition save_i387 (r : list Z) (t : task_struct) : task_struct :=
  {| t with tss := set_i387 r (tss t) |}.
Definition set_used_math (v : Z) (t : task_struct) : task_struct := {| t with used_math := v |}.
Definition set_priority (v : Z) (t : task_struct) : task_struct := {| t with priority := v |}.
Definition set_current (n : Z) (s : tasks) : tasks := {| s with current := n |}.

(** [task[i]], a null pointer and a slot outside the table being [None]. *)
Definition slot (s : tasks) (i : Z) : option task_struct := mjoin (zget (task s) i).
Definition set_slot (i : Z) (t : option task_struct) (s : tasks) : tasks :=
  {| s with task := zset (task s) i t |}.

(** [task[i]->field = ...] when the pointer is not null. *)
Definition upd_slot (i : Z) (f : task_struct -> task_struct) (s : tasks) : tasks :=
  match slot s i with Some t => set_slot i (Some (f t)) s | None => s end.

(** The same through a pointer the code dereferences unconditionally. *)
Definition get_task (i : Z) : M tasks task_struct :=
  o ← gets (fun s => slot s i); deref "task" o.
Definition put_task (i : Z) (f : task_struct -> task_struct) : M tasks unit :=
  _ ← get_task i; modify (upd_slot i f).
Definition get_current : M tasks task_struct := i ← gets current; get_task i.
Definition put_current (f : task_struct -> task_struct) : M tasks unit :=
  i ← gets current; put_task i f.

(** [CURRENT_TIME]. *)
Definition CURRENT_TIME : M tasks Z :=
  gets (fun s => s32 (startup_time s + Z.quot (jiffies s) HZ)).

(** ** Lemmas *)

Lemma slot_set_slot s i j t :
  0 <= i < zlen (task s) ->
  slot (set_slot i t s) j = if decide (i = j) then t else slot s j.
Proof.
  intros Hi. unfold slot, set_slot. simpl. rewrite zget_zset by done. by case_decide.
Qed.

Lemma slot_range s i t : slot s i = Some t -> 0 <= i < zlen (task s).
Proof.
  unfold slot. destruct (zget (task s) i) eqn:E; [|done]. intros _.
  by eapply zget_Some_range.
Qed.

Lemma slot_upd_slot s i j f :
  slot (upd_slot i f s) j = if decide (i = j) then f <$> slot s j else slot s j.
Proof.
  unfold upd_slot. destruct (slot s i) as [t|] eqn:E.
  - rewrite slot_set_slot by (by eapply slot_range). case_decide; subst; [|done].
    by rewrite E.
  - case_decide; subst; [|done]. by rewrite E.
Qed.

Lemma zlen_upd_slot s i f : zlen (task (upd_slot i f s)) = zlen (task s).
Proof.
  unfold upd_slot. destruct (slot s i); [|done]. unfold set_slot. simpl. apply zlen_zset.
Qed.

Lemma upd_slot_other s i f :
  current (upd_slot i f s) = current s /\ jiffies (upd_slot i f s) = jiffies s /\
  startup_time (upd_slot i f s) = startup_time s.
Proof. unfold upd_slot. by destruct (slot s i). Qed.

Lemma get_task_Some s i t : slot s i = Some t -> get_task i s = Done t s.
Proof. intros E. unfold get_task. run_m. by rewrite E. Qed.

Lemma put_task_Some s i t f : slot s i = Some t -> put_task i f s = Done tt (upd_slot i f s).
Proof. intros E. unfold put_task, mbind, M_bind. by rewrite (get_task_Some _ _ _ E). Qed.

Lemma put_current_Some s t f :
  slot s (current s) = Some t -> put_current f s = Done tt (upd_slot (current s) f s).
Proof. intros E. unfold put_current, mbind, M_bind, gets. by apply put_task_Some with t. Qed.

Lemma get_current_Some s t : slot s (current s) = Some t -> get_current s = Done t s.
Proof. intros E. unfold get_current, mbind, M_bind, gets. by apply get_task_Some. Qed.

Lemma upd_slot_ext s i f g :
  (forall t, slot s i = Some t -> f t = g t) -> upd_slot i f s = upd_slot i g s.
Proof. intros H. unfold upd_slot. destruct (slot s i) as [t|]; [by rewrite H|done]. Qed.

Lemma upd_slot_upd_slot s i f g : upd_slot i g (upd_slot i f s) = upd_slot i (fun t => g (f t)) s.
Proof.
  unfold upd_slot at 1. rewrite slot_upd_slot, decide_True by done.
  destruct (slot s i) as [t|] eqn:E; cbn; unfold upd_slot; rewrite E; [|done].
  unfold set_slot. cbn. f_equal. unfold zset. case_decide; [|done].
  by rewrite list_insert_insert_eq.
Qed.

Lemma slot_current_upd s f t :
  slot s (current s) = Some t -> slot (upd_slot (current s) f s) (current s) = Some (f t).
Proof. intros E. by rewrite slot_upd_slot, decide_True, E. Qed.

Lemma slot_other_upd s i j f : i <> j -> slot (upd_slot i f s) j = slot s j.
Proof. intros. by rewrite slot_upd_slot, decide_False. Qed.

Lemma current_upd s i f : current (upd_slot i f s) = current s.
Proof. apply upd_slot_other. Qed.

Create Rewrite HintDb task.
#[export] Hint Rewrite current_upd zlen_upd_slot : task.

End Task.
