(* ===== verification/Sched.v ===== *)
(** * kernel/sched.c: the scheduler and the calls that read the current task

    [schedule] works on the task table; [switch_to] also keeps the record of
    whose floating-point registers the coprocessor holds ([last_task_used_math],
    the TS flag of CR0).  The [while (1)] of [schedule] runs on fuel; two rounds
    are enough when priorities are positive. *)

From S2P Require Import Prelude Task.
Import Task.

Module Sched.

Record sched : Type := Sched {
  tab : tasks;
  last_task_used_math : option Z;
  cr0_ts : bool;
  fpu : list Z
}.
Definition on_tab {A} : M tasks A -> M sched A :=
  zoom tab (fun t s => {| s with tab := t |}).

(** The state of the coprocessor after FNINIT (cwd, swd, twd, ...). *)
Definition fninit : list Z := [0x37f; 0; 0xffff].

Definition set_fpu (r : list Z) : M sched unit := modify (fun s => {| s with fpu := r |}).

(** FNSAVE into the TSS of task [i]; the instruction also initializes the
    coprocessor. *)
Definition fnsave (i : Z) : M sched unit :=
  r ← gets fpu;
  on_tab (put_task i (save_i387 r));;
  set_fpu fninit.

Definition math_state_restore : M sched unit :=
  cur ← gets (fun s => current (tab s));
  last ← gets last_task_used_math;
  if decide (last = Some cur) then skip
  else
    (match last with Some l => fnsave l | None => skip end);;
    modify (fun s => {| s with last_task_used_math := Some cur |});;
    t ← on_tab get_current;
    if decide (used_math t <> 0) then set_fpu (i387 (tss t))
    else
      set_fpu fninit;;
      on_tab (put_current (set_used_math 1)).

(** [signal & ~(_BLOCKABLE & blocked)]: some signal may be delivered. *)
Definition unblocked (t : task_struct) : Z :=
  Z.land (signal t) (not32 (Z.land BLOCKABLE (blocked t))).

(** The first loop of [schedule], for one task. *)
Definition check_signals (jiffies : Z) (t : task_struct) : task_struct :=
  let t := if decide (alarm t <> 0 /\ alarm t < jiffies)
           then set_alarm 0 (set_signal (Z.lor (signal t) (Z.shiftl 1 (SIGALRM - 1))) t)
           else t in
  if decide (unblocked t <> 0 /\ state t = TASK_INTERRUPTIBLE)
  then set_state TASK_RUNNING t else t.

(** [for(p = &LAST_TASK ; p > &FIRST_TASK ; --p) if ( *p ) ...]. *)
Fixpoint for_tasks (n : nat) (f : task_struct -> task_struct) (s : tasks) : tasks :=
  match n with
  | O => s
  | S n' => for_tasks n' f (upd_slot (Z.of_nat n) f s)
  end.

(** The second loop: the runnable task with the largest counter, the highest
    slot among equals; [c = -1] and slot 0 when there is none. *)
Fixpoint pick (n : nat) (s : tasks) (c next : Z) : Z * Z :=
  match n with
  | O => (c, next)
  | S n' =>
      match slot s (Z.of_nat n) with
      | None => pick n' s c next
      | Some t =>
          if decide (state t = TASK_RUNNING /\ c < counter t)
          then pick n' s (counter t) (Z.of_nat n)
          else pick n' s c next
      end
  end.

Definition recount (t : task_struct) : task_struct :=
  set_counter (s32 (Z.shiftr (counter t) 1 + priority t)) t.

Definition LAST : nat := Z.to_nat (NR_TASKS - 1).

(** [while (1) ...]: the slot to switch to. *)
Fixpoint choose (fuel : nat) : M tasks Z :=
  match fuel with
  | O => fun _ => NoFuel
  | S fuel' =>
      r ← gets (fun s => pick LAST s (-1) 0);
      if decide (fst r <> 0) then mret (snd r)
      else modify (for_tasks LAST recount);; choose fuel'
  end.

(** [switch_to(n)]: nothing when [n] is current; otherwise the task switch sets
    TS, cleared again when the new task owns the coprocessor. *)
Definition switch_to (n : Z) : M sched unit :=
  cur ← gets (fun s => current (tab s));
  if decide (n = cur) then skip
  else modify (fun s =>
    {| s with tab := set_current n (tab s);
              cr0_ts := bool_decide (last_task_used_math s <> Some n) |}).

Definition schedule (fuel : nat) : M sched unit :=
  on_tab (modify (fun s => for_tasks LAST (check_signals (jiffies s)) s));;
  next ← on_tab (choose fuel);
  switch_to next.

Definition sys_pause (fuel : nat) : M sched Z :=
  on_tab (put_current (set_state TASK_INTERRUPTIBLE));; schedule fuel;; mret 0.

Definition sys_alarm (seconds : Z) : M tasks Z :=
  t ← get_current; j ← gets jiffies;
  let old := alarm t in
  let old := if decide (old <> 0) then Z.quot (s32 (old - j)) HZ else old in
  put_current (set_alarm (if decide (0 < seconds) then s32 (j + s32 (HZ * seconds)) else 0));;
  mret old.

Definition sys_getpid : M tasks Z := t ← get_current; mret (pid t).
Definition sys_getppid : M tasks Z := t ← get_current; mret (father t).
Definition sys_getuid : M tasks Z := t ← get_current; mret (uid t).
Definition sys_geteuid : M tasks Z := t ← get_current; mret (euid t).
Definition sys_getgid : M tasks Z := t ← get_current; mret (gid t).
Definition sys_getegid : M tasks Z := t ← get_current; mret (egid t).

Definition sys_nice (increment : Z) : M tasks Z :=
  t ← get_current;
  (if decide (0 < s32 (priority t - increment))
   then put_current (set_priority (s32 (priority t - increment)))
   else skip);;
  mret 0.

(** ** Loops over the task table *)

Lemma for_tasks_slot n f s i :
  slot (for_tasks n f s) i =
  if decide (1 <= i <= Z.of_nat n) then f <$> slot s i else slot s i.
Proof.
  revert s. induction n as [|n IH]; intros s; cbn [for_tasks].
  - case_decide; [lia|done].
  - rewrite IH, slot_upd_slot. repeat case_decide; done || lia.
Qed.

Lemma for_tasks_other n f s :
  current (for_tasks n f s) = current s /\ jiffies (for_tasks n f s) = jiffies s /\
  zlen (task (for_tasks n f s)) = zlen (task s).
Proof.
  revert s. induction n as [|n IH]; intros s; cbn [for_tasks]; [done|].
  destruct (IH (upd_slot (Z.of_nat (S n)) f s)) as (-> & -> & ->).
  pose proof (upd_slot_other s (Z.of_nat (S n)) f) as (-> & -> & _).
  by rewrite zlen_upd_slot.
Qed.

#[global] Arguments for_tasks : simpl never.

(** Task [i] of [1 .. n] is runnable with counter [k]. *)
Definition runs (s : tasks) (i k : Z) : Prop :=
  exists t, slot s i = Some t /\ state t = TASK_RUNNING /\ counter t = k.

Definition best (n : nat) (s : tasks) (c next : Z) : Prop :=
  runs s next c /\ 1 <= next <= Z.of_nat n /\
  forall i k, 1 <= i <= Z.of_nat n -> runs s i k -> k <= c /\ (k = c -> i <= next).

Lemma runs_fun s i k k' : runs s i k -> runs s i k' -> k = k'.
Proof. intros (t & E & _ & <-) (t' & E' & _ & <-). congruence. Qed.

Lemma pick_spec n s c next :
  let r := pick n s c next in
  (r = (c, next) /\ forall i k, 1 <= i <= Z.of_nat n -> runs s i k -> k <= c) \/
  (c < fst r /\ best n s (fst r) (snd r)).
Proof.
  revert c next. induction n as [|n IH]; intros c next; cbn [pick].
  { left. split; [done|]. intros. lia. }
  set (j := Z.of_nat (S n)).
  assert (Hskip : (forall k, runs s j k -> k <= c) ->
    let r := pick n s c next in
    (r = (c, next) /\ forall i k, 1 <= i <= j -> runs s i k -> k <= c) \/
    (c < fst r /\ best (S n) s (fst r) (snd r))).
  { intros Hj. destruct (IH c next) as [[-> H]|[Hc (Hr & Hn & H)]].
    - left. split; [done|]. intros i k Hi Hik. destruct (decide (i = j)) as [->|];
        [by apply Hj|]. apply (H i); [lia|done].
    - right. split; [done|]. split; [done|]. split; [lia|]. intros i k Hi Hik.
      destruct (decide (i = j)) as [->|]; [pose proof (Hj k Hik); lia|].
      apply H; [lia|done]. }
  destruct (slot s j) as [t|] eqn:E.
  2:{ apply Hskip. intros k (t & E' & _). congruence. }
  case_decide as D.
  - destruct D as [D1 D2]. assert (Hrj : runs s j (counter t)) by (by exists t).
    right. destruct (IH (counter t) j) as [[-> H]|[Hc (Hr & Hn & H)]]; cbn [fst snd].
    + split; [done|]. split; [done|]. split; [lia|]. intros i k Hi Hik.
      destruct (decide (i = j)) as [->|]; [rewrite (runs_fun s j k (counter t)); done || lia|].
      split; [apply (H i); [lia|done]|lia].
    + split; [lia|]. split; [done|]. split; [lia|]. intros i k Hi Hik.
      destruct (decide (i = j)) as [->|]; [rewrite (runs_fun s j k (counter t)); done || lia|].
      apply H; [lia|done].
  - apply Hskip. intros k (t' & E' & Hs & <-). rewrite E in E'. injection E' as <-.
    destruct (decide (counter t <= c)); [done|]. exfalso. apply D. split; [done|lia].
Qed.

(** ** Termination and choice *)

(** What [schedule] needs of the table: [sys_nice] and [fork] keep priorities
    positive, the timer keeps counters nonnegative. *)
Definition tasks_ok (s : tasks) : Prop :=
  zlen (task s) = NR_TASKS /\
  forall i t, 1 <= i < NR_TASKS -> slot s i = Some t ->
    0 < priority t < 2 ^ 30 /\ 0 <= counter t < 2 ^ 31.

(** [n] is the task the scheduler must run: the runnable task with the largest
    time slice, or task 0 when nothing is runnable. *)
Definition chosen (s : tasks) (n : Z) : Prop :=
  (n = 0 /\ forall i k, 1 <= i < NR_TASKS -> ~ runs s i k) \/
  (exists k, 0 < k /\ best LAST s k n).

Lemma pick_chosen s :
  (forall i k, 1 <= i < NR_TASKS -> runs s i k -> 0 <= k) ->
  fst (pick LAST s (-1) 0) <> 0 -> chosen s (snd (pick LAST s (-1) 0)).
Proof.
  intros Hpos Hc. change NR_TASKS with (Z.of_nat LAST + 1) in Hpos.
  destruct (pick_spec LAST s (-1) 0) as [[E H]|[Hlt H]].
  - left. rewrite E. split; [done|]. intros i k Hi Hr.
    change NR_TASKS with (Z.of_nat LAST + 1) in Hi.
    pose proof (H i k ltac:(lia) Hr). pose proof (Hpos i k ltac:(lia) Hr). lia.
  - right. exists (fst (pick LAST s (-1) 0)). split; [lia|done].
Qed.

Lemma recount_ok s : tasks_ok s -> (forall i k, 1 <= i < NR_TASKS -> runs s i k -> k <= 0) ->
  let s' := for_tasks LAST recount s in
  tasks_ok s' /\ (forall i k, 1 <= i < NR_TASKS -> runs s' i k -> 0 < k).
Proof.
  intros [Hl Hok] Hz s'.
  assert (Hs : forall i t', 1 <= i < NR_TASKS -> slot s' i = Some t' ->
    exists t, slot s i = Some t /\ t' = recount t /\
      counter t' = Z.shiftr (counter t) 1 + priority t /\
      0 <= Z.shiftr (counter t) 1).
  { intros i t' Hi. unfold s'. rewrite for_tasks_slot.
    rewrite decide_True by (change (Z.of_nat LAST) with (NR_TASKS - 1); lia).
    destruct (slot s i) as [t|] eqn:E; [|done]. simpl. intros [= <-].
    destruct (Hok i t Hi E) as [Hp Hc]. exists t.
    assert (Hh : 0 <= Z.shiftr (counter t) 1 < 2 ^ 30).
    { rewrite Z.shiftr_div_pow2 by lia. split; [apply Z.div_pos; lia|].
      apply Z.div_lt_upper_bound; lia. }
    split; [done|]. split; [done|]. split; [|lia]. apply s32_small. lia. }
  split; [split|].
  - unfold s'. by rewrite (proj2 (proj2 (for_tasks_other LAST recount s))).
  - intros i t' Hi E'. destruct (Hs i t' Hi E') as (t & E & -> & Hc & Hh).
    destruct (Hok i t Hi E) as [Hp Hc']. split; [done|]. rewrite Hc.
    rewrite Z.shiftr_div_pow2 in * by lia.
    pose proof (Z.div_lt_upper_bound (counter t) (2 ^ 1) (2 ^ 30)). lia.
  - intros i k Hi (t' & E' & Hr & <-). destruct (Hs i t' Hi E') as (t & E & -> & Hc & Hh).
    destruct (Hok i t Hi E) as [Hp _]. lia.
Qed.

(** Two rounds at most; the second follows a recount. *)
Lemma choose_total fuel s :
  tasks_ok s ->
  exists n s', choose (S (S fuel)) s = Done n s' /\ chosen s' n /\ tasks_ok s' /\
    (s' = s \/ s' = for_tasks LAST recount s /\ chosen s' n).
Proof.
  intros Hok.
  assert (Hpos : forall t, tasks_ok t -> forall i k, 1 <= i < NR_TASKS -> runs t i k -> 0 <= k).
  { intros t [_ Ht] i k Hi (x & E & _ & <-). apply (Ht i x Hi E). }
  cbn [choose]. unfold mbind, M_bind, gets. case_decide as D.
  - exists (snd (pick LAST s (-1) 0)), s. split; [done|]. split; [|by auto].
    by apply pick_chosen; [apply Hpos|].
  - assert (Hz : forall i k, 1 <= i < NR_TASKS -> runs s i k -> k <= 0).
    { intros i k Hi Hr. change NR_TASKS with (Z.of_nat LAST + 1) in Hi.
      destruct (pick_spec LAST s (-1) 0) as [[E H]|[Hlt (Hr' & Hn & H)]].
      - rewrite E in D. simpl in D. lia.
      - destruct (H i k ltac:(lia) Hr). lia. }
    destruct (recount_ok s Hok Hz) as [Hok' Hp']. unfold modify.
    set (s' := for_tasks LAST recount s) in *.
    assert (D' : fst (pick LAST s' (-1) 0) <> 0).
    { destruct (pick_spec LAST s' (-1) 0) as [[E _]|[Hlt (Hr & Hn & _)]]; [by rewrite E|].
      change (Z.of_nat LAST) with (NR_TASKS - 1) in Hn.
      assert (0 < fst (pick LAST s' (-1) 0)) by (eapply Hp'; [|exact Hr]; lia). lia. }
    rewrite decide_True by done. exists (snd (pick LAST s' (-1) 0)), s'.
    assert (Hch : chosen s' (snd (pick LAST s' (-1) 0))) by (apply pick_chosen; [by apply Hpos|done]).
    split; [done|]. split; [done|]. split; [done|]. by right.
Qed.

Lemma check_signals_fields j t :
  priority (check_signals j t) = priority t /\ counter (check_signals j t) = counter t.
Proof. unfold check_signals. by repeat case_decide. Qed.

Lemma check_signals_ok j s : tasks_ok s -> tasks_ok (for_tasks LAST (check_signals j) s).
Proof.
  intros [Hl Hok]. split; [by rewrite (proj2 (proj2 (for_tasks_other _ _ s)))|].
  intros i t Hi. rewrite for_tasks_slot. rewrite decide_True by
    (change (Z.of_nat LAST) with (NR_TASKS - 1); lia).
  destruct (slot s i) as [t0|] eqn:E; [|done]. simpl. intros [= <-].
  destruct (check_signals_fields j t0) as [-> ->]. by apply (Hok i t0).
Qed.

(** The signals and alarms [schedule] acts on. *)
Definition woken (j : Z) (t t' : task_struct) : Prop :=
  (alarm t <> 0 /\ alarm t < j ->
     alarm t' = 0 /\ Z.testbit (signal t') (SIGALRM - 1) = true) /\
  (~ (alarm t <> 0 /\ alarm t < j) -> alarm t' = alarm t /\ signal t' = signal t) /\
  state t' = (if decide (state t = TASK_INTERRUPTIBLE /\ unblocked t' <> 0)
              then TASK_RUNNING else state t).

Lemma check_signals_woken j t : woken j t (check_signals j t).
Proof.
  unfold check_signals. destruct (decide (alarm t <> 0 /\ alarm t < j)) as [D|D]; cbv zeta.
  - set (t1 := set_alarm 0 _).
    assert (Hb : Z.testbit (signal t1) (SIGALRM - 1) = true).
    { unfold t1, set_alarm, set_signal. cbn [signal]. rewrite Z.lor_spec.
      apply orb_true_intro. by right. }
    case_decide as D'; (split; [intros _; split; [done|exact Hb]|split; [tauto|]]).
    + change (unblocked (set_state TASK_RUNNING t1)) with (unblocked t1).
      change (state t1) with (state t) in D'. rewrite decide_True by tauto. done.
    + change (state t1) with (state t) in *. rewrite decide_False by tauto. done.
  - case_decide as D'; (split; [tauto|split; [done|]]).
    + change (unblocked (set_state TASK_RUNNING t)) with (unblocked t).
      rewrite decide_True by tauto. done.
    + rewrite decide_False by tauto. done.
Qed.

(** The result of [schedule]. *)
Lemma schedule_runs fuel s :
  tasks_ok (tab s) ->
  exists s', schedule (S (S fuel)) s = Done tt s' /\ tasks_ok (tab s') /\
    chosen (tab s') (current (tab s')).
Proof.
  intros Hok. unfold schedule, mbind, M_bind. cbn -[for_tasks choose].
  destruct (choose_total fuel (for_tasks LAST (check_signals (jiffies (tab s))) (tab s)))
    as (n & t' & E & Hc & Hok' & _); [by apply check_signals_ok|].
  unfold on_tab, zoom. cbn -[for_tasks choose]. rewrite E. unfold switch_to.
  unfold mbind, M_bind, gets, modify, skip. cbn -[for_tasks choose].
  case_decide as D; subst; eexists; (split; [reflexivity|]); split; done.
Qed.

(** C7: [schedule] always returns with a task to run: on a table of 64 slots with
    positive priorities and nonnegative counters, two rounds of the counter loop
    are enough, and the task switched to is task 0 when no other task is
    runnable, otherwise a runnable task with a positive counter no other runnable
    task exceeds (the highest slot among equals). *)
Theorem schedule_chooses fuel s :
  tasks_ok (tab s) ->
  exists s', schedule (S (S fuel)) s = Done tt s' /\ tasks_ok (tab s') /\
    chosen (tab s') (current (tab s')).
Proof. apply schedule_runs. Qed.

(** The first pass of [schedule] over every task but task 0: an alarm
    whose time has passed is cleared and raises SIGALRM, an interruptible sleeper
    with a signal that is not blocked (SIGKILL and SIGSTOP cannot be) becomes
    runnable, and no other task changes state. *)
Theorem schedule_wakes fuel s i t :
  tasks_ok (tab s) -> 1 <= i < NR_TASKS -> slot (tab s) i = Some t ->
  exists s' t', schedule (S (S fuel)) s = Done tt s' /\ slot (tab s') i = Some t' /\
    woken (jiffies (tab s)) t t'.
Proof.
  intros Hok Hi Ht. unfold schedule, mbind, M_bind. cbn -[for_tasks choose].
  set (s1 := for_tasks LAST (check_signals (jiffies (tab s))) (tab s)).
  assert (E1 : slot s1 i = Some (check_signals (jiffies (tab s)) t)).
  { unfold s1. rewrite for_tasks_slot, decide_True, Ht; [done|].
    change (Z.of_nat LAST) with (NR_TASKS - 1). lia. }
  destruct (choose_total fuel s1) as (n & s2 & E & _ & _ & Hs2); [by apply check_signals_ok|].
  unfold on_tab, zoom. cbn -[for_tasks choose]. rewrite E. unfold switch_to.
  unfold mbind, M_bind, gets, modify, skip. cbn -[for_tasks choose].
  assert (H2 : exists t', slot s2 i = Some t' /\ woken (jiffies (tab s)) t t').
  { pose proof (check_signals_woken (jiffies (tab s)) t) as W.
    destruct Hs2 as [->|[-> _]]; [by eexists|].
    rewrite for_tasks_slot, decide_True, E1
      by (change (Z.of_nat LAST) with (NR_TASKS - 1); lia). by eexists. }
  destruct H2 as (t' & H2 & W).
  case_decide as D; eexists _, t'; (split; [reflexivity|]); done.
Qed.

(** ** The coprocessor *)

(** The floating-point registers of task [i]. *)
Definition float_state (s : sched) (i : Z) : option (list Z) :=
  if decide (last_task_used_math s = Some i) then Some (fpu s)
  else (fun t => i387 (tss t)) <$> slot (tab s) i.

(** With TS clear the current task owns the coprocessor. *)
Definition fpu_inv (s : sched) : Prop :=
  cr0_ts s = false -> last_task_used_math s = Some (current (tab s)).

Lemma switch_to_fpu n s s' :
  switch_to n s = Done tt s' -> fpu_inv s -> fpu_inv s'.
Proof.
  unfold switch_to, fpu_inv, mbind, M_bind, gets, modify, skip. cbn.
  case_decide; intros [= <-] Hi0; [done|]. simpl. intros Hb%bool_decide_eq_false_1.
  destruct (decide (last_task_used_math s = Some n)); tauto.
Qed.

(** [math_state_restore] gives the coprocessor to the current task and loses
    nobody's registers: every task that has used the coprocessor has the same
    floating-point state as before, and a first user gets the FNINIT state. *)
Theorem math_state_restore_preserves s t :
  slot (tab s) (current (tab s)) = Some t ->
  (forall l, last_task_used_math s = Some l -> is_Some (slot (tab s) l)) ->
  exists s', math_state_restore s = Done tt s' /\
    last_task_used_math s' = Some (current (tab s')) /\
    current (tab s') = current (tab s) /\
    (forall i u, slot (tab s) i = Some u ->
       (i = current (tab s) -> used_math u <> 0 \/ last_task_used_math s = Some i) ->
       float_state s' i = float_state s i) /\
    (used_math t = 0 -> last_task_used_math s <> Some (current (tab s)) -> fpu s' = fninit).
Proof.
  intros Ht Hlast. unfold math_state_restore, mbind, M_bind, gets. cbn.
  case_decide as D.
  { exists s. rewrite D. repeat split; done || congruence. }
  set (c := current (tab s)) in *.
  set (s1 := match last_task_used_math s with
             | Some l => {| s with tab := upd_slot l (save_i387 (fpu s)) (tab s); fpu := fninit |}
             | None => s end).
  assert (E1 : (match last_task_used_math s with Some l => fnsave l | None => skip end) s = Done tt s1).
  { unfold s1. destruct (last_task_used_math s) as [l|] eqn:El; [|done].
    destruct (Hlast l eq_refl) as [u Hu]. unfold fnsave, mbind, M_bind, gets, on_tab, zoom.
    by rewrite (put_task_Some _ _ _ _ Hu), El. }
  rewrite E1. cbn.
  assert (Hcur : current (tab s1) = c).
  { unfold s1. destruct (last_task_used_math s); [|done]. apply upd_slot_other. }
  assert (Hs1 : forall i u, slot (tab s) i = Some u ->
    exists u', slot (tab s1) i = Some u' /\ Some (i387 (tss u')) = float_state s i /\
               (i = c -> u' = u)).
  { intros i u Hu. unfold s1, float_state. destruct (last_task_used_math s) as [l|]; [|].
    - cbn [tab]. rewrite slot_upd_slot. destruct (decide (l = i)) as [->|Hne].
      + rewrite Hu. exists (save_i387 (fpu s) u). rewrite decide_True by done.
        split; [done|]. split; [done|]. congruence.
      + rewrite (decide_False (P := Some l = Some i)) by congruence. rewrite Hu. by exists u.
    - rewrite decide_False by done. rewrite Hu. by exists u. }
  destruct (Hs1 c t Ht) as (t1 & Et1 & Hf1 & Ht1). rewrite (Ht1 eq_refl) in *. clear Ht1 t1.
  unfold on_tab, zoom, get_current, put_current, mbind, M_bind, gets. cbn.
  rewrite Hcur, (get_task_Some _ _ _ Et1). cbn. case_decide as U.
  - eexists. split; [reflexivity|]. cbn. split; [by rewrite Hcur|]. split; [done|]. split.
    + intros i u Hu _. unfold float_state at 1. cbn. case_decide as E.
      * injection E as <-. done.
      * destruct (Hs1 i u Hu) as (u' & -> & <- & _). done.
    + intros Hz. by rewrite Hz in U.
  - cbn. rewrite Hcur, (put_task_Some _ _ _ _ Et1). eexists. split; [reflexivity|]. cbn.
    pose proof (upd_slot_other (tab s1) c (set_used_math 1)) as (Ec & _ & _).
    rewrite Ec, Hcur. split; [done|]. split; [done|]. split; [|done].
    intros i u Hu Hi. unfold float_state at 1. cbn. case_decide as E.
    + injection E as <-. destruct (Hi eq_refl) as [Hz|Hz]; [|done].
      rewrite Ht in Hu. injection Hu as <-. tauto.
    + rewrite slot_upd_slot. rewrite decide_False by congruence.
      destruct (Hs1 i u Hu) as (u' & -> & <- & _). done.
Qed.

End Sched.
