(* ===== verification/WaitQueue.v ===== *)
(** * kernel/sched.c: sleeping and waking

    A wait queue is one pointer; the rest of the queue lives on the kernel stacks
    of the sleepers, each remembering in [tmp] who slept before it.  [sleep_on] and
    [interruptible_sleep_on] are split at their call of [schedule]: the part before
    it, and the part that runs when the task is scheduled again.  [frames] records
    which tasks are inside the call and their [tmp].  No wake-up of [sleep_on] is lost, in any
    interleaving, and under fairness every sleeper is woken; [interruptible_sleep_on] loses one. *)

From S2P Require Import Prelude Task.
Import Task.

Module WaitQueue.

Record waitq : Type := Waitq { wtab : tasks; queue : option Z }.

Definition on_wtab {A} : M tasks A -> M waitq A :=
  zoom wtab (fun t s => {| s with wtab := t |}).
Definition set_queue (q : option Z) : M waitq unit :=
  modify (fun s => {| s with queue := q |}).

(** [sleep_on] up to [schedule()]: the value of [tmp]. *)
Definition sleep_on_enter : M waitq (option Z) :=
  cur ← gets (fun s => current (wtab s));
  if decide (cur = 0) then panic "task[0] trying to sleep"
  else
    tmp ← gets queue;
    set_queue (Some cur);;
    on_wtab (put_current (set_state TASK_UNINTERRUPTIBLE));;
    mret tmp.

(** After [schedule()]: [if (tmp) tmp->state=0]. *)
Definition sleep_on_resume (tmp : option Z) : M waitq unit :=
  match tmp with
  | Some t => on_wtab (put_task t (set_state 0))
  | None => skip
  end.

Definition interruptible_sleep_on_enter : M waitq (option Z) :=
  cur ← gets (fun s => current (wtab s));
  if decide (cur = 0) then panic "task[0] trying to sleep"
  else
    tmp ← gets queue;
    set_queue (Some cur);;
    on_wtab (put_current (set_state TASK_INTERRUPTIBLE));;
    mret tmp.

(** After [schedule()]: [true] when it goes back to [repeat]. *)
Definition interruptible_sleep_on_resume (tmp : option Z) : M waitq bool :=
  cur ← gets (fun s => current (wtab s));
  q ← gets queue;
  match q with
  | Some h =>
      if decide (h <> cur) then
        on_wtab (put_task h (set_state 0));;
        on_wtab (put_current (set_state TASK_INTERRUPTIBLE));;
        mret true
      else set_queue None;; sleep_on_resume tmp;; mret false
  | None => set_queue None;; sleep_on_resume tmp;; mret false
  end.

Definition wake_up : M waitq unit :=
  q ← gets queue;
  match q with
  | Some h => on_wtab (put_task h (set_state 0));; set_queue None
  | None => skip
  end.

(** ** The system of all tasks using one queue *)

Record sys : Type := Sys { wq : waitq; frames : gmap Z (option Z) }.

Definition state_of (s : sys) (i : Z) : option Z := state <$> slot (wtab (wq s)) i.
Definition run_as (c : Z) (w : waitq) : waitq := {| w with wtab := set_current c (wtab w) |}.

(** Steps of tasks that sleep uninterruptibly.  [schedule] may run any task
    that is TASK_RUNNING; interrupts and other tasks may call [wake_up], and
    anything outside the queue may make a task runnable or stop one that is not
    in the queue. *)
Inductive step : sys -> sys -> Prop :=
| step_sleep s c tmp w :
    state_of s c = Some TASK_RUNNING -> frames s !! c = None ->
    sleep_on_enter (run_as c (wq s)) = Done tmp w ->
    step s (Sys w (<[c := tmp]> (frames s)))
| step_resume s c tmp w :
    state_of s c = Some TASK_RUNNING -> frames s !! c = Some tmp ->
    sleep_on_resume tmp (run_as c (wq s)) = Done tt w ->
    step s (Sys w (delete c (frames s)))
| step_wake s w :
    wake_up (wq s) = Done tt w -> step s (Sys w (frames s))
| step_spurious s i :
    step s (Sys (Waitq (upd_slot i (set_state TASK_RUNNING) (wtab (wq s))) (queue (wq s))) (frames s))
| step_other s i v :
    frames s !! i = None ->
    step s (Sys (Waitq (upd_slot i (set_state v) (wtab (wq s))) (queue (wq s))) (frames s)).

(** ** The wake-up chain *)

(** [i] remembers [j], who remembers ..., [t]. *)
Inductive chain (f : gmap Z (option Z)) : Z -> Z -> Prop :=
| chain_here t : chain f t t
| chain_next i j t : f !! i = Some (Some j) -> chain f j t -> chain f i t.

(** Where a wake-up of [t] will come from: the queue pointer, or a task that was
    woken inside [sleep_on] and has yet to run. *)
Definition source (s : sys) (i : Z) : Prop :=
  queue (wq s) = Some i \/ (is_Some (frames s !! i) /\ state_of s i = Some TASK_RUNNING).

Definition asleep (s : sys) (t : Z) : Prop :=
  is_Some (frames s !! t) /\ state_of s t = Some TASK_UNINTERRUPTIBLE.

(** Every sleeper is reachable from a source, and one in the call is either
    asleep or running. *)
Record chain_inv (s : sys) : Prop := {
  ci_reach : forall t, asleep s t -> exists i, source s i /\ chain (frames s) i t;
  ci_state : forall t, is_Some (frames s !! t) ->
    state_of s t = Some TASK_UNINTERRUPTIBLE \/ state_of s t = Some TASK_RUNNING
}.

(** Setting the state of one task. *)
Definition upd_state (i v : Z) (s : sys) : sys :=
  Sys (Waitq (upd_slot i (set_state v) (wtab (wq s))) (queue (wq s))) (frames s).

Lemma upd_state_of i v s j :
  state_of (upd_state i v s) j =
  if decide (i = j) then (fun _ => v) <$> state_of s j else state_of s j.
Proof.
  unfold state_of, upd_state. cbn. rewrite slot_upd_slot.
  case_decide; [|done]. by destruct (slot _ j).
Qed.

Lemma run_as_state c s : state_of (Sys (run_as c (wq s)) (frames s)) = state_of s.
Proof. done. Qed.

Lemma state_of_Some s i v : state_of s i = Some v -> exists t, slot (wtab (wq s)) i = Some t.
Proof. unfold state_of. destruct (slot _ i) as [t|]; [by exists t|done]. Qed.

Lemma wake_put i s :
  is_Some (state_of s i) ->
  exists w, on_wtab (put_task i (set_state 0)) (wq s) = Done tt w /\
    Sys w (frames s) = upd_state i 0 s.
Proof.
  intros [v Hv]. destruct (state_of_Some s i v Hv) as [t Ht].
  unfold on_wtab, zoom. rewrite (put_task_Some _ _ _ _ Ht). eexists. by split.
Qed.

(** Making tasks runnable keeps the invariant. *)
Lemma upd_running_inv s i : chain_inv s -> chain_inv (upd_state i TASK_RUNNING s).
Proof.
  intros [Hr Hs]. split.
  - intros t [Hf Ht]. rewrite upd_state_of in Ht. case_decide as E.
    { subst. by destruct (state_of s t). }
    destruct (Hr t (conj Hf Ht)) as (j & Hj & Hc). exists j. split; [|done].
    destruct Hj as [Hj|[Hj1 Hj2]]; [by left|]. right. split; [done|].
    rewrite upd_state_of. case_decide; [|done]. by rewrite Hj2.
  - intros t Ht. rewrite upd_state_of. case_decide; [|by apply Hs].
    destruct (Hs t Ht) as [->| ->]; by right.
Qed.

Lemma upd_other_inv s i v :
  frames s !! i = None -> chain_inv s -> chain_inv (upd_state i v s).
Proof.
  intros Hn [Hr Hs].
  assert (He : forall t, is_Some (frames s !! t) -> state_of (upd_state i v s) t = state_of s t).
  { intros t [x Hx]. rewrite upd_state_of. rewrite decide_False; [done|]. intros ->. congruence. }
  split.
  - intros t [Hf Ht]. rewrite He in Ht by done.
    destruct (Hr t (conj Hf Ht)) as (j & Hj & Hc). exists j. split; [|done].
    destruct Hj as [Hj|[Hj1 Hj2]]; [by left|]. right. split; [done|]. by rewrite He.
  - intros t Ht. rewrite He by done. by apply Hs.
Qed.

(** A chain through a removed frame restarts at what the frame remembered. *)
Lemma chain_delete f c tmp i t :
  f !! c = Some tmp -> chain f i t ->
  chain (delete c f) i t \/ t = c \/ exists j, tmp = Some j /\ chain (delete c f) j t.
Proof.
  intros Hc. induction 1 as [t|i j t Hi Hch IH]; [left; constructor|].
  destruct IH as [IH|[->|(k & -> & IH)]]; [|by right; left|by right; right; exists k].
  destruct (decide (i = c)) as [->|Hne].
  - right. right. exists j. split; [congruence|done].
  - left. apply (chain_next _ i j); [by rewrite lookup_delete_ne|done].
Qed.

(** Entering [sleep_on] adds a link in front. *)
Lemma chain_insert f c tmp i t :
  f !! c = None -> chain f i t -> chain (<[c := tmp]> f) i t.
Proof.
  intros Hc. induction 1 as [t|i j t Hi Hch IH]; [constructor|].
  apply (chain_next _ i j); [|done]. rewrite lookup_insert_ne; [done|]. intros ->. congruence.
Qed.

Lemma chain_first f i t : chain f i t -> i = t \/ is_Some (f !! i).
Proof. destruct 1 as [|i j t Hi]; [by left|right; by exists (Some j)]. Qed.

(** The effect of each half of the code. *)
Lemma sleep_on_enter_effect c w tmp w' :
  sleep_on_enter (run_as c w) = Done tmp w' ->
  c <> 0 /\ tmp = queue w /\ queue w' = Some c /\
  wtab w' = upd_slot c (set_state TASK_UNINTERRUPTIBLE) (set_current c (wtab w)).
Proof.
  unfold sleep_on_enter, run_as, mbind, M_bind, gets. cbn. case_decide; [done|].
  unfold set_queue, modify, on_wtab, zoom, put_current, put_task, mbind, M_bind, gets. cbn.
  unfold get_task, mbind, M_bind, gets, deref. cbn.
  destruct (slot _ c); [|done]. cbn. by intros [= <- <-].
Qed.

Lemma put_effect i w w' :
  on_wtab (put_task i (set_state 0)) w = Done tt w' ->
  queue w' = queue w /\ wtab w' = upd_slot i (set_state 0) (wtab w) /\
  is_Some (slot (wtab w) i).
Proof.
  unfold on_wtab, zoom, put_task, get_task, mbind, M_bind, gets, deref. cbn.
  destruct (slot _ i) eqn:E; [|done]. cbn. intros [= <-]. by split.
Qed.

Lemma wake_up_effect w w' :
  wake_up w = Done tt w' ->
  queue w' = None /\
  match queue w with
  | Some h => wtab w' = upd_slot h (set_state 0) (wtab w) /\ is_Some (slot (wtab w) h)
  | None => wtab w' = wtab w
  end.
Proof.
  unfold wake_up, mbind, M_bind at 1, gets. cbn. destruct (queue w) as [h|] eqn:Q.
  - unfold M_bind, set_queue, modify.
    destruct (on_wtab (put_task h (set_state 0)) w) as [[] w1| | | |] eqn:E; try done.
    apply put_effect in E as (E1 & E2 & E3). intros [= <-]. cbn. by rewrite E2.
  - intros [= <-]. done.
Qed.

(** The states of all tasks after each of them. *)
Lemma sleep_effect s c tmp w :
  state_of s c = Some TASK_RUNNING -> sleep_on_enter (run_as c (wq s)) = Done tmp w ->
  tmp = queue (wq s) /\ queue w = Some c /\
  forall F t, state_of (Sys w F) t = if decide (c = t) then Some TASK_UNINTERRUPTIBLE else state_of s t.
Proof.
  intros Hc (_ & -> & Hq & Hw)%sleep_on_enter_effect. split_and!; [done..|]. intros F t.
  unfold state_of. cbn. rewrite Hw, slot_upd_slot.
  case_decide as E; [subst|done]. destruct (state_of_Some s t _ Hc) as [u Hu].
  unfold slot, set_current in *. cbn. by rewrite Hu.
Qed.

Lemma resume_effect s c tmp w :
  sleep_on_resume tmp (run_as c (wq s)) = Done tt w ->
  queue w = queue (wq s) /\
  forall F t, state_of (Sys w F) t = if decide (tmp = Some t) then Some TASK_RUNNING else state_of s t.
Proof.
  intros Hw. destruct tmp as [j|]; cbn in Hw.
  - apply put_effect in Hw as (Hq & Hw & [u Hu]). split; [done|]. intros F t.
    unfold state_of. cbn. rewrite Hw, slot_upd_slot.
    destruct (decide (j = t)) as [<-|Hne].
    + rewrite decide_True by done. cbn in Hu |- *. by rewrite Hu.
    + rewrite decide_False by congruence. done.
  - injection Hw as <-. by split.
Qed.

Lemma wake_effect s w :
  wake_up (wq s) = Done tt w ->
  queue w = None /\
  forall F t, state_of (Sys w F) t = if decide (queue (wq s) = Some t) then Some TASK_RUNNING else state_of s t.
Proof.
  intros [Hq Hw]%wake_up_effect. split; [done|]. intros F t. unfold state_of. cbn.
  destruct (queue (wq s)) as [h|].
  - destruct Hw as [-> [u Hu]]. rewrite slot_upd_slot.
    destruct (decide (h = t)) as [<-|]; [by rewrite decide_True, Hu|].
    by rewrite decide_False by congruence.
  - rewrite Hw. done.
Qed.

Lemma sleep_inv s c tmp w :
  state_of s c = Some TASK_RUNNING -> frames s !! c = None ->
  sleep_on_enter (run_as c (wq s)) = Done tmp w ->
  chain_inv s -> chain_inv (Sys w (<[c := tmp]> (frames s))).
Proof.
  intros Hc Hn Hw [Hr Hs]. destruct (sleep_effect s c tmp w Hc Hw) as (-> & Hq & Hst).
  split.
  - intros t [Hf Ht]. destruct (decide (c = t)) as [<-|Hne].
    { exists c. split; [by left|constructor]. }
    rewrite Hst, decide_False in Ht by done. cbn in Hf. rewrite lookup_insert_ne in Hf by done.
    destruct (Hr t (conj Hf Ht)) as (i & Hi & Hch).
    apply (chain_insert _ c (queue (wq s))) in Hch; [|done].
    destruct Hi as [Hi|[Hi1 Hi2]].
    + exists c. split; [by left|]. apply (chain_next _ c i); [|done].
      cbn. by rewrite lookup_insert_eq, Hi.
    + exists i. split; [|done]. right. cbn.
      assert (c <> i) by (intros ->; rewrite Hn in Hi1; by destruct Hi1).
      rewrite lookup_insert_ne, Hst, decide_False by done. done.
  - intros t Ht. rewrite Hst. case_decide; [by left|]. cbn in Ht.
    rewrite lookup_insert_ne in Ht by done. by apply Hs.
Qed.

Lemma resume_inv s c tmp w :
  frames s !! c = Some tmp ->
  sleep_on_resume tmp (run_as c (wq s)) = Done tt w ->
  chain_inv s -> chain_inv (Sys w (delete c (frames s))).
Proof.
  intros Hc Hw [Hr Hs]. destruct (resume_effect s c tmp w Hw) as [Hq Hst]. split.
  - intros t [Hf Ht]. cbn in Hf.
    assert (Hct : c <> t) by (intros ->; rewrite lookup_delete_eq in Hf; by destruct Hf).
    rewrite lookup_delete_ne in Hf by done. rewrite Hst in Ht.
    destruct (decide (tmp = Some t)) as [|Htm]; [done|].
    destruct (Hr t (conj Hf Ht)) as (i & Hi & Hch).
    destruct (chain_delete _ c tmp i t Hc Hch) as [Hch'|[?|(j & -> & Hch')]]; [|done|].
    + exists i. split; [|done]. destruct Hi as [Hi|[Hi1 Hi2]]; [left; cbn; congruence|].
      right. destruct (chain_first _ _ _ Hch') as [->|Hf']; [exfalso; by rewrite Hi2 in Ht|].
      split; [done|]. rewrite Hst. by case_decide.
    + exists j. split; [|done]. right.
      destruct (chain_first _ _ _ Hch') as [->|Hf']; [done|].
      split; [done|]. rewrite Hst. by rewrite decide_True.
  - intros t Ht. cbn in Ht.
    assert (Hct : c <> t) by (intros ->; rewrite lookup_delete_eq in Ht; by destruct Ht).
    rewrite lookup_delete_ne in Ht by done. rewrite Hst. case_decide; [by right|by apply Hs].
Qed.

Lemma wake_inv s w : wake_up (wq s) = Done tt w -> chain_inv s -> chain_inv (Sys w (frames s)).
Proof.
  intros Hw [Hr Hs]. destruct (wake_effect s w Hw) as [Hq Hst]. split.
  - intros t [Hf Ht]. rewrite Hst in Ht. case_decide as E; [done|].
    destruct (Hr t (conj Hf Ht)) as (i & Hi & Hch). exists i. split; [|done]. right. cbn.
    destruct Hi as [Hi|[Hi1 Hi2]].
    + destruct (chain_first _ _ _ Hch) as [->|Hf']; [congruence|].
      split; [done|]. by rewrite Hst, decide_True.
    + split; [done|]. rewrite Hst. by case_decide.
  - intros t Ht. rewrite Hst. case_decide; [by right|by apply Hs].
Qed.

Lemma step_inv s s' : step s s' -> chain_inv s -> chain_inv s'.
Proof.
  destruct 1 as [s c tmp w H1 H2 H3|s c tmp w H1 H2 H3|s w H1|s i|s i v H1].
  - by eapply sleep_inv.
  - by eapply resume_inv.
  - by apply wake_inv.
  - apply upd_running_inv.
  - by apply upd_other_inv.
Qed.

(** Nobody sleeps in the queue yet. *)
Definition idle (s : sys) : Prop := frames s = ∅.

Lemma idle_inv s : idle s -> chain_inv s.
Proof. unfold idle. intros Hi. split; [intros u [[x Hx] _]|intros u [x Hx]]; by rewrite Hi in Hx. Qed.
Lemma reachable_inv s0 s : idle s0 -> rtc step s0 s -> chain_inv s.
Proof. intros Hi Hs. apply idle_inv in Hi. induction Hs; [done|]. eauto using step_inv. Qed.

(** C9: no wake-up of [sleep_on] is lost.  In every state the tasks can reach,
    in any interleaving of sleeping, waking and running, once the queue pointer
    is empty and every woken task has left [sleep_on], no task is still asleep in
    the queue. *)
Theorem sleep_on_no_lost_wakeup s0 s :
  idle s0 -> rtc step s0 s ->
  queue (wq s) = None ->
  (forall i, is_Some (frames s !! i) -> state_of s i <> Some TASK_RUNNING) ->
  forall t, ~ asleep s t.
Proof.
  intros Hi Hsteps Hq Hnone t Ht. pose proof (reachable_inv s0 s Hi Hsteps) as Hinv.
  destruct (ci_reach s Hinv t Ht) as (i & [Hs|[Hs1 Hs2]] & _); [congruence|].
  by apply (Hnone i).
Qed.

(** ** Every sleeper is woken *)

(** The system as time goes by: a step, or none. *)
Definition run (tr : nat -> sys) : Prop := forall n, step (tr n) (tr (S n)) \/ tr (S n) = tr n.
(** A task that is woken inside [sleep_on] gets to run at some time, which takes it out. *)
Definition fair (tr : nat -> sys) : Prop :=
  forall n c, is_Some (frames (tr n) !! c) -> state_of (tr n) c = Some TASK_RUNNING ->
    exists m, (n <= m)%nat /\ frames (tr m) !! c = None.

Definition awake (s : sys) (t : Z) : Prop := is_Some (frames s !! t) /\ state_of s t = Some TASK_RUNNING.

(** [k] links from [i] to [t]. *)
Fixpoint links (k : nat) (f : gmap Z (option Z)) (i t : Z) : Prop :=
  match k with O => i = t | S k' => exists j, f !! i = Some (Some j) /\ links k' f j t end.
(** A running task is [k] links away. *)
Definition wakes_after (k : nat) (s : sys) (t : Z) : Prop := exists i, awake s i /\ links k (frames s) i t.

Lemma chain_links f i t : chain f i t -> exists k, links k f i t.
Proof. induction 1 as [t|i j t Hi _ [k Hk]]; [by exists 0%nat|]. exists (S k), j. done. Qed.
Lemma links_insert f c tmp k i t : f !! c = None -> links k f i t -> links k (<[c := tmp]> f) i t.
Proof.
  intros Hc. revert i. induction k as [|k IH]; intros i; [done|]. intros (j & Hi & Hk). exists j. split; [|by apply IH].
  rewrite lookup_insert_ne; [done|]. intros ->. congruence.
Qed.
Lemma links_delete f c tmp k i t : f !! c = Some tmp -> links k f i t ->
  links k (delete c f) i t \/ exists j k', (k' < k)%nat /\ tmp = Some j /\ links k' (delete c f) j t.
Proof.
  intros Hc. revert i. induction k as [|k IH]; intros i; [by left|]. intros (j & Hi & Hk).
  destruct (IH j Hk) as [Hl|(x & k' & Hk' & -> & Hl)]; [|right; exists x, k'; split; [lia|done]].
  destruct (decide (i = c)) as [->|Hne].
  - right. exists j, k. split; [lia|]. split; [congruence|done].
  - left. exists j. split; [by rewrite lookup_delete_ne|done].
Qed.

(** One step: the sleeper is woken, or a running task is nearer, or the same is as near. *)
Lemma step_nearer s s' k i t :
  step s s' -> asleep s t -> awake s i -> links k (frames s) i t ->
  awake s' t \/ (asleep s' t /\ ((exists k', (k' < k)%nat /\ wakes_after k' s' t) \/ (awake s' i /\ links k (frames s') i t))).
Proof.
  intros Hstep [Hft Hst] [Hfi Hsi] Hl.
  destruct Hstep as [s c tmp w H1 H2 H3|s c tmp w H1 H2 H3|s w H1|s x|s x v H1].
  - destruct (sleep_effect s c tmp w H1 H3) as (_ & _ & He). right.
    assert (Hne : forall y, is_Some (frames s !! y) -> c <> y) by (intros y Hy ->; rewrite H2 in Hy; by destruct Hy).
    pose proof (Hne t Hft). pose proof (Hne i Hfi). unfold asleep, awake. cbn [frames].
    rewrite !He, !decide_False, !lookup_insert_ne by done. split; [done|]. right. split; [done|]. by apply links_insert.
  - destruct (resume_effect s c tmp w H3) as [_ He]. assert (Hct : c <> t) by (intros ->; by rewrite H1 in Hst).
    assert (Hft' : is_Some (delete c (frames s) !! t)) by (by rewrite lookup_delete_ne).
    destruct (decide (tmp = Some t)) as [->|Ht]; [left; split; [done|by rewrite He, decide_True]|]. right.
    split; [split; [done|by rewrite He, decide_False]|].
    destruct (links_delete _ c tmp k i t H2 Hl) as [Hl'|(j & k' & Hk & -> & Hl')].
    + right. assert (Hci : c <> i).
      { intros ->. destruct k as [|k]; [cbn in Hl'; congruence|]. destruct Hl' as (j & Hj & _). by rewrite lookup_delete_eq in Hj. }
      split; [|done]. split; [cbn; by rewrite lookup_delete_ne|]. rewrite He. by case_decide.
    + left. exists k'. split; [done|]. exists j. split; [|done]. split; [|by rewrite He, decide_True].
      destruct k' as [|k']; [cbn in Hl'; congruence|]. destruct Hl' as (y & Hy & _). by exists (Some y).
  - destruct (wake_effect s w H1) as [_ He]. destruct (decide (queue (wq s) = Some t)) as [Hq|Hq].
    + left. split; [done|by rewrite He, decide_True].
    + right. split; [split; [done|by rewrite He, decide_False]|]. right. split; [|done]. split; [done|]. rewrite He. by case_decide.
  - change (Sys (Waitq _ _) (frames s)) with (upd_state x TASK_RUNNING s). unfold asleep, awake. rewrite !upd_state_of.
    destruct (decide (x = t)) as [->|Hx]; [left; by rewrite Hst|right]. split; [done|]. right. split; [|done]. split; [done|].
    case_decide; [by rewrite Hsi|done].
  - change (Sys (Waitq _ _) (frames s)) with (upd_state x v s). unfold asleep, awake. rewrite !upd_state_of.
    rewrite !decide_False by (intros ->; destruct Hft, Hfi; congruence). right. split; [done|]. by right.
Qed.

(** A running task leads to a nearer one. *)
Lemma some_nearer tr k i t n : run tr -> fair tr -> asleep (tr n) t -> awake (tr n) i -> links k (frames (tr n)) i t ->
  exists m, (n <= m)%nat /\ (awake (tr m) t \/ (asleep (tr m) t /\ exists k', (k' < k)%nat /\ wakes_after k' (tr m) t)).
Proof.
  intros Hrun Hfair Ht Hi Hl. destruct (Hfair n i) as (m & Hm & Hnone); [apply Hi|apply Hi|].
  remember (m - n)%nat as d eqn:Ed. revert n Hm Ed Ht Hi Hl. induction d as [|d IH]; intros n Hm Ed Ht Hi Hl.
  - assert (m = n) as -> by lia. destruct Hi as [[x Hx] _]. congruence.
  - assert (Hone : awake (tr (S n)) t \/ (asleep (tr (S n)) t /\ ((exists k', (k' < k)%nat /\ wakes_after k' (tr (S n)) t) \/
      (awake (tr (S n)) i /\ links k (frames (tr (S n))) i t)))).
    { destruct (Hrun n) as [Hs| ->]; [by eapply step_nearer|]. right. split; [done|]. by right. }
    destruct Hone as [Ha|[Ha [Hk|[Hi' Hl']]]]; [exists (S n); split; [lia|by left]|exists (S n); split; [lia|by right]|].
    destruct (IH (S n)) as (m' & Hm' & H); [lia|lia|done..|]. exists m'. split; [lia|done].
Qed.

Lemma wakes_at_last tr k t n : run tr -> fair tr -> asleep (tr n) t -> wakes_after k (tr n) t ->
  exists m, (n <= m)%nat /\ awake (tr m) t.
Proof.
  intros Hrun Hfair. revert n. induction (lt_wf k) as [k _ IH]. intros n Ht (i & Hi & Hl).
  destruct (some_nearer tr k i t n Hrun Hfair Ht Hi Hl) as (m & Hm & [Ha|[Ha (k' & Hk & Hw)]]); [by exists m|].
  destruct (IH k' Hk m Ha Hw) as (m' & Hm' & Ha'). exists m'. split; [lia|done].
Qed.

(** C39: every task that sleeps in [sleep_on] when [wake_up] is called is made runnable at some
    time after it: [wake_up] wakes only the head of the queue, and each task that leaves wakes
    the one that slept before it.  Whatever happens meanwhile, new sleepers, other wake-ups and
    interrupts included, the only assumption is that a task woken inside [sleep_on] gets to run
    at some time. *)
Theorem wake_up_wakes_all tr n t w :
  idle (tr 0%nat) -> run tr -> fair tr ->
  asleep (tr n) t -> wake_up (wq (tr n)) = Done tt w -> tr (S n) = Sys w (frames (tr n)) ->
  exists m, (n < m)%nat /\ is_Some (frames (tr m) !! t) /\ state_of (tr m) t = Some TASK_RUNNING.
Proof.
  intros Hi Hrun Hfair Ht Hw En.
  assert (Hinv : chain_inv (tr (S n))).
  { assert (H : forall k, chain_inv (tr k)); [|apply H]. induction k as [|k IH]; [by apply idle_inv|].
    destruct (Hrun k) as [Hs| ->]; [by eapply step_inv|done]. }
  destruct (wake_effect _ w Hw) as [Hq He].
  assert (Hor : awake (tr (S n)) t \/ asleep (tr (S n)) t).
  { rewrite En. unfold awake, asleep. rewrite He. destruct Ht as [Hf Hs]. case_decide; [by left|by right]. }
  destruct Hor as [Ha|Ha]; [exists (S n); split; [lia|exact Ha]|].
  destruct (ci_reach _ Hinv t Ha) as (i & [Hs|Hs] & [k Hk]%chain_links).
  - rewrite En in Hs. cbn in Hs. congruence.
  - destruct (wakes_at_last tr k t (S n) Hrun Hfair Ha) as (m & Hm & Hx); [by exists i|]. exists m. split; [lia|exact Hx].
Qed.

(** ** Interruptible sleepers *)

(** Steps of tasks using [interruptible_sleep_on], executable: a task enters,
    a woken task runs on, somebody calls [wake_up].  A step is refused ([None])
    when the task is not runnable. *)
Inductive istep : Type := Enter (c : Z) | Resume (c : Z) | Wake.

Definition run_istep (e : istep) (s : sys) : option sys :=
  match e with
  | Enter c =>
      match state_of s c, frames s !! c, interruptible_sleep_on_enter (run_as c (wq s)) with
      | Some 0, None, Done tmp w => Some (Sys w (<[c := tmp]> (frames s)))
      | _, _, _ => None
      end
  | Resume c =>
      match state_of s c, frames s !! c with
      | Some 0, Some tmp =>
          match interruptible_sleep_on_resume tmp (run_as c (wq s)) with
          | Done true w => Some (Sys w (frames s))
          | Done false w => Some (Sys w (delete c (frames s)))
          | _ => None
          end
      | _, _ => None
      end
  | Wake => match wake_up (wq s) with Done _ w => Some (Sys w (frames s)) | _ => None end
  end.

Fixpoint run_isteps (l : list istep) (s : sys) : option sys :=
  match l with
  | [] => Some s
  | e :: l' => match run_istep e s with Some s' => run_isteps l' s' | None => None end
  end.

(** Three runnable tasks and an empty queue. *)
Definition three : sys :=
  Sys (Waitq (Tasks (Some (INIT_TASK 0 0) :: Some (INIT_TASK 0 0) :: Some (INIT_TASK 0 0) ::
                     replicate 61 None) 0 0 0) None) ∅.

(** [interruptible_sleep_on] loses a wake-up.  Task 1 sleeps and is woken; task 2
    enters the queue before task 1 runs; task 1 then finds another task at the
    head, wakes it and sleeps again without being in the queue; task 2 leaves and
    clears the queue pointer.  Task 1 is left sleeping, no task remembers it, and
    every later [wake_up] does nothing. *)
Theorem interruptible_sleep_on_loses_wakeup :
  exists s, run_isteps [Enter 1; Wake; Enter 2; Resume 1; Resume 2] three = Some s /\
    state_of s 1 = Some TASK_INTERRUPTIBLE /\ frames s = {[1 := None]} /\
    queue (wq s) = None /\ wake_up (wq s) = Done tt (wq s).
Proof.
  eexists. split; [reflexivity|]. split; [reflexivity|].
  split; [|by split]. cbn. apply map_eq. intros i.
  destruct (decide (i = 2)) as [->|H2]; [by rewrite lookup_delete_eq|].
  rewrite lookup_delete_ne, lookup_insert_ne by done.
  destruct (decide (i = 1)) as [->|H1]; [by rewrite lookup_insert_eq|].
  by rewrite lookup_insert_ne, lookup_singleton_ne by done.
Qed.

(** Tasks 1 and 2 sleep; one [wake_up], and each runs on. *)
Definition after (o : outcome waitq (option Z)) (c : Z) (f : gmap Z (option Z)) : sys :=
  match o with Done tmp w => Sys w (<[c := tmp]> f) | _ => three end.
Definition asleep1 : sys := after (sleep_on_enter (run_as 1 (wq three))) 1 ∅.
Definition asleep2 : sys := after (sleep_on_enter (run_as 2 (wq asleep1))) 2 (frames asleep1).
Definition done_as (o : outcome waitq unit) (f : gmap Z (option Z)) : sys := match o with Done _ w => Sys w f | _ => three end.
Definition woken2 : sys := done_as (wake_up (wq asleep2)) (frames asleep2).
Definition left2 : sys := done_as (sleep_on_resume (Some 1) (run_as 2 (wq woken2))) (delete 2 (frames woken2)).
Definition left1 : sys := done_as (sleep_on_resume None (run_as 1 (wq left2))) (delete 1 (frames left2)).
Definition trace (n : nat) : sys := default left1 ([three; asleep1; asleep2; woken2; left2] !! n).

Lemma wake_up_wakes_all_witness :
  exists m, (2 < m)%nat /\ is_Some (frames (trace m) !! 1) /\ state_of (trace m) 1 = Some TASK_RUNNING.
Proof.
  apply (wake_up_wakes_all trace 2 1 (wq woken2)).
  - reflexivity.
  - intros n. destruct n as [|[|[|[|[|n]]]]]; [left..|by right].
    + by apply (step_sleep three 1).
    + by apply (step_sleep asleep1 2).
    + by apply (step_wake asleep2).
    + by apply (step_resume woken2 2 (Some 1)).
    + by apply (step_resume left2 1 None).
  - intros n c _ _. exists (n + 5)%nat. split; [lia|]. replace (n + 5)%nat with (S (S (S (S (S n))))) by lia.
    change (frames (trace _)) with (delete 1 (delete 2 (<[2 := Some 1]> (<[1 := None]> (∅ : gmap Z (option Z)))))).
    destruct (decide (c = 1)) as [->|H1]; [apply lookup_delete_eq|]. rewrite lookup_delete_ne by done.
    destruct (decide (c = 2)) as [->|H2]; [apply lookup_delete_eq|]. by rewrite lookup_delete_ne, !lookup_insert_ne by done.
  - split; [by exists None|reflexivity].
  - reflexivity.
  - reflexivity.
Defined.

(** Task 1 sleeps, is woken, and runs on. *)
Lemma sleep_on_no_lost_wakeup_witness :
  exists s, rtc step three s /\ state_of s 1 = Some TASK_RUNNING /\ forall t, ~ asleep s t.
Proof.
  assert (H : exists s, rtc step three s /\ queue (wq s) = None /\ frames s = delete 1 {[1 := None]} /\
    state_of s 1 = Some TASK_RUNNING).
  { eexists. split; [|split; [|split]].
    - eapply rtc_l; [eapply (step_sleep _ 1); reflexivity|].
      eapply rtc_l; [eapply step_wake; reflexivity|].
      eapply rtc_l; [eapply (step_resume _ 1); reflexivity|]. apply rtc_refl.
    - reflexivity.
    - reflexivity.
    - reflexivity. }
  destruct H as (s & Hs & Hq & Hf & H1). exists s. split; [exact Hs|]. split; [exact H1|].
  apply (sleep_on_no_lost_wakeup three s); [reflexivity|exact Hs|exact Hq|].
  intros i. rewrite Hf, delete_singleton_eq. intros [x Hx]. discriminate Hx.
Defined.

End WaitQueue.
