(* ===== verification/Timers.v ===== *)
(** * kernel/sched.c: the timer list

    Sixty-four nodes, the pending ones linked by [next] in order of expiry, each
    holding its delay relative to the one before.  [add_timer] links the new node
    in front and moves it back by exchanging payloads.  A timer's function is a
    number, and calling it is the operation [call] of the surrounding state. *)

From S2P Require Import Prelude.

Module Timers.

Definition TIME_REQUESTS : Z := 64.

Record tnode : Type := Tnode { t_jiffies : Z; t_fn : option Z; t_next : option Z }.
Record timers : Type := Timers { timer_list : list tnode; next_timer : option Z }.

Definition node_get (p : Z) : M timers tnode :=
  o ← gets (fun s => zget (timer_list s) p); deref "timer" o.
Definition set_node (p : Z) (n : tnode) (s : timers) : timers :=
  {| s with timer_list := zset (timer_list s) p n |}.
Definition node_upd (p : Z) (f : tnode -> tnode) : M timers unit :=
  n ← node_get p; modify (set_node p (f n)).
Definition with_next (q : option Z) (s : timers) : timers := {| s with next_timer := q |}.

(** [for (p = timer_list ; p < timer_list + TIME_REQUESTS ; p++) if (!p->fn) break;] *)
Fixpoint find_free (l : list tnode) (p : Z) : option Z :=
  match l with
  | [] => None
  | n :: l' => match t_fn n with None => Some p | Some _ => find_free l' (p + 1) end
  end.

(** The loop that moves the new timer, at node [p], to its place. *)
Fixpoint bubble (fuel : nat) (p : Z) : M timers unit :=
  match fuel with
  | O => fun _ => NoFuel
  | S fuel' =>
      n ← node_get p;
      match t_next n with
      | None => skip
      | Some q =>
          m ← node_get q;
          if decide (t_jiffies m < t_jiffies n) then
            node_upd p (fun n => Tnode (t_jiffies m) (t_fn m) (t_next n));;
            node_upd q (fun m => Tnode (s32 (t_jiffies n - t_jiffies m)) (t_fn n) (t_next m));;
            bubble fuel' q
          else skip
      end
  end.

Section calls.
Context {S : Type} (get : S -> timers) (put : timers -> S -> S) (call : Z -> M S unit).

Definition add_timer (jiffies : Z) (fn : option Z) : M S unit :=
  match fn with
  | None => skip
  | Some f =>
      if decide (jiffies <= 0) then call f
      else zoom get put (
        o ← gets (fun s => find_free (timer_list s) 0);
        match o with
        | None => panic "No more time requests free"
        | Some p =>
            q ← gets next_timer;
            node_upd p (fun _ => Tnode jiffies (Some f) q);;
            modify (with_next (Some p));;
            bubble (Z.to_nat TIME_REQUESTS) p
        end)
  end.

(** [while (next_timer && next_timer->jiffies <= 0) ...] *)
Fixpoint run_expired (fuel : nat) : M S unit :=
  match fuel with
  | O => fun _ => NoFuel
  | Datatypes.S fuel' =>
      q ← gets (fun s => next_timer (get s));
      match q with
      | None => skip
      | Some p =>
          n ← zoom get put (node_get p);
          if decide (t_jiffies n <= 0) then
            zoom get put (node_upd p (fun n => Tnode (t_jiffies n) None (t_next n)));;
            zoom get put (modify (with_next (t_next n)));;
            match t_fn n with Some f => call f | None => undef "fn" end;;
            run_expired fuel'
          else skip
      end
  end.

(** The timer part of [do_timer]. *)
Definition tick (fuel : nat) : M S unit :=
  q ← gets (fun s => next_timer (get s));
  match q with
  | None => skip
  | Some p =>
      zoom get put (node_upd p (fun n => Tnode (s32 (t_jiffies n - 1)) (t_fn n) (t_next n)));;
      run_expired fuel
  end.
End calls.

(** ** The list a state represents *)

(** Nodes [ns], linked from [q], hold the timers [l]. *)
Fixpoint seg (s : timers) (q : option Z) (ns : list Z) (l : list (Z * Z)) : Prop :=
  match ns, l with
  | [], [] => q = None
  | i :: ns', (j, f) :: l' =>
      q = Some i /\ exists q', zget (timer_list s) i = Some (Tnode j (Some f) q') /\ seg s q' ns' l'
  | _, _ => False
  end.

(** The pending timers are [l]; exactly their nodes are in use. *)
Definition repr (s : timers) (l : list (Z * Z)) : Prop :=
  zlen (timer_list s) = TIME_REQUESTS /\
  exists ns, seg s (next_timer s) ns l /\ NoDup ns /\
    (forall i n, zget (timer_list s) i = Some n -> t_fn n <> None -> i ∈ ns).

(** Insertion in the list of relative delays, as the code does it. *)
Fixpoint ins (t : Z * Z) (l : list (Z * Z)) : list (Z * Z) :=
  match l with
  | [] => [t]
  | h :: l' => if decide (fst h < fst t) then h :: ins (fst t - fst h, snd t) l' else t :: l
  end.

Lemma ins_lt j f h g l : h < j -> ins (j, f) ((h, g) :: l) = (h, g) :: ins (j - h, f) l.
Proof. intros. cbn [ins fst snd]. by rewrite decide_True. Qed.

Lemma ins_ge j f h g l : ~ (h < j) -> ins (j, f) ((h, g) :: l) = (j, f) :: (h, g) :: l.
Proof. intros. cbn [ins fst snd]. by rewrite decide_False. Qed.

#[global] Arguments ins : simpl never.

Lemma seg_frame s s' q ns l :
  (forall i, i ∈ ns -> zget (timer_list s') i = zget (timer_list s) i) ->
  seg s q ns l -> seg s' q ns l.
Proof.
  revert q l. induction ns as [|i ns IH]; intros q [|[j f] l] H; try done.
  intros (-> & q' & E & Hs). split; [done|]. exists q'. split.
  - rewrite H; [done|left].
  - apply IH; [|done]. intros k Hk. apply H. by right.
Qed.

Lemma seg_node s q ns l i :
  seg s q ns l -> i ∈ ns -> exists n, zget (timer_list s) i = Some n /\ t_fn n <> None.
Proof.
  revert q l. induction ns as [|k ns IH]; intros q [|[j f] l]; try done;
    [by intros _ ?%elem_of_nil|].
  intros (_ & q' & E & Hs) [->|Hi]%elem_of_cons; [by eexists|by eapply IH].
Qed.

Lemma node_get_Some s p n : zget (timer_list s) p = Some n -> node_get p s = Done n s.
Proof. intros E. unfold node_get. run_m. by rewrite E. Qed.

Lemma node_upd_Some s p n f :
  zget (timer_list s) p = Some n -> node_upd p f s = Done tt (set_node p (f n) s).
Proof. intros E. unfold node_upd, mbind, M_bind. by rewrite (node_get_Some _ _ _ E). Qed.

Lemma set_node_get s p n i :
  0 <= p < zlen (timer_list s) ->
  zget (timer_list (set_node p n s)) i = if decide (p = i) then Some n else zget (timer_list s) i.
Proof. intros. unfold set_node. cbn. by apply zget_zset. Qed.

Lemma zlen_set_node s p n : zlen (timer_list (set_node p n s)) = zlen (timer_list s).
Proof. apply zlen_zset. Qed.

(** Delays are positive [long]s. *)
Definition delays_ok (l : list (Z * Z)) : Prop := forall t, t ∈ l -> 0 < fst t < 2 ^ 31.

(** The exchange loop computes [ins] without moving a node. *)
Lemma bubble_ins fuel s p q ns j f l :
  (length ns < fuel)%nat -> q = Some p -> 0 < j < 2 ^ 31 -> delays_ok l ->
  seg s q (p :: ns) ((j, f) :: l) -> NoDup (p :: ns) ->
  exists s', bubble fuel p s = Done tt s' /\ next_timer s' = next_timer s /\
    zlen (timer_list s') = zlen (timer_list s) /\
    seg s' q (p :: ns) (ins (j, f) l) /\
    (forall i, i ∉ p :: ns -> zget (timer_list s') i = zget (timer_list s) i).
Proof.
  revert s p q j f l ns. induction fuel as [|fuel IH]; intros s p q j f l ns Hf -> Hj Hd Hs Hnd; [lia|].
  destruct Hs as (_ & q' & E & Hs). cbn [bubble]. unfold mbind at 1, M_bind at 1.
  rewrite (node_get_Some _ _ _ E). cbn.
  destruct ns as [|k ns]; destruct l as [|[h g] l]; try done; cbn in Hs.
  { subst q'. exists s. split; [done|]. split; [done|]. split; [done|]. split; [|done].
    split; [done|]. by exists None. }
  destruct Hs as (-> & q'' & E' & Hs).
  assert (Hpk : p <> k) by (intros ->; by apply NoDup_cons in Hnd as [[]%not_elem_of_cons _]).
  pose proof (zget_Some_range _ _ _ E) as Hpr. pose proof (zget_Some_range _ _ _ E') as Hkr.
  unfold mbind, M_bind. rewrite (node_get_Some _ _ _ E'). cbn.
  destruct (decide (h < j)) as [Hlt|Hge].
  2:{ exists s. split; [done|]. split; [done|]. split; [done|]. split; [|done].
      rewrite ins_ge by done. split; [done|]. exists (Some k). split; [done|].
      split; [done|]. by exists q''. }
  rewrite (node_upd_Some _ _ _ _ E). cbn.
  set (s1 := set_node p (Tnode h (Some g) (Some k)) s).
  assert (E1 : zget (timer_list s1) k = Some (Tnode h (Some g) q''))
    by (unfold s1; rewrite set_node_get, decide_False by done; done).
  rewrite (node_upd_Some _ _ _ _ E1). cbn.
  pose proof (Hd (h, g) ltac:(left)) as Hh. cbn in Hh. rewrite s32_small by lia.
  set (s2 := set_node k (Tnode (j - h) (Some f) q'') s1).
  assert (G2 : forall i, zget (timer_list s2) i =
    if decide (k = i) then Some (Tnode (j - h) (Some f) q'')
    else if decide (p = i) then Some (Tnode h (Some g) (Some k)) else zget (timer_list s) i).
  { intros i. unfold s2. rewrite set_node_get by (unfold s1; by rewrite zlen_set_node).
    case_decide; [done|]. unfold s1. by rewrite set_node_get. }
  apply NoDup_cons in Hnd as [Hp Hnd]. pose proof Hnd as [Hk Hnd']%NoDup_cons.
  destruct (IH s2 k (Some k) (j - h) f l ns) as (s3 & E3 & N3 & L3 & S3 & F3);
    [simpl in Hf; lia|done|lia| | |done|].
  { intros t Ht. apply Hd. by right. }
  { cbn. split; [done|]. exists q''. rewrite G2, decide_True by done. split; [done|].
    apply (seg_frame s); [|done]. intros i Hi. rewrite G2.
    rewrite !decide_False; [done| |]; intros ->; [|done].
    apply Hp. by right. }
  exists s3. split; [exact E3|]. split; [by rewrite N3|]. split.
  { rewrite L3. unfold s2, s1. by rewrite !zlen_set_node. }
  assert (Hp3 : zget (timer_list s3) p = Some (Tnode h (Some g) (Some k))).
  { rewrite F3, G2 by done. rewrite decide_False, decide_True by done. done. }
  split.
  - rewrite ins_lt by done. split; [done|]. exists (Some k). by split.
  - intros i [Hi1 Hi2]%not_elem_of_cons. rewrite F3 by done. rewrite G2.
    apply not_elem_of_cons in Hi2 as [Hi2 _]. by rewrite !decide_False.
Qed.

(** ** Adding a timer *)

Lemma find_free_spec l p0 :
  match find_free l p0 with
  | Some p => p0 <= p /\ exists n, l !! Z.to_nat (p - p0) = Some n /\ t_fn n = None
  | None => forall i n, l !! i = Some n -> t_fn n <> None
  end.
Proof.
  revert p0. induction l as [|n l IH]; intros p0; cbn; [done|].
  destruct (t_fn n) as [f|] eqn:E.
  - specialize (IH (p0 + 1)). destruct (find_free l (p0 + 1)) as [p|].
    + destruct IH as (Hp & m & Hm & Hf). split; [lia|]. exists m. split; [|done].
      by replace (Z.to_nat (p - p0)) with (S (Z.to_nat (p - (p0 + 1)))) by lia.
    + intros [|i] m; cbn; [intros [= <-]; congruence|apply IH].
  - split; [lia|]. exists n. by rewrite Z.sub_diag.
Qed.

Lemma seg_length s q ns l : seg s q ns l -> length ns = length l.
Proof.
  revert q l. induction ns as [|i ns IH]; intros q [|[j f] l]; try done.
  intros (_ & q' & _ & Hs). cbn. f_equal. by eapply IH.
Qed.

(** With fewer than 64 timers pending, a free node is found. *)
Lemma free_node s l :
  repr s l -> (length l < 64)%nat ->
  exists p n, find_free (timer_list s) 0 = Some p /\ zget (timer_list s) p = Some n /\ t_fn n = None.
Proof.
  intros (Hl & ns & Hs & Hnd & Hu) Hlen. pose proof (find_free_spec (timer_list s) 0) as H.
  destruct (find_free (timer_list s) 0) as [p|].
  - destruct H as (Hp & n & Hn & Hf). exists p, n. split; [done|]. split; [|done].
    unfold zget. rewrite decide_True by lia. by rewrite Z.sub_0_r in Hn.
  - exfalso. assert (Hsub : seqZ 0 64 ⊆+ ns).
    { apply NoDup_submseteq; [apply NoDup_seqZ|]. intros i [Hi1 Hi2]%elem_of_seqZ.
      destruct (zget_is_Some (timer_list s) i) as [n Hn]; [rewrite Hl; unfold TIME_REQUESTS; lia|].
      apply (Hu i n Hn). unfold zget in Hn. rewrite decide_True in Hn by lia. by apply (H _ n Hn). }
    apply submseteq_length in Hsub. rewrite length_seqZ, (seg_length _ _ _ _ Hs) in Hsub. lia.
Qed.

(** The state of the theorems: the timers and the functions called so far. *)
Definition logged : Type := timers * list Z.
Definition log_put (t : timers) (s : logged) : logged := (t, snd s).
Definition log_call (f : Z) : M logged unit := modify (fun s => (fst s, snd s ++ [f])).

Definition add (jiffies f : Z) : M logged unit := add_timer fst log_put log_call jiffies (Some f).
Definition do_tick : M logged unit := tick fst log_put log_call 65.

Lemma zoom_Done {A} (m : M timers A) (s : logged) x t :
  m (fst s) = Done x t -> zoom fst log_put m s = Done x (t, snd s).
Proof. unfold zoom. by intros ->. Qed.

(** With room in the table, [add_timer] of a positive delay enters the
    timer in the pending list, at the place the running comparison of remaining
    delays gives, calls nothing, and leaves every other node as it was. *)
Theorem add_timer_inserts s l j f :
  repr (fst s) l -> delays_ok l -> (length l < 64)%nat -> 0 < j < 2 ^ 31 ->
  exists t, add j f s = Done tt (t, snd s) /\ repr t (ins (j, f) l).
Proof.
  intros Hr Hd Hlen Hj. destruct (free_node _ _ Hr Hlen) as (p & n & Hff & Hn & Hfn).
  pose proof Hr as (Hl & ns & Hs & Hnd & Hu).
  assert (Hp : p ∉ ns).
  { intros Hp. destruct (seg_node _ _ _ _ _ Hs Hp) as (m & Hm & Hfm). congruence. }
  pose proof (zget_Some_range _ _ _ Hn) as Hpr.
  set (s1 := set_node p (Tnode j (Some f) (next_timer (fst s))) (fst s)).
  set (s2 := with_next (Some p) s1).
  assert (G2 : forall i, zget (timer_list s2) i = if decide (p = i)
      then Some (Tnode j (Some f) (next_timer (fst s))) else zget (timer_list (fst s)) i)
    by (intros i; unfold s2, s1, with_next; cbn [timer_list]; by apply set_node_get).
  assert (Hs2 : seg s2 (Some p) (p :: ns) ((j, f) :: l)).
  { split; [done|]. exists (next_timer (fst s)). rewrite G2, decide_True by done.
    split; [done|]. apply (seg_frame (fst s)); [|done]. intros i Hi. rewrite G2.
    rewrite decide_False; [done|]. by intros ->. }
  assert (Hf64 : (length ns < Z.to_nat TIME_REQUESTS)%nat).
  { rewrite (seg_length _ _ _ _ Hs). unfold TIME_REQUESTS. lia. }
  destruct (bubble_ins (Z.to_nat TIME_REQUESTS) s2 p (Some p) ns j f l Hf64 eq_refl Hj Hd Hs2)
    as (s3 & E3 & N3 & L3 & S3 & F3); [by apply NoDup_cons|].
  exists s3. split.
  - unfold add, add_timer. rewrite decide_False by lia. apply zoom_Done.
    unfold mbind, M_bind, gets. rewrite Hff, (node_upd_Some _ _ _ _ Hn). exact E3.
  - split; [rewrite L3; unfold s2, s1; cbn; by rewrite zlen_zset|].
    exists (p :: ns). split; [by rewrite N3|]. split; [by apply NoDup_cons|].
    intros i m Hi Hfm. destruct (decide (i ∈ p :: ns)) as [|Hni]; [done|].
    rewrite F3, G2 in Hi by done. apply not_elem_of_cons in Hni as [Hip Hins].
    rewrite decide_False in Hi by done. exfalso. apply Hins. by apply (Hu i m).
Qed.

(** ** Expiry *)

(** Times of expiry from now. *)
Fixpoint deadlines (now : Z) (l : list (Z * Z)) : list (Z * Z) :=
  match l with
  | [] => []
  | (j, f) :: l' => (now + j, f) :: deadlines (now + j) l'
  end.

(** The timers due within [n] ticks, and what is left. *)
Fixpoint due (n : Z) (l : list (Z * Z)) : list Z :=
  match l with
  | (j, f) :: l' => if decide (j <= n) then f :: due (n - j) l' else []
  | [] => []
  end.
Fixpoint rest (n : Z) (l : list (Z * Z)) : list (Z * Z) :=
  match l with
  | (j, f) :: l' => if decide (j <= n) then rest (n - j) l' else (j - n, f) :: l'
  | [] => []
  end.

Lemma deadlines_ge l now t : delays_ok l -> t ∈ deadlines now l -> now <= fst t.
Proof.
  revert now. induction l as [|[h g] l IH]; intros now Hd; cbn; [by intros ?%elem_of_nil|].
  pose proof (Hd (h, g) ltac:(left)) as Hh. cbn in Hh.
  intros [->|Ht]%elem_of_cons; [cbn; lia|].
  assert (now + h <= fst t); [|lia]. apply IH; [|done]. intros x Hx. apply Hd. by right.
Qed.

Lemma deadlines_shift l now d :
  deadlines (now + d) l = map (fun t => (fst t + d, snd t)) (deadlines now l).
Proof.
  revert now. induction l as [|[h g] l IH]; intros now; cbn; [done|].
  f_equal; [f_equal; lia|]. rewrite <- IH. f_equal. lia.
Qed.

(** What the missing adjustment in [add_timer] does to the others: the timers
    due before the new one keep their times, the new one gets its own, and every
    timer due at the same time or later is delayed by the part of the new delay
    that lies after the timer before it. *)
Theorem add_timer_delays_later j f l :
  delays_ok l -> 0 < j ->
  exists pre post base, deadlines 0 l = pre ++ post /\
    base = default 0 (fst <$> last pre) /\ base < j /\
    (forall t, t ∈ pre -> fst t < j) /\ (forall t, t ∈ post -> j <= fst t) /\
    deadlines 0 (ins (j, f) l) =
      pre ++ (j, f) :: map (fun t => (fst t + (j - base), snd t)) post.
Proof.
  intros Hd Hj.
  assert (H : forall now, exists pre post base, deadlines now l = pre ++ post /\
    base = default now (fst <$> last pre) /\ base < now + j /\
    (forall t, t ∈ pre -> fst t < now + j) /\ (forall t, t ∈ post -> now + j <= fst t) /\
    deadlines now (ins (j, f) l) =
      pre ++ (now + j, f) :: map (fun t => (fst t + (now + j - base), snd t)) post).
  2:{ apply (H 0). }
  revert j Hj Hd. induction l as [|[h g] l IH]; intros j Hj Hd now.
  { exists [], [], now. repeat split; try done; try lia; by intros t ?%elem_of_nil. }
  pose proof (Hd (h, g) ltac:(left)) as Hh. cbn in Hh.
  destruct (decide (h < j)) as [Hlt|Hge].
  - rewrite ins_lt by done. destruct (IH (j - h)) with (now := now + h)
      as (pre & post & base & E1 & E2 & E3 & E4 & E5 & E6); [lia|intros t Ht; apply Hd; by right|].
    exists ((now + h, g) :: pre), post, base. cbn. rewrite E1, E6.
    replace (now + h + (j - h)) with (now + j) in * by lia. split; [done|].
    split; [|split; [done|split; [|split; [done|done]]]].
    + rewrite E2, last_cons. by destruct (last pre).
    + intros t [->|Ht]%elem_of_cons; [cbn; lia|by apply E4].
  - rewrite ins_ge by done. exists [], (deadlines now ((h, g) :: l)), now.
    split; [done|]. split; [done|]. split; [lia|]. split; [by intros t ?%elem_of_nil|]. split.
    + intros t Ht. cbn in Ht. apply elem_of_cons in Ht as [->|Ht]; [cbn; lia|].
      pose proof (deadlines_ge l (now + h) t (fun x Hx => Hd x (list_elem_of_further _ _ _ Hx)) Ht). lia.
    + pose proof (deadlines_shift ((h, g) :: l) now (now + j - now)) as E.
      replace (now + (now + j - now)) with (now + j) in E by lia.
      change (deadlines now ((j, f) :: (h, g) :: l)) with
        ((now + j, f) :: deadlines (now + j) ((h, g) :: l)). by rewrite E.
Qed.

(** ** The timer interrupt *)

Definition nonneg (l : list (Z * Z)) : Prop := forall t, t ∈ l -> 0 <= fst t.

(** Unlinking the first node. *)
Lemma repr_pop s p j f l :
  repr s ((j, f) :: l) -> next_timer s = Some p ->
  exists n, zget (timer_list s) p = Some n /\ t_jiffies n = j /\ t_fn n = Some f /\
    repr (with_next (t_next n) (set_node p (Tnode (t_jiffies n) None (t_next n)) s)) l.
Proof.
  intros (Hl & ns & Hs & Hnd & Hu) Hp. destruct ns as [|i ns]; [done|].
  destruct Hs as (E & q & Hn & Hs). rewrite Hp in E. injection E as <-.
  exists (Tnode j (Some f) q). split; [done|]. split; [done|]. split; [done|].
  pose proof (zget_Some_range _ _ _ Hn) as Hr. apply NoDup_cons in Hnd as [Hni Hnd].
  assert (G : forall i, zget (timer_list (set_node p (Tnode j None q) s)) i =
    if decide (p = i) then Some (Tnode j None q) else zget (timer_list s) i)
    by (intros; by apply set_node_get).
  split; [cbn; by rewrite zlen_zset|]. exists ns. split; [|split; [done|]].
  - apply (seg_frame s); [|done]. intros i Hi. unfold with_next. cbn [timer_list t_jiffies t_next].
    rewrite G, decide_False; [done|]. by intros ->.
  - unfold with_next. cbn [timer_list t_jiffies t_next]. intros i n Hi Hf. rewrite G in Hi.
    case_decide as E; [by injection Hi as <-|].
    destruct (proj1 (elem_of_cons _ _ _) (Hu i n Hi Hf)) as [->|]; done.
Qed.

Lemma repr_head s l :
  repr s l -> match l with [] => next_timer s = None
                         | _ => exists p, next_timer s = Some p end.
Proof.
  intros (_ & ns & Hs & _). destruct ns as [|i ns], l as [|[j f] l]; try done.
  exists i. apply Hs.
Qed.

Definition expire (fuel : nat) : M logged unit := run_expired fst log_put log_call fuel.

(** One turn of the loop on the list. *)
Lemma expire_step fuel t lg p n j f :
  next_timer t = Some p -> zget (timer_list t) p = Some n -> t_jiffies n = j -> t_fn n = Some f ->
  expire (S fuel) (t, lg) =
  if decide (j <= 0)
  then expire fuel (with_next (t_next n) (set_node p (Tnode (t_jiffies n) None (t_next n)) t), lg ++ [f])
  else Done tt (t, lg).
Proof.
  intros Hp Hn <- Hf. unfold expire at 1. cbn [run_expired].
  unfold mbind at 1, M_bind at 1, gets. cbn [fst]. rewrite Hp.
  unfold mbind at 1, M_bind at 1.
  rewrite (zoom_Done (node_get p) (t, lg) n t) by (by apply node_get_Some).
  case_decide; [|done]. unfold mbind, M_bind.
  erewrite (zoom_Done (node_upd p _) (t, lg) tt) by (by eapply node_upd_Some).
  erewrite (zoom_Done (modify _) _ tt) by reflexivity. by rewrite Hf.
Qed.

Lemma run_expired_due fuel s l :
  repr (fst s) l -> nonneg l -> (length l < fuel)%nat ->
  exists t, expire fuel s = Done tt (t, snd s ++ due 0 l) /\
    repr t (rest 0 l).
Proof.
  revert s l. induction fuel as [|fuel IH]; intros [t0 lg] l Hr Hn Hlen; [lia|]. cbn [fst snd] in *.
  pose proof (repr_head _ _ Hr) as Hh. destruct l as [|[j f] l].
  { exists t0. split; [|done]. cbn. rewrite app_nil_r.
    unfold expire. cbn [run_expired]. unfold mbind, M_bind, gets. cbn [fst]. by rewrite Hh. }
  destruct Hh as [p Hp].
  destruct (repr_pop _ _ _ _ _ Hr Hp) as (n & Hnd & Hj & Hf & Hr').
  rewrite (expire_step fuel t0 lg p n j f) by done. cbn [due rest].
  pose proof (Hn (j, f) ltac:(left)) as H0. cbn in H0.
  case_decide as D; [|exists t0; rewrite app_nil_r, Z.sub_0_r; done].
  destruct (IH (_, lg ++ [f]) l Hr') as (t & E & Hrt);
    [intros x Hx; apply Hn; by right|simpl in Hlen; lia|].
  exists t. rewrite E. cbn [snd]. replace (0 - j) with 0 by lia. by rewrite <- app_assoc.
Qed.

Lemma due_0 l : delays_ok l -> due 0 l = [] /\ rest 0 l = l.
Proof.
  intros Hd. destruct l as [|[j f] l]; [done|]. pose proof (Hd (j, f) ltac:(left)) as Hj.
  cbn in Hj |- *. rewrite !decide_False by lia. by rewrite Z.sub_0_r.
Qed.

Lemma rest_ok n l : 0 <= n -> delays_ok l -> delays_ok (rest n l).
Proof.
  revert n. induction l as [|[j f] l IH]; intros n Hn Hd; [done|]. cbn.
  pose proof (Hd (j, f) ltac:(left)) as Hj. cbn in Hj. case_decide.
  - apply IH; [lia|]. intros x Hx. apply Hd. by right.
  - intros x [->|Hx]%elem_of_cons; [cbn; lia|]. apply Hd. by right.
Qed.

Lemma rest_length n l : (length (rest n l) <= length l)%nat.
Proof.
  revert n. induction l as [|[j f] l IH]; intros n; [done|]. cbn. case_decide; [|done].
  specialize (IH (n - j)). lia.
Qed.

Lemma due_S n l :
  0 <= n -> delays_ok l ->
  due (n + 1) l = due 1 l ++ due n (rest 1 l) /\ rest (n + 1) l = rest n (rest 1 l).
Proof.
  intros Hn Hd. destruct l as [|[j f] l]; [done|]. cbn [due rest].
  pose proof (Hd (j, f) ltac:(left)) as Hj. cbn in Hj.
  assert (Hd' : delays_ok l) by (intros x Hx; apply Hd; by right).
  destruct (decide (j <= 1)) as [D|D].
  - assert (j = 1) as -> by lia. rewrite decide_True by lia. change (1 - 1) with 0.
    destruct (due_0 l Hd') as [-> ->]. replace (n + 1 - 1) with n by lia. by rewrite decide_True by lia.
  - cbn [due rest app]. replace (n - (j - 1)) with (n + 1 - j) by lia.
    case_decide; case_decide; try lia; [done|]. split; [done|]. f_equal. f_equal. lia.
Qed.

Lemma do_tick_due s l :
  repr (fst s) l -> delays_ok l -> (length l <= 64)%nat ->
  exists t, do_tick s = Done tt (t, snd s ++ due 1 l) /\ repr t (rest 1 l).
Proof.
  intros Hr Hd Hlen. destruct s as [t0 lg]. cbn [fst snd] in *.
  unfold do_tick, tick. unfold mbind at 1, M_bind at 1, gets. cbn [fst].
  pose proof (repr_head _ _ Hr) as Hh. destruct l as [|[j f] l].
  { rewrite Hh. exists t0. cbn. by rewrite app_nil_r. }
  destruct Hh as [p Hp]. rewrite Hp. pose proof (Hd (j, f) ltac:(left)) as Hj. cbn in Hj.
  pose proof Hr as (Hl & ns & Hs & Hnd & Hu). destruct ns as [|i ns]; [done|].
  destruct Hs as (E & q & Hn & Hs). rewrite Hp in E. injection E as <-.
  pose proof (zget_Some_range _ _ _ Hn) as Hrg.
  unfold mbind, M_bind.
  rewrite (zoom_Done (node_upd p _) (t0, lg) tt _ (node_upd_Some _ _ _ _ Hn)). cbn [t_jiffies t_fn t_next snd].
  rewrite s32_small by lia.
  set (t1 := set_node p (Tnode (j - 1) (Some f) q) t0).
  assert (Hr1 : repr t1 ((j - 1, f) :: l)).
  { split; [unfold t1; by rewrite zlen_set_node|]. exists (p :: ns).
    assert (G : forall i, zget (timer_list t1) i =
      if decide (p = i) then Some (Tnode (j - 1) (Some f) q) else zget (timer_list t0) i)
      by (intros; by apply set_node_get).
    split; [|split; [done|]].
    - split; [done|]. exists q. rewrite G, decide_True by done. split; [done|].
      apply (seg_frame t0); [|done]. intros i Hi. rewrite G, decide_False; [done|].
      intros ->. by apply NoDup_cons in Hnd as [? _].
    - intros i n Hi Hf. rewrite G in Hi. case_decide as E; [subst; by left|by apply (Hu i n)]. }
  change (run_expired fst log_put log_call 65) with (expire 65).
  destruct (run_expired_due 65 (t1, lg) ((j - 1, f) :: l) Hr1) as (t & E & Hrt).
  { intros x [->|Hx]%elem_of_cons; [cbn; lia|]. pose proof (Hd x ltac:(by right)). lia. }
  { simpl in *. lia. }
  exists t. rewrite E. cbn [due rest snd] in *. replace (0 - (j - 1)) with (1 - j) in * by lia.
  replace (j - 1 - 0) with (j - 1) in Hrt by lia.
  case_decide; case_decide; try lia; done.
Qed.

Lemma due_deadlines n l now :
  delays_ok l -> due (n - now) l = map snd (filter (fun t => fst t <= n) (deadlines now l)).
Proof.
  revert now. induction l as [|[j f] l IH]; intros now Hd; [done|]. cbn [due deadlines].
  assert (Hd' : delays_ok l) by (intros x Hx; apply Hd; by right).
  pose proof (Hd (j, f) ltac:(left)) as Hj. cbn in Hj. case_decide as D.
  - rewrite filter_cons_True by (cbn; lia). cbn. f_equal. rewrite <- IH by done. f_equal. lia.
  - rewrite filter_cons_False by (cbn; lia).
    assert (filter (fun t => fst t <= n) (deadlines (now + j) l) = []) as ->; [|done].
    apply elem_of_nil_inv. intros t [Hle Ht]%list_elem_of_filter.
    pose proof (deadlines_ge l (now + j) t Hd' Ht). lia.
Qed.

Fixpoint ticks (n : nat) : M logged unit :=
  match n with O => skip | S n' => do_tick;; ticks n' end.

(** C23: the timer interrupt runs a timer's function exactly when its time is up:
    after any number of ticks the functions called are those of the timers with
    an expiry time not later, in order, and the remaining timers are still listed
    with the delays that are left. *)
Theorem ticks_run_due_timers n s l :
  repr (fst s) l -> delays_ok l -> (length l <= 64)%nat ->
  exists t, ticks n s =
      Done tt (t, snd s ++ map snd (filter (fun t => fst t <= Z.of_nat n) (deadlines 0 l))) /\
    repr t (rest (Z.of_nat n) l).
Proof.
  intros Hr Hd Hl.
  assert (H : exists t, ticks n s = Done tt (t, snd s ++ due (Z.of_nat n) l) /\
    repr t (rest (Z.of_nat n) l)).
  2:{ destruct H as (t & E & Hrt). exists t. split; [|done].
      pose proof (due_deadlines (Z.of_nat n) l 0 Hd) as Hdue.
      rewrite Z.sub_0_r in Hdue. by rewrite <- Hdue. }
  revert s l Hr Hd Hl. induction n as [|n IH]; intros [t0 lg] l Hr Hd Hl.
  - exists t0. change (Z.of_nat 0) with 0. destruct (due_0 l Hd) as [-> ->]. by rewrite app_nil_r.
  - cbn [ticks]. destruct (do_tick_due (t0, lg) l Hr Hd Hl) as (t1 & E1 & Hr1).
    destruct (IH (t1, lg ++ due 1 l) (rest 1 l)) as (t2 & E2 & Hr2).
    { done. }
    { apply rest_ok; [lia|done]. }
    { pose proof (rest_length 1 l). lia. }
    exists t2. unfold mbind, M_bind. rewrite E1. cbn [snd]. rewrite E2. cbn [snd].
    destruct (due_S (Z.of_nat n) l ltac:(lia) Hd) as [Hdu Hre].
    replace (Z.of_nat (S n)) with (Z.of_nat n + 1) by lia.
    rewrite Hdu, Hre, app_assoc. done.
Qed.

(** ** Instances: two timers, due in 5 and 7 ticks *)

Definition two : timers :=
  Timers (Tnode 5 (Some 10) (Some 1) :: Tnode 2 (Some 11) None :: replicate 62 (Tnode 0 None None))
         (Some 0).

Lemma two_repr : repr two [(5, 10); (2, 11)].
Proof.
  split; [reflexivity|]. exists [0; 1]. split; [split; [done|]; exists (Some 1); split; [done|]; split; [done|]; by exists None|].
  split; [apply NoDup_cons; split; [intros E%list_elem_of_singleton; lia|apply NoDup_singleton]|].
  intros i n Hi Hf. pose proof (zget_Some_range _ _ _ Hi) as Hr.
  destruct (decide (i = 0)) as [->|H0]; [by left|]. right.
  destruct (decide (i = 1)) as [->|H1]; [by left|]. exfalso. apply Hf.
  unfold zget in Hi. rewrite decide_True in Hi by lia.
  replace (Z.to_nat i) with (2 + Z.to_nat (i - 2))%nat in Hi by lia.
  apply lookup_replicate in Hi as [-> _]. done.
Qed.

Lemma two_delays : delays_ok [(5, 10); (2, 11)].
Proof.
  intros t [->|[->|[]%elem_of_nil]%elem_of_cons]%elem_of_cons; cbn; lia.
Qed.

Lemma add_timer_inserts_witness :
  exists t, add 3 12 (two, []) = Done tt (t, []) /\ repr t (ins (3, 12) [(5, 10); (2, 11)]).
Proof.
  apply (add_timer_inserts (two, []) [(5, 10); (2, 11)] 3 12);
    [exact two_repr|exact two_delays|cbn; lia|lia].
Defined.

(** The timer due in 5 ticks is now due in 8, the one due in 7 in 10. *)
Lemma add_timer_delays_later_witness :
  deadlines 0 (ins (3, 12) [(5, 10); (2, 11)]) = [(3, 12); (8, 10); (10, 11)] /\
  exists pre post base, deadlines 0 [(5, 10); (2, 11)] = pre ++ post /\ base < 3 /\
    (forall t, t ∈ post -> 3 <= fst t).
Proof.
  split; [reflexivity|].
  destruct (add_timer_delays_later 3 12 [(5, 10); (2, 11)]) as (pre & post & base & H1 & _ & H2 & _ & H3 & _);
    [exact two_delays|lia|]. exists pre, post, base. auto.
Defined.

Lemma ticks_run_due_timers_witness :
  exists t, ticks 6 (two, []) = Done tt (t, [10]) /\ repr t [(1, 11)].
Proof.
  destruct (ticks_run_due_timers 6 (two, []) [(5, 10); (2, 11)]) as (t & E & H);
    [exact two_repr|exact two_delays|cbn; lia|]. exists t. split; [exact E|exact H].
Defined.

End Timers.
