(* ===== verification/Clock.v ===== *)
(** * kernel/sched.c: the timer interrupt and the floppy motor timers

    [do_timer] runs a hundred times a second: it stops the beeper, charges the
    tick to the current task, runs the expired timers, steps the motor timers and
    preempts a task in user mode whose time slice is used up.  A timer's function
    is called through [call]. *)

From S2P Require Import Prelude Task Sched Timers.
Import Task Sched Timers.

Module Clock.

(** The floppy motors: [wait_motor], the two timers, the digital output register
    and the bytes written to its port. *)
Record motors : Type := Motors {
  wait_motor : list (option Z);
  mon_timer : list Z;
  moff_timer : list Z;
  current_DOR : Z;
  selected : Z;
  fd_dor : list Z
}.

Record clock : Type := Clock {
  ksched : sched;
  ktimers : timers;
  kmotors : motors;
  beepcount : Z;
  port61 : Z
}.

Definition on_sched {A} : M sched A -> M clock A :=
  zoom ksched (fun t s => {| s with ksched := t |}).
Definition on_motors {A} : M motors A -> M clock A :=
  zoom kmotors (fun t s => {| s with kmotors := t |}).
Definition put_timers (t : timers) (s : clock) : clock := {| s with ktimers := t |}.

Definition nth_of (l : list Z) (i : Z) : M motors Z := deref "floppy timer" (zget l i).
Definition set_mon (i v : Z) : M motors unit :=
  modify (fun s => {| s with mon_timer := zset (mon_timer s) i v |}).
Definition set_moff (i v : Z) : M motors unit :=
  modify (fun s => {| s with moff_timer := zset (moff_timer s) i v |}).
Definition set_DOR (v : Z) : M motors unit := modify (fun s => {| s with current_DOR := v |}).
Definition outb_dor (v : Z) : M motors unit :=
  modify (fun s => {| s with fd_dor := fd_dor s ++ [v] |}).

(** [ticks_to_floppy_on]: ticks until motor [nr] is up to speed. *)
Definition ticks_to_floppy_on (nr : Z) : M motors Z :=
  if decide (3 < nr) then panic "floppy_on: nr>3"
  else
    set_moff nr 10000;;
    dor ← gets current_DOR;
    sel ← gets selected;
    let mask := Z.lor (u8 (Z.shiftl 0x10 nr)) dor in
    let mask := if decide (sel = 0) then Z.lor (Z.land mask 0xFC) nr else mask in
    (if decide (mask <> dor) then
       outb_dor mask;;
       (if decide (Z.land (Z.lxor mask dor) 0xf0 <> 0) then set_mon nr (Z.quot HZ 2)
        else
          m ← gets mon_timer; t ← nth_of m nr;
          if decide (t < 2) then set_mon nr 2 else skip);;
       set_DOR mask
     else skip);;
    m ← gets mon_timer; nth_of m nr.

Definition floppy_off (nr : Z) : M motors unit := set_moff nr (3 * HZ).

(** [wake_up] of a queue kept in a list of queues. *)
Definition wake_up (i : Z) : M clock unit :=
  q ← gets (fun s => mjoin (zget (wait_motor (kmotors s)) i));
  match q with
  | None => skip
  | Some t =>
      on_sched (on_tab (put_task t (set_state 0)));;
      on_motors (modify (fun s => {| s with wait_motor := zset (wait_motor s) i None |}))
  end.

(** One motor of [do_floppy_timer]. *)
Definition floppy_timer (i : Z) : M clock unit :=
  let mask := Z.shiftl 0x10 i in
  dor ← gets (fun s => current_DOR (kmotors s));
  if decide (Z.land mask dor = 0) then skip
  else
    mon ← gets (fun s => mon_timer (kmotors s)); on ← on_motors (nth_of mon i);
    moff ← gets (fun s => moff_timer (kmotors s)); off ← on_motors (nth_of moff i);
    if decide (on <> 0) then
      on_motors (set_mon i (on - 1));;
      if decide (on - 1 = 0) then wake_up i else skip
    else if decide (off = 0) then
      on_motors (set_DOR (Z.ldiff dor mask));; on_motors (outb_dor (Z.ldiff dor mask))
    else on_motors (set_moff i (off - 1)).

Definition do_floppy_timer : M clock unit := for_up 4 0 floppy_timer.

(** [sysbeepstop]: bits 0 and 1 of port 0x61 cleared. *)
Definition sysbeepstop : M clock unit :=
  modify (fun s => {| s with port61 := Z.land (port61 s) 0xFC |}).

Definition beep_tick : M clock unit :=
  b ← gets beepcount;
  if decide (b <> 0) then
    modify (fun s => {| s with beepcount := b - 1 |});;
    if decide (b - 1 = 0) then sysbeepstop else skip
  else skip.

Definition charge (cpl : Z) (t : task_struct) : task_struct :=
  if decide (cpl <> 0) then {| t with utime := s32 (utime t + 1) |}
  else {| t with stime := s32 (stime t + 1) |}.

(** [if ((--current->counter)>0) return; current->counter=0; if (!cpl) return;
    schedule();] *)
Definition preempt (fuel : nat) (cpl : Z) : M sched unit :=
  on_tab (put_current (fun t => set_counter (s32 (counter t - 1)) t));;
  t ← on_tab get_current;
  if decide (0 < counter t) then skip
  else
    on_tab (put_current (set_counter 0));;
    if decide (cpl = 0) then skip else schedule fuel.

Section do_timer.
Context (call : Z -> M clock unit).

Definition do_timer (fuel : nat) (cpl : Z) : M clock unit :=
  beep_tick;;
  on_sched (on_tab (put_current (charge cpl)));;
  tick ktimers put_timers call 65;;
  dor ← gets (fun s => current_DOR (kmotors s));
  (if decide (Z.land dor 0xf0 <> 0) then do_floppy_timer else skip);;
  on_sched (preempt fuel cpl).
End do_timer.

(** ** Preemption *)

Lemma set_counter_ok s i v :
  tasks_ok s -> 0 <= v < 2 ^ 31 -> tasks_ok (upd_slot i (set_counter v) s).
Proof.
  intros [Hl Hok] Hv. split; [by rewrite zlen_upd_slot|].
  intros j t Hj. rewrite slot_upd_slot. case_decide as E; [|by apply Hok].
  destruct (slot s j) as [u|] eqn:Eu; [|done]. cbn. intros [= <-].
  destruct (Hok j u Hj Eu) as [Hp _]. done.
Qed.

(** The time slice of the current task.  While it lasts nothing is switched; when it
    is used up a task in the kernel keeps the processor (the kernel is not
    preempted) with its counter at 0, and a task in user mode is rescheduled by the
    rule of [schedule]. *)
Theorem preempt_time_slice fuel cpl s t :
  tasks_ok (tab s) -> slot (tab s) (current (tab s)) = Some t -> 0 <= counter t < 2 ^ 31 ->
  exists s', preempt (S (S fuel)) cpl s = Done tt s' /\ tasks_ok (tab s') /\
    (if decide (1 < counter t) then
       current (tab s') = current (tab s) /\
       slot (tab s') (current (tab s)) = Some (set_counter (counter t - 1) t)
     else if decide (cpl = 0) then
       current (tab s') = current (tab s) /\
       slot (tab s') (current (tab s)) = Some (set_counter 0 t)
     else chosen (tab s') (current (tab s'))).
Proof.
  intros Hok Ht Hc. set (c := current (tab s)) in *. set (v := s32 (counter t - 1)).
  assert (Hv : v = counter t - 1) by (apply s32_small; lia).
  set (t1 := upd_slot c (fun t => set_counter (s32 (counter t - 1)) t) (tab s)).
  assert (E1 : slot t1 c = Some (set_counter v t)).
  { unfold t1. by rewrite slot_upd_slot, decide_True, Ht by done. }
  assert (C1 : current t1 = c) by apply upd_slot_other.
  unfold preempt, mbind, M_bind, on_tab, zoom. rewrite (put_current_Some _ _ _ Ht).
  cbn -[schedule]. fold c. fold t1. rewrite (get_current_Some t1 (set_counter v t)) by (by rewrite C1).
  cbn -[schedule]. destruct (decide (0 < v)) as [D|D];
    destruct (decide (1 < counter t)) as [D'|D']; try lia.
  - eexists. split; [reflexivity|]. cbn. split; [|split; [done|by rewrite E1, <- Hv]].
    unfold t1. rewrite (upd_slot_ext _ _ _ (set_counter v)) by (intros u Hu; by simplify_eq).
    apply set_counter_ok; [done|lia].
  - rewrite (put_current_Some t1 (set_counter v t)) by (by rewrite C1). rewrite C1.
    assert (E2 : upd_slot c (set_counter 0) t1 = upd_slot c (set_counter 0) (tab s)).
    { unfold t1. rewrite upd_slot_upd_slot. by apply upd_slot_ext. }
    rewrite E2. assert (Hok2 : tasks_ok (upd_slot c (set_counter 0) (tab s)))
      by (apply set_counter_ok; [done|lia]).
    destruct (decide (cpl = 0)).
    + eexists. split; [reflexivity|]. cbn. split; [done|].
      split; [by apply upd_slot_other|]. by rewrite slot_upd_slot, decide_True, Ht.
    + set (s2 := {| tab := _ |}). destruct (schedule_runs fuel s2 Hok2) as (s' & E & H).
      exists s'. split; [exact E|]. exact H.
Qed.

End Clock.
