(* ===== verification/SchedProps.v ===== *)
(** * Instances of the scheduler theorems

    A table with the idle task, a runnable task and an interruptible sleeper
    whose alarm has passed. *)

From S2P Require Import Prelude Task Sched Clock.
Import Task Sched Clock.

Module SchedProps.

Definition sleeper : task_struct :=
  set_alarm 3 (set_state TASK_INTERRUPTIBLE (INIT_TASK 0 0)).

Definition ex_tasks : tasks :=
  Tasks (Some (INIT_TASK 0 0) :: Some (INIT_TASK 0 0) :: Some sleeper :: replicate 61 None) 1 10 0.

Definition ex_sched : sched := Sched ex_tasks (Some 2) true [1; 2; 3].

Lemma ex_slot i t :
  1 <= i < NR_TASKS -> slot ex_tasks i = Some t -> t = INIT_TASK 0 0 \/ t = sleeper.
Proof.
  intros Hi. unfold slot, zget. rewrite decide_True by lia.
  destruct (decide (i = 1)) as [->|]; [intros [= <-]; by left|].
  destruct (decide (i = 2)) as [->|]; [intros [= <-]; by right|].
  assert (E : task ex_tasks !! Z.to_nat i = replicate 61 None !! Z.to_nat (i - 3))
    by (replace (Z.to_nat i) with (3 + Z.to_nat (i - 3))%nat by lia; done).
  rewrite E. destruct (replicate 61 None !! Z.to_nat (i - 3)) as [o|] eqn:L; [|done].
  apply lookup_replicate in L as [-> _]. done.
Qed.

Lemma ex_tasks_ok : tasks_ok ex_tasks.
Proof.
  split; [reflexivity|]. intros i t Hi Ht.
  destruct (ex_slot i t Hi Ht) as [->| ->]; cbn; lia.
Qed.

Lemma schedule_chooses_witness :
  exists s', schedule 2 ex_sched = Done tt s' /\ chosen (tab s') (current (tab s')).
Proof.
  destruct (schedule_chooses 0 ex_sched) as (s' & E & _ & H); [exact ex_tasks_ok|].
  exists s'. split; [exact E|exact H].
Defined.

Lemma schedule_wakes_witness :
  exists s' t', schedule 2 ex_sched = Done tt s' /\ slot (tab s') 2 = Some t' /\
    state t' = TASK_RUNNING /\ alarm t' = 0.
Proof.
  destruct (schedule_wakes 0 ex_sched 2 sleeper) as (s' & t' & E & H & W);
    [exact ex_tasks_ok|unfold NR_TASKS; lia|reflexivity|].
  exists s', t'. split; [exact E|]. split; [exact H|].
  vm_compute in E. injection E as <-. vm_compute in H. injection H as <-.
  split; reflexivity.
Defined.

Lemma math_state_restore_preserves_witness :
  exists s', math_state_restore ex_sched = Done tt s' /\ float_state s' 2 = Some [1; 2; 3] /\
    fpu s' = fninit.
Proof.
  destruct (math_state_restore_preserves ex_sched (INIT_TASK 0 0)) as (s' & E & _ & _ & H & F).
  - reflexivity.
  - intros l [= <-]. by exists sleeper.
  - exists s'. split; [exact E|]. split; [|apply F; [reflexivity|discriminate]].
    rewrite (H 2 sleeper); [reflexivity|reflexivity|]. intros E2. discriminate E2.
Defined.

Lemma preempt_time_slice_witness :
  exists s', preempt 2 1 ex_sched = Done tt s' /\ current (tab s') = 1.
Proof.
  destruct (preempt_time_slice 0 1 ex_sched (INIT_TASK 0 0)) as (s' & E & _ & H);
    [exact ex_tasks_ok|reflexivity|cbn; lia|].
  exists s'. split; [exact E|]. cbn in H. apply H.
Defined.

End SchedProps.
