(* ===== verification/Segments.v ===== *)
(** * include/linux/sched.h: segment bases and limits

    The macros write and read the scattered fields of a descriptor: the base is in
    bits 16-31 of the first word and bits 0-7 and 24-31 of the second, the limit in
    bits 0-15 of the first and 16-19 of the second. *)

From S2P Require Import Prelude Task.
Import Task.

Module Segments.

(** Replace the bits of mask [m] in [x] by those of [v]. *)
Definition put_bits (x m v : Z) : Z := Z.lor (Z.ldiff x m) (Z.land v m).

Definition set_base (d : desc) (base : Z) : desc :=
  let a := put_bits (desc_a d) 0xffff0000 (Z.shiftl base 16) in
  let edx := Z.shiftr base 16 in
  let b := put_bits (desc_b d) 0xff edx in
  let b := put_bits b 0xff000000 (Z.shiftl (Z.shiftr edx 8) 24) in
  Desc a b.

Definition get_base (d : desc) : Z :=
  Z.lor (Z.shiftl (Z.lor (Z.shiftl (Z.land (Z.shiftr (desc_b d) 24) 0xff) 8)
                         (Z.land (desc_b d) 0xff)) 16)
        (Z.land (Z.shiftr (desc_a d) 16) 0xffff).

(** [set_limit(ldt,limit)] stores [(limit-1)>>12]. *)
Definition set_limit (d : desc) (limit : Z) : desc :=
  let l := Z.shiftr (u32 (limit - 1)) 12 in
  Desc (put_bits (desc_a d) 0xffff l) (put_bits (desc_b d) 0xf0000 l).

(** The LSL instruction gives the limit in bytes (bit 23 of the second word is the
    granularity); the macro adds one. *)
Definition get_limit (d : desc) : Z :=
  let l := Z.lor (Z.land (desc_a d) 0xffff) (Z.land (desc_b d) 0xf0000) in
  u32 ((if Z.testbit (desc_b d) 23 then Z.lor (Z.shiftl l 12) 0xfff else l) + 1).

Definition PAGE_ALIGN (n : Z) : Z := Z.land (u32 (n + 0xfff)) 0xfffff000.

(** ** Bits *)

Lemma put_bits_spec x m v i :
  Z.testbit (put_bits x m v) i = if Z.testbit m i then Z.testbit v i else Z.testbit x i.
Proof.
  destruct (decide (0 <= i)).
  - unfold put_bits. rewrite Z.lor_spec, Z.ldiff_spec, Z.land_spec.
    by destruct (Z.testbit m i), (Z.testbit x i), (Z.testbit v i).
  - by rewrite !Z.testbit_neg_r by lia.
Qed.

Lemma shiftl_spec_all x n i : 0 <= n -> Z.testbit (Z.shiftl x n) i = Z.testbit x (i - n).
Proof.
  intros. destruct (decide (0 <= i)); [by apply Z.shiftl_spec|].
  by rewrite !Z.testbit_neg_r by lia.
Qed.

Lemma ones_mask_spec n m i :
  0 <= n -> 0 <= m ->
  Z.testbit (Z.shiftl (Z.ones n) m) i = bool_decide (m <= i < m + n).
Proof.
  intros. rewrite shiftl_spec_all by done. destruct (decide (i < m)).
  - rewrite Z.testbit_neg_r by lia. rewrite bool_decide_false; [done|lia].
  - rewrite Z.testbit_ones by lia. symmetry.
    case_bool_decide; destruct (Z.leb_spec 0 (i - m)), (Z.ltb_spec (i - m) n); simpl; lia || done.
Qed.

(** The masks of the macros. *)
Lemma masks :
  0xffff0000 = Z.shiftl (Z.ones 16) 16 /\ 0xff = Z.shiftl (Z.ones 8) 0 /\
  0xff000000 = Z.shiftl (Z.ones 8) 24 /\ 0xffff = Z.shiftl (Z.ones 16) 0 /\
  0xf0000 = Z.shiftl (Z.ones 4) 16 /\ 0xfff = Z.shiftl (Z.ones 12) 0.
Proof. by vm_compute. Qed.

(** Reduce a bit of a masked field. *)
Ltac mask_bits :=
  repeat first
    [ rewrite put_bits_spec | rewrite Z.lor_spec | rewrite Z.land_spec
    | rewrite ones_mask_spec by lia
    | rewrite shiftl_spec_all by lia | rewrite Z.shiftr_spec by lia ].

(** Decide every mask position and compare the bits that are left. *)
Ltac mask_cases :=
  mask_bits; repeat (case_bool_decide; try lia); mask_bits;
  repeat (case_bool_decide; try lia); simpl;
  rewrite ?andb_false_r, ?orb_false_r, ?andb_true_r; try done; try (f_equal; lia).

Lemma high_bit x i n : 0 <= x < 2 ^ n -> n <= i -> Z.testbit x i = false.
Proof.
  intros Hx Hi. destruct (decide (x = 0)) as [->|]; [apply Z.bits_0|].
  apply Z.bits_above_log2; [lia|]. apply Z.lt_le_trans with n; [|done].
  apply Z.log2_lt_pow2; lia.
Qed.

Lemma get_base_set_base d base : 0 <= base < 2 ^ 32 -> get_base (set_base d base) = base.
Proof.
  intros Hb. destruct masks as (M1 & M2 & M3 & M4 & M5 & M6).
  apply Z.bits_inj'. intros i Hi. unfold get_base, set_base. cbn [desc_a desc_b].
    rewrite M1, M3, M4, M2. destruct (decide (i < 16)).
    + rewrite Z.lor_spec. rewrite shiftl_spec_all by lia. rewrite (Z.testbit_neg_r _ (i - 16)) by lia.
      mask_cases.
    + rewrite Z.lor_spec. rewrite shiftl_spec_all by lia. rewrite Z.lor_spec.
      rewrite (shiftl_spec_all _ 8) by lia.
      destruct (decide (i < 24)).
      * rewrite (Z.testbit_neg_r _ (i - 16 - 8)) by lia. mask_cases.
      * destruct (decide (i < 32)); [mask_cases|].
        rewrite (high_bit base i 32) by lia. mask_cases.
Qed.

Lemma get_limit_set_base d base : get_limit (set_base d base) = get_limit d.
Proof.
  destruct masks as (M1 & M2 & M3 & M4 & M5 & M6).
  unfold get_limit.
    assert (E1 : Z.testbit (desc_b (set_base d base)) 23 = Z.testbit (desc_b d) 23).
    { unfold set_base. cbn [desc_b]. rewrite M2, M3. mask_cases. }
    assert (E2 : Z.land (desc_a (set_base d base)) 0xffff = Z.land (desc_a d) 0xffff).
    { apply Z.bits_inj'. intros i Hi. unfold set_base. cbn [desc_a]. rewrite M1, M4. mask_cases. }
    assert (E3 : Z.land (desc_b (set_base d base)) 0xf0000 = Z.land (desc_b d) 0xf0000).
    { apply Z.bits_inj'. intros i Hi. unfold set_base. cbn [desc_b]. rewrite M2, M3, M5. mask_cases. }
    by rewrite E1, E2, E3.
Qed.

(** [get_base] reads back what [set_base] stored, and [set_base] leaves the limit and
    access fields of the descriptor alone: [get_limit] is unchanged. *)
Theorem get_set_base d base :
  0 <= base < 2 ^ 32 ->
  get_base (set_base d base) = base /\ get_limit (set_base d base) = get_limit d.
Proof. intros. split; [by apply get_base_set_base|apply get_limit_set_base]. Qed.

Lemma lor_fff l : 0 <= l -> Z.lor (Z.shiftl l 12) 0xfff = l * 4096 + 4095.
Proof.
  intros. rewrite Z.shiftl_mul_pow2 by lia. change (2 ^ 12) with 4096.
  assert (E : Z.land (l * 4096) 0xfff = 0).
  { apply Z.bits_inj'. intros i Hi. change 0xfff with (Z.ones 12).
    rewrite Z.land_spec, Z.bits_0, Z.testbit_ones by lia.
    change 4096 with (2 ^ 12). rewrite <- Z.shiftl_mul_pow2 by lia.
    rewrite shiftl_spec_all by lia. destruct (decide (i < 12)).
    - by rewrite Z.testbit_neg_r by lia.
    - destruct (Z.ltb_spec i 12); [lia|]. by rewrite !andb_false_r. }
  pose proof (Z.add_lor_land (l * 4096) 0xfff). lia.
Qed.

(** In a page-granular descriptor, [get_limit] reads back a segment size of whole
    pages stored with [set_limit], and [set_limit] leaves the base alone. *)
Theorem get_set_limit d limit :
  0 < limit < 2 ^ 32 -> limit mod 4096 = 0 -> Z.testbit (desc_b d) 23 = true ->
  get_limit (set_limit d limit) = limit /\ get_base (set_limit d limit) = get_base d.
Proof.
  intros Hl Hm Hg. destruct masks as (M1 & M2 & M3 & M4 & M5 & M6).
  pose proof (Z.div_mod limit 4096) as Hd. set (n := limit / 4096) in *.
  set (l := Z.shiftr (u32 (limit - 1)) 12).
  assert (El : l = n - 1).
  { unfold l. rewrite u32_small, Z.shiftr_div_pow2 by lia. change (2 ^ 12) with 4096.
    replace (limit - 1) with (4095 + (n - 1) * 4096) by lia. rewrite Z.div_add by lia. done. }
  assert (Hr : 0 <= l < 2 ^ 20) by lia.
  assert (E1 : Z.testbit (desc_b (set_limit d limit)) 23 = true).
  { unfold set_limit. cbn [desc_b]. rewrite M5. mask_cases. }
  assert (E2 : Z.lor (Z.land (desc_a (set_limit d limit)) 0xffff)
                     (Z.land (desc_b (set_limit d limit)) 0xf0000) = l).
  { apply Z.bits_inj'. intros i Hi. unfold set_limit. cbn [desc_a desc_b]. fold l.
    rewrite M4, M5. destruct (decide (i < 20)); [mask_cases|].
    rewrite (high_bit l i 20) by lia. mask_cases. }
  split.
  - unfold get_limit. rewrite E1, E2, lor_fff by lia. rewrite u32_small by lia. lia.
  - unfold get_base.
    assert (E3 : Z.shiftr (desc_b (set_limit d limit)) 24 = Z.shiftr (desc_b d) 24).
    { apply Z.bits_inj'. intros i Hi. unfold set_limit. cbn [desc_b]. rewrite M5. mask_cases. }
    assert (E4 : Z.shiftr (desc_a (set_limit d limit)) 16 = Z.shiftr (desc_a d) 16).
    { apply Z.bits_inj'. intros i Hi. unfold set_limit. cbn [desc_a]. rewrite M4. mask_cases. }
    assert (E5 : Z.land (desc_b (set_limit d limit)) 0xff = Z.land (desc_b d) 0xff).
    { apply Z.bits_inj'. intros i Hi. unfold set_limit. cbn [desc_b]. rewrite M2, M5. mask_cases. }
    by rewrite E3, E4, E5.
Qed.

Lemma get_set_base_witness : get_base (set_base (Desc 0x9f 0xc0fa00) 0x12345678) = 0x12345678.
Proof. apply (get_set_base (Desc 0x9f 0xc0fa00) 0x12345678). lia. Defined.

Lemma get_set_limit_witness : get_limit (set_limit (Desc 0x9f 0xc0fa00) 0x4000000) = 0x4000000.
Proof.
  apply (get_set_limit (Desc 0x9f 0xc0fa00) 0x4000000); [lia|reflexivity|reflexivity].
Defined.

End Segments.
