(* ===== verification/UserMem.v ===== *)
(** * asm/segment.h and [verify_area]: user memory seen from the kernel

    The current task's data segment is a map from addresses to bytes (0 where
    absent); [verify_area] un-write-protects the pages that hold an area, through
    the page tables of [Memory]. *)

From S2P Require Import Prelude Memory Task Segments.
Import Memory Task Segments.

Module UserMem.

Definition umem : Type := gmap Z Z.

Definition get_fs_byte (m : umem) (a : Z) : Z := default 0 (m !! a).
Definition put_fs_byte (v a : Z) (m : umem) : umem := <[a := u8 v]> m.

(** Little-endian words. *)
Definition get_fs_word (m : umem) (a : Z) : Z :=
  get_fs_byte m a + 2 ^ 8 * get_fs_byte m (a + 1).
Definition get_fs_long (m : umem) (a : Z) : Z :=
  get_fs_word m a + 2 ^ 16 * get_fs_word m (a + 2).
Definition put_fs_word (v a : Z) (m : umem) : umem :=
  put_fs_byte (v / 2 ^ 8) (a + 1) (put_fs_byte v a m).
Definition put_fs_long (v a : Z) (m : umem) : umem :=
  put_fs_word (v / 2 ^ 16) (a + 2) (put_fs_word v a m).

(** A range of bytes read in ascending order, and written. *)
Definition get_bytes (n : nat) (a : Z) (m : umem) : list Z :=
  map (get_fs_byte m) (seqZ a (Z.of_nat n)).
Fixpoint put_bytes (l : list Z) (a : Z) (m : umem) : umem :=
  match l with [] => m | b :: l' => put_bytes l' (a + 1) (put_fs_byte b a m) end.

(** The state of a system call: the task table, user memory, page tables. *)
Record user : Type := User { utab : tasks; um : umem; umm : mm }.

Definition on_utab {A} : M tasks A -> M user A :=
  zoom utab (fun t s => {| s with utab := t |}).
Definition on_umm {A} : M mm A -> M user A :=
  zoom umm (fun t s => {| s with umm := t |}).
Definition upd_um (f : umem -> umem) : M user unit :=
  modify (fun s => {| s with um := f (um s) |}).

(** The loop of [verify_area], [n] pages from [start]. *)
Definition verify_pages (n : nat) (start : Z) : M mm unit :=
  for_up n 0 (fun i => write_verify (u32 (start + 4096 * i))).

(** [verify_area(addr,size)]: [start] is the linear address of the first page, and
    the loop runs while [size > 0]. *)
Definition verify_area (addr size : Z) : M user unit :=
  t ← on_utab get_current;
  d ← deref "ldt" (zget (ldt t) 2);
  let size := size + Z.land addr 0xfff in
  let start := u32 (Z.land addr 0xfffff000 + get_base d) in
  on_umm (verify_pages (Z.to_nat ((size + 4095) / 4096)) start).

(** ** Reading back what was written *)

Lemma get_put_byte m v a b :
  get_fs_byte (put_fs_byte v a m) b = if decide (a = b) then u8 v else get_fs_byte m b.
Proof. unfold get_fs_byte, put_fs_byte, umem in *. rewrite lookup_insert. by case_decide. Qed.

Lemma get_put_word v a m : get_fs_word (put_fs_word v a m) a = u16 v.
Proof.
  unfold get_fs_word, put_fs_word. rewrite !get_put_byte.
  repeat case_decide; try lia. unfold u8, u16.
  change (2 ^ 16) with (2 ^ 8 * 2 ^ 8). rewrite Z.rem_mul_r by lia. done.
Qed.

Lemma get_word_frame v a m b :
  b + 1 < a \/ a + 1 < b -> get_fs_word (put_fs_word v a m) b = get_fs_word m b.
Proof.
  intros. unfold get_fs_word, put_fs_word. rewrite !get_put_byte.
  repeat case_decide; lia.
Qed.

Lemma put_long_byte v a m b :
  ~ (a <= b < a + 4) -> get_fs_byte (put_fs_long v a m) b = get_fs_byte m b.
Proof.
  intros Hb. unfold put_fs_long, put_fs_word. rewrite !get_put_byte.
  repeat case_decide; lia.
Qed.

Lemma get_long_same v a m : get_fs_long (put_fs_long v a m) a = u32 v.
Proof.
  unfold get_fs_long, put_fs_long. rewrite get_word_frame, !get_put_word by lia.
  unfold u16, u32. change (2 ^ 32) with (2 ^ 16 * 2 ^ 16).
  rewrite Z.rem_mul_r by lia. done.
Qed.

Lemma get_long_frame v a m b :
  b + 3 < a \/ a + 3 < b -> get_fs_long (put_fs_long v a m) b = get_fs_long m b.
Proof. intros H. unfold get_fs_long, get_fs_word. rewrite !put_long_byte by lia. done. Qed.

(** Longs in user memory are read back as themselves modulo 2^32, whatever is put
    elsewhere, and the bytes outside the four written are unchanged. *)
Theorem get_put_long v a w b m :
  a + 3 < b \/ b + 3 < a ->
  get_fs_long (put_fs_long w b (put_fs_long v a m)) a = u32 v /\
  forall c, ~ (a <= c < a + 4) -> get_fs_byte (put_fs_long v a m) c = get_fs_byte m c.
Proof.
  intros Hab. split; [by rewrite get_long_frame, get_long_same by lia|].
  intros. by apply put_long_byte.
Qed.

Lemma get_put_long_witness :
  get_fs_long (put_fs_long 7 104 (put_fs_long (-1) 100 ∅)) 100 = 0xffffffff.
Proof. apply (get_put_long (-1) 100 7 104 ∅). lia. Defined.

(** ** The pages [verify_area] covers *)

(** The loop of [verify_area] visits exactly the pages that hold a byte of the
    area: page [start + 4096 i] is visited iff it meets [addr .. addr+size-1]. *)
Theorem verify_area_covers addr size i :
  0 <= addr -> 0 < size -> 0 <= i ->
  let first := Z.land addr 0xfffff000 in
  let n := (size + Z.land addr 0xfff + 4095) / 4096 in
  addr < 2 ^ 32 ->
  (i < n <-> exists b, addr <= b < addr + size /\ first + 4096 * i <= b < first + 4096 * (i + 1)).
Proof.
  intros Ha Hs Hi first n Hw.
  assert (Ef : first = 4096 * (addr / 4096)).
  { unfold first. change 0xfffff000 with (Z.shiftl (Z.ones 20) 12).
    apply Z.bits_inj'. intros k Hk. rewrite Z.land_spec.
    rewrite ones_mask_spec by lia. change 4096 with (2 ^ 12).
    rewrite Z.mul_comm, <- Z.shiftl_mul_pow2, <- Z.shiftr_div_pow2 by lia.
    rewrite shiftl_spec_all by lia. destruct (decide (k < 12)).
    - rewrite (Z.testbit_neg_r _ (k - 12)) by lia. rewrite bool_decide_false by lia.
      apply andb_false_r.
    - rewrite Z.shiftr_spec by lia. replace (k - 12 + 12) with k by lia.
      destruct (decide (k < 32)).
      + rewrite bool_decide_true by lia. apply andb_true_r.
      + rewrite (high_bit addr k 32) by lia. done. }
  assert (Em : Z.land addr 0xfff = addr mod 4096).
  { change 0xfff with (Z.ones 12). by rewrite Z.land_ones by lia. }
  unfold n. rewrite Em. pose proof (Z.div_mod addr 4096) as D.
  pose proof (Z.mod_pos_bound addr 4096 ltac:(lia)) as B.
  set (q := (size + addr mod 4096 + 4095) / 4096).
  pose proof (Z.div_mod (size + addr mod 4096 + 4095) 4096) as D2.
  pose proof (Z.mod_pos_bound (size + addr mod 4096 + 4095) 4096 ltac:(lia)) as B2.
  fold q in D2. split.
  - intros Hq. exists (Z.max addr (first + 4096 * i)). lia.
  - intros (b & Hb1 & Hb2). lia.
Qed.

Lemma verify_area_covers_witness :
  exists b, 0x1fff <= b < 0x1fff + 2 /\ 0x2000 <= b < 0x3000.
Proof.
  destruct (verify_area_covers 0x1fff 2 1) as [H _]; [lia|lia|lia|lia|].
  destruct H as (b & Hb & Hb2); [reflexivity|]. exists b. split; [exact Hb|].
  vm_compute in Hb2. vm_compute. exact Hb2.
Defined.

(** Reading back bytes just written. *)
Lemma put_bytes_app l l' a m : put_bytes (l ++ l') a m = put_bytes l' (a + zlen l) (put_bytes l a m).
Proof.
  revert a m. induction l as [|x l IH]; intros a m; cbn [app put_bytes].
  - unfold zlen. cbn. by rewrite Z.add_0_r.
  - rewrite IH. f_equal. unfold zlen. cbn [length]. lia.
Qed.

Lemma get_put_bytes l a b m :
  get_fs_byte (put_bytes l a m) b =
    match zget l (b - a) with Some v => u8 v | None => get_fs_byte m b end.
Proof.
  revert a m. induction l as [|x l IH]; intros a m; cbn [put_bytes].
  - by rewrite (proj2 (zget_None [] (b - a))) by (unfold zlen; cbn; lia).
  - rewrite IH. destruct (decide (b = a)) as [->|Hn].
    + rewrite (proj2 (zget_None l (a - (a + 1)))) by lia.
      rewrite get_put_byte, decide_True by done. by rewrite Z.sub_diag.
    + assert (E : zget (x :: l) (b - a) = zget l (b - (a + 1))).
      { unfold zget. destruct (decide (0 <= b - (a + 1))).
        - rewrite decide_True by lia. by replace (Z.to_nat (b - a)) with (S (Z.to_nat (b - (a + 1)))) by lia.
        - destruct (decide (0 <= b - a)); [|done]. lia. }
      rewrite E. destruct (zget l (b - (a + 1))); [done|].
      by rewrite get_put_byte, decide_False by lia.
Qed.

Lemma get_bytes_put l a m :
  Forall (fun x => 0 <= x < 256) l -> get_bytes (length l) a (put_bytes l a m) = l.
Proof.
  intros H. unfold get_bytes. apply list_eq. intros i.
  change (map ?f ?x) with (f <$> x). rewrite list_lookup_fmap.
  destruct (l !! i) as [v|] eqn:E.
  - pose proof (lookup_lt_Some _ _ _ E). rewrite lookup_seqZ_lt by lia. cbn.
    rewrite get_put_bytes. replace (a + Z.of_nat i - a) with (Z.of_nat i) by lia.
    rewrite zget_of_nat, E. rewrite u8_small; [done|].
    pose proof (Forall_lookup_1 _ _ _ _ H E) as Hv. cbv beta in Hv. lia.
  - apply lookup_ge_None in E. by rewrite lookup_seqZ_ge by lia.
Qed.

End UserMem.
