(* ===== verification/Strings.v ===== *)
(** * include/string.h: the string functions

    Inline assembly on the string instructions: a program of register moves over a memory of
    bytes.  The direction flag is clear unless a function sets it; EAX, ECX, ESI and EDI are
    variables.  Addresses do not wrap. *)

From S2P Require Import Prelude Memory Task Segments UserMem.
Import UserMem.

Module Strings.

Definition byte_at (a : Z) : M umem Z := gets (fun m => get_fs_byte m a).
Definition stosb (al edi : Z) : M umem unit := modify (put_fs_byte al edi).

(** A byte as the signed comparisons ([jl]) see it: [jl] after comparing [a] with [b]. *)
Definition jl (a b : Z) : bool := bool_decide (s8 a < s8 b).

(** [repne ; scasb]: EDI, ECX and ZF at the end; ZF is unchanged when ECX is 0. *)
Fixpoint repne_scasb (n : nat) (al edi ecx : Z) (zf : bool) : M umem (Z * Z * bool) :=
  if decide (ecx = 0) then mret (edi, ecx, zf)
  else
    match n with
    | O => nofuel
    | S n' =>
        b ← byte_at edi;
        if decide (al = b) then mret (edi + 1, ecx - 1, true)
        else repne_scasb n' al (edi + 1) (ecx - 1) false
    end.

(** [repe ; cmpsb]: ESI, EDI and the two bytes compared last; none when ECX is 0. *)
Fixpoint repe_cmpsb (n : nat) (esi edi ecx : Z) (last : option (Z * Z)) : M umem (Z * Z * option (Z * Z)) :=
  if decide (ecx = 0) then mret (esi, edi, last)
  else
    match n with
    | O => nofuel
    | S n' =>
        a ← byte_at esi; b ← byte_at edi;
        if decide (a = b) then repe_cmpsb n' (esi + 1) (edi + 1) (ecx - 1) (Some (a, b))
        else mret (esi + 1, edi + 1, Some (a, b))
    end.

(** [rep ; movsb] up and down, [rep ; stosb]. *)
Fixpoint rep_movsb (n : nat) (esi edi dir : Z) : M umem unit :=
  match n with
  | O => skip
  | S n' => al ← byte_at esi; stosb al edi;; rep_movsb n' (esi + dir) (edi + dir) dir
  end.
Fixpoint rep_stosb (n : nat) (al edi : Z) : M umem unit :=
  match n with
  | O => skip
  | S n' => stosb al edi;; rep_stosb n' al (edi + 1)
  end.

(** The loop of [strcpy] and [strcat]. *)
Fixpoint copy_loop (n : nat) (esi edi : Z) : M umem unit :=
  match n with
  | O => nofuel
  | S n' =>
      al ← byte_at esi; stosb al edi;;
      if decide (al <> 0) then copy_loop n' (esi + 1) (edi + 1) else skip
  end.

Section string.
Context (fuel : nat).

(** ECX after [notl ; decl]: the length of the string at [edi]. *)
Definition scan_length (edi : Z) : M umem Z :=
  '(_, ecx, _) ← repne_scasb fuel 0 edi 0xffffffff false;
  mret (u32 (not32 ecx - 1)).
Definition strlen (s : Z) : M umem Z := n ← scan_length s; mret (s32 n).

Definition strcpy (dest src : Z) : M umem Z := copy_loop fuel src dest;; mret dest.

Definition strcat (dest src : Z) : M umem Z :=
  '(edi, _, _) ← repne_scasb fuel 0 dest 0xffffffff false;
  copy_loop fuel src (edi - 1);; mret dest.

(** The loop of [strncpy]; the rest of the count is filled with zeros. *)
Fixpoint ncopy_loop (n : nat) (esi edi ecx : Z) : M umem unit :=
  match n with
  | O => nofuel
  | S n' =>
      let ecx := s32 (ecx - 1) in
      if decide (ecx < 0) then skip
      else
        al ← byte_at esi; stosb al edi;;
        if decide (al <> 0) then ncopy_loop n' (esi + 1) (edi + 1) ecx
        else rep_stosb (Z.to_nat ecx) 0 (edi + 1)
  end.
Definition strncpy (dest src count : Z) : M umem Z := ncopy_loop fuel src dest count;; mret dest.

(** A byte 0 follows whatever was copied. *)
Fixpoint ncat_loop (n : nat) (esi edi ecx : Z) : M umem unit :=
  match n with
  | O => nofuel
  | S n' =>
      let ecx := s32 (ecx - 1) in
      if decide (ecx < 0) then stosb 0 edi
      else
        al ← byte_at esi; stosb al edi;;
        if decide (al <> 0) then ncat_loop n' (esi + 1) (edi + 1) ecx else stosb 0 (edi + 1)
  end.
Definition strncat (dest src count : Z) : M umem Z :=
  '(edi, _, _) ← repne_scasb fuel 0 dest 0xffffffff false;
  ncat_loop fuel src (edi - 1) count;; mret dest.

Fixpoint cmp_loop (n : nat) (esi edi : Z) : M umem Z :=
  match n with
  | O => nofuel
  | S n' =>
      al ← byte_at esi; b ← byte_at edi;
      if decide (al <> b) then mret (if jl al b then 1 else -1)
      else if decide (al <> 0) then cmp_loop n' (esi + 1) (edi + 1) else mret 0
  end.
Definition strcmp (cs ct : Z) : M umem Z := cmp_loop fuel ct cs.

Fixpoint ncmp_loop (n : nat) (esi edi ecx : Z) : M umem Z :=
  match n with
  | O => nofuel
  | S n' =>
      let ecx := s32 (ecx - 1) in
      if decide (ecx < 0) then mret 0
      else
        al ← byte_at esi; b ← byte_at edi;
        if decide (al <> b) then mret (if jl al b then 1 else -1)
        else if decide (al <> 0) then ncmp_loop n' (esi + 1) (edi + 1) ecx else mret 0
  end.
Definition strncmp (cs ct count : Z) : M umem Z := ncmp_loop fuel ct cs count.

(** ESI after the loop is decremented; it was set to 1 when the string ended. *)
Fixpoint chr_loop (n : nat) (esi ah : Z) : M umem Z :=
  match n with
  | O => nofuel
  | S n' =>
      al ← byte_at esi;
      if decide (al = ah) then mret (esi + 1)
      else if decide (al <> 0) then chr_loop n' (esi + 1) ah else mret 1
  end.
Definition strchr (s c : Z) : M umem Z := esi ← chr_loop fuel s (u8 c); mret (esi - 1).

Fixpoint rchr_loop (n : nat) (esi ah edx : Z) : M umem Z :=
  match n with
  | O => nofuel
  | S n' =>
      al ← byte_at esi;
      let edx := if decide (al = ah) then esi else edx in
      if decide (al <> 0) then rchr_loop n' (esi + 1) ah edx else mret edx
  end.
Definition strrchr (s c : Z) : M umem Z := rchr_loop fuel s (u8 c) 0.

(** Whether [al] is among the [edx] bytes at [ct]. *)
Definition in_set (al ct edx : Z) : M umem bool :=
  '(_, _, zf) ← repne_scasb fuel al ct edx false; mret zf.

(** The scan of [strspn], [strcspn], [strpbrk] and [strtok]: ESI after the byte at which
    membership stops being [while_in], with the byte. *)
Fixpoint span_loop (n : nat) (while_in : bool) (esi ct edx : Z) : M umem (Z * Z) :=
  match n with
  | O => nofuel
  | S n' =>
      al ← byte_at esi;
      if decide (al = 0) then mret (esi + 1, al)
      else
        i ← in_set al ct edx;
        if decide (i = while_in) then span_loop n' while_in (esi + 1) ct edx else mret (esi + 1, al)
  end.
Definition strspn (cs ct : Z) : M umem Z :=
  edx ← scan_length ct; '(esi, _) ← span_loop fuel true cs ct edx; mret (esi - 1 - cs).
Definition strcspn (cs ct : Z) : M umem Z :=
  edx ← scan_length ct; '(esi, _) ← span_loop fuel false cs ct edx; mret (esi - 1 - cs).
Definition strpbrk (cs ct : Z) : M umem Z :=
  edx ← scan_length ct; '(esi, al) ← span_loop fuel false cs ct edx;
  mret (if decide (al = 0) then 0 else esi - 1).

(** After [repe ; cmpsb] ZF says that the bytes compared last were equal; with the empty
    string it is still set from [decl]. *)
Fixpoint str_loop (n : nat) (esi ct edx : Z) : M umem Z :=
  match n with
  | O => nofuel
  | S n' =>
      '(p, _, last) ← repe_cmpsb fuel esi ct edx None;
      if match last with None => true | Some (a, b) => bool_decide (a = b) end then mret esi
      else
        b ← byte_at (p - 1);
        if decide (b <> 0) then str_loop n' (esi + 1) ct edx else mret 0
  end.
Definition strstr (cs ct : Z) : M umem Z :=
  edx ← scan_length ct; str_loop fuel cs ct edx.

(** The token found and the new [___strtok]. *)
Definition strtok (___strtok s ct : Z) : M umem (Z * Z) :=
  if decide (s = 0 /\ ___strtok = 0) then mret (0, 0)
  else
    let esi := if decide (s = 0) then ___strtok else s in
    edx ← scan_length ct;
    if decide (edx = 0) then mret (0, 0)
    else
      '(esi, al) ← span_loop fuel true esi ct edx;
      if decide (al = 0) then mret (0, 0)
      else
        let ebx := esi - 1 in
        '(esi, al) ← span_loop fuel false ebx ct edx;
        esi ← (if decide (al = 0) then mret 0 else stosb 0 (esi - 1);; mret esi);
        b ← byte_at ebx;
        mret (if decide (b = 0) then (0, 0) else (ebx, esi)).

Definition memcpy (dest src n : Z) : M umem Z := rep_movsb (Z.to_nat (u32 n)) src dest 1;; mret dest.

(** The loop down leaves the direction flag set. *)
Definition memmove (dest src n : Z) : M umem Z :=
  (if decide (dest < src) then rep_movsb (Z.to_nat (u32 n)) src dest 1
   else rep_movsb (Z.to_nat (u32 n)) (src + n - 1) (dest + n - 1) (-1));;
  mret dest.

(** [zf] is the flag before, the result of the comparison when [count] is 0 (then [jl] is
    taken as not). *)
Definition memcmp (zf : bool) (cs ct count : Z) : M umem Z :=
  '(_, _, last) ← repe_cmpsb fuel ct cs (u32 count) None;
  mret match last with
       | None => if zf then 0 else -1
       | Some (a, b) => if decide (a = b) then 0 else if jl a b then 1 else -1
       end.

Definition memchr (cs c count : Z) : M umem Z :=
  if decide (count = 0) then mret 0
  else
    '(edi, _, zf) ← repne_scasb fuel (u8 c) cs (u32 count) false;
    mret ((if (zf : bool) then edi else 1) - 1).

Definition memset (s c count : Z) : M umem Z := rep_stosb (Z.to_nat (u32 count)) (u8 c) s;; mret s.
End string.

End Strings.
