(* ===== verification/StringProps.v ===== *)
(** * Properties of the string functions *)

From S2P Require Import Prelude UserMem Strings.
Import UserMem Strings.

Module StringProps.

(** The string at address [a] is [l], without its final 0. *)
Fixpoint cstring (m : umem) (a : Z) (l : list Z) : Prop :=
  match l with
  | [] => get_fs_byte m a = 0
  | b :: l' => get_fs_byte m a = b /\ b <> 0 /\ cstring m (a + 1) l'
  end.
(** The bytes from [a] on are [l]. *)
Fixpoint bytes_at (m : umem) (a : Z) (l : list Z) : Prop :=
  match l with [] => True | b :: l' => get_fs_byte m a = b /\ bytes_at m (a + 1) l' end.

Lemma cstring_bytes m a l : cstring m a l -> bytes_at m a l.
Proof. revert a. induction l as [|b l IH]; intros a; [done|]. intros (H1 & _ & H2). split; [done|by apply IH]. Qed.

Lemma byte_at_bind {B} a (k : Z -> M umem B) m : (byte_at a ≫= k) m = k (get_fs_byte m a) m.
Proof. done. Qed.

(** ** Moving *)

Lemma rep_movsb_up n src dest m :
  dest < src -> exists m', rep_movsb n src dest 1 m = Done tt m' /\
    forall a, get_fs_byte m' a =
      if decide (dest <= a < dest + Z.of_nat n) then u8 (get_fs_byte m (src + (a - dest))) else get_fs_byte m a.
Proof.
  intros Hlt. revert src dest m Hlt. induction n as [|n IH]; intros src dest m Hlt.
  { exists m. split; [done|]. intros a. by rewrite decide_False by lia. }
  destruct (IH (src + 1) (dest + 1) (put_fs_byte (get_fs_byte m src) dest m)) as (m' & R & H); [lia|].
  exists m'. split; [exact R|]. intros a. rewrite H, !get_put_byte. repeat case_decide; try lia; try done.
  - by replace (src + 1 + (a - (dest + 1))) with (src + (a - dest)) by lia.
  - subst a. by replace (src + (dest - dest)) with src by lia.
Qed.

Lemma rep_movsb_down n src dest m :
  src <= dest -> exists m', rep_movsb n (src + Z.of_nat n - 1) (dest + Z.of_nat n - 1) (-1) m = Done tt m' /\
    forall a, get_fs_byte m' a =
      if decide (dest <= a < dest + Z.of_nat n) then u8 (get_fs_byte m (src + (a - dest))) else get_fs_byte m a.
Proof.
  intros Hle. revert m. induction n as [|n IH]; intros m.
  { exists m. split; [done|]. intros a. by rewrite decide_False by lia. }
  destruct (IH (put_fs_byte (get_fs_byte m (src + Z.of_nat (S n) - 1)) (dest + Z.of_nat (S n) - 1) m)) as (m' & R & H).
  exists m'. split.
  { rewrite <- R. cbn [rep_movsb]. rewrite byte_at_bind. unfold stosb. rewrite modify_bind. f_equal; lia. }
  intros a. rewrite H, !get_put_byte. repeat case_decide; try lia; try done.
  subst a. f_equal. f_equal. lia.
Qed.

(** [memmove] copies also when source and destination overlap, in either direction: the
    destination holds the bytes the source had before, and nothing else changes. *)
Theorem memmove_overlap dest src n m :
  0 <= n < 2 ^ 31 ->
  exists m', memmove dest src n m = Done dest m' /\
    forall a, get_fs_byte m' a =
      if decide (dest <= a < dest + n) then u8 (get_fs_byte m (src + (a - dest))) else get_fs_byte m a.
Proof.
  intros Hn. unfold memmove. rewrite u32_small by lia. case_decide as Hd.
  - destruct (rep_movsb_up (Z.to_nat n) src dest m Hd) as (m' & R & H).
    exists m'. split; [by erewrite done_bind by exact R|]. by rewrite Z2Nat.id in H by lia.
  - destruct (rep_movsb_down (Z.to_nat n) src dest m ltac:(lia)) as (m' & R & H).
    exists m'. rewrite Z2Nat.id in R, H by lia. split; [by erewrite done_bind by exact R|done].
Qed.
Lemma memmove_overlap_witness : exists m', memmove 1002 1000 5 (put_bytes [1; 2; 3; 4; 5] 1000 empty) = Done 1002 m' /\
  get_bytes 7 1000 m' = [1; 2; 1; 2; 3; 4; 5].
Proof.
  destruct (memmove_overlap 1002 1000 5 (put_bytes [1; 2; 3; 4; 5] 1000 empty)) as (m' & R & H); [lia|].
  exists m'. split; [exact R|]. unfold get_bytes.
  replace (seqZ 1000 (Z.of_nat 7)) with [1000; 1001; 1002; 1003; 1004; 1005; 1006] by reflexivity.
  cbn [map]. rewrite !H. vm_compute. reflexivity.
Defined.

(** ** Scanning *)

Lemma not32_sub x : 0 <= x < 2 ^ 32 -> not32 x = 2 ^ 32 - 1 - x.
Proof.
  intros Hx. unfold not32. rewrite u32_small by done. change (2 ^ 32 - 1) with (Z.ones 32).
  assert (H : Z.ldiff x (Z.ones 32) = 0).
  { apply Z.ldiff_ones_r_low; [lia|]. destruct (decide (x = 0)) as [->|]; [cbn; lia|].
    apply Z.log2_lt_pow2; lia. }
  rewrite Z.sub_nocarry_ldiff by done. apply Z.bits_inj'. intros i Hi.
  apply (f_equal (fun v => Z.testbit v i)) in H. rewrite Z.ldiff_spec, Z.testbit_0_l in H.
  rewrite Z.lxor_spec, Z.ldiff_spec. by destruct (Z.testbit x i), (Z.testbit (Z.ones 32) i).
Qed.

Lemma scan_string n m a l ecx zf :
  cstring m a l -> (length l < n)%nat -> zlen l < ecx ->
  repne_scasb n 0 a ecx zf m = Done (a + zlen l + 1, ecx - zlen l - 1, true) m.
Proof.
  unfold zlen. revert a n ecx zf. induction l as [|b l IH]; intros a n ecx zf Hs Hn He.
  - destruct n as [|n]; [cbn in Hn; lia|]. cbn [repne_scasb length] in *. rewrite decide_False by lia.
    rewrite byte_at_bind. rewrite (Hs : get_fs_byte m a = 0), decide_True by done. unfold mret, M_ret. do 3 f_equal; lia.
  - destruct Hs as (E & Hb & Hs). destruct n as [|n]; [cbn in Hn; lia|]. cbn [repne_scasb length] in *.
    rewrite decide_False by lia. rewrite byte_at_bind. rewrite E, decide_False by done.
    rewrite (IH (a + 1) n (ecx - 1) false) by (done || lia). do 3 f_equal; lia.
Qed.

Lemma scan_length_ok fuel m a l :
  cstring m a l -> (length l < fuel)%nat -> zlen l < 2 ^ 31 -> scan_length fuel a m = Done (zlen l) m.
Proof.
  intros Hs Hf Hl. pose proof (zlen_nonneg l). unfold scan_length.
  erewrite done_bind by (apply scan_string with (l := l); [done|done|lia]). cbv beta iota.
  rewrite not32_sub by lia. unfold mret, M_ret. f_equal. rewrite u32_small; lia.
Qed.

(** ** [strstr] *)

(** The comparison at one place. *)
Lemma cmpsb_prefix n m a b l p last :
  cstring m a l -> bytes_at m b p -> Forall (fun c => c <> 0) p -> (length p <= n)%nat ->
  (forall c d, last = Some (c, d) -> c = d) ->
  exists r e last', repe_cmpsb n a b (zlen p) last m = Done (r, e, last') m /\
    if decide (p `prefix_of` l) then forall c d, last' = Some (c, d) -> c = d
    else (exists c d, last' = Some (c, d) /\ c <> d) /\
      (get_fs_byte m (r - 1) = 0 -> (length l < length p)%nat) /\
      (l = [] -> get_fs_byte m (r - 1) = 0).
Proof.
  unfold zlen. revert n a b l last. induction p as [|x p IH]; intros n a b l last Hs Hb Hp Hn Hl.
  { exists a, b, last. split; [by destruct n|]. rewrite decide_True by apply prefix_nil. done. }
  destruct Hb as [E Hb]. destruct n as [|n]; [cbn in Hn; lia|]. apply Forall_cons in Hp as [Hx Hp].
  cbn [repe_cmpsb length] in *. rewrite decide_False by lia.
  rewrite !byte_at_bind, E. destruct l as [|y l].
  - cbn in Hs. rewrite Hs, decide_False by done. exists (a + 1), (b + 1), (Some (0, x)). split; [done|].
    rewrite decide_False by (intros H; apply prefix_nil_inv in H; done).
    split; [by exists 0, x|]. replace (a + 1 - 1) with a by lia. cbn. split; [lia|done].
  - destruct Hs as (Ey & Hy & Hs). rewrite Ey. case_decide as Hxy.
    + rewrite Hxy in *. clear y Hxy. destruct (IH n (a + 1) (b + 1) l (Some (x, x))) as (r & e & last' & R & H); try done; [lia|congruence|].
      exists r, e, last'. replace (Z.of_nat (S (length p)) - 1) with (Z.of_nat (length p)) by lia. split; [exact R|].
      destruct (decide (p `prefix_of` l)) as [Hq|Hq].
      * rewrite decide_True by by apply prefix_cons. done.
      * rewrite decide_False by (intros Hc%prefix_cons_inv_2; done). destruct H as (H1 & H2 & _). split; [done|].
        cbn [length]. split; [|done]. intros H0. specialize (H2 H0). lia.
    + exists (a + 1), (b + 1), (Some (y, x)). split; [done|].
      rewrite decide_False by (intros Hc%prefix_cons_inv_1; congruence). split; [by exists y, x|].
        replace (a + 1 - 1) with a by lia. split; [congruence|done].
Qed.

Lemma cstring_nonzero m a l : cstring m a l -> Forall (fun c => c <> 0) l.
Proof.
  revert a. induction l as [|b l IH]; intros a; [constructor|]. intros (_ & H & Hs). constructor; [done|by eapply IH].
Qed.

Lemma prefix_short {A} (p l : list A) i : (length l < length p)%nat -> ~ p `prefix_of` drop i l.
Proof. intros Hl H%prefix_length. rewrite length_drop in H. lia. Qed.

(** C36: [strstr] finds the first occurrence of a string in another, and answers null when there
    is none; the empty string is found at the start. *)
Theorem strstr_first fuel m cs ct l p :
  cstring m cs l -> cstring m ct p -> (length l + length p < fuel)%nat -> zlen p < 2 ^ 31 ->
  exists r, strstr fuel cs ct m = Done r m /\
    ((exists i, r = cs + Z.of_nat i /\ p `prefix_of` drop i l /\ forall j, (j < i)%nat -> ~ p `prefix_of` drop j l) \/
     (r = 0 /\ forall j, ~ p `prefix_of` drop j l)).
Proof.
  intros Hl Hp Hf Hlen. unfold strstr. erewrite done_bind by (apply scan_length_ok with (l := p); [done|lia|done]).
  assert (Hpf : (length p <= fuel)%nat) by lia.
  enough (H : forall n a l, cstring m a l -> (length l < n)%nat ->
    exists r, str_loop fuel n a ct (zlen p) m = Done r m /\
    ((exists i, r = a + Z.of_nat i /\ p `prefix_of` drop i l /\ forall j, (j < i)%nat -> ~ p `prefix_of` drop j l) \/
     (r = 0 /\ forall j, ~ p `prefix_of` drop j l))) by (apply H; [done|lia]).
  clear l Hl Hf. intros n. induction n as [|n IH]; intros a l Hl Hn; [lia|]. cbn [str_loop].
  destruct (cmpsb_prefix fuel m a ct l p None Hl) as (r & e & last & R & H);
    [by apply cstring_bytes|by eapply cstring_nonzero|done|done|].
  erewrite done_bind by exact R. cbv beta iota. destruct (decide (p `prefix_of` l)) as [Hq|Hq].
  - exists a. split.
    { destruct last as [[c d]|]; [|done]. by rewrite bool_decide_eq_true_2 by by apply H. }
    left. exists 0%nat. split; [lia|]. split; [by rewrite drop_0|lia].
  - destruct H as ((c & d & -> & Hcd) & H & H0). rewrite bool_decide_eq_false_2 by done.
    rewrite byte_at_bind. case_decide as Hz.
    + destruct l as [|x l].
      { by rewrite H0 in Hz. }
      destruct Hl as (Hx & Hx0 & Hl). destruct (IH (a + 1) l Hl) as (r' & R' & HH); [cbn in Hn; lia|].
      exists r'. split; [exact R'|]. destruct HH as [(i & Hi & Hp1 & Hp2)|[Hr Hno]].
      * left. exists (S i). split; [lia|]. split; [done|]. intros [|j] Hj; [by rewrite drop_0|]. apply Hp2. lia.
      * right. split; [done|]. intros [|j]; [by rewrite drop_0|]. apply Hno.
    + exists 0. split; [done|]. right. split; [done|]. intros j. apply prefix_short. apply H. lia.
Qed.

Lemma strstr_first_witness :
  let m := put_bytes [104; 101; 108; 108; 111; 0] 100 (put_bytes [108; 111; 0] 200 empty) in
  exists r, strstr 20 100 200 m = Done r m /\
    ((exists i, r = 100 + Z.of_nat i /\ [108; 111] `prefix_of` drop i [104; 101; 108; 108; 111] /\
        forall j, (j < i)%nat -> ~ [108; 111] `prefix_of` drop j [104; 101; 108; 108; 111]) \/
     (r = 0 /\ forall j, ~ [108; 111] `prefix_of` drop j [104; 101; 108; 108; 111])).
Proof.
  cbv zeta. apply strstr_first; [vm_compute; repeat split; discriminate|vm_compute; repeat split; discriminate|cbn; lia|done].
Defined.

(** ** [strcmp] *)

(** The order of [strcmp]: the first bytes that differ, as signed numbers. *)
Fixpoint str_order (l1 l2 : list Z) : Z :=
  match l1, l2 with
  | x :: l1', y :: l2' => if decide (y = x) then str_order l1' l2' else if jl y x then 1 else -1
  | [], [] => 0
  | [], y :: _ => if jl y 0 then 1 else -1
  | x :: _, [] => if jl 0 x then 1 else -1
  end.

Lemma strcmp_order fuel m cs ct l1 l2 :
  cstring m cs l1 -> cstring m ct l2 -> (length l1 < fuel)%nat ->
  strcmp fuel cs ct m = Done (str_order l1 l2) m.
Proof.
  unfold strcmp. revert cs ct l1 l2. induction fuel as [|n IH]; intros cs ct l1 l2 H1 H2 Hf; [lia|].
  cbn [cmp_loop]. rewrite !byte_at_bind.
  destruct l1 as [|x l1], l2 as [|y l2]; cbn [cstring str_order length] in *.
  - by rewrite H1, H2.
  - destruct H2 as (-> & Hy & _). rewrite H1. by rewrite decide_True.
  - destruct H1 as (-> & Hx & _). rewrite H2. by rewrite decide_True.
  - destruct H1 as (-> & Hx & H1), H2 as (-> & Hy & H2). destruct (decide (y = x)) as [->|Hne].
    + rewrite decide_False by (intros H; by apply H). rewrite decide_True by done. apply IH; [done|done|lia].
    + by rewrite decide_True.
Qed.

Lemma str_order_0 l1 l2 :
  Forall (fun c => c <> 0) l1 -> Forall (fun c => c <> 0) l2 -> str_order l1 l2 = 0 <-> l1 = l2.
Proof.
  revert l2. induction l1 as [|x l1 IH]; intros [|y l2] H1 H2; cbn [str_order]; [done|..].
  - split; [|done]. by destruct (jl y 0).
  - split; [|done]. by destruct (jl 0 x).
  - apply Forall_cons in H1 as [_ H1], H2 as [_ H2]. case_decide as E.
    + subst y. rewrite IH by done. split; congruence.
    + split; [by destruct (jl y x)|congruence].
Qed.

(** Bytes from 128 on come before all others. *)
Example strcmp_high_byte : forall m, strcmp 5 100 200 (put_bytes [0x80; 0] 100 (put_bytes [97; 0] 200 m)) =
  Done (-1) (put_bytes [0x80; 0] 100 (put_bytes [97; 0] 200 m)).
Proof. intros m. apply (strcmp_order 5 _ 100 200 [0x80] [97]); [| |cbn; lia]; cbn [cstring put_bytes]; rewrite !get_put_byte; vm_compute; repeat split; discriminate. Qed.

End StringProps.
