(* ===== verification/Syscalls.v ===== *)
(** * kernel/sys.c: identity, time, groups and sessions *)

From S2P Require Import Prelude Memory Task Segments UserMem.
Import Task UserMem.

Module Syscalls.

Definition EPERM : Z := 1.
Definition ESRCH : Z := 3.
Definition ENOSYS : Z := 38.
Definition ERROR : Z := 99.

(** Field updates. *)
Definition set_uid (v : Z) (t : task_struct) : task_struct := {| t with uid := v |}.
Definition set_euid (v : Z) (t : task_struct) : task_struct := {| t with euid := v |}.
Definition set_gid (v : Z) (t : task_struct) : task_struct := {| t with gid := v |}.
Definition set_egid (v : Z) (t : task_struct) : task_struct := {| t with egid := v |}.
Definition set_brk (v : Z) (t : task_struct) : task_struct := {| t with brk := v |}.
Definition set_pgrp (v : Z) (t : task_struct) : task_struct := {| t with pgrp := v |}.
Definition set_umask (v : Z) (t : task_struct) : task_struct := {| t with umask := v |}.
Definition set_session (t : task_struct) : task_struct :=
  {| t with leader := 1; session := pid t; pgrp := pid t; tty := -1 |}.

Definition suser (t : task_struct) : bool := bool_decide (euid t = 0).

(** The calls that are not implemented: ftime, break, ptrace, stty, gtty, rename,
    prof, acct, phys, lock, mpx, ulimit. *)
Definition sys_ftime : M tasks Z := mret (- ENOSYS).
Definition sys_break : M tasks Z := mret (- ENOSYS).
Definition sys_ptrace : M tasks Z := mret (- ENOSYS).
Definition sys_stty : M tasks Z := mret (- ENOSYS).
Definition sys_gtty : M tasks Z := mret (- ENOSYS).
Definition sys_rename : M tasks Z := mret (- ENOSYS).
Definition sys_prof : M tasks Z := mret (- ENOSYS).
Definition sys_acct : M tasks Z := mret (- ENOSYS).
Definition sys_phys : M tasks Z := mret (- ENOSYS).
Definition sys_lock : M tasks Z := mret (- ENOSYS).
Definition sys_mpx : M tasks Z := mret (- ENOSYS).
Definition sys_ulimit : M tasks Z := mret (- ENOSYS).

(** The second half of [sys_setregid]. *)
Definition setregid_egid (egid_ : Z) : M tasks Z :=
  t ← get_current;
  if decide (0 < egid_) then
    if decide (gid t = egid_ \/ egid t = egid_ \/ sgid t = egid_ \/ suser t)
    then put_current (set_egid (u16 egid_));; mret 0
    else mret (- EPERM)
  else mret 0.

Definition sys_setregid (rgid egid_ : Z) : M tasks Z :=
  t ← get_current;
  if decide (0 < rgid) then
    if decide (gid t = rgid \/ suser t)
    then put_current (set_gid (u16 rgid));; setregid_egid egid_
    else mret (- EPERM)
  else setregid_egid egid_.

Definition sys_setgid (gid : Z) : M tasks Z := sys_setregid gid gid.

(** The second half of [sys_setreuid]; [old_ruid] is the uid on entry. *)
Definition setreuid_euid (old_ruid euid_ : Z) : M tasks Z :=
  t ← get_current;
  if decide (0 < euid_) then
    if decide (old_ruid = euid_ \/ euid t = euid_ \/ suser t)
    then put_current (set_euid (u16 euid_));; mret 0
    else put_current (set_uid old_ruid);; mret (- EPERM)
  else mret 0.

Definition sys_setreuid (ruid euid_ : Z) : M tasks Z :=
  t ← get_current;
  let old_ruid := uid t in
  if decide (0 < ruid) then
    if decide (euid t = ruid \/ old_ruid = ruid \/ suser t)
    then put_current (set_uid (u16 ruid));; setreuid_euid old_ruid euid_
    else mret (- EPERM)
  else setreuid_euid old_ruid euid_.

Definition sys_setuid (uid : Z) : M tasks Z := sys_setreuid uid uid.

Definition sys_time (tloc : Z) : M user Z :=
  i ← on_utab CURRENT_TIME;
  (if decide (tloc <> 0) then verify_area tloc 4;; upd_um (put_fs_long i tloc) else skip);;
  mret i.

Definition sys_stime (tptr : Z) : M user Z :=
  t ← on_utab get_current;
  if suser t then
    v ← gets (fun s => get_fs_long (um s) tptr);
    on_utab (modify (fun s =>
      {| s with startup_time := s32 (v - Z.quot (jiffies s) HZ) |}));; mret 0
  else mret (- EPERM).

Definition sys_times (tbuf : Z) : M user Z :=
  (if decide (tbuf <> 0) then
     verify_area tbuf 16;;
     t ← on_utab get_current;
     upd_um (fun m => put_fs_long (cstime t) (tbuf + 12) (put_fs_long (cutime t) (tbuf + 8)
       (put_fs_long (stime t) (tbuf + 4) (put_fs_long (utime t) tbuf m))))
   else skip);;
  on_utab (gets jiffies).

Definition sys_brk (end_data_seg : Z) : M tasks Z :=
  t ← get_current;
  (if decide (end_code t <= end_data_seg /\ end_data_seg < u32 (start_stack t - 16384))
   then put_current (set_brk end_data_seg) else skip);;
  t ← get_current; mret (s32 (brk t)).

(** The loop of [sys_setpgid] over the slots from [i]. *)
Fixpoint setpgid_loop (n : nat) (i pid_ pgid : Z) : M tasks Z :=
  match n with
  | O => mret (- ESRCH)
  | S n' =>
      o ← gets (fun s => slot s i);
      match o with
      | Some t =>
          if decide (pid t = pid_) then
            if decide (leader t <> 0) then mret (- EPERM)
            else
              c ← get_current;
              if decide (session t <> session c) then mret (- EPERM)
              else put_task i (set_pgrp pgid);; mret 0
          else setpgid_loop n' (i + 1) pid_ pgid
      | None => setpgid_loop n' (i + 1) pid_ pgid
      end
  end.

Definition sys_setpgid (pid_ pgid : Z) : M tasks Z :=
  t ← get_current;
  let pid_ := if decide (pid_ = 0) then pid t else pid_ in
  let pgid := if decide (pgid = 0) then pid t else pgid in
  setpgid_loop (Z.to_nat NR_TASKS) 0 pid_ pgid.

Definition sys_getpgrp : M tasks Z := t ← get_current; mret (pgrp t).

Definition sys_setsid : M tasks Z :=
  t ← get_current;
  if decide (leader t <> 0 /\ suser t = false) then mret (- EPERM)
  else put_current set_session;; mret (pid t).

(** The 45 bytes of [thisname]: five fields of nine characters. *)
Definition utsfield (s : string) : list Z :=
  let l := map (fun c => Z.of_nat (Ascii.nat_of_ascii c)) (String.list_ascii_of_string s) in
  l ++ replicate (9 - length l) 0.
Definition thisname : list Z :=
  utsfield "linux .0" ++ utsfield "nodename" ++ utsfield "release " ++ utsfield "version "
  ++ utsfield "machine ".

Definition sys_uname (name : Z) : M user Z :=
  if decide (name = 0) then mret (- ERROR)
  else verify_area name 45;; upd_um (put_bytes thisname name);; mret 0.

Definition sys_umask (mask : Z) : M tasks Z :=
  t ← get_current; put_current (set_umask (Z.land mask 511));; mret (umask t).

(** ** Identity *)

(** The current task is [t]; running one of these calls leaves every other slot. *)
Definition only_current (s s' : tasks) : Prop :=
  current s' = current s /\ forall i, i <> current s -> slot s' i = slot s i.

Lemma only_current_refl s : only_current s s.
Proof. done. Qed.

Lemma only_current_upd s f : only_current s (upd_slot (current s) f s).
Proof. split; [apply current_upd|]. intros i Hi. by apply slot_other_upd. Qed.

Lemma only_current_trans s t u : only_current s t -> only_current t u -> only_current s u.
Proof.
  intros [H1 H2] [H3 H4]. split; [congruence|]. intros i Hi. rewrite H4, H2; congruence.
Qed.

(** Run a call that reads the current task. *)
Lemma get_current_bind {A} s t (k : task_struct -> M tasks A) :
  slot s (current s) = Some t -> (get_current ≫= k) s = k t s.
Proof. intros E. unfold mbind, M_bind. by rewrite (get_current_Some _ _ E). Qed.

Lemma put_current_bind {A} s t f (k : unit -> M tasks A) :
  slot s (current s) = Some t ->
  (put_current f ≫= k) s = k tt (upd_slot (current s) f s).
Proof. intros E. unfold mbind, M_bind. by rewrite (put_current_Some _ _ _ E). Qed.

Definition ids_ok (t : task_struct) : Prop :=
  0 <= uid t < 2 ^ 16 /\ 0 <= euid t < 2 ^ 16 /\ 0 <= gid t < 2 ^ 16 /\
  0 <= egid t < 2 ^ 16 /\ 0 <= sgid t < 2 ^ 16.

(** The identity [b] a task without privilege may take from [a]. *)
Definition uid_from (a b : task_struct) : Prop :=
  (uid b = uid a \/ uid b = euid a) /\ (euid b = uid a \/ euid b = euid a).

(** What the second half does when entered with the task [t]. *)
Lemma setreuid_euid_safe s t old e :
  slot s (current s) = Some t -> 0 <= old < 2 ^ 16 -> ids_ok t ->
  exists r s' t', setreuid_euid old e s = Done r s' /\ only_current s s' /\
    slot s' (current s) = Some t' /\
    (r = 0 \/ r = - EPERM /\ t' = set_uid old t) /\ uid t' ∈ [uid t; old] /\
    (suser t = false -> euid t' = old \/ euid t' = euid t) /\
    (r = 0 -> uid t' = uid t).
Proof.
  intros Ht Ho Hids. unfold setreuid_euid. rewrite (get_current_bind _ _ _ Ht).
  destruct (decide (0 < e)) as [Dp|Dp];
    [destruct (decide (old = e \/ euid t = e \/ suser t)) as [Dq|Dq];
     rewrite (put_current_bind _ _ _ _ Ht)|].
  - eexists 0, _, _. split; [reflexivity|]. split; [apply only_current_upd|].
    split; [by apply slot_current_upd|]. split; [by left|]. split; [by left|]. split; [|done].
    intros Hs. cbn. destruct Hids as (H1 & H2 & _).
    destruct Dq as [E|[E|E]]; [left|right|by rewrite Hs in E]; rewrite u16_small; lia.
  - eexists (- EPERM), _, _. split; [reflexivity|]. split; [apply only_current_upd|].
    split; [by apply slot_current_upd|]. split; [by right|].
    split; [right; by left|]. split; [by right|done].
  - exists 0, s, t. split; [done|]. split; [done|]. split; [done|]. split; [by left|].
    split; [by left|]. split; [by right|done].
Qed.

(** C35: [sys_setreuid] gives no new identity to a task that is not the superuser: its
    real and effective user ids afterwards are among the two it had; an error
    leaves both unchanged, and no other task changes. *)
Theorem sys_setreuid_no_escalation s t ruid euid_ :
  slot s (current s) = Some t -> ids_ok t ->
  exists r s' t', sys_setreuid ruid euid_ s = Done r s' /\ only_current s s' /\
    slot s' (current s) = Some t' /\ (r = 0 \/ r = - EPERM) /\
    (suser t = false -> uid_from t t') /\
    (r = - EPERM -> uid t' = uid t /\ euid t' = euid t).
Proof.
  intros Ht Hids. unfold sys_setreuid. rewrite (get_current_bind _ _ _ Ht).
  pose proof Hids as (H1 & H2 & Hr).
  destruct (decide (0 < ruid)) as [Dp|Dp];
    [destruct (decide (euid t = ruid \/ uid t = ruid \/ suser t)) as [Dq|Dq]|].
  - rewrite (put_current_bind _ _ _ _ Ht). set (s1 := upd_slot _ _ s).
    set (t1 := set_uid (u16 ruid) t).
    assert (E1 : slot s1 (current s1) = Some t1)
      by (unfold s1; rewrite current_upd; by apply slot_current_upd).
    destruct (setreuid_euid_safe s1 t1 (uid t) euid_) as (r & s' & t' & E & Ho & Et & Hc & Hu & He & H0);
      [done|done|split; [apply u16_range|done]|].
    assert (C1 : current s1 = current s) by apply current_upd. rewrite C1 in *.
    exists r, s', t'. split; [done|]. split; [eapply only_current_trans; [apply only_current_upd|done]|].
    split; [done|]. split; [tauto|]. split; [|by intros ->; destruct Hc as [?|[_ ->]]].
    intros Hs. split; [|by destruct (He Hs); [left|right]].
    apply list_elem_of_In in Hu. cbn in Hu. destruct Hu as [Hu|[Hu|[]]]; [|by left].
    destruct Dq as [E0|[E0|E0]]; [right|left|by rewrite Hs in E0];
      rewrite u16_small in Hu by lia; lia.
  - exists (- EPERM), s, t. split; [done|]. split; [done|]. split; [done|]. split; [by right|].
    split; [|done]. intros _. split; [by left|by right].
  - destruct (setreuid_euid_safe s t (uid t) euid_) as (r & s' & t' & E & Ho & Et & Hc & Hu & He & H0);
      [done|done|done|]. exists r, s', t'. split; [done|]. split; [done|]. split; [done|].
    split; [tauto|]. split; [|by intros ->; destruct Hc as [?|[_ ->]]].
    intros Hs. split; [|by destruct (He Hs); [left|right]].
    apply list_elem_of_In in Hu. cbn in Hu. left. destruct Hu as [Hu|[Hu|[]]]; done.
Qed.

(** A user id of 0 is taken for "no change": [setuid(0)] (and [setgid(0)]) returns
    success for every task and changes nothing, the superuser's included. *)
Theorem sys_setuid_0_ignored s t :
  slot s (current s) = Some t -> sys_setuid 0 s = Done 0 s /\ sys_setgid 0 s = Done 0 s.
Proof.
  intros Ht. unfold sys_setuid, sys_setreuid, setreuid_euid, sys_setgid, sys_setregid, setregid_egid.
  by split; do 2 (rewrite (get_current_bind _ _ _ Ht), decide_False by lia).
Qed.

(** ** Process groups *)

Definition find_pid (s : tasks) (p i : Z) : Prop :=
  0 <= i /\ (exists t, slot s i = Some t /\ pid t = p) /\
  forall j t, 0 <= j < i -> slot s j = Some t -> pid t <> p.

Lemma setpgid_loop_spec n i p g s c :
  slot s (current s) = Some c -> 0 <= i ->
  (forall j t, 0 <= j < i -> slot s j = Some t -> pid t <> p) ->
  (setpgid_loop n i p g s = Done (- ESRCH) s /\
     forall j t, 0 <= j < i + Z.of_nat n -> slot s j = Some t -> pid t <> p) \/
  exists k t, find_pid s p k /\ k < i + Z.of_nat n /\ slot s k = Some t /\
    setpgid_loop n i p g s =
      (if decide (leader t <> 0 \/ session t <> session c) then Done (- EPERM) s
       else Done 0 (upd_slot k (set_pgrp g) s)).
Proof.
  intros Hc. revert i. induction n as [|n IH]; intros i Hi Hpre; cbn [setpgid_loop].
  { left. split; [done|]. intros j t Hj. apply Hpre. lia. }
  rewrite gets_bind.
  assert (Hnext : (forall t, slot s i = Some t -> pid t <> p) ->
    forall j t, 0 <= j < i + 1 -> slot s j = Some t -> pid t <> p).
  { intros Hn j t Hj. destruct (decide (j = i)) as [->|]; [apply Hn|apply Hpre; lia]. }
  assert (Hrec : (forall t, slot s i = Some t -> pid t <> p) -> 
    (setpgid_loop n (i + 1) p g s = Done (- ESRCH) s /\
     forall j t, 0 <= j < i + Z.of_nat (S n) -> slot s j = Some t -> pid t <> p) \/
    exists k t, find_pid s p k /\ k < i + Z.of_nat (S n) /\ slot s k = Some t /\
    setpgid_loop n (i + 1) p g s =
      (if decide (leader t <> 0 \/ session t <> session c) then Done (- EPERM) s
       else Done 0 (upd_slot k (set_pgrp g) s))).
  { intros Hn. replace (i + Z.of_nat (S n)) with (i + 1 + Z.of_nat n) by lia.
    apply IH; [lia|by apply Hnext]. }
  destruct (slot s i) as [t|] eqn:E; [|by apply Hrec].
  destruct (decide (pid t = p)) as [Hp|Hp]; [|apply Hrec; by intros ? [= <-]].
  right. exists i, t. split; [split; [done|split; [by exists t|done]]|]. split; [lia|].
  split; [done|]. destruct (decide (leader t <> 0)) as [Dl|Dl].
  - by rewrite decide_True by tauto.
  - rewrite (get_current_bind _ _ _ Hc). destruct (decide (session t <> session c)) as [Ds|Ds].
    + by rewrite decide_True by tauto.
    + rewrite decide_False by tauto. unfold mbind, M_bind. by rewrite (put_task_Some _ _ _ _ E).
Qed.

(** [sys_setpgid] moves the first task with the process id (the caller's for 0)
    to the group, unless it is a session leader or in another session (-EPERM), and
    reports -ESRCH when there is none; nothing else changes. *)
Theorem sys_setpgid_spec s c p g :
  slot s (current s) = Some c ->
  let p' := if decide (p = 0) then pid c else p in
  let g' := if decide (g = 0) then pid c else g in
  (sys_setpgid p g s = Done (- ESRCH) s /\
     forall j t, 0 <= j < NR_TASKS -> slot s j = Some t -> pid t <> p') \/
  exists k t, find_pid s p' k /\ slot s k = Some t /\
    sys_setpgid p g s =
      (if decide (leader t <> 0 \/ session t <> session c) then Done (- EPERM) s
       else Done 0 (upd_slot k (set_pgrp g') s)).
Proof.
  intros Hc p' g'. unfold sys_setpgid. rewrite (get_current_bind _ _ _ Hc).
  destruct (setpgid_loop_spec (Z.to_nat NR_TASKS) 0 p' g' s c) as [H|(k & t & H1 & _ & H2)];
    [done|lia|intros; lia|by left|]. right. exists k, t. split; [done|]. done.
Qed.

(** ** Instances: task 0 is the current one, an ordinary user's *)

Definition ex_task : task_struct :=
  set_pgrp 3 (set_euid 200 (set_uid 100 (INIT_TASK 0 0))).
Definition ex_tasks : tasks := Tasks (Some ex_task :: replicate 63 None) 0 0 0.

Lemma ex_ids : ids_ok ex_task.
Proof. unfold ids_ok. cbn. lia. Qed.

Lemma sys_setreuid_no_escalation_witness :
  exists r s' t', sys_setreuid 200 300 ex_tasks = Done r s' /\ slot s' 0 = Some t' /\
    uid_from ex_task t'.
Proof.
  destruct (sys_setreuid_no_escalation ex_tasks ex_task 200 300)
    as (r & s' & t' & E & _ & Ht & _ & H & _); [reflexivity|exact ex_ids|].
  exists r, s', t'. split; [exact E|]. split; [exact Ht|]. apply H. reflexivity.
Defined.

Lemma sys_setuid_0_ignored_witness : sys_setuid 0 ex_tasks = Done 0 ex_tasks.
Proof. apply (sys_setuid_0_ignored ex_tasks ex_task). reflexivity. Defined.

Lemma sys_setpgid_spec_witness :
  sys_setpgid 0 7 ex_tasks = Done 0 (upd_slot 0 (set_pgrp 7) ex_tasks).
Proof.
  destruct (sys_setpgid_spec ex_tasks ex_task 0 7) as [[_ H]|(k & t & Hk & Ht & E)];
    [reflexivity| |].
  - exfalso. apply (H 0 ex_task); [unfold NR_TASKS; lia|reflexivity|reflexivity].
  - rewrite E. destruct Hk as (Hk0 & _ & Hmin).
    destruct (decide (k = 0)) as [->|Hne].
    + injection Ht as <-. reflexivity.
    + exfalso. apply (Hmin 0 ex_task); [lia|reflexivity|reflexivity].
Defined.

End Syscalls.
