(* ===== verification/Signal.v ===== *)
(** * kernel/signal.c: signal masks, actions, and the handler's stack frame

    [do_signal] works on the registers saved on the kernel stack: the model
    returns the [eip] and [esp] it leaves there.  A default action ends the task
    through [do_exit]. *)

From S2P Require Import Prelude Memory Task Segments UserMem.
Import Memory Task Segments UserMem.

Module Signal.

Definition set_blocked (v : Z) (t : task_struct) : task_struct := {| t with blocked := v |}.
Definition set_action (signum : Z) (a : sigaction_t) (t : task_struct) : task_struct :=
  {| t with sigaction := zset (sigaction t) (signum - 1) a |}.
Definition get_action (signum : Z) (t : task_struct) : option sigaction_t :=
  zget (sigaction t) (signum - 1).

Definition sys_sgetmask : M tasks Z := t ← get_current; mret (s32 (blocked t)).

Definition sys_ssetmask (newmask : Z) : M tasks Z :=
  t ← get_current;
  put_current (set_blocked (Z.land (u32 newmask) (not32 (Z.shiftl 1 (SIGKILL - 1)))));;
  mret (s32 (blocked t)).

(** [struct sigaction] in user memory: four longs. *)
Definition get_new (from : Z) (m : umem) : sigaction_t :=
  Sigaction (get_fs_long m from) (get_fs_long m (from + 4))
            (get_fs_long m (from + 8)) (get_fs_long m (from + 12)).
Definition save_old (a : sigaction_t) (to : Z) (m : umem) : umem :=
  put_fs_long (sa_restorer a) (to + 12) (put_fs_long (sa_flags a) (to + 8)
    (put_fs_long (sa_mask a) (to + 4) (put_fs_long (sa_handler a) to m))).

Definition bad_signum (signum : Z) : Prop := signum < 1 \/ 32 < signum \/ signum = SIGKILL.
#[global] Instance bad_signum_dec n : Decision (bad_signum n).
Proof. unfold bad_signum. apply _. Defined.

Definition sys_signal (signum handler restorer : Z) : M tasks Z :=
  if decide (bad_signum signum) then mret (-1)
  else
    t ← get_current;
    old ← deref "sigaction" (get_action signum t);
    put_current (set_action signum (Sigaction handler 0 (Z.lor SA_ONESHOT SA_NOMASK) restorer));;
    mret (sa_handler old).

Definition sys_sigaction (signum action oldaction : Z) : M user Z :=
  if decide (bad_signum signum) then mret (-1)
  else
    t ← on_utab get_current;
    tmp ← deref "sigaction" (get_action signum t);
    new ← gets (fun s => get_new action (um s));
    on_utab (put_current (set_action signum new));;
    (if decide (oldaction <> 0)
     then verify_area oldaction 16;; upd_um (save_old tmp oldaction) else skip);;
    (if decide (Z.land (sa_flags new) SA_NOMASK <> 0)
     then on_utab (put_current (set_action signum {| new with sa_mask := 0 |}))
     else on_utab (put_current (set_action signum
            {| new with sa_mask := Z.lor (sa_mask new) (Z.shiftl 1 (signum - 1)) |})));;
    mret 0.

(** The saved registers [do_signal] pushes. *)
Record regs : Type := Regs {
  r_eax : Z; r_ecx : Z; r_edx : Z; r_eflags : Z; r_eip : Z; r_esp : Z
}.

(** Consecutive [put_fs_long]s from [a]. *)
Fixpoint put_longs (l : list Z) (a : Z) (m : umem) : umem :=
  match l with [] => m | v :: l' => put_longs l' (a + 4) (put_fs_long v a m) end.

(** The longs of the handler's frame, from the stack pointer up. *)
Definition frame_longs (signr : Z) (sa : sigaction_t) (blocked : Z) (r : regs) : list Z :=
  [sa_restorer sa; signr] ++
  (if decide (Z.land (sa_flags sa) SA_NOMASK <> 0) then [] else [blocked]) ++
  [r_eax r; r_ecx r; r_edx r; r_eflags r; r_eip r].

Definition do_signal (signr : Z) (r : regs) : M user (Z * Z) :=
  t ← on_utab get_current;
  sa ← deref "sigaction" (get_action signr t);
  let handler := sa_handler sa in
  if decide (handler = 1) then mret (r_eip r, r_esp r)
  else if decide (handler = 0) then
    if decide (signr = SIGCHLD) then mret (r_eip r, r_esp r)
    else exited (Z.shiftl 1 (signr - 1))
  else
    (if decide (Z.land (sa_flags sa) SA_ONESHOT <> 0)
     then on_utab (put_current (set_action signr {| sa with sa_handler := 0 |})) else skip);;
    let longs := if decide (Z.land (sa_flags sa) SA_NOMASK <> 0) then 7 else 8 in
    let esp := u32 (r_esp r - 4 * longs) in
    verify_area esp (longs * 4);;
    upd_um (put_longs (frame_longs signr sa (blocked t) r) esp);;
    on_utab (put_current (fun t => set_blocked (Z.lor (blocked t) (sa_mask sa)) t));;
    mret (handler, esp).

(** ** The frame in user memory *)

Lemma put_longs_frame l a m b :
  b + 3 < a \/ a + 4 * zlen l <= b -> get_fs_long (put_longs l a m) b = get_fs_long m b.
Proof.
  revert a m. induction l as [|v l IH]; intros a m H; [done|]. cbn [put_longs].
  assert (zlen (v :: l) = 1 + zlen l) as E by (unfold zlen; simpl; lia).
  pose proof (zlen_nonneg l). rewrite IH by lia. apply get_long_frame. lia.
Qed.

(** Long [k] of a frame. *)
Lemma put_longs_get l a m k v :
  l !! k = Some v -> get_fs_long (put_longs l a m) (a + 4 * Z.of_nat k) = u32 v.
Proof.
  revert a m k. induction l as [|w l IH]; intros a m [|k] H; try done; cbn [put_longs].
  - injection H as ->. rewrite put_longs_frame by lia.
    rewrite Z.mul_0_r, Z.add_0_r. apply get_long_same.
  - replace (a + 4 * Z.of_nat (S k)) with (a + 4 + 4 * Z.of_nat k) by lia. by apply IH.
Qed.

(** ** Masks *)

(** SIGKILL cannot be blocked through [ssetmask] or given a handler. *)
Definition kill_safe (t : task_struct) : Prop :=
  Z.testbit (blocked t) (SIGKILL - 1) = false /\
  exists a, get_action SIGKILL t = Some a /\ sa_handler a = 0.

Lemma set_action_kill n a t :
  n <> SIGKILL -> 0 <= n - 1 < zlen (sigaction t) -> kill_safe t -> kill_safe (set_action n a t).
Proof.
  intros Hn Hr [Hb (k & Hk & H0)]. split; [done|]. exists k. split; [|done].
  unfold get_action, set_action. cbn. rewrite zget_zset_ne; [done|lia].
Qed.

Lemma not32_bit x i : 0 <= x < 2 ^ 32 -> 0 <= i < 32 -> Z.testbit (not32 x) i = negb (Z.testbit x i).
Proof.
  intros Hx Hi. unfold not32. rewrite u32_small by done. rewrite Z.lxor_spec.
  change (2 ^ 32 - 1) with (Z.ones 32). rewrite Z.testbit_ones by lia.
  destruct (Z.leb_spec 0 i), (Z.ltb_spec i 32); try lia. by destruct (Z.testbit x i).
Qed.

(** [sys_ssetmask] and [sys_signal] keep SIGKILL deliverable: whatever the
    arguments, SIGKILL stays unblocked and without a handler, and [sys_signal]
    refuses it and every number outside 1..32 with -1. *)
Theorem sigkill_kept s t newmask signum handler restorer :
  slot s (current s) = Some t -> zlen (sigaction t) = 32 -> kill_safe t ->
  (exists r s' t', sys_ssetmask newmask s = Done r s' /\ slot s' (current s) = Some t' /\
     r = s32 (blocked t) /\ kill_safe t') /\
  (exists r s' t', sys_signal signum handler restorer s = Done r s' /\
     slot s' (current s) = Some t' /\ kill_safe t' /\
     (if decide (bad_signum signum) then r = -1 /\ s' = s
      else exists old, get_action signum t = Some old /\ r = sa_handler old /\
        t' = set_action signum (Sigaction handler 0 (Z.lor SA_ONESHOT SA_NOMASK) restorer) t)).
Proof.
  intros Ht Hlen Hk. split.
  - unfold sys_ssetmask. rewrite (done_bind _ _ _ _ _ (get_current_Some _ _ Ht)).
    rewrite (done_bind _ _ _ _ _ (put_current_Some _ _ _ Ht)).
    eexists _, _, _. split; [reflexivity|]. split; [by apply slot_current_upd|].
    split; [done|]. split; [|apply Hk]. unfold set_blocked. cbn [blocked].
    rewrite Z.land_spec, not32_bit by (split; done). by rewrite andb_false_r.
  - unfold sys_signal. case_decide as D; [by exists (-1), s, t|].
    rewrite (done_bind _ _ _ _ _ (get_current_Some _ _ Ht)).
    assert (Hr : 0 <= signum - 1 < zlen (sigaction t)) by (unfold bad_signum in D; lia).
    destruct (zget_is_Some _ _ Hr) as [old Ho]. unfold get_action at 1. rewrite Ho.
    unfold deref. rewrite ret_bind. rewrite (done_bind _ _ _ _ _ (put_current_Some _ _ _ Ht)).
    eexists _, _, _. split; [reflexivity|]. split; [by apply slot_current_upd|].
    split; [apply set_action_kill; [unfold bad_signum in D; tauto|done|done]|].
    by exists old.
Qed.

(** ** Delivery *)

Definition frame_size (sa : sigaction_t) : Z :=
  if decide (Z.land (sa_flags sa) SA_NOMASK <> 0) then 7 else 8.

Lemma frame_longs_len signr sa b r : zlen (frame_longs signr sa b r) = frame_size sa.
Proof. unfold frame_longs, frame_size. by case_decide. Qed.

Lemma on_utab_bind {A B} (m : M tasks A) (k : A -> M user B) s x t' :
  m (utab s) = Done x t' -> (on_utab m ≫= k) s = k x {| s with utab := t' |}.
Proof. intros E. apply done_bind. unfold on_utab, zoom. by rewrite E. Qed.

(** [verify_area] when its pages can be made writable. *)
Lemma verify_area_bind {B} addr size (k : unit -> M user B) s t d m' :
  slot (utab s) (current (utab s)) = Some t -> zget (ldt t) 2 = Some d ->
  verify_pages (Z.to_nat ((size + Z.land addr 0xfff + 4095) / 4096))
    (u32 (Z.land addr 0xfffff000 + get_base d)) (umm s) = Done tt m' ->
  (verify_area addr size ≫= k) s = k tt {| s with umm := m' |}.
Proof.
  intros Ht Hd Hv. apply done_bind. unfold verify_area.
  rewrite (on_utab_bind _ _ _ _ _ (get_current_Some _ _ Ht)). rewrite Hd. unfold deref.
  rewrite ret_bind. unfold on_umm, zoom. cbn [umm]. by rewrite Hv.
Qed.

(** The task [t] after a handler for [signr] with the action [sa] was set up: the action's mask is
    blocked, a one-shot action is reset to the default, and nothing else changed. *)
Record handling (signr : Z) (sa : sigaction_t) (t t' : task_struct) : Prop := {
  hg_blocked : blocked t' = Z.lor (blocked t) (sa_mask sa);
  hg_action : zget (sigaction t') (signr - 1) =
    Some (if decide (Z.land (sa_flags sa) SA_ONESHOT <> 0) then {| sa with sa_handler := 0 |} else sa);
  hg_others : forall n, n <> signr -> zget (sigaction t') (n - 1) = zget (sigaction t) (n - 1);
  hg_rest : t = {| t' with blocked := blocked t; sigaction := sigaction t |}
}.

Lemma handling_intro signr sa t :
  get_action signr t = Some sa ->
  let t1 := if decide (Z.land (sa_flags sa) SA_ONESHOT <> 0)
            then set_action signr {| sa with sa_handler := 0 |} t else t in
  handling signr sa t (set_blocked (Z.lor (blocked t1) (sa_mask sa)) t1).
Proof.
  intros Hsa t1. unfold get_action in Hsa. pose proof (zget_Some_range _ _ _ Hsa) as Hr. unfold t1. case_decide as Ho; split.
  all: try (by destruct t).
  - cbn. rewrite decide_True by done. by rewrite zget_zset_eq.
  - intros n Hn. cbn. by rewrite zget_zset_ne by lia.
  - rewrite decide_False by (intros H; by apply H). exact Hsa.
Qed.

(** The handler's frame: the longs from the stack pointer [esp] up to the interrupted one,
    [top].  Without SA_NOMASK the old mask lies between the signal number and the registers. *)
Record handler_frame (m : umem) (esp top signr : Z) (sa : sigaction_t) (mask : Z) (r : regs) : Prop := {
  hf_restorer : get_fs_long m esp = u32 (sa_restorer sa);
  hf_signr : get_fs_long m (esp + 4) = u32 signr;
  hf_mask : Z.land (sa_flags sa) SA_NOMASK = 0 -> get_fs_long m (esp + 8) = u32 mask;
  hf_eax : get_fs_long m (top - 20) = u32 (r_eax r);
  hf_ecx : get_fs_long m (top - 16) = u32 (r_ecx r);
  hf_edx : get_fs_long m (top - 12) = u32 (r_edx r);
  hf_eflags : get_fs_long m (top - 8) = u32 (r_eflags r);
  hf_eip : get_fs_long m (top - 4) = u32 (r_eip r)
}.

Lemma handler_frame_put signr sa mask r m top :
  let esp := top - 4 * frame_size sa in
  handler_frame (put_longs (frame_longs signr sa mask r) esp m) esp top signr sa mask r.
Proof.
  intros esp. unfold esp, frame_size, frame_longs. case_decide as Hm; cbn [app].
  all: set (l := _ :: _); set (a := top - _).
  all: assert (H : forall k v p, l !! k = Some v -> p = a + 4 * Z.of_nat k -> get_fs_long (put_longs l a m) p = u32 v)
    by (intros k v p Hk ->; by apply put_longs_get).
  - split; [apply (H 0%nat)|apply (H 1%nat)|intros E; by destruct Hm
      |apply (H 2%nat)|apply (H 3%nat)|apply (H 4%nat)|apply (H 5%nat)|apply (H 6%nat)]; done || (unfold a; lia).
  - split; [apply (H 0%nat)|apply (H 1%nat)|intros _; apply (H 2%nat)
      |apply (H 3%nat)|apply (H 4%nat)|apply (H 5%nat)|apply (H 6%nat)|apply (H 7%nat)]; done || (unfold a; lia).
Qed.

(** C34: delivering a signal with a handler: the task continues at the handler with the
    stack pointer 7 or 8 longs lower; the frame there holds, from the stack pointer up, the
    restorer, the signal number, the old mask unless the action has SA_NOMASK, and the saved
    eax, ecx, edx, eflags and eip; memory above and below the frame is untouched; the action's
    mask is blocked, a one-shot action is reset to the default, and nothing else of this or
    another task changes. *)
Theorem do_signal_frame signr r s t sa d m' :
  let tab := utab s in
  let esp := r_esp r - 4 * frame_size sa in
  slot tab (current tab) = Some t -> get_action signr t = Some sa ->
  sa_handler sa <> 0 -> sa_handler sa <> 1 -> zget (ldt t) 2 = Some d ->
  4 * frame_size sa <= r_esp r < 2 ^ 32 ->
  verify_pages (Z.to_nat ((frame_size sa * 4 + Z.land esp 0xfff + 4095) / 4096))
    (u32 (Z.land esp 0xfffff000 + get_base d)) (umm s) = Done tt m' ->
  exists s' t', do_signal signr r s = Done (sa_handler sa, esp) s' /\
    slot (utab s') (current tab) = Some t' /\ handling signr sa t t' /\
    (forall j, j <> current tab -> slot (utab s') j = slot tab j) /\
    handler_frame (um s') esp (r_esp r) signr sa (blocked t) r /\
    (forall a, a + 3 < esp \/ r_esp r <= a -> get_fs_long (um s') a = get_fs_long (um s) a).
Proof.
  intros tab esp Ht Hsa H0 H1 Hd Hesp Hv. unfold do_signal.
  rewrite (on_utab_bind _ _ _ _ _ (get_current_Some _ _ Ht)). rewrite Hsa. unfold deref at 1.
  rewrite ret_bind. rewrite decide_False, decide_False by done. fold (frame_size sa).
  assert (Eesp : u32 (r_esp r - 4 * frame_size sa) = esp).
  { apply u32_small. unfold frame_size in *. case_decide; lia. }
  rewrite Eesp.
  set (t1 := if decide (Z.land (sa_flags sa) SA_ONESHOT <> 0)
             then set_action signr {| sa with sa_handler := 0 |} t else t).
  assert (Hone : exists s1, (if decide (Z.land (sa_flags sa) SA_ONESHOT <> 0)
     then on_utab (put_current (set_action signr {| sa with sa_handler := 0 |})) else skip)
     {| s with utab := tab |} = Done tt s1 /\
     slot (utab s1) (current (utab s1)) = Some t1 /\ um s1 = um s /\ umm s1 = umm s /\
     current (utab s1) = current tab /\ (forall j, j <> current tab -> slot (utab s1) j = slot tab j)).
  { unfold t1. case_decide.
    - unfold on_utab, zoom. cbn [utab]. rewrite (put_current_Some _ _ _ Ht).
      eexists. split; [reflexivity|]. cbn. rewrite current_upd. split; [by apply slot_current_upd|].
      split_and!; try done. intros j Hj. by rewrite slot_upd_slot, decide_False.
    - eexists. split; [reflexivity|]. done. }
  destruct Hone as (s1 & E1 & Ht1 & Hum & Hmm & Hcur & Hoth). rewrite (done_bind _ _ _ _ _ E1).
  assert (Hd1 : zget (ldt t1) 2 = Some d) by (unfold t1; by case_decide).
  rewrite (verify_area_bind _ _ _ s1 t1 d m' Ht1 Hd1) by (by rewrite Hmm).
  unfold upd_um. rewrite modify_bind. cbn [utab um umm].
  erewrite on_utab_bind by (cbn [utab]; exact (put_current_Some _ _ _ Ht1)).
  rewrite <- Hcur. eexists _, _. split; [reflexivity|]. cbn [utab um umm].
  split; [by apply slot_current_upd|]. split; [by apply (handling_intro signr sa t)|]. split; [|rewrite Hum; split].
  - intros j Hj. rewrite slot_upd_slot, decide_False by done. apply Hoth. by rewrite <- Hcur.
  - apply handler_frame_put.
  - intros a Ha. apply put_longs_frame. rewrite frame_longs_len. unfold esp in *. lia.
Qed.

(** ** Instances *)

(** A task with a handler for signal 5 whose mask is all signals. *)
Definition ex_act : sigaction_t := Sigaction 0x1000 0xffffffff 0 0x2000.
Definition ex_task : task_struct := set_action 5 ex_act (INIT_TASK 0 0).
Definition ex_user : user := User (Tasks (Some ex_task :: replicate 63 None) 0 0 0) ∅ (Mm 0 [] ∅).
Definition ex_regs : regs := Regs 1 2 3 4 5 0x8000.

(** The mask of an action can block SIGKILL: [sys_sigaction] stores any mask, and
    [do_signal] adds it to the blocked signals, so that after the delivery of a
    signal whose action masks everything SIGKILL is blocked, which [sys_ssetmask]
    forbids. *)
Theorem do_signal_blocks_sigkill :
  exists r s' t', do_signal 5 ex_regs ex_user = Done r s' /\
    slot (utab s') 0 = Some t' /\ kill_safe ex_task /\
    Z.testbit (blocked t') (SIGKILL - 1) = true.
Proof.
  eexists _, _, _. split; [vm_compute; reflexivity|]. split; [reflexivity|].
  split; [|reflexivity]. split; [reflexivity|]. by exists sigaction0.
Qed.

Lemma do_signal_frame_witness :
  exists s', do_signal 5 ex_regs ex_user = Done (0x1000, 0x8000 - 32) s' /\
    get_fs_long (um s') (0x8000 - 28) = 5 /\ get_fs_long (um s') (0x8000 - 16) = 2.
Proof.
  destruct (do_signal_frame 5 ex_regs ex_user ex_task ex_act (Desc 0x9f 0xc0f200) (Mm 0 [] ∅))
    as (s' & t' & E & _ & _ & _ & H & _);
    [reflexivity|reflexivity|discriminate|discriminate|reflexivity|vm_compute; split; [discriminate|reflexivity]
    |vm_compute; reflexivity|].
  exists s'. split; [exact E|]. split; [exact (hf_signr _ _ _ _ _ _ _ H)|exact (hf_ecx _ _ _ _ _ _ _ H)].
Defined.

Lemma sigkill_kept_witness :
  exists r s', sys_signal 9 1 0 (utab ex_user) = Done r s' /\ r = -1.
Proof.
  destruct (sigkill_kept (utab ex_user) ex_task 0 9 1 0) as [_ (r & s' & t' & E & _ & _ & H)];
    [reflexivity|reflexivity|split; [reflexivity|by exists sigaction0]|].
  exists r, s'. split; [exact E|]. apply H.
Defined.

End Signal.
