(* ===== verification/Process.v ===== *)
(** * kernel/fork.c and kernel/exit.c: the life of a process

    The state joins the scheduler, the paging state, user memory of the current
    task, the GDT, the pages that hold the task structures, and the process
    groups of the terminals.  What the file system does when a file is closed or
    an inode released is the interface [FileOps].  [resched] is a call of
    [schedule] that comes back: everything other tasks do until this one runs
    again. *)

From S2P Require Import Prelude Memory Task Sched Segments UserMem.
Import Memory Task Sched Segments UserMem.

Module Process.

Definition EPERM : Z := 1.
Definition EINTR : Z := 4.
Definition ECHILD : Z := 10.
Definition EAGAIN : Z := 11.
Definition ENOMEM : Z := 12.
Definition EINVAL : Z := 22.
Definition WNOHANG : Z := 1.
Definition WUNTRACED : Z := 2.
Definition PAGE_SIZE : Z := 4096.

(** Counts in the open-file table and the inode table. *)
Class FileOps (F : Type) : Type := {
  f_inc : Z -> F -> F;            (* filp->f_count++ *)
  i_inc : Z -> F -> F;            (* inode->i_count++ *)
  f_put : Z -> M F unit;          (* sys_close after the descriptor is cleared *)
  iput : option Z -> M F unit
}.

Record proc (F : Type) : Type := Proc {
  psched : sched;
  pmm : mm;
  pum : umem;
  plast_pid : Z;
  pgdt : list desc;
  ppage : gmap Z Z;               (* slot -> address of its task_struct *)
  ptty_pgrp : list Z;             (* tty_table[i].pgrp *)
  pfiles : F
}.
Arguments Proc {F}. Arguments psched {F}. Arguments pmm {F}. Arguments pum {F}.
Arguments plast_pid {F}. Arguments pgdt {F}. Arguments ppage {F}.
Arguments ptty_pgrp {F}. Arguments pfiles {F}.

(** Offsets of [ldt] and [tss] in [struct task_struct]. *)
Definition LDT_OFFSET : Z := 720.
Definition TSS_OFFSET : Z := 744.

(** [_set_tssldt_desc(n,addr,type)]. *)
Definition tssldt_desc (addr type : Z) : desc :=
  Desc (104 + 2 ^ 16 * u16 addr)
       (u8 (addr / 2 ^ 16) + 2 ^ 8 * type + 2 ^ 24 * u8 (addr / 2 ^ 24)).

Definition set_signal_bit (sig : Z) (t : task_struct) : task_struct :=
  set_signal (Z.lor (signal t) (Z.shiftl 1 (sig - 1))) t.
Definition set_father (v : Z) (t : task_struct) : task_struct := {| t with father := v |}.
Definition set_filp (fd : Z) (v : option Z) (t : task_struct) : task_struct :=
  {| t with filp := zset (filp t) fd v; close_on_exec := Z.ldiff (close_on_exec t) (Z.shiftl 1 fd) |}.
Definition set_zombie (code : Z) (t : task_struct) : task_struct :=
  {| t with state := TASK_ZOMBIE; exit_code := code |}.
Definition clear_pwd (t : task_struct) : task_struct := {| t with pwd := None |}.
Definition clear_root (t : task_struct) : task_struct := {| t with root := None |}.
Definition clear_exec (t : task_struct) : task_struct := {| t with executable := None |}.

Section process.
Context {F : Type} `{FileOps F}.
Definition on_sch {A} : M sched A -> M (proc F) A := zoom psched (fun t s => {| s with psched := t |}).
Definition on_t {A} (m : M tasks A) : M (proc F) A := on_sch (on_tab m).
Definition on_mm {A} : M mm A -> M (proc F) A := zoom pmm (fun t s => {| s with pmm := t |}).
Definition on_f {A} : M F A -> M (proc F) A := zoom pfiles (fun t s => {| s with pfiles := t |}).
Definition put_user (v a : Z) : M (proc F) unit :=
  modify (fun s => {| s with pum := put_fs_long v a (pum s) |}).
Definition cur : M (proc F) task_struct := on_t get_current.
Definition set_page (nr : Z) (a : option Z) : M (proc F) unit :=
  modify (fun s => {| s with ppage := match a with Some x => <[nr := x]> (ppage s)
                                      | None => delete nr (ppage s) end |}).

(** ** fork.c *)

(** The pid counter: [if ((++last_pid)<0) last_pid=1]. *)
Definition next_pid (p : Z) : Z := let q := s32 (p + 1) in if decide (q < 0) then 1 else q.

Definition pid_used (s : tasks) (p : Z) : bool :=
  existsb (fun o => match o with Some t => bool_decide (pid t = p) | None => false end)
    (take (Z.to_nat NR_TASKS) (task s)).

(** The first free slot from [i]. *)
Fixpoint free_slot (n : nat) (i : Z) (s : tasks) : option Z :=
  match n with
  | O => None
  | S n' => match slot s i with None => Some i | Some _ => free_slot n' (i + 1) s end
  end.

(** The [repeat] loop of [find_empty_process]. *)
Fixpoint new_pid (fuel : nat) (s : tasks) (last : Z) : option Z :=
  match fuel with
  | O => None
  | S fuel' =>
      let p := next_pid last in if pid_used s p then new_pid fuel' s p else Some p
  end.

Definition find_empty_process : M (proc F) Z :=
  t ← on_t (gets (fun s => s));
  last ← gets plast_pid;
  match new_pid 65 t last with
  | None => fun _ => NoFuel
  | Some p =>
      modify (fun s => {| s with plast_pid := p |});;
      mret (default (- EAGAIN) (free_slot (Z.to_nat (NR_TASKS - 1)) 1 t))
  end.

Definition ldt_of (t : task_struct) (i : Z) : M (proc F) desc := deref "ldt" (zget (ldt t) i).
Definition set_ldt (i : Z) (d : desc) (t : task_struct) : task_struct :=
  {| t with ldt := zset (ldt t) i d |}.
Definition set_code (base : Z) (t : task_struct) : task_struct := {| t with start_code := base |}.

(** [copy_mem(nr,p)] for the task in slot [nr]. *)
Definition copy_mem (nr : Z) : M (proc F) Z :=
  c ← cur;
  d1 ← ldt_of c 1; d2 ← ldt_of c 2;
  let code_limit := get_limit d1 in let data_limit := get_limit d2 in
  let old_code_base := get_base d1 in let old_data_base := get_base d2 in
  if decide (old_data_base <> old_code_base) then panic "We don't support separate I&D"
  else if decide (data_limit < code_limit) then panic "Bad data_limit"
  else
    let new_base := u32 (nr * 0x4000000) in
    p ← on_t (get_task nr);
    p1 ← ldt_of p 1; p2 ← ldt_of p 2;
    on_t (put_task nr (fun p => set_ldt 2 (set_base p2 new_base)
      (set_ldt 1 (set_base p1 new_base) (set_code new_base p))));;
    r ← on_mm (copy_page_tables old_data_base new_base data_limit);
    if decide (r <> 0) then
      on_mm (free_page_tables new_base data_limit);; mret (- ENOMEM)
    else mret 0.

(** The registers [copy_process] gets from the kernel stack. *)
Record fork_regs : Type := ForkRegs {
  k_ebp : Z; k_edi : Z; k_esi : Z; k_gs : Z; k_ebx : Z; k_ecx : Z; k_edx : Z;
  k_fs : Z; k_es : Z; k_ds : Z; k_eip : Z; k_cs : Z; k_eflags : Z; k_esp : Z; k_ss : Z
}.

Definition child_tss (nr page : Z) (r : fork_regs) (t : tss_struct) : tss_struct :=
  {| t with
     back_link := 0; esp0 := PAGE_SIZE + page; ss0 := 0x10;
     eip := k_eip r; eflags := k_eflags r; eax := 0; ecx := k_ecx r; edx := k_edx r;
     ebx := k_ebx r; esp := k_esp r; ebp := k_ebp r; esi := k_esi r; edi := k_edi r;
     es := u16 (k_es r); cs := u16 (k_cs r); ss := u16 (k_ss r); ds := u16 (k_ds r);
     fs := u16 (k_fs r); gs := u16 (k_gs r);
     tss_ldt := LDT_ nr; trace_bitmap := 0x80000000 |}.

(** The child's structure, copied from the parent [c]. *)
Definition child_task (nr page pid_ jiffies : Z) (r : fork_regs) (c : task_struct) : task_struct :=
  {| c with
     state := TASK_UNINTERRUPTIBLE; pid := pid_; father := pid c; counter := priority c;
     signal := 0; alarm := 0; leader := 0; utime := 0; stime := 0; cutime := 0; cstime := 0;
     start_time := jiffies; tss := child_tss nr page r (tss c) |}.

Definition opt_inc (i : option Z) : M (proc F) unit :=
  match i with Some x => on_f (modify (i_inc x)) | None => skip end.

(** [if (last_task_used_math == current) __asm__("clts ; fnsave ...")] *)
Definition fork_math (nr : Z) : M (proc F) unit :=
  last ← gets (fun s => last_task_used_math (psched s));
  c ← on_t (gets current);
  if decide (last = Some c) then
    on_sch (modify (fun s => {| s with cr0_ts := false |}));; on_sch (fnsave nr)
  else skip.

Definition inc_files (l : list (option Z)) : M (proc F) unit :=
  for_up (length l) 0 (fun i =>
    match mjoin (zget l i) with Some f => on_f (modify (f_inc f)) | None => skip end).

Definition set_gdt (i : Z) (d : desc) : M (proc F) unit :=
  modify (fun s => {| s with pgdt := zset (pgdt s) i d |}).

Definition copy_process (nr : Z) (r : fork_regs) : M (proc F) Z :=
  page ← on_mm get_free_page;
  if decide (page = 0) then mret (- EAGAIN)
  else
    set_page nr (Some page);;
    c ← cur;
    last_pid ← gets plast_pid;
    j ← on_t (gets jiffies);
    on_t (modify (set_slot nr (Some (child_task nr page last_pid j r c))));;
    fork_math nr;;
    e ← copy_mem nr;
    if decide (e <> 0) then
      on_t (modify (set_slot nr None));;
      on_mm (free_page page);;
      set_page nr None;;
      mret (- EAGAIN)
    else
      p ← on_t (get_task nr);
      inc_files (filp p);;
      c ← cur;
      opt_inc (pwd c);; opt_inc (root c);; opt_inc (executable c);;
      set_gdt (2 * nr + 4) (tssldt_desc (page + TSS_OFFSET) 0x89);;
      set_gdt (2 * nr + 5) (tssldt_desc (page + LDT_OFFSET) 0x82);;
      on_t (put_task nr (set_state TASK_RUNNING));;
      gets plast_pid.

(** ** exit.c *)

Context (resched : M (proc F) unit).

(** [release(p)] for the task in slot [p]. *)
Definition release (p : Z) : M (proc F) unit :=
  o ← on_t (gets (fun s => slot s p));
  match o with
  | Some _ =>
      if decide (1 <= p < NR_TASKS) then
        on_t (modify (set_slot p None));;
        a ← gets (fun s => ppage s !! p);
        a ← deref "task page" a;
        on_mm (free_page a);;
        set_page p None;;
        resched
      else panic "trying to release non-existent task"
  | None => skip
  end.

Definition suser (t : task_struct) : bool := bool_decide (euid t = 0).

(** [send_sig(sig,p,priv)], [p] a slot whose pointer may be null. *)
Definition send_sig (sig p : Z) (priv : bool) : M tasks Z :=
  o ← gets (fun s => slot s p);
  match o with
  | None => mret (- EINVAL)
  | Some t =>
      if decide (sig < 1 \/ 32 < sig) then mret (- EINVAL)
      else
        c ← get_current;
        if decide (priv \/ euid c = euid t \/ suser c)
        then put_task p (set_signal_bit sig);; mret 0
        else mret (- EPERM)
  end.

(** [while (--p > &FIRST_TASK)]: slots 63 down to 1, with the last error. *)
Fixpoint kill_loop (n : nat) (sig : Z) (priv : bool) (sel : option task_struct -> bool)
    (retval : Z) : M tasks Z :=
  match n with
  | O => mret retval
  | S n' =>
      o ← gets (fun s => slot s (Z.of_nat n));
      if sel o then
        err ← send_sig sig (Z.of_nat n) priv;
        kill_loop n' sig priv sel (if decide (err <> 0) then err else retval)
      else kill_loop n' sig priv sel retval
  end.

Definition sel_task (f : task_struct -> bool) (o : option task_struct) : bool :=
  match o with Some t => f t | None => false end.

Definition sys_kill (pid_ sig : Z) : M tasks Z :=
  c ← get_current;
  if decide (pid_ = 0) then
    kill_loop LAST sig true (sel_task (fun t => bool_decide (pgrp t = pid c))) 0
  else if decide (0 < pid_) then
    kill_loop LAST sig false (sel_task (fun t => bool_decide (pid t = pid_))) 0
  else if decide (pid_ = -1) then kill_loop LAST sig false (fun _ => true) 0
  else kill_loop LAST sig false (sel_task (fun t => bool_decide (pgrp t = - pid_))) 0.

(** [kill_session]. *)
Definition kill_session : M tasks unit :=
  c ← get_current;
  modify (for_tasks LAST (fun t =>
    if decide (session t = session c) then set_signal_bit SIGHUP t else t)).

(** The first task with process id [p]. *)
Fixpoint find_task (n : nat) (i p : Z) (s : tasks) : option Z :=
  match n with
  | O => None
  | S n' =>
      match slot s i with
      | Some t => if decide (pid t = p) then Some i else find_task n' (i + 1) p s
      | None => find_task n' (i + 1) p s
      end
  end.

Definition tell_father (p : Z) : M (proc F) unit :=
  o ← on_t (gets (fun s => if decide (p <> 0) then find_task (Z.to_nat NR_TASKS) 0 p s else None));
  match o with
  | Some i => on_t (put_task i (set_signal_bit SIGCHLD))
  | None => c ← on_t (gets current); release c
  end.

(** The children of the exiting task go to task 1. *)
Definition reparent (i : Z) : M tasks unit :=
  o ← gets (fun s => slot s i);
  match o with
  | None => skip
  | Some t =>
      c ← get_current;
      if decide (father t = pid c) then
        put_task i (set_father 1);;
        (if decide (state t = TASK_ZOMBIE) then _ ← send_sig SIGCHLD 1 true; skip else skip)
      else skip
  end.

(** [sys_close(fd)] for a descriptor of the current task. *)
Definition sys_close (fd : Z) : M (proc F) Z :=
  if decide (~ (0 <= fd < NR_OPEN)) then mret (- EINVAL)
  else
    c ← cur;
    let f := mjoin (zget (filp c) fd) in
    match f with
    | None => on_t (put_current (fun t => set_filp fd (mjoin (zget (filp t) fd)) t));; mret (- EINVAL)
    | Some i => on_t (put_current (set_filp fd None));; on_f (f_put i);; mret 0
    end.

Definition close_all : M (proc F) unit :=
  for_up (Z.to_nat NR_OPEN) 0 (fun fd =>
    c ← cur;
    match mjoin (zget (filp c) fd) with Some _ => _ ← sys_close fd; skip | None => skip end).

Definition do_exit (fuel : nat) (code : Z) : M (proc F) unit :=
  c ← cur;
  d1 ← ldt_of c 1;
  _ ← on_mm (free_page_tables (get_base d1) (get_limit d1));
  d2 ← ldt_of c 2;
  _ ← on_mm (free_page_tables (get_base d2) (get_limit d2));
  on_t (for_up (Z.to_nat NR_TASKS) 0 reparent);;
  close_all;;
  c ← cur;
  on_f (iput (pwd c));; on_t (put_current clear_pwd);;
  on_f (iput (root c));; on_t (put_current clear_root);;
  on_f (iput (executable c));; on_t (put_current clear_exec);;
  (if decide (leader c <> 0 /\ 0 <= tty c)
   then modify (fun s => {| s with ptty_pgrp := zset (ptty_pgrp s) (tty c) 0 |}) else skip);;
  n ← on_t (gets current);
  on_sch (modify (fun s => {| s with last_task_used_math :=
    if decide (last_task_used_math s = Some n) then None else last_task_used_math s |}));;
  (if decide (leader c <> 0) then on_t kill_session else skip);;
  on_t (put_current (set_zombie code));;
  tell_father (father c);;
  on_sch (schedule fuel);;
  exited code.

Definition sys_exit (fuel : nat) (error_code : Z) : M (proc F) unit :=
  do_exit fuel (Z.shiftl (Z.land error_code 0xff) 8).

(** Does [waitpid(pid_)] by [c] mean the child [t]? *)
Definition wanted (c t : task_struct) (pid_ : Z) : bool :=
  bool_decide (father t = pid c) &&
  (if decide (0 < pid_) then bool_decide (pid t = pid_)
   else if decide (pid_ = 0) then bool_decide (pgrp t = pgrp c)
   else if decide (pid_ <> -1) then bool_decide (pgrp t = - pid_)
   else true).

(** One pass over slots 63 down to 1: a stopped child to report, a zombie to
    collect, or whether there is any child to wait for. *)
Inductive scan : Type := Stopped (i : Z) | Zombie (i : Z) | Children (flag : bool).

Fixpoint wait_scan (n : nat) (s : tasks) (c : task_struct) (pid_ options : Z) (flag : bool) : scan :=
  match n with
  | O => Children flag
  | S n' =>
      match slot s (Z.of_nat n) with
      | None => wait_scan n' s c pid_ options flag
      | Some t =>
          if decide (Z.of_nat n = current s) then wait_scan n' s c pid_ options flag
          else if wanted c t pid_ then
            if decide (state t = TASK_STOPPED) then
              if decide (Z.land options WUNTRACED = 0) then wait_scan n' s c pid_ options flag
              else Stopped (Z.of_nat n)
            else if decide (state t = TASK_ZOMBIE) then Zombie (Z.of_nat n)
            else wait_scan n' s c pid_ options true
          else wait_scan n' s c pid_ options flag
      end
  end.

Definition add_times (t : task_struct) (c : task_struct) : task_struct :=
  {| c with cutime := s32 (cutime c + utime t); cstime := s32 (cstime c + stime t) |}.

Fixpoint wait_loop (fuel : nat) (pid_ stat_addr options : Z) : M (proc F) Z :=
  match fuel with
  | O => fun _ => NoFuel
  | S fuel' =>
      c ← cur;
      r ← on_t (gets (fun s => wait_scan LAST s c pid_ options false));
      match r with
      | Stopped i =>
          put_user 0x7f stat_addr;;
          t ← on_t (get_task i); mret (pid t)
      | Zombie i =>
          t ← on_t (get_task i);
          on_t (put_current (add_times t));;
          release i;;
          put_user (exit_code t) stat_addr;;
          mret (pid t)
      | Children true =>
          if decide (Z.land options WNOHANG <> 0) then mret 0
          else
            on_t (put_current (set_state TASK_INTERRUPTIBLE));;
            resched;;
            on_t (put_current (fun t =>
              set_signal (Z.ldiff (signal t) (Z.shiftl 1 (SIGCHLD - 1))) t));;
            c ← cur;
            if decide (signal c = 0) then wait_loop fuel' pid_ stat_addr options
            else mret (- EINTR)
      | Children false => mret (- ECHILD)
      end
  end.

Definition verify_area (addr size : Z) : M (proc F) unit :=
  c ← cur; d ← ldt_of c 2;
  let size := size + Z.land addr 0xfff in
  on_mm (verify_pages (Z.to_nat ((size + 4095) / 4096))
           (u32 (Z.land addr 0xfffff000 + get_base d))).

Definition sys_waitpid (fuel : nat) (pid_ stat_addr options : Z) : M (proc F) Z :=
  verify_area stat_addr 4;; wait_loop fuel pid_ stat_addr options.
End process.

End Process.
