(* ===== verification/ProcessProps.v ===== *)
(** * Properties of fork, exit, kill and wait *)

From S2P Require Import Prelude Memory Task Sched Segments UserMem Process.
Import Memory Task Sched Segments UserMem Process.

Module ProcessProps.

(** ** Running parts of the state *)

Definition ptab {F} (s : proc F) : tasks := tab (psched s).
Definition with_sched {F} (c : sched) (s : proc F) : proc F := {| s with psched := c |}.
Definition with_tab {F} (t : tasks) (s : proc F) : proc F :=
  with_sched {| (psched s) with tab := t |} s.

Lemma with_tab_id {F} (s : proc F) : with_tab (ptab s) s = s.
Proof. by destruct s as [[] ? ? ? ? ? ? ?]. Qed.

Lemma ptab_with_tab {F} t (s : proc F) : ptab (with_tab t s) = t.
Proof. done. Qed.

Lemma on_t_bind {F A B} (m : M tasks A) (k : A -> M (proc F) B) s x t :
  m (ptab s) = Done x t -> (on_t m ≫= k) s = k x (with_tab t s).
Proof.
  intros E. apply done_bind. unfold on_t, on_sch, on_tab, zoom. unfold ptab in E. by rewrite E.
Qed.

Definition with_page {F} (nr : Z) (a : option Z) (s : proc F) : proc F :=
  {| s with ppage := match a with Some x => <[nr := x]> (ppage s) | None => delete nr (ppage s) end |}.

Lemma set_page_bind {F B} nr a (k : unit -> M (proc F) B) s :
  (set_page nr a ≫= k) s = k tt (with_page nr a s).
Proof. done. Qed.

Lemma on_mm_bind {F A B} (m : M mm A) (k : A -> M (proc F) B) s x t :
  m (pmm s) = Done x t -> (on_mm m ≫= k) s = k x {| s with pmm := t |}.
Proof. intros E. apply done_bind. unfold on_mm, zoom. by rewrite E. Qed.

(** A part that only reads. *)
Lemma on_t_read {F A B} (m : M tasks A) (k : A -> M (proc F) B) s x :
  m (ptab s) = Done x (ptab s) -> (on_t m ≫= k) s = k x s.
Proof. intros E. rewrite (on_t_bind _ _ _ _ _ E). by rewrite with_tab_id. Qed.

Lemma cur_bind {F B} (k : task_struct -> M (proc F) B) s c :
  slot (ptab s) (current (ptab s)) = Some c -> (cur ≫= k) s = k c s.
Proof. intros E. unfold cur. apply on_t_read. by apply get_current_Some. Qed.

(** ** Process ids *)

(** [next_pid] counts 1 .. 2^31-1 and starts again at 1. *)
Lemma next_pid_mod p :
  0 <= p < 2 ^ 31 -> next_pid p = p mod (2 ^ 31 - 1) + 1.
Proof.
  intros Hp. unfold next_pid. destruct (decide (p = 2 ^ 31 - 1)) as [->|Hne]; [by vm_compute|].
  rewrite s32_small by lia. rewrite decide_False by lia. rewrite Z.mod_small by lia. done.
Qed.

Fixpoint nth_pid (k : nat) (p : Z) : Z :=
  match k with O => p | S k' => nth_pid k' (next_pid p) end.

Lemma nth_pid_mod k p :
  0 <= p < 2 ^ 31 -> nth_pid (S k) p = (p + Z.of_nat k) mod (2 ^ 31 - 1) + 1.
Proof.
  revert p. induction k as [|k IH]; intros p Hp.
  - cbn [nth_pid]. rewrite next_pid_mod by done. do 2 f_equal. lia.
  - change (nth_pid (S (S k)) p) with (nth_pid (S k) (next_pid p)).
    pose proof (Z.mod_pos_bound p (2 ^ 31 - 1) ltac:(lia)).
    rewrite IH, next_pid_mod by (rewrite ?next_pid_mod; lia).
    f_equal. rewrite <- (Zplus_mod_idemp_l p). f_equal. lia.
Qed.

Lemma nth_pid_inj j k p :
  0 <= p < 2 ^ 31 -> (j < 65)%nat -> (k < 65)%nat ->
  nth_pid (S j) p = nth_pid (S k) p -> j = k.
Proof.
  intros Hp Hj Hk. rewrite !nth_pid_mod by done. intros E.
  assert (E' : (p + Z.of_nat j) mod (2 ^ 31 - 1) = (p + Z.of_nat k) mod (2 ^ 31 - 1)) by lia.
  pose proof (Z.div_mod (p + Z.of_nat j) (2 ^ 31 - 1)).
  pose proof (Z.div_mod (p + Z.of_nat k) (2 ^ 31 - 1)). nia.
Qed.

Definition pids (s : tasks) : list Z :=
  omap (fun o => pid <$> o) (take (Z.to_nat NR_TASKS) (task s)).

Lemma pid_used_spec s p : pid_used s p = true <-> p ∈ pids s.
Proof.
  unfold pid_used, pids. rewrite existsb_exists, list_elem_of_omap. split.
  - intros (o & Hin & Ho). destruct o as [t|]; [|done]. apply bool_decide_eq_true_1 in Ho.
    exists (Some t). split; [by apply list_elem_of_In|]. cbn. by rewrite Ho.
  - intros (o & Hin & Ho). exists o. split; [by apply list_elem_of_In|].
    destruct o as [t|]; [|done]. cbn in Ho. injection Ho as <-. by apply bool_decide_eq_true_2.
Qed.

Lemma pids_length s : (length (pids s) <= 64)%nat.
Proof.
  unfold pids.
  assert (H : forall l : list (option task_struct),
    (length (omap (fun o => pid <$> o) l) <= length l)%nat).
  { intros l. induction l as [|[t|] l IH]; cbn; lia. }
  etransitivity; [apply H|]. rewrite length_take.
  change (Z.to_nat NR_TASKS) with 64%nat. lia.
Qed.

(** The search fails only when every candidate is taken. *)
Lemma new_pid_spec fuel s last :
  match new_pid fuel s last with
  | Some p => (p ∉ pids s) /\ exists k, (k < fuel)%nat /\ p = nth_pid (S k) last
  | None => forall k, (k < fuel)%nat -> nth_pid (S k) last ∈ pids s
  end.
Proof.
  revert last. induction fuel as [|fuel IH]; intros last; cbn [new_pid]; [intros; lia|].
  destruct (pid_used s (next_pid last)) eqn:E.
  - apply pid_used_spec in E. specialize (IH (next_pid last)).
    destruct (new_pid fuel s (next_pid last)) as [p|].
    + destruct IH as [Hp (k & Hk & ->)]. split; [done|]. exists (S k). split; [lia|done].
    + intros [|k] Hk; [done|]. apply (IH k). lia.
  - split; [|exists O; split; [lia|done]]. rewrite <- pid_used_spec. by rewrite E.
Qed.

Lemma new_pid_total s last : 0 <= last < 2 ^ 31 -> new_pid 65 s last <> None.
Proof.
  intros Hl E. pose proof (new_pid_spec 65 s last) as H. rewrite E in H.
  assert (Hsub : map (fun k => nth_pid (S k) last) (seq 0 65) ⊆+ pids s).
  { apply NoDup_submseteq.
    - apply NoDup_fmap_2_strong; [|apply NoDup_seq].
      intros j k Hj%elem_of_seq Hk%elem_of_seq. apply nth_pid_inj; done || lia.
    - intros x (k & -> & Hk%elem_of_seq)%list_elem_of_fmap. apply H. lia. }
  apply submseteq_length in Hsub. pose proof (pids_length s).
  rewrite length_map, length_seq in Hsub. lia.
Qed.

Lemma free_slot_spec n i s :
  match free_slot n i s with
  | Some k => i <= k < i + Z.of_nat n /\ slot s k = None
  | None => forall j, i <= j < i + Z.of_nat n -> slot s j <> None
  end.
Proof.
  revert i. induction n as [|n IH]; intros i; cbn [free_slot]; [intros; lia|].
  destruct (slot s i) eqn:E; [|split; [lia|done]].
  specialize (IH (i + 1)). destruct (free_slot n (i + 1) s).
  - destruct IH. split; [lia|done].
  - intros j Hj. destruct (decide (j = i)) as [->|]; [by rewrite E|]. apply IH. lia.
Qed.

(** [find_empty_process] always returns, with [last_pid] a positive id no task
    has, and the number of a free slot other than 0, or -EAGAIN when the table is
    full; it changes nothing else. *)
Theorem find_empty_process_fresh {F} `{FileOps F} (s : proc F) :
  0 <= plast_pid s < 2 ^ 31 ->
  exists r p, find_empty_process s = Done r {| s with plast_pid := p |} /\
    0 < p < 2 ^ 31 /\ (p ∉ pids (tab (psched s))) /\
    (1 <= r < NR_TASKS /\ slot (tab (psched s)) r = None \/
     r = - EAGAIN /\ forall i, 1 <= i < NR_TASKS -> slot (tab (psched s)) i <> None).
Proof.
  intros Hl. unfold find_empty_process.
  rewrite (on_t_read _ _ _ (ptab s)) by reflexivity. rewrite gets_bind. unfold ptab.
  destruct (new_pid 65 (tab (psched s)) (plast_pid s)) as [p|] eqn:E;
    [|by apply new_pid_total in E].
  pose proof (new_pid_spec 65 (tab (psched s)) (plast_pid s)) as Hp. rewrite E in Hp.
  destruct Hp as [Hp (k & Hk & Ek)]. rewrite nth_pid_mod in Ek by done.
  pose proof (Z.mod_pos_bound (plast_pid s + Z.of_nat k) (2 ^ 31 - 1) ltac:(lia)).
  pose proof (free_slot_spec (Z.to_nat (NR_TASKS - 1)) 1 (tab (psched s))) as Hf.
  exists (default (- EAGAIN) (free_slot (Z.to_nat (NR_TASKS - 1)) 1 (tab (psched s)))), p.
  split; [reflexivity|]. split; [lia|]. split; [done|].
  destruct (free_slot (Z.to_nat (NR_TASKS - 1)) 1 (tab (psched s))) as [i|]; cbn [default from_option]; unfold id.
  - left. destruct Hf as [Hi Hn]. unfold NR_TASKS in *. split; [lia|done].
  - right. split; [done|]. intros i Hi. apply Hf. unfold NR_TASKS in *. lia.
Qed.

(** ** Sending signals *)

(** May [c] signal [t]?  [priv] is the kernel's own right. *)
Definition allowed (priv : bool) (c t : task_struct) : Prop :=
  priv = true \/ euid c = euid t \/ euid c = 0.
#[global] Instance allowed_dec priv c t : Decision (allowed priv c t).
Proof. unfold allowed. apply _. Defined.

Lemma allowed_euid priv c c' t : euid c' = euid c -> allowed priv c' t <-> allowed priv c t.
Proof. unfold allowed. by intros ->. Qed.

Definition valid_sig (sig : Z) : Prop := 1 <= sig <= 32.

Definition send_result (sig : Z) (priv : bool) (c : task_struct) (o : option task_struct) : Z :=
  match o with
  | None => - EINVAL
  | Some t => if decide (allowed priv c t) then 0 else - EPERM
  end.

Definition signalled (sig : Z) (priv : bool) (c t : task_struct) : task_struct :=
  if decide (allowed priv c t) then set_signal_bit sig t else t.

Lemma upd_slot_id s i f t : slot s i = Some t -> f t = t -> upd_slot i f s = s.
Proof.
  intros E Hf. unfold upd_slot. rewrite E, Hf. unfold set_slot.
  unfold slot in E. destruct (zget (task s) i) as [o|] eqn:Z; [|done]. cbn in E. subst o.
  rewrite (zset_id _ _ _ Z). by destruct s.
Qed.

Lemma send_sig_spec sig p priv s c :
  slot s (current s) = Some c -> valid_sig sig ->
  send_sig sig p priv s =
    Done (send_result sig priv c (slot s p)) (upd_slot p (signalled sig priv c) s).
Proof.
  intros Hc Hv. unfold send_sig. rewrite gets_bind. unfold send_result, valid_sig in *.
  destruct (slot s p) as [t|] eqn:E; [|unfold upd_slot; by rewrite E].
  rewrite decide_False by lia. rewrite (done_bind _ _ _ _ _ (get_current_Some _ _ Hc)).
  assert (Ha : (priv \/ euid c = euid t \/ suser c) <-> allowed priv c t).
  { unfold allowed, suser. rewrite bool_decide_spec. destruct priv; simpl; intuition congruence. }
  destruct (decide (allowed priv c t)) as [D|D].
  - rewrite decide_True by tauto. rewrite (done_bind _ _ _ _ _ (put_task_Some _ _ _ _ E)).
    unfold mret, M_ret. f_equal. apply upd_slot_ext. intros u Hu. rewrite E in Hu.
    injection Hu as <-. unfold signalled. by rewrite decide_True.
  - rewrite decide_False by tauto. unfold mret, M_ret. f_equal. symmetry.
    apply (upd_slot_id _ _ _ t E). unfold signalled. by rewrite decide_False.
Qed.

(** The error [kill_loop] reports over slots [n .. 1]: the last one met. *)
Fixpoint kill_error (n : nat) (sig : Z) (priv : bool) (c : task_struct)
    (sel : option task_struct -> bool) (s : tasks) (ret : Z) : Z :=
  match n with
  | O => ret
  | S n' =>
      kill_error n' sig priv c sel s
        (let o := slot s (Z.of_nat n) in
         let e := send_result sig priv c o in
         if sel o then (if decide (e <> 0) then e else ret) else ret)
  end.

Lemma kill_error_ext n sig priv c c' sel s s' ret :
  euid c' = euid c ->
  (forall i, 1 <= i <= Z.of_nat n -> slot s' i = slot s i) ->
  kill_error n sig priv c' sel s' ret = kill_error n sig priv c sel s ret.
Proof.
  intros Hu. revert ret. induction n as [|n IH]; intros ret Hs; [done|]. cbn [kill_error].
  rewrite Hs by lia. rewrite IH by (intros; apply Hs; lia). f_equal.
  assert (send_result sig priv c' (slot s (Z.of_nat (S n))) =
          send_result sig priv c (slot s (Z.of_nat (S n)))) as ->; [|done].
  unfold send_result. destruct (slot s (Z.of_nat (S n))); [|done].
  apply decide_ext. by apply allowed_euid.
Qed.

Lemma signalled_euid sig priv c t : euid (signalled sig priv c t) = euid t.
Proof. unfold signalled. by case_decide. Qed.

Lemma signalled_ext sig priv c c' t :
  euid c' = euid c -> signalled sig priv c' t = signalled sig priv c t.
Proof. intros E. unfold signalled. apply decide_ext. by apply allowed_euid. Qed.

Lemma kill_loop_spec n sig priv sel ret s c :
  slot s (current s) = Some c -> valid_sig sig ->
  exists s', kill_loop n sig priv sel ret s = Done (kill_error n sig priv c sel s ret) s' /\
    current s' = current s /\
    forall i, slot s' i = if decide (1 <= i <= Z.of_nat n)
      then (fun t => if sel (Some t) then signalled sig priv c t else t) <$> slot s i
      else slot s i.
Proof.
  revert ret s c. induction n as [|n IH]; intros ret s c Hc Hv; cbn [kill_loop kill_error].
  { exists s. split; [done|]. split; [done|]. intros i. case_decide; [lia|done]. }
  set (j := Z.of_nat (S n)). rewrite gets_bind. destruct (sel (slot s j)) eqn:Es.
  - rewrite (done_bind _ _ _ _ _ (send_sig_spec sig j priv s c Hc Hv)).
    set (s1 := upd_slot j (signalled sig priv c) s).
    assert (Hs1 : exists c1, slot s1 (current s1) = Some c1 /\ euid c1 = euid c).
    { unfold s1. rewrite current_upd, slot_upd_slot, Hc.
      case_decide; [exists (signalled sig priv c c); split; [done|apply signalled_euid]|by exists c]. }
    destruct Hs1 as (c1 & Hc1 & Eu).
    destruct (IH (if decide (send_result sig priv c (slot s j) <> 0)
                  then send_result sig priv c (slot s j) else ret) s1 c1 Hc1 Hv) as (s' & E & Cs & Hs').
    exists s'. split.
    { rewrite E. f_equal. apply kill_error_ext; [done|]. intros i Hi. unfold s1.
      rewrite slot_upd_slot, decide_False by lia. done. }
    split; [rewrite Cs; apply current_upd|]. intros i. rewrite Hs'. unfold s1. rewrite slot_upd_slot.
    destruct (decide (1 <= i <= Z.of_nat n)).
    + rewrite !decide_False by lia. rewrite decide_True by lia.
      destruct (slot s i) as [t|]; [|done]. cbn. f_equal. destruct (sel (Some t)); [|done].
      by apply signalled_ext.
    + destruct (decide (j = i)) as [<-|].
      * rewrite decide_True by lia. destruct (slot s j) as [t|]; [|done]. cbn. by rewrite Es.
      * rewrite decide_False by lia. done.
  - destruct (IH ret s c Hc Hv) as (s' & E & Cs & Hs').
    exists s'. split; [done|]. split; [done|]. intros i. rewrite Hs'.
    destruct (decide (1 <= i <= Z.of_nat n)); [by rewrite decide_True by lia|].
    case_decide; [|done]. assert (i = j) as -> by lia.
    destruct (slot s j) as [t|]; [|done]. cbn. by rewrite Es.
Qed.

(** Whom [kill(pid_)] by [c] addresses. *)
Definition kill_target (c : task_struct) (pid_ : Z) (t : task_struct) : bool :=
  if decide (pid_ = 0) then bool_decide (pgrp t = pid c)
  else if decide (0 < pid_) then bool_decide (pid t = pid_)
  else if decide (pid_ = -1) then true
  else bool_decide (pgrp t = - pid_).


(** [kill(-1)] reports -EINVAL to the superuser whenever the task table has an empty
    slot, though every task was signalled: null slots are passed to [send_sig]. *)
Theorem sys_kill_all_einval s c sig i :
  slot s (current s) = Some c -> euid c = 0 -> valid_sig sig ->
  1 <= i < NR_TASKS -> slot s i = None ->
  exists s', sys_kill (-1) sig s = Done (- EINVAL) s'.
Proof.
  intros Hc Hr Hv Hi Hn. unfold sys_kill.
  rewrite (done_bind _ _ _ _ _ (get_current_Some _ _ Hc)).
  do 2 (rewrite decide_False by lia). rewrite decide_True by lia.
  destruct (kill_loop_spec LAST sig false (fun _ => true) 0 s c Hc Hv) as (s' & E & _).
  exists s'. rewrite E. f_equal.
  assert (H : forall n ret, (ret = - EINVAL \/ i <= Z.of_nat n) -> (ret = 0 \/ ret = - EINVAL) ->
    kill_error n sig false c (fun _ => true) s ret = - EINVAL).
  { intros n. induction n as [|n IH]; intros ret H1 H2; cbn [kill_error]; [lia|].
    assert (Hs : send_result sig false c (slot s (Z.of_nat (S n))) = 0 /\ i <> Z.of_nat (S n) \/
                 send_result sig false c (slot s (Z.of_nat (S n))) = - EINVAL).
    { unfold send_result. destruct (slot s (Z.of_nat (S n))) as [t|] eqn:E'; [left|by right].
      rewrite decide_True by (unfold allowed; auto). split; [done|]. intros ->. congruence. }
    destruct Hs as [[-> Hne]| ->].
    - rewrite decide_False by lia. apply IH; [|done]. destruct H1; [by left|right; lia].
    - rewrite decide_True by done. apply IH; auto. }
  apply H; [right|by left]. unfold NR_TASKS in Hi. change (Z.of_nat LAST) with 63. lia.
Qed.

(** ** Exit: children and parents *)

(** Equal except for [father] and [signal]. *)
Definition same_but_links (t t' : task_struct) : Prop :=
  set_father 0 (set_signal 0 t') = set_father 0 (set_signal 0 t).

Lemma same_links_fields t t' :
  same_but_links t t' -> pid t' = pid t /\ state t' = state t /\ euid t' = euid t.
Proof.
  intros E. split; [|split].
  - exact (f_equal pid E).
  - exact (f_equal state E).
  - exact (f_equal euid E).
Qed.

Definition zombie_child (c t : task_struct) : Prop := father t = pid c /\ state t = TASK_ZOMBIE.

(** The table when slots below [j] are done. *)
Record reparented (s : tasks) (c : task_struct) (j : Z) (s' : tasks) : Prop := {
  rp_current : current s' = current s;
  rp_slot : forall i, match slot s i, slot s' i with
    | Some t, Some t' => same_but_links t t' /\
        father t' = (if decide (i < j /\ father t = pid c) then 1 else father t) /\
        (i <> 1 -> signal t' = signal t)
    | None, None => True
    | _, _ => False
    end;
  rp_init : forall i t t1, 0 <= i < j -> slot s i = Some t -> zombie_child c t ->
    slot s' 1 = Some t1 -> Z.testbit (signal t1) (SIGCHLD - 1) = true
}.

Lemma signal_bit_set sig t : 1 <= sig -> Z.testbit (signal (set_signal_bit sig t)) (sig - 1) = true.
Proof.
  intros. unfold set_signal_bit, set_signal. cbn [signal]. rewrite Z.lor_spec.
  rewrite Z.shiftl_1_l, Z.pow2_bits_true by lia. apply orb_true_r.
Qed.

Lemma signal_bit_keep sig i t :
  Z.testbit (signal t) i = true -> Z.testbit (signal (set_signal_bit sig t)) i = true.
Proof. intros H. unfold set_signal_bit, set_signal. cbn [signal]. by rewrite Z.lor_spec, H. Qed.

(** A slot without a child of [c] changes nothing. *)
Lemma reparented_same s c j s1 :
  reparented s c j s1 -> (forall t, slot s j = Some t -> father t <> pid c) -> reparented s c (j + 1) s1.
Proof.
  intros [R1 R2 R3] Hj. split; [done| |].
  - intros i. pose proof (R2 i) as Ri. destruct (slot s i) as [u|] eqn:Eu; [|done].
    destruct (slot s1 i) as [u1|]; [|done]. destruct Ri as (Ra & Rb & Rc).
    split; [done|]. split; [|done]. rewrite Rb. apply decide_ext.
    destruct (decide (i = j)) as [->|]; [specialize (Hj u Eu); tauto|lia].
  - intros i u t1 Hi Hu Hz. apply (R3 i u); try done.
    destruct (decide (i = j)) as [->|]; [|lia]. by destruct (Hj u Hu), Hz.
Qed.
(** The child of slot [j] gets init for a father; init is told about the children below. *)
Lemma reparented_child s c j s1 t :
  reparented s c j s1 -> slot s j = Some t -> father t = pid c ->
  let s2 := upd_slot j (set_father 1) s1 in
  current s2 = current s /\
  (forall i, match slot s i, slot s2 i with
    | Some t, Some t' => same_but_links t t' /\
        father t' = (if decide (i < j + 1 /\ father t = pid c) then 1 else father t) /\
        (i <> 1 -> signal t' = signal t)
    | None, None => True | _, _ => False end) /\
  (forall i u u1, 0 <= i < j -> slot s i = Some u -> zombie_child c u ->
    slot s2 1 = Some u1 -> Z.testbit (signal u1) (SIGCHLD - 1) = true).
Proof.
  intros [R1 R2 R3] Et Df s2. split; [unfold s2; by rewrite current_upd|]. split.
  - intros i. unfold s2. rewrite slot_upd_slot. pose proof (R2 i) as Ri.
    destruct (slot s i) as [u|] eqn:Eu, (slot s1 i) as [u1|] eqn:Eu1; try done;
      destruct (decide (j = i)) as [D|D]; try done; destruct Ri as (Ra & Rb & Rc); cbn.
    + subst i. split; [exact Ra|]. split; [|done]. rewrite decide_True; [done|].
      rewrite Et in Eu. injection Eu as <-. split; [lia|done].
    + split; [done|]. split; [|done]. rewrite Rb. apply decide_ext. lia.
  - intros i u u1 Hi Hu Hz Hu1. unfold s2 in Hu1. rewrite slot_upd_slot in Hu1.
    destruct (slot s1 1) as [w|] eqn:Ew; [|by case_decide].
    assert (signal u1 = signal w) as -> by (case_decide; cbn in Hu1; by injection Hu1 as <-).
    by apply (R3 i u w Hi Hu Hz).
Qed.

Lemma reparent_step s c j s1 :
  slot s (current s) = Some c -> 0 <= j -> reparented s c j s1 ->
  exists s2, reparent j s1 = Done tt s2 /\ reparented s c (j + 1) s2.
Proof.
  intros Hc Hj R. pose proof R as [R1 R2 R3]. unfold reparent. rewrite gets_bind.
  pose proof (R2 j) as Rj. destruct (slot s j) as [t|] eqn:Et, (slot s1 j) as [t1|] eqn:Et1; try done.
  2:{ exists s1. split; [done|]. apply reparented_same; [done|]. intros t Ht. congruence. }
  destruct Rj as (Ra & Rb & Rc). rewrite decide_False in Rb by lia.
  assert (Hcur : exists c1, slot s1 (current s1) = Some c1 /\ pid c1 = pid c).
  { rewrite R1. pose proof (R2 (current s)) as Rcur. rewrite Hc in Rcur.
    destruct (slot s1 (current s)) as [c1|]; [|done]. exists c1. split; [done|].
    by destruct (same_links_fields _ _ (proj1 Rcur)). }
  destruct Hcur as (c1 & Hc1 & Ep). rewrite (done_bind _ _ _ _ _ (get_current_Some _ _ Hc1)).
  rewrite Rb, Ep. destruct (same_links_fields _ _ Ra) as (_ & Es & _).
  destruct (decide (father t = pid c)) as [Df|Df].
  2:{ exists s1. split; [done|]. apply reparented_same; [done|]. intros u Hu. congruence. }
  rewrite (done_bind _ _ _ _ _ (put_task_Some _ _ _ _ Et1)).
  destruct (reparented_child s c j s1 t R Et Df) as (Hr1 & Hr2 & Hz2). set (s2 := upd_slot j (set_father 1) s1) in *.
  assert (Hcur2 : exists c2, slot s2 (current s2) = Some c2).
  { unfold s2. rewrite current_upd, slot_upd_slot. case_decide; rewrite ?Hc1; by eexists. }
  destruct Hcur2 as (c2 & Hc2). rewrite Es.
  destruct (decide (state t = TASK_ZOMBIE)) as [Dz|Dz].
  - rewrite (done_bind _ _ _ _ _ (send_sig_spec SIGCHLD 1 true s2 c2 Hc2 ltac:(unfold valid_sig, SIGCHLD; lia))).
    eexists. split; [reflexivity|]. split.
    + by rewrite current_upd.
    + intros i. rewrite slot_upd_slot. pose proof (Hr2 i) as Ri.
      destruct (slot s i) as [u|] eqn:Eu, (slot s2 i) as [u1|] eqn:Eu1; try done;
        destruct (decide (1 = i)) as [D|D]; try done; cbn. destruct Ri as (Ra' & Rb' & Rc').
      unfold signalled. rewrite decide_True by (by left).
      split; [exact Ra'|]. split; [exact Rb'|]. lia.
    + intros i u t2 Hi Hu Hz. rewrite slot_upd_slot, decide_True by done.
      destruct (slot s2 1) as [w|]; [|done]. cbn. intros [= <-].
      unfold signalled. rewrite decide_True by (by left). apply signal_bit_set. unfold SIGCHLD. lia.
  - exists s2. split; [done|]. split; [done|done|].
    intros i u t2 Hi Hu Hz. apply (Hz2 i u); try done.
    destruct (decide (i = j)) as [->|]; [|lia]. rewrite Et in Hu. injection Hu as <-. by destruct Hz.
Qed.

(** The first loop of [do_exit] leaves no orphan: every child of the exiting task
    has task 1's id as its father afterwards, no other task's father or state
    changes, and task 1 has SIGCHLD pending when one of the children is a zombie. *)
Theorem exit_reparents_children s c :
  slot s (current s) = Some c -> pid c <> 1 ->
  exists s', for_up (Z.to_nat NR_TASKS) 0 reparent s = Done tt s' /\
    (forall i t, slot s i = Some t -> 0 <= i < NR_TASKS ->
       exists t', slot s' i = Some t' /\ same_but_links t t' /\
         father t' = (if decide (father t = pid c) then 1 else father t) /\
         father t' <> pid c) /\
    (forall i t t1, 0 <= i < NR_TASKS -> slot s i = Some t -> zombie_child c t ->
       slot s' 1 = Some t1 -> Z.testbit (signal t1) (SIGCHLD - 1) = true).
Proof.
  intros Hc Hp.
  destruct (for_up_inv (reparented s c) (Z.to_nat NR_TASKS) 0 reparent s) as (s' & E & R).
  - split; [done| |intros; lia]. intros i. destruct (slot s i) as [t|] eqn:E; [|done].
    split; [done|]. split; [|done]. apply slot_range in E. by rewrite decide_False by lia.
  - intros j t Hj. apply reparent_step; [done|lia].
  - exists s'. split; [exact E|].
    assert (HN : 0 + Z.of_nat (Z.to_nat NR_TASKS) = NR_TASKS) by done. rewrite HN in R.
    destruct R as [_ R2 R3]. split; [|exact R3]. intros i t Ht Hi.
    specialize (R2 i). rewrite Ht in R2. destruct (slot s' i) as [t'|]; [|done].
    destruct R2 as (Ra & Rb & _). exists t'. split; [done|]. split; [done|].
    assert (Rb' : father t' = if decide (father t = pid c) then 1 else father t)
      by (rewrite Rb; apply decide_ext; lia).
    split; [done|]. rewrite Rb'. case_decide; congruence.
Qed.

(** ** Waiting *)

(** Does [waitpid] with [pid_] ask for the child [t] of [c]?  One pid, the own group, any child, or the
    group [- pid_]. *)
Definition asked_for (c t : task_struct) (pid_ : Z) : Prop :=
  father t = pid c /\ (0 < pid_ -> pid t = pid_) /\ (pid_ = 0 -> pgrp t = pgrp c) /\ (pid_ < -1 -> pgrp t = - pid_).
Lemma wanted_asked c t pid_ : wanted c t pid_ = true <-> asked_for c t pid_.
Proof.
  unfold wanted, asked_for. rewrite andb_true_iff, bool_decide_eq_true.
  repeat case_decide; rewrite ?bool_decide_eq_true; intuition (lia || congruence).
Qed.
(** A child of [c] the call is about. *)
Definition child_of (s : tasks) (c : task_struct) (pid_ i : Z) (t : task_struct) : Prop :=
  1 <= i < NR_TASKS /\ i <> current s /\ slot s i = Some t /\ asked_for c t pid_.

(** A stopped child is reported only with WUNTRACED. *)
Definition reportable (options : Z) (t : task_struct) : Prop :=
  state t = TASK_ZOMBIE \/ state t = TASK_STOPPED /\ Z.land options WUNTRACED <> 0.

Definition scan_ok (n : nat) (s : tasks) (c : task_struct) (pid_ options : Z) (flag : bool)
    (r : scan) : Prop :=
  match r with
  | Zombie i => exists t, 1 <= i <= Z.of_nat n /\ i <> current s /\ slot s i = Some t /\
      wanted c t pid_ = true /\ state t = TASK_ZOMBIE
  | Stopped i => exists t, 1 <= i <= Z.of_nat n /\ i <> current s /\ slot s i = Some t /\
      wanted c t pid_ = true /\ state t = TASK_STOPPED /\ Z.land options WUNTRACED <> 0
  | Children b =>
      (forall i t, 1 <= i <= Z.of_nat n -> i <> current s -> slot s i = Some t ->
         wanted c t pid_ = true -> ~ reportable options t /\
         (state t <> TASK_STOPPED -> b = true)) /\
      (b = true -> flag = true \/ exists i t, 1 <= i <= Z.of_nat n /\ i <> current s /\
         slot s i = Some t /\ wanted c t pid_ = true /\
         state t <> TASK_STOPPED /\ state t <> TASK_ZOMBIE) /\
      (flag = true -> b = true)
  end.

Lemma scan_skip n s c pid_ options flag flag' r :
  scan_ok n s c pid_ options flag' r ->
  (flag = true -> flag' = true) ->
  (flag' = true -> flag = true \/ exists t, Z.of_nat (S n) <> current s /\ slot s (Z.of_nat (S n)) = Some t /\
     wanted c t pid_ = true /\ state t <> TASK_STOPPED /\ state t <> TASK_ZOMBIE) ->
  (forall t, Z.of_nat (S n) <> current s -> slot s (Z.of_nat (S n)) = Some t -> wanted c t pid_ = true ->
     ~ reportable options t /\ (state t <> TASK_STOPPED -> flag' = true)) ->
  scan_ok (S n) s c pid_ options flag r.
Proof.
  intros Hr Hf Hf' Hn. destruct r as [i|i|b]; cbn in *.
  - destruct Hr as (t & Hi & H). exists t. split; [lia|done].
  - destruct Hr as (t & Hi & H). exists t. split; [lia|done].
  - destruct Hr as (H1 & H2 & H3). split; [|split; [|tauto]].
    + intros i t Hi Hc Ht Hw. destruct (decide (i = Z.of_nat (S n))) as [->|].
      * destruct (Hn t Hc Ht Hw). split; [done|]. auto.
      * apply (H1 i t); done || lia.
    + intros Hb. destruct (H2 Hb) as [Hfl|(i & t & Hi & H)].
      * destruct (Hf' Hfl) as [?|(t & Hc & Ht & Hw & Hs)]; [by left|]. right.
        exists (Z.of_nat (S n)), t. split; [lia|done].
      * right. exists i, t. split; [lia|done].
Qed.

Lemma wait_scan_ok n s c pid_ options flag :
  scan_ok n s c pid_ options flag (wait_scan n s c pid_ options flag).
Proof.
  revert flag. induction n as [|n IH]; intros flag; cbn [wait_scan].
  { split; [intros; lia|]. split; [by left|done]. }
  destruct (slot s (Z.of_nat (S n))) as [t|] eqn:E.
  2:{ apply (scan_skip _ _ _ _ _ _ flag); [apply IH|done|by left|intros; congruence]. }
  destruct (decide (Z.of_nat (S n) = current s)) as [Dc|Dc].
  { apply (scan_skip _ _ _ _ _ _ flag); [apply IH|done|by left|intros; congruence]. }
  destruct (wanted c t pid_) eqn:W.
  2:{ apply (scan_skip _ _ _ _ _ _ flag); [apply IH|done|by left|]. intros u _ Hu Hw.
      rewrite E in Hu. injection Hu as <-. congruence. }
  destruct (decide (state t = TASK_STOPPED)) as [Ds|Ds].
  - destruct (decide (Z.land options WUNTRACED = 0)) as [Du|Du].
    + apply (scan_skip _ _ _ _ _ _ flag); [apply IH|done|by left|]. intros u _ Hu Hw.
      rewrite E in Hu. injection Hu as <-. split; [|done]. unfold reportable.
      rewrite Ds. intros [?|[_ ?]]; [done|tauto].
    + exists t. split; [lia|]. by repeat split.
  - destruct (decide (state t = TASK_ZOMBIE)) as [Dz|Dz].
    + exists t. split; [lia|]. by repeat split.
    + apply (scan_skip _ _ _ _ _ _ true); [apply IH|done| |].
      * intros _. right. by exists t.
      * intros u _ Hu Hw. rewrite E in Hu. injection Hu as <-. split; [|done].
        unfold reportable. tauto.
Qed.

(** A task of the table is taken out of it. *)
Lemma release_ok {F} `{FileOps F} (resched : M (proc F) unit) (s : proc F) i t a m :
  slot (ptab s) i = Some t -> 1 <= i < NR_TASKS -> ppage s !! i = Some a -> free_page a (pmm s) = Done tt m ->
  exists s1, release resched i s = resched s1 /\ slot (ptab s1) i = None /\ ppage s1 !! i = None /\ pmm s1 = m /\
    forall j, j <> i -> slot (ptab s1) j = slot (ptab s) j.
Proof.
  intros E Hi Ha Hm. pose proof (slot_range _ _ _ E) as Hr. unfold release.
  rewrite (on_t_read _ _ _ (Some t)) by (rewrite <- E; done). rewrite decide_True by done.
  rewrite (on_t_bind _ _ _ tt (set_slot i None (ptab s))) by done. rewrite gets_bind.
  change (ppage (with_tab _ s)) with (ppage s). rewrite Ha. unfold deref. rewrite ret_bind.
  rewrite (on_mm_bind _ _ _ tt m) by exact Hm. unfold set_page. rewrite modify_bind.
  eexists. split; [reflexivity|]. unfold ptab. cbn [psched tab ppage with_tab with_sched].
  split; [by rewrite slot_set_slot, decide_True|]. split; [apply lookup_delete_eq|]. split; [done|].
  intros j Hj. by rewrite slot_set_slot, decide_False.
Qed.

(** The long [v] at [a] of the caller's memory, and nothing else. *)
Definition stored {F} (v a : Z) (s s' : proc F) : Prop :=
  s' = {| s with pum := pum s' |} /\ get_fs_long (pum s') a = u32 v /\
  forall b, ~ (a <= b < a + 4) -> get_fs_byte (pum s') b = get_fs_byte (pum s) b.
Lemma put_user_stored {F} v a (s : proc F) : exists s', put_user v a s = Done tt s' /\ stored v a s s'.
Proof.
  eexists. split; [reflexivity|]. split; [done|]. cbn. split; [apply get_long_same|]. intros b Hb. by apply put_long_byte.
Qed.

(** C17: one round of [waitpid]: a zombie child that is asked for is collected: its times are added to
    the caller's, its slot is emptied and the page of its structure freed, then, after a call of
    [schedule], its exit code is stored and its pid returned; for a stopped one, with WUNTRACED, 0x7f is
    stored and its pid returned; with no such child at all the result is -ECHILD, and with WNOHANG and
    only running children it is 0. *)
Theorem waitpid_round {F} `{FileOps F} (resched : M (proc F) unit) fuel pid_ st options (s : proc F) c :
  slot (ptab s) (current (ptab s)) = Some c ->
  (forall i t, child_of (ptab s) c pid_ i t -> state t = TASK_ZOMBIE ->
     exists a m, ppage s !! i = Some a /\ free_page a (pmm s) = Done tt m) ->
  (exists i t a s1, child_of (ptab s) c pid_ i t /\ state t = TASK_ZOMBIE /\
     ppage s !! i = Some a /\ free_page a (pmm s) = Done tt (pmm s1) /\
     slot (ptab s1) i = None /\ ppage s1 !! i = None /\
     slot (ptab s1) (current (ptab s)) =
       Some {| c with cutime := s32 (cutime c + utime t); cstime := s32 (cstime c + stime t) |} /\
     (forall j, j <> i -> j <> current (ptab s) -> slot (ptab s1) j = slot (ptab s) j) /\
     forall s2, resched s1 = Done tt s2 -> exists s3,
       wait_loop resched (S fuel) pid_ st options s = Done (pid t) s3 /\ stored (exit_code t) st s2 s3) \/
  (exists i t s1, child_of (ptab s) c pid_ i t /\ state t = TASK_STOPPED /\
     Z.land options WUNTRACED <> 0 /\
     wait_loop resched (S fuel) pid_ st options s = Done (pid t) s1 /\ stored 0x7f st s s1) \/
  ((forall i t, child_of (ptab s) c pid_ i t -> ~ reportable options t) /\
   ((forall i t, child_of (ptab s) c pid_ i t -> state t = TASK_STOPPED) ->
      wait_loop resched (S fuel) pid_ st options s = Done (- ECHILD) s) /\
   (Z.land options WNOHANG <> 0 ->
      (exists i t, child_of (ptab s) c pid_ i t /\ state t <> TASK_STOPPED) ->
      wait_loop resched (S fuel) pid_ st options s = Done 0 s)).
Proof.
  intros Hc Hpage. cbn [wait_loop]. unfold cur.
  rewrite (on_t_read _ _ _ c) by (by apply get_current_Some).
  rewrite (on_t_read _ _ _ (wait_scan LAST (ptab s) c pid_ options false)) by done.
  pose proof (wait_scan_ok LAST (ptab s) c pid_ options false) as Hs.
  assert (HL : forall i, 1 <= i <= Z.of_nat LAST <-> 1 <= i < NR_TASKS).
  { intros i. change (Z.of_nat LAST) with 63. unfold NR_TASKS. lia. }
  destruct (wait_scan LAST (ptab s) c pid_ options false) as [i|i|b]; cbn in Hs.
  - right. left. destruct Hs as (t & Hi%HL & Hne & Ht & Hw%wanted_asked & Hst & Hu).
    destruct (put_user_stored 0x7f st s) as (s1 & R & Hsto). exists i, t, s1. split_and!; [done..| |done].
    rewrite (done_bind _ _ _ _ _ R). destruct Hsto as [-> _]. rewrite (on_t_read _ _ _ t); [reflexivity|]. by apply get_task_Some.
  - left. destruct Hs as (t & Hi%HL & Hne & Ht & Hw%wanted_asked & Hz).
    assert (Hch : child_of (ptab s) c pid_ i t) by done.
    destruct (Hpage i t Hch Hz) as (a & m & Ha & Hm).
    rewrite (on_t_read _ _ _ t) by (by apply get_task_Some).
    rewrite (on_t_bind _ _ _ _ _ (put_current_Some _ _ _ Hc)).
    set (s1 := with_tab _ s).
    assert (E1 : forall j, slot (ptab s1) j = slot (upd_slot (current (ptab s)) (add_times t) (ptab s)) j) by (intros j; unfold s1; by rewrite ptab_with_tab).
    destruct (release_ok resched s1 i t a m) as (s2 & R & H1 & H2 & Hmm & H3); [by rewrite E1, slot_other_upd|done..|].
    exists i, t, a, s2. split_and!; [done..|by rewrite Hmm|done|done| | |].
    + rewrite H3, E1 by done. by rewrite (slot_current_upd _ _ _ Hc).
    + intros j Hj Hjc. rewrite H3, E1 by done. by apply slot_other_upd.
    + intros s3 R3. rewrite <- R in R3. destruct (put_user_stored (exit_code t) st s3) as (s4 & R4 & Hsto). exists s4.
      by rewrite (done_bind _ _ _ _ _ R3), (done_bind _ _ _ _ _ R4).
  - right. right. destruct Hs as (H1 & H2 & _).
    assert (H1' : forall i t, child_of (ptab s) c pid_ i t ->
      ~ reportable options t /\ (state t <> TASK_STOPPED -> b = true)).
    { intros i t (Hi & Hne & Ht & Hw%wanted_asked). apply (H1 i t); try done. by apply HL. }
    split; [intros i t Hch; by apply (H1' i t)|]. split.
    + intros Hst. assert (b = false) as ->; [|done]. destruct b; [|done].
      destruct (H2 eq_refl) as [?|(i & t & Hi%HL & Hne & Ht & Hw%wanted_asked & Hns & _)]; [done|].
      exfalso. apply Hns. by apply (Hst i t).
    + intros Hw (i & t & Hch & Hns). destruct (H1' i t Hch) as [_ Hb]. rewrite (Hb Hns).
      by rewrite decide_True.
Qed.

(** ** Fork *)

Section fork.
Context {F : Type} `{FileOps F}.
Implicit Types s : proc F.

Definition inc_opt (f : F) (o : option Z) : F :=
  match o with Some x => f_inc x f | None => f end.
Definition with_files (f : F) s : proc F := {| s with pfiles := f |}.
Definition with_mm (m : mm) s : proc F := {| s with pmm := m |}.

Lemma with_files_id s : with_files (pfiles s) s = s.
Proof. by destruct s. Qed.

(** Every open file of the table gets one more reference, in order. *)
Lemma inc_files_spec l s :
  inc_files l s = Done tt (with_files (fold_left inc_opt l (pfiles s)) s).
Proof.
  destruct (for_up_inv (fun j t => t = with_files (fold_left inc_opt (take (Z.to_nat j) l) (pfiles s)) s)
    (length l) 0 (fun i => match mjoin (zget l i) with
      Some f => on_f (modify (f_inc f)) | None => skip end) s) as (s' & E & ->).
  - by destruct s.
  - intros j t Hj ->. destruct (zget_is_Some l j) as [o Ho]; [unfold zlen; lia|].
    rewrite Ho. unfold zget in Ho. rewrite decide_True in Ho by lia.
    replace (Z.to_nat (j + 1)) with (S (Z.to_nat j)) by lia.
    rewrite (take_S_r _ _ _ Ho), fold_left_app. cbn. destruct o as [x|]; by eexists.
  - unfold inc_files. rewrite E. rewrite firstn_all2; [done|]. lia.
Qed.

Definition inc_inode (f : F) (o : option Z) : F :=
  match o with Some x => i_inc x f | None => f end.

Lemma opt_inc_spec o s : opt_inc o s = Done tt (with_files (inc_inode (pfiles s) o) s).
Proof. destruct o; [done|]. cbn. by rewrite with_files_id. Qed.

(** The parent's floating-point state goes to the child's TSS. *)
Definition forked_math (nr : Z) s (p : task_struct) : task_struct :=
  if decide (last_task_used_math (psched s) = Some (current (ptab s)))
  then save_i387 (fpu (psched s)) p else p.

Lemma fork_math_spec nr s p :
  slot (ptab s) nr = Some p ->
  exists s', fork_math nr s = Done tt s' /\
    ptab s' = upd_slot nr (forked_math nr s) (ptab s) /\
    pmm s' = pmm s /\ pum s' = pum s /\ plast_pid s' = plast_pid s /\ pgdt s' = pgdt s /\
    ppage s' = ppage s /\ ptty_pgrp s' = ptty_pgrp s /\ pfiles s' = pfiles s /\
    last_task_used_math (psched s') = last_task_used_math (psched s) /\
    (if decide (last_task_used_math (psched s) = Some (current (ptab s)))
     then fpu (psched s') = fninit else fpu (psched s') = fpu (psched s)).
Proof.
  intros Hp. unfold fork_math. rewrite gets_bind.
  rewrite (on_t_read _ _ _ (current (ptab s))) by done.
  unfold forked_math. case_decide as D.
  - unfold on_sch, fnsave, zoom, set_fpu.
    unfold mbind, M_bind, gets, modify. cbn. unfold on_tab, zoom. cbn.
    rewrite (put_task_Some _ _ _ _ Hp). eexists. split; [reflexivity|]. done.
  - exists s. split; [done|]. split; [|done]. symmetry. by apply (upd_slot_id _ _ _ p).
Qed.

(** The child with its own segments. *)
Definition forked_segments (base : Z) (p : task_struct) : task_struct :=
  match zget (ldt p) 1, zget (ldt p) 2 with
  | Some p1, Some p2 => set_ldt 2 (set_base p2 base) (set_ldt 1 (set_base p1 base) (set_code base p))
  | _, _ => p
  end.

Lemma copy_mem_spec nr s c p d1 d2 r m :
  slot (ptab s) (current (ptab s)) = Some c -> slot (ptab s) nr = Some p ->
  zget (ldt c) 1 = Some d1 -> zget (ldt c) 2 = Some d2 -> ldt p = ldt c ->
  get_base d1 = get_base d2 -> get_limit d1 <= get_limit d2 ->
  let base := u32 (nr * 0x4000000) in
  copy_page_tables (get_base d2) base (get_limit d2) (pmm s) = Done r m ->
  let s1 := with_mm m (with_tab (upd_slot nr (forked_segments base) (ptab s)) s) in
  copy_mem nr s =
    (if decide (r <> 0) then _ ← on_mm (free_page_tables base (get_limit d2)); mret (- ENOMEM)
     else mret 0) s1.
Proof.
  intros Hc Hp H1 H2 Hl Hb Hlim base Hcp s1. unfold copy_mem, cur.
  rewrite (on_t_read _ _ _ c) by (by apply get_current_Some).
  unfold ldt_of. rewrite H1, deref_bind, H2, deref_bind.
  rewrite decide_False by congruence. rewrite decide_False by lia. fold base.
  rewrite (on_t_read _ _ _ p) by (by apply get_task_Some).
  rewrite Hl, H1, deref_bind, H2, deref_bind.
  rewrite (on_t_bind _ _ _ _ _ (put_task_Some _ _ _ _ Hp)).
  rewrite (on_mm_bind _ _ _ r m) by exact Hcp.
  assert (E : upd_slot nr (fun p0 => set_ldt 2 (set_base d2 base)
                (set_ldt 1 (set_base d1 base) (set_code base p0))) (ptab s) =
              upd_slot nr (forked_segments base) (ptab s)).
  { apply upd_slot_ext. intros t Ht. rewrite Hp in Ht. injection Ht as <-.
    unfold forked_segments. by rewrite Hl, H1, H2. }
  rewrite E. done.
Qed.

(** The hypotheses of a fork of the current task [c] into the free slot [nr]: a
    page for the structure, segments that share their base, and what
    [copy_page_tables] answers. *)
Record fork_ready (nr page : Z) (c : task_struct) (d1 d2 : desc) (m1 : mm) (r : Z) (m2 : mm) s : Prop := {
  fr_current : slot (ptab s) (current (ptab s)) = Some c;
  fr_slot : 1 <= nr < zlen (task (ptab s)) /\ slot (ptab s) nr = None;
  fr_page : get_free_page (pmm s) = Done page m1 /\ page <> 0;
  fr_code : zget (ldt c) 1 = Some d1;
  fr_data : zget (ldt c) 2 = Some d2;
  fr_base : get_base d1 = get_base d2 /\ get_limit d1 <= get_limit d2;
  fr_copy : copy_page_tables (get_base d2) (u32 (nr * 0x4000000)) (get_limit d2) m1 = Done r m2
}.

(** The child before [copy_mem]. *)
Definition newborn (nr page : Z) (rg : fork_regs) s (c : task_struct) : task_struct :=
  forked_math nr s (child_task nr page (plast_pid s) (jiffies (ptab s)) rg c).

Lemma copy_process_start nr page rg c d1 d2 m1 r m2 s :
  fork_ready nr page c d1 d2 m1 r m2 s ->
  exists s1, plast_pid s1 = plast_pid s /\ pmm s1 = m1 /\ pfiles s1 = pfiles s /\
    ppage s1 = <[nr := page]> (ppage s) /\ pgdt s1 = pgdt s /\ pum s1 = pum s /\
    current (ptab s1) = current (ptab s) /\ zlen (task (ptab s1)) = zlen (task (ptab s)) /\
    (forall i, slot (ptab s1) i = if decide (nr = i) then Some (newborn nr page rg s c)
                                  else slot (ptab s) i) /\
    last_task_used_math (psched s1) = last_task_used_math (psched s) /\
    (last_task_used_math (psched s) = Some (current (ptab s)) -> fpu (psched s1) = fninit) /\
    copy_process nr rg s =
      (e ← copy_mem nr;
       if decide (e <> 0) then
         on_t (modify (set_slot nr None));; on_mm (free_page page);; set_page nr None;;
         mret (- EAGAIN)
       else
         p ← on_t (get_task nr); inc_files (filp p);;
         c ← cur; opt_inc (pwd c);; opt_inc (root c);; opt_inc (executable c);;
         set_gdt (2 * nr + 4) (tssldt_desc (page + TSS_OFFSET) 0x89);;
         set_gdt (2 * nr + 5) (tssldt_desc (page + LDT_OFFSET) 0x82);;
         on_t (put_task nr (set_state TASK_RUNNING));; gets plast_pid) s1.
Proof.
  intros [Hc [Hr Hn] [Hpg Hp0] _ _ _ _].
  assert (Hne : nr <> current (ptab s)) by (intros ->; congruence).
  unfold copy_process. rewrite (on_mm_bind _ _ _ page m1) by done.
  rewrite decide_False by done. rewrite set_page_bind.
  rewrite (cur_bind _ _ c) by done. rewrite gets_bind.
  rewrite (on_t_read _ _ _ (jiffies (ptab s))) by done. cbn [plast_pid].
  set (p0 := child_task nr page (plast_pid s) (jiffies (ptab s)) rg c).
  set (sa := with_page nr (Some page) _).
  rewrite (on_t_bind _ _ sa tt (set_slot nr (Some p0) (ptab s))) by done.
  set (sb := with_tab (set_slot nr (Some p0) (ptab s)) sa).
  assert (Hb : forall i, slot (ptab sb) i = if decide (nr = i) then Some p0 else slot (ptab s) i)
    by (intros i; apply slot_set_slot; lia).
  destruct (fork_math_spec nr sb p0) as (s1 & E & Et & Em & Eu & El & Eg & Ep & Ett & Ef & Elt & Efp);
    [by rewrite Hb, decide_True|].
  exists s1. rewrite Et, Em, Eu, El, Eg, Ep, Ef. rewrite current_upd, zlen_upd_slot.
  split; [done|]. split; [done|]. split; [done|]. split; [done|]. split; [done|]. split; [done|].
  split; [done|]. split; [unfold sb; rewrite ptab_with_tab; apply zlen_zset|]. split.
  - clear Efp. intros i. rewrite slot_upd_slot, Hb. case_decide; [|done]. done.
  - split; [exact Elt|]. split; [|by rewrite (done_bind _ _ _ _ _ E)].
    intros D. change (last_task_used_math (psched sb) = Some (current (ptab sb))) in D.
    by rewrite decide_True in Efp.
Qed.

(** What the child's structure holds. *)
(** The child [p] of [c] in slot [nr], whose structure is in [page], field by field: what is new, what is
    reset, what it has from its parent, its segments and the registers it starts with. *)
Record forked (nr page : Z) (rg : fork_regs) (s : proc F) (c p : task_struct) : Prop := {
  fk_ids : (state p, pid p, father p, leader p) = (0, plast_pid s, pid c, 0);
  fk_signals : (signal p, alarm p) = (0, 0);
  fk_times : (counter p, utime p, stime p, cutime p, cstime p, start_time p) = (priority c, 0, 0, 0, 0, jiffies (ptab s));
  fk_kept : (priority p, sigaction p, blocked p, exit_code p, pgrp p, session p) =
    (priority c, sigaction c, blocked c, exit_code c, pgrp c, session c);
  fk_user : (uid p, euid p, suid p, gid p, egid p, sgid p) = (uid c, euid c, suid c, gid c, egid c, sgid c);
  fk_memory : (end_code p, end_data p, brk p, start_stack p, used_math p) = (end_code c, end_data c, brk c, start_stack c, used_math c);
  fk_files : (tty p, umask p, pwd p, root p, executable p, close_on_exec p, filp p) =
    (tty c, umask c, pwd c, root c, executable c, close_on_exec c, filp c);
  fk_base : start_code p = u32 (nr * 0x4000000);
  fk_segments : forall i d, i = 1 \/ i = 2 -> zget (ldt c) i = Some d ->
    exists d', zget (ldt p) i = Some d' /\ get_base d' = u32 (nr * 0x4000000) /\ get_limit d' = get_limit d;
  fk_other : forall i, i <> 1 -> i <> 2 -> zget (ldt p) i = zget (ldt c) i;
  fk_regs : (eax (tss p), ebx (tss p), ecx (tss p), edx (tss p), esi (tss p), edi (tss p), ebp (tss p)) =
    (0, k_ebx rg, k_ecx rg, k_edx rg, k_esi rg, k_edi rg, k_ebp rg);
  fk_start : (eip (tss p), eflags (tss p), esp (tss p)) = (k_eip rg, k_eflags rg, k_esp rg);
  fk_selectors : (cs (tss p), ds (tss p), es (tss p), fs (tss p), gs (tss p), ss (tss p)) =
    (k_cs rg mod 2 ^ 16, k_ds rg mod 2 ^ 16, k_es rg mod 2 ^ 16, k_fs rg mod 2 ^ 16, k_gs rg mod 2 ^ 16, k_ss rg mod 2 ^ 16);
  fk_kernel : (back_link (tss p), esp0 (tss p), ss0 (tss p), cr3 (tss p), tss_ldt (tss p), trace_bitmap (tss p)) =
    (0, page + 4096, 0x10, cr3 (tss c), 16 * nr + 40, 0x80000000);
  fk_rings : (esp1 (tss p), ss1 (tss p), esp2 (tss p), ss2 (tss p)) = (esp1 (tss c), ss1 (tss c), esp2 (tss c), ss2 (tss c));
  fk_fpu : i387 (tss p) = if decide (last_task_used_math (psched s) = Some (current (ptab s))) then fpu (psched s) else i387 (tss c)
}.

Lemma newborn_ldt nr page rg s c : ldt (newborn nr page rg s c) = ldt c.
Proof. unfold newborn, forked_math. by case_decide. Qed.

Lemma newborn_forked nr page rg s c d1 d2 :
  zget (ldt c) 1 = Some d1 -> zget (ldt c) 2 = Some d2 ->
  forked nr page rg s c (set_state TASK_RUNNING (forked_segments (u32 (nr * 0x4000000)) (newborn nr page rg s c))).
Proof.
  intros H1 H2. set (base := u32 (nr * 0x4000000)).
  assert (E : forked_segments base (newborn nr page rg s c) =
    set_ldt 2 (set_base d2 base) (set_ldt 1 (set_base d1 base) (set_code base (newborn nr page rg s c))))
    by (unfold forked_segments; by rewrite newborn_ldt, H1, H2).
  rewrite E. split; try (unfold newborn, forked_math; case_decide; cbn; done).
  - intros i d Hi Hd. cbn [set_state set_ldt set_code ldt]. rewrite newborn_ldt.
    pose proof (zget_Some_range _ _ _ H1). pose proof (zget_Some_range _ _ _ H2).
    exists (set_base d base). rewrite get_base_set_base, get_limit_set_base by apply u32_range. split; [|done].
    destruct Hi as [-> | ->]; [rewrite zget_zset_ne, zget_zset_eq by done|rewrite zget_zset_eq by (rewrite zlen_zset; done)]; congruence.
  - intros i Hi1 Hi2. cbn [set_state set_ldt set_code ldt]. rewrite newborn_ldt. by rewrite !zget_zset_ne.
  - replace (page + 4096) with (PAGE_SIZE + page) by (unfold PAGE_SIZE; lia).
    replace (16 * nr + 40) with (LDT_ nr) by (unfold LDT_; rewrite !Z.shiftl_mul_pow2 by lia; lia).
    unfold newborn, forked_math. by case_decide.
Qed.

Lemma copy_process_runs nr page rg c d1 d2 m1 m2 s :
  fork_ready nr page c d1 d2 m1 0 m2 s ->
  exists s' p, copy_process nr rg s = Done (plast_pid s) s' /\
    p = set_state TASK_RUNNING
          (forked_segments (u32 (nr * 0x4000000)) (newborn nr page rg s c)) /\
    (forall i, slot (ptab s') i = if decide (nr = i) then Some p else slot (ptab s) i) /\
    current (ptab s') = current (ptab s) /\
    pmm s' = m2 /\ ppage s' !! nr = Some page /\
    pfiles s' = inc_inode (inc_inode (inc_inode (fold_left inc_opt (filp c) (pfiles s))
                  (pwd c)) (root c)) (executable c) /\
    last_task_used_math (psched s') = last_task_used_math (psched s) /\
    (last_task_used_math (psched s) = Some (current (ptab s)) -> fpu (psched s') = fninit).
Proof.
  intros Hfr. destruct (copy_process_start nr page rg c d1 d2 m1 0 m2 s Hfr)
    as (s1 & El & Em & Ef & Ep & Eg & Eu & Ec & Ez & Hs1 & Elm & Efp & E). rewrite E.
  destruct Hfr as [Hc [Hr Hn] [Hpg Hp0] H1 H2 [Hb Hlim] Hcp].
  set (p1 := newborn nr page rg s c) in *. set (base := u32 (nr * 0x4000000)).
  assert (Hne : nr <> current (ptab s)) by (intros ->; congruence).
  assert (Hl1 : ldt p1 = ldt c) by (unfold p1, newborn, forked_math; by case_decide).
  assert (Hf1 : filp p1 = filp c) by (unfold p1, newborn, forked_math; by case_decide).
  assert (Hcur1 : slot (ptab s1) (current (ptab s1)) = Some c)
    by (by rewrite Ec, Hs1, decide_False).
  assert (Hnr1 : slot (ptab s1) nr = Some p1) by (by rewrite Hs1, decide_True).
  pose proof (copy_mem_spec nr s1 c p1 d1 d2 0 m2 Hcur1 Hnr1 H1 H2 Hl1 Hb Hlim) as Hm.
  rewrite Em in Hm. specialize (Hm Hcp). cbv zeta in Hm. fold base in Hm.
  rewrite decide_False in Hm by tauto.
  set (p2 := forked_segments base p1) in *.
  set (s2 := with_mm m2 (with_tab (upd_slot nr (forked_segments base) (ptab s1)) s1)) in *.
  rewrite (done_bind _ _ _ _ _ Hm). rewrite decide_False by tauto.
  assert (Hs2 : forall i, slot (ptab s2) i = if decide (nr = i) then Some p2 else slot (ptab s) i).
  { intros i. unfold s2, ptab at 1. cbn [psched with_mm with_tab with_sched tab].
    rewrite slot_upd_slot, Hs1. case_decide; done. }
  assert (Ec2 : current (ptab s2) = current (ptab s)).
  { unfold s2, ptab at 1. cbn [psched with_mm with_tab with_sched tab]. by rewrite current_upd. }
  rewrite (on_t_read _ _ _ p2) by (apply get_task_Some; by rewrite Hs2, decide_True).
  rewrite (done_bind _ _ _ _ _ (inc_files_spec _ _)).
  rewrite (cur_bind _ _ c) by (change (slot (ptab s2) (current (ptab s2)) = Some c);
    by rewrite Ec2, Hs2, decide_False).
  rewrite !(done_bind _ _ _ _ _ (opt_inc_spec _ _)). unfold set_gdt. rewrite !modify_bind.
  erewrite on_t_bind by (apply (put_task_Some _ _ p2); change (slot (ptab s2) nr = Some p2);
    by rewrite Hs2, decide_True).
  eexists _, (set_state TASK_RUNNING p2). split; [rewrite <- El; reflexivity|].
  split; [done|].
  match goal with |- (forall i, slot (ptab ?st) i = _) /\ _ => set (s3 := st) end.
  assert (E3 : ptab s3 = upd_slot nr (set_state TASK_RUNNING) (ptab s2)) by done. split.
  { intros i. rewrite E3, slot_upd_slot, Hs2. by destruct (decide (nr = i)). }
  split; [by rewrite E3, current_upd|]. split; [done|]. split.
  { change (ppage s1 !! nr = Some page). rewrite Ep. apply lookup_insert_eq. }
  split; [|split; [exact Elm|exact Efp]].
  unfold s3. cbn [pfiles with_tab with_sched with_files]. change (pfiles s2) with (pfiles s1).
  rewrite Ef. pose proof (fk_files _ _ _ _ _ _ (newborn_forked nr page rg s c d1 d2 H1 H2)) as Hf2.
  assert (filp p2 = filp c) as -> by by injection Hf2. done.
Qed.

(** C16: a successful fork: the parent gets the child's pid; the child has a new pid, its parent as
    father, no pending signals, alarm, session leadership or times, a full time slice, its own 64 MB
    of linear memory, the registers of the parent at the call with a return value of 0, and for the
    rest the fields of its parent; it is runnable; no other task changes; every file and inode it
    inherits is counted once more. *)
Theorem fork_success nr page rg c d1 d2 m1 m2 s :
  fork_ready nr page c d1 d2 m1 0 m2 s ->
  exists s' p, copy_process nr rg s = Done (plast_pid s) s' /\
    slot (ptab s') nr = Some p /\ forked nr page rg s c p /\
    (forall i, i <> nr -> slot (ptab s') i = slot (ptab s) i) /\
    pmm s' = m2 /\ ppage s' !! nr = Some page /\
    pfiles s' = inc_inode (inc_inode (inc_inode (fold_left inc_opt (filp c) (pfiles s))
                  (pwd c)) (root c)) (executable c).
Proof.
  intros Hfr. destruct (copy_process_runs nr page rg c d1 d2 m1 m2 s Hfr)
    as (s' & p & E & -> & Hs & Hcur & Hm & Hpg & Hf & _).
  destruct Hfr as [_ _ _ H1 H2 _ _]. eexists s', _.
  split; [done|]. split; [by rewrite Hs, decide_True|]. split; [by eapply newborn_forked|].
  split; [intros i Hi; by rewrite Hs, decide_False|]. done.
Qed.

(** C32: when the page tables cannot be copied, fork gives back the child's page and the
    tables it made, clears the slot, counts no file twice, and answers EAGAIN. *)
Theorem fork_failure nr page rg c d1 d2 m1 r m2 x m3 m4 s :
  fork_ready nr page c d1 d2 m1 r m2 s -> r <> 0 ->
  free_page_tables (u32 (nr * 0x4000000)) (get_limit d2) m2 = Done x m3 ->
  free_page page m3 = Done tt m4 ->
  exists s', copy_process nr rg s = Done (- EAGAIN) s' /\
    (forall i, slot (ptab s') i = slot (ptab s) i) /\ current (ptab s') = current (ptab s) /\
    pmm s' = m4 /\ ppage s' !! nr = None /\ pfiles s' = pfiles s /\ pgdt s' = pgdt s.
Proof.
  intros Hfr Hr0 Hft Hfp. destruct (copy_process_start nr page rg c d1 d2 m1 r m2 s Hfr)
    as (s1 & El & Em & Ef & Ep & Eg & Eu & Ec & Ez & Hs1 & _ & _ & E). rewrite E.
  destruct Hfr as [Hc [Hr Hn] [Hpg Hp0] H1 H2 [Hb Hlim] Hcp].
  assert (Hne : nr <> current (ptab s)) by (intros ->; congruence).
  set (p1 := newborn nr page rg s c) in *. set (base := u32 (nr * 0x4000000)) in *.
  assert (Hl1 : ldt p1 = ldt c) by (unfold p1, newborn, forked_math; by case_decide).
  assert (Hcur1 : slot (ptab s1) (current (ptab s1)) = Some c)
    by (by rewrite Ec, Hs1, decide_False).
  assert (Hnr1 : slot (ptab s1) nr = Some p1) by (by rewrite Hs1, decide_True).
  pose proof (copy_mem_spec nr s1 c p1 d1 d2 r m2 Hcur1 Hnr1 H1 H2 Hl1 Hb Hlim) as Hm.
  rewrite Em in Hm. specialize (Hm Hcp). cbv zeta in Hm. fold base in Hm.
  rewrite decide_True in Hm by done.
  unfold mbind at 1, M_bind at 1. rewrite Hm.
  rewrite (on_mm_bind _ _ _ x m3) by exact Hft. cbn [mret M_ret]. rewrite decide_True by done.
  set (s2 := {| psched := _ |}).
  rewrite (on_t_bind _ _ _ tt (set_slot nr None (ptab s2))) by done.
  rewrite (on_mm_bind _ _ _ tt m4) by exact Hfp. rewrite set_page_bind.
  eexists. split; [reflexivity|].
  set (t := upd_slot nr (forked_segments base) (ptab s1)).
  assert (Ht : 0 <= nr < zlen (task t)) by (unfold t; rewrite zlen_upd_slot, Ez; lia).
  split; [|split; [|split; [done|split; [apply lookup_delete_eq|done]]]].
  - intros i. change (slot (set_slot nr None t) i = slot (ptab s) i).
    rewrite slot_set_slot by done. unfold t. rewrite slot_upd_slot, Hs1.
    destruct (decide (nr = i)) as [<-|]; done.
  - change (current t = current (ptab s)). unfold t. by rewrite current_upd.
Qed.

(** When the parent's floating-point state is in the coprocessor, a fork leaves the
    coprocessor initialised while the scheduler still takes it for the parent's: [fnsave]
    in [copy_process] resets it and nothing loads the registers back. *)
Theorem fork_loses_fpu nr page rg c d1 d2 m1 m2 s :
  fork_ready nr page c d1 d2 m1 0 m2 s ->
  last_task_used_math (psched s) = Some (current (ptab s)) ->
  exists s', copy_process nr rg s = Done (plast_pid s) s' /\
    last_task_used_math (psched s') = Some (current (ptab s')) /\
    fpu (psched s') = fninit.
Proof.
  intros Hfr Hl. destruct (copy_process_runs nr page rg c d1 d2 m1 m2 s Hfr)
    as (s' & p & E & Hp & Hs & Hcur & Hm & Hpg & Hf & Hlm & Hfpu).
  exists s'. split; [done|]. rewrite Hlm, Hcur. split; [done|]. by apply Hfpu.
Qed.
End fork.

End ProcessProps.

(** ** Instances of the process theorems

    Open files are counters.  The table is that of [SchedProps]: the idle task,
    task 1 (current) and a sleeper, both with pid 0 as in [INIT_TASK] unless the
    instance changes it. *)
Module ProcessInst.
Import Memory Task Sched Segments UserMem Process ProcessProps.

(** Reference counts of files (even keys) and inodes (odd keys). *)
Definition counts : Type := gmap Z Z.
Definition bump (d k : Z) (f : counts) : counts := <[k := default 0 (f !! k) + d]> f.

#[export] Instance counts_ops : FileOps counts := {|
  f_inc := fun i => bump 1 (2 * i);
  i_inc := fun i => bump 1 (2 * i + 1);
  f_put := fun i => modify (bump (-1) (2 * i));
  iput := fun o => match o with Some i => modify (bump (-1) (2 * i + 1)) | None => skip end
|}.

(** A root process with pid 5, one open file and a working directory. *)
Definition parent : task_struct :=
  {| (INIT_TASK 0 0) with pid := 5; pgrp := 5; filp := Some 7 :: replicate 19 None; pwd := Some 3 |}.
Definition child (st : Z) : task_struct :=
  {| (INIT_TASK 0 0) with state := st; pid := 6; father := 5; pgrp := 5; exit_code := 0x100; utime := 4 |}.

Definition table (l : list (option task_struct)) : tasks :=
  Tasks (l ++ replicate (64 - length l) None) 1 10 0.

(** All pages used but [n] at the top; the first page table is at 0x1000. *)
Definition mem (n : nat) : mm :=
  Mm 0x1000000 (replicate (3840 - n) 100 ++ replicate n 0) {[ 0 := 0x1007 ]}.

Definition state_of (t : tasks) (m : mm) : proc counts :=
  {| psched := Sched t (Some 1) false [9]; pmm := m; pum := empty; plast_pid := 41;
     pgdt := replicate 256 (Desc 0 0); ppage := {[ 2 := 0x200000 ]}; ptty_pgrp := replicate 256 0;
     pfiles := empty |}.

Lemma table_slot l i t : slot (table l) i = Some t -> 0 <= i < zlen l.
Proof.
  unfold slot, table, zget. cbn [task]. case_decide as D; [|done].
  intros Hs. split; [done|]. unfold zlen.
  destruct (decide (Z.to_nat i < length l)%nat) as [|N]; [lia|exfalso].
  rewrite lookup_app_r in Hs by lia.
  destruct (replicate _ None !! _) as [o|] eqn:E; [|done].
  apply lookup_replicate in E as [-> _]. done.
Qed.

Definition ex_table : tasks := table [Some (INIT_TASK 0 0); Some parent].
Definition ex_wait : tasks := table [Some (INIT_TASK 0 0); Some parent; Some (child TASK_ZOMBIE)].

Lemma find_empty_process_fresh_witness :
  exists r p, find_empty_process (state_of ex_table (mem 5)) = Done r {| (state_of ex_table (mem 5)) with plast_pid := p |} /\
    (p ∉ pids ex_table) /\ r = 2.
Proof.
  destruct (find_empty_process_fresh (state_of ex_table (mem 5))) as (r & p & E & _ & H & _).
  - cbn. lia.
  - exists r, p. split; [exact E|]. split; [exact H|]. vm_compute in E. by injection E as <- _.
Defined.


Lemma sys_kill_all_einval_witness : exists s', sys_kill (-1) 15 ex_wait = Done (- EINVAL) s'.
Proof.
  apply (sys_kill_all_einval ex_wait parent 15 3).
  - reflexivity.
  - reflexivity.
  - unfold valid_sig. lia.
  - unfold NR_TASKS. lia.
  - reflexivity.
Defined.

Lemma exit_reparents_children_witness :
  exists s' t', for_up (Z.to_nat NR_TASKS) 0 reparent ex_wait = Done tt s' /\
    slot s' 2 = Some t' /\ father t' = 1.
Proof.
  destruct (exit_reparents_children ex_wait parent) as (s' & E & H & _).
  - reflexivity.
  - intros H. discriminate H.
  - destruct (H 2 (child TASK_ZOMBIE)) as (t' & Ht & _ & Hf & _);
      [reflexivity|unfold NR_TASKS; lia|].
    exists s', t'. split; [exact E|]. split; [exact Ht|exact Hf].
Defined.

Lemma ex_wait_child i t :
  child_of ex_wait parent (-1) i t -> i = 2.
Proof.
  intros (Hi & Hc & Ht & _). change (current ex_wait) with 1 in Hc.
  apply table_slot in Ht. unfold zlen in Ht. cbn in Ht. lia.
Qed.

(** The zombie's pid is returned and its slot freed. *)
Lemma waitpid_round_witness :
  exists s', wait_loop skip 1 (-1) 64 0 (state_of ex_wait (mem 5)) = Done 6 s' /\
    slot (ptab s') 2 = None.
Proof.
  destruct (waitpid_round skip 0 (-1) 64 0 (state_of ex_wait (mem 5)) parent)
    as [(i & t & a & s1 & H & Hz & _ & _ & Hn & _ & _ & _ & Hr)|[(i & t & s1 & H & Hst & _)|[H _]]].
  - reflexivity.
  - intros i t H _. apply ex_wait_child in H as ->. exists 0x200000.
    eexists. split; [reflexivity|vm_compute; reflexivity].
  - destruct (Hr s1 eq_refl) as (s3 & E & Hs & _). pose proof (ex_wait_child i t H) as ->. destruct H as (_ & _ & Ht & _).
    vm_compute in Ht. injection Ht as <-. exists s3. split; [exact E|]. by rewrite Hs.
  - exfalso. pose proof (ex_wait_child i t H) as ->. destruct H as (_ & _ & Ht & _).
    vm_compute in Ht. injection Ht as <-. discriminate Hst.
  - exfalso. apply (H 2 (child TASK_ZOMBIE)); [|by left].
    split; [unfold NR_TASKS; lia|]. split; [done|]. split; [reflexivity|]. split; [reflexivity|]. split; [lia|]. split; [discriminate|lia].
Defined.

(** *** Fork *)

Definition mm_of {A} (o : outcome mm A) (m : mm) : mm :=
  match o with Done _ s => s | _ => m end.
Definition returns (o : outcome mm Z) (a : Z) : bool :=
  match o with Done r _ => Z.eqb r a | _ => false end.
Definition returns_unit (o : outcome mm unit) : bool :=
  match o with Done _ _ => true | _ => false end.

Lemma returns_done o a m : returns o a = true -> o = Done a (mm_of o m).
Proof. destruct o; try done. cbn. by intros ->%Z.eqb_eq. Qed.
Lemma returns_unit_done o m : returns_unit o = true -> o = Done tt (mm_of o m).
Proof. by destruct o as [[]| | | |]. Qed.

Definition regs : fork_regs := ForkRegs 0 0 0 0x17 0 0 0 0x17 0x17 0x17 0x100 0xf 0x200 0x1000 0x17.

Definition fork_mm (n : nat) : mm := mm_of (get_free_page (mem n)) (mem n).
Definition fork_mm2 (n : nat) : mm :=
  mm_of (copy_page_tables 0 0x8000000 0xa0000 (fork_mm n)) (fork_mm n).

Lemma fork_ready_5 :
  fork_ready 2 0xfff000 parent (Desc 0x9f 0xc0fa00) (Desc 0x9f 0xc0f200)
    (fork_mm 5) 0 (fork_mm2 5) (state_of ex_table (mem 5)).
Proof.
  split.
  - reflexivity.
  - split; [|reflexivity]. vm_compute. split; [intros H; discriminate H|reflexivity].
  - split; [apply returns_done; vm_compute; reflexivity|done].
  - reflexivity.
  - reflexivity.
  - split; [reflexivity|]. vm_compute. intros H; discriminate H.
  - apply returns_done. vm_compute. reflexivity.
Qed.

(** One free page: enough for the structure, not for the page table. *)
Lemma fork_ready_1 :
  fork_ready 2 0xfff000 parent (Desc 0x9f 0xc0fa00) (Desc 0x9f 0xc0f200)
    (fork_mm 1) (-1) (fork_mm2 1) (state_of ex_table (mem 1)).
Proof.
  split.
  - reflexivity.
  - split; [|reflexivity]. vm_compute. split; [intros H; discriminate H|reflexivity].
  - split; [apply returns_done; vm_compute; reflexivity|done].
  - reflexivity.
  - reflexivity.
  - split; [reflexivity|]. vm_compute. intros H; discriminate H.
  - apply returns_done. vm_compute. reflexivity.
Qed.

(** Descriptor 0 is file 7 (key 14), the working directory inode 3 (key 7). *)
Lemma fork_success_witness :
  exists s' p, copy_process 2 regs (state_of ex_table (mem 5)) = Done 41 s' /\
    slot (ptab s') 2 = Some p /\ father p = 5 /\ pid p = 41 /\
    pfiles s' !! 14 = Some 1 /\ pfiles s' !! 7 = Some 1.
Proof.
  destruct (fork_success 2 0xfff000 regs parent _ _ _ _ _ fork_ready_5)
    as (s' & p & E & Hs & Hk & _ & _ & _ & Hfi). pose proof (fk_ids _ _ _ _ _ _ Hk) as Hids. injection Hids as _ Hp Hf _.
  exists s', p. split; [exact E|]. split; [exact Hs|]. split; [exact Hf|]. split; [exact Hp|].
  rewrite Hfi. split; vm_compute; reflexivity.
Defined.

Lemma fork_failure_witness :
  exists s', copy_process 2 regs (state_of ex_table (mem 1)) = Done (- EAGAIN) s' /\
    slot (ptab s') 2 = None.
Proof.
  destruct (fork_failure 2 0xfff000 regs parent _ _ _ _ _ 0
    (mm_of (free_page_tables 0x8000000 0xa0000 (fork_mm2 1)) (fork_mm2 1))
    (mm_of (free_page 0xfff000 (mm_of (free_page_tables 0x8000000 0xa0000 (fork_mm2 1)) (fork_mm2 1)))
       (fork_mm2 1)) _ fork_ready_1) as (s' & E & H & _).
  - done.
  - apply returns_done. vm_compute. reflexivity.
  - apply returns_unit_done. vm_compute. reflexivity.
  - exists s'. split; [exact E|]. rewrite H. reflexivity.
Defined.

(** The parent's state [9] is gone from the coprocessor. *)
Lemma fork_loses_fpu_witness :
  exists s', copy_process 2 regs (state_of ex_table (mem 5)) = Done 41 s' /\
    fpu (psched (state_of ex_table (mem 5))) = [9] /\ fpu (psched s') = fninit.
Proof.
  destruct (fork_loses_fpu 2 0xfff000 regs parent _ _ _ _ _ fork_ready_5) as (s' & E & _ & H).
  - reflexivity.
  - exists s'. split; [exact E|]. split; [reflexivity|exact H].
Defined.

End ProcessInst.
