(* ===== verification/Console.v ===== *)
(** * kernel/chr_drv/console.c: the VT102 console

    The screen is a window of [video_num_lines] rows into video memory, from
    [origin] to [scr_end].  Video memory is a map from even byte addresses to
    16-bit words (character in the low byte, attribute in the high one); the
    string instructions of the inline assembly are [stosw] and [movsl] below.
    Only the registers of the display controller are written through ports; the
    values are kept in [crtc]. *)

From S2P Require Import Prelude.

Module Console.

Definition VIDEO_TYPE_MDA : Z := 0x10.
Definition VIDEO_TYPE_CGA : Z := 0x11.
Definition VIDEO_TYPE_EGAM : Z := 0x20.
Definition VIDEO_TYPE_EGAC : Z := 0x21.
Definition NPAR : Z := 16.
Definition ORIG_VIDEO_LINES : Z := 25.

Record console : Type := Con {
  video_type : Z;
  video_num_columns : Z;
  video_size_row : Z;
  video_num_lines : Z;
  video_page : Z;
  video_mem_start : Z;
  video_mem_end : Z;
  video_port_reg : Z;
  video_port_val : Z;
  video_erase_char : Z;
  origin : Z; scr_end : Z; pos : Z;
  con_x : Z; con_y : Z;
  top : Z; bottom : Z;
  con_state : Z;
  npar : Z; par : list Z;
  ques : Z;
  attr : Z;
  saved_x : Z; saved_y : Z;
  beepcount : Z;
  vram : gmap Z Z;
  crtc : gmap Z Z
}.

(** ** String instructions *)

Definition vget (m : gmap Z Z) (a : Z) : Z := default 0 (m !! a).

(** [cld ; rep ; stosw]: [n] words from [a] up. *)
Fixpoint stosw (n : nat) (a v : Z) (m : gmap Z Z) : gmap Z Z :=
  match n with O => m | S n' => stosw n' (a + 2) v (<[a := v]> m) end.

Definition movsl1 (s d : Z) (m : gmap Z Z) : gmap Z Z :=
  <[d + 2 := vget m (s + 2)]> (<[d := vget m s]> m).

(** [rep ; movsl] with the direction flag clear. *)
Fixpoint movsl_up (n : nat) (s d : Z) (m : gmap Z Z) : gmap Z Z :=
  match n with O => m | S n' => movsl_up n' (s + 4) (d + 4) (movsl1 s d m) end.

(** [std ; rep ; movsl]. *)
Fixpoint movsl_down (n : nat) (s d : Z) (m : gmap Z Z) : gmap Z Z :=
  match n with O => m | S n' => movsl_down n' (s - 4) (d - 4) (movsl1 s d m) end.

(** [rep ; stosw] with the direction flag set. *)
Fixpoint stosw_down (n : nat) (a v : Z) (m : gmap Z Z) : gmap Z Z :=
  match n with O => m | S n' => stosw_down n' (a - 2) v (<[a := v]> m) end.

(** A count register. *)
Definition cnt (c : Z) : nat := Z.to_nat (u32 c).

Definition set_vram (m : gmap Z Z) (k : console) : console := {| k with vram := m |}.
Definition set_pos (p : Z) (k : console) : console := {| k with pos := u32 p |}.
Definition set_x (v : Z) (k : console) : console := {| k with con_x := u32 v |}.
Definition set_y (v : Z) (k : console) : console := {| k with con_y := u32 v |}.
Definition set_con_state (v : Z) (k : console) : console := {| k with con_state := v |}.
Definition set_region (t b : Z) (k : console) : console := {| k with top := t; bottom := b |}.
Definition set_window (o e p : Z) (k : console) : console :=
  {| k with origin := u32 o; scr_end := u32 e; pos := u32 p |}.
Definition set_attr (v : Z) (k : console) : console := {| k with attr := v |}.
Definition set_par (i v : Z) (k : console) : console := {| k with par := zset (par k) i (u32 v) |}.
Definition set_npar (v : Z) (k : console) : console := {| k with npar := v |}.

(** ** Cursor and scrolling *)

(** [gotoxy(new_x,new_y)]: arguments are unsigned. *)
Definition gotoxy (new_x new_y : Z) (k : console) : console :=
  let new_x := u32 new_x in let new_y := u32 new_y in
  if decide (video_num_columns k < new_x \/ video_num_lines k <= new_y) then k
  else
    set_pos (origin k + new_y * video_size_row k + Z.shiftl new_x 1)
      (set_y new_y (set_x new_x k)).

(** [outb] of [v] to controller register [r]. *)
Definition crtc_out (r v : Z) (k : console) : console := {| k with crtc := <[r := v]> (crtc k) |}.

Definition set_origin (k : console) : console :=
  let o := origin k - video_mem_start k in
  crtc_out 13 (Z.land 0xff (Z.shiftr o 1)) (crtc_out 12 (Z.land 0xff (Z.shiftr o 9)) k).

Definition set_cursor (k : console) : console :=
  let o := pos k - video_mem_start k in
  crtc_out 15 (Z.land 0xff (Z.shiftr o 1)) (crtc_out 14 (Z.land 0xff (Z.shiftr o 9)) k).

(** Move [n] double words from [s] to [d] upward, then erase one row after them. *)
Definition move_up (n s d : Z) (k : console) : console :=
  set_vram (stosw (cnt (video_num_columns k)) (d + 4 * u32 n) (video_erase_char k)
    (movsl_up (cnt n) s d (vram k))) k.

(** The same downward, with [addl $2,%edi] between. *)
Definition move_down (n s d : Z) (k : console) : console :=
  set_vram (stosw_down (cnt (video_num_columns k)) (d - 4 * u32 n + 2) (video_erase_char k)
    (movsl_down (cnt n) s d (vram k))) k.

Definition is_ega (k : console) : bool :=
  bool_decide (video_type k = VIDEO_TYPE_EGAC) || bool_decide (video_type k = VIDEO_TYPE_EGAM).

(** Scroll the region [top..bottom) up by copying. *)
Definition scrup_copy (k : console) : console :=
  move_up (Z.shiftr ((bottom k - top k - 1) * video_num_columns k) 1)
    (origin k + video_size_row k * (top k + 1)) (origin k + video_size_row k * top k) k.

(** [scrup]: on an EGA a full-screen scroll moves the window; when it would leave
    video memory the screen is copied back to its start. *)
Definition scrup (k : console) : console :=
  if is_ega k then
    if bool_decide (top k = 0) && bool_decide (bottom k = video_num_lines k) then
      let k := set_window (origin k + video_size_row k) (scr_end k + video_size_row k)
                 (pos k + video_size_row k) k in
      let k :=
        if decide (video_mem_end k < scr_end k) then
          let k := move_up (Z.shiftr ((video_num_lines k - 1) * video_num_columns k) 1)
                     (origin k) (video_mem_start k) k in
          let d := origin k - video_mem_start k in
          set_window (video_mem_start k) (scr_end k - d) (pos k - d) k
        else
          set_vram (stosw (cnt (video_num_columns k)) (scr_end k - video_size_row k)
            (video_erase_char k) (vram k)) k in
      set_origin k
    else scrup_copy k
  else scrup_copy k.

(** [scrdown]; both branches of the source are the same. *)
Definition scrdown (k : console) : console :=
  move_down (Z.shiftr ((bottom k - top k - 1) * video_num_columns k) 1)
    (origin k + video_size_row k * (bottom k - 1) - 4)
    (origin k + video_size_row k * bottom k - 4) k.

Definition lf (k : console) : console :=
  if decide (u32 (con_y k + 1) < bottom k)
  then set_pos (pos k + video_size_row k) (set_y (con_y k + 1) k)
  else scrup k.

Definition ri (k : console) : console :=
  if decide (top k < con_y k)
  then set_pos (pos k - video_size_row k) (set_y (con_y k - 1) k)
  else scrdown k.

Definition cr (k : console) : console := set_x 0 (set_pos (pos k - Z.shiftl (con_x k) 1) k).

(** Store a word at [pos]. *)
Definition poke (v : Z) (k : console) : console := set_vram (<[pos k := v]> (vram k)) k.

Definition del (k : console) : console :=
  if decide (con_x k <> 0) then
    let k := set_x (con_x k - 1) (set_pos (pos k - 2) k) in poke (video_erase_char k) k
  else k.

(** ** Erasing, inserting and deleting *)

Definition erase (count start : Z) (k : console) : console :=
  set_vram (stosw (cnt count) start (video_erase_char k) (vram k)) k.

Definition csi_J (p : Z) (k : console) : console :=
  if decide (p = 0) then erase (Z.shiftr (u32 (scr_end k - pos k)) 1) (pos k) k
  else if decide (p = 1) then erase (Z.shiftr (u32 (pos k - origin k)) 1) (origin k) k
  else if decide (p = 2) then erase (video_num_columns k * video_num_lines k) (origin k) k
  else k.

Definition csi_K (p : Z) (k : console) : console :=
  if decide (p = 0) then
    if decide (video_num_columns k <= con_x k) then k
    else erase (video_num_columns k - con_x k) (pos k) k
  else if decide (p = 1) then
    erase (Z.min (con_x k) (video_num_columns k)) (pos k - Z.shiftl (con_x k) 1) k
  else if decide (p = 2) then
    erase (video_num_columns k) (pos k - Z.shiftl (con_x k) 1) k
  else k.

Definition csi_m_attr (p : Z) (a : Z) : Z :=
  if decide (p = 0) then 0x07 else if decide (p = 1) then 0x0f
  else if decide (p = 4) then 0x0f else if decide (p = 7) then 0x70
  else if decide (p = 27) then 0x07 else a.

Definition csi_m (k : console) : console :=
  set_attr (fold_left (fun a p => csi_m_attr p a) (take (Z.to_nat (npar k + 1)) (par k)) (attr k)) k.

(** The shifting loop of [insert_char], [n] words from [p]. *)
Fixpoint shift_in (n : nat) (p old : Z) (m : gmap Z Z) : gmap Z Z :=
  match n with O => m | S n' => shift_in n' (p + 2) (vget m p) (<[p := old]> m) end.

Definition insert_char (k : console) : console :=
  set_vram (shift_in (Z.to_nat (video_num_columns k - con_x k)) (pos k)
    (video_erase_char k) (vram k)) k.

(** The loop of [delete_char], [n] words from [p] and the last one erased. *)
Fixpoint shift_out (n : nat) (p v : Z) (m : gmap Z Z) : gmap Z Z :=
  match n with O => <[p := v]> m | S n' => shift_out n' (p + 2) v (<[p := vget m (p + 2)]> m) end.

Definition delete_char (k : console) : console :=
  if decide (video_num_columns k <= con_x k) then k
  else set_vram (shift_out (Z.to_nat (video_num_columns k - con_x k - 1)) (pos k)
         (video_erase_char k) (vram k)) k.

Definition insert_line (k : console) : console :=
  set_region (top k) (bottom k) (scrdown (set_region (con_y k) (video_num_lines k) k)).

Definition delete_line (k : console) : console :=
  set_region (top k) (bottom k) (scrup (set_region (con_y k) (video_num_lines k) k)).

(** The bounded repetition count of [csi_at], [csi_L], [csi_P] and [csi_M]. *)
Definition clamp (nr limit : Z) : nat :=
  Z.to_nat (if decide (limit < nr) then limit else if decide (nr = 0) then 1 else nr).

Definition csi_at (nr : Z) (k : console) : console :=
  Nat.iter (clamp nr (video_num_columns k)) insert_char k.
Definition csi_L (nr : Z) (k : console) : console :=
  Nat.iter (clamp nr (video_num_lines k)) insert_line k.
Definition csi_P (nr : Z) (k : console) : console :=
  Nat.iter (clamp nr (video_num_columns k)) delete_char k.
Definition csi_M (nr : Z) (k : console) : console :=
  Nat.iter (clamp nr (video_num_lines k)) delete_line k.

(** [saved_x] and [saved_y] are ints. *)
Definition save_cur (k : console) : console :=
  {| k with saved_x := s32 (con_x k); saved_y := s32 (con_y k) |}.
Definition restore_cur (k : console) : console := gotoxy (saved_x k) (saved_y k) k.

(** [HZ/8] ticks; the speaker ports are not modelled. *)
Definition sysbeep (k : console) : console := {| k with beepcount := 12 |}.

(** ** One character of [con_write]

    [erase_char] is the terminal's ERASE_CHAR and [c] a signed char. *)

(** [x -= video_num_columns ; pos -= video_size_row ; lf()] *)
Definition wrap (k : console) : console :=
  lf (set_pos (pos k - video_size_row k) (set_x (con_x k - video_num_columns k) k)).

Definition put_char (c : Z) (k : console) : console :=
  let k := if decide (video_num_columns k <= con_x k) then wrap k else k in
  let k := poke (c + 256 * attr k) k in
  set_x (con_x k + 1) (set_pos (pos k + 2) k).

Definition tab (k : console) : console :=
  let c := 8 - Z.land (con_x k) 7 in
  let k := set_pos (pos k + Z.shiftl c 1) (set_x (con_x k + c) k) in
  if decide (video_num_columns k < con_x k) then wrap k else k.

(** [case 0]. *)
Definition con_normal (erase_char c : Z) (k : console) : console :=
  if decide (31 < c < 127) then put_char c k
  else if decide (c = 27) then set_con_state 1 k
  else if decide (c = 10 \/ c = 11 \/ c = 12) then lf k
  else if decide (c = 13) then cr k
  else if decide (c = erase_char) then del k
  else if decide (c = 8) then
    (if decide (con_x k <> 0) then set_pos (pos k - 2) (set_x (con_x k - 1) k) else k)
  else if decide (c = 9) then tab k
  else if decide (c = 7) then sysbeep k
  else k.

(** [case 1], after ESC, without [ESC Z].  The source tests [x], not [c], for the digits. *)
Definition con_esc (c : Z) (k : console) : console :=
  let k := set_con_state 0 k in
  if decide (c = 91) then set_con_state 2 k
  else if decide (c = 69) then gotoxy 0 (con_y k + 1) k
  else if decide (c = 77) then ri k
  else if decide (c = 68) then lf k
  else if decide (c = 90) then k
  else if decide (con_x k = 55) then save_cur k
  else if decide (con_x k = 56) then restore_cur k
  else k.

Definition par_at (k : console) (i : Z) : Z := default 0 (zget (par k) i).
Definition dec_par (i : Z) (k : console) : console :=
  if decide (par_at k i <> 0) then set_par i (par_at k i - 1) k else k.
Definition one_par (k : console) : console :=
  if decide (par_at k 0 = 0) then set_par 0 1 k else k.

(** [csi r]. *)
Definition csi_r (k : console) : console :=
  let k := dec_par 0 k in
  let k := if decide (par_at k 1 = 0) then set_par 1 (video_num_lines k) k else k in
  if decide (par_at k 0 < par_at k 1 /\ par_at k 1 <= video_num_lines k)
  then set_region (par_at k 0) (par_at k 1) k else k.

(** [case 4]: the final character of a control sequence. *)
Definition con_final (c : Z) (k : console) : console :=
  let k := set_con_state 0 k in
  if decide (c = 71 \/ c = 96) then let k := dec_par 0 k in gotoxy (par_at k 0) (con_y k) k
  else if decide (c = 65) then let k := one_par k in gotoxy (con_x k) (con_y k - par_at k 0) k
  else if decide (c = 66 \/ c = 101) then
    let k := one_par k in gotoxy (con_x k) (con_y k + par_at k 0) k
  else if decide (c = 67 \/ c = 97) then
    let k := one_par k in gotoxy (con_x k + par_at k 0) (con_y k) k
  else if decide (c = 68) then let k := one_par k in gotoxy (con_x k - par_at k 0) (con_y k) k
  else if decide (c = 69) then let k := one_par k in gotoxy 0 (con_y k + par_at k 0) k
  else if decide (c = 70) then let k := one_par k in gotoxy 0 (con_y k - par_at k 0) k
  else if decide (c = 100) then let k := dec_par 0 k in gotoxy (con_x k) (par_at k 0) k
  else if decide (c = 72 \/ c = 102) then
    let k := dec_par 1 (dec_par 0 k) in gotoxy (par_at k 1) (par_at k 0) k
  else if decide (c = 74) then csi_J (par_at k 0) k
  else if decide (c = 75) then csi_K (par_at k 0) k
  else if decide (c = 76) then csi_L (par_at k 0) k
  else if decide (c = 77) then csi_M (par_at k 0) k
  else if decide (c = 80) then csi_P (par_at k 0) k
  else if decide (c = 64) then csi_at (par_at k 0) k
  else if decide (c = 109) then csi_m k
  else if decide (c = 114) then csi_r k
  else if decide (c = 115) then save_cur k
  else if decide (c = 117) then restore_cur k
  else k.

(** [case 3]: a parameter character, or the final one. *)
Definition con_params (c : Z) (k : console) : console :=
  if decide (c = 59 /\ npar k < NPAR - 1) then set_npar (npar k + 1) k
  else if decide (48 <= c <= 57) then
    set_par (npar k) (10 * par_at k (npar k) + c - 48) k
  else con_final c (set_con_state 4 k).

(** [case 2]: after ESC [[]; everything but '?' falls through to [case 3]. *)
Definition con_csi (c : Z) (k : console) : console :=
  let k := {| k with par := replicate (Z.to_nat NPAR) 0; npar := 0; con_state := 3;
                     ques := c_bool (bool_decide (c = 63)) |} in
  if decide (c = 63) then k else con_params c k.

(** The whole [switch]; [true] asks the caller for [respond]. *)
Definition con_putc (erase_char c : Z) (k : console) : console * bool :=
  if decide (con_state k = 0) then (con_normal erase_char c k, false)
  else if decide (con_state k = 1) then (con_esc c k, bool_decide (c = 90))
  else if decide (con_state k = 2) then (con_csi c k, false)
  else if decide (con_state k = 3) then (con_params c k, false)
  else if decide (con_state k = 4) then (con_final c k, false)
  else (k, false).

(** ** con_init *)

(** The words the boot code left at 0x90000. *)
Record boot_video : Type := BootVideo {
  ORIG_X : Z; ORIG_Y : Z; ORIG_VIDEO_PAGE : Z; ORIG_VIDEO_MODE : Z;
  ORIG_VIDEO_COLS : Z; ORIG_VIDEO_EGA_BX : Z
}.

(** Store characters in the low bytes of consecutive words. *)
Fixpoint put_desc (l : list Z) (p : Z) (m : gmap Z Z) : gmap Z Z :=
  match l with
  | [] => m
  | c :: l' => put_desc l' (p + 2) (<[p := c + 256 * (vget m p / 256)]> m)
  end.

(** Type, memory, ports and name of the display. *)
Definition display (b : boot_video) : Z * Z * Z * Z * Z * list Z :=
  let ega := bool_decide (Z.land (ORIG_VIDEO_EGA_BX b) 0xff <> 0x10) in
  if decide (ORIG_VIDEO_MODE b = 7) then
    if ega then (VIDEO_TYPE_EGAM, 0xb0000, 0xb8000, 0x3b4, 0x3b5, [69; 71; 65; 109])
    else (VIDEO_TYPE_MDA, 0xb0000, 0xb2000, 0x3b4, 0x3b5, [42; 77; 68; 65])
  else
    if ega then (VIDEO_TYPE_EGAC, 0xb8000, 0xbc000, 0x3d4, 0x3d5, [69; 71; 65; 99])
    else (VIDEO_TYPE_CGA, 0xb8000, 0xba000, 0x3d4, 0x3d5, [42; 67; 71; 65]).

(** The interrupt gate and the keyboard controller are not part of this state. *)
Definition con_init (b : boot_video) (k : console) : console :=
  let '(ty, start, end_, preg, pval, desc) := display b in
  let row := ORIG_VIDEO_COLS b * 2 in
  let k := {| k with
    video_num_columns := ORIG_VIDEO_COLS b; video_size_row := row;
    video_num_lines := ORIG_VIDEO_LINES; video_page := u8 (ORIG_VIDEO_PAGE b);
    video_erase_char := 0x0720; video_type := ty; video_mem_start := start;
    video_mem_end := end_; video_port_reg := preg; video_port_val := pval;
    vram := put_desc desc (start + row - 8) (vram k);
    origin := start; scr_end := start + ORIG_VIDEO_LINES * row;
    top := 0; bottom := ORIG_VIDEO_LINES |} in
  gotoxy (ORIG_X b) (ORIG_Y b) k.

(** The static initial values. *)
Definition con0 : console :=
  Con 0 0 0 0 0 0 0 0 0 0 0 0 0 0 0 0 0 0 0 (replicate 16 0) 0 7 0 0 0 empty empty.

End Console.
