(* ===== verification/ConsoleProps.v ===== *)
(** * Properties of the console

    [con_ok] ties the cursor to its address and the screen window to video
    memory; every character keeps it and writes only inside video memory.  The
    scrolling theorems describe the screen row by row, whatever the display. *)

From S2P Require Import Prelude Console.
Import Console.

Module ConsoleProps.

#[local] Ltac Zify.zify_post_hook ::= Z.to_euclidean_division_equations.

(** ** String instructions *)

Definition span (a n b : Z) : Prop := a <= b < a + 2 * n /\ (b - a) mod 2 = 0.
#[global] Instance span_dec a n b : Decision (span a n b).
Proof. unfold span. apply _. Defined.

Lemma vget_insert m a v b : vget (<[a := v]> m) b = if decide (a = b) then v else vget m b.
Proof.
  unfold vget. case_decide as D; [subst; by rewrite lookup_insert_eq|by rewrite lookup_insert_ne].
Qed.

Lemma stosw_spec n a v m b :
  vget (stosw n a v m) b = if decide (span a (Z.of_nat n) b) then v else vget m b.
Proof.
  revert a m. induction n as [|n IH]; intros a m; cbn [stosw].
  - rewrite decide_False; [done|]. unfold span. lia.
  - rewrite IH, vget_insert. unfold span.
    destruct (decide (a = b)) as [->|Hn].
    + rewrite (decide_True (P := b <= b < _ /\ _)) by lia. by case_decide.
    + destruct (decide (a + 2 <= b < a + 2 + 2 * Z.of_nat n /\ (b - (a + 2)) mod 2 = 0)) as [D|D].
      * rewrite decide_True; [done|]. lia.
      * rewrite decide_False; [done|]. lia.
Qed.

Lemma stosw_down_up n a v m b :
  vget (stosw_down n a v m) b = vget (stosw n (a - 2 * Z.of_nat n + 2) v m) b.
Proof.
  revert a m. induction n as [|n IH]; intros a m; [done|]. cbn [stosw_down].
  rewrite IH, !stosw_spec, vget_insert. unfold span.
  destruct (decide (a = b)) as [->|Hn]; repeat case_decide; (done || lia).
Qed.

(** A forward copy to a lower address moves every word. *)
Lemma movsl_up_spec n s d m b :
  d <= s ->
  vget (movsl_up n s d m) b =
    if decide (span d (2 * Z.of_nat n) b) then vget m (b - d + s) else vget m b.
Proof.
  intros H. revert s d m H. induction n as [|n IH]; intros s d m H; cbn [movsl_up].
  - rewrite decide_False; [done|]. unfold span. lia.
  - rewrite IH by lia. unfold movsl1. rewrite !vget_insert. unfold span.
    destruct (decide (d + 4 <= b < d + 4 + 2 * (2 * Z.of_nat n) /\ (b - (d + 4)) mod 2 = 0)) as [D|D].
    + rewrite (decide_False (P := d + 2 = _)) by lia. rewrite (decide_False (P := d = _)) by lia.
      rewrite decide_True by lia. f_equal. lia.
    + destruct (decide (d + 2 = b)) as [<-|]; [rewrite decide_True by lia; f_equal; lia|].
      destruct (decide (d = b)) as [<-|]; [rewrite decide_True by lia; f_equal; lia|].
      rewrite decide_False; [done|lia].
Qed.

(** A backward copy to a higher address moves every word. *)
Lemma movsl_down_spec n s d m b :
  s <= d ->
  vget (movsl_down n s d m) b =
    if decide (span (d + 4 - 4 * Z.of_nat n) (2 * Z.of_nat n) b) then vget m (b - d + s) else vget m b.
Proof.
  intros H. revert s d m H. induction n as [|n IH]; intros s d m H; cbn [movsl_down].
  - rewrite decide_False; [done|]. unfold span. lia.
  - rewrite IH by lia. unfold movsl1. rewrite !vget_insert. unfold span.
    destruct (decide (d - 4 + 4 - 4 * Z.of_nat n <= b < d - 4 + 4 - 4 * Z.of_nat n + 2 * (2 * Z.of_nat n)
      /\ (b - (d - 4 + 4 - 4 * Z.of_nat n)) mod 2 = 0)) as [D|D].
    + rewrite (decide_False (P := d + 2 = _)) by lia. rewrite (decide_False (P := d = _)) by lia.
      rewrite decide_True by lia. f_equal. lia.
    + destruct (decide (d + 2 = b)) as [<-|]; [rewrite decide_True by lia; f_equal; lia|].
      destruct (decide (d = b)) as [<-|]; [rewrite decide_True by lia; f_equal; lia|].
      rewrite decide_False; [done|lia].
Qed.

(** The insertion and deletion loops stay inside their line. *)
Lemma shift_in_frame n p old m b : ~ (p <= b < p + 2 * Z.of_nat n) -> vget (shift_in n p old m) b = vget m b.
Proof.
  revert p old m. induction n as [|n IH]; intros p old m H; [done|]. cbn [shift_in].
  rewrite IH by lia. rewrite vget_insert, decide_False by lia. done.
Qed.

Lemma shift_out_frame n p v m b :
  ~ (p <= b <= p + 2 * Z.of_nat n) -> vget (shift_out n p v m) b = vget m b.
Proof.
  revert p m. induction n as [|n IH]; intros p m H; cbn [shift_out].
  - rewrite vget_insert, decide_False by lia. done.
  - rewrite IH by lia. rewrite vget_insert, decide_False by lia. done.
Qed.

(** ** The invariant *)

Record con_ok (k : console) : Prop := {
  ok_cols : 8 <= video_num_columns k /\ video_num_columns k mod 2 = 0;
  ok_row : video_size_row k = 2 * video_num_columns k;
  ok_mem : 0 <= video_mem_start k /\ video_mem_end k < 2 ^ 31;
  ok_origin : video_mem_start k <= origin k;
  ok_window : scr_end k = origin k + video_num_lines k * video_size_row k /\
              scr_end k <= video_mem_end k;
  ok_region : 0 <= top k < bottom k /\ bottom k <= video_num_lines k;
  ok_cursor : 0 <= con_x k <= video_num_columns k /\ 0 <= con_y k < video_num_lines k;
  ok_pos : pos k = origin k + con_y k * video_size_row k + 2 * con_x k;
  ok_state : 0 <= con_state k <= 3;
  ok_npar : 0 <= npar k < NPAR /\ zlen (par k) = NPAR;
  ok_par : Forall (fun v => 0 <= v) (par k)
}.

(** The display itself does not change. *)
Definition same_display (k k' : console) : Prop :=
  video_type k' = video_type k /\ video_num_columns k' = video_num_columns k /\
  video_size_row k' = video_size_row k /\ video_num_lines k' = video_num_lines k /\
  video_mem_start k' = video_mem_start k /\ video_mem_end k' = video_mem_end k /\
  video_erase_char k' = video_erase_char k.

Definition inside (k : console) (a : Z) : Prop := video_mem_start k <= a < video_mem_end k.

(** A correct step: the invariant, the same display, and only video memory written. *)
Record step_ok (k k' : console) : Prop := {
  so_ok : con_ok k';
  so_display : same_display k k';
  so_frame : forall a, ~ inside k a -> vget (vram k') a = vget (vram k) a
}.

Lemma step_refl k : con_ok k -> step_ok k k.
Proof. by split. Qed.

Lemma step_trans k k' k'' : step_ok k k' -> step_ok k' k'' -> step_ok k k''.
Proof.
  intros [_ (A1 & A2 & A3 & A4 & A5 & A6 & A7) F1] [O (B1 & B2 & B3 & B4 & B5 & B6 & B7) F2].
  split; [done| |].
  - unfold same_display. by rewrite B1, B2, B3, B4, B5, B6, B7.
  - intros a Ha. rewrite F2, F1; [done|done|]. unfold inside in *. by rewrite A5, A6.
Qed.

Lemma iter_ok f n k :
  (forall k, con_ok k -> step_ok k (f k)) -> con_ok k -> step_ok k (Nat.iter n f k).
Proof.
  intros Hf Hk. induction n as [|n IH]; cbn [Nat.iter]; [by apply step_refl|].
  eapply step_trans; [exact IH|]. apply Hf, IH.
Qed.

(** The rows of the screen lie inside the window. *)
Lemma row_le k r : con_ok k -> 0 <= r <= video_num_lines k ->
  0 <= r * video_size_row k <= video_num_lines k * video_size_row k.
Proof. intros [Hc Hr _ _ _ _ _ _ _ _ _]. rewrite Hr. nia. Qed.

Lemma row_step k r : con_ok k -> 0 <= r < video_num_lines k ->
  0 <= r * video_size_row k /\
  r * video_size_row k + video_size_row k <= video_num_lines k * video_size_row k.
Proof. intros [Hc Hr _ _ _ _ _ _ _ _ _]. rewrite Hr. nia. Qed.

(** The window and the cursor are addresses below 2^31. *)
Lemma cursor_row k : con_ok k ->
  0 <= con_y k * video_size_row k /\
  con_y k * video_size_row k + video_size_row k <= video_num_lines k * video_size_row k.
Proof. intros Hk. apply row_step; [done|apply Hk]. Qed.

Lemma cols_lt k : con_ok k -> 8 <= video_num_columns k < 2 ^ 31 /\ 0 < video_num_lines k < 2 ^ 31.
Proof.
  intros Hk. pose proof (row_step k 0 Hk). destruct Hk as [Hc Hr Hm Ho Hw Hg Hu _ _ _ _].
  rewrite Hr in *. nia.
Qed.

(** Changing video memory or the attribute of a correct console. *)
Lemma set_vram_ok k m :
  con_ok k -> (forall a, ~ inside k a -> vget m a = vget (vram k) a) -> step_ok k (set_vram m k).
Proof. intros Hk Hm. split; [by destruct Hk|done|exact Hm]. Qed.

(** ** The cursor *)

Definition goto (x y : Z) (k : console) : console :=
  {| k with con_x := x; con_y := y; pos := origin k + y * video_size_row k + 2 * x |}.

Lemma goto_ok k x y :
  con_ok k -> 0 <= x <= video_num_columns k -> 0 <= y < video_num_lines k ->
  step_ok k (goto x y k).
Proof. intros Hk Hx Hy. split; [|done|done]. by destruct Hk. Qed.

Lemma goto_range k x y :
  con_ok k -> 0 <= x <= video_num_columns k -> 0 <= y < video_num_lines k ->
  0 <= origin k + y * video_size_row k + 2 * x < 2 ^ 31.
Proof.
  intros Hk Hx Hy. pose proof (row_step k y Hk Hy). destruct Hk as [Hc Hr Hm Ho Hw _ _ _ _ _ _]. lia.
Qed.

(** A cursor address that agrees with its column and row. *)
Lemma set_cursor_goto k x y p :
  con_ok k -> 0 <= x <= video_num_columns k -> 0 <= y < video_num_lines k ->
  p = origin k + y * video_size_row k + 2 * x ->
  set_pos p (set_y y (set_x x k)) = goto x y k.
Proof.
  intros Hk Hx Hy ->. pose proof (goto_range k x y Hk Hx Hy). pose proof (cols_lt k Hk).
  unfold set_pos, set_y, set_x, goto. cbn. by rewrite !u32_small by lia.
Qed.

Lemma gotoxy_ok a b k : con_ok k -> step_ok k (gotoxy a b k).
Proof.
  intros Hk. unfold gotoxy. pose proof (u32_range a). pose proof (u32_range b).
  case_decide as D; [by apply step_refl|].
  rewrite set_cursor_goto; [apply goto_ok|..]; try done; rewrite ?Z.shiftl_mul_pow2; lia.
Qed.

Lemma set_x_pos_goto k x p :
  con_ok k -> 0 <= x <= video_num_columns k ->
  p = origin k + con_y k * video_size_row k + 2 * x ->
  set_x x (set_pos p k) = goto x (con_y k) k.
Proof.
  intros Hk Hx Hp. destruct (ok_cursor _ Hk) as [_ Hy].
  rewrite <- (set_cursor_goto k x (con_y k) p) by done.
  pose proof (cols_lt k Hk).
  unfold set_pos, set_y, set_x. cbn. by rewrite (u32_small (con_y k)) by lia.
Qed.

Lemma set_y_pos_goto k y p :
  con_ok k -> 0 <= y < video_num_lines k ->
  p = origin k + y * video_size_row k + 2 * con_x k ->
  set_pos p (set_y y k) = goto (con_x k) y k.
Proof.
  intros Hk Hy Hp. destruct (ok_cursor _ Hk) as [Hx _].
  rewrite <- (set_cursor_goto k (con_x k) y p) by done.
  pose proof (cols_lt k Hk).
  unfold set_pos, set_y, set_x. cbn. by rewrite (u32_small (con_x k)) by lia.
Qed.

Lemma cr_ok k : con_ok k -> step_ok k (cr k).
Proof.
  intros Hk. unfold cr. pose proof (ok_pos _ Hk) as Hp. pose proof (ok_cursor _ Hk).
  rewrite set_x_pos_goto; [apply goto_ok|..]; try done; rewrite ?Z.shiftl_mul_pow2; lia.
Qed.

(** ** Words of the window *)

(** The word shown in row [r] and column [c]. *)
Definition cell (k : console) (r c : Z) : Z :=
  vget (vram k) (origin k + r * video_size_row k + 2 * c).

(** Rows [r] and columns up to [c] of the window, and everything of it. *)
Lemma inside_window k a :
  con_ok k -> origin k <= a < scr_end k -> inside k a.
Proof. intros Hk Ha. destruct Hk as [_ _ _ Ho [_ He] _ _ _ _ _ _]. unfold inside. lia. Qed.

Lemma outside_window k a : con_ok k -> ~ inside k a -> ~ (origin k <= a < scr_end k).
Proof. intros Hk Ha H. apply Ha. by apply inside_window. Qed.

Lemma cnt_small n : 0 <= n < 2 ^ 32 -> Z.of_nat (cnt n) = n.
Proof. intros. unfold cnt. rewrite u32_small by lia. lia. Qed.

Lemma erase_ok k n a :
  con_ok k -> 0 <= n < 2 ^ 32 -> origin k <= a -> a + 2 * n <= scr_end k ->
  step_ok k (erase n a k).
Proof.
  intros Hk Hn Ha He. apply set_vram_ok; [done|]. intros b Hb. apply outside_window in Hb; [|done].
  rewrite stosw_spec, cnt_small by done. rewrite decide_False; [done|]. unfold span. lia.
Qed.

Lemma pos_window k : con_ok k ->
  origin k <= pos k <= scr_end k /\ pos k + 2 * (video_num_columns k - con_x k) <= scr_end k /\
  origin k <= pos k - 2 * con_x k /\ 0 <= origin k /\ scr_end k < 2 ^ 31.
Proof.
  intros Hk. pose proof (cursor_row k Hk). destruct Hk as [Hc Hr Hm Ho Hw Hg Hu Hp _ _ _].
  rewrite Hp. lia.
Qed.

Lemma poke_ok k v : con_ok k -> con_x k < video_num_columns k -> step_ok k (poke v k).
Proof.
  intros Hk Hx. pose proof (pos_window k Hk). apply set_vram_ok; [done|]. intros b Hb.
  apply outside_window in Hb; [|done]. rewrite vget_insert, decide_False; [done|]. lia.
Qed.

Lemma del_ok k : con_ok k -> step_ok k (del k).
Proof.
  intros Hk. unfold del. case_decide as D; [|by apply step_refl].
  pose proof (ok_cursor _ Hk). pose proof (ok_pos _ Hk).
  rewrite set_x_pos_goto by (try done; lia).
  eapply step_trans; [apply (goto_ok k (con_x k - 1) (con_y k)); [done|lia|lia]|].
  apply poke_ok; [apply goto_ok; [done|lia|lia]|]. cbn. lia.
Qed.

Lemma csi_J_ok p k : con_ok k -> step_ok k (csi_J p k).
Proof.
  intros Hk. pose proof (pos_window k Hk). pose proof (row_le k (video_num_lines k) Hk).
  unfold csi_J. repeat case_decide; try by apply step_refl.
  - rewrite u32_small by lia. rewrite Z.shiftr_div_pow2 by lia. apply erase_ok; [done|lia..].
  - rewrite u32_small by lia. rewrite Z.shiftr_div_pow2 by lia. apply erase_ok; [done|lia..].
  - pose proof (ok_row _ Hk) as Hr. destruct (ok_window _ Hk) as [Hw _]. rewrite Hr in *.
    pose proof (cols_lt k Hk). apply erase_ok; [done|lia..].
Qed.

Lemma csi_K_ok p k : con_ok k -> step_ok k (csi_K p k).
Proof.
  intros Hk. pose proof (pos_window k Hk). pose proof (cursor_row k Hk).
  pose proof (ok_row _ Hk). pose proof (ok_pos _ Hk). pose proof (ok_cursor _ Hk).
  destruct (ok_window _ Hk) as [Hw _]. pose proof (cols_lt k Hk).
  unfold csi_K. repeat case_decide; try by apply step_refl.
  - apply erase_ok; [done|lia..].
  - rewrite Z.shiftl_mul_pow2 by lia. apply erase_ok; [done|lia..].
  - rewrite Z.shiftl_mul_pow2 by lia. apply erase_ok; [done|lia..].
Qed.

Lemma insert_char_ok k : con_ok k -> step_ok k (insert_char k).
Proof.
  intros Hk. pose proof (pos_window k Hk). pose proof (ok_cursor _ Hk).
  apply set_vram_ok; [done|]. intros b Hb.
  apply outside_window in Hb; [|done]. apply shift_in_frame. lia.
Qed.

Lemma delete_char_ok k : con_ok k -> step_ok k (delete_char k).
Proof.
  intros Hk. unfold delete_char. case_decide; [by apply step_refl|].
  pose proof (pos_window k Hk). pose proof (ok_cursor _ Hk).
  apply set_vram_ok; [done|]. intros b Hb.
  apply outside_window in Hb; [|done]. apply shift_out_frame. lia.
Qed.

Lemma set_region_ok t b k :
  con_ok k -> 0 <= t < b -> b <= video_num_lines k -> step_ok k (set_region t b k).
Proof. intros Hk Ht Hb. split; [|done|done]. by destruct Hk. Qed.

(** ** Scrolling *)

(** The dwords of [n] whole rows. *)
Lemma row_dwords k n :
  con_ok k -> 0 <= n <= video_num_lines k ->
  4 * Z.of_nat (cnt (Z.shiftr (n * video_num_columns k) 1)) = n * video_size_row k /\
  0 <= Z.shiftr (n * video_num_columns k) 1 < 2 ^ 31.
Proof.
  intros Hk Hn. pose proof (row_le k n Hk Hn). pose proof (pos_window k Hk).
  destruct (ok_window _ Hk) as [Hw He]. destruct (ok_cols _ Hk) as [Hc Hev].
  pose proof (ok_row _ Hk) as Hr. rewrite Hr in *. rewrite Z.shiftr_div_pow2 by lia.
  assert (Hdiv : exists q, video_num_columns k = 2 * q) by (exists (video_num_columns k / 2); lia).
  destruct Hdiv as [q Hq]. rewrite Hq in *. change (2 ^ 1) with 2.
  replace (n * (2 * q)) with (n * q * 2) by ring. rewrite Z.div_mul by lia.
  rewrite cnt_small by nia. nia.
Qed.

(** Words of two rows of the window never overlap. *)
Lemma row_lt k r r' c :
  con_ok k -> 0 <= c < video_num_columns k -> r < r' ->
  r * video_size_row k + 2 * c + 2 <= r' * video_size_row k.
Proof. intros Hk Hc Hr. rewrite (ok_row _ Hk). nia. Qed.

Lemma cell_span k n r0 r c a :
  con_ok k -> 0 <= c < video_num_columns k ->
  a = origin k + r0 * video_size_row k ->
  span a (n * video_num_columns k) (origin k + r * video_size_row k + 2 * c) <-> r0 <= r < r0 + n.
Proof.
  intros Hk Hc ->. unfold span. pose proof (ok_row _ Hk) as Hr. rewrite Hr.
  replace (_ - _) with (2 * (r * video_num_columns k + c - r0 * video_num_columns k)) by ring.
  split.
  - intros [H _]. split; [destruct (decide (r0 <= r)); nia|destruct (decide (r < r0 + n)); nia].
  - intros H. split; [nia|]. rewrite Z.mul_comm. apply Z.mod_mul. lia.
Qed.

(** What a scroll by copying does to the rows of a region. *)
Definition scrolled (k : console) (r c : Z) : Z :=
  if decide (top k <= r < bottom k - 1) then cell k (r + 1) c
  else if decide (r = bottom k - 1) then video_erase_char k
  else cell k r c.

Lemma move_up_vget n s d k b :
  0 <= n < 2 ^ 32 -> d <= s ->
  vget (vram (move_up n s d k)) b =
    if decide (span (d + 4 * n) (Z.of_nat (cnt (video_num_columns k))) b) then video_erase_char k
    else if decide (span d (2 * n) b) then vget (vram k) (b - d + s) else vget (vram k) b.
Proof.
  intros Hn Hd. cbn. rewrite stosw_spec, u32_small by lia. case_decide; [done|].
  rewrite movsl_up_spec by done. by rewrite cnt_small by lia.
Qed.

Lemma scrup_copy_spec k :
  con_ok k ->
  step_ok k (scrup_copy k) /\
  forall r c, 0 <= c < video_num_columns k -> cell (scrup_copy k) r c = scrolled k r c.
Proof.
  intros Hk. destruct (ok_region _ Hk) as [Ht Hb]. pose proof (cols_lt k Hk) as [Hcl _].
  destruct (row_dwords k (bottom k - top k - 1) Hk) as [Hn Hn2]; [lia|].
  rewrite cnt_small in Hn by lia. pose proof (row_step k (bottom k - 1) Hk) as Hlast.
  pose proof (row_step k (top k) Hk) as Hfirst.
  destruct (ok_window _ Hk) as [Hw He]. pose proof (ok_row _ Hk) as Hr.
  assert (Hv : forall b, vget (vram (scrup_copy k)) b =
    if decide (span (origin k + (bottom k - 1) * video_size_row k) (1 * video_num_columns k) b)
    then video_erase_char k
    else if decide (span (origin k + top k * video_size_row k)
                      ((bottom k - top k - 1) * video_num_columns k) b)
    then vget (vram k) (b + video_size_row k) else vget (vram k) b).
  { intros b. unfold scrup_copy. rewrite move_up_vget by lia. rewrite cnt_small by lia.
    rewrite Hn. replace (origin k + video_size_row k * top k + (bottom k - top k - 1) * video_size_row k)
      with (origin k + (bottom k - 1) * video_size_row k) by ring.
    rewrite Z.mul_1_l. case_decide; [done|].
    replace (2 * Z.shiftr _ 1) with ((bottom k - top k - 1) * video_num_columns k) by lia.
    rewrite (Z.mul_comm (video_size_row k) (top k)). case_decide; [|done]. f_equal. ring. }
  split.
  - apply set_vram_ok; [done|]. intros b Hi. apply outside_window in Hi; [|done].
    change (vget (vram (scrup_copy k)) b = vget (vram k) b). rewrite Hv.
    rewrite decide_False by (unfold span; lia). rewrite decide_False; [done|].
    unfold span. lia.
  - intros r c Hc. unfold cell at 1, scrolled. rewrite Hv. cbn [origin video_size_row scrup_copy move_up set_vram].
    pose proof (cell_span k 1 (bottom k - 1) r c _ Hk Hc eq_refl) as S1.
    pose proof (cell_span k (bottom k - top k - 1) (top k) r c _ Hk Hc eq_refl) as S2.
    destruct (decide (r = bottom k - 1)) as [D|D].
    + rewrite decide_True by (apply S1; lia). by rewrite decide_False by lia.
    + rewrite decide_False by (rewrite S1; lia).
      destruct (decide (top k <= r < bottom k - 1)) as [D2|D2].
      * rewrite decide_True by (apply S2; lia). unfold cell. f_equal. ring.
      * rewrite decide_False by (rewrite S2; lia). done.
Qed.

(** The window moves one row down in video memory. *)
Definition scrup_window (k : console) : console :=
  let k := {| k with origin := origin k + video_size_row k; scr_end := scr_end k + video_size_row k;
                     pos := pos k + video_size_row k |} in
  set_origin (set_vram (stosw (cnt (video_num_columns k)) (scr_end k - video_size_row k)
    (video_erase_char k) (vram k)) k).

(** The window goes back to the start of video memory. *)
Definition scrup_back (k : console) : console :=
  let k1 := move_up (Z.shiftr ((video_num_lines k - 1) * video_num_columns k) 1)
              (origin k + video_size_row k) (video_mem_start k) k in
  set_origin {| k1 with origin := video_mem_start k;
    scr_end := video_mem_start k + video_num_lines k * video_size_row k;
    pos := video_mem_start k + (pos k - origin k) |}.

Lemma scrup_cases k :
  con_ok k ->
  scrup k = scrup_copy k \/
  top k = 0 /\ bottom k = video_num_lines k /\
  (scr_end k + video_size_row k <= video_mem_end k /\ scrup k = scrup_window k \/
   video_mem_end k < scr_end k + video_size_row k /\ scrup k = scrup_back k).
Proof.
  intros Hk. unfold scrup. destruct (is_ega k); [|by left].
  destruct (bool_decide (top k = 0)) eqn:E1; [|by left].
  destruct (bool_decide (bottom k = video_num_lines k)) eqn:E2; [|by left].
  apply bool_decide_eq_true in E1, E2. right. split; [done|]. split; [done|]. cbn [andb].
  pose proof (pos_window k Hk) as Hpw. pose proof (cols_lt k Hk) as [Hcl _].
  pose proof (row_step k 0 Hk) as Hrow. pose proof (ok_row _ Hk) as Hr.
  destruct (ok_window _ Hk) as [Hw He]. destruct (ok_mem _ Hk) as [Hm1 Hm2].
  pose proof (ok_origin _ Hk) as Ho. pose proof (ok_cursor _ Hk) as Hcu.
  assert (E : set_window (origin k + video_size_row k) (scr_end k + video_size_row k)
     (pos k + video_size_row k) k =
    {| k with origin := origin k + video_size_row k; scr_end := scr_end k + video_size_row k;
              pos := pos k + video_size_row k |}) by (unfold set_window; by rewrite !u32_small by lia).
  rewrite E. cbn [scr_end video_mem_end]. case_decide as D; [right|left]; (split; [lia|]).
  - unfold scrup_back. f_equal. unfold set_window. cbn [move_up set_vram video_mem_start scr_end origin pos
      video_num_lines video_num_columns video_size_row].
    rewrite !u32_small by lia. f_equal; lia.
  - done.
Qed.

Lemma scrup_window_spec k :
  con_ok k -> top k = 0 -> bottom k = video_num_lines k ->
  scr_end k + video_size_row k <= video_mem_end k ->
  step_ok k (scrup_window k) /\
  forall r c, 0 <= c < video_num_columns k -> 0 <= r < video_num_lines k ->
    cell (scrup_window k) r c = scrolled k r c.
Proof.
  intros Hk Ht Hb He. pose proof (cols_lt k Hk) as [Hcl _]. pose proof (ok_row _ Hk) as Hr.
  destruct (ok_window _ Hk) as [Hw _]. pose proof (row_step k 0 Hk) as Hrow. split.
  - split.
    + destruct Hk. split; cbn; try done; lia.
    + done.
    + intros b Hi. cbn. rewrite stosw_spec, decide_False; [done|].
      rewrite cnt_small by lia. pose proof (pos_window k Hk). pose proof (ok_origin _ Hk).
      unfold span, inside in *. lia.
  - intros r c Hc Hrl. unfold cell at 1, scrolled. cbn. rewrite stosw_spec, cnt_small by lia.
    pose proof (cell_span k 1 (video_num_lines k) (r + 1) c _ Hk Hc eq_refl) as S1.
    rewrite Z.mul_1_l in S1.
    replace (origin k + video_size_row k + r * video_size_row k + 2 * c)
      with (origin k + (r + 1) * video_size_row k + 2 * c) by ring.
    replace (scr_end k + video_size_row k - video_size_row k)
      with (origin k + video_num_lines k * video_size_row k) by lia.
    destruct (decide (r = bottom k - 1)) as [D|D].
    + rewrite decide_True by (apply S1; lia). by rewrite decide_False by lia.
    + rewrite decide_False by (rewrite S1; lia). by rewrite decide_True by lia.
Qed.

Lemma scrup_back_spec k :
  con_ok k -> top k = 0 -> bottom k = video_num_lines k ->
  step_ok k (scrup_back k) /\
  forall r c, 0 <= c < video_num_columns k -> 0 <= r < video_num_lines k ->
    cell (scrup_back k) r c = scrolled k r c.
Proof.
  intros Hk Ht Hb. pose proof (cols_lt k Hk) as [Hcl Hl]. pose proof (ok_row _ Hk) as Hr.
  destruct (ok_window _ Hk) as [Hw He]. pose proof (row_step k 0 Hk) as Hrow.
  destruct (row_dwords k (video_num_lines k - 1) Hk) as [Hn Hn2]; [lia|].
  rewrite cnt_small in Hn by lia. pose proof (ok_origin _ Hk) as Ho.
  pose proof (row_le k (video_num_lines k - 1) Hk) as Hrl1.
  set (o := video_mem_start k) in *.
  assert (Hv : forall b, vget (vram (scrup_back k)) b =
    if decide (span (o + (video_num_lines k - 1) * video_size_row k) (1 * video_num_columns k) b)
    then video_erase_char k
    else if decide (span (o + 0 * video_size_row k) ((video_num_lines k - 1) * video_num_columns k) b)
    then vget (vram k) (b - o + (origin k + video_size_row k)) else vget (vram k) b).
  { intros b. unfold scrup_back. cbn [set_origin crtc_out vram]. rewrite move_up_vget by lia.
    rewrite cnt_small by lia. fold o. rewrite Hn, Z.mul_1_l. case_decide; [done|].
    replace (2 * Z.shiftr _ 1) with ((video_num_lines k - 1) * video_num_columns k) by lia.
    rewrite Z.mul_0_l, Z.add_0_r. done. }
  split.
  - split; [|done|].
    + pose proof (pos_window k Hk). destruct Hk. split; cbn; fold o; try done; lia.
    + intros b Hi. rewrite Hv. pose proof (row_le k (video_num_lines k) Hk).
      unfold inside in Hi. fold o in Hi.
      rewrite decide_False by (unfold span; lia). rewrite decide_False; [done|]. unfold span. lia.
  - intros r c Hc Hrl. set (k2 := {| k with origin := o; scr_end := o + video_num_lines k * video_size_row k;
      pos := o + con_y k * video_size_row k + 2 * con_x k |}).
    assert (Hk2 : con_ok k2) by (destruct Hk; split; cbn; try done; lia).
    unfold cell at 1, scrolled. rewrite Hv.
    change (origin (scrup_back k)) with o.
    change (video_size_row (scrup_back k)) with (video_size_row k).
    pose proof (cell_span k2 1 (video_num_lines k - 1) r c _ Hk2 Hc eq_refl) as S1.
    pose proof (cell_span k2 (video_num_lines k - 1) 0 r c _ Hk2 Hc eq_refl) as S2.
    change (video_num_columns k2) with (video_num_columns k) in S1, S2.
    change (video_size_row k2) with (video_size_row k) in S1, S2.
    change (origin k2) with o in S1, S2.
    destruct (decide (r = bottom k - 1)) as [D|D].
    + rewrite decide_True by (apply S1; lia). by rewrite decide_False by lia.
    + rewrite decide_False by (rewrite S1; lia). rewrite decide_True by (apply S2; lia).
      rewrite decide_True by lia. unfold cell. f_equal. ring.
Qed.

Lemma scrup_ok k : con_ok k -> step_ok k (scrup k).
Proof.
  intros Hk. destruct (scrup_cases k Hk) as [->|(Ht & Hb & [[He ->]|[He ->]])].
  - by apply scrup_copy_spec.
  - by apply scrup_window_spec.
  - by apply scrup_back_spec.
Qed.

(** A line feed at the bottom of the scroll region moves every row of the region up
    by one and erases its last row, and leaves the rows outside it and the cursor's row
    and column alone; it does so by copying, by moving the window, or by copying the
    window back to the start of video memory. *)
Theorem scrup_scrolls k r c :
  con_ok k -> 0 <= c < video_num_columns k -> 0 <= r < video_num_lines k ->
  cell (scrup k) r c =
    (if decide (top k <= r < bottom k - 1) then cell k (r + 1) c
     else if decide (r = bottom k - 1) then video_erase_char k
     else cell k r c) /\
  con_x (scrup k) = con_x k /\ con_y (scrup k) = con_y k /\
  pos (scrup k) = origin (scrup k) + con_y k * video_size_row k + 2 * con_x k.
Proof.
  intros Hk Hc Hr. fold (scrolled k r c).
  assert (Hxy : con_x (scrup k) = con_x k /\ con_y (scrup k) = con_y k).
  { destruct (scrup_cases k Hk) as [->|(Ht & Hb & [[He ->]|[He ->]])]; done. }
  destruct Hxy as [Hx Hy]. split; [|split; [done|split; [done|]]].
  - destruct (scrup_cases k Hk) as [->|(Ht & Hb & [[He ->]|[He ->]])].
    + by apply scrup_copy_spec.
    + by apply scrup_window_spec.
    + by apply scrup_back_spec.
  - destruct (scrup_ok k Hk) as [Hk' Hd _]. rewrite (ok_pos _ Hk'), Hx, Hy.
    by destruct Hd as (_ & _ & -> & _).
Qed.

(** Scrolling down: the mirror image. *)
Definition scrolled_down (k : console) (r c : Z) : Z :=
  if decide (top k < r < bottom k) then cell k (r - 1) c
  else if decide (r = top k) then video_erase_char k
  else cell k r c.

Lemma scrdown_spec k :
  con_ok k ->
  step_ok k (scrdown k) /\
  forall r c, 0 <= c < video_num_columns k -> cell (scrdown k) r c = scrolled_down k r c.
Proof.
  intros Hk. destruct (ok_region _ Hk) as [Ht Hb]. pose proof (cols_lt k Hk) as [Hcl _].
  destruct (row_dwords k (bottom k - top k - 1) Hk) as [Hn Hn2]; [lia|].
  rewrite cnt_small in Hn by lia. pose proof (row_step k (bottom k - 1) Hk) as Hlast.
  pose proof (row_step k (top k) Hk) as Hfirst.
  destruct (ok_window _ Hk) as [Hw He]. pose proof (ok_row _ Hk) as Hr.
  assert (Hv : forall b, vget (vram (scrdown k)) b =
    if decide (span (origin k + top k * video_size_row k) (1 * video_num_columns k) b)
    then video_erase_char k
    else if decide (span (origin k + (top k + 1) * video_size_row k)
                      ((bottom k - top k - 1) * video_num_columns k) b)
    then vget (vram k) (b - video_size_row k) else vget (vram k) b).
  { intros b. unfold scrdown, move_down. cbn [set_vram vram].
    rewrite stosw_down_up, stosw_spec, cnt_small, u32_small by lia.
    set (n := Z.shiftr _ 1) in *. rewrite movsl_down_spec, cnt_small by lia.
    replace (origin k + video_size_row k * bottom k - 4 - 4 * n + 2 - 2 * video_num_columns k + 2)
      with (origin k + top k * video_size_row k) by lia.
    rewrite Z.mul_1_l. case_decide; [done|].
    replace (origin k + video_size_row k * bottom k - 4 + 4 - 4 * n)
      with (origin k + (top k + 1) * video_size_row k) by lia.
    replace (2 * n) with ((bottom k - top k - 1) * video_num_columns k) by lia.
    case_decide; [|done]. f_equal. ring. }
  split.
  - apply set_vram_ok; [done|]. intros b Hi. apply outside_window in Hi; [|done].
    change (vget (vram (scrdown k)) b = vget (vram k) b). rewrite Hv.
    rewrite decide_False by (unfold span; lia). rewrite decide_False; [done|].
    unfold span. lia.
  - intros r c Hc. unfold cell at 1, scrolled_down. rewrite Hv. cbn [origin video_size_row scrdown move_down set_vram].
    pose proof (cell_span k 1 (top k) r c _ Hk Hc eq_refl) as S1.
    pose proof (cell_span k (bottom k - top k - 1) (top k + 1) r c _ Hk Hc eq_refl) as S2.
    destruct (decide (r = top k)) as [D|D].
    + rewrite decide_True by (apply S1; lia). by rewrite decide_False by lia.
    + rewrite decide_False by (rewrite S1; lia).
      destruct (decide (top k < r < bottom k)) as [D2|D2].
      * rewrite decide_True by (apply S2; lia). unfold cell. f_equal. ring.
      * rewrite decide_False by (rewrite S2; lia). done.
Qed.

Lemma lf_ok k : con_ok k -> step_ok k (lf k).
Proof.
  intros Hk. unfold lf. pose proof (ok_cursor _ Hk). pose proof (ok_pos _ Hk).
  pose proof (ok_region _ Hk). pose proof (cols_lt k Hk). rewrite u32_small by lia.
  case_decide; [|by apply scrup_ok].
  rewrite set_y_pos_goto; [apply goto_ok|..]; try done; lia.
Qed.

Lemma ri_ok k : con_ok k -> step_ok k (ri k).
Proof.
  intros Hk. unfold ri. pose proof (ok_cursor _ Hk). pose proof (ok_pos _ Hk).
  pose proof (ok_region _ Hk). case_decide; [|by apply scrdown_spec].
  rewrite set_y_pos_goto; [apply goto_ok|..]; try done; lia.
Qed.

Lemma insert_line_ok k : con_ok k -> step_ok k (insert_line k).
Proof.
  intros Hk. pose proof (ok_cursor _ Hk). pose proof (ok_region _ Hk). unfold insert_line.
  assert (H1 : step_ok k (set_region (con_y k) (video_num_lines k) k))
    by (apply set_region_ok; [done|lia|lia]).
  set (k1 := set_region _ _ k) in *. destruct (scrdown_spec k1) as [H2 _]; [apply H1|].
  eapply step_trans; [exact H1|]. eapply step_trans; [exact H2|].
  apply set_region_ok; [apply H2|lia|]. destruct H2 as [_ (_ & _ & _ & -> & _) _]. cbn. lia.
Qed.

Lemma delete_line_ok k : con_ok k -> step_ok k (delete_line k).
Proof.
  intros Hk. pose proof (ok_cursor _ Hk). pose proof (ok_region _ Hk). unfold delete_line.
  assert (H1 : step_ok k (set_region (con_y k) (video_num_lines k) k))
    by (apply set_region_ok; [done|lia|lia]).
  set (k1 := set_region _ _ k) in *. pose proof (scrup_ok k1 (so_ok _ _ H1)) as H2.
  eapply step_trans; [exact H1|]. eapply step_trans; [exact H2|].
  apply set_region_ok; [apply H2|lia|]. destruct H2 as [_ (_ & _ & _ & -> & _) _]. cbn. lia.
Qed.

(** ** Characters *)

(** The column after [x -= video_num_columns ; pos -= video_size_row ; lf()]. *)
Lemma wrap_ok k k0 x :
  con_ok k0 -> k = {| k0 with con_x := x; pos := origin k0 + con_y k0 * video_size_row k0 + 2 * x |} ->
  video_num_columns k0 <= x <= video_num_columns k0 + 8 ->
  step_ok k0 (wrap k) /\ con_x (wrap k) = x - video_num_columns k0.
Proof.
  intros Hk -> Hx. destruct (ok_cols _ Hk) as [Hc _]. pose proof (ok_row _ Hk) as Hr.
  pose proof (ok_cursor _ Hk). pose proof (cols_lt k0 Hk). pose proof (cursor_row k0 Hk) as Hcr.
  pose proof (pos_window k0 Hk). destruct (ok_window _ Hk) as [Hw He].
  pose proof (goto_range k0 (x - video_num_columns k0) (con_y k0) Hk) as Hg.
  unfold wrap. set (k1 := set_pos _ _).
  assert (E : k1 = goto (x - video_num_columns k0) (con_y k0) k0).
  { unfold k1, set_pos, set_x, goto. cbn. rewrite !u32_small by lia. f_equal. lia. }
  rewrite E. pose proof (goto_ok k0 (x - video_num_columns k0) (con_y k0) Hk) as Hgo.
  specialize (Hgo ltac:(lia) ltac:(lia)). split.
  - eapply step_trans; [exact Hgo|]. apply lf_ok, Hgo.
  - unfold lf. set (g := goto _ _ _). assert (Hx' : con_x g = x - video_num_columns k0) by done.
    case_decide; [exact Hx'|]. rewrite <- Hx'.
    destruct (scrup_cases g) as [->|(_ & _ & [[_ ->]|[_ ->]])]; done || apply Hgo.
Qed.

Lemma put_char_ok c k : con_ok k -> step_ok k (put_char c k).
Proof.
  intros Hk. unfold put_char. pose proof (ok_cursor _ Hk) as Hcu. pose proof (ok_pos _ Hk) as Hp.
  pose proof (ok_cols _ Hk). set (k1 := if decide _ then _ else _).
  assert (H1 : step_ok k k1 /\ con_x k1 < video_num_columns k1).
  { unfold k1. case_decide as D; [|split; [by apply step_refl|lia]].
    destruct (wrap_ok k k (con_x k) Hk) as [Hw Hx]; [destruct k; cbn in *; by f_equal|lia|].
    split; [exact Hw|]. rewrite Hx. destruct Hw as [_ (_ & -> & _) _]. lia. }
  destruct H1 as [H1 Hx]. pose proof (so_ok _ _ H1) as Hk1. clearbody k1.
  pose proof (poke_ok k1 (c + 256 * attr k1) Hk1 Hx) as H2. set (k2 := poke _ k1) in *.
  assert (Hx2 : con_x k2 < video_num_columns k2) by exact Hx.
  pose proof (so_ok _ _ H2) as Hk2. pose proof (ok_cursor _ Hk2). pose proof (ok_pos _ Hk2).
  eapply step_trans; [exact H1|]. eapply step_trans; [exact H2|]. clearbody k2.
  rewrite set_x_pos_goto; [apply goto_ok|..]; try done; lia.
Qed.

Lemma tab_ok k : con_ok k -> step_ok k (tab k).
Proof.
  intros Hk. unfold tab. pose proof (ok_cursor _ Hk) as Hcu. pose proof (ok_pos _ Hk) as Hp.
  pose proof (ok_cols _ Hk). pose proof (cols_lt k Hk). pose proof (pos_window k Hk).
  set (c := 8 - Z.land (con_x k) 7).
  assert (Hc : 1 <= c <= 8).
  { unfold c. change 7 with (Z.ones 3). rewrite Z.land_ones by lia.
    pose proof (Z.mod_pos_bound (con_x k) (2 ^ 3)). lia. }
  clearbody c. set (k1 := set_pos _ _).
  assert (E : k1 = {| k with con_x := con_x k + c;
      pos := origin k + con_y k * video_size_row k + 2 * (con_x k + c) |}).
  { unfold k1, set_pos, set_x. cbn. rewrite Z.shiftl_mul_pow2 by lia. rewrite !u32_small by lia.
    f_equal. lia. }
  case_decide as D.
  - assert (D' : video_num_columns k < con_x k + c) by (rewrite E in D; exact D).
    destruct (wrap_ok k1 k (con_x k + c) Hk E) as [Hw _]; [lia|exact Hw].
  - assert (D' : con_x k + c <= video_num_columns k) by (rewrite E in D; cbn in D; lia).
    rewrite E. apply (goto_ok k (con_x k + c) (con_y k)); [done|lia|lia].
Qed.

(** Changes that touch neither the geometry, the cursor nor video memory. *)
Ltac meta := intros Hk; split; [destruct Hk; split; cbn in *; try done; try lia|done|done].

Lemma set_con_state_ok v k : 0 <= v <= 3 -> con_ok k -> step_ok k (set_con_state v k).
Proof. intros Hv. meta. Qed.
Lemma set_attr_ok v k : con_ok k -> step_ok k (set_attr v k).
Proof. meta. Qed.
Lemma set_par_ok i v k : con_ok k -> step_ok k (set_par i v k).
Proof.
  meta; [by rewrite zlen_zset|]. unfold zset. case_decide; [|done].
  apply Forall_insert; [done|]. apply u32_range.
Qed.
Lemma set_npar_ok v k : 0 <= v < NPAR -> con_ok k -> step_ok k (set_npar v k).
Proof. intros Hv. meta. Qed.
Lemma save_cur_ok k : con_ok k -> step_ok k (save_cur k).
Proof. meta. Qed.
Lemma sysbeep_ok k : con_ok k -> step_ok k (sysbeep k).
Proof. meta. Qed.
Lemma crtc_out_ok r v k : con_ok k -> step_ok k (crtc_out r v k).
Proof. meta. Qed.

Lemma dec_par_ok i k : con_ok k -> step_ok k (dec_par i k).
Proof. intros Hk. unfold dec_par. case_decide; [by apply set_par_ok|by apply step_refl]. Qed.
Lemma one_par_ok k : con_ok k -> step_ok k (one_par k).
Proof. intros Hk. unfold one_par. case_decide; [by apply set_par_ok|by apply step_refl]. Qed.

(** Run the steps of a sequence one after the other. *)
Lemma step_seq f g k :
  con_ok k -> (forall k, con_ok k -> step_ok k (f k)) -> (forall k, con_ok k -> step_ok k (g k)) ->
  step_ok k (g (f k)).
Proof. intros Hk Hf Hg. eapply step_trans; [by apply Hf|]. apply Hg, Hf, Hk. Qed.

Lemma par_at_nonneg k i : con_ok k -> 0 <= par_at k i.
Proof.
  intros Hk. unfold par_at. destruct (zget (par k) i) as [v|] eqn:E; cbn; [|lia].
  unfold zget in E. case_decide; [|done].
  apply (Forall_lookup_1 _ _ _ _ (ok_par _ Hk) E).
Qed.

Lemma csi_r_ok k : con_ok k -> step_ok k (csi_r k).
Proof.
  intros Hk. unfold csi_r. pose proof (dec_par_ok 0 k Hk) as H1. set (k1 := dec_par 0 k) in *.
  set (k2 := if decide (par_at k1 1 = 0) then _ else _).
  assert (H2 : step_ok k k2).
  { eapply step_trans; [exact H1|]. pose proof (so_ok _ _ H1). unfold k2.
    case_decide; [by apply set_par_ok|by apply step_refl]. }
  clearbody k1 k2. case_decide as D; [|done].
  eapply step_trans; [exact H2|]. pose proof (so_ok _ _ H2) as Hk2.
  pose proof (par_at_nonneg k2 0 Hk2). apply set_region_ok; [done|lia|lia].
Qed.

Lemma csi_m_ok k : con_ok k -> step_ok k (csi_m k).
Proof. apply set_attr_ok. Qed.

Lemma restore_cur_ok k : con_ok k -> step_ok k (restore_cur k).
Proof. apply gotoxy_ok. Qed.

Lemma csi_at_ok n k : con_ok k -> step_ok k (csi_at n k).
Proof. apply iter_ok. intros; by apply insert_char_ok. Qed.
Lemma csi_L_ok n k : con_ok k -> step_ok k (csi_L n k).
Proof. apply iter_ok. intros; by apply insert_line_ok. Qed.
Lemma csi_P_ok n k : con_ok k -> step_ok k (csi_P n k).
Proof. apply iter_ok. intros; by apply delete_char_ok. Qed.
Lemma csi_M_ok n k : con_ok k -> step_ok k (csi_M n k).
Proof. apply iter_ok. intros; by apply delete_line_ok. Qed.

Create HintDb console.
#[export] Hint Resolve step_refl gotoxy_ok cr_ok del_ok csi_J_ok csi_K_ok insert_char_ok
  delete_char_ok lf_ok ri_ok put_char_ok tab_ok set_attr_ok set_par_ok save_cur_ok
  sysbeep_ok crtc_out_ok dec_par_ok one_par_ok csi_r_ok csi_m_ok restore_cur_ok
  csi_at_ok csi_L_ok csi_P_ok csi_M_ok : console.

Lemma con_normal_ok e c k : con_ok k -> step_ok k (con_normal e c k).
Proof.
  intros Hk. unfold con_normal. repeat case_decide; auto with console.
  - apply set_con_state_ok; [lia|done].
  - pose proof (ok_cursor _ Hk). pose proof (ok_pos _ Hk).
    pose proof (cols_lt k Hk). pose proof (pos_window k Hk).
    assert (E : set_pos (pos k - 2) (set_x (con_x k - 1) k) = goto (con_x k - 1) (con_y k) k).
    { unfold set_pos, set_x, goto. cbn. rewrite !u32_small by lia. f_equal. lia. }
    rewrite E. apply goto_ok; [done|lia|lia].
Qed.

(** A step after another one. *)
Ltac after H := eapply step_trans; [exact H|]; pose proof (so_ok _ _ H).

Lemma con_esc_ok c k : con_ok k -> step_ok k (con_esc c k).
Proof.
  intros Hk. unfold con_esc. pose proof (set_con_state_ok 0 k ltac:(lia) Hk) as H1.
  after H1. clear H1. generalize dependent (set_con_state 0 k). intros k1 Hk1.
  repeat case_decide; auto with console. apply set_con_state_ok; [lia|done].
Qed.

Lemma con_final_ok c k : con_ok k -> step_ok k (con_final c k).
Proof.
  intros Hk. unfold con_final. pose proof (set_con_state_ok 0 k ltac:(lia) Hk) as H1.
  after H1. clear H1. generalize dependent (set_con_state 0 k). intros k1 Hk1.
  pose proof (dec_par_ok 0 k1 Hk1) as Hd. pose proof (one_par_ok k1 Hk1) as Ho.
  pose proof (so_ok _ _ Hd) as Hkd. pose proof (so_ok _ _ Ho) as Hko.
  pose proof (dec_par_ok 1 _ Hkd) as Hd1. pose proof (so_ok _ _ Hd1) as Hkd1.
  repeat case_decide; auto with console;
    first [ apply (step_trans _ _ _ Hd); solve [auto with console]
          | apply (step_trans _ _ _ Ho); solve [auto with console]
          | apply (step_trans _ _ _ Hd); apply (step_trans _ _ _ Hd1); auto with console ].
Qed.

Lemma con_params_ok c k : con_ok k -> step_ok k (con_params c k).
Proof.
  intros Hk. unfold con_params. pose proof (ok_npar _ Hk) as Hn.
  repeat case_decide; auto with console.
  - apply set_npar_ok; [lia|done].
  - change (step_ok k (con_final c k)). by apply con_final_ok.
Qed.

Lemma con_csi_ok c k : con_ok k -> step_ok k (con_csi c k).
Proof.
  intros Hk. unfold con_csi. set (k1 := {| par := _ |}).
  assert (H1 : step_ok k k1).
  { split; [|done|done]. destruct Hk. split; try done. cbn. by repeat constructor. }
  case_decide; [exact H1|]. after H1. by apply con_params_ok.
Qed.

(** C27: whatever character the console gets, in whatever state of an escape sequence, its
    cursor stays on the screen with [pos] at its address, the scroll region and the
    window stay well formed, the display is unchanged, and nothing outside video memory
    is written. *)
Theorem con_putc_ok e c k : con_ok k -> step_ok k (con_putc e c k).1.
Proof.
  intros Hk. unfold con_putc. pose proof (ok_state _ Hk).
  repeat case_decide; cbn [fst]; auto with console;
    first [by apply con_normal_ok|by apply con_esc_ok|by apply con_csi_ok
          |by apply con_params_ok|by apply con_final_ok].
Qed.

(** A character shown where the cursor is, and nothing else on the screen. *)
Lemma poke_cell k v r c :
  con_ok k -> con_x k < video_num_columns k -> 0 <= c < video_num_columns k ->
  cell (poke v k) r c = if decide (r = con_y k /\ c = con_x k) then v else cell k r c.
Proof.
  intros Hk Hx Hc. unfold cell. cbn. rewrite vget_insert, (ok_pos _ Hk).
  pose proof (ok_row _ Hk) as Hr. pose proof (ok_cursor _ Hk) as Hcu.
  destruct (decide (r = con_y k /\ c = con_x k)) as [[-> ->]|D]; [by rewrite decide_True|].
  rewrite decide_False; [done|]. rewrite Hr. intros E. apply D.
  assert (r = con_y k) by nia. subst r. split; [done|lia].
Qed.

(** In the normal state a printable character appears at the cursor with the current
    attribute, the cursor moves one column right, and no other cell changes; at the
    right margin the character goes to the start of the next line, as after a line
    feed. *)
Theorem con_prints e c k r col :
  con_ok k -> con_state k = 0 -> 31 < c < 127 -> 0 <= col < video_num_columns k ->
  let k' := (con_putc e c k).1 in
  let k1 := if decide (con_x k = video_num_columns k) then wrap k else k in
  con_x k' = (if decide (con_x k = video_num_columns k) then 1 else con_x k + 1) /\
  con_y k' = con_y k1 /\
  cell k' r col =
    (if decide (r = con_y k' /\ col = con_x k' - 1) then c + 256 * attr k1 else cell k1 r col).
Proof.
  intros Hk Hs Hc Hcol k' k1. unfold k', con_putc. rewrite decide_True by done. cbn [fst].
  unfold con_normal. rewrite decide_True by done. unfold put_char.
  pose proof (ok_cursor _ Hk) as Hcu. pose proof (ok_pos _ Hk) as Hp.
  assert (H1 : step_ok k k1 /\ con_x k1 = if decide (con_x k = video_num_columns k) then 0 else con_x k).
  { unfold k1. case_decide as D; [|split; [by apply step_refl|done]].
    destruct (wrap_ok k k (con_x k) Hk) as [Hw Hx]; [destruct k; cbn in *; by f_equal|lia|].
    split; [exact Hw|]. rewrite Hx. lia. }
  destruct H1 as [H1 Hx]. pose proof (so_ok _ _ H1) as Hk1.
  replace (if decide (video_num_columns k <= con_x k) then wrap k else k) with k1
    by (unfold k1; repeat case_decide; lia || done).
  destruct (so_display _ _ H1) as (_ & Hcols & _). pose proof (ok_cols _ Hk).
  assert (Hx1 : con_x k1 < video_num_columns k1).
  { rewrite Hx, Hcols. case_decide; lia. }
  pose proof (so_ok _ _ (poke_ok k1 (c + 256 * attr k1) Hk1 Hx1)) as Hk2.
  pose proof (poke_cell k1 (c + 256 * attr k1) r col Hk1 Hx1) as Hcell.
  set (k2 := poke _ k1) in *. pose proof (ok_pos _ Hk2) as Hp2. pose proof (ok_cursor _ Hk2).
  assert (E : set_x (con_x k2 + 1) (set_pos (pos k2 + 2) k2) = goto (con_x k2 + 1) (con_y k2) k2).
  { assert (Ex : con_x k2 = con_x k1) by done.
    assert (Ec : video_num_columns k2 = video_num_columns k1) by done.
    apply set_x_pos_goto; [done|lia|lia]. }
  rewrite E. cbn [goto con_x con_y]. split; [|split; [done|]].
  - change (con_x k2) with (con_x k1). rewrite Hx.
    destruct (decide (con_x k = video_num_columns k)); [done|lia].
  - change (cell (goto _ _ k2) r col) with (cell k2 r col). rewrite Hcell by lia.
    change (con_x k2) with (con_x k1). change (con_y k2) with (con_y k1).
    replace (con_x k1 + 1 - 1) with (con_x k1) by lia. done.
Qed.

(** ESC 7 does not save the cursor, unless it is in column 55: the code compares the
    column, not the character, with the digit. *)
Theorem esc_7_ignored e k :
  con_state k = 1 -> con_x k <> 55 -> con_x k <> 56 ->
  con_putc e 55 k = (set_con_state 0 k, false).
Proof.
  intros Hs H5 H6. unfold con_putc. rewrite decide_False by lia. rewrite decide_True by done.
  unfold con_esc. repeat (rewrite decide_False by (cbn; lia)). done.
Qed.

(** ** con_init *)

Definition boot_ok (b : boot_video) : Prop :=
  8 <= ORIG_VIDEO_COLS b /\ ORIG_VIDEO_COLS b mod 2 = 0 /\
  2 * (ORIG_VIDEO_LINES * ORIG_VIDEO_COLS b) <= 0x2000 /\
  0 <= ORIG_X b <= ORIG_VIDEO_COLS b /\ 0 <= ORIG_Y b < ORIG_VIDEO_LINES.

Lemma con_init_ok b : boot_ok b -> con_ok (con_init b con0).
Proof.
  intros (Hc & He & Hs & Hx & Hy). unfold ORIG_VIDEO_LINES in *.
  assert (Hd : exists ty st en pr pv de, display b = (ty, st, en, pr, pv, de) /\
    0 <= st /\ st + 0x2000 <= en /\ en < 2 ^ 31).
  { unfold display. case_decide; destruct (bool_decide _);
      eexists _, _, _, _, _, _; (split; [reflexivity|]); lia. }
  destruct Hd as (ty & st & en & pr & pv & de & E & H1 & H2 & H3).
  unfold con_init. rewrite E. set (k := {| video_type := ty |}).
  unfold gotoxy. rewrite !u32_small by lia. rewrite decide_False by (unfold k; cbn; unfold ORIG_VIDEO_LINES; lia).
  unfold set_pos, set_y, set_x. unfold k. cbn. unfold ORIG_VIDEO_LINES. rewrite Z.shiftl_mul_pow2 by lia.
  assert (0 <= ORIG_Y b * (ORIG_VIDEO_COLS b * 2) <= 24 * (ORIG_VIDEO_COLS b * 2)) by nia.
  rewrite !u32_small by lia. split; cbn; try done; try lia.
  by repeat constructor.
Qed.

Definition ex_boot : boot_video := BootVideo 0 24 0 3 80 3.
Lemma ex_boot_ok : boot_ok ex_boot.
Proof. unfold boot_ok, ORIG_VIDEO_LINES. cbn. lia. Qed.
Definition ex_con : console := con_init ex_boot con0.

Lemma con_putc_ok_witness : step_ok ex_con (con_putc 127 65 ex_con).1.
Proof. apply (con_putc_ok 127 65 ex_con). exact (con_init_ok ex_boot ex_boot_ok). Defined.

Lemma scrup_scrolls_witness : cell (scrup ex_con) 24 0 = 0x0720.
Proof.
  destruct (scrup_scrolls ex_con 24 0 (con_init_ok ex_boot ex_boot_ok)) as [E _];
    [vm_compute; split; [intros H; discriminate H|reflexivity]
    |vm_compute; split; [intros H; discriminate H|reflexivity]|].
  rewrite E. reflexivity.
Defined.

Lemma con_prints_witness : cell (con_putc 127 65 ex_con).1 24 0 = 65 + 256 * 7.
Proof.
  destruct (con_prints 127 65 ex_con 24 0 (con_init_ok ex_boot ex_boot_ok)) as (_ & _ & E).
  - reflexivity.
  - lia.
  - vm_compute; split; [intros H; discriminate H|reflexivity].
  - rewrite E. reflexivity.
Defined.

Lemma esc_7_ignored_witness :
  con_putc 127 55 (set_con_state 1 ex_con) = (set_con_state 0 (set_con_state 1 ex_con), false).
Proof.
  apply (esc_7_ignored 127 (set_con_state 1 ex_con)); [reflexivity|vm_compute; intros H; discriminate H
    |vm_compute; intros H; discriminate H].
Defined.

End ConsoleProps.
