(* ===== verification/Ctype.v ===== *)
(** * lib/ctype.c and include/ctype.h: character classes *)

From S2P Require Import Prelude.

Module Ctype.

Definition U_ : Z := 0x01.
Definition L_ : Z := 0x02.
Definition D_ : Z := 0x04.
Definition C_ : Z := 0x08.
Definition P_ : Z := 0x10.
Definition S_ : Z := 0x20.
Definition X_ : Z := 0x40.
Definition SP_ : Z := 0x80.

(** [_ctype]; its first entry is for EOF (-1). *)
Definition ctype_table : list Z :=
  [0] ++
  [C_;C_;C_;C_;C_;C_;C_;C_] ++
  [C_;C_+S_;C_+S_;C_+S_;C_+S_;C_+S_;C_;C_] ++
  replicate 8 C_ ++ replicate 8 C_ ++
  [S_+SP_;P_;P_;P_;P_;P_;P_;P_] ++
  replicate 8 P_ ++ replicate 8 D_ ++
  [D_;D_;P_;P_;P_;P_;P_;P_] ++
  [P_;U_+X_;U_+X_;U_+X_;U_+X_;U_+X_;U_+X_;U_] ++
  replicate 8 U_ ++ replicate 8 U_ ++
  [U_;U_;U_;P_;P_;P_;P_;P_] ++
  [P_;L_+X_;L_+X_;L_+X_;L_+X_;L_+X_;L_+X_;L_] ++
  replicate 8 L_ ++ replicate 8 L_ ++
  [L_;L_;L_;P_;P_;P_;P_;C_] ++
  replicate 128 0.

(** [(_ctype+1)[c] & mask]; [None] outside the table. *)
Definition is_class (mask c : Z) : option bool :=
  v ← zget ctype_table (c + 1); Some (bool_decide (Z.land v mask <> 0)).

Definition isupper : Z -> option bool := is_class U_.
Definition islower : Z -> option bool := is_class L_.
Definition isdigit : Z -> option bool := is_class D_.

(** [_ctmp] is a (signed) char. *)
Definition tolower (c : Z) : option Z :=
  let c := s8 c in b ← isupper c; Some (if b : bool then c - (65 - 97) else c).
Definition toupper (c : Z) : option Z :=
  let c := s8 c in b ← islower c; Some (if b : bool then c - (97 - 65) else c).

(** The letters and nothing else change case. *)
Lemma case_table :
  forallb (fun c => bool_decide (tolower c = Some (if decide (65 <= c <= 90) then c + 32 else c)) &&
                    bool_decide (toupper c = Some (if decide (97 <= c <= 122) then c - 32 else c)))
    (seqZ (-1) 129) = true.
Proof. vm_compute. reflexivity. Qed.

Lemma tolower_spec c : -1 <= c < 128 -> tolower c = Some (if decide (65 <= c <= 90) then c + 32 else c).
Proof.
  intros Hc. pose proof (proj1 (forallb_forall _ _) case_table c) as H. cbv beta in H.
  apply andb_true_iff in H as [H _]; [by apply bool_decide_eq_true in H|].
  apply list_elem_of_In, elem_of_seqZ. lia.
Qed.

Lemma toupper_spec c : -1 <= c < 128 -> toupper c = Some (if decide (97 <= c <= 122) then c - 32 else c).
Proof.
  intros Hc. pose proof (proj1 (forallb_forall _ _) case_table c) as H. cbv beta in H.
  apply andb_true_iff in H as [_ H]; [by apply bool_decide_eq_true in H|].
  apply list_elem_of_In, elem_of_seqZ. lia.
Qed.

End Ctype.
