(* ===== verification/TtyQueue.v ===== *)
(** * include/linux/tty.h: the terminals' ring buffers

    [head] and [tail] index a buffer of 1024 chars; one cell always stays free, so
    that a queue whose indices are equal is empty.  [contents] is the queue as a
    list, and each operation is described on it. *)

From S2P Require Import Prelude.

Module TtyQueue.

Definition TTY_BUF_SIZE : Z := 1024.

Record tty_queue : Type := Queue {
  data : Z;
  head : Z;
  tail : Z;
  proc_list : option Z;
  buf : list Z            (* chars, as bytes *)
}.

Definition queue0 (d : Z) : tty_queue := Queue d 0 0 None (replicate 1024 0).

(** [& (TTY_BUF_SIZE-1)] *)
Definition mask (a : Z) : Z := Z.land (u32 a) (TTY_BUF_SIZE - 1).

Definition INC (a : Z) : Z := mask (a + 1).
Definition DEC (a : Z) : Z := mask (a - 1).
Definition EMPTY (q : tty_queue) : bool := bool_decide (head q = tail q).
Definition LEFT (q : tty_queue) : Z := mask (tail q - head q - 1).
Definition FULL (q : tty_queue) : bool := bool_decide (LEFT q = 0).
Definition CHARS (q : tty_queue) : Z := mask (head q - tail q).

(** A cell of the buffer, as a byte. *)
Definition cell (q : tty_queue) (i : Z) : Z := default 0 (zget (buf q) i).
Definition LAST (q : tty_queue) : Z := cell q (mask (head q - 1)).

Definition GETCH (q : tty_queue) : Z * tty_queue :=
  (cell q (tail q), {| q with tail := INC (tail q) |}).
Definition PUTCH (c : Z) (q : tty_queue) : tty_queue :=
  {| q with buf := zset (buf q) (head q) (u8 c); head := INC (head q) |}.
Definition unput (q : tty_queue) : tty_queue := {| q with head := DEC (head q) |}.
Definition flush (q : tty_queue) : tty_queue := {| q with head := tail q |}.

(** ** The queue as a list *)

Record q_ok (q : tty_queue) : Prop := {
  q_head : 0 <= head q < TTY_BUF_SIZE;
  q_tail : 0 <= tail q < TTY_BUF_SIZE;
  q_buf : zlen (buf q) = TTY_BUF_SIZE
}.

Definition contents (q : tty_queue) : list Z :=
  (fun i => cell q (mask (tail q + i))) <$> seqZ 0 (CHARS q).

#[local] Ltac Zify.zify_post_hook ::= Z.to_euclidean_division_equations.

Lemma mask_mod a : mask a = a mod 1024.
Proof.
  unfold mask, u32, TTY_BUF_SIZE. change (1024 - 1) with (Z.ones 10).
  rewrite Z.land_ones by lia. change (2 ^ 10) with 1024.
  apply Z.mod_mod_divide. by exists (2 ^ 22).
Qed.

(** Turn ring arithmetic into [mod 1024] facts for [lia]. *)
Ltac ring_lia :=
  unfold PUTCH, GETCH, unput, flush, INC, DEC, LEFT, CHARS, TTY_BUF_SIZE in *;
  cbn [head tail buf fst snd] in *; rewrite ?mask_mod in *; lia.

Lemma zlen_seqZ m n : 0 <= n -> zlen (seqZ m n) = n.
Proof. intros. unfold zlen. rewrite length_seqZ. lia. Qed.

Lemma CHARS_range q : 0 <= CHARS q < 1024.
Proof. ring_lia. Qed.

Lemma zlen_contents q : zlen (contents q) = CHARS q.
Proof.
  unfold zlen, contents. rewrite length_fmap, length_seqZ. pose proof (CHARS_range q). lia.
Qed.

Lemma EMPTY_contents q : q_ok q -> EMPTY q = true <-> contents q = [].
Proof.
  intros [Hh Ht _]. unfold EMPTY. rewrite bool_decide_eq_true. pose proof (zlen_contents q) as Hl.
  pose proof (CHARS_range q). split.
  - intros E. apply zlen_nil_inv. rewrite Hl. ring_lia.
  - intros E. rewrite E in Hl. unfold zlen in Hl. cbn in Hl. ring_lia.
Qed.

Lemma LEFT_contents q : LEFT q = 1023 - zlen (contents q).
Proof. rewrite zlen_contents. ring_lia. Qed.

Lemma FULL_contents q : FULL q = bool_decide (zlen (contents q) = 1023).
Proof. unfold FULL. rewrite LEFT_contents. apply bool_decide_ext. lia. Qed.

Lemma cell_eq q b h t p i : cell {| data := p; head := h; tail := t; proc_list := b; buf := buf q |} i = cell q i.
Proof. done. Qed.

Lemma seqZ_S m n : 0 <= n -> seqZ m (n + 1) = seqZ m n ++ [m + n].
Proof.
  intros. by rewrite seqZ_app by lia.
Qed.

Lemma PUTCH_ok c q : q_ok q -> q_ok (PUTCH c q).
Proof.
  intros [Hh Ht Hb]. split; [ring_lia|done|cbn; by rewrite zlen_zset].
Qed.

Lemma GETCH_ok q : q_ok q -> q_ok (GETCH q).2.
Proof. intros [Hh Ht Hb]. split; [done|ring_lia|done]. Qed.

Lemma unput_ok q : q_ok q -> q_ok (unput q).
Proof. intros [Hh Ht Hb]. split; [ring_lia|done|done]. Qed.

Lemma flush_ok q : q_ok q -> q_ok (flush q).
Proof. intros [Hh Ht Hb]. by split. Qed.

(** A char goes to the end of a queue that is not full. *)
Lemma PUTCH_contents c q :
  q_ok q -> zlen (contents q) < 1023 -> contents (PUTCH c q) = contents q ++ [u8 c].
Proof.
  intros [Hh Ht Hb] Hl. rewrite zlen_contents in Hl. unfold contents.
  assert (E : CHARS (PUTCH c q) = CHARS q + 1) by ring_lia.
  pose proof (CHARS_range q). rewrite E, seqZ_S, fmap_app by lia. f_equal.
  - apply list_fmap_ext. intros j i Hi%list_elem_of_lookup_2%elem_of_seqZ.
    unfold cell, PUTCH. cbn [buf tail head]. rewrite zget_zset_ne; [done|]. ring_lia.
  - unfold PUTCH, cell. cbn [fmap list_fmap buf tail head]. rewrite zget_zset, decide_True; [done| |].
    + ring_lia.
    + unfold TTY_BUF_SIZE in *. lia.
Qed.

(** The oldest char comes out first. *)
Lemma GETCH_contents q :
  q_ok q -> contents q <> [] -> contents q = (GETCH q).1 :: contents (GETCH q).2.
Proof.
  intros [Hh Ht Hb] Hn. pose proof (CHARS_range q).
  assert (0 < CHARS q).
  { rewrite <- zlen_contents. destruct (contents q); [done|]. unfold zlen. cbn. lia. }
  unfold contents. assert (E : CHARS q = CHARS (GETCH q).2 + 1) by ring_lia.
  rewrite (seqZ_cons 0 (CHARS q)) by lia. rewrite fmap_cons. f_equal.
  - unfold GETCH. cbn [fst]. f_equal. ring_lia.
  - replace (Z.pred (CHARS q)) with (CHARS (GETCH q).2) by lia.
    change (Z.succ 0) with (1 + 0). rewrite <- fmap_add_seqZ.
    rewrite <- list_fmap_compose. apply list_fmap_ext. intros _ i _. unfold compose.
    unfold cell, GETCH. cbn [buf snd tail]. do 2 f_equal. ring_lia.
Qed.

(** [LAST] is the newest char, and [DEC(head)] removes it. *)
Lemma unput_contents q :
  q_ok q -> contents q <> [] -> contents q = contents (unput q) ++ [LAST q].
Proof.
  intros [Hh Ht Hb] Hn. pose proof (CHARS_range q).
  assert (0 < CHARS q).
  { rewrite <- zlen_contents. destruct (contents q); [done|]. unfold zlen. cbn. lia. }
  unfold contents. assert (E : CHARS q = CHARS (unput q) + 1) by ring_lia.
  pose proof (CHARS_range (unput q)).
  rewrite E, seqZ_S, fmap_app by lia. f_equal. unfold LAST, unput.
  cbn [fmap list_fmap tail]. f_equal. unfold cell. cbn [buf]. do 2 f_equal. ring_lia.
Qed.

Lemma flush_contents q : contents (flush q) = [].
Proof. apply zlen_nil_inv. rewrite zlen_contents. ring_lia. Qed.

Lemma queue0_ok d : q_ok (queue0 d).
Proof. by split. Qed.
Lemma queue0_contents d : contents (queue0 d) = [].
Proof. reflexivity. Qed.

(** Writing to a full queue does not drop the char: the indices meet and the whole
    queue is lost. *)
Theorem PUTCH_full_loses c q : q_ok q -> FULL q = true -> contents (PUTCH c q) = [].
Proof.
  intros [Hh Ht Hb] HF. rewrite FULL_contents, bool_decide_eq_true, zlen_contents in HF.
  apply zlen_nil_inv. rewrite zlen_contents. ring_lia.
Qed.

(** C28: the ring buffer is a FIFO of 1023 chars: a char put into a queue with room
    comes out after those already there and in order, whatever position the indices
    have reached. *)
Theorem queue_fifo q c :
  q_ok q -> zlen (contents q) < 1023 ->
  let q' := PUTCH c q in
  q_ok q' /\ contents q' = contents q ++ [u8 c] /\ CHARS q' = CHARS q + 1 /\
  LEFT q' = LEFT q - 1 /\
  (GETCH q').1 = default (u8 c) (hd_error (contents q)) /\
  contents (GETCH q').2 = List.tl (contents q ++ [u8 c]).
Proof.
  intros Hq Hl q'. pose proof (PUTCH_ok c q Hq) as Hq'. pose proof (PUTCH_contents c q Hq Hl) as E.
  fold q' in Hq', E. split; [done|]. split; [done|].
  pose proof (zlen_contents q') as L'. rewrite E, zlen_app in L'. pose proof (zlen_contents q) as L.
  change (zlen [u8 c]) with 1 in L'.
  split; [lia|]. split; [rewrite !LEFT_contents, E, zlen_app; change (zlen [u8 c]) with 1; lia|].
  assert (Hn : contents q' <> []) by (rewrite E; by destruct (contents q)).
  pose proof (GETCH_contents q' Hq' Hn) as G. rewrite E in G.
  split; [|by rewrite G].
  assert (G1 : hd_error (contents q ++ [u8 c]) = Some (GETCH q').1) by (by rewrite G).
  destruct (contents q) as [|b l]; by injection G1 as ->.
Qed.

Definition ex_queue : tty_queue := Queue 0 1020 1000 None (replicate 1024 32).

Lemma queue_fifo_witness : contents (PUTCH 65 ex_queue) = replicate 20 32 ++ [65].
Proof.
  destruct (queue_fifo ex_queue 65) as (_ & E & _).
  - by split.
  - reflexivity.
  - rewrite E. reflexivity.
Defined.

Lemma PUTCH_full_loses_witness :
  contents (PUTCH 65 (Queue 0 999 1000 None (replicate 1024 32))) = [].
Proof. apply PUTCH_full_loses; [by split|reflexivity]. Defined.

End TtyQueue.
