(* ===== verification/Tty.v ===== *)
(** * kernel/chr_drv/tty_io.c, serial.c and the writing half of console.c

    A terminal is three queues and a termios; [tty->write] is [con_write] or
    [rs_write].  [con_write] can answer a query through [respond], which calls
    [copy_to_cooked] and so [tty->write] again: [tty_out] ties this knot with a
    depth.  Sleeping is [WaitQueue]'s [interruptible_sleep_on] around [resched], a
    call of [schedule] that comes back.  Port input is the device's answer [inb] to
    the outputs so far. *)

From S2P Require Import Prelude Ctype Memory Task WaitQueue UserMem TtyQueue Console.
Import Ctype Task UserMem TtyQueue.

Module Tty.

Definition EINTR : Z := 4.

(** ** termios.h *)

Definition VINTR : Z := 0.
Definition VQUIT : Z := 1.
Definition VERASE : Z := 2.
Definition VKILL : Z := 3.
Definition VEOF : Z := 4.
Definition VTIME : Z := 5.
Definition VMIN : Z := 6.
Definition VSTART : Z := 8.
Definition VSTOP : Z := 9.
Definition NCCS : Z := 17.
(** Octal in the source. *)
Definition INLCR : Z := 0x40.
Definition IGNCR : Z := 0x80.
Definition ICRNL : Z := 0x100.
Definition IUCLC : Z := 0x200.
Definition OPOST : Z := 0x1.
Definition OLCUC : Z := 0x2.
Definition ONLCR : Z := 0x4.
Definition OCRNL : Z := 0x8.
Definition ONLRET : Z := 0x20.
Definition B2400 : Z := 0xb.
Definition CS8 : Z := 0x30.
Definition CBAUD : Z := 0xf.
Definition ISIG : Z := 0x1.
Definition ICANON : Z := 0x2.
Definition ECHO : Z := 0x8.
Definition ECHOCTL : Z := 0x200.
Definition ECHOKE : Z := 0x800.

(** [c_pad] is the padding after [c_cc] (the structure has 36 bytes). *)
Record termios : Type := MkTermios {
  c_iflag : Z; c_oflag : Z; c_cflag : Z; c_lflag : Z; c_line : Z; c_cc : list Z; c_pad : list Z
}.
Definition Termios (i o c l line : Z) (cc : list Z) : termios := MkTermios i o c l line cc [0; 0].

Inductive writer : Type := Con_write | Rs_write.

Record tty_struct : Type := TtyStruct {
  tty_termios : termios;
  tty_pgrp : Z;
  stopped : Z;
  write : writer;
  read_q : tty_queue;
  write_q : tty_queue;
  secondary : tty_queue
}.

Definition flag_set (f v : Z) : bool := bool_decide (Z.land v f <> 0).
Definition L_flag (t : tty_struct) (f : Z) : bool := flag_set f (c_lflag (tty_termios t)).
Definition I_flag (t : tty_struct) (f : Z) : bool := flag_set f (c_iflag (tty_termios t)).
Definition O_flag (t : tty_struct) (f : Z) : bool := flag_set f (c_oflag (tty_termios t)).
Definition cc (t : tty_struct) (i : Z) : Z := default 0 (zget (c_cc (tty_termios t)) i).

Definition INIT_C_CC : list Z := [3;28;127;21;4;0;1;0;17;19;26;0;18;15;23;22;0].

(** [tty_table]: the console and two serial lines. *)
Definition tty_table0 : list tty_struct :=
  let rs port := TtyStruct (Termios 0 0 (Z.lor B2400 CS8) 0 0 INIT_C_CC) 0 0 Rs_write
                   (queue0 port) (queue0 port) (queue0 0) in
  [TtyStruct (Termios ICRNL (Z.lor OPOST ONLCR) 0
     (Z.lor ISIG (Z.lor ICANON (Z.lor ECHO (Z.lor ECHOCTL ECHOKE)))) 0 INIT_C_CC) 0 0 Con_write
     (queue0 0) (queue0 0) (queue0 0); rs 0x3f8; rs 0x2f8].

(** ** The state *)

Record ttys : Type := Ttys {
  tty_table : list tty_struct;
  ttab : tasks;
  tcon : Console.console;
  tum : umem;
  tmm : Memory.mm;
  cr_flag : Z;
  outs : list (Z * Z)        (* port and value of each [outb], newest first *)
}.

Definition on_tt {A} : M tasks A -> M ttys A := zoom ttab (fun t s => {| s with ttab := t |}).
Definition upd_con (f : Console.console -> Console.console) : M ttys unit :=
  modify (fun s => {| s with tcon := f (tcon s) |}).
Definition put_ttys (l : list tty_struct) (s : ttys) : ttys := {| s with tty_table := l |}.

Definition tty_at (ch : Z) : M ttys tty_struct :=
  o ← gets (fun s => zget (tty_table s) ch); deref "tty_table" o.
Definition put_tty (ch : Z) (t : tty_struct) : M ttys unit :=
  modify (fun s => put_ttys (zset (tty_table s) ch t) s).

(** One of the three queues. *)
Inductive which : Type := Read | Write | Cooked.
Definition get_q (w : which) (t : tty_struct) : tty_queue :=
  match w with Read => read_q t | Write => write_q t | Cooked => secondary t end.
Definition set_q (w : which) (q : tty_queue) (t : tty_struct) : tty_struct :=
  match w with
  | Read => {| t with read_q := q |}
  | Write => {| t with write_q := q |}
  | Cooked => {| t with secondary := q |}
  end.
Definition set_stopped (v : Z) (t : tty_struct) : tty_struct := {| t with stopped := v |}.
Definition set_termios (v : termios) (t : tty_struct) : tty_struct := {| t with tty_termios := v |}.
Definition set_pgrp (v : Z) (t : tty_struct) : tty_struct := {| t with tty_pgrp := v |}.

Definition upd_q (ch : Z) (w : which) (f : tty_queue -> tty_queue) : M ttys unit :=
  t ← tty_at ch; put_tty ch (set_q w (f (get_q w t)) t).
Definition putch (ch : Z) (w : which) (c : Z) : M ttys unit := upd_q ch w (PUTCH c).
(** [GETCH] into a (signed) char. *)
Definition getch (ch : Z) (w : which) : M ttys Z :=
  t ← tty_at ch;
  let '(c, q) := GETCH (get_q w t) in
  put_tty ch (set_q w q t);; mret (s8 c).

Definition set_data (d : Z) (q : tty_queue) : tty_queue := {| q with data := u32 d |}.
Definition set_proc_list (p : option Z) (q : tty_queue) : tty_queue := {| q with proc_list := p |}.

(** An operation of [WaitQueue] on the [proc_list] of a queue. *)
Definition on_proc_list {A} (ch : Z) (w : which) (m : M WaitQueue.waitq A) : M ttys A :=
  t ← tty_at ch;
  '(x, p) ← (fun s =>
    match m (WaitQueue.Waitq (ttab s) (proc_list (get_q w t))) with
    | Done x v => Done (x, WaitQueue.queue v) {| s with ttab := WaitQueue.wtab v |}
    | Panic e v => Panic e {| s with ttab := WaitQueue.wtab v |}
    | Exited c v => Exited c {| s with ttab := WaitQueue.wtab v |}
    | Undef e v => Undef e {| s with ttab := WaitQueue.wtab v |}
    | NoFuel => NoFuel
    end);
  put_tty ch (set_q w (set_proc_list p (get_q w t)) t);; mret x.

(** ** tty_intr *)

Definition add_signal (m : Z) (t : task_struct) : task_struct := set_signal (Z.lor (signal t) m) t.
Definition INTMASK : Z := Z.shiftl 1 (SIGINT - 1).
Definition QUITMASK : Z := Z.shiftl 1 (SIGQUIT - 1).
Definition ALRMMASK : Z := Z.shiftl 1 (SIGALRM - 1).

Definition tty_intr (t : tty_struct) (m : Z) : M tasks unit :=
  if decide (tty_pgrp t <= 0) then skip
  else
    for_up (Z.to_nat NR_TASKS) 0 (fun i =>
      modify (upd_slot i (fun u => if decide (pgrp u = tty_pgrp t) then add_signal m u else u))).

(** ** copy_to_cooked, given [tty->write] *)

Section cooked.
Context (out : Z -> M ttys unit).
Context (ch : Z).

(** Echo the erasure of [c]. *)
Definition echo_erase (c : Z) : M ttys unit :=
  t ← tty_at ch;
  if L_flag t ECHO then
    (if decide (c < 32) then putch ch Write 127 else skip);;
    putch ch Write 127;; out ch
  else skip.

(** May the last char of [secondary] be erased?  Not a newline or an end of file. *)
Definition erasable (t : tty_struct) : bool :=
  negb (EMPTY (secondary t)) &&
  negb (bool_decide (s8 (LAST (secondary t)) = 10)) &&
  negb (bool_decide (s8 (LAST (secondary t)) = cc t VEOF)).

Definition erase_one : M ttys unit :=
  t ← tty_at ch;
  echo_erase (s8 (LAST (secondary t)));; upd_q ch Cooked unput.

(** The loop of KILL. *)
Fixpoint kill_line (fuel : nat) : M ttys unit :=
  match fuel with
  | O => fun _ => NoFuel
  | S fuel' =>
      t ← tty_at ch;
      if erasable t then erase_one;; kill_line fuel' else skip
  end.

(** The input mapping of CR and NL; [None] when the char is dropped. *)
Definition map_crnl (t : tty_struct) (c : Z) : option Z :=
  if decide (c = 13) then
    if I_flag t ICRNL then Some 10 else if I_flag t IGNCR then None else Some c
  else if decide (c = 10) then if I_flag t INLCR then Some 13 else Some c
  else Some c.

Definition echo_char (c : Z) : M ttys unit :=
  t ← tty_at ch;
  if L_flag t ECHO then
    (if decide (c = 10) then putch ch Write 10;; putch ch Write 13
     else if decide (c < 32) then
       if L_flag t ECHOCTL then putch ch Write 94;; putch ch Write (c + 64) else skip
     else putch ch Write c);;
    out ch
  else skip.

(** [L_CANON] editing: [true] when the char is consumed. *)
Definition canon_char (fuel : nat) (c : Z) : M ttys bool :=
  t ← tty_at ch;
  if L_flag t ICANON then
    if decide (c = cc t VKILL) then kill_line fuel;; mret true
    else if decide (c = cc t VERASE) then
      (if erasable t then erase_one else skip);; mret true
    else if decide (c = cc t VSTOP) then put_tty ch (set_stopped 1 t);; mret true
    else if decide (c = cc t VSTART) then put_tty ch (set_stopped 0 t);; mret true
    else mret false
  else mret false.

(** [L_ISIG]: [true] when the char is a signal. *)
Definition signal_char (c : Z) : M ttys bool :=
  t ← tty_at ch;
  if L_flag t ISIG then
    if decide (c = cc t VINTR) then on_tt (tty_intr t INTMASK);; mret true
    else if decide (c = cc t VQUIT) then on_tt (tty_intr t QUITMASK);; mret true
    else mret false
  else mret false.

(** The end of the loop body: count a line, echo, store. *)
Definition store_char (c : Z) : M ttys unit :=
  t ← tty_at ch;
  (if decide (c = 10 \/ c = cc t VEOF)
   then upd_q ch Cooked (fun q => set_data (data q + 1) q) else skip);;
  echo_char c;;
  putch ch Cooked c.

(** One turn of the loop. *)
Definition cook_char (fuel : nat) : M ttys unit :=
  c ← getch ch Read;
  t ← tty_at ch;
  match map_crnl t c with
  | None => skip
  | Some c =>
      c ← (if I_flag t IUCLC then deref "ctype" (tolower c) else mret c);
      done ← canon_char fuel c;
      if (done : bool) then skip
      else
        done ← signal_char c;
        if (done : bool) then skip else store_char c
  end.

Fixpoint cooked_loop (fuel : nat) : M ttys unit :=
  match fuel with
  | O => fun _ => NoFuel
  | S fuel' =>
      t ← tty_at ch;
      if negb (EMPTY (read_q t)) && negb (FULL (secondary t))
      then cook_char fuel;; cooked_loop fuel'
      else skip
  end.

Definition copy_to_cooked (fuel : nat) : M ttys unit :=
  cooked_loop fuel;; on_proc_list ch Cooked WaitQueue.wake_up.
End cooked.

(** ** con_write, rs_write and tty->write *)

Section device.
Context (inb : list (Z * Z) -> Z -> Z).

Definition outb (v port : Z) : M ttys unit :=
  modify (fun s => {| s with outs := (port, u8 v) :: outs s |}).
Definition in_port (port : Z) : M ttys Z := gets (fun s => u8 (inb (outs s) port)).

(** RESPONSE. *)
Definition RESPONSE : list Z := [27; 91; 63; 49; 59; 50; 99].

Definition respond (out : Z -> M ttys unit) (ch : Z) (fuel : nat) : M ttys unit :=
  for_up (length RESPONSE) 0 (fun i => putch ch Read (default 0 (zget RESPONSE i)));;
  copy_to_cooked out ch fuel.

(** One turn of the loop of [con_write]. *)
Definition con_write_char (out : Z -> M ttys unit) (ch : Z) (fuel : nat) : M ttys unit :=
  c ← getch ch Write;
  t ← tty_at ch;
  k ← gets tcon;
  upd_con (fun k => (Console.con_putc (cc t VERASE) c k).1);;
  if (Console.con_putc (cc t VERASE) c k).2 then respond out ch fuel else skip.

Definition con_write (out : Z -> M ttys unit) (ch : Z) (fuel : nat) : M ttys unit :=
  t ← tty_at ch;
  for_up (Z.to_nat (CHARS (write_q t))) 0 (fun _ => con_write_char out ch fuel);;
  upd_con Console.set_cursor.

Definition rs_write (ch : Z) : M ttys unit :=
  t ← tty_at ch;
  if EMPTY (write_q t) then skip
  else
    v ← in_port (data (write_q t) + 1);
    outb (Z.lor v 2) (data (write_q t) + 1).

(** [tty->write(tty)]; [depth] bounds the nesting of [respond]. *)
Fixpoint tty_out (depth fuel : nat) (ch : Z) : M ttys unit :=
  match depth with
  | O => fun _ => NoFuel
  | S depth' =>
      t ← tty_at ch;
      match write t with
      | Con_write => con_write (tty_out depth' fuel) ch fuel
      | Rs_write => rs_write ch
      end
  end.

Definition do_tty_interrupt (depth fuel : nat) (ch : Z) : M ttys unit :=
  copy_to_cooked (tty_out depth fuel) ch fuel.

(** [init(port)] of serial.c, and [rs_init] without its interrupt gates. *)
Definition init (port : Z) : M ttys unit :=
  outb 0x80 (port + 3);; outb 0x30 port;; outb 0x00 (port + 1);; outb 0x03 (port + 3);;
  outb 0x0b (port + 4);; outb 0x0d (port + 1).
Definition rs_init : M ttys unit :=
  t1 ← tty_at 1; init (data (read_q t1));;
  t2 ← tty_at 2; init (data (read_q t2));;
  v ← in_port 0x21; outb (Z.land v 0xE7) 0x21.

(** ** Sleeping, reading and writing *)

Context (resched : M ttys unit).

Fixpoint isleep_again (fuel : nat) (ch : Z) (w : which) (tmp : option Z) : M ttys unit :=
  match fuel with
  | O => fun _ => NoFuel
  | S fuel' =>
      resched;;
      again ← on_proc_list ch w (WaitQueue.interruptible_sleep_on_resume tmp);
      if (again : bool) then isleep_again fuel' ch w tmp else skip
  end.
Definition interruptible_sleep_on (fuel : nat) (ch : Z) (w : which) : M ttys unit :=
  tmp ← on_proc_list ch w WaitQueue.interruptible_sleep_on_enter;
  isleep_again fuel ch w tmp.

Fixpoint sleep_if_empty (fuel : nat) (ch : Z) (w : which) : M ttys unit :=
  match fuel with
  | O => fun _ => NoFuel
  | S fuel' =>
      c ← on_tt get_current; t ← tty_at ch;
      if decide (signal c = 0) then
        if EMPTY (get_q w t) then interruptible_sleep_on fuel' ch w;; sleep_if_empty fuel' ch w
        else skip
      else skip
  end.

Fixpoint sleep_while_crowded (fuel : nat) (ch : Z) (w : which) : M ttys unit :=
  match fuel with
  | O => fun _ => NoFuel
  | S fuel' =>
      c ← on_tt get_current; t ← tty_at ch;
      if decide (signal c = 0 /\ LEFT (get_q w t) < 128)
      then interruptible_sleep_on fuel' ch w;; sleep_while_crowded fuel' ch w
      else skip
  end.
Definition sleep_if_full (fuel : nat) (ch : Z) (w : which) : M ttys unit :=
  t ← tty_at ch;
  if FULL (get_q w t) then sleep_while_crowded fuel ch w else skip.

(** The [do] loop of [tty_read]: [inl] is its [return], [inr] the number of chars left
    to read and those read. *)
Fixpoint read_chars (fuel : nat) (ch buf nr b : Z) : M ttys (Z + Z * Z) :=
  match fuel with
  | O => fun _ => NoFuel
  | S fuel' =>
      c ← getch ch Cooked;
      t ← tty_at ch;
      (if decide (c = cc t VEOF \/ c = 10)
       then upd_q ch Cooked (fun q => set_data (data q - 1) q) else skip);;
      if decide (c = cc t VEOF /\ L_flag t ICANON = true) then mret (inl b)
      else
        modify (fun s => {| s with tum := put_fs_byte c (buf + b) (tum s) |});;
        let b := b + 1 in let nr := nr - 1 in
        t ← tty_at ch;
        if decide (nr = 0 \/ EMPTY (secondary t) = true) then mret (inr (nr, b))
        else read_chars fuel' ch buf nr b
  end.

(** [flag=(!oldalarm || time+jiffies<oldalarm)] *)
Definition sets_alarm (oldalarm time jiffies : Z) : bool :=
  bool_decide (oldalarm = 0) || bool_decide (s32 (time + jiffies) < oldalarm).

(** The outer loop of [tty_read] and what follows it. *)
Definition read_end (oldalarm b : Z) : M ttys Z :=
  on_tt (put_current (set_alarm oldalarm));;
  c ← on_tt get_current;
  if decide (signal c <> 0 /\ b = 0) then mret (- EINTR) else mret b.

Fixpoint read_loop (fuel : nat) (ch buf oldalarm time minimum nr b : Z) (flag : bool) : M ttys Z :=
  match fuel with
  | O => fun _ => NoFuel
  | S fuel' =>
      if decide (nr <= 0) then read_end oldalarm b
      else
        c ← on_tt get_current;
        if decide (flag = true /\ Z.land (signal c) ALRMMASK <> 0) then
          on_tt (put_current (fun u => set_signal (Z.ldiff (signal u) ALRMMASK) u));;
          read_end oldalarm b
        else if decide (signal c <> 0) then read_end oldalarm b
        else
          t ← tty_at ch;
          if EMPTY (secondary t) || (L_flag t ICANON && bool_decide (data (secondary t) = 0) &&
                                     bool_decide (20 < LEFT (secondary t))) then
            sleep_if_empty fuel' ch Cooked;;
            read_loop fuel' ch buf oldalarm time minimum nr b flag
          else
            r ← read_chars (Z.to_nat nr) ch buf nr b;
            match r with
            | inl b => mret b
            | inr (nr, b) =>
                t ← tty_at ch;
                j ← on_tt (gets jiffies);
                let raw := bool_decide (time <> 0) && negb (L_flag t ICANON) in
                let flag := if raw then sets_alarm oldalarm time j else flag in
                (if raw then
                   on_tt (put_current (set_alarm (if flag then s32 (time + j) else oldalarm)))
                 else skip);;
                if (if L_flag t ICANON then bool_decide (b <> 0) else bool_decide (minimum <= b))
                then read_end oldalarm b
                else read_loop fuel' ch buf oldalarm time minimum nr b flag
            end
  end.

Definition tty_read (fuel : nat) (channel buf nr : Z) : M ttys Z :=
  if decide (2 < u32 channel \/ nr < 0) then mret (-1)
  else
    t ← tty_at channel;
    c ← on_tt get_current;
    j ← on_tt (gets jiffies);
    let oldalarm := alarm c in
    let time := 10 * cc t VTIME in
    let minimum := cc t VMIN in
    let timed := bool_decide (time <> 0) && bool_decide (minimum = 0) in
    let minimum := if timed then 1 else minimum in
    let flag := timed && sets_alarm oldalarm time j in
    (if flag then on_tt (put_current (set_alarm (s32 (time + j)))) else skip);;
    let minimum := if decide (nr < minimum) then nr else minimum in
    read_loop fuel channel buf oldalarm time minimum nr 0 flag.

(** Output mapping of one char, with [cr_flag]: the char to send, and whether it is the
    CR inserted before a newline (the char is then not consumed). *)
Definition map_out (t : tty_struct) (cr : bool) (c : Z) : option (Z * bool) :=
  if O_flag t OPOST then
    let c :=
      if decide (c = 13 /\ O_flag t OCRNL = true) then 10
      else if decide (c = 10 /\ O_flag t ONLRET = true) then 13 else c in
    if decide (c = 10 /\ cr = false /\ O_flag t ONLCR = true) then Some (13, true)
    else if O_flag t OLCUC then c ← toupper c; Some (c, false) else Some (c, false)
  else Some (c, false).

(** The inner loop of [tty_write]: chars left and consumed. *)
Fixpoint write_chars (fuel : nat) (ch buf nr b : Z) : M ttys (Z * Z) :=
  match fuel with
  | O => fun _ => NoFuel
  | S fuel' =>
      t ← tty_at ch;
      if decide (0 < nr /\ FULL (write_q t) = false) then
        m ← gets tum; cr ← gets cr_flag;
        r ← deref "ctype" (map_out t (bool_decide (cr <> 0)) (s8 (get_fs_byte m (buf + b))));
        let '(c, again) := r in
        modify (fun s => {| s with cr_flag := c_bool again |});;
        putch ch Write c;;
        if (again : bool) then write_chars fuel' ch buf nr b
        else write_chars fuel' ch buf (nr - 1) (b + 1)
      else mret (nr, b)
  end.

Fixpoint write_loop (fuel depth : nat) (ch buf nr b : Z) : M ttys Z :=
  match fuel with
  | O => fun _ => NoFuel
  | S fuel' =>
      if decide (nr <= 0) then mret b
      else
        sleep_if_full fuel' ch Write;;
        c ← on_tt get_current;
        if decide (signal c <> 0) then mret b
        else
          '(nr, b) ← write_chars (S (Z.to_nat (2 * nr))) ch buf nr b;
          tty_out depth fuel' ch;;
          (if decide (0 < nr) then resched else skip);;
          write_loop fuel' depth ch buf nr b
  end.

Definition tty_write (fuel depth : nat) (channel buf nr : Z) : M ttys Z :=
  if decide (2 < u32 channel \/ nr < 0) then mret (-1)
  else write_loop fuel depth channel buf nr 0.
End device.

Lemma tty_at_bind {B} ch t (k : tty_struct -> M ttys B) s :
  zget (tty_table s) ch = Some t -> (tty_at ch ≫= k) s = k t s.
Proof. intros E. unfold tty_at. run_m. by rewrite E. Qed.

End Tty.
