(* ===== verification/TtyProps.v ===== *)
(** * Properties of the terminal line discipline

    The queues as lists: input editing is a fold over the input, [tty_intr] reaches
    exactly the terminal's process group, output translation is a function on
    lists, the console shows text that is written to it, and the answer to ESC Z overruns the
    write queue. *)

From S2P Require Import Prelude Ctype Memory Task WaitQueue UserMem TtyQueue Console ConsoleProps Tty.
Import Ctype Task UserMem TtyQueue Tty.

Module TtyProps.

(** ** tty_intr *)

Definition signalled_by (t : tty_struct) (m : Z) (u : task_struct) : task_struct :=
  if decide (0 < tty_pgrp t /\ pgrp u = tty_pgrp t) then add_signal m u else u.

Lemma tty_intr_done t m s :
  exists s', tty_intr t m s = Done tt s' /\ current s' = current s /\ jiffies s' = jiffies s /\
    forall i, slot s' i = if decide (0 <= i < NR_TASKS) then signalled_by t m <$> slot s i else slot s i.
Proof.
  unfold tty_intr. case_decide as D.
  { exists s. split; [done|]. split; [done|]. split; [done|]. intros i.
    assert (E : signalled_by t m <$> slot s i = slot s i); [|by case_decide].
    destruct (slot s i) as [u|]; [|done]. cbn. unfold signalled_by. by rewrite decide_False by lia. }
  destruct (for_up_inv (fun j s' => current s' = current s /\ jiffies s' = jiffies s /\
    forall i, slot s' i = if decide (0 <= i < j) then signalled_by t m <$> slot s i else slot s i)
    (Z.to_nat NR_TASKS) 0 (fun i => modify (upd_slot i (fun u =>
      if decide (pgrp u = tty_pgrp t) then add_signal m u else u))) s) as (s' & E & Hc & Hj & H).
  - split; [done|]. split; [done|]. intros i. by rewrite decide_False by lia.
  - intros j s1 Hj (Hc & Hji & H). eexists. split; [reflexivity|].
    rewrite current_upd. split; [done|]. split; [|].
    { rewrite <- Hji. apply upd_slot_other. }
    intros i. rewrite slot_upd_slot, H.
    destruct (decide (j = i)) as [<-|Hne].
    + rewrite (decide_False (P := 0 <= j < j)) by lia. rewrite decide_True by lia.
      destruct (slot s j) as [u|]; [|done]. cbn. f_equal. unfold signalled_by.
      repeat case_decide; (done || lia).
    + assert (0 <= i < j + 1 <-> 0 <= i < j) by lia.
      repeat case_decide; (done || lia).
  - exists s'. split; [exact E|]. split; [done|]. split; [done|]. intros i. rewrite H.
    change (0 + Z.of_nat (Z.to_nat NR_TASKS)) with NR_TASKS. done.
Qed.

(** An interrupt or quit character adds exactly that signal to every task of the
    terminal's process group, and to no other; with no process group it does nothing. *)
Theorem tty_intr_group t m s i u :
  0 <= i < NR_TASKS -> slot s i = Some u ->
  exists s', tty_intr t m s = Done tt s' /\
    slot s' i = Some (if decide (0 < tty_pgrp t /\ pgrp u = tty_pgrp t)
                      then set_signal (Z.lor (signal u) m) u else u) /\
    current s' = current s.
Proof.
  intros Hi Hu. destruct (tty_intr_done t m s) as (s' & E & Hc & _ & H).
  exists s'. split; [done|]. split; [|done]. by rewrite H, decide_True, Hu.
Qed.

(** ** Line editing on lists *)

(** May [b] be erased from the line? *)
Definition editable (t : tty_struct) (b : Z) : bool :=
  negb (bool_decide (s8 b = 10)) && negb (bool_decide (s8 b = cc t VEOF)).

Definition drop_last (t : tty_struct) (l : list Z) : list Z :=
  match last l with
  | Some b => if editable t b then removelast l else l
  | None => l
  end.

(** Erase back to the last newline or end of file. *)
Fixpoint drop_rev (t : tty_struct) (r : list Z) : list Z :=
  match r with
  | b :: r' => if editable t b then drop_rev t r' else r
  | [] => []
  end.
Definition drop_line (t : tty_struct) (l : list Z) : list Z := reverse (drop_rev t (reverse l)).

(** What one turn of the loop does to the line buffer. *)
Definition edit_step (t : tty_struct) (l : list Z) (c : Z) : list Z :=
  match map_crnl t (s8 c) with
  | None => l
  | Some c =>
      let c := if I_flag t IUCLC then default c (tolower c) else c in
      let canon := L_flag t ICANON in
      let isig := L_flag t ISIG in
      if canon && bool_decide (c = cc t VKILL) then drop_line t l
      else if canon && bool_decide (c = cc t VERASE) then drop_last t l
      else if canon && (bool_decide (c = cc t VSTOP) || bool_decide (c = cc t VSTART)) then l
      else if isig && (bool_decide (c = cc t VINTR) || bool_decide (c = cc t VQUIT)) then l
      else l ++ [u8 c]
  end.

(** The same from the terminal's documentation (termios.h): the bits of [c_iflag] (6 INLCR, 7 IGNCR,
    8 ICRNL, 9 IUCLC) and of [c_lflag] (0 ISIG, 1 ICANON), and the special characters by their index. *)
Definition ibit (t : tty_struct) (k : Z) : bool := Z.testbit (c_iflag (tty_termios t)) k.
Definition lbit (t : tty_struct) (k : Z) : bool := Z.testbit (c_lflag (tty_termios t)) k.
Definition special (t : tty_struct) (k : nat) : Z := default 0 (c_cc (tty_termios t) !! k).

(** A line without its last character, unless that ends a line (10, or the end-of-file character). *)
Definition ends_line (t : tty_struct) (b : Z) : Prop := s8 b = 10 \/ s8 b = special t 4.
#[export] Instance ends_line_dec t b : Decision (ends_line t b) := _.
Definition erase_last (t : tty_struct) (l : list Z) : list Z :=
  match last l with Some b => if decide (ends_line t b) then l else removelast l | None => [] end.
Fixpoint erase_line (n : nat) (t : tty_struct) (l : list Z) : list Z :=
  match n with O => l | S n' => erase_line n' t (erase_last t l) end.

(** What the input byte [b] does to the line [l]. *)
Definition edit_char (t : tty_struct) (l : list Z) (b : Z) : list Z :=
  let c := s8 b in
  if decide (c = 13 /\ ibit t 8 = false /\ ibit t 7 = true) then l
  else
    let c := if decide (c = 13 /\ ibit t 8 = true) then 10
             else if decide (c = 10 /\ ibit t 6 = true) then 13 else c in
    let c := if decide (65 <= c <= 90 /\ ibit t 9 = true) then c + 32 else c in
    if decide (lbit t 1 = true /\ c = special t 3) then erase_line (length l) t l
    else if decide (lbit t 1 = true /\ c = special t 2) then erase_last t l
    else if decide (lbit t 1 = true /\ (c = special t 8 \/ c = special t 9)) then l
    else if decide (lbit t 0 = true /\ (c = special t 0 \/ c = special t 1)) then l
    else l ++ [u8 c].

Lemma editable_ends t b : editable t b = negb (bool_decide (ends_line t b)).
Proof.
  unfold editable, ends_line. change (cc t VEOF) with (special t 4).
  destruct (bool_decide_reflect (s8 b = 10)), (bool_decide_reflect (s8 b = special t 4)); cbn;
    [rewrite bool_decide_true|rewrite bool_decide_true|rewrite bool_decide_true|rewrite bool_decide_false]; done || tauto.
Qed.
Lemma drop_last_erase t l : drop_last t l = erase_last t l.
Proof.
  unfold drop_last, erase_last. destruct (last l) as [b|] eqn:E; [|by apply last_None in E].
  rewrite editable_ends. by destruct (decide (ends_line t b)); [rewrite bool_decide_true|rewrite bool_decide_false].
Qed.
Lemma erase_last_snoc t l b : erase_last t (l ++ [b]) = if decide (ends_line t b) then l ++ [b] else l.
Proof. unfold erase_last. rewrite last_snoc. case_decide; [done|]. by rewrite removelast_last. Qed.
Lemma erase_line_stop n t l b : ends_line t b -> erase_line n t (l ++ [b]) = l ++ [b].
Proof. intros H. induction n as [|n IH]; [done|]. cbn. by rewrite erase_last_snoc, decide_True. Qed.
Lemma drop_line_erase t l : drop_line t l = erase_line (length l) t l.
Proof.
  induction l as [|b l IH] using rev_ind; [done|]. unfold drop_line. rewrite reverse_snoc, length_app, Nat.add_comm.
  cbn [drop_rev erase_line Nat.add length]. rewrite editable_ends, erase_last_snoc. case_decide as H.
  - rewrite bool_decide_true by done. cbn [negb]. by rewrite erase_line_stop, reverse_cons, reverse_involutive.
  - rewrite bool_decide_false by done. exact IH.
Qed.

Lemma if_decide_and {A} (a : bool) (P : Prop) `{Decision P} (x y : A) :
  (if decide (a = true /\ P) then x else y) = if a && bool_decide P then x else y.
Proof.
  destruct a; cbn [andb]; [|by rewrite decide_False by (intros [? _]; done)].
  case_bool_decide; [by rewrite decide_True|by rewrite decide_False by tauto].
Qed.
Lemma edit_step_char t l b : (ibit t 9 = true -> -1 <= s8 b) -> edit_step t l b = edit_char t l b.
Proof.
  intros H7. unfold edit_step, edit_char, map_crnl, I_flag, L_flag, flag_set.
  change ICRNL with (2 ^ 8). change IGNCR with (2 ^ 7). change INLCR with (2 ^ 6). change IUCLC with (2 ^ 9).
  change ICANON with (2 ^ 1). change ISIG with (2 ^ 0). rewrite !bit_set_testbit by lia.
  fold (ibit t 8) (ibit t 7) (ibit t 6) (ibit t 9) (lbit t 1) (lbit t 0).
  change (cc t VKILL) with (special t 3). change (cc t VERASE) with (special t 2). change (cc t VSTOP) with (special t 9).
  change (cc t VSTART) with (special t 8). change (cc t VINTR) with (special t 0). change (cc t VQUIT) with (special t 1).
  set (m := if decide (s8 b = 13) then _ else _).
  assert (Hm : m = if decide (s8 b = 13 /\ ibit t 8 = false /\ ibit t 7 = true) then None
    else Some (if decide (s8 b = 13 /\ ibit t 8 = true) then 10 else if decide (s8 b = 10 /\ ibit t 6 = true) then 13 else s8 b)).
  { unfold m. destruct (ibit t 8), (ibit t 7), (ibit t 6); repeat case_decide; try done; try (exfalso; tauto || lia); f_equal; lia. }
  rewrite Hm. case_decide as Hd; [done|]. cbv zeta. set (c1 := if decide (s8 b = 13 /\ ibit t 8 = true) then 10 else _).
  assert (Hc1 : ibit t 9 = true -> -1 <= c1 < 128).
  { intros HU. specialize (H7 HU). pose proof (Z.mod_pos_bound (b + 2 ^ 7) (2 ^ 8)). unfold c1, s8 in *. repeat case_decide; lia. }
  set (c2 := if ibit t 9 then _ else _). set (c3 := if decide (65 <= c1 <= 90 /\ ibit t 9 = true) then _ else _).
  assert (c2 = c3) as ->.
  { clearbody c1. unfold c2, c3. destruct (ibit t 9) eqn:E9; [rewrite tolower_spec by auto; cbn [default]|]; repeat case_decide; naive_solver. }
  clearbody c3. rewrite <- drop_line_erase, <- drop_last_erase.
  rewrite !if_decide_and, !bool_decide_or. by rewrite (orb_comm (bool_decide (c3 = special t 9))).
Qed.

Lemma fold_edit t r l : (ibit t 9 = true -> Forall (fun c => -1 <= s8 c) r) ->
  fold_left (edit_step t) r l = fold_left (edit_char t) r l.
Proof.
  revert l. induction r as [|b r IH]; intros l H; [done|]. cbn. rewrite edit_step_char.
  - apply IH. intros Hu. by destruct (Forall_cons_1 _ _ _ (H Hu)).
  - intros Hu. by destruct (Forall_cons_1 _ _ _ (H Hu)).
Qed.

(** ** Running the terminal code *)

Definition with_tty (ch : Z) (t : tty_struct) (s : ttys) : ttys :=
  put_ttys (zset (tty_table s) ch t) s.

Lemma put_tty_bind {B} ch t (k : unit -> M ttys B) s : (put_tty ch t ≫= k) s = k tt (with_tty ch t s).
Proof. done. Qed.

Lemma with_tty_get ch t t0 s : zget (tty_table s) ch = Some t0 -> zget (tty_table (with_tty ch t s)) ch = Some t.
Proof. intros E. apply zget_zset_eq. by eapply zget_Some_range. Qed.

Lemma with_tty_twice ch t t' s : with_tty ch t' (with_tty ch t s) = with_tty ch t' s.
Proof.
  unfold with_tty, put_ttys. cbn. f_equal. unfold zset. case_decide; [|done].
  by rewrite list_insert_insert_eq.
Qed.

Lemma upd_q_done ch w f t s :
  zget (tty_table s) ch = Some t ->
  upd_q ch w f s = Done tt (with_tty ch (set_q w (f (get_q w t)) t) s).
Proof. intros E. unfold upd_q. by rewrite (tty_at_bind _ t) by done. Qed.

Lemma upd_q_bind {B} ch w f t (k : unit -> M ttys B) s :
  zget (tty_table s) ch = Some t ->
  (upd_q ch w f ≫= k) s = k tt (with_tty ch (set_q w (f (get_q w t)) t) s).
Proof. intros E. by rewrite (done_bind _ _ _ _ _ (upd_q_done ch w f t s E)). Qed.

Lemma getch_bind {B} ch w t (k : Z -> M ttys B) s :
  zget (tty_table s) ch = Some t ->
  (getch ch w ≫= k) s =
    k (s8 (GETCH (get_q w t)).1) (with_tty ch (set_q w (GETCH (get_q w t)).2 t) s).
Proof.
  intros E. apply done_bind. unfold getch. rewrite (tty_at_bind _ t) by done.
  by destruct (GETCH (get_q w t)).
Qed.

(** The terminal [ch] as the editor sees it: the settings of [t0], the line [l], the
    input [r] still to come, and the same tasks. *)
Record line_at (ch : Z) (t0 : tty_struct) (s0 : tasks) (l r : list Z) (s : ttys) : Prop := {
  ln_tty : exists t, zget (tty_table s) ch = Some t /\ tty_termios t = tty_termios t0 /\
    tty_pgrp t = tty_pgrp t0 /\ write_q t = write_q t0 /\ q_ok (read_q t) /\
    q_ok (secondary t) /\ proc_list (secondary t) = proc_list (secondary t0) /\
    contents (secondary t) = l /\ contents (read_q t) = r;
  ln_slots : forall i, is_Some (slot s0 i) -> is_Some (slot (ttab s) i)
}.

Lemma line_intro ch t0 s0 l r s t :
  zget (tty_table s) ch = Some t -> tty_termios t = tty_termios t0 -> tty_pgrp t = tty_pgrp t0 ->
  write_q t = write_q t0 -> q_ok (read_q t) -> q_ok (secondary t) ->
  proc_list (secondary t) = proc_list (secondary t0) ->
  contents (secondary t) = l -> contents (read_q t) = r ->
  (forall i, is_Some (slot s0 i) -> is_Some (slot (ttab s) i)) -> line_at ch t0 s0 l r s.
Proof. intros. split; [by exists t|done]. Qed.

(** The editor looks only at the settings. *)
Lemma editable_ext t t' b : tty_termios t = tty_termios t' -> editable t b = editable t' b.
Proof. intros E. unfold editable, cc. by rewrite E. Qed.

Lemma drop_rev_ext t t' r : tty_termios t = tty_termios t' -> drop_rev t r = drop_rev t' r.
Proof.
  intros E. induction r as [|b r IH]; [done|]. cbn. rewrite (editable_ext t t' b E). by rewrite IH.
Qed.

Lemma edit_step_ext t t' l c : tty_termios t = tty_termios t' -> edit_step t l c = edit_step t' l c.
Proof.
  intros E. unfold edit_step, drop_line, drop_last. rewrite (drop_rev_ext t t' _ E).
  assert (H : match last l with Some b => if editable t b then removelast l else l | None => l end =
    match last l with Some b => if editable t' b then removelast l else l | None => l end).
  { destruct (last l) as [b|]; [|done]. by rewrite (editable_ext t t' b E). }
  rewrite H. unfold map_crnl, I_flag, L_flag, cc. by rewrite E.
Qed.

Lemma last_unput q : q_ok q -> contents q <> [] ->
  last (contents q) = Some (LAST q) /\ removelast (contents q) = contents (unput q).
Proof.
  intros Hq Hn. rewrite (unput_contents q Hq Hn). split; [by rewrite last_snoc|].
  by rewrite removelast_last.
Qed.

Lemma erasable_last t :
  q_ok (secondary t) ->
  erasable t = match last (contents (secondary t)) with Some b => editable t b | None => false end.
Proof.
  intros Hq. unfold erasable. pose proof (EMPTY_contents _ Hq) as HE.
  destruct (EMPTY (secondary t)) eqn:E; cbn [negb andb].
  - by rewrite (proj1 HE eq_refl).
  - assert (Hn : contents (secondary t) <> []) by (intros H; apply HE in H; done).
    by destruct (last_unput _ Hq Hn) as [-> _].
Qed.

(** The data count of [secondary] is not part of the line. *)
Lemma set_data_ok d q : q_ok q -> q_ok (set_data d q).
Proof. by intros []. Qed.

Section no_echo.
Context (out : Z -> M ttys unit) (ch : Z) (t0 : tty_struct) (s0 : tasks).
Hypothesis no_echo : L_flag t0 ECHO = false.

Abbreviation line := (line_at ch t0 s0).

Lemma echo_off t : tty_termios t = tty_termios t0 -> L_flag t ECHO = false.
Proof. intros E. unfold L_flag. by rewrite E. Qed.

Lemma erase_one_line l r s :
  line l r s -> l <> [] ->
  exists s', erase_one out ch s = Done tt s' /\ line (removelast l) r s'.
Proof.
  intros [(t & Et & Hs & Hp & Hw & Hr & Hc & Hpl & <- & <-) Hsl] Hn.
  unfold erase_one. rewrite (tty_at_bind _ t) by done. unfold echo_erase at 1.
  assert (E : echo_erase out ch (s8 (LAST (secondary t))) s = Done tt s).
  { unfold echo_erase. rewrite (tty_at_bind _ t) by done. by rewrite (echo_off t Hs). }
  fold (echo_erase out ch (s8 (LAST (secondary t)))). rewrite (done_bind _ _ _ _ _ E).
  rewrite (upd_q_done _ _ _ t) by done. eexists. split; [reflexivity|].
  eapply line_intro; [by eapply with_tty_get|try done..].
  - by apply unput_ok.
  - cbn. by destruct (last_unput _ Hc Hn) as [_ ->].
Qed.

Lemma kill_line_line fuel l r s :
  line l r s -> (length l < fuel)%nat ->
  exists s', kill_line out ch fuel s = Done tt s' /\ line (drop_line t0 l) r s'.
Proof.
  revert l s. induction fuel as [|fuel IH]; intros l s Hl Hf; [lia|]. cbn [kill_line].
  pose proof Hl as [(t & Et & Hs & Hp & Hw & Hr & Hc & Hpl & El & Er) Hsl].
  rewrite (tty_at_bind _ t) by done. rewrite (erasable_last t Hc), El.
  destruct l as [|b0 l0] using rev_ind; [by exists s|]. clear IHl0.
  rewrite last_snoc, (editable_ext t t0 b0 Hs).
  unfold drop_line. rewrite reverse_snoc. cbn [drop_rev].
  destruct (editable t0 b0); [|exists s; split; [done|by rewrite reverse_cons, reverse_involutive]].
  destruct (erase_one_line _ _ _ Hl) as (s1 & E1 & H1); [by destruct l0|].
  rewrite (done_bind _ _ _ _ _ E1). rewrite removelast_last in H1.
  destruct (IH l0 s1 H1) as (s' & E & H'); [rewrite length_app in Hf; cbn in Hf; lia|].
  by exists s'.
Qed.

Lemma drop_last_line l r s :
  line l r s ->
  exists s', (t ← tty_at ch; if erasable t then erase_one out ch else skip) s = Done tt s' /\
    line (drop_last t0 l) r s'.
Proof.
  intros Hl. pose proof Hl as [(t & Et & Hs & Hp & Hw & Hr & Hc & Hpl & El & Er) Hsl].
  rewrite (tty_at_bind _ t) by done. rewrite (erasable_last t Hc), El. unfold drop_last.
  destruct (last l) as [b|] eqn:E; [|by exists s].
  rewrite (editable_ext t t0 b Hs). destruct (editable t0 b); [|by exists s].
  apply erase_one_line; [done|]. by intros ->.
Qed.

(** Changing something else of the terminal. *)
Lemma line_with_stopped v l r s t :
  line l r s -> zget (tty_table s) ch = Some t -> line l r (with_tty ch (set_stopped v t) s).
Proof.
  intros [(t1 & Et & Hs & Hp & Hw & Hr & Hc & Hpl & <- & <-) Hsl] E.
  rewrite Et in E. injection E as ->. eapply line_intro; [by eapply with_tty_get|done..].
Qed.

Lemma line_intr m l r s t :
  line l r s -> exists s', on_tt (tty_intr t m) s = Done tt s' /\ line l r s'.
Proof.
  intros [Ht Hsl]. destruct (tty_intr_done t m (ttab s)) as (s1 & E & _ & _ & H).
  unfold on_tt, zoom. rewrite E. eexists. split; [reflexivity|]. split; [exact Ht|].
  intros i Hi. cbn. rewrite H. specialize (Hsl i Hi). case_decide; [by apply fmap_is_Some|done].
Qed.

Lemma canon_char_line fuel c l r s :
  line l r s -> (length l < fuel)%nat ->
  exists b s', canon_char out ch fuel c s = Done b s' /\
    if L_flag t0 ICANON && bool_decide (c = cc t0 VKILL)
    then b = true /\ line (drop_line t0 l) r s'
    else if L_flag t0 ICANON && bool_decide (c = cc t0 VERASE)
    then b = true /\ line (drop_last t0 l) r s'
    else line l r s' /\
      b = L_flag t0 ICANON && (bool_decide (c = cc t0 VSTOP) || bool_decide (c = cc t0 VSTART)).
Proof.
  intros Hl Hf. pose proof Hl as [(t & Et & Hs & Hp & Hw & Hr & Hc & Hpl & El & Er) Hsl].
  unfold canon_char. rewrite (tty_at_bind _ t) by done.
  unfold L_flag, cc. rewrite Hs. fold (L_flag t0 ICANON).
  fold (cc t0 VKILL) (cc t0 VERASE) (cc t0 VSTOP) (cc t0 VSTART).
  destruct (L_flag t0 ICANON); cbn [andb]; [|by exists false, s].
  destruct (decide (c = cc t0 VKILL)) as [D|D];
    [rewrite bool_decide_true by done|rewrite bool_decide_false by done].
  { destruct (kill_line_line fuel l r s Hl Hf) as (s' & E & H').
    exists true, s'. split; [|done]. by rewrite (done_bind _ _ _ _ _ E). }
  destruct (decide (c = cc t0 VERASE)) as [D2|D2];
    [rewrite bool_decide_true by done|rewrite bool_decide_false by done].
  { destruct (drop_last_line l r s Hl) as (s' & E & H'). rewrite (tty_at_bind _ t) in E by done.
    exists true, s'. split; [|done]. by rewrite (done_bind _ _ _ _ _ E). }
  destruct (decide (c = cc t0 VSTOP)) as [D3|D3];
    [rewrite bool_decide_true by done|rewrite bool_decide_false by done].
  { eexists true, _. split; [reflexivity|]. split; [|done]. by apply line_with_stopped. }
  destruct (decide (c = cc t0 VSTART)) as [D4|D4];
    [rewrite bool_decide_true by done|rewrite bool_decide_false by done].
  { eexists true, _. split; [reflexivity|]. split; [|done]. by apply line_with_stopped. }
  by exists false, s.
Qed.

Lemma signal_char_line c l r s :
  line l r s ->
  exists s', signal_char ch c s =
      Done (L_flag t0 ISIG && (bool_decide (c = cc t0 VINTR) || bool_decide (c = cc t0 VQUIT))) s' /\
    line l r s'.
Proof.
  intros Hl. pose proof Hl as [(t & Et & Hs & Hp & Hw & Hr & Hc & Hpl & El & Er) Hsl].
  unfold signal_char. rewrite (tty_at_bind _ t) by done.
  unfold L_flag, cc. rewrite Hs. fold (L_flag t0 ISIG). fold (cc t0 VINTR) (cc t0 VQUIT).
  destruct (L_flag t0 ISIG); cbn [andb]; [|by exists s].
  destruct (decide (c = cc t0 VINTR)) as [D|D];
    [rewrite bool_decide_true by done|rewrite bool_decide_false by done].
  { destruct (line_intr INTMASK l r s t Hl) as (s' & E & H'). exists s'. split; [|done].
    by rewrite (done_bind _ _ _ _ _ E). }
  destruct (decide (c = cc t0 VQUIT)) as [D2|D2];
    [rewrite bool_decide_true by done|rewrite bool_decide_false by done]; [|by exists s].
  destruct (line_intr QUITMASK l r s t Hl) as (s' & E & H'). exists s'. split; [|done].
  by rewrite (done_bind _ _ _ _ _ E).
Qed.

Lemma upd_cooked_line f l l' r s :
  line l r s ->
  (forall q, q_ok q -> contents q = l ->
    q_ok (f q) /\ contents (f q) = l' /\ proc_list (f q) = proc_list q) ->
  exists s', upd_q ch Cooked f s = Done tt s' /\ line l' r s'.
Proof.
  intros [(t & Et & Hs & Hp & Hw & Hr & Hc & Hpl & El & Er) Hsl] Hf.
  rewrite (upd_q_done _ _ _ t) by done. eexists. split; [reflexivity|].
  destruct (Hf _ Hc El) as (H1 & H2 & H3).
  eapply line_intro; [by eapply with_tty_get|try done..]. cbn. by rewrite H3.
Qed.

Lemma store_char_line c l r s :
  line l r s -> zlen l < 1023 ->
  exists s', store_char out ch c s = Done tt s' /\ line (l ++ [u8 c]) r s'.
Proof.
  intros Hl Hlen. pose proof Hl as [(t & Et & Hs & _) Hsl].
  unfold store_char. rewrite (tty_at_bind _ t) by done.
  assert (H1 : exists s1, (if decide (c = 10 \/ c = cc t VEOF)
    then upd_q ch Cooked (fun q => set_data (data q + 1) q) else skip) s = Done tt s1 /\ line l r s1).
  { case_decide; [|by exists s]. apply (upd_cooked_line _ l); [done|]. intros q Hq <-.
    split; [by apply set_data_ok|done]. }
  destruct H1 as (s1 & E1 & H1). rewrite (done_bind _ _ _ _ _ E1).
  pose proof H1 as [(t1 & Et1 & Hs1 & _) _].
  assert (E2 : echo_char out ch c s1 = Done tt s1).
  { unfold echo_char. rewrite (tty_at_bind _ t1) by done. by rewrite (echo_off t1 Hs1). }
  rewrite (done_bind _ _ _ _ _ E2). apply (upd_cooked_line _ l); [done|].
  intros q Hq <-. split; [by apply PUTCH_ok|]. split; [by apply PUTCH_contents|done].
Qed.

Lemma cook_char_line fuel c l r s :
  line l (c :: r) s -> zlen l < 1023 -> (length l < fuel)%nat ->
  (I_flag t0 IUCLC = true -> -1 <= s8 c) ->
  exists s', cook_char out ch fuel s = Done tt s' /\ line (edit_step t0 l c) r s'.
Proof.
  intros [(t & Et & Hs & Hp & Hw & Hr & Hc & Hpl & El & Er) Hsl] Hlen Hf Hlow.
  unfold cook_char. rewrite (getch_bind _ _ t) by done. cbn [get_q set_q].
  assert (Hn : contents (read_q t) <> []) by (by rewrite Er).
  pose proof (GETCH_contents _ Hr Hn) as G. rewrite Er in G.
  assert (G1 : (GETCH (read_q t)).1 = c) by congruence.
  assert (G2 : contents (GETCH (read_q t)).2 = r) by congruence.
  rewrite G1. set (t1 := {| tty_termios := _ |}). set (s1 := with_tty ch t1 s).
  assert (Et1 : zget (tty_table s1) ch = Some t1) by (by eapply with_tty_get).
  assert (H1 : line l r s1) by (eapply line_intro; try done; by apply GETCH_ok).
  rewrite (tty_at_bind _ t1) by done. unfold edit_step, map_crnl, I_flag.
  change (tty_termios t1) with (tty_termios t). rewrite Hs.
  fold (I_flag t0 ICRNL) (I_flag t0 IGNCR) (I_flag t0 INLCR) (I_flag t0 IUCLC). fold (map_crnl t0 (s8 c)).
  destruct (map_crnl t0 (s8 c)) as [c1|] eqn:Em; [|by exists s1].
  assert (Hc1 : I_flag t0 IUCLC = true -> -1 <= c1 < 128).
  { intros HU. specialize (Hlow HU). pose proof (Z.mod_pos_bound (c + 2 ^ 7) (2 ^ 8)).
    unfold map_crnl in Em. unfold s8 in *. repeat case_match; simplify_eq; lia. }
  set (c2 := if I_flag t0 IUCLC then default c1 (tolower c1) else c1).
  assert (Ec : (if I_flag t0 IUCLC then deref "ctype" (tolower c1) else mret c1) s1 = Done c2 s1).
  { unfold c2. destruct (I_flag t0 IUCLC); [|done]. by rewrite tolower_spec by (by apply Hc1). }
  rewrite (done_bind _ _ _ _ _ Ec). clearbody c2. clear Ec.
  destruct (canon_char_line fuel c2 l r s1 H1 Hf) as (b & s2 & E2 & H2).
  rewrite (done_bind _ _ _ _ _ E2).
  destruct (L_flag t0 ICANON && bool_decide (c2 = cc t0 VKILL)).
  { destruct H2 as [-> H2]. by exists s2. }
  destruct (L_flag t0 ICANON && bool_decide (c2 = cc t0 VERASE)).
  { destruct H2 as [-> H2]. by exists s2. }
  destruct H2 as [H2 ->].
  destruct (L_flag t0 ICANON && (_ || _)); [by exists s2|].
  destruct (signal_char_line c2 l r s2 H2) as (s3 & E3 & H3).
  rewrite (done_bind _ _ _ _ _ E3).
  destruct (L_flag t0 ISIG && _); [by exists s3|]. by apply store_char_line.
Qed.

Lemma edit_step_length l c : (length (edit_step t0 l c) <= S (length l))%nat.
Proof.
  unfold edit_step. destruct (map_crnl t0 (s8 c)) as [c1|]; [|lia]. cbv zeta.
  assert (Hr : forall r, (length (drop_rev t0 r) <= length r)%nat).
  { induction r as [|b r IH]; cbn; [lia|]. destruct (editable t0 b); cbn; lia. }
  assert (H1 : (length (drop_line t0 l) <= length l)%nat).
  { unfold drop_line. rewrite length_reverse. specialize (Hr (reverse l)).
    rewrite length_reverse in Hr. lia. }
  assert (H2 : (length (drop_last t0 l) <= length l)%nat).
  { unfold drop_last. destruct l as [|b0 l0] using rev_ind; [done|].
    rewrite last_snoc. destruct (editable t0 b0); [|lia].
    rewrite removelast_last, length_app. cbn. lia. }
  repeat case_match; rewrite ?length_app; cbn [length]; lia.
Qed.

Lemma cooked_loop_line fuel l r s :
  line l r s -> (length l + length r <= 1023)%nat -> (length l + 2 * length r < fuel)%nat ->
  (I_flag t0 IUCLC = true -> Forall (fun c => -1 <= s8 c) r) ->
  exists s', cooked_loop out ch fuel s = Done tt s' /\ line (fold_left (edit_step t0) r l) [] s'.
Proof.
  revert l r s. induction fuel as [|fuel IH]; intros l r s Hl Hlen Hf Hlow; [lia|].
  cbn [cooked_loop]. pose proof Hl as [(t & Et & Hs & Hp & Hw & Hr & Hc & Hpl & El & Er) Hsl].
  rewrite (tty_at_bind _ t) by done. rewrite FULL_contents, El.
  pose proof (EMPTY_contents _ Hr) as HE. rewrite Er in HE.
  destruct r as [|c r].
  - rewrite (proj2 HE eq_refl). by exists s.
  - assert (E0 : EMPTY (read_q t) = false).
    { destruct (EMPTY (read_q t)); [|done]. by discriminate (proj1 HE eq_refl). }
    rewrite E0. cbn in Hlen, Hf. unfold zlen. rewrite bool_decide_false by lia. cbn [negb andb].
    destruct (cook_char_line (S fuel) c l r s Hl) as (s1 & E1 & H1); [unfold zlen; lia|lia| |].
    { intros HU. specialize (Hlow HU). by inversion Hlow. }
    rewrite (done_bind _ _ _ _ _ E1). pose proof (edit_step_length l c).
    destruct (IH (edit_step t0 l c) r s1 H1) as (s' & E & H'); [lia|lia| |by exists s'].
    intros HU. specialize (Hlow HU). by inversion Hlow.
Qed.
End no_echo.

(** Whoever waits for a line can be woken. *)
Definition wakeable (q : tty_queue) (s : tasks) : Prop :=
  match proc_list q with Some h => is_Some (slot s h) | None => True end.

Lemma wake_cooked ch t s :
  zget (tty_table s) ch = Some t -> wakeable (secondary t) (ttab s) ->
  exists s', on_proc_list ch Cooked WaitQueue.wake_up s = Done tt s' /\
    zget (tty_table s') ch = Some (set_q Cooked (set_proc_list None (secondary t)) t) /\
    forall h, proc_list (secondary t) = Some h -> exists u, slot (ttab s') h = Some u /\ state u = TASK_RUNNING.
Proof.
  intros Et Hw. unfold on_proc_list. rewrite (tty_at_bind _ t) by done. cbn [get_q].
  unfold wakeable in Hw. unfold WaitQueue.wake_up, mbind, M_bind, gets, WaitQueue.on_wtab, zoom.
  cbn. destruct (proc_list (secondary t)) as [h|] eqn:Ep.
  - destruct Hw as [u Hu]. cbn. rewrite (put_task_Some _ _ u) by done. cbn.
    eexists. split; [reflexivity|]. cbn. split; [apply zget_zset_eq; by eapply zget_Some_range|].
    intros h' [= <-]. exists (set_state 0 u). by rewrite slot_upd_slot, decide_True, Hu.
  - cbn. eexists. split; [reflexivity|]. cbn. split; [|done].
    apply zget_zset_eq. by eapply zget_Some_range.
Qed.

(** C22: without echo, and with room for the whole input in the line buffer, the line discipline is the
    editing of a line, byte by byte: CR and NL are mapped as the input flags say, upper case becomes
    lower case with IUCLC (then the input must be 7-bit), KILL erases the line and ERASE its last
    character, but never past a newline or end of file, START, STOP, INTR and QUIT are not stored, and
    every other character is appended.  The input is used up, and whoever waits for the line is woken. *)
Theorem copy_to_cooked_edits out ch fuel t s :
  zget (tty_table s) ch = Some t -> L_flag t ECHO = false ->
  q_ok (read_q t) -> q_ok (secondary t) ->
  CHARS (secondary t) + CHARS (read_q t) <= 1023 ->
  (ibit t 9 = true -> Forall (fun c => -1 <= s8 c) (contents (read_q t))) ->
  wakeable (secondary t) (ttab s) -> (2048 <= fuel)%nat ->
  exists s' t', copy_to_cooked out ch fuel s = Done tt s' /\
    zget (tty_table s') ch = Some t' /\ tty_termios t' = tty_termios t /\
    write_q t' = write_q t /\ contents (read_q t') = [] /\
    contents (secondary t') = fold_left (edit_char t) (contents (read_q t)) (contents (secondary t)) /\
    proc_list (secondary t') = None /\
    forall h, proc_list (secondary t) = Some h -> exists u, slot (ttab s') h = Some u /\ state u = TASK_RUNNING.
Proof.
  intros Et He Hr Hc Hlen Hlow Hw Hf. rewrite <- (fold_edit t _ _ Hlow).
  assert (E9 : ibit t 9 = I_flag t IUCLC) by (symmetry; apply (bit_set_testbit _ 9); lia).
  rewrite E9 in Hlow. rewrite <- !zlen_contents in Hlen. unfold zlen in Hlen.
  assert (Hl : line_at ch t (ttab s) (contents (secondary t)) (contents (read_q t)) s)
    by (by eapply line_intro).
  destruct (cooked_loop_line out ch t (ttab s) He fuel _ _ _ Hl) as (s1 & E1 & H1); [lia|lia|done|].
  destruct H1 as [(t1 & Et1 & Hs1 & _ & Hw1 & _ & _ & Hp1 & El1 & Er1) Hsl].
  destruct (wake_cooked ch t1 s1 Et1) as (s2 & E2 & Et2 & Hwake).
  { unfold wakeable in *. rewrite Hp1. destruct (proc_list (secondary t)); [by apply Hsl|done]. }
  eexists s2, _. unfold copy_to_cooked. rewrite (done_bind _ _ _ _ _ E1).
  split; [exact E2|]. split; [exact Et2|]. split_and!; try done. intros h Hh. apply Hwake. by rewrite Hp1.
Qed.

(** ** Output *)

(** The bytes one char of output becomes. *)
Definition post (t : tty_struct) (c : Z) : list Z :=
  if O_flag t OPOST then
    let c := if decide (s8 c = 13 /\ O_flag t OCRNL = true) then 10
             else if decide (s8 c = 10 /\ O_flag t ONLRET = true) then 13 else s8 c in
    let up := if O_flag t OLCUC then default c (toupper c) else c in
    if decide (c = 10 /\ O_flag t ONLCR = true) then [13; u8 up] else [u8 up]
  else [u8 (s8 c)].

Definition seven_bit (t : tty_struct) (c : Z) : Prop := O_flag t OLCUC = true -> -1 <= s8 c.

(** One char: mapped once, or preceded by the CR that leaves it to be mapped again. *)
Lemma map_out_post t c :
  seven_bit t c ->
  exists c', map_out t true (s8 c) = Some (c', false) /\
    (map_out t false (s8 c) = Some (13, true) /\ post t c = [13; u8 c'] \/
     map_out t false (s8 c) = Some (c', false) /\ post t c = [u8 c']).
Proof.
  intros H7. unfold map_out, post. destruct (O_flag t OPOST); [|eexists; split; [done|by right]].
  set (c1 := if decide (s8 c = 13 /\ _) then 10 else _).
  assert (H1 : O_flag t OLCUC = true -> -1 <= c1 < 128).
  { intros HU. specialize (H7 HU). pose proof (Z.mod_pos_bound (c + 2 ^ 7) (2 ^ 8)).
    unfold c1, s8 in *. repeat case_decide; lia. }
  clearbody c1. rewrite (decide_False (P := c1 = 10 /\ true = false /\ _)) by (intros (_ & ? & _); done).
  assert (Hup : exists u, (if O_flag t OLCUC then c ← toupper c1; Some (c, false) else Some (c1, false)) =
      Some (u, false) /\ u = if O_flag t OLCUC then default c1 (toupper c1) else c1).
  { destruct (O_flag t OLCUC); [|by eexists]. rewrite toupper_spec by (by apply H1). by eexists. }
  destruct Hup as (u & Eu & ->). rewrite Eu. eexists. split; [reflexivity|].
  destruct (decide (c1 = 10 /\ O_flag t ONLCR = true)) as [[-> HN]|D].
  - left. by rewrite decide_True by done.
  - right. rewrite decide_False; [done|]. intros (-> & _ & ?). by apply D.
Qed.

(** User bytes from [a] on. *)
Definition user_bytes (m : umem) (a : Z) (n : nat) : list Z := get_bytes n a m.

Definition same_but_write (t t' : tty_struct) : Prop :=
  tty_termios t' = tty_termios t /\ write t' = write t /\ read_q t' = read_q t /\
  secondary t' = secondary t /\ data (write_q t') = data (write_q t).

Lemma get_bytes_S n a m : get_bytes (S n) a m = get_fs_byte m a :: get_bytes n (a + 1) m.
Proof.
  unfold get_bytes. rewrite seqZ_cons by lia. cbn [map]. f_equal.
  rewrite Nat2Z.inj_succ, Z.pred_succ. by replace (Z.succ a) with (a + 1) by lia.
Qed.

Lemma post_length t c : 1 <= zlen (post t c).
Proof. unfold post. repeat case_match; unfold zlen; cbn; lia. Qed.

(** Putting one char. *)
Lemma putch_write ch t s c :
  zget (tty_table s) ch = Some t -> q_ok (write_q t) -> zlen (contents (write_q t)) < 1023 ->
  exists t', putch ch Write c s = Done tt (with_tty ch t' s) /\ same_but_write t t' /\
    q_ok (write_q t') /\ contents (write_q t') = contents (write_q t) ++ [u8 c].
Proof.
  intros Et Hq Hl. unfold putch. rewrite (upd_q_done _ _ _ t) by done.
  eexists. split; [reflexivity|]. split; [done|]. cbn.
  split; [by apply PUTCH_ok|by apply PUTCH_contents].
Qed.

Lemma map_out_ext t t' b c : tty_termios t = tty_termios t' -> map_out t b c = map_out t' b c.
Proof. intros E. unfold map_out, O_flag. by rewrite E. Qed.

(** The state after some output to [ch]. *)
Definition wrote (ch : Z) (t t' : tty_struct) (out : list Z) (s s' : ttys) : Prop :=
  zget (tty_table s') ch = Some t' /\ same_but_write t t' /\ q_ok (write_q t') /\
  contents (write_q t') = contents (write_q t) ++ out /\
  ttab s' = ttab s /\ tum s' = tum s /\ tcon s' = tcon s /\ outs s' = outs s.

Lemma wrote_trans ch t t1 t2 o1 o2 s s1 s2 :
  wrote ch t t1 o1 s s1 -> wrote ch t1 t2 o2 s1 s2 -> wrote ch t t2 (o1 ++ o2) s s2.
Proof.
  intros (A0 & (A1 & A2 & A3 & A4 & A5) & A6 & A7 & A8 & A9 & A10 & A11)
         (B0 & (B1 & B2 & B3 & B4 & B5) & B6 & B7 & B8 & B9 & B10 & B11).
  unfold wrote, same_but_write. rewrite B7, A7, app_assoc. split_and!; (done || congruence).
Qed.

(** One turn of the loop. *)
Lemma write_step fuel ch buf nr b t s c' again :
  zget (tty_table s) ch = Some t -> q_ok (write_q t) -> zlen (contents (write_q t)) < 1023 ->
  0 < nr -> map_out t (bool_decide (cr_flag s <> 0)) (s8 (get_fs_byte (tum s) (buf + b))) = Some (c', again) ->
  exists t' s', wrote ch t t' [u8 c'] s s' /\ cr_flag s' = c_bool again /\
    write_chars (S fuel) ch buf nr b s =
      (if again then write_chars fuel ch buf nr b else write_chars fuel ch buf (nr - 1) (b + 1)) s'.
Proof.
  intros Et Hq Hl Hnr Em. cbn [write_chars]. rewrite (tty_at_bind _ t) by done.
  rewrite decide_True; [|split; [done|rewrite FULL_contents; apply bool_decide_false; lia]].
  rewrite !gets_bind, Em, deref_bind, modify_bind.
  set (s1 := {| tty_table := tty_table s; cr_flag := c_bool again |}).
  destruct (putch_write ch t s1 c') as (t2 & E3 & Hsb & Hq2 & Hct2); [done|done|done|].
  exists t2, (with_tty ch t2 s1). rewrite (done_bind _ _ _ _ _ E3). split; [|by destruct again].
  split; [by eapply with_tty_get|done].
Qed.

Lemma post_ext t t' c : tty_termios t = tty_termios t' -> post t c = post t' c.
Proof. intros E. unfold post, O_flag. by rewrite E. Qed.

(** One char of output, with the CR before it when there is one. *)
Lemma write_char_post fuel ch buf nr b t s :
  let c := get_fs_byte (tum s) (buf + b) in
  zget (tty_table s) ch = Some t -> q_ok (write_q t) -> cr_flag s = 0 -> seven_bit t c -> 0 < nr ->
  zlen (contents (write_q t)) + zlen (post t c) <= 1023 ->
  exists t' s', wrote ch t t' (post t c) s s' /\ cr_flag s' = 0 /\
    exists fuel', (fuel <= fuel')%nat /\
      write_chars (S (S fuel)) ch buf nr b s = write_chars fuel' ch buf (nr - 1) (b + 1) s'.
Proof.
  intros c Et Hq Hcr H7 Hnr Hl. destruct (map_out_post t c H7) as (c' & E1 & [[E2 Ep]|[E2 Ep]]).
  - rewrite Ep in Hl |- *. change (zlen [13; u8 c']) with 2 in Hl.
    destruct (write_step (S fuel) ch buf nr b t s 13 true) as (t1 & s1 & W1 & Hcr1 & S1);
      [done|done|lia|done|by rewrite Hcr|].
    pose proof W1 as (Et1 & (Hte & _) & Hq1 & Hc1 & _ & Hu1 & _).
    destruct (write_step fuel ch buf nr b t1 s1 c' false) as (t2 & s2 & W2 & Hcr2 & S2);
      [done|done| |done| |].
    { rewrite Hc1, zlen_app. change (zlen [u8 13]) with 1. lia. }
    { rewrite Hcr1, Hu1. fold c. rewrite (map_out_ext t1 t _ _ Hte). exact E1. }
    exists t2, s2. split; [exact (wrote_trans _ _ _ _ _ _ _ _ _ W1 W2)|]. split; [done|].
    exists fuel. split; [lia|]. by rewrite S1, S2.
  - rewrite Ep in Hl |- *. change (zlen [u8 c']) with 1 in Hl.
    destruct (write_step (S fuel) ch buf nr b t s c' false) as (t1 & s1 & W1 & Hcr1 & S1);
      [done|done|lia|done|by rewrite Hcr|].
    exists t1, s1. split; [done|]. split; [done|]. exists (S fuel). split; [lia|exact S1].
Qed.

Lemma write_chars_post ch buf n fuel b t s :
  zget (tty_table s) ch = Some t -> q_ok (write_q t) -> cr_flag s = 0 ->
  Forall (seven_bit t) (get_bytes n (buf + b) (tum s)) ->
  zlen (contents (write_q t)) + zlen (flat_map (post t) (get_bytes n (buf + b) (tum s))) <= 1023 ->
  (2 * n < fuel)%nat ->
  exists s' t', write_chars fuel ch buf (Z.of_nat n) b s = Done (0, b + Z.of_nat n) s' /\
    wrote ch t t' (flat_map (post t) (get_bytes n (buf + b) (tum s))) s s' /\ cr_flag s' = 0.
Proof.
  revert fuel b t s. induction n as [|n IH]; intros fuel b t s Et Hq Hcr H7 Hl Hf.
  - destruct fuel as [|fuel]; [lia|]. cbn [write_chars]. rewrite (tty_at_bind _ t) by done.
    rewrite decide_False by lia. exists s, t. split; [by replace (b + Z.of_nat 0) with b by lia|].
    split; [|done]. split; [done|]. split; [done|]. split; [done|].
    split; [by rewrite app_nil_r|done].
  - rewrite get_bytes_S in *. cbn [flat_map] in *. inversion H7 as [|? ? Hc7 Hr7]; subst.
    rewrite zlen_app in Hl. destruct fuel as [|[|fuel]]; [lia|lia|].
    pose proof (zlen_nonneg (flat_map (post t) (get_bytes n (buf + b + 1) (tum s)))).
    destruct (write_char_post fuel ch buf (Z.of_nat (S n)) b t s) as (t1 & s1 & W1 & Hcr1 & fuel1 & Hf1 & S1);
      [done|done|done|done|lia|lia|].
    pose proof W1 as (Et1 & (Hte & _) & Hq1 & Hc1 & _ & Hu1 & _). rewrite S1.
    assert (Ef : flat_map (post t1) (get_bytes n (buf + (b + 1)) (tum s1)) =
                 flat_map (post t) (get_bytes n (buf + b + 1) (tum s))).
    { rewrite Hu1, Z.add_assoc. apply flat_map_ext. intros c. by apply post_ext. }
    destruct (IH fuel1 (b + 1) t1 s1) as (s' & t' & E & W2 & Hcr2); [done|done|done| | |lia|].
    + rewrite Hu1, Z.add_assoc. eapply Forall_impl; [exact Hr7|]. intros x.
      unfold seven_bit, O_flag. by rewrite Hte.
    + rewrite Ef, Hc1, zlen_app. lia.
    + exists s', t'. replace (Z.of_nat (S n) - 1) with (Z.of_nat n) by lia. rewrite E.
      split; [do 2 f_equal; lia|]. split; [|done]. rewrite <- Ef. by eapply wrote_trans.
Qed.

(** A write to a serial line with room for its translation takes every char, sends
    each as the output flags say (a newline as CR NL, exactly one CR each), in order,
    after what was already queued, and turns the transmit interrupt on. *)
Theorem tty_write_translates inb resched fuel depth ch buf nr t c s :
  0 <= ch <= 2 -> 0 < nr -> zget (tty_table s) ch = Some t -> write t = Rs_write ->
  slot (ttab s) (current (ttab s)) = Some c -> signal c = 0 -> q_ok (write_q t) ->
  cr_flag s = 0 -> FULL (write_q t) = false ->
  let l := get_bytes (Z.to_nat nr) buf (tum s) in
  Forall (seven_bit t) l ->
  zlen (contents (write_q t)) + zlen (flat_map (post t) l) <= 1023 ->
  exists s' t', tty_write inb resched (S (S fuel)) (S depth) ch buf nr s = Done nr s' /\
    zget (tty_table s') ch = Some t' /\
    contents (write_q t') = contents (write_q t) ++ flat_map (post t) l /\
    outs s' = (data (write_q t) + 1, u8 (Z.lor (u8 (inb (outs s) (data (write_q t) + 1))) 2)) :: outs s.
Proof.
  intros Hch Hnr Et Hwr Hcur Hsig Hq Hcr Hfull l H7 Hl.
  unfold tty_write. rewrite u32_small by lia. rewrite decide_False by lia.
  cbn [write_loop]. rewrite decide_False by lia.
  assert (E1 : sleep_if_full resched (S fuel) ch Write s = Done tt s).
  { unfold sleep_if_full. rewrite (tty_at_bind _ t) by done. cbn [get_q]. by rewrite Hfull. }
  rewrite (done_bind _ _ _ _ _ E1).
  assert (E2 : on_tt get_current s = Done c s).
  { unfold on_tt, zoom. rewrite (get_current_Some _ _ Hcur). by destruct s. }
  rewrite (done_bind _ _ _ _ _ E2). rewrite decide_False by lia.
  destruct (write_chars_post ch buf (Z.to_nat nr) (S (Z.to_nat (2 * nr))) 0 t s)
    as (s1 & t1 & E3 & W & Hcr1); rewrite ?Z.add_0_r; try done; [lia|].
  rewrite Z2Nat.id in E3 by lia. rewrite (done_bind _ _ _ _ _ E3). rewrite Z.add_0_r in W.
  destruct W as (Et1 & (Hte & Hw1 & _ & _ & Hd1) & Hq1 & Hc1 & _ & _ & _ & Ho1). fold l in Hc1.
  assert (HE : EMPTY (write_q t1) = false).
  { destruct (EMPTY (write_q t1)) eqn:HE; [|done]. apply EMPTY_contents in HE; [|done].
    rewrite Hc1 in HE. apply app_eq_nil in HE as [_ HE]. unfold l in HE.
    replace (Z.to_nat nr) with (S (Z.to_nat (nr - 1))) in HE by lia.
    rewrite get_bytes_S in HE. cbn [flat_map] in HE. apply app_eq_nil in HE as [HE _].
    pose proof (post_length t (get_fs_byte (tum s) buf)) as HP. rewrite HE in HP. by cbn in HP. }
  assert (E4 : exists s2, tty_out inb (S depth) (S fuel) ch s1 = Done tt s2 /\
    zget (tty_table s2) ch = Some t1 /\
    outs s2 = (data (write_q t) + 1, u8 (Z.lor (u8 (inb (outs s) (data (write_q t) + 1))) 2)) :: outs s).
  { cbn [tty_out]. rewrite (tty_at_bind _ t1) by done. rewrite Hw1, Hwr. unfold rs_write.
    rewrite (tty_at_bind _ t1) by done. rewrite HE. unfold in_port. rewrite gets_bind.
    eexists. split; [reflexivity|]. split; [exact Et1|]. cbn. by rewrite Ho1, Hd1. }
  destruct E4 as (s2 & E4 & Et2 & Ho2). exists s2, t1. rewrite (done_bind _ _ _ _ _ E4).
  split; [reflexivity|]. split; [exact Et2|]. split; [exact Hc1|exact Ho2].
Qed.

(** ** con_write *)

(** The terminal [ch] is [t] and the console [k]. *)
Definition shown (ch : Z) (t : tty_struct) (k : Console.console) (s : ttys) : ttys := let s1 := with_tty ch t s in {| s1 with tcon := k |}.

(** The console after the characters [l], and that none of them asks for an answer. *)
Fixpoint feed (e : Z) (l : list Z) (k : Console.console) : Console.console :=
  match l with [] => k | c :: l' => feed e l' (Console.con_putc e (s8 c) k).1 end.
Fixpoint unanswered (e : Z) (l : list Z) (k : Console.console) : Prop :=
  match l with [] => True | c :: l' => (Console.con_putc e (s8 c) k).2 = false /\ unanswered e l' (Console.con_putc e (s8 c) k).1 end.

Lemma con_write_char_ok out ch fuel t k s c l :
  is_Some (zget (tty_table s) ch) -> q_ok (write_q t) -> contents (write_q t) = c :: l ->
  (Console.con_putc (cc t VERASE) (s8 c) k).2 = false ->
  con_write_char out ch fuel (shown ch t k s) =
    Done tt (shown ch (set_q Write (GETCH (write_q t)).2 t) (Console.con_putc (cc t VERASE) (s8 c) k).1 s) /\
  q_ok (GETCH (write_q t)).2 /\ contents (GETCH (write_q t)).2 = l.
Proof.
  intros [t0 E0] Hq Hc Hno. pose proof (GETCH_contents (write_q t) Hq ltac:(by rewrite Hc)) as G. rewrite Hc in G.
  assert (Gc : c = (GETCH (write_q t)).1) by by injection G. assert (Gl : l = contents (GETCH (write_q t)).2) by by injection G.
  split; [|split; [by apply GETCH_ok|done]].
  assert (E1 : zget (tty_table (shown ch t k s)) ch = Some t) by (by apply (with_tty_get ch t t0)).
  unfold con_write_char. rewrite (getch_bind ch Write t) by done. cbn [get_q]. rewrite <- Gc.
  set (t1 := set_q Write (GETCH (write_q t)).2 t).
  replace (with_tty ch t1 (shown ch t k s)) with (shown ch t1 k s).
  2: { unfold shown, with_tty, put_ttys. cbn. by rewrite zset_zset. }
  rewrite (tty_at_bind _ t1) by (by apply (with_tty_get ch t1 t0)). rewrite gets_bind. cbn [tcon shown].
  change (cc t1 VERASE) with (cc t VERASE). unfold upd_con. rewrite modify_bind. cbn [tcon shown]. by rewrite Hno.
Qed.

Lemma con_write_loop out ch fuel s l : is_Some (zget (tty_table s) ch) -> forall n t k,
  q_ok (write_q t) -> contents (write_q t) = l -> unanswered (cc t VERASE) l k ->
  exists q, for_up (length l) n (fun _ => con_write_char out ch fuel) (shown ch t k s) =
      Done tt (shown ch (set_q Write q t) (feed (cc t VERASE) l k) s) /\ contents q = [].
Proof.
  intros Hs. induction l as [|c l IH]; intros n t k Hq Hc Hu.
  - exists (write_q t). split; [|done]. by destruct t.
  - destruct Hu as [Hno Hu]. destruct (con_write_char_ok out ch fuel t k s c l Hs Hq Hc Hno) as (R & Hq1 & Hc1).
    destruct (IH (n + 1) (set_q Write (GETCH (write_q t)).2 t) (Console.con_putc (cc t VERASE) (s8 c) k).1 Hq1 Hc1 Hu) as (q & R2 & Hq2).
    exists q. split; [|done]. cbn [length for_up]. unfold for_up; fold @for_up. rewrite (done_bind _ _ _ _ _ R). exact R2.
Qed.

(** Text on one line of the screen. *)
Lemma feed_text e l k :
  ConsoleProps.con_ok k -> Console.con_state k = 0 -> Forall (fun c => 31 < c < 127) l ->
  Console.con_x k + zlen l <= Console.video_num_columns k ->
  let k' := feed e l k in
  unanswered e l k /\ ConsoleProps.con_ok k' /\ Console.con_state k' = 0 /\ ConsoleProps.same_display k k' /\ Console.origin k' = Console.origin k /\
  Console.con_x k' = Console.con_x k + zlen l /\ Console.con_y k' = Console.con_y k /\
  forall r c, 0 <= c < Console.video_num_columns k -> ConsoleProps.cell k' r c =
    if decide (r = Console.con_y k /\ Console.con_x k <= c < Console.con_x k + zlen l)
    then default 0 (zget l (c - Console.con_x k)) + 256 * Console.attr k else ConsoleProps.cell k r c.
Proof.
  revert k. induction l as [|c l IH]; intros k Hk Hst Hl Hx.
  - cbn. change (zlen (@nil Z)) with 0. rewrite Z.add_0_r. split_and!; try done. intros r x _. rewrite decide_False by lia. done.
  - apply Forall_cons in Hl as [Hc Hl]. assert (Hz : zlen (c :: l) = 1 + zlen l) by (unfold zlen; cbn; lia).
    pose proof (zlen_nonneg l). rewrite Hz in Hx |- *. cbn [feed unanswered].
    assert (Es : s8 c = c) by (unfold s8; rewrite Z.mod_small; lia). rewrite Es.
    set (k1 := (Console.con_putc e c k).1) in *.
    assert (E1 : Console.con_putc e c k = (Console.con_normal e c k, false)) by (unfold Console.con_putc; by rewrite decide_True).
    assert (Hk1 : ConsoleProps.step_ok k k1) by (unfold k1; rewrite E1; by apply ConsoleProps.con_normal_ok).
    assert (Hsame : Console.con_state k1 = Console.con_state k /\ Console.origin k1 = Console.origin k /\ Console.attr k1 = Console.attr k).
    { unfold k1. rewrite E1. cbn [fst]. unfold Console.con_normal. rewrite decide_True by done. unfold Console.put_char.
      by rewrite decide_False by lia. }
    destruct Hsame as (Hst1 & Ho1 & Ha1). pose proof (ConsoleProps.so_display _ _ Hk1) as Hd1.
    assert (Hput : forall r col, 0 <= col < Console.video_num_columns k -> Console.con_x k1 = Console.con_x k + 1 /\ Console.con_y k1 = Console.con_y k /\
      ConsoleProps.cell k1 r col = if decide (r = Console.con_y k /\ col = Console.con_x k) then c + 256 * Console.attr k else ConsoleProps.cell k r col).
    { intros r col Hcol. pose proof (ConsoleProps.con_prints e c k r col Hk Hst Hc Hcol) as (P1 & P2 & P3). fold k1 in P1, P2, P3.
      rewrite decide_False in P1 by lia. rewrite decide_False in P2 by lia. rewrite !(decide_False (P := Console.con_x k = _)) in P3 by lia. split_and!; [done..|]. rewrite P3, P1, P2.
      by replace (Console.con_x k + 1 - 1) with (Console.con_x k) by lia. }
    destruct (ConsoleProps.ok_cols _ Hk) as [Hcols _].
    destruct (Hput 0 0 ltac:(lia)) as (X1 & Y1 & _). destruct Hd1 as (D1 & D2 & D3 & D4 & D5 & D6 & D7).
    destruct (IH k1) as (U & K & St & (G1 & G2 & G3 & G4 & G5 & G6 & G7) & O & X & Y & C); [apply Hk1|by rewrite Hst1|done|lia|].
    split_and!; try done; [by rewrite E1|by split_and!; congruence|congruence|lia|congruence|].
    intros r col Hcol. rewrite C by lia. destruct (Hput r col Hcol) as (_ & _ & ->). rewrite X1, Y1, Ha1, zget_cons.
    destruct (decide (r = Console.con_y k)) as [->|Hr]; [|by rewrite !decide_False by lia].
    destruct (decide (col = Console.con_x k)) as [->|Hne].
    + rewrite decide_False by lia. rewrite decide_True by done. rewrite decide_True by lia. by rewrite decide_True by lia.
    + destruct (decide (Console.con_x k < col < Console.con_x k + (1 + zlen l))) as [Hin|Hout].
      * rewrite !(decide_True (P := _ /\ _)) by lia. rewrite decide_False by lia. do 3 f_equal. lia.
      * by rewrite !decide_False by lia.
Qed.

(** C40: [con_write] shows text.  Printable characters that wait in the console's write queue,
    no more than fit on the cursor's line, with no escape sequence begun, are taken out of the queue
    and appear from the cursor on, with the current attribute, one column each; no other cell
    of the screen changes, the cursor ends behind them, also the one the display controller shows,
    and of the terminals nothing but that queue changes. *)
Theorem con_write_shows inb depth fuel ch t s :
  let l := contents (write_q t) in let k := tcon s in
  zget (tty_table s) ch = Some t -> write t = Con_write -> q_ok (write_q t) ->
  ConsoleProps.con_ok k -> Console.con_state k = 0 -> Forall (fun c => 31 < c < 127) l ->
  Console.con_x k + zlen l <= Console.video_num_columns k ->
  exists q k', tty_out inb (S depth) fuel ch s = Done tt {| s with tty_table := zset (tty_table s) ch {| t with write_q := q |}; tcon := k' |} /\
    contents q = [] /\ ConsoleProps.con_ok k' /\ Console.con_state k' = 0 /\
    Console.con_x k' = Console.con_x k + zlen l /\ Console.con_y k' = Console.con_y k /\
    (forall r c, 0 <= c < Console.video_num_columns k -> ConsoleProps.cell k' r c =
      if decide (r = Console.con_y k /\ Console.con_x k <= c < Console.con_x k + zlen l)
      then default 0 (zget l (c - Console.con_x k)) + 256 * Console.attr k else ConsoleProps.cell k r c) /\
    exists hi lo, Console.crtc k' !! 14 = Some hi /\ Console.crtc k' !! 15 = Some lo /\
      256 * hi + lo = (Console.origin k - Console.video_mem_start k + Console.con_y k * Console.video_size_row k + 2 * (Console.con_x k + zlen l)) / 2 mod 2 ^ 16.
Proof.
  intros l k Et Hw Hq Hk Hst Hl Hx.
  destruct (feed_text (cc t VERASE) l k Hk Hst Hl Hx) as (U & K & St & (_ & _ & G3 & _ & G5 & _) & O & X & Y & C).
  assert (Es : shown ch t k s = s).
  { unfold shown, with_tty, put_ttys. cbn. rewrite zset_id by done. by destruct s. }
  destruct (con_write_loop (tty_out inb depth fuel) ch fuel s l ltac:(by eexists) 0 t k Hq eq_refl U) as (q & R & Hc). rewrite Es in R.
  exists q, (Console.set_cursor (feed (cc t VERASE) l k)). split_and!; try done.
  - assert (Ew : tty_out inb (S depth) fuel ch s = con_write (tty_out inb depth fuel) ch fuel s).
    { cbn [tty_out]. rewrite (tty_at_bind _ t) by done. by rewrite Hw. }
    rewrite Ew. unfold con_write. rewrite (tty_at_bind _ t) by done.
    replace (Z.to_nat (CHARS (write_q t))) with (length l) by (rewrite <- zlen_contents; unfold zlen; by rewrite Nat2Z.id).
    rewrite (done_bind _ _ _ _ _ R). reflexivity.
  - by destruct K.
  - pose proof (ConsoleProps.ok_pos _ K) as Hp. pose proof (ConsoleProps.ok_origin _ K). rewrite O, X, Y, G3 in *.
    eexists _, _. split; [cbn; rewrite lookup_insert_ne by done; apply lookup_insert_eq|]. split; [cbn; apply lookup_insert_eq|].
    cbn [Console.pos Console.video_mem_start Console.crtc_out]. rewrite Hp, G5. 
    replace (Console.origin k + Console.con_y k * Console.video_size_row k + 2 * (Console.con_x k + zlen l) - Console.video_mem_start k)
      with (Console.origin k - Console.video_mem_start k + Console.con_y k * Console.video_size_row k + 2 * (Console.con_x k + zlen l)) by lia.
    set (o := _ + 2 * _). change 0xff with (Z.ones 8). rewrite !(Z.land_comm (Z.ones 8)), !Z.land_ones, !Z.shiftr_div_pow2 by lia.
    change (2 ^ 9) with 512. change (2 ^ 1) with 2. change (2 ^ 8) with 256. change (2 ^ 16) with 65536. clearbody o.
    clear. Z.to_euclidean_division_equations. lia.
Qed.

(** ** ESC Z *)

Definition ex_tasks : tasks :=
  Tasks (Some (INIT_TASK 0 0) :: Some (INIT_TASK 0 0) :: replicate 62 None) 1 10 0.
Definition ex_ttys : ttys := Ttys tty_table0 ex_tasks ConsoleProps.ex_con empty (Memory.Mm 0 [] empty) 0 [].
Definition inb0 (l : list (Z * Z)) (p : Z) : Z := 0.

(** The console with [l] waiting to be written. *)
Definition fill (w : which) (l : list Z) (s : ttys) : ttys :=
  fold_left (fun s c => match putch 0 w c s with Done _ s' => s' | _ => s end) l s.

(** Length of the console's write queue after [tty->write]. *)
Definition left_after (s : ttys) : option Z :=
  match tty_out inb0 3 2048 0 s with
  | Done _ s' => t ← zget (tty_table s') 0; Some (CHARS (write_q t))
  | _ => None
  end.

(** ESC Z followed by three more characters leaves 1021 characters in the console's
    write queue instead of none: the answer is echoed by a nested [con_write] that
    empties the queue, and the outer one goes on counting, past its end. *)
Theorem esc_z_overruns_queue :
  left_after (fill Write [27; 90; 65; 66; 67] ex_ttys) = Some 1021 /\
  left_after (fill Write [65; 66; 67; 27; 90] ex_ttys) = Some 0.
Proof. vm_compute. split; reflexivity. Qed.

(** ** Instances *)

Definition the_tty (ch : Z) (s : ttys) : tty_struct :=
  default (TtyStruct (Termios 0 0 0 0 0 []) 0 0 Rs_write (queue0 0) (queue0 0) (queue0 0))
    (zget (tty_table s) ch).

Lemma tty_intr_group_witness :
  exists s', tty_intr (set_pgrp 7 (the_tty 0 ex_ttys)) INTMASK
      (upd_slot 1 (fun u => {| u with pgrp := 7 |}) ex_tasks) = Done tt s' /\
    (signal <$> slot s' 1) = Some 2.
Proof.
  destruct (tty_intr_group (set_pgrp 7 (the_tty 0 ex_ttys)) INTMASK
    (upd_slot 1 (fun u => {| u with pgrp := 7 |}) ex_tasks) 1
    {| (INIT_TASK 0 0) with pgrp := 7 |}) as (s' & E & H & _).
  - unfold NR_TASKS. lia.
  - reflexivity.
  - exists s'. split; [exact E|]. rewrite H. reflexivity.
Defined.

(** The console without echo: "ab", ERASE (127), "c", CR. *)
Definition quiet (t : tty_struct) : tty_struct :=
  set_termios (Termios ICRNL 0 0 (Z.lor ISIG ICANON) 0 INIT_C_CC) t.
Definition typed : ttys :=
  fill Read [97; 98; 127; 99; 13] (put_ttys [quiet (the_tty 0 ex_ttys)] ex_ttys).

Lemma ring_ok q : 0 <= head q < 1024 -> 0 <= TtyQueue.tail q < 1024 -> zlen (buf q) = 1024 -> q_ok q.
Proof. by split. Qed.

Lemma copy_to_cooked_edits_witness :
  exists s' t', copy_to_cooked (fun _ => skip) 0 2048 typed = Done tt s' /\
    zget (tty_table s') 0 = Some t' /\ contents (secondary t') = [97; 99; 10].
Proof.
  destruct (copy_to_cooked_edits (fun _ => skip) 0 2048 (the_tty 0 typed) typed)
    as (s' & t' & E & Et & _ & _ & _ & H & _).
  - reflexivity.
  - reflexivity.
  - apply ring_ok; vm_compute; [split; [intros H; discriminate H|reflexivity]
      |split; [intros H; discriminate H|reflexivity]|reflexivity].
  - apply ring_ok; vm_compute; [split; [intros H; discriminate H|reflexivity]
      |split; [intros H; discriminate H|reflexivity]|reflexivity].
  - vm_compute. intros H; discriminate H.
  - intros H. discriminate H.
  - exact I.
  - lia.
  - exists s', t'. split; [exact E|]. split; [exact Et|]. rewrite H. vm_compute. reflexivity.
Defined.

(** "a", newline to the first serial line with OPOST and ONLCR. *)
Definition serial_out : ttys :=
  {| ex_ttys with
     tty_table := zset (tty_table ex_ttys) 1
       (set_termios (Termios 0 (Z.lor OPOST ONLCR) 0 0 0 INIT_C_CC) (the_tty 1 ex_ttys));
     tum := put_bytes [97; 10] 0x100 empty |}.

(** "Hi" from the cursor on. *)
Lemma con_write_shows_witness :
  exists s', tty_out inb0 1 10 0 (fill Write [72; 105] ex_ttys) = Done tt s' /\ ConsoleProps.cell (tcon s') 24 1 = 105 + 256 * 7.
Proof.
  set (s := fill Write [72; 105] ex_ttys).
  assert (Es : exists t, zget (tty_table s) 0 = Some t /\ write t = Con_write /\ q_ok (write_q t) /\ contents (write_q t) = [72; 105] /\ tcon s = ConsoleProps.ex_con).
  { eexists. split; [vm_compute; reflexivity|]. split; [reflexivity|]. split; [apply ring_ok; [by cbn|by cbn|reflexivity]|]. split; vm_compute; reflexivity. }
  destruct Es as (t & Et & Hw & Hq & Hc & Hk). pose proof (ConsoleProps.con_init_ok ConsoleProps.ex_boot ConsoleProps.ex_boot_ok) as Hok.
  destruct (con_write_shows inb0 0 10 0 t s Et Hw Hq) as (q & k' & R & _ & _ & _ & _ & _ & C & _).
  - rewrite Hk. exact Hok.
  - rewrite Hk. reflexivity.
  - rewrite Hc. apply (bool_decide_unpack _). vm_compute. exact I.
  - rewrite Hc, Hk. apply (bool_decide_unpack _). vm_compute. exact I.
  - eexists. split; [exact R|]. cbn [tcon]. rewrite C, Hc, Hk; [vm_compute; reflexivity|].
    rewrite Hk. apply (bool_decide_unpack _). vm_compute. exact I.
Defined.

Lemma tty_write_translates_witness :
  exists s' t', tty_write inb0 skip 3 1 1 0x100 2 serial_out = Done 2 s' /\
    zget (tty_table s') 1 = Some t' /\ contents (write_q t') = [97; 13; 10].
Proof.
  destruct (tty_write_translates inb0 skip 1 0 1 0x100 2 (the_tty 1 serial_out) (INIT_TASK 0 0) serial_out)
    as (s' & t' & E & Et & H & _).
  - lia.
  - lia.
  - reflexivity.
  - reflexivity.
  - reflexivity.
  - reflexivity.
  - apply ring_ok; vm_compute; [split; [intros H; discriminate H|reflexivity]
      |split; [intros H; discriminate H|reflexivity]|reflexivity].
  - reflexivity.
  - reflexivity.
  - repeat constructor; intros H; discriminate H.
  - vm_compute. intros H; discriminate H.
  - exists s', t'. split; [exact E|]. split; [exact Et|]. rewrite H. vm_compute. reflexivity.
Defined.

End TtyProps.
