(* ===== verification/Printk.v ===== *)
(** * kernel/printk.c and the register dumps of kernel/traps.c

    [printk] formats into the kernel's buffer and hands it to [tty_write] with [fs] on the kernel's
    memory; the traps print through it before they end the task ([Traps.die]). *)

From S2P Require Import Prelude Vsprintf Memory Task Segments UserMem TtyQueue Tty ConsoleProps TtyProps.
Import Task Segments UserMem TtyQueue Tty.

Module Printk.

Definition nl : string := String (Ascii.ascii_of_nat 10) EmptyString.
Definition cr : string := String (Ascii.ascii_of_nat 13) EmptyString.
Definition tab : string := String (Ascii.ascii_of_nat 9) EmptyString.

Definition set_tum (m : umem) (s : ttys) : ttys := {| s with tum := m |}.

Section printk.
Context (inb : list (Z * Z) -> Z -> Z) (resched : M ttys unit) (fuel depth : nat).
(** The kernel's memory, and the address of [buf] in it. *)
Context (ds : umem) (buf : Z).

Definition printk (fmt : string) (args : list Vsprintf.arg) : M ttys Z :=
  match Vsprintf.vsprintf (Vsprintf.bytes fmt) args with
  | None => undef "printk"
  | Some (o, i) =>
      fs ← gets tum;
      modify (set_tum (put_bytes (Vsprintf.o_bytes o ++ [0]) buf ds));;
      _ ← tty_write inb resched fuel depth 0 buf i;
      modify (set_tum fs);;
      mret i
  end.
Definition say (fmt : string) (args : list Vsprintf.arg) : M ttys unit := _ ← printk fmt args; skip.

(** ** The dumps *)

(** What the processor holds: [fs], the limit of segment 0x17, the task register, and a byte of
    a segment. *)
Context (fs limit tr : Z) (get_seg_byte : Z -> Z -> Z).

(** [esp] is the frame of the trap: [eip], [cs], [eflags], [esp], [ss]. *)
Definition at_ (esp : list Z) (i : Z) : Z := default 0 (zget esp i).

(** [die] up to its [do_exit]. *)
Definition die_prints (str : list Z) (esp : list Z) (nr : Z) : M ttys unit :=
  t ← on_tt get_current;
  d ← deref "ldt" (zget (ldt t) 1);
  say ("%s: %04x" ++ nl ++ cr) [Vsprintf.AStr str; Vsprintf.AWord (Z.land nr 0xffff)];;
  say ("EIP:" ++ tab ++ "%04x:%p" ++ nl ++ "EFLAGS:" ++ tab ++ "%p" ++ nl ++ "ESP:" ++ tab ++ "%04x:%p" ++ nl)
    [Vsprintf.AWord (at_ esp 1); Vsprintf.APtr (at_ esp 0); Vsprintf.APtr (at_ esp 2); Vsprintf.AWord (at_ esp 4); Vsprintf.APtr (at_ esp 3)];;
  say ("fs: %04x" ++ nl) [Vsprintf.AWord fs];;
  say ("base: %p, limit: %p" ++ nl) [Vsprintf.APtr (get_base d); Vsprintf.APtr limit];;
  (if decide (at_ esp 4 = 0x17) then
     say "Stack: " [];;
     for_up 4 0 (fun i => m ← gets tum; say "%p " [Vsprintf.APtr (get_fs_long m (u32 (at_ esp 3 + 4 * i)))]);;
     say nl []
   else skip);;
  say ("Pid: %d, process nr: %d" ++ nl ++ cr) [Vsprintf.AWord (pid t); Vsprintf.AWord (Z.land 0xffff tr)];;
  for_up 10 0 (fun i => say "%02x " [Vsprintf.AWord (Z.land 0xff (get_seg_byte (at_ esp 1) (u32 (at_ esp 0 + i))))]);;
  say (nl ++ cr) [].

(** [do_int3], all of it. *)
Definition do_int3_prints (esp : list Z) (fs es ds ebp esi edi edx ecx ebx eax esp_addr : Z) : M ttys unit :=
  say ("eax" ++ tab ++ tab ++ "ebx" ++ tab ++ tab ++ "ecx" ++ tab ++ tab ++ "edx" ++ nl ++ cr ++ "%8x" ++ tab ++ "%8x" ++ tab ++ "%8x" ++ tab ++ "%8x" ++ nl ++ cr)
    [Vsprintf.AWord eax; Vsprintf.AWord ebx; Vsprintf.AWord ecx; Vsprintf.AWord edx];;
  say ("esi" ++ tab ++ tab ++ "edi" ++ tab ++ tab ++ "ebp" ++ tab ++ tab ++ "esp" ++ nl ++ cr ++ "%8x" ++ tab ++ "%8x" ++ tab ++ "%8x" ++ tab ++ "%8x" ++ nl ++ cr)
    [Vsprintf.AWord esi; Vsprintf.AWord edi; Vsprintf.AWord ebp; Vsprintf.AWord esp_addr];;
  say (nl ++ cr ++ "ds" ++ tab ++ "es" ++ tab ++ "fs" ++ tab ++ "tr" ++ nl ++ cr ++ "%4x" ++ tab ++ "%4x" ++ tab ++ "%4x" ++ tab ++ "%4x" ++ nl ++ cr)
    [Vsprintf.AWord ds; Vsprintf.AWord es; Vsprintf.AWord fs; Vsprintf.AWord tr];;
  say ("EIP: %8x   CS: %4x  EFLAGS: %8x" ++ nl ++ cr) [Vsprintf.AWord (at_ esp 0); Vsprintf.AWord (at_ esp 1); Vsprintf.AWord (at_ esp 2)].
End printk.


(** A number on the example's screen, where its cursor was. *)
Example printk_ex :
  match printk TtyProps.inb0 skip 5 5 empty 0x100 "Pid: %d" [Vsprintf.AWord 42] TtyProps.ex_ttys with
  | Done i s => (i, map (fun k => Console.Console.vget (Console.Console.vram (tcon s)) (Console.Console.pos ConsoleProps.ex_con + 2 * k) mod 256) (seqZ 0 8))
  | _ => (0, [])
  end = (7, Vsprintf.bytes "Pid: 42" ++ [0]).
Proof. vm_compute. reflexivity. Qed.

End Printk.
