(* ===== verification/TtyIoctl.v ===== *)
(** * kernel/chr_drv/tty_ioctl.c: terminal settings

    [struct termios] and [struct termio] are moved to and from user memory byte by
    byte; the codecs below are their memory layouts.  [stack_byte] is what the
    padding byte of the local [tmp_termio] happens to hold. *)

From S2P Require Import Prelude Bytes Memory Task UserMem TtyQueue Console Tty.
Import Task UserMem TtyQueue Tty.

Module TtyIoctl.

Definition EINVAL : Z := 22.
Definition NCC : Z := 8.
Definition TCGETS : Z := 0x5401.
Definition TCSETS : Z := 0x5402.
Definition TCSETSW : Z := 0x5403.
Definition TCSETSF : Z := 0x5404.
Definition TCGETA : Z := 0x5405.
Definition TCSETA : Z := 0x5406.
Definition TCSETAW : Z := 0x5407.
Definition TCSETAF : Z := 0x5408.
Definition TCSBRK : Z := 0x5409.
Definition TCFLSH : Z := 0x540B.
Definition TIOCGPGRP : Z := 0x540F.
Definition TIOCSPGRP : Z := 0x5410.
Definition TIOCOUTQ : Z := 0x5411.
Definition TIOCINQ : Z := 0x541B.

(** [sizeof (struct termios)] and [sizeof (struct termio)]. *)
Definition TERMIOS_SIZE : nat := 36.
Definition TERMIO_SIZE : nat := 18.

Definition termios_bytes (t : termios) : list Z :=
  bytes4 (c_iflag t) ++ bytes4 (c_oflag t) ++ bytes4 (c_cflag t) ++ bytes4 (c_lflag t) ++
  [u8 (c_line t)] ++ map u8 (c_cc t) ++ map u8 (c_pad t).

Definition bytes_termios (l : list Z) : termios :=
  MkTermios (word4 (field 0 4 l)) (word4 (field 4 4 l)) (word4 (field 8 4 l))
    (word4 (field 12 4 l)) (default 0 (l !! 16%nat)) (field 17 17 l) (field 34 2 l).

Definition quotient : list Z :=
  [0; 2304; 1536; 1047; 857; 768; 576; 384; 192; 96; 64; 48; 24; 12; 6; 3].

Section ioctl.
Context (stack_byte : Z).

Definition change_speed (ch : Z) : M ttys unit :=
  t ← tty_at ch;
  let port := u16 (data (read_q t)) in
  if decide (port = 0) then skip
  else
    let quot := default 0 (zget quotient (Z.land (c_cflag (tty_termios t)) CBAUD)) in
    outb 0x80 (port + 3);;
    outb (Z.land quot 0xff) port;;
    outb (Z.shiftr quot 8) (port + 1);;
    outb 0x03 (port + 3).

Definition flush_q (ch : Z) (w : which) : M ttys unit := upd_q ch w flush.

(** An operation on the current task's user memory. *)
Definition on_user {A} : M user A -> M ttys A :=
  zoom (fun s => User (ttab s) (tum s) (tmm s))
    (fun u s => {| s with ttab := utab u; tum := um u; tmm := umm u |}).

Definition get_termios (ch a : Z) : M ttys Z :=
  on_user (verify_area a 36);;
  t ← tty_at ch;
  on_user (upd_um (put_bytes (termios_bytes (tty_termios t)) a));;
  mret 0.

Definition set_termios_from (ch a : Z) : M ttys Z :=
  t ← tty_at ch;
  m ← gets tum;
  put_tty ch (set_termios (bytes_termios (get_bytes TERMIOS_SIZE a m)) t);;
  change_speed ch;;
  mret 0.

Definition termio_bytes (t : termios) : list Z :=
  bytes2 (c_iflag t) ++ bytes2 (c_oflag t) ++ bytes2 (c_cflag t) ++ bytes2 (c_lflag t) ++
  [u8 (c_line t)] ++ take 8 (map u8 (c_cc t)) ++ [u8 stack_byte].

Definition get_termio (ch a : Z) : M ttys Z :=
  on_user (verify_area a 18);;
  t ← tty_at ch;
  on_user (upd_um (put_bytes (termio_bytes (tty_termios t)) a));;
  mret 0.

(** Only the low halves of the flags are stored. *)
Definition low_half (old new : Z) : Z := Z.lor (Z.ldiff (u32 old) 0xffff) new.

Definition merge_termio (l : list Z) (t : termios) : termios :=
  MkTermios (low_half (c_iflag t) (word2 (field 0 2 l))) (low_half (c_oflag t) (word2 (field 2 2 l)))
    (low_half (c_cflag t) (word2 (field 4 2 l))) (low_half (c_lflag t) (word2 (field 6 2 l)))
    (default 0 (l !! 8%nat)) (field 9 8 l ++ drop 8 (c_cc t)) (c_pad t).

Definition set_termio (ch a : Z) : M ttys Z :=
  m ← gets tum;
  t ← tty_at ch;
  put_tty ch (set_termios (merge_termio (get_bytes TERMIO_SIZE a m) (tty_termios t)) t);;
  change_speed ch;;
  mret 0.

Definition put_long (v a : Z) : M ttys Z :=
  on_user (verify_area a 4);; on_user (upd_um (put_fs_long v a));; mret 0.

Definition MAJOR (a : Z) : Z := Z.shiftr (u32 a) 8.
Definition MINOR (a : Z) : Z := Z.land a 0xff.

(** Requests not listed here answer -EINVAL, as those marked "not implemented" do. *)
Definition tty_ioctl (dev cmd arg : Z) : M ttys Z :=
  ch ← (if decide (MAJOR dev = 5) then
          c ← on_tt get_current;
          if decide (tty c < 0) then panic "tty_ioctl: dev<0" else mret (tty c)
        else mret (MINOR dev));
  if decide (cmd = TCGETS) then get_termios ch arg
  else if decide (cmd = TCSETSF) then flush_q ch Read;; set_termios_from ch arg
  else if decide (cmd = TCSETSW \/ cmd = TCSETS) then set_termios_from ch arg
  else if decide (cmd = TCGETA) then get_termio ch arg
  else if decide (cmd = TCSETAF) then flush_q ch Read;; set_termio ch arg
  else if decide (cmd = TCSETAW \/ cmd = TCSETA) then set_termio ch arg
  else if decide (cmd = TCSBRK) then mret 0
  else if decide (cmd = TCFLSH) then
    if decide (arg = 0) then flush_q ch Read;; mret 0
    else if decide (arg = 1) then flush_q ch Write;; mret 0
    else if decide (arg = 2) then flush_q ch Read;; flush_q ch Write;; mret 0
    else mret (- EINVAL)
  else if decide (cmd = TIOCGPGRP) then t ← tty_at ch; put_long (tty_pgrp t) arg
  else if decide (cmd = TIOCSPGRP) then
    m ← gets tum; t ← tty_at ch; put_tty ch (set_pgrp (s32 (get_fs_long m arg)) t);; mret 0
  else if decide (cmd = TIOCOUTQ) then t ← tty_at ch; put_long (CHARS (write_q t)) arg
  else if decide (cmd = TIOCINQ) then t ← tty_at ch; put_long (CHARS (secondary t)) arg
  else mret (- EINVAL).
End ioctl.

(** ** The layouts *)

(** Storing the bytes of a [struct termios] and loading them again changes nothing. *)
Lemma bytes_termios_bytes l :
  length l = TERMIOS_SIZE -> Forall (fun x => 0 <= x < 256) l ->
  termios_bytes (bytes_termios l) = l.
Proof.
  intros Hl H. do 17 (destruct l as [|? l]; [done|]).
  unfold termios_bytes, bytes_termios. cbn [c_iflag c_oflag c_cflag c_lflag c_line c_cc c_pad].
  rewrite !Forall_cons in H. destruct H as (? & ? & ? & ? & ? & ? & ? & ? & ? & ? & ? & ? & ? & ? & ? & ? & ? & H).
  unfold field. cbn [take drop lookup list_lookup default].
  rewrite !bytes4_word4 by (repeat constructor; lia). cbn [app].
  unfold id. rewrite drop_0.
  rewrite u8_small by (change (2 ^ 8) with 256; lia).
  assert (Hl' : length l = 19%nat) by (unfold TERMIOS_SIZE in Hl; cbn in Hl; lia).
  assert (Hl2 : take 2 (drop 17 l) = drop 17 l) by (apply take_ge; rewrite length_drop; lia).
  rewrite Hl2. rewrite (map_u8_id (take 17 l)) by (by apply Forall_take).
  rewrite (map_u8_id (drop 17 l)) by (by apply Forall_drop).
  by rewrite take_drop.
Qed.

(** User memory holds bytes. *)
Definition bytes_ok (m : umem) : Prop := forall a, 0 <= get_fs_byte m a < 256.

Lemma get_bytes_range n a m : bytes_ok m -> Forall (fun x => 0 <= x < 256) (get_bytes n a m).
Proof.
  intros H. unfold get_bytes. apply Forall_forall. intros x Hx%list_elem_of_In.
  apply in_map_iff in Hx as (b & <- & _). apply H.
Qed.

(** [change_speed] only writes ports. *)
Lemma change_speed_done ch t s :
  zget (tty_table s) ch = Some t ->
  exists o, change_speed ch s = Done tt {| s with outs := o |}.
Proof.
  intros E. unfold change_speed. rewrite (tty_at_bind _ t) by done.
  case_decide; [|by eexists]. exists (outs s). by destruct s.
Qed.

(** [verify_area] does not change user memory. *)
Lemma verify_area_um a n u u' : verify_area a n u = Done tt u' -> um u' = um u.
Proof.
  unfold verify_area, on_utab, on_umm, zoom. unfold mbind, M_bind, deref.
  destruct (get_current (utab u)); try done. destruct (zget (ldt a0) 2); cbn; [|done].
  destruct (verify_pages _ _ _); try done. by intros [= _ <-].
Qed.

(** Setting the attributes of a terminal from a user structure and reading them back
    stores the same 36 bytes, whatever they are. *)
Theorem termios_roundtrip ch a b t s u :
  zget (tty_table s) ch = Some t -> bytes_ok (tum s) ->
  verify_area b 36 (User (ttab s) (tum s) (tmm s)) = Done tt u ->
  exists s', (_ ← set_termios_from ch a; get_termios ch b) s = Done 0 s' /\
    get_bytes 36 b (tum s') = get_bytes 36 a (tum s).
Proof.
  intros Et Hm Hv. set (l := get_bytes 36 a (tum s)).
  set (t1 := set_termios (bytes_termios l) t). set (s1 := put_ttys (zset (tty_table s) ch t1) s).
  assert (Et1 : zget (tty_table s1) ch = Some t1) by (apply zget_zset_eq; by eapply zget_Some_range).
  destruct (change_speed_done ch t1 s1 Et1) as [o Eo].
  assert (E1 : set_termios_from ch a s = Done 0 {| s1 with outs := o |}).
  { unfold set_termios_from. rewrite (tty_at_bind _ t), gets_bind by done.
    unfold put_tty. rewrite modify_bind. by rewrite (done_bind _ _ _ _ _ Eo). }
  rewrite (done_bind _ _ _ _ _ E1). unfold get_termios.
  assert (E2 : on_user (verify_area b 36) {| s1 with outs := o |} = Done tt
    {| s1 with ttab := utab u; tum := um u; tmm := umm u; outs := o |}).
  { unfold on_user, zoom. cbn. by rewrite Hv. }
  rewrite (done_bind _ _ _ _ _ E2). rewrite (tty_at_bind _ t1) by done.
  eexists. split; [reflexivity|].
  change (get_bytes 36 b (put_bytes (termios_bytes (bytes_termios l)) b (um u)) = l).
  assert (Hl : Forall (fun x => 0 <= x < 256) l) by (by apply get_bytes_range).
  assert (Hlen : length l = 36%nat) by (unfold l, get_bytes; by rewrite length_map, length_seqZ).
  rewrite bytes_termios_bytes by done. rewrite <- Hlen at 1. by apply get_bytes_put.
Qed.

(** The console, with the page tables empty (so nothing is write protected). *)
Definition ex_ttys : ttys :=
  Ttys tty_table0 (Tasks (Some (INIT_TASK 0 0) :: Some (INIT_TASK 0 0) :: replicate 62 None) 1 10 0)
    Console.con0 (put_bytes [1; 2; 3; 4] 0x100 empty) (Memory.Mm 0 [] empty) 0 [].

Lemma ex_bytes_ok : bytes_ok (tum ex_ttys).
Proof.
  intros a. cbn [ex_ttys tum]. rewrite get_put_bytes. destruct (zget _ _) as [v|].
  - apply u8_range.
  - change (0 <= default 0 ((empty : gmap Z Z) !! a) < 256). rewrite lookup_empty. cbn. lia.
Qed.

Lemma termios_roundtrip_witness :
  exists s', (_ ← set_termios_from 0 0x100; get_termios 0 0x200) ex_ttys = Done 0 s' /\
    get_bytes 4 0x200 (tum s') = [1; 2; 3; 4].
Proof.
  destruct (termios_roundtrip 0 0x100 0x200 (default (TtyStruct (Termios 0 0 0 0 0 []) 0 0 Rs_write (queue0 0) (queue0 0) (queue0 0))
      (zget (tty_table ex_ttys) 0)) ex_ttys
    (User (ttab ex_ttys) (tum ex_ttys) (tmm ex_ttys))) as (s' & E & H).
  - reflexivity.
  - exact ex_bytes_ok.
  - vm_compute. reflexivity.
  - exists s'. split; [exact E|].
    change (take 4 (get_bytes 36 0x200 (tum s')) = [1; 2; 3; 4]). rewrite H. vm_compute. reflexivity.
Defined.

End TtyIoctl.
