(* ===== verification/Ports.v ===== *)
(** * asm/io.h: the ports

    Reading and writing a port by byte, and the string instructions of the hard disk driver
    ([insw], [outsw]: a number of bytes, two per word).  What the devices answer is a
    parameter. *)

From S2P Require Import Prelude.

Class Ports (S : Type) : Type := {
  inb : Z -> M S Z;
  outb : Z -> Z -> M S unit;             (* value, port *)
  insw : Z -> nat -> M S (list Z);
  outsw : Z -> list Z -> M S unit
}.
