(* ===== verification/BlkQueue.v ===== *)
(** * kernel/blk_drv/ll_rw_blk.c and blk.h: the request queues of the block devices

    Requests and buffers are named by their index in [request] and in the buffer
    array; the sectors of a request go to and from the data of its buffer.  A
    wait queue is a channel: [sleep_on] and [wake_up] of [WaitQueue] are the
    interface [Waiting], since what other tasks and the disk interrupt do
    during a sleep is not known here.  [run_fn] calls a device's request
    function. *)

From S2P Require Import Prelude.

Module BlkQueue.

Definition NR_BLK_DEV : Z := 7.
Definition NR_REQUEST : Z := 32.
Definition READ : Z := 0.
Definition WRITE : Z := 1.
Definition READA : Z := 2.
Definition WRITEA : Z := 3.
Definition BLOCK_SIZE : Z := 1024.
Definition MAJOR (a : Z) : Z := Z.shiftr (u32 a) 8.
Definition MINOR (a : Z) : Z := Z.land a 0xff.

Record buffer_head : Type := Bh {
  b_data : list Z;
  b_blocknr : Z;
  b_dev : Z;
  b_uptodate : Z;
  b_dirt : Z;
  b_count : Z;
  b_lock : Z;
  b_prev : option Z;
  b_next : option Z;
  b_prev_free : option Z;
  b_next_free : option Z
}.

Record request_t : Type := Req {
  r_dev : Z;
  r_cmd : Z;
  r_errors : Z;
  r_sector : Z;
  r_nr_sectors : Z;
  r_buffer : option (Z * Z);      (* into the data of a buffer, with the offset *)
  r_bh : option Z;
  r_next : option Z
}.
Definition no_request : request_t := Req (-1) 0 0 0 0 None None None.

(** The block devices that have a driver. *)
Inductive driver : Type := Rd | Fd | Hd.
Record blk_dev_struct : Type := BlkDev { request_fn : option driver; current_request : option Z }.

Inductive chan : Type :=
| Buffer_wait (bh : Z)          (* &bh->b_wait *)
| Request_waiting (r : Z)       (* &request[r].waiting *)
| Wait_for_request
| Free_buffer_wait              (* &buffer_wait *)
| Inode_wait (i : Z)
| Super_wait (i : Z).

(** The buffers and the queues, within the state of the whole kernel. *)
Record blk : Type := Blk {
  bufs : list buffer_head;
  request : list request_t;
  blk_dev : list blk_dev_struct
}.

Class Waiting (S : Type) : Type := {
  sleep_on : chan -> M S unit;
  wake_up : chan -> M S unit
}.

(** Access to the block layer's part of a state. *)
Class HasBlk (S : Type) : Type := { get_blk : S -> blk; put_blk : blk -> S -> S }.

Section blk.
Context {S : Type} `{Waiting S} `{HasBlk S}.

Definition on_blk {A} (m : M blk A) : M S A := zoom get_blk put_blk m.

Definition bh_at (i : Z) : M S buffer_head :=
  on_blk (o ← gets (fun s => zget (bufs s) i); deref "buffer_head" o).
Definition set_bh (i : Z) (f : buffer_head -> buffer_head) : M S unit :=
  b ← bh_at i; on_blk (modify (fun s => {| s with bufs := zset (bufs s) i (f b) |})).
Definition req_at (i : Z) : M S request_t :=
  on_blk (o ← gets (fun s => zget (request s) i); deref "request" o).
Definition set_req (i : Z) (f : request_t -> request_t) : M S unit :=
  r ← req_at i; on_blk (modify (fun s => {| s with request := zset (request s) i (f r) |})).
Definition dev_at (major : Z) : M S blk_dev_struct :=
  on_blk (o ← gets (fun s => zget (blk_dev s) major); deref "blk_dev" o).
Definition set_current (major : Z) (q : option Z) : M S unit :=
  d ← dev_at major;
  on_blk (modify (fun s => {| s with
    blk_dev := zset (blk_dev s) major (BlkDev (request_fn d) q) |})).

Definition set_lock (v : Z) (b : buffer_head) : buffer_head := {| b with b_lock := v |}.
Definition set_dirt (v : Z) (b : buffer_head) : buffer_head := {| b with b_dirt := v |}.
Definition set_uptodate (v : Z) (b : buffer_head) : buffer_head := {| b with b_uptodate := v |}.
Definition set_data (l : list Z) (b : buffer_head) : buffer_head := {| b with b_data := l |}.
Definition set_next (q : option Z) (r : request_t) : request_t := {| r with r_next := q |}.
Definition set_dev (v : Z) (r : request_t) : request_t := {| r with r_dev := v |}.

Fixpoint lock_buffer (fuel : nat) (bh : Z) : M S unit :=
  match fuel with
  | O => fun _ => NoFuel
  | Datatypes.S fuel' =>
      b ← bh_at bh;
      if decide (b_lock b <> 0) then sleep_on (Buffer_wait bh);; lock_buffer fuel' bh
      else set_bh bh (set_lock 1)
  end.

Definition unlock_buffer (bh : Z) : M S unit :=
  set_bh bh (set_lock 0);; wake_up (Buffer_wait bh).

(** Reads go before writes, then by device and sector. *)
Definition IN_ORDER (s1 s2 : request_t) : bool :=
  bool_decide (r_cmd s1 < r_cmd s2) ||
  bool_decide (r_cmd s1 = r_cmd s2) &&
    (bool_decide (r_dev s1 < r_dev s2) ||
     bool_decide (r_dev s1 = r_dev s2) && bool_decide (r_sector s1 < r_sector s2)).

(** The [for] loop of [add_request]: the request after which to insert. *)
Fixpoint find_place (fuel : nat) (tmp : Z) (req : request_t) : M S Z :=
  match fuel with
  | O => fun _ => NoFuel
  | Datatypes.S fuel' =>
      t ← req_at tmp;
      match r_next t with
      | None => mret tmp
      | Some n =>
          t' ← req_at n;
          if (IN_ORDER t req || negb (IN_ORDER t t')) && IN_ORDER req t'
          then mret tmp else find_place fuel' n req
      end
  end.

Section request_fn.
Context (run_fn : driver -> M S unit).

Definition add_request (major req : Z) : M S unit :=
  set_req req (set_next None);;
  r ← req_at req;
  (match r_bh r with Some bh => set_bh bh (set_dirt 0) | None => skip end);;
  d ← dev_at major;
  match current_request d with
  | None =>
      set_current major (Some req);;
      f ← deref "request_fn" (request_fn d); run_fn f
  | Some tmp =>
      r ← req_at req;
      p ← find_place (Z.to_nat NR_REQUEST) tmp r;
      t ← req_at p;
      set_req req (set_next (r_next t));;
      set_req p (set_next (Some req))
  end.

(** [while (--req >= request) if (req->dev<0) break;] from slot [n] down. *)
Fixpoint empty_request (n : nat) (l : list request_t) : option Z :=
  match n with
  | O => None
  | Datatypes.S n' =>
      match l !! n' with
      | Some r => if decide (r_dev r < 0) then Some (Z.of_nat n') else empty_request n' l
      | None => empty_request n' l
      end
  end.

(** Reads may use every slot, writes the first two thirds. *)
Definition slots_for (rw : Z) : nat :=
  Z.to_nat (if decide (rw = READ) then NR_REQUEST else NR_REQUEST * 2 / 3).

Fixpoint get_request (fuel : nat) (rw bh : Z) (rw_ahead : bool) : M S (option Z) :=
  match fuel with
  | O => fun _ => NoFuel
  | Datatypes.S fuel' =>
      o ← on_blk (gets (fun s => empty_request (slots_for rw) (request s)));
      match o with
      | Some r => mret (Some r)
      | None =>
          if rw_ahead then unlock_buffer bh;; mret None
          else sleep_on Wait_for_request;; get_request fuel' rw bh rw_ahead
      end
  end.

Definition make_request (fuel : nat) (major rw bh : Z) : M S unit :=
  let rw_ahead := bool_decide (rw = READA) || bool_decide (rw = WRITEA) in
  b ← bh_at bh;
  if decide (rw_ahead = true /\ b_lock b <> 0) then skip
  else
    let rw := if rw_ahead then (if decide (rw = READA) then READ else WRITE) else rw in
    if decide (rw <> READ /\ rw <> WRITE) then
      panic "Bad block dev command, must be R/W/RA/WA"
    else
      lock_buffer fuel bh;;
      b ← bh_at bh;
      if decide ((rw = WRITE /\ b_dirt b = 0) \/ (rw = READ /\ b_uptodate b <> 0))
      then unlock_buffer bh
      else
        o ← get_request fuel rw bh rw_ahead;
        match o with
        | None => skip
        | Some req =>
            b ← bh_at bh;
            set_req req (fun _ =>
              Req (b_dev b) rw 0 (u32 (Z.shiftl (b_blocknr b) 1)) 2 (Some (bh, 0)) (Some bh) None);;
            add_request major req
        end.

Definition ll_rw_block (fuel : nat) (rw bh : Z) : M S unit :=
  b ← bh_at bh;
  let major := MAJOR (b_dev b) in
  if decide (NR_BLK_DEV <= major) then skip
  else
    d ← dev_at major;
    match request_fn d with
    | None => skip
    | Some _ => make_request fuel major rw bh
    end.

(** [end_request] of blk.h for the driver with major number [major]; [off] is its
    DEVICE_OFF. *)
Definition end_request (major : Z) (off : Z -> M S unit) (uptodate : Z) : M S unit :=
  d ← dev_at major;
  cur ← deref "CURRENT" (current_request d);
  r ← req_at cur;
  off (r_dev r);;
  (match r_bh r with
   | Some bh => set_bh bh (set_uptodate uptodate);; unlock_buffer bh
   | None => skip
   end);;
  wake_up (Request_waiting cur);;
  wake_up Wait_for_request;;
  set_req cur (set_dev (-1));;
  r ← req_at cur;
  set_current major (r_next r).
End request_fn.
End blk.

(** [blk_dev_init]. *)
Definition blk_dev_init : M blk unit :=
  for_up (Z.to_nat NR_REQUEST) 0 (fun i => modify (fun s => {| s with
    request := match zget (request s) i with
               | Some r => zset (request s) i (set_next None (set_dev (-1) r))
               | None => request s
               end |})).

Definition blk_dev0 : list blk_dev_struct := replicate 7 (BlkDev None None).

End BlkQueue.
