(* ===== verification/BlkProps.v ===== *)
(** * Properties of the request queue

    The queue as a list of request indices: inserting a request keeps at most two
    ascending sweeps and never displaces the request being served; a write leaves
    a third of the slots to reads. *)

From S2P Require Import Prelude BlkQueue.
Import BlkQueue.

Module BlkProps.

(** A state that really contains its block layer. *)
Class HasBlkOk (S : Type) `{!HasBlk S} : Prop := {
  get_put_blk : forall b s, get_blk (put_blk b s) = b;
  put_get_blk : forall s, put_blk (get_blk s) s = s;
  put_put_blk : forall b b' s, put_blk b' (put_blk b s) = put_blk b' s
}.

#[export] Instance blk_has_blk : HasBlk blk := {| get_blk := fun b => b; put_blk := fun b _ => b |}.
#[export] Instance blk_has_blk_ok : HasBlkOk blk.
Proof. by split. Qed.

(** ** Sweeps *)

Section sweeps.
Context {A : Type} (lt : A -> A -> bool).

(** Ascending. *)
Fixpoint asc (l : list A) : bool :=
  match l with
  | [] => true
  | t :: l' => match l' with [] => true | n :: _ => lt t n && asc l' end
  end.

(** At most two ascending runs. *)
Definition two_runs (l : list A) : Prop := exists l1 l2, l = l1 ++ l2 /\ asc l1 /\ asc l2.

(** The insertion of [add_request]. *)
Fixpoint ins (x : A) (l : list A) : list A :=
  match l with
  | [] => [x]
  | t :: l' =>
      match l' with
      | [] => [t; x]
      | n :: _ => if (lt t x || negb (lt t n)) && lt x n then t :: x :: l' else t :: ins x l'
      end
  end.

Lemma ins_cons x t n l :
  ins x (t :: n :: l) =
    if (lt t x || negb (lt t n)) && lt x n then t :: x :: n :: l else t :: ins x (n :: l).
Proof. done. Qed.

Lemma asc_cons t n l : lt t n -> asc (n :: l) -> asc (t :: n :: l).
Proof. intros H1 H2. change (Is_true (lt t n && asc (n :: l))). by apply andb_True. Qed.

Lemma asc_two_runs l : asc l -> two_runs l.
Proof. intros H. exists l, []. by rewrite app_nil_r. Qed.

Lemma cons_two_runs t n l : two_runs (n :: l) -> lt t n -> two_runs (t :: n :: l).
Proof.
  intros (l1 & l2 & E & H1 & H2) Hlt. destruct l1 as [|n' l1].
  - exists [], (t :: n :: l). cbn in E. subst l2. split; [done|]. split; [done|]. by apply asc_cons.
  - injection E as <- ->. exists (t :: n :: l1), l2. split; [done|]. split; [by apply asc_cons|done].
Qed.

Lemma two_runs_tail t n l : two_runs (t :: n :: l) -> two_runs (n :: l).
Proof.
  intros (l1 & l2 & E & H1 & H2). destruct l1 as [|t' l1].
  - cbn in E. subst l2. apply asc_two_runs. cbn in H2 |- *. by apply andb_True in H2 as [_ H2].
  - injection E as <- E. exists l1, l2. split; [done|]. split; [|done].
    destruct l1 as [|n' l1]; [done|]. cbn in H1 |- *. by apply andb_True in H1 as [_ H1].
Qed.

(** Where the order turns, the second run starts. *)
Lemma two_runs_turn t n l : two_runs (t :: n :: l) -> lt t n = false -> asc (n :: l).
Proof.
  intros (l1 & l2 & E & H1 & H2) Hlt. destruct l1 as [|t' l1].
  - cbn in E. subst l2. cbn in H2. rewrite Hlt in H2. done.
  - injection E as <- E. destruct l1 as [|n' l1]; [by cbn in E; subst l2|].
    injection E as <- E. cbn in H1. rewrite Hlt in H1. done.
Qed.

Definition distinct (x : A) (l : list A) : Prop := forall y, y ∈ l -> lt x y = false -> lt y x = true.

Lemma ins_head x t l : exists l', ins x (t :: l) = t :: l'.
Proof. cbn. destruct l as [|n l]; [by eexists|]. case_match; by eexists. Qed.

Lemma ins_asc x t l : asc (t :: l) -> lt t x -> distinct x (t :: l) -> asc (ins x (t :: l)).
Proof.
  revert t. induction l as [|n l IH]; intros t Ha Hx Hd; [by apply asc_cons|].
  apply andb_True in Ha as [Htn Ha]. rewrite ins_cons.
  apply Is_true_true in Hx, Htn. rewrite Hx, Htn. cbn [orb andb].
  destruct (lt x n) eqn:E.
  - apply asc_cons; [by apply Is_true_true|]. apply asc_cons; [by apply Is_true_true|done].
  - assert (Hnx : lt n x = true) by (apply Hd; [set_solver|done]).
    assert (H1 : asc (ins x (n :: l))).
    { apply IH; [done|by apply Is_true_true|]. intros y Hy. apply Hd. set_solver. }
    destruct (ins_head x n l) as [l' El]. rewrite El in H1 |- *.
    apply asc_cons; [by apply Is_true_true|done].
Qed.

Lemma ins_two_runs x t l : two_runs (t :: l) -> distinct x (t :: l) -> two_runs (ins x (t :: l)).
Proof.
  revert t. induction l as [|n l IH]; intros t Hr Hd; [by exists [t], [x]|].
  rewrite ins_cons. destruct (lt t n) eqn:Etn; cbn [negb orb].
  - rewrite orb_false_r. destruct (lt t x && lt x n) eqn:E.
    + apply andb_true_iff in E as [E1 E2].
      apply cons_two_runs; [|by apply Is_true_true].
      apply cons_two_runs; [by eapply two_runs_tail|by apply Is_true_true].
    + assert (H1 : two_runs (ins x (n :: l))).
      { apply IH; [by eapply two_runs_tail|]. intros y Hy. apply Hd. set_solver. }
      destruct (ins_head x n l) as [l' El]. rewrite El in H1 |- *.
      apply cons_two_runs; [done|by apply Is_true_true].
  - rewrite orb_true_r. cbn [andb]. pose proof (two_runs_turn _ _ _ Hr Etn) as Ha.
    destruct (lt x n) eqn:E.
    + exists [t], (x :: n :: l). split; [done|]. split; [done|].
      apply asc_cons; [by apply Is_true_true|done].
    + exists [t], (ins x (n :: l)). split; [done|]. split; [done|].
      apply ins_asc; [done| |intros y Hy; apply Hd; set_solver].
      apply Is_true_true, Hd; [set_solver|done].
Qed.
End sweeps.

(** ** The linked list *)

(** The queue that starts at [q] in the table [rs] is [ids]. *)
Fixpoint queue (rs : list request_t) (q : option Z) (ids : list Z) : Prop :=
  match ids with
  | [] => q = None
  | i :: ids' => q = Some i /\ exists r, zget rs i = Some r /\ queue rs (r_next r) ids'
  end.

Lemma queue_ext rs rs' q l :
  (forall i, i ∈ l -> zget rs i = zget rs' i) -> queue rs q l -> queue rs' q l.
Proof.
  revert q. induction l as [|i l IH]; intros q H; [done|]. intros [-> (r & Hr & Hq)].
  split; [done|]. exists r. split; [by rewrite <- H by set_solver|].
  apply IH; [|done]. intros j Hj. apply H. set_solver.
Qed.

Lemma queue_insert rs rs' q l1 p l2 x rp rx :
  queue rs q (l1 ++ p :: l2) ->
  zget rs p = Some rp ->
  (forall i, i ∈ l1 ++ l2 -> zget rs i = zget rs' i) ->
  zget rs' p = Some (set_next (Some x) rp) ->
  zget rs' x = Some (set_next (r_next rp) rx) ->
  queue rs' q (l1 ++ p :: x :: l2).
Proof.
  intros Hq Hp He Hp' Hx'. revert q Hq He. induction l1 as [|i l1 IH]; intros q.
  - cbn [app]. intros [-> (r & Hr & Hq)] He. rewrite Hp in Hr. injection Hr as <-.
    split; [done|]. exists (set_next (Some x) rp). split; [done|]. split; [done|].
    exists (set_next (r_next rp) rx). split; [done|]. by eapply queue_ext.
  - cbn [app]. intros [-> (r & Hr & Hq)] He. split; [done|]. exists r.
    split; [by rewrite <- He by set_solver|]. apply IH; [done|].
    intros j Hj. apply He. set_solver.
Qed.

Lemma queue_get rs q l i : queue rs q l -> i ∈ l -> exists r, zget rs i = Some r.
Proof.
  revert q. induction l as [|j l IH]; intros q; [set_solver|].
  intros [-> (r & Hr & Hq)] [->|Hi]%elem_of_cons; [by exists r|by eapply IH].
Qed.

Section elevator.
Context {S : Type} `{!Waiting S, !HasBlk S, !HasBlkOk S}.

Lemma req_at_ok i r (s : S) : zget (request (get_blk s)) i = Some r -> req_at i s = Done r s.
Proof.
  intros E. unfold req_at, on_blk, zoom. rewrite gets_bind, E. cbn.
  by rewrite put_get_blk.
Qed.

Lemma bh_at_ok i b (s : S) : zget (bufs (get_blk s)) i = Some b -> bh_at i s = Done b s.
Proof.
  intros E. unfold bh_at, on_blk, zoom. rewrite gets_bind, E. cbn.
  by rewrite put_get_blk.
Qed.

Lemma dev_at_ok i d (s : S) : zget (blk_dev (get_blk s)) i = Some d -> dev_at i s = Done d s.
Proof.
  intros E. unfold dev_at, on_blk, zoom. rewrite gets_bind, E. cbn.
  by rewrite put_get_blk.
Qed.

Lemma set_req_ok i f r (s : S) :
  zget (request (get_blk s)) i = Some r ->
  set_req i f s =
    Done tt (put_blk {| (get_blk s) with request := zset (request (get_blk s)) i (f r) |} s).
Proof. intros E. unfold set_req. by erewrite done_bind by by apply req_at_ok. Qed.

Lemma set_bh_ok i f b (s : S) :
  zget (bufs (get_blk s)) i = Some b ->
  set_bh i f s =
    Done tt (put_blk {| (get_blk s) with bufs := zset (bufs (get_blk s)) i (f b) |} s).
Proof. intros E. unfold set_bh. by erewrite done_bind by by apply bh_at_ok. Qed.

Lemma set_current_ok i d q (s : S) :
  zget (blk_dev (get_blk s)) i = Some d ->
  set_current i q s =
    Done tt (put_blk {| (get_blk s) with
      blk_dev := zset (blk_dev (get_blk s)) i (BlkDev (request_fn d) q) |} s).
Proof. intros E. unfold set_current. by erewrite done_bind by by apply dev_at_ok. Qed.

(** The requests of a table, compared. *)
Definition before (rs : list request_t) (i j : Z) : bool :=
  IN_ORDER (default no_request (zget rs i)) (default no_request (zget rs j)).

Lemma find_place_ins fuel t l x r (s : S) :
  queue (request (get_blk s)) (Some t) (t :: l) ->
  zget (request (get_blk s)) x = Some r ->
  (length l < fuel)%nat ->
  exists p l1 l2, find_place fuel t r s = Done p s /\ t :: l = l1 ++ p :: l2 /\
    ins (before (request (get_blk s))) x (t :: l) = l1 ++ p :: x :: l2.
Proof.
  intros Hq Hx. revert fuel t Hq.
  induction l as [|n l IH]; intros [|fuel] t [_ (rt & Ht & Hq)] Hf; [cbn in Hf; lia| |cbn in Hf; lia|].
  - cbn in Hq. exists t, [], []. split; [|done]. cbn [find_place].
    erewrite done_bind by by apply req_at_ok. by rewrite Hq.
  - pose proof Hq as [En (rn & Hn & _)]. rewrite ins_cons.
    cbn [find_place]. erewrite done_bind by by apply req_at_ok. rewrite En.
    erewrite done_bind by by apply req_at_ok.
    unfold before at 1 2 3. rewrite Hx, Ht, Hn. cbn [default].
    destruct ((_ || _) && _) eqn:E.
    + exists t, [], (n :: l). done.
    + destruct (IH fuel n) as (p & l1 & l2 & Hp & Hl & Hi); [by rewrite <- En|cbn in Hf; lia|].
      exists p, (t :: l1), l2. split; [done|]. split; [by rewrite Hl|]. by rewrite Hi.
Qed.

(** What the order of the elevator looks at. *)
Definition key (r : request_t) : Z * Z * Z := (r_cmd r, r_dev r, r_sector r).

Lemma IN_ORDER_total r1 r2 : key r1 <> key r2 -> IN_ORDER r1 r2 = false -> IN_ORDER r2 r1 = true.
Proof.
  unfold key, IN_ORDER. intros Hk. repeat case_bool_decide; cbn; intros; try done; try (by exfalso; lia).
  all: destruct Hk; assert (r_cmd r1 = r_cmd r2) by lia; assert (r_dev r1 = r_dev r2) by lia;
    assert (r_sector r1 = r_sector r2) by lia; congruence.
Qed.

Lemma before_ext rs rs' i j :
  (forall k, key <$> zget rs' k = key <$> zget rs k) -> before rs' i j = before rs i j.
Proof.
  intros He. unfold before.
  assert (Hk : forall k, key (default no_request (zget rs' k)) = key (default no_request (zget rs k))).
  { intros k. specialize (He k). destruct (zget rs' k), (zget rs k); cbn in *; congruence. }
  pose proof (Hk i) as Hi. pose proof (Hk j) as Hj. unfold key in Hi, Hj.
  injection Hi as Hi1 Hi2 Hi3. injection Hj as Hj1 Hj2 Hj3.
  unfold IN_ORDER. by rewrite Hi1, Hi2, Hi3, Hj1, Hj2, Hj3.
Qed.

Lemma asc_ext {A} (lt lt' : A -> A -> bool) l :
  (forall i j, lt' i j = lt i j) -> asc lt l -> asc lt' l.
Proof.
  intros He. induction l as [|t [|n l] IH]; [done|done|].
  intros [H1 H2]%andb_True. apply asc_cons; [by rewrite He|by apply IH].
Qed.

Lemma two_runs_ext {A} (lt lt' : A -> A -> bool) l :
  (forall i j, lt' i j = lt i j) -> two_runs lt l -> two_runs lt' l.
Proof.
  intros He (l1 & l2 & -> & H1 & H2). exists l1, l2. split; [done|].
  split; by eapply asc_ext.
Qed.

(** What [add_request] does on a busy device. *)
Lemma add_request_busy run_fn major req bh h l (s : S) r d buf :
  let rs := request (get_blk s) in
  let rs1 := zset rs req (set_next None r) in
  zget rs req = Some r ->
  r_bh r = Some bh -> zget (bufs (get_blk s)) bh = Some buf ->
  zget (blk_dev (get_blk s)) major = Some d -> current_request d = Some h ->
  queue rs1 (Some h) (h :: l) -> (length l < 32)%nat ->
  exists p rp l1 l2,
    h :: l = l1 ++ p :: l2 /\ ins (before rs1) req (h :: l) = l1 ++ p :: req :: l2 /\
    zget rs1 p = Some rp /\
    (p <> req ->
     add_request run_fn major req s = Done tt (put_blk {| (get_blk s) with
       bufs := zset (bufs (get_blk s)) bh (set_dirt 0 buf);
       request := zset (zset rs1 req (set_next (r_next rp) (set_next None r))) p
                    (set_next (Some req) rp) |} s)).
Proof.
  intros rs rs1 Hr Hbh Hbuf Hd Hcur Hq1 Hlen.
  pose proof (zget_Some_range _ _ _ Hr) as Hreq.
  assert (Hx1 : zget rs1 req = Some (set_next None r)) by by apply zget_zset_eq.
  set (s1 := put_blk {| (get_blk s) with
    bufs := zset (bufs (get_blk s)) bh (set_dirt 0 buf); request := rs1 |} s).
  assert (E1 : request (get_blk s1) = rs1) by (unfold s1; by rewrite get_put_blk).
  destruct (find_place_ins (Z.to_nat NR_REQUEST) h l req (set_next None r) s1)
    as (p & l1 & l2 & Hp & Hl & Hi); [by rewrite E1|by rewrite E1|exact Hlen|].
  assert (Hpin : p ∈ h :: l) by (rewrite Hl; set_solver).
  destruct (queue_get _ _ _ _ Hq1 Hpin) as [rp Hrp].
  exists p, rp, l1, l2. rewrite E1 in Hi. split_and!; [done..|]. intros Hpx.
  unfold add_request. erewrite done_bind by by apply set_req_ok.
  erewrite done_bind by (apply req_at_ok; rewrite get_put_blk; exact Hx1).
  cbn [r_bh set_next]. rewrite Hbh.
  erewrite done_bind by (apply set_bh_ok; rewrite get_put_blk; exact Hbuf).
  rewrite get_put_blk, put_put_blk. cbn [bufs]. fold rs rs1. cbn [request blk_dev]. fold s1.
  erewrite done_bind by (apply dev_at_ok; unfold s1; rewrite get_put_blk; exact Hd). rewrite Hcur.
  erewrite done_bind by (apply req_at_ok; rewrite E1; exact Hx1).
  erewrite done_bind by exact Hp.
  erewrite done_bind by (apply req_at_ok; rewrite E1; exact Hrp).
  erewrite done_bind by (apply set_req_ok; rewrite E1; exact Hx1).
  erewrite set_req_ok by (rewrite get_put_blk, E1; cbn [request]; by rewrite zget_zset_ne).
  rewrite get_put_blk, put_put_blk. rewrite E1. unfold s1. by rewrite get_put_blk, put_put_blk.
Qed.

(** Changing the links of requests changes no key. *)
Lemma key_zset_next rs i q r k :
  zget rs i = Some r -> key <$> zget (zset rs i (set_next q r)) k = key <$> zget rs k.
Proof.
  intros Hr. rewrite zget_zset by by eapply zget_Some_range.
  case_decide; [|done]. subst k. by rewrite Hr.
Qed.

Lemma ins_ext {A} (lt lt' : A -> A -> bool) x l :
  (forall i j, lt' i j = lt i j) -> ins lt' x l = ins lt x l.
Proof.
  intros He. induction l as [|t [|n l] IH]; [done|done|]. rewrite !ins_cons, !He. by rewrite IH.
Qed.

(** C18: on a busy device [add_request] links the request into the queue behind
    the one being served (its sort key being none of theirs), loses none, keeps the queue one or two sweeps in the
    elevator's order, and clears the dirty bit of its buffer. *)
Theorem add_request_elevator run_fn major req bh h l (s : S) r d buf :
  zget (request (get_blk s)) req = Some r ->
  r_bh r = Some bh -> zget (bufs (get_blk s)) bh = Some buf ->
  zget (blk_dev (get_blk s)) major = Some d -> current_request d = Some h ->
  queue (request (get_blk s)) (Some h) (h :: l) ->
  NoDup (req :: h :: l) -> (length l < 32)%nat ->
  two_runs (before (request (get_blk s))) (h :: l) ->
  (forall i, i ∈ h :: l -> key <$> zget (request (get_blk s)) i <> Some (key r)) ->
  exists s' l',
    add_request run_fn major req s = Done tt s' /\
    queue (request (get_blk s')) (Some h) (h :: l') /\ l' ≡ₚ req :: l /\
    two_runs (before (request (get_blk s'))) (h :: l') /\
    blk_dev (get_blk s') = blk_dev (get_blk s) /\
    bufs (get_blk s') = zset (bufs (get_blk s)) bh (set_dirt 0 buf).
Proof.
  intros Hr Hbh Hbuf Hd Hcur Hq Hnd Hlen Hruns Hkey.
  set (rs := request (get_blk s)) in *. set (rs1 := zset rs req (set_next None r)).
  pose proof (zget_Some_range _ _ _ Hr) as Hreq.
  apply NoDup_cons in Hnd as [Hni Hnd].
  assert (Hq1 : queue rs1 (Some h) (h :: l)).
  { eapply queue_ext; [|exact Hq]. intros i Hi. unfold rs1. rewrite zget_zset_ne; [done|].
    by intros ->. }
  destruct (add_request_busy run_fn major req bh h l s r d buf)
    as (p & rp & l1 & l2 & Hl & Hi & Hrp & Ha); [done..|].
  assert (Hpx : p <> req) by (intros ->; apply Hni; rewrite Hl; set_solver).
  rewrite (Ha Hpx). fold rs rs1 in Hi, Hrp |- *.
  assert (Hx1 : zget rs1 req = Some (set_next None r)) by by apply zget_zset_eq.
  set (rs2 := zset rs1 req _). set (rs3 := zset rs2 p _).
  assert (Hrp2 : zget rs2 p = Some rp) by (unfold rs2; by rewrite zget_zset_ne).
  assert (Hk : forall k, key <$> zget rs3 k = key <$> zget rs k).
  { intros k. unfold rs3. rewrite key_zset_next by done. unfold rs2.
    rewrite (key_zset_next rs1 req _ (set_next None r)) by done.
    unfold rs1. by rewrite key_zset_next. }
  destruct (ins_head (before rs1) req h l) as [l' Hl'].
  eexists _, l'. split; [done|]. rewrite !get_put_blk. cbn [request blk_dev bufs].
  rewrite Hl' in Hi. split_and!; [| | |done|done].
  - rewrite Hi. eapply queue_insert with (rs := rs1); [by rewrite <- Hl|exact Hrp| | |].
    + intros i Hin. rewrite Hl in Hni, Hnd. apply NoDup_app in Hnd as (_ & Hd1 & Hd2).
      apply NoDup_cons in Hd2 as [Hd2 _]. unfold rs3, rs2.
      rewrite !zget_zset_ne; [done| |]; intros ->; set_solver.
    + apply zget_zset_eq. by eapply zget_Some_range.
    + unfold rs3. rewrite zget_zset_ne by done. apply zget_zset_eq. by eapply zget_Some_range.
  - apply (Permutation_cons_inv (a := h)). rewrite Hi.
    transitivity (req :: h :: l); [rewrite Hl; solve_Permutation|apply Permutation_swap].
- rewrite <- Hl'.
    assert (Hk1 : forall k, key <$> zget rs1 k = key <$> zget rs k).
    { intros k. unfold rs1. by rewrite key_zset_next. }
    apply (two_runs_ext (before rs)); [intros; by apply before_ext|].
    rewrite (ins_ext (before rs) (before rs1)) by (intros; by apply before_ext).
    apply ins_two_runs; [done|]. intros y Hy. unfold before. rewrite Hr. cbn [default from_option id].
    apply IN_ORDER_total. intros E. apply (Hkey y Hy).
    destruct (queue_get _ _ _ _ Hq Hy) as [ry Hry]. rewrite Hry in E |- *. cbn in E |- *. by rewrite E.
Qed.
End elevator.

(** ** Witness: a queue of two reads on device 0x301, and a third one between them *)

(** A machine with nobody else on it: nobody would wake a sleeper. *)
#[local] Instance alone : Waiting blk := {| sleep_on := fun _ => undef "deadlock"; wake_up := fun _ => skip |}.

Definition ex_req (sector : Z) (bh : Z) (nx : option Z) : request_t :=
  Req 0x301 READ 0 sector 2 (Some (bh, 0)) (Some bh) nx.
Definition ex_buf : buffer_head := Bh [] 0 0x301 0 1 1 1 None None None None.
Definition ex_blk : blk :=
  Blk (replicate 3 ex_buf)
      [ex_req 10 0 (Some 1); ex_req 90 1 None; ex_req 50 2 None]
      (<[3%nat := BlkDev (Some Hd) (Some 0)]> blk_dev0).

Lemma add_request_elevator_witness :
  exists s' l', add_request (fun _ => skip) 3 2 ex_blk = Done tt s' /\
    queue (request s') (Some 0) (0 :: l') /\ l' ≡ₚ [2; 1].
Proof.
  destruct (add_request_elevator (fun _ => skip) 3 2 2 0 [1] ex_blk
    (ex_req 50 2 None) (BlkDev (Some Hd) (Some 0)) ex_buf) as (s' & l' & E & Hq & Hp & _).
  1-5: reflexivity.
  - split; [done|]. eexists. split; [reflexivity|]. split; [done|]. by eexists.
  - by apply NoDup_ListNoDup; repeat (constructor; [cbn; lia|]); constructor.
  - cbn. lia.
  - apply asc_two_runs. by vm_compute.
  - intros i Hi. apply elem_of_cons in Hi as [->|Hi]; [by vm_compute|].
    apply list_elem_of_singleton in Hi as ->. by vm_compute.
  - by exists s', l'.
Defined.

End BlkProps.
