(* ===== verification/Hd.v ===== *)
(** * kernel/blk_drv/hd.c: the hard disk driver

    The driver is a state machine on the head of its request queue: [do_hd_request] starts
    the request on the controller and leaves in [do_hd] the function that the next
    interrupt runs.  ([sys_setup], which reads the partition tables through the buffer
    cache, is in [HdSetup].) *)

From S2P Require Import Prelude Bytes Ports BlkQueue.
Import BlkQueue.

Module Hd.

Definition MAJOR_NR : Z := 3.
Definition MAX_ERRORS : Z := 7.
Definition MAX_HD : Z := 2.

Definition HD_DATA : Z := 0x1f0.
Definition HD_ERROR : Z := 0x1f1.
Definition HD_STATUS : Z := 0x1f7.
Definition HD_CMD : Z := 0x3f6.
Definition ERR_STAT : Z := 0x01.
Definition DRQ_STAT : Z := 0x08.
Definition SEEK_STAT : Z := 0x10.
Definition WRERR_STAT : Z := 0x20.
Definition READY_STAT : Z := 0x40.
Definition BUSY_STAT : Z := 0x80.
Definition WIN_RESTORE : Z := 0x10.
Definition WIN_READ : Z := 0x20.
Definition WIN_WRITE : Z := 0x30.
Definition WIN_SPECIFY : Z := 0x91.

Record hd_i_struct : Type := HdInfo {
  hi_head : Z; hi_sect : Z; hi_cyl : Z; hi_wpcom : Z; hi_lzone : Z; hi_ctl : Z
}.
Record hd_struct : Type := HdPart { start_sect : Z; nr_sects : Z }.

(** What [do_hd] points to. *)
Inductive hd_intr : Type := Read_intr | Write_intr | Recal_intr.

Record hd_state : Type := HdState {
  recalibrate : Z;
  reset : Z;
  do_hd : option hd_intr;
  hd_info : list hd_i_struct;
  NR_HD : Z;
  hd : list hd_struct;
  callable : Z                   (* of [sys_setup] *)
}.
Definition hd_state0 : hd_state :=
  HdState 0 0 None (replicate 2 (HdInfo 0 0 0 0 0 0)) 0 (replicate 10 (HdPart 0 0)) 1.

Class HasHd (S : Type) : Type := { get_hd : S -> hd_state; put_hd : hd_state -> S -> S }.

(** [divl]: the unsigned quotient and remainder, or the divide error. *)
Definition divl {S} (a b : Z) : M S (Z * Z) :=
  if decide (u32 b = 0) then undef "divide error" else mret (u32 a / u32 b, u32 a mod u32 b).

(** Field updates. *)
Definition set_recalibrate (v : Z) (h : hd_state) : hd_state := {| h with recalibrate := v |}.
Definition set_reset (v : Z) (h : hd_state) : hd_state := {| h with reset := v |}.
Definition set_do_hd (v : option hd_intr) (h : hd_state) : hd_state := {| h with do_hd := v |}.
Definition set_errors (v : Z) (r : request_t) : request_t := {| r with r_errors := s32 v |}.
Definition set_nr_sectors (v : Z) (r : request_t) : request_t := {| r with r_nr_sectors := u32 v |}.
(** [sector++; buffer += 512]. *)
Definition next_sector (r : request_t) : request_t :=
  {| r with r_sector := u32 (r_sector r + 1);
            r_buffer := (fun '(b, o) => (b, o + 512)) <$> r_buffer r |}.

Section hd.
Context {S : Type} {HW : Waiting S} {HB : HasBlk S} {HH : HasHd S} {HP : Ports S}.

Definition on_hd {A} (m : M hd_state A) : M S A := zoom get_hd put_hd m.
Definition upd_hd (f : hd_state -> hd_state) : M S unit := on_hd (modify f).
Definition info (drive : Z) : M S hd_i_struct :=
  on_hd (o ← gets (fun h => zget (hd_info h) drive); deref "hd_info" o).

(** [CURRENT], and an assignment to its fields. *)
Definition CURRENT : M S Z := d ← dev_at MAJOR_NR; deref "CURRENT" (current_request d).
Definition current_req : M S request_t := c ← CURRENT; req_at c.
Definition set_current_req (f : request_t -> request_t) : M S unit := c ← CURRENT; set_req c f.
Definition hd_end_request (uptodate : Z) : M S unit :=
  end_request MAJOR_NR (fun _ => skip) uptodate.

(** [while (--retries && (inb_p(HD_STATUS)&0x80)); return retries]. *)
Fixpoint ready_loop (retries : nat) : M S Z :=
  match retries with
  | O | Datatypes.S O => mret 0
  | Datatypes.S n =>
      i ← inb HD_STATUS;
      if decide (Z.land i 0x80 <> 0) then ready_loop n else mret (Z.of_nat n)
  end.
Definition controller_ready : M S Z := ready_loop (Z.to_nat 100000).

Definition win_result : M S Z :=
  i ← inb HD_STATUS;
  if decide (Z.land i (Z.lor BUSY_STAT (Z.lor READY_STAT (Z.lor WRERR_STAT (Z.lor SEEK_STAT ERR_STAT)))) =
             Z.lor READY_STAT SEEK_STAT)
  then mret 0
  else (if decide (Z.land i 1 <> 0) then _ ← inb HD_ERROR; skip else skip);; mret 1.

(** The registers from [HD_PRECOMP] to [HD_COMMAND]. *)
Fixpoint out_regs (l : list Z) (port : Z) : M S unit :=
  match l with
  | [] => skip
  | v :: l' => outb (u8 v) port;; out_regs l' (port + 1)
  end.

Definition hd_out (drive nsect sect head cyl cmd : Z) (intr_addr : hd_intr) : M S unit :=
  if decide (1 < drive \/ 15 < head) then panic "Trying to write bad sector"
  else
    r ← controller_ready;
    if decide (r = 0) then panic "HD controller not ready"
    else
      upd_hd (set_do_hd (Some intr_addr));;
      i ← info drive;
      outb (u8 (hi_ctl i)) HD_CMD;;
      out_regs [Z.shiftr (hi_wpcom i) 2; nsect; sect; cyl; Z.shiftr cyl 8;
                Z.lor (Z.lor 0xA0 (Z.shiftl drive 4)) head; cmd] (HD_DATA + 1).

(** The [for] loop of [drive_busy]. *)
Fixpoint busy_loop (n : nat) : M S unit :=
  match n with
  | O => skip
  | Datatypes.S n' =>
      i ← inb HD_STATUS;
      if decide (READY_STAT = Z.land i (Z.lor BUSY_STAT READY_STAT)) then skip else busy_loop n'
  end.
Definition drive_busy : M S Z :=
  busy_loop (Z.to_nat 10000);;
  i ← inb HD_STATUS;
  if decide (Z.land i (Z.lor BUSY_STAT (Z.lor READY_STAT SEEK_STAT)) = Z.lor READY_STAT SEEK_STAT)
  then mret 0 else mret 1.

Definition reset_controller : M S unit :=
  outb 4 HD_CMD;;
  i ← info 0;
  outb (Z.land (hi_ctl i) 0x0f) HD_CMD;;
  _ ← drive_busy;
  _ ← inb HD_ERROR;
  skip.

Definition reset_hd (nr : Z) : M S unit :=
  reset_controller;;
  i ← info nr;
  hd_out nr (hi_sect i) (hi_sect i) (u32 (hi_head i - 1)) (hi_cyl i) WIN_SPECIFY Recal_intr.

(** After [end_request], [CURRENT] is the next request. *)
Definition bad_rw_intr : M S unit :=
  set_current_req (fun r => set_errors (r_errors r + 1) r);;
  r ← current_req;
  (if decide (MAX_ERRORS <= r_errors r) then hd_end_request 0 else skip);;
  r ← current_req;
  if decide (MAX_ERRORS / 2 < r_errors r) then upd_hd (set_reset 1) else skip.

(** [port_write(HD_DATA,CURRENT->buffer,256)] and its counterpart. *)
Definition write_sector : M S unit :=
  r ← current_req;
  '(bh, o) ← deref "CURRENT->buffer" (r_buffer r);
  b ← bh_at bh;
  outsw HD_DATA (field (Z.to_nat o) 512 (b_data b)).
Definition read_sector : M S unit :=
  r ← current_req;
  '(bh, o) ← deref "CURRENT->buffer" (r_buffer r);
  l ← insw HD_DATA 512;
  set_bh bh (fun b => set_data (splice (Z.to_nat o) l (b_data b)) b).

(** [for(i=0 ; i<3000 && !(r=inb_p(HD_STATUS)&DRQ_STAT) ; i++)]: the last [r]. *)
Fixpoint wait_drq (n : nat) (r : Z) : M S Z :=
  match n with
  | O => mret r
  | Datatypes.S n' =>
      i ← inb HD_STATUS;
      let r := Z.land i DRQ_STAT in
      if decide (r = 0) then wait_drq n' r else mret r
  end.

(** INIT_REQUEST. *)
Definition INIT_REQUEST : M S (option request_t) :=
  d ← dev_at MAJOR_NR;
  match current_request d with
  | None => mret None
  | Some c =>
      r ← req_at c;
      if decide (MAJOR (r_dev r) <> MAJOR_NR) then panic "harddisk: request list destroyed"
      else
        match r_bh r with
        | Some bh => b ← bh_at bh;
                     if decide (b_lock b = 0) then panic "harddisk: block not locked" else mret (Some r)
        | None => mret (Some r)
        end
  end.

(** Every [goto repeat] has ended a request or counted an error. *)
Fixpoint do_hd_request (fuel : nat) : M S unit :=
  match fuel with
  | O => fun _ => NoFuel
  | Datatypes.S fuel' =>
      o ← INIT_REQUEST;
      match o with
      | None => skip
      | Some r =>
          let dev := MINOR (r_dev r) in
          let block := r_sector r in
          h ← on_hd (gets id);
          too_far ← (if decide (5 * NR_HD h <= dev) then mret true
                     else p ← deref "hd" (zget (hd h) dev);
                          mret (bool_decide (u32 (nr_sects p) < u32 (block + 2))));
          if (too_far : bool) then hd_end_request 0;; do_hd_request fuel'
          else
            p ← deref "hd" (zget (hd h) dev);
            let block := u32 (block + start_sect p) in
            let dev := dev / 5 in
            i ← info dev;
            '(block, sec) ← divl block (hi_sect i);
            '(cyl, head) ← divl block (hi_head i);
            let sec := u32 (sec + 1) in
            let nsect := r_nr_sectors r in
            if decide (reset h <> 0) then
              upd_hd (fun h => set_recalibrate 1 (set_reset 0 h));;
              reset_hd dev
            else if decide (recalibrate h <> 0) then
              upd_hd (set_recalibrate 0);;
              hd_out dev (hi_sect i) 0 0 0 WIN_RESTORE Recal_intr
            else if decide (r_cmd r = WRITE) then
              hd_out dev nsect sec head cyl WIN_WRITE Write_intr;;
              drq ← wait_drq (Z.to_nat 3000) 0;
              if decide (drq = 0) then bad_rw_intr;; do_hd_request fuel'
              else write_sector
            else if decide (r_cmd r = READ) then
              hd_out dev nsect sec head cyl WIN_READ Read_intr
            else panic "unknown hd-command"
      end
  end.

Section intr.
Context (fuel : nat).

Definition read_intr : M S unit :=
  w ← win_result;
  if decide (w <> 0) then bad_rw_intr;; do_hd_request fuel
  else
    read_sector;;
    set_current_req (fun r => next_sector (set_errors 0 r));;
    set_current_req (fun r => set_nr_sectors (r_nr_sectors r - 1) r);;
    r ← current_req;
    if decide (r_nr_sectors r <> 0) then upd_hd (set_do_hd (Some Read_intr))
    else hd_end_request 1;; do_hd_request fuel.

Definition write_intr : M S unit :=
  w ← win_result;
  if decide (w <> 0) then bad_rw_intr;; do_hd_request fuel
  else
    set_current_req (fun r => set_nr_sectors (r_nr_sectors r - 1) r);;
    r ← current_req;
    if decide (r_nr_sectors r <> 0) then
      set_current_req next_sector;;
      upd_hd (set_do_hd (Some Write_intr));;
      write_sector
    else hd_end_request 1;; do_hd_request fuel.

Definition recal_intr : M S unit :=
  w ← win_result;
  (if decide (w <> 0) then bad_rw_intr else skip);; do_hd_request fuel.

(** [hd_interrupt] of system_call.s: [do_hd] is cleared before it is called;
    [unexpected_hd_interrupt] only prints. *)
Definition hd_interrupt : M S unit :=
  h ← on_hd (gets id);
  upd_hd (set_do_hd None);;
  match do_hd h with
  | None => skip
  | Some Read_intr => read_intr
  | Some Write_intr => write_intr
  | Some Recal_intr => recal_intr
  end.
End intr.

(** The interrupt gate and the interrupt controller's masks. *)
Definition hd_init : M S unit :=
  d ← dev_at MAJOR_NR;
  on_blk (modify (fun b => {| b with
    blk_dev := zset (blk_dev b) MAJOR_NR (BlkDev (Some BlkQueue.Hd) (current_request d)) |}));;
  i ← inb 0x21; outb (Z.land i 0xfb) 0x21;;
  i ← inb 0xA1; outb (Z.land i 0xbf) 0xA1.
End hd.

End Hd.
