(* ===== verification/HdProps.v ===== *)
(** * Properties of the hard disk driver

    The driver runs on a controller of which only the documented behaviour is assumed: how
    it answers the status register, what the command registers select, and the sector that
    the data port then yields.  Bits of the status that the driver does not look at are left open. *)

From S2P Require Import Prelude Bytes Ports BlkQueue BlkProps Hd.
Import BlkQueue BlkProps Hd.

Module HdProps.

(** ** The geometry *)

(** Sector number [l] of a disk with [spt] sectors per track and [heads] heads, as the two
    divisions of [do_hd_request] split it. *)
Definition cylinder (l spt heads : Z) : Z := l / spt / heads.
Definition head_of (l spt heads : Z) : Z := l / spt mod heads.
Definition sector_of (l spt : Z) : Z := l mod spt + 1.
Definition linear (cyl head sec spt heads : Z) : Z := (cyl * heads + head) * spt + sec - 1.

Lemma linear_split l spt heads :
  0 < spt -> 0 < heads ->
  linear (cylinder l spt heads) (head_of l spt heads) (sector_of l spt) spt heads = l.
Proof.
  intros Hs Hh. unfold linear, cylinder, head_of, sector_of.
  pose proof (Z.div_mod l spt ltac:(lia)). pose proof (Z.div_mod (l / spt) heads ltac:(lia)). nia.
Qed.

(** ** A machine *)

Section machine.
Context {D : Type}.

(** The block layer and the driver over a controller with state [D]. *)
Record machine : Type := Mach { mblk : blk; mhd : hd_state; mdev : D }.

#[local] Instance machine_blk : HasBlk machine :=
  {| get_blk := mblk; put_blk := fun b m => {| m with mblk := b |} |}.
#[local] Instance machine_blk_ok : HasBlkOk machine.
Proof. split; [done|by intros []|done]. Qed.
#[local] Instance machine_hd : HasHd machine :=
  {| get_hd := mhd; put_hd := fun h m => {| m with mhd := h |} |}.

(** Nobody runs but the driver. *)
#[local] Instance machine_waiting : Waiting machine := {| sleep_on := fun _ => skip; wake_up := fun _ => skip |}.

(** The controller: reading and writing a port, and the two string instructions. *)
Record controller : Type := Controller {
  c_in : Z -> D -> Z * D;
  c_out : Z -> Z -> D -> D;
  c_insw : nat -> D -> list Z * D;
  c_outsw : list Z -> D -> D
}.
Context (ct : controller).

#[local] Instance machine_ports : Ports machine := {|
  inb := fun p m => let '(v, d) := c_in ct p (mdev m) in Done v {| m with mdev := d |};
  outb := fun v p m => Done tt {| m with mdev := c_out ct v p (mdev m) |};
  insw := fun _ n m => let '(l, d) := c_insw ct n (mdev m) in Done l {| m with mdev := d |};
  outsw := fun _ l m => Done tt {| m with mdev := c_outsw ct l (mdev m) |}
|}.

(** Writing consecutive registers. *)
Fixpoint write_regs (l : list Z) (port : Z) (d : D) : D :=
  match l with [] => d | v :: l' => write_regs l' (port + 1) (c_out ct (u8 v) port d) end.

(** The documented behaviour of the controller and its drives, whose sectors are
    [media drive n] with the geometry [geo].  [idle]: it waits for a command; the status, masked
    as the driver masks it, is not busy.  [busy d drive n k]: a read of [k] sectors from number
    [n] on is under way.  [irq d d']: the controller has worked from [d] until it interrupts, in
    [d'].  [full d drive n k]: sector [n], the first of [k], can be fetched; the status shows a
    drive that is ready and on its track, without error. *)
Record drive_ok (media : Z -> Z -> list Z) (geo : Z -> hd_i_struct) (idle : D -> Prop)
    (busy full : D -> Z -> Z -> Z -> Prop) (irq : D -> D -> Prop) : Prop := {
  dr_idle : forall d, idle d -> exists v d', c_in ct HD_STATUS d = (v, d') /\ Z.land v 0x80 = 0 /\ idle d';
  dr_read : forall d drive nsect sec head cyl,
    idle d -> 0 <= drive <= 1 -> 0 < nsect < 256 -> 0 < sec < 256 -> 0 <= head < 16 -> 0 <= cyl < 2 ^ 16 ->
    busy (write_regs [Z.shiftr (hi_wpcom (geo drive)) 2; nsect; sec; cyl; Z.shiftr cyl 8;
                      Z.lor (Z.lor 0xA0 (Z.shiftl drive 4)) head; WIN_READ] (HD_DATA + 1)
            (c_out ct (u8 (hi_ctl (geo drive))) HD_CMD d))
      drive (linear cyl head sec (hi_sect (geo drive)) (hi_head (geo drive))) nsect;
  dr_irq : forall d drive n k, busy d drive n k -> exists d', irq d d';
  dr_done : forall d d' drive n k, busy d drive n k -> irq d d' -> full d' drive n k;
  dr_full : forall d drive n k, full d drive n k ->
    exists v d', c_in ct HD_STATUS d = (v, d') /\ Z.land v 0xF1 = 0x50 /\ full d' drive n k;
  dr_fetch : forall d drive n k, full d drive n k -> 0 < k ->
    exists d', c_insw ct 512 d = (media drive n, d') /\ if decide (k = 1) then idle d' else busy d' drive (n + 1) (k - 1);
  dr_sector : forall drive n, length (media drive n) = 512%nat
}.

(** The state in which the steps are written. *)
Definition ms (B : list buffer_head) (R : list request_t) (V : list blk_dev_struct) (h : hd_state) (d : D) : machine :=
  Mach (Blk B R V) h d.

Section steps.
Context (B : list buffer_head) (R : list request_t) (V : list blk_dev_struct) (h : hd_state) (d : D).

Lemma bh_at_ms i b : zget B i = Some b -> bh_at i (ms B R V h d) = Done b (ms B R V h d).
Proof. intros E. by apply bh_at_ok. Qed.
Lemma req_at_ms i r : zget R i = Some r -> req_at i (ms B R V h d) = Done r (ms B R V h d).
Proof. intros E. by apply req_at_ok. Qed.
Lemma dev_at_ms i v : zget V i = Some v -> dev_at i (ms B R V h d) = Done v (ms B R V h d).
Proof. intros E. by apply dev_at_ok. Qed.
Lemma set_bh_ms i f b : zget B i = Some b -> set_bh i f (ms B R V h d) = Done tt (ms (zset B i (f b)) R V h d).
Proof. exact (set_bh_ok i f b (ms B R V h d)). Qed.
Lemma set_req_ms i f r : zget R i = Some r -> set_req i f (ms B R V h d) = Done tt (ms B (zset R i (f r)) V h d).
Proof. exact (set_req_ok i f r (ms B R V h d)). Qed.
Lemma upd_hd_ms f : upd_hd f (ms B R V h d) = Done tt (ms B R V (f h) d).
Proof. done. Qed.
Lemma info_ms i v : zget (hd_info h) i = Some v -> info i (ms B R V h d) = Done v (ms B R V h d).
Proof. intros E. unfold info, on_hd, zoom. rewrite gets_bind. cbn [get_hd machine_hd mhd ms]. by rewrite E. Qed.
Lemma CURRENT_ms f c : zget V 3 = Some (BlkDev f (Some c)) -> CURRENT (ms B R V h d) = Done c (ms B R V h d).
Proof. intros E. unfold CURRENT, MAJOR_NR. by erewrite done_bind by by apply dev_at_ms. Qed.
Lemma current_req_ms f c r :
  zget V 3 = Some (BlkDev f (Some c)) -> zget R c = Some r -> current_req (ms B R V h d) = Done r (ms B R V h d).
Proof. intros E Er. unfold current_req. erewrite done_bind by by eapply CURRENT_ms. by apply req_at_ms. Qed.
Lemma set_current_req_ms f c r g :
  zget V 3 = Some (BlkDev f (Some c)) -> zget R c = Some r ->
  set_current_req g (ms B R V h d) = Done tt (ms B (zset R c (g r)) V h d).
Proof. intros E Er. unfold set_current_req. erewrite done_bind by by eapply CURRENT_ms. by apply set_req_ms. Qed.

Lemma current_req_null f :
  zget V 3 = Some (BlkDev f None) -> current_req (ms B R V h d) = Undef "CURRENT" (ms B R V h d).
Proof. intros E. unfold current_req, CURRENT, MAJOR_NR, mbind, M_bind. by rewrite (dev_at_ms _ _ E). Qed.

Lemma out_regs_ms l port : out_regs l port (ms B R V h d) = Done tt (ms B R V h (write_regs l port d)).
Proof.
  revert port. generalize d. induction l as [|v l IH]; intros d' port; [done|].
  cbn [out_regs write_regs]. erewrite done_bind by reflexivity. apply IH.
Qed.
End steps.

Context (media : Z -> Z -> list Z) (geo : Z -> hd_i_struct) (idle : D -> Prop) (busy full : D -> Z -> Z -> Z -> Prop).
Context (irq : D -> D -> Prop) (OK : drive_ok media geo idle busy full irq).

Section run.
Context (B : list buffer_head) (R : list request_t) (V : list blk_dev_struct) (h : hd_state) (d : D).

Lemma controller_ready_ms :
  idle d -> exists r d', 0 < r /\ idle d' /\ controller_ready (ms B R V h d) = Done r (ms B R V h d').
Proof.
  intros Hd. unfold controller_ready. destruct (Z.to_nat 100000) as [|[|n]] eqn:E; [lia|lia|].
  destruct (dr_idle _ _ _ _ _ _ OK d Hd) as (v & d' & Ev & Hv & Hd'). exists (Z.of_nat (S n)), d'.
  split; [lia|]. split; [done|]. remember (S n) as n' eqn:En. cbn [ready_loop]. rewrite En, <- En.
  rewrite (done_bind _ _ _ v (ms B R V h d')) by (cbn; by rewrite Ev). rewrite Hv. by rewrite decide_False by (intros H; by apply H).
Qed.

Lemma win_result_ms drive n k :
  full d drive n k -> exists d', full d' drive n k /\ win_result (ms B R V h d) = Done 0 (ms B R V h d').
Proof.
  intros Hf. destruct (dr_full _ _ _ _ _ _ OK d drive n k Hf) as (v & d' & Ev & Hv & Hd'). exists d'. split; [done|].
  unfold win_result. rewrite (done_bind _ _ _ v (ms B R V h d')) by (cbn; by rewrite Ev).
  change (Z.lor BUSY_STAT (Z.lor READY_STAT (Z.lor WRERR_STAT (Z.lor SEEK_STAT ERR_STAT)))) with 0xF1.
  rewrite Hv. by rewrite decide_True.
Qed.

Lemma hd_out_ms drive nsect sect head cyl cmd intr :
  idle d -> 0 <= drive <= 1 -> 0 <= head <= 15 -> zget (hd_info h) drive = Some (geo drive) ->
  exists d', idle d' /\ hd_out drive nsect sect head cyl cmd intr (ms B R V h d) = Done tt
    (ms B R V (set_do_hd (Some intr) h)
      (write_regs [Z.shiftr (hi_wpcom (geo drive)) 2; nsect; sect; cyl; Z.shiftr cyl 8;
                   Z.lor (Z.lor 0xA0 (Z.shiftl drive 4)) head; cmd] (HD_DATA + 1)
        (c_out ct (u8 (hi_ctl (geo drive))) HD_CMD d'))).
Proof.
  intros Hrdy Hd Hh Hi. destruct (controller_ready_ms Hrdy) as (r & d' & Hr & Hd' & E). exists d'. split; [done|].
  unfold hd_out. rewrite decide_False by lia.
  erewrite done_bind by exact E. rewrite decide_False by lia.
  erewrite done_bind by apply upd_hd_ms. erewrite done_bind by (apply info_ms; exact Hi).
  erewrite done_bind by reflexivity. apply out_regs_ms.
Qed.
End run.

Context (B : list buffer_head) (R : list request_t) (V : list blk_dev_struct) (h : hd_state) (d : D).
Context (c bh dev sector errors : Z) (b : buffer_head) (part : hd_struct) (f : option driver) (nx : option Z).
#[local] Abbreviation drive := (MINOR dev / 5).
#[local] Abbreviation lba := (sector + start_sect part).
#[local] Abbreviation spt := (hi_sect (geo (MINOR dev / 5))).
#[local] Abbreviation heads := (hi_head (geo (MINOR dev / 5))).

(** A read request for the two sectors from [sector] on of partition [MINOR dev], at the head
    of the queue; [nx] is the request behind it, if there is one. *)
Record read_request : Prop := {
  rr_dev : MAJOR dev = 3;
  rr_minor : 0 <= MINOR dev < 5 * NR_HD h /\ NR_HD h <= 2;
  rr_current : zget V 3 = Some (BlkDev f (Some c));
  rr_req : zget R c = Some (Req dev READ errors sector 2 (Some (bh, 0)) (Some bh) nx);
  rr_buf : zget B bh = Some b /\ b_lock b <> 0 /\ length (b_data b) = 1024%nat;
  rr_part : zget (hd h) (MINOR dev) = Some part;
  rr_sector : 0 <= sector /\ sector + 2 <= nr_sects part < 2 ^ 31 /\ 0 <= start_sect part /\ lba < 2 ^ 32;
  rr_info : zget (hd_info h) drive = Some (geo drive) /\ 0 < spt < 256 /\ 0 < heads <= 16;
  rr_cyl : cylinder lba spt heads < 2 ^ 16;
  rr_ready : reset h = 0 /\ recalibrate h = 0 /\ idle d
}.
Context (RR : read_request).

Lemma INIT_REQUEST_ms :
  INIT_REQUEST (ms B R V h d) = Done (Some (Req dev READ errors sector 2 (Some (bh, 0)) (Some bh) nx)) (ms B R V h d).
Proof.
  unfold INIT_REQUEST, MAJOR_NR. erewrite done_bind by (apply dev_at_ms; exact (rr_current RR)).
  cbn [current_request]. erewrite done_bind by (apply req_at_ms; exact (rr_req RR)). cbn [r_dev r_bh].
  rewrite decide_False by (rewrite (rr_dev RR); intros H; by apply H).
  destruct (rr_buf RR) as (E & Hl & _). erewrite done_bind by (apply bh_at_ms; exact E).
  by rewrite decide_False.
Qed.

Lemma start_read fuel :
  exists d1, do_hd_request (S fuel) (ms B R V h d) = Done tt (ms B R V (set_do_hd (Some Read_intr) h) d1) /\
    busy d1 drive lba 2.
Proof.
  destruct (rr_minor RR) as (Hm & Hn). destruct (rr_sector RR) as (H1 & H2 & H3 & H4).
  destruct (rr_info RR) as (Hi & Hs & Hh). destruct (rr_ready RR) as (Hre & Hrc & Hrdy).
  assert (Hd : 0 <= drive <= 1) by (Z.to_euclidean_division_equations; lia).
  cbn [do_hd_request]. erewrite done_bind by apply INIT_REQUEST_ms. cbn [r_dev r_sector r_cmd r_nr_sectors].
  cbv zeta. erewrite done_bind by reflexivity. cbv beta. unfold id. cbn [mhd get_hd machine_hd ms].
  rewrite decide_False by lia.
  erewrite (done_bind _ _ _ false).
  2: { rewrite (rr_part RR). rewrite deref_bind. rewrite bool_decide_eq_false_2; [reflexivity|].
       rewrite !u32_small by lia. lia. }
  rewrite (rr_part RR), deref_bind. cbv iota.
  erewrite done_bind by (apply info_ms; exact Hi).
  rewrite (u32_small lba) by lia. unfold divl. rewrite (u32_small spt), (u32_small heads), (u32_small lba) by lia.
  rewrite !decide_False by lia. rewrite ret_bind. cbv beta iota.
  assert (Hq : 0 <= lba / spt <= lba) by (split; [apply Z.div_pos; lia|apply Z.div_le_upper_bound; nia]).
  rewrite (u32_small (lba / spt)) by lia. rewrite (decide_False (P := heads = 0)) by lia.
  rewrite ret_bind. cbv beta iota. change (mdev (ms B R V h d)) with d.
  rewrite (decide_False (P := reset h <> 0)) by (intros E; by apply E).
  rewrite (decide_False (P := recalibrate h <> 0)) by (intros E; by apply E).
  rewrite (decide_False (P := READ = WRITE)) by done. rewrite (decide_True (P := READ = READ)) by done.
  pose proof (Z.mod_pos_bound lba spt ltac:(lia)) as Hm1. pose proof (Z.mod_pos_bound (lba / spt) heads ltac:(lia)) as Hm2.
  rewrite (u32_small (lba mod spt + 1)) by lia.
  edestruct (hd_out_ms B R V h d drive 2) as (d0 & Hd0 & E0); [exact Hrdy|exact Hd| |exact Hi|]; cycle 1.
  - eexists. split; [exact E0|].
    pose proof (dr_read _ _ _ _ _ _ OK d0 drive 2 (sector_of lba spt) (head_of lba spt heads) (cylinder lba spt heads)) as Hread.
    rewrite linear_split in Hread by lia. apply Hread; [done|done|lia|unfold sector_of; lia|unfold head_of; lia|].
    pose proof (rr_cyl RR). unfold cylinder in *. split; [apply Z.div_pos; lia|lia].
  - lia.
Qed.

(** One interrupt of a read: a sector is fetched. *)
Lemma fetch_sector fuel B1 R1 h1 d1 r b1 o n k :
  full d1 drive n k -> 0 < k -> zget R1 c = Some r -> r_buffer r = Some (bh, o) ->
  zget B1 bh = Some b1 ->
  let r' := set_nr_sectors (r_nr_sectors r - 1) (next_sector (set_errors 0 r)) in
  exists d', (if decide (k = 1) then idle d' else busy d' drive (n + 1) (k - 1)) /\
    read_intr fuel (ms B1 R1 V h1 d1) =
      (if decide (r_nr_sectors r' <> 0) then upd_hd (set_do_hd (Some Read_intr))
       else hd_end_request 1;; do_hd_request fuel)
      (ms (zset B1 bh (set_data (splice (Z.to_nat o) (media drive n) (b_data b1)) b1)) (zset R1 c r') V h1 d').
Proof.
  intros Hfull Hk Er Eb E1 r'. pose proof (rr_current RR) as Hc. pose proof (zget_Some_range _ _ _ Er) as Hcr.
  destruct (win_result_ms B1 R1 V h1 d1 _ _ _ Hfull) as (d0 & Hfull0 & Ew).
  destruct (dr_fetch _ _ _ _ _ _ OK d0 drive n k Hfull0 Hk) as (d' & Hf & Hnext).
  exists d'. split; [done|]. unfold read_intr.
  erewrite done_bind by exact Ew. rewrite decide_False by (intros H; by apply H).
  erewrite done_bind.
  2: { unfold read_sector. erewrite done_bind by (eapply current_req_ms; [exact Hc|exact Er]).
       rewrite Eb, deref_bind. cbv beta iota.
       erewrite (done_bind _ _ _ (media drive n) (ms B1 R1 V h1 d')).
       2: { cbn [insw machine_ports mdev ms]. rewrite Hf. reflexivity. }
       apply set_bh_ms. exact E1. }
  erewrite done_bind by (eapply set_current_req_ms; [exact Hc|exact Er]).
  erewrite done_bind by (eapply set_current_req_ms; [exact Hc|by apply zget_zset_eq]).
  rewrite zset_zset.
  erewrite done_bind by (eapply current_req_ms; [exact Hc|by apply zget_zset_eq]). done.
Qed.

(** [end_request] unlinks the request from the queue's head. *)
Lemma hd_end_request_ms up B1 R1 h1 d1 r b1 :
  zget R1 c = Some r -> r_bh r = Some bh -> zget B1 bh = Some b1 ->
  hd_end_request up (ms B1 R1 V h1 d1) = Done tt
    (ms (zset B1 bh (set_lock 0 (set_uptodate up b1))) (zset R1 c (set_dev (-1) r)) (zset V 3 (BlkDev f (r_next r))) h1 d1).
Proof.
  intros Er Ebh E1. pose proof (zget_Some_range _ _ _ E1) as Hbr. pose proof (zget_Some_range _ _ _ Er) as Hrr.
  unfold hd_end_request, end_request, MAJOR_NR.
  erewrite done_bind by (apply dev_at_ms; exact (rr_current RR)). cbn [current_request]. rewrite deref_bind.
  erewrite done_bind by by apply req_at_ms. erewrite done_bind by reflexivity. rewrite Ebh.
  erewrite done_bind.
  2: { erewrite done_bind by by apply set_bh_ms. unfold unlock_buffer.
       erewrite done_bind by (apply set_bh_ms; by apply zget_zset_eq). reflexivity. }
  rewrite zset_zset. erewrite done_bind by reflexivity. erewrite done_bind by reflexivity.
  erewrite done_bind by by apply set_req_ms.
  erewrite done_bind by (apply req_at_ms; by apply zget_zset_eq).
  unfold set_current. erewrite done_bind by (apply dev_at_ms; exact (rr_current RR)). reflexivity.
Qed.

Lemma do_hd_request_empty fuel B1 R1 V1 h1 d1 :
  zget V1 3 = Some (BlkDev f None) -> do_hd_request (S fuel) (ms B1 R1 V1 h1 d1) = Done tt (ms B1 R1 V1 h1 d1).
Proof.
  intros E. cbn [do_hd_request]. erewrite done_bind.
  2: { unfold INIT_REQUEST, MAJOR_NR. by erewrite done_bind by by apply dev_at_ms. }
  done.
Qed.

Lemma splice_two l1 l2 data :
  length l1 = 512%nat -> length l2 = 512%nat -> length data = 1024%nat ->
  splice 512 l2 (splice 0 l1 data) = l1 ++ l2.
Proof.
  intros H1 H2 H3. unfold splice. rewrite take_0, app_nil_l.
  rewrite take_app_length' by done. f_equal.
  rewrite drop_ge; [by rewrite app_nil_r|]. rewrite length_app, length_drop, H1, H2, H3. lia.
Qed.

(** The seventh error of the only request ends it; the check for a reset that follows reads
    the error count of the next request, through a null pointer. *)
Lemma bad_rw_intr_null : nx = None -> 6 <= errors < 2 ^ 31 - 1 -> exists m, bad_rw_intr (ms B R V h d) = Undef "CURRENT" m.
Proof.
  intros Hnx He. pose proof (zget_Some_range _ _ _ (rr_req RR)) as Hcr. destruct (rr_buf RR) as (E & _).
  pose proof (zget_Some_range _ _ _ (rr_current RR)) as Hvr. unfold bad_rw_intr.
  erewrite done_bind by (eapply set_current_req_ms; [exact (rr_current RR)|exact (rr_req RR)]).
  erewrite done_bind by (eapply current_req_ms; [exact (rr_current RR)|by apply zget_zset_eq]).
  cbn [set_errors r_errors]. rewrite s32_small by lia. rewrite decide_True by (unfold MAX_ERRORS; lia).
  erewrite done_bind.
  2: { eapply hd_end_request_ms; [by apply zget_zset_eq|done|exact E]. }
  cbn [r_next set_errors]. rewrite Hnx. unfold mbind at 1, M_bind at 1. erewrite current_req_null by by apply zget_zset_eq. by eexists.
Qed.

(** C19: a read request for two sectors at the head of the hard disk's queue is carried out by
    [do_hd_request] and two interrupts, on any controller that keeps to its documentation:
    the buffer receives the request's two sectors, found by cylinder, head and sector at the
    partition's place on the disk, and is unlocked and up to date; the request is freed, the
    request behind it becomes the head of the queue, and the driver goes on with that one, or
    rests when there is none. *)
Theorem hd_read_done fuel :
  let started := ms B R V (set_do_hd (Some Read_intr) h) in
  exists d1, do_hd_request (S fuel) (ms B R V h d) = Done tt (started d1) /\ (exists d1', irq d1 d1') /\
  forall d1', irq d1 d1' -> exists B2 R2 d2,
    let halfway := ms B2 R2 V (set_do_hd (Some Read_intr) h) in
    hd_interrupt (S fuel) (started d1') = Done tt (halfway d2) /\ (exists d2', irq d2 d2') /\
  forall d2', irq d2 d2' -> exists r3 d3,
    let finished := ms (zset B bh (set_lock 0 (set_uptodate 1 (set_data (media drive lba ++ media drive (lba + 1)) b))))
                       (zset R c r3) (zset V 3 (BlkDev f nx)) (set_do_hd None h) d3 in
    hd_interrupt (S fuel) (halfway d2') = do_hd_request (S fuel) finished /\
    (nx = None -> do_hd_request (S fuel) finished = Done tt finished) /\ r_dev r3 = -1 /\ idle d3.
Proof.
  intros started. destruct (start_read fuel) as (d1 & R1 & Hb1).
  destruct (rr_buf RR) as (E & Hl & Hlen). pose proof (zget_Some_range _ _ _ E) as Hbr.
  pose proof (zget_Some_range _ _ _ (rr_req RR)) as Hcr.
  pose proof (zget_Some_range _ _ _ (rr_current RR)) as Hvr.
  exists d1. split; [exact R1|]. split; [by eapply dr_irq|]. intros d1' Hi1. clear R1.
  set (h1 := set_do_hd (Some Read_intr) h) in *.
  destruct (fetch_sector (S fuel) B R (set_do_hd None h1) d1' _ b 0 lba 2
    (dr_done _ _ _ _ _ _ OK _ _ _ _ _ Hb1 Hi1) ltac:(lia) (rr_req RR) eq_refl E) as (d2 & Hb2 & R2).
  rewrite decide_False in Hb2 by done. rewrite decide_True in R2 by (intros Hx; vm_compute in Hx; discriminate).
  set (b2 := set_data _ b) in R2. set (r2 := set_nr_sectors _ _) in R2.
  exists (zset B bh b2), (zset R c r2), d2. split; [exact R2|]. split; [by eapply dr_irq|]. intros d2' Hi2.
  destruct (fetch_sector (S fuel) (zset B bh b2) (zset R c r2) (set_do_hd None h1) d2' r2 b2 512 (lba + 1) 1
    (dr_done _ _ _ _ _ _ OK _ _ _ _ _ Hb2 Hi2) ltac:(lia)) as (d3 & Hd3 & R3);
    [by apply zget_zset_eq|done|by apply zget_zset_eq|].
  rewrite decide_True in Hd3 by done. rewrite decide_False in R3 by (intros Hx; apply Hx; reflexivity). rewrite !zset_zset in R3.
  set (b3 := set_data _ b2) in R3. set (r3 := set_nr_sectors _ _) in R3.
  exists (set_dev (-1) r3), d3. intros finished. split_and!; [|intros ->|done|exact Hd3].
  - change (hd_interrupt (S fuel) (ms (zset B bh b2) (zset R c r2) V h1 d2'))
      with (read_intr (S fuel) (ms (zset B bh b2) (zset R c r2) V (set_do_hd None h1) d2')).
    rewrite R3. erewrite done_bind.
    2: { apply (hd_end_request_ms 1 _ _ _ _ r3 b3); [by apply zget_zset_eq|done|by apply zget_zset_eq]. }
    rewrite !zset_zset. unfold finished, b3, b2, set_data. cbn [b_data].
    change (Z.to_nat 512) with 512%nat. change (Z.to_nat 0) with 0%nat.
    rewrite (splice_two (media drive lba) (media drive (lba + 1)) (b_data b)); [done|apply OK|apply OK|done].
  - apply do_hd_request_empty. by apply zget_zset_eq.
Qed.
End machine.

End HdProps.

(** ** A hard disk

    A controller with its command registers and a drive of 17 sectors and 4 heads, on which
    [HdProps] is applied. *)
Module HdInst.
Import BlkQueue BlkProps Hd HdProps.

(** The sector count, sector, cylinder and drive/head registers; the next sector to
    fetch, of which drive, and how many; 0 when it is idle, 1 when it is busy, 2 when a
    sector can be fetched. *)
Record ctl : Type := Ctl {
  k_nsect : Z; k_sec : Z; k_lcyl : Z; k_hcyl : Z; k_dh : Z;
  k_drive : Z; k_pos : Z; k_left : Z; k_phase : Z
}.
Definition geo (drive : Z) : hd_i_struct := HdInfo 4 17 615 300 615 8.
Definition media (drive n : Z) : list Z := replicate 512 (u8 (n + drive)).

Definition ctl_out (v port : Z) (k : ctl) : ctl :=
  if decide (port = 0x1f2) then {| k with k_nsect := v |}
  else if decide (port = 0x1f3) then {| k with k_sec := v |}
  else if decide (port = 0x1f4) then {| k with k_lcyl := v |}
  else if decide (port = 0x1f5) then {| k with k_hcyl := v |}
  else if decide (port = 0x1f6) then {| k with k_dh := v |}
  else if decide (port = 0x1f7 /\ v = WIN_READ) then
    {| k with k_drive := Z.land (Z.shiftr (k_dh k) 4) 1;
              k_pos := linear (k_lcyl k + 256 * k_hcyl k) (Z.land (k_dh k) 15) (k_sec k) 17 4;
              k_left := k_nsect k; k_phase := 1 |}
  else k.
Definition status (k : ctl) : Z := if decide (k_phase k = 0) then 0x50 else if decide (k_phase k = 1) then 0xD0 else 0x58.
Definition fetched (k : ctl) : ctl :=
  {| k with k_pos := k_pos k + 1; k_left := k_left k - 1; k_phase := if decide (k_left k = 1) then 0 else 1 |}.
Definition drive0 : controller (D := ctl) := {|
  c_in := fun _ k => (status k, k);
  c_out := ctl_out;
  c_insw := fun _ k => (media (k_drive k) (k_pos k), fetched k);
  c_outsw := fun _ k => k
|}.

Definition idle (k : ctl) : Prop := k_phase k = 0.
Definition at_sector (k : ctl) (drive n left : Z) : Prop := k_drive k = drive /\ k_pos k = n /\ k_left k = left.
Definition busy (k : ctl) (drive n left : Z) : Prop := k_phase k = 1 /\ at_sector k drive n left.
Definition full (k : ctl) (drive n left : Z) : Prop := k_phase k = 2 /\ at_sector k drive n left.
Definition irq (k k' : ctl) : Prop := k' = {| k with k_phase := 2 |}.

Lemma drive_head drive head :
  0 <= drive <= 1 -> 0 <= head < 16 ->
  let v := u8 (Z.lor (Z.lor 0xA0 (Z.shiftl drive 4)) head) in
  Z.land (Z.shiftr v 4) 1 = drive /\ Z.land v 15 = head.
Proof.
  intros Hd Hh.
  assert (H : forallb (fun d => forallb (fun h =>
    let v := u8 (Z.lor (Z.lor 0xA0 (Z.shiftl d 4)) h) in
    bool_decide (Z.land (Z.shiftr v 4) 1 = d /\ Z.land v 15 = h)) (seqZ 0 16)) (seqZ 0 2) = true) by (vm_compute; reflexivity).
  rewrite forallb_forall in H. specialize (H drive). rewrite <- list_elem_of_In, elem_of_seqZ in H.
  specialize (H ltac:(lia)). rewrite forallb_forall in H. specialize (H head).
  rewrite <- list_elem_of_In, elem_of_seqZ in H. exact (bool_decide_eq_true_1 _ (H ltac:(lia))).
Qed.

Lemma read_command h p nsect sec lcyl hcyl dh k :
  ctl_out 0x20 0x1f7 (ctl_out dh 0x1f6 (ctl_out hcyl 0x1f5 (ctl_out lcyl 0x1f4
    (ctl_out sec 0x1f3 (ctl_out nsect 0x1f2 (ctl_out p 0x1f1 (ctl_out h 0x3f6 k))))))) =
  Ctl nsect sec lcyl hcyl dh (Z.land (Z.shiftr dh 4) 1)
    (linear (lcyl + 256 * hcyl) (Z.land dh 15) sec 17 4) nsect 1.
Proof. reflexivity. Qed.

Lemma drive0_ok : drive_ok drive0 media geo idle busy full irq.
Proof.
  split.
  - intros d Hd. exists 0x50, d. unfold idle in Hd. cbn. unfold status. by rewrite Hd.
  - intros d drive nsect sec head cyl _ Hd Hn Hs Hh Hc.
    destruct (drive_head drive head Hd Hh) as [E1 E2].
    assert (Ec : u8 cyl + 256 * u8 (Z.shiftr cyl 8) = cyl).
    { rewrite Z.shiftr_div_pow2 by lia. unfold u8. change (2 ^ 8) with 256. Z.to_euclidean_division_equations. lia. }
    assert (Er : forall x y, write_regs drive0 [x; nsect; sec; cyl; Z.shiftr cyl 8; y; WIN_READ] (HD_DATA + 1)
                   (c_out drive0 (u8 8) HD_CMD d) =
                 Ctl nsect sec (u8 cyl) (u8 (Z.shiftr cyl 8)) (u8 y) (Z.land (Z.shiftr (u8 y) 4) 1)
                   (linear (u8 cyl + 256 * u8 (Z.shiftr cyl 8)) (Z.land (u8 y) 15) sec 17 4) nsect 1).
    { intros x y. rewrite <- (u8_small nsect) at 2 3 by lia. rewrite <- (u8_small sec) at 2 3 by lia. apply read_command. }
    unfold busy, at_sector. cbn [geo hi_ctl hi_wpcom hi_sect hi_head].
    rewrite Er. cbn [k_drive k_pos k_left k_phase]. by rewrite Ec, E1, E2.
  - intros d drive n k _. by eexists.
  - intros d d' drive n k [_ Hk] ->. done.
  - intros d drive n k [Hp Hk]. exists 0x58, d. cbn. unfold status. by rewrite Hp.
  - intros d drive n k [Hp (H1 & H2 & H3)] Hk. exists (fetched d). split; [cbn; by rewrite H1, H2|].
    unfold idle, busy, at_sector, fetched. cbn. rewrite H3. case_decide; [done|]. split_and!; done || lia.
  - intros drive n. unfold media. by rewrite length_replicate.
Qed.

#[local] Existing Instances machine_blk machine_hd machine_waiting.

(** Two sectors of the first partition of the second drive. *)
Definition hd2 : hd_state :=
  {| hd_state0 with hd_info := [geo 0; geo 1]; NR_HD := 2;
                    hd := replicate 6 (HdPart 0 0) ++ [HdPart 17 1000] ++ replicate 3 (HdPart 0 0) |}.
Definition buf0 : buffer_head := Bh (replicate 1024 0) 50 0x306 0 0 1 1 None None None None.
Definition req0 : request_t := Req 0x306 READ 0 100 2 (Some (0, 0)) (Some 0) (Some 1).
Definition req1 : request_t := Req 0x306 READ 0 200 2 (Some (0, 0)) (Some 0) None.
Definition idle_ctl : ctl := Ctl 0 0 0 0 0 0 0 0 0.
Definition hd_queue : list blk_dev_struct := replicate 3 (BlkDev None None) ++ [BlkDev (Some BlkQueue.Hd) (Some 0)].

(** The controller works until its interrupt. *)
Definition interrupting (m : machine (D := ctl)) : machine := {| m with mdev := let k := mdev m in {| k with k_phase := 2 |} |}.

(** Another request waits behind the one that is carried out. *)
Lemma hd_read_done_witness : exists m1 m2 m3,
  let step := hd_interrupt (HP := machine_ports drive0) 1 in
  do_hd_request (HP := machine_ports drive0) 1 (ms [buf0] [req0; req1] hd_queue hd2 idle_ctl) = Done tt m1 /\
  step (interrupting m1) = Done tt m2 /\
  step (interrupting m2) = do_hd_request (HP := machine_ports drive0) 1 m3 /\
  (b_data <$> zget (bufs (mblk m3)) 0) = Some (replicate 512 118 ++ replicate 512 119) /\
  zget (blk_dev (mblk m3)) 3 = Some (BlkDev (Some BlkQueue.Hd) (Some 1)).
Proof.
  edestruct (hd_read_done drive0 media geo idle busy full irq drive0_ok [buf0] [req0; req1] hd_queue hd2 idle_ctl
    0 0 0x306 100 0 buf0 (HdPart 17 1000) (Some BlkQueue.Hd) (Some 1)) with (fuel := 0%nat) as (d1 & H1 & _ & K1).
  { split; vm_compute; intuition (congruence || discriminate). }
  destruct (K1 _ eq_refl) as (B2 & R2 & d2 & H2 & _ & K2). destruct (K2 _ eq_refl) as (r3 & d3 & H3 & _).
  eexists _, _, _. split; [exact H1|]. split; [exact H2|]. split; [exact H3|]. split; vm_compute; reflexivity.
Defined.

End HdInst.
