(* ===== verification/Traps.v ===== *)
(** * kernel/traps.c and include/asm/system.h: gates, traps, and [sched_init]

    The interrupt table is a list of pairs of words, the handlers' addresses are
    [address].  A trap that is fatal to its task ends in [do_exit]; the registers it prints on
    the way, and what [printk] prints anywhere, are not modelled. *)

From S2P Require Import Prelude Task Sched Process Ports.
Import Task Sched Process.

Module Traps.

(** The entry points that the gates lead to. *)
Inductive handler : Type :=
| divide_error | debug | nmi | int3 | overflow | bounds | invalid_op | device_not_available | double_fault
| coprocessor_segment_overrun | invalid_TSS | segment_not_present | stack_segment | general_protection | page_fault
| coprocessor_error | reserved | parallel_interrupt | irq13
| timer_interrupt | system_call | keyboard_interrupt | rs1_interrupt | rs2_interrupt | hd_interrupt | floppy_interrupt
| ignore_int.

Record cpu : Type := Cpu {
  idt : list (Z * Z);
  gdt : list desc;
  ctask : tasks;
  tr : Z;                       (* the task register and the LDT register *)
  ldtr : Z
}.
Class HasCpu (S : Type) : Type := { get_cpu : S -> cpu; put_cpu : cpu -> S -> S }.

(** [movw]: the low half of a register is replaced. *)
Definition movw (x v : Z) : Z := x / 2 ^ 16 * 2 ^ 16 + u16 v.

(** The two words that [_set_gate] stores. *)
Definition _set_gate (type dpl addr : Z) : Z * Z :=
  (movw 0x00080000 addr, movw addr (0x8000 + Z.shiftl dpl 13 + Z.shiftl type 8)).

Definition LATCH : Z := 1193180 / HZ.
Definition FIRST_TSS_ENTRY : Z := 4.
Definition FIRST_LDT_ENTRY : Z := FIRST_TSS_ENTRY + 1.
Definition SIGFPE : Z := 8.

Section traps.
Context {S : Type} {HC : HasCpu S} {HP : Ports S}.
Context (address : handler -> Z).

Definition on_cpu {A} (m : M cpu A) : M S A := zoom get_cpu put_cpu m.
Definition set_gate (n : Z) (g : Z * Z) : M S unit := on_cpu (modify (fun c => {| c with idt := zset (idt c) n g |})).
Definition set_intr_gate (n : Z) (h : handler) : M S unit := set_gate n (_set_gate 14 0 (address h)).
Definition set_trap_gate (n : Z) (h : handler) : M S unit := set_gate n (_set_gate 15 0 (address h)).
Definition set_system_gate (n : Z) (h : handler) : M S unit := set_gate n (_set_gate 15 3 (address h)).

Definition trap_init : M S unit :=
  set_trap_gate 0 divide_error;;
  set_trap_gate 1 debug;;
  set_trap_gate 2 nmi;;
  set_system_gate 3 int3;;
  set_system_gate 4 overflow;;
  set_system_gate 5 bounds;;
  set_trap_gate 6 invalid_op;;
  set_trap_gate 7 device_not_available;;
  set_trap_gate 8 double_fault;;
  set_trap_gate 9 coprocessor_segment_overrun;;
  set_trap_gate 10 invalid_TSS;;
  set_trap_gate 11 segment_not_present;;
  set_trap_gate 12 stack_segment;;
  set_trap_gate 13 general_protection;;
  set_trap_gate 14 page_fault;;
  set_trap_gate 15 reserved;;
  set_trap_gate 16 coprocessor_error;;
  for_up (Z.to_nat (48 - 17)) 17 (fun i => set_trap_gate i reserved);;
  set_trap_gate 45 irq13;;
  v ← inb 0x21; outb (Z.land v 0xfb) 0x21;;
  v ← inb 0xA1; outb (Z.land v 0xdf) 0xA1;;
  set_trap_gate 39 parallel_interrupt.

Definition set_gdt (i : Z) (d : desc) : M S unit := on_cpu (modify (fun c => {| c with gdt := zset (gdt c) i d |})).
Definition set_task (i : Z) (t : option task_struct) : M S unit :=
  on_cpu (modify (fun c => {| c with ctask := set_slot i t (ctask c) |})).

(** [sched_init] of sched.c; [init_task_addr] is the address of the first task. *)
Definition sched_init (init_task_addr : Z) : M S unit :=
  set_gdt FIRST_TSS_ENTRY (tssldt_desc (init_task_addr + TSS_OFFSET) 0x89);;
  set_gdt FIRST_LDT_ENTRY (tssldt_desc (init_task_addr + LDT_OFFSET) 0x82);;
  for_up (Z.to_nat (NR_TASKS - 1)) 1 (fun i =>
    set_task i None;;
    set_gdt (2 + FIRST_TSS_ENTRY + 2 * (i - 1)) (Desc 0 0);;
    set_gdt (2 + FIRST_TSS_ENTRY + 2 * (i - 1) + 1) (Desc 0 0));;
  on_cpu (modify (fun c => {| c with tr := TSS_ 0; ldtr := LDT_ 0 |}));;
  outb 0x36 0x43;;
  outb (Z.land LATCH 0xff) 0x40;;
  outb (Z.shiftr LATCH 8) 0x40;;
  set_intr_gate 0x20 timer_interrupt;;
  v ← inb 0x21; outb (Z.ldiff v 0x01) 0x21;;
  set_system_gate 0x80 system_call.

(** The gates that the drivers set: [rs_init], [con_init], [hd_init] and [floppy_init]. *)
Definition rs_gates : M S unit := set_intr_gate 0x24 rs1_interrupt;; set_intr_gate 0x23 rs2_interrupt.
Definition con_gate : M S unit := set_trap_gate 0x21 keyboard_interrupt.
Definition hd_gate : M S unit := set_intr_gate 0x2E hd_interrupt.
Definition floppy_gate : M S unit := set_trap_gate 0x26 floppy_interrupt.
End traps.

(** ** The traps *)

(** [do_exit(11)], after the registers are printed. *)
Definition die {A} : M sched A := exited 11.
Definition do_double_fault : M sched unit := die.
Definition do_general_protection : M sched unit := die.
Definition do_divide_error : M sched unit := die.
Definition do_int3 : M sched unit := skip.
Definition do_nmi : M sched unit := die.
Definition do_debug : M sched unit := die.
Definition do_overflow : M sched unit := die.
Definition do_bounds : M sched unit := die.
Definition do_invalid_op : M sched unit := die.
Definition do_device_not_available : M sched unit := die.
Definition do_coprocessor_segment_overrun : M sched unit := die.
Definition do_invalid_TSS : M sched unit := die.
Definition do_segment_not_present : M sched unit := die.
Definition do_stack_segment : M sched unit := die.
Definition do_coprocessor_error : M sched unit :=
  cur ← gets (fun s => current (tab s));
  last ← gets last_task_used_math;
  if decide (last <> Some cur) then skip else die.
Definition do_reserved : M sched unit := die.

(** kernel/math/math_emulate.c: the two bytes of the instruction are only printed. *)
Definition math_emulate (cs : Z) : M sched unit :=
  (if decide (cs <> 0x000F) then panic "Math emulation needed in kernel" else skip);;
  on_tab (put_current (set_signal_bit SIGFPE)).
Definition math_error : M sched unit :=
  last ← gets last_task_used_math;
  match last with Some l => on_tab (put_task l (set_signal_bit SIGFPE)) | None => skip end.

(** ** What the processor reads in a gate *)

Definition gate_offset (g : Z * Z) : Z := fst g mod 2 ^ 16 + 2 ^ 16 * (snd g / 2 ^ 16).
Definition gate_selector (g : Z * Z) : Z := fst g / 2 ^ 16.
Definition gate_type (g : Z * Z) : Z := snd g / 2 ^ 8 mod 2 ^ 5.
Definition gate_dpl (g : Z * Z) : Z := snd g / 2 ^ 13 mod 2 ^ 2.
Definition gate_present (g : Z * Z) : Prop := Z.testbit (snd g) 15 = true.

Lemma gate_fields type dpl addr :
  0 <= type < 16 -> 0 <= dpl < 4 -> 0 <= addr < 2 ^ 32 ->
  let g := _set_gate type dpl addr in
  gate_offset g = addr /\ gate_selector g = 8 /\ gate_type g = type /\ gate_dpl g = dpl /\ gate_present g.
Proof.
  intros Ht Hd Ha g. unfold gate_offset, gate_selector, gate_type, gate_dpl, gate_present, g, _set_gate, movw. cbn [fst snd].
  rewrite !Z.shiftl_mul_pow2 by lia. unfold u16. rewrite Z.testbit_true by lia.
  change (2 ^ 16) with 65536. change (2 ^ 13) with 8192. change (2 ^ 8) with 256. change (2 ^ 15) with 32768. change (2 ^ 5) with 32.
  change (2 ^ 2) with 4. change (0x80000 / 65536) with 8.
  rewrite (Z.mod_small (_ + _ + _) 65536) by lia.
  pose proof (Z.div_mod addr 65536 ltac:(lia)). pose proof (Z.mod_pos_bound addr 65536 ltac:(lia)).
  split_and!; Z.to_euclidean_division_equations; lia.
Qed.

(** ** The table after the start *)

(** The handler of an interrupt number, the gate's type and the privilege that may call it. *)
Definition vector (n : Z) : handler * Z * Z :=
  match nth_error [(divide_error, 15, 0); (debug, 15, 0); (nmi, 15, 0); (int3, 15, 3); (overflow, 15, 3); (bounds, 15, 3);
     (invalid_op, 15, 0); (device_not_available, 15, 0); (double_fault, 15, 0); (coprocessor_segment_overrun, 15, 0);
     (invalid_TSS, 15, 0); (segment_not_present, 15, 0); (stack_segment, 15, 0); (general_protection, 15, 0); (page_fault, 15, 0);
     (reserved, 15, 0); (coprocessor_error, 15, 0)] (Z.to_nat n) with
  | Some v => v
  | None =>
      if decide (n = 0x20) then (timer_interrupt, 14, 0) else if decide (n = 0x21) then (keyboard_interrupt, 15, 0)
      else if decide (n = 0x23) then (rs2_interrupt, 14, 0) else if decide (n = 0x24) then (rs1_interrupt, 14, 0)
      else if decide (n = 0x26) then (floppy_interrupt, 15, 0) else if decide (n = 0x27) then (parallel_interrupt, 15, 0)
      else if decide (n = 0x2D) then (irq13, 15, 0) else if decide (n = 0x2E) then (hd_interrupt, 14, 0)
      else if decide (n = 0x80) then (system_call, 15, 3)
      else if decide (n < 48) then (reserved, 15, 0) else (ignore_int, 14, 0)
  end.

(** The table as [head.s] leaves it, and after the start, by handlers. *)
Definition head_table : list (handler * Z * Z) := replicate 256 (ignore_int, 14, 0).
Definition start_table : list (handler * Z * Z) := map vector (seqZ 0 256).
Definition gate_of (address : handler -> Z) (v : handler * Z * Z) : Z * Z :=
  let '(h, type, dpl) := v in _set_gate type dpl (address h).

Lemma vector_ok n : 0 <= n < 256 ->
  let '(h, type, dpl) := vector n in 0 <= type < 16 /\ 0 <= dpl < 4 /\ (dpl = 3 <-> n ∈ [3; 4; 5; 0x80]).
Proof.
  intros Hn. assert (H : Forall (fun n => let '(h, type, dpl) := vector n in
    0 <= type < 16 /\ 0 <= dpl < 4 /\ (dpl = 3 <-> n ∈ [3; 4; 5; 0x80])) (seqZ 0 256)).
  { apply (bool_decide_unpack _). vm_compute. exact I. }
  rewrite Forall_forall in H. apply H. apply elem_of_seqZ. lia.
Qed.
Lemma start_table_get address n : 0 <= n < 256 -> zget (map (gate_of address) start_table) n = Some (gate_of address (vector n)).
Proof.
  intros Hn. unfold start_table. change (map ?f ?l) with (f <$> l). change (map ?f ?l) with (f <$> l).
  unfold zget. rewrite decide_True by lia. rewrite !list_lookup_fmap, lookup_seqZ_lt by lia. cbn. do 3 f_equal. lia.
Qed.

End Traps.
