(* ===== verification/Floppy.v ===== *)
(** * kernel/blk_drv/floppy.c: the floppy driver

    The driver is a state machine on the head of its request queue: [do_fd_request] prepares
    the transfer and sets a timer for the motor; the timer's function selects the drive and
    starts a seek or the transfer; [do_floppy] is what the controller's next interrupt runs.
    The motors are those of [Clock] (every byte for their register is recorded in [fd_dor]), the
    timers those of [Timers].  What [printk] prints is not modelled; [buffer_addr] and
    [tmp_floppy_addr] are the addresses of a buffer's data and of [tmp_floppy_area]. *)

From S2P Require Import Prelude Bytes Timers Clock Ports BlkQueue Hd.
Import Timers Clock BlkQueue.

Module Floppy.

Definition MAJOR_NR : Z := 2.
Definition MAX_ERRORS : Z := 8.
Definition MAX_REPLIES : Z := 7.

Definition FD_STATUS : Z := 0x3f4.
Definition FD_DATA : Z := 0x3f5.
Definition FD_DIR : Z := 0x3f7.
Definition FD_DCR : Z := 0x3f7.
Definition STATUS_BUSY : Z := 0x10.
Definition STATUS_DIR : Z := 0x40.
Definition STATUS_READY : Z := 0x80.
Definition FD_RECALIBRATE : Z := 0x07.
Definition FD_SEEK : Z := 0x0F.
Definition FD_READ : Z := 0xE6.
Definition FD_WRITE : Z := 0xC5.
Definition FD_SENSEI : Z := 0x08.
Definition FD_SPECIFY : Z := 0x03.
Definition DMA_READ : Z := 0x46.
Definition DMA_WRITE : Z := 0x4A.

Record floppy_struct : Type := FloppyType {
  size : Z; sect : Z; heads : Z; tracks : Z; stretch : Z; gap : Z; rate : Z; spec1 : Z
}.
Definition floppy_type : list floppy_struct := [
  FloppyType 0 0 0 0 0 0x00 0x00 0x00;
  FloppyType 720 9 2 40 0 0x2A 0x02 0xDF;
  FloppyType 2400 15 2 80 0 0x1B 0x00 0xDF;
  FloppyType 720 9 2 40 1 0x2A 0x02 0xDF;
  FloppyType 1440 9 2 80 0 0x2A 0x02 0xDF;
  FloppyType 720 9 2 40 1 0x23 0x01 0xDF;
  FloppyType 1440 9 2 80 0 0x23 0x01 0xDF;
  FloppyType 2880 18 2 80 0 0x1B 0x00 0xCF
].

(** What [do_floppy] points to, and the functions given to [add_timer]. *)
Inductive fd_intr : Type := Rw_interrupt | Seek_interrupt | Recal_interrupt | Reset_interrupt.
#[export] Instance fd_intr_eq_dec : EqDecision fd_intr.
Proof. solve_decision. Defined.
Definition TRANSFER : Z := 1.
Definition FLOPPY_ON_INTERRUPT : Z := 2.

Record fd_state : Type := FdState {
  recalibrate : Z; reset : Z; seek : Z;
  reply_buffer : list Z;
  cur_spec1 : Z; cur_rate : Z;
  floppy : Z;                        (* an index into [floppy_type] *)
  current_drive : Z; sector : Z; head : Z; track : Z; seek_track : Z; current_track : Z;
  command : Z;
  do_floppy : option fd_intr;
  tmp_floppy_area : list Z
}.
Definition fd_state0 : fd_state :=
  FdState 0 0 0 (replicate 7 0) (-1) (-1) 0 0 0 0 0 0 255 0 None (replicate 1024 0).

Class HasFd (S : Type) : Type := { get_fd : S -> fd_state; put_fd : fd_state -> S -> S }.
Class HasMotors (S : Type) : Type := { get_motors : S -> motors; put_motors : motors -> S -> S }.
Class HasTimers (S : Type) : Type := { get_timers : S -> timers; set_timers : timers -> S -> S }.

(** The wait queues of the driver: the drive selection, and the motors. *)
Class Selecting (S : Type) : Type := {
  sleep_on_select : M S unit;
  wake_up_select : M S unit;
  sleep_on_motor : Z -> M S unit
}.

(** Field updates. *)
Definition set_recalibrate (v : Z) (f : fd_state) : fd_state := {| f with recalibrate := v |}.
Definition set_reset (v : Z) (f : fd_state) : fd_state := {| f with reset := v |}.
Definition set_seek (v : Z) (f : fd_state) : fd_state := {| f with seek := v |}.
Definition set_reply (i v : Z) (f : fd_state) : fd_state := {| f with reply_buffer := zset (reply_buffer f) i v |}.
Definition set_cur_spec1 (v : Z) (f : fd_state) : fd_state := {| f with cur_spec1 := v |}.
Definition set_cur_rate (v : Z) (f : fd_state) : fd_state := {| f with cur_rate := v |}.
Definition set_floppy (v : Z) (f : fd_state) : fd_state := {| f with floppy := v |}.
Definition set_current_drive (v : Z) (f : fd_state) : fd_state := {| f with current_drive := v |}.
Definition set_current_track (v : Z) (f : fd_state) : fd_state := {| f with current_track := v |}.
Definition set_command (v : Z) (f : fd_state) : fd_state := {| f with command := v |}.
Definition set_do_floppy (v : option fd_intr) (f : fd_state) : fd_state := {| f with do_floppy := v |}.
Definition set_tmp (l : list Z) (f : fd_state) : fd_state := {| f with tmp_floppy_area := l |}.
Definition ST0 (f : fd_state) : Z := default 0 (zget (reply_buffer f) 0).
Definition ST1 (f : fd_state) : Z := default 0 (zget (reply_buffer f) 1).
Definition ST2 (f : fd_state) : Z := default 0 (zget (reply_buffer f) 2).

Section floppy.
Context {S : Type} {HW : Waiting S} {HB : HasBlk S} {HF : HasFd S} {HM : HasMotors S} {HT : HasTimers S}.
Context {HS : Selecting S} {HP : Ports S}.
Context (buffer_addr : Z * Z -> Z) (tmp_floppy_addr : Z).

Definition on_fd {A} (m : M fd_state A) : M S A := zoom get_fd put_fd m.
Definition upd_fd (f : fd_state -> fd_state) : M S unit := on_fd (modify f).
Definition get_state : M S fd_state := on_fd (gets id).
Definition on_mot {A} (m : M motors A) : M S A := zoom get_motors put_motors m.
Definition DOR : M S Z := on_mot (gets current_DOR).
Definition set_selected (v : Z) : M S unit := on_mot (modify (fun m => {| m with selected := v |})).
(** [floppy->field]. *)
Definition floppy_at (i : Z) : M S floppy_struct := deref "floppy_type" (zget floppy_type i).

Definition CURRENT : M S Z := d ← dev_at MAJOR_NR; deref "CURRENT" (current_request d).
Definition current_req : M S request_t := c ← CURRENT; req_at c.
Definition set_current_req (f : request_t -> request_t) : M S unit := c ← CURRENT; set_req c f.
Definition DEVICE_NR (device : Z) : Z := Z.land device 3.
Definition fd_end_request (uptodate : Z) : M S unit :=
  end_request MAJOR_NR (fun dev => on_mot (floppy_off (DEVICE_NR dev))) uptodate.

Definition floppy_deselect : M S unit := set_selected 0;; wake_up_select.

(** [floppy_on] of sched.c: it sleeps until the motor is up to speed. *)
Fixpoint floppy_on (n : nat) (nr : Z) : M S unit :=
  match n with
  | O => nofuel
  | Datatypes.S n' =>
      t ← on_mot (ticks_to_floppy_on nr);
      if decide (t = 0) then skip else sleep_on_motor nr;; floppy_on n' nr
  end.
(** [while ((current_DOR & 3) != nr && selected) interruptible_sleep_on(...)]. *)
Fixpoint wait_selected (n : nat) (nr : Z) : M S unit :=
  match n with
  | O => nofuel
  | Datatypes.S n' =>
      dor ← DOR; sel ← on_mot (gets selected);
      if decide (Z.land dor 3 <> nr /\ sel <> 0) then sleep_on_select;; wait_selected n' nr else skip
  end.
Fixpoint floppy_change (n : nat) (nr : Z) : M S Z :=
  match n with
  | O => nofuel
  | Datatypes.S n' =>
      floppy_on n nr;;
      wait_selected n nr;;
      dor ← DOR;
      if decide (Z.land dor 3 <> nr) then floppy_change n' nr
      else
        v ← inb FD_DIR;
        on_mot (floppy_off nr);;
        mret (if decide (Z.land v 0x80 <> 0) then 1 else 0)
  end.

(** The block at [CURRENT->buffer]. *)
Definition buffer_block (r : request_t) : M S (list Z) :=
  '(bh, o) ← deref "CURRENT->buffer" (r_buffer r);
  b ← bh_at bh; mret (field (Z.to_nat o) 1024 (b_data b)).
Definition fill_buffer (r : request_t) (l : list Z) : M S unit :=
  '(bh, o) ← deref "CURRENT->buffer" (r_buffer r);
  set_bh bh (fun b => set_data (splice (Z.to_nat o) l (b_data b)) b).
Definition current_addr (r : request_t) : M S Z :=
  p ← deref "CURRENT->buffer" (r_buffer r); mret (buffer_addr p).

Definition setup_DMA : M S unit :=
  r ← current_req;
  addr ← current_addr r;
  f ← get_state;
  addr ← (if decide (0x100000 <= addr) then
            (if decide (command f = FD_WRITE) then l ← buffer_block r; upd_fd (set_tmp l) else skip);;
            mret tmp_floppy_addr
          else mret addr);
  let mode := if decide (command f = FD_READ) then DMA_READ else DMA_WRITE in
  outb (Z.lor 4 2) 10;;
  outb mode 12;; outb mode 11;;
  outb (u8 addr) 4;;
  outb (u8 (Z.shiftr addr 8)) 4;;
  outb (u8 (Z.shiftr (Z.shiftr addr 8) 8)) 0x81;;
  outb 0xff 5;; outb 3 5;;
  outb (Z.lor 0 2) 10.

Fixpoint output_loop (n : nat) (byte : Z) : M S unit :=
  match n with
  | O => upd_fd (set_reset 1)
  | Datatypes.S n' =>
      i ← inb FD_STATUS;
      let status := Z.land i (Z.lor STATUS_READY STATUS_DIR) in
      if decide (status = STATUS_READY) then outb (u8 byte) FD_DATA else output_loop n' byte
  end.
Definition output_byte (byte : Z) : M S unit :=
  f ← get_state;
  if decide (reset f <> 0) then skip else output_loop (Z.to_nat 10000) byte.

Fixpoint result_loop (n : nat) (i : Z) : M S Z :=
  match n with
  | O => upd_fd (set_reset 1);; mret (-1)
  | Datatypes.S n' =>
      st ← inb FD_STATUS;
      let status := Z.land st (Z.lor STATUS_DIR (Z.lor STATUS_READY STATUS_BUSY)) in
      if decide (status = STATUS_READY) then mret i
      else if decide (status = Z.lor STATUS_DIR (Z.lor STATUS_READY STATUS_BUSY)) then
        if decide (MAX_REPLIES <= i) then upd_fd (set_reset 1);; mret (-1)
        else v ← inb FD_DATA; upd_fd (set_reply i v);; result_loop n' (i + 1)
      else result_loop n' i
  end.
Definition result : M S Z :=
  f ← get_state;
  if decide (reset f <> 0) then mret (-1) else result_loop (Z.to_nat 10000) 0.

(** After [end_request], [CURRENT] is the next request. *)
Definition bad_flp_intr : M S unit :=
  set_current_req (fun r => Hd.set_errors (r_errors r + 1) r);;
  r ← current_req;
  (if decide (MAX_ERRORS < r_errors r) then floppy_deselect;; fd_end_request 0 else skip);;
  r ← current_req;
  if decide (MAX_ERRORS / 2 < r_errors r) then upd_fd (set_reset 1) else upd_fd (set_recalibrate 1).

(** [output_byte]s in a row. *)
Fixpoint output_bytes (l : list Z) : M S unit :=
  match l with [] => skip | b :: l' => output_byte b;; output_bytes l' end.

Definition head_drive (f : fd_state) : Z := Z.lor (Z.shiftl (head f) 2) (current_drive f).

Section request.
(** [do_fd_request()], where these functions call it. *)
Context (do_request : M S unit).

Definition request_if_reset : M S unit :=
  f ← get_state; if decide (reset f <> 0) then do_request else skip.

Definition rw_interrupt : M S unit :=
  n ← result;
  f ← get_state;
  if decide (n <> 7 \/ Z.land (ST0 f) 0xf8 <> 0 \/ Z.land (ST1 f) 0xbf <> 0 \/ Z.land (ST2 f) 0x73 <> 0) then
    (if decide (Z.land (ST1 f) 0x02 <> 0) then floppy_deselect;; fd_end_request 0 else bad_flp_intr);;
    do_request
  else
    (if decide (command f = FD_READ) then
       r ← current_req;
       addr ← current_addr r;
       if decide (0x100000 <= u32 addr) then fill_buffer r (tmp_floppy_area f) else skip
     else skip);;
    floppy_deselect;;
    fd_end_request 1;;
    do_request.

Definition setup_rw_floppy : M S unit :=
  setup_DMA;;
  upd_fd (set_do_floppy (Some Rw_interrupt));;
  f ← get_state;
  output_bytes [command f; head_drive f; track f; head f; sector f; 2];;
  t ← floppy_at (floppy f);
  output_bytes [sect t; gap t; 0xFF];;
  request_if_reset.

Definition seek_interrupt : M S unit :=
  output_byte FD_SENSEI;;
  n ← result;
  f ← get_state;
  if decide (n <> 2 \/ Z.land (ST0 f) 0xF8 <> 0x20 \/ ST1 f <> seek_track f) then bad_flp_intr;; do_request
  else upd_fd (set_current_track (ST1 f));; setup_rw_floppy.

Definition transfer : M S unit :=
  f ← get_state;
  t ← floppy_at (floppy f);
  (if decide (cur_spec1 f <> spec1 t) then
     upd_fd (set_cur_spec1 (spec1 t));; output_bytes [FD_SPECIFY; spec1 t; 6]
   else skip);;
  (if decide (cur_rate f <> rate t) then upd_fd (set_cur_rate (rate t));; outb (rate t) FD_DCR else skip);;
  f ← get_state;
  if decide (reset f <> 0) then do_request
  else if decide (seek f = 0) then setup_rw_floppy
  else
    upd_fd (set_do_floppy (Some Seek_interrupt));;
    (if decide (seek_track f <> 0) then output_bytes [FD_SEEK; head_drive f; seek_track f]
     else output_bytes [FD_RECALIBRATE; head_drive f]);;
    request_if_reset.

Definition sense_failed : M S bool :=
  output_byte FD_SENSEI;;
  n ← result;
  f ← get_state;
  mret (bool_decide (n <> 2 \/ Z.land (ST0 f) 0xE0 = 0x60)).

Definition recal_interrupt : M S unit :=
  bad ← sense_failed;
  (if (bad : bool) then upd_fd (set_reset 1) else upd_fd (set_recalibrate 0));;
  do_request.

Definition recalibrate_floppy : M S unit :=
  upd_fd (set_recalibrate 0);;
  upd_fd (set_current_track 0);;
  upd_fd (set_do_floppy (Some Recal_interrupt));;
  f ← get_state;
  output_bytes [FD_RECALIBRATE; head_drive f];;
  request_if_reset.

Definition reset_interrupt : M S unit :=
  output_byte FD_SENSEI;;
  _ ← result;
  f ← get_state;
  output_bytes [FD_SPECIFY; cur_spec1 f; 6];;
  do_request.

Definition floppy_on_interrupt : M S unit :=
  set_selected 1;;
  f ← get_state; dor ← DOR;
  if decide (current_drive f <> Z.land dor 3) then
    let dor := Z.lor (Z.land dor 0xFC) (current_drive f) in
    on_mot (set_DOR dor);;
    on_mot (outb_dor dor);;
    add_timer get_timers set_timers (fun _ => transfer) 2 (Some TRANSFER)
  else transfer.
End request.

Definition unexpected_floppy_interrupt : M S unit :=
  bad ← sense_failed;
  if (bad : bool) then upd_fd (set_reset 1) else upd_fd (set_recalibrate 1).

Definition reset_floppy : M S unit :=
  upd_fd (fun f => set_recalibrate 1 (set_cur_rate (-1) (set_cur_spec1 (-1) (set_reset 0 f))));;
  upd_fd (set_do_floppy (Some Reset_interrupt));;
  dor ← DOR;
  on_mot (outb_dor (Z.ldiff dor 0x04));;
  on_mot (outb_dor dor).

(** INIT_REQUEST. *)
Definition INIT_REQUEST : M S (option request_t) :=
  d ← dev_at MAJOR_NR;
  match current_request d with
  | None => mret None
  | Some c =>
      r ← req_at c;
      if decide (MAJOR (r_dev r) <> MAJOR_NR) then panic "floppy: request list destroyed"
      else
        match r_bh r with
        | Some bh => b ← bh_at bh;
                     if decide (b_lock b = 0) then panic "floppy: block not locked" else mret (Some r)
        | None => mret (Some r)
        end
  end.

Definition command_for (cmd : Z) : M S Z :=
  if decide (cmd = READ) then mret FD_READ
  else if decide (cmd = WRITE) then mret FD_WRITE
  else panic "do_fd_request: unknown command".

(** The place of a block on the disk, each in an unsigned char, the sector from 1. *)
Definition set_place (t : floppy_struct) (block : Z) : M S unit :=
  '(block, sec) ← Hd.divl block (sect t);
  '(trk, hd) ← Hd.divl block (heads t);
  upd_fd (fun f =>
    let stk := u8 (Z.shiftl (u8 trk) (stretch t)) in
    {| f with sector := u8 (u8 sec + 1); head := u8 hd; track := u8 trk; seek_track := stk;
              seek := if decide (stk <> current_track f) then 1 else seek f |}).

(** From the label [repeat]; [start] is what [add_timer] calls when there is nothing to wait for. *)
Fixpoint fd_loop (start : M S unit) (n : nat) : M S unit :=
  match n with
  | O => nofuel
  | Datatypes.S n' =>
      o ← INIT_REQUEST;
      match o with
      | None => skip
      | Some r =>
          let drive := DEVICE_NR (r_dev r) in
          let i := Z.shiftr (MINOR (r_dev r)) 2 in
          upd_fd (set_floppy i);;
          upd_fd (fun f => set_current_drive drive (if decide (current_drive f <> drive) then set_seek 1 f else f));;
          let block := r_sector r in
          t ← floppy_at i;
          if decide (size t < u32 (block + 2)) then fd_end_request 0;; fd_loop start n'
          else
            set_place t block;;
            c ← command_for (r_cmd r);
            upd_fd (set_command c);;
            ticks ← on_mot (ticks_to_floppy_on drive);
            add_timer get_timers set_timers (fun _ => start) ticks (Some FLOPPY_ON_INTERRUPT)
      end
  end.

(** A call from within is for a pending reset; it goes no deeper. *)
Fixpoint do_fd_request (n : nat) : M S unit :=
  match n with
  | O => nofuel
  | Datatypes.S n' =>
      upd_fd (set_seek 0);;
      f ← get_state;
      if decide (reset f <> 0) then reset_floppy
      else if decide (recalibrate f <> 0) then recalibrate_floppy (do_fd_request n')
      else fd_loop (floppy_on_interrupt (do_fd_request n')) (Datatypes.S n')
  end.

(** [floppy_interrupt] of system_call.s: [do_floppy] is cleared before it is called. *)
Definition floppy_interrupt (n : nat) : M S unit :=
  f ← get_state;
  upd_fd (set_do_floppy None);;
  match do_floppy f with
  | None => unexpected_floppy_interrupt
  | Some Rw_interrupt => rw_interrupt (do_fd_request n)
  | Some Seek_interrupt => seek_interrupt (do_fd_request n)
  | Some Recal_interrupt => recal_interrupt (do_fd_request n)
  | Some Reset_interrupt => reset_interrupt (do_fd_request n)
  end.

(** The timers' functions. *)
Definition call_timer (n : nat) (fn : Z) : M S unit :=
  if decide (fn = TRANSFER) then transfer (do_fd_request n)
  else if decide (fn = FLOPPY_ON_INTERRUPT) then floppy_on_interrupt (do_fd_request n)
  else skip.

(** The interrupt gate, and the interrupt controller's mask. *)
Definition floppy_init : M S unit :=
  d ← dev_at MAJOR_NR;
  on_blk (modify (fun b => {| b with
    blk_dev := zset (blk_dev b) MAJOR_NR (BlkDev (Some Fd) (current_request d)) |}));;
  i ← inb 0x21;
  outb (u8 (Z.ldiff i 0x40)) 0x21.
End floppy.

End Floppy.
