(* ===== verification/FloppyProps.v ===== *)
(** * Properties of the floppy driver

    The driver runs on a controller of which only the documented behaviour is assumed.  What
    the controller holds is seen through [view]: the bytes of the command it is being given, the
    result bytes to be fetched, the cylinder of each drive, what a sense command will
    answer, the DMA channel and the data last moved through it. *)

From S2P Require Import Prelude Bytes Timers Clock Ports BlkQueue BlkProps Hd HdProps Floppy.
Import Timers Clock BlkQueue BlkProps Floppy.

Module FloppyProps.

(** The documented state of a controller. *)
Record fdc : Type := Fdc {
  accepted : list Z;
  replies : list Z;
  position : Z -> Z;
  sense : list Z;
  dma : Z * Z;                  (* mode and address *)
  moved : Z * list Z            (* to an address *)
}.
Definition set_accepted (l : list Z) (v : fdc) : fdc := {| v with accepted := l |}.
Definition set_replies (l : list Z) (v : fdc) : fdc := {| v with replies := l; accepted := [] |}.
Definition set_dma (m a : Z) (v : fdc) : fdc := {| v with dma := (m, a) |}.
(** The heads of a drive have been moved: [hd] is the byte with the head and the drive. *)
Definition sought (hd cyl : Z) (v : fdc) : fdc :=
  {| v with accepted := []; sense := [Z.lor 0x20 hd; cyl];
            position := fun d => if decide (d = Z.land hd 3) then cyl else position v d |}.
Definition set_moved (l : list Z) (v : fdc) : fdc := {| v with moved := (snd (dma v), l) |}.

(** The number of bytes of a command. *)
Definition cmd_length (c : Z) : nat :=
  if decide (c = FD_SPECIFY \/ c = FD_SEEK) then 3 else if decide (c = FD_RECALIBRATE) then 2
  else if decide (c = FD_READ \/ c = FD_WRITE) then 9 else 1.
Definition partial (l : list Z) : Prop := match l with c :: _ => (length l < cmd_length c)%nat | [] => True end.

Section machine.
Context {D : Type}.

(** The block layer, the driver, the motors and the timers over a controller with state [D]. *)
Record machine : Type := Mach { mblk : blk; mfd : fd_state; mmot : motors; mtim : timers; mdev : D }.

#[local] Instance machine_blk : HasBlk machine :=
  {| get_blk := mblk; put_blk := fun b m => {| m with mblk := b |} |}.
#[local] Instance machine_blk_ok : HasBlkOk machine.
Proof. split; [done|by intros []|done]. Qed.
#[local] Instance machine_fd : HasFd machine := {| get_fd := mfd; put_fd := fun f m => {| m with mfd := f |} |}.
#[local] Instance machine_motors : HasMotors machine := {| get_motors := mmot; put_motors := fun x m => {| m with mmot := x |} |}.
#[local] Instance machine_timers : HasTimers machine := {| get_timers := mtim; set_timers := fun x m => {| m with mtim := x |} |}.
#[local] Instance machine_waiting : Waiting machine := {| sleep_on := fun _ => skip; wake_up := fun _ => skip |}.
#[local] Instance machine_select : Selecting machine :=
  {| sleep_on_select := skip; wake_up_select := skip; sleep_on_motor := fun _ => skip |}.

(** The controller: reading and writing a port. *)
Record controller : Type := Controller { c_in : Z -> D -> Z * D; c_out : Z -> Z -> D -> D }.
Context (ct : controller).

#[local] Instance machine_ports : Ports machine := {|
  inb := fun p m => let '(v, d) := c_in ct p (mdev m) in Done v {| m with mdev := d |};
  outb := fun v p m => Done tt {| m with mdev := c_out ct v p (mdev m) |};
  insw := fun _ _ => undef "insw";
  outsw := fun _ _ => undef "outsw"
|}.

(** The two sectors of a block on a drive; the disks have the format [t]. *)
Context (media : Z -> Z -> list Z) (t : floppy_struct) (view : D -> fdc).

(** What [setup_DMA] writes, for an address and a mode. *)
Definition dma_writes (mode addr : Z) (d : D) : D :=
  c_out ct 2 10 (c_out ct 3 5 (c_out ct 0xff 5
    (c_out ct (u8 (Z.shiftr (Z.shiftr addr 8) 8)) 0x81 (c_out ct (u8 (Z.shiftr addr 8)) 4 (c_out ct (u8 addr) 4
      (c_out ct mode 11 (c_out ct mode 12 (c_out ct 6 10 d)))))))).

Record fdc_ok : Prop := {
  fc_ready : forall d, replies (view d) = [] -> exists st, c_in ct FD_STATUS d = (st, d) /\ Z.land st 0xC0 = 0x80 /\
    (accepted (view d) = [] -> Z.land st 0xD0 = 0x80);
  fc_replying : forall d, replies (view d) <> [] -> exists st, c_in ct FD_STATUS d = (st, d) /\ Z.land st 0xD0 = 0xD0;
  fc_reply : forall d r rs, replies (view d) = r :: rs ->
    exists d', c_in ct FD_DATA d = (r, d') /\ view d' = set_replies rs (view d);
  fc_byte : forall d b, replies (view d) = [] -> partial (accepted (view d) ++ [b]) ->
    view (c_out ct b FD_DATA d) = set_accepted (accepted (view d) ++ [b]) (view d);
  fc_specify : forall d x b, accepted (view d) = [FD_SPECIFY; x] -> view (c_out ct b FD_DATA d) = set_accepted [] (view d);
  fc_seek : forall d hd cyl, accepted (view d) = [FD_SEEK; hd] -> view (c_out ct cyl FD_DATA d) = sought hd cyl (view d);
  fc_recal : forall d hd, accepted (view d) = [FD_RECALIBRATE] -> view (c_out ct hd FD_DATA d) = sought hd 0 (view d);
  fc_sense : forall d, accepted (view d) = [] -> replies (view d) = [] ->
    view (c_out ct FD_SENSEI FD_DATA d) = set_replies (sense (view d)) (view d);
  fc_rate : forall d b, view (c_out ct b FD_DCR d) = view d;
  fc_dma : forall d mode addr, 0 <= addr < 2 ^ 24 -> view (dma_writes mode addr d) = set_dma mode addr (view d);
  fc_read : forall d hd trk h s,
    accepted (view d) = [FD_READ; hd; trk; h; s; 2; sect t; gap t] -> h = Z.land (Z.shiftr hd 2) 1 ->
    position (view d) (Z.land hd 3) = Z.shiftl trk (stretch t) -> fst (dma (view d)) = DMA_READ ->
    0 <= trk < tracks t -> 1 <= s -> h * sect t + s + 1 <= heads t * sect t ->
    exists l, length l = 4%nat /\ view (c_out ct 0xFF FD_DATA d) =
      set_replies ([hd; 0; 0] ++ l) (set_moved (media (Z.land hd 3) (HdProps.linear trk h s (sect t) (heads t))) (view d));
  fc_media : forall drive n, length (media drive n) = 1024%nat
}.
Context (OK : fdc_ok).

(** The state in which the steps are written. *)
Definition ms (B : list buffer_head) (R : list request_t) (V : list blk_dev_struct) (f : fd_state) (x : motors) (k : timers) (d : D) : machine :=
  Mach (Blk B R V) f x k d.

Section steps.
Context (B : list buffer_head) (R : list request_t) (V : list blk_dev_struct) (f : fd_state) (x : motors) (k : timers) (d : D).

Lemma bh_at_fd i b : zget B i = Some b -> bh_at i (ms B R V f x k d) = Done b (ms B R V f x k d).
Proof. intros E. by apply bh_at_ok. Qed.
Lemma req_at_fd i r : zget R i = Some r -> req_at i (ms B R V f x k d) = Done r (ms B R V f x k d).
Proof. intros E. by apply req_at_ok. Qed.
Lemma dev_at_fd i v : zget V i = Some v -> dev_at i (ms B R V f x k d) = Done v (ms B R V f x k d).
Proof. intros E. by apply dev_at_ok. Qed.
Lemma set_bh_fd i g b : zget B i = Some b -> set_bh i g (ms B R V f x k d) = Done tt (ms (zset B i (g b)) R V f x k d).
Proof. exact (set_bh_ok i g b (ms B R V f x k d)). Qed.
Lemma set_req_fd i g r : zget R i = Some r -> set_req i g (ms B R V f x k d) = Done tt (ms B (zset R i (g r)) V f x k d).
Proof. exact (set_req_ok i g r (ms B R V f x k d)). Qed.
Lemma upd_fd_ms g : upd_fd g (ms B R V f x k d) = Done tt (ms B R V (g f) x k d).
Proof. done. Qed.
Lemma get_state_ms : get_state (ms B R V f x k d) = Done f (ms B R V f x k d).
Proof. done. Qed.
Lemma current_req_fd g c r :
  zget V 2 = Some (BlkDev g (Some c)) -> zget R c = Some r -> current_req (ms B R V f x k d) = Done r (ms B R V f x k d).
Proof.
  intros E Er. unfold current_req. erewrite done_bind; [by apply req_at_fd|].
  unfold CURRENT, MAJOR_NR. by erewrite done_bind by by apply dev_at_fd.
Qed.
End steps.

(** ** Talking to the controller *)

Lemma output_byte_ms B R V f x k d b :
  reset f = 0 -> replies (view d) = [] -> 0 <= b < 256 ->
  output_byte b (ms B R V f x k d) = Done tt (ms B R V f x k (c_out ct b FD_DATA d)).
Proof.
  intros Hr Hn Hb. unfold output_byte. erewrite done_bind by apply get_state_ms. rewrite decide_False by (intros E; by apply E).
  destruct (fc_ready OK d Hn) as (st & E & Hst & _). destruct (Z.to_nat 10000) as [|n] eqn:En; [done|]. cbn [output_loop].
  rewrite (done_bind _ _ _ st (ms B R V f x k d)) by (cbn; by rewrite E). cbv zeta.
  rewrite decide_True by exact Hst. by rewrite u8_small.
Qed.

Lemma output_bytes_app l1 l2 (m : machine) : output_bytes (l1 ++ l2) m = (output_bytes l1;; output_bytes l2) m.
Proof.
  revert m. induction l1 as [|b l1 IH]; intros m; [done|]. cbn [output_bytes app]. unfold mbind, M_bind in *.
  destruct (output_byte b m); done.
Qed.

(** The first bytes of a command. *)
Lemma output_partial B R V f x k l d :
  reset f = 0 -> replies (view d) = [] -> Forall (fun b => 0 <= b < 256) l -> partial (accepted (view d) ++ l) ->
  exists d', output_bytes l (ms B R V f x k d) = Done tt (ms B R V f x k d') /\
    view d' = set_accepted (accepted (view d) ++ l) (view d).
Proof.
  intros Hr. revert d. induction l as [|b l IH]; intros d Hn Hl Hp.
  - exists d. split; [done|]. rewrite app_nil_r. by destruct (view d).
  - apply Forall_cons in Hl as [Hb Hl]. cbn [output_bytes]. erewrite done_bind by by apply output_byte_ms.
    assert (E : view (c_out ct b FD_DATA d) = set_accepted (accepted (view d) ++ [b]) (view d)).
    { apply (fc_byte OK); [done|]. destruct (accepted (view d)) as [|c a]; cbn in *; rewrite ?length_app in *; cbn in *; lia. }
    destruct (IH (c_out ct b FD_DATA d)) as (d' & R1 & R2).
    + by rewrite E.
    + done.
    + rewrite E. cbn [accepted set_accepted]. by rewrite <- app_assoc.
    + exists d'. split; [exact R1|]. rewrite R2, E. cbn. by rewrite <- app_assoc.
Qed.

(** A whole command: all bytes but the last, and the last. *)
Lemma output_command B R V f x k l b d v :
  reset f = 0 -> replies (view d) = [] -> accepted (view d) = [] -> Forall (fun b => 0 <= b < 256) (l ++ [b]) -> partial l ->
  (forall d', view d' = set_accepted l (view d) -> view (c_out ct b FD_DATA d') = v) ->
  exists d', output_bytes (l ++ [b]) (ms B R V f x k d) = Done tt (ms B R V f x k d') /\ view d' = v.
Proof.
  intros Hr Hn Ha Hl Hp Hv. apply Forall_app in Hl as [Hl Hb]. apply Forall_inv in Hb.
  destruct (output_partial B R V f x k l d Hr Hn Hl) as (d1 & R1 & E1); [by rewrite Ha|].
  rewrite Ha in E1. cbn [app] in E1. exists (c_out ct b FD_DATA d1). split; [|by apply Hv].
  rewrite output_bytes_app. erewrite done_bind by exact R1. cbn [output_bytes].
  by erewrite done_bind by (apply output_byte_ms; [done|by rewrite E1|done]).
Qed.

(** The result bytes. *)
Fixpoint store_replies (i : Z) (l : list Z) (f : fd_state) : fd_state :=
  match l with [] => f | v :: l' => store_replies (i + 1) l' (set_reply i v f) end.

Lemma result_ms B R V f x k d l :
  reset f = 0 -> replies (view d) = l -> (length l <= 7)%nat -> accepted (view d) = [] ->
  exists d', result (ms B R V f x k d) = Done (zlen l) (ms B R V (store_replies 0 l f) x k d') /\ view d' = set_replies [] (view d).
Proof.
  intros Hr Hl Hlen Ha. unfold result. erewrite done_bind by apply get_state_ms. rewrite decide_False by (intros E; by apply E).
  enough (H : forall n l i f d, (length l < n)%nat -> i + zlen l <= 7 -> replies (view d) = l -> accepted (view d) = [] ->
    exists d', result_loop n i (ms B R V f x k d) = Done (i + zlen l) (ms B R V (store_replies i l f) x k d') /\
      view d' = set_replies [] (view d)).
  { apply (H (Z.to_nat 10000) l 0 f d); unfold zlen in *; done || lia. }
  clear f d l Hr Hl Hlen Ha. intros n. induction n as [|n IH]; intros l i f d Hn Hi Hl Ha; [lia|]. cbn [result_loop].
  destruct l as [|r l].
  - destruct (fc_ready OK d Hl) as (st & E & _ & Hst). rewrite (done_bind _ _ _ st (ms B R V f x k d)) by (cbn; by rewrite E).
    cbv zeta. rewrite decide_True by (by apply Hst). exists d. split; [unfold zlen; cbn [length]; rewrite Z.add_0_r; done|].
    destruct (view d). cbn in *. by subst.
  - destruct (fc_replying OK d) as (st & E & Hst); [by rewrite Hl|].
    rewrite (done_bind _ _ _ st (ms B R V f x k d)) by (cbn; by rewrite E). cbv zeta.
    change (Z.lor STATUS_DIR (Z.lor STATUS_READY STATUS_BUSY)) with 0xD0. rewrite Hst.
    rewrite decide_False by done. rewrite decide_True by done. unfold zlen in *. cbn [length] in *.
    rewrite decide_False by (unfold MAX_REPLIES; lia).
    destruct (fc_reply OK d r l Hl) as (d1 & E1 & V1).
    rewrite (done_bind _ _ _ r (ms B R V f x k d1)) by (cbn; by rewrite E1).
    erewrite done_bind by apply upd_fd_ms.
    destruct (IH l (i + 1) (set_reply i r f) d1) as (d' & R1 & V2); [lia|lia|by rewrite V1|by rewrite V1|].
    exists d'. split; [rewrite R1; cbn [store_replies]; f_equal; lia|]. rewrite V2, V1. done.
Qed.

(** ** The place of a block *)

Lemma type_facts i u :
  zget floppy_type i = Some u -> 0 < size u ->
  size u = tracks u * (heads u * sect u) /\ heads u = 2 /\ 9 <= sect u <= 18 /\ 40 <= tracks u <= 80 /\ 0 <= stretch u <= 1 /\
  0 <= gap u < 256 /\ 0 <= spec1 u < 256 /\ tracks u * 2 ^ stretch u <= 80.
Proof.
  intros E Hs. assert (H : Forall (fun u => 0 < size u ->
    size u = tracks u * (heads u * sect u) /\ heads u = 2 /\ 9 <= sect u <= 18 /\ 40 <= tracks u <= 80 /\ 0 <= stretch u <= 1 /\
    0 <= gap u < 256 /\ 0 <= spec1 u < 256 /\ tracks u * 2 ^ stretch u <= 80) floppy_type).
    { unfold floppy_type. repeat (apply Forall_cons_2; [cbn; lia|]). by apply Forall_nil_2. }
  unfold zget in E. case_decide; [|done]. by apply (Forall_lookup_1 _ _ _ _ H E).
Qed.

#[local] Abbreviation trk := (fun block u => HdProps.cylinder block (sect u) (heads u)).
#[local] Abbreviation hd_of := (fun block u => HdProps.head_of block (sect u) (heads u)).

Definition place_of (block : Z) (u : floppy_struct) (f : fd_state) : fd_state :=
  let stk := Z.shiftl (trk block u) (stretch u) in
  {| f with sector := HdProps.sector_of block (sect u); head := hd_of block u; track := trk block u; seek_track := stk;
            seek := if decide (stk <> current_track f) then 1 else seek f |}.

(** The block's cylinder, head and sector are on the disk; an even block ends on its cylinder. *)
Lemma place_bounds block i u :
  zget floppy_type i = Some u -> 0 <= block -> block + 2 <= size u ->
  0 <= trk block u < tracks u /\ 0 <= hd_of block u <= 1 /\ 1 <= HdProps.sector_of block (sect u) <= sect u /\
  0 <= Z.shiftl (trk block u) (stretch u) < 80 /\
  (block mod 2 = 0 -> hd_of block u * sect u + HdProps.sector_of block (sect u) + 1 <= heads u * sect u).
Proof.
  intros E Hb Hs. destruct (type_facts i u E ltac:(lia)) as (F1 & F2 & F3 & F4 & F5 & _ & _ & F6).
  unfold HdProps.cylinder, HdProps.head_of, HdProps.sector_of.
  pose proof (Z.div_mod block (sect u) ltac:(lia)) as D1. pose proof (Z.mod_pos_bound block (sect u) ltac:(lia)) as M1.
  pose proof (Z.div_mod (block / sect u) (heads u) ltac:(lia)) as D2. pose proof (Z.mod_pos_bound (block / sect u) (heads u) ltac:(lia)) as M2.
  set (q := block / sect u) in *. set (p := q / heads u) in *. set (a := q mod heads u) in *. set (c := block mod sect u) in *.
  rewrite F2 in *. assert (Hp : 0 <= p < tracks u) by nia. split; [done|]. split; [lia|]. split; [lia|]. split.
  - rewrite Z.shiftl_mul_pow2 by lia. assert (stretch u = 0 \/ stretch u = 1) as [Es|Es] by lia; rewrite Es in *; lia.
  - intros Hev. pose proof (Z.div_mod block 2 ltac:(lia)). assert (a = 0 \/ a = 1) as [-> | ->] by lia; lia.
Qed.

Lemma set_place_ms B R V f x k d block i u :
  zget floppy_type i = Some u -> 0 <= block -> block + 2 <= size u ->
  set_place u block (ms B R V f x k d) = Done tt (ms B R V (place_of block u f) x k d).
Proof.
  intros E Hb Hs. destruct (place_bounds block i u E Hb Hs) as (P1 & P2 & P3 & P4 & _).
  destruct (type_facts i u E ltac:(lia)) as (F1 & F2 & F3 & F4 & F5 & _).
  unfold HdProps.cylinder, HdProps.head_of, HdProps.sector_of in *.
  unfold set_place, Hd.divl. assert (block < 2880) by nia.
  assert (0 <= block / sect u <= block) by (split; [apply Z.div_pos; lia|apply Z.div_le_upper_bound; nia]).
  rewrite (u32_small (sect u)), (u32_small block) by lia. rewrite decide_False by lia. rewrite ret_bind.
  rewrite (u32_small (heads u)), (u32_small (block / sect u)) by lia. rewrite decide_False by lia. rewrite ret_bind.
  rewrite upd_fd_ms. cbv zeta. rewrite (u8_small (block / sect u / heads u)) by lia.
  rewrite (u8_small (block mod sect u)), (u8_small (block mod sect u + 1)) by lia. rewrite !u8_small by lia. reflexivity.
Qed.

(** ** The transfer *)

Section transfer.
Context (buffer_addr : Z * Z -> Z) (tmp_addr : Z) (rec : M machine unit).
Context (B : list buffer_head) (R : list request_t) (V : list blk_dev_struct) (x : motors) (k : timers).
Context (i : Z) (Ht : zget floppy_type i = Some t) (Hsize : 0 < size t).

Definition idle (d : D) : Prop := accepted (view d) = [] /\ replies (view d) = [].

Definition rated (f : fd_state) : fd_state := set_cur_rate (rate t) (set_cur_spec1 (spec1 t) f).

Lemma set_same (f : fd_state) : set_cur_spec1 (cur_spec1 f) f = f /\ set_cur_rate (cur_rate f) f = f.
Proof. by destruct f. Qed.

Lemma transfer_ms f d :
  reset f = 0 -> floppy f = i -> idle d ->
  exists d1, view d1 = view d /\
    transfer buffer_addr tmp_addr rec (ms B R V f x k d) =
      (if decide (seek f = 0) then setup_rw_floppy buffer_addr tmp_addr rec
       else
         upd_fd (set_do_floppy (Some Seek_interrupt));;
         (if decide (seek_track f <> 0) then output_bytes [FD_SEEK; head_drive f; seek_track f]
          else output_bytes [FD_RECALIBRATE; head_drive f]);;
         request_if_reset rec) (ms B R V (rated f) x k d1).
Proof.
  intros Hr Hf [Ha Hn]. destruct (type_facts i t Ht Hsize) as (_ & _ & _ & _ & _ & _ & F & _).
  assert (H1 : exists d1, view d1 = view d /\
    (if decide (cur_spec1 f <> spec1 t) then upd_fd (set_cur_spec1 (spec1 t));; output_bytes [FD_SPECIFY; spec1 t; 6] else skip)
      (ms B R V f x k d) = Done tt (ms B R V (set_cur_spec1 (spec1 t) f) x k d1)).
  { case_decide as Hs.
    - erewrite done_bind by apply upd_fd_ms.
      destruct (output_command B R V (set_cur_spec1 (spec1 t) f) x k [FD_SPECIFY; spec1 t] 6 d (view d) Hr Hn Ha) as (d1 & R1 & E1).
      + repeat constructor; unfold FD_SPECIFY; lia.
      + vm_compute. lia.
      + intros d' E'. rewrite (fc_specify OK d' (spec1 t) 6) by by rewrite E'. rewrite E'. destruct (view d). cbn in *. by subst.
      + by exists d1.
    - exists d. split; [done|]. rewrite <- Hs. by rewrite (proj1 (set_same f)). }
  destruct H1 as (d1 & E1 & R1).
  assert (H2 : exists d2, view d2 = view d /\
    (if decide (cur_rate (set_cur_spec1 (spec1 t) f) <> rate t) then upd_fd (set_cur_rate (rate t));; outb (rate t) FD_DCR else skip)
      (ms B R V (set_cur_spec1 (spec1 t) f) x k d1) = Done tt (ms B R V (rated f) x k d2)).
  { clear R1. case_decide as Hs.
    - exists (c_out ct (rate t) FD_DCR d1). split; [by rewrite (fc_rate OK)|done].
    - exists d1. split; [done|]. unfold rated. rewrite <- Hs. by rewrite (proj2 (set_same _)). }
  destruct H2 as (d2 & E2 & R2). exists d2. split; [done|]. unfold transfer. erewrite done_bind by apply get_state_ms.
  unfold floppy_at. rewrite Hf, Ht, deref_bind. erewrite done_bind by exact R1.
  change (cur_rate f) with (cur_rate (set_cur_spec1 (spec1 t) f)). erewrite done_bind by exact R2.
  erewrite done_bind by apply get_state_ms. by rewrite decide_False by (intros E; by apply E).
Qed.

Lemma head_drive_small f : 0 <= head f <= 1 -> 0 <= current_drive f <= 3 ->
  0 <= head_drive f < 8 /\ Z.land (head_drive f) 3 = current_drive f /\ Z.land (Z.shiftr (head_drive f) 2) 1 = head f /\
  Z.land (Z.lor 0x20 (head_drive f)) 0xF8 = 0x20 /\ Z.land (head_drive f) 0xf8 = 0.
Proof.
  intros Hh Hd. unfold head_drive. assert (head f = 0 \/ head f = 1) as [-> | ->] by lia;
    (assert (current_drive f = 0 \/ current_drive f = 1 \/ current_drive f = 2 \/ current_drive f = 3) as [-> |[-> |[-> | ->]]] by lia);
    vm_compute; split_and!; done || (split; congruence).
Qed.

(** A seek, or a recalibration for cylinder 0. *)
Lemma start_seek f d :
  reset f = 0 -> idle d -> 0 <= head f <= 1 -> 0 <= current_drive f <= 3 -> 0 <= seek_track f < 80 ->
  exists d1, view d1 = sought (head_drive f) (seek_track f) (view d) /\
    (upd_fd (set_do_floppy (Some Seek_interrupt));;
     (if decide (seek_track f <> 0) then output_bytes [FD_SEEK; head_drive f; seek_track f]
      else output_bytes [FD_RECALIBRATE; head_drive f]);;
     request_if_reset rec) (ms B R V f x k d) = Done tt (ms B R V (set_do_floppy (Some Seek_interrupt) f) x k d1).
Proof.
  intros Hr [Ha Hn] Hh Hd Hs. destruct (head_drive_small f Hh Hd) as (H1 & _). set (f1 := set_do_floppy _ f).
  assert (H2 : exists d1, view d1 = sought (head_drive f) (seek_track f) (view d) /\
     (if decide (seek_track f <> 0) then output_bytes [FD_SEEK; head_drive f; seek_track f]
      else output_bytes [FD_RECALIBRATE; head_drive f]) (ms B R V f1 x k d) = Done tt (ms B R V f1 x k d1)).
  { case_decide as Hz.
    - destruct (output_command B R V f1 x k [FD_SEEK; head_drive f] (seek_track f) d (sought (head_drive f) (seek_track f) (view d)) Hr Hn Ha)
        as (d1 & R1 & E1); [repeat constructor; unfold FD_SEEK; lia|vm_compute; lia| |by exists d1].
      intros d' E'. rewrite (fc_seek OK d' (head_drive f)) by by rewrite E'. by rewrite E'.
    - assert (seek_track f = 0) as -> by lia.
      destruct (output_command B R V f1 x k [FD_RECALIBRATE] (head_drive f) d (sought (head_drive f) 0 (view d)) Hr Hn Ha)
        as (d1 & R1 & E1); [repeat constructor; unfold FD_RECALIBRATE; lia|vm_compute; lia| |by exists d1].
      intros d' E'. rewrite (fc_recal OK d') by by rewrite E'. by rewrite E'. }
  destruct H2 as (d1 & E1 & R1). exists d1. split; [done|]. erewrite done_bind by apply upd_fd_ms. erewrite done_bind by exact R1.
  unfold request_if_reset. erewrite done_bind by apply get_state_ms. by rewrite decide_False by (intros E; by apply E).
Qed.

(** The interrupt after it. *)
Lemma seek_interrupt_ms f d v :
  reset f = 0 -> zlen (reply_buffer f) = 7 -> 0 <= head f <= 1 -> 0 <= current_drive f <= 3 ->
  accepted v = [] -> replies v = [] -> view d = sought (head_drive f) (seek_track f) v ->
  exists d1, idle d1 /\ position (view d1) (current_drive f) = seek_track f /\
    seek_interrupt buffer_addr tmp_addr rec (ms B R V f x k d) =
      setup_rw_floppy buffer_addr tmp_addr rec
        (ms B R V (set_current_track (seek_track f) (store_replies 0 [Z.lor 0x20 (head_drive f); seek_track f] f)) x k d1).
Proof.
  intros Hr Hl Hh Hd Ha Hn Hv. destruct (head_drive_small f Hh Hd) as (H1 & H2 & _ & H4 & _).
  set (d1 := c_out ct FD_SENSEI FD_DATA d).
  assert (V1 : view d1 = set_replies [Z.lor 0x20 (head_drive f); seek_track f] (view d)).
  { unfold d1. rewrite (fc_sense OK) by (by rewrite Hv). by rewrite Hv. }
  destruct (result_ms B R V f x k d1 [Z.lor 0x20 (head_drive f); seek_track f] Hr) as (d2 & R2 & V2); [by rewrite V1|cbn; lia|by rewrite V1|].
  exists d2. split; [unfold idle; by rewrite V2|]. split.
  { rewrite V2, V1, Hv. cbn. by rewrite H2, decide_True. }
  unfold seek_interrupt. erewrite done_bind by (apply output_byte_ms; [done|by rewrite Hv|done]).
  erewrite done_bind by exact R2. erewrite done_bind by apply get_state_ms.
  assert (E0 : ST0 (store_replies 0 [Z.lor 0x20 (head_drive f); seek_track f] f) = Z.lor 0x20 (head_drive f)).
  { unfold ST0. cbn [store_replies set_reply reply_buffer]. by rewrite zget_zset_ne, zget_zset_eq by (rewrite ?zlen_zset; lia). }
  assert (E1 : ST1 (store_replies 0 [Z.lor 0x20 (head_drive f); seek_track f] f) = seek_track f).
  { unfold ST1. cbn [store_replies set_reply reply_buffer]. by rewrite zget_zset_eq by (rewrite ?zlen_zset; lia). }
  rewrite E0, E1. rewrite decide_False; [by erewrite done_bind by apply upd_fd_ms|].
  intros [Hx|[Hx|Hx]]; by apply Hx.
Qed.

Context (c bh : Z) (g : option driver) (r : request_t).
Context (HV : zget V 2 = Some (BlkDev g (Some c))) (Hreq : zget R c = Some r) (Hbuf : r_buffer r = Some (bh, 0)).
Context (Haddr : 0x100000 <= buffer_addr (bh, 0)) (Htmp : 0 <= tmp_addr < 2 ^ 24).

Lemma setup_DMA_ms f d :
  command f = FD_READ -> setup_DMA buffer_addr tmp_addr (ms B R V f x k d) = Done tt (ms B R V f x k (dma_writes DMA_READ tmp_addr d)).
Proof.
  intros Hc. unfold setup_DMA. erewrite done_bind by by eapply current_req_fd.
  unfold current_addr. rewrite Hbuf. erewrite done_bind by by rewrite deref_bind. erewrite done_bind by apply get_state_ms.
  rewrite (done_bind _ _ _ tmp_addr (ms B R V f x k d)) by (by rewrite decide_True, Hc).
  rewrite Hc. rewrite (decide_True (P := FD_READ = FD_READ)) by done. reflexivity.
Qed.

(** The transfer is started. *)
Lemma setup_rw_ms f d block :
  reset f = 0 -> floppy f = i -> command f = FD_READ -> 0 <= current_drive f <= 3 ->
  0 <= block -> block + 2 <= size t -> block mod 2 = 0 ->
  head f = hd_of block t -> track f = trk block t -> sector f = HdProps.sector_of block (sect t) ->
  idle d -> position (view d) (current_drive f) = Z.shiftl (trk block t) (stretch t) ->
  exists d1 l, length l = 4%nat /\
    view d1 = set_replies ([head_drive f; 0; 0] ++ l) (set_moved (media (current_drive f) block) (set_dma DMA_READ tmp_addr (view d))) /\
    setup_rw_floppy buffer_addr tmp_addr rec (ms B R V f x k d) = Done tt (ms B R V (set_do_floppy (Some Rw_interrupt) f) x k d1).
Proof.
  intros Hr Hf Hc Hdr Hb Hbs Hev Eh Et Es [Ha Hn] Hpos.
  destruct (type_facts i t Ht Hsize) as (F1 & F2 & F3 & F4 & F5 & F6 & _).
  destruct (place_bounds block i t Ht Hb Hbs) as (P1 & P2 & P3 & P4 & P5). specialize (P5 Hev).
  destruct (head_drive_small f) as (H1 & H2 & H3 & _); [rewrite Eh; lia|lia|].
  pose proof (HdProps.linear_split block (sect t) (heads t) ltac:(lia) ltac:(lia)) as HL.
  set (d0 := dma_writes DMA_READ tmp_addr d). pose proof (fc_dma OK d DMA_READ tmp_addr Htmp) as V0. fold d0 in V0.
  set (f1 := set_do_floppy (Some Rw_interrupt) f).
  destruct (output_partial B R V f1 x k [FD_READ; head_drive f; track f; head f; sector f; 2] d0 Hr) as (d1 & R1 & V1).
  { by rewrite V0. }
  { rewrite Et, Eh, Es. repeat (apply Forall_cons_2; [unfold FD_READ; lia|]). by apply Forall_nil_2. }
  { rewrite V0. cbn [set_dma accepted]. rewrite Ha. vm_compute. lia. }
  assert (A0 : accepted (view d0) = []) by (by rewrite V0). rewrite A0 in V1. cbn [app] in V1.
  destruct (output_partial B R V f1 x k [sect t; gap t] d1 Hr) as (d2 & R2 & V2).
  { rewrite V1, V0. done. }
  { repeat (apply Forall_cons_2; [lia|]). by apply Forall_nil_2. }
  { rewrite V1. vm_compute. lia. }
  rewrite V1 in V2. cbn [accepted set_accepted app] in V2.
  destruct (fc_read OK d2 (head_drive f) (track f) (head f) (sector f)) as (l & Hl & V3).
  { by rewrite V2. }
  { by rewrite H3. }
  { rewrite V2, V0, H2, Et. exact Hpos. }
  { by rewrite V2, V0. }
  { rewrite Et. exact P1. }
  { rewrite Es. lia. }
  { rewrite Eh, Es. exact P5. }
  exists (c_out ct 0xFF FD_DATA d2), l. split; [done|]. split.
  { rewrite V3, H2, Et, Eh, Es. rewrite HL, V2, V0. done. }
  unfold setup_rw_floppy. erewrite done_bind by by apply setup_DMA_ms. erewrite done_bind by apply upd_fd_ms.
  erewrite done_bind by apply get_state_ms. fold f1.
  change [command f1; head_drive f1; track f1; head f1; sector f1; 2] with [command f; head_drive f; track f; head f; sector f; 2].
  rewrite Hc. erewrite done_bind by exact R1. unfold f1 at 1.
  unfold floppy_at. change (floppy (set_do_floppy (Some Rw_interrupt) f)) with (floppy f). rewrite Hf, Ht, deref_bind.
  rewrite (done_bind _ _ _ tt (ms B R V f1 x k (c_out ct 0xFF FD_DATA d2))).
  - unfold request_if_reset. erewrite done_bind by apply get_state_ms. by rewrite decide_False by (intros E; by apply E).
  - change [sect t; gap t; 0xFF] with ([sect t; gap t] ++ [0xFF]). rewrite output_bytes_app. erewrite done_bind by exact R2.
    cbn [output_bytes]. rewrite (done_bind _ _ _ tt (ms B R V f1 x k (c_out ct 0xFF FD_DATA d2))); [done|].
    apply output_byte_ms; [done|by rewrite V2, V0|lia].
Qed.

(** The interrupt at its end, when the data is in [tmp_floppy_area]. *)
Lemma fd_end_request_ms up B1 f d b :
  r_bh r = Some bh -> zget B1 bh = Some b ->
  exists x', fd_end_request up (ms B1 R V f x k d) = Done tt
    (ms (zset B1 bh (set_lock 0 (set_uptodate up b))) (zset R c (set_dev (-1) r)) (zset V 2 (BlkDev g (r_next r))) f x' k d).
Proof.
  intros Ebh E1. pose proof (zget_Some_range _ _ _ E1) as Hbr. pose proof (zget_Some_range _ _ _ Hreq) as Hrr.
  eexists. unfold fd_end_request, end_request, MAJOR_NR.
  erewrite done_bind by (apply dev_at_fd; exact HV). cbn [current_request]. rewrite deref_bind.
  erewrite done_bind by by apply req_at_fd. erewrite done_bind by reflexivity. rewrite Ebh.
  erewrite done_bind.
  2: { erewrite done_bind by by apply set_bh_fd. unfold unlock_buffer.
       erewrite done_bind by (apply set_bh_fd; by apply zget_zset_eq). reflexivity. }
  rewrite zset_zset. erewrite done_bind by reflexivity. erewrite done_bind by reflexivity.
  erewrite done_bind by by apply set_req_fd.
  erewrite done_bind by (apply req_at_fd; by apply zget_zset_eq).
  unfold set_current. erewrite done_bind by (apply dev_at_fd; exact HV). reflexivity.
Qed.

End transfer.

Lemma rw_interrupt_ms buffer_addr rec B R V x k f d c bh g r b l v :
  zget V 2 = Some (BlkDev g (Some c)) -> zget R c = Some r -> r_buffer r = Some (bh, 0) -> 0x100000 <= buffer_addr (bh, 0) < 2 ^ 32 ->
  r_bh r = Some bh -> zget B bh = Some b -> length (b_data b) = 1024%nat -> length (tmp_floppy_area f) = 1024%nat ->
  reset f = 0 -> command f = FD_READ -> zlen (reply_buffer f) = 7 -> 0 <= head f <= 1 -> 0 <= current_drive f <= 3 ->
  length l = 4%nat -> view d = set_replies ([head_drive f; 0; 0] ++ l) v ->
  exists f' x' d', reset f' = 0 /\ recalibrate f' = recalibrate f /\ current_track f' = current_track f /\
    current_drive f' = current_drive f /\ zlen (reply_buffer f') = 7 /\ view d' = set_replies [] (view d) /\
    rw_interrupt buffer_addr rec (ms B R V f x k d) =
      rec (ms (zset B bh (set_lock 0 (set_uptodate 1 (set_data (tmp_floppy_area f) b)))) (zset R c (set_dev (-1) r))
              (zset V 2 (BlkDev g (r_next r))) f' x' k d').
Proof.
  intros HV Hreq Hbuf Haddr Hbh Eb Hlb Hlt Hr Hc Hl Hh Hd Hll Hv.
  destruct (head_drive_small f Hh Hd) as (H1 & H2 & _ & H4 & H5). pose proof (zget_Some_range _ _ _ Eb) as Hbr.
  destruct (result_ms B R V f x k d ([head_drive f; 0; 0] ++ l) Hr) as (d' & R1 & V1).
  { by rewrite Hv. }
  { rewrite length_app, Hll. cbn. lia. }
  { by rewrite Hv. }
  set (f1 := store_replies 0 ([head_drive f; 0; 0] ++ l) f) in *.
  do 5 (destruct l as [|? l]; try done). cbn [app store_replies] in f1.
  assert (S0 : ST0 f1 = head_drive f).
  { unfold ST0, f1. cbn [set_reply reply_buffer]. by rewrite !zget_zset_ne, zget_zset_eq by (rewrite ?zlen_zset; lia). }
  assert (S1 : ST1 f1 = 0).
  { unfold ST1, f1. cbn [set_reply reply_buffer]. by rewrite !zget_zset_ne, zget_zset_eq by (rewrite ?zlen_zset; lia). }
  assert (S2 : ST2 f1 = 0).
  { unfold ST2, f1. cbn [set_reply reply_buffer]. by rewrite !zget_zset_ne, zget_zset_eq by (rewrite ?zlen_zset; lia). }
  destruct (fd_end_request_ms R V {| x with selected := 0 |} k c bh g r HV Hreq 1
    (zset B bh (set_data (tmp_floppy_area f) b)) f1 d' (set_data (tmp_floppy_area f) b) Hbh) as (x' & R2); [by apply zget_zset_eq|].
  rewrite zset_zset in R2. exists f1, x', d'.
  split_and!; [done|done|done|done|by unfold f1; cbn [set_reply reply_buffer]; rewrite !zlen_zset|exact V1|].
  unfold rw_interrupt. erewrite done_bind by exact R1. erewrite done_bind by apply get_state_ms. rewrite S0, S1, S2, H5.
  rewrite decide_False by (intros [Hx|[Hx|[Hx|Hx]]]; by apply Hx).
  rewrite (done_bind _ _ _ tt (ms (zset B bh (set_data (tmp_floppy_area f) b)) R V f1 x k d')).
  - erewrite done_bind by (unfold floppy_deselect; erewrite done_bind by reflexivity; reflexivity).
    by erewrite done_bind by exact R2.
  - rewrite decide_True by done. erewrite done_bind by by eapply current_req_fd.
    unfold current_addr. rewrite Hbuf. erewrite done_bind by by rewrite deref_bind. rewrite u32_small by lia.
    rewrite decide_True by lia. unfold fill_buffer. rewrite Hbuf, deref_bind. cbv beta iota.
    rewrite (set_bh_fd B R V f1 x k d' bh _ b Eb). do 3 f_equal. unfold splice. cbn [Z.to_nat]. rewrite take_0, app_nil_l.
    rewrite drop_ge, app_nil_r; [done|]. change (tmp_floppy_area f1) with (tmp_floppy_area f). lia.
Qed.

(** ** What can go wrong *)

Section errors.
Context (B : list buffer_head) (R : list request_t) (V : list blk_dev_struct) (x : motors) (k : timers) (f : fd_state) (d : D).
Context (c : Z) (g : option driver) (r : request_t) (HV : zget V 2 = Some (BlkDev g (Some c))) (Hreq : zget R c = Some r).

(** The ninth error of the only request ends it; the check for a reset that follows reads the
    error count of the next request, through a null pointer. *)
Lemma bad_flp_intr_null bh b :
  8 <= r_errors r < 2 ^ 31 - 1 -> r_bh r = Some bh -> r_next r = None -> zget B bh = Some b ->
  exists m, bad_flp_intr (ms B R V f x k d) = Undef "CURRENT" m.
Proof.
  intros He Hbh Hn Hb. pose proof (zget_Some_range _ _ _ Hreq) as Hrr. pose proof (zget_Some_range _ _ _ HV) as Hvr.
  set (r1 := Hd.set_errors (r_errors r + 1) r).
  assert (Hr1 : zget (zset R c r1) c = Some r1) by by apply zget_zset_eq.
  destruct (fd_end_request_ms (zset R c r1) V {| x with selected := 0 |} k c bh g r1 HV Hr1 0 B f d b Hbh Hb) as (x' & R1).
  change (r_next r1) with (r_next r) in R1. rewrite Hn in R1.
  eexists. unfold bad_flp_intr. erewrite done_bind.
  2: { unfold set_current_req, CURRENT, MAJOR_NR. rewrite (done_bind _ _ _ c (ms B R V f x k d)); [by apply set_req_fd|].
       by erewrite done_bind by by apply dev_at_fd. }
  fold r1. erewrite done_bind by by eapply current_req_fd.
  erewrite done_bind.
  2: { change (r_errors r1) with (s32 (r_errors r + 1)). rewrite s32_small by lia. rewrite decide_True by (unfold MAX_ERRORS; lia).
       erewrite done_bind by (unfold floppy_deselect; erewrite done_bind by reflexivity; reflexivity). exact R1. }
  unfold current_req at 1, CURRENT, MAJOR_NR, mbind, M_bind.
  rewrite (dev_at_fd _ _ _ _ _ _ _ _ (BlkDev g None)) by by apply zget_zset_eq. reflexivity.
Qed.

(** A minor number from 32 on names no entry of [floppy_type]. *)
Lemma no_such_type buffer_addr tmp_addr n :
  reset f = 0 -> recalibrate f = 0 -> MAJOR (r_dev r) = 2 -> 32 <= MINOR (r_dev r) ->
  (forall bh, r_bh r = Some bh -> exists b, zget B bh = Some b /\ b_lock b <> 0) ->
  exists m, do_fd_request buffer_addr tmp_addr (S n) (ms B R V f x k d) = Undef "floppy_type" m.
Proof.
  intros Hr Hc Hmaj Hmin Hbh. cbn [do_fd_request]. erewrite done_bind by apply upd_fd_ms. erewrite done_bind by apply get_state_ms.
  rewrite decide_False by (intros E; by apply E). rewrite decide_False by (intros E; by apply E). cbn [fd_loop].
  rewrite (done_bind _ _ _ (Some r) (ms B R V (set_seek 0 f) x k d)).
  2: { unfold INIT_REQUEST, MAJOR_NR. erewrite done_bind by (apply dev_at_fd; exact HV). cbn [current_request].
       erewrite done_bind by by apply req_at_fd. rewrite decide_False by (rewrite Hmaj; intros E; by apply E).
       destruct (r_bh r) as [bh|]; [|reflexivity]. destruct (Hbh bh eq_refl) as (b & Eb & Hl).
       erewrite done_bind by by apply bh_at_fd. rewrite decide_False by done. reflexivity. }
  cbv zeta. erewrite done_bind by apply upd_fd_ms. erewrite done_bind by apply upd_fd_ms.
  eexists. unfold floppy_at, mbind at 1, M_bind at 1.
  assert (E : zget floppy_type (Z.shiftr (MINOR (r_dev r)) 2) = None); [|by rewrite E].
  unfold zget. case_decide; [|done]. apply lookup_ge_None. rewrite Z.shiftr_div_pow2 by lia. change (length floppy_type) with 8%nat.
  change (2 ^ 2) with 4. enough (8 <= MINOR (r_dev r) / 4) by lia. apply Z.div_le_lower_bound; lia.
Qed.
End errors.

(** ** A read, from the request to its end *)

(** The driver between two requests: no reset is due, and it knows where the heads are, or that
    it does not. *)
Record fd_ready (f : fd_state) (d : D) : Prop := {
  fq_reset : reset f = 0 /\ recalibrate f = 0;
  fq_reply : zlen (reply_buffer f) = 7;
  fq_idle : idle d;
  fq_track : current_track f = 255 \/ position (view d) (current_drive f) = current_track f
}.

(** The controller's data is stored where the DMA channel was told to. *)
Definition dma_done (tmp_addr : Z) (m : machine) : machine :=
  let '(a, l) := moved (view (mdev m)) in
  if decide (a = tmp_addr) then {| m with mfd := set_tmp l (mfd m) |} else m.

Section read.
Context (buffer_addr : Z * Z -> Z) (tmp_addr : Z).
Context (B : list buffer_head) (R : list request_t) (V : list blk_dev_struct) (f : fd_state) (x x1 : motors) (k : timers) (d : D).
Context (c bh dev errors block : Z) (g : option driver) (b : buffer_head) (nx : option Z).
#[local] Abbreviation drive := (Z.land dev 3).
#[local] Abbreviation type := (Z.shiftr (MINOR dev) 2).
#[local] Abbreviation req := (Req dev READ errors block 2 (Some (bh, 0)) (Some bh) nx).

(** A read request for a block of a disk of the format [t], at the head of the queue, with [nx]
    behind it, if there is one; the motor of its drive is running and the buffer above the first megabyte, where the DMA does not reach. *)
Record fd_read_request : Prop := {
  fr_dev : MAJOR dev = 2;
  fr_type : zget floppy_type type = Some t;
  fr_current : zget V 2 = Some (BlkDev g (Some c));
  fr_req : zget R c = Some req;
  fr_buf : zget B bh = Some b /\ b_lock b <> 0 /\ length (b_data b) = 1024%nat;
  fr_addr : 0x100000 <= buffer_addr (bh, 0) < 2 ^ 32 /\ 0 <= tmp_addr < 2 ^ 24;
  fr_block : 0 <= block /\ block + 2 <= size t /\ block mod 2 = 0;
  fr_motor : ticks_to_floppy_on drive x = Done 0 x1 /\ Z.land (current_DOR x1) 3 = drive;
  fr_ready : fd_ready f d
}.
Context (RR : fd_read_request).

Lemma drive_range : 0 <= drive <= 3.
Proof. pose proof (Z.land_ones dev 2 ltac:(lia)) as E. change (Z.ones 2) with 3 in E. rewrite E. pose proof (Z.mod_pos_bound dev (2 ^ 2)). lia. Qed.

Lemma INIT_REQUEST_fd f0 x0 : INIT_REQUEST (ms B R V f0 x0 k d) = Done (Some req) (ms B R V f0 x0 k d).
Proof.
  unfold INIT_REQUEST, MAJOR_NR. erewrite done_bind by (apply dev_at_fd; exact (fr_current RR)).
  cbn [current_request]. erewrite done_bind by (apply req_at_fd; exact (fr_req RR)). cbn [r_dev r_bh].
  rewrite decide_False by (rewrite (fr_dev RR); intros E; by apply E).
  destruct (fr_buf RR) as (E & Hl & _). erewrite done_bind by (apply bh_at_fd; exact E). by rewrite decide_False.
Qed.

(** The driver's variables when the request is set up. *)
Definition placed : fd_state :=
  let f0 := set_floppy type (set_seek 0 f) in
  set_command FD_READ (place_of block t (set_current_drive drive (if decide (current_drive f0 <> drive) then set_seek 1 f0 else f0))).

Lemma placed_seek : seek placed = 0 -> current_drive f = drive /\ current_track f = Z.shiftl (trk block t) (stretch t).
Proof.
  unfold placed, place_of. cbn [set_command seek set_current_drive current_track]. case_decide as H1; case_decide as H2; cbn in *; try done.
Qed.

Lemma request_placed n :
  do_fd_request buffer_addr tmp_addr (S n) (ms B R V f x k d) =
  transfer buffer_addr tmp_addr (do_fd_request buffer_addr tmp_addr n) (ms B R V placed {| x1 with selected := 1 |} k d).
Proof.
  destruct (fq_reset _ _ (fr_ready RR)) as [Hr Hc]. destruct (fr_block RR) as (Hb1 & Hb2 & _).
  destruct (fr_motor RR) as [Hm Hdor]. pose proof (type_facts _ _ (fr_type RR) ltac:(lia)) as (F1 & F2 & F3 & F4 & _).
  cbn [do_fd_request]. erewrite done_bind by apply upd_fd_ms. erewrite done_bind by apply get_state_ms.
  rewrite decide_False by (intros E; by apply E). rewrite decide_False by (intros E; by apply E).
  cbn [fd_loop]. erewrite done_bind by apply INIT_REQUEST_fd. cbn [r_dev r_sector r_cmd]. cbv zeta. unfold DEVICE_NR.
  erewrite done_bind by apply upd_fd_ms. erewrite done_bind by apply upd_fd_ms.
  unfold floppy_at. rewrite (fr_type RR), deref_bind. rewrite u32_small by nia. rewrite decide_False by lia.
  erewrite done_bind by (eapply set_place_ms; [exact (fr_type RR)|lia|lia]).
  unfold command_for. rewrite decide_True by done. rewrite ret_bind. erewrite done_bind by apply upd_fd_ms.
  fold placed. rewrite (done_bind _ _ _ 0 (ms B R V placed x1 k d)).
  2: { unfold on_mot, zoom. cbn [get_motors machine_motors mmot ms]. by rewrite Hm. }
  unfold add_timer. rewrite decide_True by lia. unfold floppy_on_interrupt, set_selected.
  erewrite done_bind by reflexivity. erewrite done_bind by reflexivity. erewrite done_bind by reflexivity.
  rewrite decide_False; [done|]. intros E. apply E. symmetry. exact Hdor.
Qed.

Lemma queue_empty n B' R' V' f' x' k' d' :
  zget V' 2 = Some (BlkDev g None) -> reset f' = 0 -> recalibrate f' = 0 ->
  do_fd_request buffer_addr tmp_addr (S n) (ms B' R' V' f' x' k' d') = Done tt (ms B' R' V' (set_seek 0 f') x' k' d').
Proof.
  intros E Hr Hc. cbn [do_fd_request]. erewrite done_bind by apply upd_fd_ms. erewrite done_bind by apply get_state_ms.
  rewrite decide_False by (intros H; by apply H). rewrite decide_False by (intros H; by apply H).
  cbn [fd_loop]. unfold INIT_REQUEST, MAJOR_NR. rewrite (done_bind _ _ _ None (ms B' R' V' (set_seek 0 f') x' k' d')); [done|].
  by erewrite done_bind by by apply dev_at_fd.
Qed.

(** The data has been moved, to [tmp_floppy_area]. *)
Definition transferred (m : machine) : Prop := exists f2 x2 d2 l v,
  m = ms B R V f2 x2 k d2 /\ view d2 = set_replies ([head_drive f2; 0; 0] ++ l) v /\ length l = 4%nat /\
  moved v = (tmp_addr, media drive block) /\ position v drive = current_track f2 /\
  do_floppy f2 = Some Rw_interrupt /\ reset f2 = 0 /\ recalibrate f2 = 0 /\ command f2 = FD_READ /\
  zlen (reply_buffer f2) = 7 /\ 0 <= head f2 <= 1 /\ current_drive f2 = drive.

(** From the point where the heads are in place. *)
Lemma setup_transferred rec f1 x2 d1 :
  reset f1 = 0 -> recalibrate f1 = 0 -> zlen (reply_buffer f1) = 7 -> current_drive f1 = drive -> floppy f1 = type -> command f1 = FD_READ ->
  head f1 = hd_of block t -> track f1 = trk block t -> sector f1 = HdProps.sector_of block (sect t) ->
  current_track f1 = Z.shiftl (trk block t) (stretch t) -> idle d1 -> position (view d1) drive = current_track f1 ->
  exists m, setup_rw_floppy buffer_addr tmp_addr rec (ms B R V f1 x2 k d1) = Done tt m /\ transferred m.
Proof.
  intros Hr Hc Hl Hd Hf Hcmd Hh Ht Hs Hcur Hi Hp. destruct (fr_block RR) as (Hb1 & Hb2 & Hb3). destruct (fr_addr RR) as [Ha Htmp].
  pose proof drive_range as Hdr.
  destruct (setup_rw_ms buffer_addr tmp_addr rec B R V x2 k type (fr_type RR) ltac:(lia) c bh g req (fr_current RR) (fr_req RR)
    eq_refl ltac:(lia) Htmp f1 d1 block Hr Hf Hcmd) as (d2 & l & Hl4 & V2 & R2); [rewrite Hd; lia|done..|by rewrite Hd, Hp|].
  eexists. split; [exact R2|]. destruct (place_bounds block type t (fr_type RR) Hb1 Hb2) as (_ & P2 & _).
  rewrite Hd in V2. eexists _, _, _, l, _. split; [reflexivity|]. split; [exact V2|]. split_and!; try done.
  all: cbn; rewrite Hh; lia.
Qed.

Record placed_ok (p : fd_state) : Prop := {
  pk_state : reset p = 0 /\ recalibrate p = 0 /\ zlen (reply_buffer p) = 7 /\ current_track p = current_track f;
  pk_place : head p = hd_of block t /\ track p = trk block t /\ sector p = HdProps.sector_of block (sect t);
  pk_seek : seek_track p = Z.shiftl (trk block t) (stretch t);
  pk_which : floppy p = type /\ current_drive p = drive /\ command p = FD_READ;
  pk_stay : seek p = 0 -> current_drive f = drive /\ current_track f = Z.shiftl (trk block t) (stretch t)
}.
Lemma placed_is_ok : placed_ok placed.
Proof.
  destruct (fq_reset _ _ (fr_ready RR)) as [Hr Hc]. pose proof (fq_reply _ _ (fr_ready RR)) as Hl.
  split; [|unfold placed, place_of; case_decide; done..|apply placed_seek]. unfold placed, place_of. case_decide; done.
Qed.

(** The first step, which starts a seek unless the heads are in place. *)
Lemma read_started n : exists m1,
  do_fd_request buffer_addr tmp_addr (S n) (ms B R V f x k d) = Done tt m1 /\
  exists m2, (if decide (do_floppy (mfd m1) = Some Seek_interrupt) then floppy_interrupt buffer_addr tmp_addr (S n) m1 = Done tt m2 else m2 = m1) /\
    transferred m2.
Proof.
  destruct (fr_block RR) as (Hb1 & Hb2 & Hb3). pose proof (fr_ready RR) as [_ _ Hi Ht]. pose proof drive_range as Hdr.
  destruct (place_bounds block type t (fr_type RR) Hb1 Hb2) as (P1 & P2 & _ & P4 & _).
  rewrite request_placed. pose proof placed_is_ok as HP. revert HP. generalize placed. intros p HP.
  destruct HP as [(Q1 & Q2 & Q3 & Q4) (H1 & H2 & H3) Hsk (W1 & W2 & W3) Hstay].
  generalize {| x1 with selected := 1 |}. intros x2.
  destruct (transfer_ms buffer_addr tmp_addr (do_fd_request buffer_addr tmp_addr n) B R V x2 k type (fr_type RR) ltac:(lia) p d Q1 W1 Hi)
    as (d1 & V1 & R1). rewrite R1. assert (Hi1 : idle d1) by (unfold idle; by rewrite V1).
  destruct (decide (seek p = 0)) as [Hs|Hs].
  - destruct (Hstay Hs) as [Hd Hct]. destruct Ht as [Ht|Ht]; [rewrite Ht in Hct; lia|].
    destruct (setup_transferred (do_fd_request buffer_addr tmp_addr n) (rated p) x2 d1) as (m & R2 & T2); try done.
    { rewrite <- Hct. exact Q4. }
    { rewrite V1, <- Hd, Ht. by rewrite <- Q4. }
    exists m. split; [exact R2|]. exists m. split; [|done]. destruct T2 as (f2 & x3 & d2 & l & v & -> & _ & _ & _ & _ & E & _).
    cbn. rewrite E. by rewrite decide_False by congruence.
  - destruct (start_seek (do_fd_request buffer_addr tmp_addr n) B R V x2 k (rated p) d1 Q1 Hi1) as (d2 & V2 & R2); [cbn; lia|cbn; lia|cbn; lia|].
    eexists. split; [exact R2|].
    destruct (seek_interrupt_ms buffer_addr tmp_addr (do_fd_request buffer_addr tmp_addr (S n)) B R V x2 k
      (set_do_floppy None (set_do_floppy (Some Seek_interrupt) (rated p))) d2 (view d1)) as (d3 & Hi3 & Hp3 & R3).
    { done. } { done. } { cbn. lia. } { cbn. lia. } { apply Hi1. } { apply Hi1. } { exact V2. }
    destruct (setup_transferred (do_fd_request buffer_addr tmp_addr (S n)) (set_current_track (seek_track p)
      (store_replies 0 [Z.lor 0x20 (head_drive p); seek_track p] (set_do_floppy None (set_do_floppy (Some Seek_interrupt) (rated p)))))
      x2 d3) as (m & R4 & T4); try done.
    { cbn [store_replies set_reply reply_buffer set_current_track]. by rewrite !zlen_zset. }
    { rewrite <- W2. exact Hp3. }
    exists m. split; [|done]. rewrite decide_True by done. unfold floppy_interrupt. erewrite done_bind by apply get_state_ms.
    erewrite done_bind by apply upd_fd_ms. cbn [do_floppy set_do_floppy]. rewrite R3. exact R4.
Qed.

(** C20: A read request at the head of the floppy's queue, with the drive's motor running, is
    carried out by [do_fd_request], a seek and its interrupt where the heads are not in place, and
    the interrupt after the transfer, on any controller that keeps to its documentation: the
    data moved is the block's, found by track, head and sector; the buffer above the first
    megabyte receives it from [tmp_floppy_area] and is unlocked and up to date; the request is
    freed and the request behind it becomes the head of the queue; the driver still knows where
    the heads are, and goes on with that request, or rests when there is none. *)
Theorem fd_read_done n :
  exists m1 m2 m3 r3,
    do_fd_request buffer_addr tmp_addr (S n) (ms B R V f x k d) = Done tt m1 /\
    (if decide (do_floppy (mfd m1) = Some Seek_interrupt) then floppy_interrupt buffer_addr tmp_addr (S n) m1 = Done tt m2 else m2 = m1) /\
    moved (view (mdev m2)) = (tmp_addr, media drive block) /\
    floppy_interrupt buffer_addr tmp_addr (S n) (dma_done tmp_addr m2) = do_fd_request buffer_addr tmp_addr (S n) m3 /\
    mblk m3 = Blk (zset B bh (set_lock 0 (set_uptodate 1 (set_data (media drive block) b)))) (zset R c r3) (zset V 2 (BlkDev g nx)) /\
    r_dev r3 = -1 /\ fd_ready (mfd m3) (mdev m3) /\
    (nx = None -> do_fd_request buffer_addr tmp_addr (S n) m3 = Done tt {| m3 with mfd := set_seek 0 (mfd m3) |}).
Proof.
  destruct (read_started n) as (m1 & R1 & m2 & R2 & T2).
  destruct T2 as (f2 & x2 & d2 & l & v & -> & V2 & Hl4 & Hmv & Hpos & Hdo & Hr & Hc & Hcmd & Hl & Hh & Hd).
  destruct (fr_buf RR) as (Eb & _ & Hlb). destruct (fr_addr RR) as [Ha Htmp]. pose proof drive_range as Hdr.
  pose proof (zget_Some_range _ _ _ (fr_current RR)) as Hvr.
  assert (Em : moved (view d2) = (tmp_addr, media drive block)) by (by rewrite V2).
  set (f3 := set_do_floppy None (set_tmp (media drive block) f2)).
  destruct (rw_interrupt_ms buffer_addr (do_fd_request buffer_addr tmp_addr (S n)) B R V x2 k f3 d2 c bh g req b l v (fr_current RR) (fr_req RR) eq_refl Ha eq_refl
    Eb Hlb) as (f4 & x4 & d4 & Q1 & Q2 & Q3 & Q4 & Q5 & V4 & R4); try done.
  { apply (fc_media OK). } { cbn. by rewrite Hd. }
  match type of R4 with _ = do_fd_request _ _ _ ?m => exists m1, (ms B R V f2 x2 k d2), m, (set_dev (-1) req) end.
  split; [exact R1|]. split; [exact R2|]. split; [exact Em|]. split; [|split; [reflexivity|split; [done|split]]].
  - unfold dma_done. cbn [mdev ms]. rewrite Em, decide_True by done. unfold floppy_interrupt.
    erewrite done_bind by reflexivity. cbn [mfd ms]. erewrite done_bind by reflexivity. unfold id. cbn [get_fd machine_fd mfd].
    change (do_floppy (set_tmp (media drive block) f2)) with (do_floppy f2). rewrite Hdo. exact R4.
  - cbn [mfd mdev ms]. split; [split; [exact Q1|exact (eq_trans Q2 Hc)]|done| |right].
    + unfold idle. by rewrite V4.
    + cbn. rewrite V4, Q3, Q4, V2. cbn. by rewrite Hd.
  - intros ->. rewrite (queue_empty n); [done|by apply zget_zset_eq|done|by rewrite Q2].
Qed.

End read.

End machine.

End FloppyProps.

(** ** A floppy controller

    The simplest controller with the documented behaviour and a 1.44 MB disk, on which
    [FloppyProps] is applied. *)
Module FloppyInst.
Import Timers Clock BlkQueue BlkProps Floppy FloppyProps.

Definition disk : floppy_struct := FloppyType 2880 18 2 80 0 0x1B 0x00 0xCF.
Definition media (drive n : Z) : list Z := replicate 1024 (u8 (n + drive)).
Definition byte_of (l : list Z) (n : nat) : Z := default 0 (l !! n).

(** A complete command. *)
Definition perform (l : list Z) (v : fdc) : fdc :=
  let c := byte_of l 0 in let hd := byte_of l 1 in
  if decide (c = FD_SEEK) then sought hd (byte_of l 2) v
  else if decide (c = FD_RECALIBRATE) then sought hd 0 v
  else if decide (c = FD_SENSEI) then set_replies (sense v) v
  else if decide (c = FD_READ) then
    set_replies [hd; 0; 0; 0; 0; 0; 2]
      (set_moved (media (Z.land hd 3) (HdProps.linear (byte_of l 2) (byte_of l 3) (byte_of l 4) (sect disk) (heads disk))) v)
  else set_accepted [] v.
Definition data_byte (b : Z) (v : fdc) : fdc :=
  let l := accepted v ++ [b] in
  if decide (length l < cmd_length (byte_of l 0))%nat then set_accepted l v else perform l v.

(** The DMA channel: its command resets the address, which is written low byte first. *)
Definition ctl_out (b port : Z) (v : fdc) : fdc :=
  let '(m, a) := dma v in
  if decide (port = FD_DATA) then data_byte b v
  else if decide (port = 12) then set_dma m 0 v
  else if decide (port = 11) then set_dma b a v
  else if decide (port = 4) then set_dma m (a / 256 + b * 256) v
  else if decide (port = 0x81) then set_dma m (a + b * 65536) v
  else v.
Definition ctl_in (port : Z) (v : fdc) : Z * fdc :=
  if decide (port = FD_STATUS) then ((if decide (replies v = []) then (if decide (accepted v = []) then 0x80 else 0x90) else 0xD0), v)
  else match replies v with r :: l => (r, set_replies l v) | [] => (0, v) end.
Definition floppy0 : controller (D := fdc) := {| c_in := ctl_in; c_out := ctl_out |}.

Lemma dma_ports b v :
  ctl_out b 12 v = set_dma (fst (dma v)) 0 v /\ ctl_out b 11 v = set_dma b (snd (dma v)) v /\
  ctl_out b 4 v = set_dma (fst (dma v)) (snd (dma v) / 256 + b * 256) v /\
  ctl_out b 0x81 v = set_dma (fst (dma v)) (snd (dma v) + b * 65536) v /\ ctl_out b 10 v = v /\ ctl_out b 5 v = v.
Proof. by destruct v as [? ? ? ? [m a] ?]. Qed.
Lemma dma_writes_ok d mode addr : 0 <= addr < 2 ^ 24 -> dma_writes floppy0 mode addr d = set_dma mode addr d.
Proof.
  intros Ha. unfold dma_writes. cbn [c_out floppy0].
  assert (E : (0 / 256 + u8 addr * 256) / 256 + u8 (Z.shiftr addr 8) * 256 + u8 (Z.shiftr (Z.shiftr addr 8) 8) * 65536 = addr).
  { rewrite !Z.shiftr_div_pow2 by lia. unfold u8. change (2 ^ 8) with 256. Z.to_euclidean_division_equations. lia. }
  pose proof (fun b v => proj1 (dma_ports b v)) as P12. pose proof (fun b v => proj1 (proj2 (dma_ports b v))) as P11.
  pose proof (fun b v => proj1 (proj2 (proj2 (dma_ports b v)))) as P4.
  pose proof (fun b v => proj1 (proj2 (proj2 (proj2 (dma_ports b v))))) as P81.
  pose proof (fun b v => proj1 (proj2 (proj2 (proj2 (proj2 (dma_ports b v)))))) as P10.
  pose proof (fun b v => proj2 (proj2 (proj2 (proj2 (proj2 (dma_ports b v)))))) as P5.
  rewrite P10, !P5, P81, !P4, P11, P12, P10. unfold set_dma. cbn [dma fst snd]. by rewrite E.
Qed.

Lemma floppy0_ok : fdc_ok floppy0 media disk id.
Proof.
  split; unfold id.
  - intros d Hn. eexists. split; [cbn; unfold ctl_in; rewrite decide_True by done; reflexivity|].
    rewrite decide_True by done. case_decide as E; [done|]. split; [done|]. intros H. by rewrite H in E.
  - intros d Hn. exists 0xD0. cbn. unfold ctl_in. rewrite decide_True by done. by rewrite decide_False.
  - intros d r rs E. exists (set_replies rs d). cbn. unfold ctl_in. rewrite decide_False by done. by rewrite E.
  - intros d b _ Hp. cbn. unfold ctl_out, data_byte. destruct (dma d). rewrite decide_True by done.
    rewrite decide_True; [done|]. destruct (accepted d) as [|c l]; exact Hp.
  - intros d x b E. cbn. unfold ctl_out, data_byte. destruct (dma d). rewrite E. reflexivity.
  - intros d hd cyl E. cbn. unfold ctl_out, data_byte. destruct (dma d). rewrite E. reflexivity.
  - intros d hd E. cbn. unfold ctl_out, data_byte. destruct (dma d). rewrite E. reflexivity.
  - intros d E _. cbn. unfold ctl_out, data_byte. destruct (dma d). rewrite E. reflexivity.
  - intros d b. cbn. unfold ctl_out. by destruct (dma d).
  - intros d mode addr. apply dma_writes_ok.
  - intros d hd trk h s E _ _ _ _ _ _. exists [0; 0; 0; 2]. split; [done|]. cbn. unfold ctl_out, data_byte. destruct (dma d). rewrite E. reflexivity.
  - intros drive n. unfold media. apply length_replicate.
Qed.

#[local] Existing Instances machine_blk machine_fd machine_motors machine_timers machine_waiting machine_select.

Definition buf0 : buffer_head := Bh (replicate 1024 0) 50 0x21d 0 0 1 1 None None None None.
Definition req0 : request_t := Req 0x21d READ 0 100 2 (Some (0, 0)) (Some 0) (Some 1).
Definition req1 : request_t := Req 0x21d READ 0 300 2 (Some (0, 0)) (Some 0) None.
Definition queues : list blk_dev_struct := replicate 2 (BlkDev None None) ++ [BlkDev (Some Fd) (Some 0)].
Definition motors0 : motors := Motors (replicate 4 None) (replicate 4 0) (replicate 4 0) 0x2D 0 [].
Definition motors1 : motors := Motors (replicate 4 None) (replicate 4 0) [0; 10000; 0; 0] 0x2D 0 [].
Definition no_timers : timers := Timers (replicate 64 (Tnode 0 None None)) None.
Definition idle_ctl : fdc := Fdc [] [] (fun _ => 0) [] (0, 0) (0, []).

(** Block 50 of the disk in the second drive; another request waits behind it. *)
Lemma fd_read_done_witness : exists m1 m2 m3,
  do_fd_request (HP := machine_ports floppy0) (fun _ => 0x200000) 0x5000 1
    (ms [buf0] [req0; req1] queues fd_state0 motors0 no_timers idle_ctl) = Done tt m1 /\
  do_floppy (mfd m1) = Some Seek_interrupt /\
  floppy_interrupt (HP := machine_ports floppy0) (fun _ => 0x200000) 0x5000 1 m1 = Done tt m2 /\
  floppy_interrupt (HP := machine_ports floppy0) (fun _ => 0x200000) 0x5000 1 (dma_done id 0x5000 m2) = do_fd_request (HP := machine_ports floppy0) (fun _ => 0x200000) 0x5000 1 m3 /\
  (b_data <$> zget (bufs (mblk m3)) 0) = Some (replicate 1024 101) /\ zget (blk_dev (mblk m3)) 2 = Some (BlkDev (Some Fd) (Some 1)).
Proof.
  edestruct (fd_read_done floppy0 media disk id floppy0_ok (fun _ => 0x200000) 0x5000 [buf0] [req0; req1] queues fd_state0 motors0 motors1 no_timers idle_ctl
    0 0 0x21d 0 100 (Some Fd) buf0 (Some 1)) with (n := 0%nat) as (m1 & m2 & m3 & r3 & R1 & R2 & _ & R3 & E3 & _).
  { split; try reflexivity; try (vm_compute; intuition congruence).
    split; [by vm_compute|by vm_compute|by vm_compute|by left]. }
  exists m1, m2, m3. split; [exact R1|].
  assert (Ed : do_floppy (mfd m1) = Some Seek_interrupt).
  { clear R2 R3 E3. revert R1. vm_compute. intros [= <-]. reflexivity. }
  split; [exact Ed|]. rewrite decide_True in R2 by exact Ed. split; [exact R2|]. split; [exact R3|]. rewrite E3. split; vm_compute; reflexivity.
Defined.

End FloppyInst.
