(* ===== verification/Stubs.v ===== *)
(** * The system calls: include/linux/sys.h, include/unistd.h and the stubs of lib/

    A program puts a number and up to three arguments into registers and executes [int 0x80];
    the kernel looks the number up in [sys_call_table].  The kernel's functions are the parameter
    [run], a program's own state is its [errno]. *)

From S2P Require Import Prelude.

Module Stubs.

(** The kernel's functions. *)
Inductive fn_ptr : Type :=
| sys_setup | sys_exit | sys_fork | sys_read | sys_write | sys_open | sys_close | sys_waitpid
| sys_creat | sys_link | sys_unlink | sys_execve | sys_chdir | sys_time | sys_mknod | sys_chmod
| sys_chown | sys_break | sys_stat | sys_lseek | sys_getpid | sys_mount | sys_umount | sys_setuid
| sys_getuid | sys_stime | sys_ptrace | sys_alarm | sys_fstat | sys_pause | sys_utime | sys_stty
| sys_gtty | sys_access | sys_nice | sys_ftime | sys_sync | sys_kill | sys_rename | sys_mkdir
| sys_rmdir | sys_dup | sys_pipe | sys_times | sys_prof | sys_brk | sys_setgid | sys_getgid
| sys_signal | sys_geteuid | sys_getegid | sys_acct | sys_phys | sys_lock | sys_ioctl | sys_fcntl
| sys_mpx | sys_setpgid | sys_ulimit | sys_uname | sys_umask | sys_chroot | sys_ustat | sys_dup2
| sys_getppid | sys_getpgrp | sys_setsid | sys_sigaction | sys_sgetmask | sys_ssetmask
| sys_setreuid | sys_setregid.

Definition sys_call_table : list fn_ptr := [
  sys_setup; sys_exit; sys_fork; sys_read; sys_write; sys_open; sys_close; sys_waitpid; sys_creat;
  sys_link; sys_unlink; sys_execve; sys_chdir; sys_time; sys_mknod; sys_chmod; sys_chown;
  sys_break; sys_stat; sys_lseek; sys_getpid; sys_mount; sys_umount; sys_setuid; sys_getuid;
  sys_stime; sys_ptrace; sys_alarm; sys_fstat; sys_pause; sys_utime; sys_stty; sys_gtty;
  sys_access; sys_nice; sys_ftime; sys_sync; sys_kill; sys_rename; sys_mkdir; sys_rmdir; sys_dup;
  sys_pipe; sys_times; sys_prof; sys_brk; sys_setgid; sys_getgid; sys_signal; sys_geteuid;
  sys_getegid; sys_acct; sys_phys; sys_lock; sys_ioctl; sys_fcntl; sys_mpx; sys_setpgid;
  sys_ulimit; sys_uname; sys_umask; sys_chroot; sys_ustat; sys_dup2; sys_getppid; sys_getpgrp;
  sys_setsid; sys_sigaction; sys_sgetmask; sys_ssetmask; sys_setreuid; sys_setregid
].

Definition __NR_setup : Z := 0.
Definition __NR_exit : Z := 1.
Definition __NR_fork : Z := 2.
Definition __NR_read : Z := 3.
Definition __NR_write : Z := 4.
Definition __NR_open : Z := 5.
Definition __NR_close : Z := 6.
Definition __NR_waitpid : Z := 7.
Definition __NR_creat : Z := 8.
Definition __NR_link : Z := 9.
Definition __NR_unlink : Z := 10.
Definition __NR_execve : Z := 11.
Definition __NR_chdir : Z := 12.
Definition __NR_time : Z := 13.
Definition __NR_mknod : Z := 14.
Definition __NR_chmod : Z := 15.
Definition __NR_chown : Z := 16.
Definition __NR_break : Z := 17.
Definition __NR_stat : Z := 18.
Definition __NR_lseek : Z := 19.
Definition __NR_getpid : Z := 20.
Definition __NR_mount : Z := 21.
Definition __NR_umount : Z := 22.
Definition __NR_setuid : Z := 23.
Definition __NR_getuid : Z := 24.
Definition __NR_stime : Z := 25.
Definition __NR_ptrace : Z := 26.
Definition __NR_alarm : Z := 27.
Definition __NR_fstat : Z := 28.
Definition __NR_pause : Z := 29.
Definition __NR_utime : Z := 30.
Definition __NR_stty : Z := 31.
Definition __NR_gtty : Z := 32.
Definition __NR_access : Z := 33.
Definition __NR_nice : Z := 34.
Definition __NR_ftime : Z := 35.
Definition __NR_sync : Z := 36.
Definition __NR_kill : Z := 37.
Definition __NR_rename : Z := 38.
Definition __NR_mkdir : Z := 39.
Definition __NR_rmdir : Z := 40.
Definition __NR_dup : Z := 41.
Definition __NR_pipe : Z := 42.
Definition __NR_times : Z := 43.
Definition __NR_prof : Z := 44.
Definition __NR_brk : Z := 45.
Definition __NR_setgid : Z := 46.
Definition __NR_getgid : Z := 47.
Definition __NR_signal : Z := 48.
Definition __NR_geteuid : Z := 49.
Definition __NR_getegid : Z := 50.
Definition __NR_acct : Z := 51.
Definition __NR_phys : Z := 52.
Definition __NR_lock : Z := 53.
Definition __NR_ioctl : Z := 54.
Definition __NR_fcntl : Z := 55.
Definition __NR_mpx : Z := 56.
Definition __NR_setpgid : Z := 57.
Definition __NR_ulimit : Z := 58.
Definition __NR_uname : Z := 59.
Definition __NR_umask : Z := 60.
Definition __NR_chroot : Z := 61.
Definition __NR_ustat : Z := 62.
Definition __NR_dup2 : Z := 63.
Definition __NR_getppid : Z := 64.
Definition __NR_getpgrp : Z := 65.
Definition __NR_setsid : Z := 66.
Definition __NR_sigaction : Z := 67.
Definition __NR_sgetmask : Z := 68.
Definition __NR_ssetmask : Z := 69.
Definition __NR_setreuid : Z := 70.
Definition __NR_setregid : Z := 71.

Section stubs.
Context {K : Type} (run : fn_ptr -> Z -> Z -> Z -> M K Z).

(** A program: its [errno], and the kernel's state. *)
Record prog : Type := Prog { errno : Z; kernel : K }.
Definition on_kernel {A} : M K A -> M prog A := zoom kernel (fun k p => {| p with kernel := k |}).

(** [system_call] of system_call.s: an unknown number answers -1. *)
Definition system_call (eax ebx ecx edx : Z) : M K Z :=
  if decide (zlen sys_call_table - 1 < u32 eax) then mret (-1)
  else f ← deref "sys_call_table" (zget sys_call_table (u32 eax)); run f ebx ecx edx.

(** The end of every stub: a negative result is an error number. *)
Definition result_of (res : Z) : M prog Z :=
  if decide (0 <= s32 res) then mret (s32 res)
  else modify (fun p => {| p with errno := s32 (- s32 res) |});; mret (-1).

(** A register that a stub does not set holds anything; [junk] is what it holds. *)
Context (junk : Z).
Definition _syscall0 (nr : Z) : M prog Z := res ← on_kernel (system_call nr junk junk junk); result_of res.
Definition _syscall1 (nr a : Z) : M prog Z := res ← on_kernel (system_call nr a junk junk); result_of res.
Definition _syscall2 (nr a b : Z) : M prog Z := res ← on_kernel (system_call nr a b junk); result_of res.
Definition _syscall3 (nr a b c : Z) : M prog Z := res ← on_kernel (system_call nr a b c); result_of res.

Definition close (fd : Z) : M prog Z := _syscall1 __NR_close fd.
Definition dup (fd : Z) : M prog Z := _syscall1 __NR_dup fd.
Definition execve (file argv envp : Z) : M prog Z := _syscall3 __NR_execve file argv envp.
Definition setsid : M prog Z := _syscall0 __NR_setsid.
Definition write (fd buf count : Z) : M prog Z := _syscall3 __NR_write fd buf count.
Definition waitpid (pid wait_stat options : Z) : M prog Z := _syscall3 __NR_waitpid pid wait_stat options.
Definition wait (wait_stat : Z) : M prog Z := waitpid (-1) wait_stat 0.
(** [mode] is the next word on the stack, an argument or not. *)
Definition open (filename flag mode : Z) : M prog Z := res ← on_kernel (system_call __NR_open filename flag mode); result_of res.
Definition _exit (exit_code : Z) : M prog unit := _ ← on_kernel (system_call __NR_exit exit_code junk junk); skip.
Definition fork : M prog Z := _syscall0 __NR_fork.
Definition pause : M prog Z := _syscall0 __NR_pause.
Definition setup (BIOS : Z) : M prog Z := _syscall1 __NR_setup BIOS.
Definition sync : M prog Z := _syscall0 __NR_sync.

(** ** The numbers and the table agree *)

(** The number under which a function is called, by its name. *)
Definition number (f : fn_ptr) : Z :=
  match f with
  | sys_setup => __NR_setup
  | sys_exit => __NR_exit
  | sys_fork => __NR_fork
  | sys_read => __NR_read
  | sys_write => __NR_write
  | sys_open => __NR_open
  | sys_close => __NR_close
  | sys_waitpid => __NR_waitpid
  | sys_creat => __NR_creat
  | sys_link => __NR_link
  | sys_unlink => __NR_unlink
  | sys_execve => __NR_execve
  | sys_chdir => __NR_chdir
  | sys_time => __NR_time
  | sys_mknod => __NR_mknod
  | sys_chmod => __NR_chmod
  | sys_chown => __NR_chown
  | sys_break => __NR_break
  | sys_stat => __NR_stat
  | sys_lseek => __NR_lseek
  | sys_getpid => __NR_getpid
  | sys_mount => __NR_mount
  | sys_umount => __NR_umount
  | sys_setuid => __NR_setuid
  | sys_getuid => __NR_getuid
  | sys_stime => __NR_stime
  | sys_ptrace => __NR_ptrace
  | sys_alarm => __NR_alarm
  | sys_fstat => __NR_fstat
  | sys_pause => __NR_pause
  | sys_utime => __NR_utime
  | sys_stty => __NR_stty
  | sys_gtty => __NR_gtty
  | sys_access => __NR_access
  | sys_nice => __NR_nice
  | sys_ftime => __NR_ftime
  | sys_sync => __NR_sync
  | sys_kill => __NR_kill
  | sys_rename => __NR_rename
  | sys_mkdir => __NR_mkdir
  | sys_rmdir => __NR_rmdir
  | sys_dup => __NR_dup
  | sys_pipe => __NR_pipe
  | sys_times => __NR_times
  | sys_prof => __NR_prof
  | sys_brk => __NR_brk
  | sys_setgid => __NR_setgid
  | sys_getgid => __NR_getgid
  | sys_signal => __NR_signal
  | sys_geteuid => __NR_geteuid
  | sys_getegid => __NR_getegid
  | sys_acct => __NR_acct
  | sys_phys => __NR_phys
  | sys_lock => __NR_lock
  | sys_ioctl => __NR_ioctl
  | sys_fcntl => __NR_fcntl
  | sys_mpx => __NR_mpx
  | sys_setpgid => __NR_setpgid
  | sys_ulimit => __NR_ulimit
  | sys_uname => __NR_uname
  | sys_umask => __NR_umask
  | sys_chroot => __NR_chroot
  | sys_ustat => __NR_ustat
  | sys_dup2 => __NR_dup2
  | sys_getppid => __NR_getppid
  | sys_getpgrp => __NR_getpgrp
  | sys_setsid => __NR_setsid
  | sys_sigaction => __NR_sigaction
  | sys_sgetmask => __NR_sgetmask
  | sys_ssetmask => __NR_ssetmask
  | sys_setreuid => __NR_setreuid
  | sys_setregid => __NR_setregid
  end.

Lemma table_number f : zget sys_call_table (number f) = Some f.
Proof. by destruct f. Qed.
Lemma number_range f : 0 <= number f < zlen sys_call_table.
Proof. by destruct f. Qed.
Lemma number_of_all n : 0 <= n < zlen sys_call_table -> exists f, zget sys_call_table n = Some f /\ number f = n.
Proof.
  intros Hn. assert (H : Forall (fun n => match zget sys_call_table n with Some f => number f = n | None => False end) (seqZ 0 72)).
  { repeat (apply Forall_cons_2; [reflexivity|]). apply Forall_nil_2. }
  rewrite Forall_forall in H. specialize (H n). rewrite elem_of_seqZ in H. specialize (H Hn).
  destruct (zget sys_call_table n) as [f|]; [|done]. by exists f.
Qed.

(** What a program sees of a call. *)
Definition answered (r : outcome K Z) (p : prog) : outcome prog Z :=
  match r with
  | Done v k => if decide (0 <= s32 v) then Done (s32 v) (Prog (errno p) k) else Done (-1) (Prog (s32 (- s32 v)) k)
  | Panic m k => Panic m (Prog (errno p) k)
  | Undef m k => Undef m (Prog (errno p) k)
  | Exited c k => Exited c (Prog (errno p) k)
  | NoFuel => NoFuel
  end.

(** A stub calls the kernel's function of its name with its arguments, gives its result or
    -1, and leaves the error number in [errno]. *)
Lemma stub_calls f a b c p : _syscall3 (number f) a b c p = answered (run f a b c (kernel p)) p.
Proof.
  unfold _syscall3, mbind at 1, M_bind at 1, on_kernel, zoom, system_call. pose proof (number_range f) as Hr. unfold zlen in Hr.
  change (length sys_call_table) with 72%nat in Hr. rewrite u32_small by lia. rewrite decide_False by (unfold zlen; change (length sys_call_table) with 72%nat; lia).
  rewrite table_number, deref_bind. destruct (run f a b c (kernel p)) as [v k| | | |]; try reflexivity.
  unfold answered, result_of. by case_decide.
Qed.
End stubs.

End Stubs.
