(* ===== verification/FsState.v ===== *)
(** * The state of the file system

    The tables of fs/: the buffer cache over the block layer, the inode, file and
    super-block tables, with the task table, user memory and page allocator that
    the file-system calls use.  Pointers into a table are indices.  Kernel memory
    that is reached byte by byte (the pages of pipes and the ram disk) is [kmem]. *)

From S2P Require Import Prelude Bytes Ports Memory Task UserMem BlkQueue Hd.
Import Memory Task UserMem BlkQueue Hd.

Module FsState.

Definition EPERM : Z := 1.
Definition ENOENT : Z := 2.
Definition ESRCH : Z := 3.
Definition EINTR : Z := 4.
Definition EIO : Z := 5.
Definition ENXIO : Z := 6.
Definition ENOEXEC : Z := 8.
Definition EBADF : Z := 9.
Definition EAGAIN : Z := 11.
Definition EACCES : Z := 13.
Definition ENOTBLK : Z := 15.
Definition EBUSY : Z := 16.
Definition EEXIST : Z := 17.
Definition EXDEV : Z := 18.
Definition ENODEV : Z := 19.
Definition ENOTDIR : Z := 20.
Definition EISDIR : Z := 21.
Definition EINVAL : Z := 22.
Definition ENFILE : Z := 23.
Definition EMFILE : Z := 24.
Definition ENOTTY : Z := 25.
Definition ENOSPC : Z := 28.
Definition ESPIPE : Z := 29.
Definition ENOTEMPTY : Z := 39.
Definition ERROR : Z := 99.

Definition S_IFMT : Z := 0xf000.
Definition S_IFREG : Z := 0x8000.
Definition S_IFBLK : Z := 0x6000.
Definition S_IFDIR : Z := 0x4000.
Definition S_IFCHR : Z := 0x2000.
Definition S_IFIFO : Z := 0x1000.
Definition S_ISUID : Z := 0x800.
Definition S_ISGID : Z := 0x400.
Definition S_ISVTX : Z := 0x200.
Definition S_ISREG (m : Z) : bool := bool_decide (Z.land m S_IFMT = S_IFREG).
Definition S_ISDIR (m : Z) : bool := bool_decide (Z.land m S_IFMT = S_IFDIR).
Definition S_ISCHR (m : Z) : bool := bool_decide (Z.land m S_IFMT = S_IFCHR).
Definition S_ISBLK (m : Z) : bool := bool_decide (Z.land m S_IFMT = S_IFBLK).

Definition NAME_LEN : nat := 14.
Definition ROOT_INO : Z := 1.
Definition I_MAP_SLOTS : Z := 8.
Definition Z_MAP_SLOTS : Z := 8.
Definition SUPER_MAGIC : Z := 0x137f.
Definition NR_OPEN : Z := 20.
Definition NR_INODE : Z := 32.
Definition NR_FILE : Z := 64.
Definition NR_SUPER : Z := 8.
Definition NR_HASH : Z := 307.
Definition INODES_PER_BLOCK : Z := 32.
Definition DIR_ENTRIES_PER_BLOCK : Z := 64.

Record m_inode : Type := Inode {
  i_mode : Z; i_uid : Z; i_size : Z; i_mtime : Z; i_gid : Z; i_nlinks : Z;
  i_zone : list Z;
  i_atime : Z; i_ctime : Z; i_dev : Z; i_num : Z; i_count : Z;
  i_lock : Z; i_dirt : Z; i_pipe : Z; i_mount : Z; i_seek : Z; i_update : Z
}.
Definition inode0 : m_inode := Inode 0 0 0 0 0 0 (replicate 9 0) 0 0 0 0 0 0 0 0 0 0 0.

(** [struct d_inode], the first 32 bytes of the other. *)
Definition d_inode_bytes (i : m_inode) : list Z :=
  bytes2 (i_mode i) ++ bytes2 (i_uid i) ++ bytes4 (i_size i) ++ bytes4 (i_mtime i) ++
  [u8 (i_gid i); u8 (i_nlinks i)] ++ mjoin (map bytes2 (i_zone i)).
Definition load_d_inode (l : list Z) (i : m_inode) : m_inode :=
  {| i with
     i_mode := word2 (field 0 2 l); i_uid := word2 (field 2 2 l);
     i_size := word4 (field 4 4 l); i_mtime := word4 (field 8 4 l);
     i_gid := default 0 (l !! 12%nat); i_nlinks := default 0 (l !! 13%nat);
     i_zone := map (fun k => word2 (field (14 + 2 * k) 2 l)) (seq 0 9) |}.

Record file : Type := File {
  f_mode : Z; f_flags : Z; f_count : Z; f_inode : option Z; f_pos : Z
}.
Definition file0 : file := File 0 0 0 None 0.

Record super_block_t : Type := Super {
  s_ninodes : Z; s_nzones : Z; s_imap_blocks : Z; s_zmap_blocks : Z;
  s_firstdatazone : Z; s_log_zone_size : Z; s_max_size : Z; s_magic : Z;
  s_imap : list (option Z); s_zmap : list (option Z);
  s_dev : Z; s_isup : option Z; s_imount : option Z;
  s_time : Z; s_lock : Z; s_rd_only : Z; s_dirt : Z
}.
Definition super0 : super_block_t :=
  Super 0 0 0 0 0 0 0 0 (replicate 8 None) (replicate 8 None) 0 None None 0 0 0 0.

(** [struct d_super_block], the first fields of the other. *)
Definition load_d_super (l : list Z) (s : super_block_t) : super_block_t :=
  {| s with
     s_ninodes := word2 (field 0 2 l); s_nzones := word2 (field 2 2 l);
     s_imap_blocks := word2 (field 4 2 l); s_zmap_blocks := word2 (field 6 2 l);
     s_firstdatazone := word2 (field 8 2 l); s_log_zone_size := word2 (field 10 2 l);
     s_max_size := word4 (field 12 4 l); s_magic := word2 (field 16 2 l) |}.

Record kern : Type := Kern {
  kblk : blk;
  free_list : Z;
  hash_table : list (option Z);
  null_b_prev : option Z;         (* the word at address 20: [b_prev] of a null pointer *)
  inode_table : list m_inode;
  last_inode : Z;
  super_block : list super_block_t;
  file_table : list file;
  ROOT_DEV : Z;
  kuser : user;
  kmem : gmap Z Z;
  rd_start : Z;
  rd_length : Z;
  khd : hd_state
}.

#[export] Instance kern_blk : HasBlk kern :=
  {| get_blk := kblk; put_blk := fun b s => {| s with kblk := b |} |}.

#[export] Instance kern_hd : HasHd kern :=
  {| get_hd := khd; put_hd := fun h s => {| s with khd := h |} |}.

(** What the model takes from outside: sleeping (what other tasks and interrupts do
    meanwhile), the ports, the floppy's disk-change line and its request function, and the terminal driver ([Tty], on a state of its own). *)
Class Machine : Type := {
  machine_waiting :: Waiting kern;
  machine_ports :: Ports kern;
  floppy_change : Z -> M kern Z;
  do_fd_request : M kern unit;
  tty_read : Z -> Z -> Z -> M kern Z;
  tty_write : Z -> Z -> Z -> M kern Z;
  tty_ioctl : Z -> Z -> Z -> M kern Z;
  set_tty_pgrp : Z -> Z -> M kern unit      (* tty_table[n].pgrp = p *)
}.

Definition on_user {A} : M user A -> M kern A := zoom kuser (fun u s => {| s with kuser := u |}).
Definition on_tasks {A} (m : M tasks A) : M kern A := on_user (on_utab m).
Definition on_mem {A} (m : M mm A) : M kern A := on_user (on_umm m).
Definition cur : M kern task_struct := on_tasks get_current.
Definition upd_cur (f : task_struct -> task_struct) : M kern unit := on_tasks (put_current f).
Definition now : M kern Z := on_tasks CURRENT_TIME.

(** Table accesses; an index outside its table is undefined behaviour. *)
Definition inode_at (i : Z) : M kern m_inode :=
  o ← gets (fun s => zget (inode_table s) i); deref "inode" o.
Definition set_inode (i : Z) (f : m_inode -> m_inode) : M kern unit :=
  v ← inode_at i; modify (fun s => {| s with inode_table := zset (inode_table s) i (f v) |}).
Definition super_at (i : Z) : M kern super_block_t :=
  o ← gets (fun s => zget (super_block s) i); deref "super_block" o.
Definition set_super (i : Z) (f : super_block_t -> super_block_t) : M kern unit :=
  v ← super_at i; modify (fun s => {| s with super_block := zset (super_block s) i (f v) |}).
Definition file_at (i : Z) : M kern file :=
  o ← gets (fun s => zget (file_table s) i); deref "file" o.
Definition set_file (i : Z) (f : file -> file) : M kern unit :=
  v ← file_at i; modify (fun s => {| s with file_table := zset (file_table s) i (f v) |}).

(** Kernel memory by bytes. *)
Definition kget (m : gmap Z Z) (a : Z) : Z := default 0 (m !! u32 a).
Definition kput (a v : Z) (s : kern) : kern := {| s with kmem := <[u32 a := u8 v]> (kmem s) |}.
Definition kread (n : nat) (a : Z) (m : gmap Z Z) : list Z :=
  map (fun k => kget m (a + Z.of_nat k)) (seq 0 n).
#[global] Arguments kread : simpl never.
Fixpoint kwrite (l : list Z) (a : Z) (m : gmap Z Z) : gmap Z Z :=
  match l with [] => m | b :: l' => kwrite l' (a + 1) (<[u32 a := u8 b]> m) end.

(** [inode->i_zone[k]]. *)
Definition zone (i : m_inode) (k : Z) : Z := default 0 (zget (i_zone i) k).

(** Field updates. *)
Definition set_count (v : Z) (i : m_inode) : m_inode := {| i with i_count := u16 v |}.
Definition inc_count (i : m_inode) : m_inode := set_count (i_count i + 1) i.
Definition dec_count (i : m_inode) : m_inode := set_count (i_count i - 1) i.
Definition set_i_lock (v : Z) (i : m_inode) : m_inode := {| i with i_lock := v |}.
Definition set_i_dirt (v : Z) (i : m_inode) : m_inode := {| i with i_dirt := v |}.
Definition set_i_size (v : Z) (i : m_inode) : m_inode := {| i with i_size := u32 v |}.
Definition set_zone (k v : Z) (i : m_inode) : m_inode := {| i with i_zone := zset (i_zone i) k (u16 v) |}.
Definition set_mtime (t : Z) (i : m_inode) : m_inode := {| i with i_mtime := u32 t |}.
Definition set_atime (t : Z) (i : m_inode) : m_inode := {| i with i_atime := u32 t |}.
Definition set_ctime (t : Z) (i : m_inode) : m_inode := {| i with i_ctime := u32 t |}.
Definition set_i_mount (v : Z) (i : m_inode) : m_inode := {| i with i_mount := v |}.
Definition set_i_id (dev num : Z) (i : m_inode) : m_inode := {| i with i_dev := u16 dev; i_num := u16 num |}.
Definition set_mode (v : Z) (i : m_inode) : m_inode := {| i with i_mode := u16 v |}.
Definition set_nlinks (v : Z) (i : m_inode) : m_inode := {| i with i_nlinks := u8 v |}.

Definition set_f_pos (p : Z) (f : file) : file := {| f with f_pos := s32 p |}.
Definition set_f_count (n : Z) (f : file) : file := {| f with f_count := u16 n |}.

Definition set_s_dev (v : Z) (s : super_block_t) : super_block_t := {| s with s_dev := u16 v |}.
Definition set_s_lock (v : Z) (s : super_block_t) : super_block_t := {| s with s_lock := v |}.
Definition set_imount (v : option Z) (s : super_block_t) : super_block_t := {| s with s_imount := v |}.
Definition set_isup (v : option Z) (s : super_block_t) : super_block_t := {| s with s_isup := v |}.

Definition set_b_count (v : Z) (b : buffer_head) : buffer_head := {| b with b_count := u8 v |}.
Definition upd_data (f : list Z -> list Z) (b : buffer_head) : buffer_head := {| b with b_data := f (b_data b) |}.

(** ** Kernel memory *)

Lemma kget_insert m a v b :
  0 <= a < 2 ^ 32 -> 0 <= b < 2 ^ 32 -> kget (<[u32 a := v]> m) b = if decide (a = b) then v else kget m b.
Proof.
  intros Ha Hb. unfold kget. rewrite !u32_small by done.
  case_decide as E; [subst; by rewrite lookup_insert_eq|by rewrite lookup_insert_ne].
Qed.

Lemma kget_kwrite l a m b :
  0 <= a -> a + zlen l <= 2 ^ 32 -> 0 <= b < 2 ^ 32 ->
  kget (kwrite l a m) b =
    if decide (a <= b < a + zlen l) then u8 (default 0 (l !! Z.to_nat (b - a))) else kget m b.
Proof.
  revert a m. induction l as [|x l IH]; intros a m Ha Hl Hb; cbn [kwrite].
  { rewrite decide_False by (unfold zlen; cbn; lia). done. }
  assert (E : zlen (x :: l) = zlen l + 1) by (unfold zlen; cbn [length]; lia). rewrite E in Hl |- *.
  pose proof (zlen_nonneg l). rewrite IH by lia. rewrite kget_insert by lia.
  destruct (decide (a + 1 <= b < a + 1 + zlen l)).
  - rewrite decide_True by lia. replace (Z.to_nat (b - a)) with (S (Z.to_nat (b - (a + 1)))) by lia. done.
  - case_decide as Hab; [|by rewrite decide_False by lia]. subst b. rewrite decide_True by lia.
    by rewrite Z.sub_diag.
Qed.

End FsState.
