(* ===== verification/Ramdisk.v ===== *)
(** * kernel/blk_drv/ramdisk.c: the ram disk

    The whole queue is served at once, within [add_request]: the disk never keeps
    anybody waiting.  ([rd_load] is in [Buffer], since it reads the floppy through the
    buffer cache.) *)

From S2P Require Import Prelude Bytes BlkQueue Hd FsState.
Import BlkQueue FsState.

Module Ramdisk.

Definition MAJOR_NR : Z := 1.

Section ramdisk.
Context `{!Machine}.

(** [end_request] with this driver's empty DEVICE_OFF. *)
Definition rd_end_request (uptodate : Z) : M kern unit :=
  end_request MAJOR_NR (fun _ => skip) uptodate.

(** INIT_REQUEST: the request to serve. *)
Definition INIT_REQUEST : M kern (option request_t) :=
  d ← dev_at MAJOR_NR;
  match current_request d with
  | None => mret None
  | Some c =>
      r ← req_at c;
      if decide (MAJOR (r_dev r) <> MAJOR_NR) then panic "ramdisk: request list destroyed"
      else
        match r_bh r with
        | Some bh => b ← bh_at bh;
                     if decide (b_lock b = 0) then panic "ramdisk: block not locked" else mret (Some r)
        | None => mret (Some r)
        end
  end.

(** The two [memcpy]s. *)
Definition rd_write (addr len : Z) (r : request_t) : M kern unit :=
  '(i, o) ← deref "CURRENT->buffer" (r_buffer r);
  b ← bh_at i;
  modify (fun s => {| s with
    kmem := kwrite (take (Z.to_nat len) (drop (Z.to_nat o) (b_data b))) addr (kmem s) |}).
Definition rd_read (addr len : Z) (r : request_t) : M kern unit :=
  '(i, o) ← deref "CURRENT->buffer" (r_buffer r);
  m ← gets kmem;
  set_bh i (upd_data (splice (Z.to_nat o) (kread (Z.to_nat len) addr m))).

Fixpoint do_rd_request (fuel : nat) : M kern unit :=
  match fuel with
  | O => fun _ => NoFuel
  | S fuel' =>
      o ← INIT_REQUEST;
      match o with
      | None => skip
      | Some r =>
          start ← gets rd_start; length ← gets rd_length;
          let addr := u32 (start + Z.shiftl (r_sector r) 9) in
          let len := s32 (Z.shiftl (r_nr_sectors r) 9) in
          if decide (MINOR (r_dev r) <> 1 \/ u32 (start + length) < u32 (addr + len))
          then rd_end_request 0;; do_rd_request fuel'
          else
            (if decide (r_cmd r = WRITE) then rd_write addr len r
             else if decide (r_cmd r = READ) then rd_read addr len r
             else panic "unknown ramdisk-command");;
            rd_end_request 1;; do_rd_request fuel'
      end
  end.

(** The request functions.  The queue is never longer than the table, and the hard disk's
    [repeat] is taken at most eight times for a request, since it counts errors. *)
Definition run_fn (d : driver) : M kern unit :=
  match d with
  | Rd => do_rd_request (S (Z.to_nat NR_REQUEST))
  | Hd => Hd.do_hd_request (S (8 * Z.to_nat NR_REQUEST))
  | Fd => do_fd_request
  end.
End ramdisk.

Definition rd_init (mem_start length : Z) : M kern Z :=
  d ← dev_at MAJOR_NR;
  on_blk (modify (fun b => {| b with
    blk_dev := zset (blk_dev b) MAJOR_NR (BlkDev (Some Rd) (current_request d)) |}));;
  modify (fun s => {| s with rd_start := u32 mem_start; rd_length := length;
    kmem := kwrite (replicate (Z.to_nat length) 0) mem_start (kmem s) |});;
  mret length.

End Ramdisk.
