(* ===== verification/RdProps.v ===== *)
(** * Reading and writing a block of the ram disk

    The whole path of a block: [ll_rw_block], [make_request], [add_request] on an idle
    queue, [do_rd_request] and [end_request]. *)

From S2P Require Import Prelude Bytes BlkQueue BlkProps FsState Ramdisk.
Import BlkQueue BlkProps FsState Ramdisk.

Module RdProps.

#[export] Instance kern_blk_ok : HasBlkOk kern.
Proof. split; [done|by intros []|done]. Qed.

(** Waking a queue has no effect on the tables: whoever slept there runs later. *)
Class Quiet `{Machine} : Prop := { wake_quiet : forall c s, wake_up c s = Done tt s }.

(** The whole queue is free and nothing is being served. *)
Definition idle (s : kern) : Prop :=
  length (request (kblk s)) = 32%nat /\
  (forall i r, zget (request (kblk s)) i = Some r -> r_dev r < 0) /\
  zget (blk_dev (kblk s)) 1 = Some (BlkDev (Some Rd) None).

(** Buffer [b] is for block [n] of the ram disk, and the block is inside it. *)
Definition rd_block (s : kern) (b : buffer_head) (n : Z) : Prop :=
  b_dev b = 0x101 /\ b_blocknr b = n /\ length (b_data b) = 1024%nat /\
  0 <= n < 2 ^ 21 /\ 0 <= rd_start s /\ 1024 * (n + 1) <= rd_length s /\
  rd_start s + rd_length s < 2 ^ 32.

Definition rd_addr (s : kern) (n : Z) : Z := rd_start s + 1024 * n.

Section rd.
Context `{Quiet}.

Lemma empty_request_full (l : list request_t) n :
  (forall i r, zget l i = Some r -> r_dev r < 0) -> (n < length l)%nat ->
  empty_request (S n) l = Some (Z.of_nat n).
Proof.
  intros Hl Hn. cbn. destruct (lookup_lt_is_Some_2 l n Hn) as [r Hr]. rewrite Hr.
  rewrite decide_True; [done|]. apply (Hl (Z.of_nat n)). by rewrite zget_of_nat.
Qed.

Lemma on_blk_gets {A} (f : blk -> A) s : on_blk (gets f) s = Done (f (kblk s)) s.
Proof. unfold on_blk, zoom, gets. by destruct s. Qed.

Lemma get_request_idle fuel rw bh ahead s :
  idle s -> rw = READ \/ rw = WRITE ->
  get_request (S fuel) rw bh ahead s = Done (Some (if decide (rw = READ) then 31 else 20)) s.
Proof.
  intros (Hlen & Hfree & _) Hrw. cbn [get_request].
  erewrite done_bind by apply on_blk_gets.
  destruct Hrw as [->| ->]; cbn [slots_for];
    [rewrite (empty_request_full _ 31)|rewrite (empty_request_full _ 20)]; done || lia.
Qed.

(** [kern] with other buffers, requests, devices and memory: the form in which the states
    of a request are written. *)
Definition st (B : list buffer_head) (R : list request_t) (D : list blk_dev_struct)
    (m : gmap Z Z) (s : kern) : kern :=
  {| s with kblk := Blk B R D; kmem := m |}.

Lemma st_id s : s = st (bufs (kblk s)) (request (kblk s)) (blk_dev (kblk s)) (kmem s) s.
Proof. by destruct s as [[]]. Qed.

Section steps.
Context (B : list buffer_head) (R : list request_t) (D : list blk_dev_struct) (m : gmap Z Z) (s : kern).

Lemma bh_at_st i b : zget B i = Some b -> bh_at i (st B R D m s) = Done b (st B R D m s).
Proof. intros E. by apply bh_at_ok. Qed.
Lemma req_at_st i r : zget R i = Some r -> req_at i (st B R D m s) = Done r (st B R D m s).
Proof. intros E. by apply req_at_ok. Qed.
Lemma dev_at_st i d : zget D i = Some d -> dev_at i (st B R D m s) = Done d (st B R D m s).
Proof. intros E. by apply dev_at_ok. Qed.
Lemma set_bh_st i f b :
  zget B i = Some b -> set_bh i f (st B R D m s) = Done tt (st (zset B i (f b)) R D m s).
Proof. exact (set_bh_ok i f b (st B R D m s)). Qed.
Lemma set_req_st i f r :
  zget R i = Some r -> set_req i f (st B R D m s) = Done tt (st B (zset R i (f r)) D m s).
Proof. exact (set_req_ok i f r (st B R D m s)). Qed.
Lemma set_current_st i q d :
  zget D i = Some d ->
  set_current i q (st B R D m s) = Done tt (st B R (zset D i (BlkDev (request_fn d) q)) m s).
Proof. exact (set_current_ok i d q (st B R D m s)). Qed.
End steps.

Lemma unlock_buffer_st B R D m s bh b :
  zget B bh = Some b ->
  unlock_buffer bh (st B R D m s) = Done tt (st (zset B bh (set_lock 0 b)) R D m s).
Proof.
  intros E. unfold unlock_buffer. erewrite done_bind by by apply set_bh_st. apply wake_quiet.
Qed.

Lemma lock_buffer_st fuel B R D m s bh b :
  zget B bh = Some b -> b_lock b = 0 ->
  lock_buffer (S fuel) bh (st B R D m s) = Done tt (st (zset B bh (set_lock 1 b)) R D m s).
Proof.
  intros E L. cbn [lock_buffer]. erewrite done_bind by by apply bh_at_st.
  rewrite decide_False by lia. by apply set_bh_st.
Qed.

(** [end_request] of a driver whose only request is [c], for buffer [bh]. *)
Lemma rd_end_request_ok up c r bh b B R D m s :
  zget D 1 = Some (BlkDev (Some Rd) (Some c)) ->
  zget R c = Some r -> r_bh r = Some bh -> r_next r = None -> zget B bh = Some b ->
  rd_end_request up (st B R D m s) = Done tt
    (st (zset B bh (set_lock 0 (set_uptodate up b))) (zset R c (set_dev (-1) r))
      (zset D 1 (BlkDev (Some Rd) None)) m s).
Proof.
  intros Hd Hr Hbh Hn Hb. pose proof (zget_Some_range _ _ _ Hb) as Hbr.
  pose proof (zget_Some_range _ _ _ Hr) as Hrr.
  unfold rd_end_request, end_request, MAJOR_NR.
  erewrite done_bind by by apply dev_at_st. cbn [current_request]. rewrite deref_bind.
  erewrite done_bind by by apply req_at_st. erewrite done_bind by reflexivity. rewrite Hbh.
  erewrite done_bind.
  2: { erewrite done_bind by by apply set_bh_st. apply unlock_buffer_st. by apply zget_zset_eq. }
  erewrite done_bind by apply wake_quiet. erewrite done_bind by apply wake_quiet.
  erewrite done_bind by by apply set_req_st.
  erewrite done_bind by (apply req_at_st; by apply zget_zset_eq).
  erewrite set_current_st by exact Hd. cbn [r_next set_dev request_fn].
  by rewrite Hn, zset_zset.
Qed.

(** What the transfer makes of the buffer, and of memory. *)
Definition rd_data (rw addr : Z) (m : gmap Z Z) (b : buffer_head) : buffer_head :=
  if decide (rw = READ) then upd_data (splice 0 (kread 1024 addr m)) b else b.
Definition rd_mem (rw addr : Z) (m : gmap Z Z) (b : buffer_head) : gmap Z Z :=
  if decide (rw = READ) then m else kwrite (b_data b) addr m.

Lemma do_rd_request_empty fuel B R D m s :
  zget D 1 = Some (BlkDev (Some Rd) None) ->
  do_rd_request (S fuel) (st B R D m s) = Done tt (st B R D m s).
Proof.
  intros E. cbn [do_rd_request]. erewrite done_bind.
  2: { unfold INIT_REQUEST. by erewrite done_bind by by apply dev_at_st. }
  done.
Qed.

(** The [memcpy] of the request. *)
Lemma rd_transfer rw addr bh b B R D m s r :
  rw = READ \/ rw = WRITE -> r_buffer r = Some (bh, 0) ->
  zget B bh = Some b -> length (b_data b) = 1024%nat ->
  (if decide (rw = WRITE) then rd_write addr 1024 r
   else if decide (rw = READ) then rd_read addr 1024 r
   else panic "unknown ramdisk-command") (st B R D m s) =
  Done tt (st (zset B bh (rd_data rw addr m b)) R D (rd_mem rw addr m b) s).
Proof.
  intros [->| ->] Hb Hbuf Hlen; unfold rd_data, rd_mem.
  - rewrite (decide_False (P := READ = WRITE)) by done. rewrite !decide_True by done. unfold rd_read.
    rewrite Hb, deref_bind, gets_bind. by apply set_bh_st.
  - rewrite (decide_True (P := WRITE = WRITE)) by done. rewrite !decide_False by done.
    unfold rd_write. rewrite Hb, deref_bind. erewrite done_bind by by apply bh_at_st.
    change (Z.to_nat 0) with O; rewrite drop_0. rewrite take_ge by (rewrite Hlen; lia). by rewrite zset_id.
Qed.

(** The request that [make_request] makes for block [n]. *)
Definition rd_request (dev rw bh n : Z) : request_t :=
  Req dev rw 0 (u32 (Z.shiftl n 1)) 2 (Some (bh, 0)) (Some bh) None.

(** The driver serves the only request [c] of its queue. *)
Lemma do_rd_request_one rw c bh n b B R D m s fuel :
  rw = READ \/ rw = WRITE ->
  zget D 1 = Some (BlkDev (Some Rd) (Some c)) ->
  zget R c = Some (rd_request 0x101 rw bh n) ->
  zget B bh = Some b -> b_lock b <> 0 -> rd_block s b n ->
  do_rd_request (S (S fuel)) (st B R D m s) = Done tt
    (st (zset B bh (set_lock 0 (set_uptodate 1 (rd_data rw (rd_addr s n) m b))))
      (zset R c (rd_request (-1) rw bh n)) (zset D 1 (BlkDev (Some Rd) None))
      (rd_mem rw (rd_addr s n) m b) s).
Proof.
  intros Hrw Hd Hr Hb Hl (_ & _ & Hlen & Hn & Hs & Hin & Htop).
  assert (Ea : u32 (rd_start s + Z.shiftl (u32 (Z.shiftl n 1)) 9) = rd_addr s n).
  { rewrite !Z.shiftl_mul_pow2 by lia. rewrite (u32_small (n * 2 ^ 1)) by lia.
    rewrite u32_small by lia. unfold rd_addr. lia. }
  pose proof (zget_Some_range _ _ _ Hb) as Hbr. pose proof (zget_Some_range _ _ _ Hd) as Hdr.
  remember (S fuel) as fuel' eqn:Ef. cbn [do_rd_request].
  erewrite done_bind.
  2: { unfold INIT_REQUEST. erewrite done_bind by by apply dev_at_st. cbn [current_request].
       erewrite done_bind by by apply req_at_st. cbn [rd_request r_dev r_bh].
       rewrite decide_False by (intros E; apply E; reflexivity).
       erewrite done_bind by by apply bh_at_st. by rewrite decide_False by done. }
  cbn [r_dev r_sector r_nr_sectors r_cmd rd_request].
  rewrite gets_bind, gets_bind. cbn [rd_start rd_length st]. rewrite Ea.
  change (s32 (Z.shiftl 2 9)) with 1024.
  rewrite decide_False.
  2: { intros [E|E]; [by vm_compute in E|]. unfold rd_addr in E. rewrite !u32_small in E by lia. lia. }
  erewrite done_bind by by apply (rd_transfer rw _ bh).
  erewrite done_bind.
  2: { eapply (rd_end_request_ok 1 c _ bh); [exact Hd|exact Hr|done|done|]. by apply zget_zset_eq. }
  subst fuel'. rewrite do_rd_request_empty by (by apply zget_zset_eq).
  by rewrite zset_zset.
Qed.

Definition slot_of (rw : Z) : Z := if decide (rw = READ) then 31 else 20.
Definition done_buf (rw addr : Z) (m : gmap Z Z) (b : buffer_head) : buffer_head :=
  set_lock 0 (set_uptodate 1 (set_dirt 0 (rd_data rw addr m b))).

(** The state after the request of block [n] has been served. *)
Definition served (rw bh n : Z) (b : buffer_head) (s : kern) : kern :=
  st (zset (bufs (kblk s)) bh (done_buf rw (rd_addr s n) (kmem s) b))
     (zset (request (kblk s)) (slot_of rw) (rd_request (-1) rw bh n))
     (blk_dev (kblk s)) (rd_mem rw (rd_addr s n) (kmem s) b) s.

Lemma served_idle rw bh n b s : idle s -> idle (served rw bh n b s).
Proof.
  intros (Hl & Hf & Hd). split_and!; cbn; [by rewrite length_zset| |done].
  intros i r. destruct (decide (slot_of rw = i)) as [<-|Hn].
  - rewrite zget_zset_eq; [by intros [= <-]|]. unfold zlen. rewrite Hl. unfold slot_of. case_decide; lia.
  - rewrite zget_zset_ne by done. apply Hf.
Qed.

(** [add_request] on the idle ram disk serves the request at once. *)
Lemma add_request_idle rw q bh n b B R D m s :
  rw = READ \/ rw = WRITE ->
  zget D 1 = Some (BlkDev (Some Rd) None) ->
  zget R q = Some (rd_request 0x101 rw bh n) ->
  zget B bh = Some b -> b_lock b <> 0 -> rd_block s b n ->
  add_request run_fn 1 q (st B R D m s) = Done tt
    (st (zset B bh (done_buf rw (rd_addr s n) m b)) (zset R q (rd_request (-1) rw bh n)) D
      (rd_mem rw (rd_addr s n) m b) s).
Proof.
  intros Hrw Hd Hr Hb Hl Hblk.
  pose proof (zget_Some_range _ _ _ Hb) as Hbr. pose proof (zget_Some_range _ _ _ Hr) as Hrr.
  pose proof (zget_Some_range _ _ _ Hd) as Hdr.
  unfold add_request.
  erewrite done_bind by by apply set_req_st.
  erewrite done_bind by (apply req_at_st; by apply zget_zset_eq). cbn [rd_request set_next r_bh].
  erewrite done_bind by by apply set_bh_st.
  erewrite done_bind by by apply dev_at_st. cbn [current_request].
  erewrite done_bind by by apply set_current_st. cbn [request_fn]. rewrite deref_bind.
  unfold run_fn. change (S (Z.to_nat NR_REQUEST)) with 33%nat.
  rewrite (do_rd_request_one rw q bh n (set_dirt 0 b)); [|done| | | |done|done]; [|by apply zget_zset_eq..].
  rewrite !zset_zset, (zset_id D) by done.
  unfold done_buf, rd_data, rd_mem. by case_decide.
Qed.

Lemma rw_block_served rw bh b n s fuel :
  (rw = READ /\ b_uptodate b = 0 \/ rw = WRITE /\ b_dirt b <> 0) ->
  idle s -> zget (bufs (kblk s)) bh = Some b -> b_lock b = 0 -> rd_block s b n ->
  ll_rw_block run_fn (S fuel) rw bh s = Done tt (served rw bh n b s).
Proof.
  intros Hc Hi Hb Hl Hblk. pose proof Hi as (Hlen & _ & Hd).
  assert (Hrw : rw = READ \/ rw = WRITE) by tauto.
  pose proof (zget_Some_range _ _ _ Hb) as Hbr.
  assert (Hq : 0 <= slot_of rw < zlen (request (kblk s))).
  { unfold zlen, slot_of. rewrite Hlen. case_decide; lia. }
  destruct (zget_is_Some _ _ Hq) as [r0 Hr0].
  pose proof Hblk as (Hdev & Hn & _).
  unfold ll_rw_block. erewrite done_bind by by apply bh_at_ok. rewrite Hdev.
  change (MAJOR 257) with 1. rewrite decide_False by (unfold NR_BLK_DEV; lia).
  erewrite done_bind by by apply dev_at_ok. cbn [request_fn].
  unfold make_request. erewrite done_bind by by apply bh_at_ok.
  rewrite (bool_decide_eq_false_2 (rw = READA)) by (destruct Hrw as [-> | ->]; done).
  rewrite (bool_decide_eq_false_2 (rw = WRITEA)) by (destruct Hrw as [-> | ->]; done).
  cbn [orb]. rewrite decide_False by (intros [? _]; done). rewrite decide_False by tauto.
  rewrite (st_id s) at 1.
  erewrite done_bind by by apply lock_buffer_st.
  erewrite done_bind by (apply bh_at_st; by apply zget_zset_eq).
  rewrite decide_False by (cbn; unfold READ, WRITE in *; lia).
  erewrite done_bind by (apply get_request_idle; [exact Hi|done]). fold (slot_of rw). cbv beta iota.
  erewrite done_bind by (apply bh_at_st; by apply zget_zset_eq). cbn [b_dev b_blocknr set_lock].
  rewrite Hdev, Hn. erewrite done_bind by by apply set_req_st.
  rewrite (add_request_idle rw (slot_of rw) bh n (set_lock 1 b)); [|done|done| | |done|done];
    [|by apply zget_zset_eq..].
  rewrite !zset_zset. unfold served, done_buf, rd_data, rd_mem. by case_decide.
Qed.

(** Reading a block of the idle ram disk through [ll_rw_block] leaves in the buffer the
    bytes the disk holds, marks it up to date and unlocked, and frees the request again;
    writing a dirty buffer leaves the buffer's bytes on the disk and the buffer clean.
    Nothing else changes, and nobody sleeps. *)
Theorem ll_rw_block_ramdisk rw bh b n s fuel :
  (rw = READ /\ b_uptodate b = 0 \/ rw = WRITE /\ b_dirt b <> 0) ->
  idle s -> zget (bufs (kblk s)) bh = Some b -> b_lock b = 0 -> rd_block s b n ->
  ll_rw_block run_fn (S fuel) rw bh s = Done tt (served rw bh n b s) /\ idle (served rw bh n b s).
Proof.
  intros Hc Hi Hb Hl Hblk. split; [|by apply served_idle]. by apply rw_block_served.
Qed.
End rd.

End RdProps.
