(* ===== verification/Buffer.v ===== *)
(** * fs/buffer.c: the buffer cache

    Buffers are found through the hash queues ([b_next]/[b_prev] from [hash_table]) and
    reused in the order of the circular free list ([b_next_free]/[b_prev_free] from
    [free_list]).  [getblk] writes dirty buffers back through [sync_dev], which writes
    the inodes first: [sync_inodes] of inode.c, which itself reads blocks, is a
    parameter here and tied in [InodeIO]. *)

From S2P Require Import Prelude Bytes Task UserMem BlkQueue FsState Ramdisk.
Import BlkQueue FsState Ramdisk.

Module Buffer.

Definition set_b_next (q : option Z) (b : buffer_head) : buffer_head := {| b with b_next := q |}.
Definition set_b_prev (q : option Z) (b : buffer_head) : buffer_head := {| b with b_prev := q |}.
Definition set_b_next_free (q : option Z) (b : buffer_head) : buffer_head := {| b with b_next_free := q |}.
Definition set_b_prev_free (q : option Z) (b : buffer_head) : buffer_head := {| b with b_prev_free := q |}.
Definition set_b_id (dev block : Z) (b : buffer_head) : buffer_head :=
  {| b with b_dev := u16 dev; b_blocknr := u32 block |}.
Definition set_free_list (p : Z) : M kern unit := modify (fun s => {| s with free_list := p |}).

Definition _hashfn (dev block : Z) : Z := u32 (Z.lxor dev block) mod NR_HASH.
Definition hash (dev block : Z) : M kern (option Z) :=
  o ← gets (fun s => zget (hash_table s) (_hashfn dev block)); deref "hash_table" o.
Definition set_hash (dev block : Z) (q : option Z) : M kern unit :=
  modify (fun s => {| s with hash_table := zset (hash_table s) (_hashfn dev block) q |}).

Definition NR_BUFFERS : M kern nat := gets (fun s => length (bufs (kblk s))).
Definition BADNESS (b : buffer_head) : Z := Z.shiftl (b_dirt b) 1 + b_lock b.

(** An assignment through a pointer the code tests first. *)
Definition if_bh (p : option Z) (f : buffer_head -> buffer_head) : M kern unit :=
  match p with Some i => set_bh i f | None => skip end.

Definition remove_from_queues (bh : Z) : M kern unit :=
  b ← bh_at bh;
  if_bh (b_next b) (set_b_prev (b_prev b));;
  b ← bh_at bh;
  if_bh (b_prev b) (set_b_next (b_next b));;
  b ← bh_at bh;
  h ← hash (b_dev b) (b_blocknr b);
  (if decide (h = Some bh) then set_hash (b_dev b) (b_blocknr b) (b_next b) else skip);;
  b ← bh_at bh;
  match b_prev_free b, b_next_free b with
  | Some p, Some n =>
      set_bh p (set_b_next_free (Some n));;
      set_bh n (set_b_prev_free (Some p));;
      f ← gets free_list;
      if decide (f = bh) then set_free_list n else skip
  | _, _ => panic "Free block list corrupted"
  end.

(** The last assignment goes through [bh->b_next] without testing it: for the first
    buffer of a queue it writes [b_prev] of a null pointer. *)
Definition insert_into_queues (bh : Z) : M kern unit :=
  f ← gets free_list;
  set_bh bh (set_b_next_free (Some f));;
  h ← bh_at f;
  set_bh bh (set_b_prev_free (b_prev_free h));;
  h ← bh_at f;
  p ← deref "free_list->b_prev_free" (b_prev_free h);
  set_bh p (set_b_next_free (Some bh));;
  set_bh f (set_b_prev_free (Some bh));;
  set_bh bh (set_b_prev None);;
  set_bh bh (set_b_next None);;
  b ← bh_at bh;
  if decide (b_dev b = 0) then skip
  else
    q ← hash (b_dev b) (b_blocknr b);
    set_bh bh (set_b_next q);;
    set_hash (b_dev b) (b_blocknr b) (Some bh);;
    match q with
    | Some n => set_bh n (set_b_prev (Some bh))
    | None => modify (fun s => {| s with null_b_prev := Some bh |})
    end.

(** Down a hash queue. *)
Fixpoint find_in (fuel : nat) (tmp : option Z) (dev block : Z) : M kern (option Z) :=
  match fuel with
  | O => fun _ => NoFuel
  | S fuel' =>
      match tmp with
      | None => mret None
      | Some t =>
          b ← bh_at t;
          if decide (b_dev b = dev /\ b_blocknr b = u32 block) then mret (Some t)
          else find_in fuel' (b_next b) dev block
      end
  end.

Section buffer.
Context `{!Machine} (fuel : nat) (sync_inodes : M kern unit).

Fixpoint wait_on_buffer_ (n : nat) (bh : Z) : M kern unit :=
  match n with
  | O => fun _ => NoFuel
  | S n' =>
      b ← bh_at bh;
      if decide (b_lock b <> 0) then sleep_on (Buffer_wait bh);; wait_on_buffer_ n' bh else skip
  end.
Definition wait_on_buffer : Z -> M kern unit := wait_on_buffer_ fuel.

Definition rw_block (rw bh : Z) : M kern unit := ll_rw_block run_fn fuel rw bh.

Definition sys_sync : M kern Z :=
  sync_inodes;;
  n ← NR_BUFFERS;
  for_up n 0 (fun bh =>
    wait_on_buffer bh;;
    b ← bh_at bh;
    if decide (b_dirt b <> 0) then rw_block WRITE bh else skip);;
  mret 0.

(** One of the two loops of [sync_dev]. *)
Definition sync_buffers (dev : Z) : M kern unit :=
  n ← NR_BUFFERS;
  for_up n 0 (fun bh =>
    b ← bh_at bh;
    if decide (b_dev b <> dev) then skip
    else
      wait_on_buffer bh;;
      b ← bh_at bh;
      if decide (b_dev b = dev /\ b_dirt b <> 0) then rw_block WRITE bh else skip).

Definition sync_dev (dev : Z) : M kern Z :=
  sync_buffers dev;; sync_inodes;; sync_buffers dev;; mret 0.

Definition invalidate_buffers (dev : Z) : M kern unit :=
  n ← NR_BUFFERS;
  for_up n 0 (fun bh =>
    b ← bh_at bh;
    if decide (b_dev b <> dev) then skip
    else
      wait_on_buffer bh;;
      b ← bh_at bh;
      if decide (b_dev b = dev) then set_bh bh (fun b => set_uptodate 0 (set_dirt 0 b)) else skip).

Definition find_buffer (dev block : Z) : M kern (option Z) :=
  q ← hash dev block; find_in fuel q dev block.

Fixpoint get_hash_table_ (n : nat) (dev block : Z) : M kern (option Z) :=
  match n with
  | O => fun _ => NoFuel
  | S n' =>
      o ← find_buffer dev block;
      match o with
      | None => mret None
      | Some bh =>
          set_bh bh (fun b => set_b_count (b_count b + 1) b);;
          wait_on_buffer bh;;
          b ← bh_at bh;
          if decide (b_dev b = dev /\ b_blocknr b = u32 block) then mret (Some bh)
          else set_bh bh (fun b => set_b_count (b_count b - 1) b);; get_hash_table_ n' dev block
      end
  end.
Definition get_hash_table : Z -> Z -> M kern (option Z) := get_hash_table_ fuel.

(** The [do ... while] of [getblk]: the best unused buffer from [tmp] on, [bh] being the
    best so far. *)
Fixpoint scan_free (n : nat) (tmp : Z) (bh : option Z) : M kern (option Z) :=
  match n with
  | O => fun _ => NoFuel
  | S n' =>
      t ← bh_at tmp;
      let next (bh : option Z) : M kern (option Z) :=
        q ← deref "b_next_free" (b_next_free t);
        f ← gets free_list;
        if decide (q = f) then mret bh else scan_free n' q bh in
      if decide (b_count t <> 0) then next bh
      else
        better ← match bh with
                 | None => mret true
                 | Some i => b ← bh_at i; mret (bool_decide (BADNESS t < BADNESS b))
                 end;
        if (better : bool) then
          if decide (BADNESS t = 0) then mret (Some tmp) else next (Some tmp)
        else next bh
  end.

(** [while (bh->b_dirt) ...]: [false] when somebody took the buffer meanwhile. *)
Fixpoint clean_buffer (n : nat) (bh : Z) : M kern bool :=
  match n with
  | O => fun _ => NoFuel
  | S n' =>
      b ← bh_at bh;
      if decide (b_dirt b <> 0) then
        sync_dev (b_dev b);;
        wait_on_buffer bh;;
        b ← bh_at bh;
        if decide (b_count b <> 0) then mret false else clean_buffer n' bh
      else mret true
  end.

(** The end of [getblk]: the buffer changes hands. *)
Definition take_buffer (bh dev block : Z) : M kern unit :=
  set_bh bh (fun b => set_uptodate 0 (set_dirt 0 (set_b_count 1 b)));;
  remove_from_queues bh;;
  set_bh bh (set_b_id dev block);;
  insert_into_queues bh.

Fixpoint getblk_ (n : nat) (dev block : Z) : M kern Z :=
  match n with
  | O => fun _ => NoFuel
  | S n' =>
      o ← get_hash_table dev block;
      match o with
      | Some bh => mret bh
      | None =>
          f ← gets free_list;
          o ← scan_free fuel f None;
          match o with
          | None => sleep_on Free_buffer_wait;; getblk_ n' dev block
          | Some bh =>
              wait_on_buffer bh;;
              b ← bh_at bh;
              if decide (b_count b <> 0) then getblk_ n' dev block
              else
                ok ← clean_buffer fuel bh;
                if negb ok then getblk_ n' dev block
                else
                  o ← find_buffer dev block;
                  match o with
                  | Some _ => getblk_ n' dev block
                  | None => take_buffer bh dev block;; mret bh
                  end
          end
      end
  end.
Definition getblk : Z -> Z -> M kern Z := getblk_ fuel.

Definition brelse (buf : option Z) : M kern unit :=
  match buf with
  | None => skip
  | Some bh =>
      wait_on_buffer bh;;
      b ← bh_at bh;
      set_bh bh (fun b => set_b_count (b_count b - 1) b);;
      (if decide (b_count b = 0) then panic "Trying to free free buffer" else skip);;
      wake_up Free_buffer_wait
  end.

(** The end of [bread] and [breada]: the buffer, if it could be read. *)
Definition if_uptodate (bh : Z) : M kern (option Z) :=
  b ← bh_at bh;
  if decide (b_uptodate b <> 0) then mret (Some bh) else brelse (Some bh);; mret None.

Definition bread (dev block : Z) : M kern (option Z) :=
  bh ← getblk dev block;
  b ← bh_at bh;
  if decide (b_uptodate b <> 0) then mret (Some bh)
  else rw_block READ bh;; wait_on_buffer bh;; if_uptodate bh.

(** The two loops of [bread_page]. *)
Fixpoint start_reads (dev : Z) (b : list Z) : M kern (list (option Z)) :=
  match b with
  | [] => mret []
  | block :: b' =>
      o ← (if decide (block <> 0) then
             bh ← getblk dev block;
             v ← bh_at bh;
             (if decide (b_uptodate v = 0) then rw_block READ bh else skip);;
             mret (Some bh)
           else mret None);
      l ← start_reads dev b'; mret (o :: l)
  end.
Fixpoint copy_blocks (address : Z) (l : list (option Z)) : M kern unit :=
  match l with
  | [] => skip
  | o :: l' =>
      match o with
      | Some bh =>
          wait_on_buffer bh;;
          b ← bh_at bh;
          (if decide (b_uptodate b <> 0)
           then modify (fun s => {| s with kmem := kwrite (b_data b) address (kmem s) |})
           else skip);;
          brelse (Some bh)
      | None => skip
      end;;
      copy_blocks (address + BLOCK_SIZE) l'
  end.
Definition bread_page (address dev : Z) (b : list Z) : M kern unit :=
  l ← start_reads dev b; copy_blocks address l.

(** The read-ahead loop of [breada] hands [bh], not [tmp], to the driver. *)
Fixpoint read_ahead (dev bh : Z) (l : list Z) : M kern unit :=
  match l with
  | [] => skip
  | block :: l' =>
      if decide (block < 0) then skip
      else
        tmp ← getblk dev block;
        t ← bh_at tmp;
        (if decide (b_uptodate t = 0) then rw_block READA bh else skip);;
        set_bh tmp (fun t => set_b_count (b_count t - 1) t);;
        read_ahead dev bh l'
  end.
Definition breada (dev first : Z) (args : list Z) : M kern (option Z) :=
  bh ← getblk dev first;
  b ← bh_at bh;
  (if decide (b_uptodate b = 0) then rw_block READ bh else skip);;
  read_ahead dev bh args;;
  wait_on_buffer bh;;
  if_uptodate bh.
End buffer.

(** ** [buffer_init] *)

Definition SIZEOF_BUFFER_HEAD : Z := 36.

(** The loop that lays out headers upwards from the end of the kernel and blocks downwards
    from [buffer_end], around the hole from 640 kB to 1 MB; [n] headers so far. *)
Fixpoint lay_out (fuel : nat) (start_buffer n b : Z) (m : gmap Z Z) : list buffer_head :=
  match fuel with
  | O => []
  | S fuel' =>
      let b := b - BLOCK_SIZE in
      if decide (start_buffer + SIZEOF_BUFFER_HEAD * (n + 1) <= b) then
        Bh (kread 1024 b m) 0 0 0 0 0 0 None None (Some (n - 1)) (Some (n + 1)) ::
        lay_out fuel' start_buffer (n + 1) (if decide (b = 0x100000) then 0xA0000 else b) m
      else []
  end.

Definition buffer_init (start_buffer buffer_end : Z) : M kern unit :=
  let b := if decide (buffer_end = 0x100000) then 640 * 1024 else buffer_end in
  m ← gets kmem;
  let l := lay_out (Z.to_nat (b / BLOCK_SIZE)) start_buffer 0 b m in
  let h := zlen l - 1 in
  on_blk (modify (fun s => {| s with bufs := l |}));;
  modify (fun s => {| s with free_list := 0; hash_table := replicate (Z.to_nat NR_HASH) None |});;
  set_bh 0 (set_b_prev_free (Some h));;
  set_bh h (set_b_next_free (Some 0)).

(** ** [rd_load] of ramdisk.c *)

Section rd_load.
Context `{!Machine} (fuel : nat) (sync_inodes : M kern unit).

(** The copying loop; [block] is the next block of the image. *)
Fixpoint rd_copy (nblocks : nat) (dev block cp : Z) : M kern bool :=
  match nblocks with
  | O => mret true
  | S n' =>
      o ← (if decide (2 < Z.of_nat nblocks)
           then breada fuel sync_inodes dev block [block + 1; block + 2; -1]
           else bread fuel sync_inodes dev block);
      match o with
      | None => mret false
      | Some bh =>
          b ← bh_at bh;
          modify (fun s => {| s with kmem := kwrite (b_data b) cp (kmem s) |});;
          brelse fuel (Some bh);;
          rd_copy n' dev (block + 1) (cp + BLOCK_SIZE)
      end
  end.

Definition rd_load : M kern unit :=
  length ← gets rd_length; dev ← gets ROOT_DEV;
  if decide (length = 0) then skip
  else if decide (MAJOR dev <> 2) then skip
  else
    o ← breada fuel sync_inodes dev 257 [256; 258; -1];
    match o with
    | None => skip
    | Some bh =>
        b ← bh_at bh;
        let s := load_d_super (b_data b) super0 in
        brelse fuel (Some bh);;
        if decide (s_magic s <> SUPER_MAGIC) then skip
        else if decide (16 <= s_log_zone_size s) then undef "shift"
        else
          let nblocks := Z.shiftl (s_nzones s) (s_log_zone_size s) in
          if decide (Z.shiftr length 10 < nblocks) then skip
          else
            start ← gets rd_start;
            ok ← rd_copy (Z.to_nat nblocks) dev 256 start;
            if (ok : bool) then modify (fun s => {| s with ROOT_DEV := 0x0101 |}) else skip
    end.
End rd_load.

End Buffer.
