(* ===== verification/BufferProps.v ===== *)
(** * Properties of the buffer cache

    The invariant of the cache: the free list is one ring through all buffers, the hash
    queues are linked lists that hold exactly the buffers with a device, each in the queue of
    its block, and no block has two buffers.  [getblk] keeps it. *)

From S2P Require Import Prelude Bytes Links Task UserMem BlkQueue BlkProps FsState Ramdisk RdProps Buffer.
Import BlkQueue BlkProps FsState Ramdisk RdProps Buffer.

Module BufferProps.

(** A link of a buffer. *)
Definition link (f : buffer_head -> option Z) (B : list buffer_head) (i : Z) : option Z :=
  zget B i ≫= f.

(** A buffer without its links. *)
Definition core (b : buffer_head) : buffer_head :=
  {| b with b_prev := None; b_next := None; b_prev_free := None; b_next_free := None |}.

Lemma link_zset f B k b' i :
  0 <= k < zlen B -> link f (zset B k b') i = upd (link f B) k (f b') i.
Proof.
  intros Hk. unfold link, upd. rewrite zget_zset by done.
  destruct (decide (k = i)) as [->|Hn]; [by rewrite decide_True|by rewrite decide_False].
Qed.

(** The parts of the state the cache works on. *)
Definition sb (B : list buffer_head) (fl : Z) (H : list (option Z)) (nb : option Z) (s : kern) : kern :=
  {| s with kblk := {| (kblk s) with bufs := B |}; free_list := fl; hash_table := H; null_b_prev := nb |}.

Lemma sb_id s : s = sb (bufs (kblk s)) (free_list s) (hash_table s) (null_b_prev s) s.
Proof. by destruct s as [[]]. Qed.

Lemma bh_at_sb B fl H nb s i b : zget B i = Some b -> bh_at i (sb B fl H nb s) = Done b (sb B fl H nb s).
Proof. intros E. by apply bh_at_ok. Qed.
Lemma set_bh_sb B fl H nb s i f b :
  zget B i = Some b -> set_bh i f (sb B fl H nb s) = Done tt (sb (zset B i (f b)) fl H nb s).
Proof. exact (set_bh_ok i f b (sb B fl H nb s)). Qed.
Lemma hash_sb B fl H nb s dev block q :
  zget H (_hashfn dev block) = Some q -> hash dev block (sb B fl H nb s) = Done q (sb B fl H nb s).
Proof. intros E. unfold hash. rewrite gets_bind. cbn. by rewrite E. Qed.

(** [B'] is [B] with the links [n], [p], [nf], [pf]. *)
Definition relinked (B B' : list buffer_head) (n p nf pf : Z -> option Z) : Prop :=
  (forall i, core <$> zget B' i = core <$> zget B i) /\
  (forall i, link b_next B' i = n i) /\ (forall i, link b_prev B' i = p i) /\
  (forall i, link b_next_free B' i = nf i) /\ (forall i, link b_prev_free B' i = pf i).

Lemma relinked_refl B :
  relinked B B (link b_next B) (link b_prev B) (link b_next_free B) (link b_prev_free B).
Proof. by split_and!. Qed.

Section relink.
Context (B B' : list buffer_head) (n p nf pf : Z -> option Z).
Context (fl : Z) (H : list (option Z)) (nb : option Z) (s : kern).
Hypothesis (R : relinked B B' n p nf pf).

Lemma relinked_get i b :
  zget B i = Some b ->
  exists b', zget B' i = Some b' /\ core b' = core b /\ b_next b' = n i /\ b_prev b' = p i /\
    b_next_free b' = nf i /\ b_prev_free b' = pf i.
Proof.
  destruct R as (Hc & Hn & Hp & Hnf & Hpf). intros E. specialize (Hc i). rewrite E in Hc.
  destruct (zget B' i) as [b'|] eqn:E'; [|done]. apply (inj Some) in Hc. exists b'.
  specialize (Hn i). specialize (Hp i). specialize (Hnf i). specialize (Hpf i).
  unfold link in Hn, Hp, Hnf, Hpf. rewrite E' in Hn, Hp, Hnf, Hpf. by split_and!.
Qed.

Lemma relinked_range i : 0 <= i < zlen B -> 0 <= i < zlen B'.
Proof.
  intros Hi. destruct (zget_is_Some _ _ Hi) as [b E].
  destruct (relinked_get _ _ E) as (b' & E' & _). by eapply zget_Some_range.
Qed.

(** An assignment to one link. *)
Ltac relink_tac i v :=
  intros Hi; destruct (zget_is_Some _ _ Hi) as [b E];
  destruct (relinked_get i b E) as (b' & E' & Hc & Hn & Hp & Hnf & Hpf);
  pose proof (zget_Some_range _ _ _ E') as Hi';
  eexists; split; [by apply set_bh_sb|];
  destruct R as (Rc & Rn & Rp & Rnf & Rpf);
  split_and!; intros j;
  [rewrite zget_zset by done; case_decide; [subst j; rewrite E; cbn; f_equal; by destruct b', b|apply Rc]
  |rewrite link_zset by done; unfold upd; rewrite ?Rn; case_decide; subst; done
  |rewrite link_zset by done; unfold upd; rewrite ?Rp; case_decide; subst; done
  |rewrite link_zset by done; unfold upd; rewrite ?Rnf; case_decide; subst; done
  |rewrite link_zset by done; unfold upd; rewrite ?Rpf; case_decide; subst; done].

Lemma relink_next i v :
  0 <= i < zlen B ->
  exists B'', set_bh i (set_b_next v) (sb B' fl H nb s) = Done tt (sb B'' fl H nb s) /\
    relinked B B'' (upd n i v) p nf pf.
Proof. relink_tac i v. Qed.
Lemma relink_prev i v :
  0 <= i < zlen B ->
  exists B'', set_bh i (set_b_prev v) (sb B' fl H nb s) = Done tt (sb B'' fl H nb s) /\
    relinked B B'' n (upd p i v) nf pf.
Proof. relink_tac i v. Qed.
Lemma relink_next_free i v :
  0 <= i < zlen B ->
  exists B'', set_bh i (set_b_next_free v) (sb B' fl H nb s) = Done tt (sb B'' fl H nb s) /\
    relinked B B'' n p (upd nf i v) pf.
Proof. relink_tac i v. Qed.
Lemma relink_prev_free i v :
  0 <= i < zlen B ->
  exists B'', set_bh i (set_b_prev_free v) (sb B' fl H nb s) = Done tt (sb B'' fl H nb s) /\
    relinked B B'' n p nf (upd pf i v).
Proof. relink_tac i v. Qed.
End relink.

(** The same links up to pointwise equality. *)
Lemma relinked_ext B B' n p nf pf n' p' nf' pf' :
  (forall i, n' i = n i) -> (forall i, p' i = p i) -> (forall i, nf' i = nf i) ->
  (forall i, pf' i = pf i) -> relinked B B' n p nf pf -> relinked B B' n' p' nf' pf'.
Proof.
  intros E1 E2 E3 E4 (H1 & H2 & H3 & H4 & H5).
  split_and!; intros i; rewrite ?E1, ?E2, ?E3, ?E4; [apply H1|apply H2|apply H3|apply H4|apply H5].
Qed.

Lemma link_get f B i b : zget B i = Some b -> link f B i = f b.
Proof. unfold link. by intros ->. Qed.

(** Fields that are no links. *)
Lemma core_fields b b' :
  core b' = core b ->
  b_dev b' = b_dev b /\ b_blocknr b' = b_blocknr b /\ b_count b' = b_count b /\
  b_dirt b' = b_dirt b /\ b_lock b' = b_lock b /\ b_uptodate b' = b_uptodate b /\ b_data b' = b_data b.
Proof. destruct b, b'. unfold core. cbn. intros [= -> -> -> -> -> -> ->]. by split_and!. Qed.

Definition b_hash (b : buffer_head) : Z := _hashfn (b_dev b) (b_blocknr b).

(** The first half of [remove_from_queues]. *)
Lemma unhash_spec B fl H nb s bh b :
  zget B bh = Some b ->
  (forall x, b_next b = Some x -> 0 <= x < zlen B /\ x <> bh) ->
  (forall x, b_prev b = Some x -> 0 <= x < zlen B /\ x <> bh) ->
  exists B1 b1 B2,
    if_bh (b_next b) (set_b_prev (b_prev b)) (sb B fl H nb s) = Done tt (sb B1 fl H nb s) /\
    zget B1 bh = Some b1 /\ b_prev b1 = b_prev b /\ b_next b1 = b_next b /\
    if_bh (b_prev b1) (set_b_next (b_next b1)) (sb B1 fl H nb s) = Done tt (sb B2 fl H nb s) /\
    relinked B B2 (cut_n (link b_next B) (link b_prev B) bh) (cut_p (link b_next B) (link b_prev B) bh)
      (link b_next_free B) (link b_prev_free B).
Proof.
  intros E Hn Hp. pose proof (relinked_refl B) as R.
  unfold cut_n, cut_p. rewrite (link_get _ _ _ _ E), (link_get _ _ _ _ E).
  assert (H1 : exists B1, if_bh (b_next b) (set_b_prev (b_prev b)) (sb B fl H nb s) = Done tt (sb B1 fl H nb s) /\
    relinked B B1 (link b_next B)
      (match b_next b with Some n => upd (link b_prev B) n (b_prev b) | None => link b_prev B end)
      (link b_next_free B) (link b_prev_free B)).
  { destruct (b_next b) as [x|]; [|by exists B]. destruct (Hn x) as [Hx _]; [done|].
    destruct (relink_prev B B _ _ _ _ fl H nb s R x (b_prev b) Hx) as (B1 & ? & ?). by exists B1. }
  destruct H1 as (B1 & H1 & R1).
  destruct (relinked_get _ _ _ _ _ _ R1 _ _ E) as (b1 & E1 & _ & Hn1 & Hp1 & _).
  rewrite (link_get _ _ _ _ E) in Hn1.
  assert (Hp1' : b_prev b1 = b_prev b).
  { rewrite Hp1. destruct (b_next b) as [x|]; [|by apply link_get]. destruct (Hn x) as [_ Hx]; [done|].
    rewrite upd_ne by done. by apply link_get. }
  exists B1, b1. rewrite Hp1', Hn1.
  destruct (b_prev b) as [x|]; [|by exists B1; split_and!]. destruct (Hp x) as [Hx _]; [done|].
  destruct (relink_next B B1 _ _ _ _ fl H nb s R1 x (b_next b) Hx) as (B2 & ? & ?). by exists B2; split_and!.
Qed.

Lemma remove_spec B fl H nb s bh b q p n :
  zget B bh = Some b -> zget H (b_hash b) = Some q ->
  (forall x, b_next b = Some x -> 0 <= x < zlen B /\ x <> bh) ->
  (forall x, b_prev b = Some x -> 0 <= x < zlen B /\ x <> bh) ->
  b_prev_free b = Some p -> b_next_free b = Some n ->
  0 <= p < zlen B -> 0 <= n < zlen B ->
  exists B',
    remove_from_queues bh (sb B fl H nb s) =
      Done tt (sb B' (if decide (fl = bh) then n else fl)
                 (if decide (q = Some bh) then zset H (b_hash b) (b_next b) else H) nb s) /\
    relinked B B' (cut_n (link b_next B) (link b_prev B) bh) (cut_p (link b_next B) (link b_prev B) bh)
      (upd (link b_next_free B) p (Some n)) (upd (link b_prev_free B) n (Some p)).
Proof.
  intros E Eq Hnx Hpv Hp Hn Hpr Hnr.
  destruct (unhash_spec B fl H nb s bh b E Hnx Hpv) as (B1 & b1 & B2 & H1 & E1 & _ & Hn1 & H2 & R2).
  destruct (relinked_get _ _ _ _ _ _ R2 _ _ E) as (b2 & E2 & Hc & Hn2 & _ & Hnf2 & Hpf2).
  apply core_fields in Hc as (Hd & Hb & _).
  assert (Hn2' : b_next b2 = b_next b).
  { rewrite Hn2. unfold cut_n. rewrite (link_get _ _ _ _ E). destruct (b_prev b) as [x|] eqn:Ex;
      [|by apply link_get]. rewrite upd_ne; [by apply link_get|]. intros ->. by destruct (Hpv x). }
  rewrite (link_get _ _ _ _ E), Hn in Hnf2. rewrite (link_get _ _ _ _ E), Hp in Hpf2.
  unfold remove_from_queues.
  erewrite done_bind by by apply bh_at_sb. erewrite done_bind by exact H1.
  erewrite done_bind by by apply bh_at_sb. erewrite done_bind by exact H2.
  erewrite done_bind by by apply bh_at_sb. rewrite Hd, Hb, Hn2'.
  erewrite done_bind by by apply hash_sb.
  set (H' := if decide (q = Some bh) then zset H (b_hash b) (b_next b) else H).
  erewrite (done_bind _ _ _ tt (sb B2 fl H' nb s)).
  2: { unfold H', b_hash. by case_decide. }
  erewrite done_bind by by apply bh_at_sb. rewrite Hpf2, Hnf2.
  destruct (relink_next_free B B2 _ _ _ _ fl H' nb s R2 p (Some n) Hpr) as (B3 & H3 & R3).
  erewrite done_bind by exact H3.
  destruct (relink_prev_free B B3 _ _ _ _ fl H' nb s R3 n (Some p) Hnr) as (B4 & H4 & R4).
  erewrite done_bind by exact H4. rewrite gets_bind. cbn [free_list sb].
  exists B4. split; [|exact R4]. by case_decide.
Qed.

Lemma insert_spec B fl H nb s bh b f z q :
  zget B bh = Some b -> zget B fl = Some f -> b_prev_free f = Some z -> 0 <= z < zlen B ->
  fl <> bh -> b_dev b <> 0 -> zget H (b_hash b) = Some q ->
  (forall x, q = Some x -> 0 <= x < zlen B) ->
  exists B' nb',
    insert_into_queues bh (sb B fl H nb s) = Done tt (sb B' fl (zset H (b_hash b) (Some bh)) nb' s) /\
    relinked B B' (upd (link b_next B) bh q)
      (match q with Some x => upd (upd (link b_prev B) bh None) x (Some bh) | None => upd (link b_prev B) bh None end)
      (upd (upd (link b_next_free B) bh (Some fl)) z (Some bh))
      (upd (upd (link b_prev_free B) bh (Some z)) fl (Some bh)).
Proof.
  intros E Ef Hz Hzr Hne Hdev Hq Hqr.
  pose proof (zget_Some_range _ _ _ E) as Hbr. pose proof (zget_Some_range _ _ _ Ef) as Hfr.
  pose proof (relinked_refl B) as R.
  unfold insert_into_queues. rewrite gets_bind. cbn [free_list sb]. fold (sb B fl H nb s).
  destruct (relink_next_free B B _ _ _ _ fl H nb s R bh (Some fl) Hbr) as (B1 & H1 & R1).
  erewrite done_bind by exact H1.
  destruct (relinked_get _ _ _ _ _ _ R1 _ _ Ef) as (f1 & E1 & _ & _ & _ & _ & Hpf1).
  erewrite done_bind by by apply bh_at_sb. rewrite Hpf1, (link_get _ _ _ _ Ef), Hz.
  destruct (relink_prev_free B B1 _ _ _ _ fl H nb s R1 bh (Some z) Hbr) as (B2 & H2 & R2).
  erewrite done_bind by exact H2.
  destruct (relinked_get _ _ _ _ _ _ R2 _ _ Ef) as (f2 & E2 & _ & _ & _ & _ & Hpf2).
  erewrite done_bind by by apply bh_at_sb.
  rewrite Hpf2, upd_ne, (link_get _ _ _ _ Ef), Hz, deref_bind by done.
  destruct (relink_next_free B B2 _ _ _ _ fl H nb s R2 z (Some bh) Hzr) as (B3 & H3 & R3).
  erewrite done_bind by exact H3.
  destruct (relink_prev_free B B3 _ _ _ _ fl H nb s R3 fl (Some bh) Hfr) as (B4 & H4 & R4).
  erewrite done_bind by exact H4.
  destruct (relink_prev B B4 _ _ _ _ fl H nb s R4 bh None Hbr) as (B5 & H5 & R5).
  erewrite done_bind by exact H5.
  destruct (relink_next B B5 _ _ _ _ fl H nb s R5 bh None Hbr) as (B6 & H6 & R6).
  erewrite done_bind by exact H6.
  destruct (relinked_get _ _ _ _ _ _ R6 _ _ E) as (b6 & E6 & Hc & _).
  apply core_fields in Hc as (Hd & Hb & _).
  erewrite done_bind by by apply bh_at_sb. rewrite Hd, Hb, decide_False by done.
  erewrite done_bind by by apply hash_sb.
  destruct (relink_next B B6 _ _ _ _ fl H nb s R6 bh q Hbr) as (B7 & H7 & R7).
  erewrite done_bind by exact H7.
  set (H' := zset H (b_hash b) (Some bh)).
  erewrite (done_bind _ _ _ tt (sb B7 fl H' nb s)) by done.
  assert (En : forall i, upd (link b_next B) bh q i = upd (upd (link b_next B) bh None) bh q i).
  { intros i. unfold upd. by case_decide. }
  destruct q as [x|].
  - destruct (relink_prev B B7 _ _ _ _ fl H' nb s R7 x (Some bh)) as (B8 & H8 & R8); [by apply Hqr|].
    exists B8, nb. split; [exact H8|]. by eapply relinked_ext; [exact En|done..|exact R8].
  - exists B7, (Some bh). split; [done|]. by eapply relinked_ext; [exact En|done..|exact R7].
Qed.

(** ** The invariant *)

(** The cache without the buffer [out], if any: [l] is the free list, [C h] queue [h]. *)
Record lists_ok (B : list buffer_head) (fl : Z) (H : list (option Z)) (out : option Z)
    (l : list Z) (C : Z -> list Z) : Prop := {
  lo_head : head l = Some fl;
  lo_nodup : NoDup l;
  lo_all : forall i, i ∈ l <-> 0 <= i < zlen B /\ out <> Some i;
  lo_ring : ring (link b_next_free B) (link b_prev_free B) l;
  lo_size : zlen H = NR_HASH;
  lo_hash : forall h, 0 <= h < NR_HASH -> zget H h = Some (head (C h)) /\ NoDup (C h) /\
    hseg (link b_next B) (link b_prev B) None (C h);
  lo_in : forall h i, 0 <= h < NR_HASH ->
    i ∈ C h <-> out <> Some i /\ exists b, zget B i = Some b /\ b_dev b <> 0 /\ b_hash b = h;
  lo_off : forall i b, out <> Some i -> zget B i = Some b -> b_dev b = 0 ->
    b_next b = None /\ b_prev b = None;
  lo_uniq : forall i j b b', out <> Some i -> out <> Some j -> zget B i = Some b -> zget B j = Some b' ->
    b_dev b <> 0 -> b_dev b = b_dev b' -> b_blocknr b = b_blocknr b' -> i = j
}.

(** The cache of a state. *)
Definition cache_ok (s : kern) (l : list Z) (C : Z -> list Z) : Prop :=
  lists_ok (bufs (kblk s)) (free_list s) (hash_table s) None l C.

Lemma hashfn_range dev block : 0 <= _hashfn dev block < NR_HASH.
Proof. unfold _hashfn, NR_HASH. apply Z.mod_pos_bound. lia. Qed.

(** Taking an element out of a list. *)
Definition del (x : Z) (l : list Z) : list Z := filter (fun y => y <> x) l.

Lemma del_notin x l : x ∉ l -> del x l = l.
Proof.
  unfold del. induction l as [|y l IH]; intros Hx; [done|].
  apply not_elem_of_cons in Hx as [Hy Hx]. rewrite filter_cons_True by done. by rewrite IH.
Qed.
Lemma del_app x l1 l2 : x ∉ l1 -> x ∉ l2 -> del x (l1 ++ x :: l2) = l1 ++ l2.
Proof.
  intros H1 H2. unfold del. rewrite filter_app, filter_cons_False by naive_solver.
  f_equal; by apply del_notin.
Qed.
Lemma elem_of_del x y l : y ∈ del x l <-> y <> x /\ y ∈ l.
Proof. unfold del. by rewrite list_elem_of_filter. Qed.

(** Two arrays with the same buffers but for the links. *)
Definition same_core (B B' : list buffer_head) : Prop := forall i, core <$> zget B' i = core <$> zget B i.

Lemma same_core_get B B' i b :
  same_core B B' -> zget B' i = Some b -> exists b0, zget B i = Some b0 /\ core b0 = core b.
Proof.
  intros Hc E. specialize (Hc i). rewrite E in Hc. destruct (zget B i) as [b0|]; [|done].
  apply (inj Some) in Hc. by exists b0.
Qed.

Lemma same_core_sym B B' : same_core B B' -> same_core B' B.
Proof. intros Hc i. by rewrite Hc. Qed.

Lemma same_core_len B B' : same_core B B' -> zlen B' = zlen B.
Proof.
  intros Hc. apply Z.le_antisymm; apply Z.nlt_ge; intros Hlt.
  - destruct (zget_is_Some B' (zlen B)) as [b E]; [pose proof (zlen_nonneg B); lia|].
    destruct (same_core_get _ _ _ _ Hc E) as (b0 & E0 & _). apply zget_Some_range in E0. lia.
  - destruct (zget_is_Some B (zlen B')) as [b E]; [pose proof (zlen_nonneg B'); lia|].
    destruct (same_core_get _ _ _ _ (same_core_sym _ _ Hc) E) as (b0 & E0 & _).
    apply zget_Some_range in E0. lia.
Qed.

Lemma core_hash b b' : core b = core b' -> b_dev b = b_dev b' /\ b_blocknr b = b_blocknr b' /\ b_hash b = b_hash b'.
Proof. intros (Hd & Hb & _)%core_fields. unfold b_hash. by rewrite Hd, Hb. Qed.

Section remove.
Context (B : list buffer_head) (fl : Z) (H : list (option Z)) (l1 l2 : list Z) (C : Z -> list Z).
Context (bh : Z) (b : buffer_head).
Hypothesis (L : lists_ok B fl H None (l1 ++ bh :: l2) C).
Hypothesis (E : zget B bh = Some b).
Hypothesis (Hmore : l1 ++ l2 <> []).

(** Where the buffer is in its queue, if it has a device. *)
Lemma chain_split :
  b_dev b <> 0 ->
  exists c1 c2, C (b_hash b) = c1 ++ bh :: c2 /\ NoDup (c1 ++ bh :: c2) /\
    hseg (link b_next B) (link b_prev B) None (c1 ++ bh :: c2).
Proof.
  intros Hd. pose proof (hashfn_range (b_dev b) (b_blocknr b)) as Hh. fold (b_hash b) in Hh.
  destruct (lo_hash _ _ _ _ _ _ L _ Hh) as (_ & Hn & Hs).
  assert (Hin : bh ∈ C (b_hash b)) by (apply (lo_in _ _ _ _ _ _ L); [done|]; split; [done|]; by exists b).
  apply list_elem_of_split in Hin as (c1 & c2 & Ec). exists c1, c2. rewrite Ec in Hn, Hs. done.
Qed.

(** Its neighbours there. *)
Lemma chain_neighbours :
  (forall x, b_next b = Some x -> (0 <= x < zlen B /\ x <> bh) /\ b_dev b <> 0 /\ x ∈ C (b_hash b)) /\
  (forall x, b_prev b = Some x -> (0 <= x < zlen B /\ x <> bh) /\ b_dev b <> 0 /\ x ∈ C (b_hash b)).
Proof.
  destruct (decide (b_dev b = 0)) as [Hd|Hd].
  { destruct (lo_off _ _ _ _ _ _ L bh b) as [-> ->]; done. }
  destruct (chain_split Hd) as (c1 & c2 & Ec & Hn & Hs).
  pose proof (hashfn_range (b_dev b) (b_blocknr b)) as Hh. fold (b_hash b) in Hh.
  apply hseg_app in Hs as (Hp & Hx & _). rewrite (link_get _ _ _ _ E) in Hp. rewrite (link_get _ _ _ _ E) in Hx.
  apply NoDup_app in Hn as (_ & H1 & H2). apply NoDup_cons in H2 as [H2 _].
  assert (Hr : forall x, x ∈ C (b_hash b) -> 0 <= x < zlen B).
  { intros x Hx'. apply (lo_in _ _ _ _ _ _ L) in Hx' as (_ & b' & Eb' & _); [|done].
    by eapply zget_Some_range. }
  rewrite Hx, Hp. split; intros x Ex.
  - apply head_Some_elem_of in Ex. assert (x ∈ C (b_hash b)) by (rewrite Ec; set_solver).
    split; [|done]. split; [by apply Hr|]. by intros ->.
  - destruct (last c1) as [y|] eqn:El; [|done]. injection Ex as ->. apply last_Some_elem_of in El.
    assert (x ∈ C (b_hash b)) by (rewrite Ec; set_solver).
    split; [|done]. split; [by apply Hr|]. intros ->. apply (H1 bh El). set_solver.
Qed.

(** The other queues do not see the cut. *)
Lemma cut_chain h :
  0 <= h < NR_HASH ->
  hseg (cut_n (link b_next B) (link b_prev B) bh) (cut_p (link b_next B) (link b_prev B) bh) None
    (del bh (C h)).
Proof.
  intros Hh. destruct (lo_hash _ _ _ _ _ _ L h Hh) as (_ & Hn & Hs).
  destruct (decide (bh ∈ C h)) as [Hin|Hin].
  - apply list_elem_of_split in Hin as (c1 & c2 & Ec). rewrite Ec in Hn, Hs |- *.
    pose proof Hn as (_ & H1 & H2)%NoDup_app. apply NoDup_cons in H2 as [H2 _].
    rewrite del_app by (done || intros Hi; apply (H1 bh Hi); set_solver).
    by apply hseg_remove.
  - rewrite del_notin by done. eapply hseg_ext; [|exact Hs]. intros i Hi.
    assert (Hi' := Hi). apply (lo_in _ _ _ _ _ _ L) in Hi' as (_ & bi & Ei & Hdi & Hhi); [|done].
    destruct chain_neighbours as [Hnx Hpv]. unfold cut_n, cut_p.
    rewrite !(link_get _ _ _ _ E). split.
    + destruct (b_prev b) as [x|]; [|done]. rewrite upd_ne; [done|]. intros ->.
      destruct (Hpv x) as (_ & Hd & Hx); [done|].
      apply (lo_in _ _ _ _ _ _ L) in Hx as (_ & bx & Ex & _ & Hhx); [|apply hashfn_range].
      rewrite Ei in Ex. injection Ex as <-. apply Hin. apply (lo_in _ _ _ _ _ _ L); [done|].
      split; [done|]. exists b. split; [done|]. split; [done|]. congruence.
    + destruct (b_next b) as [x|]; [|done]. rewrite upd_ne; [done|]. intros ->.
      destruct (Hnx x) as (_ & Hd & Hx); [done|].
      apply (lo_in _ _ _ _ _ _ L) in Hx as (_ & bx & Ex & _ & Hhx); [|apply hashfn_range].
      rewrite Ei in Ex. injection Ex as <-. apply Hin. apply (lo_in _ _ _ _ _ _ L); [done|].
      split; [done|]. exists b. split; [done|]. split; [done|]. congruence.
Qed.

(** The new head of the free list. *)
Lemma new_head p n :
  link b_prev_free B bh = Some p -> link b_next_free B bh = Some n ->
  head (l1 ++ l2) = Some (if decide (fl = bh) then n else fl).
Proof.
  intros Hp Hn. pose proof (lo_head _ _ _ _ _ _ L) as Hh. pose proof (lo_nodup _ _ _ _ _ _ L) as Hd.
  pose proof (lo_ring _ _ _ _ _ _ L) as Hr.
  destruct l1 as [|x l1']; cbn in Hh; injection Hh as Hh.
  - rewrite decide_True by done. cbn [app] in *.
    by destruct (ring_remove_head _ _ bh l2 p n Hd Hmore Hr Hp Hn) as (_ & Hx & _).
  - rewrite decide_False; [by rewrite Hh|]. intros ->. subst x.
    cbn [app] in Hd. apply NoDup_cons in Hd as [Hd _]. apply Hd. set_solver.
Qed.

(** The heads of the queues after the cut. *)
Lemma queue_heads h :
  0 <= h < NR_HASH ->
  zget (if decide (head (C (b_hash b)) = Some bh) then zset H (b_hash b) (b_next b) else H) h =
    Some (head (del bh (C h))).
Proof.
  intros Hh. destruct (lo_hash _ _ _ _ _ _ L h Hh) as (Hq & Hn & Hs).
  destruct (decide (bh ∈ C h)) as [Hin|Hin].
  - assert (Hb := Hin). apply (lo_in _ _ _ _ _ _ L) in Hb as (_ & b' & E' & Hd & Hb); [|done].
    rewrite E in E'. injection E' as <-. subst h.
    destruct (C (b_hash b)) as [|y c] eqn:Ec; [by apply elem_of_nil in Hin|]. cbn [head].
    destruct (decide (Some y = Some bh)) as [[= ->]|Hne].
    + rewrite zget_zset_eq by (rewrite (lo_size _ _ _ _ _ _ L); done).
      destruct Hs as (_ & Hs & _). rewrite (link_get _ _ _ _ E) in Hs. rewrite Hs.
      apply NoDup_cons in Hn as [Hn _]. change (bh :: c) with ([] ++ bh :: c).
      by rewrite del_app by set_solver.
    + rewrite Hq. unfold del. rewrite filter_cons_True by naive_solver. done.
  - rewrite del_notin by done. rewrite <- Hq. case_decide as Hc; [|done]. apply zget_zset_ne. intros <-.
    apply Hin. by apply head_Some_elem_of.
Qed.

(** The rest of the free list. *)
Lemma rest_nodup : NoDup (l1 ++ l2).
Proof.
  pose proof (lo_nodup _ _ _ _ _ _ L) as (H1 & H2 & [H3 H4]%NoDup_cons)%NoDup_app.
  apply NoDup_app. split_and!; [done| |done]. intros i Hi. specialize (H2 i Hi). set_solver.
Qed.
Lemma rest_all i : i ∈ l1 ++ l2 <-> 0 <= i < zlen B /\ Some bh <> Some i.
Proof.
  pose proof (lo_nodup _ _ _ _ _ _ L) as (H1 & H2 & [H3 _]%NoDup_cons)%NoDup_app. split.
  - intros Hi. split; [apply (lo_all _ _ _ _ _ _ L); set_solver|]. intros [= <-].
    apply elem_of_app in Hi as [Hi|Hi]; [|done]. apply (H2 _ Hi). set_solver.
  - intros [Hi Hne]. assert (Hi' : i ∈ l1 ++ bh :: l2) by by apply (lo_all _ _ _ _ _ _ L).
    assert (i <> bh) by (intros ->; done). set_solver.
Qed.

(** The queues hold the other buffers with a device. *)
Lemma cut_in B' h i : same_core B B' -> 0 <= h < NR_HASH ->
  i ∈ del bh (C h) <-> Some bh <> Some i /\ exists b, zget B' i = Some b /\ b_dev b <> 0 /\ b_hash b = h.
Proof.
  intros Rc Hh. rewrite elem_of_del, (lo_in _ _ _ _ _ _ L) by done. split.
  - intros (Hne & _ & b0 & E0 & H0 & H1). split; [congruence|].
    destruct (same_core_get _ _ _ _ (same_core_sym _ _ Rc) E0) as (b1 & E1 & Hc).
    apply core_hash in Hc as (Hc1 & _ & Hc3). exists b1. rewrite Hc1, Hc3. done.
  - intros (Hne & b1 & E1 & H0 & H1). split; [congruence|]. split; [done|].
    destruct (same_core_get _ _ _ _ Rc E1) as (b0 & E0 & Hc).
    apply core_hash in Hc as (Hc1 & _ & Hc3). exists b0. rewrite Hc1, Hc3. done.
Qed.
(** The buffers without a device stay out of them. *)
Lemma cut_off B' nf pf i b1 :
  relinked B B' (cut_n (link b_next B) (link b_prev B) bh) (cut_p (link b_next B) (link b_prev B) bh) nf pf ->
  zget B' i = Some b1 -> b_dev b1 = 0 -> b_next b1 = None /\ b_prev b1 = None.
Proof.
  intros (Rc & Rn & Rp & _) E1 H0. destruct (same_core_get _ _ _ _ Rc E1) as (b0 & E0 & Hc).
  apply core_hash in Hc as (Hc1 & _ & _). rewrite <- Hc1 in H0. destruct chain_neighbours as [Hnx Hpv].
  destruct (lo_off _ _ _ _ _ _ L i b0) as [Hz1 Hz2]; [done..|].
  rewrite <- (link_get b_next _ _ _ E1), <- (link_get b_prev _ _ _ E1), Rn, Rp. unfold cut_n, cut_p.
  rewrite !(link_get _ _ _ _ E).
  assert (Hout : forall x, x ∈ C (b_hash b) -> i <> x).
  { intros x Hx ->. apply (lo_in _ _ _ _ _ _ L) in Hx as (_ & b' & E' & Hd' & _); [|apply hashfn_range].
    rewrite E0 in E'. injection E' as <-. done. }
  split.
  - destruct (b_prev b) as [x|]; [|by rewrite (link_get _ _ _ _ E0)].
    rewrite upd_ne; [by rewrite (link_get _ _ _ _ E0)|]. apply Hout. by apply Hpv.
  - destruct (b_next b) as [x|]; [|by rewrite (link_get _ _ _ _ E0)].
    rewrite upd_ne; [by rewrite (link_get _ _ _ _ E0)|]. apply Hout. by apply Hnx.
Qed.

Lemma remove_ok nb s :
  exists B' fl' H',
    remove_from_queues bh (sb B fl H nb s) = Done tt (sb B' fl' H' nb s) /\
    lists_ok B' fl' H' (Some bh) (l1 ++ l2) (fun h => del bh (C h)) /\ same_core B B'.
Proof.
  pose proof (lo_nodup _ _ _ _ _ _ L) as Hd.
  destruct (ring_neighbours _ _ _ _ _ (lo_ring _ _ _ _ _ _ L)) as (p & n & Hp & Hn & Hin).
  destruct (Hin Hmore) as [Hpin Hnin].
  pose proof (hashfn_range (b_dev b) (b_blocknr b)) as Hh. fold (b_hash b) in Hh.
  destruct (lo_hash _ _ _ _ _ _ L _ Hh) as (Hq & _ & _).
  destruct chain_neighbours as [Hnx Hpv].
  pose proof Hp as Hp'. pose proof Hn as Hn'. rewrite (link_get _ _ _ _ E) in Hp'. rewrite (link_get _ _ _ _ E) in Hn'.
  destruct (remove_spec B fl H nb s bh b (head (C (b_hash b))) p n E Hq) as (B' & Hrun & R).
  { intros x Hx. by destruct (Hnx x Hx). } { intros x Hx. by destruct (Hpv x Hx). }
  { done. } { done. } { by apply rest_all. } { by apply rest_all. }
  pose proof R as (Rc & Rn & Rp & Rnf & Rpf).
  eexists B', _, _. split; [exact Hrun|]. split; [|exact Rc]. split.
  - by apply new_head with p.
  - exact rest_nodup.
  - intros i. rewrite (same_core_len B B') by exact Rc. apply rest_all.
  - eapply ring_ext; [|eapply ring_remove; [exact Hd|exact Hmore|exact (lo_ring _ _ _ _ _ _ L)|exact Hp|exact Hn]].
    intros i _. by rewrite Rnf, Rpf.
  - destruct (decide (head (C (b_hash b)) = Some bh)); rewrite ?zlen_zset; exact (lo_size _ _ _ _ _ _ L).
  - intros h Hh'. split; [by apply queue_heads|]. split.
    + unfold del. apply NoDup_filter. by apply (lo_hash _ _ _ _ _ _ L h).
    + eapply hseg_ext; [|by apply cut_chain]. intros i _. by rewrite Rn, Rp.
  - intros h i. by apply cut_in.
  - intros i b1 _. eapply cut_off. exact R.
  - intros i j bi bj Hi Hj Ei Ej Hdi Hde Hbe.
    destruct (same_core_get _ _ _ _ Rc Ei) as (b0 & E0 & Hc). apply core_hash in Hc as (Hc1 & Hc2 & _).
    destruct (same_core_get _ _ _ _ Rc Ej) as (b1 & E1 & Hc). apply core_hash in Hc as (Hc3 & Hc4 & _).
    apply (lo_uniq _ _ _ _ _ _ L i j b0 b1); congruence.
Qed.
End remove.

(** What the lists depend on. *)
Definition shape (b : buffer_head) : Z * Z * (option Z * option Z) * (option Z * option Z) :=
  (b_dev b, b_blocknr b, (b_prev b, b_next b), (b_prev_free b, b_next_free b)).

Lemma shape_eq b b' :
  shape b = shape b' ->
  b_dev b = b_dev b' /\ b_blocknr b = b_blocknr b' /\ b_prev b = b_prev b' /\ b_next b = b_next b' /\
  b_prev_free b = b_prev_free b' /\ b_next_free b = b_next_free b' /\ b_hash b = b_hash b'.
Proof. unfold shape, b_hash. intros [= -> -> -> -> -> ->]. by split_and!. Qed.

Lemma lists_ok_shape B B' fl H out l C :
  zlen B' = zlen B ->
  (forall i, out <> Some i -> shape <$> zget B' i = shape <$> zget B i) ->
  lists_ok B fl H out l C -> lists_ok B' fl H out l C.
Proof.
  intros Hlen Hs L.
  assert (Hf : forall i b, out <> Some i -> zget B' i = Some b ->
    exists b0, zget B i = Some b0 /\ shape b = shape b0).
  { intros i b Hi E. specialize (Hs i Hi). rewrite E in Hs. destruct (zget B i) as [b0|]; [|done].
    apply (inj Some) in Hs. by exists b0. }
  assert (Hb : forall i b, out <> Some i -> zget B i = Some b ->
    exists b0, zget B' i = Some b0 /\ shape b = shape b0).
  { intros i b Hi E. specialize (Hs i Hi). rewrite E in Hs. destruct (zget B' i) as [b0|]; [|done].
    apply (inj Some) in Hs. by exists b0. }
  assert (Hl : forall i, out <> Some i -> link b_next B' i = link b_next B i /\ link b_prev B' i = link b_prev B i /\
    link b_next_free B' i = link b_next_free B i /\ link b_prev_free B' i = link b_prev_free B i).
  { intros i Hi. unfold link. specialize (Hs i Hi).
    destruct (zget B' i), (zget B i); try done. apply (inj Some), shape_eq in Hs as (_ & _ & ? & ? & ? & ? & _).
    by split_and!. }
  split; try apply L.
  - intros i. rewrite Hlen. apply L.
  - eapply ring_ext; [|apply L]. intros i Hi. apply (lo_all _ _ _ _ _ _ L) in Hi as [_ Hi].
    by destruct (Hl i Hi) as (_ & _ & -> & ->).
  - intros h Hh. destruct (lo_hash _ _ _ _ _ _ L h Hh) as (H1 & H2 & H3). split_and!; [done..|].
    eapply hseg_ext; [|exact H3]. intros i Hi. apply (lo_in _ _ _ _ _ _ L) in Hi as [Hi _]; [|done].
    by destruct (Hl i Hi) as (-> & -> & _).
  - intros h i Hh. rewrite (lo_in _ _ _ _ _ _ L) by done. split.
    + intros (Hi & b & E & H1 & H2). destruct (Hb i b Hi E) as (b0 & E0 & (Hd & _ & _ & _ & _ & _ & Hx)%shape_eq).
      split; [done|]. exists b0. rewrite <- Hd, <- Hx. done.
    + intros (Hi & b & E & H1 & H2). destruct (Hf i b Hi E) as (b0 & E0 & (Hd & _ & _ & _ & _ & _ & Hx)%shape_eq).
      split; [done|]. exists b0. rewrite <- Hd, <- Hx. done.
  - intros i b Hi E H1. destruct (Hf i b Hi E) as (b0 & E0 & (Hd & _ & Hp & Hn & _)%shape_eq).
    rewrite Hp, Hn. apply (lo_off _ _ _ _ _ _ L i b0); [done|done|congruence].
  - intros i j bi bj Hi Hj Ei Ej H1 H2 H3.
    destruct (Hf i bi Hi Ei) as (b0 & E0 & (Hd & Hk & _)%shape_eq).
    destruct (Hf j bj Hj Ej) as (b1 & E1 & (Hd' & Hk' & _)%shape_eq).
    apply (lo_uniq _ _ _ _ _ _ L i j b0 b1); congruence.
Qed.

Section insert.
Context (B : list buffer_head) (fl : Z) (H : list (option Z)) (l' : list Z) (C : Z -> list Z).
Context (bh : Z) (b : buffer_head).
Hypothesis (L : lists_ok B fl H (Some bh) (fl :: l') C).
Hypothesis (E : zget B bh = Some b).
Hypothesis (Hdev : b_dev b <> 0).
Hypothesis (Hnew : forall i b', zget B i = Some b' -> b_dev b' = b_dev b -> b_blocknr b' = b_blocknr b -> i = bh).

Lemma out_chain h : 0 <= h < NR_HASH -> bh ∉ C h.
Proof. intros Hh Hin. apply (lo_in _ _ _ _ _ _ L) in Hin as [Hin _]; done. Qed.

(** The queues after the insertion. *)
Definition chains' (h : Z) : list Z := if decide (h = b_hash b) then bh :: C h else C h.

Lemma insert_chain h B' nf pf :
  relinked B B' (upd (link b_next B) bh (head (C (b_hash b))))
      (match head (C (b_hash b)) with
       | Some x => upd (upd (link b_prev B) bh None) x (Some bh) | None => upd (link b_prev B) bh None end)
      nf pf ->
  0 <= h < NR_HASH ->
  hseg (link b_next B') (link b_prev B') None (chains' h) /\ NoDup (chains' h).
Proof.
  intros (_ & Rn & Rp & _) Hh. destruct (lo_hash _ _ _ _ _ _ L h Hh) as (_ & Hn & Hs).
  unfold chains'. destruct (decide (h = b_hash b)) as [->|Hne].
  - split; [|by apply NoDup_cons; split; [apply out_chain|]].
    eapply hseg_ext; [|by apply hseg_insert; [apply out_chain|exact Hn|exact Hs]].
    intros i _. by rewrite Rn, Rp.
  - split; [|done]. eapply hseg_ext; [|exact Hs]. intros i Hi. rewrite Rn, Rp.
    assert (Hib : i <> bh) by (intros ->; by apply (out_chain h Hh)).
    split; [by apply upd_ne|].
    destruct (head (C (b_hash b))) as [x|] eqn:Ex; [|by apply upd_ne].
    rewrite !upd_ne; [done|done|]. intros ->. apply head_Some_elem_of in Ex.
    apply (lo_in _ _ _ _ _ _ L) in Hi as (_ & b1 & E1 & _ & H1); [|done].
    apply (lo_in _ _ _ _ _ _ L) in Ex as (_ & b2 & E2 & _ & H2); [|apply hashfn_range].
    congruence.
Qed.

(** The queues hold the buffers with a device. *)
Lemma insert_in B' h i : same_core B B' -> 0 <= h < NR_HASH ->
  i ∈ chains' h <-> None <> Some i /\ exists b, zget B' i = Some b /\ b_dev b <> 0 /\ b_hash b = h.
Proof.
  intros Rc Hh'. split.
  - intros Hi. split; [done|]. unfold chains' in Hi.
    assert (Hi' : i = bh /\ h = b_hash b \/ i ∈ C h) by (destruct (decide (h = b_hash b)); set_solver).
    assert (H1 : exists b0, zget B i = Some b0 /\ b_dev b0 <> 0 /\ b_hash b0 = h).
    { destruct Hi' as [[-> ->]|Hi']; [by exists b|]. by apply (lo_in _ _ _ _ _ _ L) in Hi' as (_ & H1). }
    destruct H1 as (b0 & E0 & H0 & H1). destruct (same_core_get _ _ _ _ (same_core_sym _ _ Rc) E0) as (b1 & E1 & Hc).
    apply core_hash in Hc as (Hc1 & _ & Hc3). exists b1. rewrite Hc1, Hc3. done.
  - intros (_ & b1 & E1 & H0 & H1). destruct (same_core_get _ _ _ _ Rc E1) as (b0 & E0 & Hc).
    apply core_hash in Hc as (Hc1 & _ & Hc3). unfold chains'.
    destruct (decide (i = bh)) as [->|Hn].
    + rewrite E in E0. injection E0 as <-. rewrite decide_True by congruence. set_solver.
    + assert (Hi : i ∈ C h).
      { apply (lo_in _ _ _ _ _ _ L); [done|]. split; [congruence|]. exists b0. rewrite Hc1, Hc3. done. }
      case_decide; [by apply elem_of_cons; right|done].
Qed.
Lemma insert_off B' nf pf i b1 :
  relinked B B' (upd (link b_next B) bh (head (C (b_hash b))))
      (match head (C (b_hash b)) with
       | Some x => upd (upd (link b_prev B) bh None) x (Some bh) | None => upd (link b_prev B) bh None end)
      nf pf ->
  zget B' i = Some b1 -> b_dev b1 = 0 -> b_next b1 = None /\ b_prev b1 = None.
Proof.
  intros (Rc & Rn & Rp & _) E1 H0. destruct (same_core_get _ _ _ _ Rc E1) as (b0 & E0 & Hc).
  apply core_hash in Hc as (Hc1 & _ & _).
  assert (Hib : i <> bh) by (intros ->; congruence).
  destruct (lo_off _ _ _ _ _ _ L i b0) as [Hz1 Hz2]; [congruence|done|congruence|].
  rewrite <- (link_get b_next _ _ _ E1), <- (link_get b_prev _ _ _ E1), Rn, Rp.
  rewrite upd_ne, (link_get _ _ _ _ E0) by done. split; [done|].
  destruct (head (C (b_hash b))) as [x|] eqn:Ex; rewrite !upd_ne, ?(link_get _ _ _ _ E0); try done.
  intros <-. apply head_Some_elem_of in Ex. apply (lo_in _ _ _ _ _ _ L) in Ex as (_ & b2 & E2 & H2 & _); [|apply hashfn_range].
  congruence.
Qed.
(** The block has no other buffer. *)
Lemma insert_uniq B' i j bi bj : same_core B B' -> zget B' i = Some bi -> zget B' j = Some bj ->
  b_dev bi <> 0 -> b_dev bi = b_dev bj -> b_blocknr bi = b_blocknr bj -> i = j.
Proof.
  intros Rc Ei Ej Hdi Hde Hbe.
  destruct (same_core_get _ _ _ _ Rc Ei) as (b0 & E0 & Hc). apply core_hash in Hc as (Hc1 & Hc2 & _).
  destruct (same_core_get _ _ _ _ Rc Ej) as (b1 & E1 & Hc). apply core_hash in Hc as (Hc3 & Hc4 & _).
  destruct (decide (i = bh)) as [->|Hi].
  - symmetry. rewrite E in E0. injection E0 as <-. apply (Hnew j b1); congruence.
  - destruct (decide (j = bh)) as [->|Hj].
    + rewrite E in E1. injection E1 as <-. apply (Hnew i b0); congruence.
    + apply (lo_uniq _ _ _ _ _ _ L i j b0 b1); congruence.
Qed.
(** The last buffer of the free list. *)
Lemma last_range z : link b_prev_free B fl = Some z -> 0 <= z < zlen B.
Proof.
  intros Hz. pose proof (lo_ring _ _ _ _ _ _ L) as Hr. destruct (decide (l' = [])) as [->|Hl'].
  - cbn in Hr. destruct Hr as (_ & Hr & _). assert (fl ∈ [fl]) as Hin by set_solver.
    apply (lo_all _ _ _ _ _ _ L) in Hin as [Hin _]. congruence.
  - destruct (exists_last Hl') as (l'' & z' & ->). pose proof (ring_ends _ _ _ _ _ Hr) as [_ Hz'].
    rewrite Hz in Hz'. injection Hz' as ->. apply (lo_all _ _ _ _ _ _ L). set_solver.
Qed.

Lemma insert_ok nb s :
  exists B' nb',
    insert_into_queues bh (sb B fl H nb s) = Done tt (sb B' fl (zset H (b_hash b) (Some bh)) nb' s) /\
    lists_ok B' fl (zset H (b_hash b) (Some bh)) None (fl :: l' ++ [bh]) chains' /\ same_core B B'.
Proof.
  pose proof (hashfn_range (b_dev b) (b_blocknr b)) as Hh. fold (b_hash b) in Hh.
  destruct (lo_hash _ _ _ _ _ _ L _ Hh) as (Hq & _ & _).
  pose proof (lo_nodup _ _ _ _ _ _ L) as Hnd.
  assert (Hflin : fl ∈ fl :: l') by set_solver. apply (lo_all _ _ _ _ _ _ L) in Hflin as [Hflr Hflo].
  assert (Hne : fl <> bh) by congruence.
  assert (Hout : bh ∉ fl :: l') by (intros Hi; apply (lo_all _ _ _ _ _ _ L) in Hi as [_ Hi]; done).
  destruct (zget_is_Some _ _ Hflr) as [f Ef].
  destruct (ring_neighbours _ _ [] fl l' (lo_ring _ _ _ _ _ _ L)) as (z & n & Hz & _ & _).
  pose proof Hz as Hz'. rewrite (link_get _ _ _ _ Ef) in Hz'.
  destruct (insert_spec B fl H nb s bh b f z (head (C (b_hash b))) E Ef Hz' (last_range z Hz) Hne Hdev Hq) as (B' & nb' & Hrun & R).
  { intros x Ex. apply head_Some_elem_of in Ex. apply (lo_in _ _ _ _ _ _ L) in Ex as (_ & b2 & E2 & _); [|done].
    by eapply zget_Some_range. }
  pose proof R as (Rc & Rn & Rp & Rnf & Rpf). pose proof (same_core_len B B' Rc) as Hlen.
  exists B', nb'. split; [exact Hrun|]. split; [|exact Rc]. split.
  - done.
  - rewrite app_comm_cons. apply NoDup_app. split_and!; [done| |apply NoDup_singleton].
    intros i Hi Hj. apply list_elem_of_singleton in Hj as ->. done.
  - intros i. rewrite Hlen, app_comm_cons, elem_of_app, (lo_all _ _ _ _ _ _ L), list_elem_of_singleton.
    split; [intros [[? _]| ->]; split; done || by eapply zget_Some_range|].
    intros [Hi _]. destruct (decide (i = bh)); [by right|left]. split; [done|congruence].
  - eapply ring_ext; [|apply ring_insert; [by apply NoDup_cons|exact (lo_ring _ _ _ _ _ _ L)|exact Hz]].
    intros i _. by rewrite Rnf, Rpf.
  - rewrite zlen_zset. apply L.
  - intros h Hh'. destruct (insert_chain h B' _ _ R Hh') as [H1 H2]. split; [|done].
    unfold chains'. destruct (decide (h = b_hash b)) as [->|Hn].
    + apply zget_zset_eq. rewrite (lo_size _ _ _ _ _ _ L). done.
    + rewrite zget_zset_ne by done. by apply (lo_hash _ _ _ _ _ _ L).
  - intros h i. by apply insert_in.
  - intros i b1 _. eapply insert_off. exact R.
  - intros i j bi bj _ _. by apply (insert_uniq B').
Qed.
End insert.

End BufferProps.
