(* ===== verification/Cache.v ===== *)
(** * [getblk] and [bread]

    On top of the lists of [BufferProps]: which buffer [getblk] answers, what it does to
    the cache, and that the cache is transparent over the ram disk. *)

From S2P Require Import Prelude Bytes Links Task UserMem BlkQueue BlkProps FsState Ramdisk RdProps.
From S2P Require Import Buffer BufferProps.
Import BlkQueue BlkProps FsState Ramdisk RdProps Buffer BufferProps.

Module Cache.

Definition has_id (dev block : Z) (b : buffer_head) : Prop := b_dev b = dev /\ b_blocknr b = block.
#[export] Instance has_id_dec dev block b : Decision (has_id dev block b).
Proof. unfold has_id. apply _. Defined.

(** Nobody does I/O on any buffer. *)
Definition unlocked (B : list buffer_head) : Prop := forall i b, zget B i = Some b -> b_lock b = 0.

(** No buffer has the block. *)
Definition uncached (B : list buffer_head) (dev block : Z) : Prop :=
  forall i b, zget B i = Some b -> ~ has_id dev block b.

Section find.
Context (B : list buffer_head) (fl : Z) (H : list (option Z)) (nb : option Z) (s : kern).
Context (dev block : Z) (Hblock : 0 <= block < 2 ^ 32).
Local Abbreviation S0 := (sb B fl H nb s).

Lemma find_in_spec c q fuel :
  (length c < fuel)%nat -> (forall i, i ∈ c -> exists b, zget B i = Some b) ->
  hseg (link b_next B) (link b_prev B) q c ->
  exists o, find_in fuel (head c) dev block S0 = Done o S0 /\
    match o with
    | Some i => exists b, zget B i = Some b /\ has_id dev block b
    | None => forall i b, i ∈ c -> zget B i = Some b -> ~ has_id dev block b
    end.
Proof.
  revert q fuel. induction c as [|x c IH]; intros q [|fuel] Hf Hc Hs; try (cbn in Hf; lia).
  { exists None. split; [done|]. intros i b Hi. by apply elem_of_nil in Hi. }
  destruct Hs as (_ & Hn & Hs). destruct (Hc x) as [b E]; [set_solver|].
  rewrite (link_get _ _ _ _ E) in Hn. cbn [find_in head].
  erewrite done_bind by by apply bh_at_sb. rewrite (u32_small block) by done.
  destruct (decide (has_id dev block b)) as [Hid|Hid].
  { exists (Some x). rewrite decide_True by exact Hid. split; [done|]. by exists b. }
  rewrite decide_False by exact Hid. rewrite Hn.
  destruct (IH (Some x) fuel) as (o & Ho & Hm); [cbn in Hf; lia| |done|].
  { intros i Hi. apply Hc. set_solver. }
  exists o. split; [exact Ho|]. destruct o as [i|]; [done|].
  intros i b' [->|Hi]%elem_of_cons E'; [|by apply (Hm i)]. rewrite E in E'. by injection E' as <-.
Qed.

Context (l : list Z) (C : Z -> list Z) (L : lists_ok B fl H None l C) (Hdev : dev <> 0).

Lemma chain_length h : 0 <= h < NR_HASH -> (length (C h) <= length B)%nat.
Proof.
  intros Hh. destruct (lo_hash _ _ _ _ _ _ L h Hh) as (_ & Hn & _).
  transitivity (length (map Z.of_nat (seq 0 (length B)))); [|by rewrite length_map, length_seq].
  apply submseteq_length, NoDup_submseteq; [done|]. intros i Hi.
  apply (lo_in _ _ _ _ _ _ L) in Hi as (_ & b & E & _); [|done].
  apply zget_Some_range in E. unfold zlen in E. apply list_elem_of_In, in_map_iff.
  exists (Z.to_nat i). split; [lia|]. apply in_seq. lia.
Qed.

Lemma find_buffer_spec fuel :
  (length B < fuel)%nat ->
  exists o, find_buffer fuel dev block S0 = Done o S0 /\
    match o with
    | Some i => exists b, zget B i = Some b /\ has_id dev block b
    | None => uncached B dev block
    end.
Proof.
  intros Hf. pose proof (hashfn_range dev block) as Hh.
  destruct (lo_hash _ _ _ _ _ _ L _ Hh) as (Hq & _ & Hs). pose proof (chain_length _ Hh) as Hl.
  destruct (find_in_spec (C (_hashfn dev block)) None fuel) as (o & Ho & Hm); [lia| |done|].
  { intros i Hi. apply (lo_in _ _ _ _ _ _ L) in Hi as (_ & b & E & _); [|done]. by exists b. }
  exists o. split; [unfold find_buffer; by erewrite done_bind by by apply hash_sb|].
  destruct o as [i|]; [done|]. intros i b E Hid. apply (Hm i b); [|done..].
  apply (lo_in _ _ _ _ _ _ L); [done|]. split; [done|]. exists b. destruct Hid as [<- <-]. done.
Qed.

Lemma find_buffer_hit fuel i b :
  (length B < fuel)%nat -> zget B i = Some b -> has_id dev block b ->
  find_buffer fuel dev block S0 = Done (Some i) S0.
Proof.
  intros Hf E Hid. destruct (find_buffer_spec fuel Hf) as ([j|] & -> & Hm); [|by destruct (Hm i b)].
  destruct Hm as (b' & E' & Hd' & Hb'). destruct Hid as [Hd Hb]. do 2 f_equal.
  apply (lo_uniq _ _ _ _ _ _ L j i b' b); congruence.
Qed.

Lemma find_buffer_miss fuel :
  (length B < fuel)%nat -> uncached B dev block -> find_buffer fuel dev block S0 = Done None S0.
Proof.
  intros Hf Hu. destruct (find_buffer_spec fuel Hf) as ([j|] & -> & Hm); [|done].
  destruct Hm as (b & E & Hid). by destruct (Hu j b).
Qed.
End find.

(** ** Taking a buffer over *)

(** No buffer is locked; [b_dirt] is an unsigned byte. *)
Definition settled (B : list buffer_head) : Prop :=
  forall i b, zget B i = Some b -> b_lock b = 0 /\ 0 <= b_dirt b.

(** Neither in use nor waiting to be written. *)
Definition reusable (b : buffer_head) : Prop := b_count b = 0 /\ b_dirt b = 0.

(** What [getblk] makes of the buffer it takes. *)
Definition taken (dev block : Z) (b : buffer_head) : buffer_head :=
  set_b_id dev block (set_uptodate 0 (set_dirt 0 (set_b_count 1 b))).

Section take.
Context (B : list buffer_head) (fl : Z) (H : list (option Z)) (l1 l2 : list Z) (C : Z -> list Z).
Context (dev block bh : Z) (b : buffer_head).
Hypothesis (L : lists_ok B fl H None (l1 ++ bh :: l2) C).
Hypothesis (E : zget B bh = Some b).
Hypothesis (Hmore : l1 ++ l2 <> []).
Hypothesis (Hdev : 0 < dev < 2 ^ 16).
Hypothesis (Hblock : 0 <= block < 2 ^ 32).
Hypothesis (Hnew : uncached B dev block).

Lemma same_core_zset_other B1 B2 i j b' :
  same_core B1 B2 -> i <> j -> core <$> zget (zset B2 i b') j = core <$> zget B1 j.
Proof. intros Hc Hij. rewrite zget_zset_ne by done. apply Hc. Qed.

Lemma take_buffer_ok nb s :
  exists B' fl' H' nb' C',
    take_buffer bh dev block (sb B fl H nb s) = Done tt (sb B' fl' H' nb' s) /\
    lists_ok B' fl' H' None (l1 ++ l2 ++ [bh]) C' /\
    forall i, core <$> zget B' i = if decide (i = bh) then Some (core (taken dev block b)) else core <$> zget B i.
Proof.
  pose proof (zget_Some_range _ _ _ E) as Hr. unfold take_buffer.
  set (b0 := set_uptodate 0 (set_dirt 0 (set_b_count 1 b))).
  erewrite done_bind by by apply set_bh_sb. fold b0.
  assert (L0 : lists_ok (zset B bh b0) fl H None (l1 ++ bh :: l2) C).
  { apply (lists_ok_shape B); [apply zlen_zset| |done]. intros i _. rewrite zget_zset by done.
    case_decide; [subst; by rewrite E|done]. }
  assert (E0 : zget (zset B bh b0) bh = Some b0) by by apply zget_zset_eq.
  destruct (remove_ok _ _ _ _ _ _ _ _ L0 E0 Hmore nb s) as (B1 & fl1 & H1 & Hrun1 & L1 & Hc1).
  erewrite done_bind by exact Hrun1.
  destruct (same_core_get _ _ _ _ (same_core_sym _ _ Hc1) E0) as (b1 & E1 & Hb1).
  pose proof (zget_Some_range _ _ _ E1) as Hr1.
  erewrite done_bind by by apply set_bh_sb.
  set (b2 := set_b_id dev block b1). set (B2 := zset B1 bh b2).
  assert (Hb2 : core b2 = core (taken dev block b)).
  { unfold b2, taken. fold b0. revert Hb1. clear. destruct b1, b0. unfold core, set_b_id. cbn. congruence. }
  assert (Hid : has_id dev block b2) by (split; cbn; [apply u16_small|apply u32_small]; lia).
  assert (E2 : zget B2 bh = Some b2) by by apply zget_zset_eq.
  assert (Ho : forall i, i <> bh -> core <$> zget B2 i = core <$> zget B i).
  { intros i Hi. unfold B2. rewrite zget_zset_ne by done. rewrite Hc1. by rewrite zget_zset_ne. }
  assert (L2 : lists_ok B2 fl1 H1 (Some bh) (l1 ++ l2) (fun h => del bh (C h))).
  { apply (lists_ok_shape B1); [apply zlen_zset| |done]. intros i Hi. unfold B2.
    rewrite zget_zset_ne; [done|]. congruence. }
  pose proof (lo_head _ _ _ _ _ _ L2) as Hhd.
  destruct (l1 ++ l2) as [|x l'] eqn:El; [done|]. injection Hhd as ->.
  destruct (insert_ok _ _ _ _ _ _ _ L2 E2) with (nb := nb) (s := s) as (B3 & nb3 & Hrun3 & L3 & Hc3).
  - destruct Hid as [-> _]. lia.
  - destruct Hid as [-> ->]. intros i b' Eb Hd Hb. destruct (decide (i = bh)) as [->|Hi]; [done|].
    specialize (Ho i Hi). rewrite Eb in Ho. destruct (zget B i) as [b''|] eqn:Ei; [|done].
    apply (inj Some), core_fields in Ho as (Hd' & Hb' & _). destruct (Hnew i b''); [done|]. split; congruence.
  - eexists B3, _, _, nb3, _. split; [exact Hrun3|].
    rewrite app_assoc, El. split; [exact L3|]. intros i. rewrite Hc3. case_decide as Hi; [|by apply Ho].
    subst i. rewrite E2. cbn. by rewrite Hb2.
Qed.
End take.

(** ** [getblk] *)

Section getblk.
Context {HM : Machine} (sync_inodes : M kern unit).
Context (B : list buffer_head) (fl : Z) (H : list (option Z)) (nb : option Z) (s : kern).
Local Abbreviation S0 := (sb B fl H nb s).

Lemma wait_unlocked i b fuel :
  zget B i = Some b -> b_lock b = 0 -> wait_on_buffer (S fuel) i S0 = Done tt S0.
Proof.
  intros E L. unfold wait_on_buffer. cbn [wait_on_buffer_]. erewrite done_bind by by apply bh_at_sb.
  by rewrite decide_False by (intros ?; done).
Qed.

(** The scan stops at the first reusable buffer. *)
Lemma scan_free_spec l0 l1 bh l2 b acc fuel :
  NoDup (l0 ++ l1 ++ bh :: l2) -> ring (link b_next_free B) (link b_prev_free B) (l0 ++ l1 ++ bh :: l2) ->
  head (l0 ++ l1 ++ bh :: l2) = Some fl ->
  (forall i, i ∈ l1 -> exists b', zget B i = Some b' /\ ~ reusable b') ->
  zget B bh = Some b -> reusable b -> settled B ->
  match acc with Some a => exists a', zget B a = Some a' /\ 0 < BADNESS a' | None => True end ->
  (length l1 < fuel)%nat ->
  scan_free fuel (default bh (head l1)) acc S0 = Done (Some bh) S0.
Proof.
  intros Hd Hr Hh Hl E Hf Hs. revert l0 acc fuel Hd Hr Hh Hl.
  assert (Hbad : forall i b', zget B i = Some b' -> BADNESS b' = 2 * b_dirt b').
  { intros i b' E'. unfold BADNESS. destruct (Hs i b' E') as [-> _].
    rewrite Z.shiftl_mul_pow2 by lia. lia. }
  induction l1 as [|x l1 IH]; intros l0 acc [|fuel] Hd Hr Hh Hl Hacc Hlen; try (cbn in Hlen; lia).
  - cbn [default head scan_free]. erewrite done_bind by by apply bh_at_sb.
    pose proof (Hbad _ _ E) as Hb. destruct Hf as [Hc Hdi]. rewrite Hdi in Hb.
    rewrite decide_False by (intros ?; done).
    destruct acc as [a|].
    + destruct Hacc as (a' & Ea & Ha). erewrite done_bind.
      2: { erewrite done_bind by by apply bh_at_sb. done. }
      rewrite bool_decide_eq_true_2 by lia. by rewrite decide_True by lia.
    + rewrite ret_bind. by rewrite decide_True by lia.
  - cbn [default head scan_free].
    destruct (Hl x) as (bx & Ex & Hx); [set_solver|]. erewrite done_bind by by apply bh_at_sb.
    assert (Hnx : b_next_free bx = Some (default bh (head l1)) /\ default bh (head l1) <> fl).
    { destruct (l1 ++ bh :: l2) as [|y l'] eqn:Ey; [by destruct l1|].
      assert (y = default bh (head l1)) as -> by (destruct l1; cbn in Ey |- *; congruence).
      rewrite <- app_comm_cons, Ey in *.
      pose proof (ring_next _ _ l0 x _ l' Hr) as [Hnx _]. rewrite (link_get _ _ _ _ Ex) in Hnx.
      split; [done|]. intros Heq. rewrite Heq in *.
      destruct l0 as [|z l0]; cbn in Hh; injection Hh as ->.
      - apply NoDup_cons in Hd as [Hd _]. set_solver.
      - apply NoDup_cons in Hd as [Hd _]. set_solver. }
    destruct Hnx as [Hnx Hne].
    assert (Hnext : forall acc', match acc' with Some a => exists a', zget B a = Some a' /\ 0 < BADNESS a' | None => True end ->
      (q ← deref "b_next_free" (b_next_free bx); f ← gets free_list;
       if decide (q = f) then mret acc' else scan_free fuel q acc') S0 = Done (Some bh) S0).
    { intros acc' Hacc'. rewrite Hnx, deref_bind, gets_bind. cbn [free_list sb].
      rewrite decide_False by done. fold (sb B fl H nb s).
      apply (IH (l0 ++ [x]) acc' fuel); rewrite <- ?app_assoc; cbn [app]; [done|done|done| |done|cbn in Hlen; lia].
      intros i Hi. apply Hl. set_solver. }
    destruct (decide (b_count bx <> 0)) as [Hc|Hc]; [by apply Hnext|].
    assert (Hpos : 0 < BADNESS bx).
    { rewrite (Hbad _ _ Ex). destruct (Hs _ _ Ex) as [_ ?].
      assert (b_dirt bx <> 0); [|lia]. intros ?. apply Hx. split; [|done].
      destruct (decide (b_count bx = 0)); [done|]. by destruct Hc. }
    destruct acc as [a|].
    + destruct Hacc as (a' & Ea & Ha). erewrite done_bind.
      2: { erewrite done_bind by by apply bh_at_sb. done. }
      case_bool_decide; [rewrite decide_False by lia|]; apply Hnext; eauto.
    + rewrite ret_bind, decide_False by lia. apply Hnext; eauto.
Qed.

Context (l : list Z) (C : Z -> list Z).
Context (dev block : Z) (Hdev : 0 < dev < 2 ^ 16) (Hblock : 0 <= block < 2 ^ 32).
Context (fuel : nat) (Hfuel : (length B < fuel)%nat).

(** The buffer that has the block gets one more reference. *)
Lemma get_hash_cached i b :
  lists_ok B fl H None l C -> zget B i = Some b -> has_id dev block b -> b_lock b = 0 ->
  get_hash_table fuel dev block S0 = Done (Some i) (sb (zset B i (set_b_count (b_count b + 1) b)) fl H nb s).
Proof.
  intros L E Hid Hl. pose proof (zget_Some_range _ _ _ E) as Hr. unfold get_hash_table.
  destruct fuel as [|fuel']; [lia|]. remember (S fuel') as n eqn:En. rewrite En at 2. cbn [get_hash_table_].
  erewrite done_bind by (eapply find_buffer_hit; [done|exact L|lia|exact Hfuel|exact E|exact Hid]).
  cbv beta iota. erewrite done_bind by by apply set_bh_sb.
  unfold wait_on_buffer. rewrite En. cbn [wait_on_buffer_].
  erewrite done_bind.
  2: { erewrite done_bind by (apply bh_at_sb; by apply zget_zset_eq).
       cbn [b_lock set_b_count]. by rewrite decide_False by (intros ?; done). }
  erewrite done_bind by (apply bh_at_sb; by apply zget_zset_eq).
  rewrite (u32_small block) by done. rewrite decide_True by exact Hid. done.
Qed.
Lemma get_hash_uncached l' :
  lists_ok B fl H None l' C -> uncached B dev block -> get_hash_table fuel dev block S0 = Done None S0.
Proof.
  intros L Hu. unfold get_hash_table. destruct fuel as [|fuel']; [lia|]. remember (S fuel') as n eqn:En. rewrite En at 2.
  cbn [get_hash_table_]. by erewrite done_bind by (eapply find_buffer_miss; [done|exact L|lia|done|done]).
Qed.

Lemma getblk_cached i b :
  lists_ok B fl H None l C -> zget B i = Some b -> has_id dev block b -> b_lock b = 0 ->
  getblk fuel sync_inodes dev block S0 =
    Done i (sb (zset B i (set_b_count (b_count b + 1) b)) fl H nb s).
Proof.
  intros L E Hid Hl. pose proof (get_hash_cached i b L E Hid Hl) as R. unfold getblk.
  destruct fuel as [|fuel']; [lia|]. cbn [getblk_]. by rewrite (done_bind _ _ _ _ _ R).
Qed.

Lemma getblk_uncached l1 bh l2 b :
  lists_ok B fl H None (l1 ++ bh :: l2) C -> l1 ++ l2 <> [] -> uncached B dev block -> settled B ->
  (forall i b', i ∈ l1 -> zget B i = Some b' -> ~ reusable b') -> zget B bh = Some b -> reusable b ->
  exists B' fl' H' nb' C',
    getblk fuel sync_inodes dev block S0 = Done bh (sb B' fl' H' nb' s) /\
    lists_ok B' fl' H' None (l1 ++ l2 ++ [bh]) C' /\
    forall i, core <$> zget B' i = if decide (i = bh) then Some (core (taken dev block b)) else core <$> zget B i.
Proof.
  intros L Hmore Hu Hs Hl E Hf.
  assert (Hlen : (length l1 < length B)%nat).
  { assert (Hle : (length (l1 ++ bh :: l2) <= length (map Z.of_nat (seq 0 (length B))))%nat).
    { apply submseteq_length, NoDup_submseteq; [exact (lo_nodup _ _ _ _ _ _ L)|]. intros i Hi.
      apply (lo_all _ _ _ _ _ _ L) in Hi as [Hi _]. unfold zlen in Hi.
      apply list_elem_of_In, in_map_iff. exists (Z.to_nat i). split; [lia|]. apply in_seq. lia. }
    rewrite length_map, length_seq, length_app in Hle. cbn in Hle. lia. }
  destruct (take_buffer_ok _ _ _ _ _ _ _ _ _ _ L E Hmore Hdev Hblock Hu nb s)
    as (B' & fl' & H' & nb' & C' & Hrun & HL & Hc).
  pose proof (get_hash_uncached _ L Hu) as Hnone.
  exists B', fl', H', nb', C'. split; [|done]. unfold getblk.
  destruct fuel as [|fuel']; [lia|]. remember (S fuel') as n eqn:En. rewrite En at 2. cbn [getblk_].
  assert (Hn : (length B < n)%nat) by lia.
  assert (Hmiss : find_buffer n dev block S0 = Done None S0).
  { eapply find_buffer_miss; [done|exact L|lia|done|done]. }
  rewrite (done_bind _ _ _ _ _ Hnone).
  cbv beta iota. rewrite gets_bind. cbn [free_list sb]. fold (sb B fl H nb s).
  assert (Hhd : fl = default bh (head l1)).
  { pose proof (lo_head _ _ _ _ _ _ L) as Hh. destruct l1; cbn in Hh |- *; congruence. }
  erewrite done_bind.
  2: { rewrite Hhd at 1. apply (scan_free_spec [] l1 bh l2 b); try apply L; try done; [|lia].
       intros i Hi. destruct (zget_is_Some B i) as [b' E'].
       - apply (lo_all _ _ _ _ _ _ L). set_solver.
       - exists b'. split; [done|]. by apply (Hl i). }
  destruct (Hs _ _ E) as [Hlk _]. destruct Hf as [Hc0 Hd0].
  erewrite done_bind by (rewrite En; by eapply wait_unlocked).
  erewrite done_bind by by apply bh_at_sb. rewrite decide_False by (intros ?; done).
  erewrite (done_bind (clean_buffer _ _ _ _)).
  2: { rewrite En at 2. cbn [clean_buffer]. erewrite done_bind by by apply bh_at_sb.
       by rewrite decide_False by (intros ?; done). }
  cbn [negb]. erewrite done_bind by exact Hmiss. cbv beta iota. by erewrite done_bind by exact Hrun.
Qed.
End getblk.

(** C10: [getblk] keeps the cache well-formed and answers the right buffer without sleeping
    when no buffer is locked.  If some buffer has the block it answers that one, with one
    more reference; otherwise it takes the first buffer of the free list that is neither in
    use nor dirty, gives it the block's identity with one reference, not up to date and
    clean, and moves it to the end of the list, so that buffers are reused in the order in
    which they were last taken.  No other buffer changes but in its links. *)
Theorem getblk_lru {HM : Machine} sync_inodes fuel dev block s l C :
  cache_ok s l C -> settled (bufs (kblk s)) -> 0 < dev < 2 ^ 16 -> 0 <= block < 2 ^ 32 ->
  (length (bufs (kblk s)) < fuel)%nat ->
  (forall i b, zget (bufs (kblk s)) i = Some b -> has_id dev block b ->
     exists s', getblk fuel sync_inodes dev block s = Done i s' /\ cache_ok s' l C /\
       bufs (kblk s') = zset (bufs (kblk s)) i (set_b_count (b_count b + 1) b)) /\
  (forall l1 bh l2 b, uncached (bufs (kblk s)) dev block -> l = l1 ++ bh :: l2 -> l1 ++ l2 <> [] ->
     (forall i b', i ∈ l1 -> zget (bufs (kblk s)) i = Some b' -> ~ reusable b') ->
     zget (bufs (kblk s)) bh = Some b -> reusable b ->
     exists s' C', getblk fuel sync_inodes dev block s = Done bh s' /\ cache_ok s' (l1 ++ l2 ++ [bh]) C' /\
       forall i, core <$> zget (bufs (kblk s')) i =
         if decide (i = bh) then Some (core (taken dev block b)) else core <$> zget (bufs (kblk s)) i).
Proof.
  intros L Hs Hdev Hblock Hf. split.
  - intros i b E Hid. pose proof (zget_Some_range _ _ _ E) as Hr. destruct (Hs i b E) as [Hl _].
    pose proof (getblk_cached sync_inodes (bufs (kblk s)) (free_list s) (hash_table s) (null_b_prev s) s
      l C dev block Hdev Hblock fuel Hf i b L E Hid Hl) as G. rewrite <- sb_id in G.
    eexists. split; [exact G|]. split; [|done].
    apply (lists_ok_shape (bufs (kblk s))); [apply zlen_zset| |exact L]. intros j _. cbn.
    rewrite zget_zset by done. case_decide; [subst; by rewrite E|done].
  - intros l1 bh l2 b Hu -> Hmore Hl1 E Hre.
    destruct (getblk_uncached sync_inodes (bufs (kblk s)) (free_list s) (hash_table s) (null_b_prev s) s
      C dev block Hdev Hblock fuel Hf l1 bh l2 b L Hmore Hu Hs Hl1 E Hre)
      as (B' & fl' & H' & nb' & C' & G & HL & Hcore).
    rewrite <- sb_id in G. exists (sb B' fl' H' nb' s), C'. done.
Qed.

(** ** [buffer_init] *)

Lemma lay_out_get fuel start n b m i x :
  zget (lay_out fuel start n b m) i = Some x ->
  b_dev x = 0 /\ b_count x = 0 /\ b_dirt x = 0 /\ b_lock x = 0 /\ b_uptodate x = 0 /\
  length (b_data x) = 1024%nat /\ b_prev x = None /\ b_next x = None /\
  b_prev_free x = Some (n + i - 1) /\ b_next_free x = Some (n + i + 1).
Proof.
  revert n b i. induction fuel as [|fuel IH]; intros n b i E; [by apply zget_nil in E|].
  cbn [lay_out] in E. case_decide as Hd; [|by apply zget_nil in E].
  rewrite zget_cons in E. destruct (decide (i = 0)) as [->|Hi].
  - injection E as <-. cbn [b_dev b_count b_dirt b_lock b_uptodate b_data b_prev b_next b_prev_free b_next_free].
    replace (n + 0 - 1) with (n - 1) by lia. replace (n + 0 + 1) with (n + 1) by lia.
    split_and!; try done.
  - apply IH in E. replace (n + i) with (n + 1 + (i - 1)) by lia. exact E.
Qed.

(** The indices from [k] on. *)
Definition zrange (k : Z) (n : nat) : list Z := map (fun j => k + Z.of_nat j) (seq 0 n).

Lemma zrange_cons k n : zrange k (S n) = k :: zrange (k + 1) n.
Proof.
  unfold zrange. cbn [seq map]. f_equal; [lia|]. rewrite <- seq_shift, map_map. apply map_ext. lia.
Qed.
Lemma elem_of_zrange k n i : i ∈ zrange k n <-> k <= i < k + Z.of_nat n.
Proof.
  revert k. induction n as [|n IH]; intros k; [split; [by intros ?%elem_of_nil|lia]|].
  rewrite zrange_cons, elem_of_cons, IH. lia.
Qed.
Lemma NoDup_zrange k n : NoDup (zrange k n).
Proof.
  revert k. induction n as [|n IH]; intros k; [apply NoDup_nil_2|]. rewrite zrange_cons.
  apply NoDup_cons. split; [|apply IH]. rewrite elem_of_zrange. lia.
Qed.

Lemma adj_zrange fn fp k n x :
  (forall i, k <= i < k + Z.of_nat n -> fn i = Some (i + 1) /\ fp (i + 1) = Some i) ->
  fn (k + Z.of_nat n) = Some x -> fp x = Some (k + Z.of_nat n) ->
  adj fn fp k (zrange (k + 1) n ++ [x]).
Proof.
  revert k. induction n as [|n IH]; intros k Hi Hn Hp.
  - cbn. replace (k + Z.of_nat 0) with k in * by lia. done.
  - rewrite zrange_cons. cbn [app adj]. destruct (Hi k) as [H1 H2]; [lia|].
    split; [done|]. split; [done|]. apply IH; [intros i ?; apply Hi; lia|..].
    + by replace (k + 1 + Z.of_nat n) with (k + Z.of_nat (S n)) by lia.
    + by replace (k + 1 + Z.of_nat n) with (k + Z.of_nat (S n)) by lia.
Qed.

(** The buffers [buffer_init] lays out. *)
Definition initial (start_buffer buffer_end : Z) (m : gmap Z Z) : list buffer_head :=
  let b := if decide (buffer_end = 0x100000) then 640 * 1024 else buffer_end in
  lay_out (Z.to_nat (b / BLOCK_SIZE)) start_buffer 0 b m.

Lemma zget_replicate {A} (x : A) n i : 0 <= i < n -> zget (replicate (Z.to_nat n) x) i = Some x.
Proof. intros. unfold zget. rewrite decide_True by lia. apply lookup_replicate_2. lia. Qed.

(** The links that close the free list. *)
Lemma initial_ring start b m n fuel L :
  L = lay_out fuel start 0 b m -> length L = S n ->
  ring (upd (link b_next_free L) (Z.of_nat n) (Some 0)) (upd (link b_prev_free L) 0 (Some (Z.of_nat n)))
    (zrange 0 (S n)).
Proof.
  intros EL Hn.
  assert (Hg : forall i, 0 <= i < Z.of_nat (S n) ->
    link b_next_free L i = Some (i + 1) /\ link b_prev_free L i = Some (i - 1)).
  { intros i Hi. destruct (zget_is_Some L i) as [b' E]; [unfold zlen; lia|].
    rewrite !(link_get _ _ _ _ E). rewrite EL in E.
    apply lay_out_get in E as (_ & _ & _ & _ & _ & _ & _ & _ & -> & ->). done. }
  rewrite zrange_cons. cbn [ring]. apply adj_zrange.
  - intros i Hi. rewrite !upd_ne by lia. destruct (Hg i) as [-> _]; [lia|].
    destruct (Hg (i + 1)) as [_ ->]; [lia|]. split; [done|]. f_equal. lia.
  - apply upd_eq.
  - apply upd_eq.
Qed.

(** What holds of every buffer after [buffer_init]. *)
Definition fresh (b : buffer_head) : Prop :=
  b_dev b = 0 /\ b_count b = 0 /\ b_dirt b = 0 /\ b_lock b = 0 /\ length (b_data b) = 1024%nat.

Lemma buffer_init_cache start_buffer buffer_end s :
  (1 < length (initial start_buffer buffer_end (kmem s)))%nat ->
  exists B', let s' := sb B' 0 (replicate (Z.to_nat NR_HASH) None) (null_b_prev s) s in
    buffer_init start_buffer buffer_end s = Done tt s' /\
    length B' = length (initial start_buffer buffer_end (kmem s)) /\
    cache_ok s' (zrange 0 (length B')) (fun _ => []) /\
    forall i b, zget B' i = Some b -> fresh b.
Proof.
  set (L := initial start_buffer buffer_end (kmem s)). intros Hlen.
  destruct (length L) as [|n] eqn:El; [lia|].
  assert (Hz : zlen L = Z.of_nat (S n)) by (unfold zlen; by rewrite El).
  set (H := replicate (Z.to_nat NR_HASH) None).
  pose proof (relinked_refl L) as R.
  destruct (relink_prev_free L L _ _ _ _ 0 H (null_b_prev s) s R 0 (Some (zlen L - 1))) as (B1 & Hr1 & R1); [lia|].
  destruct (relink_next_free L B1 _ _ _ _ 0 H (null_b_prev s) s R1 (zlen L - 1) (Some 0)) as (B2 & Hr2 & R2); [lia|].
  pose proof R2 as (Rc & Rn & Rp & Rnf & Rpf).
  assert (Hl2 : zlen B2 = zlen L) by by apply same_core_len.
  assert (El2 : length B2 = S n) by (unfold zlen in *; lia).
  assert (Hg : forall i b, zget B2 i = Some b -> fresh b /\ b_next b = None /\ b_prev b = None).
  { intros i b E. destruct (same_core_get _ _ _ _ Rc E) as (b0 & E0 & Hc).
    pose proof (link_get b_next _ _ _ E) as En. pose proof (link_get b_prev _ _ _ E) as Ep.
    rewrite Rn, (link_get _ _ _ _ E0) in En. rewrite Rp, (link_get _ _ _ _ E0) in Ep.
    apply core_fields in Hc as (H1 & _ & H3 & H4 & H5 & _ & H7). unfold fresh.
    rewrite <- H1, <- H3, <- H4, <- H5, <- H7, <- En, <- Ep.
    apply lay_out_get in E0. tauto. }
  exists B2. split_and!.
  - unfold buffer_init. rewrite gets_bind. fold (initial start_buffer buffer_end (kmem s)). fold L.
    erewrite done_bind by reflexivity. rewrite modify_bind.
    erewrite done_bind by exact Hr1. exact Hr2.
  - done.
  - rewrite El2. split.
    + by rewrite zrange_cons.
    + apply NoDup_zrange.
    + intros i. rewrite elem_of_zrange. cbn [bufs kblk sb]. rewrite Hl2, Hz. split; [intros; split; done || lia|lia].
    + eapply ring_ext; [|by eapply (initial_ring start_buffer _ _ n)]. intros i _. cbn [bufs kblk sb].
      rewrite Rnf, Rpf. replace (zlen L - 1) with (Z.of_nat n) by lia. done.
    + unfold H. cbn [hash_table sb]. rewrite zlen_replicate. done.
    + intros h Hh. split; [by apply zget_replicate|]. split; [apply NoDup_nil_2|done].
    + intros h i _. split; [by intros ?%elem_of_nil|]. intros (_ & b & E & Hd & _).
      apply Hg in E as [[Hd' _] _]. done.
    + intros i b _ E _. by apply Hg in E as [_ E].
    + intros i j b b' _ _ E _ Hd. apply Hg in E as [[Hd' _] _]. done.
  - intros i b E. by apply Hg in E as [E _].
Qed.

(** After [buffer_init] the free list is one ring through every buffer header in the
    order of their addresses, the 307 hash queues are empty, and every buffer is free,
    clean and unlocked. *)
Theorem buffer_init_ok start_buffer buffer_end s :
  (1 < length (initial start_buffer buffer_end (kmem s)))%nat ->
  exists s', buffer_init start_buffer buffer_end s = Done tt s' /\
    cache_ok s' (zrange 0 (length (bufs (kblk s')))) (fun _ => []) /\
    forall i b, zget (bufs (kblk s')) i = Some b -> fresh b.
Proof.
  intros H. destruct (buffer_init_cache _ _ _ H) as (B' & H1 & _ & H2 & H3).
  eexists. split; [exact H1|]. by split.
Qed.

End Cache.
