(* ===== verification/RdCache.v ===== *)
(** * The cache over the ram disk

    [bread] answers a block's current contents, wherever they are: in a buffer that is up
    to date, or on the disk.  The cache keeps every block's contents through the reuse of
    buffers, because it only reuses clean ones. *)

From S2P Require Import Prelude Bytes Links Task UserMem BlkQueue BlkProps FsState Ramdisk RdProps.
From S2P Require Import Buffer BufferProps Cache.
Import BlkQueue BlkProps FsState Ramdisk RdProps Buffer BufferProps Cache.

Module RdCache.

Definition RD : Z := 0x101.
Definition buf (s : kern) (i : Z) : option buffer_head := zget (bufs (kblk s)) i.
Definition on_disk (s : kern) (n : Z) : list Z := kread 1024 (rd_addr s n) (kmem s).

(** What block [n] of the ram disk holds, as the callers of the cache see it. *)
Definition holds (s : kern) (n : Z) (d : list Z) : Prop :=
  (exists i b, buf s i = Some b /\ has_id RD n b /\ b_uptodate b <> 0 /\ b_data b = d) \/
  ((forall i b, buf s i = Some b -> has_id RD n b -> b_uptodate b = 0) /\ on_disk s n = d).

(** A clean buffer agrees with the disk. *)
Definition coherent (s : kern) : Prop :=
  forall i b, buf s i = Some b -> b_dev b = RD -> b_uptodate b <> 0 -> b_dirt b = 0 ->
    b_data b = on_disk s (b_blocknr b).

Definition sized (B : list buffer_head) : Prop := forall i b, zget B i = Some b -> length (b_data b) = 1024%nat.

(** The cache and the disk between two operations. *)
Record steady (s : kern) (l : list Z) (C : Z -> list Z) : Prop := {
  st_cache : cache_ok s l C;
  st_settled : settled (bufs (kblk s));
  st_sized : sized (bufs (kblk s));
  st_coherent : coherent s;
  st_idle : idle s
}.

(** [n] is a block of the disk. *)
Definition rd_has (s : kern) (n : Z) : Prop :=
  0 <= n < 2 ^ 21 /\ 0 <= rd_start s /\ 1024 * (n + 1) <= rd_length s /\ rd_start s + rd_length s < 2 ^ 32.

(** What the change of one buffer leaves alone. *)
Definition other_bufs (s s' : kern) (bh : Z) : Prop :=
  (forall i, i <> bh -> core <$> buf s' i = core <$> buf s i) /\
  kmem s' = kmem s /\ rd_start s' = rd_start s.

(** What the cache does not touch. *)
Definition outside (s : kern) :=
  (inode_table s, last_inode s, super_block s, file_table s, ROOT_DEV s, kuser s, kmem s, (rd_start s, rd_length s), khd s).

Lemma other_bufs_get s s' bh i b :
  other_bufs s s' bh -> i <> bh -> buf s' i = Some b ->
  exists b0, buf s i = Some b0 /\ core b0 = core b.
Proof.
  intros (Ho & _) Hi E. specialize (Ho i Hi). rewrite E in Ho. destruct (buf s i) as [b0|]; [|done].
  apply (inj Some) in Ho. by exists b0.
Qed.
Lemma other_bufs_sym s s' bh : other_bufs s s' bh -> other_bufs s' s bh.
Proof. intros (Ho & Hm & Hr). split_and!; [|done..]. intros i Hi. by rewrite Ho. Qed.
Lemma other_bufs_trans s1 s2 s3 bh : other_bufs s1 s2 bh -> other_bufs s2 s3 bh -> other_bufs s1 s3 bh.
Proof.
  intros (Ho & Hm & Hr) (Ho' & Hm' & Hr'). split_and!; [|congruence..]. intros i Hi. by rewrite Ho', Ho.
Qed.
Lemma other_bufs_disk s s' bh n : other_bufs s s' bh -> on_disk s' n = on_disk s n.
Proof. intros (_ & Hm & Hr). unfold on_disk, rd_addr. by rewrite Hm, Hr. Qed.

(** A buffer that was clean changes hands, or keeps its block: no other block changes. *)
Lemma holds_other s s' l C bh b b' n m d :
  other_bufs s s' bh -> cache_ok s l C -> coherent s ->
  buf s bh = Some b -> buf s' bh = Some b' -> has_id RD n b' -> b_dirt b = 0 \/ has_id RD n b ->
  m <> n -> holds s m d -> holds s' m d.
Proof.
  intros Ho Hc Hco E E' Hid' Hb Hmn Hm. pose proof (other_bufs_sym _ _ _ Ho) as Ho'.
  assert (Hn : ~ has_id RD m b') by (unfold has_id in *; lia).
  destruct Hm as [(i & bi & Ei & Hi & Hu & Hd)|[Hnu Hd]].
  - destruct (decide (i = bh)) as [->|Hne].
    + right. rewrite E in Ei. injection Ei as <-.
      split.
      * intros j bj Ej Hj. destruct (decide (j = bh)) as [->|Hjb]; [congruence|].
        destruct (other_bufs_get _ _ _ _ _ Ho Hjb Ej) as (b0 & E0 & (Hd0 & Hb0 & _)%core_fields).
        destruct Hj as [Hj1 Hj2]. destruct Hi as [Hi1 Hi2]. destruct Hjb.
        apply (lo_uniq _ _ _ _ _ _ Hc j bh b0 b); unfold RD in *; done || congruence.
      * destruct Hb as [Hb|Hb]; [|unfold has_id in *; lia].
        rewrite (other_bufs_disk _ _ _ _ Ho), <- Hd. destruct Hi as [Hi1 <-]. symmetry. by apply (Hco bh).
    + left. destruct (other_bufs_get _ _ _ _ _ Ho' Hne Ei) as (b0 & E0 & Hc0).
      apply core_fields in Hc0 as (H1 & H2 & _ & _ & _ & H3 & H4).
      exists i, b0. unfold has_id in *. rewrite H1, H2, H3, H4. done.
  - right. split; [|by rewrite (other_bufs_disk _ _ _ _ Ho)].
    intros j bj Ej Hj. destruct (decide (j = bh)) as [->|Hjb]; [congruence|].
    destruct (other_bufs_get _ _ _ _ _ Ho Hjb Ej) as (b0 & E0 & (H1 & H2 & _ & _ & _ & H3 & _)%core_fields).
    rewrite <- H3. apply (Hnu j b0); [done|]. unfold has_id in *. by rewrite H1, H2.
Qed.

(** No block of the disk has lost its contents. *)
Definition keeps (s s' : kern) : Prop := forall m d, holds s m d -> holds s' m d.

(** What a buffer says about its block. *)
Definition facts (b : buffer_head) : Z * Z * Z * list Z := (b_dev b, b_blocknr b, b_uptodate b, b_data b).

Lemma keeps_facts s s' : (forall i, facts <$> buf s' i = facts <$> buf s i) -> (forall n, on_disk s' n = on_disk s n) -> keeps s s'.
Proof.
  intros Hf Hd m d.
  assert (Hget : forall s s', (forall i, facts <$> buf s' i = facts <$> buf s i) -> forall i b, buf s i = Some b ->
    exists b', buf s' i = Some b' /\ facts b' = facts b).
  { clear. intros s s' Hf i b E. specialize (Hf i). rewrite E in Hf. destruct (buf s' i) as [b'|]; [|done]. exists b'. split; [done|]. by apply (inj Some) in Hf. }
  intros [(i & b & E & Hi & Hu & Hb)|[Hn Hb]].
  - left. destruct (Hget s s' Hf i b E) as (b' & E' & [= F1 F2 F3 F4]). exists i, b'. unfold has_id. by rewrite F1, F2, F3, F4.
  - right. rewrite Hd. split; [|done]. intros i b' E' Hi. destruct (Hget s' s (fun i => eq_sym (Hf i)) i b' E') as (b & E & [= F1 F2 F3 F4]).
    rewrite <- F3. apply (Hn i b E). unfold has_id. by rewrite F1, F2.
Qed.

(** A change of one buffer that keeps what it says about its block. *)
Lemma keeps_one s s' bh b b' :
  other_bufs s s' bh -> buf s bh = Some b -> buf s' bh = Some b' -> facts b' = facts b -> keeps s s'.
Proof.
  intros Ho E E' Hf. apply keeps_facts; [|intros n; by apply (other_bufs_disk _ _ bh)]. intros i.
  destruct (decide (i = bh)) as [->|Hne]; [by rewrite E, E'; cbn; rewrite Hf|].
  destruct Ho as (Ho & _). specialize (Ho i Hne). destruct (buf s' i) as [b2|], (buf s i) as [b1|]; try done.
  apply (inj Some) in Ho as (H1 & H2 & _ & _ & _ & H3 & H4)%core_fields. cbn. unfold facts. by rewrite H1, H2, H3, H4.
Qed.
(** A clean buffer is taken for a block that no buffer has. *)
Lemma keeps_taken s s' l C bh b b' n :
  other_bufs s s' bh -> cache_ok s l C -> coherent s -> buf s bh = Some b -> buf s' bh = Some b' ->
  uncached (bufs (kblk s)) RD n -> has_id RD n b' -> b_uptodate b' = 0 -> b_dirt b = 0 -> keeps s s'.
Proof.
  intros Ho Hc Hco E E' Hu Hid' Hu' Hd m d Hm.
  destruct (decide (m = n)) as [->|Hmn]; [|by apply (holds_other s s' l C bh b b' n); try done; left].
  destruct Hm as [(j & bj & Ej & Hj & _)|[_ Hdj]]; [by destruct (Hu j bj)|].
  right. split; [|by rewrite (other_bufs_disk _ _ _ _ Ho)]. intros j bj Ej Hj.
  destruct (decide (j = bh)) as [->|Hji]; [congruence|].
  destruct (other_bufs_get _ _ _ _ _ Ho Hji Ej) as (b0 & E0 & (H1 & H2 & _)%core_fields).
  destruct (Hu j b0); [done|]. unfold has_id in *. by rewrite H1, H2.
Qed.

(** The properties of all buffers, from those of one. *)
Lemma all_other (P : buffer_head -> Prop) s s' bh b' :
  (forall b1 b2, core b1 = core b2 -> P b1 -> P b2) ->
  other_bufs s s' bh -> buf s' bh = Some b' -> P b' ->
  (forall i b, buf s i = Some b -> P b) -> forall i b, buf s' i = Some b -> P b.
Proof.
  intros Hp Ho E' Hb' Ha i b Ei. destruct (decide (i = bh)) as [->|Hne]; [congruence|].
  destruct (other_bufs_get _ _ _ _ _ Ho Hne Ei) as (b0 & E0 & Hc). by apply (Hp b0); [|apply (Ha i)].
Qed.

Lemma steady_other s s' l C l' C' bh b' :
  steady s l C -> other_bufs s s' bh -> cache_ok s' l' C' -> idle s' ->
  buf s' bh = Some b' -> b_lock b' = 0 -> 0 <= b_dirt b' -> length (b_data b') = 1024%nat ->
  (b_dev b' = RD -> b_uptodate b' <> 0 -> b_dirt b' = 0 -> b_data b' = on_disk s (b_blocknr b')) ->
  steady s' l' C'.
Proof.
  intros S Ho Hc Hi E' Hl Hd Hlen Hco. split; [done| | | |done].
  - intros i b. apply (all_other (fun b => b_lock b = 0 /\ 0 <= b_dirt b) s s' bh b'); try done; [|apply S].
    intros b1 b2 (_ & _ & _ & -> & -> & _)%core_fields. done.
  - intros i b. apply (all_other (fun b => length (b_data b) = 1024%nat) s s' bh b'); try done; [|apply S].
    intros b1 b2 (_ & _ & _ & _ & _ & _ & ->)%core_fields. done.
  - intros i b. rewrite (other_bufs_disk _ _ _ _ Ho).
    apply (all_other (fun b => b_dev b = RD -> b_uptodate b <> 0 -> b_dirt b = 0 ->
      b_data b = on_disk s (b_blocknr b)) s s' bh b'); try done; [|apply S].
    intros b1 b2 (-> & -> & _ & -> & _ & -> & ->)%core_fields. done.
Qed.

(** ** [getblk] *)

(** A buffer [getblk] may take, and another one. *)
Definition spare (B : list buffer_head) (l : list Z) : Prop :=
  (1 < length l)%nat /\ exists i b, i ∈ l /\ zget B i = Some b /\ reusable b.

(** The first of them in the list. *)
Lemma spare_first B l :
  spare B l ->
  exists l1 bh l2 b, l = l1 ++ bh :: l2 /\ l1 ++ l2 <> [] /\ zget B bh = Some b /\ reusable b /\
    forall i b', i ∈ l1 -> zget B i = Some b' -> ~ reusable b'.
Proof.
  intros (Hlen & i & b & Hi & E & Hr).
  assert (Hf : exists l1 bh l2 b, l = l1 ++ bh :: l2 /\ zget B bh = Some b /\ reusable b /\
    forall i b', i ∈ l1 -> zget B i = Some b' -> ~ reusable b').
  { clear Hlen. induction l as [|x l IH]; [by apply elem_of_nil in Hi|].
    destruct (zget B x) as [bx|] eqn:Ex.
    - assert (Hdec : reusable bx \/ ~ reusable bx) by (unfold reusable; lia).
      destruct Hdec as [Hx|Hx].
      + exists [], x, l, bx. split_and!; [done..|]. intros j b' Hj. by apply elem_of_nil in Hj.
      + apply elem_of_cons in Hi as [->|Hi]; [congruence|].
        destruct (IH Hi) as (l1 & bh & l2 & b0 & -> & E0 & H0 & H1).
        exists (x :: l1), bh, l2, b0. split_and!; [done..|].
        intros j b' [->|Hj]%elem_of_cons Ej; [congruence|by apply (H1 j)].
    - apply elem_of_cons in Hi as [->|Hi]; [congruence|].
      destruct (IH Hi) as (l1 & bh & l2 & b0 & -> & E0 & H0 & H1).
      exists (x :: l1), bh, l2, b0. split_and!; [done..|].
      intros j b' [->|Hj]%elem_of_cons Ej; [congruence|by apply (H1 j)]. }
  destruct Hf as (l1 & bh & l2 & b0 & -> & E0 & H0 & H1). exists l1, bh, l2, b0.
  split_and!; [done| |done..]. rewrite length_app in Hlen. cbn in Hlen. intros [-> ->]%app_eq_nil. cbn in Hlen. lia.
Qed.

(** Either some buffer has the block or none has. *)
Lemma cached_or_not B dev block :
  (exists i b, zget B i = Some b /\ has_id dev block b) \/ uncached B dev block.
Proof.
  induction B as [|b B IH] using rev_ind.
  { right. intros i b E. apply zget_Some_range in E. unfold zlen in E. cbn in E. lia. }
  assert (Hlast : zget (B ++ [b]) (zlen B) = Some b).
  { unfold zlen. rewrite zget_of_nat. by apply list_lookup_middle. }
  destruct (decide (has_id dev block b)) as [Hb|Hb]; [left; by eauto|].
  assert (Hold : forall i, i <> zlen B -> zget (B ++ [b]) i = zget B i).
  { clear IH Hlast. intros i Hi. unfold zget, zlen in *. destruct (decide (0 <= i)); [|done].
    destruct (decide (Z.to_nat i < length B)%nat); [by rewrite lookup_app_l|].
    rewrite (lookup_ge_None_2 B) by lia. apply lookup_ge_None_2. rewrite length_app. cbn. lia. }
  destruct IH as [(i & b' & E & Hi)|Hu].
  - left. exists i, b'. apply zget_Some_range in E as Hr. rewrite Hold by lia. done.
  - right. intros i b' E. destruct (decide (i = zlen B)) as [->|Hi]; [congruence|].
    rewrite Hold in E by done. by apply (Hu i).
Qed.

Section bread.
Context {HM : Machine} {HQ : Quiet} (fuel : nat) (sync_inodes : M kern unit).

(** A change of one buffer that keeps its block and its place in the lists. *)
Lemma set_bh_steady s l C bh b f :
  steady s l C -> buf s bh = Some b -> shape (f b) = shape b ->
  b_lock (f b) = 0 -> 0 <= b_dirt (f b) -> length (b_data (f b)) = 1024%nat ->
  (b_dev b = RD -> b_uptodate (f b) <> 0 -> b_dirt (f b) = 0 -> b_data (f b) = on_disk s (b_blocknr b)) ->
  exists s', set_bh bh f s = Done tt s' /\ s' = sb (zset (bufs (kblk s)) bh (f b)) (free_list s) (hash_table s) (null_b_prev s) s /\
    steady s' l C /\ other_bufs s s' bh /\ buf s' bh = Some (f b).
Proof.
  intros S E Hsh Hl Hd Hlen Hco. pose proof (zget_Some_range _ _ _ E) as Hr.
  pose proof (shape_eq _ _ Hsh) as (Hdev & Hblk & _).
  pose proof (set_bh_sb (bufs (kblk s)) (free_list s) (hash_table s) (null_b_prev s) s bh f b E) as Hrun.
  rewrite <- sb_id in Hrun. set (s' := sb _ _ _ _ s) in Hrun.
  assert (E' : buf s' bh = Some (f b)) by by apply zget_zset_eq.
  assert (Ho : other_bufs s s' bh).
  { split_and!; [|done..]. intros j Hj. unfold buf. cbn. by rewrite zget_zset_ne. }
  exists s'. split_and!; try done.
  apply (steady_other s s' l C l C bh (f b)); try done; [|apply S|by rewrite Hdev, Hblk].
  apply (lists_ok_shape (bufs (kblk s))); [apply zlen_zset| |apply S]. intros j _. cbn.
  rewrite zget_zset by done. unfold buf in E. case_decide; [subst; rewrite E; cbn; by rewrite Hsh|done].
Qed.


(** A buffer of the disk gets one more reference. *)
Lemma counted_steady s l C i b n :
  steady s l C -> buf s i = Some b -> has_id RD n b ->
  let b' := set_b_count (b_count b + 1) b in
  let s' := sb (zset (bufs (kblk s)) i b') (free_list s) (hash_table s) (null_b_prev s) s in
  steady s' l C /\ other_bufs s s' i /\ buf s' i = Some b' /\ keeps s s'.
Proof.
  intros S E Hid b' s'. destruct (st_settled _ _ _ S i b E) as [Hl Hd].
  destruct (set_bh_steady s l C i b (fun b => set_b_count (b_count b + 1) b) S E eq_refl Hl Hd (st_sized _ _ _ S i b E)
    (st_coherent _ _ _ S i b E)) as (s1 & _ & -> & S' & Ho & E'). split_and!; try done. by apply (keeps_one s s' i b b').
Qed.

Lemma getblk_steady s l C n :
  steady s l C -> spare (bufs (kblk s)) l -> rd_has s n -> (length (bufs (kblk s)) < fuel)%nat ->
  exists bh s' b b' l' C',
    getblk fuel sync_inodes RD n s = Done bh s' /\ steady s' l' C' /\ other_bufs s s' bh /\
    (exists B fl H nb, s' = sb B fl H nb s) /\ buf s bh = Some b /\ buf s' bh = Some b' /\ has_id RD n b' /\
    b_count b' = u8 (b_count b + 1) /\ (b_uptodate b' <> 0 -> has_id RD n b /\ b_uptodate b <> 0) /\
    (b_dirt b = 0 -> b_dirt b' = 0) /\ (has_id RD n b \/ reusable b) /\
    keeps s s'.
Proof.
  intros S Hsp Hn Hf. assert (Hdev : 0 < RD < 2 ^ 16) by (unfold RD; lia).
  assert (Hblock : 0 <= n < 2 ^ 32) by (destruct Hn; lia).
  destruct (cached_or_not (bufs (kblk s)) RD n) as [(i & b & E & Hid)|Hu].
  - destruct (st_settled _ _ _ S i b E) as [Hl Hd].
    pose proof (getblk_cached sync_inodes (bufs (kblk s)) (free_list s) (hash_table s) (null_b_prev s) s
      l C RD n Hdev Hblock fuel Hf i b (st_cache _ _ _ S) E Hid Hl) as G. rewrite <- sb_id in G.
    destruct (counted_steady s l C i b n S E Hid) as (S' & Ho & E' & Hk). set (s' := sb _ _ _ _ _) in *.
    exists i, s', b, (set_b_count (b_count b + 1) b), l, C. split; [exact G|]. split_and!; try done; [by eexists _, _, _, _|by left].
  - destruct (spare_first _ _ Hsp) as (l1 & bh & l2 & b & -> & Hmore & E & Hre & Hl1).
    destruct (getblk_uncached sync_inodes (bufs (kblk s)) (free_list s) (hash_table s) (null_b_prev s) s
      C RD n Hdev Hblock fuel Hf l1 bh l2 b (st_cache _ _ _ S) Hmore Hu (st_settled _ _ _ S) Hl1 E Hre)
      as (B' & fl' & H' & nb' & C' & G & HL & Hcore).
    rewrite <- sb_id in G. set (s' := sb B' fl' H' nb' s) in G.
    assert (Hb' : exists b', buf s' bh = Some b' /\ core b' = core (taken RD n b)).
    { specialize (Hcore bh). rewrite decide_True in Hcore by done. unfold buf, s'. cbn.
      destruct (zget B' bh) as [b'|]; [|done]. apply (inj Some) in Hcore. by exists b'. }
    destruct Hb' as (b' & E' & Hb').
    apply core_fields in Hb' as (Hf1 & Hf2 & Hf3 & Hf4 & Hf5 & Hf6 & Hf7). cbn in Hf1, Hf2, Hf3, Hf4, Hf5, Hf6, Hf7.
    assert (Hid' : has_id RD n b') by (split; rewrite ?Hf1, ?Hf2; [by apply u16_small|by apply u32_small]).
    assert (Ho : other_bufs s s' bh).
    { split_and!; [|done..]. intros j Hj. unfold buf. cbn. by rewrite Hcore, decide_False. }
    exists bh, s', b, b', (l1 ++ l2 ++ [bh]), C'. split; [exact G|]. destruct Hre as [Hc0 Hd0].
    split_and!; try done.
    + apply (steady_other s s' (l1 ++ bh :: l2) C _ _ bh b'); try done; [apply S| | |].
      * rewrite Hf5. by apply (st_settled _ _ _ S bh b).
      * lia.
      * rewrite Hf7. exact (st_sized _ _ _ S bh b E).
    + by eexists _, _, _, _.
    + rewrite Hf3, Hc0. done.
    + by right.
    + by apply (keeps_taken s s' (l1 ++ bh :: l2) C bh b b' n); try apply S.
Qed.

Lemma length_kread k a m : length (kread k a m) = k.
Proof. unfold kread. by rewrite length_map, length_seq. Qed.

Lemma done_buf_data addr m b :
  length (b_data b) = 1024%nat -> b_data (done_buf READ addr m b) = kread 1024 addr m.
Proof.
  intros Hlen. unfold done_buf, rd_data. rewrite decide_True by done.
  cbn [b_data set_lock set_uptodate set_dirt upd_data]. unfold splice.
  rewrite drop_ge by (rewrite length_kread, Hlen; lia). cbn [take app]. by rewrite app_nil_r.
Qed.

(** Filling a buffer that is not up to date. *)
Lemma read_steady s l C n bh b :
  (0 < fuel)%nat -> steady s l C -> rd_has s n -> buf s bh = Some b -> has_id RD n b -> b_uptodate b = 0 ->
  exists s' b',
    rw_block fuel READ bh s = Done tt s' /\ steady s' l C /\ other_bufs s s' bh /\
    buf s' bh = Some b' /\ has_id RD n b' /\ b_uptodate b' = 1 /\ b_count b' = b_count b /\
    b_dirt b' = 0 /\ outside s' = outside s /\
    keeps s s'.
Proof.
  destruct fuel as [|fuel']; [lia|]. intros _ S Hn E Hid Hup. destruct Hid as [Hd Hb]. destruct Hn as (Hn1 & Hn2 & Hn3 & Hn4).
  destruct (st_settled _ _ _ S bh b E) as [Hl Hdi]. pose proof (st_sized _ _ _ S bh b E) as Hlen.
  pose proof (zget_Some_range _ _ _ E) as Hr.
  assert (Hblk : rd_block s b n) by (split_and!; done || lia).
  exists (served READ bh n b s), (done_buf READ (rd_addr s n) (kmem s) b).
  set (s' := served READ bh n b s). set (b' := done_buf READ (rd_addr s n) (kmem s) b).
  assert (Hrun : rw_block (Datatypes.S fuel') READ bh s = Done tt s').
  { apply rw_block_served; [by left|apply S|done..]. }
  assert (E' : buf s' bh = Some b') by by apply zget_zset_eq.
  assert (Ho : other_bufs s s' bh).
  { split_and!; [|done..]. intros j Hj. unfold buf. cbn. by rewrite zget_zset_ne. }
  assert (Hdat : b_data b' = on_disk s n).
  { by apply done_buf_data. }
  assert (Hc' : cache_ok s' l C).
  { apply (lists_ok_shape (bufs (kblk s))); [apply zlen_zset| |apply S]. intros j _. cbn.
    rewrite zget_zset by done. case_decide; [subst; unfold buf in E; by rewrite E|done]. }
  split_and!; try done.
  - apply (steady_other s s' l C l C bh b'); try done; [by apply served_idle, S| |].
    + rewrite Hdat. apply length_kread.
    + intros _ _ _. rewrite Hdat. by rewrite <- Hb.
  - intros m d Hm. destruct (decide (m = n)) as [->|Hmn].
    + left. exists bh, b'. split_and!; try done. rewrite Hdat.
      destruct Hm as [(j & bj & Ej & Hj & Hu & _)|[_ Hdj]]; [|done]. destruct Hu.
      assert (j = bh) as ->; [|congruence].
      apply (lo_uniq _ _ _ _ _ _ (st_cache _ _ _ S) j bh bj b); unfold has_id, RD in *;
        done || lia || (destruct Hj; congruence).
    + apply (holds_other s s' l C bh b b' n); try done; [apply S|apply S|by right].
Qed.

Lemma wait_ready s bh b :
  (0 < fuel)%nat -> buf s bh = Some b -> b_lock b = 0 -> wait_on_buffer fuel bh s = Done tt s.
Proof.
  destruct fuel as [|fuel']; [lia|]. intros _ E Hl. unfold wait_on_buffer. cbn [wait_on_buffer_].
  erewrite done_bind by (apply bh_at_ok; exact E). by rewrite decide_False by (intros ?; done).
Qed.

(** A block has one content. *)
Lemma holds_unique s l C n d d' : cache_ok s l C -> holds s n d -> holds s n d' -> d = d'.
Proof.
  intros Hc [(i & b & E & Hi & Hu & <-)|[Hn <-]] [(j & b' & E' & Hj & Hu' & <-)|[Hn' <-]].
  - assert (i = j) as <-; [|congruence].
    apply (lo_uniq _ _ _ _ _ _ Hc i j b b'); unfold has_id, RD in *; done || lia || (destruct Hi, Hj; congruence).
  - by destruct Hu; apply (Hn' i).
  - by destruct Hu'; apply (Hn j).
  - done.
Qed.

(** Giving a reference back. *)
Lemma brelse_steady s l C bh b :
  (0 < fuel)%nat -> steady s l C -> buf s bh = Some b -> 0 < b_count b < 256 ->
  exists s', brelse fuel (Some bh) s = Done tt s' /\
    s' = sb (zset (bufs (kblk s)) bh (set_b_count (b_count b - 1) b)) (free_list s) (hash_table s) (null_b_prev s) s /\
    steady s' l C /\ other_bufs s s' bh /\ buf s' bh = Some (set_b_count (b_count b - 1) b).
Proof.
  intros Hf S E Hc. destruct (st_settled _ _ _ S bh b E) as [Hl Hd].
  destruct (set_bh_steady s l C bh b (fun b => set_b_count (b_count b - 1) b) S E eq_refl Hl Hd (st_sized _ _ _ S bh b E)
    (st_coherent _ _ _ S bh b E)) as (s' & R & Es & S' & Ho & E').
  exists s'. split_and!; try done. unfold brelse.
  erewrite done_bind by (by eapply wait_ready). erewrite done_bind by (apply bh_at_ok; exact E).
  erewrite done_bind by exact R. rewrite decide_False by lia. erewrite done_bind by done. apply wake_quiet.
Qed.

(** [get_hash_table]: the buffer that has the block, if any. *)
Lemma get_hash_steady s l C n :
  steady s l C -> rd_has s n -> (length (bufs (kblk s)) < fuel)%nat ->
  (exists bh s' b b', get_hash_table fuel RD n s = Done (Some bh) s' /\ steady s' l C /\ other_bufs s s' bh /\
    outside s' = outside s /\ buf s bh = Some b /\ buf s' bh = Some b' /\ has_id RD n b /\
    b' = set_b_count (b_count b + 1) b /\ keeps s s') \/
  (get_hash_table fuel RD n s = Done None s /\ uncached (bufs (kblk s)) RD n).
Proof.
  intros S Hn Hf. assert (Hdev : 0 < RD < 2 ^ 16) by (unfold RD; lia).
  assert (Hblock : 0 <= n < 2 ^ 32) by (destruct Hn; lia).
  destruct (cached_or_not (bufs (kblk s)) RD n) as [(i & b & E & Hid)|Hu].
  - left. destruct (st_settled _ _ _ S i b E) as [Hl Hd].
    pose proof (get_hash_cached (bufs (kblk s)) (free_list s) (hash_table s) (null_b_prev s) s l C RD n Hdev Hblock fuel Hf i b (st_cache _ _ _ S) E Hid Hl) as G.
    rewrite <- sb_id in G. destruct (counted_steady s l C i b n S E Hid) as (S' & Ho & E' & Hk). set (s' := sb _ _ _ _ _) in *.
    exists i, s', b, (set_b_count (b_count b + 1) b). by split_and!.
  - right. split; [|done].
    pose proof (get_hash_uncached (bufs (kblk s)) (free_list s) (hash_table s) (null_b_prev s) s C RD n Hdev Hblock fuel Hf l (st_cache _ _ _ S) Hu) as G.
    by rewrite <- sb_id in G.
Qed.

(** [bread], with all that it keeps. *)
Lemma bread_steady s l C n d :
  steady s l C -> spare (bufs (kblk s)) l -> rd_has s n -> (length (bufs (kblk s)) < fuel)%nat ->
  holds s n d ->
  exists bh s' b b' l' C',
    bread fuel sync_inodes RD n s = Done (Some bh) s' /\ buf s bh = Some b /\ buf s' bh = Some b' /\
    has_id RD n b' /\ b_uptodate b' <> 0 /\ b_data b' = d /\ b_count b' = u8 (b_count b + 1) /\
    (b_dirt b = 0 -> b_dirt b' = 0) /\ other_bufs s s' bh /\ outside s' = outside s /\
    steady s' l' C' /\ forall m d', holds s m d' -> holds s' m d'.
Proof.
  intros Hs Hsp Hn Hf Hd.
  destruct (getblk_steady s l C n Hs Hsp Hn Hf)
    as (bh & s1 & b & b1 & l1 & C1 & G & S1 & Ho & (B & fl & H & nb & Hrl) & E & E1 & Hid & Hcnt & _ & Hdt & _ & Hh).
  assert (Hn1 : rd_has s1 n) by (unfold rd_has; by rewrite Hrl).
  assert (Hout : outside s1 = outside s) by by rewrite Hrl.
  unfold bread. erewrite done_bind by exact G. erewrite done_bind by (apply bh_at_ok; exact E1).
  destruct (decide (b_uptodate b1 <> 0)) as [Hu|Hu].
  - exists bh, s1, b, b1, l1, C1. split_and!; try done.
    apply (holds_unique s1 l1 C1 n); [apply S1| |by apply Hh]. left. by exists bh, b1.
  - assert (Hu0 : b_uptodate b1 = 0) by lia.
    destruct (read_steady s1 l1 C1 n bh b1 ltac:(lia) S1 Hn1 E1 Hid Hu0)
      as (s2 & b2 & R & S2 & Ho2 & E2 & Hid2 & Hup2 & Hc2 & Hdt2 & Hout2 & Hh2).
    exists bh, s2, b, b2, l1, C1.
    erewrite done_bind by exact R. destruct (st_settled _ _ _ S2 bh b2 E2) as [Hl2 _].
    erewrite done_bind.
    2: { by eapply wait_ready; [lia|exact E2|]. }
    split; [unfold if_uptodate; erewrite done_bind by (apply bh_at_ok; exact E2); by rewrite decide_True by lia|].
    split_and!; try done; [lia| |by rewrite Hc2|by eapply other_bufs_trans|by rewrite Hout2|by intros; apply Hh2, Hh].
    apply (holds_unique s2 l1 C1 n); [apply S2| |by apply Hh2, Hh].
    left. exists bh, b2. split_and!; try done. lia.
Qed.

(** C1: the buffer cache is transparent over the ram disk.  While there is a
    clean unused buffer, [bread] of a block returns a
    buffer with the block's current contents - those of the buffer that has the block, if
    it is up to date, and otherwise those of the disk - and one more reference; whichever
    buffer it reuses, every block of the disk keeps the contents a later [bread] will
    return, and the lists, the agreement of clean buffers with the disk and the idle queue
    are kept. *)
Theorem bread_transparent s l C n d :
  steady s l C -> spare (bufs (kblk s)) l -> rd_has s n -> (length (bufs (kblk s)) < fuel)%nat ->
  holds s n d ->
  exists bh s' b b' l' C',
    bread fuel sync_inodes RD n s = Done (Some bh) s' /\ buf s bh = Some b /\ buf s' bh = Some b' /\
    has_id RD n b' /\ b_uptodate b' <> 0 /\ b_data b' = d /\ b_count b' = u8 (b_count b + 1) /\
    steady s' l' C' /\ forall m d', holds s m d' -> holds s' m d'.
Proof.
  intros Hs Hsp Hn Hf Hd.
  destruct (bread_steady s l C n d Hs Hsp Hn Hf Hd) as (bh & s' & b & b' & l' & C' & R & E & E' & Hi & Hu & Hda & Hc & _ & _ & _ & S' & Hh).
  by exists bh, s', b, b', l', C'.
Qed.
End bread.

End RdCache.
