(* ===== verification/FsInst.v ===== *)
(** * A small machine

    A kernel with the ram disk as its only device, on which the theorems about the file
    system are applied. *)

From S2P Require Import Prelude Bytes Ports Hd Memory MemoryProps Task UserMem BlkQueue BlkProps FsState Ramdisk RdProps.
From S2P Require Import Buffer BufferProps Cache RdCache.
Import Hd Memory MemoryProps Task UserMem BlkQueue BlkProps FsState Ramdisk RdProps Buffer BufferProps Cache RdCache.

Module FsInst.

(** Nobody else runs, and no terminal or disk answers. *)
#[export] Instance still : Machine := {|
  machine_waiting := {| sleep_on := fun _ => skip; wake_up := fun _ => skip |};
  machine_ports := {| inb := fun _ => mret 0; outb := fun _ _ => skip;
                      insw := fun _ n => mret (replicate n 0); outsw := fun _ _ => skip |};
  floppy_change := fun _ => mret 0; do_fd_request := skip;
  tty_read := fun _ _ _ => mret 0; tty_write := fun _ _ _ => mret 0; tty_ioctl := fun _ _ _ => mret 0;
  set_tty_pgrp := fun _ _ => skip
|}.
#[export] Instance still_quiet : Quiet.
Proof. by split. Qed.

Definition drivers : list blk_dev_struct :=
  BlkDev None None :: BlkDev (Some Rd) None :: replicate 5 (BlkDev None None).
Definition tasks0 : tasks :=
  Tasks (Some (INIT_TASK 0 0) :: replicate 63 None) 0 0 0.

(** Without buffers; the disk has 16 blocks from 1 MB on. *)
Definition bare : kern :=
  Kern (Blk [] (replicate 32 no_request) drivers) 0 [] None (replicate 32 inode0) 0
    (replicate 8 super0) (replicate 64 file0) 0x101 (User tasks0 empty mm0)
    (kwrite [1; 2; 3] 0x100800 empty) 0x100000 0x4000 hd_state0.

Definition outcome_state {S A} (d : S) (o : outcome S A) : S :=
  match o with Done _ s => s | _ => d end.

(** Four buffers. *)
Definition booted : kern := outcome_state bare (buffer_init 0x1f000 0x20100 bare).

Lemma bare_idle : idle bare.
Proof.
  split_and!; [done| |done]. intros i r. unfold bare. cbn [request kblk].
  unfold zget. case_decide; [|done]. intros [-> _]%lookup_replicate. done.
Qed.

Lemma buffer_init_ok_witness :
  exists s', buffer_init 0x1f000 0x20100 bare = Done tt s' /\
    cache_ok s' (zrange 0 (length (bufs (kblk s')))) (fun _ => []) /\
    forall i b, zget (bufs (kblk s')) i = Some b -> fresh b.
Proof. apply (buffer_init_ok 0x1f000 0x20100 bare). apply Nat.ltb_lt. vm_compute. reflexivity. Defined.

Lemma booted_steady :
  length (bufs (kblk booted)) = 4%nat /\ steady booted (zrange 0 4) (fun _ => []) /\
  rd_start booted = 0x100000 /\ rd_length booted = 0x4000 /\
  (forall i b, buf booted i = Some b -> fresh b).
Proof.
  destruct (buffer_init_cache 0x1f000 0x20100 bare) as (B' & H1 & H2 & H3 & H4).
  { apply Nat.ltb_lt. vm_compute. reflexivity. }
  replace (length (initial _ _ _)) with 4%nat in H2 by (vm_compute; reflexivity).
  unfold booted. rewrite H1. cbn [outcome_state]. rewrite H2 in H3. split_and!; try done.
  split; [exact H3| | | |].
  - intros i b E. destruct (H4 i b E) as (_ & _ & -> & -> & _). done.
  - intros i b E. by destruct (H4 i b E) as (_ & _ & _ & _ & ->).
  - intros i b E Hd. destruct (H4 i b E) as (Hd' & _). rewrite Hd' in Hd. done.
  - exact bare_idle.
Qed.

Lemma booted_rd n : 0 <= n < 16 -> rd_has booted n.
Proof. destruct booted_steady as (_ & _ & H1 & H2 & _). unfold rd_has. rewrite H1, H2. lia. Qed.

Lemma booted_spare : spare (bufs (kblk booted)) (zrange 0 4).
Proof.
  destruct booted_steady as (H1 & _ & _ & _ & H2). split; [done||cbn; lia|].
  destruct (zget_is_Some (bufs (kblk booted)) 0) as [b E]; [unfold zlen; rewrite H1; lia|].
  exists 0, b. split; [apply elem_of_zrange; lia|]. split; [done|].
  destruct (H2 0 b E) as (_ & Hc & Hd & _). done.
Qed.

(** Block 2 of the disk is read. *)
Lemma bread_transparent_witness :
  exists bh s' b b' l' C',
    bread 5 skip RD 2 booted = Done (Some bh) s' /\ buf booted bh = Some b /\ buf s' bh = Some b' /\
    has_id RD 2 b' /\ b_uptodate b' <> 0 /\ b_data b' = on_disk booted 2 /\
    b_count b' = u8 (b_count b + 1) /\ steady s' l' C' /\ forall m d', holds booted m d' -> holds s' m d'.
Proof.
  destruct booted_steady as (H1 & H2 & _ & _ & H3).
  apply (bread_transparent 5 skip booted (zrange 0 4) (fun _ => []) 2);
    [exact H2|exact booted_spare|by apply booted_rd|rewrite H1; lia|].
  right. split; [|reflexivity]. intros i b E [Hd _]. destruct (H3 i b E) as (Hd' & _).
  rewrite Hd' in Hd. done.
Defined.

Lemma getblk_lru_witness :
  exists b s' C', zget (bufs (kblk booted)) 0 = Some b /\
    getblk 5 skip 0x101 7 booted = Done 0 s' /\ cache_ok s' [1; 2; 3; 0] C' /\
    forall i, core <$> zget (bufs (kblk s')) i =
      if decide (i = 0) then Some (core (taken 0x101 7 b)) else core <$> zget (bufs (kblk booted)) i.
Proof.
  destruct booted_steady as (H1 & H2 & _ & _ & H3).
  destruct (zget_is_Some (bufs (kblk booted)) 0) as [b E]; [unfold zlen; rewrite H1; lia|].
  exists b. destruct (getblk_lru skip 5 0x101 7 booted (zrange 0 4) (fun _ => [])) as [_ H].
  - apply H2.
  - apply H2.
  - lia.
  - lia.
  - rewrite H1. lia.
  - destruct (H [] 0 [1; 2; 3] b) as (s' & C' & R1 & R2 & R3).
    + intros i b' Ei [Hd _]. destruct (H3 i b' Ei) as (Hd' & _). rewrite Hd' in Hd. done.
    + reflexivity.
    + discriminate.
    + intros i b' Hi. by apply elem_of_nil in Hi.
    + exact E.
    + destruct (H3 0 b E) as (_ & Hc & Hd & _). done.
    + exists s', C'. split; [exact E|]. split; [exact R1|]. split; [exact R2|exact R3].
Defined.

(** A buffer holding block 3, dirty, is written to the disk. *)
Definition dirty_buf : buffer_head :=
  Bh (replicate 1024 7) 3 0x101 1 1 1 0 None None (Some 0) (Some 0).
Definition one_dirty : kern :=
  {| bare with kblk := Blk [dirty_buf] (replicate 32 no_request) drivers |}.

Lemma ll_rw_block_ramdisk_witness :
  ll_rw_block run_fn 1 WRITE 0 one_dirty = Done tt (served WRITE 0 3 dirty_buf one_dirty) /\
  idle (served WRITE 0 3 dirty_buf one_dirty).
Proof.
  apply (ll_rw_block_ramdisk WRITE 0 dirty_buf 3 one_dirty 0).
  - right. split; [reflexivity|discriminate].
  - exact bare_idle.
  - reflexivity.
  - reflexivity.
  - split_and!; reflexivity || lia || (cbn; lia).
Defined.

End FsInst.
