(* ===== verification/Super.v ===== *)
(** * fs/super.c, first part: the super-block table

    Locking, lookup and release of super blocks.  Reading and mounting them needs
    inodes and path names, and is in [Mount]. *)

From S2P Require Import Prelude Bytes BlkQueue FsState Buffer.
Import BlkQueue FsState.

Module Super.

Section super.
Context `{!Machine} (fuel : nat).

Fixpoint wait_on_super_ (n : nat) (sb : Z) : M kern unit :=
  match n with
  | O => fun _ => NoFuel
  | S n' =>
      s ← super_at sb;
      if decide (s_lock s <> 0) then sleep_on (Super_wait sb);; wait_on_super_ n' sb else skip
  end.
Definition wait_on_super : Z -> M kern unit := wait_on_super_ fuel.

Definition lock_super (sb : Z) : M kern unit := wait_on_super sb;; set_super sb (set_s_lock 1).
Definition free_super (sb : Z) : M kern unit := set_super sb (set_s_lock 0);; wake_up (Super_wait sb).

(** The loop of [get_super] from slot [s]; it starts again after a wait in vain. *)
Fixpoint find_super (n : nat) (s dev : Z) : M kern (option Z) :=
  match n with
  | O => fun _ => NoFuel
  | S n' =>
      if decide (NR_SUPER <= s) then mret None
      else
        v ← super_at s;
        if decide (s_dev v = dev) then
          wait_on_super s;;
          v ← super_at s;
          if decide (s_dev v = dev) then mret (Some s) else find_super n' 0 dev
        else find_super n' (s + 1) dev
  end.
Definition get_super (dev : Z) : M kern (option Z) :=
  if decide (dev = 0) then mret None else find_super fuel 0 dev.

(** [for (i = 0; i < n; i++) brelse(map[i])]. *)
Fixpoint brelse_all (l : list (option Z)) : M kern unit :=
  match l with [] => skip | b :: l' => Buffer.brelse fuel b;; brelse_all l' end.

Definition put_super (dev : Z) : M kern unit :=
  r ← gets ROOT_DEV;
  if decide (dev = r) then skip
  else
    o ← get_super dev;
    match o with
    | None => skip
    | Some sb =>
        s ← super_at sb;
        match s_imount s with
        | Some _ => skip
        | None =>
            lock_super sb;;
            set_super sb (set_s_dev 0);;
            s ← super_at sb;
            brelse_all (s_imap s);;
            s ← super_at sb;
            brelse_all (s_zmap s);;
            free_super sb
        end
    end.
End super.

End Super.
