(* ===== verification/Inode.v ===== *)
(** * fs/inode.c, first part: the inode table and its disk copies

    Locking, [read_inode] and [write_inode], [sync_inodes] and the allocation of a slot.
    [write_inode] reads a block, [bread] may write back dirty buffers, and that writes the
    inodes first: the recursion of the source, bounded here by [depth]. *)

From S2P Require Import Prelude Bytes Memory BlkQueue FsState Buffer Super.
Import Memory BlkQueue FsState.

Module Inode.

Section inode.
Context `{!Machine} (fuel : nat).

Fixpoint wait_on_inode_ (n : nat) (i : Z) : M kern unit :=
  match n with
  | O => fun _ => NoFuel
  | S n' =>
      v ← inode_at i;
      if decide (i_lock v <> 0) then sleep_on (Inode_wait i);; wait_on_inode_ n' i else skip
  end.
Definition wait_on_inode : Z -> M kern unit := wait_on_inode_ fuel.
Definition lock_inode (i : Z) : M kern unit := wait_on_inode i;; set_inode i (set_i_lock 1).
Definition unlock_inode (i : Z) : M kern unit := set_inode i (set_i_lock 0);; wake_up (Inode_wait i).

Definition invalidate_inodes (dev : Z) : M kern unit :=
  for_up (Z.to_nat NR_INODE) 0 (fun i =>
    wait_on_inode i;;
    v ← inode_at i;
    if decide (i_dev v = dev) then set_inode i (fun v => set_i_dirt 0 (set_i_id 0 (i_num v) v))
    else skip).

(** The block of the disk copy of an inode, and its place in the block. *)
Definition inode_block (s : super_block_t) (v : m_inode) : Z :=
  s32 (2 + s_imap_blocks s + s_zmap_blocks s + u32 (i_num v - 1) / INODES_PER_BLOCK).
Definition inode_slot (v : m_inode) : nat :=
  (32 * Z.to_nat (u32 (i_num v - 1) mod INODES_PER_BLOCK))%nat.

Section sync.
Context (sync_inodes : M kern unit).

Definition write_inode_ (i : Z) : M kern unit :=
  lock_inode i;;
  v ← inode_at i;
  if decide (i_dirt v = 0 \/ i_dev v = 0) then unlock_inode i
  else
    o ← Super.get_super fuel (i_dev v);
    match o with
    | None => panic "trying to write inode without device"
    | Some sb =>
        s ← super_at sb;
        v ← inode_at i;
        o ← Buffer.bread fuel sync_inodes (i_dev v) (inode_block s v);
        match o with
        | None => panic "unable to read i-node block"
        | Some bh =>
            v ← inode_at i;
            set_bh bh (upd_data (splice (inode_slot v) (d_inode_bytes v)));;
            set_bh bh (set_dirt 1);;
            set_inode i (set_i_dirt 0);;
            Buffer.brelse fuel (Some bh);;
            unlock_inode i
        end
    end.

Definition read_inode_ (i : Z) : M kern unit :=
  lock_inode i;;
  v ← inode_at i;
  o ← Super.get_super fuel (i_dev v);
  match o with
  | None => panic "trying to read inode without dev"
  | Some sb =>
      s ← super_at sb;
      v ← inode_at i;
      o ← Buffer.bread fuel sync_inodes (i_dev v) (inode_block s v);
      match o with
      | None => panic "unable to read i-node block"
      | Some bh =>
          b ← bh_at bh;
          set_inode i (fun v => load_d_inode (field (inode_slot v) 32 (b_data b)) v);;
          Buffer.brelse fuel (Some bh);;
          unlock_inode i
      end
  end.
End sync.

Fixpoint sync_inodes (depth : nat) : M kern unit :=
  match depth with
  | O => fun _ => NoFuel
  | S d =>
      for_up (Z.to_nat NR_INODE) 0 (fun i =>
        wait_on_inode i;;
        v ← inode_at i;
        if decide (i_dirt v <> 0 /\ i_pipe v = 0) then write_inode_ (sync_inodes d) i else skip)
  end.

(** From here on the recursion is tied: [depth] nested write-backs are enough. *)
Context (depth : nat).
Definition write_inode : Z -> M kern unit := write_inode_ (sync_inodes depth).
Definition read_inode : Z -> M kern unit := read_inode_ (sync_inodes depth).
Definition bread : Z -> Z -> M kern (option Z) := Buffer.bread fuel (sync_inodes depth).
Definition getblk : Z -> Z -> M kern Z := Buffer.getblk fuel (sync_inodes depth).
Definition sync_dev : Z -> M kern Z := Buffer.sync_dev fuel (sync_inodes depth).

(** [check_disk_change] of buffer.c. *)
Definition check_disk_change (dev : Z) : M kern unit :=
  if decide (MAJOR dev <> 2) then skip
  else
    c ← floppy_change (Z.land dev 3);
    if decide (c = 0) then skip
    else
      for_up (Z.to_nat NR_SUPER) 0 (fun i =>
        s ← super_at i;
        if decide (s_dev s = dev) then Super.put_super fuel (s_dev s) else skip);;
      invalidate_inodes dev;;
      Buffer.invalidate_buffers fuel dev.

(** The [for] loop of [get_empty_inode], [n] slots left to look at. *)
Fixpoint scan_inodes (n : nat) (found : option Z) : M kern (option Z) :=
  match n with
  | O => mret found
  | S n' =>
      l ← gets last_inode;
      let l := if decide (NR_INODE <= l + 1) then 0 else l + 1 in
      modify (fun s => {| s with last_inode := l |});;
      v ← inode_at l;
      if decide (i_count v = 0) then
        if decide (i_dirt v = 0 /\ i_lock v = 0) then mret (Some l) else scan_inodes n' (Some l)
      else scan_inodes n' found
  end.

(** [while (inode->i_dirt) ...]. *)
Fixpoint clean_inode (n : nat) (i : Z) : M kern unit :=
  match n with
  | O => fun _ => NoFuel
  | S n' =>
      v ← inode_at i;
      if decide (i_dirt v <> 0) then write_inode i;; wait_on_inode i;; clean_inode n' i else skip
  end.

Fixpoint get_empty_inode_ (n : nat) : M kern Z :=
  match n with
  | O => fun _ => NoFuel
  | S n' =>
      o ← scan_inodes (Z.to_nat NR_INODE) None;
      match o with
      | None => panic "No free inodes in mem"
      | Some i =>
          wait_on_inode i;;
          clean_inode fuel i;;
          v ← inode_at i;
          if decide (i_count v <> 0) then get_empty_inode_ n'
          else set_inode i (fun _ => set_count 1 inode0);; mret i
      end
  end.
Definition get_empty_inode : M kern Z := get_empty_inode_ fuel.

Definition get_pipe_inode : M kern (option Z) :=
  i ← get_empty_inode;
  p ← on_mem get_free_page;
  set_inode i (set_i_size p);;
  if decide (p = 0) then set_inode i (set_count 0);; mret None
  else
    set_inode i (fun v => {| (set_zone 1 0 (set_zone 0 0 (set_count 2 v))) with i_pipe := 1 |});;
    mret (Some i).
End inode.

End Inode.
