(* ===== verification/Bitmap.v ===== *)
(** * fs/bitmap.c: the block and inode bitmaps

    A bitmap is held in the buffers of the super block; [find_first_zero] searches one
    by 32-bit words, as the source's loop of [bsfl] does. *)

From S2P Require Import Prelude Bytes Memory Task UserMem BlkQueue FsState Buffer Super Inode.
Import Memory Task UserMem BlkQueue FsState.

Module Bitmap.

(** Bit [nr] of a bitmap, and its update. *)
Definition byte_at (data : list Z) (k : nat) : Z := default 0 (data !! k).
Definition bit (nr : Z) (data : list Z) : bool :=
  Z.testbit (byte_at data (Z.to_nat (nr / 8))) (nr mod 8).
Definition put_bit (nr : Z) (v : bool) (data : list Z) : list Z :=
  let k := Z.to_nat (nr / 8) in
  <[k := if v then Z.setbit (byte_at data k) (nr mod 8) else Z.clearbit (byte_at data k) (nr mod 8)]> data.

(** [set_bit] gives the old bit, [clear_bit] its complement. *)
Definition set_bit (nr : Z) (data : list Z) : Z * list Z := (c_bool (bit nr data), put_bit nr true data).
Definition clear_bit (nr : Z) (data : list Z) : Z * list Z :=
  (c_bool (negb (bit nr data)), put_bit nr false data).

(** [bsfl]: the lowest set bit of [n] bits from [i], if any. *)
Fixpoint bsf (n : nat) (i w : Z) : option Z :=
  match n with
  | O => None
  | S n' => if Z.testbit w i then Some i else bsf n' (i + 1) w
  end.
(** [n] words from word [k] on. *)
Fixpoint first_zero (n : nat) (k : nat) (data : list Z) : Z :=
  match n with
  | O => 32 * Z.of_nat k
  | S n' =>
      match bsf 32 0 (not32 (word4 (field (4 * k) 4 data))) with
      | Some i => 32 * Z.of_nat k + i
      | None => first_zero n' (S k) data
      end
  end.
Definition find_first_zero (data : list Z) : Z := first_zero 256 0 data.

Definition clear_block (data : list Z) : list Z := splice 0 (replicate 1024 0) data.

Section bitmap.
Context `{!Machine} (fuel depth : nat).

Definition free_block (dev block : Z) : M kern unit :=
  o ← Super.get_super fuel dev;
  match o with
  | None => panic "trying to free block on nonexistent device"
  | Some sb =>
      s ← super_at sb;
      if decide (block < s_firstdatazone s \/ s_nzones s <= block)
      then panic "trying to free block not in datazone"
      else
        o ← Buffer.get_hash_table fuel dev block;
        busy ← match o with
               | Some bh =>
                   b ← bh_at bh;
                   if decide (b_count b <> 1) then mret true
                   else
                     set_bh bh (fun b => set_uptodate 0 (set_dirt 0 b));;
                     Buffer.brelse fuel (Some bh);; mret false
               | None => mret false
               end;
        if (busy : bool) then skip
        else
          s ← super_at sb;
          let block := block - (s_firstdatazone s - 1) in
          m ← deref "s_zmap" (mjoin (zget (s_zmap s) (Z.quot block 8192)));
          b ← bh_at m;
          let '(was_clear, data) := clear_bit (Z.land block 8191) (b_data b) in
          set_bh m (set_data data);;
          if decide (was_clear <> 0) then panic "free_block: bit already cleared"
          else set_bh m (set_dirt 1)
  end.

(** The [for] loop of [new_block] and [new_inode] over the maps from index [i]: the map with
    a free bit, and the bit. *)
Fixpoint find_map (l : list (option Z)) (i : Z) : M kern (option (Z * Z * Z)) :=
  match l with
  | [] => mret None
  | None :: l' => find_map l' (i + 1)
  | Some bh :: l' =>
      b ← bh_at bh;
      let j := find_first_zero (b_data b) in
      if decide (j < 8192) then mret (Some (i, j, bh)) else find_map l' (i + 1)
  end.

Definition new_block (dev : Z) : M kern Z :=
  o ← Super.get_super fuel dev;
  match o with
  | None => panic "trying to get new block from nonexistant device"
  | Some sb =>
      s ← super_at sb;
      o ← find_map (s_zmap s) 0;
      match o with
      | None => mret 0
      | Some (i, j, m) =>
          b ← bh_at m;
          let '(was_set, data) := set_bit j (b_data b) in
          set_bh m (set_data data);;
          if decide (was_set <> 0) then panic "new_block: bit already set"
          else
            set_bh m (set_dirt 1);;
            let j := j + (i * 8192 + s_firstdatazone s - 1) in
            if decide (s_nzones s <= j) then mret 0
            else
              bh ← Inode.getblk fuel depth dev j;
              b ← bh_at bh;
              if decide (b_count b <> 1) then panic "new block: count is != 1"
              else
                set_bh bh (upd_data clear_block);;
                set_bh bh (fun b => set_dirt 1 (set_uptodate 1 b));;
                Buffer.brelse fuel (Some bh);;
                mret j
      end
  end.

Definition free_inode (inode : option Z) : M kern unit :=
  match inode with
  | None => skip
  | Some i =>
      v ← inode_at i;
      if decide (i_dev v = 0) then set_inode i (fun _ => inode0)
      else if decide (1 < i_count v) then panic "free_inode"
      else if decide (i_nlinks v <> 0) then panic "trying to free inode with links"
      else
        o ← Super.get_super fuel (i_dev v);
        match o with
        | None => panic "trying to free inode on nonexistent device"
        | Some sb =>
            s ← super_at sb;
            v ← inode_at i;
            if decide (i_num v < 1 \/ s_ninodes s < i_num v)
            then panic "trying to free inode 0 or nonexistant inode"
            else
              o ← deref "s_imap" (zget (s_imap s) (Z.shiftr (i_num v) 13));
              match o with
              | None => panic "nonexistent imap in superblock"
              | Some bh =>
                  set_bh bh (upd_data (fun d => snd (clear_bit (Z.land (i_num v) 8191) d)));;
                  set_bh bh (set_dirt 1);;
                  set_inode i (fun _ => inode0)
              end
        end
  end.

(** The fields [new_inode] fills in. *)
Definition fill_inode (dev num : Z) (t : task_struct) (time : Z) (v : m_inode) : m_inode :=
  {| (set_count 1 v) with
     i_nlinks := 1; i_dev := u16 dev; i_uid := u16 (euid t); i_gid := u8 (egid t); i_dirt := 1;
     i_num := u16 num; i_mtime := u32 time; i_atime := u32 time; i_ctime := u32 time |}.
End bitmap.

End Bitmap.
