(* ===== verification/Truncate.v ===== *)
(** * fs/truncate.c, [_bmap], [iput], [iget] and [new_inode]

    The second part of inode.c: the blocks of a file, and the life of an inode in the
    table. *)

From S2P Require Import Prelude Bytes Memory Task UserMem BlkQueue FsState Buffer Super Inode Bitmap.
Import Memory Task UserMem BlkQueue FsState.

Module Truncate.

Section truncate.
Context `{!Machine} (fuel depth : nat).

(** The [for] loop over the 512 entries of an indirect block; the pointer stays on the
    buffer. *)
Definition each_entry (bh : Z) (f : Z -> M kern unit) : M kern unit :=
  for_up 512 0 (fun i =>
    b ← bh_at bh;
    let z := word_at (Z.to_nat i) (b_data b) in
    if decide (z <> 0) then f z else skip).

Definition free_ind (dev block : Z) : M kern unit :=
  if decide (block = 0) then skip
  else
    o ← Inode.bread fuel depth dev block;
    match o with
    | Some bh => each_entry bh (Bitmap.free_block fuel dev);; Buffer.brelse fuel (Some bh)
    | None => skip
    end;;
    Bitmap.free_block fuel dev block.

Definition free_dind (dev block : Z) : M kern unit :=
  if decide (block = 0) then skip
  else
    o ← Inode.bread fuel depth dev block;
    match o with
    | Some bh => each_entry bh (free_ind dev);; Buffer.brelse fuel (Some bh)
    | None => skip
    end;;
    Bitmap.free_block fuel dev block.

Definition truncate (i : Z) : M kern unit :=
  v ← inode_at i;
  if negb (S_ISREG (i_mode v) || S_ISDIR (i_mode v)) then skip
  else
    for_up 7 0 (fun k =>
      v ← inode_at i;
      if decide (zone v k <> 0) then
        Bitmap.free_block fuel (i_dev v) (zone v k);; set_inode i (set_zone k 0)
      else skip);;
    v ← inode_at i; free_ind (i_dev v) (zone v 7);;
    v ← inode_at i; free_dind (i_dev v) (zone v 8);;
    set_inode i (fun v => set_zone 7 0 (set_zone 8 0 v));;
    set_inode i (fun v => set_i_dirt 1 (set_i_size 0 v));;
    t ← now;
    set_inode i (fun v => set_mtime t (set_ctime t v)).

(** ** [_bmap] *)

(** [if (create && !inode->i_zone[k]) ...]; the zone is then in the inode. *)
Definition zone_or_new (create : bool) (i k : Z) : M kern Z :=
  v ← inode_at i;
  (if decide (create = true /\ zone v k = 0) then
     z ← Bitmap.new_block fuel depth (i_dev v);
     set_inode i (set_zone k z);;
     v ← inode_at i;
     if decide (zone v k <> 0) then
       t ← now; set_inode i (fun v => set_i_dirt 1 (set_ctime t v))
     else skip
   else skip);;
  v ← inode_at i; mret (zone v k).

(** Entry [k] of the indirect block [z], made if asked for; the buffer is released. *)
Definition entry_or_new (create : bool) (dev z k : Z) : M kern Z :=
  o ← Inode.bread fuel depth dev z;
  match o with
  | None => mret 0
  | Some bh =>
      b ← bh_at bh;
      let e := word_at (Z.to_nat k) (b_data b) in
      e ← (if decide (create = true /\ e = 0) then
             n ← Bitmap.new_block fuel depth dev;
             (if decide (n <> 0) then
                set_bh bh (upd_data (set_word_at (Z.to_nat k) n));; set_bh bh (set_dirt 1)
              else skip);;
             mret n
           else mret e);
      Buffer.brelse fuel (Some bh);;
      mret e
  end.

Definition _bmap (i block : Z) (create : bool) : M kern Z :=
  if decide (block < 0) then panic "_bmap: block<0"
  else if decide (7 + 512 + 512 * 512 <= block) then panic "_bmap: block>big"
  else if decide (block < 7) then zone_or_new create i block
  else
    let block := block - 7 in
    if decide (block < 512) then
      z ← zone_or_new create i 7;
      if decide (z = 0) then mret 0
      else v ← inode_at i; entry_or_new create (i_dev v) z block
    else
      let block := block - 512 in
      z ← zone_or_new create i 8;
      if decide (z = 0) then mret 0
      else
        v ← inode_at i;
        e ← entry_or_new create (i_dev v) z (Z.shiftr block 9);
        if decide (e = 0) then mret 0
        else v ← inode_at i; entry_or_new create (i_dev v) e (Z.land block 511).

Definition bmap (i block : Z) : M kern Z := _bmap i block false.
Definition create_block (i block : Z) : M kern Z := _bmap i block true.

(** ** [iput] *)

Fixpoint iput_loop (n : nat) (i : Z) : M kern unit :=
  match n with
  | O => fun _ => NoFuel
  | S n' =>
      v ← inode_at i;
      if decide (1 < i_count v) then set_inode i dec_count
      else if decide (i_nlinks v = 0) then truncate i;; Bitmap.free_inode fuel (Some i)
      else if decide (i_dirt v <> 0) then
        Inode.write_inode fuel depth i;; Inode.wait_on_inode fuel i;; iput_loop n' i
      else set_inode i dec_count
  end.

Definition iput (inode : option Z) : M kern unit :=
  match inode with
  | None => skip
  | Some i =>
      Inode.wait_on_inode fuel i;;
      v ← inode_at i;
      if decide (i_count v = 0) then panic "iput: trying to free free inode"
      else if decide (i_pipe v <> 0) then
        wake_up (Inode_wait i);;
        set_inode i dec_count;;
        v ← inode_at i;
        if decide (i_count v <> 0) then skip
        else
          on_mem (free_page (i_size v));;
          set_inode i (fun v => {| (set_i_dirt 0 (set_count 0 v)) with i_pipe := 0 |})
      else if decide (i_dev v = 0) then set_inode i dec_count
      else
        (if S_ISBLK (i_mode v) then
           Inode.sync_dev fuel depth (zone v 0);; Inode.wait_on_inode fuel i
         else skip);;
        iput_loop fuel i
  end.

(** ** [new_inode] of bitmap.c *)

Definition new_inode (dev : Z) : M kern (option Z) :=
  i ← Inode.get_empty_inode fuel depth;
  o ← Super.get_super fuel dev;
  match o with
  | None => panic "new_inode with unknown device"
  | Some sb =>
      s ← super_at sb;
      o ← Bitmap.find_map (s_imap s) 0;
      match o with
      | None => iput (Some i);; mret None
      | Some (k, j, bh) =>
          if decide (s_ninodes s < j + k * 8192) then iput (Some i);; mret None
          else
            b ← bh_at bh;
            let '(was_set, data) := Bitmap.set_bit j (b_data b) in
            set_bh bh (set_data data);;
            if decide (was_set <> 0) then panic "new_inode: bit already set"
            else
              set_bh bh (set_dirt 1);;
              t ← cur; time ← now;
              set_inode i (Bitmap.fill_inode dev (j + k * 8192) t time);;
              mret (Some i)
      end
  end.

(** ** [iget] *)

(** The super block mounted on inode [i]. *)
Fixpoint mounted_on (n : nat) (k i : Z) : M kern (option Z) :=
  match n with
  | O => mret None
  | S n' =>
      s ← super_at k;
      if decide (s_imount s = Some i) then mret (Some k) else mounted_on n' (k + 1) i
  end.

(** The [while] loop, at slot [i]; [None] when no slot holds the inode. *)
Fixpoint iget_loop (n : nat) (i dev nr empty : Z) : M kern (Z + (Z * Z)) :=
  match n with
  | O => fun _ => NoFuel
  | S n' =>
      if decide (NR_INODE <= i) then mret (inr (dev, nr))
      else
        v ← inode_at i;
        if decide (i_dev v <> dev \/ i_num v <> nr) then iget_loop n' (i + 1) dev nr empty
        else
          Inode.wait_on_inode fuel i;;
          v ← inode_at i;
          if decide (i_dev v <> dev \/ i_num v <> nr) then iget_loop n' 0 dev nr empty
          else
            set_inode i inc_count;;
            v ← inode_at i;
            if decide (i_mount v <> 0) then
              o ← mounted_on (Z.to_nat NR_SUPER) 0 i;
              match o with
              | None => iput (Some empty);; mret (inl i)
              | Some k =>
                  iput (Some i);;
                  s ← super_at k;
                  iget_loop n' 0 (s_dev s) ROOT_INO empty
              end
            else iput (Some empty);; mret (inl i)
  end.

Definition iget (dev nr : Z) : M kern Z :=
  if decide (dev = 0) then panic "iget with dev==0"
  else
    empty ← Inode.get_empty_inode fuel depth;
    r ← iget_loop fuel 0 dev nr empty;
    match r with
    | inl i => mret i
    | inr (dev, nr) =>
        set_inode empty (set_i_id dev nr);;
        Inode.read_inode fuel depth empty;;
        mret empty
    end.
End truncate.

End Truncate.
