(* ===== verification/Namei.v ===== *)
(** * fs/namei.c, first part: directories and path names

    A directory entry in a buffer is the buffer and the entry's offset in it.  Path
    names are in user memory; the loops over them are bounded by [fuel]. *)

From S2P Require Import Prelude Bytes Memory Task UserMem BlkQueue FsState.
From S2P Require Import Buffer Super Inode Bitmap Truncate.
Import Memory Task UserMem BlkQueue FsState.

Module Namei.

Definition O_ACCMODE : Z := 0x3.
Definition O_WRONLY : Z := 0x1.
Definition O_CREAT : Z := 0x40.
Definition O_EXCL : Z := 0x80.
Definition O_TRUNC : Z := 0x200.
Definition O_APPEND : Z := 0x400.
Definition O_NONBLOCK : Z := 0x800.
Definition I_REGULAR : Z := 0x8000.
Definition I_DIRECTORY : Z := 0x4000.
Definition MAY_EXEC : Z := 1.
Definition MAY_WRITE : Z := 2.
Definition MAY_READ : Z := 4.

(** [ACC_MODE]: an element of a string of (signed) chars. *)
Definition ACC_MODE (x : Z) : Z := default 0 (zget [4; 2; 6; -1] (Z.land x O_ACCMODE)).

Definition suser (t : task_struct) : bool := bool_decide (euid t = 0).

Definition permission_of (t : task_struct) (v : m_inode) (mask : Z) : bool :=
  if decide (i_dev v <> 0 /\ i_nlinks v = 0) then false
  else
    let mode := if decide (euid t = i_uid v) then Z.shiftr (i_mode v) 6
                else if decide (egid t = i_gid v) then Z.shiftr (i_mode v) 3 else i_mode v in
    bool_decide (Z.land (Z.land mode mask) 7 = mask) || suser t.
Definition permission (inode mask : Z) : M kern bool :=
  v ← inode_at inode; t ← cur; mret (permission_of t v mask).

(** The directory entry at offset [o] of a block. *)
Definition de_inode (o : nat) (data : list Z) : Z := word2 (field o 2 data).
Definition de_name (o : nat) (data : list Z) : list Z := field (o + 2) NAME_LEN data.
Definition put_de_inode (o : nat) (v : Z) (data : list Z) : list Z := splice o (bytes2 v) data.
Definition put_de_name (o : nat) (l data : list Z) : list Z := splice (o + 2) l data.

(** The user's name of [len] bytes at [name]. *)
Definition user_name (len : nat) (name : Z) (m : umem) : list Z :=
  map (fun k => get_fs_byte m (name + Z.of_nat k)) (seq 0 len).

(** [match] (a keyword in Rocq); [repe cmpsb] compares [len] bytes, and [len] is never 0. *)
Definition match_ (len : nat) (name : Z) (m : umem) (o : nat) (data : list Z) : bool :=
  if decide (de_inode o data = 0 \/ (NAME_LEN < len)%nat) then false
  else if decide ((len < NAME_LEN)%nat /\ default 0 (de_name o data !! len) <> 0) then false
  else bool_decide (user_name len name m = take len (de_name o data)).

Section namei.
Context `{!Machine} (fuel depth : nat).

#[local] Abbreviation iput := (Truncate.iput fuel depth).
#[local] Abbreviation iget := (Truncate.iget fuel depth).
#[local] Abbreviation bread := (Inode.bread fuel depth).
#[local] Abbreviation brelse := (Buffer.brelse fuel).

Definition user_byte (a : Z) : M kern Z := m ← on_user (gets um); mret (get_fs_byte m a).

(** The scan of [find_entry].  [bh] is null after a block that could not be read; the test
    of [de] against [BLOCK_SIZE+bh->b_data] then reads the word at address 0, the first
    entry of the page directory, which is below every buffer: the test succeeds. *)
Fixpoint find_loop (n : nat) (dir name : Z) (len : nat) (entries i : Z) (bh : option Z) (o : nat)
  : M kern (option (Z * nat)) :=
  match n with
  | O => fun _ => NoFuel
  | S n' =>
      if decide (entries <= i) then brelse bh;; mret None
      else
        p ← (if decide (bh = None \/ (1024 <= o)%nat) then
               brelse bh;;
               block ← Truncate.bmap fuel depth dir (i / DIR_ENTRIES_PER_BLOCK);
               if decide (block = 0) then mret None
               else v ← inode_at dir; b ← bread (i_dev v) block; mret ((fun b => (b, O)) <$> b)
             else mret ((fun b => (b, o)) <$> bh));
        match p with
        | None => find_loop n' dir name len entries (i + DIR_ENTRIES_PER_BLOCK) None o
        | Some (b, o) =>
            v ← bh_at b; m ← on_user (gets um);
            if match_ len name m o (b_data v) then mret (Some (b, o))
            else find_loop n' dir name len entries (i + 1) (Some b) (o + 16)
        end
  end.

(** The "magic" for [..]: the name length and the directory to search. *)
Definition dotdot (dir name : Z) (len : nat) : M kern (nat * Z) :=
  c0 ← user_byte name; c1 ← user_byte (name + 1);
  if decide (len = 2%nat /\ c0 = 46 /\ c1 = 46) then
    t ← cur; v ← inode_at dir;
    if decide (root t = Some dir) then mret (1%nat, dir)
    else if decide (i_num v = ROOT_INO) then
      o ← Super.get_super fuel (i_dev v);
      sb ← deref "sb" o;
      s ← super_at sb;
      match s_imount s with
      | Some _ =>
          iput (Some dir);;
          s ← super_at sb;
          d ← deref "s_imount" (s_imount s);
          set_inode d inc_count;; mret (len, d)
      | None => mret (len, dir)
      end
    else mret (len, dir)
  else mret (len, dir).

(** [find_entry]: the directory, which [..] may exchange, and the entry. *)
Definition find_entry (dir name : Z) (namelen : nat) : M kern (Z * option (Z * nat)) :=
  let len := Nat.min namelen NAME_LEN in
  v ← inode_at dir;
  let entries := i_size v / 16 in
  if decide (len = O) then mret (dir, None)
  else
    '(len, dir) ← dotdot dir name len;
    v ← inode_at dir;
    if decide (zone v 0 = 0) then mret (dir, None)
    else
      o ← bread (i_dev v) (zone v 0);
      match o with
      | None => mret (dir, None)
      | Some bh => r ← find_loop fuel dir name len entries 0 (Some bh) 0; mret (dir, r)
      end.

Fixpoint add_loop (n : nat) (dir name : Z) (len : nat) (i : Z) (bh : option Z) (o : nat)
  : M kern (option (Z * nat)) :=
  match n with
  | O => fun _ => NoFuel
  | S n' =>
      p ← (if decide (bh = None \/ (1024 <= o)%nat) then
             brelse bh;;
             block ← Truncate.create_block fuel depth dir (i / DIR_ENTRIES_PER_BLOCK);
             if decide (block = 0) then mret None
             else v ← inode_at dir; b ← bread (i_dev v) block; mret (Some ((fun b => (b, O)) <$> b))
           else mret (Some ((fun b => (b, o)) <$> bh)));
      match p with
      | None => mret None
      | Some None => add_loop n' dir name len (i + DIR_ENTRIES_PER_BLOCK) None o
      | Some (Some (b, o)) =>
          v ← inode_at dir;
          (if decide (i_size v <= u32 (i * 16)) then
             set_bh b (upd_data (put_de_inode o 0));;
             t ← now;
             set_inode dir (fun v => set_ctime t (set_i_dirt 1 (set_i_size ((i + 1) * 16) v)))
           else skip);;
          d ← bh_at b;
          if decide (de_inode o (b_data d) = 0) then
            t ← now;
            set_inode dir (set_mtime t);;
            m ← on_user (gets um);
            set_bh b (upd_data (put_de_name o (user_name len name m ++ replicate (NAME_LEN - len) 0)));;
            set_bh b (set_dirt 1);;
            mret (Some (b, o))
          else add_loop n' dir name len (i + 1) (Some b) (o + 16)
      end
  end.

Definition add_entry (dir name : Z) (namelen : nat) : M kern (option (Z * nat)) :=
  let len := Nat.min namelen NAME_LEN in
  if decide (len = O) then mret None
  else
    v ← inode_at dir;
    if decide (zone v 0 = 0) then mret None
    else
      o ← bread (i_dev v) (zone v 0);
      match o with
      | None => mret None
      | Some bh => add_loop fuel dir name len 0 (Some bh) 0
      end.

(** The inner loop of [get_dir]: the length of the component at [p], and the char that ends
    it. *)
Fixpoint component (n : nat) (p : Z) (m : umem) (len : nat) : option (nat * Z) :=
  match n with
  | O => None
  | S n' =>
      let c := get_fs_byte m p in
      if decide (c <> 0 /\ c <> 47) then component n' (p + 1) m (S len) else Some (len, c)
  end.

Fixpoint walk (n : nat) (inode pathname : Z) : M kern (option Z) :=
  match n with
  | O => fun _ => NoFuel
  | S n' =>
      v ← inode_at inode;
      ok ← permission inode MAY_EXEC;
      if negb (S_ISDIR (i_mode v) && ok) then iput (Some inode);; mret None
      else
        m ← on_user (gets um);
        match component fuel pathname m 0 with
        | None => nofuel
        | Some (namelen, c) =>
            if decide (c = 0) then mret (Some inode)
            else
              '(inode, r) ← find_entry inode pathname namelen;
              match r with
              | None => iput (Some inode);; mret None
              | Some (bh, o) =>
                  b ← bh_at bh;
                  let inr := de_inode o (b_data b) in
                  v ← inode_at inode;
                  brelse (Some bh);;
                  iput (Some inode);;
                  i ← iget (i_dev v) inr;
                  walk n' i (pathname + Z.of_nat namelen + 1)
              end
        end
  end.

(** [if (!p || !p->i_count) panic(msg)]. *)
Definition check_inode (p : option Z) (msg : string) : M kern Z :=
  match p with
  | None => panic msg
  | Some i => v ← inode_at i; if decide (i_count v = 0) then panic msg else mret i
  end.

Definition get_dir (pathname : Z) : M kern (option Z) :=
  t ← cur;
  root ← check_inode (root t) "No root inode";
  pwd ← check_inode (pwd t) "No cwd inode";
  c ← user_byte pathname;
  if decide (c = 47) then set_inode root inc_count;; walk fuel root (pathname + 1)
  else if decide (c <> 0) then set_inode pwd inc_count;; walk fuel pwd pathname
  else mret None.

(** The last component: where it starts, and its length. *)
Fixpoint basename (n : nat) (p base : Z) (m : umem) : option (Z * nat) :=
  match n with
  | O => None
  | S n' =>
      let c := get_fs_byte m p in
      if decide (c = 0) then Some (base, Z.to_nat (p - base))
      else basename n' (p + 1) (if decide (c = 47) then p + 1 else base) m
  end.

Definition dir_namei (pathname : Z) : M kern (option (Z * Z * nat)) :=
  o ← get_dir pathname;
  match o with
  | None => mret None
  | Some dir =>
      m ← on_user (gets um);
      match basename fuel pathname pathname m with
      | None => nofuel
      | Some (name, namelen) => mret (Some (dir, name, namelen))
      end
  end.

Definition namei (pathname : Z) : M kern (option Z) :=
  o ← dir_namei pathname;
  match o with
  | None => mret None
  | Some (dir, name, namelen) =>
      if decide (namelen = O) then mret (Some dir)
      else
        '(dir, r) ← find_entry dir name namelen;
        match r with
        | None => iput (Some dir);; mret None
        | Some (bh, o) =>
            b ← bh_at bh;
            let inr := de_inode o (b_data b) in
            v ← inode_at dir;
            brelse (Some bh);;
            iput (Some dir);;
            i ← iget (i_dev v) inr;
            t ← now;
            set_inode i (fun v => set_i_dirt 1 (set_atime t v));;
            mret (Some i)
        end
  end.
End namei.

End Namei.
