(* ===== verification/DiskProps.v ===== *)
(** * The disk format

    The bitmaps, the records of inodes on the disk and the names in directories. *)

From S2P Require Import Prelude Bytes Task UserMem BlkQueue FsState Buffer Super Inode Bitmap Truncate Namei.
Import Task UserMem FsState Inode Bitmap Namei.

Module DiskProps.

Definition bytes (l : list Z) : Prop := Forall (fun x => 0 <= x < 256) l.

Lemma bytes_lookup l k x : bytes l -> l !! k = Some x -> 0 <= x < 256.
Proof. intros Hb E. exact (Forall_lookup_1 _ _ _ _ Hb E). Qed.

(** ** [find_first_zero] *)

(** A bit of a sum whose parts do not overlap. *)
Lemma testbit_add_lo a b w i : 0 <= a < 2 ^ w -> 0 <= i < w -> Z.testbit (a + 2 ^ w * b) i = Z.testbit a i.
Proof.
  intros Ha Hi. rewrite <- (Z.mod_pow2_bits_low (a + 2 ^ w * b) w i) by lia.
  f_equal. rewrite Z.mul_comm, Z_mod_plus_full. apply Z.mod_small. done.
Qed.
Lemma testbit_add_hi a b w i :
  0 <= w -> 0 <= a < 2 ^ w -> w <= i -> Z.testbit (a + 2 ^ w * b) i = Z.testbit b (i - w).
Proof.
  intros Hw Ha Hi. replace i with (i - w + w) at 1 by lia. rewrite <- Z.div_pow2_bits by lia.
  by rewrite Z.mul_comm, Z_div_plus_full, Z.div_small by lia.
Qed.

Lemma testbit_shift8 a w i :
  0 <= a < 256 -> 0 <= i -> Z.testbit (a + 2 ^ 8 * w) i = if decide (i < 8) then Z.testbit a i else Z.testbit w (i - 8).
Proof. intros Ha Hi. case_decide; [by apply testbit_add_lo|by apply testbit_add_hi; lia]. Qed.

(** Bit [i] of a little-endian word. *)
Lemma testbit_word4 a b c d i :
  bytes [a; b; c; d] -> 0 <= i < 32 ->
  Z.testbit (word4 [a; b; c; d]) i = Z.testbit (default 0 ([a; b; c; d] !! Z.to_nat (i / 8))) (i mod 8).
Proof.
  unfold bytes. rewrite !Forall_cons. intros (Ha & Hb & Hc & Hd & _) Hi. unfold word4.
  replace (a + 2 ^ 8 * b + 2 ^ 16 * c + 2 ^ 24 * d) with (a + 2 ^ 8 * (b + 2 ^ 8 * (c + 2 ^ 8 * (d + 2 ^ 8 * 0)))) by lia.
  rewrite testbit_shift8 by lia. case_decide.
  { rewrite Z.div_small, Z.mod_small by lia. done. }
  rewrite testbit_shift8 by lia. case_decide.
  { assert (i / 8 = 1 /\ i mod 8 = i - 8) as [-> ->] by (Z.to_euclidean_division_equations; lia). done. }
  rewrite testbit_shift8 by lia. case_decide.
  { assert (i / 8 = 2 /\ i mod 8 = i - 8 - 8) as [-> ->] by (Z.to_euclidean_division_equations; lia). done. }
  rewrite testbit_shift8 by lia. case_decide; [|lia].
  assert (i / 8 = 3 /\ i mod 8 = i - 8 - 8 - 8) as [-> ->] by (Z.to_euclidean_division_equations; lia). done.
Qed.

(** Four bytes of a block. *)
Lemma field4 k l :
  (k + 4 <= length l)%nat -> field k 4 l = [byte_at l k; byte_at l (k + 1); byte_at l (k + 2); byte_at l (k + 3)].
Proof.
  intros H. unfold field, byte_at. apply list_eq. intros j. destruct (decide (j < 4)%nat) as [Hj|Hj].
  - rewrite lookup_take_lt, lookup_drop by done.
    assert (E : l !! (k + j)%nat = Some (default 0 (l !! (k + j)%nat))).
    { destruct (l !! (k + j)%nat) eqn:E; [done|]. apply lookup_ge_None in E. lia. }
    rewrite E. do 4 (destruct j as [|j]; [by rewrite ?Nat.add_0_r|]). lia.
  - rewrite lookup_take_ge by lia. do 4 (destruct j as [|j]; [lia|]). done.
Qed.

Lemma bytes_field4 k l : bytes l -> bytes [byte_at l k; byte_at l (k + 1); byte_at l (k + 2); byte_at l (k + 3)].
Proof.
  intros Hb. assert (H : forall j, 0 <= byte_at l j < 256).
  { intros j. unfold byte_at. destruct (l !! j) eqn:E; [|cbn; lia]. by apply (bytes_lookup l j). }
  unfold bytes. rewrite !Forall_cons. done.
Qed.

(** The bit the word loop tests. *)
Lemma word_bit k l i :
  bytes l -> (4 * k + 4 <= length l)%nat -> 0 <= i < 32 ->
  Z.testbit (not32 (word4 (field (4 * k) 4 l))) i = negb (bit (32 * Z.of_nat k + i) l).
Proof.
  intros Hb Hl Hi. rewrite field4 by done. unfold not32. rewrite Z.lxor_spec.
  change (2 ^ 32 - 1) with (Z.ones 32). rewrite Z.ones_spec_low by lia. rewrite xorb_true_r. f_equal.
  unfold u32. rewrite Z.mod_pow2_bits_low by lia.
  rewrite testbit_word4; [|by apply bytes_field4|done]. unfold bit.
  assert (E1 : (32 * Z.of_nat k + i) / 8 = 4 * Z.of_nat k + i / 8) by (Z.to_euclidean_division_equations; lia).
  assert (E2 : (32 * Z.of_nat k + i) mod 8 = i mod 8) by (Z.to_euclidean_division_equations; lia).
  rewrite E1, E2. f_equal.
  assert (Hq : 0 <= i / 8 < 4) by (Z.to_euclidean_division_equations; lia).
  replace (Z.to_nat (4 * Z.of_nat k + i / 8)) with (4 * k + Z.to_nat (i / 8))%nat by lia.
  assert (Hn : (Z.to_nat (i / 8) < 4)%nat) by lia. revert Hn. generalize (Z.to_nat (i / 8)). intros j Hj.
  do 4 (destruct j as [|j]; [by rewrite ?Nat.add_0_r|]). lia.
Qed.

(** The lowest set bit. *)
Lemma bsf_spec n i w :
  match bsf n i w with
  | Some j => i <= j < i + Z.of_nat n /\ Z.testbit w j = true /\ forall k, i <= k < j -> Z.testbit w k = false
  | None => forall k, i <= k < i + Z.of_nat n -> Z.testbit w k = false
  end.
Proof.
  revert i. induction n as [|n IH]; intros i; cbn [bsf]; [intros k Hk; lia|].
  destruct (Z.testbit w i) eqn:E; [split; [lia|]; split; [done|]; intros k Hk; lia|].
  specialize (IH (i + 1)). destruct (bsf n (i + 1) w) as [j|].
  - destruct IH as (H1 & H2 & H3). split; [lia|]. split; [done|]. intros k Hk.
    destruct (decide (k = i)) as [->|]; [done|]. apply H3. lia.
  - intros k Hk. destruct (decide (k = i)) as [->|]; [done|]. apply IH. lia.
Qed.

Lemma first_zero_spec n k l :
  bytes l -> (4 * (k + n) <= length l)%nat ->
  let r := first_zero n k l in
  32 * Z.of_nat k <= r <= 32 * Z.of_nat (k + n) /\
  (forall nr, 32 * Z.of_nat k <= nr < r -> bit nr l = true) /\
  (r < 32 * Z.of_nat (k + n) -> bit r l = false).
Proof.
  intros Hb. revert k. induction n as [|n IH]; intros k Hl; cbn [first_zero].
  { split; [lia|]. split; [intros nr Hnr; lia|lia]. }
  pose proof (bsf_spec 32 0 (not32 (word4 (field (4 * k) 4 l)))) as Hs.
  assert (Hw : forall i, 0 <= i < 32 -> Z.testbit (not32 (word4 (field (4 * k) 4 l))) i = negb (bit (32 * Z.of_nat k + i) l))
    by (intros i Hi; apply word_bit; done || lia).
  destruct (bsf 32 0 _) as [j|].
  - destruct Hs as (H1 & H2 & H3). split; [lia|]. split.
    + intros nr Hnr. specialize (H3 (nr - 32 * Z.of_nat k) ltac:(lia)). rewrite Hw in H3 by lia.
      replace (32 * Z.of_nat k + (nr - 32 * Z.of_nat k)) with nr in H3 by lia. by apply negb_false_iff.
    + intros _. rewrite Hw in H2 by lia. by apply negb_true_iff.
  - destruct (IH (S k)) as (H1 & H2 & H3); [lia|]. split; [lia|]. split.
    + intros nr Hnr. destruct (decide (nr < 32 * Z.of_nat (S k))); [|apply H2; lia].
      specialize (Hs (nr - 32 * Z.of_nat k) ltac:(lia)). rewrite Hw in Hs by lia.
      replace (32 * Z.of_nat k + (nr - 32 * Z.of_nat k)) with nr in Hs by lia. by apply negb_false_iff.
    + intros Hr. apply H3. lia.
Qed.

(** C24: the search by 32-bit words finds the lowest clear bit of a bitmap block, in the
    numbering of [set_bit] and [clear_bit], and answers 8192 exactly when every bit is
    set. *)
Theorem find_first_zero_lowest l :
  bytes l -> length l = 1024%nat ->
  let r := find_first_zero l in
  0 <= r <= 8192 /\ (forall nr, 0 <= nr < r -> bit nr l = true) /\ (r < 8192 -> bit r l = false).
Proof. intros Hb Hl. apply (first_zero_spec 256 0 l Hb). rewrite Hl. lia. Qed.

Lemma find_first_zero_lowest_witness :
  let l := replicate 5 255 ++ 0x17 :: replicate 1018 0 in
  find_first_zero l = 43 /\
  (0 <= find_first_zero l <= 8192 /\ (forall nr, 0 <= nr < find_first_zero l -> bit nr l = true) /\
   (find_first_zero l < 8192 -> bit (find_first_zero l) l = false)).
Proof.
  split; [vm_compute; reflexivity|].
  apply find_first_zero_lowest; [|reflexivity]. unfold bytes. apply Forall_app. split.
  - apply Forall_replicate. lia.
  - apply Forall_cons. split; [lia|]. apply Forall_replicate. lia.
Defined.

(** ** Inodes on the disk *)

Lemma word2_id v : 0 <= v < 2 ^ 16 -> word2 [u8 v; u8 (v / 2 ^ 8)] = v.
Proof. intros H. etransitivity; [apply (word2_bytes2 v)|]. by apply u16_small. Qed.
Lemma word4_id v : 0 <= v < 2 ^ 32 -> word4 [u8 v; u8 (v / 2 ^ 8); u8 (v / 2 ^ 16); u8 (v / 2 ^ 24)] = v.
Proof. intros H. etransitivity; [apply (word4_bytes4 v)|]. by apply u32_small. Qed.

(** The fields of the disk copy are within their widths. *)
Record disk_ok (i : m_inode) : Prop := {
  dk_mode : 0 <= i_mode i < 2 ^ 16;
  dk_uid : 0 <= i_uid i < 2 ^ 16;
  dk_size : 0 <= i_size i < 2 ^ 32;
  dk_mtime : 0 <= i_mtime i < 2 ^ 32;
  dk_gid : 0 <= i_gid i < 2 ^ 8;
  dk_nlinks : 0 <= i_nlinks i < 2 ^ 8;
  dk_zones : length (i_zone i) = 9%nat;
  dk_zone : Forall (fun z => 0 <= z < 2 ^ 16) (i_zone i)
}.

Lemma load_d_inode_bytes i j :
  disk_ok i ->
  load_d_inode (d_inode_bytes i) j =
  {| j with i_mode := i_mode i; i_uid := i_uid i; i_size := i_size i; i_mtime := i_mtime i;
     i_gid := i_gid i; i_nlinks := i_nlinks i; i_zone := i_zone i |}.
Proof.
  intros [H1 H2 H3 H4 H5 H6 H7 H8]. unfold load_d_inode, d_inode_bytes.
  destruct (i_zone i) as [|z0 [|z1 [|z2 [|z3 [|z4 [|z5 [|z6 [|z7 [|z8 [|]]]]]]]]]]; try discriminate H7.
  rewrite !Forall_cons in H8. destruct H8 as (Z0 & Z1 & Z2 & Z3 & Z4 & Z5 & Z6 & Z7 & Z8 & _).
  unfold field, default. cbn [map mjoin list_join app seq bytes2 bytes4 Nat.add Nat.mul drop take lookup list_lookup].
  f_equal; try (by apply word2_id); try (by apply word4_id); try (by apply u8_small).
  by rewrite !word2_id.
Qed.

(** Where an inode is in its block. *)
Lemma inode_slot_cases v w :
  (inode_slot v + 32 <= 1024)%nat /\
  (inode_slot w = inode_slot v \/ (inode_slot w + 32 <= inode_slot v)%nat \/ (inode_slot v + 32 <= inode_slot w)%nat).
Proof.
  unfold inode_slot, INODES_PER_BLOCK.
  pose proof (Z.mod_pos_bound (u32 (i_num v - 1)) 32). pose proof (Z.mod_pos_bound (u32 (i_num w - 1)) 32). lia.
Qed.

Lemma length_d_inode v : disk_ok v -> length (d_inode_bytes v) = 32%nat.
Proof.
  intros [_ _ _ _ _ _ H _]. unfold d_inode_bytes.
  by destruct (i_zone v) as [|z0 [|z1 [|z2 [|z3 [|z4 [|z5 [|z6 [|z7 [|z8 [|]]]]]]]]]].
Qed.

(** ** Names *)

(** The string in a [char[14]]: up to the first NUL. *)
Fixpoint cstr (l : list Z) : list Z :=
  match l with [] => [] | c :: l' => if decide (c = 0) then [] else c :: cstr l' end.

Lemma cstr_pad u n : Forall (fun c => c <> 0) u -> cstr (u ++ replicate n 0) = u.
Proof.
  induction 1 as [|c u Hc _ IH]; cbn [app cstr]; [by destruct n|]. rewrite decide_False by done. by rewrite IH.
Qed.

Lemma cstr_prefix u l :
  Forall (fun c => c <> 0) u -> (length u <= length l)%nat ->
  (cstr l = u <-> take (length u) l = u /\ (length u = length l \/ l !! length u = Some 0)).
Proof.
  intros Hu. revert l. induction Hu as [|c u Hc Hu IH]; intros [|d l] Hl; cbn [length] in Hl; try lia.
  - cbn. naive_solver.
  - cbn [cstr length take lookup list_lookup]. case_decide as Hd; [subst d; naive_solver|].
    split; [done|]. intros [_ [E|E]]; [done|]. by injection E as ->.
  - cbn [cstr length take]. case_decide as Hd.
    + split; [done|]. intros [[= -> _] _]. done.
    + specialize (IH l ltac:(lia)). split.
      * intros [= -> E]. apply IH in E as [E1 E2]. rewrite E1. split; [done|]. destruct E2; [left; lia|by right].
      * intros [[= -> E1] E2]. f_equal. apply IH. split; [done|]. destruct E2; [left; lia|by right].
Qed.

Lemma length_user_name len name m : length (user_name len name m) = len.
Proof. unfold user_name. by rewrite length_map, length_seq. Qed.

(** C25: [match] compares names as strings: an entry of a directory block is the answer for a
    name of [len] bytes without NUL exactly when it is in use and its 14-byte name, read up
    to the first NUL, is that name.  A longer name never matches. *)
Theorem match_names len name m o data :
  (0 < len)%nat -> Forall (fun c => c <> 0) (user_name len name m) -> (o + 16 <= length data)%nat ->
  match_ len name m o data =
    bool_decide (de_inode o data <> 0 /\ cstr (de_name o data) = user_name len name m).
Proof.
  intros H0 Hu Hl. unfold match_. pose proof (length_user_name len name m) as Hlen.
  assert (Hd : length (de_name o data) = 14%nat).
  { unfold de_name, field, NAME_LEN. rewrite length_take, length_drop. lia. }
  assert (Hc : (length (cstr (de_name o data)) <= 14)%nat).
  { rewrite <- Hd. generalize (de_name o data). intros l. induction l as [|c l IH]; [done|]. cbn.
    case_decide; cbn; lia. }
  destruct (decide (de_inode o data = 0 \/ (NAME_LEN < len)%nat)) as [Hx|Hx].
  { symmetry. apply bool_decide_eq_false_2. intros [H1 H2]. destruct Hx as [Hx|Hx]; [done|].
    rewrite H2, Hlen in Hc. unfold NAME_LEN in Hx. lia. }
  unfold NAME_LEN in *. assert (Hle : (len <= 14)%nat) by lia.
  pose proof (cstr_prefix _ (de_name o data) Hu ltac:(lia)) as Hp. rewrite Hlen, Hd in Hp.
  destruct (decide ((len < 14)%nat /\ default 0 (de_name o data !! len) <> 0)) as [Hy|Hy].
  { symmetry. apply bool_decide_eq_false_2. intros [_ H2]. apply Hp in H2 as [_ [H2|H2]]; [lia|].
    rewrite H2 in Hy. by destruct Hy. }
  apply bool_decide_ext. split.
  - intros E. split; [lia|]. apply Hp. split; [done|]. destruct (decide (len = 14%nat)) as [->|Hn]; [by left|right].
    destruct (lookup_lt_is_Some_2 (de_name o data) len) as [c Ec]; [lia|]. rewrite Ec in Hy |- *. cbn in Hy.
    f_equal. lia.
  - intros [_ E]. by apply Hp in E as [-> _].
Qed.

(** The entry [add_entry] writes is found under its name. *)
Lemma added_entry_name o u data :
  Forall (fun c => c <> 0) u -> (length u <= 14)%nat -> (o + 16 <= length data)%nat ->
  cstr (de_name o (put_de_name o (u ++ replicate (NAME_LEN - length u) 0) data)) = u.
Proof.
  intros Hu Hl Ho. unfold de_name, put_de_name.
  assert (E : length (u ++ replicate (NAME_LEN - length u) 0) = NAME_LEN).
  { rewrite length_app, length_replicate. unfold NAME_LEN. lia. }
  rewrite <- E at 1. rewrite field_splice; [by apply cstr_pad|]. rewrite E. unfold NAME_LEN. lia.
Qed.

Lemma match_names_witness :
  let m := put_bytes [98; 105; 110; 47] 100 empty in
  let data := [5; 0; 98; 105; 110] ++ replicate 1019 0 in
  match_ 3 100 m 0 data = true /\
  match_ 3 100 m 0 data = bool_decide (de_inode 0 data <> 0 /\ cstr (de_name 0 data) = user_name 3 100 m).
Proof.
  split; [vm_compute; reflexivity|]. apply match_names; [lia| |apply Nat.leb_le; reflexivity].
  vm_compute. repeat constructor; discriminate.
Defined.

End DiskProps.
