(* ===== verification/Dirs.v ===== *)
(** * fs/namei.c, second part: creating and removing names

    [open_namei] and the system calls that change directories.  [iget] never returns
    a null pointer (it panics when the table is full), so the source's tests of its result
    have no counterpart here. *)

From S2P Require Import Prelude Bytes Memory Task UserMem BlkQueue FsState.
From S2P Require Import Buffer Super Inode Bitmap Truncate Namei.
Import Memory Task UserMem BlkQueue FsState Namei.

Module Dirs.

Section dirs.
Context `{!Machine} (fuel depth : nat).

#[local] Abbreviation iput := (Truncate.iput fuel depth).
#[local] Abbreviation iget := (Truncate.iget fuel depth).
#[local] Abbreviation bread := (Inode.bread fuel depth).
#[local] Abbreviation brelse := (Buffer.brelse fuel).
#[local] Abbreviation find_entry := (Namei.find_entry fuel depth).
#[local] Abbreviation add_entry := (Namei.add_entry fuel depth).
#[local] Abbreviation dir_namei := (Namei.dir_namei fuel depth).
#[local] Abbreviation new_inode := (Truncate.new_inode fuel depth).

(** [de->inode = v; bh->b_dirt = 1]. *)
Definition write_entry (bh : Z) (o : nat) (v : Z) : M kern unit :=
  set_bh bh (upd_data (put_de_inode o v));; set_bh bh (set_dirt 1).

(** [mode & 0777 & ~current->umask]. *)
Definition masked (mode : Z) (t : task_struct) : Z := Z.ldiff (Z.land mode 0x1ff) (umask t).

(** The new file of [open_namei], in [dir] without an entry of that name. *)
Definition create_file (dir name : Z) (namelen : nat) (flag mode : Z) : M kern (Z + Z) :=
  if decide (Z.land flag O_CREAT = 0) then iput (Some dir);; mret (inl (- ENOENT))
  else
    ok ← permission dir MAY_WRITE;
    if negb ok then iput (Some dir);; mret (inl (- EACCES))
    else
      d ← inode_at dir;
      o ← new_inode (i_dev d);
      match o with
      | None => iput (Some dir);; mret (inl (- ENOSPC))
      | Some inode =>
          t ← cur;
          set_inode inode (fun v => set_i_dirt 1 (set_mode mode {| v with i_uid := u16 (euid t) |}));;
          r ← add_entry dir name namelen;
          match r with
          | None =>
              set_inode inode (fun v => set_nlinks (i_nlinks v - 1) v);;
              iput (Some inode);; iput (Some dir);; mret (inl (- ENOSPC))
          | Some (bh, o) =>
              v ← inode_at inode;
              write_entry bh o (i_num v);;
              brelse (Some bh);; iput (Some dir);; mret (inr inode)
          end
      end.

(** The existing file of [open_namei], entry [o] of [bh] in [dir]. *)
Definition open_existing (dir bh : Z) (o : nat) (flag : Z) : M kern (Z + Z) :=
  b ← bh_at bh;
  let inr_ := de_inode o (b_data b) in
  d ← inode_at dir;
  brelse (Some bh);; iput (Some dir);;
  if decide (Z.land flag O_EXCL <> 0) then mret (inl (- EEXIST))
  else
    inode ← iget (i_dev d) inr_;
    v ← inode_at inode;
    ok ← permission inode (ACC_MODE flag);
    if decide ((S_ISDIR (i_mode v) = true /\ Z.land flag O_ACCMODE <> 0) \/ ok = false) then
      iput (Some inode);; mret (inl (- EPERM))
    else
      time ← now;
      set_inode inode (set_atime time);;
      (if decide (Z.land flag O_TRUNC <> 0) then Truncate.truncate fuel depth inode else skip);;
      mret (inr inode).

(** [open_namei]: an error, or the inode. *)
Definition open_namei (pathname flag mode : Z) : M kern (Z + Z) :=
  let flag := if decide (Z.land flag O_TRUNC <> 0 /\ Z.land flag O_ACCMODE = 0)
              then Z.lor flag O_WRONLY else flag in
  t ← cur;
  let mode := Z.lor (masked mode t) I_REGULAR in
  o ← dir_namei pathname;
  match o with
  | None => mret (inl (- ENOENT))
  | Some (dir, name, namelen) =>
      if decide (namelen = O) then
        if decide (Z.land flag (Z.lor O_ACCMODE (Z.lor O_CREAT O_TRUNC)) = 0) then mret (inr dir)
        else iput (Some dir);; mret (inl (- EISDIR))
      else
        '(dir, r) ← find_entry dir name namelen;
        match r with
        | None => create_file dir name namelen flag mode
        | Some (bh, o) => open_existing dir bh o flag
        end
  end.

Definition sys_mknod (filename mode dev : Z) : M kern Z :=
  t ← cur;
  if negb (suser t) then mret (- EPERM)
  else
    o ← dir_namei filename;
    match o with
    | None => mret (- ENOENT)
    | Some (dir, name, namelen) =>
        if decide (namelen = O) then iput (Some dir);; mret (- ENOENT)
        else
          ok ← permission dir MAY_WRITE;
          if negb ok then iput (Some dir);; mret (- EPERM)
          else
            '(dir, r) ← find_entry dir name namelen;
            match r with
            | Some (bh, _) => brelse (Some bh);; iput (Some dir);; mret (- EEXIST)
            | None =>
                d ← inode_at dir;
                o ← new_inode (i_dev d);
                match o with
                | None => iput (Some dir);; mret (- ENOSPC)
                | Some inode =>
                    time ← now;
                    set_inode inode (set_mode mode);;
                    (if S_ISBLK mode || S_ISCHR mode then set_inode inode (set_zone 0 dev) else skip);;
                    set_inode inode (fun v => set_i_dirt 1 (set_mtime time (set_atime time v)));;
                    r ← add_entry dir name namelen;
                    match r with
                    | None =>
                        iput (Some dir);;
                        set_inode inode (set_nlinks 0);;
                        iput (Some inode);; mret (- ENOSPC)
                    | Some (bh, o) =>
                        v ← inode_at inode;
                        write_entry bh o (i_num v);;
                        iput (Some dir);; iput (Some inode);; brelse (Some bh);; mret 0
                    end
                end
            end
    end.

(** The [.] and [..] of a new directory. *)
Definition dot_entries (self parent : Z) (data : list Z) : list Z :=
  put_de_name 16 [46; 46; 0] (put_de_inode 16 parent
    (put_de_name 0 [46; 0] (put_de_inode 0 self data))).

(** [sys_mkdir] from [new_inode] on. *)
Definition make_dir (dir name : Z) (namelen : nat) (mode : Z) : M kern Z :=
  d ← inode_at dir;
  o ← new_inode (i_dev d);
  match o with
  | None => iput (Some dir);; mret (- ENOSPC)
  | Some inode =>
      time ← now;
      set_inode inode (fun v => set_mtime time (set_atime time (set_i_dirt 1 (set_i_size 32 v))));;
      v ← inode_at inode;
      z ← Bitmap.new_block fuel depth (i_dev v);
      set_inode inode (set_zone 0 z);;
      v ← inode_at inode;
      if decide (zone v 0 = 0) then
        iput (Some dir);;
        set_inode inode (fun v => set_nlinks (i_nlinks v - 1) v);;
        iput (Some inode);; mret (- ENOSPC)
      else
        set_inode inode (set_i_dirt 1);;
        v ← inode_at inode;
        o ← bread (i_dev v) (zone v 0);
        match o with
        | None =>
            iput (Some dir);;
            v ← inode_at inode;
            Bitmap.free_block fuel (i_dev v) (zone v 0);;
            set_inode inode (fun v => set_nlinks (i_nlinks v - 1) v);;
            iput (Some inode);; mret (- ERROR)
        | Some dir_block =>
            v ← inode_at inode; d ← inode_at dir;
            set_bh dir_block (upd_data (dot_entries (i_num v) (i_num d)));;
            set_inode inode (set_nlinks 2);;
            set_bh dir_block (set_dirt 1);;
            brelse (Some dir_block);;
            t ← cur;
            set_inode inode (fun v => set_i_dirt 1 (set_mode (Z.lor I_DIRECTORY (masked mode t)) v));;
            r ← add_entry dir name namelen;
            match r with
            | None =>
                iput (Some dir);;
                v ← inode_at inode;
                Bitmap.free_block fuel (i_dev v) (zone v 0);;
                set_inode inode (set_nlinks 0);;
                iput (Some inode);; mret (- ENOSPC)
            | Some (bh, o) =>
                v ← inode_at inode;
                write_entry bh o (i_num v);;
                set_inode dir (fun d => set_i_dirt 1 (set_nlinks (i_nlinks d + 1) d));;
                iput (Some dir);; iput (Some inode);; brelse (Some bh);; mret 0
            end
        end
  end.

Definition sys_mkdir (pathname mode : Z) : M kern Z :=
  t ← cur;
  if negb (suser t) then mret (- EPERM)
  else
    o ← dir_namei pathname;
    match o with
    | None => mret (- ENOENT)
    | Some (dir, name, namelen) =>
        if decide (namelen = O) then iput (Some dir);; mret (- ENOENT)
        else
          ok ← permission dir MAY_WRITE;
          if negb ok then iput (Some dir);; mret (- EPERM)
          else
            '(dir, r) ← find_entry dir name namelen;
            match r with
            | Some (bh, _) => brelse (Some bh);; iput (Some dir);; mret (- EEXIST)
            | None => make_dir dir name namelen mode
            end
    end.

(** The scan of [empty_dir].  A block that is a hole leaves [bh] and [de] as they were, so
    the next round releases [bh] a second time. *)
Fixpoint empty_loop (n : nat) (inode nr len bh : Z) (o : nat) : M kern Z :=
  match n with
  | O => fun _ => NoFuel
  | S n' =>
      if decide (len <= nr) then brelse (Some bh);; mret 1
      else
        p ← (if decide (1024 <= o)%nat then
               brelse (Some bh);;
               block ← Truncate.bmap fuel depth inode (nr / DIR_ENTRIES_PER_BLOCK);
               if decide (block = 0) then mret (inl true)
               else
                 v ← inode_at inode; b ← bread (i_dev v) block;
                 match b with None => mret (inl false) | Some b => mret (inr (b, O)) end
             else mret (inr (bh, o)));
        match p with
        | inl true => empty_loop n' inode (nr + DIR_ENTRIES_PER_BLOCK) len bh o
        | inl false => mret 0
        | inr (b, o) =>
            d ← bh_at b;
            if decide (de_inode o (b_data d) <> 0) then brelse (Some b);; mret 0
            else empty_loop n' inode (nr + 1) len b (o + 16)
        end
  end.

(** [strcmp(s,name) = 0] for a name in a block, [s] with its NUL. *)
Definition name_is (s : list Z) (o : nat) (data : list Z) : bool :=
  bool_decide (field (o + 2) (length s) data = s).

Definition empty_dir (inode : Z) : M kern Z :=
  v ← inode_at inode;
  let len := i_size v / 16 in
  if decide (len < 2 \/ zone v 0 = 0) then mret 0
  else
    o ← bread (i_dev v) (zone v 0);
    match o with
    | None => mret 0
    | Some bh =>
        b ← bh_at bh; v ← inode_at inode;
        if decide (de_inode 0 (b_data b) <> i_num v \/ de_inode 16 (b_data b) = 0 \/
                   name_is [46; 0] 0 (b_data b) = false \/ name_is [46; 46; 0] 16 (b_data b) = false)
        then mret 0
        else empty_loop fuel inode 2 len bh 32
    end.

(** The end of [sys_rmdir]: the entry goes, and both inodes change. *)
Definition remove_dir (dir inode bh : Z) (o : nat) : M kern Z :=
  write_entry bh o 0;;
  brelse (Some bh);;
  set_inode inode (fun v => set_i_dirt 1 (set_nlinks 0 v));;
  time ← now;
  set_inode dir (fun d => set_i_dirt 1 (set_ctime time (set_mtime time (set_nlinks (i_nlinks d - 1) d))));;
  iput (Some dir);; iput (Some inode);; mret 0.

Definition sys_rmdir (name : Z) : M kern Z :=
  t ← cur;
  if negb (suser t) then mret (- EPERM)
  else
    o ← dir_namei name;
    match o with
    | None => mret (- ENOENT)
    | Some (dir, name, namelen) =>
        if decide (namelen = O) then iput (Some dir);; mret (- ENOENT)
        else
          ok ← permission dir MAY_WRITE;
          if negb ok then iput (Some dir);; mret (- EPERM)
          else
            '(dir, r) ← find_entry dir name namelen;
            match r with
            | None => iput (Some dir);; mret (- ENOENT)
            | Some (bh, o) =>
                b ← bh_at bh; d ← inode_at dir;
                inode ← iget (i_dev d) (de_inode o (b_data b));
                v ← inode_at inode; d ← inode_at dir;
                if decide (Z.land (i_mode d) S_ISVTX <> 0 /\ euid t <> 0 /\ i_uid v <> euid t) then
                  iput (Some dir);; iput (Some inode);; brelse (Some bh);; mret (- EPERM)
                else if decide (i_dev v <> i_dev d \/ 1 < i_count v) then
                  iput (Some dir);; iput (Some inode);; brelse (Some bh);; mret (- EPERM)
                else if decide (inode = dir) then
                  iput (Some inode);; iput (Some dir);; brelse (Some bh);; mret (- EPERM)
                else if negb (S_ISDIR (i_mode v)) then
                  iput (Some inode);; iput (Some dir);; brelse (Some bh);; mret (- ENOTDIR)
                else
                  e ← empty_dir inode;
                  if decide (e = 0) then
                    iput (Some inode);; iput (Some dir);; brelse (Some bh);; mret (- ENOTEMPTY)
                  else remove_dir dir inode bh o
            end
    end.

Definition sys_unlink (name : Z) : M kern Z :=
  o ← dir_namei name;
  match o with
  | None => mret (- ENOENT)
  | Some (dir, name, namelen) =>
      if decide (namelen = O) then iput (Some dir);; mret (- ENOENT)
      else
        ok ← permission dir MAY_WRITE;
        if negb ok then iput (Some dir);; mret (- EPERM)
        else
          '(dir, r) ← find_entry dir name namelen;
          match r with
          | None => iput (Some dir);; mret (- ENOENT)
          | Some (bh, o) =>
              b ← bh_at bh; d ← inode_at dir;
              inode ← iget (i_dev d) (de_inode o (b_data b));
              t ← cur; v ← inode_at inode; d ← inode_at dir;
              if decide (Z.land (i_mode d) S_ISVTX <> 0 /\ suser t = false /\
                         euid t <> i_uid v /\ euid t <> i_uid d) then
                iput (Some dir);; iput (Some inode);; brelse (Some bh);; mret (- EPERM)
              else if S_ISDIR (i_mode v) then
                iput (Some inode);; iput (Some dir);; brelse (Some bh);; mret (- EPERM)
              else
                (if decide (i_nlinks v = 0) then set_inode inode (set_nlinks 1) else skip);;
                write_entry bh o 0;;
                brelse (Some bh);;
                time ← now;
                set_inode inode (fun v => set_ctime time (set_i_dirt 1 (set_nlinks (i_nlinks v - 1) v)));;
                iput (Some inode);; iput (Some dir);; mret 0
          end
  end.

Definition sys_link (oldname newname : Z) : M kern Z :=
  o ← Namei.namei fuel depth oldname;
  match o with
  | None => mret (- ENOENT)
  | Some oldinode =>
      v ← inode_at oldinode;
      if S_ISDIR (i_mode v) then iput (Some oldinode);; mret (- EPERM)
      else
        o ← dir_namei newname;
        match o with
        | None => iput (Some oldinode);; mret (- EACCES)
        | Some (dir, name, namelen) =>
            d ← inode_at dir; v ← inode_at oldinode;
            if decide (namelen = O) then iput (Some oldinode);; iput (Some dir);; mret (- EPERM)
            else if decide (i_dev d <> i_dev v) then
              iput (Some dir);; iput (Some oldinode);; mret (- EXDEV)
            else
              ok ← permission dir MAY_WRITE;
              if negb ok then iput (Some dir);; iput (Some oldinode);; mret (- EACCES)
              else
                '(dir, r) ← find_entry dir name namelen;
                match r with
                | Some (bh, _) =>
                    brelse (Some bh);; iput (Some dir);; iput (Some oldinode);; mret (- EEXIST)
                | None =>
                    r ← add_entry dir name namelen;
                    match r with
                    | None => iput (Some dir);; iput (Some oldinode);; mret (- ENOSPC)
                    | Some (bh, o) =>
                        v ← inode_at oldinode;
                        write_entry bh o (i_num v);;
                        brelse (Some bh);;
                        iput (Some dir);;
                        time ← now;
                        set_inode oldinode (fun v =>
                          set_i_dirt 1 (set_ctime time (set_nlinks (i_nlinks v + 1) v)));;
                        iput (Some oldinode);; mret 0
                    end
                end
        end
  end.
End dirs.

End Dirs.
