(* ===== verification/FileIO.v ===== *)
(** * Reading and writing: file_dev.c, block_dev.c, pipe.c, char_dev.c, read_write.c

    A file position is a field of the open file, which the source passes by
    address.  The copying loops move the bytes of one block at a time. *)

From S2P Require Import Prelude Bytes Ports Memory Task UserMem BlkQueue FsState.
From S2P Require Import Buffer Super Inode Bitmap Truncate Namei.
Import Memory Task UserMem BlkQueue FsState.

Module FileIO.

Definition PAGE_SIZE : Z := 4096.

(** [nr] bytes from offset [o] of a block. *)
Definition block_bytes (o nr : Z) (data : list Z) : list Z := field (Z.to_nat o) (Z.to_nat nr) data.
Definition to_user (l : list Z) (buf : Z) : M kern unit := on_user (upd_um (put_bytes l buf)).
Definition from_user (n buf : Z) : M kern (list Z) :=
  m ← on_user (gets um); mret (get_bytes (Z.to_nat n) buf m).

Section fileio.
Context `{!Machine} (fuel depth : nat).

#[local] Abbreviation bread := (Inode.bread fuel depth).
#[local] Abbreviation brelse := (Buffer.brelse fuel).

(** ** file_dev.c *)

(** The loop of [file_read]: what is left at its end. *)
Fixpoint read_loop (n : nat) (inode filp buf left : Z) : M kern Z :=
  match n with
  | O => fun _ => NoFuel
  | S n' =>
      if decide (left = 0) then mret 0
      else
        f ← file_at filp;
        nr ← Truncate.bmap fuel depth inode (Z.quot (f_pos f) BLOCK_SIZE);
        o ← (if decide (nr <> 0) then
               v ← inode_at inode; b ← bread (i_dev v) nr; mret (Some <$> b)
             else mret (Some None));
        match o with
        | None => mret left
        | Some bh =>
            f ← file_at filp;
            let nr := Z.rem (f_pos f) BLOCK_SIZE in
            let chars := Z.min (BLOCK_SIZE - nr) left in
            set_file filp (set_f_pos (f_pos f + chars));;
            match bh with
            | Some bh =>
                b ← bh_at bh;
                to_user (block_bytes nr chars (b_data b)) buf;;
                brelse (Some bh)
            | None => to_user (replicate (Z.to_nat chars) 0) buf
            end;;
            read_loop n' inode filp (buf + chars) (left - chars)
        end
  end.

Definition file_read (inode filp buf count : Z) : M kern Z :=
  if decide (count <= 0) then mret 0
  else
    left ← read_loop (S (Z.to_nat count)) inode filp buf count;
    t ← now;
    set_inode inode (set_atime t);;
    mret (if decide (count - left <> 0) then count - left else - ERROR).

(** The loop of [file_write]: the position and the count at its end. *)
Fixpoint write_loop (n : nat) (inode buf count pos i : Z) : M kern (Z * Z) :=
  match n with
  | O => fun _ => NoFuel
  | S n' =>
      if decide (count <= i) then mret (pos, i)
      else
        block ← Truncate.create_block fuel depth inode (Z.quot pos BLOCK_SIZE);
        if decide (block = 0) then mret (pos, i)
        else
          v ← inode_at inode;
          o ← bread (i_dev v) block;
          match o with
          | None => mret (pos, i)
          | Some bh =>
              let c0 := Z.rem pos BLOCK_SIZE in
              set_bh bh (set_dirt 1);;
              let c := Z.min (BLOCK_SIZE - c0) (count - i) in
              let pos := s32 (pos + c) in
              v ← inode_at inode;
              (if decide (i_size v < u32 pos) then
                 set_inode inode (fun v => set_i_dirt 1 (set_i_size pos v)) else skip);;
              l ← from_user c buf;
              set_bh bh (upd_data (splice (Z.to_nat c0) l));;
              brelse (Some bh);;
              write_loop n' inode (buf + c) count pos (i + c)
          end
  end.

Definition file_write (inode filp buf count : Z) : M kern Z :=
  f ← file_at filp;
  v ← inode_at inode;
  let append := bool_decide (Z.land (f_flags f) Namei.O_APPEND <> 0) in
  let pos := if append then s32 (i_size v) else f_pos f in
  '(pos, i) ← write_loop (S (Z.to_nat count)) inode buf count pos 0;
  t ← now;
  set_inode inode (set_mtime t);;
  (if append then skip
   else set_file filp (set_f_pos pos);; t ← now; set_inode inode (set_ctime t));;
  mret (if decide (i <> 0) then i else -1).

(** ** block_dev.c *)

(** A whole block is not read before it is overwritten. *)
Fixpoint bwrite_loop (n : nat) (dev filp buf count block offset written : Z) : M kern Z :=
  match n with
  | O => fun _ => NoFuel
  | S n' =>
      if decide (count <= 0) then mret written
      else
        let chars := Z.min (BLOCK_SIZE - offset) count in
        o ← (if decide (chars = BLOCK_SIZE)
             then bh ← Inode.getblk fuel depth dev block; mret (Some bh)
             else Buffer.breada fuel (Inode.sync_inodes fuel depth) dev block [block + 1; block + 2; -1]);
        match o with
        | None => mret (if decide (written <> 0) then written else - EIO)
        | Some bh =>
            f ← file_at filp;
            set_file filp (set_f_pos (f_pos f + chars));;
            l ← from_user chars buf;
            set_bh bh (upd_data (splice (Z.to_nat offset) l));;
            set_bh bh (set_dirt 1);;
            brelse (Some bh);;
            bwrite_loop n' dev filp (buf + chars) (count - chars) (block + 1) 0 (written + chars)
        end
  end.
Definition block_write (dev filp buf count : Z) : M kern Z :=
  f ← file_at filp;
  bwrite_loop (S (Z.to_nat count)) dev filp buf count
    (Z.shiftr (f_pos f) 10) (Z.land (f_pos f) (BLOCK_SIZE - 1)) 0.

Fixpoint bread_loop (n : nat) (dev filp buf count block offset read : Z) : M kern Z :=
  match n with
  | O => fun _ => NoFuel
  | S n' =>
      if decide (count <= 0) then mret read
      else
        let chars := Z.min (BLOCK_SIZE - offset) count in
        o ← Buffer.breada fuel (Inode.sync_inodes fuel depth) dev block [block + 1; block + 2; -1];
        match o with
        | None => mret (if decide (read <> 0) then read else - EIO)
        | Some bh =>
            f ← file_at filp;
            set_file filp (set_f_pos (f_pos f + chars));;
            b ← bh_at bh;
            to_user (block_bytes offset chars (b_data b)) buf;;
            brelse (Some bh);;
            bread_loop n' dev filp (buf + chars) (count - chars) (block + 1) 0 (read + chars)
        end
  end.
Definition block_read (dev filp buf count : Z) : M kern Z :=
  f ← file_at filp;
  bread_loop (S (Z.to_nat count)) dev filp buf count
    (Z.shiftr (u32 (f_pos f)) 10) (Z.land (f_pos f) (BLOCK_SIZE - 1)) 0.

(** ** pipe.c *)

Definition PIPE_HEAD (v : m_inode) : Z := zone v 0.
Definition PIPE_TAIL (v : m_inode) : Z := zone v 1.
Definition PIPE_SIZE (v : m_inode) : Z := Z.land (PIPE_HEAD v - PIPE_TAIL v) (PAGE_SIZE - 1).

(** [while (!(size=...)) ...]: [None] when the other end is closed. *)
Fixpoint pipe_wait (n : nat) (inode : Z) (room : m_inode -> Z) : M kern (option Z) :=
  match n with
  | O => fun _ => NoFuel
  | S n' =>
      v ← inode_at inode;
      if decide (room v <> 0) then mret (Some (room v))
      else
        wake_up (Inode_wait inode);;
        v ← inode_at inode;
        if decide (i_count v <> 2) then mret None
        else sleep_on (Inode_wait inode);; pipe_wait n' inode room
  end.

Fixpoint pipe_read_loop (n : nat) (inode buf count read : Z) : M kern Z :=
  match n with
  | O => fun _ => NoFuel
  | S n' =>
      if decide (count <= 0) then wake_up (Inode_wait inode);; mret read
      else
        o ← pipe_wait fuel inode PIPE_SIZE;
        match o with
        | None => mret read
        | Some size =>
            v ← inode_at inode;
            let tail := PIPE_TAIL v in
            let chars := Z.min (Z.min (PAGE_SIZE - tail) count) size in
            set_inode inode (set_zone 1 (Z.land (tail + chars) (PAGE_SIZE - 1)));;
            m ← gets kmem;
            to_user (kread (Z.to_nat chars) (i_size v + tail) m) buf;;
            pipe_read_loop n' inode (buf + chars) (count - chars) (read + chars)
        end
  end.
Definition read_pipe (inode buf count : Z) : M kern Z :=
  pipe_read_loop (S (Z.to_nat count)) inode buf count 0.

Fixpoint pipe_write_loop (n : nat) (inode buf count written : Z) : M kern Z :=
  match n with
  | O => fun _ => NoFuel
  | S n' =>
      if decide (count <= 0) then wake_up (Inode_wait inode);; mret written
      else
        o ← pipe_wait fuel inode (fun v => PAGE_SIZE - 1 - PIPE_SIZE v);
        match o with
        | None =>
            upd_cur (fun t => set_signal (Z.lor (signal t) (Z.shiftl 1 (SIGPIPE - 1))) t);;
            mret (if decide (written <> 0) then written else -1)
        | Some size =>
            v ← inode_at inode;
            let head := PIPE_HEAD v in
            let chars := Z.min (Z.min (PAGE_SIZE - head) count) size in
            set_inode inode (set_zone 0 (Z.land (head + chars) (PAGE_SIZE - 1)));;
            l ← from_user chars buf;
            modify (fun s => {| s with kmem := kwrite l (i_size v + head) (kmem s) |});;
            pipe_write_loop n' inode (buf + chars) (count - chars) (written + chars)
        end
  end.
Definition write_pipe (inode buf count : Z) : M kern Z :=
  pipe_write_loop (S (Z.to_nat count)) inode buf count 0.

(** Up to two free slots from slot [i] on. *)
Fixpoint free_files (l : list file) (i : Z) (n : nat) : list Z :=
  match n, l with
  | O, _ | _, [] => []
  | S n', f :: l' => if decide (f_count f = 0) then i :: free_files l' (i + 1) n'
                     else free_files l' (i + 1) n
  end.
Fixpoint free_fds (l : list (option Z)) (i : Z) (n : nat) : list Z :=
  match n, l with
  | O, _ | _, [] => []
  | S n', f :: l' => if decide (f = None) then i :: free_fds l' (i + 1) n' else free_fds l' (i + 1) n
  end.

Definition set_fd (fd : Z) (v : option Z) : M kern unit :=
  upd_cur (fun t => {| t with filp := zset (filp t) fd v |}).
Definition clear_counts (l : list Z) : M kern unit :=
  foldr (fun f k => set_file f (set_f_count 0);; k) skip l.

Definition sys_pipe (fildes : Z) : M kern Z :=
  l ← gets (fun s => free_files (file_table s) 0 2);
  match l with
  | [f0; f1] =>
      set_file f0 (fun f => set_f_count (f_count f + 1) f);;
      set_file f1 (fun f => set_f_count (f_count f + 1) f);;
      t ← cur;
      match free_fds (filp t) 0 2 with
      | [d0; d1] =>
          set_fd d0 (Some f0);; set_fd d1 (Some f1);;
          o ← Inode.get_pipe_inode fuel depth;
          match o with
          | None => set_fd d1 None;; set_fd d0 None;; clear_counts [f0; f1];; mret (-1)
          | Some inode =>
              let open_end (mode : Z) (f : file) : file :=
                File mode (f_flags f) (f_count f) (Some inode) 0 in
              set_file f0 (open_end 1);; set_file f1 (open_end 2);;
              on_user (upd_um (put_fs_long d0 fildes));;
              on_user (upd_um (put_fs_long d1 (fildes + 4)));;
              mret 0
          end
      | _ => clear_counts [f0; f1];; mret (-1)
      end
  | _ => mret (-1)
  end.

(** ** char_dev.c *)

Definition rw_ttyx (rw minor buf count : Z) : M kern Z :=
  if decide (rw = READ) then tty_read minor buf count else tty_write minor buf count.
Definition rw_tty (rw buf count : Z) : M kern Z :=
  t ← cur; if decide (tty t < 0) then mret (- EPERM) else rw_ttyx rw (tty t) buf count.

(** The port loop, at port [i]; the port after the last one. *)
Fixpoint port_loop (n : nat) (rw buf count i : Z) : M kern Z :=
  match n with
  | O => mret i
  | S n' =>
      if decide (0 < count /\ i < 65536) then
        (if decide (rw = READ) then c ← inb i; to_user [c] buf
         else l ← from_user 1 buf; outb (default 0 (head l)) i);;
        port_loop n' rw (buf + 1) (count - 1) (i + 1)
      else mret i
  end.
Definition rw_port (rw buf count filp : Z) : M kern Z :=
  f ← file_at filp;
  i ← port_loop (Z.to_nat count) rw buf count (f_pos f);
  set_file filp (set_f_pos i);;
  mret (i - f_pos f).

Definition rw_memory (rw minor buf count filp : Z) : M kern Z :=
  if decide (minor = 3) then mret (if decide (rw = READ) then 0 else count)
  else if decide (minor = 4) then rw_port rw buf count filp
  else mret (- EIO).

Definition rw_char (rw dev buf count filp : Z) : M kern Z :=
  if decide (8 <= MAJOR dev) then mret (- ENODEV)
  else if decide (MAJOR dev = 1) then rw_memory rw (MINOR dev) buf count filp
  else if decide (MAJOR dev = 4) then rw_ttyx rw (MINOR dev) buf count
  else if decide (MAJOR dev = 5) then rw_tty rw buf count
  else mret (- ENODEV).

(** ** read_write.c *)

(** [current->filp[fd]] for a descriptor in range. *)
Definition get_filp (fd : Z) : M kern (option Z) :=
  if decide (NR_OPEN <= u32 fd) then mret None
  else t ← cur; deref "filp" (zget (filp t) (u32 fd)).

Definition IS_SEEKABLE (x : Z) : bool := bool_decide (1 <= x) && bool_decide (x <= 3).

Definition sys_lseek (fd offset origin : Z) : M kern Z :=
  o ← get_filp fd;
  match o with
  | None => mret (- EBADF)
  | Some filp =>
      f ← file_at filp;
      match f_inode f with
      | None => mret (- EBADF)
      | Some i =>
          v ← inode_at i;
          if negb (IS_SEEKABLE (MAJOR (i_dev v))) then mret (- EBADF)
          else if decide (i_pipe v <> 0) then mret (- ESPIPE)
          else
            let seek (p : Z) : M kern Z :=
              if decide (p < 0) then mret (- EINVAL)
              else set_file filp (set_f_pos p);; mret p in
            if decide (origin = 0) then seek offset
            else if decide (origin = 1) then seek (s32 (f_pos f + offset))
            else if decide (origin = 2) then seek (s32 (i_size v + offset))
            else mret (- EINVAL)
      end
  end.

Definition sys_read (fd buf count : Z) : M kern Z :=
  o ← (if decide (count < 0) then mret None else get_filp fd);
  match o with
  | None => mret (- EINVAL)
  | Some filp =>
      if decide (count = 0) then mret 0
      else
        on_user (verify_area buf count);;
        f ← file_at filp;
        inode ← deref "f_inode" (f_inode f);
        v ← inode_at inode;
        if decide (i_pipe v <> 0) then
          if decide (Z.land (f_mode f) 1 <> 0) then read_pipe inode buf count else mret (- EIO)
        else if S_ISCHR (i_mode v) then rw_char READ (zone v 0) buf count filp
        else if S_ISBLK (i_mode v) then block_read (zone v 0) filp buf count
        else if S_ISDIR (i_mode v) || S_ISREG (i_mode v) then
          let count := if decide (i_size v < u32 (count + f_pos f))
                       then s32 (i_size v - f_pos f) else count in
          if decide (count <= 0) then mret 0 else file_read inode filp buf count
        else mret (- EINVAL)
  end.

Definition sys_write (fd buf count : Z) : M kern Z :=
  o ← (if decide (count < 0) then mret None else get_filp fd);
  match o with
  | None => mret (- EINVAL)
  | Some filp =>
      if decide (count = 0) then mret 0
      else
        f ← file_at filp;
        inode ← deref "f_inode" (f_inode f);
        v ← inode_at inode;
        if decide (i_pipe v <> 0) then
          if decide (Z.land (f_mode f) 2 <> 0) then write_pipe inode buf count else mret (- EIO)
        else if S_ISCHR (i_mode v) then rw_char WRITE (zone v 0) buf count filp
        else if S_ISBLK (i_mode v) then block_write (zone v 0) filp buf count
        else if S_ISREG (i_mode v) then file_write inode filp buf count
        else mret (- EINVAL)
  end.
End fileio.

End FileIO.
