(* ===== verification/PipeProps.v ===== *)
(** * Pipes

    The page of a pipe, with its head and tail, is a queue of bytes. *)

From S2P Require Import Prelude Bytes MemoryProps Task UserMem BlkQueue FsState RdProps FsInst Namei FileIO.
Import MemoryProps Task UserMem BlkQueue FsState RdProps FsInst FileIO.

Module PipeProps.

Lemma get_bytes_add a b p u : get_bytes (a + b) p u = get_bytes a p u ++ get_bytes b (p + Z.of_nat a) u.
Proof.
  unfold get_bytes. rewrite Nat2Z.inj_add, seqZ_app by lia. by rewrite map_app.
Qed.

Lemma length_get_bytes n p u : length (get_bytes n p u) = n.
Proof. unfold get_bytes. rewrite length_map, length_seqZ. lia. Qed.

(** [n] bytes of a page from offset [o], around its end. *)
Definition page_bytes (page : Z) (m : gmap Z Z) (o : Z) (n : nat) : list Z :=
  map (fun k => kget m (page + (o + Z.of_nat k) mod 4096)) (seq 0 n).

Lemma length_page_bytes page m o n : length (page_bytes page m o n) = n.
Proof. unfold page_bytes. by rewrite length_map, length_seq. Qed.

Lemma page_bytes_lookup page m o n k :
  (k < n)%nat -> page_bytes page m o n !! k = Some (kget m (page + (o + Z.of_nat k) mod 4096)).
Proof. intros H. unfold page_bytes. by rewrite list_lookup_fmap, lookup_seq_lt. Qed.

Lemma page_bytes_add page m o a b :
  page_bytes page m o (a + b) = page_bytes page m o a ++ page_bytes page m (o + Z.of_nat a) b.
Proof.
  unfold page_bytes. rewrite seq_app, map_app. f_equal. rewrite Nat.add_0_l.
  rewrite <- (Nat.add_0_r a) at 1. rewrite <- fmap_add_seq, <- list_fmap_compose. apply map_ext. intros k.
  cbn. do 3 f_equal. lia.
Qed.

Lemma page_bytes_mod page m o n : page_bytes page m (o mod 4096) n = page_bytes page m o n.
Proof. unfold page_bytes. apply map_ext. intros k. do 2 f_equal. apply Zplus_mod_idemp_l. Qed.

(** Before the end of the page they are contiguous. *)
Lemma kread_page page m o n :
  0 <= o -> o + Z.of_nat n <= 4096 -> kread n (page + o) m = page_bytes page m o n.
Proof.
  intros Ho Hn. unfold kread, page_bytes. apply map_ext_in. intros k Hk%in_seq.
  rewrite Z.mod_small by lia. f_equal. lia.
Qed.

(** ** The queue *)

(** A pipe's inode: [i_size] is the address of its page. *)
Record pipe_ok (v : m_inode) : Prop := {
  po_zones : length (i_zone v) = 9%nat;
  po_head : 0 <= PIPE_HEAD v < 4096;
  po_tail : 0 <= PIPE_TAIL v < 4096;
  po_page : 0 <= i_size v /\ i_size v + 4096 <= 2 ^ 32
}.

(** The bytes in the pipe, oldest first. *)
Definition contents (v : m_inode) (m : gmap Z Z) : list Z :=
  page_bytes (i_size v) m (PIPE_TAIL v) (Z.to_nat (PIPE_SIZE v)).

Lemma PIPE_SIZE_mod v : PIPE_SIZE v = (PIPE_HEAD v - PIPE_TAIL v) mod 4096.
Proof. unfold PIPE_SIZE, PAGE_SIZE. change (4096 - 1) with (Z.ones 12). by rewrite Z.land_ones by lia. Qed.

Lemma PIPE_SIZE_range v : 0 <= PIPE_SIZE v < 4096.
Proof. rewrite PIPE_SIZE_mod. apply Z.mod_pos_bound. lia. Qed.

Lemma length_contents v m : zlen (contents v m) = PIPE_SIZE v.
Proof. unfold zlen, contents. rewrite length_page_bytes. pose proof (PIPE_SIZE_range v). lia. Qed.

Lemma land_4095 x : Z.land x (PAGE_SIZE - 1) = x mod 4096.
Proof. unfold PAGE_SIZE. change (4096 - 1) with (Z.ones 12). by rewrite Z.land_ones by lia. Qed.

(** Moving an end. *)
Lemma zone_set_zone v k j x :
  length (i_zone v) = 9%nat -> 0 <= k < 9 ->
  zone (set_zone k x v) j = if decide (k = j) then u16 x else zone v j.
Proof.
  intros Hl Hk. unfold zone, set_zone. cbn [i_zone]. rewrite zget_zset by (unfold zlen; rewrite Hl; lia).
  by case_decide.
Qed.

Lemma set_zone_ok v k x :
  pipe_ok v -> 0 <= k < 9 -> 0 <= x < 4096 -> pipe_ok (set_zone k x v).
Proof.
  intros [H1 H2 H3 H4] Hk Hx.
  assert (Hu : u16 x = x) by (apply u16_small; lia).
  split; unfold PIPE_HEAD, PIPE_TAIL in *; rewrite ?zone_set_zone by done; rewrite ?Hu; try (case_decide; lia); try done.
  cbn. by rewrite length_zset.
Qed.

Lemma set_zone_id v k : length (i_zone v) = 9%nat -> 0 <= k < 9 -> 0 <= zone v k < 2 ^ 16 -> set_zone k (zone v k) v = v.
Proof.
  intros Hl Hk Hz. unfold set_zone. rewrite u16_small by done.
  assert (E : zget (i_zone v) k = Some (zone v k)).
  { unfold zone. destruct (zget_is_Some (i_zone v) k) as [x Ex]; [unfold zlen; rewrite Hl; lia|]. by rewrite Ex. }
  rewrite (zset_id _ _ _ E). by destruct v.
Qed.

Lemma set_zone_twice k x y v : set_zone k x (set_zone k y v) = set_zone k x v.
Proof. unfold set_zone. cbn. by rewrite zset_zset. Qed.

(** Taking [c] bytes out. *)
Lemma contents_take v m c :
  pipe_ok v -> 0 <= c <= PIPE_SIZE v ->
  let v' := set_zone 1 ((PIPE_TAIL v + c) mod 4096) v in
  PIPE_SIZE v' = PIPE_SIZE v - c /\ contents v m = page_bytes (i_size v) m (PIPE_TAIL v) (Z.to_nat c) ++ contents v' m.
Proof.
  intros Hv Hc. cbv zeta. set (v' := set_zone 1 _ v). pose proof (Z.mod_pos_bound (PIPE_TAIL v + c) 4096 ltac:(lia)) as Hm.
  assert (Ht : PIPE_TAIL v' = (PIPE_TAIL v + c) mod 4096).
  { unfold PIPE_TAIL at 1, v'. rewrite zone_set_zone by (apply Hv || lia). rewrite decide_True by done. apply u16_small. lia. }
  assert (Hh : PIPE_HEAD v' = PIPE_HEAD v).
  { unfold PIPE_HEAD, v'. by rewrite zone_set_zone by (apply Hv || lia). }
  assert (Hs : PIPE_SIZE v' = PIPE_SIZE v - c).
  { pose proof (po_head _ Hv). pose proof (po_tail _ Hv). rewrite !PIPE_SIZE_mod in *. rewrite Ht, Hh.
    Z.to_euclidean_division_equations. lia. }
  split; [done|]. unfold contents. rewrite Hs, Ht. change (i_size v') with (i_size v). rewrite page_bytes_mod.
  replace (Z.to_nat (PIPE_SIZE v)) with (Z.to_nat c + Z.to_nat (PIPE_SIZE v - c))%nat by lia.
  rewrite page_bytes_add. by rewrite Z2Nat.id by lia.
Qed.

(** A kernel whose inode [i] is [v], with kernel memory [m] and user memory [u]. *)
Definition pst (i : Z) (v : m_inode) (m : gmap Z Z) (u : umem) (s : kern) : kern :=
  {| s with inode_table := zset (inode_table s) i v; kmem := m; kuser := {| (kuser s) with um := u |} |}.

Lemma pst_id i v s : zget (inode_table s) i = Some v -> s = pst i v (kmem s) (um (kuser s)) s.
Proof. intros E. unfold pst. rewrite (zset_id _ _ _ E). by destruct s as [? ? ? ? ? ? ? ? ? [] ? ? ? ?]. Qed.

Section pipe.
Context {HM : Machine} {HQ : Quiet} (fuel : nat) (Hfuel : (0 < fuel)%nat).
Context (i : Z) (s : kern) (Hi : 0 <= i < zlen (inode_table s)).

Lemma inode_at_pst v m u : inode_at i (pst i v m u s) = Done v (pst i v m u s).
Proof. unfold inode_at. rewrite gets_bind. cbn. by rewrite zget_zset_eq. Qed.
Lemma set_inode_pst f v m u : set_inode i f (pst i v m u s) = Done tt (pst i (f v) m u s).
Proof.
  unfold set_inode. erewrite done_bind by apply inode_at_pst. unfold modify, pst. cbn. by rewrite zset_zset.
Qed.
Lemma to_user_pst l a v m u : to_user l a (pst i v m u s) = Done tt (pst i v m (put_bytes l a u) s).
Proof. done. Qed.
Lemma from_user_pst n a v m u :
  from_user n a (pst i v m u s) = Done (get_bytes (Z.to_nat n) a u) (pst i v m u s).
Proof. done. Qed.

Lemma pipe_wait_ready room v m u :
  room v <> 0 -> pipe_wait fuel i room (pst i v m u s) = Done (Some (room v)) (pst i v m u s).
Proof.
  intros H. destruct fuel as [|fuel']; [lia|]. cbn [pipe_wait]. erewrite done_bind by apply inode_at_pst.
  by rewrite decide_True.
Qed.
Lemma pipe_wait_closed room v m u :
  room v = 0 -> i_count v <> 2 -> pipe_wait fuel i room (pst i v m u s) = Done None (pst i v m u s).
Proof.
  intros H Hc. destruct fuel as [|fuel']; [lia|]. cbn [pipe_wait]. erewrite done_bind by apply inode_at_pst.
  rewrite decide_False by (rewrite H; intros E; done). erewrite done_bind by apply wake_quiet.
  erewrite done_bind by apply inode_at_pst. by rewrite decide_True.
Qed.

Lemma read_loop_ok n v m u buf count read :
  pipe_ok v -> 0 <= count -> (Z.to_nat count < n)%nat -> count <= PIPE_SIZE v \/ i_count v <> 2 ->
  exists t, 0 <= t < 4096 /\
    let k := Z.min count (PIPE_SIZE v) in
    pipe_read_loop fuel n i buf count read (pst i v m u s) =
      Done (read + k) (pst i (set_zone 1 t v) m (put_bytes (take (Z.to_nat k) (contents v m)) buf u) s) /\
    contents (set_zone 1 t v) m = drop (Z.to_nat k) (contents v m).
Proof.
  revert v u buf count read. induction n as [|n IH]; intros v u buf count read Hv H0 Hn Hc; [lia|].
  pose proof (PIPE_SIZE_range v) as Hsz. pose proof (po_tail _ Hv) as Ht.
  assert (Hid : set_zone 1 (PIPE_TAIL v) v = v) by (apply set_zone_id; [apply Hv|lia|unfold PIPE_TAIL in Ht; lia]).
  cbn [pipe_read_loop].
  destruct (decide (count <= 0)) as [Hz|Hz].
  { exists (PIPE_TAIL v). split; [done|]. cbv zeta. rewrite Hid. replace (Z.min count (PIPE_SIZE v)) with 0 by lia.
    split; [|done]. erewrite done_bind by apply wake_quiet. by rewrite Z.add_0_r. }
  destruct (decide (PIPE_SIZE v = 0)) as [He|He].
  { exists (PIPE_TAIL v). split; [done|]. cbv zeta. rewrite Hid. replace (Z.min count (PIPE_SIZE v)) with 0 by lia.
    split; [|done]. erewrite done_bind by (apply pipe_wait_closed; [done|lia]). cbv beta iota. by rewrite Z.add_0_r. }
  erewrite done_bind by by apply pipe_wait_ready. cbv beta iota.
  erewrite done_bind by apply inode_at_pst. cbv zeta.
  set (c := Z.min (Z.min (PAGE_SIZE - PIPE_TAIL v) count) (PIPE_SIZE v)).
  assert (Hcr : 0 < c <= PIPE_SIZE v /\ c <= count /\ PIPE_TAIL v + c <= 4096) by (unfold c, PAGE_SIZE; lia).
  erewrite done_bind by apply set_inode_pst. rewrite land_4095. rewrite gets_bind.
  destruct (contents_take v m c Hv ltac:(lia)) as [Hs' Hcon].
  set (v' := set_zone 1 ((PIPE_TAIL v + c) mod 4096) v) in *.
  assert (Hv' : pipe_ok v') by (apply set_zone_ok; [done|lia|apply Z.mod_pos_bound; lia]).
  cbn [kmem pst]. fold (pst i v' m u s). rewrite kread_page by lia.
  erewrite done_bind by apply to_user_pst.
  destruct (IH v' (put_bytes (page_bytes (i_size v) m (PIPE_TAIL v) (Z.to_nat c)) buf u) (buf + c) (count - c) (read + c) Hv')
    as (t & Htr & Hrun & Hdrop); [lia|lia|rewrite Hs'; change (i_count v') with (i_count v); lia|].
  exists t. split; [done|]. rewrite Hs' in Hrun, Hdrop. unfold v' in Hrun at 2, Hdrop at 1. rewrite set_zone_twice in Hrun, Hdrop.
  set (pre := page_bytes (i_size v) m (PIPE_TAIL v) (Z.to_nat c)) in *.
  assert (Hpre : length pre = Z.to_nat c) by apply length_page_bytes.
  assert (Hk : Z.to_nat (Z.min count (PIPE_SIZE v)) = (Z.to_nat c + Z.to_nat (Z.min (count - c) (PIPE_SIZE v - c)))%nat) by lia.
  rewrite Hk, Hcon. split.
  - rewrite Hrun. f_equal; [lia|]. f_equal. rewrite take_app_add'; [|done]. rewrite put_bytes_app. f_equal. unfold zlen. lia.
  - rewrite Hdrop. by rewrite drop_app_add'.
Qed.
(** Putting the bytes [l] in. *)
Lemma contents_put v m l :
  pipe_ok v -> PIPE_SIZE v + zlen l <= 4095 -> PIPE_HEAD v + zlen l <= 4096 -> Forall (fun x => 0 <= x < 256) l ->
  let v' := set_zone 0 ((PIPE_HEAD v + zlen l) mod 4096) v in
  PIPE_SIZE v' = PIPE_SIZE v + zlen l /\ contents v' (kwrite l (i_size v + PIPE_HEAD v) m) = contents v m ++ l.
Proof.
  intros Hv Hc Hend Hb. cbv zeta. set (v' := set_zone 0 _ v). set (m' := kwrite l _ m).
  pose proof (zlen_nonneg l) as Hl. pose proof (po_head _ Hv) as Hh. pose proof (po_tail _ Hv) as Ht.
  destruct (po_page _ Hv) as [Hp1 Hp2].
  pose proof (Z.mod_pos_bound (PIPE_HEAD v + zlen l) 4096 ltac:(lia)) as Hm.
  assert (Hh' : PIPE_HEAD v' = (PIPE_HEAD v + zlen l) mod 4096).
  { unfold PIPE_HEAD at 1, v'. rewrite zone_set_zone by (apply Hv || lia). rewrite decide_True by done. apply u16_small. lia. }
  assert (Ht' : PIPE_TAIL v' = PIPE_TAIL v).
  { unfold PIPE_TAIL, v'. by rewrite zone_set_zone by (apply Hv || lia). }
  assert (Hsz : PIPE_TAIL v <= PIPE_HEAD v /\ PIPE_SIZE v = PIPE_HEAD v - PIPE_TAIL v \/
                PIPE_HEAD v < PIPE_TAIL v /\ PIPE_SIZE v = PIPE_HEAD v - PIPE_TAIL v + 4096).
  { rewrite PIPE_SIZE_mod. destruct (decide (PIPE_TAIL v <= PIPE_HEAD v)); [left|right]; (split; [lia|]).
    - by apply Z.mod_small; lia.
    - rewrite <- (Z_mod_plus_full _ 1). apply Z.mod_small. lia. }
  assert (Hs : PIPE_SIZE v' = PIPE_SIZE v + zlen l).
  { rewrite !PIPE_SIZE_mod in *. rewrite Ht', Hh'. Z.to_euclidean_division_equations. lia. }
  split; [done|]. unfold contents. rewrite Hs, Ht'. change (i_size v') with (i_size v).
  assert (Hmod : forall k, 0 <= k < 4096 ->
    PIPE_TAIL v + k < 4096 /\ (PIPE_TAIL v + k) mod 4096 = PIPE_TAIL v + k \/
    4096 <= PIPE_TAIL v + k /\ (PIPE_TAIL v + k) mod 4096 = PIPE_TAIL v + k - 4096).
  { intros k Hk. destruct (decide (PIPE_TAIL v + k < 4096)); [left|right]; (split; [lia|]).
    - by apply Z.mod_small; lia.
    - rewrite <- (Z_mod_plus_full _ (-1)). apply Z.mod_small. lia. }
  assert (Hn : Z.to_nat (PIPE_SIZE v + zlen l) = (Z.to_nat (PIPE_SIZE v) + length l)%nat) by (pose proof (PIPE_SIZE_range v); unfold zlen; lia).
  pose proof (PIPE_SIZE_range v) as Hr. rewrite Hn, page_bytes_add. rewrite Z2Nat.id by lia. f_equal.
  - unfold page_bytes. apply map_ext_in. intros k Hk%in_seq. unfold m'.
    specialize (Hmod (Z.of_nat k) ltac:(lia)). rewrite kget_kwrite by lia. by rewrite decide_False by lia.
  - apply list_eq. intros k. destruct (decide (k < length l)%nat) as [Hk|Hk].
    + rewrite page_bytes_lookup by done.
      assert (Ek : (PIPE_TAIL v + PIPE_SIZE v + Z.of_nat k) mod 4096 = PIPE_HEAD v + Z.of_nat k).
      { replace (PIPE_TAIL v + PIPE_SIZE v + Z.of_nat k) with (PIPE_TAIL v + (PIPE_SIZE v + Z.of_nat k)) by lia.
        specialize (Hmod (PIPE_SIZE v + Z.of_nat k) ltac:(unfold zlen in *; lia)). unfold zlen in *. lia. }
      rewrite Ek. unfold m'. rewrite kget_kwrite by (unfold zlen in *; lia).
      rewrite decide_True by (unfold zlen; lia).
      replace (Z.to_nat (i_size v + (PIPE_HEAD v + Z.of_nat k) - (i_size v + PIPE_HEAD v))) with k by lia.
      destruct (lookup_lt_is_Some_2 l k Hk) as [x Ex]. rewrite Ex. cbn. f_equal. apply u8_small.
      exact (Forall_lookup_1 _ _ _ _ Hb Ex).
    + rewrite !lookup_ge_None_2; [done|lia|rewrite length_page_bytes; lia].
Qed.

Lemma write_loop_ok n v m u buf count written :
  pipe_ok v -> 0 <= count -> (Z.to_nat count < n)%nat -> PIPE_SIZE v + count <= 4095 ->
  Forall (fun x => 0 <= x < 256) (get_bytes (Z.to_nat count) buf u) ->
  exists t m', 0 <= t < 4096 /\
    pipe_write_loop fuel n i buf count written (pst i v m u s) = Done (written + count) (pst i (set_zone 0 t v) m' u s) /\
    contents (set_zone 0 t v) m' = contents v m ++ get_bytes (Z.to_nat count) buf u.
Proof.
  revert v m buf count written. induction n as [|n IH]; intros v m buf count written Hv H0 Hn Hc Hb; [lia|].
  pose proof (PIPE_SIZE_range v) as Hsz. pose proof (po_head _ Hv) as Hh.
  cbn [pipe_write_loop].
  destruct (decide (count <= 0)) as [Hz|Hz].
  { exists (PIPE_HEAD v), m. assert (Hid : set_zone 0 (PIPE_HEAD v) v = v)
      by (apply set_zone_id; [apply Hv|lia|unfold PIPE_HEAD in Hh; lia]).
    split; [done|]. rewrite Hid. replace count with 0 by lia. rewrite app_nil_r. split; [|done].
    erewrite done_bind by apply wake_quiet. by rewrite Z.add_0_r. }
  erewrite done_bind by (apply (pipe_wait_ready (fun v => PAGE_SIZE - 1 - PIPE_SIZE v)); unfold PAGE_SIZE; lia).
  cbv beta iota. erewrite done_bind by apply inode_at_pst. cbv zeta.
  set (c := Z.min (Z.min (PAGE_SIZE - PIPE_HEAD v) count) (PAGE_SIZE - 1 - PIPE_SIZE v)).
  assert (Hcr : 0 < c <= count /\ PIPE_HEAD v + c <= 4096) by (unfold c, PAGE_SIZE in *; lia).
  erewrite done_bind by apply set_inode_pst. rewrite land_4095.
  erewrite done_bind by apply from_user_pst.
  set (l := get_bytes (Z.to_nat c) buf u) in *.
  assert (Hlen : zlen l = c) by (unfold zlen, l; rewrite length_get_bytes; lia).
  assert (Hsplit : get_bytes (Z.to_nat count) buf u = l ++ get_bytes (Z.to_nat (count - c)) (buf + c) u).
  { replace (Z.to_nat count) with (Z.to_nat c + Z.to_nat (count - c))%nat by lia.
    rewrite get_bytes_add. by rewrite Z2Nat.id by lia. }
  rewrite Hsplit in Hb. apply Forall_app in Hb as [Hb1 Hb2].
  destruct (contents_put v m l Hv) as [Hs' Hcon]; [lia|lia|done|]. rewrite Hlen in Hs', Hcon.
  set (v' := set_zone 0 ((PIPE_HEAD v + c) mod 4096) v) in *.
  assert (Hv' : pipe_ok v') by (apply set_zone_ok; [done|lia|apply Z.mod_pos_bound; lia]).
  rewrite modify_bind.
  destruct (IH v' (kwrite l (i_size v + PIPE_HEAD v) m) (buf + c) (count - c) (written + c) Hv')
    as (t & m' & Htr & Hrun & Hcon'); [lia|lia|lia|done|].
  exists t, m'. split; [done|]. unfold v' in Hrun at 2. unfold v' in Hcon' at 1. rewrite set_zone_twice in Hrun, Hcon'.
  split.
  - etransitivity; [exact Hrun|]. f_equal. lia.
  - rewrite Hcon', Hcon, Hsplit. by rewrite app_assoc.
Qed.
End pipe.

(** C14: a pipe is a queue of at most 4095 bytes.  A write that fits appends the writer's
    bytes behind those in the pipe; a read takes the oldest bytes out, as many as asked for,
    or all there are once the other end is closed, and stores them for the reader in order,
    also when they lie around the end of the page.  Only the end that moves changes in the
    inode. *)
Theorem pipe_is_queue {HM : Machine} {HQ : Quiet} fuel i v s buf count :
  (0 < fuel)%nat -> zget (inode_table s) i = Some v -> pipe_ok v -> 0 <= count ->
  let u := um (kuser s) in
  (count <= PIPE_SIZE v \/ i_count v <> 2 ->
   exists t, let k := Z.min count (PIPE_SIZE v) in
     read_pipe fuel i buf count s =
       Done k (pst i (set_zone 1 t v) (kmem s) (put_bytes (take (Z.to_nat k) (contents v (kmem s))) buf u) s) /\
     contents (set_zone 1 t v) (kmem s) = drop (Z.to_nat k) (contents v (kmem s))) /\
  (PIPE_SIZE v + count <= 4095 -> Forall (fun x => 0 <= x < 256) (get_bytes (Z.to_nat count) buf u) ->
   exists t m, write_pipe fuel i buf count s = Done count (pst i (set_zone 0 t v) m u s) /\
     contents (set_zone 0 t v) m = contents v (kmem s) ++ get_bytes (Z.to_nat count) buf u).
Proof.
  intros Hf E Hv Hc u. pose proof (zget_Some_range _ _ _ E) as Hi. split.
  - intros Hsz. destruct (read_loop_ok fuel Hf i s Hi (S (Z.to_nat count)) v (kmem s) u buf count 0 Hv Hc)
      as (t & _ & Hrun & Hd); [lia|done|].
    exists t. cbv zeta. unfold u in Hrun at 1. rewrite <- (pst_id i v s E) in Hrun. done.
  - intros Hsz Hb. destruct (write_loop_ok fuel Hf i s Hi (S (Z.to_nat count)) v (kmem s) u buf count 0 Hv Hc)
      as (t & m & _ & Hrun & Hd); [lia|done|done|].
    exists t, m. unfold u in Hrun at 1. rewrite <- (pst_id i v s E) in Hrun. done.
Qed.

(** A pipe with two bytes, the second behind the end of the page; three more are written. *)
Definition pipe0 : m_inode :=
  {| inode0 with i_size := 0x5000; i_zone := [1; 4095; 0; 0; 0; 0; 0; 0; 0]; i_count := 2; i_pipe := 1 |}.
Definition with_pipe : kern :=
  {| bare with inode_table := pipe0 :: replicate 31 inode0; kmem := kwrite [104; 105] 0x5fff empty;
               kuser := User tasks0 (put_bytes [1; 2; 3] 100 empty) mm0 |}.

Lemma pipe_is_queue_witness :
  exists t m, write_pipe 2 0 100 3 with_pipe = Done 3 (pst 0 (set_zone 0 t pipe0) m (um (kuser with_pipe)) with_pipe) /\
    contents (set_zone 0 t pipe0) m = contents pipe0 (kmem with_pipe) ++ [1; 2; 3].
Proof.
  destruct (pipe_is_queue 2 0 pipe0 with_pipe 100 3) as [_ H]; [lia|reflexivity| |lia|].
  - split; try reflexivity; vm_compute; split; done.
  - apply H; [apply Z.leb_le; reflexivity|]. vm_compute. repeat constructor; done.
Defined.

End PipeProps.
