(* ===== verification/Open.v ===== *)
(** * Open files: open.c, fcntl.c, stat.c, ioctl.c of fs/ *)

From S2P Require Import Prelude Bytes Memory Task UserMem BlkQueue FsState.
From S2P Require Import Buffer Super Inode Bitmap Truncate Namei Dirs FileIO.
Import Memory Task UserMem BlkQueue FsState Namei FileIO.

Module Open.

Definition ENOSYS : Z := 38.
Definition F_DUPFD : Z := 0.
Definition F_GETFD : Z := 1.
Definition F_SETFD : Z := 2.
Definition F_GETFL : Z := 3.
Definition F_SETFL : Z := 4.

Definition sys_ustat (dev ubuf : Z) : M kern Z := mret (- ENOSYS).

Definition set_pwd (i : option Z) (t : task_struct) : task_struct := {| t with pwd := i |}.
Definition set_root (i : option Z) (t : task_struct) : task_struct := {| t with root := i |}.
Definition set_tty (v : Z) (t : task_struct) : task_struct := {| t with tty := v |}.
Definition set_cloexec (v : Z) (t : task_struct) : task_struct := {| t with close_on_exec := v |}.
Definition clear_cloexec (fd : Z) (t : task_struct) : task_struct :=
  set_cloexec (Z.ldiff (close_on_exec t) (Z.shiftl 1 fd)) t.

(** What [sys_access] grants, from the mode bits the inode had. *)
Definition access_ok (t : task_struct) (v : m_inode) (i_mode mode : Z) : bool :=
  let res := if decide (uid t = i_uid v) then Z.shiftr i_mode 6
             else if decide (gid t = i_gid v) then Z.shiftr i_mode 6 else i_mode in
  bool_decide (Z.land (Z.land res 7) mode = mode) ||
  bool_decide (uid t = 0 /\ (Z.land mode 1 = 0 \/ Z.land i_mode 0x49 <> 0)).

Section open.
Context `{!Machine} (fuel depth : nat).

#[local] Abbreviation iput := (Truncate.iput fuel depth).
#[local] Abbreviation namei := (Namei.namei fuel depth).

Definition sys_utime (filename times : Z) : M kern Z :=
  o ← namei filename;
  match o with
  | None => mret (- ENOENT)
  | Some inode =>
      m ← on_user (gets um);
      '(actime, modtime) ←
        (if decide (times <> 0) then mret (get_fs_long m times, get_fs_long m (times + 4))
         else t ← now; mret (t, t));
      set_inode inode (fun v => set_i_dirt 1 (set_mtime modtime (set_atime actime v)));;
      iput (Some inode);; mret 0
  end.

(** The inode is looked at again after [iput]. *)
Definition sys_access (filename mode : Z) : M kern Z :=
  let mode := Z.land mode 7 in
  o ← namei filename;
  match o with
  | None => mret (- EACCES)
  | Some inode =>
      v ← inode_at inode;
      let i_mode := Z.land (i_mode v) 0x1ff in
      iput (Some inode);;
      v ← inode_at inode; t ← cur;
      mret (if access_ok t v i_mode mode then 0 else - EACCES)
  end.

(** [sys_chdir] and [sys_chroot], which differ in the field. *)
Definition change_dir (get : task_struct -> option Z) (set : option Z -> task_struct -> task_struct)
    (filename : Z) : M kern Z :=
  o ← namei filename;
  match o with
  | None => mret (- ENOENT)
  | Some inode =>
      v ← inode_at inode;
      if negb (S_ISDIR (i_mode v)) then iput (Some inode);; mret (- ENOTDIR)
      else t ← cur; iput (get t);; upd_cur (set (Some inode));; mret 0
  end.
Definition sys_chdir : Z -> M kern Z := change_dir pwd set_pwd.
Definition sys_chroot : Z -> M kern Z := change_dir root set_root.

Definition sys_chmod (filename mode : Z) : M kern Z :=
  o ← namei filename;
  match o with
  | None => mret (- ENOENT)
  | Some inode =>
      v ← inode_at inode; t ← cur;
      if decide (euid t <> i_uid v /\ suser t = false) then iput (Some inode);; mret (- EACCES)
      else
        set_inode inode (fun v =>
          set_i_dirt 1 (set_mode (Z.lor (Z.land mode 0xfff) (Z.ldiff (i_mode v) 0xfff)) v));;
        iput (Some inode);; mret 0
  end.

Definition sys_chown (filename uid gid : Z) : M kern Z :=
  o ← namei filename;
  match o with
  | None => mret (- ENOENT)
  | Some inode =>
      t ← cur;
      if negb (suser t) then iput (Some inode);; mret (- EACCES)
      else
        set_inode inode (fun v => {| v with i_uid := u16 uid; i_gid := u8 gid; i_dirt := 1 |});;
        iput (Some inode);; mret 0
  end.

(** Give the descriptor and the table slot back. *)
Definition unopen (fd f : Z) : M kern unit := set_fd fd None;; set_file f (set_f_count 0).

(** [tty_table[current->tty].pgrp = current->pgrp] when the opener is a session leader. *)
Definition open_ttyx (minor : Z) : M kern unit :=
  t ← cur;
  if decide (leader t <> 0 /\ tty t < 0) then
    upd_cur (set_tty minor);;
    t ← cur; set_tty_pgrp (tty t) (pgrp t)
  else skip.

(** What opening a character special file adds; [false] when it is refused. *)
Definition open_char (inode : Z) : M kern bool :=
  v ← inode_at inode;
  if S_ISCHR (i_mode v) then
    if decide (MAJOR (zone v 0) = 4) then open_ttyx (MINOR (zone v 0));; mret true
    else if decide (MAJOR (zone v 0) = 5) then t ← cur; mret (negb (bool_decide (tty t < 0)))
    else mret true
  else mret true.

Definition sys_open (filename flag mode : Z) : M kern Z :=
  t ← cur;
  let mode := Dirs.masked mode t in
  match free_fds (filp t) 0 1 with
  | fd :: _ =>
      upd_cur (clear_cloexec fd);;
      l ← gets (fun s => free_files (file_table s) 0 1);
      match l with
      | f :: _ =>
          set_fd fd (Some f);;
          set_file f (fun v => set_f_count (f_count v + 1) v);;
          r ← Dirs.open_namei fuel depth filename flag mode;
          match r with
          | inl e => unopen fd f;; mret e
          | inr inode =>
              ok ← open_char inode;
              if negb ok then iput (Some inode);; unopen fd f;; mret (- EPERM)
              else
                v ← inode_at inode;
                (if S_ISBLK (i_mode v) then Inode.check_disk_change fuel (zone v 0) else skip);;
                v ← inode_at inode;
                set_file f (fun _ => File (i_mode v) (u16 flag) 1 (Some inode) 0);;
                mret fd
          end
      | [] => mret (- EINVAL)
      end
  | [] => mret (- EINVAL)
  end.

Definition sys_creat (pathname mode : Z) : M kern Z :=
  sys_open pathname (Z.lor O_CREAT O_TRUNC) mode.

Definition sys_close (fd : Z) : M kern Z :=
  if decide (NR_OPEN <= u32 fd) then mret (- EINVAL)
  else
    upd_cur (clear_cloexec (u32 fd));;
    o ← get_filp fd;
    match o with
    | None => mret (- EINVAL)
    | Some f =>
        set_fd (u32 fd) None;;
        v ← file_at f;
        if decide (f_count v = 0) then panic "Close: file count is 0"
        else
          set_file f (fun v => set_f_count (f_count v - 1) v);;
          v ← file_at f;
          if decide (f_count v <> 0) then mret 0
          else iput (f_inode v);; mret 0
    end.

(** ** fcntl.c *)

(** The first free descriptor from [arg] on. *)
Definition dupfd (fd arg : Z) : M kern Z :=
  o ← get_filp fd;
  match o with
  | None => mret (- EBADF)
  | Some f =>
      if decide (NR_OPEN <= u32 arg) then mret (- EINVAL)
      else
        t ← cur;
        match free_fds (drop (Z.to_nat (u32 arg)) (filp t)) (u32 arg) 1 with
        | [] => mret (- EMFILE)
        | d :: _ =>
            upd_cur (clear_cloexec d);;
            set_fd d (Some f);;
            set_file f (fun v => set_f_count (f_count v + 1) v);;
            mret d
        end
  end.

Definition sys_dup2 (oldfd newfd : Z) : M kern Z := sys_close newfd;; dupfd oldfd newfd.
Definition sys_dup (fildes : Z) : M kern Z := dupfd fildes 0.

Definition sys_fcntl (fd cmd arg : Z) : M kern Z :=
  o ← get_filp fd;
  match o with
  | None => mret (- EBADF)
  | Some f =>
      if decide (cmd = F_DUPFD) then dupfd fd arg
      else if decide (cmd = F_GETFD) then
        t ← cur; mret (Z.land (Z.shiftr (close_on_exec t) (u32 fd)) 1)
      else if decide (cmd = F_SETFD) then
        (if decide (Z.land arg 1 <> 0)
         then upd_cur (fun t => set_cloexec (Z.lor (close_on_exec t) (Z.shiftl 1 (u32 fd))) t)
         else upd_cur (clear_cloexec (u32 fd)));;
        mret 0
      else if decide (cmd = F_GETFL) then v ← file_at f; mret (f_flags v)
      else if decide (cmd = F_SETFL) then
        let bits := Z.lor O_APPEND O_NONBLOCK in
        set_file f (fun v => {| v with f_flags := Z.lor (Z.ldiff (f_flags v) bits) (Z.land arg bits) |});;
        mret 0
      else mret (-1)
  end.

(** ** stat.c *)

(** [struct stat] laid out; the two padding bytes after [st_nlink] and [st_gid] are what the
    stack held. *)
Definition stat_bytes (pad : list Z) (v : m_inode) : list Z :=
  bytes2 (i_dev v) ++ bytes2 (i_num v) ++ bytes2 (i_mode v) ++
  [u8 (i_nlinks v)] ++ take 1 pad ++ bytes2 (i_uid v) ++ [u8 (i_gid v)] ++ take 1 (drop 1 pad) ++
  bytes2 (zone v 0) ++ take 2 (drop 2 pad) ++
  bytes4 (i_size v) ++ bytes4 (i_atime v) ++ bytes4 (i_mtime v) ++ bytes4 (i_ctime v).

(** [pad] is the uninitialised part of [tmp]. *)
Definition cp_stat (pad : list Z) (inode statbuf : Z) : M kern unit :=
  on_user (verify_area statbuf 32);;
  v ← inode_at inode;
  to_user (stat_bytes pad v) statbuf.

Definition sys_stat (pad : list Z) (filename statbuf : Z) : M kern Z :=
  o ← namei filename;
  match o with
  | None => mret (- ENOENT)
  | Some inode => cp_stat pad inode statbuf;; iput (Some inode);; mret 0
  end.

Definition sys_fstat (pad : list Z) (fd statbuf : Z) : M kern Z :=
  o ← get_filp fd;
  match o with
  | None => mret (- EBADF)
  | Some f =>
      v ← file_at f;
      match f_inode v with
      | None => mret (- EBADF)
      | Some inode => cp_stat pad inode statbuf;; mret 0
      end
  end.

(** ** ioctl.c *)

Definition sys_ioctl (fd cmd arg : Z) : M kern Z :=
  o ← get_filp fd;
  match o with
  | None => mret (- EBADF)
  | Some f =>
      v ← file_at f;
      i ← deref "f_inode" (f_inode v);
      n ← inode_at i;
      if negb (S_ISCHR (i_mode n) || S_ISBLK (i_mode n)) then mret (- EINVAL)
      else if decide (8 <= MAJOR (zone n 0)) then mret (- ENODEV)
      else if decide (MAJOR (zone n 0) = 4 \/ MAJOR (zone n 0) = 5) then tty_ioctl (zone n 0) cmd arg
      else mret (- ENOTTY)
  end.
End open.

End Open.
