(* ===== verification/Exec.v ===== *)
(** * fs/exec.c: loading a program

    The state adds to the file system [last_task_used_math] and the segment register FS:
    [um] is the memory that FS selects, [xother] the memory of the other segment (the
    kernel's data while FS is the user's, as it is on entry).  The argument pages are pages of
    [kmem]; once they are mapped their bytes are user memory.  Of a new program the
    user memory holds what [do_execve] writes: pages still to be loaded from the executable
    are absent. *)

From S2P Require Import Prelude Bytes Memory Task Segments UserMem BlkQueue FsState.
From S2P Require Import Buffer Super Inode Bitmap Truncate Namei Dirs FileIO Open.
Import Memory Task Segments UserMem BlkQueue FsState Namei FileIO Open.

Module Exec.

Definition MAX_ARG_PAGES : Z := 32.
Definition PAGE_SIZE : Z := 4096.
Definition ENOMEM : Z := 12.
Definition ZMAGIC : Z := 0x10b.                (* octal 413 *)

Record exec : Type := ExecHdr {
  a_magic : Z; a_text : Z; a_data : Z; a_bss : Z; a_syms : Z; a_entry : Z; a_trsize : Z; a_drsize : Z
}.
Definition load_exec (l : list Z) : exec :=
  let w k := word4 (field (4 * k) 4 l) in
  ExecHdr (w 0%nat) (w 1%nat) (w 2%nat) (w 3%nat) (w 4%nat) (w 5%nat) (w 6%nat) (w 7%nat).
(** [SEGMENT_SIZE] is 1024. *)
Definition N_TXTOFF (x : exec) : Z := if decide (a_magic x = ZMAGIC) then 1024 - 32 + 32 else 32.

Record xst : Type := Xst {
  xk : kern;
  last_task_used_math : option Z;
  xfs : bool;                                  (* FS selects the kernel's data *)
  xother : umem
}.

Definition on_k {A} : M kern A -> M xst A := zoom xk (fun k s => {| s with xk := k |}).
Definition get_fs : M xst bool := gets xfs.
Definition set_um (m : umem) (k : kern) : kern := {| k with kuser := {| (kuser k) with um := m |} |}.
Definition set_fs (v : bool) : M xst unit := modify (fun s =>
  if decide (v = xfs s) then s
  else Xst (set_um (xother s) (xk s)) (last_task_used_math s) v (um (kuser (xk s)))).
Definition fs_mem : M xst umem := gets (fun s => um (kuser (xk s))).
Definition fs_byte (a : Z) : M xst Z := m ← fs_mem; mret (get_fs_byte m a).
Definition fs_long (a : Z) : M xst Z := m ← fs_mem; mret (get_fs_long m a).
Definition upd_fs (f : umem -> umem) : M xst unit :=
  modify (fun s => {| s with xk := set_um (f (um (kuser (xk s)))) (xk s) |}).
(** A store to the kernel's data. *)
Definition upd_kdata (f : umem -> umem) : M xst unit :=
  modify (fun s => if xfs s then {| s with xk := set_um (f (um (kuser (xk s)))) (xk s) |}
                   else {| s with xother := f (xother s) |}).
Definition put_kbyte (a v : Z) : M xst unit := on_k (modify (kput a v)).

(** [get_free_page] with the bytes of the page. *)
Definition get_clear_page : M xst Z :=
  a ← on_k (on_mem get_free_page);
  (if decide (a = 0) then skip
   else on_k (modify (fun k => {| k with kmem := kwrite (replicate (Z.to_nat PAGE_SIZE) 0) a (kmem k) |})));;
  mret a.

Section strings.
Context (fuel : nat).

(** [while (get_fs_byte(p++))]: the address after the final 0. *)
Fixpoint skip_string (n : nat) (p : Z) : M xst Z :=
  match n with
  | O => nofuel
  | S n' => b ← fs_byte p; if decide (b <> 0) then skip_string n' (p + 1) else mret (p + 1)
  end.

(** ** create_tables *)

Fixpoint put_pointers (n : nat) (p tab : Z) : M xst (Z * Z) :=
  match n with
  | O => mret (p, tab)
  | S n' => upd_fs (put_fs_long p tab);; p ← skip_string fuel p; put_pointers n' p (tab + 4)
  end.

Definition create_tables (p argc envc : Z) : M xst Z :=
  let sp := Z.land 0xfffffffc p in
  let envp := sp - 4 * (envc + 1) in
  let argv := envp - 4 * (argc + 1) in
  upd_fs (put_fs_long envp (argv - 4));;
  upd_fs (put_fs_long argv (argv - 8));;
  upd_fs (put_fs_long argc (argv - 12));;
  '(p, tab) ← put_pointers (Z.to_nat argc) p argv;
  upd_fs (put_fs_long 0 tab);;
  '(p, tab) ← put_pointers (Z.to_nat envc) p envp;
  upd_fs (put_fs_long 0 tab);;
  mret (argv - 12).

(** ** count *)

Fixpoint count_loop (n : nat) (tmp i : Z) : M xst Z :=
  match n with
  | O => nofuel
  | S n' => v ← fs_long tmp; if decide (v <> 0) then count_loop n' (tmp + 4) (s32 (i + 1)) else mret i
  end.
Definition count (argv : Z) : M xst Z := if decide (argv = 0) then mret 0 else count_loop fuel argv 0.

(** ** copy_strings *)

(** What the loops keep: [p], [offset], [pag] and the array [page]. *)
Record cursor : Type := Cursor { c_p : Z; c_offset : Z; c_pag : Z; c_page : list Z }.

(** The body of [while (len)] and the loop, from the end of the string; on a page that
    cannot be had, only [page] goes on. *)
Definition copy_byte (from_kmem : Z) (old_fs : bool) (tmp : Z) (c : cursor) : M xst (cursor + list Z) :=
  let p := u32 (c_p c - 1) in
  let offset := c_offset c - 1 in
  r ← (if decide (offset < 0) then
         let offset := p mod PAGE_SIZE in
         (if decide (from_kmem = 2) then set_fs old_fs else skip);;
         pag ← deref "page" (zget (c_page c) (p / PAGE_SIZE));
         if decide (pag <> 0) then
           (if decide (from_kmem = 2) then set_fs true else skip);;
           mret (inl (Cursor p offset pag (c_page c)))
         else
           pag ← get_clear_page;
           if decide (pag = 0) then mret (inr (c_page c))
           else
             (if decide (from_kmem = 2) then set_fs true else skip);;
             mret (inl (Cursor p offset pag (zset (c_page c) (p / PAGE_SIZE) pag)))
       else mret (inl (Cursor p offset (c_pag c) (c_page c))));
  match r with
  | inr page => mret (inr page)
  | inl c => b ← fs_byte tmp; put_kbyte (c_pag c + c_offset c) b;; mret (inl c)
  end.
Fixpoint copy_string (len : nat) (from_kmem : Z) (old_fs : bool) (tmp : Z) (c : cursor) : M xst (cursor + list Z) :=
  match len with
  | O => mret (inl c)
  | S len' =>
      r ← copy_byte from_kmem old_fs (tmp - 1) c;
      match r with inr page => mret (inr page) | inl c => copy_string len' from_kmem old_fs (tmp - 1) c end
  end.

(** The strings [argv[argc-1]] to [argv[0]].  [p] and [len] are compared as unsigned
    numbers: the difference is never below 0. *)
Fixpoint copy_args (argc : nat) (argv from_kmem : Z) (old_fs : bool) (c : cursor) : M xst (cursor + list Z) :=
  match argc with
  | O => mret (inl c)
  | S argc' =>
      (if decide (from_kmem = 1) then set_fs true else skip);;
      tmp ← fs_long (argv + 4 * Z.of_nat argc');
      if decide (tmp = 0) then panic "argc is wrong"
      else
        (if decide (from_kmem = 1) then set_fs old_fs else skip);;
        stop ← skip_string fuel tmp;
        let len := stop - tmp in
        if decide (u32 (c_p c - len) < 0) then set_fs old_fs;; mret (inr (c_page c))
        else
          r ← copy_string (Z.to_nat len) from_kmem old_fs stop c;
          match r with inr page => mret (inr page) | inl c => copy_args argc' argv from_kmem old_fs c end
  end.
Definition copy_strings (argc argv : Z) (page : list Z) (p from_kmem : Z) : M xst (Z * list Z) :=
  if decide (p = 0) then mret (0, page)
  else
    old_fs ← get_fs;
    (if decide (from_kmem = 2) then set_fs true else skip);;
    r ← copy_args (Z.to_nat argc) argv from_kmem old_fs (Cursor p 0 0 page);
    match r with
    | inr page => mret (0, page)
    | inl c => (if decide (from_kmem = 2) then set_fs old_fs else skip);; mret (c_p c, c_page c)
    end.
End strings.

(** ** change_ldt *)

Definition set_ldt (i : Z) (f : desc -> desc) (t : task_struct) : task_struct :=
  match zget (ldt t) i with Some d => {| t with ldt := zset (ldt t) i (f d) |} | None => t end.
Definition ldt_base (i : Z) : M xst Z :=
  t ← on_k cur; d ← deref "ldt" (zget (ldt t) i); mret (get_base d).
Definition ldt_limit (i : Z) : M xst Z :=
  t ← on_k cur; d ← deref "ldt" (zget (ldt t) i); mret (get_limit d).

(** One turn of the loop: the page appears at [a] in the data segment when it was mapped. *)
Definition map_arg_page (page : list Z) (data_base limit i : Z) : M xst unit :=
  pg ← deref "page" (zget page i);
  if decide (pg = 0) then skip
  else
    let off := limit - PAGE_SIZE * (MAX_ARG_PAGES - i) in
    r ← on_k (on_mem (put_page pg (u32 (data_base + off))));
    if decide (r = 0) then skip
    else k ← on_k (gets kmem); upd_fs (put_bytes (kread (Z.to_nat PAGE_SIZE) pg k) off).

Definition change_ldt (text_size : Z) (page : list Z) : M xst Z :=
  let code_limit := Z.land (u32 (text_size + PAGE_SIZE - 1)) 0xFFFFF000 in
  let data_limit := 0x4000000 in
  code_base ← ldt_base 1;
  let data_base := code_base in
  on_k (upd_cur (set_ldt 1 (fun d => set_limit (set_base d code_base) code_limit)));;
  on_k (upd_cur (set_ldt 2 (fun d => set_limit (set_base d data_base) data_limit)));;
  set_fs false;;
  for_down (Z.to_nat MAX_ARG_PAGES) (map_arg_page page data_base data_limit);;
  mret data_limit.

(** ** The line after [#!] *)

(** [strncpy(buf,l,n)]. *)
Fixpoint strncpy (n : nat) (l : list Z) : list Z :=
  match n, l with
  | S n', b :: l' => if decide (b = 0) then replicate n 0 else b :: strncpy n' l'
  | _, _ => replicate n 0
  end.
Definition at_ (buf : list Z) (i : nat) : Z := default 0 (buf !! i).
(** [strchr(buf,c)]. *)
Fixpoint strchr (n : nat) (buf : list Z) (c : Z) (i : nat) : option nat :=
  match n with
  | O => None
  | S n' => if decide (at_ buf i = c) then Some i
            else if decide (at_ buf i = 0) then None else strchr n' buf c (S i)
  end.
Definition blank (c : Z) : bool := bool_decide (c = 32 \/ c = 9).
Fixpoint skip_blanks (n : nat) (buf : list Z) (cp : nat) : nat :=
  match n with
  | O => cp
  | S n' => if blank (at_ buf cp) then skip_blanks n' buf (S cp) else cp
  end.
(** The end of the interpreter's name, and what follows its last [/]. *)
Fixpoint scan_interp (n : nat) (buf : list Z) (cp i_name : nat) : nat * nat :=
  match n with
  | O => (cp, i_name)
  | S n' =>
      let c := at_ buf cp in
      if decide (c = 0) then (cp, i_name)
      else if blank c then (cp, i_name)
      else scan_interp n' buf (S cp) (if decide (c = 47) then S cp else i_name)
  end.

Record script : Type := Script { sc_buf : list Z; sc_interp : nat; sc_name : nat; sc_arg : option nat }.
Definition parse_script (data : list Z) : option script :=
  let buf := strncpy 1022 (drop 2 data) ++ [0] in
  match strchr 1023 buf 10 0 with
  | None => None
  | Some nl =>
      let buf := <[nl := 0]> buf in
      let cp := skip_blanks 1023 buf 0 in
      if decide (at_ buf cp = 0) then None
      else
        let '(e, i_name) := scan_interp 1023 buf cp cp in
        if decide (at_ buf e <> 0) then Some (Script (<[e := 0]> buf) cp i_name (Some (S e)))
        else Some (Script buf cp i_name None)
  end.

(** ** do_execve *)

Definition set_executable (v : option Z) (t : task_struct) : task_struct := {| t with executable := v |}.
Definition clear_handlers (t : task_struct) : task_struct :=
  {| t with sigaction := map (fun sa => {| sa with sa_handler := 0 |}) (sigaction t) |}.
Definition set_image (ex : exec) (p e_uid e_gid : Z) (t : task_struct) : task_struct :=
  let code := a_text ex in let data := u32 (a_data ex + code) in
  {| t with end_code := code; end_data := data; brk := u32 (a_bss ex + data);
            start_stack := Z.land p 0xfffff000; euid := u16 e_uid; egid := u16 e_gid |}.

(** The mode bits and ids under which the file would run; [ENOEXEC] unless one may execute it. *)
Definition may_execute (t : task_struct) (v : m_inode) : bool :=
  let i := if decide (euid t = i_uid v) then Z.shiftr (i_mode v) 6
           else if decide (egid t = i_gid v) then Z.shiftr (i_mode v) 3 else i_mode v in
  bool_decide (Z.land i 1 <> 0) ||
  (bool_decide (Z.land (i_mode v) 0x49 <> 0) && suser t).
Definition exec_uid (t : task_struct) (v : m_inode) : Z :=
  if decide (Z.land (i_mode v) S_ISUID <> 0) then i_uid v else euid t.
Definition exec_gid (t : task_struct) (v : m_inode) : Z :=
  if decide (Z.land (i_mode v) S_ISGID <> 0) then i_gid v else egid t.
Definition bad_header (ex : exec) (v : m_inode) : bool :=
  bool_decide (a_magic ex <> ZMAGIC \/ a_trsize ex <> 0 \/ a_drsize ex <> 0 \/
               0x3000000 < u32 (a_text ex + a_data ex + a_bss ex) \/
               i_size v < u32 (a_text ex + a_data ex + a_syms ex + N_TXTOFF ex)).

Section execve.
Context `{!Machine} (fuel depth : nat).
#[local] Abbreviation iput := (Truncate.iput fuel depth).
#[local] Abbreviation namei := (Namei.namei fuel depth).
#[local] Abbreviation bread := (Inode.bread fuel depth).
#[local] Abbreviation brelse := (Buffer.brelse fuel).
(** Where the compiler keeps [filename], [buf], [i_arg] and [i_name]. *)
Context (filename_at buf_at i_arg_at i_name_at : Z).

Definition exec_error1 (retval : Z) (page eip : list Z) : M xst (Z * list Z) :=
  for_up (Z.to_nat MAX_ARG_PAGES) 0 (fun i => pg ← deref "page" (zget page i); on_k (on_mem (free_page pg)));;
  mret (retval, eip).
Definition exec_error2 (inode retval : Z) (page eip : list Z) : M xst (Z * list Z) :=
  on_k (iput (Some inode));; exec_error1 retval page eip.

(** [while (i & 0xfff)]: the rest of the last page of data is cleared. *)
Fixpoint clear_tail (n : nat) (i : Z) : M xst unit :=
  match n with
  | O => skip
  | S n' => if decide (Z.land i 0xfff <> 0) then upd_fs (put_fs_byte 0 i);; clear_tail n' (i + 1) else skip
  end.

(** From the point of no return on. *)
Definition load_image (inode : Z) (ex : exec) (p argc envc e_uid e_gid : Z) (page eip : list Z) : M xst (Z * list Z) :=
  t ← on_k cur;
  (match executable t with Some e => on_k (iput (Some e)) | None => skip end);;
  on_k (upd_cur (set_executable (Some inode)));;
  on_k (upd_cur clear_handlers);;
  for_up (Z.to_nat NR_OPEN) 0 (fun i =>
    t ← on_k cur;
    if decide (Z.land (Z.shiftr (close_on_exec t) i) 1 <> 0) then _ ← on_k (sys_close fuel depth i); skip else skip);;
  on_k (upd_cur (set_cloexec 0));;
  b ← ldt_base 1; l ← ldt_limit 1; _ ← on_k (on_mem (free_page_tables b l));
  b ← ldt_base 2; l ← ldt_limit 2; _ ← on_k (on_mem (free_page_tables b l));
  upd_fs (fun _ => ∅);;
  c ← on_k (on_tasks (gets current));
  modify (fun s => if decide (last_task_used_math s = Some c) then {| s with last_task_used_math := None |} else s);;
  on_k (upd_cur (set_used_math 0));;
  d ← change_ldt (a_text ex) page;
  let p := u32 (p + d - MAX_ARG_PAGES * PAGE_SIZE) in
  p ← create_tables fuel p argc envc;
  on_k (upd_cur (set_image ex p e_uid e_gid));;
  clear_tail (Z.to_nat PAGE_SIZE) (s32 (a_text ex + a_data ex));;
  mret (0, zset (zset eip 0 (a_entry ex)) 3 p).

(** The interpreter's inode and the new [p], [argc] and [page], or the error. *)
Definition splice_interp (sc : script) (filename argv envp sh_bang p argc envc : Z) (page : list Z) :
    M xst ((Z * Z * Z * list Z) + (Z * list Z)) :=
  upd_kdata (put_bytes (sc_buf sc) buf_at);;
  upd_kdata (put_fs_long filename filename_at);;
  upd_kdata (put_fs_long (buf_at + Z.of_nat (sc_name sc)) i_name_at);;
  upd_kdata (put_fs_long (match sc_arg sc with Some a => buf_at + Z.of_nat a | None => 0 end) i_arg_at);;
  '(p, argc, page) ←
    (if decide (sh_bang = 0) then
       '(p, page) ← copy_strings fuel envc envp page p 0;
       '(p, page) ← copy_strings fuel (argc - 1) (argv + 4) page p 0;
       mret (p, argc - 1, page)
     else mret (p, argc, page));
  '(p, page) ← copy_strings fuel 1 filename_at page p 1;
  let argc := argc + 1 in
  '(p, argc, page) ←
    (match sc_arg sc with
     | Some _ => '(p, page) ← copy_strings fuel 1 i_arg_at page p 2; mret (p, argc + 1, page)
     | None => mret (p, argc, page)
     end);
  '(p, page) ← copy_strings fuel 1 i_name_at page p 2;
  let argc := argc + 1 in
  if decide (p = 0) then mret (inr (- ENOMEM, page))
  else
    old_fs ← get_fs;
    set_fs true;;
    o ← on_k (namei (buf_at + Z.of_nat (sc_interp sc)));
    set_fs old_fs;;
    match o with
    | None => mret (inr (- ENOENT, page))
    | Some inode => mret (inl (inode, p, argc, page))
    end.

(** From [restart_interp] on: a second [#!] is not looked at, so two rounds are enough. *)
Fixpoint exec_file (n : nat) (filename argv envp inode sh_bang p argc envc : Z) (page eip : list Z) : M xst (Z * list Z) :=
  match n with
  | O => nofuel
  | S n' =>
      v ← on_k (inode_at inode);
      if S_ISREG (i_mode v) then
        t ← on_k cur;
        let e_uid := exec_uid t v in let e_gid := exec_gid t v in
        if may_execute t v then
          o ← on_k (bread (i_dev v) (zone v 0));
          match o with
          | None => exec_error2 inode (- EACCES) page eip
          | Some bh =>
              b ← on_k (bh_at bh);
              let data := b_data b in
              let ex := load_exec data in
              if decide (at_ data 0 = 35 /\ at_ data 1 = 33 /\ sh_bang = 0) then
                on_k (brelse (Some bh));;
                on_k (iput (Some inode));;
                match parse_script data with
                | None => exec_error1 (- ENOEXEC) page eip
                | Some sc =>
                    r ← splice_interp sc filename argv envp sh_bang p argc envc page;
                    match r with
                    | inr (e, page) => exec_error1 e page eip
                    | inl (inode, p, argc, page) =>
                        exec_file n' filename argv envp inode (sh_bang + 1) p argc envc page eip
                    end
                end
              else
                on_k (brelse (Some bh));;
                v ← on_k (inode_at inode);
                if bad_header ex v then exec_error2 inode (- ENOEXEC) page eip
                else if decide (N_TXTOFF ex <> 1024) then exec_error2 inode (- ENOEXEC) page eip
                else
                  '(p, page) ←
                    (if decide (sh_bang = 0) then
                       '(p, page) ← copy_strings fuel envc envp page p 0;
                       copy_strings fuel argc argv page p 0
                     else mret (p, page));
                  if decide (sh_bang = 0 /\ p = 0) then exec_error2 inode (- ENOMEM) page eip
                  else load_image inode ex p argc envc e_uid e_gid page eip
          end
        else exec_error2 inode (- ENOEXEC) page eip
      else exec_error2 inode (- EACCES) page eip
  end.

Definition do_execve (eip : list Z) (filename argv envp : Z) : M xst (Z * list Z) :=
  cs ← deref "eip" (zget eip 1);
  if decide (Z.land 0xffff cs <> 0x000f) then panic "execve called from supervisor mode"
  else
    let page := replicate (Z.to_nat MAX_ARG_PAGES) 0 in
    o ← on_k (namei filename);
    match o with
    | None => mret (- ENOENT, eip)
    | Some inode =>
        argc ← count fuel argv;
        envc ← count fuel envp;
        exec_file 2 filename argv envp inode 0 (PAGE_SIZE * MAX_ARG_PAGES - 4) argc envc page eip
    end.
End execve.

End Exec.
