(* ===== verification/ExecProps.v ===== *)
(** * Properties of the program loader *)

From S2P Require Import Prelude Bytes Memory MemoryFacts PageRefs Paging PageTables Task Segments UserMem FsState.
From S2P Require Import StringProps Exec.
Import Memory MemoryFacts PageRefs Paging PageTables Task Segments UserMem FsState StringProps Exec.

Module ExecProps.

(** ** The argument pages *)

(** A page in use that no table maps. *)
Definition loose (s : mm) (p : Z) : Prop := managed s p /\ cell s p = 1 /\ refs s p = 0.

Record packed_pages (s : mm) (page : list Z) : Prop := {
  pp_len : zlen page = MAX_ARG_PAGES;
  pp_inv : mem_inv s;
  pp_loose : forall i p, zget page i = Some p -> p <> 0 -> loose s p;
  pp_inj : forall i j p, zget page i = Some p -> zget page j = Some p -> p <> 0 -> i = j
}.

Definition nulls (page : list Z) : nat := length (filter (fun p => p = 0) page).

Lemma nulls_zset page i q : zget page i = Some 0 -> q <> 0 -> nulls page = S (nulls (zset page i q)).
Proof.
  intros E Hq. pose proof (zget_Some_range _ _ _ E) as Hr. unfold zget, zset in *.
  rewrite decide_True in E by lia. rewrite decide_True by lia. generalize dependent (Z.to_nat i). clear i Hr. unfold nulls.
  induction page as [|x page IH]; intros [|k] E; try done.
  - cbn in E. injection E as ->. cbn [list_insert insert]. rewrite filter_cons_True by done.
    by rewrite filter_cons_False by done.
  - cbn in E. cbn [insert list_insert]. rewrite !filter_cons. specialize (IH k E). case_decide; cbn [length]; by rewrite IH.
Qed.

Lemma get_page_room s n :
  mem_inv s -> room s (S n) -> exists p s', get_free_page s = Done p s' /\ fresh s p s' /\ room s' n.
Proof.
  intros Hinv HR. pose proof Hinv as [Hpg _].
  destruct (get_free_page_room s n (inv_ok s Hpg) HR) as (p & s' & E & Hp & Hp0 & Hc & Hz & HR').
  exists p, s'. split; [done|]. split; [|done]. pose proof (get_free_page_fresh s Hinv) as H. rewrite E in H.
  destruct H as [(-> & _)|H]; [done|exact H].
Qed.

(** A new page joins the others. *)
Lemma packed_add s page i p s' :
  packed_pages s page -> zget page i = Some 0 -> fresh s p s' -> packed_pages s' (zset page i p).
Proof.
  intros [H1 H2 H3 H4] Hi Hf. pose proof Hf as (Hp & Hp0 & Hc & Hst & _ & Hr & Hcell & _).
  pose proof (zget_Some_range _ _ _ Hi) as Hir.
  assert (Hne : forall j, zget page j <> Some p).
  { intros j E. destruct (H3 j p E Hp0) as (_ & E1 & _). congruence. }
  split; [by rewrite zlen_zset|by eapply fresh_inv| |].
  - intros j q. rewrite zget_zset by done. case_decide as Hj.
    + injection 1 as <-. intros _. split; [|split; [|done]].
      * destruct Hst as (Hh & _). unfold managed in *. by rewrite Hh.
      * rewrite Hcell by apply Hp. by rewrite decide_True.
    + intros E Hq. destruct (H3 j q E Hq) as (Hm & E1 & E2). split; [|split].
      * destruct Hst as (Hh & _). unfold managed in *. by rewrite Hh.
      * rewrite Hcell by apply Hm. rewrite decide_False; [done|]. intros <-. by apply (Hne j).
      * rewrite (same_tables_refs s s') by done. done.
  - intros j k q. rewrite !zget_zset by done. do 2 case_decide; intros E1 E2 Hq; simplify_eq; [done| | |by eapply H4].
    + by destruct (Hne k).
    + by destruct (Hne j).
Qed.

(** ** The bytes of the pages *)

(** The byte at offset [o] of the argument area. *)
Definition image (page : list Z) (m : gmap Z Z) (o : Z) : Z :=
  kget m (default 0 (zget page (o / 4096)) + o mod 4096).
(** There is a page for offset [o]. *)
Definition backed (page : list Z) (o : Z) : Prop := exists q, zget page (o / 4096) = Some q /\ q <> 0.

Lemma image_put s page m o q v o' :
  packed_pages s page -> zget page (o / 4096) = Some q -> q <> 0 -> backed page o' ->
  image page (<[u32 (q + o mod 4096) := v]> m) o' = if decide (o = o') then v else image page m o'.
Proof.
  intros HP E Hq (q' & E' & Hq'). pose proof (inv_ok s (proj1 (pp_inv _ _ HP))) as Hok.
  destruct (managed_page s q Hok) as (A1 & A2 & A3 & _); [eapply (pp_loose _ _ HP); done|].
  destruct (managed_page s q' Hok) as (B1 & B2 & B3 & _); [eapply (pp_loose _ _ HP); done|].
  unfold LOW_MEM in *. pose proof (Z.mod_pos_bound o 4096 ltac:(lia)). pose proof (Z.mod_pos_bound o' 4096 ltac:(lia)).
  unfold image. rewrite E'. change (default 0 (Some q')) with q'. rewrite kget_insert by lia.
  destruct (decide (o = o')) as [->|Hne]; [rewrite decide_True; [done|congruence]|].
  rewrite decide_False; [done|]. intros Ea.
  assert (q = q' /\ o mod 4096 = o' mod 4096) as [-> Em].
  { pose proof (Z.div_mod q 4096). pose proof (Z.div_mod q' 4096). lia. }
  pose proof (pp_inj _ _ HP _ _ _ E E' Hq). pose proof (Z.div_mod o 4096). pose proof (Z.div_mod o' 4096). lia.
Qed.

Lemma image_clear s page m i p s' o :
  packed_pages s page -> zget page i = Some 0 -> fresh s p s' -> backed page o ->
  image (zset page i p) (kwrite (replicate 4096 0) p m) o = image page m o.
Proof.
  intros HP Hi Hf (q & E & Hq). pose proof (inv_ok s (proj1 (pp_inv _ _ HP))) as Hok.
  pose proof Hf as (Hp & _ & Hc & _).
  destruct (managed_page s p Hok Hp) as (A1 & A2 & A3 & _).
  destruct (pp_loose _ _ HP _ _ E Hq) as (Hm & Hc1 & _).
  destruct (managed_page s q Hok Hm) as (B1 & B2 & B3 & _).
  unfold LOW_MEM in *. pose proof (Z.mod_pos_bound o 4096 ltac:(lia)).
  unfold image. rewrite zget_zset_ne by (intros ->; congruence). rewrite E. change (default 0 (Some q)) with q.
  assert (Hl : zlen (replicate 4096 0) = 4096) by (by unfold zlen; rewrite length_replicate).
  rewrite kget_kwrite by (rewrite ?Hl; lia). rewrite Hl, decide_False; [done|].
  assert (p <> q) by (intros ->; congruence). pose proof (Z.div_mod p 4096). pose proof (Z.div_mod q 4096). lia.
Qed.

(** ** Copying strings *)

(** The loader's state with other page tables and kernel memory. *)
Definition paged (s : xst) (mm' : mm) (km : gmap Z Z) : xst :=
  {| s with xk := {| (xk s) with kuser := {| (kuser (xk s)) with umm := mm' |}; kmem := km |} |}.
Definition fsm (s : xst) : umem := um (kuser (xk s)).

Lemma fs_byte_bind {B} a (k : Z -> M xst B) s : (fs_byte a ≫= k) s = k (get_fs_byte (fsm s) a) s.
Proof. done. Qed.
Lemma fs_long_bind {B} a (k : Z -> M xst B) s : (fs_long a ≫= k) s = k (get_fs_long (fsm s) a) s.
Proof. done. Qed.

Lemma skip_string_ok n p l s :
  cstring (fsm s) p l -> (length l < n)%nat -> skip_string n p s = Done (p + zlen l + 1) s.
Proof.
  unfold zlen. revert p n. induction l as [|b l IH]; intros p n Hs Hn; (destruct n as [|n]; [lia|]);
    cbn [skip_string length cstring] in *; rewrite fs_byte_bind.
  - rewrite Hs, decide_False by (intros H; by apply H). unfold mret, M_ret. f_equal. lia.
  - destruct Hs as (-> & Hb & Hs). rewrite decide_True by done. rewrite (IH (p + 1) n Hs) by lia. f_equal. lia.
Qed.

Lemma get_clear_page_ok s mm km p mm' :
  get_free_page mm = Done p mm' -> p <> 0 ->
  get_clear_page (paged s mm km) = Done p (paged s mm' (kwrite (replicate 4096 0) p km)).
Proof.
  intros E Hp. unfold get_clear_page. erewrite done_bind.
  2: { unfold on_k, on_mem, on_user, on_umm, zoom. cbn. rewrite E. reflexivity. }
  rewrite decide_False by done. reflexivity.
Qed.

(** Where copying stands: the bytes from [c_p c] to [top] are written, and there is room
    for the other pages and one more. *)
Record cursor_ok (mm' : mm) (c : cursor) (top : Z) : Prop := {
  ck_pages : packed_pages mm' (c_page c);
  ck_room : room mm' (S (nulls (c_page c)));
  ck_p : 0 <= c_p c <= top /\ top <= PAGE_SIZE * MAX_ARG_PAGES;
  ck_written : forall o, c_p c <= o < top -> backed (c_page c) o;
  ck_pag : c_offset c = 0 \/
    (0 < c_offset c /\ c_offset c = c_p c mod PAGE_SIZE /\ zget (c_page c) (c_p c / PAGE_SIZE) = Some (c_pag c) /\ c_pag c <> 0)
}.

(** The page for the next byte is there, or a new one is put in its place. *)
Lemma next_page tmp old s mm km c top :
  cursor_ok mm c top -> 0 < c_p c ->
  exists mm' km' c', let o := c_p c - 1 in
    copy_byte 0 old tmp c (paged s mm km) =
      (b ← fs_byte tmp; put_kbyte (c_pag c' + c_offset c') b;; mret (inl c')) (paged s mm' km') /\
    packed_pages mm' (c_page c') /\ room mm' (S (nulls (c_page c'))) /\
    c_p c' = o /\ c_offset c' = o mod PAGE_SIZE /\
    zget (c_page c') (o / PAGE_SIZE) = Some (c_pag c') /\ c_pag c' <> 0 /\
    forall o', backed (c_page c) o' -> backed (c_page c') o' /\ image (c_page c') km' o' = image (c_page c) km o'.
Proof.
  intros [HP HR [Hp Ht] HW HK] Hpos. unfold PAGE_SIZE, MAX_ARG_PAGES in *. cbv zeta. unfold copy_byte.
  rewrite (u32_small (c_p c - 1)) by lia. change PAGE_SIZE with 4096.
  pose proof (Z.div_mod (c_p c) 4096 ltac:(lia)) as D0. pose proof (Z.div_mod (c_p c - 1) 4096 ltac:(lia)) as D1.
  pose proof (Z.mod_pos_bound (c_p c) 4096 ltac:(lia)). pose proof (Z.mod_pos_bound (c_p c - 1) 4096 ltac:(lia)).
  destruct (decide (c_offset c - 1 < 0)) as [Ho|Ho].
  - assert (Hi : 0 <= (c_p c - 1) / 4096 < zlen (c_page c)) by (rewrite (pp_len _ _ HP); unfold MAX_ARG_PAGES; lia).
    destruct (zget_is_Some (c_page c) ((c_p c - 1) / 4096) Hi) as [q Eq].
    rewrite (decide_False (P := 0 = 2)) by done.
    destruct (decide (q = 0)) as [->|Hq].
    + rewrite (nulls_zset _ _ 1 Eq) in HR by done.
      destruct (get_page_room mm _ (pp_inv _ _ HP) HR) as (p & mm' & E & Hf & HR').
      pose proof Hf as (_ & Hp0 & _).
      set (c' := Cursor (c_p c - 1) ((c_p c - 1) mod 4096) p (zset (c_page c) ((c_p c - 1) / 4096) p)).
      exists mm', (kwrite (replicate 4096 0) p km), c'.
      cbn [c_p c_offset c_pag c_page]. split_and!; [|by eapply packed_add| |done|done|by apply zget_zset_eq|done|].
      * rewrite (done_bind _ _ _ (inl c') (paged s mm' (kwrite (replicate 4096 0) p km))); [done|]. rewrite Eq. erewrite done_bind by reflexivity. rewrite deref_bind.
        rewrite (decide_False (P := 0 <> 0)) by (intros H'; by apply H').
        erewrite done_bind by by apply get_clear_page_ok. rewrite decide_False by done.
        erewrite done_bind by reflexivity. reflexivity.
      * pose proof (nulls_zset _ _ 1 Eq ltac:(done)) as N1. pose proof (nulls_zset _ _ p Eq Hp0) as N2.
        assert (nulls (c_page c') = nulls (zset (c_page c) ((c_p c - 1) / 4096) 1)) as -> by (unfold c'; cbn [c_page]; lia).
        exact HR'.
      * intros o' Hb. split; [|by eapply image_clear]. destruct Hb as (x & Ex & Hx). exists x. split; [|done].
        unfold c'. cbn [c_page]. rewrite zget_zset_ne; [done|]. intros E'. rewrite <- E' in Ex. congruence.
    + set (c' := Cursor (c_p c - 1) ((c_p c - 1) mod 4096) q (c_page c)). exists mm, km, c'. cbn [c_p c_offset c_pag c_page].
      split_and!; try done.
      rewrite (done_bind _ _ _ (inl c') (paged s mm km)); [done|]. rewrite Eq. erewrite done_bind by reflexivity. rewrite deref_bind.
      rewrite (decide_True (P := q <> 0)) by done. reflexivity.
  - destruct HK as [HK|(HK0 & HK1 & HK2 & HK3)]; [lia|].
    assert (Hd : (c_p c - 1) / 4096 = c_p c / 4096 /\ (c_p c - 1) mod 4096 = c_offset c - 1) by lia.
    destruct Hd as [Hd1 Hd2].
    exists mm, km, (Cursor (c_p c - 1) (c_offset c - 1) (c_pag c) (c_page c)). cbn [c_p c_offset c_pag c_page].
    rewrite Hd1. split_and!; done.
Qed.

Lemma put_kbyte_paged a v s mm km :
  put_kbyte a v (paged s mm km) = Done tt (paged s mm (<[u32 a := u8 v]> km)).
Proof. done. Qed.

Lemma copy_byte_ok tmp old s mm km c top :
  cursor_ok mm c top -> 0 < c_p c ->
  exists mm' km' c', copy_byte 0 old tmp c (paged s mm km) = Done (inl c') (paged s mm' km') /\
    cursor_ok mm' c' top /\ c_p c' = c_p c - 1 /\
    image (c_page c') km' (c_p c - 1) = u8 (get_fs_byte (fsm s) tmp) /\
    forall o, c_p c <= o < top -> image (c_page c') km' o = image (c_page c) km o.
Proof.
  intros Hc Hpos. destruct (next_page tmp old s mm km c top Hc Hpos)
    as (mm' & km' & c' & R & HP & HR & Hp & Ho & Hg & Hg0 & HI). cbv zeta in *.
  unfold PAGE_SIZE in *. destruct Hc as [_ _ [Ht0 Ht] HW _].
  exists mm', (<[u32 (c_pag c' + c_offset c') := u8 (get_fs_byte (fsm s) tmp)]> km'), c'.
  assert (HB : backed (c_page c') (c_p c - 1)) by by exists (c_pag c').
  split_and!.
  - rewrite R, fs_byte_bind. by erewrite done_bind by apply put_kbyte_paged.
  - split; [done|done|lia| |].
    + intros o Hr. destruct (decide (o = c_p c - 1)) as [->|]; [done|]. apply HI, HW. lia.
    + pose proof (Z.mod_pos_bound (c_p c - 1) 4096 ltac:(lia)).
      destruct (decide (c_offset c' = 0)); [by left|right]. unfold PAGE_SIZE. rewrite Hp. split; [lia|done].
  - done.
  - rewrite Ho. erewrite image_put; [|done|done|done|done]. by rewrite decide_True.
  - intros o Hr. destruct (HI o (HW o Hr)) as [Hb Hi]. rewrite <- Hi, Ho.
    erewrite image_put; [|done|done|done|done]. by rewrite decide_False by lia.
Qed.

(** A run of bytes of user memory arrives just below what was there. *)
Lemma copy_string_ok len stop old s mm km c top :
  cursor_ok mm c top -> Z.of_nat len <= c_p c ->
  exists mm' km' c', copy_string len 0 old stop c (paged s mm km) = Done (inl c') (paged s mm' km') /\
    cursor_ok mm' c' top /\ c_p c' = c_p c - Z.of_nat len /\
    (forall k, 0 <= k < Z.of_nat len ->
      image (c_page c') km' (c_p c' + k) = u8 (get_fs_byte (fsm s) (stop - Z.of_nat len + k))) /\
    forall o, c_p c <= o < top -> image (c_page c') km' o = image (c_page c) km o.
Proof.
  revert stop mm km c. induction len as [|n IH]; intros stop mm km c Hc Hl.
  { exists mm, km, c. split_and!; [done|done|lia|lia|done]. }
  destruct (copy_byte_ok (stop - 1) old s mm km c top Hc ltac:(lia)) as (mm1 & km1 & c1 & R1 & Hc1 & Hp1 & Hb & Hi1).
  destruct (IH (stop - 1) mm1 km1 c1 Hc1 ltac:(lia)) as (mm2 & km2 & c2 & R2 & Hc2 & Hp2 & Hb2 & Hi2).
  exists mm2, km2, c2. split_and!; [|done|lia| |].
  - cbn [copy_string]. by erewrite done_bind by exact R1.
  - pose proof (ck_p _ _ _ Hc). intros k Hk. destruct (decide (k = Z.of_nat n)) as [->|].
    + replace (c_p c2 + Z.of_nat n) with (c_p c - 1) by lia. rewrite Hi2 by lia. rewrite Hb. do 2 f_equal. lia.
    + rewrite Hb2 by lia. do 2 f_equal. lia.
  - pose proof (ck_p _ _ _ Hc). intros o Ho. rewrite Hi2 by lia. by apply Hi1.
Qed.

(** ** Vectors of strings *)

(** The strings one after the other, each with its 0. *)
Definition packed (strs : list (list Z)) : list Z := mjoin (map (fun l => l ++ [0]) strs).

(** A table of pointers at [a], ended by a null pointer, to the strings. *)
Fixpoint vector (m : umem) (a : Z) (strs : list (list Z)) : Prop :=
  match strs with
  | [] => get_fs_long m a = 0
  | l :: strs' => get_fs_long m a <> 0 /\ cstring m (get_fs_long m a) l /\ vector m (a + 4) strs'
  end.
Definition byte_strings (strs : list (list Z)) : Prop := Forall (Forall (fun b => 0 < b < 256)) strs.

Lemma vector_lookup m a strs k l :
  vector m a strs -> strs !! k = Some l ->
  get_fs_long m (a + 4 * Z.of_nat k) <> 0 /\ cstring m (get_fs_long m (a + 4 * Z.of_nat k)) l.
Proof.
  revert a k. induction strs as [|x strs IH]; intros a [|k] Hv E; cbn in E; [done|done| |].
  - injection E as ->. destruct Hv as (H1 & H2 & _). by rewrite Z.add_0_r.
  - destruct Hv as (_ & _ & Hv). replace (a + 4 * Z.of_nat (S k)) with (a + 4 + 4 * Z.of_nat k) by lia. by apply IH.
Qed.

Lemma packed_snoc strs l : packed (strs ++ [l]) = packed strs ++ l ++ [0].
Proof. unfold packed. rewrite map_app. cbn. rewrite join_app. cbn. by rewrite app_nil_r. Qed.

Lemma cstring_lookup m a l k :
  cstring m a l -> (k <= length l)%nat -> get_fs_byte m (a + Z.of_nat k) = default 0 ((l ++ [0]) !! k).
Proof.
  revert a k. induction l as [|b l IH]; intros a k Hs Hk.
  - cbn in Hk, Hs. assert (k = 0%nat) as -> by lia. by rewrite Z.add_0_r.
  - destruct Hs as (E & _ & Hs). destruct k as [|k]; [by rewrite Z.add_0_r|]. cbn in Hk |- *.
    replace (a + Z.of_nat (S k)) with (a + 1 + Z.of_nat k) by lia. apply IH; [done|lia].
Qed.

Lemma zlen_packed_snoc strs l : zlen (packed (strs ++ [l])) = zlen (packed strs) + (zlen l + 1).
Proof. rewrite packed_snoc, !zlen_app. done. Qed.

(** The bytes of a string with its 0, as they were copied. *)
Lemma string_byte m a l k :
  cstring m a l -> Forall (fun b => 0 < b < 256) l -> 0 <= k < zlen l + 1 ->
  u8 (get_fs_byte m (a + k)) = default 0 (zget (l ++ [0]) k).
Proof.
  unfold zlen. intros Hs Hb Hk. rewrite <- (Z2Nat.id k) at 1 by lia. rewrite (cstring_lookup m a l) by (done || lia).
  unfold zget. rewrite decide_True by lia. apply u8_small. destruct (_ !! Z.to_nat k) as [b|] eqn:E; [|cbn; lia].
  change (default 0 (Some b)) with b. apply lookup_app_Some in E as [E|[_ E]].
  - pose proof (Forall_lookup_1 _ _ _ _ Hb E) as H. cbn in H. lia.
  - apply list_lookup_singleton_Some in E as [_ <-]. lia.
Qed.

Section copy.
Context (fuel : nat) (s : xst).

Lemma copy_args_ok strs argv old mm km c top :
  vector (fsm s) argv strs -> byte_strings strs -> Forall (fun l => (length l < fuel)%nat) strs ->
  cursor_ok mm c top -> zlen (packed strs) <= c_p c ->
  exists mm' km' c', copy_args fuel (length strs) argv 0 old c (paged s mm km) = Done (inl c') (paged s mm' km') /\
    cursor_ok mm' c' top /\ c_p c' = c_p c - zlen (packed strs) /\
    (forall k, 0 <= k < zlen (packed strs) -> image (c_page c') km' (c_p c' + k) = default 0 (zget (packed strs) k)) /\
    forall o, c_p c <= o < top -> image (c_page c') km' o = image (c_page c) km o.
Proof.
  intros Hv. assert (Hv' : forall k l, strs !! k = Some l ->
    get_fs_long (fsm s) (argv + 4 * Z.of_nat k) <> 0 /\ cstring (fsm s) (get_fs_long (fsm s) (argv + 4 * Z.of_nat k)) l)
    by (intros k l; by apply vector_lookup).
  clear Hv. revert mm km c Hv'. induction strs as [|l strs IH] using rev_ind; intros mm km c Hv Hb Hf Hc Hlen.
  { exists mm, km, c. split_and!; [done|done|unfold packed, zlen; cbn; lia|unfold packed, zlen; cbn; lia|done]. }
  rewrite zlen_packed_snoc in Hlen. pose proof (zlen_nonneg (packed strs)) as Hn. pose proof (zlen_nonneg l) as Hn'.
  apply Forall_app in Hf as [Hf Hfl]. apply Forall_app in Hb as [Hb Hbl]. rewrite Forall_singleton in Hfl. rewrite Forall_singleton in Hbl.
  pose proof (ck_p _ _ _ Hc) as Hcp. unfold PAGE_SIZE, MAX_ARG_PAGES in Hcp.
  destruct (Hv (length strs) l) as [Hp0 Hstr]; [rewrite lookup_app_r by lia; by rewrite Nat.sub_diag|].
  set (ptr := get_fs_long _ _) in *.
  destruct (copy_string_ok (Z.to_nat (zlen l + 1)) (ptr + zlen l + 1) old s mm km c top Hc ltac:(lia))
    as (mm1 & km1 & c1 & R1 & Hc1 & Hp1 & Hb1 & Hi1). rewrite Z2Nat.id in * by lia.
  destruct (IH mm1 km1 c1) as (mm2 & km2 & c2 & R2 & Hc2 & Hp2 & Hb2 & Hi2); [|done|done|done|lia|].
  { intros k x E. apply Hv. by apply lookup_app_l_Some. }
  exists mm2, km2, c2. rewrite zlen_packed_snoc. split_and!; [|done|lia| |].
  - rewrite length_app, Nat.add_comm. cbn [length Nat.add copy_args].
    rewrite (decide_False (P := 0 = 1)) by done. erewrite done_bind by reflexivity. rewrite fs_long_bind.
    change (fsm (paged s mm km)) with (fsm s). fold ptr. rewrite (decide_False (P := ptr = 0)) by done.
    erewrite done_bind by reflexivity. erewrite done_bind by (apply skip_string_ok with (l := l); [exact Hstr|exact Hfl]).
    cbv zeta. replace (ptr + zlen l + 1 - ptr) with (zlen l + 1) by lia.
    pose proof (u32_range (c_p c - (zlen l + 1))). rewrite decide_False by lia.
    erewrite done_bind by exact R1. exact R2.
  - intros k Hk. rewrite packed_snoc. destruct (decide (k < zlen (packed strs))) as [Hlt|Hge].
    + rewrite Hb2 by lia. rewrite zget_app by lia. by rewrite decide_True by lia.
    + rewrite Hi2 by lia. replace (c_p c2 + k) with (c_p c1 + (k - zlen (packed strs))) by lia. rewrite Hb1 by lia.
      replace (ptr + zlen l + 1 - (zlen l + 1) + (k - zlen (packed strs))) with (ptr + (k - zlen (packed strs))) by lia.
      rewrite (string_byte _ _ l) by (done || lia). rewrite (zget_app (packed strs)) by lia. by rewrite decide_False by lia.
  - intros o Ho. rewrite Hi2 by lia. by apply Hi1.
Qed.

Lemma copy_strings_ok strs argv mm km page p top :
  vector (fsm s) argv strs -> byte_strings strs -> Forall (fun l => (length l < fuel)%nat) strs ->
  cursor_ok mm (Cursor p 0 0 page) top -> p <> 0 -> zlen (packed strs) <= p ->
  exists mm' km' page', let p' := p - zlen (packed strs) in
    copy_strings fuel (zlen strs) argv page p 0 (paged s mm km) = Done (p', page') (paged s mm' km') /\
    cursor_ok mm' (Cursor p' 0 0 page') top /\
    (forall k, 0 <= k < zlen (packed strs) -> image page' km' (p' + k) = default 0 (zget (packed strs) k)) /\
    forall o, p <= o < top -> image page' km' o = image page km o.
Proof.
  intros Hv Hb Hf Hc Hp Hlen.
  destruct (copy_args_ok strs argv (xfs s) mm km (Cursor p 0 0 page) top Hv Hb Hf Hc Hlen)
    as (mm' & km' & c' & R & [H1 H2 H3 H4 _] & Hp' & Hi & Ho). cbn [c_p c_page] in *.
  exists mm', km', (c_page c'). cbv zeta. rewrite <- Hp'. split_and!; [|by split; [done..|left]|done|done].
  unfold copy_strings. rewrite decide_False by done. erewrite done_bind by reflexivity.
  erewrite done_bind by reflexivity. unfold zlen at 1. rewrite Nat2Z.id.
  change (xfs (paged s mm km)) with (xfs s). erewrite done_bind by exact R. reflexivity.
Qed.
End copy.

End ExecProps.
