(* ===== verification/ExecLoad.v ===== *)
(** * Passing arguments to a new program

    [load_image] frees the old program's pages, maps the argument pages at the top of the
    data segment and builds the tables of pointers; together with [copy_strings] this
    gives the new program the strings that the old one named. *)

From S2P Require Import Prelude Bytes Memory MemoryFacts PageRefs Paging PageTables CopyTables Task Segments UserMem FsState MemoryProps FsInst.
From S2P Require Import StringProps Open Exec ExecProps.
Import Task Segments UserMem Memory MemoryFacts PageRefs Paging PageTables CopyTables FsState StringProps Open Exec ExecProps.

Module ExecLoad.

(** ** Page tables *)

Lemma data_page_loose s p : mm_ok s -> loose s p -> data_page s p.
Proof.
  intros Hok (Hm & Hc & Hr). split; [done|]. split; [lia|]. by apply refs_0_unmapped.
Qed.

Lemma same_managed s s' q : HIGH_MEMORY s' = HIGH_MEMORY s -> managed s q -> managed s' q.
Proof. intros E. unfold managed. by rewrite E. Qed.

(** Freeing keeps loose pages and frees at most more pages. *)
Record freed (s s' : mm) : Prop := {
  fr_inv : mem_inv s';
  fr_high : HIGH_MEMORY s' = HIGH_MEMORY s;
  fr_extra : same_extra s s';
  fr_refs : forall q, refs s' q <= refs s q
}.

Lemma freed_loose s s' q : freed s s' -> loose s q -> loose s' q.
Proof.
  intros [_ Hh Hx Hr] (Hm & Hc & H0). specialize (Hr q). pose proof (refs_nonneg s' q).
  specialize (Hx q Hm). unfold extra in Hx. split; [by apply (same_managed s)|]. split; lia.
Qed.

Lemma freed_room s s' n : mem_inv s -> freed s s' -> room s n -> room s' n.
Proof.
  intros Hinv [_ Hh Hx Hr] (L & H1 & H2 & H3). exists L. split; [done|]. split; [|done].
  intros q Hq. destruct (H2 q Hq) as [Hm Hc]. split; [by apply (same_managed s)|].
  pose proof (cell_0_refs s q Hinv Hm Hc) as H0. specialize (Hr q). pose proof (refs_nonneg s' q).
  specialize (Hx q Hm). unfold extra in Hx. lia.
Qed.

Lemma freed_packed s s' page : freed s s' -> packed_pages s page -> packed_pages s' page.
Proof.
  intros Hf [H1 H2 H3 H4]. split; [done|apply Hf| |done].
  intros i p E Hp. eapply freed_loose; [done|by eapply H3].
Qed.

Lemma free_tables_freed s from size :
  mem_inv s -> uaddr from -> from mod 2 ^ 22 = 0 -> 0 <= size <= 0x4000000 -> from + size <= 2 ^ 32 ->
  exists s', free_page_tables from size s = Done 0 s' /\ freed s s'.
Proof.
  intros Hinv Hf Ha Hs Hle. pose proof Hinv as [Hpg _].
  pose proof (dir_index_aligned from Hf Ha) as Ef. pose proof (uaddr_dir from Hf) as Hi.
  assert (Hn : 0 <= slots size /\ dir_index from + slots size <= 1024).
  { unfold slots. pose proof (Z.div_mod (size + 0x3fffff) (2 ^ 22)).
    pose proof (Z.mod_pos_bound (size + 0x3fffff) (2 ^ 22)). lia. }
  unfold free_page_tables. rewrite aligned_mod, Ha, decide_False by tauto.
  rewrite decide_False by (unfold uaddr in Hf; lia).
  rewrite slots_shift, dir_addr_u by (done || unfold uaddr in Hf; lia).
  destruct (free_dirs s (dir_index from) (Z.to_nat (slots size))) as (s' & E & Hinv' & Hx & Hw & Hnu);
    [done|lia|lia|]. rewrite Z2Nat.id in * by lia.
  exists s'. split; [unfold mbind, M_bind; by rewrite E|].
  split; [done|apply Hw|done|]. intros q. apply sumZ_le_le. intros j Hj.
  destruct (decide (dir_index from <= j < dir_index from + slots size)) as [Hr|Hr].
  { unfold dir_refs at 1. rewrite decide_False by by apply Hnu. apply dir_refs_nonneg. }
  destruct (dir_words_user s s' (dir_index from) (slots size) j Hpg ltac:(lia) Hw Hr) as [Hu Ht].
  unfold dir_refs. destruct (decide (user s j)) as [U|U]; [|rewrite decide_False by tauto; lia].
  rewrite decide_True by tauto. apply Z.eq_le_incl. f_equal.
  - unfold maps, dirw. rewrite (proj2 Hw); [done|]. apply dir_words_slot; [done|lia|lia|done].
  - unfold tbl_refs. apply sumZ_ext. intros k Hk.
    by rewrite (dir_words_pte s s' (dir_index from) (slots size)) by (done || lia).
Qed.

(** ** Mapping a page *)

Lemma entry_maps_refs s a q : refs s q = 0 -> maps (entry s a) q = 0.
Proof.
  intros H. unfold entry. case_decide as U; [|apply maps_not_present, not_present_0].
  destruct (decide (present (pte s (dir_index a) (tbl_index a)) /\ frame (pte s (dir_index a) (tbl_index a)) = q)) as [[P F]|N].
  - exfalso. destruct (refs_0_unmapped s q H) as [_ H']. eapply H'; [exact U|apply tbl_index_range|exact P|exact F].
  - unfold maps. by rewrite decide_False.
Qed.

Lemma put_page_user s p a :
  uaddr a -> user s (dir_index a) -> exists s', put_page p a s = Done p s'.
Proof.
  intros Ha [_ Hu]. unfold put_page. cbn -[Z.land Z.shiftr dir_addr]. rewrite dir_addr_u by done.
  unfold mbind, M_bind, load, gets. fold (dirw s (dir_index a)). rewrite decide_True; [by eexists|].
  intros E. apply not_present_mod in E. done.
Qed.

(** A loose page is mapped; the other loose pages stay loose, and the directory slot is in use. *)
Lemma put_page_loose s p a :
  mem_inv s -> uaddr a -> loose s p -> room s 1 \/ user s (dir_index a) ->
  exists s', put_page p a s = Done p s' /\ mem_inv s' /\ user s' (dir_index a) /\
    forall q, loose s q -> q <> p -> loose s' q.
Proof.
  intros Hinv Ha Hl Hroom. pose proof Hinv as [Hpg He]. pose proof (inv_ok s Hpg) as Hok.
  pose proof (data_page_loose s p Hok Hl) as Hd. pose proof (put_page_spec s p a Hinv Ha Hd) as H.
  destruct (managed_page s p Hok (proj1 Hl)) as (P1 & P2 & P3 & P4).
  destruct (put_page p a s) as [r s'| | | |] eqn:E; try done. destruct H as [(-> & -> & Hno)|(-> & HR & _ & Hc)].
  { exfalso. destruct Hroom as [(L & _ & HL & Hn)|Hu].
    - destruct L as [|q L]; [cbn in Hn; lia|]. destruct (HL q ltac:(set_solver)) as [H1 H2]. by apply (Hno q).
    - destruct (put_page_user s p a Ha Hu) as [s'' E']. rewrite E' in E. congruence. }
  exists s'. destruct HR as (Hpg' & Hh & Hen & _ & Hx). split; [done|].
  assert (Hw : word p) by (eapply managed_word; [done|apply Hl]).
  assert (Hm7 : forall q, maps (Z.lor p 7) q = if decide (p = q) then 1 else 0).
  { intros q. unfold maps. rewrite frame_lor7 by (done || apply Hl). pose proof (present_lor7 p) as Hpr.
    case_decide as D; case_decide as D'; tauto. }
  assert (Hu : user s' (dir_index a)).
  { destruct (decide (user s' (dir_index a))) as [U|U]; [done|]. exfalso. unfold entry in Hen.
    rewrite decide_False in Hen by done. pose proof (Hm7 p) as H7. rewrite decide_True in H7 by done.
    rewrite <- Hen in H7. rewrite maps_not_present in H7 by apply not_present_0. done. }
  assert (Hxp : forall q, loose s q -> extra s' q = 1 - maps (Z.lor p 7) q).
  { intros q (Hm & Hc1 & Hr0). rewrite Hx by done. rewrite entry_maps_refs by done. unfold extra. lia. }
  split_and!; [|done|].
  - split; [done|]. intros q Hq. apply (proj1 (managed_high s s' q Hh)) in Hq.
    destruct (decide (p = q)) as [<-|Hne].
    + rewrite Hxp by done. rewrite Hm7, decide_True by done. lia.
    + rewrite Hx by done. rewrite Hm7, decide_False by done. specialize (He q Hq).
      pose proof (maps_range (entry s a) q). lia.
  - intros q Hq Hne. pose proof Hq as (Hm & Hc1 & Hr0). pose proof (Hxp q Hq) as Hxq.
    rewrite Hm7, decide_False in Hxq by congruence.
    split; [by apply (same_managed s)|]. assert (Hcq : cell s' q = cell s q) by (apply Hc; by apply data_page_loose).
    split; [by rewrite Hcq|]. unfold extra in Hxq. lia.
Qed.

(** ** The argument area *)

Lemma zget_kread n a m k :
  zget (kread n a m) k = if decide (0 <= k < Z.of_nat n) then Some (kget m (a + k)) else None.
Proof.
  unfold kread, zget. case_decide; [|by rewrite decide_False by lia].
  change (map ?f ?l) with (f <$> l). rewrite list_lookup_fmap. case_decide.
  - rewrite lookup_seq_lt by lia. cbn. do 2 f_equal. lia.
  - by rewrite lookup_seq_ge by lia.
Qed.

(** The loader's state with other tasks, user memory and page tables. *)
Definition put (s : xst) (T : tasks) (m : umem) (mm' : mm) : xst :=
  {| s with xk := {| (xk s) with kuser := User T m mm' |} |}.
Lemma put_put s T m mm T' m' mm' : put (put s T m mm) T' m' mm' = put s T' m' mm'.
Proof. done. Qed.

(** The offset in the data segment of offset [o] of the argument area. *)
Definition arg_addr (o : Z) : Z := 0x4000000 - PAGE_SIZE * MAX_ARG_PAGES + o.

Section map_pages.
Context (s : xst) (page : list Z) (T : tasks) (base : Z).
Context (Hlen : zlen page = MAX_ARG_PAGES) (Hbase : uaddr base) (Hal : base mod 2 ^ 22 = 0) (Htop : base + 0x4000000 <= 2 ^ 32).
#[local] Abbreviation D := (dir_index (base + (0x4000000 - 4096))).

Lemma arg_dir i : 0 <= i < 32 -> let a := base + (0x4000000 - 4096 * (32 - i)) in uaddr a /\ u32 a = a /\ dir_index a = D.
Proof.
  intros Hi a. unfold uaddr in *. split; [lia|]. split; [apply u32_small; lia|].
  unfold dir_index, a. f_equal. pose proof (Z.div_mod base (2 ^ 22) ltac:(lia)) as E.
  change (2 ^ 22) with 4194304 in *. Z.to_euclidean_division_equations. lia.
Qed.

(** When the pages from [n] on are mapped. *)
Definition mapped_from (n : nat) (t : xst) : Prop :=
  exists m mm', t = put s T m mm' /\ mem_inv mm' /\
    (forall i p, i < Z.of_nat n -> zget page i = Some p -> p <> 0 -> loose mm' p) /\
    (room mm' 1 \/ user mm' D) /\
    forall o, PAGE_SIZE * Z.of_nat n <= o < PAGE_SIZE * MAX_ARG_PAGES -> backed page o ->
      get_fs_byte m (arg_addr o) = u8 (image page (kmem (xk s)) o).

Lemma map_arg_page_ok j t :
  (forall i k p, zget page i = Some p -> zget page k = Some p -> p <> 0 -> i = k) ->
  (j < 32)%nat -> mapped_from (S j) t ->
  exists t', map_arg_page page base 0x4000000 (Z.of_nat j) t = Done tt t' /\ mapped_from j t'.
Proof.
  intros Hinj Hj (m & mm' & -> & Hinv & Hl & Hr & Hb). unfold PAGE_SIZE, MAX_ARG_PAGES in *.
  destruct (zget_is_Some page (Z.of_nat j)) as [p Ep]; [unfold MAX_ARG_PAGES in *; lia|].
  unfold map_arg_page. rewrite Ep, deref_bind. destruct (decide (p = 0)) as [->|Hp].
  - exists (put s T m mm'). split; [done|]. exists m, mm'. split_and!; [done|done| |done|].
    + intros i p Hi. apply Hl. lia.
    + intros o Ho Hk. unfold PAGE_SIZE, MAX_ARG_PAGES in Ho. apply Hb; [|done]. destruct (decide (o / 4096 = Z.of_nat j)) as [E|E].
      * destruct Hk as (q & Eq & Hq). rewrite E in Eq. congruence.
      * pose proof (Z.div_mod o 4096 ltac:(lia)). pose proof (Z.mod_pos_bound o 4096 ltac:(lia)). lia.
  - destruct (arg_dir (Z.of_nat j) ltac:(lia)) as (Hu & Hu32 & Hdir). cbv zeta in *.
    destruct (put_page_loose mm' p _ Hinv Hu) as (mm2 & R & Hinv2 & Hu2 & Hl2);
      [apply (Hl (Z.of_nat j)); [lia|exact Ep|done]|by rewrite Hdir|]. rewrite Hdir in Hu2.
    change PAGE_SIZE with 4096. change MAX_ARG_PAGES with 32. cbv zeta.
    exists (put s T (put_bytes (kread 4096 p (kmem (xk s))) (0x4000000 - 4096 * (32 - Z.of_nat j)) m) mm2). split.
    { erewrite done_bind.
      2: { unfold on_k, on_mem, on_user, on_umm, zoom. cbn [xk put kuser umm]. rewrite Hu32, R. reflexivity. }
      rewrite decide_False by done. reflexivity. }
    eexists _, mm2. split_and!; [done|done| |by right|].
    + intros i q Hi E Hq. apply Hl2; [apply (Hl i); [lia|done|done]|]. intros ->.
      pose proof (Hinj _ _ _ E Ep Hq). lia.
    + intros o Ho Hk. rewrite get_put_bytes, zget_kread. unfold arg_addr, PAGE_SIZE, MAX_ARG_PAGES in *.
      case_decide as Hd.
      * assert (Eo : o / 4096 = Z.of_nat j /\ o mod 4096 = o - 4096 * Z.of_nat j).
        { Z.to_euclidean_division_equations. lia. }
        destruct Eo as [E1 E2]. unfold image. rewrite E1, Ep. change (default 0 (Some p)) with p.
        do 2 f_equal. lia.
      * apply Hb; [lia|done].
Qed.

Lemma map_pages_ok m mm' :
  packed_pages mm' page -> room mm' 1 ->
  exists m' mm2, for_down (Z.to_nat MAX_ARG_PAGES) (map_arg_page page base 0x4000000) (put s T m mm') = Done tt (put s T m' mm2) /\
    forall o, 0 <= o < PAGE_SIZE * MAX_ARG_PAGES -> backed page o ->
      get_fs_byte m' (arg_addr o) = u8 (image page (kmem (xk s)) o).
Proof.
  intros HP HR. destruct (for_down_inv mapped_from (Z.to_nat MAX_ARG_PAGES) (map_arg_page page base 0x4000000) (put s T m mm'))
    as (t' & R & (m2 & mm2 & -> & _ & _ & _ & Hb)).
  - exists m, mm'. split_and!; [done|apply HP| |by left|].
    + intros i p _. apply HP.
    + intros o Ho. unfold MAX_ARG_PAGES in *. lia.
  - intros j t Hj. apply map_arg_page_ok; [apply HP|unfold MAX_ARG_PAGES in Hj; lia].
  - exists m2, mm2. split; [exact R|]. intros o Ho. apply Hb. lia.
Qed.
End map_pages.

(** ** The tables *)

Definition with_um (s : xst) (m : umem) : xst := {| s with xk := set_um m (xk s) |}.
Lemma upd_fs_ok f s m : upd_fs f (with_um s m) = Done tt (with_um s (f m)).
Proof. done. Qed.

(** The strings one after the other from [p] on, and where each starts. *)
Fixpoint strings_at (m : umem) (p : Z) (strs : list (list Z)) : Prop :=
  match strs with [] => True | l :: strs' => cstring m p l /\ strings_at m (p + zlen l + 1) strs' end.
Fixpoint starts (p : Z) (strs : list (list Z)) : list Z :=
  match strs with [] => [] | l :: strs' => p :: starts (p + zlen l + 1) strs' end.

Lemma zlen_packed_cons l strs : zlen (packed (l :: strs)) = zlen l + 1 + zlen (packed strs).
Proof. unfold packed. cbn. rewrite !zlen_app. done. Qed.

Lemma cstring_ext m m' p l :
  (forall a, p <= a -> get_fs_byte m' a = get_fs_byte m a) -> cstring m p l -> cstring m' p l.
Proof.
  revert p. induction l as [|b l IH]; intros p H; cbn; [by rewrite H by lia|].
  intros (E & Hb & Hs). rewrite H by lia. split_and!; [done|done|]. apply IH; [|done]. intros. apply H. lia.
Qed.
Lemma strings_at_ext m m' p strs :
  (forall a, p <= a -> get_fs_byte m' a = get_fs_byte m a) -> strings_at m p strs -> strings_at m' p strs.
Proof.
  revert p. induction strs as [|l strs IH]; intros p H; [done|]. intros [H1 H2]. pose proof (zlen_nonneg l).
  split; [by eapply cstring_ext|]. apply IH; [|done]. intros. apply H. lia.
Qed.
Lemma long_ext m m' a :
  (forall b, a <= b < a + 4 -> get_fs_byte m' b = get_fs_byte m b) -> get_fs_long m' a = get_fs_long m a.
Proof. intros H. unfold get_fs_long, get_fs_word. rewrite !H by lia. done. Qed.

Lemma starts_range p strs k q : starts p strs !! k = Some q -> p <= q <= p + zlen (packed strs).
Proof.
  revert p k. induction strs as [|l strs IH]; intros p k E; [done|]. rewrite zlen_packed_cons.
  pose proof (zlen_nonneg l). pose proof (zlen_nonneg (packed strs)).
  destruct k as [|k]; cbn in E; [injection E as <-; lia|]. specialize (IH _ _ E). lia.
Qed.

Lemma nat_zlen {A} (l : list A) : Z.to_nat (zlen l) = length l.
Proof. unfold zlen. lia. Qed.

Lemma length_starts p strs : length (starts p strs) = length strs.
Proof. revert p. induction strs as [|l strs IH]; intros p; [done|]. cbn. by rewrite IH. Qed.

Lemma put_pointers_ok fuel s strs m p tab :
  strings_at m p strs -> Forall (fun l => (length l < fuel)%nat) strs -> tab + 4 * zlen strs <= p ->
  exists m', put_pointers fuel (length strs) p tab (with_um s m) =
      Done (p + zlen (packed strs), tab + 4 * zlen strs) (with_um s m') /\
    (forall a, ~ (tab <= a < tab + 4 * zlen strs) -> get_fs_byte m' a = get_fs_byte m a) /\
    forall k q, starts p strs !! k = Some q -> get_fs_long m' (tab + 4 * Z.of_nat k) = u32 q.
Proof.
  revert m p tab. induction strs as [|l strs IH]; intros m p tab Hs Hf Hle.
  { exists m. split; [|done]. unfold packed, zlen. cbn. unfold mret, M_ret. f_equal. f_equal; lia. }
  destruct Hs as [Hl Hs]. apply Forall_cons in Hf as [Hfl Hf].
  assert (El : zlen (l :: strs) = zlen strs + 1) by (unfold zlen; cbn; lia). rewrite El in Hle |- *.
  pose proof (zlen_nonneg strs) as N1. pose proof (zlen_nonneg l) as N2.
  set (m1 := put_fs_long p tab m).
  assert (Hm1 : forall a, p <= a -> get_fs_byte m1 a = get_fs_byte m a) by (intros a Ha; apply put_long_byte; lia).
  destruct (IH m1 (p + zlen l + 1) (tab + 4)) as (m' & R & Hfr & Hp).
  { eapply strings_at_ext; [|exact Hs]. intros. apply Hm1. lia. }
  { done. }
  { lia. }
  exists m'. split_and!.
  - cbn [put_pointers length]. erewrite done_bind by apply upd_fs_ok. fold m1.
    erewrite done_bind by (apply skip_string_ok with (l := l); [eapply cstring_ext; [exact Hm1|exact Hl]|exact Hfl]).
    rewrite R, zlen_packed_cons. f_equal. f_equal; lia.
  - intros a Ha. rewrite Hfr by lia. apply put_long_byte. lia.
  - intros [|k] q E; cbn in E.
    + injection E as <-. rewrite Z.add_0_r. rewrite (long_ext m1 m') by (intros; apply Hfr; lia). apply get_long_same.
    + replace (tab + 4 * Z.of_nat (S k)) with (tab + 4 + 4 * Z.of_nat k) by lia. by apply Hp.
Qed.

Lemma vector_intro m a p strs :
  (forall k q, starts p strs !! k = Some q -> get_fs_long m (a + 4 * Z.of_nat k) = q) ->
  get_fs_long m (a + 4 * zlen strs) = 0 -> strings_at m p strs -> 0 < p -> vector m a strs.
Proof.
  revert a p. induction strs as [|l strs IH]; intros a p Hp H0 Hs Hpos; cbn [vector].
  { by rewrite Z.add_0_r in H0. }
  destruct Hs as [Hl Hs]. pose proof (Hp 0%nat p eq_refl) as E. rewrite Z.add_0_r in E. rewrite E.
  pose proof (zlen_nonneg l). split_and!; [lia|done|]. apply (IH _ (p + zlen l + 1)); [| |done|lia].
  - intros k q Ek. rewrite <- (Hp (S k) q Ek). f_equal. lia.
  - rewrite <- H0. f_equal. unfold zlen. cbn. lia.
Qed.

Lemma strings_at_app m p l1 l2 :
  strings_at m p (l1 ++ l2) <-> strings_at m p l1 /\ strings_at m (p + zlen (packed l1)) l2.
Proof.
  revert p. induction l1 as [|l l1 IH]; intros p.
  - change (zlen (packed [])) with 0. rewrite Z.add_0_r. cbn. tauto.
  - cbn [app strings_at]. rewrite zlen_packed_cons, IH. replace (p + (zlen l + 1 + zlen (packed l1))) with (p + zlen l + 1 + zlen (packed l1)) by lia.
    tauto.
Qed.

Lemma align4 p : 0 <= p < 2 ^ 32 -> Z.land 0xfffffffc p = 4 * (p / 4).
Proof.
  intros Hp. rewrite Z.land_comm. change 0xfffffffc with (2 ^ 2 * (2 ^ 30 - 1)). rewrite land_shift by lia.
  change (2 ^ 2) with 4. rewrite Z.mod_small; [done|]. Z.to_euclidean_division_equations. lia.
Qed.

(** The stack of a new program: [argc], [argv], [envp] and the two tables. *)
Definition start_stack_ok (m : umem) (sp : Z) (args envs : list (list Z)) : Prop :=
  get_fs_long m sp = zlen args /\ vector m (get_fs_long m (sp + 4)) args /\ vector m (get_fs_long m (sp + 8)) envs.

(** One of the tables: the pointers to the strings and the null after them. *)
Lemma put_vector_ok fuel s strs m p tab :
  strings_at m p strs -> Forall (fun l => (length l < fuel)%nat) strs -> tab + 4 * zlen strs <= p -> 0 < p ->
  p + zlen (packed strs) < 2 ^ 32 ->
  exists m', (forall A (k : Z -> M xst A),
      ('(q, tab') ← put_pointers fuel (Z.to_nat (zlen strs)) p tab; upd_fs (put_fs_long 0 tab');; k q) (with_um s m) =
        k (p + zlen (packed strs)) (with_um s m')) /\
    (forall a, ~ (tab <= a < tab + 4 * (zlen strs + 1)) -> get_fs_byte m' a = get_fs_byte m a) /\
    forall m2, (forall a, tab <= a < tab + 4 * (zlen strs + 1) -> get_fs_byte m2 a = get_fs_byte m' a) ->
      (forall a, p <= a -> get_fs_byte m2 a = get_fs_byte m a) -> vector m2 tab strs.
Proof.
  intros Hs Hf Htab Hp Htop. rewrite nat_zlen. destruct (put_pointers_ok fuel s strs m p tab Hs Hf Htab) as (m4 & R & F & P).
  set (m5 := put_fs_long 0 (tab + 4 * zlen strs) m4).
  assert (F5 : forall a, ~ (tab + 4 * zlen strs <= a < tab + 4 * zlen strs + 4) -> get_fs_byte m5 a = get_fs_byte m4 a)
    by (intros; by apply put_long_byte).
  pose proof (zlen_nonneg strs). exists m5. split_and!.
  - intros A k. by rewrite (done_bind _ _ _ _ _ R).
  - intros a Ha. rewrite F5, F by lia. done.
  - intros m2 F2 FS. apply (vector_intro _ _ p); [| |eapply strings_at_ext; [exact FS|exact Hs]|done].
    + intros k q E. pose proof (starts_range _ _ _ _ E). pose proof (lookup_lt_Some _ _ _ E) as Hk.
      rewrite length_starts in Hk. assert (Hk' : Z.of_nat k < zlen strs) by (unfold zlen; lia).
      rewrite (long_ext m4) by (intros; rewrite F2, F5 by lia; done). rewrite (P k q E). apply u32_small. lia.
    + rewrite (long_ext m5) by (intros; rewrite F2 by lia; done). unfold m5. by rewrite get_long_same.
Qed.

(** The three words below the tables. *)
Definition stack_head (argc argv envp : Z) (m : umem) : umem :=
  put_fs_long argc (argv - 12) (put_fs_long argv (argv - 8) (put_fs_long envp (argv - 4) m)).
Lemma stack_head_ok argc argv envp m m2 :
  0 <= argc < 2 ^ 32 -> 0 <= argv < 2 ^ 32 -> 0 <= envp < 2 ^ 32 ->
  (forall a, argv - 12 <= a < argv -> get_fs_byte m2 a = get_fs_byte (stack_head argc argv envp m) a) ->
  get_fs_long m2 (argv - 12) = argc /\ get_fs_long m2 (argv - 12 + 4) = argv /\ get_fs_long m2 (argv - 12 + 8) = envp.
Proof.
  intros H1 H2 H3 F. replace (argv - 12 + 4) with (argv - 8) by lia. replace (argv - 12 + 8) with (argv - 4) by lia.
  rewrite !(long_ext (stack_head argc argv envp m) m2) by (intros; apply F; lia). unfold stack_head.
  split_and!; [|rewrite get_long_frame by lia|rewrite !get_long_frame by lia]; rewrite get_long_same; by apply u32_small.
Qed.

Lemma create_tables_ok fuel s m p args envs :
  strings_at m p (args ++ envs) -> Forall (fun l => (length l < fuel)%nat) (args ++ envs) ->
  4 * (zlen args + zlen envs) + 24 < p -> p + zlen (packed args) + zlen (packed envs) < 2 ^ 32 ->
  exists m' sp, create_tables fuel p (zlen args) (zlen envs) (with_um s m) = Done sp (with_um s m') /\
    p - (4 * (zlen args + zlen envs) + 24) <= sp < p /\
    forall m2, (forall a, sp <= a -> get_fs_byte m2 a = get_fs_byte m' a) -> start_stack_ok m2 sp args envs.
Proof.
  intros Hs [Hfa Hfe]%Forall_app Hp Htop. apply strings_at_app in Hs as [Hsa Hse].
  pose proof (zlen_nonneg args) as NA. pose proof (zlen_nonneg envs) as NE.
  pose proof (zlen_nonneg (packed args)) as PA. pose proof (zlen_nonneg (packed envs)) as PE.
  unfold create_tables. rewrite align4 by lia. cbv zeta.
  assert (H4 : p - 3 <= 4 * (p / 4) <= p) by (Z.to_euclidean_division_equations; lia).
  set (sp0 := 4 * (p / 4)) in *. set (envp := sp0 - 4 * (zlen envs + 1)).
  set (argv := envp - 4 * (zlen args + 1)). set (m3 := stack_head (zlen args) argv envp m).
  assert (F3 : forall a, argv <= a -> get_fs_byte m3 a = get_fs_byte m a).
  { intros a Ha. unfold m3, stack_head. rewrite !put_long_byte by lia. done. }
  destruct (put_vector_ok fuel s args m3 p argv) as (m4 & R4 & F4 & V4); [|done|lia|lia|lia|].
  { eapply strings_at_ext; [|exact Hsa]. intros. apply F3. lia. }
  destruct (put_vector_ok fuel s envs m4 (p + zlen (packed args)) envp) as (m5 & R5 & F5 & V5); [|done|lia|lia|lia|].
  { eapply strings_at_ext; [|exact Hse]. intros. rewrite F4, F3 by lia. done. }
  exists m5, (argv - 12). split_and!; [|lia|lia|].
  { do 3 (erewrite done_bind by apply upd_fs_ok). fold (stack_head (zlen args) argv envp m). fold m3.
    rewrite R4. by rewrite R5. }
  intros m2 F2. destruct (stack_head_ok (zlen args) argv envp m m2) as (E0 & E1 & E2); [lia..| |].
  { intros a Ha. fold m3. rewrite F2, F5, F4 by lia. done. }
  unfold start_stack_ok. rewrite E0, E1, E2. split; [done|]. split.
  - apply V4; intros a Ha; rewrite F2, F5 by lia; [done|]. by rewrite F4 by lia.
  - apply V5; intros a Ha; rewrite F2 by lia; [done|]. by rewrite F5 by lia.
Qed.

(** ** load_image *)

Lemma room_le s n k : (k <= n)%nat -> room s n -> room s k.
Proof. intros Hk (L & H1 & H2 & H3). exists L. split_and!; [done|done|lia]. Qed.

Lemma packed_range strs k : byte_strings strs -> 0 <= default 0 (zget (packed strs) k) < 2 ^ 8.
Proof.
  intros Hb. assert (H : Forall (fun b => 0 <= b < 256) (packed strs)).
  { induction Hb as [|l strs Hl _ IH]; [constructor|]. unfold packed in *. cbn. apply Forall_app. split; [|exact IH].
    apply Forall_app. split; [|by repeat constructor]. eapply Forall_impl; [exact Hl|]. cbn. lia. }
  unfold zget. case_decide; [|cbn; lia]. destruct (_ !! _) as [b|] eqn:E; [|cbn; lia].
  change (default 0 (Some b)) with b. pose proof (Forall_lookup_1 _ _ _ _ H E) as Hr. cbn in Hr. lia.
Qed.

(** Every string takes a byte. *)
Lemma packed_count strs : zlen strs <= zlen (packed strs).
Proof.
  induction strs as [|l strs IH]; [done|]. rewrite zlen_packed_cons. pose proof (zlen_nonneg l).
  unfold zlen in *. cbn. lia.
Qed.

Lemma strings_packed m a strs :
  (forall k, 0 <= k < zlen (packed strs) -> get_fs_byte m (a + k) = default 0 (zget (packed strs) k)) ->
  byte_strings strs -> strings_at m a strs.
Proof.
  revert a. induction strs as [|l strs IH]; intros a H Hb; [done|]. apply Forall_cons in Hb as [Hl Hb].
  rewrite zlen_packed_cons in H. pose proof (zlen_nonneg (packed strs)) as N.
  assert (E : packed (l :: strs) = l ++ 0 :: packed strs) by (unfold packed; cbn; by rewrite <- app_assoc).
  rewrite E in H. clear E. split.
  - assert (Hl' : forall k, 0 <= k < zlen l + 1 -> get_fs_byte m (a + k) = default 0 (zget (l ++ [0]) k)).
    { intros k Hk. rewrite H by lia. rewrite !zget_app by lia. case_decide; [done|].
      assert (k - zlen l = 0) as -> by lia. done. }
    clear -Hl' Hl. revert a Hl'. induction l as [|b l IH]; intros a H; cbn [cstring].
    { rewrite <- (Z.add_0_r a). rewrite H by (unfold zlen; cbn; lia). done. }
    apply Forall_cons in Hl as [Hb Hl]. split_and!.
    + rewrite <- (Z.add_0_r a). rewrite H by (unfold zlen; cbn; lia). done.
    + lia.
    + apply IH; [done|]. intros k Hk. replace (a + 1 + k) with (a + (k + 1)) by lia.
      rewrite H by (unfold zlen in *; cbn; lia). cbn [app]. rewrite zget_cons, decide_False by lia.
      do 2 f_equal. lia.
  - apply IH; [|done]. intros k Hk. pose proof (zlen_nonneg l).
    replace (a + zlen l + 1 + k) with (a + (zlen l + 1 + k)) by lia. rewrite H by lia.
    rewrite zget_app, decide_False by lia. rewrite zget_cons, decide_False by lia. do 2 f_equal. lia.
Qed.

Lemma clear_tail_ok n i s m :
  exists m', clear_tail n i (with_um s m) = Done tt (with_um s m') /\
    forall a, i + Z.of_nat n <= a -> get_fs_byte m' a = get_fs_byte m a.
Proof.
  revert i m. induction n as [|n IH]; intros i m; [by exists m|]. cbn [clear_tail]. case_decide; [|by exists m].
  destruct (IH (i + 1) (put_fs_byte 0 i m)) as (m' & R & H').
  exists m'. split; [by erewrite done_bind by apply upd_fs_ok|].
  intros a Ha. rewrite H' by lia. rewrite get_put_byte, decide_False by lia. done.
Qed.

Section load.
Context (s : xst) (m : umem) (mm' : mm).

Lemma cur_put T t : slot T (current T) = Some t -> on_k cur (put s T m mm') = Done t (put s T m mm').
Proof.
  intros E. unfold on_k, cur, on_tasks, on_user, on_utab, zoom. cbn [xk put kuser utab].
  by rewrite (get_current_Some _ _ E).
Qed.
Lemma upd_cur_put T t f :
  slot T (current T) = Some t ->
  exists T', on_k (upd_cur f) (put s T m mm') = Done tt (put s T' m mm') /\ slot T' (current T') = Some (f t).
Proof.
  intros E. exists (upd_slot (current T) f T). split.
  - unfold on_k, upd_cur, on_tasks, on_user, on_utab, zoom. cbn [xk put kuser utab].
    by rewrite (put_current_Some _ _ _ E).
  - rewrite current_upd. by apply slot_current_upd.
Qed.
Lemma ldt_base_put T t i d :
  slot T (current T) = Some t -> zget (ldt t) i = Some d -> ldt_base i (put s T m mm') = Done (get_base d) (put s T m mm').
Proof. intros E Ed. unfold ldt_base. erewrite done_bind by by apply cur_put. by rewrite Ed, deref_bind. Qed.
Lemma ldt_limit_put T t i d :
  slot T (current T) = Some t -> zget (ldt t) i = Some d -> ldt_limit i (put s T m mm') = Done (get_limit d) (put s T m mm').
Proof. intros E Ed. unfold ldt_limit. erewrite done_bind by by apply cur_put. by rewrite Ed, deref_bind. Qed.
End load.

(** The current task: its segments are the 64 MB from [base] on; it has no executable to
    release and no descriptor to close. *)
Record loadable (T : tasks) (base : Z) (t : task_struct) : Prop := {
  ll_slot : slot T (current T) = Some t;
  ll_exec : executable t = None;
  ll_close : close_on_exec t = 0;
  ll_ldt : forall i, i = 1 \/ i = 2 ->
    exists d, zget (ldt t) i = Some d /\ get_base d = base /\ get_limit d <= 0x4000000;
  ll_base : uaddr base /\ base mod 2 ^ 22 = 0 /\ base + 0x4000000 <= 2 ^ 32
}.

Lemma zget_set_ldt t i j f d : zget (ldt t) j = Some d ->
  zget (ldt (Exec.set_ldt i f t)) j = Some (if decide (i = j) then f d else d).
Proof.
  intros E. unfold Exec.set_ldt. case_decide as D.
  - subst j. rewrite E. cbn [ldt]. apply zget_zset_eq. by eapply zget_Some_range.
  - destruct (zget (ldt t) i); [|done]. cbn [ldt]. by rewrite zget_zset_ne.
Qed.

Lemma change_ldt_ok s T t base m mm' page text :
  slot T (current T) = Some t -> (exists d1 d2, zget (ldt t) 1 = Some d1 /\ zget (ldt t) 2 = Some d2 /\ get_base d1 = base) ->
  uaddr base -> base mod 2 ^ 22 = 0 -> base + 0x4000000 <= 2 ^ 32 ->
  xfs s = false -> packed_pages mm' page -> room mm' 1 ->
  exists T' t' m' mm2, change_ldt text page (put s T m mm') = Done 0x4000000 (put s T' m' mm2) /\
    slot T' (current T') = Some t' /\
    forall o, 0 <= o < PAGE_SIZE * MAX_ARG_PAGES -> backed page o ->
      get_fs_byte m' (arg_addr o) = u8 (image page (kmem (xk s)) o).
Proof.
  intros Ht (d1 & d2 & E1 & E2 & Hb) Hu Ha Htop Hfs HP HR. unfold change_ldt. cbv zeta.
  erewrite done_bind by (eapply ldt_base_put; [exact Ht|exact E1]). rewrite Hb.
  destruct (upd_cur_put s m mm' T t (Exec.set_ldt 1 (fun d => set_limit (set_base d base) (Z.land (u32 (text + PAGE_SIZE - 1)) 0xFFFFF000))) Ht)
    as (T1 & R1 & Ht1). erewrite done_bind by exact R1.
  destruct (upd_cur_put s m mm' T1 _ (Exec.set_ldt 2 (fun d => set_limit (set_base d base) 0x4000000)) Ht1) as (T2 & R2 & Ht2).
  erewrite done_bind by exact R2.
  erewrite (done_bind (set_fs false) _ _ tt (put s T2 m mm')).
  2: { unfold set_fs, modify. change (xfs (put s T2 m mm')) with (xfs s). by rewrite Hfs. }
  destruct (map_pages_ok s page T2 base (pp_len _ _ HP) Hu Ha Htop m mm' HP HR) as (m' & mm2 & R & Hm).
  exists T2. eexists. exists m', mm2. split; [|split; [exact Ht2|exact Hm]]. by erewrite done_bind by exact R.
Qed.

Section load_image.
Context {HM : Machine} (fuel depth : nat).

(** Up to the mapping of the arguments: the old program is gone. *)
(** With no close-on-exec descriptor nothing is closed. *)
Lemma no_closes s T t m mm' : slot T (current T) = Some t -> close_on_exec t = 0 ->
  for_up (Z.to_nat NR_OPEN) 0 (fun i =>
    t ← on_k cur;
    if decide (Z.land (Z.shiftr (close_on_exec t) i) 1 <> 0) then _ ← on_k (sys_close fuel depth i); skip else skip) (put s T m mm') =
  Done tt (put s T m mm').
Proof.
  intros Ht Hc. match goal with |- for_up ?n ?a ?b ?st = _ => destruct (for_up_inv (fun _ x => x = st) n a b st) as (? & R & ->) end;
    [done| |exact R].
  intros i x _ ->. eexists. split; [|reflexivity]. erewrite done_bind by by apply cur_put. rewrite Hc, Z.shiftr_0_l.
  by rewrite decide_False by (intros H; by apply H).
Qed.

(** The pages of one segment are given back. *)
Lemma drop_segment_ok s T t base m mm' i :
  slot T (current T) = Some t -> (exists d, zget (ldt t) i = Some d /\ get_base d = base /\ get_limit d <= 0x4000000) ->
  uaddr base -> base mod 2 ^ 22 = 0 -> base + 0x4000000 <= 2 ^ 32 -> mem_inv mm' ->
  exists mm1, (forall A (k : M xst A),
      (b ← ldt_base i; l ← ldt_limit i; _ ← on_k (on_mem (free_page_tables b l)); k) (put s T m mm') = k (put s T m mm1)) /\ freed mm' mm1.
Proof.
  intros Ht (d & E & B & L) Hu Ha Htop Hinv. pose proof (u32_range (get_limit d)) as U.
  assert (G : 0 <= get_limit d <= 0x4000000) by (split; [apply u32_range|done]).
  destruct (free_tables_freed mm' base (get_limit d) Hinv Hu Ha) as (mm1 & F & Fr); [lia|lia|].
  exists mm1. split; [|done]. intros A k.
  erewrite done_bind by (eapply ldt_base_put; [exact Ht|exact E]). rewrite B.
  erewrite done_bind by (eapply ldt_limit_put; [exact Ht|exact E]).
  by erewrite (done_bind _ _ _ 0 (put s T m mm1))
    by (unfold on_k, on_mem, on_user, on_umm, zoom; cbn [xk put kuser umm]; rewrite F; reflexivity).
Qed.

(** The strings of the argument pages, where the new program sees them. *)
Lemma mapped_strings m page km p strs :
  (forall o, 0 <= o < PAGE_SIZE * MAX_ARG_PAGES -> backed page o -> get_fs_byte m (arg_addr o) = u8 (image page km o)) ->
  (forall o, p <= o < p + zlen (packed strs) -> backed page o) ->
  (forall k, 0 <= k < zlen (packed strs) -> image page km (p + k) = default 0 (zget (packed strs) k)) ->
  byte_strings strs -> 0 < p -> p + zlen (packed strs) <= PAGE_SIZE * MAX_ARG_PAGES -> strings_at m (arg_addr p) strs.
Proof.
  intros Hm Hback Himg Hbs Hp Hlen. apply strings_packed; [|done]. intros k Hk. rewrite <- Himg by done.
  replace (arg_addr p + k) with (arg_addr (p + k)) by (unfold arg_addr; lia).
  rewrite Hm; [|unfold PAGE_SIZE, MAX_ARG_PAGES in *; lia|apply Hback; lia]. rewrite Himg by done.
  apply u8_small. by apply packed_range.
Qed.

Lemma load_image_ok s T t base m mm' inode ex p args envs e_uid e_gid page eip :
  loadable T base t -> xfs s = false -> packed_pages mm' page -> room mm' 1 ->
  (forall o, p <= o < p + zlen (packed (args ++ envs)) -> backed page o) ->
  (forall k, 0 <= k < zlen (packed (args ++ envs)) ->
     image page (kmem (xk s)) (p + k) = default 0 (zget (packed (args ++ envs)) k)) ->
  byte_strings (args ++ envs) -> Forall (fun l => (length l < fuel)%nat) (args ++ envs) ->
  0 < p -> p + zlen (packed (args ++ envs)) <= PAGE_SIZE * MAX_ARG_PAGES ->
  0 <= a_text ex + a_data ex <= 0x3000000 ->
  exists s' sp, load_image fuel depth inode ex p (zlen args) (zlen envs) e_uid e_gid page eip (put s T m mm') =
      Done (0, zset (zset eip 0 (a_entry ex)) 3 sp) s' /\ start_stack_ok (fsm s') sp args envs.
Proof.
  intros [Ht He Hc Hldt (Hu & Ha & Htop)] Hfs HP HR Hback Himg Hbs Hf Hp Hlen Hex. unfold load_image.
  erewrite done_bind by by apply cur_put. rewrite He. erewrite done_bind by reflexivity.
  destruct (upd_cur_put s m mm' T t (set_executable (Some inode)) Ht) as (T1 & R1 & Ht1). rewrite (done_bind _ _ _ _ _ R1).
  destruct (upd_cur_put s m mm' T1 _ clear_handlers Ht1) as (T2 & R2 & Ht2). rewrite (done_bind _ _ _ _ _ R2).
  rewrite (done_bind _ _ _ _ _ (no_closes s T2 _ m mm' Ht2 Hc)).
  destruct (upd_cur_put s m mm' T2 _ (set_cloexec 0) Ht2) as (T3 & R3 & Ht3). rewrite (done_bind _ _ _ _ _ R3).
  destruct (drop_segment_ok s T3 _ base m mm' 1 Ht3 (Hldt 1 ltac:(tauto)) Hu Ha Htop (pp_inv _ _ HP)) as (mm1 & F1 & Fr1). rewrite F1.
  destruct (drop_segment_ok s T3 _ base m mm1 2 Ht3 (Hldt 2 ltac:(tauto)) Hu Ha Htop (fr_inv _ _ Fr1)) as (mm2 & F2 & Fr2). rewrite F2.
  erewrite (done_bind (upd_fs _) _ _ tt (put s T3 ∅ mm2)) by reflexivity.
  erewrite (done_bind (on_k (on_tasks (gets current))) _ _ (current T3) (put s T3 ∅ mm2)) by reflexivity.
  set (s' := if decide (last_task_used_math s = Some (current T3)) then {| s with last_task_used_math := None |} else s).
  erewrite (done_bind (modify _) _ _ tt (put s' T3 ∅ mm2)).
  2: { unfold modify, s'. change (last_task_used_math (put s T3 ∅ mm2)) with (last_task_used_math s). by case_decide. }
  assert (Hs' : kmem (xk s') = kmem (xk s) /\ xfs s' = false) by (unfold s'; by case_decide). destruct Hs' as [Hkm Hfs'].
  destruct (upd_cur_put s' ∅ mm2 T3 _ (set_used_math 0) Ht3) as (T4 & R4 & Ht4). rewrite (done_bind _ _ _ _ _ R4).
  assert (HP2 : packed_pages mm2 page) by (eapply freed_packed, freed_packed; done).
  destruct (change_ldt_ok s' T4 _ base ∅ mm2 page (a_text ex) Ht4) as (T5 & t5 & m5 & mm5 & R5 & Ht5 & Hm5); [|done..| |].
  { destruct (Hldt 1 ltac:(tauto)) as (d1 & E1 & B1 & _), (Hldt 2 ltac:(tauto)) as (d2 & E2 & _). by exists d1, d2. }
  { eapply freed_room; [apply Fr1|done|]. eapply freed_room; [apply HP|done|done]. }
  rewrite (done_bind _ _ _ _ _ R5). rewrite Hkm in Hm5.
  pose proof (mapped_strings m5 page _ p _ Hm5 Hback Himg Hbs Hp Hlen) as Hst. unfold PAGE_SIZE, MAX_ARG_PAGES in Hlen.
  pose proof (zlen_nonneg (packed (args ++ envs))) as NP.
  replace (u32 (p + 0x4000000 - MAX_ARG_PAGES * PAGE_SIZE)) with (arg_addr p) by (unfold arg_addr, MAX_ARG_PAGES, PAGE_SIZE; rewrite u32_small; lia).
  pose proof (packed_count (args ++ envs)) as Hcnt. rewrite zlen_app in Hcnt.
  assert (Hpk : zlen (packed (args ++ envs)) = zlen (packed args) + zlen (packed envs)) by (unfold packed; by rewrite map_app, join_app, zlen_app).
  pose proof (zlen_nonneg args). pose proof (zlen_nonneg envs).
  destruct (create_tables_ok fuel (put s' T5 m5 mm5) m5 (arg_addr p) args envs Hst Hf) as (m6 & sp & R6 & Hsp & H6);
    [unfold arg_addr, PAGE_SIZE, MAX_ARG_PAGES; lia|unfold arg_addr, PAGE_SIZE, MAX_ARG_PAGES; lia|].
  erewrite done_bind by exact R6.
  destruct (upd_cur_put s' m6 mm5 T5 _ (set_image ex sp e_uid e_gid) Ht5) as (T6 & R7 & _). erewrite done_bind by exact R7.
  destruct (clear_tail_ok (Z.to_nat PAGE_SIZE) (s32 (a_text ex + a_data ex)) (put s' T6 m6 mm5) m6) as (m7 & R8 & H7).
  erewrite done_bind by exact R8. eexists _, sp. split; [reflexivity|]. apply H6. intros a Hsa. apply H7.
  rewrite s32_small by lia. unfold arg_addr, PAGE_SIZE, MAX_ARG_PAGES in *. lia.
Qed.

(** C11: a program receives its arguments.  The two [copy_strings] of [do_execve] and
    [load_image], run with the caller's vectors in user memory: they end with 0, and at
    the new stack pointer stand [argc] and the addresses of two null-terminated vectors that
    point to copies of the caller's argument and environment strings.  The task has no open
    executable and no descriptor to be closed on [exec]. *)
Theorem exec_passes_arguments s T t base m mm' inode ex args envs argv envp e_uid e_gid eip :
  s = put s T m mm' -> loadable T base t -> xfs s = false -> mem_inv mm' -> room mm' 33 ->
  vector m argv args -> vector m envp envs -> byte_strings (args ++ envs) ->
  Forall (fun l => (length l < fuel)%nat) (args ++ envs) ->
  zlen (packed (args ++ envs)) < PAGE_SIZE * MAX_ARG_PAGES - 4 ->
  0 <= a_text ex + a_data ex <= 0x3000000 ->
  exists s' sp,
    ('(p, page) ← copy_strings fuel (zlen envs) envp (replicate 32 0) (PAGE_SIZE * MAX_ARG_PAGES - 4) 0;
     '(p, page) ← copy_strings fuel (zlen args) argv page p 0;
     load_image fuel depth inode ex p (zlen args) (zlen envs) e_uid e_gid page eip) s =
      Done (0, zset (zset eip 0 (a_entry ex)) 3 sp) s' /\
    start_stack_ok (fsm s') sp args envs.
Proof.
  intros Es HL Hfs Hinv HR Hva Hve Hbs Hf Hlen Hex.
  pose proof Hbs as [Hba Hbe]%Forall_app. pose proof Hf as [Hfa Hfe]%Forall_app.
  assert (Hpk : packed (args ++ envs) = packed args ++ packed envs) by (unfold packed; by rewrite map_app, join_app).
  rewrite Hpk in Hlen. rewrite zlen_app in Hlen.
  pose proof (zlen_nonneg (packed args)). pose proof (zlen_nonneg (packed envs)).
  set (top := PAGE_SIZE * MAX_ARG_PAGES - 4) in *. assert (Etop : top = 131068) by reflexivity.
  assert (HC : cursor_ok mm' (Cursor top 0 0 (replicate 32 0)) top).
  { split; cbn [c_p c_page c_offset]; [|exact HR|change (PAGE_SIZE * MAX_ARG_PAGES) with 131072; lia|lia|by left].
    split; [done|done| |].
    - intros i p E Hp. unfold zget in E. case_decide; [|done]. by apply lookup_replicate in E as [-> _].
    - intros i j p E _ Hp. unfold zget in E. case_decide; [|done]. by apply lookup_replicate in E as [-> _]. }
  assert (Es' : s = paged s mm' (kmem (xk s))) by (rewrite Es; reflexivity).
  assert (Em : fsm s = m) by (rewrite Es; reflexivity).
  destruct (copy_strings_ok fuel s envs envp mm' (kmem (xk s)) (replicate 32 0) top top) as (mm1 & km1 & pg1 & R1 & HC1 & Hi1 & _);
    [by rewrite Em|done|done|done|lia|lia|]. cbv zeta in *.
  destruct (copy_strings_ok fuel s args argv mm1 km1 pg1 (top - zlen (packed envs)) top) as (mm2 & km2 & pg2 & R2 & HC2 & Hi2 & Ho2);
    [by rewrite Em|done|done|done|lia|lia|]. cbv zeta in *.
  set (p := top - zlen (packed envs) - zlen (packed args)) in *.
  rewrite <- Es' in R1. erewrite done_bind by exact R1. cbv beta iota. erewrite done_bind by exact R2. cbv beta iota.
  replace (paged s mm2 km2) with (put (paged s mm2 km2) T m mm2) by (rewrite Es; reflexivity).
  destruct HC2 as [HP2 HR2 _ HW2 _]. cbn [c_p c_page] in *.
  apply (load_image_ok (paged s mm2 km2) T t base m mm2); try done.
  - eapply room_le; [|exact HR2]. lia.
  - rewrite Hpk, zlen_app. intros o Ho. apply HW2. lia.
  - rewrite Hpk, zlen_app. intros k Hk. change (kmem (xk (paged s mm2 km2))) with km2.
    rewrite zget_app by lia. case_decide as D; [by apply Hi2; lia|].
    rewrite Ho2 by lia. rewrite <- Hi1 by lia. f_equal. unfold p. lia.
  - lia.
  - rewrite Hpk, zlen_app. unfold PAGE_SIZE, MAX_ARG_PAGES. lia.
Qed.
End load_image.

End ExecLoad.

(** ** A program started

    [ExecLoad] applied on the small machine of [FsInst]: the task in slot 0 executes a program
    with two arguments and one environment string. *)
Module ExecInst.
Import Task Segments UserMem Memory MemoryFacts MemoryProps FsState FsInst StringProps Exec ExecProps ExecLoad.

(** Its segments begin at 64 MB and are 640 KB long. *)
Definition runner : task_struct :=
  let t := INIT_TASK 0 0 in
  {| t with ldt := [Desc 0 0; set_base (Desc 0x9f 0xc0fa00) 0x4000000; set_base (Desc 0x9f 0xc0f200) 0x4000000] |}.
Definition tasks1 : tasks := Tasks (Some runner :: replicate 63 None) 0 0 0.

(** [{"ls", "-l"}] at 0x1000 and [{"A=1"}] at 0x1010. *)
Definition args0 : list (list Z) := [[108; 115]; [45; 108]].
Definition envs0 : list (list Z) := [[65; 61; 49]].
Definition um0 : umem :=
  put_fs_long 0x2000 0x1000 (put_fs_long 0x2003 0x1004 (put_fs_long 0 0x1008 (
  put_fs_long 0x2006 0x1010 (put_fs_long 0 0x1014 (
  put_bytes [108; 115; 0; 45; 108; 0; 65; 61; 49; 0] 0x2000 empty))))).

Definition caller : xst := put (Xst bare None false empty) tasks1 um0 mm0.

Lemma runner_loadable : loadable tasks1 0x4000000 runner.
Proof.
  split; [done|done|done| |vm_compute; intuition discriminate].
  intros i [-> | ->]; (eexists; split; [reflexivity|]; split; [vm_compute; reflexivity|vm_compute; discriminate]).
Qed.

Lemma exec_passes_arguments_witness :
  exists s' sp,
    ('(p, page) ← copy_strings 10 1 0x1010 (replicate 32 0) (PAGE_SIZE * MAX_ARG_PAGES - 4) 0;
     '(p, page) ← copy_strings 10 2 0x1000 page p 0;
     load_image 10 5 7 (ExecHdr ZMAGIC 0x1000 0x200 0 0 0 0 0) p 2 1 0 0 page [0; 0xf; 0; 0]) caller =
      Done (0, [0; 0xf; 0; sp]) s' /\
    start_stack_ok (fsm s') sp args0 envs0.
Proof.
  apply (exec_passes_arguments 10 5 caller tasks1 runner 0x4000000 um0 mm0 7
    (ExecHdr ZMAGIC 0x1000 0x200 0 0 0 0 0) args0 envs0 0x1000 0x1010 0 0 [0; 0xf; 0; 0]);
    [reflexivity|exact runner_loadable|reflexivity|exact mm0_inv|exact mm0_room| | | | | |].
  - vm_compute. intuition discriminate.
  - vm_compute. intuition discriminate.
  - repeat constructor.
  - repeat constructor.
  - vm_compute. reflexivity.
  - vm_compute. split; discriminate.
Defined.

End ExecInst.
