(* ===== verification/PageFault.v ===== *)
(** * mm/memory.c: pages that are not there

    The fault handler that loads a page of the executable, or shares it with another task
    that runs the same file.  The bytes of a page that comes from the file are in [kmem]; they
    appear in the current task's user memory when its page-table entry is set. *)

From S2P Require Import Prelude Bytes Memory Task Segments UserMem BlkQueue FsState.
From S2P Require Import Buffer Inode Truncate.
Import Memory Task Segments UserMem BlkQueue FsState.

Module PageFault.

Definition PAGE_SIZE : Z := 4096.
Definition BLOCK_SIZE : Z := 1024.

Section fault.
Context {HM : Machine} (fuel depth : nat).
#[local] Abbreviation bmap := (Truncate.bmap fuel depth).
#[local] Abbreviation bread_page := (Buffer.bread_page fuel (Inode.sync_inodes fuel depth)).

(** The loop of [share_page] from slot [n]. *)
Fixpoint share_loop (n : nat) (address : Z) (c : task_struct) : M kern Z :=
  match n with
  | O => mret 0
  | S n' =>
      i ← on_tasks (gets current);
      o ← on_tasks (gets (fun t => slot t (Z.of_nat n)));
      match o with
      | None => share_loop n' address c
      | Some p =>
          if decide (i = Z.of_nat n) then share_loop n' address c
          else if decide (executable p <> executable c) then share_loop n' address c
          else
            r ← on_mem (try_to_share address (start_code p) (start_code c));
            if decide (r <> 0) then mret 1 else share_loop n' address c
      end
  end.
Definition share_page (address : Z) : M kern Z :=
  c ← cur;
  match executable c with
  | None => mret 0
  | Some e =>
      v ← inode_at e;
      if decide (i_count v < 2) then mret 0
      else share_loop (Z.to_nat (NR_TASKS - 1)) address c
  end.

(** The page mapped at [address] seen at offset [off] of the data segment. *)
Definition show_page (address off : Z) : M kern unit :=
  d ← on_mem (load (dir_addr address));
  e ← on_mem (load (pte_addr d address));
  m ← gets kmem;
  on_user (upd_um (put_bytes (kread (Z.to_nat PAGE_SIZE) (Z.land PAGE_MASK e) m) off)).

(** [for(i=0 ; i<4 ; block++,i++) nr[i] = bmap(...)]. *)
Fixpoint block_numbers (n : nat) (e block : Z) : M kern (list Z) :=
  match n with
  | O => mret []
  | S n' => b ← bmap e block; l ← block_numbers n' e (block + 1); mret (b :: l)
  end.

(** [while (i-- > 0) { tmp--; *tmp = 0; }]. *)
Fixpoint clear_down (i : nat) (tmp : Z) : M kern unit :=
  match i with O => skip | S i' => modify (kput (tmp - 1) 0);; clear_down i' (tmp - 1) end.

Definition do_no_page (error_code address : Z) : M kern unit :=
  let address := Z.land address 0xfffff000 in
  c ← cur;
  let tmp := u32 (address - start_code c) in
  match executable c with
  | None => on_mem (get_empty_page address)
  | Some e =>
      if decide (end_data c <= tmp) then on_mem (get_empty_page address)
      else
        r ← share_page tmp;
        if decide (r <> 0) then show_page address tmp
        else
          page ← on_mem get_free_page;
          (if decide (page = 0) then on_mem oom else skip);;
          modify (fun s => {| s with kmem := kwrite (replicate (Z.to_nat PAGE_SIZE) 0) page (kmem s) |});;
          nr ← block_numbers 4 e (1 + tmp / BLOCK_SIZE);
          v ← inode_at e;
          bread_page page (i_dev v) nr;;
          c ← cur;
          let i := s32 (tmp + 4096 - end_data c) in
          clear_down (Z.to_nat i) (page + 4096);;
          r ← on_mem (put_page page address);
          if decide (r <> 0) then show_page address tmp
          else on_mem (free_page page);; on_mem oom
  end.
End fault.

End PageFault.
