(* ===== verification/Malloc.v ===== *)
(** * lib/malloc.c: the kernel's allocator

    A bucket is a page cut into objects of one size, with a descriptor; the free objects of a
    bucket are linked through their first word.  Descriptors are cut from pages of their own,
    which are never given back: they are a table of records by address ([descs]), apart from
    the words of the other pages ([hmm]).  A null pointer is 0.  Nothing interrupts. *)

From S2P Require Import Prelude Memory.
Import Memory.

Module Malloc.

Definition PAGE_SIZE : Z := 4096.
Definition SIZEOF_BUCKET_DESC : Z := 16.

Record bucket_desc : Type := Desc {
  page : Z; next : Z; freeptr : Z; refcnt : Z; bucket_size : Z
}.
Record _bucket_dir : Type := Dir { size : Z; chain : Z }.

Record heap : Type := Heap {
  bucket_dir : list _bucket_dir;
  free_bucket_desc : Z;
  descs : gmap Z bucket_desc;
  hmm : mm
}.
Definition bucket_dir0 : list _bucket_dir :=
  map (fun s => Dir s 0) [16; 32; 64; 128; 256; 512; 1024; 2048; 4096; 0].

Definition set_next (p : Z) (d : bucket_desc) : bucket_desc := {| d with next := p |}.
Definition set_freeptr (p : Z) (d : bucket_desc) : bucket_desc := {| d with freeptr := p |}.
Definition set_refcnt (n : Z) (d : bucket_desc) : bucket_desc := {| d with refcnt := u16 n |}.
Definition set_chain (p : Z) (d : _bucket_dir) : _bucket_dir := {| d with chain := p |}.

Definition on_hmm {A} : M mm A -> M heap A := zoom hmm (fun m h => {| h with hmm := m |}).
Definition desc_at (p : Z) : M heap bucket_desc := o ← gets (fun h => descs h !! p); deref "bucket_desc" o.
Definition put_desc (p : Z) (d : bucket_desc) : M heap unit :=
  modify (fun h => {| h with descs := <[p := d]> (descs h) |}).
Definition upd_desc (p : Z) (f : bucket_desc -> bucket_desc) : M heap unit := d ← desc_at p; put_desc p (f d).
Definition dir_at (k : nat) : M heap _bucket_dir := o ← gets (fun h => bucket_dir h !! k); deref "bucket_dir" o.
Definition upd_dir (k : nat) (f : _bucket_dir -> _bucket_dir) : M heap unit :=
  d ← dir_at k; modify (fun h => {| h with bucket_dir := <[k := f d]> (bucket_dir h) |}).
Definition set_free_desc (p : Z) : M heap unit := modify (fun h => {| h with free_bucket_desc := p |}).

(** [get_free_page] clears the page. *)
Definition init_bucket_desc : M heap unit :=
  first ← on_hmm get_free_page;
  if decide (first = 0) then panic "Out of memory in init_bucket_desc()"
  else
    let n := PAGE_SIZE / SIZEOF_BUCKET_DESC in
    for_up (Z.to_nat (n - 1)) 0 (fun i =>
      let bdesc := first + SIZEOF_BUCKET_DESC * i in
      put_desc bdesc (Desc 0 (bdesc + SIZEOF_BUCKET_DESC) 0 0 0));;
    f ← gets free_bucket_desc;
    put_desc (first + SIZEOF_BUCKET_DESC * (n - 1)) (Desc 0 f 0 0 0);;
    set_free_desc first.

(** The first entry that is large enough; the last one has size 0. *)
Fixpoint find_dir (n k : nat) (len : Z) : M heap (option nat) :=
  match n with
  | O => nofuel
  | S n' =>
      d ← dir_at k;
      if decide (size d = 0) then mret None
      else if decide (len <= size d) then mret (Some k) else find_dir n' (S k) len
  end.

(** [for (bdesc = ...; bdesc; bdesc = bdesc->next) if (bdesc->freeptr) break;] *)
Fixpoint find_free (n : nat) (bdesc : Z) : M heap Z :=
  if decide (bdesc = 0) then mret 0
  else
    match n with
    | O => nofuel
    | S n' => d ← desc_at bdesc; if decide (freeptr d <> 0) then mret bdesc else find_free n' (next d)
    end.

(** The chain of free objects of a new page. *)
Fixpoint link_objects (n : nat) (cp size : Z) : M heap unit :=
  match n with
  | O => on_hmm (store cp 0)
  | S n' => on_hmm (store cp (cp + size));; link_objects n' (cp + size) size
  end.

Definition new_bucket (k : nat) : M heap Z :=
  f ← gets free_bucket_desc;
  (if decide (f = 0) then init_bucket_desc else skip);;
  bdesc ← gets free_bucket_desc;
  d ← desc_at bdesc;
  set_free_desc (next d);;
  bdir ← dir_at k;
  cp ← on_hmm get_free_page;
  upd_desc bdesc (fun d => {| d with refcnt := 0; bucket_size := u16 (size bdir); page := cp; freeptr := cp |});;
  if decide (cp = 0) then panic "Out of memory in kernel malloc()"
  else
    link_objects (Z.to_nat (PAGE_SIZE / size bdir - 1)) cp (size bdir);;
    upd_desc bdesc (set_next (chain bdir));;
    upd_dir k (set_chain bdesc);;
    mret bdesc.

(** The first free object of a bucket is handed out. *)
Definition take_object (bdesc : Z) : M heap Z :=
  d ← desc_at bdesc;
  let retval := freeptr d in
  v ← on_hmm (load retval);
  upd_desc bdesc (set_freeptr v);;
  upd_desc bdesc (fun d => set_refcnt (refcnt d + 1) d);;
  mret retval.

Section malloc.
Context (fuel : nat).

Definition malloc (len : Z) : M heap Z :=
  k ← find_dir 10 0 len;
  match k with
  | None => panic "malloc: bad arg"
  | Some k =>
      bdir ← dir_at k;
      b ← find_free fuel (chain bdir);
      bdesc ← (if decide (b = 0) then new_bucket k else mret b);
      take_object bdesc
  end.

(** The descriptor of [page] in a chain, with the one before it. *)
Fixpoint find_page (n : nat) (pg bdesc prev : Z) : M heap (option (Z * Z)) :=
  if decide (bdesc = 0) then mret None
  else
    match n with
    | O => nofuel
    | S n' =>
        d ← desc_at bdesc;
        if decide (page d = pg) then mret (Some (bdesc, prev)) else find_page n' pg (next d) bdesc
    end.
Fixpoint find_bucket (n k : nat) (pg sz : Z) : M heap (option (nat * Z * Z)) :=
  match n with
  | O => nofuel
  | S n' =>
      bdir ← dir_at k;
      if decide (size bdir = 0) then mret None
      else if decide (size bdir < sz) then find_bucket n' (S k) pg sz
      else
        o ← find_page fuel pg (chain bdir) 0;
        match o with
        | Some (bdesc, prev) => mret (Some (k, bdesc, prev))
        | None => find_bucket n' (S k) pg sz
        end
  end.

(** [for (prev = bdir->chain; prev; prev = prev->next) if (prev->next == bdesc) break;] *)
Fixpoint find_prev (n : nat) (bdesc prev : Z) : M heap Z :=
  if decide (prev = 0) then mret 0
  else
    match n with
    | O => nofuel
    | S n' => d ← desc_at prev; if decide (next d = bdesc) then mret prev else find_prev n' bdesc (next d)
    end.

Definition release_bucket (k : nat) (bdesc prev : Z) : M heap unit :=
  bdir ← dir_at k;
  wrong ← (if decide (prev <> 0) then p ← desc_at prev; mret (bool_decide (next p <> bdesc))
           else mret (bool_decide (chain bdir <> bdesc)));
  prev ← (if (wrong : bool) then find_prev fuel bdesc (chain bdir) else mret prev);
  d ← desc_at bdesc;
  (if decide (prev <> 0) then upd_desc prev (set_next (next d))
   else if decide (chain bdir <> bdesc) then panic "malloc bucket chains corrupted"
   else upd_dir k (set_chain (next d)));;
  on_hmm (free_page (page d));;
  f ← gets free_bucket_desc;
  upd_desc bdesc (set_next f);;
  set_free_desc bdesc.

Definition free_s (obj sz : Z) : M heap unit :=
  let pg := Z.land obj 0xfffff000 in
  o ← find_bucket 10 0 pg sz;
  match o with
  | None => panic "Bad address passed to kernel free_s()"
  | Some (k, bdesc, prev) =>
      d ← desc_at bdesc;
      on_hmm (store obj (freeptr d));;
      upd_desc bdesc (set_freeptr obj);;
      upd_desc bdesc (fun d => set_refcnt (refcnt d - 1) d);;
      d ← desc_at bdesc;
      if decide (refcnt d = 0) then release_bucket k bdesc prev else skip
  end.
End malloc.

End Malloc.
