(* ===== verification/MallocProps.v ===== *)
(** * Properties of the allocator

    The heap seen as buckets, each with its free objects; the objects in use are the others
    ([live]).  [malloc] adds one that was not in use, [free_s] takes one away, and neither
    touches the contents of the rest. *)

From S2P Require Import Prelude Memory MemoryFacts Malloc.
Import Memory MemoryFacts Malloc.

Module MallocProps.

(** ** The abstract heap *)

Definition sizes : list Z := [16; 32; 64; 128; 256; 512; 1024; 2048; 4096].

Lemma sizes_div k sz : sizes !! k = Some sz -> 16 <= sz <= 4096 /\ 4096 mod sz = 0 /\ 1 <= 4096 / sz <= 256 /\ 4096 / sz * sz = 4096.
Proof.
  intros E. assert (H : Forall (fun sz => 16 <= sz <= 4096 /\ 4096 mod sz = 0 /\ 1 <= 4096 / sz <= 256 /\ 4096 / sz * sz = 4096) sizes).
  { repeat constructor; vm_compute; congruence. }
  exact (Forall_lookup_1 _ _ _ _ H E).
Qed.

(** The objects of a page. *)
Definition slots (sz p : Z) : list Z := map (fun j => p + sz * j) (seqZ 0 (4096 / sz)).
Lemma elem_of_slots sz p o : o ∈ slots sz p <-> exists j, 0 <= j < 4096 / sz /\ o = p + sz * j.
Proof.
  unfold slots. change (map ?f ?l) with (f <$> l). rewrite list_elem_of_fmap. setoid_rewrite elem_of_seqZ.
  split; intros (j & H1 & H2); exists j; (split; [lia|done]) || (split; [done|lia]).
Qed.

Lemma elem_of_map {A C} (f : A -> C) (x : A) l : x ∈ l -> f x ∈ map f l.
Proof. intros H. by apply list_elem_of_In, in_map, list_elem_of_In. Qed.

(** A null-terminated list through [nx]. *)
Fixpoint lseg (nx : Z -> Z) (p : Z) (l : list Z) : Prop :=
  match l with [] => p = 0 | a :: l' => p = a /\ a <> 0 /\ lseg nx (nx a) l' end.
Definition first (l : list Z) : Z := match l with [] => 0 | a :: _ => a end.

Lemma lseg_first nx p l : lseg nx p l -> p = first l.
Proof. destruct l; [done|]. by intros [? _]. Qed.
Lemma lseg_ext nx nx' p l : (forall a, a ∈ l -> nx' a = nx a) -> lseg nx p l -> lseg nx' p l.
Proof.
  revert p. induction l as [|a l IH]; intros p He; [done|]. intros (H1 & H2 & H3). split_and!; [done..|].
  rewrite He by set_solver. apply IH; [|done]. intros b Hb. apply He. set_solver.
Qed.

(** A bucket: its descriptor, its page and its free objects in order. *)
Record abucket : Type := AB { b_desc : Z; b_page : Z; b_free : list Z }.
#[export] Instance abucket_eq_dec : EqDecision abucket.
Proof. solve_decision. Defined.
Definition desc_of (sz nxt : Z) (b : abucket) : bucket_desc :=
  Desc (b_page b) nxt (first (b_free b)) (4096 / sz - zlen (b_free b)) sz.

(** A page that the allocator holds; the page of an address. *)
Definition held (s : mm) (p : Z) : Prop := managed s p /\ cell s p = 1.
Definition page_of (a : Z) : Z := 4096 * (a / 4096).

Record bucket_ok (s : mm) (sz : Z) (b : abucket) : Prop := {
  bo_page : held s (b_page b);
  bo_nodup : NoDup (b_free b);
  bo_slots : forall o, o ∈ b_free b -> o ∈ slots sz (b_page b);
  bo_links : lseg (ld s) (first (b_free b)) (b_free b)
}.

Fixpoint chain_ok (h : heap) (sz p : Z) (bs : list abucket) : Prop :=
  match bs with
  | [] => p = 0
  | b :: bs' => p = b_desc b /\ p <> 0 /\ exists nxt, descs h !! p = Some (desc_of sz nxt b) /\ chain_ok h sz nxt bs'
  end.
Fixpoint spare_ok (h : heap) (p : Z) (D : list Z) : Prop :=
  match D with
  | [] => p = 0
  | a :: D' => p = a /\ a <> 0 /\ exists d, descs h !! a = Some d /\ spare_ok h (next d) D'
  end.

(** The buckets of every size. *)
Definition used (B : nat -> list abucket) : list abucket := mjoin (map B (seq 0 9)).
Definition set_class (k : nat) (bs : list abucket) (B : nat -> list abucket) : nat -> list abucket :=
  fun j => if decide (j = k) then bs else B j.

Record heap_ok (h : heap) (B : nat -> list abucket) (D : list Z) : Prop := {
  hk_mm : mm_ok (hmm h);
  hk_dir : map size (bucket_dir h) = sizes ++ [0];
  hk_chain : forall k d, (k < 9)%nat -> bucket_dir h !! k = Some d -> chain_ok h (size d) (chain d) (B k);
  hk_bucket : forall k sz b, sizes !! k = Some sz -> b ∈ B k -> bucket_ok (hmm h) sz b;
  hk_descs : NoDup (map b_desc (used B) ++ D);
  hk_pages : NoDup (map b_page (used B));
  hk_dpages : forall a, a ∈ map b_desc (used B) ++ D ->
    held (hmm h) (page_of a) /\ forall b, b ∈ used B -> b_page b <> page_of a;
  hk_spare : spare_ok h (free_bucket_desc h) D
}.

(** [o] is an object of size [sz] in use. *)
Definition live (B : nat -> list abucket) (o sz : Z) : Prop :=
  exists k b, sizes !! k = Some sz /\ b ∈ B k /\ o ∈ slots sz (b_page b) /\ o ∉ b_free b.

(** ** Classes *)

Lemma class_lt k sz : sizes !! k = Some sz -> (k < 9)%nat.
Proof. apply lookup_lt_Some. Qed.

Definition rest (B : nat -> list abucket) (k : nat) : list abucket :=
  mjoin (map B (filter (fun j => j <> k) (seq 0 9))).

Lemma used_split B k : (k < 9)%nat -> used B ≡ₚ B k ++ rest B k.
Proof.
  intros Hk. unfold used, rest. do 9 (destruct k as [|k]; [cbn; solve_Permutation|]). lia.
Qed.
Lemma rest_set_class B k bs : rest (set_class k bs B) k = rest B k.
Proof.
  unfold rest. f_equal. apply map_ext_in. intros j Hj. apply list_elem_of_In, list_elem_of_filter in Hj as [Hj _].
  unfold set_class. by rewrite decide_False.
Qed.
Lemma set_class_eq B k bs : set_class k bs B k = bs.
Proof. unfold set_class. by rewrite decide_True. Qed.
Lemma used_set_class B k bs : (k < 9)%nat -> used (set_class k bs B) ≡ₚ bs ++ rest B k.
Proof. intros Hk. rewrite (used_split _ k Hk), rest_set_class. by rewrite set_class_eq. Qed.
Lemma used_length B k bs : (k < 9)%nat -> zlen (used (set_class k bs B)) = zlen (used B) - zlen (B k) + zlen bs.
Proof.
  intros Hk. pose proof (Permutation_length (used_split B k Hk)). pose proof (Permutation_length (used_set_class B k bs Hk)).
  rewrite length_app in *. unfold zlen. lia.
Qed.
Lemma elem_of_used B b : b ∈ used B <-> exists k, (k < 9)%nat /\ b ∈ B k.
Proof.
  unfold used. rewrite list_elem_of_join. split.
  - intros (l & Hb & Hl). apply list_elem_of_In, in_map_iff in Hl as (k & <- & Hk%in_seq). exists k. split; [lia|done].
  - intros (k & Hk & Hb). exists (B k). split; [done|]. apply list_elem_of_In, in_map, in_seq. lia.
Qed.

(** ** Chains *)

Lemma chain_ext h h' sz p bs :
  (forall b, b ∈ bs -> descs h' !! b_desc b = descs h !! b_desc b) -> chain_ok h sz p bs -> chain_ok h' sz p bs.
Proof.
  revert p. induction bs as [|b bs IH]; intros p He; [done|]. intros (-> & Hp & nxt & E & Hc).
  split_and!; [done..|]. exists nxt. rewrite He by set_solver. split; [done|]. apply IH; [|done].
  intros b' Hb'. apply He. set_solver.
Qed.
Lemma spare_ext h h' p D :
  (forall a, a ∈ D -> descs h' !! a = descs h !! a) -> spare_ok h p D -> spare_ok h' p D.
Proof.
  revert p. induction D as [|a D IH]; intros p He; [done|]. intros (-> & Hp & d & E & Hc).
  split_and!; [done..|]. exists d. rewrite He by set_solver. split; [done|]. apply IH; [|done].
  intros b' Hb'. apply He. set_solver.
Qed.
Lemma chain_get h sz p bs1 b bs2 :
  chain_ok h sz p (bs1 ++ b :: bs2) ->
  b_desc b <> 0 /\ exists nxt, descs h !! b_desc b = Some (desc_of sz nxt b) /\ chain_ok h sz nxt bs2.
Proof.
  revert p. induction bs1 as [|c bs1 IH]; intros p; cbn [app chain_ok].
  - intros (-> & Hp & nxt & E & Hc). split; [done|]. by exists nxt.
  - intros (_ & _ & nxt & _ & Hc). by eapply IH.
Qed.

(** One descriptor of a chain is rewritten. *)
Lemma chain_update h h' sz p bs1 b b' bs2 nxt :
  NoDup (map b_desc (bs1 ++ b :: bs2)) -> b_desc b' = b_desc b ->
  descs h !! b_desc b = Some (desc_of sz nxt b) ->
  descs h' = <[b_desc b := desc_of sz nxt b']> (descs h) ->
  chain_ok h sz p (bs1 ++ b :: bs2) -> chain_ok h' sz p (bs1 ++ b' :: bs2).
Proof.
  intros Hd Eb E E'. rewrite map_app, map_cons in Hd. apply NoDup_app in Hd as (_ & Hd1 & Hd2%NoDup_cons).
  revert p. induction bs1 as [|c bs1 IH]; intros p; cbn [app chain_ok].
  - intros (-> & Hp & nxt' & E1 & Hc). rewrite E in E1. assert (nxt' = nxt) as -> by (injection E1; done).
    rewrite Eb. split_and!; [done..|]. exists nxt. rewrite E', lookup_insert_eq. split; [done|].
    eapply chain_ext; [|exact Hc]. intros c Hc'. rewrite E', lookup_insert_ne; [done|]. intros Ec.
    destruct Hd2 as [Hd2 _]. apply Hd2. rewrite Ec. by apply elem_of_map.
  - intros (-> & Hp & nxt' & E1 & Hc). split_and!; [done..|]. exists nxt'. split.
    + rewrite E', lookup_insert_ne; [done|]. intros Ec. apply (Hd1 (b_desc c)); [cbn; set_solver|]. rewrite <- Ec. set_solver.
    + apply IH; [|done]. intros x Hx. apply Hd1. cbn. set_solver.
Qed.

(** ** Addresses *)

Lemma slot_page sz p o k :
  sizes !! k = Some sz -> page_aligned p -> o ∈ slots sz p -> page_of o = p /\ p <= o /\ o + sz <= p + 4096.
Proof.
  intros Hk Hp (j & Hj & ->)%elem_of_slots. destruct (sizes_div k sz Hk) as (H1 & _ & H3 & H4).
  unfold page_of, page_aligned in *. assert (0 <= sz * j /\ sz * j + sz <= 4096) by nia.
  split; [|lia]. pose proof (Z.div_mod p 4096 ltac:(lia)) as E. rewrite Hp in E.
  replace (p + sz * j) with (sz * j + (p / 4096) * 4096) by lia. rewrite Z.div_add by lia.
  rewrite (Z.div_small (sz * j)) by lia. lia.
Qed.

(** Two objects of a page are the same or apart. *)
Lemma slots_apart sz p o o' : 0 < sz -> o ∈ slots sz p -> o' ∈ slots sz p -> o = o' \/ o + sz <= o' \/ o' + sz <= o.
Proof.
  intros Hs (j & Hj & ->)%elem_of_slots (j' & Hj' & ->)%elem_of_slots.
  destruct (decide (j = j')) as [->|]; [by left|right]. destruct (decide (j < j')); [left|right]; nia.
Qed.

(** ** One bucket changes *)

(** The bucket [b] of class [k], in its place. *)
Record place (B : nat -> list abucket) (k : nat) (sz : Z) (bs1 : list abucket) (b : abucket) (bs2 : list abucket) : Prop := {
  pl_size : sizes !! k = Some sz;
  pl_split : B k = bs1 ++ b :: bs2
}.

Lemma place_in B k sz bs1 b bs2 : place B k sz bs1 b bs2 -> (k < 9)%nat /\ b ∈ B k /\ b ∈ used B.
Proof.
  intros [H1 H2]. pose proof (class_lt k sz H1). split_and!; [done|rewrite H2; set_solver|].
  apply elem_of_used. exists k. split; [done|]. rewrite H2. set_solver.
Qed.

(** Buckets are told apart by their descriptors and by their pages. *)
Lemma bucket_unique h B D k1 k2 b c :
  heap_ok h B D -> (k1 < 9)%nat -> (k2 < 9)%nat -> b ∈ B k1 -> c ∈ B k2 ->
  b_desc b = b_desc c \/ b_page b = b_page c -> b = c /\ k1 = k2.
Proof.
  intros HO H1 H2 Hb Hc E.
  assert (Hu : forall l, NoDup (map b_desc (used B)) /\ NoDup (map b_page (used B)) ->
    used B ≡ₚ l -> forall x y l1 l2, l = l1 ++ l2 -> x ∈ l1 -> y ∈ l2 -> b_desc x <> b_desc y /\ b_page x <> b_page y).
  { intros l [N1 N2] HP x y l1 l2 -> Hx Hy. rewrite HP in N1, N2. rewrite map_app in N1, N2.
    apply NoDup_app in N1 as (_ & N1 & _). apply NoDup_app in N2 as (_ & N2 & _).
    split; intros Exy; [apply (N1 (b_desc x)); [|rewrite Exy]|apply (N2 (b_page x)); [|rewrite Exy]]; by apply elem_of_map. }
  assert (HN : NoDup (map b_desc (used B)) /\ NoDup (map b_page (used B))).
  { split; [|apply HO]. pose proof (hk_descs _ _ _ HO) as N. by apply NoDup_app in N as (N & _). }
  destruct (decide (k1 = k2)) as [<-|Hne].
  - split; [|done]. apply list_elem_of_split in Hb as (l1 & l2 & El).
    rewrite El in Hc. apply elem_of_app in Hc as [Hc|Hc]; [|apply elem_of_cons in Hc as [->|Hc]; [done|]].
    + exfalso. destruct (Hu (([b] ++ l1) ++ (l2 ++ rest B k1)) HN) with (x := b) (y := c) (l1 := [b]) (l2 := l1 ++ l2 ++ rest B k1) as [U1 U2];
        [rewrite (used_split B k1 H1), El; solve_Permutation|by rewrite <- !app_assoc|set_solver|set_solver|]. destruct E; done.
    + exfalso. destruct (Hu (([b] ++ l2) ++ (l1 ++ rest B k1)) HN) with (x := b) (y := c) (l1 := [b]) (l2 := l2 ++ l1 ++ rest B k1) as [U1 U2];
        [rewrite (used_split B k1 H1), El; solve_Permutation|by rewrite <- !app_assoc|set_solver|set_solver|]. destruct E; done.
  - exfalso. destruct (Hu (B k1 ++ rest B k1) HN) with (x := b) (y := c) (l1 := B k1) (l2 := rest B k1) as [U1 U2];
      [by apply used_split|done|done| |destruct E; done].
    unfold rest. apply list_elem_of_join. exists (B k2). split; [done|].
    apply list_elem_of_In, in_map. apply list_elem_of_In, list_elem_of_filter. split; [congruence|].
    apply list_elem_of_In, in_seq. lia.
Qed.

(** The memory is as before but for the words that no other bucket's list uses. *)
Lemma update_bucket h h' B D k sz bs1 b b' bs2 nxt :
  heap_ok h B D -> place B k sz bs1 b bs2 -> b_desc b' = b_desc b -> b_page b' = b_page b ->
  descs h !! b_desc b = Some (desc_of sz nxt b) ->
  bucket_dir h' = bucket_dir h -> free_bucket_desc h' = free_bucket_desc h ->
  descs h' = <[b_desc b := desc_of sz nxt b']> (descs h) ->
  mm_ok (hmm h') -> HIGH_MEMORY (hmm h') = HIGH_MEMORY (hmm h) -> mem_map (hmm h') = mem_map (hmm h) ->
  (forall c o, c ∈ used B -> c <> b -> o ∈ b_free c -> ld (hmm h') o = ld (hmm h) o) ->
  bucket_ok (hmm h') sz b' ->
  heap_ok h' (set_class k (bs1 ++ b' :: bs2) B) D.
Proof.
  intros HO HP Ed Ep E Edir Efree Edescs Hmm Hh Hmap Hfr Hb'.
  destruct (place_in _ _ _ _ _ _ HP) as (Hk & Hbk & Hbu). destruct HP as [Hsz Hsp].
  assert (Hheld : forall p, held (hmm h') p <-> held (hmm h) p).
  { intros p. unfold held, managed, cell. by rewrite Hh, Hmap. }
  assert (HN : NoDup (map b_desc (bs1 ++ b :: bs2))).
  { pose proof (hk_descs _ _ _ HO) as N. apply NoDup_app in N as (N & _). rewrite (used_split B k Hk), Hsp, map_app in N.
    by apply NoDup_app in N as (N & _). }
  assert (HPd : map b_desc (used (set_class k (bs1 ++ b' :: bs2) B)) ≡ₚ map b_desc (used B)).
  { rewrite (used_set_class B k _ Hk), (used_split B k Hk), Hsp, !map_app, !map_cons, Ed. done. }
  assert (HPp : map b_page (used (set_class k (bs1 ++ b' :: bs2) B)) ≡ₚ map b_page (used B)).
  { rewrite (used_set_class B k _ Hk), (used_split B k Hk), Hsp, !map_app, !map_cons, Ep. done. }
  assert (Hnd : forall a, a ∈ D -> a <> b_desc b).
  { intros a Ha ->. pose proof (hk_descs _ _ _ HO) as N. apply NoDup_app in N as (_ & N & _).
    apply (N (b_desc b)); [|done]. by apply elem_of_map. }
  split.
  - done.
  - by rewrite Edir, (hk_dir _ _ _ HO).
  - intros j d Hj Hd. rewrite Edir in Hd. pose proof (hk_chain _ _ _ HO j d Hj Hd) as Hc.
    unfold set_class. destruct (decide (j = k)) as [->|Hne].
    + rewrite Hsp in Hc. assert (size d = sz) as Es.
      { pose proof (hk_dir _ _ _ HO) as Hdir. assert (Hx : map size (bucket_dir h) !! k = Some (size d)).
        { change (map ?f ?l) with (f <$> l). by rewrite list_lookup_fmap, Hd. }
        rewrite Hdir, lookup_app_l in Hx by (cbn; lia). congruence. }
      rewrite Es in *. by eapply chain_update.
    + eapply chain_ext; [|exact Hc]. intros c Hcc. rewrite Edescs, lookup_insert_ne; [done|]. intros Ec.
      destruct (bucket_unique h B D k j b c HO Hk Hj Hbk Hcc) as [_ ?]; [by left|]. done.
  - intros j z c Hz Hc. unfold set_class in Hc. destruct (decide (c = b' /\ j = k)) as [[-> ->]|Hne].
    { rewrite Hz in Hsz. by injection Hsz as ->. }
    assert (Hcb : c ∈ B j /\ (c <> b \/ j <> k)).
    { destruct (decide (j = k)) as [->|Hjk]; [|by split; [|right]].
      assert (Hin : c ∈ bs1 ++ bs2) by (apply elem_of_app in Hc as [?|?%elem_of_cons]; set_solver).
      split; [rewrite Hsp; set_solver|left]. intros ->.
      rewrite map_app, map_cons in HN. apply NoDup_app in HN as (_ & N1 & N2%NoDup_cons).
      apply elem_of_app in Hin as [Hi|Hi].
      - apply (N1 (b_desc b)); [|set_solver]. by apply elem_of_map.
      - destruct N2 as [N2 _]. apply N2. by apply elem_of_map. }
    destruct Hcb as [Hcj Hcb]. destruct (hk_bucket _ _ _ HO j z c Hz Hcj) as [K1 K2 K3 K4].
    split; [by apply Hheld|done|done|]. eapply lseg_ext; [|exact K4]. intros o Ho.
    apply (Hfr c); [apply elem_of_used; exists j; split; [by eapply class_lt|done]| |done].
    intros ->. destruct Hcb as [|Hcb]; [done|]. apply Hcb.
    destruct (bucket_unique h B D j k b b HO (class_lt _ _ Hz) Hk Hcj Hbk) as [_ ?]; [by left|]. done.
  - rewrite HPd. apply HO.
  - rewrite HPp. apply HO.
  - intros a Ha. rewrite HPd in Ha. destruct (hk_dpages _ _ _ HO a Ha) as [H1 H2]. split; [by apply Hheld|].
    intros c Hc. assert (Hin : b_page c ∈ map b_page (used B)).
    { rewrite <- HPp. by apply elem_of_map. }
    apply list_elem_of_In, in_map_iff in Hin as (c' & <- & Hc'). apply H2. by apply list_elem_of_In.
  - rewrite Efree. eapply spare_ext; [|apply HO]. intros a Ha. rewrite Edescs, lookup_insert_ne; [done|].
    intros Ea. by apply (Hnd a Ha).
Qed.

End MallocProps.
