(* ===== verification/MallocOps.v ===== *)
(** * malloc and free *)

From S2P Require Import Prelude Memory MemoryFacts Malloc MallocProps.
Import Memory MemoryFacts Malloc MallocProps.

Module MallocOps.

(** ** Steps *)

Definition with_hmm (h : heap) (m : mm) : heap := {| h with hmm := m |}.
Definition with_desc (h : heap) (p : Z) (d : bucket_desc) : heap := {| h with descs := <[p := d]> (descs h) |}.

Lemma load_ok a h : on_hmm (load a) h = Done (ld (hmm h) a) h.
Proof. by destruct h. Qed.
Lemma store_ok a v h : on_hmm (store a v) h = Done tt (with_hmm h (st a v (hmm h))).
Proof. done. Qed.
Lemma desc_at_ok p d h : descs h !! p = Some d -> desc_at p h = Done d h.
Proof. intros E. unfold desc_at. rewrite gets_bind. by rewrite E. Qed.
Lemma upd_desc_ok p f d h : descs h !! p = Some d -> upd_desc p f h = Done tt (with_desc h p (f d)).
Proof. intros E. unfold upd_desc. by erewrite done_bind by by apply desc_at_ok. Qed.
Lemma dir_at_ok k d h : bucket_dir h !! k = Some d -> dir_at k h = Done d h.
Proof. intros E. unfold dir_at. rewrite gets_bind. by rewrite E. Qed.
Lemma upd_dir_ok k f d h :
  bucket_dir h !! k = Some d -> upd_dir k f h = Done tt {| h with bucket_dir := <[k := f d]> (bucket_dir h) |}.
Proof. intros E. unfold upd_dir. by erewrite done_bind by by apply dir_at_ok. Qed.

Lemma with_desc_twice h p d d' : with_desc (with_desc h p d) p d' = with_desc h p d'.
Proof. unfold with_desc. cbn. by rewrite insert_insert_eq. Qed.

(** ** The classes *)

Lemma dir_lookup h B D k sz :
  heap_ok h B D -> sizes !! k = Some sz -> exists d, bucket_dir h !! k = Some d /\ size d = sz.
Proof.
  intros HO Hk. pose proof (hk_dir _ _ _ HO) as E. apply (f_equal (fun l => l !! k)) in E.
  rewrite lookup_app_l in E by (apply lookup_lt_Some in Hk; exact Hk). rewrite Hk in E.
  change (map ?f ?l) with (f <$> l) in E. rewrite list_lookup_fmap in E.
  destruct (bucket_dir h !! k) as [d|]; [|done]. exists d. split; [done|]. cbn in E. congruence.
Qed.
Lemma dir_last h B D : heap_ok h B D -> exists d, bucket_dir h !! 9%nat = Some d /\ size d = 0.
Proof.
  intros HO. pose proof (hk_dir _ _ _ HO) as E. apply (f_equal (fun l => l !! 9%nat)) in E.
  change (map ?f ?l) with (f <$> l) in E. rewrite list_lookup_fmap in E.
  destruct (bucket_dir h !! 9%nat) as [d|]; [|done]. exists d. split; [done|]. cbn in E. congruence.
Qed.

(** The smallest size that is large enough. *)
Definition fits (len : Z) (k : nat) (sz : Z) : Prop :=
  sizes !! k = Some sz /\ len <= sz /\ forall j z, (j < k)%nat -> sizes !! j = Some z -> z < len.

Lemma find_dir_ok h B D len :
  heap_ok h B D -> len <= 4096 -> exists k sz, find_dir 10 0 len h = Done (Some k) h /\ fits len k sz.
Proof.
  intros HO Hlen.
  enough (H : forall n k, (k + n = 10)%nat -> (forall j z, (j < k)%nat -> sizes !! j = Some z -> z < len) ->
    exists k' sz, find_dir n k len h = Done (Some k') h /\ fits len k' sz).
  { destruct (H 10%nat 0%nat) as (k & sz & R); [done|lia|]. by exists k, sz. }
  induction n as [|n IH]; intros k Hk Hlt.
  - specialize (Hlt 8%nat 4096 ltac:(lia) eq_refl). lia.
  - cbn [find_dir]. destruct (decide (k < 9)%nat) as [H9|H9].
    + destruct (lookup_lt_is_Some_2 sizes k) as [sz Hsz]; [exact H9|].
      destruct (dir_lookup h B D k sz HO Hsz) as (d & Ed & Es).
      erewrite done_bind by by apply dir_at_ok. rewrite Es. pose proof (sizes_div k sz Hsz) as [Hpos _].
      rewrite decide_False by lia. case_decide as Hl.
      * exists k, sz. done.
      * destruct (IH (S k)) as (k' & sz' & R & F); [lia| |by exists k', sz'].
        intros j z Hj Ez. destruct (decide (j = k)) as [->|]; [rewrite Ez in Hsz; injection Hsz as ->; lia|].
        apply (Hlt j z); [lia|done].
    + assert (k = 9%nat) as -> by lia. specialize (Hlt 8%nat 4096 ltac:(lia) eq_refl). lia.
Qed.

Lemma find_free_ok n h sz p bs :
  (length bs < n)%nat -> (forall b o, b ∈ bs -> o ∈ b_free b -> o <> 0) -> chain_ok h sz p bs ->
  exists r, find_free n p h = Done r h /\
    ((r = 0 /\ forall b, b ∈ bs -> b_free b = []) \/
     (r <> 0 /\ exists bs1 b bs2, bs = bs1 ++ b :: bs2 /\ r = b_desc b /\ b_free b <> [])).
Proof.
  revert n p. induction bs as [|b bs IH]; intros n p Hn Hnz Hc.
  { exists 0. cbn in Hc. subst p. split; [by destruct n|]. left. split; [done|]. intros b Hb. by apply elem_of_nil in Hb. }
  destruct n as [|n]; [cbn in Hn; lia|]. destruct Hc as (-> & Hp & nxt & E & Hc). cbn [find_free].
  rewrite decide_False by done. erewrite done_bind by by apply desc_at_ok. cbn [freeptr desc_of].
  destruct (b_free b) as [|o l] eqn:Ef.
  - rewrite decide_False by (intros H; by apply H). cbn [next desc_of].
    destruct (IH n nxt) as (r & R & H); [cbn in Hn; lia|intros c o Hc' Ho; apply (Hnz c o); [set_solver|done]|done|].
    exists r. split; [exact R|]. destruct H as [[Hr H]|(Hr & bs1 & c & bs2 & -> & Hc' & Hf)].
    + left. split; [done|]. intros c [->|Hc']%elem_of_cons; [done|by apply H].
    + right. split; [done|]. by exists (b :: bs1), c, bs2.
  - assert (Ho : o <> 0) by (apply (Hnz b o); [set_solver|rewrite Ef; set_solver]).
    rewrite decide_True by done. exists (b_desc b). split; [done|]. right. split; [done|].
    exists [], b, bs. split; [done|]. split; [done|]. by rewrite Ef.
Qed.

(** ** What is in use *)

Lemma length_slots sz p : 0 <= 4096 / sz -> zlen (slots sz p) = 4096 / sz.
Proof. intros H. unfold slots, zlen. rewrite length_map, length_seqZ. lia. Qed.

Lemma free_length s k sz b : sizes !! k = Some sz -> bucket_ok s sz b -> zlen (b_free b) <= 4096 / sz.
Proof.
  intros Hk Hb. destruct (sizes_div k sz Hk) as (_ & _ & H3 & _). rewrite <- (length_slots sz (b_page b)) by lia.
  unfold zlen. apply inj_le. apply submseteq_length. apply NoDup_submseteq; [apply Hb|]. intros o. apply Hb.
Qed.
Lemma free_length_lt s k sz b o :
  sizes !! k = Some sz -> bucket_ok s sz b -> o ∈ slots sz (b_page b) -> o ∉ b_free b -> zlen (b_free b) < 4096 / sz.
Proof.
  intros Hk Hb Ho Hf. destruct (sizes_div k sz Hk) as (_ & _ & H3 & _). rewrite <- (length_slots sz (b_page b)) by lia.
  enough (zlen (o :: b_free b) <= zlen (slots sz (b_page b))) by (unfold zlen in *; cbn in *; lia).
  unfold zlen. apply inj_le. apply submseteq_length. apply NoDup_submseteq; [by constructor; [|apply Hb]|].
  intros x [->|Hx]%elem_of_cons; [done|by apply Hb].
Qed.

Lemma held_page h B D k sz b : heap_ok h B D -> sizes !! k = Some sz -> b ∈ B k ->
  page_aligned (b_page b) /\ LOW_MEM <= b_page b /\ b_page b + 4096 <= 2 ^ 24.
Proof.
  intros HO Hk Hb. destruct (bo_page _ _ _ (hk_bucket _ _ _ HO k sz b Hk Hb)) as [Hm _].
  destruct (managed_page _ _ (hk_mm _ _ _ HO) Hm) as (H1 & H2 & H3 & _). done.
Qed.

(** An address in an object determines its bucket. *)
Lemma slot_bucket h B D k1 k2 z1 z2 b c o o' :
  heap_ok h B D -> sizes !! k1 = Some z1 -> sizes !! k2 = Some z2 -> b ∈ B k1 -> c ∈ B k2 ->
  o ∈ slots z1 (b_page b) -> o' ∈ slots z2 (b_page c) -> page_of o = page_of o' -> b = c /\ k1 = k2.
Proof.
  intros HO H1 H2 Hb Hc Ho Ho' E. eapply bucket_unique; [done|by eapply class_lt|by eapply class_lt|done|done|right].
  destruct (held_page h B D k1 z1 b HO H1 Hb) as [A1 _]. destruct (held_page h B D k2 z2 c HO H2 Hc) as [A2 _].
  destruct (slot_page _ _ _ _ H1 A1 Ho) as [<- _]. destruct (slot_page _ _ _ _ H2 A2 Ho') as [<- _]. done.
Qed.

Lemma live_set h B D k sz bs1 b bs2 b' o z :
  heap_ok h B D -> place B k sz bs1 b bs2 ->
  live (set_class k (bs1 ++ b' :: bs2) B) o z <->
  (exists j c, sizes !! j = Some z /\ c ∈ B j /\ c <> b /\ o ∈ slots z (b_page c) /\ o ∉ b_free c) \/
  (z = sz /\ o ∈ slots sz (b_page b') /\ o ∉ b_free b').
Proof.
  intros HO HP. destruct (place_in _ _ _ _ _ _ HP) as (Hk & Hbk & _). destruct HP as [Hsz Hsp].
  assert (HN : b ∉ bs1 ++ bs2).
  { pose proof (hk_pages _ _ _ HO) as N. rewrite (used_split B k Hk), Hsp, map_app in N. apply NoDup_app in N as (N & _).
    rewrite map_app, map_cons in N. apply NoDup_app in N as (_ & N1 & N2%NoDup_cons). intros [Hi|Hi]%elem_of_app.
    - apply (N1 (b_page b)); [by apply elem_of_map|set_solver].
    - apply N2. by apply elem_of_map. }
  unfold live. split.
  - intros (j & c & Hj & Hc & Ho & Hf). unfold set_class in Hc. destruct (decide (j = k)) as [->|Hne].
    + rewrite Hsz in Hj. injection Hj as <-. apply elem_of_app in Hc as [Hc|[->|Hc]%elem_of_cons]; [left|by right|left];
        exists k, c; (split_and!; [done|rewrite Hsp; set_solver|intros ->; set_solver|done|done]).
    + left. exists j, c. split_and!; [done|done| |done|done]. intros ->.
      destruct (bucket_unique h B D j k b b HO (class_lt _ _ Hj) Hk Hc Hbk) as [_ ?]; [by left|done].
  - intros [(j & c & Hj & Hc & Hne & Ho & Hf)|(-> & Ho & Hf)].
    + exists j, c. split_and!; [done| |done|done]. unfold set_class. destruct (decide (j = k)) as [->|]; [|done].
      rewrite Hsp in Hc. set_solver.
    + exists k, b'. split_and!; [done| |done|done]. rewrite set_class_eq. set_solver.
Qed.
Lemma live_place h B D k sz bs1 b bs2 o z :
  heap_ok h B D -> place B k sz bs1 b bs2 ->
  live B o z <->
  (exists j c, sizes !! j = Some z /\ c ∈ B j /\ c <> b /\ o ∈ slots z (b_page c) /\ o ∉ b_free c) \/
  (z = sz /\ o ∈ slots sz (b_page b) /\ o ∉ b_free b).
Proof.
  intros HO HP. rewrite <- (live_set h B D k sz bs1 b bs2 b o z HO HP). unfold live, set_class.
  split; intros (j & c & Hj & Hc & Ho & Hf); exists j, c; (split_and!; [done| |done|done]).
  - destruct (decide (j = k)) as [->|]; [|done]. by rewrite <- (pl_split _ _ _ _ _ _ HP).
  - destruct (decide (j = k)) as [->|]; [|done]. by rewrite (pl_split _ _ _ _ _ _ HP).
Qed.

(** ** An object is taken *)

(** An object of [sz] bytes at [r] shares no byte with an object in use. *)
Definition apart_from (B : nat -> list abucket) (r sz : Z) : Prop :=
  forall o z, live B o z -> o + z <= r \/ r + sz <= o.

Lemma free_apart h B D k sz bs1 b bs2 r :
  heap_ok h B D -> place B k sz bs1 b bs2 -> r ∈ b_free b -> apart_from B r sz.
Proof.
  intros HO HP Hr o z (j & c & Hj & Hc & Ho & Hf). destruct (place_in _ _ _ _ _ _ HP) as (Hk & Hb & _).
  pose proof (pl_size _ _ _ _ _ _ HP) as Hs. pose proof (bo_slots _ _ _ (hk_bucket _ _ _ HO k sz b Hs Hb) r Hr) as Hrs.
  destruct (held_page h B D k sz b HO Hs Hb) as [A1 _]. destruct (held_page h B D j z c HO Hj Hc) as [A2 _].
  destruct (slot_page _ _ _ _ Hs A1 Hrs) as (P1 & ? & ?). destruct (slot_page _ _ _ _ Hj A2 Ho) as (P2 & ? & ?).
  destruct (decide (b_page c = b_page b)) as [E|E].
  - destruct (bucket_unique h B D k j b c HO Hk (class_lt _ _ Hj) Hb Hc) as [<- <-]; [by right|].
    rewrite Hs in Hj. injection Hj as <-. destruct (sizes_div k sz Hs) as [? _].
    destruct (slots_apart sz (b_page b) o r ltac:(lia) Ho Hrs) as [->|]; [done|lia].
  - unfold page_aligned in *. pose proof (Z.div_mod (b_page c) 4096). pose proof (Z.div_mod (b_page b) 4096). lia.
Qed.

Lemma take_object_ok h B D k sz bs1 b bs2 r fl :
  heap_ok h B D -> place B k sz bs1 b bs2 -> b_free b = r :: fl ->
  exists h' B', take_object (b_desc b) h = Done r h' /\ hmm h' = hmm h /\ heap_ok h' B' D /\ zlen (used B') = zlen (used B) /\
    forall o z, live B' o z <-> live B o z \/ (o = r /\ z = sz).
Proof.
  intros HO HP Ef. destruct (place_in _ _ _ _ _ _ HP) as (Hk & Hb & _).
  pose proof (pl_size _ _ _ _ _ _ HP) as Hs. pose proof (hk_bucket _ _ _ HO k sz b Hs Hb) as [K1 K2 K3 K4].
  destruct (dir_lookup h B D k sz HO Hs) as (bd & Ed & Es).
  pose proof (hk_chain _ _ _ HO k bd Hk Ed) as Hc. rewrite (pl_split _ _ _ _ _ _ HP), Es in Hc.
  destruct (chain_get _ _ _ _ _ _ Hc) as (Hnz & nxt & E & _).
  rewrite Ef in K2, K4. destruct K4 as (_ & Hr0 & Hl). pose proof (lseg_first _ _ _ Hl) as Hld.
  set (b' := AB (b_desc b) (b_page b) fl). set (h' := with_desc h (b_desc b) (desc_of sz nxt b')).
  exists h', (set_class k (bs1 ++ b' :: bs2) B). split; [|split; [done|]].
  { unfold take_object. erewrite done_bind by by apply desc_at_ok. cbv zeta. cbn [freeptr desc_of]. rewrite Ef. cbn [first].
    erewrite done_bind by apply load_ok. erewrite done_bind by by apply upd_desc_ok.
    erewrite done_bind by by apply upd_desc_ok, lookup_insert_eq.
    rewrite with_desc_twice. unfold h', mret, M_ret. do 3 f_equal. unfold set_refcnt, set_freeptr, desc_of. cbn.
    rewrite Hld, Ef. f_equal. destruct (sizes_div k sz Hs) as (_ & _ & ? & _).
    assert (zlen (r :: fl) <= 4096 / sz) by (rewrite <- Ef; by eapply free_length, (hk_bucket _ _ _ HO k sz b Hs Hb)).
    unfold zlen in *. cbn [length] in *. unfold u16. rewrite Z.mod_small by lia. lia. }
  assert (HB' : heap_ok h' (set_class k (bs1 ++ b' :: bs2) B) D).
  { eapply update_bucket; try done; [apply HO|]. split; [done| | |].
    - by apply NoDup_cons in K2 as [_ K2].
    - intros o Ho. apply K3. rewrite Ef. set_solver.
    - cbn. by rewrite <- Hld. }
  split; [done|]. split.
  { rewrite used_length, (pl_split _ _ _ _ _ _ HP), !zlen_app by done. unfold zlen. cbn [length]. lia. }
  intros o z. rewrite (live_set h B D k sz bs1 b bs2 b' o z HO HP), (live_place h B D k sz bs1 b bs2 o z HO HP). cbn. rewrite Ef.
  assert (r ∈ slots sz (b_page b)) by (apply K3; rewrite Ef; set_solver).
  apply NoDup_cons in K2 as [Hni _]. split.
  - intros [H'|(-> & H1 & H2)]; [by left; left|]. destruct (decide (o = r)) as [->|]; [by right|].
    left. right. split_and!; [done..|]. rewrite elem_of_cons. naive_solver.
  - intros [[H'|(-> & H1 & H2)]|[-> ->]]; [by left| |by right]. right. split_and!; [done..|]. set_solver.
Qed.

End MallocOps.
