(* ===== verification/MallocNew.v ===== *)
(** * A new bucket *)

From S2P Require Import Prelude Memory MemoryFacts Malloc MallocProps MallocOps.
Import Memory MemoryFacts Malloc MallocProps MallocOps.

Module MallocNew.

(** ** The memory around the heap *)

(** The heap's own words and pages stay. *)
Lemma heap_frame h B D m :
  heap_ok h B D -> mm_ok m -> (forall p, held (hmm h) p -> held m p) ->
  (forall b o, b ∈ used B -> o ∈ b_free b -> ld m o = ld (hmm h) o) -> heap_ok (with_hmm h m) B D.
Proof.
  intros HO Hm Hh Hl. split; try apply HO.
  - done.
  - intros k d Hk E. eapply chain_ext; [|by eapply (hk_chain _ _ _ HO)]. done.
  - intros k sz b Hk Hb. destruct (hk_bucket _ _ _ HO k sz b Hk Hb) as [K1 K2 K3 K4]. split; [by apply Hh|done|done|].
    eapply lseg_ext; [|exact K4]. intros o Ho. apply (Hl b); [|done]. apply elem_of_used. exists k. split; [by eapply class_lt|done].
  - intros a Ha. destruct (hk_dpages _ _ _ HO a Ha) as [H1 H2]. split; [by apply Hh|done].
  - eapply spare_ext; [|apply HO]. done.
Qed.

Lemma page_of_in p x : page_aligned p -> 0 <= x < 4096 -> page_of (p + x) = p.
Proof.
  unfold page_aligned, page_of. intros Hp Hx. pose proof (Z.div_mod p 4096 ltac:(lia)) as E. rewrite Hp in E.
  replace (p + x) with (x + p / 4096 * 4096) by lia. rewrite Z.div_add by lia. rewrite (Z.div_small x) by lia. lia.
Qed.

(** A page that was free is the allocator's now. *)
Record fresh_page (s : mm) (p : Z) (s' : mm) : Prop := {
  fp_mm : mm_ok s';
  fp_held : held s' p;
  fp_new : ~ held s p;
  fp_keep : forall q, held s q -> held s' q;
  fp_words : forall a, page_of a <> p -> ld s' a = ld s a
}.

Lemma get_fresh_page h n :
  mm_ok (hmm h) -> room (hmm h) (S n) ->
  exists p s', on_hmm get_free_page h = Done p (with_hmm h s') /\ fresh_page (hmm h) p s' /\ p <> 0 /\ room s' n.
Proof.
  intros Hm Hr. destruct (get_free_page_room (hmm h) n Hm Hr) as (p & s' & E & Hp & Hp0 & Hc & Hz & Hr').
  exists p, s'. split; [|split; [|done]].
  { unfold on_hmm, zoom. by rewrite E. }
  assert (Hmm : mm_ok s') by (eapply zeroed_ok; [exact Hz|]; by apply set_cell_ok).
  destruct Hz as (Hh & Hmap & _ & Hw).
  assert (Hcell : forall q, managed (hmm h) q -> cell s' q = if decide (p = q) then 1 else cell (hmm h) q).
  { intros q Hq. unfold cell. rewrite Hmap. apply (cell_set_cell (hmm h) p 1 q); [done|done|apply Hq]. }
  assert (Hman : forall q, managed (hmm h) q -> managed s' q) by (intros q; unfold managed; by rewrite Hh).
  split.
  - done.
  - split; [by apply Hman|]. rewrite Hcell by done. by rewrite decide_True.
  - intros [_ Hx]. lia.
  - intros q [H1 H2]. split; [by apply Hman|]. rewrite Hcell by done. rewrite decide_False; [done|]. intros ->. lia.
  - intros a Ha. rewrite Hw; [by rewrite ld_set_cell|]. intros k Hk ->. apply Ha. apply page_of_in; [apply Hp|lia].
Qed.

(** What lies in a held page is not touched. *)
Lemma fresh_words s p s' a : fresh_page s p s' -> held s (page_of a) -> ld s' a = ld s a.
Proof. intros HF Ha. apply HF. intros E. apply (fp_new _ _ _ HF). by rewrite <- E. Qed.

Lemma slot_held h B D k sz b o a :
  heap_ok h B D -> sizes !! k = Some sz -> b ∈ B k -> o ∈ slots sz (b_page b) -> o <= a < o + sz ->
  page_of a = b_page b /\ held (hmm h) (page_of a).
Proof.
  intros HO Hk Hb Ho Ha. destruct (held_page h B D k sz b HO Hk Hb) as [A _].
  destruct (slot_page _ _ _ _ Hk A Ho) as (_ & H1 & H2).
  assert (E : page_of a = b_page b). { replace a with (b_page b + (a - b_page b)) by lia. apply page_of_in; [done|lia]. }
  split; [done|]. rewrite E. apply (hk_bucket _ _ _ HO k sz b Hk Hb).
Qed.
Lemma free_held h B D b o : heap_ok h B D -> b ∈ used B -> o ∈ b_free b -> page_of o = b_page b /\ held (hmm h) (page_of o).
Proof.
  intros HO (k & Hk & Hb)%elem_of_used Ho. destruct (lookup_lt_is_Some_2 sizes k Hk) as [sz Hs].
  destruct (sizes_div k sz Hs) as [? _]. eapply slot_held; [done..| |]; [|split; [reflexivity|lia]].
  by apply (hk_bucket _ _ _ HO k sz b Hs Hb).
Qed.

Lemma heap_fresh h B D p m : heap_ok h B D -> fresh_page (hmm h) p m -> heap_ok (with_hmm h m) B D.
Proof.
  intros HO HF. apply heap_frame; [done|apply HF|apply HF|]. intros b o Hb Ho. eapply fresh_words; [done|].
  by eapply free_held.
Qed.

(** ** Descriptors *)

(** The descriptors of a page, and the state with them. *)
Definition descs_of (p : Z) : list Z := map (fun j => p + 16 * j) (seqZ 0 256).
Lemma elem_of_descs p a : a ∈ descs_of p <-> exists j, 0 <= j < 256 /\ a = p + 16 * j.
Proof.
  unfold descs_of. change (map ?f ?l) with (f <$> l). rewrite list_elem_of_fmap. setoid_rewrite elem_of_seqZ.
  split; intros (j & H1 & H2); exists j; (split; [lia|done]) || (split; [done|lia]).
Qed.

Definition with_descs (h : heap) (t : gmap Z bucket_desc) : heap := {| h with descs := t |}.
Record desc_page (p : Z) (h h' : heap) : Prop := {
  dp_rest : h' = {| h with free_bucket_desc := p; descs := descs h' |};
  dp_next : forall j, 0 <= j < 255 -> descs h' !! (p + 16 * j) = Some (Desc 0 (p + 16 * (j + 1)) 0 0 0);
  dp_last : descs h' !! (p + 16 * 255) = Some (Desc 0 (free_bucket_desc h) 0 0 0);
  dp_frame : forall a, a ∉ descs_of p -> descs h' !! a = descs h !! a
}.

Lemma init_bucket_desc_page h n :
  mm_ok (hmm h) -> room (hmm h) (S n) ->
  exists p m h', init_bucket_desc h = Done tt h' /\ fresh_page (hmm h) p m /\ p <> 0 /\ room m n /\ desc_page p (with_hmm h m) h'.
Proof.
  intros Hm Hr. destruct (get_fresh_page h n Hm Hr) as (p & m & E & HF & Hp & Hr'). exists p, m.
  destruct (for_up_inv (fun i t =>
      t = with_descs (with_hmm h m) (descs t) /\
      (forall j, 0 <= j < i -> descs t !! (p + 16 * j) = Some (Desc 0 (p + 16 * (j + 1)) 0 0 0)) /\
      (forall a, a ∉ descs_of p -> descs t !! a = descs h !! a)) 255 0
    (fun i => put_desc (p + 16 * i) (Desc 0 (p + 16 * i + 16) 0 0 0)) (with_hmm h m)) as (t & Et & Ht & Hn & Hf).
  - split; [by destruct h|]. split; [lia|done].
  - intros j t Hj (Ht & Hn & Hf). exists (with_desc t (p + 16 * j) (Desc 0 (p + 16 * j + 16) 0 0 0)).
    split; [done|]. cbn. split; [by rewrite Ht|]. split.
    + intros i Hi. destruct (decide (i = j)) as [->|Hne].
      * rewrite lookup_insert_eq. do 2 f_equal. lia.
      * rewrite lookup_insert_ne by lia. apply Hn. lia.
    + intros a Ha. rewrite lookup_insert_ne; [by apply Hf|]. intros <-. apply Ha, elem_of_descs. exists j. split; [lia|done].
  - eexists. split; [|split; [done|split; [done|split; [done|]]]].
    + unfold init_bucket_desc. erewrite done_bind by exact E. rewrite decide_False by done. cbv zeta.
      erewrite done_bind by exact Et. rewrite gets_bind. reflexivity.
    + change (p + SIZEOF_BUCKET_DESC * _) with (p + 16 * 255). split; cbn.
      * rewrite Ht. reflexivity.
      * intros j Hj. rewrite lookup_insert_ne by lia. apply Hn. lia.
      * rewrite lookup_insert_eq. by rewrite Ht.
      * intros a Ha. rewrite lookup_insert_ne; [by apply Hf|]. intros <-. apply Ha, elem_of_descs. exists 255. split; [lia|done].
Qed.

Lemma desc_page_spare p h h' : p > 0 -> free_bucket_desc h = 0 -> desc_page p h h' -> spare_ok h' p (descs_of p).
Proof.
  intros Hp Hf HD.
  enough (H : forall n j, 0 <= j -> j + Z.of_nat n = 256 ->
    spare_ok h' (if decide (j = 256) then 0 else p + 16 * j) (map (fun j => p + 16 * j) (seqZ j (Z.of_nat n)))).
  { specialize (H 256%nat 0 ltac:(lia) ltac:(lia)). by rewrite decide_False, Z.mul_0_r, Z.add_0_r in H by lia. }
  induction n as [|n IH]; intros j Hj Hn.
  { cbn. by rewrite decide_True by lia. }
  rewrite seqZ_cons by lia. cbn [map spare_ok]. rewrite decide_False by lia. split_and!; [done|lia|].
  replace (Z.pred (Z.of_nat (S n))) with (Z.of_nat n) by lia. specialize (IH (Z.succ j) ltac:(lia) ltac:(lia)).
  destruct (decide (j = 255)) as [->|Hne].
  - exists (Desc 0 (free_bucket_desc h) 0 0 0). split; [apply HD|]. rewrite decide_True in IH by lia. cbn [next]. by rewrite Hf.
  - exists (Desc 0 (p + 16 * (j + 1)) 0 0 0). split; [apply HD; lia|]. rewrite decide_False in IH by lia. exact IH.
Qed.

Lemma init_bucket_desc_ok h B n :
  heap_ok h B [] -> room (hmm h) (S n) ->
  exists p m h', init_bucket_desc h = Done tt h' /\ heap_ok h' B (descs_of p) /\ fresh_page (hmm h) p m /\ room m n /\
    hmm h' = m /\ bucket_dir h' = bucket_dir h.
Proof.
  intros HO Hr. destruct (init_bucket_desc_page h n (hk_mm _ _ _ HO) Hr) as (p & m & h' & E & HF & Hp & Hr' & HD).
  exists p, m, h'. split; [done|]. pose proof (heap_fresh _ _ _ _ _ HO HF) as HO1.
  pose proof (managed_page m p (fp_mm _ _ _ HF) (proj1 (fp_held _ _ _ HF))) as (Hpa & Hlow & _ & _).
  assert (Em : hmm h' = m) by (by rewrite (dp_rest _ _ _ HD)).
  assert (Ed : bucket_dir h' = bucket_dir h) by (by rewrite (dp_rest _ _ _ HD)).
  assert (Hout : forall a, a ∈ descs_of p -> page_of a = p).
  { intros a (j & Hj & ->)%elem_of_descs. apply page_of_in; [done|lia]. }
  assert (Hapart : forall a, a ∈ map b_desc (used B) -> a ∉ descs_of p).
  { intros a Ha Hd. destruct (hk_dpages _ _ _ HO a) as [Hh _]; [set_solver|]. apply (fp_new _ _ _ HF).
    by rewrite <- (Hout a Hd). }
  split; [|by split_and!]. pose proof (hk_descs _ _ _ HO) as HN. rewrite app_nil_r in HN.
  split; rewrite ?Em; try apply HO1.
  - rewrite Ed. apply HO.
  - intros k d Hk Hd. rewrite Ed in Hd. eapply chain_ext; [|by eapply (hk_chain _ _ _ HO1)].
    intros b Hb. apply (dp_frame _ _ _ HD). apply Hapart. apply elem_of_map, elem_of_used. by exists k.
  - apply NoDup_app. split; [done|]. split; [intros a Ha; by apply Hapart|].
    unfold descs_of. change (map ?f ?l) with (f <$> l). apply NoDup_fmap_2; [intros x y; lia|]. apply NoDup_seqZ.
  - intros a [Ha|Ha]%elem_of_app.
    + apply (hk_dpages _ _ _ HO1). rewrite app_nil_r. done.
    + rewrite (Hout a Ha). split; [apply HF|]. intros b (k & Hk & Hb)%elem_of_used ->%eq_sym.
      destruct (lookup_lt_is_Some_2 sizes k Hk) as [sz Hs]. apply (fp_new _ _ _ HF).
      apply (hk_bucket _ _ _ HO k sz b Hs Hb).
  - assert (Ef : free_bucket_desc h' = p) by (by rewrite (dp_rest _ _ _ HD)). rewrite Ef.
    eapply desc_page_spare; [unfold LOW_MEM in Hlow; lia| |exact HD]. exact (hk_spare _ _ _ HO).
Qed.

(** ** Objects *)

Fixpoint objs (n : nat) (cp sz : Z) : list Z := match n with O => [cp] | S n' => cp :: objs n' (cp + sz) sz end.

Lemma objs_slots n cp sz j : objs n (cp + sz * j) sz = map (fun j => cp + sz * j) (seqZ j (Z.of_nat n + 1)).
Proof.
  revert j. induction n as [|n IH]; intros j; cbn [objs]; rewrite seqZ_cons by lia; cbn [map].
  - done.
  - replace (cp + sz * j + sz) with (cp + sz * Z.succ j) by lia. rewrite IH. do 3 f_equal. lia.
Qed.
Lemma objs_above n cp sz o : 0 < sz -> o ∈ objs n cp sz -> cp <= o.
Proof.
  intros Hs. revert cp. induction n as [|n IH]; intros cp; cbn [objs].
  - intros ->%list_elem_of_singleton. lia.
  - intros [->|H]%elem_of_cons; [lia|]. apply IH in H. lia.
Qed.

Lemma link_objects_ok n cp sz s :
  mm_ok s -> 0 < sz -> 0 < cp -> cp + sz * Z.of_nat n < 2 ^ 32 ->
  exists m, (forall h, hmm h = s -> link_objects n cp sz h = Done tt (with_hmm h m)) /\ mm_ok m /\
    HIGH_MEMORY m = HIGH_MEMORY s /\ mem_map m = mem_map s /\
    lseg (ld m) cp (objs n cp sz) /\ forall a, a ∉ objs n cp sz -> ld m a = ld s a.
Proof.
  revert cp s. induction n as [|n IH]; intros cp s Hm Hs Hcp Hb; cbn [link_objects objs].
  - exists (st cp 0 s). split; [by intros h <-|]. split; [by apply st_ok|]. split; [done|]. split; [done|].
    cbn [lseg]. rewrite ld_st_eq. split; [split_and!; [done|lia|done]|].
    intros a Ha. rewrite ld_st_ne; [done|]. intros ->. apply Ha. set_solver.
  - destruct (IH (cp + sz) (st cp (cp + sz) s)) as (m & E & H1 & H2 & H3 & H4 & H5); [|lia..|].
    { apply st_ok; [done|]. unfold word. lia. }
    exists m. split; [intros h <-; erewrite done_bind by apply store_ok; rewrite E; done|]. split; [done|]. split; [done|]. split; [done|].
    assert (Hcp' : cp ∉ objs n (cp + sz) sz) by (intros H%objs_above; lia). split.
    + cbn [lseg]. split; [done|]. split; [lia|]. rewrite H5 by done. by rewrite ld_st_eq.
    + intros a Ha. rewrite H5 by set_solver. rewrite ld_st_ne; [done|]. intros ->. apply Ha. set_solver.
Qed.

(** A fresh page cut into objects of a class. *)
Lemma link_page k sz cp s :
  mm_ok s -> sizes !! k = Some sz -> held s cp ->
  exists m, (forall h, hmm h = s -> link_objects (Z.to_nat (PAGE_SIZE / sz - 1)) cp sz h = Done tt (with_hmm h m)) /\ mm_ok m /\
    (forall p, held m p <-> held s p) /\ lseg (ld m) cp (slots sz cp) /\
    forall a, page_of a <> cp -> ld m a = ld s a.
Proof.
  intros Hm Hk Hh. destruct (sizes_div k sz Hk) as (S1 & _ & S3 & S4).
  destruct (managed_page _ _ Hm (proj1 Hh)) as (P1 & P2 & P3 & P4). unfold LOW_MEM in P2. change PAGE_SIZE with 4096.
  set (n := Z.to_nat (4096 / sz - 1)).
  assert (Eo : objs n cp sz = slots sz cp).
  { pose proof (objs_slots n cp sz 0) as E. rewrite Z.mul_0_r, Z.add_0_r in E. rewrite E. unfold slots. do 2 f_equal. lia. }
  destruct (link_objects_ok n cp sz s Hm) as (m & E & H1 & H2 & H3 & H4 & H5); [lia|lia|unfold n; nia|].
  rewrite Eo in *. exists m. split; [done|]. split; [done|]. split; [|split; [done|]].
  - intros p. unfold held, managed, cell. by rewrite H2, H3.
  - intros a Ha. apply H5. intros Hin. destruct (slot_page _ _ _ _ Hk P1 Hin) as [? _]. done.
Qed.

(** ** A bucket is linked in *)

Definition full_bucket (a cp sz : Z) : abucket := AB a cp (slots sz cp).

Lemma add_bucket h B D a cp k sz bd d :
  heap_ok h B (a :: D) -> sizes !! k = Some sz -> bucket_dir h !! k = Some bd -> descs h !! a = Some d ->
  (forall x, x ∈ map b_desc (used B) ++ a :: D -> page_of x <> cp) -> (forall c, c ∈ used B -> b_page c <> cp) ->
  bucket_ok (hmm h) sz (full_bucket a cp sz) ->
  heap_ok {| bucket_dir := <[k := set_chain a bd]> (bucket_dir h); free_bucket_desc := next d;
             descs := <[a := desc_of sz (chain bd) (full_bucket a cp sz)]> (descs h); hmm := hmm h |}
          (set_class k (full_bucket a cp sz :: B k) B) D.
Proof.
  intros HO Hk Ebd Ed Hcp1 Hcp2 Hb. set (b := full_bucket a cp sz). pose proof (class_lt k sz Hk) as Hk9.
  assert (HPu : used (set_class k (b :: B k) B) ≡ₚ b :: used B).
  { rewrite (used_set_class B k _ Hk9), (used_split B k Hk9). done. }
  pose proof (hk_descs _ _ _ HO) as HN. pose proof HN as (N1 & N2 & N3)%NoDup_app. apply NoDup_cons in N3 as [N3 N4].
  assert (Hau : a ∉ map b_desc (used B)) by (intros H; apply (N2 a H); set_solver).
  assert (Hc : forall j, (j < 9)%nat -> forall c, c ∈ B j -> b_desc c <> a).
  { intros j Hj c Hcj Ec. apply Hau. rewrite <- Ec. apply elem_of_map, elem_of_used. by exists j. }
  destruct (hk_spare _ _ _ HO) as (_ & Ha0 & d' & Ed' & Hsp). rewrite Ed in Ed'. injection Ed' as <-.
  split; cbn [bucket_dir free_bucket_desc descs hmm].
  - apply HO.
  - change (map ?f ?l) with (f <$> l). rewrite list_fmap_insert. cbn [set_chain size].
    rewrite list_insert_id; [apply HO|]. by rewrite list_lookup_fmap, Ebd.
  - intros j e Hj He. unfold set_class. destruct (decide (j = k)) as [->|Hne].
    + rewrite list_lookup_insert_eq in He by (by apply lookup_lt_Some in Ebd). injection He as <-.
      assert (Es : size bd = sz).
      { destruct (dir_lookup h B _ k sz HO Hk) as (bd' & E1 & <-). rewrite Ebd in E1. by injection E1 as ->. }
      cbn [set_chain size chain chain_ok]. rewrite Es. split_and!; [done|done|]. exists (chain bd). cbn [descs].
      rewrite lookup_insert_eq. split; [done|]. rewrite <- Es. eapply chain_ext; [|by eapply (hk_chain _ _ _ HO)].
      intros c Hcc. cbn. rewrite lookup_insert_ne; [done|]. by apply not_eq_sym, (Hc k).
    + rewrite list_lookup_insert_ne in He by done. eapply chain_ext; [|by eapply (hk_chain _ _ _ HO)].
      intros c Hcc. cbn. rewrite lookup_insert_ne; [done|]. by apply not_eq_sym, (Hc j).
  - intros j z c Hz Hcc. unfold set_class in Hcc. destruct (decide (j = k)) as [->|]; [|by apply (hk_bucket _ _ _ HO j)].
    rewrite Hk in Hz. injection Hz as <-. apply elem_of_cons in Hcc as [->|Hcc]; [done|by apply (hk_bucket _ _ _ HO k)].
  - rewrite HPu. cbn [map b_desc b full_bucket]. rewrite <- app_comm_cons, Permutation_middle. done.
  - rewrite HPu. cbn [map]. apply NoDup_cons. split; [|apply HO]. intros Hin. apply list_elem_of_In, in_map_iff in Hin as (c & Ec & Hcin).
    by apply (Hcp2 c); [apply list_elem_of_In|].
  - intros x Hx. assert (Hx' : x ∈ map b_desc (used B) ++ a :: D).
    { rewrite HPu in Hx. cbn [map b_desc b full_bucket] in Hx. set_solver. }
    destruct (hk_dpages _ _ _ HO x Hx') as [H1 H2]. split; [done|]. intros c Hcin. rewrite HPu in Hcin.
    apply elem_of_cons in Hcin as [->|Hcin]; [|by apply H2]. cbn. intros E. by apply (Hcp1 x Hx').
  - eapply spare_ext; [|exact Hsp]. intros x Hx. cbn. rewrite lookup_insert_ne; [done|]. intros ->. done.
Qed.

Lemma full_bucket_live B k a cp sz o z :
  sizes !! k = Some sz -> live (set_class k (full_bucket a cp sz :: B k) B) o z <-> live B o z.
Proof.
  intros Hk. unfold live, set_class. split; intros (j & c & Hj & Hc & Ho & Hf); exists j, c.
  - destruct (decide (j = k)) as [->|]; [|done]. apply elem_of_cons in Hc as [->|Hc]; [|done].
    rewrite Hk in Hj. by injection Hj as <-.
  - split_and!; [done| |done|done]. destruct (decide (j = k)) as [->|]; set_solver.
Qed.

End MallocNew.
