(* ===== verification/MallocSpec.v ===== *)
(** * What malloc and free_s promise *)

From S2P Require Import Prelude Memory MemoryFacts Malloc MallocProps MallocOps MallocNew.
Import Memory MemoryFacts Malloc MallocProps MallocOps MallocNew.

Module MallocSpec.

(** What is in the held pages of [s] is as before in [s']. *)
Definition preserved (s s' : mm) : Prop :=
  (forall p, held s p -> held s' p) /\ (forall a, held s (page_of a) -> ld s' a = ld s a).

Lemma preserved_refl s : preserved s s.
Proof. done. Qed.
Lemma preserved_trans s1 s2 s3 : preserved s1 s2 -> preserved s2 s3 -> preserved s1 s3.
Proof. intros [A1 A2] [B1 B2]. split; [naive_solver|]. intros a Ha. rewrite B2 by naive_solver. by apply A2. Qed.
Lemma fresh_preserved s p s' : fresh_page s p s' -> preserved s s'.
Proof. intros HF. split; [apply HF|]. intros a Ha. by eapply fresh_words. Qed.

(** There is a descriptor. *)
Lemma some_desc h B D n :
  heap_ok h B D -> room (hmm h) (S n) ->
  exists h' a D', (if decide (free_bucket_desc h = 0) then init_bucket_desc else skip) h = Done tt h' /\
    heap_ok h' B (a :: D') /\ room (hmm h') n /\ preserved (hmm h) (hmm h') /\ bucket_dir h' = bucket_dir h.
Proof.
  intros HO Hr. pose proof (hk_spare _ _ _ HO) as Hsp. destruct D as [|a D].
  - cbn in Hsp. rewrite decide_True by done.
    destruct (init_bucket_desc_ok h B n HO Hr) as (p & m & h' & E & HO' & HF & Hr' & Em & Ed).
    exists h', p, (map (fun j => p + 16 * j) (seqZ 1 255)). split; [done|].
    split; [unfold descs_of in HO'; rewrite seqZ_cons in HO' by lia; cbn [map] in HO'; by rewrite Z.mul_0_r, Z.add_0_r in HO'|].
    rewrite Em. split; [done|]. split; [by eapply fresh_preserved|done].
  - destruct Hsp as (-> & Ha & _). rewrite decide_False by done. exists h, a, D. split; [done|]. split; [done|].
    split; [|done]. destruct Hr as (L & H1 & H2 & H3). exists L. split; [done|]. split; [done|lia].
Qed.

Lemma new_bucket_ok h B D k sz :
  heap_ok h B D -> sizes !! k = Some sz -> room (hmm h) 2 ->
  exists h' a cp D', new_bucket k h = Done a h' /\ a <> 0 /\
    heap_ok h' (set_class k (full_bucket a cp sz :: B k) B) D' /\ preserved (hmm h) (hmm h').
Proof.
  intros HO Hk Hr. destruct (some_desc h B D 1 HO Hr) as (h1 & a & D1 & E1 & HO1 & Hr1 & Hp1 & Ed1).
  destruct (hk_spare _ _ _ HO1) as (Ef & Ha & d & Ed & _).
  destruct (dir_lookup h1 B _ k sz HO1 Hk) as (bd & Ebd & Es).
  destruct (get_fresh_page h1 0 (hk_mm _ _ _ HO1) Hr1) as (cp & m & E2 & HF & Hcp & _).
  pose proof (heap_fresh _ _ _ _ _ HO1 HF) as HO2.
  destruct (link_page k sz cp m (fp_mm _ _ _ HF) Hk (fp_held _ _ _ HF)) as (m' & E3 & Hm' & Hh' & Hl & Hw).
  assert (Hold : forall p, held (hmm h1) p -> p <> cp) by (intros p Hp ->; by apply (fp_new _ _ _ HF)).
  assert (HO3 : heap_ok (with_hmm h1 m') B (a :: D1)).
  { apply (heap_frame (with_hmm h1 m) B (a :: D1) m'); [done|done|intros p; apply Hh'|].
    intros b o Hb Ho. apply Hw. apply Hold. by eapply (free_held h1). }
  assert (Hnz : 4096 / sz - zlen (slots sz cp) = 0).
  { destruct (sizes_div k sz Hk) as (_ & _ & ? & _). rewrite length_slots; lia. }
  assert (Edesc : set_next (chain bd) (Desc cp (next d) cp 0 (u16 sz)) = desc_of sz (chain bd) (full_bucket a cp sz)).
  { destruct (sizes_div k sz Hk) as (? & _). unfold desc_of, set_next. cbn. rewrite Hnz, <- (lseg_first _ _ _ Hl).
    unfold u16. by rewrite Z.mod_small by lia. }
  eexists _, a, cp, D1. split; [|split; [done|split]].
  - unfold new_bucket. rewrite gets_bind. erewrite done_bind by exact E1. rewrite gets_bind, Ef.
    erewrite done_bind by by apply desc_at_ok. unfold set_free_desc. rewrite modify_bind.
    erewrite done_bind by by apply dir_at_ok.
    erewrite done_bind by (unfold on_hmm, zoom in *; cbn [hmm] in *; by destruct (get_free_page (hmm h1)); inversion E2).
    erewrite done_bind by by apply upd_desc_ok. rewrite decide_False by done. rewrite Es.
    erewrite done_bind by by apply E3. erewrite done_bind by by apply upd_desc_ok, lookup_insert_eq.
    erewrite done_bind by by apply upd_dir_ok. cbn. rewrite Edesc, insert_insert_eq. reflexivity.
  - apply (add_bucket (with_hmm h1 m')); [done..| | |].
    + intros x Hx. apply Hold. by apply (hk_dpages _ _ _ HO1).
    + intros c (j & Hj & Hc)%elem_of_used. destruct (lookup_lt_is_Some_2 sizes j Hj) as [z Hz].
      apply Hold. by apply (hk_bucket _ _ _ HO1 j z c Hz Hc).
    + split; [by apply Hh', HF| |done|].
      * cbn. unfold slots. change (map ?f ?l) with (f <$> l). destruct (sizes_div k sz Hk) as [? _].
        apply NoDup_fmap_2; [intros x y; nia|]. apply NoDup_seqZ.
      * cbn. by rewrite <- (lseg_first _ _ _ Hl).
  - cbn. eapply preserved_trans; [exact Hp1|]. split; [intros p Hp; by apply Hh', HF|].
    intros x Hx. rewrite Hw by (by apply Hold). by eapply fresh_words.
Qed.

Lemma class_length B k : (k < 9)%nat -> zlen (B k) <= zlen (used B).
Proof. intros Hk. pose proof (Permutation_length (used_split B k Hk)) as E. rewrite length_app in E. unfold zlen. lia. Qed.

Lemma free_nonzero h B D k sz b o : heap_ok h B D -> sizes !! k = Some sz -> b ∈ B k -> o ∈ b_free b -> o <> 0.
Proof.
  intros HO Hk Hb Ho. destruct (held_page h B D k sz b HO Hk Hb) as (A & H1 & _).
  destruct (slot_page _ _ _ _ Hk A (bo_slots _ _ _ (hk_bucket _ _ _ HO k sz b Hk Hb) o Ho)) as (_ & H2 & _).
  unfold LOW_MEM in *. lia.
Qed.

(** The object handed out: [sz] bytes at [r] that nobody has. *)
Record given (B : nat -> list abucket) (h : heap) (r sz : Z) (B' : nat -> list abucket) (h' : heap) : Prop := {
  gv_nonnull : r <> 0;
  gv_apart : apart_from B r sz;
  gv_live : forall o z, live B' o z <-> live B o z \/ (o = r /\ z = sz);
  gv_words : preserved (hmm h) (hmm h');
  gv_count : zlen (used B') <= zlen (used B) + 1
}.

(** A bucket of the class with a free object. *)
Lemma take_given h B D k sz bs1 b bs2 :
  heap_ok h B D -> place B k sz bs1 b bs2 -> b_free b <> [] ->
  exists r h' B', take_object (b_desc b) h = Done r h' /\ heap_ok h' B' D /\ given B h r sz B' h' /\ zlen (used B') = zlen (used B).
Proof.
  intros HO HP Hf. destruct (b_free b) as [|r fl] eqn:Ef; [done|].
  destruct (take_object_ok h B D k sz bs1 b bs2 r fl HO HP Ef) as (h' & B' & E & Em & HO' & Hn & HL).
  destruct (place_in _ _ _ _ _ _ HP) as (_ & Hb & _). pose proof (pl_size _ _ _ _ _ _ HP) as Hs.
  exists r, h', B'. split; [done|]. split; [done|]. split; [|done]. split; [|by eapply (free_apart h); [| |rewrite Ef; set_solver]| | |lia].
  - eapply (free_nonzero h); [done..|]. rewrite Ef. set_solver.
  - done.
  - by rewrite Em.
Qed.

(** C12: [malloc] of at most 4096 bytes, with two pages free, ends without a panic and leaves a
    well-formed heap: the object is the first of the smallest size that is large enough, shares
    no byte with any object in use, is in use from now on together with those that were, and
    the contents of theirs stay. *)
Theorem malloc_fresh fuel h B D len :
  heap_ok h B D -> 0 <= len <= 4096 -> zlen (used B) < Z.of_nat fuel -> room (hmm h) 2 ->
  exists r h' B' D' k sz, malloc fuel len h = Done r h' /\ heap_ok h' B' D' /\ fits len k sz /\ given B h r sz B' h'.
Proof.
  intros HO Hlen Hfuel Hr. destruct (find_dir_ok h B D len HO ltac:(lia)) as (k & sz & E1 & HF). destruct HF as (Hk & HF).
  pose proof (class_lt k sz Hk) as Hk9. destruct (dir_lookup h B D k sz HO Hk) as (bd & Ebd & Es).
  pose proof (hk_chain _ _ _ HO k bd Hk9 Ebd) as Hc. rewrite Es in Hc.
  destruct (find_free_ok fuel h sz (chain bd) (B k)) as (p & E2 & Hp); [|by intros b o; eapply free_nonzero|done|].
  { pose proof (class_length B k Hk9). unfold zlen in *. lia. }
  assert (Hrun : malloc fuel len h = ((if decide (p = 0) then new_bucket k else mret p) ≫= take_object) h).
  { unfold malloc. erewrite done_bind by exact E1. cbv iota. erewrite done_bind by by apply dir_at_ok.
    by erewrite done_bind by exact E2. }
  rewrite Hrun. destruct Hp as [[-> _]|(Hp0 & bs1 & b & bs2 & HB & -> & Hf)].
  - destruct (new_bucket_ok h B D k sz HO Hk Hr) as (h1 & a & cp & D1 & E3 & Ha & HO1 & Hw).
    set (B1 := set_class k (full_bucket a cp sz :: B k) B) in *.
    assert (HP : place B1 k sz [] (full_bucket a cp sz) (B k)) by (split; [done|by unfold B1; rewrite set_class_eq]).
    destruct (take_given h1 B1 D1 k sz [] _ _ HO1 HP) as (r & h' & B' & E4 & HO' & HG & Hn).
    { cbn. destruct (sizes_div k sz Hk) as (_ & _ & ? & _). intros Hnil. pose proof (length_slots sz cp ltac:(lia)) as Hl.
      rewrite Hnil in Hl. unfold zlen in Hl. cbn in Hl. lia. }
    exists r, h', B', D1, k, sz. split; [rewrite decide_True by done; by erewrite done_bind by exact E3|].
    split; [done|]. split; [done|]. destruct HG as [G1 G2 G3 G4 _]. split; [done| | | |].
    + intros o z Ho. apply G2. by apply full_bucket_live.
    + intros o z. rewrite G3. unfold B1. by rewrite full_bucket_live.
    + by eapply preserved_trans.
    + rewrite Hn. unfold B1. rewrite used_length by done. unfold zlen. cbn [length]. lia.
  - destruct (take_given h B D k sz bs1 b bs2 HO) as (r & h' & B' & E4 & HO' & HG & _); [by split|done|].
    exists r, h', B', D, k, sz. rewrite decide_False by done. done.
Qed.

(** Too large a request stops the kernel. *)
Lemma malloc_too_large fuel h B D len : heap_ok h B D -> 4096 < len -> malloc fuel len h = Panic "malloc: bad arg" h.
Proof.
  intros HO Hlen. enough (E : forall n k, (k + n = 10)%nat -> (1 <= n)%nat -> find_dir n k len h = Done None h).
  { unfold malloc. by rewrite (done_bind _ _ _ _ _ (E 10%nat 0%nat ltac:(lia) ltac:(lia))). }
  induction n as [|n IH]; intros k Hk Hn; [lia|]. cbn [find_dir]. destruct (decide (k = 9%nat)) as [->|Hne].
  - destruct (dir_last h B D HO) as (d & Ed & Es). erewrite done_bind by by apply dir_at_ok. by rewrite Es.
  - destruct (lookup_lt_is_Some_2 sizes k) as [sz Hsz]; [cbn; lia|].
    destruct (dir_lookup h B D k sz HO Hsz) as (d & Ed & Es). erewrite done_bind by by apply dir_at_ok.
    rewrite Es. destruct (sizes_div k sz Hsz) as [? _]. rewrite !decide_False by lia. apply IH; lia.
Qed.

(** The owner of an object may write anything into it. *)
Lemma write_live h B D o z a v :
  heap_ok h B D -> live B o z -> o <= a < o + z -> word v -> heap_ok (with_hmm h (st a v (hmm h))) B D.
Proof.
  intros HO Ho Ha Hv. apply heap_frame; [done|by apply st_ok; [apply HO|]|done|].
  intros b x (k & Hk & Hb)%elem_of_used Hx. rewrite ld_st_ne; [done|]. intros <-.
  destruct (lookup_lt_is_Some_2 sizes k Hk) as [sz Hs]. destruct (list_elem_of_split _ _ Hb) as (l1 & l2 & El).
  destruct (sizes_div k sz Hs) as [? _].
  destruct (free_apart h B D k sz l1 b l2 a HO) with (o := o) (z := z); [by split|done|done|lia|lia].
Qed.

End MallocSpec.
