(* ===== verification/MallocFree.v ===== *)
(** * Freeing an object *)

From S2P Require Import Prelude Memory MemoryFacts Malloc MallocProps MallocOps MallocNew MallocSpec MemoryProps.
Import Memory MemoryFacts Malloc MallocProps MallocOps MallocNew MallocSpec.

Module MallocFree.

(** ** The bucket of an address *)

Lemma page_of_land a : 0 <= a < 2 ^ 32 -> Z.land a 0xfffff000 = page_of a.
Proof.
  intros Ha. rewrite Z.land_comm. exact (frame_div a Ha).
Qed.

(** The descriptor before the end of [bs]. *)
Definition prev_of (prev : Z) (bs : list abucket) : Z := fold_left (fun _ b => b_desc b) bs prev.

Lemma prev_of_snoc prev bs c : prev_of prev (bs ++ [c]) = b_desc c.
Proof. unfold prev_of. by rewrite fold_left_app. Qed.

Lemma find_page_ok n pg h sz p prev bs :
  (length bs < n)%nat -> chain_ok h sz p bs ->
  (find_page n pg p prev h = Done None h /\ forall b, b ∈ bs -> b_page b <> pg) \/
  (exists bs1 b bs2, bs = bs1 ++ b :: bs2 /\ b_page b = pg /\ find_page n pg p prev h = Done (Some (b_desc b, prev_of prev bs1)) h).
Proof.
  revert n p prev. induction bs as [|b bs IH]; intros n p prev Hn Hc.
  { cbn in Hc. subst p. left. split; [by destruct n|]. intros b Hb. by apply elem_of_nil in Hb. }
  destruct n as [|n]; [cbn in Hn; lia|]. destruct Hc as (-> & Hp & nxt & E & Hc). cbn [find_page].
  rewrite decide_False by done. erewrite done_bind by by apply desc_at_ok. cbn [page desc_of].
  destruct (decide (b_page b = pg)) as [Eb|Eb].
  - right. by exists [], b, bs.
  - destruct (IH n nxt (b_desc b)) as [[R H]|(bs1 & c & bs2 & -> & Hc' & R)]; [cbn in Hn; lia|done|left|right].
    + split; [done|]. intros c [->|Hc']%elem_of_cons; [done|by apply H].
    + exists (b :: bs1), c, bs2. done.
Qed.

Lemma find_bucket_ok fuel h B D k sz b osz :
  heap_ok h B D -> sizes !! k = Some sz -> b ∈ B k -> osz <= sz -> zlen (used B) < Z.of_nat fuel ->
  exists bs1 bs2, place B k sz bs1 b bs2 /\
    find_bucket fuel 10 0 (b_page b) osz h = Done (Some (k, b_desc b, prev_of 0 bs1)) h.
Proof.
  intros HO Hk Hb Ho Hf. pose proof (class_lt k sz Hk) as Hk9.
  enough (H : forall n j, (j + n = 10)%nat -> (j <= k)%nat -> exists bs1 bs2, place B k sz bs1 b bs2 /\
      find_bucket fuel n j (b_page b) osz h = Done (Some (k, b_desc b, prev_of 0 bs1)) h) by (apply H; lia).
  induction n as [|n IH]; intros j Hj Hjk; [lia|]. cbn [find_bucket].
  destruct (lookup_lt_is_Some_2 sizes j) as [z Hz]; [cbn; lia|]. destruct (dir_lookup h B D j z HO Hz) as (d & Ed & Es).
  erewrite done_bind by by apply dir_at_ok. rewrite Es. destruct (sizes_div j z Hz) as [? _].
  rewrite decide_False by lia. pose proof (hk_chain _ _ _ HO j d (class_lt _ _ Hz) Ed) as Hc. rewrite Es in Hc.
  assert (Hfl : (length (B j) < fuel)%nat).
  { pose proof (class_length B j (class_lt _ _ Hz)). unfold zlen in *. lia. }
  destruct (decide (j = k)) as [->|Hne].
  - rewrite Hk in Hz. injection Hz as <-. rewrite decide_False by lia.
    destruct (find_page_ok fuel (b_page b) h sz (chain d) 0 (B k) Hfl Hc) as [[_ Hno]|(bs1 & c & bs2 & HB & Ec & R)].
    + by destruct (Hno b Hb).
    + assert (c = b) as ->.
      { apply (bucket_unique h B D k k c b HO Hk9 Hk9); [rewrite HB; set_solver|done|by right]. }
      exists bs1, bs2. split; [by split|]. by erewrite done_bind by exact R.
  - case_decide; [by apply IH; lia|].
    destruct (find_page_ok fuel (b_page b) h z (chain d) 0 (B j) Hfl Hc) as [[R _]|(bs1 & c & bs2 & HB & Ec & R)].
    + erewrite done_bind by exact R. apply IH; lia.
    + exfalso. apply Hne. apply (bucket_unique h B D j k c b HO (class_lt _ _ Hz) Hk9); [rewrite HB; set_solver|done|by right].
Qed.

(** ** The object goes back to its bucket *)

Definition push_free (o : Z) (b : abucket) : abucket := AB (b_desc b) (b_page b) (o :: b_free b).

Lemma word_first h B D k sz b : heap_ok h B D -> sizes !! k = Some sz -> b ∈ B k -> word (first (b_free b)).
Proof.
  intros HO Hk Hb. pose proof (hk_bucket _ _ _ HO k sz b Hk Hb) as [_ _ K3 _].
  destruct (b_free b) as [|o l]; [done|]. cbn. destruct (held_page h B D k sz b HO Hk Hb) as (A & H1 & H2).
  destruct (slot_page sz (b_page b) o k Hk A) as (_ & ? & ?); [apply K3; set_solver|].
  destruct (sizes_div k sz Hk) as [? _]. unfold word, LOW_MEM in *. lia.
Qed.

Lemma push_free_ok h B D k sz bs1 b bs2 o nxt :
  heap_ok h B D -> place B k sz bs1 b bs2 -> descs h !! b_desc b = Some (desc_of sz nxt b) ->
  o ∈ slots sz (b_page b) -> o ∉ b_free b ->
  heap_ok (with_desc (with_hmm h (st o (first (b_free b)) (hmm h))) (b_desc b) (desc_of sz nxt (push_free o b)))
          (set_class k (bs1 ++ push_free o b :: bs2) B) D.
Proof.
  intros HO HP E Ho Hf. destruct (place_in _ _ _ _ _ _ HP) as (Hk & Hb & _). pose proof (pl_size _ _ _ _ _ _ HP) as Hs.
  pose proof (hk_bucket _ _ _ HO k sz b Hs Hb) as [K1 K2 K3 K4]. destruct (held_page h B D k sz b HO Hs Hb) as (A & Hlow & _).
  destruct (slot_page _ _ _ _ Hs A Ho) as (P1 & P2 & _).
  eapply update_bucket; try done; cbn.
  - apply st_ok; [apply HO|]. by eapply word_first.
  - intros c x (j & Hj & Hc)%elem_of_used Hne Hx. rewrite ld_st_ne; [done|]. intros <-.
    destruct (free_held h B D c o HO) as [P3 _]; [by apply elem_of_used; exists j|done|].
    apply Hne. apply (bucket_unique h B D j k c b HO Hj Hk Hc Hb). right. congruence.
  - split; cbn; [done|by apply NoDup_cons|intros x [->|Hx]%elem_of_cons; [done|by apply K3]|].
    split_and!; [done|unfold LOW_MEM in *; lia|]. rewrite ld_st_eq. eapply lseg_ext; [|exact K4].
    intros x Hx. rewrite ld_st_ne; [done|]. by intros <-.
Qed.

(** ** An empty bucket is given back *)

(** [b] is taken out of the chain of its class. *)
Record unlinked (h h' : heap) (k : nat) (sz : Z) (bs1 : list abucket) (b : abucket) (bs2 : list abucket) : Prop := {
  ul_sizes : map size (bucket_dir h') = map size (bucket_dir h);
  ul_dir : forall j, j <> k -> bucket_dir h' !! j = bucket_dir h !! j;
  ul_chain : forall d, bucket_dir h' !! k = Some d -> chain_ok h' sz (chain d) (bs1 ++ bs2);
  ul_desc : exists d, descs h' !! b_desc b = Some d /\ next d = free_bucket_desc h;
  ul_free : free_bucket_desc h' = b_desc b;
  ul_frame : forall a, a ∉ map b_desc (bs1 ++ [b]) -> descs h' !! a = descs h !! a;
  ul_mm : hmm h' = set_cell (b_page b) 0 (hmm h)
}.

Lemma held_set_cell s p q : mm_ok s -> managed s p -> held (set_cell p 0 s) q <-> held s q /\ q <> p.
Proof.
  intros Hs Hp. unfold held. change (managed (set_cell p 0 s) q) with (managed s q). split.
  - intros [Hq Hc]. rewrite cell_set_cell in Hc by (done || apply Hq). case_decide; [done|]. split; [done|congruence].
  - intros [[Hq Hc] Hne]. split; [done|]. rewrite cell_set_cell by (done || apply Hq). by rewrite decide_False by congruence.
Qed.

Lemma remove_bucket h h' B D k sz bs1 b bs2 :
  heap_ok h B D -> place B k sz bs1 b bs2 -> unlinked h h' k sz bs1 b bs2 ->
  heap_ok h' (set_class k (bs1 ++ bs2) B) (b_desc b :: D).
Proof.
  intros HO HP HU. destruct (place_in _ _ _ _ _ _ HP) as (Hk & Hb & Hbu). pose proof (pl_size _ _ _ _ _ _ HP) as Hs.
  pose proof (bo_page _ _ _ (hk_bucket _ _ _ HO k sz b Hs Hb)) as [Hman Hcell].
  assert (HPu : used B ≡ₚ b :: used (set_class k (bs1 ++ bs2) B)).
  { rewrite (used_set_class B k _ Hk), (used_split B k Hk), (pl_split _ _ _ _ _ _ HP). solve_Permutation. }
  pose proof (hk_descs _ _ _ HO) as HN. rewrite HPu in HN. cbn [map app] in HN. pose proof HN as [HN1 HN2]%NoDup_cons.
  pose proof (hk_pages _ _ _ HO) as HG. rewrite HPu in HG. cbn [map] in HG. apply NoDup_cons in HG as [HG1 HG2].
  assert (Hpre : forall a, a ∈ map b_desc (bs1 ++ [b]) -> exists c, c ∈ B k /\ a = b_desc c).
  { intros a Ha. apply list_elem_of_In, in_map_iff in Ha as (c & <- & Hc). exists c. split; [|done].
    apply list_elem_of_In in Hc. rewrite (pl_split _ _ _ _ _ _ HP). set_solver. }
  assert (Hpg : forall c, c ∈ used (set_class k (bs1 ++ bs2) B) -> b_page c <> b_page b).
  { intros c Hc E. apply HG1. rewrite <- E. by apply elem_of_map. }
  assert (Hheld : forall p, p <> b_page b -> held (hmm h) p -> held (hmm h') p).
  { intros p Hp Hh. rewrite (ul_mm _ _ _ _ _ _ _ HU). by apply held_set_cell; [apply HO|done|]. }
  split.
  - rewrite (ul_mm _ _ _ _ _ _ _ HU). apply set_cell_ok; [apply HO|done|lia].
  - rewrite (ul_sizes _ _ _ _ _ _ _ HU). apply HO.
  - intros j d Hj Hd. unfold set_class. destruct (decide (j = k)) as [->|Hne].
    + destruct (dir_lookup h B D k sz HO Hs) as (d0 & E0 & Es). assert (size d = sz) as ->; [|by apply HU].
      pose proof (ul_sizes _ _ _ _ _ _ _ HU) as E. apply (f_equal (fun l => l !! k)) in E.
      change (map ?f ?l) with (f <$> l) in E. rewrite !list_lookup_fmap, Hd, E0 in E. cbn in E. congruence.
    + rewrite (ul_dir _ _ _ _ _ _ _ HU) in Hd by done. eapply chain_ext; [|by eapply (hk_chain _ _ _ HO)].
      intros c Hc. apply HU. intros (c' & Hc' & E)%Hpre. apply Hne.
      apply (bucket_unique h B D j k c c' HO Hj Hk Hc Hc'). by left.
  - intros j z c Hz Hc. assert (Hcu : c ∈ used (set_class k (bs1 ++ bs2) B)).
    { apply elem_of_used. exists j. split; [by eapply class_lt|done]. }
    assert (Hcj : c ∈ B j).
    { unfold set_class in Hc. case_decide as Ej; [subst j; rewrite (pl_split _ _ _ _ _ _ HP); set_solver|done]. }
    destruct (hk_bucket _ _ _ HO j z c Hz Hcj) as [K1 K2 K3 K4]. split; [by apply Hheld; [apply Hpg|]|done|done|].
    rewrite (ul_mm _ _ _ _ _ _ _ HU). eapply lseg_ext; [|exact K4]. intros a _. apply ld_set_cell.
  - rewrite <- Permutation_middle. exact HN.
  - exact HG2.
  - intros a Ha. rewrite <- Permutation_middle in Ha. destruct (hk_dpages _ _ _ HO a) as [H1 H2].
    { rewrite HPu. exact Ha. }
    split; [apply Hheld; [by apply not_eq_sym, H2|done]|]. intros c Hc. apply H2. rewrite HPu. apply elem_of_cons. by right.
  - destruct (ul_desc _ _ _ _ _ _ _ HU) as (d & Ed & En). cbn [spare_ok]. split; [apply HU|]. split.
    { pose proof (hk_chain _ _ _ HO k) as Hc. destruct (dir_lookup h B D k sz HO Hs) as (d0 & E0 & _).
      specialize (Hc d0 Hk E0). rewrite (pl_split _ _ _ _ _ _ HP) in Hc. by apply chain_get in Hc as [? _]. }
    exists d. split; [done|]. rewrite En. eapply spare_ext; [|apply HO]. intros a Ha. apply HU.
    intros (c & Hc & ->)%Hpre. pose proof (hk_descs _ _ _ HO) as (_ & N & _)%NoDup_app.
    apply (N (b_desc c)); [|done]. apply elem_of_map, elem_of_used. by exists k.
Qed.

Lemma chain_unlink h h' sz p l c b bs2 nxt :
  NoDup (map b_desc (l ++ c :: b :: bs2)) -> descs h !! b_desc b = Some (desc_of sz nxt b) ->
  descs h' !! b_desc c = Some (desc_of sz nxt c) ->
  (forall a, a <> b_desc c -> a <> b_desc b -> descs h' !! a = descs h !! a) ->
  chain_ok h sz p (l ++ c :: b :: bs2) -> chain_ok h' sz p (l ++ c :: bs2).
Proof.
  intros HN Eb Ec Hf. rewrite map_app, !map_cons in HN. apply NoDup_app in HN as (_ & N1 & N2).
  apply NoDup_cons in N2 as [N2 [N3 _]%NoDup_cons]. revert p. induction l as [|x l IH]; intros p; cbn [app chain_ok].
  - intros (-> & Hp & n1 & E1 & -> & _ & n2 & E2 & Hc). rewrite Eb in E2. assert (n2 = nxt) as -> by (by injection E2).
    split_and!; [done|done|]. exists nxt. split; [done|]. eapply chain_ext; [|exact Hc]. intros y Hy.
    apply Hf; intros E; [apply N2|apply N3]; rewrite <- E; [apply elem_of_cons; right|]; by apply elem_of_map.
  - intros (-> & Hp & n1 & E1 & Hc). split_and!; [done..|]. exists n1. split.
    + rewrite Hf; [done| |]; intros E; apply (N1 (b_desc x)); try (cbn; set_solver); rewrite E; set_solver.
    + apply IH; [|done]. intros a Ha. apply N1. cbn. set_solver.
Qed.

Section release.
Context (fuel : nat) (h : heap) (B : nat -> list abucket) (D : list Z) (k : nat) (sz : Z).
Context (bs1 : list abucket) (b : abucket) (bs2 : list abucket).
Context (HO : heap_ok h B D) (HP : place B k sz bs1 b bs2).

Lemma place_descs : NoDup (map b_desc (bs1 ++ b :: bs2)).
Proof.
  pose proof (hk_descs _ _ _ HO) as (N & _)%NoDup_app. destruct (place_in _ _ _ _ _ _ HP) as (Hk & _).
  rewrite (used_split B k Hk), (pl_split _ _ _ _ _ _ HP), map_app in N. by apply NoDup_app in N as (N & _).
Qed.

(** The descriptor of [b], and where the pointer to it is. *)
Lemma place_pointer : exists bd nxt,
  bucket_dir h !! k = Some bd /\ size bd = sz /\ chain_ok h sz (chain bd) (bs1 ++ b :: bs2) /\
  descs h !! b_desc b = Some (desc_of sz nxt b) /\ b_desc b <> 0 /\ chain_ok h sz nxt bs2 /\
  ((bs1 = [] /\ chain bd = b_desc b) \/
   exists l c, bs1 = l ++ [c] /\ b_desc c <> 0 /\ descs h !! b_desc c = Some (desc_of sz (b_desc b) c)).
Proof.
  destruct (place_in _ _ _ _ _ _ HP) as (Hk & _). destruct (dir_lookup h B D k sz HO (pl_size _ _ _ _ _ _ HP)) as (bd & Ebd & Es).
  pose proof (hk_chain _ _ _ HO k bd Hk Ebd) as Hc. rewrite Es, (pl_split _ _ _ _ _ _ HP) in Hc.
  destruct (chain_get _ _ _ _ _ _ Hc) as (Hb0 & nxt & E & Hc2). exists bd, nxt. split_and!; [done..|].
  destruct bs1 as [|c l _] using rev_ind; [left|right].
  - by destruct Hc as [-> _].
  - exists l, c. split; [done|]. rewrite <- app_assoc in Hc. destruct (chain_get _ _ _ _ _ _ Hc) as (Hc0 & n & Ec & -> & _).
    done.
Qed.

Lemma release_bucket_ok :
  exists h', release_bucket fuel k (b_desc b) (prev_of 0 bs1) h = Done tt h' /\ unlinked h h' k sz bs1 b bs2.
Proof.
  destruct place_pointer as (bd & nxt & Ebd & Es & Hc & Eb & Hb0 & Hc2 & Hptr). destruct (place_in _ _ _ _ _ _ HP) as (Hk & Hb & _).
  pose proof place_descs as HN. destruct (bo_page _ _ _ (hk_bucket _ _ _ HO k sz b (pl_size _ _ _ _ _ _ HP) Hb)) as [Hman Hcell].
  set (m := set_cell (b_page b) 0 (hmm h)).
  assert (Hfp : forall t, hmm t = hmm h -> on_hmm (free_page (b_page b)) t = Done tt (with_hmm t m)).
  { intros t Et. unfold on_hmm, zoom. 
    rewrite Et, (free_page_managed _ _ (hk_mm _ _ _ HO) Hman) by lia. by rewrite Hcell. }
  unfold release_bucket. erewrite done_bind by by apply dir_at_ok.
  destruct Hptr as [[-> Ech]|(l & c & -> & Hc0 & Ec)].
  - cbn [prev_of fold_left]. rewrite Ech.
    rewrite (done_bind _ _ h false h) by (by rewrite decide_False, bool_decide_false by (intros Hx; by apply Hx)).
    cbv iota. rewrite ret_bind. erewrite done_bind by by apply desc_at_ok. rewrite decide_False by (intros Hx; by apply Hx).
    rewrite decide_False by (intros Hx; by apply Hx). erewrite done_bind by by apply upd_dir_ok. cbn [next desc_of page].
    erewrite done_bind by by apply Hfp. rewrite gets_bind. erewrite done_bind by by apply upd_desc_ok.
    eexists. split; [reflexivity|].
    apply NoDup_cons in HN as [HN _].
    split; cbn.
    + change (map ?f ?l) with (f <$> l). rewrite list_fmap_insert. cbn [set_chain size].
      apply list_insert_id. by rewrite list_lookup_fmap, Ebd.
    + intros j Hj. by rewrite list_lookup_insert_ne.
    + intros d Hd. rewrite list_lookup_insert_eq in Hd by (by apply lookup_lt_Some in Ebd). injection Hd as <-. cbn.
      eapply chain_ext; [|exact Hc2]. intros y Hy. cbn. rewrite lookup_insert_ne; [done|]. intros E. apply HN. rewrite E.
      by apply elem_of_map.
    + eexists. by rewrite lookup_insert_eq.
    + done.
    + intros a Ha. rewrite lookup_insert_ne; [done|]. intros <-. set_solver.
    + done.
  - rewrite prev_of_snoc.
    rewrite (done_bind _ _ h false h).
    2:{ rewrite decide_True by done. erewrite done_bind by by apply desc_at_ok. cbn [next desc_of].
        by rewrite bool_decide_false by (intros Hx; by apply Hx). }
    cbv iota. rewrite ret_bind. erewrite done_bind by by apply desc_at_ok. rewrite decide_True by done.
    rewrite <- app_assoc in HN, Hc. cbn [app] in HN, Hc.
    assert (Hcb : b_desc c <> b_desc b).
    { rewrite map_app, !map_cons in HN. apply NoDup_app in HN as (_ & _ & N%NoDup_cons). intros E. apply N. rewrite E. set_solver. }
    erewrite done_bind by by apply upd_desc_ok. cbn [next desc_of page].
    erewrite done_bind by by apply Hfp. rewrite gets_bind.
    erewrite done_bind by (apply upd_desc_ok; cbn; by rewrite lookup_insert_ne).
    eexists. split; [reflexivity|]. split; cbn.
    + done.
    + done.
    + intros d Hd. rewrite Ebd in Hd. injection Hd as <-. rewrite <- app_assoc. cbn [app].
      eapply chain_unlink; [exact HN|exact Eb| | |exact Hc]; cbn.
      * by rewrite lookup_insert_ne, lookup_insert_eq.
      * intros a H1 H2. by rewrite !lookup_insert_ne by done.
    + eexists. by rewrite lookup_insert_eq.
    + done.
    + intros a Ha. rewrite !map_app in Ha. cbn in Ha. rewrite !lookup_insert_ne; [done| |]; intros <-; set_solver.
    + done.
Qed.
End release.

(** ** free_s *)

(** What is in use is what was, but for [obj]; its contents stay; the page of [obj] is given
    back exactly when nothing in it is in use any more. *)
Record freed (B : nat -> list abucket) (h : heap) (obj : Z) (B' : nat -> list abucket) (h' : heap) : Prop := {
  fr_live : forall o z, live B' o z <-> live B o z /\ o <> obj;
  fr_words : forall o z a, live B' o z -> o <= a < o + z -> ld (hmm h') a = ld (hmm h) a;
  fr_pages : forall p, held (hmm h') p <-> held (hmm h) p /\ (p = page_of obj -> exists o z, live B' o z /\ page_of o = p)
}.

Section free_s.
Context (fuel : nat) (h : heap) (B : nat -> list abucket) (D : list Z) (k : nat) (sz : Z).
Context (bs1 : list abucket) (b : abucket) (bs2 : list abucket) (obj nxt : Z).
Context (HO : heap_ok h B D) (HP : place B k sz bs1 b bs2) (E : descs h !! b_desc b = Some (desc_of sz nxt b)).
Context (Hobj : obj ∈ slots sz (b_page b)) (Hf : obj ∉ b_free b).

Let b1 : abucket := push_free obj b.
Let B1 : nat -> list abucket := set_class k (bs1 ++ b1 :: bs2) B.
Let h1 : heap := with_desc (with_hmm h (st obj (first (b_free b)) (hmm h))) (b_desc b) (desc_of sz nxt b1).

Lemma pushed_ok : heap_ok h1 B1 D.
Proof. by apply push_free_ok. Qed.
Lemma pushed_place : place B1 k sz bs1 b1 bs2.
Proof. split; [apply HP|]. unfold B1. apply set_class_eq. Qed.

Lemma pushed_live o z : live B1 o z <-> live B o z /\ o <> obj.
Proof.
  unfold B1. rewrite (live_set h B D k sz bs1 b bs2 b1 o z HO HP), (live_place h B D k sz bs1 b bs2 o z HO HP). cbn.
  rewrite elem_of_cons. destruct (place_in _ _ _ _ _ _ HP) as (Hk & Hb & _). split; [|naive_solver].
  intros [(j & c & Hj & Hc & Hne & Ho & Hfo)|(-> & Ho & Hfo)]; [|naive_solver]. split; [left; by exists j, c|].
  intros ->. apply Hne. by apply (slot_bucket h B D j k z sz c b obj obj HO Hj (pl_size _ _ _ _ _ _ HP) Hc Hb).
Qed.

Lemma pushed_words o z a : live B1 o z -> o <= a < o + z -> ld (hmm h1) a = ld (hmm h) a.
Proof.
  intros Ho Ha. cbn. rewrite ld_st_ne; [done|]. intros <-.
  destruct (sizes_div k sz (pl_size _ _ _ _ _ _ HP)) as [? _].
  destruct (free_apart h1 B1 D k sz bs1 b1 bs2 obj pushed_ok pushed_place) with (o := o) (z := z); [cbn; set_solver|done|lia|lia].
Qed.

Lemma pushed_held p : held (hmm h1) p <-> held (hmm h) p.
Proof. done. Qed.

Lemma obj_page : page_of obj = b_page b.
Proof.
  destruct (place_in _ _ _ _ _ _ HP) as (_ & Hb & _). pose proof (pl_size _ _ _ _ _ _ HP) as Hs.
  destruct (held_page h B D k sz b HO Hs Hb) as [A _]. by destruct (slot_page _ _ _ _ Hs A Hobj) as [? _].
Qed.

(** Something else of the page is in use: the bucket stays. *)
Lemma pushed_freed o : o ∈ slots sz (b_page b) -> o ∉ b_free b1 -> freed B h obj B1 h1.
Proof.
  intros Ho Hfo. split; [apply pushed_live|apply pushed_words|]. intros p. rewrite pushed_held. split; [|by intros [? _]].
  intros Hh. split; [done|]. intros ->. exists o, sz. split.
  - exists k, b1. split_and!; [apply HP| |done|done]. rewrite (pl_split _ _ _ _ _ _ pushed_place). set_solver.
  - rewrite obj_page. destruct (place_in _ _ _ _ _ _ HP) as (_ & Hb & _). pose proof (pl_size _ _ _ _ _ _ HP) as Hs.
    destruct (held_page h B D k sz b HO Hs Hb) as [A _]. by destruct (slot_page _ _ _ _ Hs A Ho) as [? _].
Qed.

(** Nothing else is: it is given back. *)
Lemma released_freed h' :
  (forall o, o ∈ slots sz (b_page b) -> o ∈ b_free b1) -> unlinked h1 h' k sz bs1 b1 bs2 ->
  freed B h obj (set_class k (bs1 ++ bs2) B1) h'.
Proof.
  intros Hall HU. destruct (place_in _ _ _ _ _ _ pushed_place) as (Hk & Hb & _). pose proof (pl_size _ _ _ _ _ _ HP) as Hs.
  pose proof (bo_page _ _ _ (hk_bucket _ _ _ pushed_ok k sz b1 Hs Hb)) as Hb1.
  assert (HL : forall o z, live (set_class k (bs1 ++ bs2) B1) o z <-> live B1 o z).
  { intros o z. unfold live, set_class. split; intros (j & c & Hj & Hc & Ho & Hfo); exists j, c; (split_and!; [done| |done|done]).
    - case_decide as Ej; [|done]. subst j. rewrite (pl_split _ _ _ _ _ _ pushed_place). set_solver.
    - case_decide as Ej; [|done]. subst j. rewrite (pl_split _ _ _ _ _ _ pushed_place) in Hc.
      apply elem_of_app in Hc as [Hc|[->|Hc]%elem_of_cons]; [set_solver| |set_solver]. exfalso. apply Hfo, Hall.
      rewrite Hs in Hj. by injection Hj as ->. }
  split.
  - intros o z. rewrite HL. apply pushed_live.
  - intros o z a Ho Ha. rewrite (ul_mm _ _ _ _ _ _ _ HU), ld_set_cell. eapply pushed_words; [by apply HL|done].
  - intros p. rewrite (ul_mm _ _ _ _ _ _ _ HU), held_set_cell, pushed_held, obj_page; [|apply pushed_ok|apply Hb1].
    split; (intros [Hh Hp]; split; [done|]); [by intros ->|]. intros ->. destruct Hp as (o & z & Ho & Ep); [done|].
    pose proof Ho as Ho'. apply HL in Ho as (j & c & Hj & Hc & Hos & Hfo).
    assert (Hc1 : c = b1 /\ j = k).
    { eapply (slot_bucket h1 B1 D j k z sz c b1 o obj pushed_ok); try done. by rewrite obj_page. }
    destruct Hc1 as [-> ->]. rewrite Hs in Hj. injection Hj as <-. apply Hfo. by apply Hall.
Qed.

End free_s.

(** C13: [free_s] of an object in use, with its size, a smaller one or 0 (unknown), ends without a
    panic and leaves a well-formed heap in which exactly that object is no longer in use; the
    contents of all other objects stay, and its page goes back to the free pages exactly when
    nothing else in it is in use. *)
Theorem free_s_releases fuel h B D obj z osz :
  heap_ok h B D -> live B obj z -> osz <= z -> zlen (used B) < Z.of_nat fuel ->
  exists h' B' D', free_s fuel obj osz h = Done tt h' /\ heap_ok h' B' D' /\ freed B h obj B' h'.
Proof.
  intros HO (k & b & Hk & Hb & Ho & Hf) Hosz Hfuel.
  destruct (find_bucket_ok fuel h B D k z b osz HO Hk Hb Hosz Hfuel) as (bs1 & bs2 & HP & Efb).
  destruct (place_pointer h B D k z bs1 b bs2 HO HP) as (bd & nxt & _ & _ & _ & Eb & _).
  pose proof (pushed_ok h B D k z bs1 b bs2 obj nxt HO HP Eb Ho Hf) as HO1.
  pose proof (pushed_place B k z bs1 b bs2 obj HP) as HP1.
  set (B1 := set_class k (bs1 ++ push_free obj b :: bs2) B) in *. set (h1 := with_desc _ _ _) in HO1.
  destruct (place_in _ _ _ _ _ _ HP1) as (_ & Hb1 & _). pose proof (hk_bucket _ _ _ HO1 k z _ Hk Hb1) as Hbo1.
  destruct (sizes_div k z Hk) as (S1 & _ & S3 & _).
  assert (Hn : zlen (b_free b) + 1 <= 4096 / z) by (pose proof (free_length _ k z _ Hk Hbo1); unfold zlen in *; cbn [b_free push_free length] in *; lia).
  assert (Hrun : free_s fuel obj osz h =
    (if decide (4096 / z - zlen (b_free (push_free obj b)) = 0) then release_bucket fuel k (b_desc b) (prev_of 0 bs1) else skip) h1).
  { unfold free_s. destruct (held_page h B D k z b HO Hk Hb) as (A & L1 & L2). destruct (slot_page _ _ _ _ Hk A Ho) as (P1 & P2 & P3).
    rewrite page_of_land, P1 by (unfold LOW_MEM in *; lia). erewrite done_bind by exact Efb. cbv iota.
    erewrite done_bind by by apply desc_at_ok. erewrite done_bind by apply store_ok. cbn [freeptr desc_of].
    erewrite done_bind by by apply upd_desc_ok. erewrite done_bind by by apply upd_desc_ok, lookup_insert_eq.
    rewrite with_desc_twice.
    assert (Ed : set_refcnt (refcnt (set_freeptr obj (desc_of z nxt b)) - 1) (set_freeptr obj (desc_of z nxt b)) = desc_of z nxt (push_free obj b)).
    { unfold set_refcnt, set_freeptr, desc_of. cbn. f_equal. unfold zlen in *. cbn [length]. unfold u16.
      rewrite Z.mod_small by lia. lia. }
    rewrite Ed. erewrite done_bind by by apply desc_at_ok, lookup_insert_eq. done. }
  destruct (decide (Exists (fun o => o ∉ b_free (push_free obj b)) (slots z (b_page b)))) as [Hex|Hno].
  - apply Exists_exists in Hex as (o & Hos & Hof). pose proof (free_length_lt _ k z _ o Hk Hbo1 Hos Hof) as Hlt.
    exists h1, B1, D. rewrite Hrun, decide_False by lia. split; [done|]. split; [done|]. by eapply pushed_freed.
  - assert (Hall : forall o, o ∈ slots z (b_page b) -> o ∈ b_free (push_free obj b)).
    { intros o Hos. destruct (decide (o ∈ b_free (push_free obj b))); [done|]. exfalso. apply Hno, Exists_exists. by exists o. }
    destruct (release_bucket_ok fuel h1 B1 D k z bs1 _ bs2 HO1 HP1) as (h' & Er & HU).
    exists h', (set_class k (bs1 ++ bs2) B1), (b_desc b :: D). rewrite Hrun, decide_True; [split; [exact Er|split]|].
    + by apply (remove_bucket h1 h' B1 D k z bs1 _ bs2 HO1 HP1).
    + by eapply released_freed.
    + pose proof (free_length _ k z _ Hk Hbo1) as Hle. rewrite <- (length_slots z (b_page b)) in * by lia.
      enough (zlen (slots z (b_page b)) <= zlen (b_free (push_free obj b))) by lia.
      unfold zlen. apply inj_le. apply submseteq_length, NoDup_submseteq; [|exact Hall].
      unfold slots. change (map ?f ?l) with (f <$> l). apply NoDup_fmap_2; [intros x y; nia|]. apply NoDup_seqZ.
Qed.

End MallocFree.

(** ** The allocator on a small machine

    A heap that was never used, and one whose only object fills a page. *)
Module MallocInst.
Import Memory MemoryFacts MemoryProps Malloc MallocProps MallocOps MallocSpec MallocFree.

Definition heap0 : heap := Heap bucket_dir0 0 ∅ mm0.

Lemma heap0_ok : heap_ok heap0 (fun _ => []) [].
Proof.
  split; [apply mm0_ok|done| | |constructor|constructor| |done].
  - intros k d Hk Hd. do 9 (destruct k as [|k]; [injection Hd as <-; done|]). lia.
  - intros k sz b _ Hb. by apply elem_of_nil in Hb.
  - intros a Ha. by apply elem_of_nil in Ha.
Qed.

Lemma malloc_fresh_witness :
  exists r h' B' D' k sz, malloc 1 20 heap0 = Done r h' /\ heap_ok h' B' D' /\ fits 20 k sz /\ given (fun _ => []) heap0 r sz B' h'.
Proof.
  apply (malloc_fresh 1 heap0 (fun _ => []) [] 20); [exact heap0_ok|lia|reflexivity|].
  destruct mm0_room as (L & H1 & H2 & H3). exists L. split; [exact H1|]. split; [exact H2|]. cbn. lia.
Defined.

(** One object of 4096 bytes at [LOW_MEM], its descriptor in the next page. *)
Definition page1 : Z := LOW_MEM + 4096.
Definition whole : abucket := AB page1 LOW_MEM [].
Definition heap1 : heap :=
  Heap (<[8%nat := Dir 4096 page1]> bucket_dir0) 0 {[page1 := Desc LOW_MEM 0 0 1 4096]} (set_cell page1 1 (set_cell LOW_MEM 1 mm0)).
Definition B1 (k : nat) : list abucket := if decide (k = 8%nat) then [whole] else [].

Lemma in_B1 k b : b ∈ B1 k -> k = 8%nat /\ b = whole.
Proof. unfold B1. case_decide; [by intros ->%list_elem_of_singleton|by intros ?%elem_of_nil]. Qed.

Lemma heap1_held : held (hmm heap1) LOW_MEM /\ held (hmm heap1) page1.
Proof. by vm_compute. Qed.

Lemma heap1_ok : heap_ok heap1 B1 [].
Proof.
  split.
  - apply set_cell_ok; [apply set_cell_ok; [apply mm0_ok|done|lia]|done|lia].
  - done.
  - intros k d Hk Hd. destruct (decide (k = 8%nat)) as [->|Hne].
    + injection Hd as <-. cbn. split_and!; [done|done|]. by exists 0.
    + unfold B1. rewrite decide_False by done. do 8 (destruct k as [|k]; [injection Hd as <-; done|]). lia.
  - intros k sz b Hk [-> ->]%in_B1. injection Hk as <-. split; [apply heap1_held|constructor| |done].
    intros o Ho. by apply elem_of_nil in Ho.
  - apply NoDup_singleton.
  - apply NoDup_singleton.
  - intros a ->%list_elem_of_singleton. split; [apply heap1_held|]. by intros b ->%list_elem_of_singleton.
  - done.
Qed.

Lemma free_s_releases_witness :
  exists h' B' D', free_s 2 LOW_MEM 0 heap1 = Done tt h' /\ heap_ok h' B' D' /\ freed B1 heap1 LOW_MEM B' h'.
Proof.
  apply (free_s_releases 2 heap1 B1 [] LOW_MEM 4096 0); [exact heap1_ok| |lia|reflexivity].
  exists 8%nat, whole. split_and!; [reflexivity|by left| |by intros ?%elem_of_nil].
  apply elem_of_slots. exists 0. done.
Defined.

End MallocInst.
