(* ===== verification/FdProps.v ===== *)
(** * Descriptors and open files

    [dup] and [fcntl(F_DUPFD)], and the reference counts of open files. *)

From S2P Require Import Prelude Bytes Memory MemoryProps Task UserMem BlkQueue FsState RdProps.
From S2P Require Import Buffer Super Inode Bitmap Truncate Namei Dirs FileIO Open FsInst.
Import Memory MemoryProps Task UserMem BlkQueue FsState Namei FileIO Open FsInst.

Module FdProps.

(** A sum over a list. *)
Definition lsum {A} (g : A -> Z) (l : list A) : Z := foldr (fun x n => g x + n) 0 l.

Lemma lsum_zset {A} (g : A -> Z) l i x y :
  zget l i = Some x -> lsum g (zset l i y) = lsum g l - g x + g y.
Proof.
  intros E. pose proof (zget_Some_range _ _ _ E) as Hr. unfold zget in E. unfold zset. rewrite decide_True in E by lia. rewrite decide_True by lia.
  unfold lsum. clear Hr. revert E. generalize (Z.to_nat i). induction l as [|z l IH]; intros n E; [done|].
  destruct n as [|n]; cbn in E |- *; [injection E as ->; lia|]. etransitivity; [exact (f_equal (Z.add (g z)) (IH n E))|lia].
Qed.

(** How many descriptors of all tasks refer to open file [f]. *)
Definition fd_refs (f : Z) (o : option Z) : Z := if decide (o = Some f) then 1 else 0.
Definition task_refs (f : Z) (o : option task_struct) : Z :=
  match o with Some t => lsum (fd_refs f) (filp t) | None => 0 end.
Definition file_refs (T : tasks) (f : Z) : Z := lsum (task_refs f) (task T).

(** Every open file is counted right. *)
Definition counted (T : tasks) (F : list file) : Prop :=
  forall f v, zget F f = Some v -> f_count v = file_refs T f.

Lemma file_refs_upd T f t g :
  slot T (current T) = Some t ->
  file_refs (upd_slot (current T) g T) f = file_refs T f - lsum (fd_refs f) (filp t) + lsum (fd_refs f) (filp (g t)).
Proof.
  intros E. unfold upd_slot. rewrite E. unfold file_refs, set_slot. cbn [task].
  unfold slot in E. destruct (zget (task T) (current T)) as [o|] eqn:Eo; [|done]. cbn in E. subst o.
  by rewrite (lsum_zset _ _ _ _ _ Eo).
Qed.

(** A kernel with tasks [T] and open files [F]. *)
Definition kst (T : tasks) (F : list file) (s : kern) : kern :=
  {| s with file_table := F; kuser := User T (um (kuser s)) (umm (kuser s)) |}.

Lemma kst_id s : s = kst (utab (kuser s)) (file_table s) s.
Proof. by destruct s as [? ? ? ? ? ? ? ? ? [] ? ? ? ?]. Qed.

Section kst.
Context (T : tasks) (F : list file) (s : kern) (t : task_struct) (Ht : slot T (current T) = Some t).

Lemma cur_kst : cur (kst T F s) = Done t (kst T F s).
Proof. unfold cur, on_tasks, on_user, on_utab, zoom. cbn [kuser kst utab]. by rewrite (get_current_Some _ _ Ht). Qed.
Lemma upd_cur_kst f : upd_cur f (kst T F s) = Done tt (kst (upd_slot (current T) f T) F s).
Proof.
  unfold upd_cur, on_tasks, on_user, on_utab, zoom. cbn [kuser kst utab]. by rewrite (put_current_Some _ _ _ Ht).
Qed.
Lemma file_at_kst f v : zget F f = Some v -> file_at f (kst T F s) = Done v (kst T F s).
Proof. intros E. unfold file_at. rewrite gets_bind. cbn. by rewrite E. Qed.
Lemma set_file_kst f g v :
  zget F f = Some v -> set_file f g (kst T F s) = Done tt (kst T (zset F f (g v)) s).
Proof. intros E. unfold set_file. by erewrite done_bind by by apply file_at_kst. Qed.
Lemma get_filp_kst fd o :
  0 <= fd < NR_OPEN -> zget (filp t) fd = Some o -> get_filp fd (kst T F s) = Done o (kst T F s).
Proof.
  intros Hr E. unfold get_filp. rewrite u32_small by (unfold NR_OPEN in *; lia).
  rewrite decide_False by lia. erewrite done_bind by apply cur_kst. by rewrite E.
Qed.
End kst.

Lemma free_fds_first l i d :
  i <= d -> zget l (d - i) = Some None -> (forall e, i <= e < d -> zget l (e - i) <> Some None) ->
  free_fds l i 1 = [d].
Proof.
  revert i. induction l as [|o l IH]; intros i Hi Hd Hl; [by apply zget_nil in Hd|]. cbn [free_fds].
  destruct (decide (i = d)) as [->|Hn].
  - rewrite Z.sub_diag in Hd. cbn in Hd. injection Hd as ->. rewrite decide_True by done. by destruct l.
  - rewrite decide_False.
    2: { intros ->. apply (Hl i); [lia|]. by rewrite Z.sub_diag. }
    apply IH; [lia| |].
    + rewrite zget_cons, decide_False in Hd by lia. by replace (d - (i + 1)) with (d - i - 1) by lia.
    + intros e He. specialize (Hl e ltac:(lia)). rewrite zget_cons, decide_False in Hl by lia.
      by replace (e - (i + 1)) with (e - i - 1) by lia.
Qed.

Lemma free_fds_none l i : (forall k, zget l k <> Some None) -> free_fds l i 1 = [].
Proof.
  revert i. induction l as [|o l IH]; intros i Hl; [done|]. cbn [free_fds].
  rewrite decide_False by (intros ->; by apply (Hl 0)). apply IH. intros k Hk.
  apply (Hl (k + 1)). apply zget_Some_range in Hk as Hr. rewrite zget_cons, decide_False by lia.
  by replace (k + 1 - 1) with k by lia.
Qed.

Lemma zget_drop {A} (l : list A) n k : 0 <= k -> 0 <= n -> zget (drop (Z.to_nat n) l) k = zget l (n + k).
Proof.
  intros. unfold zget. rewrite !decide_True by lia. rewrite lookup_drop. f_equal. lia.
Qed.

(** A task whose descriptor [d] refers to open file [f], with the close-on-exec flags [flags]. *)
Definition with_fd (d f flags : Z) (t : task_struct) : task_struct :=
  {| t with filp := zset (filp t) d (Some f); close_on_exec := flags |}.

(** The flags [flags] with that of descriptor [d] cleared. *)
Definition flag_cleared (d flags flags' : Z) : Prop :=
  Z.testbit flags' d = false /\ forall e, e <> d -> Z.testbit flags' e = Z.testbit flags e.

Lemma clear_cloexec_flag d t :
  0 <= d -> exists flags, clear_cloexec d t = {| t with close_on_exec := flags |} /\ flag_cleared d (close_on_exec t) flags.
Proof.
  intros Hd. eexists. split; [reflexivity|]. unfold flag_cleared. rewrite Z.shiftl_1_l. split.
  - by rewrite Z.ldiff_spec, Z.pow2_bits_true, andb_false_r by lia.
  - intros e He. by rewrite Z.ldiff_spec, Z.pow2_bits_false, andb_true_r by lia.
Qed.

Lemma refs_with_fd d f flags t g :
  zget (filp t) d = Some None ->
  lsum (fd_refs g) (filp (with_fd d f flags t)) = lsum (fd_refs g) (filp t) + (if decide (f = g) then 1 else 0).
Proof.
  intros E. cbn [filp with_fd]. rewrite (lsum_zset _ _ _ _ _ E). unfold fd_refs.
  rewrite (decide_False (P := None = Some g)) by done.
  destruct (decide (f = g)) as [->|Hn]; [rewrite decide_True by done|rewrite decide_False by congruence]; lia.
Qed.

(** C26: [dup] and [fcntl(F_DUPFD)] answer the lowest free descriptor from the one asked for
    on; it refers to the same open file, its bit of the close-on-exec flags is clear and the
    other bits are as before, and no other descriptor of any task changes.  The open file has one more reference, so that if
    every open file counted the descriptors that refer to it before, it does so after.
    With no free descriptor left the answer is EMFILE and nothing changes. *)
Theorem dupfd_lowest fd arg s t f v :
  let T := utab (kuser s) in
  slot T (current T) = Some t -> zlen (filp t) = NR_OPEN -> 0 <= fd < NR_OPEN -> 0 <= arg < NR_OPEN ->
  zget (filp t) fd = Some (Some f) -> zget (file_table s) f = Some v -> f_count v + 1 < 2 ^ 16 -> 0 <= f_count v ->
  (forall d, arg <= d < NR_OPEN -> zget (filp t) d = Some None ->
     (forall e, arg <= e < d -> zget (filp t) e <> Some None) ->
     exists flags, flag_cleared d (close_on_exec t) flags /\
     let T' := upd_slot (current T) (with_fd d f flags) T in
     let F' := zset (file_table s) f {| v with f_count := f_count v + 1 |} in
     dupfd fd arg s = Done d (kst T' F' s) /\ (counted T (file_table s) -> counted T' F')) /\
  ((forall d, arg <= d < NR_OPEN -> zget (filp t) d <> Some None) -> dupfd fd arg s = Done (- EMFILE) s).
Proof.
  intros T Ht Hlen Hfd Harg Ef Ev Hc Hc0.
  assert (Hrun : forall ds, free_fds (drop (Z.to_nat arg) (filp t)) arg 1 = ds ->
    dupfd fd arg s = match ds with
      | [] => Done (- EMFILE) s
      | d :: _ => (upd_cur (clear_cloexec d);; set_fd d (Some f);;
                   set_file f (fun v => set_f_count (f_count v + 1) v);; mret d) s end).
  { intros ds Hds. rewrite (kst_id s). fold T. unfold dupfd.
    erewrite done_bind by (eapply get_filp_kst; [exact Ht|exact Hfd|exact Ef]). cbv beta iota.
    rewrite u32_small by (unfold NR_OPEN in *; lia). rewrite decide_False by lia.
    erewrite done_bind by (by apply (cur_kst T _ s t)). rewrite Hds. by destruct ds. }
  split.
  - intros d Hd Ed Hlow. destruct (clear_cloexec_flag d t ltac:(lia)) as (flags & Efl & Hfl). exists flags. split; [done|]. intros T' F'.
    assert (Hds : free_fds (drop (Z.to_nat arg) (filp t)) arg 1 = [d]).
    { apply free_fds_first; [lia| |].
      - rewrite zget_drop by lia. by replace (arg + (d - arg)) with d by lia.
      - intros e He. rewrite zget_drop by lia. replace (arg + (e - arg)) with e by lia. by apply Hlow. }
    split.
    + rewrite (Hrun _ Hds). rewrite (kst_id s) at 1. fold T.
      erewrite done_bind by (by apply (upd_cur_kst T _ s t)).
      erewrite done_bind.
      2: { apply (upd_cur_kst (upd_slot (current T) (clear_cloexec d) T) _ s (clear_cloexec d t)).
           rewrite current_upd. by rewrite slot_current_upd with (t := t). }
      erewrite done_bind by by apply set_file_kst.
      rewrite current_upd, upd_slot_upd_slot. replace (set_f_count (f_count v + 1) v) with {| v with f_count := f_count v + 1 |} by (unfold set_f_count; by rewrite u16_small by lia). unfold T', upd_slot. rewrite Ht. cbv beta. by rewrite Efl.
    + intros Hcnt g w Eg. unfold T'. rewrite (file_refs_upd _ _ _ _ Ht), (refs_with_fd _ _ _ _ _ Ed).
      unfold F' in Eg. destruct (decide (f = g)) as [->|Hn].
      * rewrite zget_zset_eq in Eg by (by eapply zget_Some_range). injection Eg as <-.
        cbn [f_count]. rewrite (Hcnt g v Ev). lia.
      * rewrite zget_zset_ne in Eg by done. rewrite (Hcnt g w Eg). lia.
  - intros Hnone. rewrite (Hrun []); [done|]. apply free_fds_none. intros k Hk.
    pose proof (zget_Some_range _ _ _ Hk) as Hr. rewrite zget_drop in Hk by lia.
    apply (Hnone (arg + k)); [|done]. apply zget_Some_range in Hk. lia.
Qed.

(** Descriptor 0 is open; descriptor 1 is free, with its flag left set. *)
Definition one_open : kern :=
  {| bare with
     file_table := File 0x8000 0 1 (Some 3) 10 :: replicate 63 file0;
     kuser := User (Tasks (Some {| (INIT_TASK 0 0) with filp := Some 0 :: replicate 19 None; close_on_exec := 2 |} :: replicate 63 None)
                     0 0 0) empty mm0 |}.

Lemma dupfd_lowest_witness :
  let T := utab (kuser one_open) in
  exists flags, Z.testbit flags 1 = false /\
  let T' := upd_slot 0 (with_fd 1 0 flags) T in
  let F' := zset (file_table one_open) 0 (File 0x8000 0 2 (Some 3) 10) in
  dupfd 0 0 one_open = Done 1 (kst T' F' one_open) /\ (counted T (file_table one_open) -> counted T' F').
Proof.
  destruct (dupfd_lowest 0 0 one_open {| (INIT_TASK 0 0) with filp := Some 0 :: replicate 19 None; close_on_exec := 2 |} 0
    (File 0x8000 0 1 (Some 3) 10)) as [H _];
    [reflexivity|reflexivity|unfold NR_OPEN; lia|unfold NR_OPEN; lia|reflexivity|reflexivity|cbn; lia|cbn; lia|].
  destruct (H 1) as (flags & [Hfl _] & Hrun); [unfold NR_OPEN; lia|reflexivity| |].
  { intros e He. assert (e = 0) as -> by lia. discriminate. }
  exists flags. split; [exact Hfl|exact Hrun].
Defined.

End FdProps.
