(* ===== verification/Mount.v ===== *)
(** * fs/super.c, second part: reading and mounting file systems *)

From S2P Require Import Prelude Bytes Memory Task UserMem BlkQueue FsState.
From S2P Require Import Buffer Super Inode Bitmap Truncate Namei.
Import Memory Task UserMem BlkQueue FsState.

Module Mount.

Definition set_maps (imap zmap : list (option Z)) (s : super_block_t) : super_block_t :=
  {| s with s_imap := imap; s_zmap := zmap |}.
Definition set_imap (k : Z) (b : option Z) (s : super_block_t) : super_block_t :=
  {| s with s_imap := zset (s_imap s) k b |}.
Definition set_zmap (k : Z) (b : option Z) (s : super_block_t) : super_block_t :=
  {| s with s_zmap := zset (s_zmap s) k b |}.
Definition fresh_super (dev : Z) (s : super_block_t) : super_block_t :=
  {| s with s_dev := u16 dev; s_isup := None; s_imount := None; s_time := 0; s_rd_only := 0; s_dirt := 0 |}.

(** [map[0]->b_data[0] |= 1]. *)
Definition reserve_bit0 (data : list Z) : list Z :=
  <[O := Z.lor (default 0 (head data)) 1]> data.

Section mount.
Context `{!Machine} (fuel depth : nat).

#[local] Abbreviation iput := (Truncate.iput fuel depth).
#[local] Abbreviation bread := (Inode.bread fuel depth).
#[local] Abbreviation namei := (Namei.namei fuel depth).

(** The loops that read the bitmaps, [n] blocks from [block] into slots from [k]; the next
    block.  A map with more blocks than its array writes past it: undefined. *)
Fixpoint read_maps (n : nat) (dev sb block k : Z) (set : Z -> option Z -> super_block_t -> super_block_t)
  : M kern Z :=
  match n with
  | O => mret block
  | S n' =>
      o ← bread dev block;
      if decide (8 <= k) then undef "s_imap"
      else
        set_super sb (set k o);;
        match o with
        | Some _ => read_maps n' dev sb (block + 1) (k + 1) set
        | None => mret block
        end
  end.

Fixpoint free_slot (l : list super_block_t) (i : Z) : option Z :=
  match l with
  | [] => None
  | s :: l' => if decide (s_dev s = 0) then Some i else free_slot l' (i + 1)
  end.

Definition drop_super (sb : Z) : M kern (option Z) :=
  set_super sb (set_s_dev 0);; Super.free_super sb;; mret None.

(** [read_super] once the super block has been read into slot [sb]. *)
Definition read_bitmaps (dev sb : Z) : M kern (option Z) :=
  set_super sb (set_maps (replicate 8 None) (replicate 8 None));;
  s ← super_at sb;
  block ← read_maps (Z.to_nat (s_imap_blocks s)) dev sb 2 0 set_imap;
  block ← read_maps (Z.to_nat (s_zmap_blocks s)) dev sb block 0 set_zmap;
  s ← super_at sb;
  if decide (block <> 2 + s_imap_blocks s + s_zmap_blocks s) then
    Super.brelse_all fuel (s_imap s);;
    Super.brelse_all fuel (s_zmap s);;
    drop_super sb
  else
    i ← deref "s_imap[0]" (mjoin (zget (s_imap s) 0));
    set_bh i (upd_data reserve_bit0);;
    z ← deref "s_zmap[0]" (mjoin (zget (s_zmap s) 0));
    set_bh z (upd_data reserve_bit0);;
    Super.free_super sb;;
    mret (Some sb).

Definition read_super (dev : Z) : M kern (option Z) :=
  if decide (dev = 0) then mret None
  else
    Inode.check_disk_change fuel dev;;
    o ← Super.get_super fuel dev;
    match o with
    | Some sb => mret (Some sb)
    | None =>
        l ← gets super_block;
        match free_slot l 0 with
        | None => mret None
        | Some sb =>
            set_super sb (fresh_super dev);;
            Super.lock_super fuel sb;;
            o ← bread dev 1;
            match o with
            | None => drop_super sb
            | Some bh =>
                b ← bh_at bh;
                set_super sb (load_d_super (b_data b));;
                Buffer.brelse fuel (Some bh);;
                s ← super_at sb;
                if decide (s_magic s <> SUPER_MAGIC) then drop_super sb
                else read_bitmaps dev sb
            end
        end
    end.

(** Is some inode of the device in use? *)
Definition in_use (dev : Z) (l : list m_inode) : bool :=
  existsb (fun v => bool_decide (i_dev v = dev /\ i_count v <> 0)) l.

Definition sys_umount (dev_name : Z) : M kern Z :=
  o ← namei dev_name;
  match o with
  | None => mret (- ENOENT)
  | Some inode =>
      v ← inode_at inode;
      let dev := zone v 0 in
      if negb (S_ISBLK (i_mode v)) then iput (Some inode);; mret (- ENOTBLK)
      else
        iput (Some inode);;
        r ← gets ROOT_DEV;
        if decide (dev = r) then mret (- EBUSY)
        else
          o ← Super.get_super fuel dev;
          match o with
          | None => mret (- ENOENT)
          | Some sb =>
              s ← super_at sb;
              match s_imount s with
              | None => mret (- ENOENT)
              | Some m =>
                  l ← gets inode_table;
                  if in_use dev l then mret (- EBUSY)
                  else
                    set_inode m (set_i_mount 0);;
                    iput (Some m);;
                    set_super sb (set_imount None);;
                    s ← super_at sb;
                    iput (s_isup s);;
                    set_super sb (set_isup None);;
                    Super.put_super fuel dev;;
                    Inode.sync_dev fuel depth dev;;
                    mret 0
              end
          end
  end.

Definition sys_mount (dev_name dir_name rw_flag : Z) : M kern Z :=
  o ← namei dev_name;
  match o with
  | None => mret (- ENOENT)
  | Some dev_i =>
      v ← inode_at dev_i;
      let dev := zone v 0 in
      if negb (S_ISBLK (i_mode v)) then iput (Some dev_i);; mret (- EPERM)
      else
        iput (Some dev_i);;
        o ← namei dir_name;
        match o with
        | None => mret (- ENOENT)
        | Some dir_i =>
            v ← inode_at dir_i;
            if decide (i_count v <> 1 \/ i_num v = ROOT_INO) then iput (Some dir_i);; mret (- EBUSY)
            else if negb (S_ISDIR (i_mode v)) then iput (Some dir_i);; mret (- EPERM)
            else
              o ← read_super dev;
              match o with
              | None => iput (Some dir_i);; mret (- EBUSY)
              | Some sb =>
                  s ← super_at sb; v ← inode_at dir_i;
                  if decide (s_imount s <> None) then iput (Some dir_i);; mret (- EBUSY)
                  else if decide (i_mount v <> 0) then iput (Some dir_i);; mret (- EPERM)
                  else
                    set_super sb (set_imount (Some dir_i));;
                    set_inode dir_i (fun v => set_i_dirt 1 (set_i_mount 1 v));;
                    mret 0
              end
        end
  end.

(** The two counting loops of [mount_root] read every bit of the maps (and only print). *)
Definition count_free (n : nat) (maps : super_block_t -> list (option Z)) (sb : Z) : M kern unit :=
  for_down n (fun i =>
    s ← super_at sb;
    m ← deref "bitmap" (mjoin (zget (maps s) (Z.shiftr i 13)));
    b ← bh_at m; skip).

Definition mount_root (wait_for_keypress : M kern unit) : M kern unit :=
  for_up (Z.to_nat NR_FILE) 0 (fun i => set_file i (set_f_count 0));;
  r ← gets ROOT_DEV;
  (if decide (MAJOR r = 2) then wait_for_keypress else skip);;
  for_up (Z.to_nat NR_SUPER) 0 (fun i => set_super i (fun s => set_s_lock 0 (set_s_dev 0 s)));;
  r ← gets ROOT_DEV;
  o ← read_super r;
  match o with
  | None => panic "Unable to mount root"
  | Some p =>
      r ← gets ROOT_DEV;
      mi ← Truncate.iget fuel depth r ROOT_INO;
      set_inode mi (fun v => set_count (i_count v + 3) v);;
      set_super p (fun s => set_isup (Some mi) (set_imount (Some mi) s));;
      upd_cur (fun t => {| t with pwd := Some mi; root := Some mi |});;
      s ← super_at p;
      count_free (Z.to_nat (s_nzones s)) s_zmap p;;
      s ← super_at p;
      count_free (Z.to_nat (s_ninodes s + 1)) s_imap p
  end.
End mount.

End Mount.
