(* ===== verification/HdSetup.v ===== *)
(** * [sys_setup] of hd.c: the disks, their partitions, and the root file system *)

From S2P Require Import Prelude Bytes Ports BlkQueue Hd FsState.
From S2P Require Import Buffer Super Inode Bitmap Truncate Mount.
Import BlkQueue Hd FsState.

Module HdSetup.

(** The BIOS's drive table entry at [a], in kernel memory. *)
Definition bios_info (a : Z) (m : gmap Z Z) : hd_i_struct :=
  let w (o : Z) := word2 (kread 2 (a + o) m) in
  let c (o : Z) := kget m (a + o) in
  HdInfo (c 2) (c 14) (w 0) (w 5) (w 12) (c 8).

(** Entry [i] of a partition table: [start_sect] and [nr_sects]. *)
Definition partition (i : nat) (data : list Z) : hd_struct :=
  let p := (446 + 16 * i)%nat in
  HdPart (s32 (word4 (field (p + 8) 4 data))) (s32 (word4 (field (p + 12) 4 data))).

Definition set_part (i : Z) (p : hd_struct) (h : hd_state) : hd_state := {| h with hd := zset (hd h) i p |}.
Definition set_NR_HD (n : Z) (h : hd_state) : hd_state := {| h with NR_HD := n |}.
Definition byte_of (k : nat) (data : list Z) : Z := default 0 (data !! k).

(** The whole drive as "partition" 0. *)
Definition whole (i : hd_i_struct) : hd_struct := HdPart 0 (s32 (hi_head i * hi_sect i * hi_cyl i)).

Section setup.
Context `{!Machine} (fuel depth : nat).

Definition CMOS_READ (addr : Z) : M kern Z := outb (Z.lor 0x80 addr) 0x70;; inb 0x71.

Definition read_partitions (drive : Z) : M kern unit :=
  o ← Inode.bread fuel depth (0x300 + drive * 5) 0;
  match o with
  | None => panic ""
  | Some bh =>
      b ← bh_at bh;
      if decide (byte_of 510 (b_data b) <> 0x55 \/ byte_of 511 (b_data b) <> 0xAA) then panic ""
      else
        for_up 4 1 (fun i =>
          b ← bh_at bh;
          upd_hd (set_part (i + 5 * drive) (partition (Z.to_nat (i - 1)) (b_data b))));;
        Buffer.brelse fuel (Some bh)
  end.

Definition sys_setup (wait_for_keypress : M kern unit) (BIOS : Z) : M kern Z :=
  h ← on_hd (gets id);
  if decide (callable h = 0) then mret (-1)
  else
    upd_hd (fun h => {| h with callable := 0 |});;
    m ← gets kmem;
    let l := [bios_info BIOS m; bios_info (BIOS + 16) m] in
    upd_hd (fun h => {| h with hd_info := l |});;
    upd_hd (set_NR_HD (if decide (hi_cyl (bios_info (BIOS + 16) m) <> 0) then 2 else 1));;
    h ← on_hd (gets id);
    for_up (Z.to_nat (NR_HD h)) 0 (fun i => v ← info i; upd_hd (set_part (i * 5) (whole v)));;
    cmos_disks ← CMOS_READ 0x12;
    upd_hd (set_NR_HD (if decide (Z.land cmos_disks 0xf0 <> 0)
                       then if decide (Z.land cmos_disks 0x0f <> 0) then 2 else 1 else 0));;
    h ← on_hd (gets id);
    for_up (2 - Z.to_nat (NR_HD h)) (NR_HD h) (fun i => upd_hd (set_part (i * 5) (HdPart 0 0)));;
    for_up (Z.to_nat (NR_HD h)) 0 read_partitions;;
    Buffer.rd_load fuel (Inode.sync_inodes fuel depth);;
    Mount.mount_root fuel depth wait_for_keypress;;
    mret 0.
End setup.

End HdSetup.
