(* ===== verification/Boot.v ===== *)
(** * init/main.c: the kernel's start, and the first programs

    [main] divides the memory, then calls each part's initialization in turn; the state holds
    what they fill in.  Interrupts stay off until it is done.  After that task 0 forks [init],
    which is a program of its own, a client of the stubs ([init_program]). *)

From S2P Require Import Prelude Memory Task UserMem Process Mktime TtyQueue Tty Console Ports BlkQueue Hd Traps Floppy FsState Ramdisk Buffer Stubs Vsprintf.
Import Memory Task UserMem BlkQueue FsState.

Module Boot.

(** What the BIOS and setup.s have left in memory. *)
Record bios : Type := Bios {
  EXT_MEM_K : Z; ORIG_ROOT_DEV : Z; DRIVE_INFO : list Z; video : Console.boot_video
}.

Record boot : Type := BootState {
  b_kern : kern;
  b_idt : list (Z * Z);
  b_gdt : list desc;
  b_tr : Z;
  b_ldtr : Z;
  b_tty : list Tty.tty_struct;
  b_con : Console.console;
  b_outs : list (Z * Z);         (* the ports of the terminals *)
  drive_info : list Z;
  memory_end : Z;
  buffer_memory_end : Z;
  main_memory_start : Z
}.

Definition put_kern (k : kern) (s : boot) : boot := {| s with b_kern := k |}.
Definition on_kern {A} : M kern A -> M boot A := zoom b_kern put_kern.

(** The processor's tables with the task table. *)
Definition get_cpu (s : boot) : Traps.cpu := Traps.Cpu (b_idt s) (b_gdt s) (utab (kuser (b_kern s))) (b_tr s) (b_ldtr s).
Definition put_tab (t : tasks) (k : kern) : kern := {| k with kuser := {| (kuser k) with utab := t |} |}.
Definition put_cpu (c : Traps.cpu) (s : boot) : boot :=
  {| s with b_kern := put_tab (Traps.ctask c) (b_kern s); b_idt := Traps.idt c; b_gdt := Traps.gdt c; b_tr := Traps.tr c; b_ldtr := Traps.ldtr c |}.
#[export] Instance boot_cpu : Traps.HasCpu boot := {| Traps.get_cpu := get_cpu; Traps.put_cpu := put_cpu |}.

(** The pages, in the memory of the tasks. *)
Definition get_mm (s : boot) : mm := umm (kuser (b_kern s)).
Definition put_mm (m : mm) (s : boot) : boot := put_kern {| (b_kern s) with kuser := {| (kuser (b_kern s)) with umm := m |} |} s.

(** The terminals. *)
Definition get_ttys (s : boot) : Tty.ttys :=
  let u := kuser (b_kern s) in Tty.Ttys (b_tty s) (utab u) (b_con s) (um u) (umm u) 0 (b_outs s).
Definition put_ttys (t : Tty.ttys) (s : boot) : boot :=
  {| s with b_tty := Tty.tty_table t; b_con := Tty.tcon t; b_outs := Tty.outs t |}.

Section main.
Context `{!Machine} (address : Traps.handler -> Z) (tty_in : list (Z * Z) -> Z -> Z) (clock : Mktime.cmos).
Context (init_task_addr kernel_end : Z) (RAMDISK : option Z) (bs : bios).

#[local] Instance boot_ports : Ports boot := {|
  inb := fun p => on_kern (inb p);
  outb := fun v p => on_kern (outb v p);
  insw := fun p n => on_kern (insw p n);
  outsw := fun p l => on_kern (outsw p l)
|}.

Definition set_memory_end (v : Z) (s : boot) : boot := {| s with memory_end := v |}.
Definition set_buffer_memory_end (v : Z) (s : boot) : boot := {| s with buffer_memory_end := v |}.
Definition set_main_memory_start (v : Z) (s : boot) : boot := {| s with main_memory_start := v |}.

(** The division of the memory. *)
Definition size_memory : Z :=
  let e := Z.land (Z.shiftl 1 20 + Z.shiftl (EXT_MEM_K bs) 10) 0xfffff000 in
  if decide (16 * 1024 * 1024 < e) then 16 * 1024 * 1024 else e.
Definition size_buffers (e : Z) : Z :=
  if decide (12 * 1024 * 1024 < e) then 4 * 1024 * 1024
  else if decide (6 * 1024 * 1024 < e) then 2 * 1024 * 1024 else 1 * 1024 * 1024.

Definition rs_init : M boot unit := Traps.rs_gates address;; zoom get_ttys put_ttys (Tty.rs_init tty_in).
Definition con_init : M boot unit :=
  modify (fun s => {| s with b_con := Console.con_init (video bs) (b_con s) |});;
  Traps.con_gate address;;
  v ← inb 0x21; outb (Z.land v 0xfd) 0x21;;
  a ← inb 0x61; outb (Z.lor a 0x80) 0x61;; outb a 0x61.
Definition tty_init : M boot unit := rs_init;; con_init.

(** [startup_time = kernel_mktime(&time)], when the clock has stood still for one reading. *)
Definition time_init (fuel : nat) : M boot unit :=
  match Mktime.time_init fuel clock 0 with
  | None => nofuel
  | Some None => undef "month"
  | Some (Some t) => on_kern (modify (fun k => put_tab {| (utab (kuser k)) with startup_time := t |} k))
  end.

(** The first half of [main]: what the loader knew, and who gets which memory. *)
Definition divide_memory : M boot unit :=
  on_kern (modify (fun k => {| k with ROOT_DEV := ORIG_ROOT_DEV bs |}));;
  modify (fun s => {| s with drive_info := DRIVE_INFO bs |});;
  let e := size_memory in
  modify (set_memory_end e);;
  modify (set_buffer_memory_end (size_buffers e));;
  modify (set_main_memory_start (size_buffers e));;
  (match RAMDISK with
   | Some kb =>
       start ← gets main_memory_start;
       len ← on_kern (Ramdisk.rd_init start (kb * 1024));
       modify (set_main_memory_start (start + len))
   | None => skip
   end);;
  start ← gets main_memory_start;
  zoom get_mm put_mm (mem_init start e).

(** [main] up to [sti].  [chr_dev_init] is empty, and the drivers' gates are set at the end of
    their initializations. *)
Definition main (fuel : nat) : M boot unit :=
  divide_memory;;
  Traps.trap_init address;;
  on_kern (on_blk blk_dev_init);;
  tty_init;;
  time_init fuel;;
  Traps.sched_init address init_task_addr;;
  b ← gets buffer_memory_end;
  on_kern (Buffer.buffer_init kernel_end b);;
  on_kern Hd.hd_init;; Traps.hd_gate address;;
  on_kern Floppy.floppy_init;; Traps.floppy_gate address.
End main.

(** ** [init] *)

(** A program that calls the kernel through [K]; strings and vectors are addresses, [store] and
    [load] reach the program's memory in [K].  [fork] answers in each of the two programs as the
    kernel of that program says. *)
Section init.
Import Stubs.
Context {K : Type} (run : fn_ptr -> Z -> Z -> Z -> M K Z) (junk : Z).
Context (store : Z -> list Z -> K -> K) (load : Z -> K -> Z).
Context (printbuf drive_info_addr dev_tty0 etc_rc bin_sh argv_rc envp_rc argv envp i_addr nr_buffers : Z) (memory_end main_memory_start : Z).

(** [printf]: [vsprintf] into [printbuf], then [write]; [vsprintf] gives [None] on a string
    that lacks an argument, which does not happen with the formats below. *)
Definition printf (fmt : string) (args : list Vsprintf.arg) : M (prog (K := K)) Z :=
  match Vsprintf.vsprintf (Vsprintf.bytes fmt) args with
  | None => undef "printf"
  | Some (o, i) =>
      on_kernel (modify (store printbuf (Vsprintf.o_bytes o ++ [0])));;
      _ ← write run 1 printbuf i;
      mret i
  end.

Definition nl : string := String (Ascii.ascii_of_nat 10) EmptyString.
Definition cr : string := String (Ascii.ascii_of_nat 13) EmptyString.
Definition O_RDONLY : Z := 0.
Definition O_RDWR : Z := 2.

(** [while (pid != wait(&i))], and the inner loop of the second half. *)
Fixpoint wait_for (fuel : nat) (pid : Z) : M prog unit :=
  match fuel with
  | O => nofuel
  | S n => p ← wait run i_addr; if decide (p = pid) then skip else wait_for n pid
  end.

(** Standard input, output and error on the console. *)
Definition open_tty : M prog unit :=
  _ ← open run dev_tty0 O_RDWR 0; _ ← dup run junk 0; _ ← dup run junk 0; skip.

(** The first child: the commands of /etc/rc. *)
Definition rc_shell : M prog unit :=
  _ ← close run junk 0;
  fd ← open run etc_rc O_RDONLY 0;
  (if decide (fd <> 0) then _exit run junk 1 else skip);;
  _ ← execve run bin_sh argv_rc envp_rc;
  _exit run junk 2.
(** A login shell. *)
Definition shell : M prog unit :=
  _ ← close run junk 0; _ ← close run junk 1; _ ← close run junk 2;
  _ ← setsid run junk;
  open_tty;;
  r ← execve run bin_sh argv envp;
  _exit run junk r.

(** The [while (1)]: one shell after the other. *)
Fixpoint shells (fuel : nat) : M prog unit :=
  match fuel with
  | O => nofuel
  | S n =>
      pid ← fork run junk;
      if decide (pid < 0) then _ ← printf ("Fork failed in init" ++ cr ++ nl)%string []; shells n
      else
        (if decide (pid = 0) then shell else skip);;
        wait_for n pid;;
        i ← on_kernel (gets (load i_addr));
        _ ← printf (nl ++ cr ++ "child %d died with code %04x" ++ nl ++ cr)%string [Vsprintf.AWord pid; Vsprintf.AWord i];
        _ ← sync run junk;
        shells n
  end.

Definition init_program (fuel : nat) : M prog unit :=
  _ ← setup run junk drive_info_addr;
  open_tty;;
  _ ← printf ("%d buffers = %d bytes buffer space" ++ nl ++ cr)%string [Vsprintf.AWord nr_buffers; Vsprintf.AWord (nr_buffers * BLOCK_SIZE)];
  _ ← printf ("Free mem: %d bytes" ++ nl ++ cr)%string [Vsprintf.AWord (memory_end - main_memory_start)];
  pid ← fork run junk;
  (if decide (pid = 0) then rc_shell else skip);;
  (if decide (0 < pid) then wait_for fuel pid else skip);;
  shells fuel.

(** The end of [main], in user mode: task 0 only pauses. *)
Fixpoint pauses (fuel : nat) : M prog unit :=
  match fuel with
  | O => nofuel
  | S n => _ ← pause run junk; pauses n
  end.
Definition task0 (fuel : nat) : M prog unit :=
  pid ← fork run junk;
  (if decide (pid = 0) then init_program fuel else skip);;
  pauses fuel.
End init.

End Boot.
