(* ===== verification/BootProps.v ===== *)
(** * The start: what [main] leaves behind

    Each initialization keeps what the others have set up; [boot_ok] composes them. *)

From S2P Require Import Prelude Memory MemoryFacts MemoryProps Task UserMem Process Mktime TtyQueue Tty Console Ports BlkQueue Hd Traps Floppy FsState Ramdisk Buffer BufferProps Cache Boot ConsoleProps FsInst.
Import Memory MemoryFacts MemoryProps Task UserMem BlkQueue FsState Buffer BufferProps Cache Boot.

Module BootProps.

Section boot.
Context `{!Machine} (address : Traps.handler -> Z) (tty_in : list (Z * Z) -> Z -> Z) (clock : Mktime.cmos).
Context (init_task_addr kernel_end : Z) (RAMDISK : option Z) (bs : bios).
#[local] Existing Instance boot_ports.

(** The devices answer, and leave the kernel's memory alone. *)
Context (Hinb : forall p (k : kern), exists v, inb p k = Done v k) (Houtb : forall v p (k : kern), outb v p k = Done tt k).

(** What the gates, the port accesses and [sched_init] do not touch. *)
Record view : Type := View {
  v_ends : Z * Z * Z; v_blk : blk; v_free : Z; v_hash : list (option Z); v_mm : mm; v_time : Z
}.
Definition rest (s : boot) : view :=
  let k := b_kern s in
  View (memory_end s, buffer_memory_end s, main_memory_start s) (kblk k) (free_list k) (hash_table k) (umm (kuser k))
    (startup_time (utab (kuser k))).
Definition with_gates (l : list (Traps.handler * Z * Z)) (s : boot) : Prop := b_idt s = map (Traps.gate_of address) l /\ length (b_tty s) = 3%nat.

(** [m] turns the gates [l] into [l'], and ends with the rest as it was. *)
Definition gates (m : M boot unit) (l l' : list (Traps.handler * Z * Z)) : Prop :=
  forall s, with_gates l s -> exists s', m s = Done tt s' /\ with_gates l' s' /\ rest s' = rest s.

Lemma gates_bind p q l1 l2 l3 : gates p l1 l2 -> gates q l2 l3 -> gates (p;; q) l1 l3.
Proof.
  intros Hp Hq s Hs. destruct (Hp s Hs) as (s1 & E1 & H1 & R1). destruct (Hq s1 H1) as (s2 & E2 & H2 & R2).
  exists s2. erewrite done_bind by exact E1. split_and!; [done..|]. by rewrite R2.
Qed.
Lemma gates_inb p q l1 l2 : (forall v, gates (q v) l1 l2) -> gates (v ← inb p; q v) l1 l2.
Proof.
  intros Hq s Hs. destruct (Hinb p (b_kern s)) as [v E].
  assert (E' : inb p s = Done v s) by (cbn; unfold on_kern, zoom; rewrite E; by destruct s).
  erewrite done_bind by exact E'. by apply Hq.
Qed.
Lemma gates_outb v p l : gates (outb v p) l l.
Proof. intros s Hs. exists s. split_and!; [|done..]. cbn. unfold on_kern, zoom. rewrite Houtb. by destruct s. Qed.
Lemma gates_modify f l : (forall s, rest (f s) = rest s /\ b_idt (f s) = b_idt s /\ b_tty (f s) = b_tty s) -> gates (modify f) l l.
Proof. intros Hf s Hs. exists (f s). destruct (Hf s) as (H1 & H2 & H3). split_and!; [done| |done]. unfold with_gates. by rewrite H2, H3. Qed.
Lemma gates_set n v l : gates (Traps.set_gate n (Traps.gate_of address v)) l (zset l n v).
Proof.
  intros s Hs. eexists. split; [reflexivity|]. split; [|done]. destruct Hs as [Hs Ht]. split; [|done]. cbn. rewrite Hs. unfold zset. case_decide; [|done].
  change (map ?f ?l) with (f <$> l). by rewrite list_fmap_insert.
Qed.
Lemma gates_cpu f l :
  (forall c, Traps.idt (f c) = Traps.idt c /\ startup_time (Traps.ctask (f c)) = startup_time (Traps.ctask c)) ->
  gates (Traps.on_cpu (modify f)) l l.
Proof.
  intros Hf s Hs. eexists. split; [reflexivity|]. destruct (Hf (get_cpu s)) as [H1 H2]. split.
  - unfold with_gates. cbn. by rewrite H1.
  - unfold rest. cbn. by rewrite H2.
Qed.
Lemma gates_for n from body (g : Z -> list (Traps.handler * Z * Z) -> list (Traps.handler * Z * Z)) l :
  (forall i l, gates (body i) l (g i l)) -> gates (for_up n from body) l (fold_left (fun l i => g i l) (seqZ from (Z.of_nat n)) l).
Proof.
  intros Hb. revert from l. induction n as [|n IH]; intros from l.
  - intros s Hs. exists s. done.
  - rewrite seqZ_cons by lia. cbn [fold_left]. replace (Z.pred (Z.of_nat (Datatypes.S n))) with (Z.of_nat n) by lia.
    change (gates (body from;; for_up n (from + 1) body) l (fold_left (fun l i => g i l) (seqZ (Z.succ from) (Z.of_nat n)) (g from l))).
    eapply gates_bind; [apply Hb|]. apply IH.
Qed.

(** Writing to the serial lines only grows the list of what was written. *)
Definition writes {A} (m : M Tty.ttys A) : Prop :=
  forall t, length (Tty.tty_table t) = 3%nat -> exists x o, m t = Done x {| t with Tty.outs := o |}.
Lemma writes_bind {A B} (m : M Tty.ttys A) (f : A -> M Tty.ttys B) : writes m -> (forall x, writes (f x)) -> writes (m ≫= f).
Proof.
  intros Hm Hf t Ht. destruct (Hm t Ht) as (x & o & E). destruct (Hf x {| t with Tty.outs := o |} Ht) as (y & o' & E').
  exists y, o'. by rewrite (done_bind _ _ _ _ _ E), E'.
Qed.
Lemma writes_outb v p : writes (Tty.outb v p).
Proof. intros t Ht. by eexists _, _. Qed.
Lemma writes_tty_at ch : 0 <= ch < 3 -> writes (Tty.tty_at ch).
Proof.
  intros Hch t Ht. destruct (zget_is_Some (Tty.tty_table t) ch) as [x E]; [unfold zlen; lia|]. exists x, (Tty.outs t).
  unfold Tty.tty_at, gets, mbind, M_bind, deref. rewrite E. by destruct t.
Qed.
Lemma rs_init_outs : writes (Tty.rs_init tty_in).
Proof.
  unfold Tty.rs_init, Tty.init. repeat lazymatch goal with
    | |- writes (Tty.tty_at _) => apply writes_tty_at; lia
    | |- writes (Tty.outb _ _) => apply writes_outb
    | |- writes (Tty.in_port _ _) => intros [] ?; by eexists _, _
    | |- writes (_ ≫= _) => apply writes_bind; [|intros ?]
    end.
Qed.
Lemma gates_rs l : gates (zoom get_ttys put_ttys (Tty.rs_init tty_in)) l l.
Proof.
  intros s [Hs Ht]. destruct s as [k i g tr ld tty con o d e1 e2 e3]. cbn [b_tty] in Ht.
  destruct (rs_init_outs (get_ttys (BootState k i g tr ld tty con o d e1 e2 e3)) Ht) as ([] & o' & E).
  eexists. split; [unfold zoom; rewrite E; reflexivity|]. split; [|reflexivity]. split; [exact Hs|done].
Qed.

(** Each step by the form of the program. *)
Local Ltac fill :=
  lazymatch goal with
  | |- gates (Traps.set_intr_gate _ ?n ?h) _ _ => apply (gates_set n (h, 14, 0))
  | |- gates (Traps.set_trap_gate _ ?n ?h) _ _ => apply (gates_set n (h, 15, 0))
  | |- gates (Traps.set_system_gate _ ?n ?h) _ _ => apply (gates_set n (h, 15, 3))
  | |- gates (outb _ _) _ _ => apply gates_outb
  | |- gates (Traps.on_cpu _) _ _ => apply gates_cpu; done
  | |- gates (Traps.set_gdt _ _) _ _ => apply gates_cpu; done
  | |- gates (Traps.set_task _ _) _ _ => apply gates_cpu; done
  | |- gates (modify _) _ _ => apply gates_modify; done
  | |- gates (zoom get_ttys _ _) _ _ => apply gates_rs
  | |- gates (for_up _ _ _) _ _ => apply gates_for; intros ? ?
  | |- gates (mbind (fun _ => _) (inb _)) _ _ => apply gates_inb; intros ?
  | |- gates (mbind _ _) _ _ => eapply gates_bind
  end.

Lemma start_gates : exists l1 l2 l3 l4,
  gates (Traps.trap_init address) Traps.head_table l1 /\ gates (tty_init address tty_in bs) l1 l2 /\
  gates (Traps.sched_init address init_task_addr) l2 l3 /\ gates (Traps.hd_gate address) l3 l4 /\
  gates (Traps.floppy_gate address) l4 Traps.start_table.
Proof.
  do 4 eexists. split_and!.
  - unfold Traps.trap_init. repeat fill.
  - unfold tty_init, rs_init, con_init, Traps.rs_gates, Traps.con_gate. repeat fill.
  - unfold Traps.sched_init. repeat fill.
  - unfold Traps.hd_gate. fill.
  - unfold Traps.floppy_gate.
    assert (F : forall l l', zset l 0x26 (Traps.floppy_interrupt, 15, 0) = l' -> gates (Traps.set_trap_gate address 0x26 Traps.floppy_interrupt) l l').
    { intros l l' <-. fill. }
    apply F. vm_compute. reflexivity.
Qed.

Lemma blk_dev_init_frees (b : blk) : exists rq, BlkQueue.blk_dev_init b = Done tt {| b with request := rq |} /\
  length rq = length (request b) /\
  forall i r, 0 <= i < NR_REQUEST -> zget rq i = Some r -> r_dev r = -1 /\ r_next r = None.
Proof.
  unfold BlkQueue.blk_dev_init. match goal with |- context [for_up _ _ ?f] => set (body := f) end.
  assert (Hn : forall n from b, 0 <= from -> exists rq, for_up n from body b = Done tt {| b with request := rq |} /\
    length rq = length (request b) /\
    forall i, zget rq i = if decide (from <= i < from + Z.of_nat n) then set_next None ∘ set_dev (-1) <$> zget (request b) i else zget (request b) i).
  { clear b. induction n as [|n IH]; intros from b Hf.
    - exists (request b). split_and!; [by destruct b|done|]. intros i. by rewrite decide_False by lia.
    - set (b1 := {| b with request := match zget (request b) from with Some r => zset (request b) from (set_next None (set_dev (-1) r)) | None => request b end |}).
      change (for_up (S n) from body b) with (for_up n (from + 1) body b1).
      destruct (IH (from + 1) b1) as (rq & -> & El & Eg); [lia|]. unfold b1 in El, Eg. exists rq. split; [reflexivity|]. cbn [request] in *. split.
      + rewrite El. destruct (zget (request b) from); [apply length_zset|done].
      + intros i. rewrite Eg. destruct (zget (request b) from) as [r|] eqn:Er.
        * destruct (decide (i = from)) as [->|Hne].
          -- rewrite decide_False, decide_True by lia. rewrite Er, zget_zset_eq; [done|]. by eapply zget_Some_range.
          -- rewrite zget_zset_ne by done. repeat case_decide; [done|lia|lia|done].
        * destruct (decide (i = from)) as [->|Hne]; [|repeat case_decide; [done|lia|lia|done]].
          rewrite Er. by repeat case_decide. }
  destruct (Hn (Z.to_nat NR_REQUEST) 0 b ltac:(lia)) as (rq & E & El & Eg). exists rq. split_and!; [done..|].
  intros i r Hi. rewrite Eg, decide_True by lia. intros (r' & _ & ->)%fmap_Some_1. done.
Qed.

(** ** The division of the memory *)

Lemma size_memory_ok : 0 <= EXT_MEM_K bs < 2 ^ 16 -> LOW_MEM <= size_memory bs <= LOW_MEM + PAGING_MEMORY /\ page_aligned (size_memory bs).
Proof.
  intros He. unfold size_memory. rewrite !Z.shiftl_mul_pow2 by lia. set (x := 1 * 2 ^ 20 + EXT_MEM_K bs * 2 ^ 10).
  replace (Z.land x 0xfffff000) with (frame x) by apply Z.land_comm. assert (Hx : word x) by (unfold word, x; lia).
  pose proof (frame_aligned x Hx) as Ha. rewrite frame_div in * by done. unfold LOW_MEM, PAGING_MEMORY, page_aligned in *. assert (2 ^ 20 <= x) by (unfold x; lia).
  clearbody x.
  case_decide; split; try done; Z.to_euclidean_division_equations; lia.
Qed.
Lemma size_buffers_ok e : LOW_MEM <= e -> LOW_MEM <= size_buffers e <= e /\ page_aligned (size_buffers e).
Proof. unfold LOW_MEM, size_buffers, page_aligned. intros He. repeat case_decide; split; (done || lia). Qed.

(** At least two buffers fit. *)
Lemma buffers_fit e m : 0 <= kernel_end <= 0x9e000 -> (1 < length (initial kernel_end (size_buffers e) m))%nat.
Proof.
  intros Hk. unfold initial, size_buffers.
  assert (H2 : forall f b, (1 < f)%nat -> b <> 0x100400 -> 0x9e800 + 72 <= b -> (1 < length (lay_out f kernel_end 0 b m))%nat).
  { intros f b Hf Hb Hb'. destruct f as [|[|n]]; [lia|lia|]. cbn [lay_out]. unfold BLOCK_SIZE, SIZEOF_BUFFER_HEAD.
    rewrite !decide_True by lia. destruct (decide (b - 1024 = 0x100000)); [lia|]. rewrite decide_True by lia. cbn [length]. lia. }
  repeat case_decide; try lia; (apply H2; [apply Nat.ltb_lt; vm_compute; reflexivity|lia|lia]).
Qed.

(** ** The drivers *)

Definition register (n : Z) (d : driver) (b : blk) : blk :=
  {| b with blk_dev := zset (blk_dev b) n (BlkDev (Some d) (zget (blk_dev b) n ≫= current_request)) |}.
Definition register_kern (n : Z) (d : driver) (k : kern) : kern := {| k with kblk := register n d (kblk k) |}.

(** The ports keep the state, whatever is read. *)
Lemma inb_bind {A} p (f : Z -> M kern A) k x k' : (forall v, f v k = Done x k') -> (v ← inb p; f v) k = Done x k'.
Proof. intros H'. destruct (Hinb p k) as [v E]. by rewrite (done_bind _ _ _ _ _ E). Qed.

Lemma dev_at_bind {A} n (f : blk_dev_struct -> M kern A) k d : zget (blk_dev (kblk k)) n = Some d -> (d ← dev_at n; f d) k = f d k.
Proof. intros E. apply done_bind. unfold dev_at, on_blk, zoom, gets, mbind, M_bind, deref. cbn. rewrite E. by destruct k. Qed.

Lemma hd_init_registers k : zlen (blk_dev (kblk k)) = 7 -> Hd.hd_init k = Done tt (register_kern 3 BlkQueue.Hd k).
Proof.
  intros Hl. destruct (zget_is_Some (blk_dev (kblk k)) 3) as [d E]; [lia|]. unfold Hd.hd_init, Hd.MAJOR_NR.
  rewrite (dev_at_bind _ _ _ _ E). erewrite done_bind by reflexivity.
  apply inb_bind. intros v. rewrite (done_bind _ _ _ _ _ (Houtb _ _ _)). apply inb_bind. intros v'. rewrite Houtb.
  unfold register_kern, register. by rewrite E.
Qed.
Lemma floppy_init_registers k : zlen (blk_dev (kblk k)) = 7 -> Floppy.floppy_init k = Done tt (register_kern 2 Fd k).
Proof.
  intros Hl. destruct (zget_is_Some (blk_dev (kblk k)) 2) as [d E]; [lia|]. unfold Floppy.floppy_init, Floppy.MAJOR_NR.
  rewrite (dev_at_bind _ _ _ _ E). erewrite done_bind by reflexivity.
  apply inb_bind. intros v. rewrite Houtb. unfold register_kern, register. by rewrite E.
Qed.
Lemma rd_init_registers start len k : zlen (blk_dev (kblk k)) = 7 ->
  Ramdisk.rd_init start len k = Done len {| (register_kern 1 Rd k) with rd_start := u32 start; rd_length := len;
    kmem := kwrite (replicate (Z.to_nat len) 0) start (kmem k) |}.
Proof.
  intros Hl. destruct (zget_is_Some (blk_dev (kblk k)) 1) as [d E]; [lia|]. unfold Ramdisk.rd_init, Ramdisk.MAJOR_NR.
  rewrite (dev_at_bind _ _ _ _ E). do 2 erewrite done_bind by reflexivity. unfold register_kern, register. by rewrite E.
Qed.

(** ** The whole start *)

Lemma run_bind {A} (m : M boot A) (f : A -> M boot unit) s x s1 (P : boot -> Prop) :
  m s = Done x s1 -> (exists s', f x s1 = Done tt s' /\ P s') -> exists s', (m ≫= f) s = Done tt s' /\ P s'.
Proof. intros E H'. by rewrite (done_bind _ _ _ _ _ E). Qed.
Lemma on_kern_done {A} (m : M kern A) s x k : m (b_kern s) = Done x k -> on_kern m s = Done x (put_kern k s).
Proof. unfold on_kern, zoom. by intros ->. Qed.

Definition ram : Z := match RAMDISK with Some kb => kb * 1024 | None => 0 end.
(** The block layer after the ram disk's initialization. *)
Definition ram_blk (b : blk) : blk := match RAMDISK with Some _ => register 1 Rd b | None => b end.

Lemma ram_stage l s : with_gates l s -> zlen (blk_dev (kblk (b_kern s))) = 7 ->
  exists s', (match RAMDISK with
   | Some kb =>
       start ← gets main_memory_start;
       len ← on_kern (Ramdisk.rd_init start (kb * 1024));
       modify (set_main_memory_start (start + len))
   | None => skip
   end) s = Done tt s' /\ with_gates l s' /\ memory_end s' = memory_end s /\ buffer_memory_end s' = buffer_memory_end s /\
   main_memory_start s' = main_memory_start s + ram /\ kblk (b_kern s') = ram_blk (kblk (b_kern s)) /\ get_mm s' = get_mm s.
Proof.
  intros Hl Hd. unfold ram, ram_blk. destruct RAMDISK as [kb|].
  - eexists. erewrite done_bind by reflexivity. split.
    + rewrite (done_bind _ _ _ _ _ (on_kern_done _ _ _ _ (rd_init_registers _ _ _ Hd))). reflexivity.
    + done.
  - exists s. split_and!; try done. lia.
Qed.

(** The hypotheses on the machine: the memory is divided in whole pages. *)
Definition fits : Prop :=
  0 <= EXT_MEM_K bs < 2 ^ 16 /\ 0 <= kernel_end <= 0x9e000 /\
  0 <= ram /\ page_aligned ram /\ size_buffers (size_memory bs) + ram <= size_memory bs.
(** What the boot loader and [head.s] have set up. *)
Definition loaded (s : boot) : Prop :=
  with_gates Traps.head_table s /\ zlen (mem_map (get_mm s)) = PAGING_PAGES /\ zlen (blk_dev (kblk (b_kern s))) = 7.

Lemma memory_stage s : fits -> loaded s -> exists s1,
  divide_memory RAMDISK bs s = Done tt s1 /\ with_gates Traps.head_table s1 /\
  kblk (b_kern s1) = ram_blk (kblk (b_kern s)) /\ buffer_memory_end s1 = size_buffers (size_memory bs) /\
  forall p, page_aligned p -> LOW_MEM <= p < LOW_MEM + PAGING_MEMORY ->
    cell (get_mm s1) p = if decide (size_buffers (size_memory bs) + ram <= p < size_memory bs) then 0 else USED.
Proof.
  intros (He & Hk & Hr & Hra & Hfit) (Hg & Hm & Hd). pose proof (size_memory_ok He) as [[E1 E2] E3].
  destruct (size_buffers_ok _ E1) as [B1 B2]. unfold divide_memory.
  do 5 (eapply run_bind; [reflexivity|]).
  match goal with |- exists s', _ ?s1 = _ /\ _ => destruct (ram_stage Traps.head_table s1 Hg Hd) as (s2 & R2 & G2 & M1 & M2 & M3 & M4 & M5) end.
  eapply run_bind; [exact R2|]. eapply run_bind; [reflexivity|]. cbn in M2, M3, M4. rewrite M3.
  destruct (mem_init_free (get_mm s2) (size_buffers (size_memory bs) + ram) (size_memory bs)) as (mm' & Em & _ & _ & Hc).
  1: by rewrite M5. 1: unfold page_aligned in *; rewrite Z.add_mod, B2, Hra by lia; done. 1: done. 1: lia. 1: lia.
  eexists. split; [unfold zoom; rewrite Em; reflexivity|]. done.
Qed.

(** [startup_time] is set from the clock. *)
Lemma time_stage fuel t l s : Mktime.clock_date t -> Mktime.shows clock 0 t -> with_gates l s ->
  exists s', time_init clock (S fuel) s = Done tt s' /\ with_gates l s' /\
    rest s' = {| (rest s) with v_time := s32 (Mktime.epoch_seconds t) |}.
Proof.
  intros Hd Hs Hl. unfold time_init. rewrite (Mktime.time_init_correct _ _ _ _ Hd Hs). eexists. split; [reflexivity|]. done.
Qed.

(** The buffers. *)
Lemma buffer_stage e l s : 0 <= kernel_end <= 0x9e000 -> with_gates l s ->
  exists s' B, on_kern (buffer_init kernel_end (size_buffers e)) s = Done tt s' /\ with_gates l s' /\
    rest s' = {| (rest s) with v_blk := {| (v_blk (rest s)) with bufs := B |}; v_free := 0; v_hash := replicate (Z.to_nat NR_HASH) None |} /\
    lists_ok B 0 (replicate (Z.to_nat NR_HASH) None) None (zrange 0 (length B)) (fun _ => []) /\
    forall i b, zget B i = Some b -> fresh b.
Proof.
  intros Hk Hl. destruct (buffer_init_cache kernel_end (size_buffers e) (b_kern s) (buffers_fit e _ Hk)) as (B & R & _ & C & F).
  exists (put_kern (sb B 0 (replicate (Z.to_nat NR_HASH) None) (null_b_prev (b_kern s)) (b_kern s)) s), B.
  split_and!; [by apply on_kern_done|done|done|exact C|done].
Qed.

(** A driver, and its gate. *)
Lemma driver_stage (m : M kern unit) n d l s : with_gates l s ->
  m (b_kern s) = Done tt (register_kern n d (b_kern s)) ->
  exists s', on_kern m s = Done tt s' /\ with_gates l s' /\ rest s' = {| (rest s) with v_blk := register n d (v_blk (rest s)) |}.
Proof. intros Hl E. exists (put_kern (register_kern n d (b_kern s)) s). split; [by apply on_kern_done|done]. Qed.

Lemma register_len n d b : zlen (blk_dev (register n d b)) = zlen (blk_dev b).
Proof. unfold zlen. cbn. by rewrite length_zset. Qed.
Lemma register_get n d b m : 0 <= n < zlen (blk_dev b) ->
  request_fn <$> zget (blk_dev (register n d b)) m = if decide (n = m) then Some (Some d) else request_fn <$> zget (blk_dev b) m.
Proof. intros Hn. cbn. rewrite zget_zset by done. by case_decide. Qed.
Lemma ram_blk_ok b : zlen (blk_dev b) = 7 -> zlen (blk_dev (ram_blk b)) = 7 /\ length (request (ram_blk b)) = length (request b) /\
  (RAMDISK <> None -> request_fn <$> zget (blk_dev (ram_blk b)) 1 = Some (Some Rd)).
Proof.
  intros Hb. unfold ram_blk. destruct RAMDISK; [|done]. split_and!; [by rewrite register_len|done|].
  intros _. by rewrite register_get, decide_True by lia.
Qed.

(** Everything that [main] leaves behind. *)
Definition started (t : Mktime.tm) (s : boot) : Prop :=
  (forall p, page_aligned p -> LOW_MEM <= p < LOW_MEM + PAGING_MEMORY ->
    cell (get_mm s) p = if decide (size_buffers (size_memory bs) + ram <= p < size_memory bs) then 0 else USED) /\
  (cache_ok (b_kern s) (zrange 0 (length (bufs (kblk (b_kern s))))) (fun _ => []) /\
   forall i b, zget (bufs (kblk (b_kern s))) i = Some b -> fresh b) /\
  (forall i r, 0 <= i < NR_REQUEST -> zget (request (kblk (b_kern s))) i = Some r -> r_dev r = -1 /\ r_next r = None) /\
  (request_fn <$> zget (blk_dev (kblk (b_kern s))) 2 = Some (Some Fd) /\
   request_fn <$> zget (blk_dev (kblk (b_kern s))) 3 = Some (Some BlkQueue.Hd) /\
   (RAMDISK <> None -> request_fn <$> zget (blk_dev (kblk (b_kern s))) 1 = Some (Some Rd))) /\
  startup_time (utab (kuser (b_kern s))) = s32 (Mktime.epoch_seconds t).

Lemma main_runs fuel t s : fits -> loaded s -> Mktime.clock_date t -> Mktime.shows clock 0 t ->
  exists s', main address tty_in clock init_task_addr kernel_end RAMDISK bs (S fuel) s = Done tt s' /\
    with_gates Traps.start_table s' /\ started t s'.
Proof.
  intros Hf Hl Hd Hs. destruct start_gates as (l1 & l2 & l3 & l4 & G1 & G2 & G3 & G4 & G5).
  destruct (memory_stage s Hf Hl) as (s1 & R1 & W1 & K1 & E1 & P1). destruct Hl as (_ & _ & Hb).
  destruct (ram_blk_ok _ Hb) as (Hb1 & Hq1 & Hrd). rewrite <- K1 in Hb1, Hrd. clear K1 Hq1 Hb.
  unfold main. eapply run_bind; [exact R1|]. clear R1 s.
  destruct (G1 s1 W1) as (s2 & R2 & W2 & V2). eapply run_bind; [exact R2|]. clear R2 G1 W1.
  destruct (blk_dev_init_frees (kblk (b_kern s2))) as (rq & Eq & _ & Hq).
  set (s3 := put_kern {| (b_kern s2) with kblk := {| (kblk (b_kern s2)) with request := rq |} |} s2).
  assert (V3 : rest s3 = {| (rest s2) with v_blk := {| (v_blk (rest s2)) with request := rq |} |}) by done.
  eapply run_bind; [apply on_kern_done; unfold on_blk, zoom; cbn; rewrite Eq; reflexivity|]. fold s3.
  destruct (G2 s3 W2) as (s4 & R4 & W4 & V4). eapply run_bind; [exact R4|]. clear R4 G2 W2. clearbody s3.
  destruct (time_stage fuel t l2 s4 Hd Hs W4) as (s5 & R5 & W5 & V5). eapply run_bind; [exact R5|]. clear R5 W4.
  destruct (G3 s5 W5) as (s6 & R6 & W6 & V6). eapply run_bind; [exact R6|]. clear R6 G3 W5.
  assert (E6 : buffer_memory_end s6 = size_buffers (size_memory bs)).
  { rewrite <- E1. change (buffer_memory_end s6) with (snd (fst (v_ends (rest s6)))). by rewrite V6, V5, V4, V3, V2. }
  eapply run_bind; [reflexivity|]. rewrite E6.
  destruct (buffer_stage (size_memory bs) l3 s6) as (s7 & B & R7 & W7 & V7 & C7 & F7); [apply Hf|done|].
  eapply run_bind; [exact R7|]. clear R7 W6.
  assert (Hb7 : zlen (blk_dev (kblk (b_kern s7))) = 7).
  { change (kblk (b_kern s7)) with (v_blk (rest s7)). by rewrite V7, V6, V5, V4, V3, V2. }
  destruct (driver_stage Hd.hd_init 3 BlkQueue.Hd l3 s7 W7 (hd_init_registers _ Hb7)) as (s8 & R8 & W8 & V8). eapply run_bind; [exact R8|]. clear R8 W7.
  destruct (G4 s8 W8) as (s9 & R9 & W9 & V9). eapply run_bind; [exact R9|]. clear R9 G4 W8.
  assert (Hb9 : zlen (blk_dev (kblk (b_kern s9))) = 7).
  { change (kblk (b_kern s9)) with (v_blk (rest s9)). rewrite V9, V8. cbn [v_blk]. by rewrite register_len. }
  destruct (driver_stage Floppy.floppy_init 2 Fd l4 s9 W9 (floppy_init_registers _ Hb9)) as (sa & Ra & Wa & Va). eapply run_bind; [exact Ra|]. clear Ra W9.
  destruct (G5 sa Wa) as (sb & Rb & Wb & Vb). exists sb. split; [exact Rb|]. split; [exact Wb|].
  rewrite Va, V9, V8, V7, V6, V5, V4, V3, V2 in Vb. clear - Hq Hrd P1 C7 F7 Vb Hb1.
  assert (K1 : kblk (b_kern sb) = register 2 Fd (register 3 BlkQueue.Hd (Blk B rq (blk_dev (kblk (b_kern s1)))))) by exact (f_equal v_blk Vb).
  assert (K2 : free_list (b_kern sb) = 0) by exact (f_equal v_free Vb).
  assert (K3 : hash_table (b_kern sb) = replicate (Z.to_nat NR_HASH) None) by exact (f_equal v_hash Vb).
  assert (K4 : get_mm sb = get_mm s1) by exact (f_equal v_mm Vb).
  assert (K5 : startup_time (utab (kuser (b_kern sb))) = s32 (Mktime.epoch_seconds t)) by exact (f_equal v_time Vb).
  unfold started, cache_ok. rewrite K1, K2, K3, K4, K5.
  set (b3 := register 3 BlkQueue.Hd (Blk B rq (blk_dev (kblk (b_kern s1))))).
  assert (L3 : zlen (blk_dev b3) = 7) by (unfold b3; by rewrite register_len).
  split_and!; [exact P1|exact C7|exact F7|exact Hq|..|done].
  - by rewrite register_get, decide_True by lia.
  - rewrite register_get, decide_False by lia. unfold b3. by rewrite register_get, decide_True by (cbn [blk_dev]; lia).
  - intros Hr. rewrite register_get, decide_False by lia. unfold b3. rewrite register_get, decide_False by (cbn [blk_dev]; lia). by apply Hrd.
Qed.


(** C38: After [main] every interrupt number leads to its handler through a present gate into the
    kernel's code segment, the hard disk, serial and timer interrupts with interrupts off; and the only ones that a
    program in user mode may call are breakpoint, overflow, bounds and the system call. *)
Theorem gates_after_start fuel t s : (forall h, 0 <= address h < 2 ^ 32) ->
  fits -> loaded s -> Mktime.clock_date t -> Mktime.shows clock 0 t ->
  exists s', main address tty_in clock init_task_addr kernel_end RAMDISK bs (S fuel) s = Done tt s' /\
    forall n, 0 <= n < 256 -> exists g, zget (b_idt s') n = Some g /\
      let '(h, type, dpl) := Traps.vector n in
      Traps.gate_present g /\ Traps.gate_selector g = 8 /\ Traps.gate_offset g = address h /\ Traps.gate_type g = type /\
      (Traps.gate_dpl g = 3 <-> n ∈ [3; 4; 5; 0x80]).
Proof.
  intros Ha Hf Hl Hd Hs. destruct (main_runs fuel t s Hf Hl Hd Hs) as (s' & R & [W _] & _). exists s'. split; [exact R|].
  intros n Hn. pose proof (Traps.vector_ok n Hn) as Hv. exists (Traps.gate_of address (Traps.vector n)). rewrite W. split; [by apply Traps.start_table_get|].
  destruct (Traps.vector n) as [[h type] dpl]. destruct Hv as (Ht & Hp & Hu).
  destruct (Traps.gate_fields type dpl (address h) Ht Hp (Ha h)) as (F1 & F2 & F3 & F4 & F5). cbn [Traps.gate_of] in *.
  split_and!; [done..|]. by rewrite F4.
Qed.
End boot.

End BootProps.

(** ** A start

    A machine with 16 MB, a ram disk of 512 kB and the clock at 17 September 1991, on which the
    theorems about [main] are applied. *)
Module BootInst.
Import Memory MemoryFacts Task UserMem BlkQueue FsState FsInst Boot BootProps.

Definition address (h : Traps.handler) : Z := 0x7000.
Definition settings : bios := Bios 15360 0x306 [] ConsoleProps.ex_boot.
Definition loaded_boot : boot :=
  BootState bare (map (Traps.gate_of address) Traps.head_table) (replicate 256 (Desc 0 0)) 0 0
    Tty.tty_table0 ConsoleProps.ex_con [] [] 0 0 0.

Lemma still_inb p (k : kern) : exists v, Ports.inb p k = Done v k.
Proof. by exists 0. Qed.
Lemma still_outb v p (k : kern) : Ports.outb v p k = Done tt k.
Proof. done. Qed.
Lemma settings_fit : fits 0x20000 (Some 512) settings.
Proof. unfold fits, ram, settings, page_aligned. cbn [EXT_MEM_K]. split_and!; (done || lia). Qed.
Lemma boot_loaded : loaded address loaded_boot.
Proof. split_and!; [|done..]. by split. Qed.
Lemma clock_shows : Mktime.shows Mktime.ex_cmos 0 Mktime.ex_date.
Proof. intros k _. by split_and!. Qed.
Lemma date_ok : Mktime.clock_date Mktime.ex_date.
Proof. unfold Mktime.clock_date. cbn. lia. Qed.

Definition start (fuel : nat) : outcome boot unit :=
  main address (fun _ _ => 0) Mktime.ex_cmos 0x5000 0x20000 (Some 512) settings fuel loaded_boot.


Lemma gates_after_start_witness : exists s', start 1 = Done tt s' /\
  exists g, zget (b_idt s') 0x80 = Some g /\ Traps.gate_dpl g = 3.
Proof.
  destruct (gates_after_start address (fun _ _ => 0) Mktime.ex_cmos 0x5000 0x20000 (Some 512) settings still_inb still_outb
    0 Mktime.ex_date loaded_boot (fun _ => ltac:(unfold address; lia)) settings_fit boot_loaded date_ok clock_shows) as (s' & R & H).
  exists s'. split; [exact R|]. destruct (H 0x80) as (g & E & G); [lia|]. exists g. split; [exact E|]. apply G.
  apply (bool_decide_unpack _). exact I.
Defined.

End BootInst.
