(* ===== verification/FileProps.v ===== *)
(** * Reading a regular file

    [bmap] follows the direct, the indirect and the double indirect blocks of an inode, and
    [file_read] hands out the bytes of the blocks it finds, the composition of file_dev.c,
    inode.c, buffer.c, ll_rw_blk.c and ramdisk.c. *)

From S2P Require Import Prelude Bytes Links Task UserMem BlkQueue BlkProps FsState Ramdisk RdProps.
From S2P Require Import Buffer BufferProps Cache RdCache FsInst Super Inode Truncate FileIO.
Import Task UserMem BlkQueue BlkProps FsState Ramdisk RdProps Buffer BufferProps Cache RdCache FileIO.

Module FileProps.

(** ** The cache, ready for the next block *)

(** [m] buffers can be reused, and no count is about to wrap. *)
Definition roomy (m : nat) (B : list buffer_head) : Prop :=
  (1 < length B)%nat /\
  (exists L, NoDup L /\ length L = m /\ forall i, i ∈ L -> exists b, zget B i = Some b /\ reusable b) /\
  forall i b, zget B i = Some b -> 0 <= b_count b < 255.

Lemma spare_of m B fl H l C : lists_ok B fl H None l C -> roomy (S m) B -> spare B l.
Proof.
  intros L (Hlen & ([|i L'] & _ & HL & Hr) & _); [done|]. destruct (Hr i) as (b & E & Hr'); [left|].
  assert (Hin : forall i, 0 <= i < zlen B -> i ∈ l).
  { intros j Hj. apply (lo_all _ _ _ _ _ _ L). by split. }
  split.
  - destruct l as [|x [|y l]]; cbn; [| |lia].
    + destruct (not_elem_of_nil 0). apply Hin. unfold zlen. lia.
    + assert (0 ∈ [x]) as H0%list_elem_of_singleton by (apply Hin; unfold zlen; lia).
      assert (1 ∈ [x]) as H1%list_elem_of_singleton by (apply Hin; unfold zlen; lia). lia.
  - exists i, b. split_and!; [|done..]. apply Hin. by apply zget_Some_range in E.
Qed.

(** Two kernels with the same cache and the same disk. *)
Definition same_cache (s s' : kern) : Prop :=
  kblk s' = kblk s /\ free_list s' = free_list s /\ hash_table s' = hash_table s /\ kmem s' = kmem s /\ rd_start s' = rd_start s.

Lemma same_keeps s s' : same_cache s s' -> keeps s s'.
Proof. intros (E1 & _ & _ & E2 & E3) m d. unfold holds, buf, on_disk, rd_addr. by rewrite E1, E2, E3. Qed.
Lemma same_steady s s' l C : same_cache s s' -> steady s l C -> steady s' l C.
Proof.
  intros (E1 & E2 & E3 & E4 & E5) [H1 H2 H3 H4 H5].
  split; unfold cache_ok, coherent, idle, buf, on_disk, rd_addr in *; rewrite ?E1, ?E2, ?E3, ?E4, ?E5; done.
Qed.

Section read.
Context {HM : Machine} {HQ : Quiet} (fuel depth : nat).

Definition ready (m : nat) (s : kern) : Prop :=
  (exists l C, steady s l C) /\ roomy m (bufs (kblk s)) /\ (length (bufs (kblk s)) < fuel)%nat.
(** A buffer is in use, and the kernel is ready again once it is released. *)
Definition in_use (m : nat) (s : kern) (bh : Z) (b : buffer_head) : Prop :=
  (exists l C, steady s l C) /\ buf s bh = Some b /\ 0 < b_count b < 256 /\
  roomy m (zset (bufs (kblk s)) bh (set_b_count (b_count b - 1) b)) /\ (length (bufs (kblk s)) < fuel)%nat.

Lemma same_ready m s s' : same_cache s s' -> ready m s -> ready m s'.
Proof.
  intros Hs [(l & C & S) Hr]. split; [exists l, C; by eapply same_steady|]. destruct Hs as [-> _]. done.
Qed.

Lemma bufs_length s s' bh : other_bufs s s' bh -> is_Some (buf s bh) -> is_Some (buf s' bh) -> length (bufs (kblk s')) = length (bufs (kblk s)).
Proof.
  intros (Ho & _) H1 H2. assert (Hi : forall i, is_Some (buf s' i) <-> is_Some (buf s i)).
  { intros i. destruct (decide (i = bh)) as [->|Hne]; [done|]. specialize (Ho i Hne). rewrite <- (fmap_is_Some core (buf s' i)), <- (fmap_is_Some core (buf s i)). by rewrite Ho. }
  assert (Hz : forall i, 0 <= i < zlen (bufs (kblk s')) <-> 0 <= i < zlen (bufs (kblk s))).
  { intros i. specialize (Hi i). unfold buf in Hi. split; intros [x E]%zget_is_Some.
    - destruct Hi as [[y Ey] _]; [by rewrite E|]. by apply zget_Some_range in Ey.
    - destruct Hi as [_ [y Ey]]; [by rewrite E|]. by apply zget_Some_range in Ey. }
  pose proof (Hz (zlen (bufs (kblk s')))). pose proof (Hz (zlen (bufs (kblk s)))). unfold zlen in *. lia.
Qed.

(** A buffer that somebody has taken from a ready kernel. *)
Lemma in_use_intro m s s1 bh b b1 :
  ready m s -> (exists l C, steady s1 l C) -> other_bufs s s1 bh -> buf s bh = Some b -> buf s1 bh = Some b1 ->
  b_count b1 = u8 (b_count b + 1) -> (b_dirt b = 0 -> b_dirt b1 = 0) -> in_use m s1 bh b1 /\ b_count b1 = b_count b + 1.
Proof.
  intros (_ & (Hlen & (L & HL1 & HL2 & HL3) & Hcnt) & Hf) S1 Ho E E1 Hc Hdt.
  assert (HB : length (bufs (kblk s1)) = length (bufs (kblk s))) by (apply (bufs_length s s1 bh Ho); eauto).
  pose proof (Hcnt bh b E) as Hcb. pose proof (zget_Some_range _ _ _ E1) as Hbr.
  assert (Hc' : b_count b1 = b_count b + 1) by (rewrite Hc; apply u8_small; lia). split; [|done].
  split_and!; [done|done|lia|lia| |lia].
  assert (Hcb' : b_count (set_b_count (b_count b1 - 1) b1) = b_count b) by (cbn; rewrite Hc'; rewrite u8_small; lia).
  split_and!; [rewrite length_zset; lia| |].
  - exists L. split_and!; [done..|]. intros i Hin. destruct (HL3 i Hin) as (bi & Ei & Hi). destruct (decide (i = bh)) as [->|Hne].
    + exists (set_b_count (b_count b1 - 1) b1). rewrite zget_zset_eq by done. unfold buf in E. rewrite Ei in E. injection E as ->.
      destruct Hi as [Hi1 Hi2]. split; [done|]. split; [by rewrite Hcb'|by apply Hdt].
    + destruct (other_bufs_get _ _ _ _ _ (other_bufs_sym _ _ _ Ho) Hne Ei) as (b0 & E0 & (_ & _ & K1 & K2 & _)%core_fields).
      exists b0. rewrite zget_zset_ne by done. split; [exact E0|]. unfold reusable in *. by rewrite K1, K2.
  - intros j bj. destruct (decide (j = bh)) as [->|Hne].
    + rewrite zget_zset_eq by done. intros [= <-]. rewrite Hcb'. lia.
    + rewrite zget_zset_ne by done. intros Ej. destruct (other_bufs_get _ _ _ _ _ Ho Hne Ej) as (b0 & E0 & (_ & _ & K1 & _)%core_fields).
      rewrite <- K1. by apply (Hcnt j).
Qed.

Lemma bread_in_use m s n d : ready (S m) s -> rd_has s n -> holds s n d ->
  exists bh s1 b, Inode.bread fuel depth RD n s = Done (Some bh) s1 /\ in_use (S m) s1 bh b /\ b_data b = d /\ has_id RD n b /\ b_uptodate b <> 0 /\
    outside s1 = outside s /\ keeps s s1.
Proof.
  intros Hs Hn Hd. pose proof Hs as ((l & C & S) & Hr & Hf).
  destruct (bread_steady fuel (Inode.sync_inodes fuel depth) s l C n d S (spare_of _ _ _ _ _ _ (st_cache _ _ _ S) Hr) Hn Hf Hd)
    as (bh & s1 & b & b1 & l1 & C1 & R & E & E1 & Hid & Hu & Hda & Hc & Hdt & Ho & Hout & S1 & Hk).
  exists bh, s1, b1. split_and!; try done. by eapply in_use_intro; [exact Hs|by exists l1, C1|..].
Qed.

(** The buffer is given back, whatever happened elsewhere. *)
Lemma brelse_others m s bh b s1 : in_use m s bh b -> same_cache s s1 ->
  exists s2, Buffer.brelse fuel (Some bh) s1 = Done tt s2 /\ ready m s2 /\ outside s2 = outside s1 /\ other_bufs s1 s2 bh /\ keeps s1 s2 /\
    buf s2 bh = Some (set_b_count (b_count b - 1) b).
Proof.
  intros ((l & C & S) & E & Hc & Hr & Hf) Hs. pose proof (same_steady _ _ _ _ Hs S) as S1. destruct Hs as (Eb & _).
  assert (E1 : buf s1 bh = Some b) by (unfold buf; by rewrite Eb).
  destruct (brelse_steady fuel s1 l C bh b ltac:(lia) S1 E1 Hc) as (s2 & R & Es & S2 & Ho & E2).
  exists s2. split_and!; [exact R| |by rewrite Es|exact Ho|by apply (keeps_one s1 s2 bh b _ Ho E1 E2)|exact E2].
  split; [by exists l, C|]. rewrite Es. cbn. rewrite Eb, length_zset. done.
Qed.

Lemma brelse_ready m s bh b s1 : in_use m s bh b -> same_cache s s1 ->
  exists s2, Buffer.brelse fuel (Some bh) s1 = Done tt s2 /\ ready m s2 /\ outside s2 = outside s1 /\ keeps s1 s2.
Proof. intros U H. destruct (brelse_others m s bh b s1 U H) as (s2 & R & Y & O & _ & K & _). by exists s2. Qed.

(** ** [bmap] *)

(** The kernel is ready again, and nothing but the cache has changed. *)
Definition visited (m : nat) (s s' : kern) : Prop := ready m s' /\ outside s' = outside s /\ keeps s s'.

Lemma visited_refl m s : ready m s -> visited m s s.
Proof. intros H. split_and!; [done..|]. by intros ??. Qed.
Lemma visited_trans m s1 s2 s3 : visited m s1 s2 -> visited m s2 s3 -> visited m s1 s3.
Proof. intros (R1 & O1 & K1) (R2 & O2 & K2). split_and!; [done|by rewrite O2|]. intros ? ? ?. by apply K2, K1. Qed.

Lemma outside_rd_has s s' n : outside s' = outside s -> rd_has s n -> rd_has s' n.
Proof. intros [= _ _ _ _ _ _ _ E1 E2]. unfold rd_has. by rewrite E1, E2. Qed.
Lemma outside_inode s s' i v : outside s' = outside s -> zget (inode_table s) i = Some v -> inode_at i s' = Done v s'.
Proof. intros [= E _]. unfold inode_at. rewrite gets_bind, E. by intros ->. Qed.

(** Word [k] of block [z]. *)
Definition entry_at (s : kern) (z k e : Z) : Prop :=
  z <> 0 /\ rd_has s z /\ exists d, holds s z d /\ word_at (Z.to_nat k) d = e.

(** Block [k] of the file is block [e] of the disk, 0 for a hole. *)
Inductive file_block (s : kern) (v : m_inode) : Z -> Z -> Prop :=
| Direct k : 0 <= k < 7 -> file_block s v k (zone v k)
| No_indirect k : 0 <= k < 512 -> zone v 7 = 0 -> file_block s v (7 + k) 0
| Indirect k e : 0 <= k < 512 -> entry_at s (zone v 7) k e -> file_block s v (7 + k) e
| No_double k : 0 <= k < 512 * 512 -> zone v 8 = 0 -> file_block s v (7 + 512 + k) 0
| No_second k : 0 <= k < 512 * 512 -> entry_at s (zone v 8) (k / 512) 0 -> file_block s v (7 + 512 + k) 0
| Double k z e : 0 <= k < 512 * 512 -> entry_at s (zone v 8) (k / 512) z -> entry_at s z (k mod 512) e ->
    file_block s v (7 + 512 + k) e.

(** The disk is where it was, and the blocks hold what they held. *)
Definition later (s s' : kern) : Prop := (rd_start s', rd_length s') = (rd_start s, rd_length s) /\ keeps s s'.

Lemma visited_later m s s' : visited m s s' -> later s s'.
Proof. intros (_ & [= _ _ _ _ _ _ _ E1 E2] & Hk). split; [by rewrite E1, E2|done]. Qed.
Lemma later_rd_has s s' n : later s s' -> rd_has s n -> rd_has s' n.
Proof. intros ([= E1 E2] & _). unfold rd_has. by rewrite E1, E2. Qed.
Lemma later_entry s s' z k e : later s s' -> entry_at s z k e -> entry_at s' z k e.
Proof. intros Hl (Hz & Hr & d & Hd & He). split_and!; [done|by eapply later_rd_has|]. exists d. split; [by apply Hl|done]. Qed.
Lemma later_block s s' v k e : later s s' -> file_block s v k e -> file_block s' v k e.
Proof.
  intros Hl H. destruct H; [by apply Direct|by apply No_indirect|apply Indirect|by apply No_double|apply No_second|eapply Double];
    done || by eapply later_entry.
Qed.

Lemma entry_reads m create s z k e : ready (S m) s -> create = false \/ e <> 0 -> entry_at s z k e ->
  exists s', Truncate.entry_or_new fuel depth create RD z k s = Done e s' /\ visited (S m) s s'.
Proof.
  intros Hs Hcr (Hz & Hr & d & Hd & He).
  destruct (bread_in_use m s z d Hs Hr Hd) as (bh & s1 & b & R & U & Hda & _ & _ & O1 & K1).
  destruct (brelse_ready (S m) s1 bh b s1 U) as (s2 & R2 & Y2 & O2 & K2); [by split_and!|].
  exists s2. split.
  - unfold Truncate.entry_or_new. erewrite done_bind by exact R. cbv beta iota.
    erewrite done_bind by (apply bh_at_ok; apply U). rewrite Hda, He. rewrite decide_False by naive_solver.
    erewrite done_bind by reflexivity. by rewrite (done_bind _ _ _ _ _ R2).
  - split_and!; [done|by rewrite O2|]. intros ? ? ?. by apply K2, K1.
Qed.

Lemma zone_reads create s i v k : inode_at i s = Done v s -> create = false \/ zone v k <> 0 -> Truncate.zone_or_new fuel depth create i k s = Done (zone v k) s.
Proof.
  intros E Hcr. unfold Truncate.zone_or_new. erewrite done_bind by exact E. rewrite decide_False by naive_solver.
  erewrite done_bind by reflexivity. by erewrite done_bind by exact E.
Qed.

(** [bmap], and [create_block] where there is a block already. *)
Lemma bmap_reads m create s i v k e : ready (S m) s -> zget (inode_table s) i = Some v -> i_dev v = RD -> file_block s v k e ->
  create = false \/ e <> 0 ->
  exists s', Truncate._bmap fuel depth i k create s = Done e s' /\ visited (S m) s s'.
Proof.
  intros Hs Ei Hdev Hb Hcr. pose proof (visited_refl _ s Hs) as V0.
  pose proof (fun s' (V : visited (S m) s s') => outside_inode s s' i v (proj1 (proj2 V)) Ei) as Hi.
  pose proof (fun k => zone_reads create s i v k (Hi s V0)) as Hz. unfold Truncate._bmap.
  destruct Hb as [k Hk|k Hk Hz7|k e Hk He|k Hk Hz8|k Hk He|k z e Hk Hz8 He]; rewrite (decide_False (P := _ < 0)), (decide_False (P := _ <= _)) by lia.
  - rewrite decide_True by lia. exists s. split; [by apply Hz|done].
  - rewrite decide_False, decide_True by lia. destruct Hcr as [->|?]; [|done]. erewrite done_bind by (apply Hz; by left). rewrite Hz7, decide_True by done. by exists s.
  - rewrite decide_False, decide_True by lia. erewrite done_bind by (apply Hz; right; apply He). rewrite decide_False by apply He.
    erewrite done_bind by by apply Hi. rewrite Hdev. replace (7 + k - 7) with k by lia. by apply entry_reads.
  - rewrite !decide_False by lia. destruct Hcr as [->|?]; [|done]. erewrite done_bind by (apply Hz; by left). rewrite Hz8, decide_True by done. by exists s.
  - rewrite !(decide_False (P := _ < _)) by lia. erewrite done_bind by (apply Hz; right; apply He). rewrite decide_False by apply He.
    erewrite done_bind by by apply Hi. rewrite Hdev. replace (7 + 512 + k - 7 - 512) with k by lia.
    rewrite Z.shiftr_div_pow2 by lia. destruct (entry_reads m create s _ _ _ Hs Hcr He) as (s1 & R1 & V1). erewrite done_bind by exact R1.
    rewrite decide_True by done. by exists s1.
  - rewrite !(decide_False (P := _ < _)) by lia. erewrite done_bind by (apply Hz; right; apply Hz8). rewrite decide_False by apply Hz8.
    erewrite done_bind by by apply Hi. rewrite Hdev. replace (7 + 512 + k - 7 - 512) with k by lia.
    rewrite Z.shiftr_div_pow2 by lia. destruct (entry_reads m create s _ _ _ Hs (or_intror (proj1 He)) Hz8) as (s1 & R1 & V1). erewrite done_bind by exact R1.
    rewrite decide_False by apply He. erewrite done_bind by by apply Hi. rewrite Hdev.
    change 511 with (Z.ones 9). rewrite Z.land_ones by lia.
    destruct (entry_reads m create s1 z (k mod 512) e (proj1 V1) Hcr (later_entry _ _ _ _ _ (visited_later _ _ _ V1) He)) as (s2 & R2 & V2).
    exists s2. split; [exact R2|by eapply visited_trans].
Qed.

(** ** [file_read] *)

(** Byte [p] of a file whose block [k] holds [D k], and the bytes from [pos] on. *)
Definition byte_at (D : Z -> list Z) (p : Z) : Z := default 0 (zget (D (p / 1024)) (p mod 1024)).
Definition file_bytes (D : Z -> list Z) (pos n : Z) : list Z := map (byte_at D) (seqZ pos n).

(** Block [k] of the file holds [d], zeros in a hole. *)
Definition file_data (s : kern) (v : m_inode) (k : Z) (d : list Z) : Prop :=
  exists e, file_block s v k e /\ ((e = 0 /\ d = replicate 1024 0) \/ (e <> 0 /\ rd_has s e /\ holds s e d)).

Lemma later_data s s' v k d : later s s' -> file_data s v k d -> file_data s' v k d.
Proof.
  intros Hl (e & Hb & He). exists e. split; [by eapply later_block|]. destruct He as [He|(Hn & Hr & Hd)]; [by left|right].
  split_and!; [done|by eapply later_rd_has|by apply Hl].
Qed.

Lemma length_file_bytes D pos n : 0 <= n -> length (file_bytes D pos n) = Z.to_nat n.
Proof. intros Hn. unfold file_bytes. by rewrite length_map, length_seqZ. Qed.
Lemma file_bytes_app D pos n1 n2 : 0 <= n1 -> 0 <= n2 -> file_bytes D pos (n1 + n2) = file_bytes D pos n1 ++ file_bytes D (pos + n1) n2.
Proof. intros H1 H2. unfold file_bytes. by rewrite seqZ_app, map_app by lia. Qed.
Lemma block_file_bytes D pos n : 0 <= pos -> 0 <= n -> pos mod 1024 + n <= 1024 -> length (D (pos / 1024)) = 1024%nat ->
  block_bytes (pos mod 1024) n (D (pos / 1024)) = file_bytes D pos n.
Proof.
  intros Hp Hn Hle Hlen. unfold block_bytes, field. apply list_eq. intros j.
  pose proof (Z.mod_pos_bound pos 1024 ltac:(lia)) as Hm. pose proof (Z.div_mod pos 1024 ltac:(lia)) as Hd.
  destruct (decide (j < Z.to_nat n)%nat) as [Hj|Hj].
  - rewrite lookup_take_lt, lookup_drop by done. unfold file_bytes. change (map ?f ?l) with (f <$> l).
    rewrite list_lookup_fmap, lookup_seqZ_lt by lia. cbn [fmap option_fmap option_map]. unfold byte_at.
    assert (E1 : (pos + Z.of_nat j) / 1024 = pos / 1024) by (symmetry; apply (Z.div_unique _ _ _ (pos mod 1024 + Z.of_nat j)); lia).
    assert (E2 : (pos + Z.of_nat j) mod 1024 = pos mod 1024 + Z.of_nat j) by (symmetry; apply (Z.mod_unique _ _ (pos / 1024)); lia).
    rewrite E1, E2. unfold zget. rewrite decide_True by lia. rewrite Z2Nat.inj_add, Nat2Z.id by lia.
    destruct (lookup_lt_is_Some_2 (D (pos / 1024)) (Z.to_nat (pos mod 1024) + j)) as [x ->]; [lia|done].
  - rewrite !lookup_ge_None_2; [done|rewrite length_file_bytes by lia; lia|rewrite length_take; lia].
Qed.

(** The open file and the user's memory after the transfer of some bytes. *)
Definition transferred (filp : Z) (f : file) (pos buf : Z) (l : list Z) (s : kern) : kern :=
  {| s with file_table := zset (file_table s) filp (set_f_pos pos f);
       kuser := {| (kuser s) with um := put_bytes l buf (um (kuser s)) |} |}.

Lemma transferred_outside s s' filp f pos buf l :
  outside s' = outside s -> outside (transferred filp f pos buf l s') = outside (transferred filp f pos buf l s).
Proof. intros [= E1 E2 E3 E4 E5 E6 E7 E8 E9 E10]. unfold transferred, outside. cbn. by rewrite E1, E2, E3, E4, E5, E6, E7, E8, E9, E10. Qed.
Lemma transferred_twice filp f p1 p2 b l1 l2 s :
  transferred filp (set_f_pos p1 f) p2 (b + zlen l1) l2 (transferred filp f p1 b l1 s) = transferred filp f p2 b (l1 ++ l2) s.
Proof. unfold transferred. cbn. by rewrite zset_zset, put_bytes_app. Qed.
Lemma transferred_nil filp f b s : zget (file_table s) filp = Some f -> - 2 ^ 31 <= f_pos f < 2 ^ 31 -> transferred filp f (f_pos f) b [] s = s.
Proof.
  intros E Hp. unfold transferred, set_f_pos. rewrite s32_small by done. cbn [put_bytes].
  replace {| f with f_pos := f_pos f |} with f by by destruct f. rewrite zset_id by done. by destruct s as [? ? ? ? ? ? ? ? ? []].
Qed.

Lemma file_at_done s i f : zget (file_table s) i = Some f -> file_at i s = Done f s.
Proof. intros E. unfold file_at. by rewrite gets_bind, E. Qed.
Lemma set_file_done s i f g : zget (file_table s) i = Some f ->
  set_file i g s = Done tt {| s with file_table := zset (file_table s) i (g f) |}.
Proof. intros E. unfold set_file. by rewrite (done_bind _ _ _ _ _ (file_at_done _ _ _ E)). Qed.
Lemma outside_file s s' filp f : outside s' = outside s -> zget (file_table s) filp = Some f -> zget (file_table s') filp = Some f.
Proof. intros [= _ _ _ E _]. by rewrite E. Qed.


Lemma holds_length m s n d : ready m s -> holds s n d -> length d = 1024%nat.
Proof.
  intros ((l & C & S) & _) [(i & b & E & _ & _ & <-)|[_ <-]]; [by apply (st_sized _ _ _ S i b)|]. unfold on_disk, kread. by rewrite length_map, length_seq.
Qed.
Lemma data_length m s v k d : ready m s -> file_data s v k d -> length d = 1024%nat.
Proof. intros Hs (e & _ & [[_ ->]|(_ & _ & Hd)]); [by rewrite length_replicate|by eapply holds_length]. Qed.
Lemma block_bytes_zero o c : 0 <= o -> 0 <= c -> o + c <= 1024 -> block_bytes o c (replicate 1024 0) = replicate (Z.to_nat c) 0.
Proof.
  intros Ho Hc Hle. unfold block_bytes, field. rewrite drop_replicate, take_replicate. f_equal. lia.
Qed.

(** A turn of the loop hands out the rest of a block, or what is left to read. *)
Lemma read_turn m n s i v filp f buf left d :
  ready (S m) s -> zget (inode_table s) i = Some v -> i_dev v = RD -> zget (file_table s) filp = Some f ->
  0 <= f_pos f -> 0 < left -> file_data s v (f_pos f / 1024) d ->
  let c := Z.min (1024 - f_pos f mod 1024) left in
  exists s1, read_loop fuel depth (S n) i filp buf left s = read_loop fuel depth n i filp (buf + c) (left - c) s1 /\
    ready (S m) s1 /\ keeps s s1 /\
    outside s1 = outside (transferred filp f (f_pos f + c) buf (block_bytes (f_pos f mod 1024) c d) s).
Proof.
  intros Hs Ei Hdev Ef Hp Hl (e & Hb & He) c. pose proof (Z.mod_pos_bound (f_pos f) 1024 ltac:(lia)) as Hm.
  destruct (bmap_reads m false s i v _ e Hs Ei Hdev Hb (or_introl eq_refl)) as (s1 & R1 & V1). pose proof V1 as (Y1 & O1 & K1).
  pose proof (outside_file _ _ filp f O1 Ef) as Ef1.
  cbn [read_loop]. rewrite decide_False by lia. erewrite done_bind by by apply file_at_done.
  unfold BLOCK_SIZE. rewrite Z.quot_div_nonneg by lia. erewrite done_bind by exact R1.
  destruct He as [[-> ->]|(Hne & Hr & Hd)].
  - rewrite decide_False by naive_solver. erewrite done_bind by reflexivity. cbv beta iota.
    erewrite done_bind by by apply file_at_done. rewrite Z.rem_mod_nonneg by lia. fold c.
    erewrite done_bind by by apply set_file_done. rewrite <- (block_bytes_zero (f_pos f mod 1024) c) by lia.
    set (s2 := transferred filp f (f_pos f + c) buf (block_bytes (f_pos f mod 1024) c (replicate 1024 0)) s1).
    erewrite (done_bind _ _ _ tt s2) by reflexivity. exists s2. split; [reflexivity|].
    assert (Hsame : same_cache s1 s2) by by split_and!.
    split_and!; [by apply (same_ready _ s1)| |by apply transferred_outside]. intros ? ? ?. by apply (same_keeps s1 s2), K1.
  - rewrite decide_True by done.
    destruct (bread_in_use m s1 e d Y1 (outside_rd_has _ _ _ O1 Hr) (K1 _ _ Hd)) as (bh & s2 & b & R2 & U & Hda & _ & _ & O2 & K2).
    erewrite (done_bind _ _ _ (Some (Some bh)) s2).
    2: { erewrite done_bind by by eapply outside_inode, Ei. rewrite Hdev. by erewrite done_bind by exact R2. }
    pose proof (outside_file _ _ filp f O2 Ef1) as Ef2. cbv beta iota.
    erewrite done_bind by by apply file_at_done. rewrite Z.rem_mod_nonneg by lia. fold c.
    erewrite done_bind by by apply set_file_done.
    set (s4 := transferred filp f (f_pos f + c) buf (block_bytes (f_pos f mod 1024) c d) s2).
    assert (Hsame : same_cache s2 s4) by by split_and!.
    destruct (brelse_ready _ s2 bh b s4 U Hsame) as (s5 & R5 & Y5 & O5 & K5).
    exists s5. erewrite (done_bind _ _ _ tt s5).
    2: { erewrite done_bind by (apply bh_at_ok; apply U). rewrite Hda. erewrite done_bind by reflexivity. exact R5. }
    split_and!; [reflexivity|done| |].
    + intros ? ? ?. by apply K5, (same_keeps s2 s4), K2, K1.
    + rewrite O5. apply transferred_outside. by rewrite O2.
Qed.

Lemma read_loop_bytes m n s i v filp f buf left D :
  ready (S m) s -> zget (inode_table s) i = Some v -> i_dev v = RD -> zget (file_table s) filp = Some f ->
  0 <= f_pos f -> 0 <= left < Z.of_nat n -> f_pos f + left < 2 ^ 31 ->
  (forall k, f_pos f <= 1024 * k + 1023 -> 1024 * k < f_pos f + left -> file_data s v k (D k)) ->
  exists s', read_loop fuel depth n i filp buf left s = Done 0 s' /\ ready (S m) s' /\ keeps s s' /\
    outside s' = outside (transferred filp f (f_pos f + left) buf (file_bytes D (f_pos f) left) s).
Proof.
  revert s f buf left. induction n as [|n IH]; intros s f buf left Hs Ei Hdev Ef Hp Hl Hmax Hd; [lia|].
  destruct (decide (left = 0)) as [->|Hl0].
  { exists s. cbn [read_loop]. rewrite decide_True by done. split_and!; [done..|by intros ??|].
    rewrite Z.add_0_r. unfold file_bytes. cbn [seqZ Z.to_nat seq map fmap list_fmap]. by rewrite transferred_nil by (done || lia). }
  pose proof (Z.mod_pos_bound (f_pos f) 1024 ltac:(lia)) as Hm. pose proof (Z.div_mod (f_pos f) 1024 ltac:(lia)) as Hdm.
  assert (Hd0 : file_data s v (f_pos f / 1024) (D (f_pos f / 1024))) by (apply Hd; lia).
  destruct (read_turn m n s i v filp f buf left _ Hs Ei Hdev Ef Hp ltac:(lia) Hd0) as (s1 & -> & Y1 & K1 & O1).
  set (c := Z.min (1024 - f_pos f mod 1024) left) in *. assert (Hc : 0 < c <= left /\ f_pos f mod 1024 + c <= 1024) by lia.
  rewrite block_file_bytes in O1 by (lia || (eapply data_length; [exact Hs|exact Hd0])).
  set (f1 := set_f_pos (f_pos f + c) f) in *.
  assert (Ef1 : zget (file_table s1) filp = Some f1).
  { eapply outside_file; [exact O1|]. apply zget_zset_eq. by eapply zget_Some_range. }
  assert (Ei1 : zget (inode_table s1) i = Some v) by (injection O1 as -> _; done).
  assert (Hf1 : f_pos f1 = f_pos f + c) by (apply s32_small; lia).
  assert (L1 : later s s1) by (split; [injection O1 as _ _ _ _ _ _ _ -> ->; done|done]).
  destruct (IH s1 f1 (buf + c) (left - c) Y1 Ei1 Hdev Ef1) as (s2 & R2 & Y2 & K2 & O2); [lia..| |].
  { intros k H1 H2. apply (later_data s); [done|]. apply Hd; lia. }
  exists s2. split_and!; [done|done|by intros ???; apply K2, K1|].
  rewrite O2, Hf1. rewrite (transferred_outside _ _ _ _ _ _ _ O1).
  replace (f_pos f + c + (left - c)) with (f_pos f + left) by lia.
  assert (Hz : c = zlen (file_bytes D (f_pos f) c)) by (unfold zlen; rewrite length_file_bytes; lia).
  replace (buf + c) with (buf + zlen (file_bytes D (f_pos f) c)) by (f_equal; lia).
  unfold f1. rewrite transferred_twice. f_equal. f_equal.
  rewrite <- file_bytes_app by lia. f_equal. lia.
Qed.

Lemma now_done (s : kern) : exists t, now s = Done t s.
Proof. eexists. unfold now. destruct s as [? ? ? ? ? ? ? ? ? []]. reflexivity. Qed.

Lemma file_read_ok m s i v filp f buf count D :
  ready (S m) s -> zget (inode_table s) i = Some v -> i_dev v = RD -> zget (file_table s) filp = Some f ->
  0 <= f_pos f -> 0 < count -> f_pos f + count < 2 ^ 31 ->
  (forall k, f_pos f <= 1024 * k + 1023 -> 1024 * k < f_pos f + count -> file_data s v k (D k)) ->
  exists s', file_read fuel depth i filp buf count s = Done count s' /\
    um (kuser s') = put_bytes (file_bytes D (f_pos f) count) buf (um (kuser s)) /\
    zget (file_table s') filp = Some (set_f_pos (f_pos f + count) f) /\
    (exists t, zget (inode_table s') i = Some (set_atime t v)) /\
    ready (S m) s' /\ keeps s s' /\ forall k d, file_data s v k d -> file_data s' v k d.
Proof.
  intros Hs Ei Hdev Ef Hp Hc Hmax Hd. unfold file_read. rewrite decide_False by lia.
  destruct (read_loop_bytes m (S (Z.to_nat count)) s i v filp f buf count D Hs Ei Hdev Ef Hp ltac:(lia) Hmax Hd) as (s1 & R1 & Y1 & K1 & O1).
  erewrite done_bind by exact R1. destruct (now_done s1) as [t Et]. erewrite done_bind by exact Et.
  assert (Ei1 : zget (inode_table s1) i = Some v) by (injection O1 as -> _; done).
  erewrite done_bind by (unfold set_inode; erewrite done_bind by (unfold inode_at; rewrite gets_bind, Ei1; reflexivity); reflexivity).
  rewrite decide_True, Z.sub_0_r by lia. eexists. split; [reflexivity|]. cbn.
  injection O1 as E1 E2 E3 E4 E5 E6 E7 E8 E9 E10. split_and!.
  - by rewrite E6.
  - rewrite E4. apply zget_zset_eq. by eapply zget_Some_range.
  - eexists. apply zget_zset_eq. by eapply zget_Some_range.
  - by apply (same_ready _ s1).
  - intros ? ? ?. by apply (same_keeps s1), K1.
  - intros k d H. apply (later_data s); [|done]. split; [cbn; by rewrite E8, E9|]. intros ? ? ?. by apply (same_keeps s1), K1.
Qed.
(** C2: [file_read] of a file on the ram disk gives the program the bytes of the file from the
    file's position on, zeros for its holes, and moves the position behind them, whichever of the blocks are in
    buffers and however often the buffers are reused on the way; the file, and every block of the
    disk, keep their contents. *)
Theorem file_read_bytes m s i v filp f buf count D :
  ready (S m) s -> zget (inode_table s) i = Some v -> i_dev v = RD -> zget (file_table s) filp = Some f ->
  0 <= f_pos f -> 0 < count -> f_pos f + count < 2 ^ 31 ->
  (forall k, f_pos f <= 1024 * k + 1023 -> 1024 * k < f_pos f + count -> file_data s v k (D k)) ->
  exists s', file_read fuel depth i filp buf count s = Done count s' /\
    um (kuser s') = put_bytes (file_bytes D (f_pos f) count) buf (um (kuser s)) /\
    zget (file_table s') filp = Some (set_f_pos (f_pos f + count) f) /\
    (exists t, zget (inode_table s') i = Some (set_atime t v)) /\
    ready (S m) s' /\ keeps s s' /\ forall k d, file_data s v k d -> file_data s' v k d.
Proof. apply file_read_ok. Qed.
End read.

End FileProps.
