(* ===== verification/BlockDevProps.v ===== *)
(** * Writing a block device

    [block_write] of a whole block does not read the block before it fills the buffer, and
    does not mark the buffer up to date either: the next reader of the block reads the disk over it. *)

From S2P Require Import Prelude Bytes Links Task UserMem BlkQueue BlkProps FsState Ramdisk RdProps.
From S2P Require Import Buffer BufferProps Cache RdCache FsInst Super Inode FileIO FileProps PipeProps.
Import Task UserMem BlkQueue BlkProps FsState Ramdisk RdProps Buffer BufferProps Cache RdCache FsInst FileIO FileProps.

Module BlockDevProps.

(** No buffer has the contents of block [n]. *)
Definition unread (s : kern) (n : Z) : Prop :=
  forall i b, buf s i = Some b -> has_id RD n b -> b_uptodate b = 0.

Section write.
Context {HM : Machine} {HQ : Quiet} (fuel depth : nat).

(** What a block holds does not depend on its dirty buffer that is not up to date. *)
Lemma holds_stale s s' n bh b' d :
  other_bufs s s' bh -> buf s' bh = Some b' -> b_uptodate b' = 0 ->
  unread s n -> on_disk s n = d -> holds s' n d.
Proof.
  intros Ho E' Hu Hn Hd. right. split; [|by rewrite (other_bufs_disk _ _ _ _ Ho)].
  intros j bj Ej Hj. destruct (decide (j = bh)) as [->|Hji]; [congruence|].
  destruct (other_bufs_get _ _ _ _ _ Ho Hji Ej) as (b0 & E0 & (H1 & H2 & _ & _ & _ & H3 & _)%core_fields).
  rewrite <- H3. apply (Hn j b0); [done|]. unfold has_id in *. by rewrite H1, H2.
Qed.

(** The data is put into a buffer, which is marked dirty and given back. *)
Lemma fill_buffer s l C bh b data :
  steady s l C -> buf s bh = Some b -> b_uptodate b = 0 -> 0 < b_count b < 256 -> length data = 1024%nat -> (0 < fuel)%nat ->
  exists s', (forall A (k : M kern A), (set_bh bh (upd_data (splice 0 data));; set_bh bh (set_dirt 1);; Buffer.brelse fuel (Some bh);; k) s = k s') /\
    steady s' l C /\ outside s' = outside s /\ other_bufs s s' bh /\ buf s' bh = Some (set_b_count (b_count b - 1) (set_dirt 1 (set_data data b))).
Proof.
  intros S E Hu Hc Hlen Hf. pose proof (st_sized _ _ _ S bh b E) as Hlen1. destruct (st_settled _ _ _ S bh b E) as [Hl Hd].
  assert (Hdat : splice 0 data (b_data b) = data) by (unfold splice; rewrite drop_ge by lia; cbn [take app]; by rewrite app_nil_r).
  destruct (set_bh_steady s l C bh b (upd_data (splice 0 data)) S E eq_refl Hl Hd) as (s1 & R1 & O1 & S1 & Ho1 & E1);
    [cbn [b_data upd_data]; by rewrite Hdat|intros _ H; by destruct H|].
  destruct (set_bh_steady s1 l C bh _ (set_dirt 1) S1 E1 eq_refl Hl) as (s2 & R2 & O2 & S2 & Ho2 & E2);
    [done|cbn [b_data upd_data set_dirt]; by rewrite Hdat|done|].
  destruct (brelse_steady fuel s2 l C bh _ Hf S2 E2 Hc) as (s3 & R3 & O3 & S3 & Ho3 & E3).
  exists s3. split_and!; [|done|by rewrite O3, O2, O1| |].
  - intros A k. by rewrite (done_bind _ _ _ _ _ R1), (done_bind _ _ _ _ _ R2), (done_bind _ _ _ _ _ R3).
  - eapply other_bufs_trans; [exact Ho1|]. by eapply other_bufs_trans.
  - rewrite E3. unfold upd_data. by rewrite Hdat.
Qed.

(** A block that a buffer has, but not up to date, is read from the disk into that buffer. *)
Lemma bread_stale s l C bh b n :
  steady s l C -> buf s bh = Some b -> has_id RD n b -> b_uptodate b = 0 -> rd_has s n -> (length (bufs (kblk s)) < fuel)%nat ->
  exists s' b', Inode.bread fuel depth RD n s = Done (Some bh) s' /\ buf s' bh = Some b' /\ has_id RD n b' /\
    b_data b' = on_disk s n /\ b_dirt b' = 0.
Proof.
  intros S E Hid Hu Hn Hf. destruct (st_settled _ _ _ S bh b E) as [Hl _].
  pose proof (getblk_cached (Inode.sync_inodes fuel depth) (bufs (kblk s)) (free_list s) (hash_table s) (null_b_prev s) s
    l C RD n ltac:(unfold RD; lia) ltac:(destruct Hn; lia) fuel Hf bh b (st_cache _ _ _ S) E Hid Hl) as G. rewrite <- sb_id in G.
  destruct (counted_steady s l C bh b n S E Hid) as (S1 & Ho & E1 & _). set (s1 := sb _ _ _ _ _) in *.
  destruct (read_steady fuel s1 l C n bh _ ltac:(lia) S1 Hn E1 Hid Hu) as (s2 & b2 & R & S2 & _ & E2 & Hid2 & Hup2 & _ & Hdt2 & _ & Hk).
  exists s2, b2. split_and!; [|done..| |done].
  - unfold Inode.bread, bread. rewrite (done_bind _ _ _ _ _ G). erewrite done_bind by (apply bh_at_ok; exact E1).
    rewrite decide_False by (intros X; by apply X). rewrite (done_bind _ _ _ _ _ R). destruct (st_settled _ _ _ S2 bh b2 E2) as [Hl2 _].
    erewrite done_bind by (eapply wait_ready; [lia|exact E2|done]).
    unfold if_uptodate. erewrite done_bind by (apply bh_at_ok; exact E2). by rewrite decide_True by lia.
  - apply (holds_unique s2 l C n); [apply S2|left; exists bh, b2; by rewrite Hup2|].
    apply Hk. right. split; [|done]. intros j bj Ej Hj. assert (j = bh) as ->; [|rewrite E1 in Ej; by injection Ej as <-].
    apply (lo_uniq _ _ _ _ _ _ (st_cache _ _ _ S1) j bh bj (set_b_count (b_count b + 1) b)); unfold has_id, RD in *; cbn;
      done || lia || (destruct Hj, Hid; congruence).
Qed.

(** The place of a whole block. *)
Lemma block_place n pos : pos = 1024 * n -> Z.shiftr pos 10 = n /\ Z.land pos (BLOCK_SIZE - 1) = 0.
Proof.
  intros ->. unfold BLOCK_SIZE. change (1024 - 1) with (Z.ones 10). rewrite Z.shiftr_div_pow2, Z.land_ones, Z.mul_comm by lia.
  by rewrite Z.div_mul, Z.mod_mul.
Qed.

(** C30: a whole block written to a block device through [block_write] is lost to the next
    reader, when no buffer holds the block up to date at the time: the written data goes into a
    buffer that is marked dirty but not up to date, and a [bread] of the block that follows
    reads the old contents of the disk over it and answers them, in a buffer that is clean. *)
Theorem block_write_lost s l C n filp f buf_ :
  steady s l C -> spare (bufs (kblk s)) l -> rd_has s n -> (length (bufs (kblk s)) < fuel)%nat ->
  (forall i b, buf s i = Some b -> 0 <= b_count b < 255) ->
  unread s n ->
  zget (file_table s) filp = Some f -> f_pos f = 1024 * n ->
  exists s' C' l' bh b, block_write fuel depth RD filp buf_ 1024 s = Done 1024 s' /\ steady s' l' C' /\
    buf s' bh = Some b /\ has_id RD n b /\ b_dirt b = 1 /\ b_uptodate b = 0 /\ b_data b = get_bytes 1024 buf_ (um (kuser s)) /\
    exists s2 b2, Inode.bread fuel depth RD n s' = Done (Some bh) s2 /\ buf s2 bh = Some b2 /\ has_id RD n b2 /\
      b_data b2 = on_disk s n /\ b_dirt b2 = 0.
Proof.
  intros S Hsp Hn Hf Hcnt Hold Ef Hpos. unfold block_write.
  assert (Hfa : forall s, zget (file_table s) filp = Some f -> file_at filp s = Done f s) by (intros s0 E0; unfold file_at; by rewrite gets_bind, E0).
  rewrite (done_bind _ _ _ _ _ (Hfa s Ef)). destruct (block_place n (f_pos f) Hpos) as [-> ->].
  remember (Z.to_nat 1024) as k eqn:Ek. cbn [bwrite_loop].
  rewrite decide_False by lia. change (Z.min (BLOCK_SIZE - 0) 1024) with 1024.
  rewrite (decide_True (P := 1024 = BLOCK_SIZE)) by reflexivity.
  destruct (getblk_steady fuel (Inode.sync_inodes fuel depth) s l C n S Hsp Hn Hf)
    as (bh & s1 & b & b1 & l1 & C1 & G & S1 & Ho & (B & fl & H & nb & Es1) & E & E1 & Hid & Hc & Hup & _ & _ & Hh).
  erewrite (done_bind _ _ _ (Some bh) s1) by (erewrite done_bind by exact G; reflexivity). cbv beta iota.
  assert (Hu1 : b_uptodate b1 = 0).
  { destruct (decide (b_uptodate b1 = 0)) as [|Hne]; [done|]. destruct (Hup Hne) as [H1 H2]. by destruct H2; apply (Hold bh b). }
  pose proof (Hcnt bh b E) as Hcb. assert (Hc1 : b_count b1 = b_count b + 1) by (rewrite Hc; apply u8_small; lia).
  (* the position *)
  assert (Ef1 : zget (file_table s1) filp = Some f) by (by rewrite Es1). rewrite (done_bind _ _ _ _ _ (Hfa s1 Ef1)).
  set (s2 := {| s1 with file_table := zset (file_table s1) filp (set_f_pos (f_pos f + 1024) f) |}).
  erewrite (done_bind _ _ _ tt s2) by (unfold set_file; by rewrite (done_bind _ _ _ _ _ (Hfa s1 Ef1))).
  assert (S2 : steady s2 l1 C1) by (destruct S1; by split). set (data := get_bytes 1024 buf_ (um (kuser s))).
  erewrite (done_bind _ _ _ data s2) by (unfold data, s2; rewrite Es1; reflexivity).
  (* the buffer *)
  destruct k as [|k']; [lia|]. destruct (fill_buffer s2 l1 C1 bh b1 data) as (s3 & R & S3 & O3 & Ho3 & E3);
    [exact S2|exact E1|exact Hu1|lia|apply PipeProps.PipeProps.length_get_bytes|lia|].
  rewrite R. eexists s3, C1, l1, bh, _. split_and!; [done..|].
  assert (Ho' : other_bufs s s3 bh) by by eapply (other_bufs_trans s s2).
  destruct (bread_stale s3 l1 C1 bh _ n S3 E3 Hid Hu1) as (s4 & b4 & R4 & E4 & Hid4 & Hda4 & Hdt4).
  - apply (outside_rd_has s2); [exact O3|]. by unfold rd_has, s2; rewrite Es1.
  - rewrite (bufs_length s s3 bh Ho'); [done|by rewrite E|by rewrite E3].
  - exists s4, b4. by rewrite <- (other_bufs_disk _ _ _ _ Ho').
Qed.
End write.

Lemma block_write_lost_witness :
  exists s' C' l' bh b, block_write 5 0 RD 0 4000 1024 booted = Done 1024 s' /\ steady s' l' C' /\
    buf s' bh = Some b /\ has_id RD 0 b /\ b_dirt b = 1 /\ b_uptodate b = 0 /\ b_data b = get_bytes 1024 4000 (um (kuser booted)) /\
    exists s2 b2, Inode.bread 5 0 RD 0 s' = Done (Some bh) s2 /\ buf s2 bh = Some b2 /\ has_id RD 0 b2 /\
      b_data b2 = on_disk booted 0 /\ b_dirt b2 = 0.
Proof.
  destruct booted_steady as (H1 & H2 & _ & _ & H3).
  apply (block_write_lost 5 0 booted (zrange 0 4) (fun _ => []) 0 0 file0);
    [exact H2|exact booted_spare|by apply booted_rd|rewrite H1; lia| | |vm_compute; reflexivity|reflexivity].
  - intros i b E. destruct (H3 i b E) as (_ & -> & _). lia.
  - intros i b E [Hd _]. destruct (H3 i b E) as (Hd' & _). rewrite Hd' in Hd. done.
Defined.

End BlockDevProps.
