(* ===== verification/FileWrite.v ===== *)
(** * Writing a regular file in place

    [file_write] over blocks that the file has already: the bytes of the user's memory take
    the place of the file's, everything else of the disk stays, and [file_read] gives them back. *)

From S2P Require Import Prelude Bytes Links Task UserMem BlkQueue BlkProps FsState Ramdisk RdProps.
From S2P Require Import Buffer BufferProps Cache RdCache FsInst Super Inode Truncate Namei FileIO FileProps.
Import Task UserMem BlkQueue BlkProps FsState Ramdisk RdProps Buffer BufferProps Cache RdCache FsInst FileIO FileProps.

Module FileWrite.

(** ** One buffer *)

(** All blocks outside [X] hold what they held. *)
Definition keeps_but (X : Z -> Prop) (s s' : kern) : Prop := forall m d, ~ X m -> holds s m d -> holds s' m d.

Lemma keeps_weaken X s s' : keeps s s' -> keeps_but X s s'.
Proof. intros H m d _. apply H. Qed.
Lemma keeps_but_trans X s1 s2 s3 : keeps_but X s1 s2 -> keeps_but X s2 s3 -> keeps_but X s1 s3.
Proof. intros H1 H2 m d Hx H. by apply H2, H1. Qed.

Lemma keeps_but_mono X Y s s' : (forall b, X b -> Y b) -> keeps_but X s s' -> keeps_but Y s s'.
Proof. intros H1 H2 m d Hy. apply H2. intros Hx. by apply Hy, H1. Qed.

Section write.
Context {HM : Machine} {HQ : Quiet} (fuel depth : nat).

Lemma same_in_use m s s' bh b : same_cache s s' -> in_use fuel m s bh b -> in_use fuel m s' bh b.
Proof.
  intros Hs ((l & C & S) & E & Hc & Hr). pose proof (same_steady _ _ _ _ Hs S) as S'. destruct Hs as (Eb & _).
  unfold in_use, buf. rewrite Eb. split; [by exists l, C|done].
Qed.

(** The reusable buffers other than the one in use. *)
Lemma roomy_but m m' B bh x : 0 <= bh < zlen B -> roomy m (zset B bh x) -> (m' <= m)%nat -> (S m' <= m)%nat \/ ~ reusable x ->
  exists L, NoDup L /\ length L = m' /\ forall i, i ∈ L -> i <> bh /\ exists b, zget B i = Some b /\ reusable b.
Proof.
  intros Hr (_ & (L & HL1 & HL2 & HL3) & _) Hm Hm'. set (L' := del bh L). assert (N1 : NoDup L') by by apply NoDup_filter.
  assert (N2 : (m' <= length L')%nat).
  { unfold L'. destruct (decide (bh ∈ L)) as [Hin|Hin]; [|rewrite del_notin by done; lia].
    destruct Hm' as [Hm'|Hx].
    - assert (Hp : L ≡ₚ bh :: del bh L); [|apply Permutation_length in Hp; cbn in Hp; lia].
      apply NoDup_Permutation; [done| |].
      + constructor; [|done]. rewrite elem_of_del. naive_solver.
      + intros y. rewrite elem_of_cons, elem_of_del. destruct (decide (y = bh)); naive_solver.
    - destruct Hx. destruct (HL3 bh Hin) as (b0 & E0 & H0). rewrite zget_zset_eq in E0 by done. by injection E0 as <-. }
  exists (take m' L'). split_and!; [|rewrite length_take; lia|].
  - rewrite <- (take_drop m' L') in N1. by apply NoDup_app in N1 as (N1 & _).
  - intros i (j & Ej & _)%elem_of_take. apply list_elem_of_lookup_2, elem_of_del in Ej as [Hi2 Hi1]. split; [done|].
    destruct (HL3 i Hi1) as (b0 & E0 & H0). exists b0. by rewrite zget_zset_ne in E0.
Qed.
Lemma counts_but m B bh x y : 0 <= bh < zlen B -> roomy m (zset B bh x) -> 0 <= b_count y < 255 ->
  forall i b, zget (zset B bh y) i = Some b -> 0 <= b_count b < 255.
Proof.
  intros Hr (_ & _ & Hcnt) Hy i b. destruct (decide (i = bh)) as [->|Hne].
  - rewrite zget_zset_eq by done. by intros [= <-].
  - rewrite zget_zset_ne by done. intros E0. apply (Hcnt i). by rewrite zget_zset_ne.
Qed.

(** One buffer less to reuse, while it is in use. *)
Lemma in_use_ready m s bh b : in_use fuel (S m) s bh b -> b_count b < 255 -> ready fuel m s.
Proof.
  intros (HS & E & Hc & Hro & Hf) Hmax. pose proof (zget_Some_range _ _ _ E) as Hr. split_and!; [done| |done].
  destruct (roomy_but _ m _ bh _ Hr Hro ltac:(lia) ltac:(left; lia)) as (L & N1 & N2 & N3). split_and!.
  - destruct Hro as (Hl & _). by rewrite length_zset in Hl.
  - exists L. split_and!; [done..|]. intros i Hi. by apply N3.
  - rewrite <- (zset_id (bufs (kblk s)) bh b E). apply (counts_but (Datatypes.S m) _ _ (set_b_count (b_count b - 1) b)); done || lia.
Qed.

(** The changes of a buffer in use. *)
Lemma set_bh_in_use m m' s bh b f :
  in_use fuel m s bh b -> shape (f b) = shape b -> b_lock (f b) = 0 -> b_dirt (f b) = 1 -> b_count (f b) = b_count b ->
  length (b_data (f b)) = 1024%nat -> (m' <= m)%nat -> (b_dirt b = 1 \/ (S m' <= m)%nat) ->
  exists s', set_bh bh f s = Done tt s' /\ in_use fuel m' s' bh (f b) /\ outside s' = outside s /\ other_bufs s s' bh.
Proof.
  intros ((l & C & S) & E & Hc & Hro & Hf) Hsh Hl Hd Hcf Hda Hm Hm'.
  destruct (set_bh_steady s l C bh b f S E Hsh Hl ltac:(lia) Hda ltac:(lia)) as (s' & R & Es & S' & Ho & E').
  exists s'. split_and!; [exact R| |by rewrite Es|exact Ho].
  pose proof (zget_Some_range _ _ _ E) as Hr.
  unfold in_use. rewrite Es in E' |- *. cbn [bufs kblk sb] in *. rewrite !length_zset, zset_zset. split_and!; [by exists l, C; rewrite <- Es|exact E'|lia|lia| |done].
  destruct (roomy_but _ m' _ bh _ Hr Hro Hm) as (L & N1 & N2 & N3).
  { destruct Hm' as [Hb|Hm']; [right|by left]. intros [_ H0]. cbn in H0. lia. }
  split_and!.
  - destruct Hro as (Hlen & _). by rewrite length_zset in Hlen |- *.
  - exists L. split_and!; [done..|]. intros i Hi. destruct (N3 i Hi) as [Hne Hb]. by rewrite zget_zset_ne.
  - eapply counts_but; [done|exact Hro|]. rewrite Hcf. cbn. destruct Hro as (_ & _ & Hcnt).
    specialize (Hcnt bh (set_b_count (b_count b - 1) b)). rewrite zget_zset_eq in Hcnt by done. by apply Hcnt.
Qed.

Lemma dirty_in_use m s bh b : in_use fuel (S m) s bh b ->
  exists s', set_bh bh (set_dirt 1) s = Done tt s' /\ in_use fuel m s' bh (set_dirt 1 b) /\ outside s' = outside s /\ keeps s s'.
Proof.
  intros U. pose proof U as ((l & C & S) & E & _). destruct (st_settled _ _ _ S bh b E) as [Hl _].
  destruct (set_bh_in_use (Datatypes.S m) m s bh b (set_dirt 1) U) as (s' & R & U' & O & Ho); try done; [by apply (st_sized _ _ _ S bh b)|lia|right; lia|].
  exists s'. split_and!; try done. destruct U' as (_ & E' & _). by apply (keeps_one s s' bh b _ Ho E E').
Qed.

Lemma store_in_use m s bh b n o l :
  in_use fuel m s bh b -> has_id RD n b -> b_uptodate b <> 0 -> b_dirt b = 1 -> (o + length l <= 1024)%nat ->
  exists s', set_bh bh (upd_data (splice o l)) s = Done tt s' /\ in_use fuel m s' bh (upd_data (splice o l) b) /\
    outside s' = outside s /\ holds s' n (splice o l (b_data b)) /\ keeps_but (eq n) s s'.
Proof.
  intros U Hid Hu Hd Hl. pose proof U as ((lc & C & S) & E & _). destruct (st_settled _ _ _ S bh b E) as [Hlk _].
  pose proof (st_sized _ _ _ S bh b E) as Hs.
  destruct (set_bh_in_use m m s bh b (upd_data (splice o l)) U) as (s' & R & U' & O & Ho); try done; [cbn; rewrite length_splice; lia|by left|].
  pose proof U' as (_ & E' & _). exists s'. split_and!; try done.
  - left. by exists bh, (upd_data (splice o l) b).
  - intros k d Hk. apply (holds_other s s' lc C bh b (upd_data (splice o l) b) n); try done; [apply S|apply S|by right].
Qed.

(** ** The loop *)

(** The inode once the position is at [pos]. *)
Definition grown (pos : Z) (v : m_inode) : m_inode :=
  if decide (i_size v < u32 pos) then set_i_dirt 1 (set_i_size pos v) else v.
Definition with_inode (ino : Z) (v : m_inode) (s : kern) : kern := {| s with inode_table := zset (inode_table s) ino v |}.

Lemma grow_done ino v pos s : zget (inode_table s) ino = Some v ->
  (if decide (i_size v < u32 pos) then set_inode ino (fun v => set_i_dirt 1 (set_i_size pos v)) else skip) s =
  Done tt (with_inode ino (grown pos v) s).
Proof.
  intros E. unfold grown. case_decide.
  - unfold set_inode. by rewrite (done_bind _ _ _ _ _ (outside_inode s s ino v eq_refl E)).
  - unfold with_inode. rewrite zset_id by done. by destruct s.
Qed.
Lemma from_user_done n a s : from_user n a s = Done (get_bytes (Z.to_nat n) a (um (kuser s))) s.
Proof. destruct s as [? ? ? ? ? ? ? ? ? []]. reflexivity. Qed.
Lemma with_inode_outside ino v s s' : outside s' = outside s -> outside (with_inode ino v s') = outside (with_inode ino v s).
Proof. intros [= E1 E2 E3 E4 E5 E6 E7 E8 E9 E10]. unfold with_inode, outside. cbn. by rewrite E1, E2, E3, E4, E5, E6, E7, E8, E9, E10. Qed.

Lemma write_turn m n s ino v buf count pos i e d :
  ready fuel (S m) s -> zget (inode_table s) ino = Some v -> i_dev v = RD -> 0 <= pos -> i < count -> pos + (count - i) < 2 ^ 31 ->
  file_block s v (pos / 1024) e -> e <> 0 -> rd_has s e -> holds s e d ->
  let c := Z.min (1024 - pos mod 1024) (count - i) in
  exists s1, write_loop fuel depth (S n) ino buf count pos i s = write_loop fuel depth n ino (buf + c) count (pos + c) (i + c) s1 /\
    ready fuel m s1 /\ outside s1 = outside (with_inode ino (grown (pos + c) v) s) /\
    holds s1 e (splice (Z.to_nat (pos mod 1024)) (get_bytes (Z.to_nat c) buf (um (kuser s))) d) /\ keeps_but (eq e) s s1.
Proof.
  intros Hs Ei Hdev Hp Hi Hmax Hb He Hr Hd c. pose proof (Z.mod_pos_bound pos 1024 ltac:(lia)) as Hm.
  assert (Hc : 0 < c <= count - i /\ pos mod 1024 + c <= 1024) by lia.
  destruct (bmap_reads fuel depth m true s ino v _ e Hs Ei Hdev Hb (or_intror He)) as (s1 & R1 & Y1 & O1 & K1).
  destruct (bread_in_use fuel depth m s1 e d Y1 (outside_rd_has _ _ _ O1 Hr) (K1 _ _ Hd)) as (bh & s2 & b & R2 & U2 & Hda & Hid & Hu & O2 & K2).
  destruct (dirty_in_use m s2 bh b U2) as (s3 & R3 & U3 & O3 & K3).
  assert (O03 : outside s3 = outside s) by by rewrite O3, O2.
  assert (Ei3 : zget (inode_table s3) ino = Some v) by (injection O03 as -> _; done).
  set (s4 := with_inode ino (grown (pos + c) v) s3). assert (Hsame : same_cache s3 s4) by by split_and!.
  set (l := get_bytes (Z.to_nat c) buf (um (kuser s))).
  assert (Hll : length l = Z.to_nat c) by (unfold l, get_bytes; rewrite length_map, length_seqZ; lia).
  destruct (store_in_use m s4 bh (set_dirt 1 b) e (Z.to_nat (pos mod 1024)) l (same_in_use _ _ _ _ _ Hsame U3)) as (s5 & R5 & U5 & O5 & H5 & K5); try done; [lia|].
  destruct (brelse_ready fuel m s5 bh _ s5 U5) as (s6 & R6 & Y6 & O6 & K6); [by split_and!|].
  exists s6. split.
  - cbn [write_loop]. rewrite decide_False by lia. unfold BLOCK_SIZE. rewrite Z.quot_div_nonneg by lia.
    erewrite done_bind by exact R1. rewrite decide_False by done.
    erewrite done_bind by by eapply outside_inode. rewrite Hdev. erewrite done_bind by exact R2. cbv beta iota zeta.
    rewrite Z.rem_mod_nonneg by lia. fold c. erewrite done_bind by exact R3.
    rewrite (s32_small (pos + c)) by lia.
    erewrite done_bind by by eapply outside_inode. rewrite (done_bind _ _ _ _ _ (grow_done ino v (pos + c) s3 Ei3)). fold s4.
    assert (Eu : um (kuser s4) = um (kuser s)) by (injection O03 as _ _ _ _ _ E _; cbn; by rewrite E).
    rewrite (done_bind _ _ _ _ _ (from_user_done _ _ _)), Eu. fold l.
    erewrite done_bind by exact R5. by erewrite done_bind by exact R6.
  - split_and!; [done| |by apply K6; rewrite <- Hda|].
    + rewrite O6, O5. by apply with_inode_outside.
    + intros k d' Hk H. apply K6, K5; [done|]. by apply (same_keeps s3 s4), K3, K2, K1.
Qed.

Definition in_range (pos r k : Z) : Prop := pos <= 1024 * k + 1023 /\ 1024 * k < pos + r.
(** The blocks that [r] bytes from [pos] on meet, one reusable buffer each. *)
Definition need (pos r : Z) : nat := Z.to_nat ((pos + r + 1023) / 1024 - pos / 1024).
(** Block [k] with the user's bytes at [buf] in the place of the [r] bytes from [pos] on. *)
Definition patched (D : Z -> list Z) (u : umem) (buf pos r k : Z) : list Z :=
  map (fun p => if decide (pos <= p < pos + r) then get_fs_byte u (buf + (p - pos)) else byte_at D p) (seqZ (1024 * k) 1024).

(** No block of the disk is in two places of the file. *)
Definition index_block (s : kern) (v : m_inode) (z : Z) : Prop :=
  z = zone v 7 \/ z = zone v 8 \/ exists q, entry_at s (zone v 8) q z.
Record sound_file (s : kern) (v : m_inode) : Prop := {
  sf_apart : forall j k e, e <> 0 -> file_block s v j e -> file_block s v k e -> j = k;
  sf_index : forall k e, e <> 0 -> file_block s v k e -> ~ index_block s v e
}.
Definition touches (s : kern) (v : m_inode) (pos r e : Z) : Prop :=
  e <> 0 /\ exists k, in_range pos r k /\ file_block s v k e.
Definition moved (X : Z -> Prop) (s s' : kern) : Prop := (rd_start s', rd_length s') = (rd_start s, rd_length s) /\ keeps_but X s s'.

Lemma length_patched D u buf pos r k : length (patched D u buf pos r k) = 1024%nat.
Proof. unfold patched. by rewrite length_map, length_seqZ. Qed.
Lemma byte_at_block D k j : 0 <= j < 1024 -> byte_at D (1024 * k + j) = default 0 (zget (D k) j).
Proof.
  intros Hj. unfold byte_at. replace ((1024 * k + j) / 1024) with k by (apply (Z.div_unique _ _ _ j); lia).
  by replace ((1024 * k + j) mod 1024) with j by (apply (Z.mod_unique _ _ k); lia).
Qed.
Lemma patched_ext D u b1 p1 r1 b2 p2 r2 k :
  (forall p, 1024 * k <= p < 1024 * k + 1024 -> (p1 <= p < p1 + r1 <-> p2 <= p < p2 + r2) /\ (p1 <= p < p1 + r1 -> b1 - p1 = b2 - p2)) ->
  patched D u b1 p1 r1 k = patched D u b2 p2 r2 k.
Proof.
  intros H. unfold patched. apply map_ext_in. intros p Hp%list_elem_of_In%elem_of_seqZ. destruct (H p ltac:(lia)) as [H1 H2].
  repeat case_decide; [|tauto|tauto|done]. f_equal. specialize (H2 ltac:(lia)). lia.
Qed.
Lemma splice_patched D u buf pos c :
  0 <= pos -> 0 <= c -> pos mod 1024 + c <= 1024 -> length (D (pos / 1024)) = 1024%nat ->
  splice (Z.to_nat (pos mod 1024)) (get_bytes (Z.to_nat c) buf u) (D (pos / 1024)) = patched D u buf pos c (pos / 1024).
Proof.
  intros Hp Hc Hle Hlen. pose proof (Z.mod_pos_bound pos 1024 ltac:(lia)) as Hm. pose proof (Z.div_mod pos 1024 ltac:(lia)) as Hd.
  set (k := pos / 1024) in *. assert (Hg : length (get_bytes (Z.to_nat c) buf u) = Z.to_nat c) by (unfold get_bytes; rewrite length_map, length_seqZ; lia).
  apply list_eq. intros j. destruct (decide (j < 1024)%nat) as [Hj|Hj].
  - rewrite lookup_splice by lia. unfold patched. change (map ?f ?l) with (f <$> l). rewrite list_lookup_fmap, lookup_seqZ_lt by lia.
    cbn [fmap option_fmap option_map]. rewrite Hg. destruct (decide (Z.to_nat (pos mod 1024) <= j < Z.to_nat (pos mod 1024) + Z.to_nat c)%nat) as [Hi|Hi].
    + rewrite decide_True by lia. unfold get_bytes. change (map ?f ?l) with (f <$> l). rewrite list_lookup_fmap, lookup_seqZ_lt by lia.
      cbn [fmap option_fmap option_map]. do 2 f_equal. lia.
    + rewrite decide_False by lia. rewrite byte_at_block by lia. rewrite zget_of_nat.
      destruct (lookup_lt_is_Some_2 (D k) j) as [x ->]; [lia|done].
  - rewrite !lookup_ge_None_2; [done|rewrite length_patched; lia|rewrite length_splice by lia; lia].
Qed.

Lemma moved_rd_has X s s' n : moved X s s' -> rd_has s n -> rd_has s' n.
Proof. intros ([= E1 E2] & _). unfold rd_has. by rewrite E1, E2. Qed.
Lemma moved_block s s' v v' pos r k e :
  sound_file s v -> moved (touches s v pos r) s s' -> i_zone v' = i_zone v -> file_block s v k e -> file_block s' v' k e.
Proof.
  intros Hf Hm Hz Hb.
  assert (Ez : forall k, zone v' k = zone v k) by (intros j; unfold zone; by rewrite Hz).
  assert (He : forall z j e, index_block s v z -> entry_at s z j e -> entry_at s' z j e).
  { intros z j x Hi (Hn & Hr & d & Hd & Hx). split_and!; [done|by eapply moved_rd_has|]. exists d. split; [|done].
    apply Hm; [|done]. intros (_ & q & _ & Hq). by apply (sf_index _ _ Hf q z). }
  assert (H7 : index_block s v (zone v 7)) by by left. assert (H8 : index_block s v (zone v 8)) by by right; left.
  destruct Hb as [k Hk|k Hk Hz7|k e Hk Hx|k Hk Hz8|k Hk Hx|k z e Hk Hx Hy].
  - rewrite <- Ez. by apply Direct.
  - apply No_indirect; [done|by rewrite Ez].
  - apply Indirect; [done|rewrite Ez; by apply He].
  - apply No_double; [done|by rewrite Ez].
  - apply No_second; [done|rewrite Ez; by apply He].
  - apply (Double _ _ k z); [done|rewrite Ez; by apply He|]. apply He; [|done]. right. right. by eexists.
Qed.

Lemma need_rest pos r c : 0 <= pos -> 0 < r -> c = Z.min (1024 - pos mod 1024) r ->
  need pos r = Datatypes.S (if decide (c = r) then 0%nat else need (pos + c) (r - c)).
Proof.
  intros Hp Hr ->. unfold need. replace (pos + Z.min (1024 - pos mod 1024) r + (r - Z.min (1024 - pos mod 1024) r)) with (pos + r) by lia.
  case_decide; Z.to_euclidean_division_equations; lia.
Qed.
Lemma ready_less m m' s : (m' <= m)%nat -> ready fuel m s -> ready fuel m' s.
Proof.
  intros Hm (HS & (H1 & (L & N & HL & H2) & H3) & H4). split_and!; [done| |done]. split_and!; [done| |done].
  exists (take m' L). split_and!; [|rewrite length_take; lia|].
  - rewrite <- (take_drop m' L) in N. by apply NoDup_app in N as (N & _).
  - intros i (j & Ej & _)%elem_of_take. apply H2. by eapply list_elem_of_lookup_2.
Qed.
Lemma grown_fields pos v : i_zone (grown pos v) = i_zone v /\ i_dev (grown pos v) = i_dev v.
Proof. unfold grown. by case_decide. Qed.
Lemma grown_twice p1 p2 v : 0 <= p1 <= p2 -> p2 < 2 ^ 31 -> grown p2 (grown p1 v) = grown p2 v.
Proof.
  intros H1 H2. unfold grown. rewrite !(u32_small p1), !(u32_small p2) by lia.
  destruct (decide (i_size v < p1)); [|done]. cbn. rewrite u32_small by lia. rewrite (decide_True (P := i_size v < p2)) by lia.
  case_decide; [by destruct v|]. replace p2 with p1 by lia. by destruct v.
Qed.

Section loop.
Context (s0 : kern) (v0 : m_inode) (P R : Z) (ino : Z).
Hypothesis Hsound : sound_file s0 v0.

(** Block [k] of the file holds [d] in the state [s]. *)
Definition has (s : kern) (k : Z) (d : list Z) : Prop := exists e, e <> 0 /\ file_block s0 v0 k e /\ rd_has s0 e /\ holds s e d.

Lemma has_kept s s' pos r k d : keeps_but (touches s0 v0 pos r) s s' -> ~ in_range pos r k -> has s k d -> has s' k d.
Proof.
  intros Hk Hn (e & He & Hb & Hr & Hd). exists e. split_and!; [done..|]. apply Hk; [|done].
  intros (_ & j & Hj & Hbj). by rewrite (sf_apart _ _ Hsound j k e He Hbj Hb) in Hj.
Qed.

Lemma touches_mono p1 r1 p2 r2 : (forall k, in_range p1 r1 k -> in_range p2 r2 k) -> forall e, touches s0 v0 p1 r1 e -> touches s0 v0 p2 r2 e.
Proof. intros H e (He & k & Hk & Hb). split; [done|]. exists k. split; [by apply H|done]. Qed.

Lemma write_loop_bytes mm n s v buf count pos i D :
  ready fuel (need pos (count - i) + mm) s -> zget (inode_table s) ino = Some v -> i_dev v = RD -> i_zone v = i_zone v0 ->
  moved (touches s0 v0 P R) s0 s -> 0 <= pos -> 0 < count - i < Z.of_nat n -> pos + (count - i) < 2 ^ 31 ->
  (forall k, in_range pos (count - i) k -> in_range P R k /\ has s k (D k)) ->
  exists s', write_loop fuel depth n ino buf count pos i s = Done (pos + (count - i), count) s' /\ ready fuel mm s' /\
    outside s' = outside (with_inode ino (grown (pos + (count - i)) v) s) /\
    keeps_but (touches s0 v0 pos (count - i)) s s' /\
    forall k, in_range pos (count - i) k -> has s' k (patched D (um (kuser s)) buf pos (count - i) k).
Proof.
  revert s v buf pos i D. induction n as [|n IH]; intros s v buf pos i D Hs Ei Hdev Hz Hmv Hp Hr Hmax Hd; [lia|].
  pose proof (Z.mod_pos_bound pos 1024 ltac:(lia)) as Hm. pose proof (Z.div_mod pos 1024 ltac:(lia)) as Hdm.
  set (k0 := pos / 1024) in *. set (r := count - i) in *.
  set (c := Z.min (1024 - pos mod 1024) r). assert (Hc : 0 < c <= r /\ pos mod 1024 + c <= 1024) by lia.
  assert (Hk0 : in_range pos r k0) by (unfold in_range; lia).
  destruct (Hd k0 Hk0) as (HPk & e & He & Hb & Hre & Hde).
  rewrite (need_rest pos r c Hp ltac:(lia) eq_refl) in Hs. cbn [Nat.add] in Hs.
  assert (HlD : forall k, in_range pos r k -> length (D k) = 1024%nat).
  { intros k Hk. destruct (Hd k Hk) as (_ & e' & _ & _ & _ & Hh). by eapply holds_length. }
  destruct (write_turn _ n s ino v buf count pos i e (D k0) Hs Ei Hdev Hp ltac:(lia) ltac:(lia)
    (moved_block _ _ _ _ _ _ _ _ Hsound Hmv Hz Hb) He (moved_rd_has _ _ _ _ Hmv Hre) Hde) as (s1 & -> & Y1 & O1 & H1 & K1).
  fold r in H1, O1, Y1 |- *. fold c in H1, O1 |- *. unfold k0 in H1. rewrite splice_patched in H1 by (lia || apply HlD; done). fold k0 in H1.
  assert (Kt : keeps_but (touches s0 v0 pos c) s s1).
  { intros b d' Hn. apply K1. intros <-. apply Hn. split; [done|]. exists k0. split; [unfold in_range; lia|done]. }
  assert (Hu : um (kuser s1) = um (kuser s)) by (injection O1 as _ _ _ _ _ -> _; done).
  destruct (decide (c = r)) as [Hcr|Hcr].
  - exists s1. destruct n as [|n]; [lia|]. cbn [write_loop]. rewrite decide_True by lia. rewrite <- Hcr. split_and!; [|done|done|done|].
    + unfold mret, M_ret. do 2 f_equal. lia.
    + intros k Hk. assert (k = k0) as -> by (unfold in_range in *; lia). exists e. by split_and!.
  - assert (Hpc : pos + c = 1024 * (k0 + 1)) by lia.
    assert (Ei1 : zget (inode_table s1) ino = Some (grown (pos + c) v)).
    { injection O1 as -> _. apply zget_zset_eq. by eapply zget_Some_range. }
    destruct (grown_fields (pos + c) v) as [G1 G2].
    assert (Hmv1 : moved (touches s0 v0 P R) s0 s1).
    { split; [injection O1 as _ _ _ _ _ _ _ -> ->; cbn; apply Hmv|]. eapply keeps_but_trans; [apply Hmv|]. intros b d' Hn. apply K1. intros <-. apply Hn.
      split; [done|]. by exists k0. }
    destruct (IH s1 (grown (pos + c) v) (buf + c) (pos + c) (i + c) D) as (s2 & R2 & Y2 & O2 & K2 & H2);
      replace (count - (i + c)) with (r - c) in * by lia; try done; [by rewrite G2|by rewrite G1|lia|lia|lia| |].
    { intros k Hk. assert (Hk' : in_range pos r k) by (unfold in_range in *; lia). destruct (Hd k Hk') as [Hk1 Hk2]. split; [done|].
      eapply (has_kept s s1 pos c); [done|unfold in_range in *; lia|done]. }
    exists s2. replace (pos + c + (r - c)) with (pos + r) in * by lia. split_and!; [done|done| | |].
    + rewrite O2. rewrite grown_twice by lia. rewrite (with_inode_outside _ _ _ _ O1). unfold with_inode. cbn. by rewrite zset_zset.
    + apply (keeps_but_trans _ _ s1); [apply (keeps_but_mono _ _ _ _ (touches_mono pos c pos r ltac:(unfold in_range; lia))), Kt|].
      apply (keeps_but_mono _ _ _ _ (touches_mono (pos + c) (r - c) pos r ltac:(unfold in_range; lia))), K2.
    + intros k Hk. destruct (decide (k = k0)) as [->|Hne].
      * apply (has_kept s1 s2 (pos + c) (r - c)); [done|unfold in_range; lia|]. exists e. split_and!; [done..|].
        rewrite (patched_ext D _ buf pos r buf pos c); [done|]. intros p Hp'. lia.
      * rewrite <- Hu. rewrite (patched_ext D _ buf pos r (buf + c) (pos + c) (r - c)); [apply H2; unfold in_range in *; lia|].
        intros p Hp'. unfold in_range in *. lia.
Qed.
End loop.

(** ** [file_write] *)

Definition has_block (s : kern) (v : m_inode) (k : Z) (d : list Z) : Prop := has s v s k d.

Lemma has_block_data s v k d : has_block s v k d -> file_data s v k d.
Proof. intros (e & He & Hb & Hr & Hd). exists e. split; [done|]. by right. Qed.
Lemma has_moved s v s' v' pos r k d :
  sound_file s v -> moved (touches s v pos r) s s' -> i_zone v' = i_zone v -> has s v s' k d -> has_block s' v' k d.
Proof. intros Hf Hm Hz (e & He & Hb & Hr & Hd). exists e. split_and!; [done|by eapply moved_block|by eapply moved_rd_has|done]. Qed.
Lemma data_moved s v s' v' pos r k d :
  sound_file s v -> moved (touches s v pos r) s s' -> i_zone v' = i_zone v -> ~ in_range pos r k -> file_data s v k d -> file_data s' v' k d.
Proof.
  intros Hf Hm Hz Hk (e & Hb & He). exists e. split; [by eapply moved_block|]. destruct He as [He|(He & Hr & Hd)]; [by left|right].
  split_and!; [done|by eapply moved_rd_has|]. apply Hm; [|done]. intros (_ & j & Hj & Hbj). by rewrite (sf_apart _ _ Hf j k e He Hbj Hb) in Hj.
Qed.

(** Where [file_write] starts. *)
Definition appends (f : file) : bool := bool_decide (Z.land (f_flags f) Namei.O_APPEND <> 0).
Definition start (f : file) (v : m_inode) : Z := if appends f then s32 (i_size v) else f_pos f.

Lemma set_inode_done i f s v : zget (inode_table s) i = Some v -> set_inode i f s = Done tt (with_inode i (f v) s).
Proof. intros E. unfold set_inode. by rewrite (done_bind _ _ _ _ _ (outside_inode s s i v eq_refl E)). Qed.

Lemma file_write_ok m s ino v filp f buf count D :
  let pos := start f v in
  ready fuel (need pos count + m) s -> zget (inode_table s) ino = Some v -> i_dev v = RD -> zget (file_table s) filp = Some f ->
  0 <= pos -> 0 < count -> pos + count < 2 ^ 31 -> sound_file s v ->
  (forall k, in_range pos count k -> has_block s v k (D k)) ->
  exists s' v', file_write fuel depth ino filp buf count s = Done count s' /\
    zget (inode_table s') ino = Some v' /\ i_zone v' = i_zone v /\ i_dev v' = RD /\ i_size v' = Z.max (i_size v) (pos + count) /\
    file_table s' = zset (file_table s) filp (if appends f then f else set_f_pos (pos + count) f) /\
    um (kuser s') = um (kuser s) /\ ready fuel m s' /\
    (forall k, in_range pos count k -> has_block s' v' k (patched D (um (kuser s)) buf pos count k)) /\
    (forall k d, ~ in_range pos count k -> file_data s v k d -> file_data s' v' k d).
Proof.
  intros pos Hs Ei Hdev Ef Hp Hc Hmax Hf Hd.
  assert (M0 : moved (touches s v pos count) s s) by (split; [done|by intros ??]).
  destruct (write_loop_bytes s v pos count ino Hf m (S (Z.to_nat count)) s v buf count pos 0 D) as (s1 & R1 & Y1 & O1 & K1 & H1);
    rewrite ?Z.sub_0_r in *; try done; [lia|by intros k Hk; split; [|apply Hd]|].
  unfold file_write. rewrite (done_bind _ _ _ _ _ (file_at_done _ _ _ Ef)).
  rewrite (done_bind _ _ _ _ _ (outside_inode s s ino v eq_refl Ei)). fold (appends f). fold (start f v). fold pos.
  rewrite (done_bind _ _ _ _ _ R1). cbv beta iota. destruct (now_done s1) as [t Et]. rewrite (done_bind _ _ _ _ _ Et).
  set (v1 := grown (pos + count) v) in *. pose proof (grown_fields (pos + count) v) as [G1 G2]. fold v1 in G1, G2.
  assert (Gs : i_size v1 = Z.max (i_size v) (pos + count)).
  { unfold v1, grown. rewrite u32_small by lia. case_decide; [cbn; rewrite u32_small by lia|]; lia. }
  injection O1 as E1 E2 E3 E4 E5 E6 E7 E8 E9 E10. cbn in E4, E6, E8, E9.
  assert (Ei1 : zget (inode_table s1) ino = Some v1) by (rewrite E1; apply zget_zset_eq; by eapply zget_Some_range).
  rewrite (done_bind _ _ _ _ _ (set_inode_done _ _ _ _ Ei1)). set (s2 := with_inode ino (set_mtime t v1) s1).
  assert (Ei2 : zget (inode_table s2) ino = Some (set_mtime t v1)) by (apply zget_zset_eq; by eapply zget_Some_range).
  assert (Hend : forall s' v', same_cache s1 s' -> rd_length s' = rd_length s1 -> i_zone v' = i_zone v1 ->
    ready fuel m s' /\ (forall k, in_range pos count k -> has_block s' v' k (patched D (um (kuser s)) buf pos count k)) /\
    (forall k d, ~ in_range pos count k -> file_data s v k d -> file_data s' v' k d)).
  { intros s' v' Hsame Hl Hz. pose proof (same_keeps _ _ Hsame) as Hk.
    assert (M1 : moved (touches s v pos count) s s').
    { split; [destruct Hsame as (_ & _ & _ & _ & ->); by rewrite Hl, E8, E9|]. eapply keeps_but_trans; [exact K1|by apply keeps_weaken]. }
    split_and!; [by eapply same_ready| |].
    - intros k Hin. eapply has_moved; [done|exact M1|by rewrite Hz|]. destruct (H1 k Hin) as (e & He & Hb & Hr & Hh). exists e. split_and!; [done..|by apply Hk].
    - intros k d Hin Hfd. eapply data_moved; [done|exact M1|by rewrite Hz|done|done]. }
  destruct (appends f).
  - exists s2, (set_mtime t v1). erewrite done_bind by reflexivity. rewrite decide_True by lia.
    destruct (Hend s2 (set_mtime t v1)) as (Z1 & Z2 & Z3); [by split_and!|done|done|].
    split_and!; try done; [by cbn; rewrite G2|cbn; by rewrite E4, zset_id|cbn; by rewrite E6].
  - assert (Ef2 : zget (file_table s2) filp = Some f) by (cbn; by rewrite E4).
    set (s3 := {| s2 with file_table := zset (file_table s2) filp (set_f_pos (pos + count) f) |}).
    destruct (now_done s3) as [t' Et']. set (s4 := with_inode ino (set_ctime t' (set_mtime t v1)) s3).
    erewrite (done_bind _ _ _ tt s4).
    2: { rewrite (done_bind _ _ _ _ _ (set_file_done _ _ _ _ Ef2)). fold s3. rewrite (done_bind _ _ _ _ _ Et').
         by rewrite (set_inode_done ino _ s3 (set_mtime t v1)). }
    exists s4, (set_ctime t' (set_mtime t v1)). rewrite decide_True by lia.
    destruct (Hend s4 (set_ctime t' (set_mtime t v1))) as (Z1 & Z2 & Z3); [by split_and!|done|done|].
    split_and!; try done; [cbn; apply zget_zset_eq; by eapply zget_Some_range|by cbn; rewrite G2|cbn; by rewrite E4|cbn; by rewrite E6].
Qed.

Lemma patched_bytes D u buf pos r : 0 <= pos -> 0 <= r -> file_bytes (patched D u buf pos r) pos r = get_bytes (Z.to_nat r) buf u.
Proof.
  intros Hp Hr. unfold file_bytes, get_bytes. rewrite Z2Nat.id by lia. apply list_eq. intros j.
  change (map ?f ?l) with (f <$> l). change (map ?f ?l) with (f <$> l). rewrite !list_lookup_fmap.
  destruct (decide (Z.of_nat j < r)) as [Hj|Hj].
  - rewrite !lookup_seqZ_lt by lia. cbn [fmap option_fmap option_map]. f_equal. set (p := pos + Z.of_nat j).
    unfold byte_at at 1, patched. change (map ?f ?l) with (f <$> l).
    pose proof (Z.mod_pos_bound p 1024 ltac:(lia)) as Hm. pose proof (Z.div_mod p 1024 ltac:(lia)) as Hd.
    unfold zget. rewrite decide_True by lia. rewrite list_lookup_fmap, lookup_seqZ_lt by lia. cbn [fmap option_fmap option_map default].
    rewrite decide_True by lia. unfold default, id. f_equal. lia.
  - by rewrite !lookup_seqZ_ge by lia.
Qed.

(** C4: [file_write] into blocks that the file has puts the user's bytes into the file at its
    position, or at its end if it is open for appending, and moves the position and the size;
    all other bytes of the file, holes included, stay as they are. *)
Theorem file_write_bytes m s ino v filp f buf count D :
  let pos := start f v in
  ready fuel (need pos count + m) s -> zget (inode_table s) ino = Some v -> i_dev v = RD -> zget (file_table s) filp = Some f ->
  0 <= pos -> 0 < count -> pos + count < 2 ^ 31 -> sound_file s v ->
  (forall k, in_range pos count k -> has_block s v k (D k)) ->
  exists s' v', file_write fuel depth ino filp buf count s = Done count s' /\
    zget (inode_table s') ino = Some v' /\ i_size v' = Z.max (i_size v) (pos + count) /\
    file_table s' = zset (file_table s) filp (if appends f then f else set_f_pos (pos + count) f) /\
    (forall k, in_range pos count k -> file_data s' v' k (patched D (um (kuser s)) buf pos count k)) /\
    (forall k d, ~ in_range pos count k -> file_data s v k d -> file_data s' v' k d).
Proof.
  intros pos Hs Ei Hdev Ef Hp Hc Hmax Hf Hd.
  destruct (file_write_ok m s ino v filp f buf count D Hs Ei Hdev Ef Hp Hc Hmax Hf Hd) as (s' & v' & R & E & _ & _ & Es & Et & _ & _ & H1 & H2).
  exists s', v'. split_and!; try done. intros k Hk. by apply has_block_data, H1.
Qed.

(** C3: What is written through one descriptor, not open for appending, over blocks that the
    file has, is what is read from the same place through another: [file_write] and then
    [file_read] of as many bytes answer that count, and the reader's memory receives the
    writer's bytes.  The file's blocks are all different and none of them is an index block;
    there is a clean unused buffer for every block that is written, and one more to read. *)
Theorem write_read_back m s ino v filp f filp2 f2 buf buf2 count D :
  ready fuel (need (f_pos f) count + S m) s -> zget (inode_table s) ino = Some v -> i_dev v = RD ->
  zget (file_table s) filp = Some f -> appends f = false ->
  zget (file_table s) filp2 = Some f2 -> filp2 <> filp -> f_pos f2 = f_pos f ->
  0 <= f_pos f -> 0 < count -> f_pos f + count < 2 ^ 31 -> sound_file s v ->
  (forall k, in_range (f_pos f) count k -> has_block s v k (D k)) ->
  exists s1 s2, file_write fuel depth ino filp buf count s = Done count s1 /\
    file_read fuel depth ino filp2 buf2 count s1 = Done count s2 /\
    um (kuser s2) = put_bytes (get_bytes (Z.to_nat count) buf (um (kuser s))) buf2 (um (kuser s)).
Proof.
  intros Hs Ei Hdev Ef Ha Ef2 Hne Hpos Hp Hc Hmax Hf Hd.
  assert (Est : start f v = f_pos f) by (unfold start; by rewrite Ha). 
  destruct (file_write_ok (S m) s ino v filp f buf count D) as (s1 & v1 & R1 & E1 & _ & D1 & _ & T1 & U1 & Y1 & H1 & _); rewrite ?Est; try done.
  rewrite Est in H1. set (D1' := patched D (um (kuser s)) buf (f_pos f) count) in *.
  destruct (file_read_ok fuel depth m s1 ino v1 filp2 f2 buf2 count D1' Y1 E1 D1) as (s2 & R2 & U2 & _); rewrite ?Hpos in *; try done.
  - rewrite T1. by rewrite zget_zset_ne.
  - intros k Hk1 Hk2. by apply has_block_data, H1.
  - exists s1, s2. split_and!; [done..|]. rewrite U2, U1. unfold D1'. by rewrite patched_bytes by lia.
Qed.
End write.

(** ** A file of two blocks on the small machine *)

Definition two_blocks : m_inode := {| inode0 with i_mode := 0x81a4; i_size := 1100; i_dev := RD; i_zone := [2; 3; 0; 0; 0; 0; 0; 0; 0] |}.
Definition writer : file := File 3 2 1 (Some 0) 1000.
Definition kern1 : kern :=
  {| booted with inode_table := [two_blocks]; file_table := [writer; writer];
     kuser := {| (kuser booted) with um := put_bytes [10; 20; 30] 5000 empty |} |}.

Lemma kern1_same : same_cache booted kern1.
Proof. by split_and!. Qed.
Lemma kern1_ready : ready 5 4 kern1.
Proof.
  destruct booted_steady as (H1 & H2 & _ & _ & H3). apply (same_ready 5 4 booted); [exact kern1_same|].
  split; [by eexists _, _|]. split; [|rewrite H1; lia]. split; [rewrite H1; lia|]. split.
  - exists (zrange 0 4). split_and!; [by apply (bool_decide_unpack _)|done|]. intros i Hi%elem_of_zrange.
    destruct (zget_is_Some (bufs (kblk booted)) i) as [b E]; [unfold zlen; rewrite H1; lia|].
    exists b. destruct (H3 i b E) as (_ & Hc & Hd & _). done.
  - intros i b E. destruct (H3 i b E) as (_ & -> & _). lia.
Qed.
Lemma kern1_block k : k = 0 \/ k = 1 -> has_block kern1 two_blocks k (on_disk kern1 (k + 2)).
Proof.
  intros Hk. destruct booted_steady as (_ & _ & H1 & H2 & H3). exists (k + 2). split; [lia|]. split; [|split].
  - replace (k + 2) with (zone two_blocks k) by (by destruct Hk as [-> | ->]). apply Direct. lia.
  - unfold rd_has. change (rd_start kern1) with (rd_start booted). change (rd_length kern1) with (rd_length booted). rewrite H1, H2. lia.
  - right. split; [|done]. intros i b E [Hd _]. destruct (H3 i b E) as (Hd' & _). rewrite Hd' in Hd. done.
Qed.
Lemma two_blocks_inv s k e : e <> 0 -> file_block s two_blocks k e -> (k = 0 /\ e = 2) \/ (k = 1 /\ e = 3).
Proof.
  intros He Hb. destruct Hb as [k Hk|k Hk Hz|k e Hk (Hz & _)|k Hk Hz|k Hk (Hz & _)|k z e Hk (Hz & _) _]; try done.
  unfold zone, zget in *. rewrite decide_True in * by lia.
  destruct (Z.to_nat k) as [|[|[|[|[|[|[|n]]]]]]] eqn:E; cbn in He |- *; (lia || done).
Qed.
Lemma two_blocks_sound s : sound_file s two_blocks.
Proof.
  split.
  - intros j k e He H1%two_blocks_inv H2%two_blocks_inv; [lia|done|done].
  - intros k e He H1%two_blocks_inv [-> |[-> |(q & Hz & _)]]; done.
Qed.

Lemma file_read_bytes_witness : exists s', file_read 5 0 0 0 8000 48 kern1 = Done 48 s' /\
  f_pos <$> zget (file_table s') 0 = Some 1048.
Proof.
  destruct (file_read_bytes 5 0 3 kern1 0 two_blocks 0 writer 8000 48 (fun k => on_disk kern1 (k + 2)) kern1_ready) as (s' & R & _ & E & _);
    [reflexivity..|cbn; lia|lia|cbn; lia| |].
  - cbn. intros k H1 H2. apply has_block_data, kern1_block. lia.
  - exists s'. split; [exact R|]. rewrite E. reflexivity.
Defined.
Lemma file_write_bytes_witness : exists s' v', file_write 5 0 0 0 5000 48 kern1 = Done 48 s' /\
  zget (inode_table s') 0 = Some v' /\ i_size v' = 1100 /\
  file_data s' v' 0 (patched (fun k => on_disk kern1 (k + 2)) (um (kuser kern1)) 5000 1000 48 0).
Proof.
  destruct (file_write_bytes 5 0 2 kern1 0 two_blocks 0 writer 5000 48 (fun k => on_disk kern1 (k + 2)) kern1_ready) as (s' & v' & R & E & Es & _ & H1 & _);
    [reflexivity..|by vm_compute|lia|by vm_compute|apply two_blocks_sound| |].
  - intros k [H1 H2]. apply kern1_block. change (start writer two_blocks) with 1000 in H1, H2. lia.
  - exists s', v'. split; [exact R|]. split; [exact E|]. split; [exact Es|]. apply (H1 0). by split.
Defined.
Lemma write_read_back_witness : exists s1 s2, file_write 5 0 0 0 5000 48 kern1 = Done 48 s1 /\
  file_read 5 0 0 1 8000 48 s1 = Done 48 s2 /\ get_fs_byte (um (kuser s2)) 8001 = 20.
Proof.
  destruct (write_read_back 5 0 1 kern1 0 two_blocks 0 writer 1 writer 5000 8000 48 (fun k => on_disk kern1 (k + 2)) kern1_ready) as (s1 & s2 & R1 & R2 & U);
    [reflexivity|reflexivity|reflexivity|reflexivity|reflexivity|done|reflexivity|cbn; lia|lia|cbn; lia|apply two_blocks_sound| |].
  - intros k [H1 H2]. apply kern1_block. cbn in H1, H2. lia.
  - exists s1, s2. split; [exact R1|]. split; [exact R2|]. rewrite U. vm_compute. reflexivity.
Defined.

End FileWrite.
