(* ===== verification/BlockAlloc.v ===== *)
(** * The blocks and the inodes of the disk

    [new_block] over the cache and the ram disk: it hands out the lowest free block, cleared, marks it in
    the bitmap, and leaves every other block alone; [free_block] is its inverse on the bitmap.
    [write_inode] and [read_inode] over the same machine. *)

From S2P Require Import Prelude Bytes Links Task UserMem BlkQueue BlkProps FsState Ramdisk RdProps.
From S2P Require Import Buffer BufferProps Cache RdCache FsInst Super Inode Bitmap DiskProps FileProps FileWrite.
Import Task UserMem BlkQueue BlkProps FsState Ramdisk RdProps Buffer BufferProps Cache RdCache FsInst FileProps FileWrite.

Module BlockAlloc.

(** ** The bitmap *)

(** The bit of block [z] in the bitmaps of the super block [v]. *)
Definition zone_bit (s : kern) (v : super_block_t) (z : Z) (x : bool) : Prop :=
  exists m b, zget (s_zmap v) ((z - (s_firstdatazone v - 1)) / 8192) = Some (Some m) /\ buf s m = Some b /\
    Bitmap.bit ((z - (s_firstdatazone v - 1)) mod 8192) (b_data b) = x.

(** The super block [sb] is the ram disk's, and the first that is. *)
Record found (s : kern) (sb : Z) (v : super_block_t) : Prop := {
  fo_slot : 0 <= sb < 8 /\ zget (super_block s) sb = Some v /\ s_dev v = RD /\ s_lock v = 0;
  fo_first : forall i, 0 <= i < sb -> exists w, zget (super_block s) i = Some w /\ s_dev w <> RD
}.

(** The ram disk's file system is mounted as [sb]; its bitmaps are in buffers that are in use. *)
Record mounted (s : kern) (sb : Z) (v : super_block_t) : Prop := {
  mt_slot : 0 <= sb < 8 /\ zget (super_block s) sb = Some v /\ s_dev v = RD /\ s_lock v = 0;
  mt_first : forall i, 0 <= i < sb -> exists w, zget (super_block s) i = Some w /\ s_dev w <> RD;
  mt_maps : forall i m, zget (s_zmap v) i = Some (Some m) -> exists b, buf s m = Some b /\ 0 < b_count b /\ b_uptodate b <> 0 /\
    b_dev b = RD /\ b_blocknr b < s_firstdatazone v /\ DiskProps.bytes (b_data b);
  mt_apart : forall i j m, zget (s_zmap v) i = Some (Some m) -> zget (s_zmap v) j = Some (Some m) -> i = j
}.
(** A block of the bitmaps. *)
Definition map_block (s : kern) (v : super_block_t) (n : Z) : Prop :=
  exists i m b, zget (s_zmap v) i = Some (Some m) /\ buf s m = Some b /\ b_blocknr b = n.

Lemma bit_put_bit i j x data : 0 <= i < 8192 -> 0 <= j < 8192 -> length data = 1024%nat ->
  Bitmap.bit i (Bitmap.put_bit j x data) = if decide (i = j) then x else Bitmap.bit i data.
Proof.
  intros Hi Hj Hl. unfold Bitmap.bit, Bitmap.put_bit, Bitmap.byte_at.
  assert (Hr : forall k, 0 <= k < 8192 -> (Z.to_nat (k / 8) < length data)%nat) by (intros k Hk; rewrite Hl; Z.to_euclidean_division_equations; lia).
  pose proof (Z.mod_pos_bound i 8 ltac:(lia)). pose proof (Z.mod_pos_bound j 8 ltac:(lia)).
  pose proof (Z.div_mod i 8 ltac:(lia)) as Ei. pose proof (Z.div_mod j 8 ltac:(lia)) as Ej.
  pose proof (Z.div_pos i 8 ltac:(lia) ltac:(lia)). pose proof (Z.div_pos j 8 ltac:(lia) ltac:(lia)).
  destruct (decide (i / 8 = j / 8)) as [E|E].
  - rewrite E, list_lookup_insert_eq by by apply Hr. unfold default, id. destruct (decide (i = j)) as [->|Hne], x.
    + by rewrite Z.setbit_eq by lia.
    + by rewrite Z.clearbit_eq by lia.
    + by rewrite Z.setbit_neq by lia.
    + by rewrite Z.clearbit_neq by lia.
  - rewrite list_lookup_insert_ne by lia. rewrite decide_False by (intros ->; done). done.
Qed.
(** A number without high bits is a byte. *)
Lemma byte_range v : (forall n, 8 <= n -> Z.testbit v n = false) -> 0 <= v < 256.
Proof.
  intros H. replace v with (v mod 2 ^ 8); [apply (Z.mod_pos_bound v (2 ^ 8)); lia|]. apply Z.bits_inj'. intros n Hn.
  destruct (decide (n < 8)); [by rewrite Z.mod_pow2_bits_low by lia|]. rewrite Z.mod_pow2_bits_high by lia. by rewrite H by lia.
Qed.
Lemma bytes_put_bit j x data : 0 <= j -> DiskProps.bytes data -> DiskProps.bytes (Bitmap.put_bit j x data).
Proof.
  intros Hj Hb. unfold Bitmap.put_bit. apply Forall_insert; [done|]. set (w := Bitmap.byte_at data (Z.to_nat (j / 8))).
  assert (Hw : 0 <= w < 2 ^ 8).
  { unfold w, Bitmap.byte_at. destruct (data !! Z.to_nat (j / 8)) as [y|] eqn:E; [|cbn; lia]. by apply (DiskProps.bytes_lookup data (Z.to_nat (j / 8))). }
  assert (Hhi : forall n, 8 <= n -> Z.testbit w n = false).
  { intros n Hn. rewrite <- (Z.mod_small w (2 ^ 8)) by done. by apply Z.mod_pow2_bits_high. }
  pose proof (Z.mod_pos_bound j 8 ltac:(lia)). apply byte_range. intros n Hn.
  destruct x; [rewrite Z.setbit_neq by lia|rewrite Z.clearbit_neq by lia]; by apply Hhi.
Qed.

(** The lowest clear bit is what the search finds. *)
Lemma first_zero_is data j : DiskProps.bytes data -> length data = 1024%nat -> 0 <= j < 8192 ->
  (forall k, 0 <= k < j -> Bitmap.bit k data = true) -> Bitmap.bit j data = false -> Bitmap.find_first_zero data = j.
Proof.
  intros Hb Hl Hj Hlow Hz. destruct (DiskProps.first_zero_spec 256 0 data Hb ltac:(lia)) as (H1 & H2 & H3).
  unfold Bitmap.find_first_zero. set (r := Bitmap.first_zero 256 0 data) in *. destruct (Z.lt_trichotomy r j) as [Hr|[->|Hr]]; [|done|].
  - rewrite (Hlow r) in H3 by lia. discriminate H3. lia.
  - rewrite H2 in Hz by lia. discriminate Hz.
Qed.
Lemma first_zero_full data : DiskProps.bytes data -> length data = 1024%nat ->
  (forall k, 0 <= k < 8192 -> Bitmap.bit k data = true) -> Bitmap.find_first_zero data = 8192.
Proof.
  intros Hb Hl Hfull. destruct (DiskProps.first_zero_spec 256 0 data Hb ltac:(lia)) as (H1 & H2 & H3).
  unfold Bitmap.find_first_zero. set (r := Bitmap.first_zero 256 0 data) in *. destruct (decide (r < 8192)); [|lia].
  rewrite (Hfull r) in H3 by lia. discriminate H3. lia.
Qed.

Section alloc.
Context {HM : Machine} {HQ : Quiet} (fuel depth : nat).

Lemma super_at_done s i v : zget (super_block s) i = Some v -> super_at i s = Done v s.
Proof. intros E. unfold super_at. by rewrite gets_bind, E. Qed.

Lemma get_super_found s sb v : found s sb v -> (8 < fuel)%nat -> Super.get_super fuel RD s = Done (Some sb) s.
Proof.
  intros [(Hsb & E & Hd & Hl) Hf] Hfu. unfold Super.get_super. rewrite decide_False by done.
  assert (Hn : forall n i, 0 <= i <= sb -> (Z.to_nat (sb - i) < n)%nat -> Super.find_super fuel n i RD s = Done (Some sb) s).
  { induction n as [|n IH]; intros i Hi Hn; [lia|]. cbn [Super.find_super]. rewrite decide_False by (unfold NR_SUPER; lia).
    destruct (decide (i = sb)) as [->|Hne].
    - rewrite (done_bind _ _ _ _ _ (super_at_done _ _ _ E)). rewrite decide_True by done.
      unfold Super.wait_on_super. destruct fuel as [|fuel']; [lia|]. cbn [Super.wait_on_super_].
      erewrite done_bind. 2: { rewrite (done_bind _ _ _ _ _ (super_at_done _ _ _ E)). rewrite decide_False by (intros X; done). reflexivity. }
      rewrite (done_bind _ _ _ _ _ (super_at_done _ _ _ E)). by rewrite decide_True.
    - destruct (Hf i ltac:(lia)) as (w & Ew & Hw). rewrite (done_bind _ _ _ _ _ (super_at_done _ _ _ Ew)). rewrite decide_False by done.
      apply IH; lia. }
  apply Hn; lia.
Qed.
Lemma get_super_mounted s sb v : mounted s sb v -> (8 < fuel)%nat -> Super.get_super fuel RD s = Done (Some sb) s.
Proof. intros [H1 H2 _ _]. by apply (get_super_found s sb v). Qed.

Lemma find_map_ok s l i0 k m b : l !! k = Some (Some m) -> buf s m = Some b -> Bitmap.find_first_zero (b_data b) < 8192 ->
  (forall k', (k' < k)%nat -> exists m' b', l !! k' = Some (Some m') /\ buf s m' = Some b' /\ Bitmap.find_first_zero (b_data b') = 8192) ->
  Bitmap.find_map l i0 s = Done (Some (i0 + Z.of_nat k, Bitmap.find_first_zero (b_data b), m)) s.
Proof.
  intros Hk Eb Hz Hfull. revert i0 k Hk Hfull. induction l as [|o l IH]; intros i0 k Hk Hfull; [done|]. destruct k as [|k].
  - injection Hk as ->. cbn [Bitmap.find_map]. erewrite done_bind by (apply bh_at_ok; exact Eb). cbv zeta. rewrite decide_True by done. by rewrite Z.add_0_r.
  - destruct (Hfull 0%nat) as (m' & b' & [= ->] & Eb' & Hz'); [lia|]. cbn [Bitmap.find_map]. erewrite done_bind by (apply bh_at_ok; exact Eb').
    cbv zeta. rewrite Hz'. rewrite decide_False by lia. rewrite (IH (i0 + 1) k); [do 4 f_equal; lia|done|].
    intros k' Hk'. apply (Hfull (Datatypes.S k')). lia.
Qed.

(** ** Buffers *)

(** Two changes in a row are one. *)
Lemma set_bh_two s bh b f g : buf s bh = Some b -> (set_bh bh f;; set_bh bh g) s = set_bh bh (fun b => g (f b)) s.
Proof.
  intros E. pose proof (set_bh_sb (bufs (kblk s)) (free_list s) (hash_table s) (null_b_prev s) s bh f b E) as R1. rewrite <- sb_id in R1.
  set (s1 := sb _ _ _ _ s) in R1. assert (E1 : buf s1 bh = Some (f b)) by (apply zget_zset_eq; by eapply zget_Some_range).
  pose proof (set_bh_sb (bufs (kblk s1)) (free_list s1) (hash_table s1) (null_b_prev s1) s1 bh g (f b) E1) as R2. rewrite <- sb_id in R2.
  pose proof (set_bh_sb (bufs (kblk s)) (free_list s) (hash_table s) (null_b_prev s) s bh (fun b => g (f b)) b E) as R3. rewrite <- sb_id in R3.
  rewrite (done_bind _ _ _ _ _ R1), R2, R3. unfold s1, sb. cbn. by rewrite zset_zset.
Qed.
Lemma set_bh_twice {A} s bh b f g (k : unit -> M kern A) : buf s bh = Some b ->
  (set_bh bh f;; (set_bh bh g ≫= k)) s = (set_bh bh (fun b => g (f b)) ≫= k) s.
Proof.
  intros E. unfold mbind at 3, M_bind at 3. rewrite <- (set_bh_two s bh b f g E).
  unfold mbind, M_bind. by destruct (set_bh bh f s).
Qed.

(** A buffer that somebody else keeps is changed. *)
Lemma set_bh_ready m s bh b f :
  ready fuel m s -> buf s bh = Some b -> 0 < b_count b -> shape (f b) = shape b -> b_lock (f b) = 0 -> b_dirt (f b) = 1 ->
  b_count (f b) = b_count b -> length (b_data (f b)) = 1024%nat ->
  exists s', set_bh bh f s = Done tt s' /\ ready fuel m s' /\ outside s' = outside s /\ other_bufs s s' bh /\ buf s' bh = Some (f b).
Proof.
  intros ((l & C & S) & (Hlen & (L & HL1 & HL2 & HL3) & Hcnt) & Hf) E Hc Hsh Hl Hd Hcf Hda.
  destruct (set_bh_steady s l C bh b f S E Hsh Hl ltac:(lia) Hda ltac:(lia)) as (s' & R & Es & S' & Ho & E').
  exists s'. split_and!; [exact R| |by rewrite Es|exact Ho|exact E']. pose proof (zget_Some_range _ _ _ E) as Hr.
  split; [by exists l, C|]. rewrite Es. cbn [bufs kblk sb]. rewrite length_zset. split_and!; [|done]. split_and!; [by rewrite length_zset| |].
  - exists L. split_and!; [done..|]. intros i Hi. destruct (HL3 i Hi) as (b0 & E0 & H0). destruct (decide (i = bh)) as [->|Hne].
    + unfold buf in E. rewrite E in E0. injection E0 as <-. destruct H0 as [H0 _]. lia.
    + exists b0. by rewrite zget_zset_ne.
  - intros i b0. destruct (decide (i = bh)) as [->|Hne].
    + rewrite zget_zset_eq by done. intros [= <-]. rewrite Hcf. by apply (Hcnt bh).
    + rewrite zget_zset_ne by done. apply Hcnt.
Qed.

Lemma getblk_in_use m s n : ready fuel (S m) s -> rd_has s n ->
  exists bh s1 b b0, Inode.getblk fuel depth RD n s = Done bh s1 /\ in_use fuel (S m) s1 bh b /\ has_id RD n b /\
    outside s1 = outside s /\ keeps s s1 /\ other_bufs s s1 bh /\ buf s bh = Some b0 /\ (has_id RD n b0 \/ reusable b0) /\ b_count b = b_count b0 + 1.
Proof.
  intros Hs Hn. pose proof Hs as ((l & C & S) & Hr & Hf).
  destruct (getblk_steady fuel (Inode.sync_inodes fuel depth) s l C n S (spare_of _ _ _ _ _ _ (st_cache _ _ _ S) Hr) Hn Hf)
    as (bh & s1 & b & b1 & l1 & C1 & G & S1 & Ho & (B & fl & H & nb & Hrl) & E & E1 & Hid & Hc & _ & Hdt & Hor & Hk).
  destruct (in_use_intro fuel _ s s1 bh b b1 Hs ltac:(by exists l1, C1) Ho E E1 Hc Hdt) as [U Hc1].
  exists bh, s1, b1, b. split_and!; try done. by rewrite Hrl.
Qed.

(** The new block is cleared. *)
Definition cleared (b : buffer_head) : buffer_head := set_dirt 1 (set_uptodate 1 (upd_data Bitmap.clear_block b)).
Lemma clear_in_use m s bh b n : in_use fuel (S m) s bh b -> has_id RD n b -> length (b_data b) = 1024%nat ->
  exists s', set_bh bh cleared s = Done tt s' /\ in_use fuel m s' bh (cleared b) /\ outside s' = outside s /\
    holds s' n (replicate 1024 0) /\ keeps_but (eq n) s s' /\ other_bufs s s' bh.
Proof.
  intros U Hid Hda. pose proof U as ((l & C & S) & E & _). destruct (st_settled _ _ _ S bh b E) as [Hl _].
  assert (Hz : b_data (cleared b) = replicate 1024 0).
  { unfold cleared. cbn [b_data set_dirt set_uptodate upd_data]. unfold Bitmap.clear_block, splice.
    rewrite length_replicate, drop_ge by lia. cbn [take app]. by rewrite app_nil_r. }
  destruct (set_bh_in_use fuel (Datatypes.S m) m s bh b cleared U) as (s' & R & U' & O & Ho); try done; [by rewrite Hz|lia|right; lia|].
  pose proof U' as ((l' & C' & S') & E' & _). exists s'. split_and!; try done.
  - left. exists bh, (cleared b). by split_and!.
  - intros k d Hk. apply (holds_other s s' l C bh b (cleared b) n); try done; [apply S|apply S|by right].
Qed.

(** ** [new_block] *)

Lemma ready_sized m s i b : ready fuel m s -> buf s i = Some b -> length (b_data b) = 1024%nat.
Proof. intros ((l & C & S) & _) E. by apply (st_sized _ _ _ S i b). Qed.

(** The search finds the map and the bit of the lowest free block. *)
Lemma find_map_lowest m s sb v y :
  mounted s sb v -> ready fuel m s -> s_firstdatazone v <= y -> zone_bit s v y false ->
  (forall z, s_firstdatazone v - 1 <= z < y -> zone_bit s v z true) ->
  let n := y - (s_firstdatazone v - 1) in
  exists mp b, zget (s_zmap v) (n / 8192) = Some (Some mp) /\ buf s mp = Some b /\
    Bitmap.find_map (s_zmap v) 0 s = Done (Some (n / 8192, n mod 8192, mp)) s /\ Bitmap.bit (n mod 8192) (b_data b) = false.
Proof.
  intros Hm Hs Hy (mp & b & Ez & Eb & Hbit) Hlow n. fold n in Ez, Hbit. pose proof (Z.mod_pos_bound n 8192 ltac:(lia)) as Hmod. pose proof (Z.div_mod n 8192 ltac:(lia)) as Hdm.
  pose proof (Z.div_pos n 8192 ltac:(lia) ltac:(lia)) as Hdp. set (q := n / 8192) in *.
  assert (Hzmap : forall k mp b, 0 <= k -> zget (s_zmap v) k = Some (Some mp) -> buf s mp = Some b -> DiskProps.bytes (b_data b) /\ length (b_data b) = 1024%nat).
  { intros k mp' b' Hk E1 E2. destruct (mt_maps _ _ _ Hm k mp' E1) as (b1 & E3 & _ & _ & _ & _ & Hb). rewrite E2 in E3. injection E3 as <-.
    split; [done|by eapply ready_sized]. }
  (* the bits of the blocks below [y] *)
  assert (Hbits : forall k j, 0 <= k -> 0 <= j < 8192 -> 8192 * k + j < n -> exists mp' b', zget (s_zmap v) k = Some (Some mp') /\ buf s mp' = Some b' /\ Bitmap.bit j (b_data b') = true).
  { intros k j Hk Hj Hn. destruct (Hlow (8192 * k + j + (s_firstdatazone v - 1)) ltac:(lia)) as (mp' & b' & E1 & E2 & E3).
    replace (8192 * k + j + (s_firstdatazone v - 1) - (s_firstdatazone v - 1)) with (8192 * k + j) in * by lia.
    replace ((8192 * k + j) / 8192) with k in E1 by (apply (Z.div_unique _ _ _ j); lia).
    replace ((8192 * k + j) mod 8192) with j in E3 by (apply (Z.mod_unique _ _ k); lia). by exists mp', b'. }
  assert (Hfz : Bitmap.find_first_zero (b_data b) = n mod 8192).
  { destruct (Hzmap q mp b Hdp Ez Eb) as [H1 H2]. apply first_zero_is; try done. intros j Hj.
    destruct (Hbits q j Hdp ltac:(lia) ltac:(lia)) as (mp' & b' & E1 & E2 & E3). rewrite Ez in E1. injection E1 as <-. rewrite Eb in E2. by injection E2 as <-. }
  exists mp, b. split_and!; [done..| |done].
  replace (Some (q, n mod 8192, mp)) with (Some (0 + Z.of_nat (Z.to_nat q), Bitmap.find_first_zero (b_data b), mp)) by (rewrite Hfz; do 3 f_equal; lia).
  apply find_map_ok; [|done|lia|].
  - unfold zget in Ez. by rewrite decide_True in Ez.
  - intros k Hk. destruct (Hbits (Z.of_nat k) 0) as (mp' & b' & E1 & E2 & _); [lia..|]. exists mp', b'. split; [by rewrite <- zget_of_nat|]. split; [done|].
    destruct (Hzmap (Z.of_nat k) mp' b' ltac:(lia) E1 E2) as [H1 H2]. apply first_zero_full; try done. intros j Hj.
    destruct (Hbits (Z.of_nat k) j ltac:(lia) Hj ltac:(lia)) as (mp2 & b2 & E3 & E4 & E5). rewrite E1 in E3. injection E3 as <-. rewrite E2 in E4. by injection E4 as <-.
Qed.

(** The data of all buffers but one. *)
Lemma other_data s s' bh i b : other_bufs s s' bh -> i <> bh -> buf s i = Some b -> exists b', buf s' i = Some b' /\ core b' = core b.
Proof. intros Ho Hi E. destruct (other_bufs_get _ _ _ _ _ (other_bufs_sym _ _ _ Ho) Hi E) as (b' & E' & Hc). by exists b'. Qed.

Definition marked (j : Z) (x : bool) (b : buffer_head) : buffer_head := set_dirt 1 (set_data (Bitmap.put_bit j x (b_data b)) b).
(** Nobody uses block [n]. *)
Definition unused (s : kern) (n : Z) : Prop := forall i b, buf s i = Some b -> has_id RD n b -> b_count b = 0.
(** Of the bitmaps, bit [j] of [mp] was set to [x] and nothing else changed. *)
Definition map_change (s s' : kern) (v : super_block_t) (mp j : Z) (x : bool) : Prop :=
  forall i mp' b, zget (s_zmap v) i = Some (Some mp') -> buf s mp' = Some b ->
    exists b', buf s' mp' = Some b' /\ core b' = core (if decide (mp' = mp) then marked j x b else b).

Lemma map_change_bits m s s' sb v y mp b x :
  mounted s sb v -> ready fuel m s -> outside s' = outside s -> s_firstdatazone v - 1 <= y ->
  zget (s_zmap v) ((y - (s_firstdatazone v - 1)) / 8192) = Some (Some mp) -> buf s mp = Some b ->
  map_change s s' v mp ((y - (s_firstdatazone v - 1)) mod 8192) x ->
  mounted s' sb v /\ zone_bit s' v y x /\ forall z w, z <> y -> zone_bit s v z w -> zone_bit s' v z w.
Proof.
  intros Hm Hs Ho Hy Ez Eb Hch. set (n := y - (s_firstdatazone v - 1)) in *.
  pose proof (Z.mod_pos_bound n 8192 ltac:(lia)) as Hmod. pose proof (Z.div_mod n 8192 ltac:(lia)) as Hdm.
  assert (Hsup : super_block s' = super_block s) by by injection Ho. pose proof (ready_sized _ _ _ _ Hs Eb) as Hlen. split_and!.
  - destruct Hm as [H1 H2 H3 H4]. split; [by rewrite Hsup|by rewrite Hsup| |done]. intros i mp' Ei.
    destruct (H3 i mp' Ei) as (b1 & E1 & Hc & Hu & Hd & Hb & Hby). destruct (Hch i mp' b1 Ei E1) as (b2 & E2 & (K1 & K2 & K3 & K4 & K5 & K6 & K7)%core_fields).
    exists b2. rewrite K1, K2, K3, K6, K7. case_decide; [|by split_and!]. split_and!; try done. by apply bytes_put_bit; [lia|].
  - destruct (Hch _ _ _ Ez Eb) as (b2 & E2 & (_ & _ & _ & _ & _ & _ & K7)%core_fields). exists mp, b2. split_and!; [done..|].
    rewrite K7, decide_True by done. cbn [marked b_data set_dirt set_data]. fold n. by rewrite bit_put_bit, decide_True.
  - intros z w Hz (mp' & b1 & E1 & Eb1 & Hw). destruct (Hch _ _ _ E1 Eb1) as (b2 & E2 & (_ & _ & _ & _ & _ & _ & K7)%core_fields). exists mp', b2.
    split_and!; [done..|]. rewrite K7. case_decide as Hmp; [subst mp'|done]. rewrite Eb in Eb1. injection Eb1 as <-.
    cbn [marked b_data set_dirt set_data]. pose proof (mt_apart _ _ _ Hm _ _ _ Ez E1) as Hi.
    set (n' := z - (s_firstdatazone v - 1)) in *. pose proof (Z.mod_pos_bound n' 8192 ltac:(lia)) as Hmod'. pose proof (Z.div_mod n' 8192 ltac:(lia)) as Hdm'.
    rewrite bit_put_bit, decide_False by (done || lia). done.
Qed.

(** What [new_block] is called on, for the lowest free block [y]. *)
Record lowest_free (m : nat) (s : kern) (sb : Z) (v : super_block_t) (y : Z) : Prop := {
  lf_mounted : mounted s sb v;
  lf_ready : ready fuel (S m) s;
  lf_disk : rd_has s y /\ s_firstdatazone v <= y < s_nzones v;
  lf_free : zone_bit s v y false;
  lf_lowest : forall z, s_firstdatazone v - 1 <= z < y -> zone_bit s v z true;
  lf_unused : unused s y
}.

(** The buffer that [getblk] takes for a data block is not one of a bitmap's. *)
Lemma not_a_map s sb v y s1 mp b j bh b0 :
  mounted s sb v -> buf s mp = Some b -> other_bufs s s1 mp -> buf s1 mp = Some (marked j true b) ->
  s_firstdatazone v <= y -> buf s1 bh = Some b0 -> has_id RD y b0 \/ reusable b0 ->
  forall i mp' b', zget (s_zmap v) i = Some (Some mp') -> buf s mp' = Some b' -> bh <> mp'.
Proof.
  intros Hm Eb B1 E1 Hy E2 Hor i mp' b1 Ei Eb1 ->. destruct (mt_maps _ _ _ Hm _ _ Ei) as (b2 & Eb2 & Hc2 & _ & _ & Hblk2 & _).
  rewrite Eb1 in Eb2. injection Eb2 as <-.
  assert (Hx : b_count b0 = b_count b1 /\ b_blocknr b0 = b_blocknr b1).
  { destruct (decide (mp' = mp)) as [->|Hne]; [rewrite E1 in E2; injection E2 as <-; rewrite Eb in Eb1; by injection Eb1 as <-|].
    destruct (other_data _ _ _ _ _ B1 Hne Eb1) as (b3 & E3 & (_ & ? & ? & _)%core_fields). rewrite E2 in E3. by injection E3 as <-. }
  destruct Hor as [[_ Hx']|[Hx' _]]; lia.
Qed.

(** A bit of a bitmap is changed. *)
Lemma mark_map_ok m s sb v k mp b j x :
  mounted s sb v -> ready fuel m s -> zget (s_zmap v) k = Some (Some mp) -> buf s mp = Some b ->
  exists s1, set_bh mp (fun b' => set_dirt 1 (set_data (Bitmap.put_bit j x (b_data b)) b')) s = Done tt s1 /\ ready fuel m s1 /\
    outside s1 = outside s /\ other_bufs s s1 mp /\ buf s1 mp = Some (marked j x b) /\ keeps_but (eq (b_blocknr b)) s s1.
Proof.
  intros Hm Hs Ez Eb. destruct (mt_maps _ _ _ Hm _ _ Ez) as (b' & Eb' & Hc & _ & Hdev & _). rewrite Eb in Eb'. injection Eb' as <-.
  pose proof (ready_sized _ _ _ _ Hs Eb) as Hlen. pose proof Hs as ((l & C & St) & _). destruct (st_settled _ _ _ St mp b Eb) as [Hlock _].
  set (f := fun b' => set_dirt 1 (set_data (Bitmap.put_bit j x (b_data b)) b')).
  destruct (set_bh_ready m s mp b f Hs Eb Hc) as (s1 & R1 & Y1 & O1 & B1 & E1); try done.
  { cbn. unfold Bitmap.put_bit. by rewrite length_insert. }
  exists s1. split_and!; try done. intros i d Hi. apply (holds_other s s1 l C mp b (f b) (b_blocknr b)); try done; [apply St|apply St|by right].
Qed.

(** A run of [new_block]: a bit of the bitmap is marked, then a buffer that is not of a bitmap is cleared. *)
Lemma new_block_run m s sb v y : lowest_free m s sb v y -> (8 < fuel)%nat ->
  let n := y - (s_firstdatazone v - 1) in
  exists mp b s4, zget (s_zmap v) (n / 8192) = Some (Some mp) /\ buf s mp = Some b /\
    Bitmap.new_block fuel depth RD s = Done y s4 /\ ready fuel m s4 /\ outside s4 = outside s /\
    map_change s s4 v mp (n mod 8192) true /\ unused s4 y /\ holds s4 y (replicate 1024 0) /\
    forall k d, k <> y -> k <> b_blocknr b -> holds s k d -> holds s4 k d.
Proof.
  intros [Hm Hs [Hr Hy] Hfree Hlow Hunused] Hfu n. destruct (find_map_lowest (S m) s sb v y Hm Hs ltac:(lia) Hfree Hlow) as (mp & b & Ez & Eb & Rf & Hbit).
  fold n in Ez, Rf, Hbit. pose proof (Z.div_mod n 8192 ltac:(lia)) as Hdm.
  destruct (mt_maps _ _ _ Hm _ _ Ez) as (b' & Eb' & _ & _ & _ & Hblk & _). rewrite Eb in Eb'. injection Eb' as <-.
  destruct (mark_map_ok (S m) s sb v _ mp b (n mod 8192) true Hm Hs Ez Eb) as (s1 & R1 & Y1 & O1 & B1 & E1 & K1).
  destruct (getblk_in_use m s1 y Y1 (outside_rd_has _ _ _ O1 Hr)) as (bh & s2 & bb & bb0 & R2 & U2 & Hid & O2 & K2 & B2 & E2 & Hor & Hcnt).
  pose proof (not_a_map s sb v y s1 mp b _ bh bb0 Hm Eb B1 E1 ltac:(lia) E2 Hor) as Hmaps.
  assert (Hun1 : forall i bi, buf s1 i = Some bi -> has_id RD y bi -> b_count bi = 0).
  { intros i bi Ei Hidi. destruct (decide (i = mp)) as [->|Hne].
    - rewrite E1 in Ei. injection Ei as <-. destruct Hidi as [_ Hx]. cbn in Hx. lia.
    - destruct (other_bufs_get _ _ _ _ _ B1 Hne Ei) as (b3 & E3 & (H1 & H2 & H3 & _)%core_fields).
      rewrite <- H3. apply (Hunused i b3 E3). unfold has_id in *. by rewrite H1, H2. }
  assert (Hbc : b_count bb = 1) by (rewrite Hcnt; destruct Hor as [Hx|[Hx _]]; [by rewrite (Hun1 _ _ E2 Hx)|lia]).
  pose proof U2 as ((l2 & C2 & St2) & E2' & _).
  destruct (clear_in_use m s2 bh bb y U2 Hid (st_sized _ _ _ St2 bh bb E2')) as (s3 & R3 & U3 & O3 & H3 & K3 & B3).
  destruct (brelse_others fuel m s3 bh _ s3 U3) as (s4 & R4 & Y4 & O4 & B4 & K4 & E4); [by split_and!|].
  assert (Bs : other_bufs s1 s4 bh) by (eapply other_bufs_trans; [exact B2|]; by eapply other_bufs_trans).
  exists mp, b, s4. split_and!; [done..| |done|by rewrite O4, O3, O2| | |by apply K4|].
  - unfold Bitmap.new_block. rewrite (done_bind _ _ _ _ _ (get_super_mounted s sb v Hm Hfu)).
    destruct (mt_slot _ _ _ Hm) as (_ & Es & _). rewrite (done_bind _ _ _ _ _ (super_at_done _ _ _ Es)), (done_bind _ _ _ _ _ Rf). cbv beta iota.
    erewrite done_bind by (apply bh_at_ok; exact Eb). unfold Bitmap.set_bit. rewrite Hbit. cbn [c_bool].
    rewrite (decide_False (P := 0 <> 0)) by lia. rewrite (set_bh_twice s mp b _ _ _ Eb), (done_bind _ _ _ _ _ R1).
    replace (n mod 8192 + (n / 8192 * 8192 + s_firstdatazone v - 1)) with y by lia. cbv zeta. rewrite decide_False by lia.
    rewrite (done_bind _ _ _ _ _ R2). erewrite done_bind by (apply bh_at_ok; exact E2'). rewrite decide_False by lia.
    rewrite (set_bh_twice s2 bh bb _ _ _ E2'). fold cleared. rewrite (done_bind _ _ _ _ _ R3). by rewrite (done_bind _ _ _ _ _ R4).
  - intros i mp' b1 Ei Eb1. pose proof (Hmaps _ _ _ Ei Eb1) as Hne. destruct (decide (mp' = mp)) as [->|Hnm].
    + rewrite Eb in Eb1. injection Eb1 as <-. destruct (other_data _ _ _ mp (marked (n mod 8192) true b) Bs) as (b4 & ? & ?); [done|done|]. by exists b4.
    + destruct (other_data _ _ _ _ _ B1 Hnm Eb1) as (b2 & E2b & Hc2). destruct (other_data _ _ _ mp' _ Bs ltac:(done) E2b) as (b3 & E3b & Hc3).
      exists b3. split; [done|congruence].
  - intros i bi Ei Hidi. destruct (decide (i = bh)) as [->|Hne].
    + rewrite E4 in Ei. injection Ei as <-. cbn. by rewrite Hbc.
    + destruct (other_bufs_get _ _ _ _ _ Bs Hne Ei) as (b3 & E3 & (H1' & H2' & H3' & _)%core_fields). rewrite <- H3'. apply (Hun1 i b3 E3). unfold has_id in *. by rewrite H1', H2'.
  - intros k d Hk Hnb H. apply K4, K3; [done|]. by apply K2, K1.
Qed.

(** C5: [new_block] gives out the lowest free block: it is cleared, its bit is set and no other, and the
    contents of every other block of the disk, the bitmaps apart, are as before. *)
Theorem new_block_lowest m s sb v y : lowest_free m s sb v y -> (8 < fuel)%nat ->
  exists s', Bitmap.new_block fuel depth RD s = Done y s' /\ ready fuel m s' /\ outside s' = outside s /\
    holds s' y (replicate 1024 0) /\ zone_bit s' v y true /\ (forall z x, z <> y -> zone_bit s v z x -> zone_bit s' v z x) /\
    (forall n d, n <> y -> ~ map_block s v n -> holds s n d -> holds s' n d).
Proof.
  intros Hf Hfu. destruct (new_block_run m s sb v y Hf Hfu) as (mp & b & s4 & Ez & Eb & R & Y & O & Hch & _ & H0 & K).
  destruct (map_change_bits _ s s4 sb v y mp b true (lf_mounted _ _ _ _ _ Hf) (lf_ready _ _ _ _ _ Hf) O) as (_ & Hb1 & Hb2); try done; [destruct (lf_disk _ _ _ _ _ Hf); lia|].
  exists s4. split_and!; [done..|]. intros k d Hk Hnm. apply K; [done|]. intros ->. apply Hnm. by eexists _, mp, b.
Qed.
(** ** [free_block] *)

(** The contents of a buffer in use are given up. *)
Definition discard (b : buffer_head) : buffer_head := set_uptodate 0 (set_dirt 0 b).
Lemma discard_in_use m s bh b : in_use fuel m s bh b ->
  exists s', set_bh bh discard s = Done tt s' /\ in_use fuel m s' bh (discard b) /\ outside s' = outside s /\ other_bufs s s' bh.
Proof.
  intros ((l & C & S) & E & Hc & (Hlen & (L & HL1 & HL2 & HL3) & Hcnt) & Hf). destruct (st_settled _ _ _ S bh b E) as [Hl _].
  destruct (set_bh_steady s l C bh b discard S E eq_refl Hl ltac:(cbn; lia) (st_sized _ _ _ S bh b E)) as (s' & R & Es & S' & Ho & E'); [done|].
  exists s'. split_and!; [exact R| |by rewrite Es|exact Ho]. pose proof (zget_Some_range _ _ _ E) as Hr.
  unfold in_use. rewrite Es in E' |- *. cbn [bufs kblk sb] in *. rewrite !length_zset, zset_zset in *.
  split_and!; [by exists l, C; rewrite <- Es|exact E'|by apply Hc|by apply Hc| |done].
  split_and!; [by rewrite length_zset| |].
  - exists L. split_and!; [done..|]. intros i Hi. destruct (HL3 i Hi) as (b0 & E0 & H0). destruct (decide (i = bh)) as [->|Hne].
    + rewrite zget_zset_eq in E0 |- * by done. injection E0 as <-. eexists. split; [done|]. by destruct H0 as [H0 _].
    + rewrite zget_zset_ne in E0 |- * by done. by exists b0.
  - intros i b0. destruct (decide (i = bh)) as [->|Hne].
    + rewrite zget_zset_eq by done. intros [= <-]. apply (Hcnt bh (set_b_count (b_count b - 1) b)). by apply zget_zset_eq.
    + specialize (Hcnt i b0). by rewrite zget_zset_ne in Hcnt |- *.
Qed.

(** The buffers of the other blocks. *)
Definition others_kept (s s' : kern) (n : Z) : Prop :=
  forall i b, buf s i = Some b -> ~ has_id RD n b -> exists b', buf s' i = Some b' /\ core b' = core b.

(** The block is dropped from the cache, if it is there. *)
Lemma drop_block_ok m s y : ready fuel m s -> rd_has s y -> unused s y ->
  exists o s1 s2, Buffer.get_hash_table fuel RD y s = Done o s1 /\
    (match o with
     | Some bh =>
         b ← bh_at bh;
         if decide (b_count b <> 1) then mret true
         else set_bh bh (fun b => set_uptodate 0 (set_dirt 0 b));; Buffer.brelse fuel (Some bh);; mret false
     | None => mret false
     end) s1 = Done false s2 /\
    ready fuel m s2 /\ outside s2 = outside s /\ others_kept s s2 y /\ unused s2 y /\ keeps_but (eq y) s s2.
Proof.
  intros Hs Hr Hun. pose proof Hs as ((l & C & S) & Hro & Hf).
  destruct (get_hash_steady fuel s l C y S Hr Hf) as [(bh & s1 & b & b' & R & S1 & Ho & Hout & E & E1 & Hid & Eb' & K1)|[R Hnone]].
  2: { exists None, s, s. split_and!; try done; [|by intros k d _]. intros i b E _. by exists b. }
  pose proof (Hun bh b E Hid) as Hc0. destruct (in_use_intro fuel m s s1 bh b b' Hs) as [U Hc]; try done; [by exists l, C|by rewrite Eb'|by rewrite Eb'|].
  destruct (discard_in_use m s1 bh b' U) as (s2 & R2 & U2 & O2 & B2).
  destruct (brelse_others fuel m s2 bh _ s2 U2) as (s3 & R3 & Y3 & O3 & B3 & K3 & E3); [by split_and!|].
  assert (B : other_bufs s s3 bh) by (eapply other_bufs_trans; [exact Ho|]; by eapply other_bufs_trans).
  assert (Hid' : has_id RD y b') by (by rewrite Eb'). exists (Some bh), s1, s3. split_and!; try done.
  - erewrite done_bind by (apply bh_at_ok; exact E1). rewrite decide_False by lia.
    rewrite (done_bind _ _ _ _ _ R2). by rewrite (done_bind _ _ _ _ _ R3).
  - by rewrite O3, O2.
  - intros i bi Ei Hni. apply (other_data s s3 bh); try done. intros ->. rewrite E in Ei. by injection Ei as <-.
  - intros i bi Ei Hidi. destruct (decide (i = bh)) as [->|Hne].
    + rewrite E3 in Ei. injection Ei as <-. cbn. rewrite Hc, Hc0. done.
    + destruct (other_bufs_get _ _ _ _ _ B Hne Ei) as (b0 & E0 & (H1 & H2 & H3 & _)%core_fields). rewrite <- H3. apply (Hun i b0 E0). unfold has_id in *. by rewrite H1, H2.
  - intros k d Hk H. apply K3. destruct U2 as (_ & E2 & _).
    apply (holds_other s1 s2 l C bh b' (discard b') y); try done; [apply S1|apply S1|by right|by apply K1].
Qed.

(** [free_block] of a block that nobody uses: its bit is cleared and no other, and the contents of every
    other block of the disk, the bitmaps apart, are as before. *)
Theorem free_block_frees m s sb v y :
  mounted s sb v -> ready fuel m s -> rd_has s y -> s_firstdatazone v <= y < s_nzones v -> zone_bit s v y true -> unused s y -> (8 < fuel)%nat ->
  exists s', Bitmap.free_block fuel RD y s = Done tt s' /\ ready fuel m s' /\ outside s' = outside s /\ unused s' y /\ mounted s' sb v /\
    zone_bit s' v y false /\ (forall z x, z <> y -> zone_bit s v z x -> zone_bit s' v z x) /\
    (forall n d, n <> y -> ~ map_block s v n -> holds s n d -> holds s' n d).
Proof.
  intros Hm Hs Hr Hy (mp & b & Ez & Eb & Hbit) Hun Hfu. set (n := y - (s_firstdatazone v - 1)) in *.
  destruct (drop_block_ok m s y Hs Hr Hun) as (o & s1 & s2 & R1 & R2 & Y2 & O2 & Hk & Hun2 & K2).
  pose proof (Z.mod_pos_bound n 8192 ltac:(lia)) as Hmod. pose proof (Z.div_mod n 8192 ltac:(lia)) as Hdm.
  assert (Hmaps : forall i mp b, zget (s_zmap v) i = Some (Some mp) -> buf s mp = Some b -> b_blocknr b < s_firstdatazone v /\ exists b', buf s2 mp = Some b' /\ core b' = core b).
  { intros i mp' b1 Ei Eb1. destruct (mt_maps _ _ _ Hm _ _ Ei) as (b2 & Eb2 & _ & _ & _ & Hblk & _). rewrite Eb1 in Eb2. injection Eb2 as <-.
    split; [done|]. apply (Hk _ _ Eb1). intros [_ Hx]. lia. }
  assert (Hm2 : mounted s2 sb v).
  { assert (Hsup : super_block s2 = super_block s) by by injection O2. destruct Hm as [H1 H2 H3 H4]. split; [by rewrite Hsup|by rewrite Hsup| |done].
    intros i mp' Ei. destruct (H3 i mp' Ei) as (b1 & E1 & Hx). destruct (Hmaps i mp' b1 Ei E1) as (_ & b2 & E2 & (K1 & K3 & K4 & K5 & K6 & K7 & K8)%core_fields).
    exists b2. by rewrite K1, K3, K4, K7, K8. }
  destruct (Hmaps _ _ _ Ez Eb) as (Hblk & b2 & Eb2 & (_ & Hbn & _ & _ & _ & _ & Hda)%core_fields).
  destruct (mark_map_ok m s2 sb v _ mp b2 (n mod 8192) false Hm2 Y2 Ez Eb2) as (s3 & R3 & Y3 & O3 & B3 & E3 & K3).
  assert (Hch : map_change s2 s3 v mp (n mod 8192) false).
  { intros i mp' b1 Ei Eb1. destruct (decide (mp' = mp)) as [->|Hne].
    - rewrite Eb2 in Eb1. injection Eb1 as <-. by exists (marked (n mod 8192) false b2).
    - by apply (other_data s2 s3 mp). }
  destruct (map_change_bits m s2 s3 sb v y mp b2 false Hm2 Y2 O3 ltac:(lia) Ez Eb2 Hch) as (Hm3 & Hb1 & Hb2).
  exists s3. split_and!; try done; [|by rewrite O3| | |].
  - unfold Bitmap.free_block. rewrite (done_bind _ _ _ _ _ (get_super_mounted s sb v Hm Hfu)).
    destruct (mt_slot _ _ _ Hm) as (_ & Es & _). destruct (mt_slot _ _ _ Hm2) as (_ & Es2 & _). rewrite (done_bind _ _ _ _ _ (super_at_done _ _ _ Es)).
    rewrite decide_False by lia. rewrite (done_bind _ _ _ _ _ R1), (done_bind _ _ _ _ _ R2). cbv iota.
    rewrite (done_bind _ _ _ _ _ (super_at_done _ _ _ Es2)). cbv zeta. fold n. rewrite Z.quot_div_nonneg, Ez by lia. cbn [mjoin option_join]. rewrite deref_bind.
    erewrite done_bind by (apply bh_at_ok; exact Eb2). change 8191 with (Z.ones 13). rewrite Z.land_ones by lia. change (2 ^ 13) with 8192.
    unfold Bitmap.clear_bit. rewrite Hda, Hbit. cbn [negb c_bool]. rewrite (decide_False (P := 0 <> 0)) by lia.
    rewrite (set_bh_two s2 mp b2 _ _ Eb2). rewrite Hda in R3. exact R3.
  - intros i bi Ei Hid. destruct (decide (i = mp)) as [->|Hne].
    + rewrite E3 in Ei. injection Ei as <-. destruct Hid as [_ Hx]. cbn in Hx. lia.
    + destruct (other_bufs_get _ _ _ _ _ B3 Hne Ei) as (b0 & E0 & (H1 & H2 & H3 & _)%core_fields). rewrite <- H3. apply (Hun2 i b0 E0). unfold has_id in *. by rewrite H1, H2.
  - intros z x Hz (mp' & b1 & E1 & Eb1 & Hx). apply Hb2; [done|]. destruct (Hmaps _ _ _ E1 Eb1) as (_ & b4 & Eb4 & (_ & _ & _ & _ & _ & _ & Hd4)%core_fields).
    exists mp', b4. split_and!; [done..|by rewrite Hd4].
  - intros k d Hky Hnm H. apply K3; [|by apply K2; [intros ->|]]. intros <-. apply Hnm. rewrite Hbn. by eexists _, mp, b.
Qed.

Lemma zone_bit_fun s v z x x' : zone_bit s v z x -> zone_bit s v z x' -> x = x'.
Proof. intros (mp & b & E & Eb & <-) (mp' & b' & E' & Eb' & <-). rewrite E in E'. injection E' as <-. rewrite Eb in Eb'. by injection Eb' as <-. Qed.

(** C6: Taking a block and giving it back changes no bit, and the same block is taken the next time. *)
Theorem new_free_block m s sb v y : lowest_free (S m) s sb v y -> (8 < fuel)%nat -> exists s1 s2 s3,
  Bitmap.new_block fuel depth RD s = Done y s1 /\ Bitmap.free_block fuel RD y s1 = Done tt s2 /\
  (forall z x, zone_bit s v z x -> zone_bit s2 v z x) /\ Bitmap.new_block fuel depth RD s2 = Done y s3.
Proof.
  intros Hf Hfu. pose proof Hf as [Hm Hs [Hr Hy] Hfree Hlow _].
  destruct (new_block_run (S m) s sb v y Hf Hfu) as (mp & b & s1 & Ez & Eb & R & Y & O & Hch & Hun & _).
  destruct (map_change_bits _ s s1 sb v y mp b true Hm Hs O ltac:(lia) Ez Eb Hch) as (Hm1 & Hb1 & Hb2).
  destruct (free_block_frees (S m) s1 sb v y Hm1 Y (outside_rd_has _ _ _ O Hr) Hy Hb1 Hun Hfu) as (s2 & R2 & Y2 & O2 & Hun2 & Hm2 & Hb3 & Hb4 & _).
  assert (Hbits : forall z x, zone_bit s v z x -> zone_bit s2 v z x).
  { intros z x Hz. destruct (decide (z = y)) as [->|Hne]; [by rewrite (zone_bit_fun _ _ _ _ _ Hz Hfree)|by apply Hb4, Hb2]. }
  destruct (new_block_run m s2 sb v y) as (_ & _ & s3 & _ & _ & R3 & _); [|done|by exists s1, s2, s3].
  split; try done; [|by intros z Hz; apply Hbits, Hlow]. split; [|done]. apply (outside_rd_has _ _ _ O2), (outside_rd_has _ _ _ O Hr).
Qed.
End alloc.

(** ** A small file system: block 2 of the ram disk is the bitmap *)

Definition sup (bh : Z) : super_block_t := {| super0 with s_dev := RD; s_lock := 0; s_firstdatazone := 5; s_nzones := 16; s_zmap := [Some bh] |}.
Definition with_super (bh : Z) (s : kern) : kern := {| s with super_block := [sup bh] |}.

Lemma booted_ready : ready 9 4 booted.
Proof.
  destruct booted_steady as (H1 & H2 & _ & _ & H3). split; [by eexists _, _|]. split; [|rewrite H1; lia]. split; [rewrite H1; lia|]. split.
  - exists (zrange 0 4). split_and!; [by apply (bool_decide_unpack _)|done|]. intros i Hi%elem_of_zrange.
    destruct (zget_is_Some (bufs (kblk booted)) i) as [b E]; [unfold zlen; rewrite H1; lia|].
    exists b. destruct (H3 i b E) as (_ & Hc & Hd & _). done.
  - intros i b E. destruct (H3 i b E) as (_ & -> & _). lia.
Qed.
Lemma map_bytes : DiskProps.bytes (on_disk booted 2).
Proof. apply (bool_decide_unpack _). vm_compute. exact I. Qed.

(** Block 2 is read, and its buffer put in the super block. *)
Lemma booted_map : exists bh s1, lowest_free 9 2 (with_super bh s1) 0 (sup bh) 5.
Proof.
  destruct booted_steady as (H1 & H2 & _ & _ & H3).
  assert (Hh : holds booted 2 (on_disk booted 2)) by (right; split; [|done]; intros i b E [Hd _]; destruct (H3 i b E) as (Hd' & _); by rewrite Hd' in Hd).
  destruct (bread_steady 9 (Inode.sync_inodes 9 0) booted _ _ 2 _ H2 booted_spare (booted_rd 2 ltac:(lia)) ltac:(rewrite H1; lia) Hh)
    as (bh & s1 & b & b1 & l1 & C1 & _ & E & E1 & Hid & Hu & Hda & Hc & Hdt & Ho & Hout & S1 & _).
  destruct (in_use_intro 9 4 booted s1 bh b b1 booted_ready ltac:(by exists l1, C1) Ho E E1 Hc Hdt) as [U Hc1].
  destruct (H3 bh b E) as (_ & Hc0 & _). assert (Hsame : same_cache s1 (with_super bh s1)) by by split_and!.
  assert (Hbit : forall z, 4 <= z < 12292 -> (z - 4) / 8192 = 0 -> zone_bit (with_super bh s1) (sup bh) z (Bitmap.bit ((z - 4) mod 8192) (on_disk booted 2))).
  { intros z _ Hz. exists bh, b1. cbn [sup s_firstdatazone s_zmap]. replace (z - (5 - 1)) with (z - 4) by lia. rewrite Hz. split_and!; [done..|by rewrite Hda]. }
  exists bh, s1. split.
  - split; [split_and!; done|intros i Hi; lia| |].
    + intros i m Em. destruct (decide (i = 0)) as [->|Hi].
      * injection Em as <-. destruct Hid as [Hd Hb]. exists b1. split_and!; [done|lia|done|done| |rewrite Hda; exact map_bytes]. rewrite Hb. cbn. lia.
      * apply zget_Some_range in Em. unfold zlen in Em. cbn in Em. lia.
    + intros i j m Ei Ej. apply zget_Some_range in Ei, Ej. unfold zlen in *. cbn in *. lia.
  - apply (same_ready 9 3 s1); [done|]. apply (in_use_ready 9 3 s1 bh b1); [done|lia].
  - split; [|cbn; lia]. change (rd_has s1 5). apply (outside_rd_has booted); [by rewrite <- Hout|apply booted_rd; lia].
  - replace false with (Bitmap.bit ((5 - 4) mod 8192) (on_disk booted 2)) by (vm_compute; reflexivity). by apply Hbit.
  - intros z Hz. cbn [sup s_firstdatazone] in Hz. replace z with 4 by lia.
    replace true with (Bitmap.bit ((4 - 4) mod 8192) (on_disk booted 2)) by (vm_compute; reflexivity). by apply Hbit.
  - intros i bi Ei [Hd Hb]. destruct (decide (i = bh)) as [->|Hne].
    + destruct Hid as [_ Hb2]. change (buf s1 bh = Some bi) in Ei. rewrite E1 in Ei. injection Ei as <-. lia.
    + destruct (other_bufs_get _ _ _ _ _ Ho Hne Ei) as (b0 & E0 & (K1 & _)%core_fields). destruct (H3 i b0 E0) as (Hd' & _). rewrite <- K1, Hd' in Hd. done.
Qed.

Lemma new_block_lowest_witness :
  exists s s', Bitmap.new_block 9 0 RD s = Done 5 s' /\ holds s' 5 (replicate 1024 0).
Proof.
  destruct booted_map as (bh & s1 & Hf).
  destruct (new_block_lowest 9 0 2 (with_super bh s1) 0 (sup bh) 5 Hf ltac:(lia)) as (s' & R & _ & _ & H & _).
  exists (with_super bh s1), s'. done.
Defined.

Lemma new_free_block_witness :
  exists s s1 s2 s3, Bitmap.new_block 9 0 RD s = Done 5 s1 /\ Bitmap.free_block 9 RD 5 s1 = Done tt s2 /\
    Bitmap.new_block 9 0 RD s2 = Done 5 s3.
Proof.
  destruct booted_map as (bh & s & Hf).
  destruct (new_free_block 9 0 1 (with_super bh s) 0 (sup bh) 5 Hf ltac:(lia)) as (s1 & s2 & s3 & R1 & R2 & _ & R3).
  exists (with_super bh s), s1, s2, s3. done.
Defined.

End BlockAlloc.

(** ** Inodes on the disk *)

Module InodeDisk.
Import BlockAlloc.

Section inode.
Context {HM : Machine} {HQ : Quiet} (fuel depth : nat).

(** The block of the disk with inode [num] of the file system [v], and the inode's 32 bytes in it:
    inodes are numbered from 1, and 32 of them fill a block. *)
Definition home (v : super_block_t) (num : Z) : Z := 2 + s_imap_blocks v + s_zmap_blocks v + (num - 1) / 32.
Definition record_of (num : Z) (d : list Z) : list Z := field (Z.to_nat (32 * ((num - 1) mod 32))) 32 d.

(** An inode in memory, of the file system [v]. *)
Record of_disk (s : kern) (sb : Z) (v : super_block_t) (i : m_inode) : Prop := {
  od_super : found s sb v;
  od_maps : 0 <= s_imap_blocks v < 2 ^ 16 /\ 0 <= s_zmap_blocks v < 2 ^ 16;
  od_inode : i_dev i = RD /\ 1 <= i_num i < 2 ^ 16 /\ i_lock i = 0;
  od_block : rd_has s (home v (i_num i))
}.

Lemma inode_block_home v i :
  0 <= s_imap_blocks v < 2 ^ 16 -> 0 <= s_zmap_blocks v < 2 ^ 16 -> 1 <= i_num i < 2 ^ 16 -> Inode.inode_block v i = home v (i_num i).
Proof.
  intros H1 H2 H3. unfold Inode.inode_block, home, INODES_PER_BLOCK. rewrite u32_small by lia.
  apply s32_small. Z.to_euclidean_division_equations. lia.
Qed.
Lemma record_slot i d : 1 <= i_num i < 2 ^ 16 -> record_of (i_num i) d = field (Inode.inode_slot i) 32 d.
Proof.
  intros H. unfold record_of, Inode.inode_slot, INODES_PER_BLOCK. rewrite u32_small by lia. f_equal.
  pose proof (Z.mod_pos_bound (i_num i - 1) 32). lia.
Qed.

Lemma with_inode_twice ino a b s : with_inode ino a (with_inode ino b s) = with_inode ino a s.
Proof. unfold with_inode. cbn. by rewrite zset_zset. Qed.
Lemma with_inode_get ino a s : is_Some (zget (inode_table s) ino) -> zget (inode_table (with_inode ino a s)) ino = Some a.
Proof. intros [x E]. apply zget_zset_eq. by eapply zget_Some_range. Qed.
Lemma with_inode_same ino a s : same_cache s (with_inode ino a s).
Proof. by split_and!. Qed.

Lemma lock_inode_ok s ino i : (0 < fuel)%nat -> zget (inode_table s) ino = Some i -> i_lock i = 0 ->
  Inode.lock_inode fuel ino s = Done tt (with_inode ino (set_i_lock 1 i) s).
Proof.
  destruct fuel as [|fuel']; [lia|]. intros _ E Hl. unfold Inode.lock_inode, Inode.wait_on_inode. cbn [Inode.wait_on_inode_].
  erewrite (done_bind _ _ _ tt s).
  2: { rewrite (done_bind _ _ _ _ _ (outside_inode s s ino i eq_refl E)). by rewrite decide_False by (intros X; done). }
  by apply set_inode_done.
Qed.
Lemma unlock_inode_ok s ino i : zget (inode_table s) ino = Some i ->
  Inode.unlock_inode ino s = Done tt (with_inode ino (set_i_lock 0 i) s).
Proof. intros E. unfold Inode.unlock_inode. erewrite done_bind by by apply set_inode_done. apply wake_quiet. Qed.

(** Up to the inode's block in a buffer. *)
Lemma inode_block_read m s sb v ino i d :
  ready fuel (S m) s -> (8 < fuel)%nat -> zget (inode_table s) ino = Some i -> of_disk s sb v i -> holds s (home v (i_num i)) d ->
  let s1 := with_inode ino (set_i_lock 1 i) s in
  Inode.lock_inode fuel ino s = Done tt s1 /\ inode_at ino s1 = Done (set_i_lock 1 i) s1 /\
  Super.get_super fuel (i_dev i) s1 = Done (Some sb) s1 /\ super_at sb s1 = Done v s1 /\
  exists bh s2 b, Inode.bread fuel depth (i_dev i) (Inode.inode_block v (set_i_lock 1 i)) s1 = Done (Some bh) s2 /\
    in_use fuel (S m) s2 bh b /\ b_data b = d /\ has_id RD (home v (i_num i)) b /\ b_uptodate b <> 0 /\ outside s2 = outside s1 /\ keeps s s2.
Proof.
  intros Hs Hfu E [Hsup [Hm1 Hm2] (Hd & Hn & Hl) Hb] Hh s1.
  assert (Es1 : zget (inode_table s1) ino = Some (set_i_lock 1 i)) by (apply with_inode_get; by eexists).
  assert (Hsup1 : found s1 sb v) by (destruct Hsup; by split). rewrite Hd. split_and!; [apply lock_inode_ok; done || lia|by apply (outside_inode s1 s1)| | |].
  - by apply (get_super_found fuel s1 sb v).
  - apply super_at_done, (fo_slot _ _ _ Hsup1).
  - pose proof (inode_block_home v (set_i_lock 1 i) Hm1 Hm2 Hn) as Eb. cbn [i_num set_i_lock] in Eb. rewrite Eb.
    destruct (bread_in_use fuel depth m s1 _ d (same_ready _ _ _ _ (with_inode_same ino _ s) Hs) Hb (same_keeps _ _ (with_inode_same ino _ s) _ _ Hh))
      as (bh & s2 & b & R & U & Hda & Hid & Hu & O & K).
    exists bh, s2, b. by split_and!.
Qed.

(** [read_inode] loads the inode's record. *)
Lemma read_inode_ok m s sb v ino j d :
  ready fuel (S m) s -> (8 < fuel)%nat -> zget (inode_table s) ino = Some j -> of_disk s sb v j -> holds s (home v (i_num j)) d ->
  exists s', Inode.read_inode fuel depth ino s = Done tt s' /\ ready fuel (S m) s' /\
    outside s' = outside (with_inode ino (load_d_inode (record_of (i_num j) d) j) s) /\ keeps s s'.
Proof.
  intros Hs Hfu E Hod Hh. pose proof Hod as [_ _ (Hd & Hn & Hl) _].
  destruct (inode_block_read m s sb v ino j d Hs Hfu E Hod Hh) as (R1 & R2 & R3 & R4 & bh & s2 & b & R5 & U & Hda & _ & _ & O & K).
  set (s1 := with_inode ino (set_i_lock 1 j) s) in *. set (l := record_of (i_num j) d).
  assert (Es2 : zget (inode_table s2) ino = Some (set_i_lock 1 j)) by (injection O as -> _; apply with_inode_get; by eexists).
  set (s3 := with_inode ino (load_d_inode l (set_i_lock 1 j)) s2).
  destruct (brelse_ready fuel (S m) s2 bh b s3 U (with_inode_same _ _ _)) as (s4 & R6 & Y4 & O4 & K4).
  assert (Es4 : zget (inode_table s4) ino = Some (load_d_inode l (set_i_lock 1 j))) by (injection O4 as -> _; apply with_inode_get; by eexists).
  set (s5 := with_inode ino (set_i_lock 0 (load_d_inode l (set_i_lock 1 j))) s4). exists s5. split_and!.
  - unfold Inode.read_inode, Inode.read_inode_. rewrite (done_bind _ _ _ _ _ R1), (done_bind _ _ _ _ _ R2). cbn [i_dev set_i_lock].
    rewrite (done_bind _ _ _ _ _ R3). cbv iota. rewrite (done_bind _ _ _ _ _ R4), (done_bind _ _ _ _ _ R2). cbn [i_dev set_i_lock].
    rewrite (done_bind _ _ _ _ _ R5). cbv iota. erewrite done_bind by (apply bh_at_ok; apply U). rewrite Hda.
    erewrite (done_bind _ _ _ tt s3).
    2: { rewrite (set_inode_done _ _ _ _ Es2). change (Inode.inode_slot (set_i_lock 1 j)) with (Inode.inode_slot j). by rewrite <- record_slot. }
    rewrite (done_bind _ _ _ _ _ R6). by rewrite (unlock_inode_ok _ _ _ Es4).
  - by apply (same_ready fuel _ s4), Y4.
  - unfold s5. rewrite (with_inode_outside _ _ _ _ O4). unfold s3. rewrite with_inode_twice, (with_inode_outside _ _ _ _ O). unfold s1. rewrite with_inode_twice.
    do 2 f_equal. destruct j. cbn in *. by subst.
  - intros k x Hx. apply (same_keeps s4 s5 (with_inode_same ino _ s4)), K4, (same_keeps s2 s3 (with_inode_same ino _ s2)). by apply K.
Qed.
(** [write_inode] puts the inode into its record; the block's buffer is dirty. *)
Lemma write_inode_ok m s sb v ino i d :
  ready fuel (S m) s -> (8 < fuel)%nat -> zget (inode_table s) ino = Some i -> of_disk s sb v i -> holds s (home v (i_num i)) d ->
  i_dirt i <> 0 -> length (d_inode_bytes i) = 32%nat ->
  let d1 := splice (Inode.inode_slot i) (d_inode_bytes i) d in
  exists s', Inode.write_inode fuel depth ino s = Done tt s' /\ ready fuel m s' /\
    outside s' = outside (with_inode ino (set_i_dirt 0 i) s) /\ keeps_but (eq (home v (i_num i))) s s' /\ holds s' (home v (i_num i)) d1 /\
    exists bh b, buf s' bh = Some b /\ has_id RD (home v (i_num i)) b /\ b_dirt b = 1 /\ b_uptodate b <> 0 /\ b_data b = d1.
Proof.
  intros Hs Hfu E Hod Hh Hdirt Hlen d1. pose proof Hod as [_ _ (Hd & Hn & Hl) _]. set (n := home v (i_num i)) in *.
  destruct (inode_block_read m s sb v ino i d Hs Hfu E Hod Hh) as (R1 & R2 & R3 & R4 & bh & s2 & b & R5 & U & Hda & Hid & Hu & O & K).
  set (s1 := with_inode ino (set_i_lock 1 i) s) in *.
  assert (Es2 : zget (inode_table s2) ino = Some (set_i_lock 1 i)) by (injection O as -> _; apply with_inode_get; by eexists).
  pose proof U as ((l & C & S2) & E2 & _). destruct (st_settled _ _ _ S2 bh b E2) as [Hlock _]. pose proof (st_sized _ _ _ S2 bh b E2) as Hsz.
  pose proof (proj1 (DiskProps.inode_slot_cases i i)) as Hslot.
  set (f := fun b => set_dirt 1 (upd_data (splice (Inode.inode_slot i) (d_inode_bytes i)) b)).
  assert (Hdf : b_data (f b) = d1) by (unfold f, d1; cbn; by rewrite Hda).
  assert (Hfl : length (b_data (f b)) = 1024%nat) by (rewrite Hdf; unfold d1; rewrite length_splice; lia || (rewrite <- Hda; lia)).
  destruct (set_bh_in_use fuel (Datatypes.S m) m s2 bh b f U) as (s3 & R6 & U3 & O3 & B3); try done; [lia|right; lia|]. pose proof U3 as ((l3 & C3 & S3) & E3 & _).
  assert (Es3 : zget (inode_table s3) ino = Some (set_i_lock 1 i)) by (by injection O3 as -> _).
  set (s4 := with_inode ino (set_i_dirt 0 (set_i_lock 1 i)) s3).
  destruct (brelse_others fuel m s3 bh (f b) s4 U3 (with_inode_same _ _ _)) as (s5 & R7 & Y5 & O5 & B5 & K5 & E5).
  assert (Es5 : zget (inode_table s5) ino = Some (set_i_dirt 0 (set_i_lock 1 i))) by (injection O5 as -> _; apply with_inode_get; by eexists).
  set (s6 := with_inode ino (set_i_lock 0 (set_i_dirt 0 (set_i_lock 1 i))) s5). pose proof (with_inode_same ino (set_i_lock 0 (set_i_dirt 0 (set_i_lock 1 i))) s5) as Hs6.
  assert (Hsame : keeps s3 s6) by (intros k x Hx; by apply (same_keeps s5 s6 Hs6), K5, (same_keeps s3 s4 (with_inode_same ino _ s3))).
  exists s6. split_and!.
  - unfold Inode.write_inode, Inode.write_inode_. rewrite (done_bind _ _ _ _ _ R1), (done_bind _ _ _ _ _ R2). cbn [i_dev i_dirt set_i_lock].
    rewrite decide_False by (rewrite Hd; intros [X|X]; done). rewrite (done_bind _ _ _ _ _ R3). cbv iota. rewrite (done_bind _ _ _ _ _ R4), (done_bind _ _ _ _ _ R2).
    cbn [i_dev set_i_lock]. rewrite (done_bind _ _ _ _ _ R5). cbv iota. rewrite (done_bind _ _ _ _ _ (outside_inode s2 s2 ino _ eq_refl Es2)).
    rewrite (set_bh_twice s2 bh b _ _ _ E2). rewrite (done_bind _ _ _ _ _ R6), (done_bind _ _ _ _ _ (set_inode_done _ _ _ _ Es3)).
    fold s4. rewrite (done_bind _ _ _ _ _ R7). by rewrite (unlock_inode_ok _ _ _ Es5).
  - by apply (same_ready fuel _ s5).
  - unfold s6. rewrite (with_inode_outside _ _ _ _ O5). unfold s4. rewrite with_inode_twice, (with_inode_outside _ _ _ _ O3), (with_inode_outside _ _ _ _ O).
    unfold s1. rewrite with_inode_twice. do 2 f_equal. destruct i. cbn in *. by subst.
  - intros k x Hk Hx. apply Hsame. apply (holds_other s2 s3 l C bh b (f b) n); try done; [apply S2|apply S2|by right|by apply K].
  - apply Hsame. left. by exists bh, (f b).
  - exists bh. eexists. split; [exact E5|]. by split_and!.
Qed.

(** C29: an inode that [write_inode] puts on the disk is what [read_inode] gets back.  The dirty
    inode's record goes into its block, 2 + the bitmaps' blocks + (number - 1) / 32, at place
    (number - 1) mod 32; the other records of the block and all other blocks stay as they
    are, the block's buffer is marked dirty, and the inode is clean and unlocked.  As long as the
    block holds that, in the cache or on the disk, [read_inode] of the same number into any
    slot loads every field of the disk copy and leaves the fields that exist only in memory. *)
Theorem disk_inode_roundtrip m s sb v ino i d :
  let n := home v (i_num i) in
  ready fuel (S m) s -> (8 < fuel)%nat -> zget (inode_table s) ino = Some i -> of_disk s sb v i -> holds s n d ->
  i_dirt i <> 0 -> DiskProps.disk_ok i ->
  exists s1 d1, Inode.write_inode fuel depth ino s = Done tt s1 /\ ready fuel m s1 /\
    outside s1 = outside (with_inode ino {| i with i_dirt := 0 |} s) /\
    (forall k x, k <> n -> holds s k x -> holds s1 k x) /\ holds s1 n d1 /\
    (forall num, 1 <= num -> (num - 1) mod 32 <> (i_num i - 1) mod 32 -> record_of num d1 = record_of num d) /\
    (exists bh b, buf s1 bh = Some b /\ has_id RD n b /\ b_dirt b = 1 /\ b_uptodate b <> 0 /\ b_data b = d1) /\
    forall m2 s2 ino2 j, ready fuel (S m2) s2 -> zget (inode_table s2) ino2 = Some j -> of_disk s2 sb v j -> i_num j = i_num i -> holds s2 n d1 ->
      exists s3, Inode.read_inode fuel depth ino2 s2 = Done tt s3 /\ ready fuel (S m2) s3 /\ keeps s2 s3 /\
        outside s3 = outside (with_inode ino2 {| j with i_mode := i_mode i; i_uid := i_uid i; i_size := i_size i; i_mtime := i_mtime i;
          i_gid := i_gid i; i_nlinks := i_nlinks i; i_zone := i_zone i |} s2).
Proof.
  intros n Hs Hfu E Hod Hh Hdirt Hok. pose proof Hod as [_ _ (_ & Hn & _) _]. pose proof (DiskProps.length_d_inode i Hok) as Hlen.
  assert (Hld : length d = 1024%nat) by (by eapply holds_length; [apply Hs|exact Hh]).
  pose proof (proj1 (DiskProps.inode_slot_cases i i)) as Hslot.
  destruct (write_inode_ok m s sb v ino i d Hs Hfu E Hod Hh Hdirt Hlen) as (s1 & R & Y & O & K & H1 & Hb).
  exists s1, (splice (Inode.inode_slot i) (d_inode_bytes i) d). split_and!; try done.
  - intros k x Hk. apply K. intros X. by apply Hk.
  - intros num Hnum Hne. unfold record_of. apply field_splice_ne; rewrite Hlen; [lia|]. unfold Inode.inode_slot, INODES_PER_BLOCK in *.
    rewrite u32_small in * by lia. pose proof (Z.mod_pos_bound (num - 1) 32). pose proof (Z.mod_pos_bound (i_num i - 1) 32). lia.
  - intros m2 s2 ino2 j Hs2 E2 Hod2 Hnum H2. unfold n in H2. rewrite <- Hnum in H2.
    destruct (read_inode_ok m2 s2 sb v ino2 j _ Hs2 Hfu E2 Hod2 H2) as (s3 & R3 & Y3 & O3 & K3). exists s3. split_and!; try done.
    assert (El : record_of (i_num j) (splice (Inode.inode_slot i) (d_inode_bytes i) d) = d_inode_bytes i).
    { rewrite Hnum, (record_slot i _ Hn). rewrite <- Hlen at 1. by rewrite field_splice by (rewrite Hlen; lia). }
    by rewrite O3, El, DiskProps.load_d_inode_bytes.
Qed.
End inode.

(** Inode 3 of a file system with one block of each bitmap is written from slot 0 and read
    into slot 1. *)
Definition sup1 : super_block_t := {| super0 with s_dev := RD; s_lock := 0; s_imap_blocks := 1; s_zmap_blocks := 1 |}.
Definition ino3 : m_inode := {| inode0 with i_mode := 0x81a4; i_size := 5000; i_nlinks := 1; i_dev := RD; i_num := 3; i_dirt := 1;
  i_zone := [20; 21; 22; 23; 24; 0; 0; 0; 0] |}.
Definition slot3 : m_inode := {| inode0 with i_dev := RD; i_num := 3 |}.
Definition kern3 : kern := {| booted with super_block := [sup1]; inode_table := [ino3; slot3] |}.

Lemma kern3_of_disk s j :
  super_block s = super_block kern3 -> (rd_start s, rd_length s) = (rd_start kern3, rd_length kern3) ->
  i_dev j = RD -> i_num j = 3 -> i_lock j = 0 -> of_disk s 0 sup1 j.
Proof.
  intros Hsup [= H1 H2] Hd Hn Hl. split.
  - split; [by rewrite Hsup|lia].
  - by cbn.
  - by rewrite Hn.
  - rewrite Hn. change (rd_has s 4). unfold rd_has. rewrite H1, H2. by apply (booted_rd 4).
Qed.

Lemma disk_inode_roundtrip_witness :
  exists s1 s2, Inode.write_inode 9 0 0 kern3 = Done tt s1 /\ Inode.read_inode 9 0 1 s1 = Done tt s2 /\
    zget (inode_table s2) 1 = Some {| ino3 with i_dirt := 0 |}.
Proof.
  destruct booted_steady as (_ & _ & _ & _ & H3).
  destruct (disk_inode_roundtrip 9 0 3 kern3 0 sup1 0 ino3 (on_disk kern3 4)) as (s1 & d1 & R1 & Y1 & O1 & _ & Hd1 & _ & _ & Hread).
  - apply (same_ready 9 4 booted); [by split_and!|exact booted_ready].
  - lia.
  - reflexivity.
  - by apply kern3_of_disk.
  - right. split; [|reflexivity]. intros i b E [Hd _]. destruct (H3 i b E) as (Hd' & _). by rewrite Hd' in Hd.
  - discriminate.
  - split; try reflexivity; try (cbn; lia). cbn [ino3 i_zone]. repeat (apply Forall_cons; split; [lia|]). apply Forall_nil_2.
  - assert (Et : inode_table s1 = [{| ino3 with i_dirt := 0 |}; slot3]) by (injection O1 as -> _; reflexivity).
    assert (Hsup : super_block s1 = super_block kern3) by (injection O1 as _ _ -> _; reflexivity).
    assert (Hrd : (rd_start s1, rd_length s1) = (rd_start kern3, rd_length kern3)) by (injection O1 as _ _ _ _ _ _ _ -> -> _; reflexivity).
    destruct (Hread 2%nat s1 1 slot3 Y1) as (s2 & R2 & _ & _ & O2);
      [by rewrite Et|apply (kern3_of_disk s1 slot3 Hsup Hrd); reflexivity|reflexivity|exact Hd1|].
    exists s1, s2. split; [exact R1|]. split; [exact R2|]. injection O2 as -> _. rewrite Et. reflexivity.
Defined.
End InodeDisk.
